(* ===== verification/_CoqProject ===== *)
-Q . S2P
Prelude.v
Mem.v
Mbuf.v
MbufSpec.v
MbufThms.v
MbufParse.v
Sys.v
Rtp.v
RtpSource.v
MbufData.v
MbufPatch.v
Crypto.v
Srtp.v
SrtpPacket.v
SrtpSpec.v
SrtpThms.v
SrtpProps.v
SrtcpThms.v
SrtpWitness.v
Rtmp.v
RtmpChunk.v
RtmpThms.v
RtmpRound.v
RtmpResume.v
Crc32.v
Stun.v
StunMsg.v
StunThms.v
StunDecode.v
StunCheck.v
StunRound.v
StunProps.v
LinkedList.v
LinkedListThms.v
LinkedListSort.v
LinkedListProps.v
Hash.v
HashThms.v
Dns.v
DnsRr.v
DnsDecode.v
DnsRrDecode.v
DnsName.v
DnsEncode.v
DnsCodec.v
DnsRound.v
DnsMsg.v
DnsReply.v
DnsProps.v
Base64.v
Regex.v
RegexThms.v
Print.v
PrintThms.v
PrintSinks.v
Pl.v
PlThms.v
BasicAuth.v
BasicAuthThms.v
Rtcp.v
RtcpDecode.v
RtcpRound.v
RtcpSess.v
RtpSock.v
RtcpSessThms.v
RtcpSessSpec.v
RtcpReport.v
RtpSockThms.v
RtcpProps.v
Websock.v
WebsockThms.v
WebsockStream.v
WebsockProps.v
Uri.v
UriThms.v
UriProps.v
