(* ===== verification/Prelude.v ===== *)
(** * libre: a verification library for its core

    libre (the sources under src/, here src/src/ and src/include/re/) is a C
    library of network protocols.  Its modules share a few building blocks
    (reference-counted objects, memory buffers, linked lists, hash tables,
    formatted printing and pattern matching) on which the protocol codecs and
    the media code are written.  This development models the building blocks,
    and on top of them RTP with its sources, RTCP packets, sessions and
    sockets, SRTP and SRTCP, the chunk layer of RTMP, the STUN message codec,
    the DNS codec and the replies a client receives, basic authentication,
    WebSocket connections and URIs.

    ** The parts and their files

    - [Prelude]: machine integers ([wrap], [u8] to [u64], [s32], [s64]), bytes
      and byte orders, error codes, the effect type [M], blocks of memory, and
      the class [Host] of what the platform decides (byte order, success of
      [malloc], content of fresh memory).
    - [Mem] (mem/mem.c): a heap of objects with reference counts, destructors
      and allocation statistics.
    - [Mbuf] (mbuf/mbuf.c, re_mbuf.h): buffers and all their operations.
      [MbufSpec] is the interface the codecs are verified against: the classes
      [Writes], [Reads] and [SafeRead], closed under sequencing.  [MbufParse]
      adds [Parses] for decoders of untrusted input, [MbufData] the view of a
      buffer as bytes with a position ([holds]) for code that edits packets in
      place, [MbufPatch] encoders that write a header after what it describes,
      [MbufThms] the properties of the buffer operations.
    - [LinkedList] (list/list.c, re_list.h): a heap of elements and list heads
      with their [prev]/[next] pointers; [LinkedListThms] relates such a heap
      to a map from lists to sequences ([repr]), [LinkedListSort] is about
      [list_sort], [LinkedListProps] has the properties.
    - [Hash] (hash/hash.c, func.c) and [HashThms]: hash tables, whose buckets
      are the lists above, and the hash functions.
    - [Sys] (sys/endian.c): byte order conversion.  [Crc32] (crc32/crc32.c).
      [Base64] (base64/b64.c).
    - [Print] (fmt/print.c): the formatter and its sinks (a sized string, a
      growing buffer, a fixed buffer); [PrintThms] describes formats as lists
      of directives, against the class [Sink] of what a handler promises;
      [PrintSinks] is about the sinks.  [Regex] (fmt/regex.c) and
      [RegexThms]: the pattern matcher.  [Pl] (fmt/pl.c, ch.c) and [PlThms]:
      pointer-length strings and numbers.
    - [BasicAuth] (httpauth/basic.c, mem/secure.c) and [BasicAuthThms]: basic
      authentication, which composes printing, base64 and matching.
    - [Rtp] (rtp/rtp.c): header and packet codec; [RtpSource] (rtp/source.c):
      validation, jitter and loss of a source.
    - [Rtcp] (rtp/pkt.c, rr.c, sdes.c, fb.c): RTCP packets; [RtcpDecode] and
      [RtcpRound] arbitrary input and round trips.  [RtcpSess] (rtp/sess.c,
      member.c, ntp.c): sessions, their members and the reports they build;
      [RtpSock] (rtp/rtp.c, rtcp.c): the sockets.  [RtcpSessThms] and
      [RtcpSessSpec] relate a session to a map of members, [RtcpReport] and
      [RtpSockThms] follow a report from the session that sends it to the
      handler that receives it; [RtcpProps] has the properties.
    - [Crypto] (aes/openssl/aes.c, hmac/openssl/hmac.c): the wrappers over
      OpenSSL, and an instance of its interface.
    - [Srtp] (srtp/replay.c, misc.c, stream.c): replay window, packet indices,
      initialisation vectors, streams.  [SrtpPacket] (srtp/srtp.c, srtcp.c):
      set-up, encryption and decryption of packets, composed from the buffers,
      the RTP codec and the cipher contexts.  [SrtpSpec] states the wire format
      as functions on byte strings, [SrtpThms], [SrtpProps] and [SrtcpThms]
      prove that the code implements it, [SrtpWitness] runs it.
    - [Rtmp] (rtmp/hdr.c): chunk headers; [RtmpChunk] (rtmp/chunk.c,
      dechunk.c): splitting messages into chunks and collecting them again;
      [RtmpThms], [RtmpRound] and [RtmpResume] the properties.
    - [Stun] (stun/hdr.c, addr.c, attr.c, stun.h) and [StunMsg] (stun/msg.c):
      the message codec; [StunThms] attributes on the wire, [StunDecode] and
      [StunCheck] arbitrary input, [StunRound] whole messages, [StunProps] the
      properties and their instances.
    - [Dns] (dns/hdr.c, dname.c, cstr.c) and [DnsRr] (dns/rr.c): names with
      compression, and resource records; [DnsReply] (dns/client.c): matching
      and reading a reply, and what becomes of the query.  [DnsDecode],
      [DnsRrDecode] and [DnsName] arbitrary input, [DnsEncode], [DnsCodec],
      [DnsRound] and [DnsMsg] round trips, [DnsProps] the properties and the
      loop over long texts.
    - [Websock] (websock/websock.c): frames, masking, the receive handler,
      sending and the life of a connection; [WebsockThms] single frames,
      [WebsockStream] the stream TCP delivers, [WebsockProps] the properties
      and the life of a connection.
    - [Uri] (uri/uri.c, uric.c): parsing, printing, parameters, headers and
      escaping, composed from matching and printing; [UriThms] the lemmas,
      [UriProps] the properties.

    ** How C is modelled

    An operation on an object is a state transformer [M S A = S -> option (A *
    S)]: the object is passed and returned, the result is what the function
    returns together with what it stores through its pointer arguments, and
    [None] is undefined behaviour (an access outside a block, signed overflow
    where it matters).  A left shift of a signed value into or past the sign
    bit, undefined in C, has the bits that GCC and Clang define.  A theorem
    that shows a result [Some _] therefore shows memory safety.  Integers are
    [Z] with the truncations and wrap-around of their C type written out.
    [err |= f()] is [|;], early returns are [check] and [need].  Definitions have
    the names of the C functions; a part of a long function has a name of its
    own and says which part it is.  Pointer arguments that the callers must not
    pass as NULL are plain values, so the guards against NULL have no
    counterpart; optional arguments are options.  C strings are the bytes before
    their terminator.  Objects that the code shares are explicit: the heap of
    [Mem], the heap of list elements, the cipher context a session keeps, the
    buffer a STUN message refers to.  Events that leave a component (packets
    sent, handlers called) are part of the result of the operation that causes
    them.  Sizes of structures passed to the allocator are those of an LP64
    host.

    ** What is assumed

    Code outside the sources is a parameter.  OpenSSL's EVP functions are the
    class [Evp]; [EvpLaws] states their documented behaviour through an
    abstract view of a context (key, direction, IV, data processed) and is
    satisfied by the model at the end of [Crypto].  Nothing about the strength
    of a cipher or a hash is assumed: where a theorem speaks of authentication
    it says that the tag is the function of the bytes.  UDP and TCP are
    parameters: what sending returns, and the datagrams and segments that
    arrive.  The handlers of applications, lists and objects, the random
    numbers and the clock are arguments of the definitions.  Theorems that
    promise success assume [no_oom], that no allocation fails; safety does not,
    except where a theorem says so.  Encoders are specified below 2 GiB
    ([WRITE_MAX]).

    ** What the theorems show

    - SRTP and SRTCP: decryption inverts encryption for every suite; what is
      accepted is the protection of what is delivered; an accepted packet is
      refused the second time; the 64-bit replay bitmap implements the sliding
      window; the roll-over counter follows the sender; initialisation vectors
      are those of the RFCs and unique.  Two theorems show weaknesses: forged
      packets advance the roll-over counter, and GCM sessions accept
      unauthenticated control packets.
    - Lists and hash tables: every operation of a list refines the operation
      on sequences, including ownership when an element is moved or unlinked;
      [list_sort] ends with a sorted permutation when the handler is total,
      and does not end otherwise; a hash table refines the log of its appends.
    - Printing and matching: formatting hands a sink exactly the text that the
      directives denote, and stops with an error at a missing or wrong
      argument; a sized string is never overrun.  The matcher is safe, ends,
      and computes what an expression of literals and classes denotes: the
      first place where every item matches, unless the subject ended in front
      of a literal at a place before it.
    - Basic authentication and base64: what is encoded is decoded; a response
      is accepted by the verification, which also accepts every prefix of the
      credentials.
    - RTCP: packets whose values fit their fields are decoded to themselves,
      except those with congestion control or application layer feedback
      ([wire_ok] in [RtcpRound]); receiving ends on every buffer and keeps a
      session a refinement of the map of its members; the counters of a session
      are exact in every reachable state; the report of one session is
      delivered to another with one block for each sender.
    - STUN: whole messages round trip and pass both checks; decoding arbitrary
      bytes is safe and ends, an accepted message is tiled by its attributes;
      the checks are safe, restore the packet and
      accept exactly the right HMAC and CRC.  The CRC table computes the shift
      register.
    - DNS: replies round trip through the client with compression; decoding
      ends whatever the pointers; a reply is accepted only for an outstanding
      query; texts of 256 characters and more are never encoded.
    - RTMP: a message split into chunks is handed over once and unchanged;
      receiving is safe on every input and keeps its invariant; a call that
      ran out of data can be repeated with more data, with the result of one
      call on all of it, except for one kind of chunk ([resumable] in
      [RtmpResume]).  Chunk headers round trip.
    - WebSocket: messages arrive once each, in order and unmasked, however TCP
      cuts the stream; the close frame is the last thing a connection sends;
      decoding is undefined exactly for the lengths whose check wraps around.
    - URIs: parsing inverts printing; unescaping inverts escaping exactly when
      characters are unsigned or user and password are ASCII; parameters and
      headers are visited in order.
    - Buffers, memory, RTP: the exact conditions under which an operation of a
      buffer is undefined, after any sequence of operations; exact behaviour of
      the operations, invariants over every sequence of operations, round
      trips, and the inputs on which [mem_realloc] and the jitter computation
      are undefined.

    ** Bounds and fuel

    Loops over a list or a count are structural.  The others take fuel, and
    running out of fuel is [None], so the theorems that show [Some _] show that
    the fuel is enough: the chunker's loop has the payload length, the decoder
    of STUN attributes one more than the unread bytes (each round consumes at
    least four), the padding loops four (three rounds are the most),
    [list_sort] one more than the square of the length (each retry removes an
    inversion), the decoder of names 512 (at most 256 pointers and 255 labels,
    and the last round), the base64 loops the length of the input, the digits
    of a number 64, the items of an SDES packet the unread bytes, the chunks of
    a transport feedback packet and the receive loop of RTCP one more (each
    takes two, respectively four bytes), the receive loop of a WebSocket
    connection one more than the unread bytes (a frame has two at least), the
    visits of the parameters and headers of a URI the length of the text (each
    round takes two characters at least).  The matcher is structural on the
    expression and the subject.
    Where a loop does not end no fuel is enough, and that is proved for every
    fuel ([list_sort_diverges], [stun_padding_loops], [dns_txt_never_ends]).

    ** What is not modelled

    Of the alternatives chosen at build time one is modelled: the CRC without
    zlib, printing in a release build, OpenSSL for the ciphers.  Threads,
    locks, the main loop and the TLS, UDP and TCP modules are input/output
    around system calls.  Of printing, the floating point, error text and
    socket address conversions, nested formats and the stream sink; of the
    modules, the functions that print their state.  Of the RTP sockets, opening
    them; the conversion of the clock to NTP time is floating point and a
    parameter.  Of WebSocket, the opening handshake.  Of STUN the transactions,
    of RTMP the connection and AMF, of DNS the discovery of name servers, the
    sending of queries and the lookup in the cache, of HTTP everything but
    basic authentication, of socket addresses parsing and comparison.
    The SIP, SDP, ICE, TURN and PCP modules and the audio and video code
    under rem/ are left out: transactions over sockets and timers, and signal
    processing in floating point.
    [mbuf_alloc_ref] (two buffers over one block) is not modelled: a buffer
    owns its block. *)

From Stdlib Require Export ZArith Lia.
From stdpp Require Export base option list numbers.

#[global] Open Scope Z_scope.

(** ** Machine integers *)

Definition wrap (w : Z) (z : Z) : Z := z mod 2 ^ w.

Abbreviation u8 := (wrap 8).
Abbreviation u16 := (wrap 16).
Abbreviation u32 := (wrap 32).
Abbreviation u64 := (wrap 64).

(** Two's complement reading of the low [w] bits. *)
Definition swrap (w : Z) (z : Z) : Z := (z + 2 ^ (w - 1)) mod 2 ^ w - 2 ^ (w - 1).

Abbreviation s32 := (swrap 32).
Abbreviation s64 := (swrap 64).

(** Truth value of a C integer, and a C [bool] as an integer. *)
Definition nz (z : Z) : bool := negb (z =? 0).
Definition b2z (b : bool) : Z := if b then 1 else 0.

Lemma wrap_range w z : 0 <= w -> 0 <= wrap w z < 2 ^ w.
Proof. intros. apply Z.mod_pos_bound. lia. Qed.

Lemma wrap_small w z : 0 <= z < 2 ^ w -> wrap w z = z.
Proof. apply Z.mod_small. Qed.

Lemma swrap_range w z : 0 < w -> - 2 ^ (w - 1) <= swrap w z < 2 ^ (w - 1).
Proof.
  intros Hw. unfold swrap.
  assert (2 ^ w = 2 * 2 ^ (w - 1)) as E
    by (rewrite <- Z.pow_succ_r by lia; f_equal; lia).
  pose proof (Z.mod_pos_bound (z + 2 ^ (w - 1)) (2 ^ w) ltac:(lia)). lia.
Qed.

Lemma swrap_small w z : 0 < w -> - 2 ^ (w - 1) <= z < 2 ^ (w - 1) -> swrap w z = z.
Proof.
  intros Hw Hz. unfold swrap.
  assert (2 ^ w = 2 * 2 ^ (w - 1)) as E
    by (rewrite <- Z.pow_succ_r by lia; f_equal; lia).
  rewrite Z.mod_small; lia.
Qed.

(** [dlia]: [lia] with quotients and remainders expanded. *)
Ltac dlia := Z.div_mod_to_equations; lia.

(** ** Bit operations as arithmetic *)

Lemma land_ones_mod a n : 0 <= n -> Z.land a (2 ^ n - 1) = a mod 2 ^ n.
Proof. intros. rewrite <- Z.land_ones by done. f_equal. rewrite Z.ones_equiv. lia. Qed.

Lemma testbit_small a n i : 0 <= a < 2 ^ n -> n <= i -> Z.testbit a i = false.
Proof.
  intros Ha Hi. destruct (decide (0 <= n)).
  - rewrite <- (Z.mod_small a (2 ^ n)) by lia. apply Z.mod_pow2_bits_high. lia.
  - rewrite Z.pow_neg_r in Ha by lia. lia.
Qed.

Lemma lor_add a b n : 0 <= n -> 0 <= b < 2 ^ n -> Z.lor (a * 2 ^ n) b = a * 2 ^ n + b.
Proof.
  intros Hn Hb. symmetry. apply Z.add_nocarry_lor.
  rewrite <- Z.shiftl_mul_pow2 by done. apply Z.bits_inj'. intros i Hi.
  rewrite Z.land_spec, Z.bits_0. destruct (decide (i < n)).
  - rewrite Z.shiftl_spec_low by done. done.
  - rewrite (testbit_small b n) by lia. apply andb_false_r.
Qed.

Lemma lor_add_r a b n : 0 <= n -> 0 <= b < 2 ^ n -> Z.lor b (a * 2 ^ n) = a * 2 ^ n + b.
Proof. intros. rewrite Z.lor_comm. by apply lor_add. Qed.

Lemma lor_shiftl a b n : 0 <= n -> 0 <= b < 2 ^ n -> Z.lor (Z.shiftl a n) b = a * 2 ^ n + b.
Proof. intros. rewrite Z.shiftl_mul_pow2 by done. by apply lor_add. Qed.

Lemma bits_range a n : 0 <= n -> 0 <= a -> (forall i, n <= i -> Z.testbit a i = false) -> a < 2 ^ n.
Proof.
  intros Hn Ha H. replace a with (a mod 2 ^ n); [apply Z.mod_pos_bound; lia|].
  apply Z.bits_inj'. intros i Hi. destruct (decide (i < n)).
  - by rewrite Z.mod_pow2_bits_low.
  - rewrite Z.mod_pow2_bits_high by lia. symmetry. apply H. lia.
Qed.

Lemma land_range a b n : 0 <= n -> 0 <= a < 2 ^ n -> 0 <= Z.land a b < 2 ^ n.
Proof.
  intros Hn Ha. assert (0 <= Z.land a b) by (apply Z.land_nonneg; lia).
  split; [done|]. apply bits_range; [done..|]. intros i Hi.
  by rewrite Z.land_spec, (testbit_small a n) by lia.
Qed.

Lemma lor_range a b n : 0 <= n -> 0 <= a < 2 ^ n -> 0 <= b < 2 ^ n -> 0 <= Z.lor a b < 2 ^ n.
Proof.
  intros Hn Ha Hb. assert (0 <= Z.lor a b) by (apply Z.lor_nonneg; lia).
  split; [done|]. apply bits_range; [done..|]. intros i Hi.
  rewrite Z.lor_spec, !(testbit_small _ n) by lia. done.
Qed.

Lemma lxor_range a b n : 0 <= n -> 0 <= a < 2 ^ n -> 0 <= b < 2 ^ n -> 0 <= Z.lxor a b < 2 ^ n.
Proof.
  intros Hn Ha Hb. assert (0 <= Z.lxor a b) by (apply Z.lxor_nonneg; lia).
  split; [done|]. apply bits_range; [done..|]. intros i Hi.
  rewrite Z.lxor_spec, !(testbit_small _ n) by lia. done.
Qed.

Lemma lor_0_iff a b : Z.lor a b = 0 <-> a = 0 /\ b = 0.
Proof. apply Z.lor_eq_0_iff. Qed.

Lemma lxor_twice a b : Z.lxor (Z.lxor a b) b = a.
Proof. by rewrite Z.lxor_assoc, Z.lxor_nilpotent, Z.lxor_0_r. Qed.

(** Masks and shifts by constants, as remainders and quotients. *)
Lemma land_1 a : Z.land a 1 = a mod 2. Proof. apply (land_ones_mod a 1). lia. Qed.
Lemma land_3 a : Z.land a 3 = a mod 4. Proof. apply (land_ones_mod a 2). lia. Qed.
Lemma land_7 a : Z.land a 7 = a mod 8. Proof. apply (land_ones_mod a 3). lia. Qed.
Lemma land_15 a : Z.land a 15 = a mod 16. Proof. apply (land_ones_mod a 4). lia. Qed.
Lemma land_31 a : Z.land a 31 = a mod 32. Proof. apply (land_ones_mod a 5). lia. Qed.
Lemma land_63 a : Z.land a 63 = a mod 64. Proof. apply (land_ones_mod a 6). lia. Qed.
Lemma land_127 a : Z.land a 127 = a mod 128. Proof. apply (land_ones_mod a 7). lia. Qed.
Lemma land_255 a : Z.land a 255 = a mod 256. Proof. apply (land_ones_mod a 8). lia. Qed.
Lemma land_65535 a : Z.land a 65535 = a mod 65536. Proof. apply (land_ones_mod a 16). lia. Qed.

Create Rewrite HintDb bits.
#[export] Hint Rewrite land_1 land_3 land_7 land_15 land_31 land_63 land_127 land_255 land_65535 : bits.
#[export] Hint Rewrite Z.shiftl_0_r Z.shiftr_0_r : bits.
#[export] Hint Rewrite Z.shiftr_div_pow2 Z.shiftl_mul_pow2 using lia : bits.

(** [bits]: arithmetic form of a bit-field expression. *)
Ltac bits := unfold wrap; autorewrite with bits.
(** Bit-field equations over bounded integers. *)
Ltac bits_lia := bits; Z.div_mod_to_equations; lia.

Lemma nz_b2z b : nz (b2z b) = b.
Proof. by destruct b. Qed.

(** A property of every byte, decided by evaluation. *)
Definition all_bytes (P : Z -> bool) : bool := forallb P (Z.of_nat <$> seq 0 256).

Lemma all_bytes_sound P : all_bytes P = true -> forall b, 0 <= b < 256 -> P b = true.
Proof.
  intros H b Hb. unfold all_bytes in H. rewrite forallb_forall in H. apply H.
  rewrite <- list_elem_of_In, list_elem_of_fmap. exists (Z.to_nat b).
  split; [lia|]. apply elem_of_seq. lia.
Qed.

(** ** Bytes *)

Definition byte_ok (b : Z) : Prop := 0 <= b < 256.
Abbreviation bytes_ok := (Forall byte_ok).

#[export] Instance byte_ok_dec b : Decision (byte_ok b).
Proof. unfold byte_ok. apply _. Defined.

Abbreviation zlength l := (Z.of_nat (length l)).

(** The bounds of each element of an explicit list of bytes. *)
Ltac bytes_inv H :=
  repeat (let Hb := fresh "Hb" in apply Forall_cons_iff in H as [Hb H]; unfold byte_ok in Hb).

(** Little-endian and big-endian representations of [n]-byte integers. *)
Fixpoint le_bytes (n : nat) (v : Z) : list Z :=
  match n with
  | O => []
  | S n => v mod 256 :: le_bytes n (v / 256)
  end.

Fixpoint le_val (bs : list Z) : Z :=
  match bs with
  | [] => 0
  | b :: bs => b + 256 * le_val bs
  end.

Definition be_bytes (n : nat) (v : Z) : list Z := reverse (le_bytes n v).
Definition be_val (bs : list Z) : Z := le_val (reverse bs).

Lemma length_le_bytes n v : length (le_bytes n v) = n.
Proof. revert v. induction n; intros; simpl; auto. Qed.

Lemma length_be_bytes n v : length (be_bytes n v) = n.
Proof. unfold be_bytes. by rewrite length_reverse, length_le_bytes. Qed.

Lemma le_bytes_ok n v : bytes_ok (le_bytes n v).
Proof. revert v. induction n; intros v; simpl; constructor; [unfold byte_ok; dlia|done]. Qed.

Lemma be_bytes_ok n v : bytes_ok (be_bytes n v).
Proof. apply Forall_reverse, le_bytes_ok. Qed.

Lemma pow256_S n : 256 ^ Z.of_nat (S n) = 256 * 256 ^ Z.of_nat n.
Proof. rewrite Nat2Z.inj_succ, Z.pow_succ_r; lia. Qed.

Lemma le_val_bytes n v : 0 <= v < 256 ^ Z.of_nat n -> le_val (le_bytes n v) = v.
Proof.
  revert v. induction n as [|n IH]; intros v Hv; [simpl in *; lia|].
  rewrite pow256_S in Hv. cbn [le_bytes le_val]. rewrite IH by dlia. dlia.
Qed.

Lemma be_val_bytes n v : 0 <= v < 256 ^ Z.of_nat n -> be_val (be_bytes n v) = v.
Proof. intros. unfold be_val, be_bytes. rewrite reverse_involutive. by apply le_val_bytes. Qed.

Lemma le_val_range bs : bytes_ok bs -> 0 <= le_val bs < 256 ^ zlength bs.
Proof.
  induction 1 as [|b bs Hb _ IH]; [simpl; lia|].
  cbn [le_val length]. rewrite pow256_S. unfold byte_ok in Hb. lia.
Qed.

Lemma be_val_range bs : bytes_ok bs -> 0 <= be_val bs < 256 ^ zlength bs.
Proof.
  intros. unfold be_val. rewrite <- (length_reverse bs). by apply le_val_range, Forall_reverse.
Qed.

Lemma le_bytes_val bs : bytes_ok bs -> le_bytes (length bs) (le_val bs) = bs.
Proof.
  induction 1 as [|b bs Hb _ IH]; [done|]. unfold byte_ok in Hb. cbn [length le_bytes le_val].
  replace ((b + 256 * le_val bs) mod 256) with b by dlia.
  by replace ((b + 256 * le_val bs) / 256) with (le_val bs) by dlia; rewrite IH.
Qed.

Lemma be_bytes_val bs : bytes_ok bs -> be_bytes (length bs) (be_val bs) = bs.
Proof.
  intros. unfold be_bytes, be_val. rewrite <- (length_reverse bs).
  rewrite le_bytes_val by (by apply Forall_reverse). apply reverse_involutive.
Qed.

Lemma le_bytes_wrap n v : le_bytes n (v mod 256 ^ Z.of_nat n) = le_bytes n v.
Proof.
  revert v. induction n as [|n IH]; intros v; [done|].
  cbn [le_bytes]. rewrite pow256_S, Z.rem_mul_r by lia.
  rewrite <- (IH (v / 256)). generalize ((v / 256) mod 256 ^ Z.of_nat n). intros q.
  f_equal; [|f_equal]; dlia.
Qed.

#[global] Arguments be_bytes : simpl never.
#[global] Arguments be_val : simpl never.

(** ** Error codes

    Every fallible operation of the library returns an [int]: 0 on success,
    otherwise an errno value (the Linux numbering is used).  The source
    accumulates errors with [err |= f()], which is [Z.lor] here. *)

Definition ENOENT : Z := 2.
Definition ENOMEM : Z := 12.
Definition EINVAL : Z := 22.
Definition ERANGE : Z := 34.
Definition ENODATA : Z := 61.
Definition EPROTO : Z := 71.
Definition EBADMSG : Z := 74.
Definition EOVERFLOW : Z := 75.
Definition ENOTSUP : Z := 95.
Definition EAFNOSUPPORT : Z := 97.
Definition ENOTCONN : Z := 107.
Definition ETIMEDOUT : Z := 110.

(** ** Effects

    A C function over a mutable object of type [S] is a state transformer
    whose result is [None] exactly when the code has undefined behaviour (a
    load or a store outside an object). *)

Definition M (S A : Type) : Type := S -> option (A * S).

Definition ret {S A} (a : A) : M S A := fun s => Some (a, s).
Definition bind {S A B} (m : M S A) (k : A -> M S B) : M S B :=
  fun s => match m s with Some (a, s') => k a s' | None => None end.
Definition get {S} : M S S := fun s => Some (s, s).
Definition put {S} (s : S) : M S unit := fun _ => Some (tt, s).
Definition modify {S} (f : S -> S) : M S unit := fun s => Some (tt, f s).
Definition ub {S A} : M S A := fun _ => None.
Definition lift {S A} (o : option A) : M S A :=
  fun s => match o with Some a => Some (a, s) | None => None end.

Declare Scope c_scope.
Delimit Scope c_scope with c.
#[global] Open Scope c_scope.

Notation "'let*' x ':=' m 'in' k" := (bind m (fun x => k))
  (at level 10, x name, m at level 200, k at level 200) : c_scope.
Notation "'let*' ' p ':=' m 'in' k" := (bind m (fun x => match x with p => k end))
  (at level 10, p pattern, m at level 200, k at level 200) : c_scope.
Notation "m1 ;; m2" := (bind m1 (fun _ => m2))
  (at level 100, right associativity) : c_scope.

(** [m1 |; m2]: [err |= m1; err |= m2]. *)
Definition or_err {S} (m1 m2 : M S Z) : M S Z :=
  let* e1 := m1 in let* e2 := m2 in ret (Z.lor e1 e2).
Notation "m1 '|;' m2" := (or_err m1 m2) (at level 90, right associativity) : c_scope.

(** [err = m; if (err) return err; k] *)
Definition check {S} (m k : M S Z) : M S Z :=
  let* e := m in if nz e then ret e else k.

Lemma bind_Some {S A B} (m : M S A) (k : A -> M S B) s a s' :
  m s = Some (a, s') -> bind m k s = k a s'.
Proof. unfold bind. by intros ->. Qed.

Lemma bind_inv {S A B} (m : M S A) (k : A -> M S B) s r :
  bind m k s = Some r -> exists a s', m s = Some (a, s') /\ k a s' = Some r.
Proof. unfold bind. destruct (m s) as [[a s']|]; [eauto|done]. Qed.

Lemma bind_assoc {S A B C} (m : M S A) (f : A -> M S B) (g : B -> M S C) s :
  bind (bind m f) g s = bind m (fun a => bind (f a) g) s.
Proof. unfold bind. by destruct (m s) as [[]|]. Qed.

(** Resolve the monad's leaves in hypotheses. *)
Ltac inv_ret := cbn in *; cbv [ret get put modify ub] in *; simplify_eq/=.

(** ** Memory blocks *)

Definition slice (m : list Z) (p n : Z) : list Z := take (Z.to_nat n) (drop (Z.to_nat p) m).
Definition splice (m : list Z) (p : Z) (bs : list Z) : list Z :=
  take (Z.to_nat p) m ++ bs ++ drop (Z.to_nat p + length bs) m.

(** An access of no bytes touches nothing. *)
Definition in_block (m : list Z) (p n : Z) : bool :=
  (n =? 0) || ((0 <=? p) && (0 <=? n) && (p + n <=? zlength m)).

(** [memcpy] out of and into a block; [None] when it leaves the block. *)
Definition mem_load (m : list Z) (p n : Z) : option (list Z) :=
  if in_block m p n then Some (slice m p n) else None.
Definition mem_store (m : list Z) (p : Z) (bs : list Z) : option (list Z) :=
  if in_block m p (zlength bs) then Some (splice m p bs) else None.

Lemma in_block_true m p n :
  0 <= p -> 0 <= n -> p + n <= zlength m -> in_block m p n = true.
Proof. unfold in_block. lia. Qed.

Lemma slice_0 m p : slice m p 0 = [].
Proof. done. Qed.

Lemma splice_nil m p : splice m p [] = m.
Proof. unfold splice. simpl. by rewrite Nat.add_0_r, take_drop. Qed.

Lemma length_slice m p n : 0 <= p -> 0 <= n -> p + n <= zlength m -> zlength (slice m p n) = n.
Proof. intros. unfold slice. rewrite length_take, length_drop. lia. Qed.

Lemma length_splice m p bs : 0 <= p -> p + zlength bs <= zlength m ->
  length (splice m p bs) = length m.
Proof.
  intros. unfold splice. rewrite !length_app, length_take, length_drop. lia.
Qed.

Lemma take_splice m p bs : 0 <= p -> p + zlength bs <= zlength m ->
  take (Z.to_nat p) (splice m p bs) = take (Z.to_nat p) m.
Proof.
  intros. unfold splice. rewrite take_app_le by (rewrite length_take; lia).
  rewrite take_take. f_equal. lia.
Qed.

Lemma drop_splice m p bs : 0 <= p -> p + zlength bs <= zlength m ->
  drop (Z.to_nat p) (splice m p bs) = bs ++ drop (Z.to_nat p + length bs) m.
Proof. intros. unfold splice. apply drop_app_length'. rewrite length_take. lia. Qed.

Lemma slice_splice m p bs : 0 <= p -> p + zlength bs <= zlength m ->
  slice (splice m p bs) p (zlength bs) = bs.
Proof.
  intros. unfold slice. rewrite drop_splice, Nat2Z.id by lia. by apply take_app_length'.
Qed.

Lemma in_block_false m p n : 0 < n -> zlength m < p + n -> in_block m p n = false.
Proof. unfold in_block. lia. Qed.

Lemma splice_splice m o a b :
  0 <= o -> o + zlength a + zlength b <= zlength m ->
  splice (splice m o a) (o + zlength a) b = splice m o (a ++ b).
Proof.
  intros. assert (length (take (Z.to_nat o) m ++ a) = Z.to_nat o + length a)%nat as El
    by (rewrite length_app, length_take; lia).
  unfold splice. replace (Z.to_nat (o + zlength a)) with (Z.to_nat o + length a)%nat by lia.
  rewrite (app_assoc (take _ m) a), take_app_length' by lia.
  rewrite drop_app_ge by lia. rewrite El, drop_drop, <- !app_assoc, length_app. do 4 f_equal. lia.
Qed.

Lemma splice_before m q (a b : list Z) :
  0 <= q -> q + zlength a + zlength b <= zlength m ->
  splice (splice m (q + zlength a) b) q a = splice m q (a ++ b).
Proof.
  intros. assert (length (take (Z.to_nat q + length a) m) = Z.to_nat q + length a)%nat as El
    by (rewrite length_take; lia).
  unfold splice. replace (Z.to_nat (q + zlength a)) with (Z.to_nat q + length a)%nat by lia.
  rewrite take_app_le, take_take by lia.
  replace (Z.to_nat q `min` (Z.to_nat q + length a))%nat with (Z.to_nat q) by lia.
  rewrite drop_app_length' by lia. rewrite length_app, <- app_assoc. do 4 f_equal. lia.
Qed.

Lemma slice_prefix m (t u : list Z) : slice (splice m 0 (t ++ u)) 0 (zlength t) = t.
Proof.
  unfold slice, splice. change (Z.to_nat 0) with 0%nat.
  by rewrite take_0, drop_0, app_nil_l, <- app_assoc, Nat2Z.id, take_app_length.
Qed.

Lemma mem_load_all (m : list Z) : mem_load m 0 (zlength m) = Some m.
Proof.
  unfold mem_load. rewrite in_block_true by lia. unfold slice. change (Z.to_nat 0) with 0%nat.
  rewrite drop_0, Nat2Z.id. by rewrite take_ge.
Qed.

Lemma slice_ok m p n : bytes_ok m -> bytes_ok (slice m p n).
Proof. intros. unfold slice. by apply Forall_take, Forall_drop. Qed.

Lemma splice_ok m p bs : bytes_ok m -> bytes_ok bs -> bytes_ok (splice m p bs).
Proof. intros. unfold splice. rewrite !Forall_app. auto using Forall_take, Forall_drop. Qed.

(** ** The host

    What the sources get from the platform: the byte order, whether
    [malloc]/[realloc] of a number of bytes succeeds, the indeterminate
    content of fresh memory, and the layout-dependent size of [struct mem]. *)

Class Host := {
  host_big_endian : bool;
  malloc_ok : Z -> bool;
  fresh_byte : Z -> Z;
  mem_header_size : Z;
}.

(** No allocation fails: the assumption of the liveness halves of theorems. *)
Definition no_oom `{Host} : Prop := forall n, malloc_ok n = true.

(** A little-endian host on which every allocation succeeds. *)
Definition lp64_host : Host :=
  {| host_big_endian := false; malloc_ok := fun _ => true; fresh_byte := fun _ => 165;
     mem_header_size := 16 |}.

Section host.
Context `{Host}.

(** Object representation of an [n]-byte unsigned integer. *)
Definition host_bytes (n : nat) (v : Z) : list Z :=
  if host_big_endian then be_bytes n v else le_bytes n v.
Definition host_val (bs : list Z) : Z :=
  if host_big_endian then be_val bs else le_val bs.

(** [htons]/[htonl] and [ntohs]/[ntohl] on [n] bytes. *)
Definition hton (n : nat) (v : Z) : Z :=
  if host_big_endian then v else be_val (le_bytes n v).
Definition ntoh (n : nat) (v : Z) : Z :=
  if host_big_endian then v else be_val (le_bytes n v).

Definition htons (v : Z) : Z := hton 2 v.
Definition htonl (v : Z) : Z := hton 4 v.
Definition ntohs (v : Z) : Z := ntoh 2 v.
Definition ntohl (v : Z) : Z := ntoh 4 v.

Lemma length_host_bytes n v : length (host_bytes n v) = n.
Proof. unfold host_bytes. case_match; auto using length_be_bytes, length_le_bytes. Qed.

Lemma host_bytes_ok n v : bytes_ok (host_bytes n v).
Proof. unfold host_bytes. case_match; auto using be_bytes_ok, le_bytes_ok. Qed.

Lemma host_val_bytes n v : 0 <= v < 256 ^ Z.of_nat n -> host_val (host_bytes n v) = v.
Proof. unfold host_val, host_bytes. case_match; auto using be_val_bytes, le_val_bytes. Qed.

Lemma host_val_range bs : bytes_ok bs -> 0 <= host_val bs < 256 ^ zlength bs.
Proof. unfold host_val. case_match; auto using be_val_range, le_val_range. Qed.

(** Writing [hton v] in host order writes [v] in network order. *)
Lemma host_bytes_hton n v : host_bytes n (hton n v) = be_bytes n v.
Proof.
  unfold host_bytes, hton. case_match; [done|].
  unfold be_val, be_bytes. rewrite <- (length_le_bytes n v) at 1.
  rewrite <- (length_reverse (le_bytes n v)). apply le_bytes_val, Forall_reverse, le_bytes_ok.
Qed.

Lemma ntoh_host_val n bs : bytes_ok bs -> length bs = n -> ntoh n (host_val bs) = be_val bs.
Proof.
  intros Hbs <-. unfold ntoh, host_val. case_match; [done|]. by rewrite le_bytes_val.
Qed.

Definition fresh_bytes (from n : Z) : list Z :=
  (fun i => u8 (fresh_byte (from + Z.of_nat i))) <$> seq 0 (Z.to_nat n).

Lemma length_fresh_bytes from n : 0 <= n -> zlength (fresh_bytes from n) = n.
Proof. intros. unfold fresh_bytes. rewrite length_fmap, length_seq. lia. Qed.

Lemma fresh_bytes_ok from n : bytes_ok (fresh_bytes from n).
Proof.
  apply Forall_fmap, Forall_true. intros i. simpl. apply (wrap_range 8). lia.
Qed.

End host.
