(* ===== verification/Mem.v ===== *)
(** * Reference-counted memory objects (src/mem/mem.c)

    The heap is a finite map from addresses to [struct mem] headers with the
    bytes of the object, together with the statistics of the default
    ([MEM_DEBUG]) build.  A destructor is a function of the client; it is
    named by a number and interpreted by the section variable [run_dh]. *)

From stdpp Require Export gmap.
From S2P Require Export Prelude.

Definition loc := positive.

Record mem := Mem {
  m_nrefs : Z;
  m_size : Z;
  m_dh : option nat;
  m_data : list Z;
}.

Record memstat := Memstat {
  bytes_cur : Z;
  bytes_peak : Z;
  blocks_cur : Z;
  blocks_peak : Z;
}.

Record heap := Heap {
  h_blocks : gmap loc mem;
  h_stat : memstat;
  h_threshold : Z;
}.

(** [sizeof(size_t) > sizeof(uint32_t)] on the 64-bit hosts modelled here. *)
Definition MEM_SIZE_MAX : Z := 2 ^ 32 - 1.

Definition STAT_ALLOC (st : memstat) (size : Z) : memstat :=
  let cur := u64 (bytes_cur st + size) in
  let blk := u64 (blocks_cur st + 1) in
  Memstat cur (Z.max cur (bytes_peak st)) blk (Z.max blk (blocks_peak st)).

Definition STAT_REALLOC (st : memstat) (size old : Z) : memstat :=
  let cur := u64 (bytes_cur st + u64 (size - old)) in
  Memstat cur (Z.max cur (bytes_peak st)) (blocks_cur st) (blocks_peak st).

Definition STAT_DEREF (st : memstat) (size : Z) : memstat :=
  Memstat (u64 (bytes_cur st - size)) (bytes_peak st) (u64 (blocks_cur st - 1)) (blocks_peak st).

Section mem.
Context `{Host}.
Variable run_dh : nat -> loc -> M heap unit.

Definition over_threshold (h : heap) : bool :=
  negb (h_threshold h =? -1) && (u64 (h_threshold h) <=? blocks_cur (h_stat h)).

(** [mem_alloc]: [None] is the C null pointer. *)
Definition mem_alloc (size : Z) (dh : option nat) : M heap (option loc) := fun h =>
  if MEM_SIZE_MAX <? size then Some (None, h)
  else if over_threshold h then Some (None, h)
  else if negb (malloc_ok (mem_header_size + size)) then Some (None, h)
  else
    let p := fresh (dom (h_blocks h)) in
    let m := Mem 1 (u32 size) dh (fresh_bytes 0 size) in
    Some (Some p, Heap (<[p := m]> (h_blocks h)) (STAT_ALLOC (h_stat h) size) (h_threshold h)).

Definition set_data (p : loc) (bs : list Z) : M heap unit := fun h =>
  match h_blocks h !! p with
  | Some m => Some (tt, Heap (<[p := Mem (m_nrefs m) (m_size m) (m_dh m) bs]> (h_blocks h))
                             (h_stat h) (h_threshold h))
  | None => None
  end.

Definition set_nrefs (p : loc) (n : Z) : M heap unit := fun h =>
  match h_blocks h !! p with
  | Some m => Some (tt, Heap (<[p := Mem n (m_size m) (m_dh m) (m_data m)]> (h_blocks h))
                             (h_stat h) (h_threshold h))
  | None => None
  end.

(** Dereference of a pointer to a live object; dangling pointers are
    undefined behaviour. *)
Definition get_mem (p : loc) : M heap mem := fun h =>
  match h_blocks h !! p with Some m => Some (m, h) | None => None end.

Definition mem_zalloc (size : Z) (dh : option nat) : M heap (option loc) :=
  let* op := mem_alloc size dh in
  match op with
  | None => ret None
  | Some p => set_data p (replicate (Z.to_nat size) 0) ;; ret (Some p)
  end.

Definition mem_ref (data : option loc) : M heap (option loc) :=
  match data with
  | None => ret None
  | Some p =>
      let* m := get_mem p in
      set_nrefs p (u32 (m_nrefs m + 1)) ;;
      ret data
  end.

Definition free_block (p : loc) : M heap unit := fun h =>
  match h_blocks h !! p with
  | Some m => Some (tt, Heap (delete p (h_blocks h)) (STAT_DEREF (h_stat h) (m_size m))
                             (h_threshold h))
  | None => None
  end.

Definition mem_deref (data : option loc) : M heap unit :=
  match data with
  | None => ret tt
  | Some p =>
      let* m := get_mem p in
      set_nrefs p (u32 (m_nrefs m - 1)) ;;
      if 1 <? m_nrefs m then ret tt
      else
        (match m_dh m with Some dh => run_dh dh p | None => ret tt end) ;;
        let* m' := get_mem p in
        if 0 <? m_nrefs m' then ret tt
        else free_block p
  end.

Definition mem_nrefs (data : option loc) : M heap Z :=
  match data with
  | None => ret 0
  | Some p => let* m := get_mem p in ret (m_nrefs m)
  end.

Definition mem_destructor (data : option loc) (dh : option nat) : M heap unit :=
  match data with
  | None => ret tt
  | Some p => fun h =>
      match h_blocks h !! p with
      | Some m => Some (tt, Heap (<[p := Mem (m_nrefs m) (m_size m) dh (m_data m)]> (h_blocks h))
                                 (h_stat h) (h_threshold h))
      | None => None
      end
  end.

(** Content of a block moved by [realloc]: the common prefix is kept. *)
Definition realloc_bytes (bs : list Z) (size : Z) : list Z :=
  take (Z.to_nat size) bs ++ fresh_bytes (zlength bs) (size - zlength bs).

(** [realloc] of an unshared object.  The address is kept: the sources
    never use the old pointer again. *)
Definition realloc_unshared (p : loc) (m : mem) (size : Z) : M heap (option loc) := fun h =>
  if negb (h_threshold h =? -1) && (m_size m <? size) && over_threshold h then Some (None, h)
  else if negb (malloc_ok (mem_header_size + size)) then Some (None, h)
  else
    let m2 := Mem (m_nrefs m) (u32 size) (m_dh m) (realloc_bytes (m_data m) size) in
    Some (Some p, Heap (<[p := m2]> (h_blocks h)) (STAT_REALLOC (h_stat h) size (m_size m))
                       (h_threshold h)).

Definition mem_realloc (data : option loc) (size : Z) : M heap (option loc) :=
  match data with
  | None => ret None
  | Some p =>
      if MEM_SIZE_MAX <? size then ret None
      else
        let* m := get_mem p in
        if 1 <? m_nrefs m then
          let* op := mem_alloc size (m_dh m) in
          match op with
          | None => ret None
          | Some q =>
              let* mq := get_mem q in
              let* src := lift (mem_load (m_data m) 0 (m_size m)) in
              let* bs := lift (mem_store (m_data mq) 0 src) in
              set_data q bs ;;
              mem_deref (Some p) ;;
              ret (Some q)
          end
        else realloc_unshared p m size
  end.

Definition mem_reallocarray (ptr : option loc) (nmemb membsize : Z) (dh : option nat)
    : M heap (option loc) :=
  if nz membsize && (MEM_SIZE_MAX / membsize <? nmemb) then ret None
  else
    let tsize := u64 (nmemb * membsize) in
    match ptr with
    | Some _ => mem_realloc ptr tsize
    | None => mem_alloc tsize dh
    end.

End mem.

(** ** Invariant *)

Definition total_size (b : gmap loc mem) : Z := map_fold (fun _ m acc => m_size m + acc) 0 b.

Record block_ok (m : mem) : Prop := {
  block_nrefs : 0 <= m_nrefs m < 2 ^ 32;
  block_size : m_size m = zlength (m_data m);
  block_max : m_size m <= MEM_SIZE_MAX;
  block_bytes : bytes_ok (m_data m);
}.

(** The statistics count exactly the live blocks and their bytes. *)
Record heap_ok (h : heap) : Prop := {
  heap_blocks : forall p m, h_blocks h !! p = Some m -> block_ok m;
  heap_count : blocks_cur (h_stat h) = u64 (Z.of_nat (size (h_blocks h)));
  heap_bytes : bytes_cur (h_stat h) = u64 (total_size (h_blocks h));
}.

Definition empty_heap : heap := Heap ∅ (Memstat 0 0 0 0) (-1).

Lemma empty_heap_ok : heap_ok empty_heap.
Proof. split; [|done..]. simpl. intros p m. by rewrite lookup_empty. Qed.

Lemma total_size_insert b p m : b !! p = None -> total_size (<[p:=m]> b) = m_size m + total_size b.
Proof.
  intros Hp. unfold total_size. rewrite map_fold_insert_L; [done| |done].
  intros. lia.
Qed.

Lemma total_size_delete b p m : b !! p = Some m -> total_size b = m_size m + total_size (delete p b).
Proof.
  intros Hp. rewrite <- (insert_delete_id b p m) at 1 by done.
  apply total_size_insert, lookup_delete_eq.
Qed.

Lemma total_size_update b p m m' : b !! p = Some m ->
  total_size (<[p:=m']> b) = total_size b + (m_size m' - m_size m).
Proof.
  intros Hp. rewrite (total_size_delete _ p m') by apply lookup_insert_eq.
  rewrite delete_insert_eq, (total_size_delete b p m) by done. lia.
Qed.

Lemma size_update (b : gmap loc mem) p m m' : b !! p = Some m -> size (<[p:=m']> b) = size b.
Proof. intros Hp. by rewrite map_size_insert, Hp. Qed.

Lemma u64_eq a b : u64 a = u64 b <-> exists k, a = b + k * 2 ^ 64.
Proof.
  unfold wrap. split.
  - intros E. exists (a / 2 ^ 64 - b / 2 ^ 64). dlia.
  - intros [k ->]. apply Z.mod_add. lia.
Qed.

Lemma u64_add_l a b : u64 (u64 a + b) = u64 (a + b).
Proof. apply Z.add_mod_idemp_l. lia. Qed.
Lemma u64_add_r a b : u64 (a + u64 b) = u64 (a + b).
Proof. apply Z.add_mod_idemp_r. lia. Qed.
Lemma u64_sub_l a b : u64 (u64 a - b) = u64 (a - b).
Proof. apply Zminus_mod_idemp_l. Qed.

(** Replacing a live block by a well-formed one of the same size. *)
Lemma heap_ok_update h p m m' : heap_ok h -> h_blocks h !! p = Some m ->
  block_ok m' -> m_size m' = m_size m ->
  heap_ok (Heap (<[p:=m']> (h_blocks h)) (h_stat h) (h_threshold h)).
Proof.
  intros [Hb Hc Hy] Hp Hm' Es. split; simpl.
  - intros q mq. rewrite lookup_insert. case_decide; intros; simplify_eq; eauto.
  - by rewrite (size_update _ p m).
  - rewrite (total_size_update _ p m) by done. rewrite Hy. f_equal. lia.
Qed.

Section mem_ok.
Context `{Host}.
Variable run_dh : nat -> loc -> M heap unit.

Lemma get_mem_Some p m h : h_blocks h !! p = Some m -> get_mem p h = Some (m, h).
Proof. unfold get_mem. by intros ->. Qed.

Lemma get_mem_inv p m h h' : get_mem p h = Some (m, h') -> h' = h /\ h_blocks h !! p = Some m.
Proof. unfold get_mem. destruct (h_blocks h !! p); naive_solver. Qed.

Lemma mem_alloc_spec size dh h r h' : 0 <= size -> heap_ok h -> mem_alloc size dh h = Some (r, h') ->
  heap_ok h' /\
  match r with
  | None => h' = h
  | Some p => h_blocks h !! p = None /\ size <= MEM_SIZE_MAX /\
              h_blocks h' = <[p := Mem 1 size dh (fresh_bytes 0 size)]> (h_blocks h)
  end.
Proof.
  intros Hs Hok E. unfold mem_alloc in E. repeat case_match; simplify_eq; try done.
  assert (size <= MEM_SIZE_MAX) as Hmax by lia.
  assert (h_blocks h !! fresh (dom (h_blocks h)) = None) as Hfr
    by apply not_elem_of_dom, is_fresh.
  unfold MEM_SIZE_MAX in Hmax. rewrite (wrap_small 32 size) by lia.
  split; [|done]. destruct Hok as [Hb Hc Hy]. split; simpl.
  - intros q mq. rewrite lookup_insert. case_decide; intros; simplify_eq; [|eauto].
    split; simpl; rewrite ?length_fresh_bytes by done; unfold MEM_SIZE_MAX; try lia.
    apply fresh_bytes_ok.
  - rewrite map_size_insert_None by done. rewrite Hc, u64_add_l. f_equal. lia.
  - rewrite total_size_insert by done. rewrite Hy, u64_add_l. f_equal. simpl. lia.
Qed.

Lemma set_nrefs_spec p n h m : heap_ok h -> h_blocks h !! p = Some m -> 0 <= n < 2 ^ 32 ->
  exists h', set_nrefs p n h = Some (tt, h') /\ heap_ok h' /\
    h' = Heap (<[p := Mem n (m_size m) (m_dh m) (m_data m)]> (h_blocks h)) (h_stat h) (h_threshold h).
Proof.
  intros Hok Hp Hn. unfold set_nrefs. rewrite Hp. eexists. split_and!; [done| |done].
  destruct (heap_blocks _ Hok _ _ Hp). by eapply heap_ok_update.
Qed.

Lemma free_block_ok p h h' u : heap_ok h -> free_block p h = Some (u, h') -> heap_ok h'.
Proof.
  intros [Hb Hc Hy] E. unfold free_block in E. destruct (h_blocks h !! p) as [m|] eqn:Hp; [|done].
  simplify_eq. split; simpl.
  - intros q mq [_ Hq]%lookup_delete_Some. eauto.
  - rewrite map_size_delete, Hp. rewrite Hc, u64_sub_l.
    assert (size (h_blocks h) <> O) by (intros E0%map_size_empty_iff; by rewrite E0, lookup_empty in Hp).
    f_equal. simpl. lia.
  - rewrite Hy, u64_sub_l, (total_size_delete _ p m) by done. f_equal. lia.
Qed.

Lemma mem_ref_ok d h r h' : heap_ok h -> mem_ref d h = Some (r, h') -> heap_ok h'.
Proof.
  intros Hok E. destruct d as [p|]; [|by inv_ret]. simpl in E.
  apply bind_inv in E as (m & h1 & [-> Hp]%get_mem_inv & E).
  destruct (set_nrefs_spec p (u32 (m_nrefs m + 1)) h m) as (h2 & E2 & Hok2 & _);
    [done..|apply wrap_range; lia|].
  rewrite (bind_Some _ _ _ _ _ E2) in E. by inv_ret.
Qed.

Hypothesis run_dh_ok : forall n p h u h', heap_ok h -> run_dh n p h = Some (u, h') -> heap_ok h'.

Lemma mem_deref_ok d h r h' : heap_ok h -> mem_deref run_dh d h = Some (r, h') -> heap_ok h'.
Proof.
  intros Hok E. destruct d as [p|]; [|by inv_ret]. simpl in E.
  apply bind_inv in E as (m & h1 & [-> Hp]%get_mem_inv & E).
  destruct (set_nrefs_spec p (u32 (m_nrefs m - 1)) h m) as (h2 & E2 & Hok2 & _);
    [done..|apply wrap_range; lia|].
  rewrite (bind_Some _ _ _ _ _ E2) in E. case_match; [by inv_ret|].
  apply bind_inv in E as (? & h3 & E3 & E).
  assert (heap_ok h3) as Hok3 by (destruct (m_dh m); [eauto|by inv_ret]).
  apply bind_inv in E as (m4 & h4 & [-> Hp4]%get_mem_inv & E). case_match; [by inv_ret|]. by eapply free_block_ok.
Qed.

Lemma realloc_bytes_length bs n : 0 <= n -> zlength (realloc_bytes bs n) = n.
Proof.
  intros. unfold realloc_bytes. rewrite length_app, length_take.
  destruct (decide (n <= zlength bs)).
  - unfold fresh_bytes. replace (Z.to_nat (n - zlength bs)) with O by lia. simpl. lia.
  - pose proof (length_fresh_bytes (zlength bs) (n - zlength bs)). lia.
Qed.

Lemma realloc_bytes_ok bs n : bytes_ok bs -> bytes_ok (realloc_bytes bs n).
Proof. intros. apply Forall_app. auto using Forall_take, fresh_bytes_ok. Qed.

Lemma realloc_unshared_ok p m n h r h' : 0 <= n <= MEM_SIZE_MAX -> heap_ok h ->
  h_blocks h !! p = Some m -> realloc_unshared p m n h = Some (r, h') -> heap_ok h'.
Proof.
  intros Hn Hok Hp E. unfold realloc_unshared in E. repeat case_match; simplify_eq; try done.
  destruct (heap_blocks _ Hok _ _ Hp) as [Hr Hs Hm Hbs]. destruct Hok as [Hb Hc Hy].
  unfold MEM_SIZE_MAX in *. rewrite (wrap_small 32 n) by lia. split; simpl.
  - intros q mq. rewrite lookup_insert. case_decide; intros; simplify_eq; [|eauto].
    split; simpl; rewrite ?realloc_bytes_length by lia; unfold MEM_SIZE_MAX; try lia.
    by apply realloc_bytes_ok.
  - by rewrite (size_update _ p m).
  - rewrite (total_size_update _ p m) by done. rewrite Hy. simpl.
    by rewrite u64_add_l, u64_add_r.
Qed.

Lemma set_data_ok p bs h m u h' : heap_ok h -> h_blocks h !! p = Some m ->
  length bs = length (m_data m) -> bytes_ok bs -> set_data p bs h = Some (u, h') ->
  heap_ok h' /\ h_blocks h' = <[p := Mem (m_nrefs m) (m_size m) (m_dh m) bs]> (h_blocks h).
Proof.
  intros Hok Hp Hl Hbs E. unfold set_data in E. rewrite Hp in E. simplify_eq. split; [|done].
  destruct (heap_blocks _ Hok _ _ Hp). eapply heap_ok_update; eauto. split; simpl; lia || done.
Qed.

Lemma mem_realloc_ok d n h r h' : 0 <= n -> heap_ok h ->
  mem_realloc run_dh d n h = Some (r, h') -> heap_ok h'.
Proof.
  intros Hn Hok E. destruct d as [p|]; [|by inv_ret]. simpl in E.
  destruct (Z.ltb_spec MEM_SIZE_MAX n); [by inv_ret|].
  apply bind_inv in E as (m & h1 & [-> Hp]%get_mem_inv & E).
  case_match; [|by eapply (realloc_unshared_ok p m n)].
  apply bind_inv in E as ([q|] & h2 & E2 & E); [|].
  2: { inv_ret. by apply mem_alloc_spec in E2 as [? _]. }
  apply mem_alloc_spec in E2 as (Hok2 & _ & _ & Hb2); [|done..].
  apply bind_inv in E as (mq & h3 & [-> E3]%get_mem_inv & E).
  rewrite Hb2, lookup_insert_eq in E3. simplify_eq. cbn [m_data] in E.
  apply bind_inv in E as (src & h4 & E4 & E). unfold lift, mem_load in E4. repeat case_match; simplify_eq.
  apply bind_inv in E as (bs & h5 & E5 & E). unfold lift, mem_store in E5. repeat case_match; simplify_eq.
  apply bind_inv in E as (u & h6 & E6 & E).
  assert (heap_ok h6) as Hok6.
  { destruct (heap_blocks _ Hok _ _ Hp).
    eapply set_data_ok in E6 as [? _]; [done|done|by rewrite Hb2, lookup_insert_eq| |].
    - simpl. unfold in_block in *. rewrite length_slice in * by lia.
      pose proof (length_fresh_bytes 0 n Hn).
      apply length_splice; rewrite ?length_slice by lia; lia.
    - apply splice_ok; [apply fresh_bytes_ok|by apply slice_ok]. }
  apply bind_inv in E as (u' & h7 & E7 & E). inv_ret. by eapply (mem_deref_ok (Some p)).
Qed.

End mem_ok.

(** ** Client operations as a transition system *)

Inductive mem_op :=
  | OpAlloc (size : Z) (dh : option nat)
  | OpZalloc (size : Z) (dh : option nat)
  | OpRef (data : option loc)
  | OpDeref (data : option loc)
  | OpRealloc (data : option loc) (size : Z)
  | OpReallocarray (data : option loc) (nmemb membsize : Z) (dh : option nat)
  | OpDestructor (data : option loc) (dh : option nat).

Section mem_theorems.
Context `{Host}.
Variable run_dh : nat -> loc -> M heap unit.

Definition run_op (op : mem_op) : M heap unit :=
  match op with
  | OpAlloc n dh => mem_alloc n dh ;; ret tt
  | OpZalloc n dh => mem_zalloc n dh ;; ret tt
  | OpRef d => mem_ref d ;; ret tt
  | OpDeref d => mem_deref run_dh d
  | OpRealloc d n => mem_realloc run_dh d n ;; ret tt
  | OpReallocarray d n k dh => mem_reallocarray run_dh d n k dh ;; ret tt
  | OpDestructor d dh => mem_destructor d dh
  end.

(** Arguments of type [size_t] are non-negative. *)
Definition op_args (op : mem_op) : Prop :=
  match op with
  | OpAlloc n _ | OpZalloc n _ | OpRealloc _ n => 0 <= n
  | OpReallocarray _ n k _ => 0 <= n /\ 0 <= k
  | _ => True
  end.

Inductive mem_reach : heap -> Prop :=
  | reach_init : mem_reach empty_heap
  | reach_step h op h' :
      mem_reach h -> op_args op -> run_op op h = Some (tt, h') -> mem_reach h'.

Lemma mem_alloc_ok n dh h r h' : 0 <= n -> heap_ok h -> mem_alloc n dh h = Some (r, h') -> heap_ok h'.
Proof. intros ? ? E. by apply mem_alloc_spec in E as [? _]. Qed.

Lemma mem_zalloc_ok n dh h r h' : 0 <= n -> heap_ok h -> mem_zalloc n dh h = Some (r, h') -> heap_ok h'.
Proof.
  intros Hn Hok E. apply bind_inv in E as ([p|] & h1 & E1 & E).
  - apply mem_alloc_spec in E1 as (Hok1 & _ & ? & Hb); [|done..].
    apply bind_inv in E as (u & h2 & E2 & E). inv_ret.
    eapply set_data_ok in E2 as [? _]; [done|done|by rewrite Hb, lookup_insert_eq| |].
    + simpl. rewrite length_replicate. pose proof (length_fresh_bytes 0 n Hn). lia.
    + apply Forall_replicate. by unfold byte_ok.
  - inv_ret. by eapply mem_alloc_ok.
Qed.

Lemma mem_destructor_ok d dh h u h' : heap_ok h -> mem_destructor d dh h = Some (u, h') -> heap_ok h'.
Proof.
  intros Hok E. destruct d as [p|]; [|by inv_ret]. simpl in E. case_match; simplify_eq.
  destruct (heap_blocks _ Hok p m) as []; [done|]. by eapply heap_ok_update.
Qed.

(** [m ;; ret tt]: the state after [m]. *)
Ltac unbind E := let r := fresh "r" in let h1 := fresh "h1" in apply bind_inv in E as (r & h1 & E & [= _ <-]).

Lemma run_op_ok op h u h' :
  (forall n p h u h', heap_ok h -> run_dh n p h = Some (u, h') -> heap_ok h') ->
  op_args op -> heap_ok h -> run_op op h = Some (u, h') -> heap_ok h'.
Proof.
  intros Hdh Ha Hok E. destruct op; cbn [op_args] in Ha; cbn [run_op] in E;
    [unbind E|unbind E|unbind E| |unbind E|unbind E|].
  - by eapply mem_alloc_ok.
  - by eapply mem_zalloc_ok.
  - by eapply mem_ref_ok.
  - by eapply mem_deref_ok.
  - by eapply mem_realloc_ok.
  - unfold mem_reallocarray in E. case_match; [by inv_ret|].
    assert (0 <= u64 (nmemb * membsize)) by (apply wrap_range; lia).
    case_match; eauto using mem_realloc_ok, mem_alloc_ok.
  - by eapply mem_destructor_ok.
Qed.

(** C39: whatever sequence of allocations, references, dereferences,
    reallocations and destructor changes a program performs from the empty
    heap, every live object has a consistent header and the statistics equal
    the number of live objects and the sum of their sizes (modulo the width
    of [size_t]), provided the destructors it runs keep this invariant. *)
Theorem mem_reach_heap_ok
  (Hdh : forall n p h u h', heap_ok h -> run_dh n p h = Some (u, h') -> heap_ok h') h :
  mem_reach h -> heap_ok h.
Proof.
  induction 1; [apply empty_heap_ok|by eapply run_op_ok].
Qed.

Lemma heap_eta h : Heap (h_blocks h) (h_stat h) (h_threshold h) = h.
Proof. by destruct h. Qed.

Lemma set_nrefs_restore h p m n : h_blocks h !! p = Some m ->
  (set_nrefs p n ;; set_nrefs p (m_nrefs m)) h = Some (tt, h).
Proof.
  intros Hp. unfold bind, set_nrefs. rewrite Hp. simpl. rewrite lookup_insert_eq. simpl.
  rewrite insert_insert_eq, insert_id by (by destruct m). by rewrite heap_eta.
Qed.

(** A reference is balanced by a dereference: taking a reference of a live
    object and dropping it again leaves the heap exactly as it was, runs no
    destructor and is never undefined. *)
Theorem mem_ref_deref h p m :
  h_blocks h !! p = Some m -> 1 <= m_nrefs m < 2 ^ 32 - 1 ->
  (mem_ref (Some p) ;; mem_deref run_dh (Some p)) h = Some (tt, h).
Proof.
  intros Hp Hn. pose proof (set_nrefs_restore h p m (m_nrefs m + 1) Hp) as E.
  apply bind_inv in E as ([] & h1 & E1 & E2).
  simpl. rewrite bind_assoc, (bind_Some _ _ _ _ _ (get_mem_Some _ _ _ Hp)).
  rewrite bind_assoc, (wrap_small 32) by lia. rewrite (bind_Some _ _ _ _ _ E1). simpl.
  unfold set_nrefs in E1. rewrite Hp in E1. simplify_eq.
  unfold ret at 1, bind at 1. rewrite (bind_Some _ _ _ (Mem (m_nrefs m + 1) (m_size m) (m_dh m) (m_data m)) _)
    by (apply get_mem_Some, lookup_insert_eq).
  simpl. replace (m_nrefs m + 1 - 1) with (m_nrefs m) by lia. rewrite (wrap_small 32) by lia.
  rewrite (bind_Some _ _ _ _ _ E2). by rewrite (proj2 (Z.ltb_lt 1 (m_nrefs m + 1))) by lia.
Qed.

(** Dropping the last reference of an object without destructor frees
    exactly that object and updates the statistics; any other live object and
    the high-water marks are untouched. *)
Theorem mem_deref_last h p m :
  h_blocks h !! p = Some m -> m_nrefs m = 1 -> m_dh m = None ->
  mem_deref run_dh (Some p) h =
    Some (tt, Heap (delete p (h_blocks h)) (STAT_DEREF (h_stat h) (m_size m)) (h_threshold h)).
Proof.
  intros Hp Hn Hd. simpl. rewrite (bind_Some _ _ _ _ _ (get_mem_Some _ _ _ Hp)), Hn, Hd.
  unfold bind, set_nrefs, get_mem, ret, free_block. rewrite Hp. simpl.
  rewrite lookup_insert_eq. simpl. rewrite lookup_insert_eq, delete_insert_eq. done.
Qed.

(** Undefined behaviour of [mem_realloc] on a shared object, exactly. *)
Definition alloc_succeeds (n : Z) (h : heap) : bool :=
  (n <=? MEM_SIZE_MAX) && negb (over_threshold h) && malloc_ok (mem_header_size + n).

Lemma mem_alloc_cases n dh h : mem_alloc n dh h =
  if alloc_succeeds n h then
    let p := fresh (dom (h_blocks h)) in
    Some (Some p, Heap (<[p := Mem 1 (u32 n) dh (fresh_bytes 0 n)]> (h_blocks h))
                       (STAT_ALLOC (h_stat h) n) (h_threshold h))
  else Some (None, h).
Proof.
  unfold mem_alloc, alloc_succeeds. rewrite Z.ltb_antisym.
  by destruct (n <=? _), (over_threshold h), (malloc_ok _).
Qed.

(** [mem_realloc] of an object that has other references is undefined
    exactly when the new block can be allocated and is smaller than the old
    one: the copy then uses the old size and runs past the new block. *)
Theorem mem_realloc_shared_undefined h p m n :
  heap_ok h -> h_blocks h !! p = Some m -> 1 < m_nrefs m -> 0 <= n ->
  mem_realloc run_dh (Some p) n h = None <->
  alloc_succeeds n h = true /\ n < m_size m.
Proof.
  intros Hok Hp Hn Hn0. destruct (heap_blocks _ Hok _ _ Hp) as [Hr Hs Hm Hbs].
  simpl. destruct (Z.ltb_spec MEM_SIZE_MAX n).
  { unfold alloc_succeeds. rewrite (proj2 (Z.leb_gt n _)) by lia. simpl. by split; [|intros [? ?]]. }
  rewrite (bind_Some _ _ _ _ _ (get_mem_Some _ _ _ Hp)), (proj2 (Z.ltb_lt 1 _)) by lia.
  unfold bind at 1. rewrite mem_alloc_cases. destruct (alloc_succeeds n h); [|by split; [|intros [? ?]]].
  assert (h_blocks h !! fresh (dom (h_blocks h)) = None) as Hfr by apply not_elem_of_dom, is_fresh.
  set (q := fresh _) in *. assert (p <> q) as Hpq by congruence. simpl.
  rewrite (bind_Some _ _ _ _ _ (get_mem_Some q _ _ (lookup_insert_eq _ _ _))).
  unfold mem_load, lift, bind at 1. rewrite in_block_true by lia. simpl.
  unfold mem_store, bind at 1, in_block. rewrite length_slice, length_fresh_bytes by lia.
  rewrite (proj2 (Z.leb_le 0 (m_size m))), Z.add_0_l by lia. simpl.
  destruct (Z.leb_spec (m_size m) n); simpl; [|rewrite (proj2 (Z.eqb_neq _ 0)) by lia; tauto].
  rewrite orb_true_r.
  split; [|lia]. unfold bind at 1, set_data. simpl. rewrite lookup_insert_eq. simpl.
  unfold bind. unfold get_mem at 1. simpl. rewrite insert_insert_eq, lookup_insert_ne, Hp by done. simpl.
  unfold set_nrefs at 1. simpl. rewrite lookup_insert_ne, Hp by done. simpl.
  by rewrite (proj2 (Z.ltb_lt 1 _)) by lia.
Qed.

End mem_theorems.

(** ** Witnesses *)

(** The destructor that does nothing, and a heap with one allocated object. *)
Definition noop_dh : nat -> loc -> M heap unit := fun _ _ => ret tt.

Definition after {A} (m : M heap A) (h : heap) : heap :=
  match m h with Some (_, h') => h' | None => h end.

Definition heap1 : heap := after (run_op (H := lp64_host) noop_dh (OpAlloc 10 None)) empty_heap.
Definition block1 : mem := Mem 1 10 None (replicate 10 165).

Lemma heap1_ok : heap_ok heap1.
Proof. eapply (mem_alloc_ok (H := lp64_host) 10 None empty_heap); [lia|apply empty_heap_ok|reflexivity]. Qed.

Lemma mem_reach_heap_ok_witness : heap_ok heap1.
Proof.
  apply (mem_reach_heap_ok (H := lp64_host) noop_dh).
  - intros n p h u h' Hok E. unfold noop_dh in E. by inv_ret.
  - apply (reach_step (H := lp64_host) noop_dh empty_heap (OpAlloc 10 None)); [constructor|simpl; lia|].
    reflexivity.
Defined.

Lemma mem_ref_deref_witness :
  (mem_ref (Some 1%positive) ;; mem_deref noop_dh (Some 1%positive)) heap1 = Some (tt, heap1).
Proof. apply (mem_ref_deref noop_dh heap1 1%positive block1); [reflexivity|simpl; lia]. Defined.

Lemma mem_deref_last_witness :
  exists h', mem_deref noop_dh (Some 1%positive) heap1 = Some (tt, h') /\ h_blocks h' = ∅.
Proof.
  eexists. split; [apply (mem_deref_last noop_dh heap1 1%positive block1); reflexivity|reflexivity].
Defined.

Lemma mem_realloc_shared_undefined_witness :
  mem_realloc (H := lp64_host) noop_dh (Some 1%positive) 4 (after (mem_ref (Some 1%positive)) heap1) = None.
Proof.
  apply (mem_realloc_shared_undefined (H := lp64_host) noop_dh
           (after (mem_ref (Some 1%positive)) heap1) 1%positive (Mem 2 10 None (replicate 10 165))).
  - eapply (mem_ref_ok (Some 1%positive) heap1); [exact heap1_ok|reflexivity].
  - reflexivity.
  - simpl. lia.
  - lia.
  - split; [reflexivity|simpl; lia].
Defined.
