(* ===== verification/Mbuf.v ===== *)
(** * Memory buffers (src/mbuf/mbuf.c, include/re/re_mbuf.h)

    [struct mbuf] with its backing block as a list of bytes; every operation
    of the module is a state transformer on it.  The model is that of a buffer
    whose block is not shared, so that [mem_realloc] takes its unshared
    branch ([Mem.realloc_unshared]).  Loads and stores outside the block are
    undefined ([None]); sizes and positions are 64-bit and wrap around. *)

From S2P Require Export Prelude Mem.

Record mbuf := Mbuf {
  mb_buf : list Z;
  mb_size : Z;
  mb_pos : Z;
  mb_end : Z;
}.

Definition DEFAULT_SIZE : Z := 512.

Definition set_pos (p : Z) (mb : mbuf) : mbuf := Mbuf (mb_buf mb) (mb_size mb) p (mb_end mb).
Definition set_end (e : Z) (mb : mbuf) : mbuf := Mbuf (mb_buf mb) (mb_size mb) (mb_pos mb) e.
Definition set_posend (p e : Z) (mb : mbuf) : mbuf := Mbuf (mb_buf mb) (mb_size mb) p e.

(** ** Accessors of re_mbuf.h *)

Definition mbuf_get_left (mb : mbuf) : Z :=
  if mb_pos mb <? mb_end mb then mb_end mb - mb_pos mb else 0.
Definition mbuf_get_space (mb : mbuf) : Z :=
  if mb_pos mb <? mb_size mb then mb_size mb - mb_pos mb else 0.
Definition mbuf_set_pos (pos : Z) : M mbuf unit := modify (set_pos pos).
Definition mbuf_set_end (e : Z) : M mbuf unit := modify (set_end e).
Definition mbuf_advance (n : Z) : M mbuf unit :=
  modify (fun mb => set_pos (u64 (mb_pos mb + n)) mb).
Definition mbuf_rewind : M mbuf unit := modify (set_posend 0 0).
Definition mbuf_skip_to_end : M mbuf unit := modify (fun mb => set_pos (mb_end mb) mb).

(** The bytes between position and end: what a reader can still see. *)
Definition unread (mb : mbuf) : list Z := slice (mb_buf mb) (mb_pos mb) (mbuf_get_left mb).

Section mbuf.
Context `{Host}.

Definition alloc_ok (n : Z) : bool :=
  (n <=? MEM_SIZE_MAX) && malloc_ok (mem_header_size + n).

Definition mbuf_init : mbuf := Mbuf [] 0 0 0.
Definition mbuf_reset : M mbuf unit := put mbuf_init.

Definition mbuf_resize (size : Z) : M mbuf Z := fun mb =>
  if alloc_ok size
  then Some (0, Mbuf (realloc_bytes (mb_buf mb) size) size (mb_pos mb) (mb_end mb))
  else Some (ENOMEM, mb).

(** [sizeof(struct mbuf)] is 32 on an LP64 host; [None] is a null pointer. *)
Definition mbuf_alloc (size : Z) : option mbuf :=
  if alloc_ok 32 then
    match mbuf_resize (if nz size then size else DEFAULT_SIZE) mbuf_init with
    | Some (0, mb) => Some mb
    | _ => None
    end
  else None.

(** [mbuf_dup]: the outer option is definedness of the [memcpy]. *)
Definition mbuf_dup (mbd : mbuf) : option (option mbuf) :=
  match mbuf_alloc (mb_size mbd) with
  | None => Some None
  | Some mb =>
      match mem_load (mb_buf mbd) 0 (mb_size mbd) with
      | None => None
      | Some bs =>
          match mem_store (mb_buf mb) 0 bs with
          | None => None
          | Some buf => Some (Some (Mbuf buf (mb_size mbd) (mb_pos mbd) (mb_end mbd)))
          end
      end
  end.

Definition mbuf_trim : M mbuf unit := fun mb =>
  if (mb_end mb =? 0) || (mb_end mb =? mb_size mb) then Some (tt, mb)
  else (mbuf_resize (mb_end mb) ;; ret tt) mb.

(** Store [bs] at position [p] of the backing block. *)
Definition store_at (p : Z) (bs : list Z) : M mbuf unit := fun mb =>
  match mem_store (mb_buf mb) p bs with
  | Some buf => Some (tt, Mbuf buf (mb_size mb) (mb_pos mb) (mb_end mb))
  | None => None
  end.

Definition load_at (p n : Z) : M mbuf (list Z) := fun mb =>
  match mem_load (mb_buf mb) p n with
  | Some bs => Some (bs, mb)
  | None => None
  end.

(** The sum of two [ssize_t]; signed overflow is undefined. *)
Definition ssize_add (a b : Z) : option Z :=
  if (- 2 ^ 63 <=? a + b) && (a + b <? 2 ^ 63) then Some (a + b) else None.

Definition mbuf_shift (shift : Z) : M mbuf Z :=
  let* mb := get in
  let* pos := lift (ssize_add (s64 (mb_pos mb)) shift) in
  if pos <? 0 then ret ERANGE
  else
    let* e := lift (ssize_add (s64 (mb_end mb)) shift) in
    if e <? 0 then ret ERANGE
    else
      let rsize := u64 (mb_end mb + shift) in
      check (if mb_size mb <? rsize then mbuf_resize rsize else ret 0)
        (let* mb := get in
         let* bs := load_at (mb_pos mb) (mbuf_get_left mb) in
         store_at (u64 (mb_pos mb + shift)) bs ;;
         modify (fun mb => set_posend (u64 (mb_pos mb + shift)) (u64 (mb_end mb + shift)) mb) ;;
         ret 0).

(** Growth policy shared by [mbuf_write_mem] and [mbuf_fill]. *)
Definition mbuf_grow (n : Z) : M mbuf Z := fun mb =>
  let rsize := u64 (mb_pos mb + n) in
  if mb_size mb <? rsize then
    let dsize := if nz (mb_size mb) then u64 (mb_size mb * 2) else DEFAULT_SIZE in
    mbuf_resize (Z.max rsize dsize) mb
  else Some (0, mb).

Definition mbuf_write_mem (buf : list Z) : M mbuf Z :=
  check (mbuf_grow (zlength buf))
    (let* mb := get in
     store_at (mb_pos mb) buf ;;
     modify (fun mb =>
       let pos := u64 (mb_pos mb + zlength buf) in
       set_posend pos (Z.max (mb_end mb) pos) mb) ;;
     ret 0).

Definition mbuf_write_u8 (v : Z) : M mbuf Z := mbuf_write_mem (host_bytes 1 v).
Definition mbuf_write_u16 (v : Z) : M mbuf Z := mbuf_write_mem (host_bytes 2 v).
Definition mbuf_write_u32 (v : Z) : M mbuf Z := mbuf_write_mem (host_bytes 4 v).
Definition mbuf_write_u64 (v : Z) : M mbuf Z := mbuf_write_mem (host_bytes 8 v).
Definition mbuf_write_ptr (v : Z) : M mbuf Z := mbuf_write_mem (host_bytes 8 v).

(** [strlen]: a C string is the bytes before the terminator. *)
Definition mbuf_write_str (str : list Z) : M mbuf Z := mbuf_write_mem str.

(** Pointer-length strings into a block [base]: offset and length. *)
Record pl := Pl { pl_p : Z; pl_l : Z }.

Definition mbuf_write_pl (base : list Z) (p : pl) : M mbuf Z :=
  let* bs := lift (mem_load base (pl_p p) (pl_l p)) in mbuf_write_mem bs.

Definition mbuf_write_pl_skip (base : list Z) (p skip : pl) : M mbuf Z :=
  if (pl_p skip <? pl_p p) || (pl_p p + pl_l p <? pl_p skip + pl_l skip) then ret ERANGE
  else
    check (mbuf_write_pl base (Pl (pl_p p) (pl_p skip - pl_p p)))
      (let r := pl_p skip + pl_l skip in
       mbuf_write_pl base (Pl r (pl_p p + pl_l p - r))).

Definition mbuf_fill (c n : Z) : M mbuf Z :=
  if n =? 0 then ret EINVAL
  else
    check (mbuf_grow n)
      (let* mb := get in
       store_at (mb_pos mb) (replicate (Z.to_nat n) c) ;;
       modify (fun mb =>
         let pos := u64 (mb_pos mb + n) in
         set_posend pos (Z.max (mb_end mb) pos) mb) ;;
       ret 0).

(** [mbuf_read_mem]: the error code and, on success, the bytes read. *)
Definition mbuf_read_mem (size : Z) : M mbuf (Z * list Z) :=
  let* mb := get in
  if mbuf_get_left mb <? size then ret (EOVERFLOW, [])
  else
    let* bs := load_at (mb_pos mb) size in
    modify (fun mb => set_pos (u64 (mb_pos mb + size)) mb) ;;
    ret (0, bs).

Definition mbuf_read_int (n : nat) : M mbuf Z :=
  let* '(err, bs) := mbuf_read_mem (Z.of_nat n) in
  ret (if err =? 0 then host_val bs else 0).

Definition mbuf_read_u8 : M mbuf Z := mbuf_read_int 1.
Definition mbuf_read_u16 : M mbuf Z := mbuf_read_int 2.
Definition mbuf_read_u32 : M mbuf Z := mbuf_read_int 4.
Definition mbuf_read_u64 : M mbuf Z := mbuf_read_int 8.
Definition mbuf_read_ptr : M mbuf Z := mbuf_read_int 8.

(** The idioms [ntohs(mbuf_read_u16(mb))] and [ntohl(mbuf_read_u32(mb))]. *)
Definition mbuf_read_ntohs : M mbuf Z := let* v := mbuf_read_u16 in ret (ntohs v).
Definition mbuf_read_ntohl : M mbuf Z := let* v := mbuf_read_u32 in ret (ntohl v).

(** The characters stored through [str], terminator included. *)
Fixpoint mbuf_read_str (size : nat) : M mbuf (list Z) :=
  match size with
  | O => ret []
  | S size =>
      let* c := mbuf_read_u8 in
      if c =? 0 then ret [c]
      else let* cs := mbuf_read_str size in ret (c :: cs)
  end.

(** [mbuf_strdup]: error code and the new string without its terminator. *)
Definition mbuf_strdup (len : Z) : M mbuf (Z * list Z) :=
  if alloc_ok (u64 (len + 1)) then mbuf_read_mem len
  else ret (ENOMEM, []).

Definition mbuf_set_posend (pos e : Z) : M mbuf unit := fun mb =>
  if (e <? pos) || (mb_size mb <? e) then Some (tt, mb)
  else Some (tt, set_posend pos e mb).

End mbuf.
