(* ===== verification/MbufSpec.v ===== *)
(** * What memory buffers promise to the codecs

    [mbuf_wf] is the invariant of a buffer.  Three classes state what a
    program over a buffer does, and are the interface the codecs are verified
    against:
    - [Writes m bs]: [m] is memory safe, and either appends exactly [bs] at
      the position and returns 0, or returns an error;  it returns 0 when no
      allocation fails;
    - [Reads m bs a]: on a buffer whose unread bytes begin with [bs], [m]
      consumes exactly [bs] and returns [a];
    - [SafeRead m]: on any buffer [m] is memory safe, changes nothing but the
      position, and never moves it backwards or past the end.
    The instances are closed under the sequencing combinators, so that a codec
    is verified by resolution. *)

From S2P Require Export Mbuf.

Record mbuf_wf (mb : mbuf) : Prop := {
  wf_len : mb_size mb = zlength (mb_buf mb);
  wf_max : mb_size mb <= MEM_SIZE_MAX;
  wf_bytes : bytes_ok (mb_buf mb);
  wf_pos : 0 <= mb_pos mb < 2 ^ 63;
  wf_end : 0 <= mb_end mb <= mb_size mb;
}.

(** [mb'] is [mb] after storing [bs] at the position. *)
Record written (mb : mbuf) (bs : list Z) (mb' : mbuf) : Prop := {
  wr_pos : mb_pos mb' = mb_pos mb + zlength bs;
  wr_end : mb_end mb <= mb_end mb' <= Z.max (mb_end mb) (mb_pos mb + zlength bs);
  wr_cover : bs <> [] -> mb_pos mb + zlength bs <= mb_end mb';
  wr_size : mb_size mb <= mb_size mb';
  wr_data : forall i, (i < length bs)%nat -> mb_buf mb' !! (Z.to_nat (mb_pos mb) + i)%nat = bs !! i;
  wr_keep : forall i, (i < length (mb_buf mb))%nat ->
    Z.of_nat i < mb_pos mb \/ mb_pos mb + zlength bs <= Z.of_nat i ->
    mb_buf mb' !! i = mb_buf mb !! i;
}.

(** Position bound under which encoders are specified: 2 GiB. *)
Definition WRITE_MAX : Z := 2 ^ 31.

Class Writes `{Host} (m : M mbuf Z) (bs : list Z) : Prop :=
  writes : forall mb, mbuf_wf mb -> mb_pos mb + zlength bs < WRITE_MAX ->
    exists e mb', m mb = Some (e, mb') /\ mbuf_wf mb' /\
      mb_pos mb <= mb_pos mb' <= mb_pos mb + zlength bs /\ 0 <= e /\
      (e = 0 -> written mb bs mb') /\ (no_oom -> e = 0).

Class Reads {A} (m : M mbuf A) (bs : list Z) (a : A) : Prop :=
  reads : forall mb rest, mbuf_wf mb -> unread mb = bs ++ rest ->
    m mb = Some (a, set_pos (mb_pos mb + zlength bs) mb).

(** [mb'] differs from [mb] in a position that moved forward, not past the
    end. *)
Record advanced (mb mb' : mbuf) : Prop := {
  adv_buf : mb_buf mb' = mb_buf mb;
  adv_size : mb_size mb' = mb_size mb;
  adv_end : mb_end mb' = mb_end mb;
  adv_pos : mb_pos mb <= mb_pos mb' <= Z.max (mb_pos mb) (mb_end mb);
}.

Class SafeRead {A} (m : M mbuf A) : Prop :=
  safe_read : forall mb, mbuf_wf mb ->
    exists a mb', m mb = Some (a, mb') /\ advanced mb mb'.

(** [if (mbuf_get_left(mb) < n) return e;] *)
Definition need {A} (n : Z) (fail k : M mbuf A) : M mbuf A :=
  let* mb := get in if mbuf_get_left mb <? n then fail else k.

(** ** Buffers *)

Lemma mbuf_eta mb : Mbuf (mb_buf mb) (mb_size mb) (mb_pos mb) (mb_end mb) = mb.
Proof. by destruct mb. Qed.

Lemma set_pos_id mb : set_pos (mb_pos mb) mb = mb.
Proof. by destruct mb. Qed.

Lemma set_pos_set_pos p q mb : set_pos p (set_pos q mb) = set_pos p mb.
Proof. done. Qed.

Lemma wf_in_block mb n : mbuf_wf mb -> 0 <= n <= mbuf_get_left mb ->
  in_block (mb_buf mb) (mb_pos mb) n = true \/ n = 0.
Proof.
  intros [Hl _ _ Hp He] Hn. unfold mbuf_get_left in Hn.
  destruct (Z.ltb_spec (mb_pos mb) (mb_end mb)); [left|right; lia].
  apply in_block_true; lia.
Qed.

Lemma length_unread mb : mbuf_wf mb -> zlength (unread mb) = mbuf_get_left mb.
Proof.
  intros [Hl _ _ Hp He]. unfold unread, mbuf_get_left.
  destruct (Z.ltb_spec (mb_pos mb) (mb_end mb)); [apply length_slice; lia|].
  by unfold slice.
Qed.

Lemma unread_ok mb : mbuf_wf mb -> bytes_ok (unread mb).
Proof. intros [_ _ Hb _ _]. by apply slice_ok. Qed.

(** Reading [bs] off the front. *)
Lemma unread_advance mb bs rest : mbuf_wf mb -> unread mb = bs ++ rest ->
  unread (set_pos (mb_pos mb + zlength bs) mb) = rest.
Proof.
  intros Hwf E. pose proof (length_unread mb Hwf) as L. rewrite E, length_app in L.
  destruct Hwf as [Hl _ _ Hp He]. unfold unread, slice, mbuf_get_left in *. simpl in *.
  destruct (Z.ltb_spec (mb_pos mb) (mb_end mb)).
  - assert (rest = drop (length bs) (bs ++ rest)) as -> by (by rewrite drop_app_length).
    rewrite <- E, skipn_firstn_comm, drop_drop.
    destruct (Z.ltb_spec (mb_pos mb + zlength bs) (mb_end mb)).
    + f_equal; [lia|]. f_equal. lia.
    + by replace (Z.to_nat (mb_end mb - mb_pos mb) - length bs)%nat with O by lia.
  - destruct bs, rest; simpl in *; try lia.
    by rewrite (proj2 (Z.ltb_ge _ _)) by lia.
Qed.

Lemma set_pos_wf mb p : mbuf_wf mb -> 0 <= p < 2 ^ 63 -> mbuf_wf (set_pos p mb).
Proof. intros [] ?. by split. Qed.

Lemma left_bound mb : mbuf_wf mb -> 0 <= mbuf_get_left mb /\
  mb_pos mb + mbuf_get_left mb <= Z.max (mb_pos mb) (mb_end mb) /\
  mb_pos mb + mbuf_get_left mb < 2 ^ 63.
Proof.
  intros [Hl Hm _ Hp He]. unfold mbuf_get_left, MEM_SIZE_MAX in *.
  destruct (Z.ltb_spec (mb_pos mb) (mb_end mb)); lia.
Qed.

Lemma unread_left mb bs rest : mbuf_wf mb -> unread mb = bs ++ rest ->
  zlength bs <= mbuf_get_left mb.
Proof. intros Hwf E. rewrite <- length_unread, E, length_app by done. lia. Qed.

Lemma unread_wf mb bs rest : mbuf_wf mb -> unread mb = bs ++ rest ->
  mbuf_wf (set_pos (mb_pos mb + zlength bs) mb).
Proof.
  intros Hwf E. pose proof (unread_left _ _ _ Hwf E). pose proof (left_bound _ Hwf).
  pose proof (wf_pos _ Hwf). apply set_pos_wf; [done|lia].
Qed.

Lemma advanced_refl mb : mbuf_wf mb -> advanced mb mb.
Proof. intros []. split; [done..|lia]. Qed.

Lemma advanced_trans mb1 mb2 mb3 : advanced mb1 mb2 -> advanced mb2 mb3 -> advanced mb1 mb3.
Proof. intros [] []. split; congruence || lia. Qed.

Lemma advanced_wf mb mb' : mbuf_wf mb -> advanced mb mb' -> mbuf_wf mb'.
Proof.
  intros [Hl Hm Hb Hp He] [E1 E2 E3 Hq]. unfold MEM_SIZE_MAX in *.
  split; rewrite ?E1, ?E2, ?E3; try done; unfold MEM_SIZE_MAX; lia.
Qed.

Lemma advanced_set_pos mb p : mb_pos mb <= p <= Z.max (mb_pos mb) (mb_end mb) ->
  advanced mb (set_pos p mb).
Proof. by split. Qed.

(** ** Reading *)

Section reading.
Context `{Host}.

(** [mbuf_read_mem] on every buffer. *)
Lemma mbuf_read_mem_eq n mb : mbuf_wf mb -> 0 <= n ->
  mbuf_read_mem n mb =
    if mbuf_get_left mb <? n then Some ((EOVERFLOW, []), mb)
    else Some ((0, take (Z.to_nat n) (unread mb)), set_pos (mb_pos mb + n) mb).
Proof.
  intros Hwf Hn. pose proof (left_bound _ Hwf) as Hb. unfold mbuf_read_mem, get, bind at 1.
  destruct (Z.ltb_spec (mbuf_get_left mb) n); [done|].
  unfold bind at 1, load_at, mem_load.
  assert (in_block (mb_buf mb) (mb_pos mb) n = true) as ->
    by (destruct (wf_in_block mb n Hwf) as [| ->]; [lia|done|done]).
  unfold bind, modify, ret. pose proof (wf_pos _ Hwf).
  rewrite (wrap_small 64) by lia. unfold unread, slice. rewrite take_take.
  do 3 f_equal. f_equal. lia.
Qed.

#[global] Instance safe_ret {A} (a : A) : SafeRead (ret a).
Proof. intros mb Hwf. eexists _, mb. split; [done|by apply advanced_refl]. Qed.

#[global] Instance safe_bind {A B} (m : M mbuf A) (k : A -> M mbuf B) :
  SafeRead m -> (forall a, SafeRead (k a)) -> SafeRead (bind m k).
Proof.
  intros Hm Hk mb Hwf. destruct (Hm mb Hwf) as (a & mb1 & E1 & H1).
  destruct (Hk a mb1 (advanced_wf _ _ Hwf H1)) as (b & mb2 & E2 & H2).
  exists b, mb2. split; [by rewrite (bind_Some _ _ _ _ _ E1)|by eapply advanced_trans].
Qed.

#[global] Instance safe_get : SafeRead get.
Proof. intros mb Hwf. eexists _, mb. split; [done|by apply advanced_refl]. Qed.

#[global] Instance safe_if {A} (b : bool) (m1 m2 : M mbuf A) :
  SafeRead m1 -> SafeRead m2 -> SafeRead (if b then m1 else m2).
Proof. by destruct b. Qed.

#[global] Instance safe_match_option {A B} (o : option B) (m1 : B -> M mbuf A) (m2 : M mbuf A) :
  (forall x, SafeRead (m1 x)) -> SafeRead m2 ->
  SafeRead (match o with Some x => m1 x | None => m2 end).
Proof. by destruct o. Qed.

#[global] Instance safe_match_pair {A B C} (p : A * B) (m : A -> B -> M mbuf C) :
  (forall x y, SafeRead (m x y)) -> SafeRead (match p with (x, y) => m x y end).
Proof. by destruct p. Qed.

#[global] Instance safe_need {A} n (f k : M mbuf A) :
  SafeRead f -> SafeRead k -> SafeRead (need n f k).
Proof. unfold need. apply _. Qed.

Lemma safe_read_mem n : 0 <= n -> SafeRead (mbuf_read_mem n).
Proof.
  intros Hn mb Hwf. rewrite mbuf_read_mem_eq by done. pose proof (left_bound _ Hwf).
  destruct (Z.ltb_spec (mbuf_get_left mb) n); eexists _, _; (split; [done|]).
  - by apply advanced_refl.
  - apply advanced_set_pos. lia.
Qed.

#[global] Instance safe_read_int n : SafeRead (mbuf_read_int n).
Proof. apply safe_bind; [apply safe_read_mem; lia|apply _]. Qed.

#[global] Instance safe_read_u8 : SafeRead mbuf_read_u8 := safe_read_int 1.
#[global] Instance safe_read_u16 : SafeRead mbuf_read_u16 := safe_read_int 2.
#[global] Instance safe_read_u32 : SafeRead mbuf_read_u32 := safe_read_int 4.
#[global] Instance safe_read_u64 : SafeRead mbuf_read_u64 := safe_read_int 8.

#[global] Instance safe_read_ntohs : SafeRead mbuf_read_ntohs.
Proof. unfold mbuf_read_ntohs. apply _. Qed.
#[global] Instance safe_read_ntohl : SafeRead mbuf_read_ntohl.
Proof. unfold mbuf_read_ntohl. apply _. Qed.

(** Results of the integer readers are in range. *)
Lemma mbuf_read_int_range n mb v mb' : mbuf_wf mb -> mbuf_read_int n mb = Some (v, mb') ->
  0 <= v < 256 ^ Z.of_nat n.
Proof.
  intros Hwf E. unfold mbuf_read_int, bind in E. rewrite mbuf_read_mem_eq in E by (done || lia).
  destruct (Z.ltb_spec (mbuf_get_left mb) (Z.of_nat n)); inv_ret; [lia|].
  pose proof (length_unread mb Hwf) as L. pose proof (unread_ok mb Hwf) as Hok.
  pose proof (host_val_range _ (Forall_take _ (Z.to_nat (Z.of_nat n)) _ Hok)) as Hr.
  rewrite length_take in Hr. by replace (Z.of_nat (_ `min` _)) with (Z.of_nat n) in Hr by lia.
Qed.

(** Sequencing with a bound on the value read. *)
Lemma safe_bind_post {A B} (P : A -> Prop) (m : M mbuf A) (k : A -> M mbuf B) :
  SafeRead m -> (forall mb a mb', mbuf_wf mb -> m mb = Some (a, mb') -> P a) ->
  (forall a, P a -> SafeRead (k a)) -> SafeRead (bind m k).
Proof.
  intros Hm HP Hk mb Hwf. destruct (Hm mb Hwf) as (a & mb1 & E1 & H1).
  destruct (Hk a (HP _ _ _ Hwf E1) mb1 (advanced_wf _ _ Hwf H1)) as (b & mb2 & E2 & H2).
  exists b, mb2. split; [by rewrite (bind_Some _ _ _ _ _ E1)|by eapply advanced_trans].
Qed.

Lemma ntoh_range n v : 0 <= v < 256 ^ Z.of_nat n -> 0 <= ntoh n v < 256 ^ Z.of_nat n.
Proof.
  intros Hv. unfold ntoh. case_match; [done|].
  pose proof (be_val_range _ (le_bytes_ok n v)) as R. by rewrite length_le_bytes in R.
Qed.

Lemma safe_u8_k {A} (k : Z -> M mbuf A) :
  (forall v, 0 <= v < 256 -> SafeRead (k v)) -> SafeRead (bind mbuf_read_u8 k).
Proof.
  apply safe_bind_post; [apply _|]. intros mb a mb' Hwf E. by apply (mbuf_read_int_range 1 mb a mb').
Qed.

Lemma safe_ntohs_k {A} (k : Z -> M mbuf A) :
  (forall v, 0 <= v < 2 ^ 16 -> SafeRead (k v)) -> SafeRead (bind mbuf_read_ntohs k).
Proof.
  apply safe_bind_post; [apply _|]. intros mb a mb' Hwf E.
  apply bind_inv in E as (v & mb1 & E1 & E). inv_ret.
  apply (ntoh_range 2). by apply (mbuf_read_int_range 2 mb v mb').
Qed.

(** *** Exact readers *)

Lemma reads_ret {A} (a : A) : Reads (ret a) [] a.
Proof. intros mb rest Hwf E. simpl. rewrite Z.add_0_r, set_pos_id. done. Qed.

Lemma reads_bind {A B} (m : M mbuf A) (k : A -> M mbuf B) b1 b2 a b :
  Reads m b1 a -> Reads (k a) b2 b -> Reads (bind m k) (b1 ++ b2) b.
Proof.
  intros Hm Hk mb rest Hwf E. rewrite <- app_assoc in E.
  rewrite (bind_Some _ _ _ _ _ (Hm mb _ Hwf E)).
  rewrite (Hk _ rest); [|by eapply unread_wf|by apply unread_advance].
  do 2 f_equal. rewrite length_app. destruct mb. unfold set_pos. simpl. f_equal. lia.
Qed.

Lemma reads_need {A} n (f k : M mbuf A) bs a : n <= zlength bs -> Reads k bs a -> Reads (need n f k) bs a.
Proof.
  intros Hn Hk mb rest Hwf E. unfold need, get, bind.
  pose proof (unread_left _ _ _ Hwf E). rewrite (proj2 (Z.ltb_ge _ _)) by lia. by apply (Hk mb rest).
Qed.

Lemma reads_mem n bs : zlength bs = n -> Reads (mbuf_read_mem n) bs (0, bs).
Proof.
  intros <- mb rest Hwf E. rewrite mbuf_read_mem_eq by (done || lia).
  pose proof (unread_left _ _ _ Hwf E). rewrite (proj2 (Z.ltb_ge _ _)) by lia.
  by rewrite E, Nat2Z.id, take_app_length.
Qed.

Lemma reads_int n bs : length bs = n -> Reads (mbuf_read_int n) bs (host_val bs).
Proof.
  intros <-. rewrite <- (app_nil_r bs) at 2. eapply reads_bind; [by apply reads_mem|].
  apply (reads_ret (host_val bs)).
Qed.

Lemma reads_net_int n v : 0 <= v < 256 ^ Z.of_nat n ->
  Reads (let* x := mbuf_read_int n in ret (ntoh n x)) (be_bytes n v) v.
Proof.
  intros Hv. rewrite <- (app_nil_r (be_bytes n v)).
  eapply reads_bind; [by apply reads_int, length_be_bytes|].
  rewrite ntoh_host_val, be_val_bytes by auto using be_bytes_ok, length_be_bytes. apply reads_ret.
Qed.

Lemma reads_ntohs {A} v (k : Z -> M mbuf A) bs a : 0 <= v < 2 ^ 16 ->
  Reads (k v) bs a -> Reads (bind mbuf_read_ntohs k) (be_bytes 2 v ++ bs) a.
Proof. intros Hv Hk. eapply reads_bind; [by apply (reads_net_int 2)|done]. Qed.

Lemma reads_ntohl {A} v (k : Z -> M mbuf A) bs a : 0 <= v < 2 ^ 32 ->
  Reads (k v) bs a -> Reads (bind mbuf_read_ntohl k) (be_bytes 4 v ++ bs) a.
Proof. intros Hv Hk. eapply reads_bind; [by apply (reads_net_int 4)|done]. Qed.

Lemma reads_u8 {A} v (k : Z -> M mbuf A) bs a :
  Reads (k v) bs a -> Reads (bind mbuf_read_u8 k) (v :: bs) a.
Proof.
  intros Hk. apply (reads_bind _ _ [v] bs v a); [|done].
  assert (host_val [v] = v) as E by (unfold host_val, be_val; case_match; cbn; lia).
  pose proof (reads_int 1 [v] eq_refl) as R. by rewrite E in R.
Qed.

Lemma reads_advance n bs : zlength bs = n -> Reads (mbuf_advance n) bs tt.
Proof.
  intros <- mb rest Hwf E. unfold mbuf_advance, modify. pose proof (unread_left _ _ _ Hwf E).
  pose proof (left_bound _ Hwf). pose proof (wf_pos _ Hwf). by rewrite (wrap_small 64) by lia.
Qed.

(** Skipping [n] bytes after checking that they are there. *)
Lemma safe_need_advance {A} n (f k : M mbuf A) : 0 <= n -> SafeRead f -> SafeRead k ->
  SafeRead (need n f (mbuf_advance n ;; k)).
Proof.
  intros Hn Hf Hk mb Hwf. unfold need, get, bind. destruct (Z.ltb_spec (mbuf_get_left mb) n); [by apply Hf|].
  pose proof (left_bound _ Hwf). pose proof (wf_pos _ Hwf).
  unfold mbuf_advance, modify. rewrite (wrap_small 64) by lia.
  assert (advanced mb (set_pos (mb_pos mb + n) mb)) as Ha by (apply advanced_set_pos; lia).
  destruct (Hk _ (advanced_wf _ _ Hwf Ha)) as (a & mb' & E & Ha'). eauto using advanced_trans.
Qed.

Lemma reads_mem_k {A} n bs (k : Z * list Z -> M mbuf A) bs' a : zlength bs = n ->
  Reads (k (0, bs)) bs' a -> Reads (bind (mbuf_read_mem n) k) (bs ++ bs') a.
Proof. intros Hl Hk. eapply reads_bind; [by apply reads_mem|done]. Qed.

Lemma reads_nil_app {A} (m : M mbuf A) bs a : Reads m (bs ++ []) a -> Reads m bs a.
Proof. by rewrite app_nil_r. Qed.

End reading.

(** ** Writing *)

Section writing.
Context `{Host}.

Lemma alloc_ok_no_oom n : no_oom -> n <= MEM_SIZE_MAX -> alloc_ok n = true.
Proof. intros Ho Hn. unfold alloc_ok. rewrite Ho. lia. Qed.

Lemma realloc_bytes_lookup bs n i : zlength bs <= n -> (i < length bs)%nat ->
  realloc_bytes bs n !! i = bs !! i.
Proof.
  intros Hn Hi. unfold realloc_bytes. rewrite take_ge by lia. by apply lookup_app_l.
Qed.

(** Growing the block: either enough room and the old content, or [ENOMEM]. *)
Lemma mbuf_grow_spec n mb : mbuf_wf mb -> 0 <= n -> mb_pos mb + n < WRITE_MAX ->
  exists e mb', mbuf_grow n mb = Some (e, mb') /\ mbuf_wf mb' /\
    mb_pos mb' = mb_pos mb /\ mb_end mb' = mb_end mb /\ 0 <= e /\
    (e = 0 -> mb_pos mb + n <= mb_size mb' /\ mb_size mb <= mb_size mb' /\
       forall i, (i < length (mb_buf mb))%nat -> mb_buf mb' !! i = mb_buf mb !! i) /\
    (no_oom -> e = 0).
Proof.
  intros Hwf Hn Hr. pose proof Hwf as [Hl Hm Hb Hp He]. unfold WRITE_MAX in Hr.
  unfold mbuf_grow. rewrite (wrap_small 64 (mb_pos mb + n)) by lia.
  destruct (Z.ltb_spec (mb_size mb) (mb_pos mb + n)) as [Hlt|Hge].
  2: { exists 0, mb. split_and!; done || lia. }
  set (sz := Z.max (mb_pos mb + n) _).
  assert (mb_pos mb + n <= sz <= MEM_SIZE_MAX) as Hsz.
  { subst sz. unfold MEM_SIZE_MAX, DEFAULT_SIZE, nz in *.
    destruct (mb_size mb =? 0); simpl; [lia|]. rewrite (wrap_small 64) by lia. lia. }
  clearbody sz. unfold mbuf_resize. destruct (alloc_ok sz) eqn:Ea.
  - eexists 0, _. split; [done|]. split_and!; try done.
    + split; simpl; try done; try lia; [by rewrite realloc_bytes_length by lia|].
      by apply realloc_bytes_ok.
    + intros _. simpl. split_and!; [lia|lia|]. intros i Hi. apply realloc_bytes_lookup; lia.
  - exists ENOMEM, mb. split_and!; try done. intros Ho. rewrite alloc_ok_no_oom in Ea by (done || lia). done.
Qed.

Lemma splice_lookup_in m p bs i : 0 <= p -> p + zlength bs <= zlength m -> (i < length bs)%nat ->
  splice m p bs !! (Z.to_nat p + i)%nat = bs !! i.
Proof.
  intros Hp Hm Hi. unfold splice. rewrite lookup_app_r by (rewrite length_take; lia).
  rewrite length_take. replace (_ + i - _)%nat with i by lia. by apply lookup_app_l.
Qed.

Lemma splice_lookup_out m p bs i : 0 <= p -> p + zlength bs <= zlength m ->
  Z.of_nat i < p \/ p + zlength bs <= Z.of_nat i -> splice m p bs !! i = m !! i.
Proof.
  intros Hp Hm [Hi|Hi]; unfold splice.
  - rewrite lookup_app_l by (rewrite length_take; lia). apply lookup_take_lt. lia.
  - rewrite lookup_app_r by (rewrite length_take; lia). rewrite length_take.
    rewrite lookup_app_r by lia. rewrite lookup_drop. f_equal. lia.
Qed.

Lemma writes_mem bs : bytes_ok bs -> Writes (mbuf_write_mem bs) bs.
Proof.
  intros Hbs mb Hwf Hr. pose proof (wf_pos _ Hwf) as Hp. unfold WRITE_MAX in *.
  destruct (mbuf_grow_spec (zlength bs) mb) as (e & mb1 & E & Hwf1 & Ep & Ee & He & Hok & Ho);
    [done|lia|done|]. unfold mbuf_write_mem, check. rewrite (bind_Some _ _ _ _ _ E).
  unfold nz. destruct (Z.eqb_spec e 0) as [->|Hne]; simpl.
  2: { exists e, mb1. split_and!; try done; try lia. }
  destruct (Hok eq_refl) as (Hroom & Hsz & Hkeep). pose proof Hwf1 as [Hl1 Hm1 Hb1 Hp1 He1].
  unfold get, bind at 1, store_at, mem_store. unfold bind at 1. rewrite Ep.
  rewrite in_block_true by lia.
  unfold bind, modify, ret. cbn [mb_pos mb_end mb_size mb_buf]. rewrite (wrap_small 64) by lia.
  eexists 0, _. split; [done|]. pose proof (length_splice (mb_buf mb1) (mb_pos mb) bs ltac:(lia) ltac:(lia)).
  split_and!; try done; cbn; try lia.
  - split; cbn; try lia. by apply splice_ok.
  - intros _. split; cbn; try lia.
    + intros i Hi. apply splice_lookup_in; lia.
    + intros i Hi Hio. rewrite splice_lookup_out by lia. by apply Hkeep.
Qed.

Lemma written_nil mb : mbuf_wf mb -> written mb [] mb.
Proof. intros []. split; simpl; try lia; try done. Qed.

#[global] Instance writes_ret0 : Writes (ret 0) [].
Proof.
  intros mb Hwf Hr. exists 0, mb. split_and!; try done; simpl; try lia. intros _. by apply written_nil.
Qed.

Lemma written_app mb b1 mb1 b2 mb2 : mbuf_wf mb -> mbuf_wf mb1 ->
  written mb b1 mb1 -> written mb1 b2 mb2 -> written mb (b1 ++ b2) mb2.
Proof.
  intros Hwf Hwf1 [P1 E1 C1 S1 D1 K1] [P2 E2 C2 S2 D2 K2].
  pose proof (wf_pos _ Hwf). pose proof (wf_len _ Hwf). pose proof (wf_len _ Hwf1).
  split; rewrite ?length_app in *; try lia.
  - intros Hne. destruct b2; [|specialize (C2 ltac:(done)); lia].
    rewrite app_nil_r in Hne. specialize (C1 Hne). simpl. lia.
  - intros i Hi. destruct (decide (i < length b1)%nat).
    + rewrite lookup_app_l by done. rewrite <- D1 by done. apply K2; [|lia].
      apply lookup_lt_is_Some. rewrite D1 by done. by apply lookup_lt_is_Some.
    + rewrite lookup_app_r by lia. rewrite <- D2 by lia. f_equal. lia.
  - intros i Hi Hio. rewrite K2 by lia. apply K1; lia.
Qed.

#[global] Instance writes_or_err m1 m2 b1 b2 :
  Writes m1 b1 -> Writes m2 b2 -> Writes (m1 |; m2) (b1 ++ b2).
Proof.
  intros H1 H2 mb Hwf Hr. rewrite length_app in *.
  destruct (H1 mb Hwf) as (e1 & mb1 & E1 & Hwf1 & Hp1 & He1 & Hw1 & Ho1); [lia|].
  destruct (H2 mb1 Hwf1) as (e2 & mb2 & E2 & Hwf2 & Hp2 & He2 & Hw2 & Ho2); [lia|].
  exists (Z.lor e1 e2), mb2. split_and!; try done; try lia.
  - unfold or_err. by rewrite (bind_Some _ _ _ _ _ E1), (bind_Some _ _ _ _ _ E2).
  - by apply Z.lor_nonneg.
  - intros [-> ->]%lor_0_iff. apply (written_app _ _ mb1); auto.
  - intros Ho. by rewrite Ho1, Ho2.
Qed.

#[global] Instance writes_check m1 m2 b1 b2 :
  Writes m1 b1 -> Writes m2 b2 -> Writes (check m1 m2) (b1 ++ b2).
Proof.
  intros H1 H2 mb Hwf Hr. rewrite length_app in *.
  destruct (H1 mb Hwf) as (e1 & mb1 & E1 & Hwf1 & Hp1 & He1 & Hw1 & Ho1); [lia|].
  unfold check. rewrite (bind_Some _ _ _ _ _ E1). unfold nz.
  destruct (Z.eqb_spec e1 0) as [->|Hne]; simpl.
  - destruct (H2 mb1 Hwf1) as (e2 & mb2 & E2 & Hwf2 & Hp2 & He2 & Hw2 & Ho2); [lia|].
    exists e2, mb2. split_and!; try done; try lia. intros ->. apply (written_app _ _ mb1); auto.
  - exists e1, mb1. split_and!; try done; try lia.
Qed.

Lemma writes_host_bytes n v : Writes (mbuf_write_mem (host_bytes n v)) (host_bytes n v).
Proof. apply writes_mem, host_bytes_ok. Qed.

#[global] Instance writes_u8 v : Writes (mbuf_write_u8 v) [u8 v].
Proof.
  assert ([u8 v] = host_bytes 1 v) as -> by (unfold host_bytes; by case_match).
  apply writes_host_bytes.
Qed.

#[global] Instance writes_hton n v : Writes (mbuf_write_mem (host_bytes n (hton n v))) (be_bytes n v).
Proof. rewrite <- host_bytes_hton. apply writes_host_bytes. Qed.

#[global] Instance writes_u16_n v : Writes (mbuf_write_u16 (htons v)) (be_bytes 2 v) := writes_hton 2 v.
#[global] Instance writes_u32_n v : Writes (mbuf_write_u32 (htonl v)) (be_bytes 4 v) := writes_hton 4 v.

#[global] Instance writes_if (b : bool) m1 m2 b1 b2 : Writes m1 b1 -> Writes m2 b2 ->
  Writes (if b then m1 else m2) (if b then b1 else b2).
Proof. by destruct b. Qed.

(** The written bytes are what a reader positioned at the start sees first. *)
Lemma written_unread mb bs mb' : mbuf_wf mb -> mbuf_wf mb' -> written mb bs mb' ->
  exists rest, unread (set_pos (mb_pos mb) mb') = bs ++ rest.
Proof.
  intros Hwf Hwf' [P E C S D K]. destruct (decide (bs = [])) as [->|Hne]; [by eexists|].
  specialize (C Hne). pose proof (wf_pos _ Hwf). pose proof (wf_end _ Hwf).
  pose proof (wf_len _ Hwf'). pose proof (wf_end _ Hwf').
  set (mbr := set_pos (mb_pos mb) mb'). exists (drop (length bs) (unread mbr)).
  assert (mbuf_wf mbr) as Hr by (apply set_pos_wf; [done|lia]).
  assert (take (length bs) (unread mbr) = bs) as Et; [|by rewrite <- Et at 1; rewrite take_drop].
  apply list_eq. intros i. pose proof (length_unread mbr Hr) as L. unfold mbuf_get_left in L. simpl in L.
  assert (length bs <= length (unread mbr))%nat by (case_match; lia).
  destruct (decide (i < length bs)%nat) as [Hi|Hi].
  - rewrite lookup_take_lt, <- D by done. unfold unread, slice. simpl.
    rewrite lookup_take_lt, lookup_drop; [done|]. unfold mbuf_get_left. simpl. case_match; lia.
  - rewrite (proj2 (lookup_ge_None bs i)) by lia. apply lookup_ge_None. rewrite length_take. lia.
Qed.

Lemma written_slice mb bs mb' : written mb bs mb' -> slice (mb_buf mb') (mb_pos mb) (zlength bs) = bs.
Proof.
  intros [P Q C S D K]. apply list_eq. intros i. unfold slice. rewrite Nat2Z.id.
  destruct (decide (i < length bs)%nat) as [Hi|Hi].
  - by rewrite lookup_take_lt, lookup_drop, D by done.
  - rewrite (proj2 (lookup_ge_None bs i)), lookup_take_ge by lia. done.
Qed.

(** An encoder and a decoder of the same bytes compose to a round trip. *)
Lemma writes_reads {A} (enc : M mbuf Z) bs (dec : M mbuf A) a mb : Writes enc bs -> Reads dec bs a ->
  mbuf_wf mb -> mb_pos mb + zlength bs < WRITE_MAX ->
  exists e mb', enc mb = Some (e, mb') /\ (no_oom -> e = 0) /\
    (e = 0 -> slice (mb_buf mb') (mb_pos mb) (zlength bs) = bs /\
       dec (set_pos (mb_pos mb) mb') = Some (a, set_pos (mb_pos mb + zlength bs) mb')).
Proof.
  intros Hw Hrd Hwf Hr. destruct (Hw mb Hwf Hr) as (e & mb' & E & Hwf' & Hp & He & Hok & Ho).
  exists e, mb'. split_and!; [done|done|]. intros ->. specialize (Hok eq_refl).
  split; [by apply written_slice|].
  destruct (written_unread _ _ _ Hwf Hwf' Hok) as [rest Hu]. pose proof (wf_pos _ Hwf).
  rewrite (Hrd _ rest); [done|apply set_pos_wf; [done|lia]|done].
Qed.

End writing.
