(* ===== verification/MbufThms.v ===== *)
(** * Correctness of the memory buffer operations

    The theorems of src/mbuf/mbuf.c itself: append, round trips, shifting,
    excluding a section, duplication, and the exact conditions under which an
    operation is undefined, after any sequence of operations. *)

From S2P Require Import Prelude Mbuf MbufSpec.

Section mbuf_thms.
Context `{Host}.

(** [mbuf_write_mem] of a byte string is never undefined on a well-formed
    buffer below 2 GiB.  It either returns 0 and then the position has advanced
    by the length, the end covers it, the given bytes are in the buffer and
    every other byte is unchanged; or it returns an error, which happens only
    if an allocation fails. *)
Theorem mbuf_write_mem_spec bs mb :
  bytes_ok bs -> mbuf_wf mb -> mb_pos mb + zlength bs < WRITE_MAX ->
  exists e mb', mbuf_write_mem bs mb = Some (e, mb') /\ mbuf_wf mb' /\
    (no_oom -> e = 0) /\
    (e = 0 ->
       mb_pos mb' = mb_pos mb + zlength bs /\
       (bs <> [] -> mb_end mb' = Z.max (mb_end mb) (mb_pos mb + zlength bs)) /\
       slice (mb_buf mb') (mb_pos mb) (zlength bs) = bs /\
       forall i, (i < length (mb_buf mb))%nat ->
         Z.of_nat i < mb_pos mb \/ mb_pos mb + zlength bs <= Z.of_nat i ->
         mb_buf mb' !! i = mb_buf mb !! i).
Proof.
  intros Hbs Hwf Hr. destruct (writes_mem bs Hbs mb Hwf Hr) as (e & mb' & E & Hwf' & _ & _ & Hw & Ho).
  exists e, mb'. split_and!; [done..|]. intros He. pose proof (Hw He) as [P Q C S D K].
  split_and!; [done|intros Hne; specialize (C Hne); lia|by apply written_slice, Hw|done].
Qed.

(** Bytes written to a buffer are read back unchanged from where the write
    started. *)
Theorem mbuf_write_read_mem bs mb :
  bytes_ok bs -> mbuf_wf mb -> mb_pos mb + zlength bs < WRITE_MAX ->
  exists e mb', mbuf_write_mem bs mb = Some (e, mb') /\ (no_oom -> e = 0) /\
    (e = 0 -> mbuf_read_mem (zlength bs) (set_pos (mb_pos mb) mb')
              = Some ((0, bs), set_pos (mb_pos mb + zlength bs) mb')).
Proof.
  intros Hbs Hwf Hr.
  destruct (writes_reads _ _ _ _ mb (writes_mem bs Hbs) (reads_mem _ bs eq_refl) Hwf Hr)
    as (e & mb' & E & Ho & Hok). exists e, mb'. split_and!; [done..|]. intros He. by apply Hok.
Qed.

Lemma reads_host_int n v : 0 <= v < 256 ^ Z.of_nat n -> Reads (mbuf_read_int n) (host_bytes n v) v.
Proof.
  intros Hv. rewrite <- (host_val_bytes n v) at 2 by done. apply reads_int, length_host_bytes.
Qed.

(** The integer accessors are inverse on either byte order: a value
    written in host order is read back, and a value written after
    [htons]/[htonl] is stored most significant byte first and read back through
    [ntohs]/[ntohl]. *)
Theorem mbuf_write_read_int n v mb :
  0 <= v < 256 ^ Z.of_nat n -> mbuf_wf mb -> mb_pos mb + Z.of_nat n < WRITE_MAX ->
  (exists e mb', mbuf_write_mem (host_bytes n v) mb = Some (e, mb') /\ (no_oom -> e = 0) /\
    (e = 0 -> mbuf_read_int n (set_pos (mb_pos mb) mb')
              = Some (v, set_pos (mb_pos mb + Z.of_nat n) mb'))) /\
  (exists e mb', mbuf_write_mem (host_bytes n (hton n v)) mb = Some (e, mb') /\ (no_oom -> e = 0) /\
    (e = 0 -> slice (mb_buf mb') (mb_pos mb) (Z.of_nat n) = be_bytes n v /\
       (let* x := mbuf_read_int n in ret (ntoh n x)) (set_pos (mb_pos mb) mb')
       = Some (v, set_pos (mb_pos mb + Z.of_nat n) mb'))).
Proof.
  intros Hv Hwf Hr. split.
  - destruct (writes_reads _ _ _ _ mb (writes_host_bytes n v) (reads_host_int n v Hv) Hwf)
      as (e & mb' & E & Ho & Hok); [by rewrite length_host_bytes|].
    rewrite length_host_bytes in Hok. exists e, mb'. split_and!; [done..|]. intros He. by apply Hok.
  - destruct (writes_reads _ _ _ _ mb (writes_hton n v) (reads_net_int n v Hv) Hwf)
      as (e & mb' & E & Ho & Hok); [by rewrite length_be_bytes|].
    rewrite length_be_bytes in Hok. eauto.
Qed.

(** Conditional enlargement, as in [mbuf_shift]. *)
Lemma resize_if_spec n mb : mbuf_wf mb -> 0 <= n <= MEM_SIZE_MAX -> mb_pos mb <= mb_end mb ->
  exists e mb', (if mb_size mb <? n then mbuf_resize n else ret 0) mb = Some (e, mb') /\ mbuf_wf mb' /\
    mb_pos mb' = mb_pos mb /\ mb_end mb' = mb_end mb /\ (e = 0 \/ e = ENOMEM) /\
    (e = 0 -> n <= mb_size mb' /\ mb_size mb <= mb_size mb' /\ unread mb' = unread mb) /\
    (no_oom -> e = 0).
Proof.
  intros Hwf Hn Hpe. pose proof Hwf as [Hl Hm Hb Hp He]. destruct (Z.ltb_spec (mb_size mb) n).
  2: { exists 0, mb. split_and!; try done; auto. }
  unfold mbuf_resize. destruct (alloc_ok n) eqn:Ea.
  - eexists 0, _. split; [done|]. split_and!; try done; auto.
    + split; cbn; try done; try lia; [by rewrite realloc_bytes_length by lia|by apply realloc_bytes_ok].
    + intros _. split_and!; cbn; [lia|lia|]. unfold unread, slice, realloc_bytes, mbuf_get_left. cbn.
      rewrite (take_ge (mb_buf mb)) by lia. case_match; [|done].
      rewrite drop_app_le by lia. apply take_app_le. rewrite length_drop. lia.
  - exists ENOMEM, mb. split_and!; try done; auto. intros Ho.
    rewrite alloc_ok_no_oom in Ea by (done || lia). done.
Qed.

Lemma ssize_add_ok a b : - 2 ^ 63 <= a + b < 2 ^ 63 -> ssize_add a b = Some (a + b).
Proof. intros. unfold ssize_add. by replace (_ && _) with true by lia. Qed.

Lemma shift_spec shift mb :
  mbuf_wf mb -> mb_pos mb <= mb_end mb -> mb_end mb + shift < WRITE_MAX -> -2 ^ 62 < shift ->
  exists e mb', mbuf_shift shift mb = Some (e, mb') /\ mbuf_wf mb' /\
    (e = 0 -> unread mb' = unread mb /\
       mb_pos mb' = mb_pos mb + shift /\ mb_end mb' = mb_end mb + shift) /\
    (e = ERANGE <-> mb_pos mb + shift < 0) /\
    (no_oom -> 0 <= mb_pos mb + shift -> e = 0).
Proof.
  intros Hwf Hpe Hr Hs. pose proof Hwf as [Hl Hm Hb Hp He].
  unfold WRITE_MAX, MEM_SIZE_MAX in *. unfold mbuf_shift, get, bind at 1.
  rewrite !(swrap_small 64) by lia. unfold bind at 1, lift at 1. rewrite ssize_add_ok by lia.
  destruct (Z.ltb_spec (mb_pos mb + shift) 0) as [Hneg|Hpos]; simpl.
  { exists ERANGE, mb. split_and!; try done. lia. }
  unfold bind at 1, lift at 1. rewrite ssize_add_ok by lia.
  rewrite (proj2 (Z.ltb_ge _ _)), (wrap_small 64) by lia.
  destruct (resize_if_spec (mb_end mb + shift) mb) as (e & mb1 & E & Hwf1 & Ep & Ee & Her & Hok & Ho);
    [done|unfold MEM_SIZE_MAX; lia|done|].
  unfold check. rewrite (bind_Some _ _ _ _ _ E). destruct (Z.eqb_spec e 0) as [->|Hne]; unfold nz.
  2: { rewrite (proj2 (Z.eqb_neq e 0)) by done. exists e, mb1. destruct Her as [->| ->]; [done|].
       split_and!; try done; [unfold ENOMEM, ERANGE; lia|]. intros Hno. by apply Ho in Hno. }
  simpl. destruct (Hok eq_refl) as (Hroom & Hsz & Hun). pose proof Hwf1 as [Hl1 Hm1 Hb1 Hp1 He1].
  unfold bind at 1, bind at 1, load_at, mem_load.
  pose proof (length_unread mb1 Hwf1) as Lu. pose proof (left_bound mb1 Hwf1) as [? _].
  assert (mb_pos mb1 + mbuf_get_left mb1 = mb_end mb1) as Hle
    by (unfold mbuf_get_left; destruct (Z.ltb_spec (mb_pos mb1) (mb_end mb1)); lia).
  rewrite in_block_true by lia. fold (unread mb1). unfold bind at 1, store_at, mem_store.
  rewrite (wrap_small 64) by lia. rewrite in_block_true by lia.
  unfold bind, modify, ret. cbn [mb_pos mb_end mb_size mb_buf]. rewrite !(wrap_small 64) by lia.
  pose proof (length_splice (mb_buf mb1) (mb_pos mb1 + shift) (unread mb1) ltac:(lia) ltac:(lia)) as Ls.
  eexists 0, _. split; [done|]. split_and!; [|intros _; split_and!; cbn; try lia|unfold ERANGE; lia|done].
  - split; cbn; try lia. apply splice_ok; [done|by apply unread_ok].
  - unfold unread at 1, mbuf_get_left. cbn.
    rewrite <- Hun. destruct (Z.ltb_spec (mb_pos mb1 + shift) (mb_end mb1 + shift)).
    + replace (mb_end mb1 + shift - (mb_pos mb1 + shift)) with (zlength (unread mb1)) by lia.
      apply slice_splice; lia.
    + symmetry. rewrite slice_0. apply length_zero_iff_nil. lia.
Qed.

(** [mbuf_shift] moves the unread content by the given offset, in either
    direction: on success position and end have moved together and the unread
    bytes are the same; it fails with [ERANGE] exactly when the content would
    start before the block, and otherwise only for lack of memory. *)
Theorem mbuf_shift_spec shift mb :
  mbuf_wf mb -> mb_pos mb <= mb_end mb -> mb_end mb + shift < WRITE_MAX -> -2 ^ 62 < shift ->
  exists e mb', mbuf_shift shift mb = Some (e, mb') /\
    (e = 0 -> mbuf_wf mb' /\ unread mb' = unread mb /\
       mb_pos mb' = mb_pos mb + shift /\ mb_end mb' = mb_end mb + shift) /\
    (e = ERANGE <-> mb_pos mb + shift < 0) /\
    (no_oom -> 0 <= mb_pos mb + shift -> e = 0).
Proof.
  intros Hwf Hpe Hr Hs. destruct (shift_spec shift mb Hwf Hpe Hr Hs) as (e & mb' & E & Hwf' & Hok & Her & Ho).
  exists e, mb'. split_and!; [done| |done..]. intros He. by destruct (Hok He).
Qed.

(** [mbuf_write_pl_skip] writes the string without the excluded section,
    provided the section lies inside it, and refuses with [ERANGE] and no
    effect otherwise. *)
Theorem mbuf_write_pl_skip_spec base p skip :
  bytes_ok base -> 0 <= pl_p p -> 0 <= pl_l p -> 0 <= pl_l skip -> pl_p p + pl_l p <= zlength base ->
  if (pl_p p <=? pl_p skip) && (pl_p skip + pl_l skip <=? pl_p p + pl_l p)
  then Writes (mbuf_write_pl_skip base p skip)
         (slice base (pl_p p) (pl_p skip - pl_p p) ++
          slice base (pl_p skip + pl_l skip) (pl_p p + pl_l p - (pl_p skip + pl_l skip)))
  else forall mb, mbuf_write_pl_skip base p skip mb = Some (ERANGE, mb).
Proof.
  intros Hb Hp Hl Hls Hin. unfold mbuf_write_pl_skip. rewrite !Z.ltb_antisym.
  destruct (Z.leb_spec (pl_p p) (pl_p skip)); simpl; [|done].
  destruct (Z.leb_spec (pl_p skip + pl_l skip) (pl_p p + pl_l p)); simpl; [|done].
  assert (forall q n, 0 <= q -> 0 <= n -> q + n <= zlength base ->
    Writes (mbuf_write_pl base (Pl q n)) (slice base q n)) as Hw.
  { intros q n Hq Hn Hqn. unfold mbuf_write_pl, mem_load, lift. cbn.
    intros mb. unfold bind. rewrite in_block_true by lia. apply writes_mem. by apply slice_ok. }
  apply writes_check; apply Hw; lia.
Qed.

(** ** Sequences of operations *)

(** The operations that change a buffer; those that write an integer, a string
    or a pointer-length string are [OpWriteMem], those that read an integer are
    [OpReadInt]. *)
Inductive mbuf_op :=
  | OpWriteMem (bs : list Z)
  | OpFill (c n : Z)
  | OpReadMem (n : Z)
  | OpReadInt (n : nat)
  | OpReadStr (n : nat)
  | OpStrdup (n : Z)
  | OpShift (shift : Z)
  | OpResize (n : Z)
  | OpTrim
  | OpSetPosend (pos e : Z)
  | OpSetPos (pos : Z)
  | OpSetEnd (e : Z)
  | OpAdvance (n : Z)
  | OpSkipToEnd
  | OpRewind
  | OpReset.

Definition run_mbuf_op (op : mbuf_op) : M mbuf unit :=
  match op with
  | OpWriteMem bs => mbuf_write_mem bs ;; ret tt
  | OpFill c n => mbuf_fill c n ;; ret tt
  | OpReadMem n => mbuf_read_mem n ;; ret tt
  | OpReadInt n => mbuf_read_int n ;; ret tt
  | OpReadStr n => mbuf_read_str n ;; ret tt
  | OpStrdup n => mbuf_strdup n ;; ret tt
  | OpShift s => mbuf_shift s ;; ret tt
  | OpResize n => mbuf_resize n ;; ret tt
  | OpTrim => mbuf_trim
  | OpSetPosend p e => mbuf_set_posend p e
  | OpSetPos p => mbuf_set_pos p
  | OpSetEnd e => mbuf_set_end e
  | OpAdvance n => mbuf_advance n
  | OpSkipToEnd => mbuf_skip_to_end
  | OpRewind => mbuf_rewind
  | OpReset => mbuf_reset
  end.

(** Arguments of the types of the C functions, nothing more. *)
Definition is_size (n : Z) : Prop := 0 <= n < 2 ^ 64.
Definition is_ssize (n : Z) : Prop := - 2 ^ 63 <= n < 2 ^ 63.

Definition mbuf_op_args (op : mbuf_op) : Prop :=
  match op with
  | OpWriteMem bs => bytes_ok bs /\ is_size (zlength bs)
  | OpFill c n => byte_ok c /\ is_size n
  | OpReadMem n | OpStrdup n | OpResize n | OpSetPos n | OpSetEnd n => is_size n
  | OpReadInt n => is_size (Z.of_nat n)
  | OpShift s | OpAdvance s => is_ssize s
  | OpSetPosend p e => is_size p /\ is_size e
  | OpReadStr _ | OpTrim | OpSkipToEnd | OpRewind | OpReset => True
  end.

(** What is true of every buffer: the block is as long as [size] says.  The
    position and the end may be anywhere. *)
Record mbuf_block (mb : mbuf) : Prop := {
  bl_len : mb_size mb = zlength (mb_buf mb);
  bl_max : mb_size mb <= MEM_SIZE_MAX;
  bl_bytes : bytes_ok (mb_buf mb);
  bl_pos : is_size (mb_pos mb);
  bl_end : is_size (mb_end mb);
}.

(** A write whose end wraps around, so that the size check passes or the block
    becomes only as large as the wrapped sum asks for. *)
Definition write_ub (n : Z) (mb : mbuf) : Prop :=
  let rsize := mb_pos mb + n - 2 ^ 64 in
  0 < n /\ 0 <= rsize /\
  (rsize <= mb_size mb \/ alloc_ok (Z.max rsize (if nz (mb_size mb) then mb_size mb * 2 else DEFAULT_SIZE)) = true).

(** A read that the end allows but the block does not. *)
Definition read_ub (n : Z) (mb : mbuf) : Prop :=
  0 < n <= mbuf_get_left mb /\ mb_size mb < mb_pos mb + n.

(** A string that is not terminated in the block, up to an end outside it. *)
Definition read_str_ub (n : nat) (mb : mbuf) : Prop :=
  let tail := drop (Z.to_nat (mb_pos mb)) (mb_buf mb) in
  zlength tail < Z.min (Z.of_nat n) (mb_end mb - mb_pos mb) /\ Forall (fun c => c <> 0) tail.

(** Signed overflow, or content that lies outside the block, also when it has
    been enlarged for the new end. *)
Definition shift_ub (shift : Z) (mb : mbuf) : Prop :=
  let pos := s64 (mb_pos mb) + shift in
  let e := s64 (mb_end mb) + shift in
  ~ is_ssize pos \/ 0 <= pos /\ ~ is_ssize e \/
  0 <= pos /\ 0 <= e /\ mb_pos mb < mb_end mb /\ Z.max (mb_size mb) e < mb_end mb /\
  (e <= mb_size mb \/ alloc_ok e = true).

Definition mbuf_op_ub (op : mbuf_op) (mb : mbuf) : Prop :=
  match op with
  | OpWriteMem bs => write_ub (zlength bs) mb
  | OpFill _ n => write_ub n mb
  | OpReadMem n => read_ub n mb
  | OpReadInt n => read_ub (Z.of_nat n) mb
  | OpReadStr n => read_str_ub n mb
  | OpStrdup n => alloc_ok (u64 (n + 1)) = true /\ read_ub n mb
  | OpShift s => shift_ub s mb
  | _ => False
  end.

(** Arguments with which nothing of that can happen on a buffer whose end is
    inside its block: sizes below 2 GiB, the end stays inside, and content is
    not shifted while the position is past the end. *)
Definition mbuf_op_pre (op : mbuf_op) (mb : mbuf) : Prop :=
  match op with
  | OpWriteMem bs => mb_pos mb + zlength bs < WRITE_MAX
  | OpFill c n => mb_pos mb + n < WRITE_MAX
  | OpShift s => mb_pos mb <= mb_end mb /\ mb_end mb + s < WRITE_MAX /\ - 2 ^ 62 < s
  | OpResize n => mb_end mb <= n
  | OpSetPos p => p < 2 ^ 63
  | OpSetEnd e => e <= mb_size mb
  | OpAdvance n => 0 <= mb_pos mb + n < 2 ^ 63
  | _ => True
  end.

Lemma mbuf_fill_write c n : 0 < n -> mbuf_fill c n = mbuf_write_mem (replicate (Z.to_nat n) c).
Proof.
  intros Hn. unfold mbuf_fill, mbuf_write_mem. rewrite (proj2 (Z.eqb_neq n 0)) by lia.
  by replace (zlength (replicate (Z.to_nat n) c)) with n by (rewrite length_replicate; lia).
Qed.

#[local] Instance safe_read_str n : SafeRead (mbuf_read_str n).
Proof. induction n; simpl; apply _. Qed.

Lemma safe_wf {A} (m : M mbuf A) mb : SafeRead m -> mbuf_wf mb ->
  exists a mb', m mb = Some (a, mb') /\ mbuf_wf mb'.
Proof. intros Hs Hwf. destruct (Hs mb Hwf) as (a & mb' & E & Ha). eauto using advanced_wf. Qed.

Lemma mbuf_trim_wf mb : mbuf_wf mb -> exists mb', mbuf_trim mb = Some (tt, mb') /\ mbuf_wf mb'.
Proof.
  intros Hwf. pose proof Hwf as [Hl Hm Hb Hp He]. unfold mbuf_trim. case_match; [eauto|].
  unfold bind, mbuf_resize. destruct (alloc_ok (mb_end mb)); eexists; (split; [reflexivity|done || idtac]).
  split; cbn; [rewrite realloc_bytes_length; lia|lia|by apply realloc_bytes_ok|lia|lia].
Qed.

Lemma mbuf_resize_wf n mb : mbuf_wf mb -> mb_end mb <= n -> exists e mb', mbuf_resize n mb = Some (e, mb') /\ mbuf_wf mb'.
Proof.
  intros [Hl Hm Hb Hp He] Hn. unfold mbuf_resize. destruct (alloc_ok n) eqn:Ea; eexists _, _; (split; [done|]); [|by split].
  apply andb_true_iff in Ea as [Ea%Z.leb_le _]. split; cbn; [rewrite realloc_bytes_length; lia|lia|by apply realloc_bytes_ok|lia|lia].
Qed.

Lemma run_mbuf_op_wf op mb : mbuf_wf mb -> mbuf_op_args op -> mbuf_op_pre op mb ->
  exists mb', run_mbuf_op op mb = Some (tt, mb') /\ mbuf_wf mb'.
Proof.
  intros Hwf Hargs Hpre.
  assert (forall m bs, Writes m bs -> mb_pos mb + zlength bs < WRITE_MAX ->
    exists mb', (m ;; ret tt) mb = Some (tt, mb') /\ mbuf_wf mb') as Hw.
  { intros m bs Hw Hr. destruct (Hw mb Hwf Hr) as (e & mb' & E & Hwf' & _).
    exists mb'. by rewrite (bind_Some _ _ _ _ _ E). }
  assert (forall {A} (m : M mbuf A), SafeRead m ->
    exists mb', (m ;; ret tt) mb = Some (tt, mb') /\ mbuf_wf mb') as Hs.
  { intros A m Hm. destruct (safe_wf m mb Hm Hwf) as (a & mb' & E & Hwf').
    exists mb'. by rewrite (bind_Some _ _ _ _ _ E). }
  pose proof Hwf as [Hl Hm Hb Hp He].
  destruct op; cbn [run_mbuf_op mbuf_op_pre mbuf_op_args] in *; unfold is_size, is_ssize in *.
  - destruct Hargs. eapply Hw; [by apply writes_mem|done].
  - destruct Hargs as [Hc Hn]. destruct (decide (n = 0)) as [->|].
    + exists mb. done.
    + rewrite mbuf_fill_write by lia. eapply Hw; [by apply writes_mem, Forall_replicate|].
      rewrite length_replicate. lia.
  - apply Hs, safe_read_mem. lia.
  - by apply Hs, safe_read_int.
  - by apply Hs, safe_read_str.
  - apply Hs. unfold mbuf_strdup. apply safe_if; [apply safe_read_mem; lia|apply _].
  - destruct Hpre as (Hpe & Hr & Hsh).
    destruct (shift_spec shift mb Hwf Hpe Hr Hsh) as (e & mb' & E & Hwf' & _).
    exists mb'. by rewrite (bind_Some _ _ _ _ _ E).
  - destruct (mbuf_resize_wf n mb Hwf Hpre) as (e & mb' & E & Hwf'). exists mb'. by rewrite (bind_Some _ _ _ _ _ E).
  - by apply mbuf_trim_wf.
  - unfold mbuf_set_posend. case_match; [eauto|]. eexists. split; [done|].
    unfold MEM_SIZE_MAX in *. split; cbn; unfold MEM_SIZE_MAX; done || lia.
  - eexists. split; [done|]. apply set_pos_wf; [done|lia].
  - eexists. split; [done|]. split; cbn; done || lia.
  - eexists. split; [done|]. rewrite (wrap_small 64) by lia. by apply set_pos_wf.
  - eexists. split; [done|]. apply set_pos_wf; [done|]. unfold MEM_SIZE_MAX in *. lia.
  - eexists. split; [done|]. split; cbn; done || lia.
  - eexists. split; [done|]. split; cbn; try done.
Qed.

(** *** Undefined behaviour, exactly *)

(** An operation is undefined under the condition [ub], and otherwise leaves a
    block of the recorded size. *)
Definition undefined_iff {A} (ub : Prop) (m : M mbuf A) (mb : mbuf) : Prop :=
  ub /\ m mb = None \/ ~ ub /\ exists a mb', m mb = Some (a, mb') /\ mbuf_block mb'.

Lemma undefined_iff_unit {A} ub (m : M mbuf A) mb : undefined_iff ub m mb -> undefined_iff ub (m ;; ret tt) mb.
Proof.
  unfold undefined_iff, bind. intros [[Hu ->]|(Hu & a & mb' & -> & Hb)]; [by left|]. right. split; [done|]. by exists tt, mb'.
Qed.

Lemma alloc_ok_max n : alloc_ok n = true -> n <= MEM_SIZE_MAX.
Proof. intros [E%Z.leb_le _]%andb_true_iff. done. Qed.

Lemma mbuf_resize_block n mb : mbuf_block mb -> 0 <= n ->
  if alloc_ok n then exists mb', mbuf_resize n mb = Some (0, mb') /\ mbuf_block mb' /\
    mb_size mb' = n /\ mb_pos mb' = mb_pos mb /\ mb_end mb' = mb_end mb
  else mbuf_resize n mb = Some (ENOMEM, mb).
Proof.
  intros [Hl Hm Hb Hp He] Hn. unfold mbuf_resize. destruct (alloc_ok n) eqn:Ea; [|done].
  pose proof (alloc_ok_max n Ea). eexists. split; [done|]. split; [|done].
  split; cbn; [by rewrite realloc_bytes_length|lia|by apply realloc_bytes_ok|done|done].
Qed.
(** The end of [mbuf_write_mem], when the block has been enlarged. *)
Definition write_rest (bs : list Z) : M mbuf Z :=
  let* mb := get in
  store_at (mb_pos mb) bs ;;
  modify (fun mb =>
    let pos := u64 (mb_pos mb + zlength bs) in
    set_posend pos (Z.max (mb_end mb) pos) mb) ;;
  ret 0.

Lemma write_rest_cases bs mb : mbuf_block mb -> bytes_ok bs ->
  undefined_iff (0 < zlength bs /\ mb_size mb < mb_pos mb + zlength bs) (write_rest bs) mb.
Proof.
  intros [Hl Hm Hb Hp He] Hbs. unfold undefined_iff, write_rest, store_at, mem_store, get, bind, modify, ret, is_size in *.
  destruct (in_block (mb_buf mb) (mb_pos mb) (zlength bs)) eqn:E.
  2: { left. split; [|done]. unfold in_block in E. lia. }
  assert (length (splice (mb_buf mb) (mb_pos mb) bs) = length (mb_buf mb)) as Es.
  { assert (zlength bs = 0 \/ mb_pos mb + zlength bs <= zlength (mb_buf mb)) as [E0|Hin] by (unfold in_block in E; lia).
    - destruct bs; [by rewrite splice_nil|done].
    - apply length_splice; lia. }
  right. split; [unfold in_block in E; lia|]. eexists _, _. split; [done|].
  pose proof (wrap_range 64 (mb_pos mb + zlength bs) ltac:(lia)).
  split; cbn; unfold is_size; [lia|done|by apply splice_ok|lia|lia].
Qed.

Lemma write_cases bs mb : mbuf_block mb -> bytes_ok bs -> is_size (zlength bs) ->
  undefined_iff (write_ub (zlength bs) mb) (mbuf_write_mem bs) mb.
Proof.
  intros Hbl Hbs Hn. pose proof Hbl as [Hl Hm Hb Hp He]. unfold mbuf_write_mem. fold (write_rest bs).
  unfold undefined_iff, check, mbuf_grow, write_ub, is_size, MEM_SIZE_MAX in *. unfold bind at 1 2. cbv beta zeta.
  assert (u64 (mb_size mb * 2) = mb_size mb * 2) as -> by (apply wrap_small; lia).
  set (dsize := if nz (mb_size mb) then mb_size mb * 2 else DEFAULT_SIZE). set (n := zlength bs) in *.
  assert (u64 (mb_pos mb + n) = if mb_pos mb + n <? 2 ^ 64 then mb_pos mb + n else mb_pos mb + n - 2 ^ 64) as ->.
  { destruct (Z.ltb_spec (mb_pos mb + n) (2 ^ 64)); [apply wrap_small; lia|]. unfold wrap. dlia. }
  set (rsize := if _ <? 2 ^ 64 then _ else _).
  assert (0 <= rsize) by (subst rsize; destruct (Z.ltb_spec (mb_pos mb + n) (2 ^ 64)); lia).
  destruct (Z.ltb_spec (mb_size mb) rsize) as [Hsz|Hsz].
  - pose proof (mbuf_resize_block (Z.max rsize dsize) mb Hbl ltac:(lia)) as Hr. destruct (alloc_ok _) eqn:Ea.
    + destruct Hr as (mb1 & -> & Hbl1 & E1 & E2 & _). cbn [nz Z.eqb negb].
      destruct (write_rest_cases bs mb1 Hbl1 Hbs) as [[Hu E]|(Hu & a & mb' & E & Hb')]; fold n in Hu; [left|right]; rewrite E.
      * split; [|done]. subst rsize. destruct (Z.ltb_spec (mb_pos mb + n) (2 ^ 64)); [lia|]. split_and!; [lia|lia|by right].
      * split; [|by exists a, mb']. intros (? & ? & _). apply Hu. pose proof (bl_max _ Hbl1). unfold MEM_SIZE_MAX in *. lia.
    + rewrite Hr. cbn [nz Z.eqb negb ENOMEM]. right. split; [|by exists ENOMEM, mb]. intros (? & ? & Hor).
      subst rsize. destruct (Z.ltb_spec (mb_pos mb + n) (2 ^ 64)); [lia|]. destruct Hor as [|Hor]; [lia|congruence].
  - cbn [nz Z.eqb negb].
    destruct (write_rest_cases bs mb Hbl Hbs) as [[Hu E]|(Hu & a & mb' & E & Hb')]; fold n in Hu; [left|right]; rewrite E.
    + split; [|done]. subst rsize. destruct (Z.ltb_spec (mb_pos mb + n) (2 ^ 64)); [lia|]. split_and!; [lia|lia|by left].
    + split; [|by exists a, mb']. intros (? & ? & _). apply Hu. lia.
Qed.

Lemma read_mem_cases n mb : mbuf_block mb -> is_size n -> undefined_iff (read_ub n mb) (mbuf_read_mem n) mb.
Proof.
  intros Hbl Hn. pose proof Hbl as [Hl Hm Hb Hp He].
  unfold undefined_iff, mbuf_read_mem, read_ub, get, bind, load_at, mem_load, is_size in *.
  destruct (Z.ltb_spec (mbuf_get_left mb) n); [right; split; [lia|by eexists _, _]|].
  destruct (in_block (mb_buf mb) (mb_pos mb) n) eqn:E; unfold in_block in E.
  - right. split; [lia|]. eexists _, _. split; [done|]. pose proof (wrap_range 64 (mb_pos mb + n) ltac:(lia)).
    split; cbn; unfold is_size; done || lia.
  - left. split; [lia|done].
Qed.

Lemma read_int_cases n mb : mbuf_block mb -> is_size (Z.of_nat n) -> undefined_iff (read_ub (Z.of_nat n) mb) (mbuf_read_int n) mb.
Proof.
  intros Hbl Hn. unfold mbuf_read_int, undefined_iff, bind.
  destruct (read_mem_cases (Z.of_nat n) mb Hbl Hn) as [[Hu ->]|(Hu & [e bs] & mb' & -> & Hb)]; [by left|].
  right. split; [done|]. by eexists _, _.
Qed.

Lemma read_u8_block mb : mbuf_block mb -> mbuf_read_u8 mb =
  if mb_pos mb <? mb_end mb then
    match mb_buf mb !! Z.to_nat (mb_pos mb) with Some c => Some (c, set_pos (mb_pos mb + 1) mb) | None => None end
  else Some (0, mb).
Proof.
  intros [Hl Hm Hb Hp He]. unfold is_size in *.
  unfold mbuf_read_u8, mbuf_read_int, mbuf_read_mem, get, bind, load_at, mem_load, mbuf_get_left. change (Z.of_nat 1) with 1.
  destruct (Z.ltb_spec (mb_pos mb) (mb_end mb)); [|done]. rewrite (proj2 (Z.ltb_ge _ _)) by lia.
  destruct (mb_buf mb !! Z.to_nat (mb_pos mb)) as [c|] eqn:Ec.
  - pose proof (lookup_lt_Some _ _ _ Ec). rewrite in_block_true by lia. unfold modify, ret. cbn [Z.eqb].
    rewrite (wrap_small 64) by lia. unfold slice. rewrite (drop_S _ _ _ Ec). cbn [take].
    assert (byte_ok c) as Hc by (by eapply Forall_lookup_1). unfold byte_ok in Hc.
    change (take (Z.to_nat 1) _) with [c]. replace (host_val [c]) with c; [done|]. unfold host_val. case_match; [change (be_val [c]) with (le_val [c])|]; cbn [le_val]; lia.
  - apply lookup_ge_None in Ec. by rewrite in_block_false by lia.
Qed.

Lemma read_str_cases n mb : mbuf_block mb -> undefined_iff (read_str_ub n mb) (mbuf_read_str n) mb.
Proof.
  revert mb. induction n as [|n IH]; intros mb Hbl; pose proof Hbl as [Hl Hm Hb Hp He];
    unfold undefined_iff, read_str_ub, is_size in *; cbn [mbuf_read_str].
  { right. split; [lia|]. eexists _, _; split; [reflexivity|done]. }
  unfold bind. rewrite read_u8_block by done. destruct (Z.ltb_spec (mb_pos mb) (mb_end mb)) as [Hlt|Hge].
  2: { right. split; [lia|]. eexists _, _; split; [reflexivity|done]. }
  destruct (mb_buf mb !! Z.to_nat (mb_pos mb)) as [c|] eqn:Ec.
  2: { left. split; [|done]. rewrite drop_ge by (by apply lookup_ge_None). split; [cbn; lia|constructor]. }
  assert (mbuf_block (set_pos (mb_pos mb + 1) mb)) as Hbl1 by (split; cbn; unfold is_size; done || lia).
  rewrite (drop_S _ _ _ Ec). destruct (Z.eqb_spec c 0) as [->|Hc].
  { right. split; [|eexists _, _; split; [reflexivity|done]]. intros [_ Hf]. by inversion Hf. }
  specialize (IH _ Hbl1). cbn [set_pos mb_pos mb_end mb_buf] in IH.
  replace (Z.to_nat (mb_pos mb + 1)) with (S (Z.to_nat (mb_pos mb))) in IH by lia.
  destruct IH as [[[Hu Hf] ->]|(Hu & cs & mb' & -> & Hb')]; [left|right]; (split; [|first [done | eexists _, _; split; [reflexivity|done]]]).
  - split; [cbn [length]; lia|by constructor].
  - intros [Hu' Hf]. apply Hu. split; [cbn [length] in Hu'; lia|by inversion Hf].
Qed.

Lemma ssize_add_cases a b : ssize_add a b = if decide (is_ssize (a + b)) then Some (a + b) else None.
Proof. unfold ssize_add, is_ssize. destruct (decide _); [by replace (_ && _) with true by lia|by replace (_ && _) with false by lia]. Qed.

Lemma s64_same v n : is_size v -> is_ssize (s64 v + n) -> 0 <= s64 v + n -> u64 (v + n) = s64 v + n.
Proof.
  unfold is_size, is_ssize, swrap, wrap. intros Hv Hs Hp. dlia.
Qed.

(** The end of [mbuf_shift], when the block has been enlarged. *)
Definition shift_rest (shift : Z) : M mbuf Z :=
  let* mb := get in
  let* bs := load_at (mb_pos mb) (mbuf_get_left mb) in
  store_at (u64 (mb_pos mb + shift)) bs ;;
  modify (fun mb => set_posend (u64 (mb_pos mb + shift)) (u64 (mb_end mb + shift)) mb) ;;
  ret 0.

Lemma shift_rest_cases shift mb : mbuf_block mb -> 0 <= s64 (mb_pos mb) + shift < 2 ^ 63 ->
  0 <= s64 (mb_end mb) + shift < 2 ^ 63 -> s64 (mb_end mb) + shift <= mb_size mb ->
  undefined_iff (mb_pos mb < mb_end mb /\ mb_size mb < mb_end mb) (shift_rest shift) mb.
Proof.
  intros Hbl H1 H2 Hroom. pose proof Hbl as [Hl Hm Hb Hp He].
  pose proof (s64_same (mb_pos mb) shift Hp ltac:(unfold is_ssize; lia) ltac:(lia)) as Ep.
  pose proof (s64_same (mb_end mb) shift He ltac:(unfold is_ssize; lia) ltac:(lia)) as Ee.
  unfold undefined_iff, shift_rest, get, bind, load_at, mem_load, store_at, mem_store, modify, ret, is_size, MEM_SIZE_MAX in *.
  rewrite Ep. unfold mbuf_get_left. destruct (Z.ltb_spec (mb_pos mb) (mb_end mb)) as [Hlt|Hge].
  - destruct (Z.ltb_spec (mb_size mb) (mb_end mb)) as [Hout|Hin]; [left; rewrite in_block_false by lia; by split|right].
    assert (s64 (mb_pos mb) = mb_pos mb /\ s64 (mb_end mb) = mb_end mb) as [E1 E2] by (split; apply swrap_small; lia).
    rewrite E1, E2 in *. rewrite in_block_true by lia. pose proof (length_slice (mb_buf mb) (mb_pos mb) (mb_end mb - mb_pos mb) ltac:(lia) ltac:(lia) ltac:(lia)) as Ls.
    rewrite in_block_true by lia. split; [lia|]. eexists _, _. split; [done|].
    split; cbn; unfold is_size, MEM_SIZE_MAX; rewrite ?Ep, ?Ee; try lia.
    + rewrite length_splice by lia. lia.
    + by apply splice_ok, slice_ok.
  - right. split; [lia|]. cbn [in_block Z.eqb orb]. rewrite slice_0. cbn [length]. cbn [in_block Z.of_nat Z.eqb orb].
    eexists _, _. split; [done|]. split; cbn; unfold is_size, MEM_SIZE_MAX; rewrite ?Ep, ?Ee, ?splice_nil; done || lia.
Qed.

Lemma mbuf_shift_eq shift mb : mbuf_shift shift mb =
  let pos := s64 (mb_pos mb) + shift in
  let e := s64 (mb_end mb) + shift in
  if decide (is_ssize pos) then
    if pos <? 0 then Some (ERANGE, mb)
    else if decide (is_ssize e) then
      if e <? 0 then Some (ERANGE, mb)
      else
        let rsize := u64 (mb_end mb + shift) in
        check (if mb_size mb <? rsize then mbuf_resize rsize else ret 0) (shift_rest shift) mb
    else None
  else None.
Proof.
  unfold mbuf_shift. fold (shift_rest shift). unfold get, lift, bind. rewrite !ssize_add_cases. cbv zeta.
  destruct (decide _); [|done]. destruct (_ <? 0); [done|]. destruct (decide _); [|done]. by destruct (_ <? 0).
Qed.

Lemma shift_cases shift mb : mbuf_block mb -> is_ssize shift -> undefined_iff (shift_ub shift mb) (mbuf_shift shift) mb.
Proof.
  intros Hbl Hs. pose proof Hbl as [Hl Hm Hb Hp He]. unfold undefined_iff, shift_ub. rewrite mbuf_shift_eq. cbv zeta.
  destruct (decide (is_ssize (s64 (mb_pos mb) + shift))) as [H1|H1]; [|left; tauto].
  destruct (Z.ltb_spec (s64 (mb_pos mb) + shift) 0) as [Hn1|Hp1];
    [right; split; [intros [?|[[? ?]|(? & _)]]; done || lia|by eexists _, _]|].
  destruct (decide (is_ssize (s64 (mb_end mb) + shift))) as [H2|H2]; [|left; tauto].
  destruct (Z.ltb_spec (s64 (mb_end mb) + shift) 0) as [Hn2|Hp2];
    [right; split; [intros [?|[[? ?]|(? & ? & _)]]; done || lia|by eexists _, _]|].
  rewrite (s64_same (mb_end mb)) by done. set (e := s64 (mb_end mb) + shift) in *. unfold check. unfold bind at 1 2.
  destruct (Z.ltb_spec (mb_size mb) e) as [Hgrow|Hfit].
  - pose proof (mbuf_resize_block e mb Hbl ltac:(lia)) as Hr. destruct (alloc_ok e) eqn:Ea.
    + destruct Hr as (mb1 & -> & Hbl1 & E1 & E2 & E3). cbn [nz Z.eqb negb].
      destruct (shift_rest_cases shift mb1 Hbl1) as [[Hu E]|(Hu & a & mb' & E & Hb')];
        rewrite ?E1, ?E2, ?E3 in *; try (unfold is_ssize in *; fold e; lia); [left|right]; rewrite E.
      * split; [|done]. do 2 right. split_and!; lia.
      * split; [|by exists a, mb']. intros [?|[[? ?]|(_ & _ & ? & ? & _)]]; [done..|]. apply Hu. lia.
    + rewrite Hr. cbn [nz Z.eqb negb ENOMEM]. right. split; [|by eexists _, _].
      intros [?|[[? ?]|(_ & _ & ? & ? & [?|?])]]; [done..|lia|done].
  - unfold ret at 1 3. cbn [nz Z.eqb negb].
    destruct (shift_rest_cases shift mb Hbl) as [[Hu E]|(Hu & a & mb' & E & Hb')]; try (unfold is_ssize in *; fold e; lia);
      [left|right]; rewrite E.
    + split; [|done]. do 2 right. split_and!; lia.
    + split; [|by exists a, mb']. intros [?|[[? ?]|(_ & _ & ? & ? & _)]]; [done..|]. apply Hu. lia.
Qed.

Lemma block_defined ub (m : M mbuf unit) mb mb' : ~ ub -> m mb = Some (tt, mb') -> mbuf_block mb' -> undefined_iff ub m mb.
Proof. intros Hu E Hb. right. split; [done|]. by exists tt, mb'. Qed.

Lemma resize_cases n mb : mbuf_block mb -> 0 <= n -> undefined_iff False (mbuf_resize n) mb.
Proof.
  intros Hbl Hn. right. split; [tauto|]. pose proof (mbuf_resize_block n mb Hbl Hn) as Hr.
  destruct (alloc_ok n); [destruct Hr as (mb' & E & Hb & _); by exists 0, mb'|by exists ENOMEM, mb].
Qed.

Lemma run_mbuf_op_cases op mb : mbuf_block mb -> mbuf_op_args op -> undefined_iff (mbuf_op_ub op mb) (run_mbuf_op op) mb.
Proof.
  intros Hbl Ha. pose proof Hbl as [Hl Hm Hb Hp He].
  assert (forall p e, is_size p -> is_size e -> mbuf_block (set_posend p e mb)) as Hset by (intros p e Hp' He'; by split).
  destruct op; cbn [run_mbuf_op mbuf_op_ub mbuf_op_args] in *.
  - destruct Ha. by apply undefined_iff_unit, write_cases.
  - destruct Ha as [Hc Hn]. apply undefined_iff_unit. destruct (decide (n = 0)) as [->|].
    + right. split; [unfold write_ub; lia|]. by exists EINVAL, mb.
    + unfold is_size in Hn. rewrite mbuf_fill_write by lia.
      assert (zlength (replicate (Z.to_nat n) c) = n) as En by (rewrite length_replicate; lia). rewrite <- En at 1.
      apply write_cases; [done|by apply Forall_replicate|]. unfold is_size. lia.
  - by apply undefined_iff_unit, read_mem_cases.
  - by apply undefined_iff_unit, read_int_cases.
  - by apply undefined_iff_unit, read_str_cases.
  - apply undefined_iff_unit. unfold mbuf_strdup. destruct (alloc_ok (u64 (n + 1))).
    + destruct (read_mem_cases n mb Hbl Ha) as [[Hu E]|(Hu & Hd)]; [by left|right; by split; [intros [_ ?]|]].
    + right. split; [by intros [? _]|]. by eexists _, _.
  - by apply undefined_iff_unit, shift_cases.
  - unfold is_size in Ha. apply undefined_iff_unit, resize_cases; [done|lia].
  - destruct ((mb_end mb =? 0) || (mb_end mb =? mb_size mb)) eqn:E.
    + eapply block_defined; [tauto|unfold mbuf_trim; by rewrite E|done].
    + unfold undefined_iff, mbuf_trim. rewrite E. unfold is_size in He.
      by apply (undefined_iff_unit False), resize_cases; [|lia].
  - destruct Ha, ((e <? pos) || (mb_size mb <? e)) eqn:E;
      (eapply block_defined; [tauto|unfold mbuf_set_posend; by rewrite E|]); [done|by apply Hset].
  - eapply block_defined; [tauto|done|by apply (Hset pos (mb_end mb))].
  - eapply block_defined; [tauto|done|by apply (Hset (mb_pos mb) e)].
  - eapply block_defined; [tauto|done|apply (Hset _ (mb_end mb)); [|done]]. unfold is_size. apply (wrap_range 64). lia.
  - eapply block_defined; [tauto|done|by apply (Hset (mb_end mb) (mb_end mb))].
  - eapply block_defined; [tauto|done|by apply Hset].
  - eapply block_defined; [tauto|done|]. by split.
Qed.

(** Buffers a program can get at: allocated, then changed by any operations. *)
Inductive mbuf_reach : mbuf -> Prop :=
  | mbuf_reach_alloc size mb : is_size size -> mbuf_alloc size = Some mb -> mbuf_reach mb
  | mbuf_reach_step mb op mb' :
      mbuf_reach mb -> mbuf_op_args op -> run_mbuf_op op mb = Some (tt, mb') -> mbuf_reach mb'.

Lemma mbuf_alloc_wf size mb : 0 <= size -> mbuf_alloc size = Some mb ->
  mbuf_wf mb /\ mb_pos mb = 0 /\ mb_end mb = 0 /\ mb_size mb = if nz size then size else DEFAULT_SIZE.
Proof.
  intros Hs E. unfold mbuf_alloc, mbuf_resize in E. case_match; [|done].
  set (n := if nz size then size else DEFAULT_SIZE) in *.
  assert (0 <= n) by (subst n; destruct (nz size); unfold DEFAULT_SIZE; lia).
  destruct (alloc_ok n) eqn:Ea; simplify_eq. split_and!; try done.
  split; cbn; try lia; [by rewrite realloc_bytes_length|unfold alloc_ok in Ea; lia|].
  by apply realloc_bytes_ok.
Qed.

Lemma mbuf_alloc_no_oom n : no_oom -> 0 <= n <= MEM_SIZE_MAX -> exists mb, mbuf_alloc n = Some mb.
Proof.
  intros Ho Hn. unfold mbuf_alloc, mbuf_resize. rewrite (alloc_ok_no_oom 32) by (done || unfold MEM_SIZE_MAX; lia).
  rewrite alloc_ok_no_oom by (done || unfold MEM_SIZE_MAX, DEFAULT_SIZE in *; case_match; lia). by eexists.
Qed.


End mbuf_thms.

(** ** Witnesses *)

(** An allocated buffer, and one holding five bytes. *)
Definition mbuf_of (bs : list Z) : mbuf := Mbuf bs (zlength bs) 0 (zlength bs).
Definition mbuf8 : mbuf := Mbuf (replicate 8 0) 8 2 5.

Lemma mbuf8_wf : mbuf_wf mbuf8.
Proof.
  split; cbn; unfold MEM_SIZE_MAX; try lia. repeat constructor; unfold byte_ok; lia.
Qed.

Lemma mbuf_write_mem_spec_witness : exists mb',
  mbuf_write_mem (H := lp64_host) [1; 2; 3; 4; 5; 6; 7; 8] mbuf8 = Some (0, mb') /\ mb_size mb' = 16.
Proof.
  destruct (mbuf_write_mem_spec (H := lp64_host) [1; 2; 3; 4; 5; 6; 7; 8] mbuf8)
    as (e & mb' & E & _ & Ho & _).
  - repeat constructor; unfold byte_ok; lia.
  - exact mbuf8_wf.
  - unfold WRITE_MAX. cbn. lia.
  - assert (e = 0) as -> by (apply Ho; done). exists mb'. split; [exact E|].
    vm_compute in E. by simplify_eq.
Defined.

Lemma mbuf_write_read_mem_witness : exists mb',
  mbuf_write_mem (H := lp64_host) [9; 8; 7] mbuf8 = Some (0, mb') /\
  mbuf_read_mem 3 (set_pos 2 mb') = Some ((0, [9; 8; 7]), set_pos 5 mb').
Proof.
  destruct (mbuf_write_read_mem (H := lp64_host) [9; 8; 7] mbuf8) as (e & mb' & E & Ho & Hr).
  - repeat constructor; unfold byte_ok; lia.
  - exact mbuf8_wf.
  - unfold WRITE_MAX. cbn. lia.
  - assert (e = 0) as -> by (apply Ho; done). exists mb'. split; [exact E|]. exact (Hr eq_refl).
Defined.

Lemma mbuf_write_read_int_witness : exists mb',
  mbuf_write_u32 (H := lp64_host) (htonl (H := lp64_host) 305419896) mbuf8 = Some (0, mb') /\
  slice (mb_buf mb') 2 4 = [18; 52; 86; 120].
Proof.
  destruct (mbuf_write_read_int (H := lp64_host) 4 305419896 mbuf8) as [_ (e & mb' & E & Ho & Hr)].
  - cbn. lia.
  - exact mbuf8_wf.
  - unfold WRITE_MAX. cbn. lia.
  - assert (e = 0) as -> by (apply Ho; done). exists mb'. split; [exact E|]. by destruct (Hr eq_refl).
Defined.

Lemma mbuf_shift_spec_witness : exists mb',
  mbuf_shift (H := lp64_host) 40 mbuf8 = Some (0, mb') /\ unread mb' = [0; 0; 0] /\ mb_pos mb' = 42.
Proof.
  destruct (mbuf_shift_spec (H := lp64_host) 40 mbuf8) as (e & mb' & E & Hok & _ & Ho).
  - exact mbuf8_wf.
  - cbn. lia.
  - unfold WRITE_MAX. cbn. lia.
  - lia.
  - assert (e = 0) as -> by (apply Ho; [done|cbn; lia]). exists mb'. split; [exact E|].
    destruct (Hok eq_refl) as (_ & -> & -> & _). done.
Defined.

Lemma mbuf_write_pl_skip_spec_witness :
  Writes (H := lp64_host) (mbuf_write_pl_skip (H := lp64_host) [1; 2; 3; 4; 5; 6] (Pl 0 6) (Pl 2 3)) [1; 2; 6].
Proof.
  refine (mbuf_write_pl_skip_spec (H := lp64_host) [1; 2; 3; 4; 5; 6] (Pl 0 6) (Pl 2 3) _ _ _ _ _);
    cbn; try lia. repeat constructor; unfold byte_ok; lia.
Defined.

