(* ===== verification/MbufParse.v ===== *)
(** * Decoders of untrusted input

    [Parses n m P] is what the library's decoders promise on a buffer with at
    least [n] unread bytes: memory safety, an error code, and, when it is 0, a
    result that satisfies [P] and depends on nothing but the bytes consumed
    (at least [n]).  In particular a decoder that succeeds gives the same
    result when more data follows, which is what code that decodes a byte
    stream relies on. *)

From S2P Require Export Prelude Mbuf MbufSpec.

Class Parses {R} (n : Z) (m : M mbuf (Z * R)) (P : R -> Prop) : Prop :=
  parses : forall mb, mbuf_wf mb -> n <= mbuf_get_left mb ->
    exists e r mb1, m mb = Some ((e, r), mb1) /\ advanced mb mb1 /\
      (e = 0 -> P r /\ exists bs rest, unread mb = bs ++ rest /\ n <= zlength bs /\
         mb1 = set_pos (mb_pos mb + zlength bs) mb /\ Reads m bs (0, r)).

Section parses.
Context `{Host}.

(** [unread] split at [n] bytes. *)
Lemma unread_split mb n : mbuf_wf mb -> 0 <= n <= mbuf_get_left mb ->
  exists bs rest, unread mb = bs ++ rest /\ zlength bs = n /\ bytes_ok bs.
Proof.
  intros Hwf Hn. pose proof (length_unread mb Hwf) as L. pose proof (unread_ok mb Hwf) as Hok.
  exists (take (Z.to_nat n) (unread mb)), (drop (Z.to_nat n) (unread mb)).
  split_and!; [by rewrite take_drop|rewrite length_take; lia|by apply Forall_take].
Qed.

Lemma advanced_unread mb bs rest : mbuf_wf mb -> unread mb = bs ++ rest ->
  advanced mb (set_pos (mb_pos mb + zlength bs) mb).
Proof.
  intros Hwf E. pose proof (unread_left _ _ _ Hwf E). pose proof (left_bound _ Hwf).
  apply advanced_set_pos. lia.
Qed.

Lemma left_advance mb bs rest : mbuf_wf mb -> unread mb = bs ++ rest ->
  mbuf_get_left (set_pos (mb_pos mb + zlength bs) mb) = mbuf_get_left mb - zlength bs.
Proof.
  intros Hwf E. pose proof (unread_advance _ _ _ Hwf E) as E2. pose proof (unread_wf _ _ _ Hwf E) as Hwf2.
  rewrite <- !length_unread, E2, E, length_app by done. lia.
Qed.

Lemma parses_ret {R} (r : R) (P : R -> Prop) : P r -> Parses 0 (ret (0, r)) P.
Proof.
  intros Hp mb Hwf _. eexists _, _, _. split_and!; [done|by apply advanced_refl|]. intros _. split; [done|].
  exists [], (unread mb). split_and!; [done|done|by rewrite Z.add_0_r, set_pos_id|apply reads_ret].
Qed.

Lemma parses_fail {R} n e (r : R) (P : R -> Prop) : e <> 0 -> Parses n (ret (e, r)) P.
Proof. intros He mb Hwf _. eexists _, _, _. split_and!; [done|by apply advanced_refl|done]. Qed.

Lemma parses_need {R} n e (r : R) k (P : R -> Prop) : e <> 0 -> Parses n k P ->
  Parses 0 (need n (ret (e, r)) k) P.
Proof.
  intros He Hk mb Hwf _. unfold need at 1, get, bind.
  destruct (Z.ltb_spec (mbuf_get_left mb) n); 
    [eexists _, _, _; by split_and!; [|apply advanced_refl|]|].
  destruct (Hk mb Hwf ltac:(done)) as (e' & r' & mb1 & E & Ha & Hok). exists e', r', mb1.
  split_and!; [done..|]. intros ->. destruct (Hok eq_refl) as (Hp & bs & rest & Eu & Hl & Em & Hr).
  split; [done|]. exists bs, rest. split_and!; [done|lia|done|]. by apply reads_need.
Qed.

(** Sequencing after an exact reader of [n] bytes. *)
Lemma parses_bind_exact {A R} n p (m : M mbuf A) (k : A -> M mbuf (Z * R)) (Q : A -> Prop) (P : R -> Prop) :
  0 <= n -> 0 <= p -> (forall bs, zlength bs = n -> bytes_ok bs -> exists a, Reads m bs a /\ Q a) ->
  (forall a, Q a -> Parses p (k a) P) -> Parses (n + p) (bind m k) P.
Proof.
  intros Hn Hp Hm Hk mb Hwf Hl. destruct (unread_split mb n Hwf) as (b1 & r1 & E1 & L1 & O1); [lia|].
  destruct (Hm b1 L1 O1) as (a & Hr & Hq). rewrite (bind_Some _ _ _ _ _ (Hr mb r1 Hwf E1)).
  pose proof (unread_wf _ _ _ Hwf E1) as Hwf1. pose proof (left_advance _ _ _ Hwf E1) as El.
  destruct (Hk a Hq _ Hwf1) as (e & r & mb1 & E & Ha & Hok); [lia|]. exists e, r, mb1.
  split_and!; [done|by eapply advanced_trans; [apply (advanced_unread _ _ _ Hwf E1)|]|].
  intros ->. destruct (Hok eq_refl) as (Hpr & b2 & r2 & E2 & L2 & -> & Hr2). split; [done|].
  rewrite (unread_advance _ _ _ Hwf E1) in E2. subst r1.
  exists (b1 ++ b2), r2. rewrite <- app_assoc, length_app. split_and!; [done|lia| |by eapply reads_bind].
  destruct mb. unfold set_pos. simpl. f_equal. lia.
Qed.

Lemma parses_u8 {R} n (k : Z -> M mbuf (Z * R)) (P : R -> Prop) : 1 <= n ->
  (forall v, 0 <= v < 256 -> Parses (n - 1) (k v) P) -> Parses n (bind mbuf_read_u8 k) P.
Proof.
  intros Hn Hk. replace n with (1 + (n - 1)) by lia.
  apply (parses_bind_exact _ _ _ _ (fun v => 0 <= v < 256)); [lia|lia| |done].
  intros bs Hl Hok. exists (host_val bs). split; [apply (reads_int 1); lia|].
  pose proof (host_val_range bs Hok) as R1. by rewrite Hl in R1.
Qed.

Lemma parses_u32 {R} n (k : Z -> M mbuf (Z * R)) (P : R -> Prop) : 4 <= n ->
  (forall v, 0 <= v < 2 ^ 32 -> Parses (n - 4) (k v) P) -> Parses n (bind mbuf_read_u32 k) P.
Proof.
  intros Hn Hk. replace n with (4 + (n - 4)) by lia.
  apply (parses_bind_exact _ _ _ _ (fun v => 0 <= v < 2 ^ 32)); [lia|lia| |done].
  intros bs Hl Hok. exists (host_val bs). split; [apply (reads_int 4); lia|].
  pose proof (host_val_range bs Hok) as R1. by rewrite Hl in R1.
Qed.

Lemma reads_net_val n bs : length bs = n -> bytes_ok bs ->
  Reads (let* x := mbuf_read_int n in ret (ntoh n x)) bs (be_val bs) /\ 0 <= be_val bs < 256 ^ Z.of_nat n.
Proof.
  intros Hl Hok. pose proof (be_val_range bs Hok) as R1. rewrite Hl in R1. split; [|done].
  rewrite <- (be_bytes_val bs Hok) at 1. rewrite Hl. by apply reads_net_int.
Qed.

Lemma parses_ntohs {R} n (k : Z -> M mbuf (Z * R)) (P : R -> Prop) : 2 <= n ->
  (forall v, 0 <= v < 2 ^ 16 -> Parses (n - 2) (k v) P) -> Parses n (bind mbuf_read_ntohs k) P.
Proof.
  intros Hn Hk. replace n with (2 + (n - 2)) by lia.
  apply (parses_bind_exact _ _ _ _ (fun v => 0 <= v < 2 ^ 16)); [lia|lia| |done].
  intros bs Hl Hok. exists (be_val bs). apply (reads_net_val 2); [lia|done].
Qed.

Lemma parses_ntohl {R} n (k : Z -> M mbuf (Z * R)) (P : R -> Prop) : 4 <= n ->
  (forall v, 0 <= v < 2 ^ 32 -> Parses (n - 4) (k v) P) -> Parses n (bind mbuf_read_ntohl k) P.
Proof.
  intros Hn Hk. replace n with (4 + (n - 4)) by lia.
  apply (parses_bind_exact _ _ _ _ (fun v => 0 <= v < 2 ^ 32)); [lia|lia| |done].
  intros bs Hl Hok. exists (be_val bs). apply (reads_net_val 4); [lia|done].
Qed.

Lemma parses_mem {R} n sz (k : Z * list Z -> M mbuf (Z * R)) (P : R -> Prop) : 0 <= sz <= n ->
  (forall bs, zlength bs = sz -> bytes_ok bs -> Parses (n - sz) (k (0, bs)) P) ->
  Parses n (bind (mbuf_read_mem sz) k) P.
Proof.
  intros Hn Hk. replace n with (sz + (n - sz)) by lia.
  apply (parses_bind_exact _ _ _ _ (fun r => r.1 = 0 /\ zlength r.2 = sz /\ bytes_ok r.2)); [lia|lia| |].
  - intros bs Hl Hok. exists (0, bs). split; [by apply reads_mem|done].
  - intros [e bs] (E & Hl & Hok). simpl in *. subst e. by apply Hk.
Qed.

(** [err = decode(&r); if (err) return err; k] *)
Lemma parses_then {R T} (m : M mbuf (Z * R)) (k : R -> M mbuf (Z * T)) (f : R -> T) (Q : R -> Prop)
    (P : T -> Prop) :
  Parses 0 m Q -> (forall r, Q r -> Parses 0 (k r) P) ->
  Parses 0 (let* '(e, r) := m in if nz e then ret (e, f r) else k r) P.
Proof.
  intros Hm Hk mb Hwf H0. destruct (Hm mb Hwf H0) as (e & r & mb1 & E & Ha & Hok).
  rewrite (bind_Some _ _ _ _ _ E). unfold nz. destruct (Z.eqb_spec e 0) as [->|Hne]; cbn [negb].
  2: { eexists _, _, _. split_and!; done. }
  destruct (Hok eq_refl) as (Hq & b1 & r1 & E1 & L1 & -> & Hr). pose proof (unread_wf _ _ _ Hwf E1) as Hwf1.
  destruct (Hk r Hq _ Hwf1) as (e2 & t & mb2 & E2 & Ha2 & Hok2); [by apply left_bound|].
  exists e2, t, mb2. split_and!; [done|by eapply advanced_trans|]. intros ->.
  destruct (Hok2 eq_refl) as (Hp & b2 & r2 & Eu & L2 & -> & Hr2). split; [done|].
  rewrite (unread_advance _ _ _ Hwf E1) in Eu. subst r1.
  exists (b1 ++ b2), r2. rewrite <- app_assoc, length_app. split_and!; [done|lia| |by eapply reads_bind].
  destruct mb. unfold set_pos. simpl. f_equal. lia.
Qed.

Lemma parses_if {R} n (b : bool) (m1 m2 : M mbuf (Z * R)) (P : R -> Prop) :
  (b = true -> Parses n m1 P) -> (b = false -> Parses n m2 P) -> Parses n (if b then m1 else m2) P.
Proof. destruct b; auto. Qed.

Lemma parses_safe {R} (m : M mbuf (Z * R)) P : Parses 0 m P -> SafeRead m.
Proof.
  intros Hm mb Hwf. destruct (Hm mb Hwf) as (e & r & mb1 & E & Ha & _); [by apply left_bound|]. eauto.
Qed.

(** More data does not change the result of a successful decoder. *)
Lemma parses_more {R} (m : M mbuf (Z * R)) P mb mb' more r mb1 : Parses 0 m P -> mbuf_wf mb -> mbuf_wf mb' ->
  unread mb' = unread mb ++ more -> m mb = Some ((0, r), mb1) ->
  P r /\ exists bs rest, unread mb = bs ++ rest /\ mb1 = set_pos (mb_pos mb + zlength bs) mb /\
    m mb' = Some ((0, r), set_pos (mb_pos mb' + zlength bs) mb').
Proof.
  intros Hm Hwf Hwf' Eu E. destruct (Hm mb Hwf) as (e & r' & mb1' & E' & _ & Hok); [by apply left_bound|].
  rewrite E in E'. simplify_eq. destruct (Hok eq_refl) as (Hp & bs & rest & E1 & _ & Em & Hr).
  split; [done|]. exists bs, rest. split_and!; [done..|]. apply (Hr mb' (rest ++ more) Hwf').
  by rewrite Eu, E1, <- app_assoc.
Qed.

End parses.
