(* ===== verification/Sys.v ===== *)
(** * Byte order conversion (src/sys/endian.c)

    The routines inspect the object representation of their argument, so they
    are modelled through [host_bytes] and [host_val] and proved for both byte
    orders. *)

From S2P Require Export Prelude.

Section sys.
Context `{Host}.

(** [p[i]] of the representation. *)
Definition byte_at (p : list Z) (i : nat) : Z := nth i p 0.

Definition sys_htols (v : Z) : Z :=
  let p := host_bytes 2 v in
  Z.lor (Z.shiftl (byte_at p 0) 0) (Z.shiftl (byte_at p 1) 8).

Definition sys_htoll (v : Z) : Z :=
  let p := host_bytes 4 v in
  Z.lor (Z.lor (Z.lor (Z.shiftl (byte_at p 0) 0) (Z.shiftl (byte_at p 1) 8))
    (Z.shiftl (byte_at p 2) 16)) (Z.shiftl (byte_at p 3) 24).

Definition sys_ltohs (v : Z) : Z :=
  host_val [Z.land (Z.shiftr v 0) 255; Z.land (Z.shiftr v 8) 255].

Definition sys_ltohl (v : Z) : Z :=
  host_val [Z.land (Z.shiftr v 0) 255; Z.land (Z.shiftr v 8) 255;
            Z.land (Z.shiftr v 16) 255; Z.land (Z.shiftr v 24) 255].

Definition sys_htonll (v : Z) : Z :=
  let p := host_bytes 8 v in
  Z.lor (Z.lor (Z.lor (Z.lor (Z.lor (Z.lor (Z.lor
    (Z.shiftl (byte_at p 0) 56) (Z.shiftl (byte_at p 1) 48)) (Z.shiftl (byte_at p 2) 40))
    (Z.shiftl (byte_at p 3) 32)) (Z.shiftl (byte_at p 4) 24)) (Z.shiftl (byte_at p 5) 16))
    (Z.shiftl (byte_at p 6) 8)) (Z.shiftl (byte_at p 7) 0).

Definition sys_ntohll (v : Z) : Z :=
  host_val [Z.land (Z.shiftr v 56) 255; Z.land (Z.shiftr v 48) 255;
            Z.land (Z.shiftr v 40) 255; Z.land (Z.shiftr v 32) 255;
            Z.land (Z.shiftr v 24) 255; Z.land (Z.shiftr v 16) 255;
            Z.land (Z.shiftr v 8) 255; Z.land (Z.shiftr v 0) 255].

(** ** The routines as values *)

(** Or-ing bytes at increasing shifts is the little-endian value. *)
Lemma lor_high_byte acc b n : 0 <= n -> 0 <= acc < 2 ^ n -> Z.lor acc (Z.shiftl b n) = acc + b * 2 ^ n.
Proof. intros. rewrite Z.shiftl_mul_pow2, lor_add_r by done. lia. Qed.

Lemma sys_htols_val v : sys_htols v = le_val (host_bytes 2 v).
Proof.
  unfold sys_htols. pose proof (host_bytes_ok 2 v) as Hok. pose proof (length_host_bytes 2 v) as Hl.
  destruct (host_bytes 2 v) as [|b0 [|b1 [|? ?]]]; simplify_eq/=.
  bytes_inv Hok. cbn [byte_at nth le_val].
  rewrite Z.shiftl_0_r, (lor_high_byte b0 b1 8) by lia. lia.
Qed.

Lemma sys_htoll_val v : sys_htoll v = le_val (host_bytes 4 v).
Proof.
  unfold sys_htoll. pose proof (host_bytes_ok 4 v) as Hok. pose proof (length_host_bytes 4 v) as Hl.
  destruct (host_bytes 4 v) as [|b0 [|b1 [|b2 [|b3 [|? ?]]]]]; simplify_eq/=.
  bytes_inv Hok. cbn [byte_at nth le_val].
  rewrite Z.shiftl_0_r, (lor_high_byte b0 b1 8), (lor_high_byte _ b2 16), (lor_high_byte _ b3 24) by lia. lia.
Qed.

Lemma lor_low_byte acc b n m : 0 <= n -> m = n + 8 -> 0 <= b < 256 ->
  Z.lor (acc * 2 ^ m) (Z.shiftl b n) = (acc * 256 + b) * 2 ^ n.
Proof.
  intros Hn -> Hb. assert (2 ^ (n + 8) = 2 ^ n * 256) as E by (rewrite Z.pow_add_r by lia; done).
  rewrite Z.shiftl_mul_pow2, lor_add by (lia || nia). rewrite E. lia.
Qed.

Lemma sys_htonll_val v : sys_htonll v = be_val (host_bytes 8 v).
Proof.
  unfold sys_htonll. pose proof (host_bytes_ok 8 v) as Hok. pose proof (length_host_bytes 8 v) as Hl.
  destruct (host_bytes 8 v) as [|b0 [|b1 [|b2 [|b3 [|b4 [|b5 [|b6 [|b7 [|? ?]]]]]]]]]; simplify_eq/=.
  bytes_inv Hok. unfold be_val. cbn [byte_at nth le_val reverse].
  rewrite (Z.shiftl_mul_pow2 b0 56) by lia.
  rewrite (lor_low_byte b0 b1 48 56), (lor_low_byte _ b2 40 48), (lor_low_byte _ b3 32 40),
    (lor_low_byte _ b4 24 32), (lor_low_byte _ b5 16 24), (lor_low_byte _ b6 8 16),
    (lor_low_byte _ b7 0 8) by lia.
  cbn. lia.
Qed.

Lemma le_bytes_4 v : le_bytes 4 v =
  [v mod 256; (v / 256) mod 256; (v / 65536) mod 256; (v / 16777216) mod 256].
Proof. cbn. rewrite !Z.div_div by lia. done. Qed.

(** ** Wire representation *)

(** Storing [sys_htoll v] in host order stores [v] least significant first. *)
Lemma host_bytes_htoll v : host_bytes 4 (sys_htoll v) = le_bytes 4 v.
Proof.
  rewrite sys_htoll_val. unfold host_bytes. case_match.
  - unfold be_bytes. rewrite <- (length_le_bytes 4 v) at 1.
    rewrite <- (length_reverse (le_bytes 4 v)), le_bytes_val by apply Forall_reverse, le_bytes_ok.
    apply reverse_involutive.
  - rewrite <- (length_le_bytes 4 v) at 1. apply le_bytes_val, le_bytes_ok.
Qed.

Lemma host_bytes_htonll v : host_bytes 8 (sys_htonll v) = be_bytes 8 v.
Proof.
  rewrite sys_htonll_val. unfold host_bytes. case_match.
  - rewrite <- (length_be_bytes 8 v) at 1. apply be_bytes_val, be_bytes_ok.
  - unfold be_bytes, be_val. rewrite <- (length_le_bytes 8 v) at 1.
    rewrite <- (length_reverse (le_bytes 8 v)). apply le_bytes_val, Forall_reverse, le_bytes_ok.
Qed.

Lemma sys_ltohl_host_val bs : bytes_ok bs -> length bs = 4%nat -> sys_ltohl (host_val bs) = le_val bs.
Proof.
  intros Hok Hl. unfold sys_ltohl. rewrite !land_255, !Z.shiftr_div_pow2 by lia.
  change (2 ^ 0) with 1. rewrite Z.div_1_r. change (2 ^ 8) with 256. change (2 ^ 16) with 65536.
  change (2 ^ 24) with 16777216. rewrite <- le_bytes_4.
  unfold host_val. case_match.
  - unfold be_val. f_equal. rewrite <- (reverse_involutive bs) at 2. f_equal.
    rewrite <- Hl, <- (length_reverse bs). by apply le_bytes_val, Forall_reverse.
  - rewrite <- Hl. by rewrite le_bytes_val.
Qed.

Lemma sys_ntohll_be v : sys_ntohll v = host_val (be_bytes 8 v).
Proof.
  unfold sys_ntohll. f_equal. rewrite !land_255, !Z.shiftr_div_pow2 by lia.
  unfold be_bytes. cbn. rewrite !Z.div_div by lia. cbn. by rewrite Z.div_1_r.
Qed.

Lemma sys_ntohll_host_val bs : bytes_ok bs -> length bs = 8%nat -> sys_ntohll (host_val bs) = be_val bs.
Proof.
  intros Hok Hl. rewrite sys_ntohll_be, <- Hl. unfold host_val. case_match.
  - by rewrite be_bytes_val.
  - unfold be_bytes. by rewrite le_bytes_val.
Qed.

(** On a host of either byte order, [sys_htoll] and [sys_ltohl] (and
    [sys_htonll] and [sys_ntohll]) are inverse, and the representation of the
    converted value is little endian (respectively network order). *)
Theorem sys_endian_spec v : 0 <= v < 2 ^ 32 -> forall w, 0 <= w < 2 ^ 64 ->
  sys_ltohl (sys_htoll v) = v /\ host_bytes 4 (sys_htoll v) = le_bytes 4 v /\
  sys_ntohll (sys_htonll w) = w /\ host_bytes 8 (sys_htonll w) = be_bytes 8 w.
Proof.
  intros Hv w Hw. split_and!; auto using host_bytes_htoll, host_bytes_htonll.
  - assert (0 <= sys_htoll v < 256 ^ Z.of_nat 4) as Hr.
    { rewrite sys_htoll_val. pose proof (le_val_range _ (host_bytes_ok 4 v)) as R.
      by rewrite length_host_bytes in R. }
    rewrite <- (host_val_bytes 4 (sys_htoll v)), host_bytes_htoll by done.
    rewrite sys_ltohl_host_val by auto using le_bytes_ok, length_le_bytes. by apply le_val_bytes.
  - assert (0 <= sys_htonll w < 256 ^ Z.of_nat 8) as Hr.
    { rewrite sys_htonll_val. pose proof (be_val_range _ (host_bytes_ok 8 w)) as R.
      by rewrite length_host_bytes in R. }
    rewrite <- (host_val_bytes 8 (sys_htonll w)), host_bytes_htonll by done.
    rewrite sys_ntohll_host_val by auto using be_bytes_ok, length_be_bytes. by apply be_val_bytes.
Qed.

End sys.

Lemma sys_endian_spec_witness :
  sys_ltohl (H := lp64_host) (sys_htoll (H := lp64_host) 305419896) = 305419896.
Proof. apply (sys_endian_spec (H := lp64_host) 305419896 ltac:(lia) 0 ltac:(lia)). Defined.
