(* ===== verification/Rtp.v ===== *)
(** * RTP headers (src/rtp/rtp.c)

    Encoding and decoding of the fixed RTP header with its CSRC list and the
    generic header extension, and the packet-level wrappers of the RTP socket. *)

From S2P Require Export Prelude Mbuf MbufSpec.

Definition RTP_VERSION : Z := 2.
Definition RTP_HEADER_SIZE : Z := 12.

Record rtp_header := RtpHeader {
  rtp_ver : Z;
  rtp_pad : bool;
  rtp_ext : bool;
  rtp_cc : Z;
  rtp_m : bool;
  rtp_pt : Z;
  rtp_seq : Z;
  rtp_ts : Z;
  rtp_ts_arrive : Z;
  rtp_ssrc : Z;
  rtp_csrc : list Z;     (* uint32_t csrc[16] *)
  rtp_x_type : Z;
  rtp_x_len : Z;
}.

Section rtp.
Context `{Host}.

(** [for (i=0; i<hdr->cc; i++) err |= mbuf_write_u32(mb, htonl(hdr->csrc[i]))];
    an index outside the array is undefined. *)
Fixpoint encode_csrc (csrc : list Z) (i n : nat) : M mbuf Z :=
  match n with
  | O => ret 0
  | S n =>
      match csrc !! i with
      | Some v => mbuf_write_u32 (htonl v)
      | None => ub
      end |; encode_csrc csrc (S i) n
  end.

Definition hdr_byte0 (hdr : rtp_header) : Z :=
  Z.lor (Z.lor (Z.lor (u8 (Z.shiftl (Z.land (rtp_ver hdr) 2) 6))
    (Z.shiftl (b2z (rtp_pad hdr)) 5)) (Z.shiftl (b2z (rtp_ext hdr)) 4))
    (Z.shiftl (Z.land (rtp_cc hdr) 15) 0).

Definition hdr_byte1 (hdr : rtp_header) : Z :=
  Z.lor (Z.shiftl (b2z (rtp_m hdr)) 7) (Z.shiftl (Z.land (rtp_pt hdr) 127) 0).

Definition rtp_hdr_encode (hdr : rtp_header) : M mbuf Z :=
  mbuf_write_mem [hdr_byte0 hdr; hdr_byte1 hdr] |;
  mbuf_write_u16 (htons (rtp_seq hdr)) |;
  mbuf_write_u32 (htonl (rtp_ts hdr)) |;
  mbuf_write_u32 (htonl (rtp_ssrc hdr)) |;
  encode_csrc (rtp_csrc hdr) 0 (Z.to_nat (rtp_cc hdr)).

(** [for (i=0; i<hdr->cc; i++) hdr->csrc[i] = ntohl(mbuf_read_u32(mb))] *)
Fixpoint decode_csrc (csrc : list Z) (i n : nat) : M mbuf (list Z) :=
  match n with
  | O => ret csrc
  | S n =>
      let* v := mbuf_read_ntohl in
      if (i <? length csrc)%nat
      then decode_csrc (<[i := v]> csrc) (S i) n
      else ub
  end.

Definition with_x (hdr : rtp_header) (xt xl : Z) : rtp_header :=
  RtpHeader (rtp_ver hdr) (rtp_pad hdr) (rtp_ext hdr) (rtp_cc hdr) (rtp_m hdr) (rtp_pt hdr)
    (rtp_seq hdr) (rtp_ts hdr) (rtp_ts_arrive hdr) (rtp_ssrc hdr) (rtp_csrc hdr) xt xl.

Definition with_csrc (hdr : rtp_header) (csrc : list Z) : rtp_header :=
  RtpHeader (rtp_ver hdr) (rtp_pad hdr) (rtp_ext hdr) (rtp_cc hdr) (rtp_m hdr) (rtp_pt hdr)
    (rtp_seq hdr) (rtp_ts hdr) (rtp_ts_arrive hdr) (rtp_ssrc hdr) csrc (rtp_x_type hdr) (rtp_x_len hdr).

(** The part after the fixed header: CSRC list and extension. *)
Definition rtp_hdr_decode_tail (hdr : rtp_header) : M mbuf (Z * rtp_header) :=
  need (rtp_cc hdr * 4) (ret (EBADMSG, hdr))
    (let* csrc := decode_csrc (rtp_csrc hdr) 0 (Z.to_nat (rtp_cc hdr)) in
     let hdr := with_csrc hdr csrc in
     if rtp_ext hdr then
       need 4 (ret (EBADMSG, hdr))
         (let* xt := mbuf_read_ntohs in
          let* xl := mbuf_read_ntohs in
          let hdr := with_x hdr xt xl in
          need (rtp_x_len hdr * 4) (ret (EBADMSG, hdr))
            (mbuf_advance (rtp_x_len hdr * 4) ;; ret (0, hdr)))
     else ret (0, hdr)).

(** The fields after the first two octets. *)
Definition rtp_hdr_decode_rest (hdr : rtp_header) (b0 b1 : Z) : M mbuf (Z * rtp_header) :=
  let* seq := mbuf_read_ntohs in
  let* ts := mbuf_read_ntohl in
  let* ssrc := mbuf_read_ntohl in
  rtp_hdr_decode_tail
    (RtpHeader (Z.land (Z.shiftr b0 6) 3) (nz (Z.land (Z.shiftr b0 5) 1))
       (nz (Z.land (Z.shiftr b0 4) 1)) (Z.land (Z.shiftr b0 0) 15)
       (nz (Z.land (Z.shiftr b1 7) 1)) (Z.land (Z.shiftr b1 0) 127)
       seq ts (rtp_ts_arrive hdr) ssrc (rtp_csrc hdr)
       (rtp_x_type hdr) (rtp_x_len hdr)).

(** [hdr] is the caller's structure; the decoded fields are stored into it
    as the code goes, also when it fails later. *)
Definition rtp_hdr_decode (hdr : rtp_header) : M mbuf (Z * rtp_header) :=
  need RTP_HEADER_SIZE (ret (EBADMSG, hdr))
    (let* '(err, buf) := mbuf_read_mem 2 in
     if nz err then ret (err, hdr)
     else rtp_hdr_decode_rest hdr (nth 0 buf 0) (nth 1 buf 0)).

(** ** RTP socket wrappers *)

Record rtp_enc := RtpEnc { enc_seq : Z; enc_ssrc : Z }.

(** The stack-allocated header: the CSRC array and extension are unset. *)
Definition new_hdr (ext marker : bool) (pt seq ts ssrc : Z) : rtp_header :=
  RtpHeader RTP_VERSION false ext 0 marker pt seq ts 0 ssrc (replicate 16 0) 0 0.

Definition rtp_encode_seq (rs : rtp_enc) (seq : Z) (ext marker : bool) (pt ts : Z) : M mbuf Z :=
  if nz (Z.land pt (Z.lnot 127)) then ret EINVAL
  else rtp_hdr_encode (new_hdr ext marker pt seq ts (enc_ssrc rs)).

Definition rtp_encode (rs : rtp_enc) (ext marker : bool) (pt ts : Z) (mb : mbuf)
    : option (Z * rtp_enc * mbuf) :=
  if nz (Z.land pt (Z.lnot 127)) then Some (EINVAL, rs, mb)
  else
    let seq := u16 (enc_seq rs + 1) in
    match rtp_hdr_encode (new_hdr ext marker pt seq ts (enc_ssrc rs)) mb with
    | Some (err, mb') => Some (err, RtpEnc seq (enc_ssrc rs), mb')
    | None => None
    end.

Definition zero_hdr : rtp_header :=
  RtpHeader 0 false false 0 false 0 0 0 0 0 (replicate 16 0) 0 0.

Definition rtp_decode : M mbuf (Z * rtp_header) :=
  let* '(err, hdr) := rtp_hdr_decode zero_hdr in
  if nz err then ret (err, hdr)
  else if negb (RTP_VERSION =? rtp_ver hdr) then ret (EBADMSG, hdr)
  else ret (0, hdr).

(** ** Correctness *)

Definition csrc_bytes (cs : list Z) : list Z := cs ≫= be_bytes 4.

Definition rtp_hdr_bytes (hdr : rtp_header) : list Z :=
  [hdr_byte0 hdr; hdr_byte1 hdr] ++ be_bytes 2 (rtp_seq hdr) ++ be_bytes 4 (rtp_ts hdr) ++
  be_bytes 4 (rtp_ssrc hdr) ++ csrc_bytes (take (Z.to_nat (rtp_cc hdr)) (rtp_csrc hdr)).

(** A header that the wire format can express. *)
Record rtp_hdr_ok (hdr : rtp_header) : Prop := {
  ok_ver : rtp_ver hdr = RTP_VERSION;
  ok_cc : 0 <= rtp_cc hdr <= 15;
  ok_pt : 0 <= rtp_pt hdr < 128;
  ok_seq : 0 <= rtp_seq hdr < 2 ^ 16;
  ok_ts : 0 <= rtp_ts hdr < 2 ^ 32;
  ok_ssrc : 0 <= rtp_ssrc hdr < 2 ^ 32;
  ok_csrc : length (rtp_csrc hdr) = 16%nat;
  ok_csrc_range : Forall (fun v => 0 <= v < 2 ^ 32) (rtp_csrc hdr);
}.

Lemma encode_csrc_writes csrc i n : (i + n <= length csrc)%nat ->
  Writes (encode_csrc csrc i n) (csrc_bytes (take n (drop i csrc))).
Proof.
  revert i. induction n as [|n IH]; intros i Hi; [apply writes_ret0|]. cbn [encode_csrc].
  destruct (csrc !! i) as [v|] eqn:E; [|apply lookup_ge_None in E; lia].
  rewrite (drop_S _ _ _ E). cbn. apply writes_or_err; [apply _|]. apply IH. lia.
Qed.

(** The packed octets, by cases on the flags and arithmetic on the rest. *)
Lemma hdr_byte0_eq hdr : rtp_ver hdr = RTP_VERSION -> 0 <= rtp_cc hdr <= 15 ->
  hdr_byte0 hdr = 128 + 32 * b2z (rtp_pad hdr) + 16 * b2z (rtp_ext hdr) + rtp_cc hdr.
Proof.
  intros Hv Hc. unfold hdr_byte0. rewrite Hv, Z.shiftl_0_r.
  change 15 with (2 ^ 4 - 1). rewrite land_ones_mod, Z.mod_small by lia.
  assert (Z.lor (Z.lor (u8 (Z.shiftl (Z.land RTP_VERSION 2) 6)) (Z.shiftl (b2z (rtp_pad hdr)) 5))
      (Z.shiftl (b2z (rtp_ext hdr)) 4)
    = (8 + 2 * b2z (rtp_pad hdr) + b2z (rtp_ext hdr)) * 2 ^ 4) as ->
    by (by destruct (rtp_pad hdr), (rtp_ext hdr)).
  rewrite lor_add by lia. lia.
Qed.

Lemma hdr_byte1_eq hdr : 0 <= rtp_pt hdr < 128 ->
  hdr_byte1 hdr = 128 * b2z (rtp_m hdr) + rtp_pt hdr.
Proof.
  intros Hp. unfold hdr_byte1. rewrite Z.shiftl_0_r. change 127 with (2 ^ 7 - 1).
  rewrite land_ones_mod, Z.mod_small, lor_shiftl by lia. lia.
Qed.

Lemma rtp_hdr_encode_writes hdr : rtp_hdr_ok hdr -> Writes (rtp_hdr_encode hdr) (rtp_hdr_bytes hdr).
Proof.
  intros [Hv Hc Hp Hs Ht Hr Hl Hcr]. unfold rtp_hdr_encode, rtp_hdr_bytes.
  apply writes_or_err; [apply writes_mem|repeat apply writes_or_err; try apply _].
  - rewrite hdr_byte0_eq, hdr_byte1_eq by done. unfold byte_ok.
    repeat constructor; destruct (rtp_pad hdr), (rtp_ext hdr), (rtp_m hdr); cbn [b2z]; lia.
  - apply (encode_csrc_writes _ 0). lia.
Qed.

Lemma length_csrc_bytes cs : length (csrc_bytes cs) = (4 * length cs)%nat.
Proof.
  unfold csrc_bytes. induction cs as [|c cs IH]; [done|].
  cbn. rewrite length_app, length_be_bytes, IH. lia.
Qed.

Lemma decode_csrc_reads cs i n csrc : (i + n <= length csrc)%nat -> length cs = n ->
  Forall (fun v => 0 <= v < 2 ^ 32) cs ->
  Reads (decode_csrc csrc i n) (csrc_bytes cs) (take i csrc ++ cs ++ drop (i + n) csrc).
Proof.
  intros Hi Hn Hr. revert i csrc n Hi Hn. induction Hr as [|c cs Hc _ IH]; intros i csrc n Hi Hn.
  - simpl in Hn. subst n. rewrite Nat.add_0_r. simpl. rewrite take_drop. apply reads_ret.
  - destruct n as [|n]; [done|]. cbn [decode_csrc csrc_bytes]. simplify_eq/=.
    apply reads_ntohl; [done|].
    rewrite (proj2 (Nat.ltb_lt _ _)) by lia.
    replace (take i csrc ++ c :: cs ++ drop (i + S (length cs)) csrc)
      with (take (S i) (<[i:=c]> csrc) ++ cs ++ drop (S i + length cs) (<[i:=c]> csrc)).
    + apply IH; rewrite ?length_insert; lia.
    + rewrite (take_S_r _ _ c) by (apply list_lookup_insert_eq; lia).
      rewrite take_insert_ge by lia. rewrite drop_insert_lt by lia.
      rewrite <- app_assoc. simpl. do 4 f_equal. lia.
Qed.
(** The extension that follows the CSRC list when the extension bit is set. *)
Definition ext_bytes (ext : bool) (xt xl : Z) (xdata : list Z) : list Z :=
  if ext then be_bytes 2 xt ++ be_bytes 2 xl ++ xdata else [].

(** What decoding stores: the header fields on top of the caller's structure. *)
Definition decoded_hdr (hdr0 hdr : rtp_header) (xt xl : Z) : rtp_header :=
  RtpHeader (rtp_ver hdr) (rtp_pad hdr) (rtp_ext hdr) (rtp_cc hdr) (rtp_m hdr) (rtp_pt hdr)
    (rtp_seq hdr) (rtp_ts hdr) (rtp_ts_arrive hdr0) (rtp_ssrc hdr)
    (take (Z.to_nat (rtp_cc hdr)) (rtp_csrc hdr) ++ drop (Z.to_nat (rtp_cc hdr)) (rtp_csrc hdr0))
    (if rtp_ext hdr then xt else rtp_x_type hdr0) (if rtp_ext hdr then xl else rtp_x_len hdr0).

Lemma rtp_tail_reads hdr cs xt xl xdata :
  0 <= rtp_cc hdr <= 15 -> length (rtp_csrc hdr) = 16%nat -> zlength cs = rtp_cc hdr ->
  Forall (fun v => 0 <= v < 2 ^ 32) cs ->
  0 <= xt < 2 ^ 16 -> 0 <= xl < 2 ^ 16 -> zlength xdata = xl * 4 ->
  let hdr' := with_csrc hdr (cs ++ drop (Z.to_nat (rtp_cc hdr)) (rtp_csrc hdr)) in
  Reads (rtp_hdr_decode_tail hdr) (csrc_bytes cs ++ ext_bytes (rtp_ext hdr) xt xl xdata)
    (0, if rtp_ext hdr then with_x hdr' xt xl else hdr').
Proof.
  intros Hcc Hl Hcs Hr Hxt Hxl Hxd hdr'. unfold rtp_hdr_decode_tail.
  apply reads_need; [rewrite length_app, length_csrc_bytes; lia|].
  eapply reads_bind; [apply (decode_csrc_reads cs); lia || done|]. cbn [take app Nat.add].
  rewrite take_0, app_nil_l. cbv zeta. fold hdr'. change (rtp_ext hdr') with (rtp_ext hdr). unfold ext_bytes.
  destruct (rtp_ext hdr); [|apply reads_ret].
  apply reads_need; [rewrite !length_app, !length_be_bytes; lia|].
  apply reads_ntohs; [done|]. apply reads_ntohs; [done|].
  apply reads_need; [simpl; lia|]. rewrite <- (app_nil_r xdata).
  eapply reads_bind; [by apply reads_advance|apply reads_ret].
Qed.

(** The first two octets decode to the fields they were packed from. *)
Lemma hdr_bytes_fields p e cc m pt : 0 <= cc <= 15 -> 0 <= pt < 128 ->
  let b0 := 128 + 32 * b2z p + 16 * b2z e + cc in
  let b1 := 128 * b2z m + pt in
  Z.land (Z.shiftr b0 6) 3 = 2 /\ nz (Z.land (Z.shiftr b0 5) 1) = p /\
  nz (Z.land (Z.shiftr b0 4) 1) = e /\ Z.land (Z.shiftr b0 0) 15 = cc /\
  nz (Z.land (Z.shiftr b1 7) 1) = m /\ Z.land (Z.shiftr b1 0) 127 = pt.
Proof.
  intros Hc Hp b0 b1. subst b0 b1.
  split_and!; [bits; destruct p, e; cbn [b2z]; dlia| | |bits; destruct p, e; cbn [b2z]; dlia| |].
  - rewrite <- (nz_b2z p) at 2. f_equal. bits. destruct p, e; cbn [b2z]; dlia.
  - rewrite <- (nz_b2z e) at 2. f_equal. bits. destruct p, e; cbn [b2z]; dlia.
  - rewrite <- (nz_b2z m) at 2. f_equal. bits. destruct m; cbn [b2z]; dlia.
  - bits. destruct m; cbn [b2z]; dlia.
Qed.

Lemma rtp_hdr_decode_reads hdr0 hdr xt xl xdata :
  rtp_hdr_ok hdr -> length (rtp_csrc hdr0) = 16%nat ->
  0 <= xt < 2 ^ 16 -> 0 <= xl < 2 ^ 16 -> zlength xdata = xl * 4 ->
  Reads (rtp_hdr_decode hdr0) (rtp_hdr_bytes hdr ++ ext_bytes (rtp_ext hdr) xt xl xdata)
    (0, decoded_hdr hdr0 hdr xt xl).
Proof.
  intros [Hv Hc Hp Hs Ht Hr Hl Hcr] Hl0 Hxt Hxl Hxd. unfold rtp_hdr_decode, rtp_hdr_bytes.
  rewrite <- !app_assoc. apply reads_need.
  { rewrite !length_app, !length_be_bytes. simpl. unfold RTP_HEADER_SIZE. lia. }
  apply reads_mem_k; [done|]. cbn [nz Z.eqb negb nth]. unfold rtp_hdr_decode_rest.
  apply reads_ntohs; [done|]. apply reads_ntohl; [done|]. apply reads_ntohl; [done|].
  rewrite hdr_byte0_eq, hdr_byte1_eq by done.
  destruct (hdr_bytes_fields (rtp_pad hdr) (rtp_ext hdr) (rtp_cc hdr) (rtp_m hdr) (rtp_pt hdr))
    as (-> & -> & -> & -> & -> & ->); [done..|].
  set (h := RtpHeader _ _ _ _ _ _ _ _ _ _ _ _ _).
  pose proof (rtp_tail_reads h (take (Z.to_nat (rtp_cc hdr)) (rtp_csrc hdr)) xt xl xdata) as R.
  subst h. unfold decoded_hdr, with_x, with_csrc in *. cbn -[take drop] in R. rewrite Hv.
  destruct (rtp_ext hdr); apply R; try done; [rewrite length_take; lia|by apply Forall_take
    |rewrite length_take; lia|by apply Forall_take].
Qed.

Lemma length_rtp_hdr_bytes hdr : rtp_hdr_ok hdr -> zlength (rtp_hdr_bytes hdr) = 12 + 4 * rtp_cc hdr.
Proof.
  intros [Hv Hc _ _ _ _ Hlc _].
  unfold rtp_hdr_bytes. rewrite !length_app, !length_be_bytes, length_csrc_bytes, length_take. simpl. lia.
Qed.

(** Decoding an encoded RTP header returns the header: for every header
    with version 2 and at most 15 contributing sources, followed by the header
    extension when the extension bit is set, encoding succeeds (or fails only
    for lack of memory) and decoding the bytes written returns 0 and the same
    fields, and stops exactly after the header. *)
Theorem rtp_hdr_roundtrip hdr0 hdr xt xl xdata mb :
  let ext := ext_bytes (rtp_ext hdr) xt xl xdata in
  rtp_hdr_ok hdr -> length (rtp_csrc hdr0) = 16%nat -> mbuf_wf mb ->
  0 <= xt < 2 ^ 16 -> 0 <= xl < 2 ^ 16 -> zlength xdata = xl * 4 -> bytes_ok xdata ->
  mb_pos mb + 12 + 4 * rtp_cc hdr + zlength ext < WRITE_MAX ->
  exists e mb', (rtp_hdr_encode hdr |; mbuf_write_mem ext) mb = Some (e, mb') /\ (no_oom -> e = 0) /\
    (e = 0 -> rtp_hdr_decode hdr0 (set_pos (mb_pos mb) mb') =
       Some ((0, decoded_hdr hdr0 hdr xt xl),
         set_pos (mb_pos mb + 12 + 4 * rtp_cc hdr + zlength ext) mb')).
Proof.
  intros ext Hok Hl Hwf Hxt Hxl Hxd Hxb Hr. pose proof (length_rtp_hdr_bytes hdr Hok) as Hlen.
  assert (bytes_ok ext) as Hb.
  { subst ext. unfold ext_bytes. destruct (rtp_ext hdr); [|done]. rewrite !Forall_app. auto using be_bytes_ok. }
  pose proof (rtp_hdr_decode_reads hdr0 hdr xt xl xdata Hok Hl Hxt Hxl Hxd) as Hrd. fold ext in Hrd.
  pose proof (writes_or_err _ _ _ _ (rtp_hdr_encode_writes hdr Hok) (writes_mem ext Hb)) as Hw.
  destruct (writes_reads _ _ _ _ mb Hw Hrd Hwf) as (e & mb' & E & Ho & Hd); [rewrite length_app; lia|].
  exists e, mb'. split_and!; [done..|]. intros E0. destruct (Hd E0) as [_ ->].
  rewrite length_app. do 3 f_equal. lia.
Qed.

#[global] Instance safe_decode_csrc_bounded : forall csrc i n, (i + n <= length csrc)%nat ->
  SafeRead (decode_csrc csrc i n).
Proof.
  intros csrc i n. revert csrc i. induction n as [|n IH]; intros csrc i Hi; simpl; [apply _|].
  apply safe_bind; [apply _|]. intros v. rewrite (proj2 (Nat.ltb_lt _ _)) by lia.
  apply IH. rewrite length_insert. lia.
Qed.

Lemma rtp_hdr_rest_safe hdr b0 b1 : length (rtp_csrc hdr) = 16%nat -> SafeRead (rtp_hdr_decode_rest hdr b0 b1).
Proof.
  intros Hl. unfold rtp_hdr_decode_rest. do 3 (apply safe_bind; [apply _|]; intros ?).
  set (h := RtpHeader _ _ _ _ _ _ _ _ _ _ _ _ _). unfold rtp_hdr_decode_tail.
  apply safe_need; [apply _|]. apply safe_bind.
  { apply safe_decode_csrc_bounded. subst h. cbn [rtp_csrc rtp_cc]. rewrite Hl. bits. dlia. }
  intros csrc. apply safe_if; [|apply _]. apply safe_need; [apply _|].
  apply safe_ntohs_k. intros xt Hxt. apply safe_ntohs_k. intros xl Hxl. cbv zeta.
  apply safe_need_advance; [simpl; lia|apply _|apply _].
Qed.

Lemma rtp_hdr_decode_safe hdr : length (rtp_csrc hdr) = 16%nat -> SafeRead (rtp_hdr_decode hdr).
Proof.
  intros Hl. unfold rtp_hdr_decode. apply safe_need; [apply _|].
  apply safe_bind; [apply safe_read_mem; lia|]. intros [err buf]. apply safe_if; [apply _|].
  by apply rtp_hdr_rest_safe.
Qed.

(** Decoding an RTP header is memory safe on every packet: whatever the
    buffer holds, the decoder reads inside it, writes inside the 16-element
    CSRC array, and never moves the position past the end. *)
Theorem rtp_decode_safe mb : mbuf_wf mb ->
  exists err hdr mb', rtp_decode mb = Some ((err, hdr), mb') /\ advanced mb mb' /\
    (err = 0 -> rtp_ver hdr = RTP_VERSION).
Proof.
  intros Hwf. destruct (rtp_hdr_decode_safe zero_hdr eq_refl mb Hwf) as ([err hdr] & mb' & E & Ha).
  unfold rtp_decode. rewrite (bind_Some _ _ _ _ _ E).
  destruct (nz err) eqn:En; [exists err, hdr, mb'; split_and!; [done..|]; by intros ->|].
  destruct (Z.eqb_spec RTP_VERSION (rtp_ver hdr)); cbn; eexists _, _, _; (split_and!; [done|done|]); done.
Qed.

End rtp.

(** ** Witnesses *)

Definition hdr_ex : rtp_header :=
  RtpHeader 2 false true 2 true 111 4660 305419896 0 3735928559
    ([17; 34] ++ replicate 14 0) 0 0.

Definition mbuf_empty16 : mbuf := Mbuf (replicate 16 7) 16 0 0.

Lemma mbuf_empty16_wf : mbuf_wf mbuf_empty16.
Proof. split; cbn; unfold MEM_SIZE_MAX; try lia. repeat constructor; unfold byte_ok; lia. Qed.

Lemma rtp_hdr_roundtrip_witness : exists mb' mb'',
  (rtp_hdr_encode (H := lp64_host) hdr_ex |; mbuf_write_mem (H := lp64_host) [190; 222; 0; 1; 16; 170; 0; 0])
    mbuf_empty16 = Some (0, mb') /\
  rtp_hdr_decode (H := lp64_host) zero_hdr (set_pos 0 mb') = Some ((0, with_x hdr_ex 48862 1), mb'').
Proof.
  destruct (rtp_hdr_roundtrip (H := lp64_host) zero_hdr hdr_ex 48862 1 [16; 170; 0; 0] mbuf_empty16)
    as (e & mb' & E & Ho & Hd); [|reflexivity|exact mbuf_empty16_wf|lia|lia|reflexivity| | |].
  - split; cbn; try lia; try done. repeat constructor; lia.
  - repeat constructor; unfold byte_ok; lia.
  - vm_compute. reflexivity.
  - pose proof (Ho (fun _ => eq_refl)) as ->. eexists mb', _. split; [exact E|]. exact (Hd eq_refl).
Defined.

Lemma rtp_decode_safe_witness : exists err hdr mb',
  rtp_decode (H := lp64_host) mbuf_empty16 = Some ((err, hdr), mb') /\ err = EBADMSG.
Proof.
  destruct (rtp_decode_safe (H := lp64_host) mbuf_empty16 mbuf_empty16_wf) as (err & hdr & mb' & E & _).
  exists err, hdr, mb'. split; [exact E|]. vm_compute in E. by simplify_eq.
Defined.
