(* ===== verification/RtpSource.v ===== *)
(** * RTP source statistics (src/rtp/source.c)

    Sequence number validation (RFC 3550 A.1), loss counting (A.3) and jitter
    estimation (A.8).  Unsigned fields wrap at their width; conversions to
    [int] are two's complement; signed arithmetic that leaves the range of
    [int] is undefined ([None]). *)

From S2P Require Export Prelude.

Definition RTP_SEQ_MOD : Z := 65536.
Definition MAX_DROPOUT : Z := 3000.
Definition MAX_MISORDER : Z := 100.
Definition MIN_SEQUENTIAL : Z := 2.

Record rtp_source := RtpSource {
  max_seq : Z;          (* uint16_t *)
  cycles : Z;           (* uint32_t *)
  base_seq : Z;
  bad_seq : Z;
  probation : Z;
  received : Z;
  expected_prior : Z;
  received_prior : Z;
  transit : Z;          (* int *)
  jitter : Z;           (* uint32_t *)
}.

Definition rtp_source_init_seq (s : rtp_source) (seq : Z) : rtp_source :=
  RtpSource seq 0 seq (RTP_SEQ_MOD + 1) (probation s) 0 0 0 (transit s) (jitter s).

Definition set_seq (s : rtp_source) (mx cy bad prob rcv : Z) : rtp_source :=
  RtpSource mx cy (base_seq s) bad prob rcv (expected_prior s) (received_prior s)
    (transit s) (jitter s).

Definition incr_received (s : rtp_source) : rtp_source :=
  set_seq s (max_seq s) (cycles s) (bad_seq s) (probation s) (u32 (received s + 1)).

Definition rtp_source_update_seq (s : rtp_source) (seq : Z) : Z * rtp_source :=
  let udelta := u16 (seq - max_seq s) in
  if nz (probation s) then
    if seq =? max_seq s + 1 then
      let p := u32 (probation s - 1) in
      let s1 := set_seq s seq (cycles s) (bad_seq s) p (received s) in
      if p =? 0 then (1, incr_received (rtp_source_init_seq s1 seq))
      else (0, s1)
    else (0, set_seq s seq (cycles s) (bad_seq s) (MIN_SEQUENTIAL - 1) (received s))
  else if udelta <? MAX_DROPOUT then
    let cy := if seq <? max_seq s then u32 (cycles s + RTP_SEQ_MOD) else cycles s in
    (1, incr_received (set_seq s seq cy (bad_seq s) (probation s) (received s)))
  else if udelta <=? RTP_SEQ_MOD - MAX_MISORDER then
    if seq =? bad_seq s then (1, incr_received (rtp_source_init_seq s seq))
    else (0, set_seq s (max_seq s) (cycles s) (Z.land (seq + 1) (RTP_SEQ_MOD - 1))
               (probation s) (received s))
  else (1, incr_received s).

Definition int_ok (z : Z) : bool := (- 2 ^ 31 <=? z) && (z <? 2 ^ 31).

Definition set_jitter (s : rtp_source) (tr jit : Z) : rtp_source :=
  RtpSource (max_seq s) (cycles s) (base_seq s) (bad_seq s) (probation s) (received s)
    (expected_prior s) (received_prior s) tr jit.

Definition rtp_source_calc_jitter (s : rtp_source) (rtp_ts arrival : Z) : option rtp_source :=
  let tr := s32 (arrival - rtp_ts) in
  let d := tr - transit s in
  if negb (int_ok d) then None
  else if transit s =? 0 then Some (set_jitter s tr (jitter s))
  else if d =? - 2 ^ 31 then None                  (* d = -d *)
  else
    let d := if d <? 0 then - d else d in
    Some (set_jitter s tr (u32 (jitter s + (d - Z.shiftr (u32 (jitter s + 8)) 4)))).

Definition expected_pkts (s : rtp_source) : Z :=
  let extended_max := s32 (cycles s + max_seq s) in
  s32 (extended_max - base_seq s + 1).

Definition rtp_source_calc_lost (s : rtp_source) : Z :=
  let lost := s32 (expected_pkts s - received s) in
  if 8388607 <? lost then 8388607
  else if lost <? - 8388607 then - 8388607
  else lost.

(** C division truncates towards zero. *)
Definition rtp_source_calc_fraction_lost (s : rtp_source) : option (Z * rtp_source) :=
  let expected := expected_pkts s in
  let expected_interval := s32 (expected - expected_prior s) in
  let received_interval := s32 (received s - received_prior s) in
  let s' := RtpSource (max_seq s) (cycles s) (base_seq s) (bad_seq s) (probation s) (received s)
              (u32 expected) (received s) (transit s) (jitter s) in
  let lost_interval := expected_interval - received_interval in
  if negb (int_ok lost_interval) then None
  else if (expected_interval =? 0) || (lost_interval <=? 0) then Some (0, s')
  else if negb (int_ok (lost_interval * 256)) then None
  else Some (u8 (Z.quot (lost_interval * 256) expected_interval), s').

(** ** Sequence numbers *)

Record source_ok (s : rtp_source) : Prop := {
  so_max : 0 <= max_seq s < RTP_SEQ_MOD;
  so_cycles : 0 <= cycles s < 2 ^ 32;
  so_cycles_mod : cycles s mod RTP_SEQ_MOD = 0;
  so_prob : 0 <= probation s < 2 ^ 32;
  so_received : 0 <= received s < 2 ^ 32;
}.

(** The highest extended sequence number the state stands for. *)
Definition ext_max (s : rtp_source) : Z := cycles s + max_seq s.

Lemma incr_received_ok s : source_ok s -> source_ok (incr_received s).
Proof. intros []. split; cbn; try done. apply wrap_range. lia. Qed.

Lemma init_seq_ok s seq : 0 <= seq < RTP_SEQ_MOD -> source_ok s -> source_ok (rtp_source_init_seq s seq).
Proof. intros ? []. split; cbn; done || lia. Qed.

Lemma update_seq_ok s seq : 0 <= seq < RTP_SEQ_MOD -> source_ok s ->
  source_ok (snd (rtp_source_update_seq s seq)).
Proof.
  intros Hs Hok. pose proof Hok as [Hm Hc Hcm Hp Hr]. unfold rtp_source_update_seq, RTP_SEQ_MOD in *.
  repeat case_match; cbn [snd]; try apply incr_received_ok; try apply init_seq_ok; try done;
    split; cbn; unfold RTP_SEQ_MOD, MIN_SEQUENTIAL in *; try done; try lia;
    try (apply wrap_range; lia).
  unfold wrap. dlia.
Qed.

(** One packet of a validated source: [e] is its true (unbounded) extended
    sequence number and [E] the highest received so far. *)
Lemma update_seq_step s E e : source_ok s -> probation s = 0 -> 0 <= E ->
  ext_max s = u32 E -> E - MAX_MISORDER < e < E + MAX_DROPOUT -> 0 <= e ->
  exists s', rtp_source_update_seq s (e mod RTP_SEQ_MOD) = (1, s') /\
    probation s' = 0 /\ ext_max s' = u32 (Z.max E e) /\
    received s' = u32 (received s + 1) /\ base_seq s' = base_seq s.
Proof.
  intros [Hm Hc Hcm Hp Hr] Hprob HE Hext He He0. unfold rtp_source_update_seq.
  rewrite Hprob. cbn [nz Z.eqb negb].
  unfold ext_max, RTP_SEQ_MOD, MAX_DROPOUT, MAX_MISORDER, wrap in *. change (2 ^ 32) with 4294967296 in *.
  change (2 ^ 16) with 65536 in *.
  assert (max_seq s = E mod 65536) as Hmx by dlia.
  destruct (decide (E <= e)) as [Hge|Hlt].
  - assert ((e mod 65536 - max_seq s) mod 65536 = e - E) as -> by dlia.
    rewrite (proj2 (Z.ltb_lt _ _)) by lia. eexists. split; [done|]. cbn.
    split_and!; try done. rewrite Z.max_r by lia.
    destruct (Z.ltb_spec (e mod 65536) (max_seq s)); dlia.
  - assert ((e mod 65536 - max_seq s) mod 65536 = 65536 + e - E) as -> by dlia.
    rewrite (proj2 (Z.ltb_ge _ _)), (proj2 (Z.leb_gt _ _)) by lia. eexists. split; [done|]. cbn.
    split_and!; try done. rewrite Z.max_l by lia. done.
Qed.

(** A run of packets, given by their true extended sequence numbers. *)
Definition feed (s : rtp_source) (es : list Z) : rtp_source :=
  fold_left (fun s e => snd (rtp_source_update_seq s (e mod RTP_SEQ_MOD))) es s.

(** Every packet is within the dropout and misorder bounds of the highest
    number seen before it. *)
Fixpoint in_window (E : Z) (es : list Z) : Prop :=
  match es with
  | [] => True
  | e :: es => E - MAX_MISORDER < e < E + MAX_DROPOUT /\ 0 <= e /\ in_window (Z.max E e) es
  end.

Definition highest (E : Z) (es : list Z) : Z := fold_left Z.max es E.

Lemma highest_ge E es : E <= highest E es.
Proof.
  revert E. induction es as [|e es IH]; intros E; cbn; [lia|]. specialize (IH (Z.max E e)).
  unfold highest in IH. lia.
Qed.

Lemma feed_spec s E es : source_ok s -> probation s = 0 -> 0 <= E -> ext_max s = u32 E ->
  in_window E es ->
  source_ok (feed s es) /\ ext_max (feed s es) = u32 (highest E es) /\
  received (feed s es) = u32 (received s + zlength es) /\ base_seq (feed s es) = base_seq s.
Proof.
  intros Hok Hp HE Hx Hw. revert s E Hok Hp HE Hx Hw.
  induction es as [|e es IH]; intros s E Hok Hp HE Hx Hw.
  - cbn. rewrite Z.add_0_r, (wrap_small 32 (received s)) by apply Hok. done.
  - destruct Hw as (He & He0 & Hw). cbn [feed fold_left highest].
    destruct (update_seq_step s E e Hok Hp HE Hx He He0) as (s' & Es & Hp' & Hx' & Hr & Hb).
    assert (source_ok s') as Hok'.
    { pose proof (update_seq_ok s (e mod RTP_SEQ_MOD)) as U. rewrite Es in U. apply U; [|done].
      apply Z.mod_pos_bound. done. }
    rewrite Es. cbn [snd]. destruct (IH s' (Z.max E e)) as (H1 & H2 & H3 & H4); [done..|lia|done|done|].
    unfold feed in *. split_and!; [done|done| |by rewrite H4].
    rewrite H3, Hr. cbn [length]. unfold wrap. rewrite Z.add_mod_idemp_l by lia. f_equal. lia.
Qed.

(** Sequence tracking is correct across wrap-around: starting from a
    validated source that has just been initialised with sequence number
    [e0], any run of packets that stays within the dropout (3000) and misorder
    (100) windows leaves the state standing for the highest extended sequence
    number received, counts every packet once, and makes the loss counter the
    number of packets expected minus the number received (clamped to 24
    bits). *)
Theorem source_tracks_sequence s0 e0 es :
  source_ok s0 -> probation s0 = 0 -> 0 <= e0 < RTP_SEQ_MOD -> in_window e0 es ->
  highest e0 es < 2 ^ 31 - 1 -> zlength es < 2 ^ 31 - 1 ->
  let s := feed (incr_received (rtp_source_init_seq s0 e0)) es in
  ext_max s = highest e0 es /\ received s = 1 + zlength es /\
  rtp_source_calc_lost s =
    Z.max (- 8388607) (Z.min 8388607 ((highest e0 es - e0 + 1) - (1 + zlength es))).
Proof.
  intros Hok Hp He0 Hw Hh Hn s. unfold RTP_SEQ_MOD in He0. pose proof (highest_ge e0 es) as Hge.
  destruct (feed_spec (incr_received (rtp_source_init_seq s0 e0)) e0 es) as (_ & Hx & Hr & Hb).
  - by apply incr_received_ok, init_seq_ok.
  - done.
  - lia.
  - unfold ext_max. cbn [cycles max_seq incr_received set_seq rtp_source_init_seq]. rewrite (wrap_small 32); lia.
  - done.
  - fold s in Hx, Hr, Hb. change (received (incr_received _)) with 1 in Hr.
    change (base_seq (incr_received _)) with e0 in Hb. rewrite (wrap_small 32) in Hx, Hr by lia.
    split_and!; [done|done|].
    unfold rtp_source_calc_lost, expected_pkts. unfold ext_max in Hx. rewrite Hx, Hr, Hb.
    rewrite (swrap_small 32 (highest e0 es)) by lia.
    rewrite (swrap_small 32 (_ - _ + 1)) by lia. rewrite swrap_small by lia.
    repeat case_match; lia.
Qed.

(** ** Probation *)

(** A source on probation becomes valid exactly when the expected number
    of consecutive sequence numbers arrives: a packet that continues the
    sequence decrements the counter and validates the source when it reaches
    zero, any other packet restarts probation; nothing is reported valid
    before. *)
Theorem probation_step s seq :
  source_ok s -> 0 < probation s -> 0 <= seq < RTP_SEQ_MOD ->
  let '(valid, s') := rtp_source_update_seq s seq in
  max_seq s' = seq /\
  (seq = max_seq s + 1 ->
     (valid = 1 <-> probation s = 1) /\ probation s' = probation s - 1 /\
     (valid = 1 -> base_seq s' = seq /\ received s' = 1 /\ cycles s' = 0)) /\
  (seq <> max_seq s + 1 -> valid = 0 /\ probation s' = MIN_SEQUENTIAL - 1).
Proof.
  intros [Hm Hc Hcm Hp Hr] Hpr Hseq. unfold rtp_source_update_seq, nz.
  rewrite (proj2 (Z.eqb_neq _ _)) by lia. cbn [negb]. rewrite (wrap_small 32 (probation s - 1)) by lia.
  destruct (Z.eqb_spec seq (max_seq s + 1)); [|cbn; split_and!; done || lia].
  destruct (Z.eqb_spec (probation s - 1) 0); cbn; split_and!; try done; try lia; intros _; split_and!; done || lia.
Qed.

(** ** Jitter *)

(** The jitter estimate is bounded by sixteen times the largest transit
    difference: if the estimate is at most [16 * D] and the transit time moves
    by at most [D], it stays at most [16 * D], and the arithmetic never wraps.
    (The estimate is the jitter scaled by 16.) *)
Theorem jitter_bounded s rtp_ts arrival D :
  0 <= D < 2 ^ 26 -> 0 <= jitter s <= 16 * D -> - 2 ^ 31 < transit s < 2 ^ 31 ->
  Z.abs (s32 (arrival - rtp_ts) - transit s) <= D ->
  exists s', rtp_source_calc_jitter s rtp_ts arrival = Some s' /\
    transit s' = s32 (arrival - rtp_ts) /\ 0 <= jitter s' <= 16 * D /\
    (transit s <> 0 -> jitter s' =
       jitter s + Z.abs (s32 (arrival - rtp_ts) - transit s) - (jitter s + 8) / 16).
Proof.
  intros HD Hj Ht Hd. unfold rtp_source_calc_jitter, int_ok.
  set (tr := s32 _) in *. set (d := tr - transit s) in *.
  rewrite (proj2 (Z.leb_le _ d)), (proj2 (Z.ltb_lt d _)) by lia. cbn [andb negb].
  destruct (Z.eqb_spec (transit s) 0); [eexists; split; [done|]; cbn; split_and!; done || lia|].
  rewrite (proj2 (Z.eqb_neq d _)) by lia. eexists. split; [done|]. cbn.
  rewrite (wrap_small 32 (jitter s + 8)), Z.shiftr_div_pow2 by lia. change (2 ^ 4) with 16.
  replace (if d <? 0 then - d else d) with (Z.abs d) by (destruct (Z.ltb_spec d 0); lia).
  rewrite (wrap_small 32) by dlia. split_and!; [done|dlia|dlia|lia].
Qed.

(** The jitter computation is undefined exactly when the difference of
    two transit times does not fit an [int] (or is the one value that cannot
    be negated): a remote sender chooses the time stamps, so it can cause
    signed overflow. *)
Theorem jitter_undefined s rtp_ts arrival : - 2 ^ 31 <= transit s < 2 ^ 31 ->
  rtp_source_calc_jitter s rtp_ts arrival = None <->
  let d := s32 (arrival - rtp_ts) - transit s in
  d < - 2 ^ 31 \/ 2 ^ 31 <= d \/ (d = - 2 ^ 31 /\ transit s <> 0).
Proof.
  intros Ht. cbv zeta. unfold rtp_source_calc_jitter, int_ok. set (d := s32 _ - transit s).
  destruct (Z.leb_spec (- 2 ^ 31) d), (Z.ltb_spec d (2 ^ 31)); cbn [andb negb]; try (split; [lia|done]).
  destruct (Z.eqb_spec (transit s) 0); [split; [done|lia]|].
  destruct (Z.eqb_spec d (- 2 ^ 31)); split; done || lia.
Qed.

(** ** Fraction lost *)

(** The fraction reported for an interval in which at least one packet
    was received is the loss rate in 1/256 rounded down; when every packet of
    the interval was lost it is reported as 0. *)
Theorem fraction_lost_spec s exp rcv :
  s32 (expected_pkts s - expected_prior s) = exp -> s32 (received s - received_prior s) = rcv ->
  0 < exp < 2 ^ 22 -> 0 <= rcv <= exp ->
  exists s', rtp_source_calc_fraction_lost s =
    Some (if rcv =? 0 then 0 else (exp - rcv) * 256 / exp, s').
Proof.
  intros He Hr Hexp Hrcv. unfold rtp_source_calc_fraction_lost, int_ok. rewrite He, Hr. cbv zeta.
  rewrite (proj2 (Z.leb_le _ (exp - rcv))), (proj2 (Z.ltb_lt (exp - rcv) _)) by lia. cbn [andb negb].
  rewrite (proj2 (Z.eqb_neq exp 0)) by lia. cbn [orb].
  destruct (Z.leb_spec (exp - rcv) 0).
  { eexists. do 2 f_equal. replace rcv with exp by lia. rewrite (proj2 (Z.eqb_neq exp 0)) by lia.
    by rewrite Z.sub_diag. }
  rewrite (proj2 (Z.leb_le _ _)), (proj2 (Z.ltb_lt _ _)) by lia. cbn [andb negb].
  rewrite Z.quot_div_nonneg by lia. eexists. do 2 f_equal.
  destruct (Z.eqb_spec rcv 0) as [->|].
  - rewrite Z.sub_0_r, Z.mul_comm, Z.div_mul by lia. done.
  - apply wrap_small. split; [apply Z.div_pos; lia|]. apply Z.div_lt_upper_bound; lia.
Qed.

(** ** Witnesses *)

Definition src0 : rtp_source := RtpSource 0 0 0 0 0 0 0 0 5 40.

Lemma src0_ok : source_ok src0.
Proof. split; cbn; unfold RTP_SEQ_MOD; done || lia. Qed.

Lemma source_tracks_sequence_witness :
  let s := feed (incr_received (rtp_source_init_seq src0 65534)) [65535; 65537; 65536; 65600] in
  ext_max s = 65600 /\ received s = 5 /\ rtp_source_calc_lost s = 62.
Proof.
  apply (source_tracks_sequence src0 65534 [65535; 65537; 65536; 65600]); cbn;
    unfold RTP_SEQ_MOD, MAX_MISORDER, MAX_DROPOUT; try lia. apply src0_ok.
Defined.

Lemma probation_step_witness :
  let '(valid, s') := rtp_source_update_seq (RtpSource 7 0 0 0 1 0 0 0 0 0) 8 in
  valid = 1 /\ received s' = 1.
Proof.
  pose proof (probation_step (RtpSource 7 0 0 0 1 0 0 0 0 0) 8) as P. cbn in P.
  destruct P as (_ & P & _); [split; cbn; unfold RTP_SEQ_MOD; done || lia|lia|unfold RTP_SEQ_MOD; lia|].
  destruct (P eq_refl) as (Hv & _ & Hr). split; [by apply Hv|by apply Hr, Hv].
Defined.

Lemma jitter_bounded_witness : exists s', rtp_source_calc_jitter src0 100 115 = Some s' /\ jitter s' = 47.
Proof.
  destruct (jitter_bounded src0 100 115 10) as (s' & E & _ & _ & Hj); cbn; try lia.
  - vm_compute. discriminate.
  - exists s'. split; [exact E|]. rewrite Hj by done. reflexivity.
Defined.

Lemma jitter_undefined_witness : rtp_source_calc_jitter src0 2147483648 0 = None.
Proof. apply jitter_undefined; [cbn; lia|]. cbv zeta. left. vm_compute. reflexivity. Defined.

Lemma fraction_lost_spec_witness : exists s',
  rtp_source_calc_fraction_lost (RtpSource 99 0 0 0 0 75 0 0 0 0) = Some (64, s').
Proof.
  apply (fraction_lost_spec (RtpSource 99 0 0 0 0 75 0 0 0 0) 100 75); try lia; reflexivity.
Defined.
