(* ===== verification/MbufData.v ===== *)
(** * Buffers as byte strings with a position

    The view of a buffer used to verify code that edits packets in place:
    [holds mb data pos] says that the bytes up to the end are [data] and that
    the position is [pos].  Every buffer operation such code uses is a function
    of that pair. *)

From S2P Require Export Prelude Mbuf MbufSpec.

Record holds (mb : mbuf) (data : list Z) (pos : Z) : Prop := {
  h_wf : mbuf_wf mb;
  h_data : take (Z.to_nat (mb_end mb)) (mb_buf mb) = data;
  h_pos : mb_pos mb = pos;
}.

Lemma slice_app_mid (a x b : list Z) : slice (a ++ x ++ b) (zlength a) (zlength x) = x.
Proof. unfold slice. rewrite !Nat2Z.id, drop_app_length. apply take_app_length. Qed.

Lemma slice_app_end (a x : list Z) : slice (a ++ x) (zlength a) (zlength x) = x.
Proof. rewrite <- (app_nil_r x) at 1. apply slice_app_mid. Qed.

Lemma splice_app_mid (a x y b : list Z) : length x = length y ->
  splice (a ++ x ++ b) (zlength a) y = a ++ y ++ b.
Proof.
  intros E. unfold splice. rewrite Nat2Z.id, take_app_length. do 2 f_equal.
  rewrite drop_app_add, <- E. apply drop_app_length.
Qed.

Section holds.
Context `{Host}.

Lemma holds_end mb data pos : holds mb data pos -> zlength data = mb_end mb.
Proof.
  intros [Hwf <- _]. rewrite length_take. pose proof (wf_end _ Hwf). pose proof (wf_len _ Hwf). lia.
Qed.

Lemma holds_ok mb data pos : holds mb data pos -> bytes_ok data.
Proof. intros [Hwf <- _]. apply Forall_take, (wf_bytes _ Hwf). Qed.

Lemma holds_left mb data pos : holds mb data pos -> pos <= zlength data ->
  mbuf_get_left mb = zlength data - pos.
Proof.
  intros Hh Hp. pose proof (holds_end _ _ _ Hh). destruct Hh as [_ _ Hpos].
  unfold mbuf_get_left. case_match; lia.
Qed.

Lemma slice_take (m : list Z) e p n : 0 <= p -> 0 <= n -> p + n <= e ->
  slice (take (Z.to_nat e) m) p n = slice m p n.
Proof.
  intros. unfold slice. rewrite skipn_firstn_comm, take_take. f_equal. lia.
Qed.

Lemma holds_unread mb data pos : holds mb data pos -> 0 <= pos <= zlength data ->
  unread mb = drop (Z.to_nat pos) data.
Proof.
  intros Hh Hp. pose proof (holds_left _ _ _ Hh ltac:(lia)) as El. pose proof (holds_end _ _ _ Hh) as Ee.
  destruct Hh as [Hwf Hd Hpos]. unfold unread. rewrite El, Hpos.
  rewrite <- (slice_take _ (mb_end mb)) by lia. rewrite Hd. unfold slice. apply take_ge.
  rewrite length_drop. lia.
Qed.

Lemma holds_wf_pos mb data pos : holds mb data pos -> 0 <= pos.
Proof. intros [Hwf _ <-]. apply (wf_pos _ Hwf). Qed.

Lemma holds_set_pos mb data pos p : holds mb data pos -> 0 <= p < 2 ^ 63 -> holds (set_pos p mb) data p.
Proof. intros [Hwf Hd _] Hp. split; [by apply set_pos_wf|done|done]. Qed.

Lemma holds_set_posend mb data pos p e : holds mb data pos -> 0 <= e <= zlength data -> 0 <= p < 2 ^ 63 ->
  holds (set_posend p e mb) (take (Z.to_nat e) data) p.
Proof.
  intros Hh He Hp. pose proof (holds_end _ _ _ Hh). destruct Hh as [[] Hd _]. split; [|simpl|done].
  - split; simpl; try done; lia.
  - rewrite <- Hd, take_take. f_equal. lia.
Qed.

Lemma holds_load mb data pos p n : holds mb data pos -> 0 <= p -> 0 <= n -> p + n <= zlength data ->
  load_at p n mb = Some (slice data p n, mb).
Proof.
  intros Hh Hp Hn Hl. pose proof (holds_end _ _ _ Hh). destruct Hh as [Hwf Hd _].
  pose proof (wf_end _ Hwf). pose proof (wf_len _ Hwf). unfold load_at, mem_load.
  rewrite in_block_true by lia. rewrite <- Hd. by rewrite slice_take by lia.
Qed.

Lemma take_splice_in (m : list Z) e p bs : 0 <= p -> p + zlength bs <= e -> e <= zlength m ->
  take (Z.to_nat e) (splice m p bs) = splice (take (Z.to_nat e) m) p bs.
Proof.
  intros. unfold splice. rewrite take_app, take_app, !length_take.
  rewrite !take_take, skipn_firstn_comm. f_equal; [f_equal; lia|]. f_equal; [apply take_ge; lia|].
  f_equal. lia.
Qed.

Lemma holds_store mb data pos p bs : holds mb data pos -> 0 <= p -> p + zlength bs <= zlength data ->
  bytes_ok bs -> exists mb', store_at p bs mb = Some (tt, mb') /\ holds mb' (splice data p bs) pos.
Proof.
  intros Hh Hp Hl Hb. pose proof (holds_end _ _ _ Hh). destruct Hh as [[Hlen Hmax Hok Hps He] Hd Hpos].
  unfold store_at, mem_store. rewrite in_block_true by lia. eexists. split; [done|]. split; [|simpl|done].
  - split; simpl; try done; [|by apply splice_ok]. by rewrite length_splice by lia.
  - by rewrite take_splice_in, Hd by lia.
Qed.

Lemma holds_read mb data pos n : holds mb data pos -> 0 <= n -> pos + n <= zlength data ->
  exists mb', mbuf_read_mem n mb = Some ((0, slice data pos n), mb') /\ holds mb' data (pos + n).
Proof.
  intros Hh Hn Hl. pose proof (holds_wf_pos _ _ _ Hh).
  pose proof (holds_left _ _ _ Hh ltac:(lia)) as El. pose proof (holds_unread _ _ _ Hh ltac:(lia)) as Eu.
  rewrite mbuf_read_mem_eq by (apply Hh || done). rewrite El, (proj2 (Z.ltb_ge _ _)) by lia.
  eexists. rewrite Eu. split; [done|]. rewrite (h_pos _ _ _ Hh).
  apply (holds_set_pos _ _ pos); [done|]. pose proof (holds_end _ _ _ Hh).
  pose proof (wf_end _ (h_wf _ _ _ Hh)). pose proof (wf_max _ (h_wf _ _ _ Hh)). unfold MEM_SIZE_MAX in *. lia.
Qed.

(** Appending at the end of a buffer that holds [data]. *)
Lemma holds_written mb data bs mb' : holds mb data (zlength data) -> mbuf_wf mb' -> written mb bs mb' ->
  holds mb' (data ++ bs) (zlength data + zlength bs).
Proof.
  intros Hh Hwf' [Wp We Wc _ Wd Wk]. pose proof (holds_end _ _ _ Hh) as Ee. destruct Hh as [Hwf Hd Hpos].
  pose proof (wf_len _ Hwf). pose proof (wf_len _ Hwf'). pose proof (wf_end _ Hwf). pose proof (wf_end _ Hwf').
  assert (mb_end mb' = zlength data + zlength bs) as Ee'.
  { destruct bs; [simpl in *; lia|]. specialize (Wc ltac:(done)). lia. }
  split; [done| |lia]. rewrite Ee'. apply list_eq. intros i.
  destruct (decide (i < length data + length bs)%nat) as [Hi|Hi].
  - rewrite lookup_take_lt by lia. destruct (decide (i < length data)%nat).
    + rewrite lookup_app_l by done. rewrite Wk by lia. rewrite <- Hd, lookup_take_lt by lia. done.
    + rewrite lookup_app_r by lia. rewrite <- Wd by lia. f_equal. lia.
  - rewrite lookup_take_ge by lia. symmetry. apply lookup_ge_None. rewrite length_app. lia.
Qed.

Lemma holds_append mb data pos m bs : holds mb data pos -> pos = zlength data -> Writes m bs ->
  pos + zlength bs < WRITE_MAX -> exists e mb', m mb = Some (e, mb') /\ mbuf_wf mb' /\ 0 <= e /\
    (no_oom -> e = 0) /\ (e = 0 -> holds mb' (data ++ bs) (pos + zlength bs)).
Proof.
  intros Hh -> Hw Hm. destruct (Hw mb (h_wf _ _ _ Hh)) as (e & mb' & E & Hwf' & _ & He & Hok & Hoom).
  { rewrite (h_pos _ _ _ Hh). done. }
  exists e, mb'. split_and!; try done. intros ->. by apply (holds_written mb); auto.
Qed.

(** Running a reader over the packet. *)
Lemma holds_reads {A} mb pre bs rest (m : M mbuf A) a : holds mb (pre ++ bs ++ rest) (zlength pre) ->
  Reads m bs a -> exists mb', m mb = Some (a, mb') /\ holds mb' (pre ++ bs ++ rest) (zlength pre + zlength bs).
Proof.
  intros Hh Hr. pose proof (h_wf _ _ _ Hh) as Hwf.
  assert (unread mb = bs ++ rest) as Eu.
  { rewrite (holds_unread _ _ _ Hh) by (rewrite !length_app; lia). by rewrite Nat2Z.id, drop_app_length. }
  rewrite (Hr mb rest Hwf Eu). eexists. split; [done|]. rewrite (h_pos _ _ _ Hh).
  apply (holds_set_pos _ _ (zlength pre)); [done|]. rewrite <- (h_pos _ _ _ Hh).
  apply (wf_pos _ (unread_wf _ _ _ Hwf Eu)).
Qed.

End holds.
