(* ===== verification/MbufPatch.v ===== *)
(** * Encoders that fill in a header afterwards

    Several encoders skip the header of an element, write the element, and
    come back to write the header once the length is known.  [WritesOk m bs]
    says that [m] always succeeds and stores [bs] at the position (no
    allocation fails); [written_patch] combines the two parts. *)

From S2P Require Export Prelude Mbuf MbufSpec MbufData.

Class WritesOk (m : M mbuf Z) (bs : list Z) : Prop :=
  writes_ok : forall mb, mbuf_wf mb -> mb_pos mb + zlength bs < WRITE_MAX ->
    exists mb', m mb = Some (0, mb') /\ mbuf_wf mb' /\ written mb bs mb'.

Lemma written_patch mb k hb bs mb1 mb2 : mbuf_wf mb -> mbuf_wf mb1 -> zlength hb = k ->
  written (set_pos (mb_pos mb + k) mb) bs mb1 -> written (set_pos (mb_pos mb) mb1) hb mb2 ->
  written mb (hb ++ bs) (set_pos (mb_pos mb + k + zlength bs) mb2).
Proof.
  intros Hwf Hwf1 Hk [P1 E1 C1 S1 D1 K1] [P2 E2 C2 S2 D2 K2]. cbn [set_pos mb_pos mb_end mb_size mb_buf] in *.
  pose proof (wf_pos _ Hwf). pose proof (wf_len _ Hwf). pose proof (wf_len _ Hwf1).
  split; cbn [set_pos mb_pos mb_end mb_size mb_buf]; rewrite ?length_app; try lia.
  - intros Hne. destruct bs; [|specialize (C1 ltac:(done)); lia].
    destruct hb; [done|]. specialize (C2 ltac:(done)). simpl in *. lia.
  - intros i Hi. destruct (decide (i < length hb)%nat).
    + rewrite lookup_app_l by done. by apply D2.
    + rewrite lookup_app_r by lia. rewrite <- D1 by lia.
      replace (Z.to_nat (mb_pos mb + k) + (i - length hb))%nat with (Z.to_nat (mb_pos mb) + i)%nat by lia.
      apply K2; [|lia]. apply lookup_lt_is_Some.
      replace (Z.to_nat (mb_pos mb) + i)%nat with (Z.to_nat (mb_pos mb + k) + (i - length hb))%nat by lia.
      rewrite D1 by lia. apply lookup_lt_is_Some. lia.
  - intros i Hi Hio. rewrite K2 by lia. apply K1; lia.
Qed.

Section writes_ok.
Context `{Host}.

Lemma writes_writes_ok m bs : no_oom -> Writes m bs -> WritesOk m bs.
Proof.
  intros Ho Hw mb Hwf Hr. destruct (Hw mb Hwf Hr) as (e & mb' & E & Hwf' & _ & _ & Hok & H0).
  rewrite (H0 Ho) in *. eauto.
Qed.

Lemma writes_ok_ret0 : WritesOk (ret 0) [].
Proof. intros mb Hwf _. exists mb. split_and!; [done|done|by apply written_nil]. Qed.

Lemma writes_ok_or_err m1 m2 b1 b2 : WritesOk m1 b1 -> WritesOk m2 b2 -> WritesOk (m1 |; m2) (b1 ++ b2).
Proof.
  intros H1 H2 mb Hwf Hr. rewrite length_app in Hr.
  destruct (H1 mb Hwf) as (mb1 & E1 & Hwf1 & W1); [lia|].
  destruct (H2 mb1 Hwf1) as (mb2 & E2 & Hwf2 & W2); [rewrite (wr_pos _ _ _ W1); lia|].
  exists mb2. unfold or_err. rewrite (bind_Some _ _ _ _ _ E1), (bind_Some _ _ _ _ _ E2).
  split_and!; [done|done|by apply (written_app _ _ mb1)].
Qed.

Lemma writes_ok_ext (m m' : M mbuf Z) bs : (forall mb, m mb = m' mb) -> WritesOk m' bs -> WritesOk m bs.
Proof. intros E Hw mb. rewrite E. apply Hw. Qed.

(** The three steps of a patched encoder. *)
Lemma patch_steps mb k (m mh : M mbuf Z) bs hb : mbuf_wf mb -> WritesOk m bs -> WritesOk mh hb ->
  zlength hb = k -> mb_pos mb + k + zlength bs < WRITE_MAX ->
  exists mb1 mb2, m (set_pos (mb_pos mb + k) mb) = Some (0, mb1) /\
    mb_pos mb1 = mb_pos mb + k + zlength bs /\
    mh (set_pos (mb_pos mb) mb1) = Some (0, mb2) /\ mbuf_wf mb2 /\ mb_pos mb2 = mb_pos mb + k /\
    written mb (hb ++ bs) (set_pos (mb_pos mb + k + zlength bs) mb2).
Proof.
  intros Hwf Hm Hh Hk Hr. pose proof (wf_pos _ Hwf). unfold WRITE_MAX in *.
  destruct (Hm (set_pos (mb_pos mb + k) mb)) as (mb1 & E1 & Hwf1 & W1);
    [apply set_pos_wf; [done|lia]|done|]. pose proof (wr_pos _ _ _ W1) as P1. simpl in P1.
  destruct (Hh (set_pos (mb_pos mb) mb1)) as (mb2 & E2 & Hwf2 & W2);
    [apply set_pos_wf; [done|lia]|unfold WRITE_MAX; simpl; lia|]. pose proof (wr_pos _ _ _ W2) as P2. simpl in P2.
  exists mb1, mb2. split_and!; try done; try lia. by apply (written_patch _ _ _ _ mb1).
Qed.

(** Overwriting bytes the buffer holds, from the position on. *)
Lemma holds_overwrite mb pre old rest bs mb' : holds mb (pre ++ old ++ rest) (zlength pre) ->
  mbuf_wf mb' -> written mb bs mb' -> length old = length bs ->
  holds mb' (pre ++ bs ++ rest) (zlength pre + zlength bs).
Proof.
  intros Hh Hwf' [Wp We Wc _ Wd Wk] Hl. pose proof (holds_end _ _ _ Hh) as Ee. rewrite !length_app in Ee.
  destruct Hh as [Hwf Hd Hpos]. pose proof (wf_len _ Hwf). pose proof (wf_len _ Hwf').
  pose proof (wf_end _ Hwf). pose proof (wf_end _ Hwf'). split; [done| |lia].
  replace (mb_end mb') with (mb_end mb) by lia. apply list_eq. intros i.
  assert (forall j, (j < length pre + length old + length rest)%nat ->
    mb_buf mb !! j = (pre ++ old ++ rest) !! j) as Hdj.
  { intros j Hj. rewrite <- Hd, lookup_take_lt by lia. done. }
  destruct (decide (i < length pre + length old + length rest)%nat) as [Hi|Hi].
  2: { rewrite lookup_take_ge by lia. symmetry. apply lookup_ge_None. rewrite !length_app. lia. }
  rewrite lookup_take_lt by lia. destruct (decide (i < length pre)%nat).
  - rewrite Wk, Hdj, !lookup_app_l by lia. done.
  - rewrite lookup_app_r by lia. destruct (decide (i < length pre + length bs)%nat).
    + rewrite lookup_app_l by lia. rewrite <- Wd by lia. f_equal. lia.
    + rewrite Wk, Hdj, !lookup_app_r by lia. f_equal. lia.
Qed.

(** ** Overwriting in place: nothing is allocated *)

Definition set_buf (b : list Z) (mb : mbuf) : mbuf := Mbuf b (mb_size mb) (mb_pos mb) (mb_end mb).

Definition Overwrites (m : M mbuf Z) (bs : list Z) : Prop :=
  forall mb, mbuf_wf mb -> mb_pos mb + zlength bs <= mb_end mb ->
    m mb = Some (0, set_pos (mb_pos mb + zlength bs) (set_buf (splice (mb_buf mb) (mb_pos mb) bs) mb)).

Lemma set_buf_wf mb b : mbuf_wf mb -> length b = length (mb_buf mb) -> bytes_ok b -> mbuf_wf (set_buf b mb).
Proof. intros [] Hl Hb. by split; simpl; rewrite ?Hl. Qed.

Lemma overwrites_mem bs : Overwrites (mbuf_write_mem bs) bs.
Proof.
  intros mb [Hl Hm Hb Hp He] Hle. unfold MEM_SIZE_MAX in *.
  unfold mbuf_write_mem, check, mbuf_grow. unfold bind at 1. rewrite (wrap_small 64) by lia.
  rewrite (proj2 (Z.ltb_ge _ _)) by lia. cbn [nz Z.eqb negb]. unfold get, bind, store_at, mem_store.
  rewrite in_block_true by lia. unfold modify, ret. cbn [mb_pos mb_end mb_size mb_buf].
  rewrite (wrap_small 64), Z.max_l by lia. done.
Qed.

Lemma splice_app m p b1 b2 : 0 <= p -> p + zlength b1 + zlength b2 <= zlength m ->
  splice (splice m p b1) (p + zlength b1) b2 = splice m p (b1 ++ b2).
Proof.
  intros Hp Hl. pose proof (length_splice m p b1 Hp ltac:(lia)) as L1. apply list_eq. intros i.
  assert (zlength (b1 ++ b2) = zlength b1 + zlength b2) as L2 by (rewrite length_app; lia).
  destruct (decide (Z.of_nat i < p \/ p + zlength b1 + zlength b2 <= Z.of_nat i)).
  { rewrite !splice_lookup_out by lia. done. }
  replace i with (Z.to_nat p + (i - Z.to_nat p))%nat by lia.
  rewrite (splice_lookup_in m p (b1 ++ b2)) by lia.
  destruct (decide (Z.of_nat i < p + zlength b1)).
  - by rewrite splice_lookup_out, splice_lookup_in, lookup_app_l by lia.
  - rewrite lookup_app_r by lia.
    replace (Z.to_nat p + (i - Z.to_nat p))%nat with (Z.to_nat (p + zlength b1) + (i - Z.to_nat p - length b1))%nat by lia.
    apply splice_lookup_in; lia.
Qed.

Lemma overwrites_or_err m1 m2 b1 b2 : bytes_ok b1 -> Overwrites m1 b1 -> Overwrites m2 b2 ->
  Overwrites (m1 |; m2) (b1 ++ b2).
Proof.
  intros Hb H1 H2 mb Hwf Hle. rewrite length_app in *. pose proof Hwf as [Hl Hm Hbs Hp He].
  unfold MEM_SIZE_MAX in *. unfold or_err. rewrite (bind_Some _ _ _ _ _ (H1 mb Hwf ltac:(lia))).
  set (mb1 := set_pos _ _). assert (mbuf_wf mb1) as Hwf1.
  { apply set_pos_wf; [|lia]. apply set_buf_wf; [done|apply length_splice; lia|by apply splice_ok]. }
  rewrite (bind_Some _ _ _ _ _ (H2 mb1 Hwf1 ltac:(simpl; lia))). unfold ret. do 2 f_equal.
  subst mb1. unfold set_pos, set_buf. simpl. f_equal; [|lia]. apply splice_app; lia.
Qed.

Lemma overwrites_hton n v : Overwrites (mbuf_write_mem (host_bytes n (hton n v))) (be_bytes n v).
Proof. rewrite host_bytes_hton. apply overwrites_mem. Qed.

Lemma splice_twice m p b1 b2 : 0 <= p -> p + zlength b1 <= zlength m -> length b1 = length b2 ->
  splice (splice m p b1) p b2 = splice m p b2.
Proof.
  intros Hp Hl E. unfold splice at 1. rewrite take_splice by lia. unfold splice at 2. do 2 f_equal.
  rewrite <- E, <- (drop_drop (splice _ _ _)), drop_splice by lia. by rewrite drop_app_length.
Qed.

Lemma splice_same m p n : 0 <= p -> 0 <= n -> p + n <= zlength m -> splice m p (slice m p n) = m.
Proof.
  intros Hp Hn Hl. pose proof (length_slice m p n Hp Hn Hl) as L. unfold splice.
  replace (Z.to_nat p + length (slice m p n))%nat with (Z.to_nat p + Z.to_nat n)%nat by lia.
  unfold slice. rewrite <- drop_drop, take_drop. apply take_drop.
Qed.

End writes_ok.
