(* ===== verification/Crypto.v ===== *)
(** * AES and HMAC contexts (src/aes/openssl/aes.c, src/hmac/openssl/hmac.c)

    The wrappers over OpenSSL's EVP interface.  The EVP functions themselves
    are not part of the sources: they are the operations of the class [Evp],
    and what the wrappers rely on of their documented behaviour is the class
    [EvpLaws], stated through an abstraction of the cipher context.  A context
    is changed in place by every call, so each operation returns the context
    after it. *)

From S2P Require Export Prelude.

Inductive aes_mode := AES_MODE_CTR | AES_MODE_GCM.

Definition EAUTH : Z := 217.

#[export] Instance aes_mode_eq_dec : EqDecision aes_mode.
Proof. solve_decision. Defined.

(** The ciphers [aes_cipher] selects from. *)
Inductive evp_cipher :=
  | EVP_aes_128_ctr | EVP_aes_192_ctr | EVP_aes_256_ctr | EVP_aes_128_gcm | EVP_aes_256_gcm.

Inductive evp_md := EVP_sha1 | EVP_sha256.

(** The EVP interface.  An [Update] call gets whether an output buffer was
    given (none: the input is additional authenticated data), the input bytes
    and the length passed as an [int]. *)
Class Evp := {
  evp_ctx : Type;
  EVP_CIPHER_CTX_new : option evp_ctx;
  EVP_EncryptInit_ex : evp_ctx -> evp_cipher -> list Z -> option (list Z) -> bool * evp_ctx;
  EVP_CipherInit_iv : evp_ctx -> list Z -> bool * evp_ctx;
  EVP_CipherInit_dir : evp_ctx -> bool -> bool * evp_ctx;
  EVP_EncryptUpdate : evp_ctx -> bool -> list Z -> Z -> bool * list Z * evp_ctx;
  EVP_DecryptUpdate : evp_ctx -> bool -> list Z -> Z -> bool * list Z * evp_ctx;
  EVP_EncryptFinal_ex : evp_ctx -> bool * evp_ctx;
  EVP_GCM_GET_TAG : evp_ctx -> Z -> bool * list Z * evp_ctx;
  EVP_GCM_SET_TAG : evp_ctx -> list Z -> bool * evp_ctx;
  EVP_DecryptFinal_ex : evp_ctx -> bool * evp_ctx;
  HMAC : evp_md -> list Z -> list Z -> option (list Z);
}.

Definition cipher_mode (c : evp_cipher) : aes_mode :=
  match c with
  | EVP_aes_128_ctr | EVP_aes_192_ctr | EVP_aes_256_ctr => AES_MODE_CTR
  | EVP_aes_128_gcm | EVP_aes_256_gcm => AES_MODE_GCM
  end.

Section aes.
Context `{Host} `{Evp}.

Record aes := Aes { aes_ctx : evp_ctx; aes_md : aes_mode; aes_dir : bool }.

Definition aes_cipher (mode : aes_mode) (key_bits : Z) : option evp_cipher :=
  match mode with
  | AES_MODE_CTR =>
      if key_bits =? 128 then Some EVP_aes_128_ctr
      else if key_bits =? 192 then Some EVP_aes_192_ctr
      else if key_bits =? 256 then Some EVP_aes_256_ctr
      else None
  | AES_MODE_GCM =>
      if key_bits =? 128 then Some EVP_aes_128_gcm
      else if key_bits =? 256 then Some EVP_aes_256_gcm
      else None
  end.

Definition set_crypt_dir (a : aes) (encr : bool) : bool * aes :=
  if eqb (aes_dir a) encr then (true, a)
  else
    let '(ok, ctx) := EVP_CipherInit_dir (aes_ctx a) encr in
    if ok then (true, Aes ctx (aes_md a) encr) else (false, Aes ctx (aes_md a) (aes_dir a)).

(** [sizeof(struct aes)] is 16 on an LP64 host. *)
Definition aes_alloc (mode : aes_mode) (key : list Z) (key_bits : Z) (iv : option (list Z))
    : Z * option aes :=
  match aes_cipher mode key_bits with
  | None => (ENOTSUP, None)
  | Some cipher =>
      if negb (malloc_ok (mem_header_size + 16)) then (ENOMEM, None)
      else
        match EVP_CIPHER_CTX_new with
        | None => (ENOMEM, None)
        | Some ctx =>
            let '(r, ctx) := EVP_EncryptInit_ex ctx cipher key iv in
            if r then (0, Some (Aes ctx mode true)) else (EPROTO, None)
        end
  end.

Definition aes_set_iv (a : aes) (iv : list Z) : aes :=
  let '(_, ctx) := EVP_CipherInit_iv (aes_ctx a) iv in Aes ctx (aes_md a) (aes_dir a).

Definition aes_encr (a : aes) (out : bool) (inp : list Z) : Z * list Z * aes :=
  let '(ok, a) := set_crypt_dir a true in
  if negb ok then (EPROTO, [], a)
  else
    let '(ok, o, ctx) := EVP_EncryptUpdate (aes_ctx a) out inp (s32 (zlength inp)) in
    let a := Aes ctx (aes_md a) (aes_dir a) in
    if ok then (0, o, a) else (EPROTO, o, a).

Definition aes_decr (a : aes) (out : bool) (inp : list Z) : Z * list Z * aes :=
  let '(ok, a) := set_crypt_dir a false in
  if negb ok then (EPROTO, [], a)
  else
    let '(ok, o, ctx) := EVP_DecryptUpdate (aes_ctx a) out inp (s32 (zlength inp)) in
    let a := Aes ctx (aes_md a) (aes_dir a) in
    if ok then (0, o, a) else (EPROTO, o, a).

Definition aes_get_authtag (a : aes) (taglen : Z) : Z * list Z * aes :=
  if taglen =? 0 then (EINVAL, [], a)
  else
    match aes_md a with
    | AES_MODE_GCM =>
        let '(ok, ctx) := EVP_EncryptFinal_ex (aes_ctx a) in
        if negb ok then (EPROTO, [], Aes ctx (aes_md a) (aes_dir a))
        else
          let '(ok, tag, ctx) := EVP_GCM_GET_TAG ctx taglen in
          let a := Aes ctx (aes_md a) (aes_dir a) in
          if ok then (0, tag, a) else (EPROTO, tag, a)
    | AES_MODE_CTR => (ENOTSUP, [], a)
    end.

Definition aes_authenticate (a : aes) (tag : list Z) : Z * aes :=
  if zlength tag =? 0 then (EINVAL, a)
  else
    match aes_md a with
    | AES_MODE_GCM =>
        let '(ok, ctx) := EVP_GCM_SET_TAG (aes_ctx a) tag in
        if negb ok then (EPROTO, Aes ctx (aes_md a) (aes_dir a))
        else
          let '(ok, ctx) := EVP_DecryptFinal_ex ctx in
          let a := Aes ctx (aes_md a) (aes_dir a) in
          if ok then (0, a) else (EAUTH, a)
    | AES_MODE_CTR => (ENOTSUP, a)
    end.

(** ** HMAC *)

Inductive hmac_hash := HMAC_HASH_SHA1 | HMAC_HASH_SHA256.

Record hmac := Hmac { hmac_evp : evp_md; hmac_key : list Z }.

(** [sizeof(struct hmac)] is 24 on an LP64 host. *)
Definition hmac_create (hash : hmac_hash) (key : list Z) : Z * option hmac :=
  if zlength key =? 0 then (EINVAL, None)
  else if negb (malloc_ok (mem_header_size + 24)) then (ENOMEM, None)
  else if negb (malloc_ok (mem_header_size + zlength key)) then (ENOMEM, None)
  else
    match hash with
    | HMAC_HASH_SHA1 => (0, Some (Hmac EVP_sha1 key))
    | HMAC_HASH_SHA256 => (0, Some (Hmac EVP_sha256 key))
    end.

(** The digest is stored at the start of the array [md]; [None]: it does not
    fit. *)
Definition hmac_digest (h : hmac) (md data : list Z) : option (Z * list Z) :=
  if (zlength md =? 0) || (zlength data =? 0) then Some (EINVAL, md)
  else
    match HMAC (hmac_evp h) (hmac_key h) data with
    | None => Some (EPROTO, md)
    | Some d =>
        match mem_store md 0 d with
        | Some md => Some (0, md)
        | None => None
        end
    end.

End aes.

(** ** What the wrappers rely on of OpenSSL

    The state of a cipher context as the EVP manual describes it: the cipher
    and key, the direction, the IV (absent before it is set and after an
    operation was finalised), the additional data and the ciphertext processed
    under that IV, and the expected tag. *)
Record evp_view := View {
  v_mode : aes_mode;
  v_key : list Z;
  v_enc : bool;
  v_iv : option (list Z);
  v_aad : list Z;
  v_ct : option (list Z);
  v_tag : option (list Z);
}.

(** CTR takes a 16-byte counter block, GCM a 12-byte IV. *)
Definition iv_used (m : aes_mode) (iv : list Z) : list Z :=
  match m with AES_MODE_CTR => take 16 iv | AES_MODE_GCM => take 12 iv end.

Definition key_size (c : evp_cipher) : Z :=
  match c with
  | EVP_aes_128_ctr | EVP_aes_128_gcm => 16
  | EVP_aes_192_ctr => 24
  | EVP_aes_256_ctr | EVP_aes_256_gcm => 32
  end.

(** An [Update] call stays below the range of [int]. *)
Definition INT_MAX : Z := 2 ^ 31 - 1.

Class EvpLaws `{Evp} := {
  view : evp_ctx -> evp_view -> Prop;
  (** The key stream cipher of each mode and the GCM authentication tag. *)
  stream : aes_mode -> list Z -> list Z -> list Z -> list Z;
  gcm_tag : list Z -> list Z -> list Z -> list Z -> list Z;
  stream_length m k iv x : length (stream m k iv x) = length x;
  stream_bytes m k iv x : bytes_ok x -> bytes_ok (stream m k iv x);
  stream_inv m k iv x : bytes_ok x -> stream m k iv (stream m k iv x) = x;
  gcm_tag_length k iv aad ct : length (gcm_tag k iv aad ct) = 16%nat;
  gcm_tag_bytes k iv aad ct : bytes_ok (gcm_tag k iv aad ct);
  init_law ctx c k iv ctx' : zlength k = key_size c ->
    EVP_EncryptInit_ex ctx c k iv = (true, ctx') ->
    view ctx' (View (cipher_mode c) k true iv [] None None);
  iv_law ctx v iv : view ctx v -> length iv = 16%nat ->
    exists ctx', EVP_CipherInit_iv ctx iv = (true, ctx') /\
      view ctx' (View (v_mode v) (v_key v) (v_enc v) (Some iv) [] None None);
  dir_law ctx m k d iv d' : view ctx (View m k d (Some iv) [] None None) ->
    exists ctx', EVP_CipherInit_dir ctx d' = (true, ctx') /\
      view ctx' (View m k d' (Some iv) [] None None);
  enc_law ctx m k iv aad x : view ctx (View m k true (Some iv) aad None None) ->
    bytes_ok x -> zlength x <= INT_MAX ->
    let y := stream m k (iv_used m iv) x in
    exists ctx', EVP_EncryptUpdate ctx true x (zlength x) = (true, y, ctx') /\
      view ctx' (View m k true (Some iv) aad (Some y) None);
  dec_law ctx m k iv aad y : view ctx (View m k false (Some iv) aad None None) ->
    bytes_ok y -> zlength y <= INT_MAX ->
    exists ctx', EVP_DecryptUpdate ctx true y (zlength y)
        = (true, stream m k (iv_used m iv) y, ctx') /\
      view ctx' (View m k false (Some iv) aad (Some y) None);
  enc_aad_law ctx k iv aad x : view ctx (View AES_MODE_GCM k true (Some iv) aad None None) ->
    bytes_ok x -> zlength x <= INT_MAX ->
    exists o ctx', EVP_EncryptUpdate ctx false x (zlength x) = (true, o, ctx') /\
      view ctx' (View AES_MODE_GCM k true (Some iv) (aad ++ x) None None);
  dec_aad_law ctx k iv aad x : view ctx (View AES_MODE_GCM k false (Some iv) aad None None) ->
    bytes_ok x -> zlength x <= INT_MAX ->
    exists o ctx', EVP_DecryptUpdate ctx false x (zlength x) = (true, o, ctx') /\
      view ctx' (View AES_MODE_GCM k false (Some iv) (aad ++ x) None None);
  enc_final_law ctx k iv aad y : view ctx (View AES_MODE_GCM k true (Some iv) aad (Some y) None) ->
    exists ctx', EVP_EncryptFinal_ex ctx = (true, ctx') /\
      view ctx' (View AES_MODE_GCM k true None aad (Some y) (Some (gcm_tag k (take 12 iv) aad y)));
  get_tag_law ctx k aad y tag : view ctx (View AES_MODE_GCM k true None aad (Some y) (Some tag)) ->
    exists ctx', EVP_GCM_GET_TAG ctx 16 = (true, tag, ctx') /\
      view ctx' (View AES_MODE_GCM k true None aad (Some y) (Some tag));
  set_tag_law ctx k iv aad y tag : view ctx (View AES_MODE_GCM k false (Some iv) aad (Some y) None) ->
    length tag = 16%nat ->
    exists ctx', EVP_GCM_SET_TAG ctx tag = (true, ctx') /\
      view ctx' (View AES_MODE_GCM k false (Some iv) aad (Some y) (Some tag));
  dec_final_law ctx k iv aad y tag :
    view ctx (View AES_MODE_GCM k false (Some iv) aad (Some y) (Some tag)) ->
    exists ctx', EVP_DecryptFinal_ex ctx = (bool_decide (tag = gcm_tag k (take 12 iv) aad y), ctx') /\
      view ctx' (View AES_MODE_GCM k false None aad (Some y) (Some tag));
  HMAC_sha1_law k d : exists md, HMAC EVP_sha1 k d = Some md /\ length md = 20%nat /\ bytes_ok md;
}.

(** ** Contexts in a known state *)

Section aes_laws.
Context `{Host} `{EvpLaws}.

Definition aes_in (a : aes) (v : evp_view) : Prop :=
  view (aes_ctx a) v /\ aes_md a = v_mode v /\ aes_dir a = v_enc v.

(** A context holding a key, whatever it was last used for. *)
Definition aes_keyed (a : aes) (m : aes_mode) (k : list Z) : Prop :=
  exists d iv aad ct tag, aes_in a (View m k d iv aad ct tag).

Lemma aes_alloc_keyed m k bits iv a : zlength k * 8 = bits ->
  aes_alloc m k bits iv = (0, Some a) -> aes_in a (View m k true iv [] None None).
Proof.
  unfold aes_alloc. intros Hk. destruct (aes_cipher m bits) as [c|] eqn:Ec; [|done].
  destruct (negb _); [done|]. destruct EVP_CIPHER_CTX_new as [ctx|]; [|done].
  destruct (EVP_EncryptInit_ex ctx c k iv) as [[] ctx'] eqn:Ei; intros [= <-].
  assert (cipher_mode c = m /\ key_size c = zlength k) as [<- Hs].
  { unfold aes_cipher in Ec. destruct m; repeat case_match; simplify_eq/=; split; lia || done. }
  split_and!; [by eapply init_law|done|done].
Qed.

Lemma aes_set_iv_in a m k iv : aes_keyed a m k -> length iv = 16%nat ->
  exists d, aes_in (aes_set_iv a iv) (View m k d (Some iv) [] None None).
Proof.
  intros (d & iv' & aad & ct & tag & Hv & Hm & Hd) Hl. exists d. unfold aes_set_iv.
  destruct (iv_law _ _ iv Hv Hl) as (ctx' & -> & Hv'). by split.
Qed.

Lemma set_crypt_dir_in a m k d iv d' : aes_in a (View m k d (Some iv) [] None None) ->
  exists a', set_crypt_dir a d' = (true, a') /\ aes_in a' (View m k d' (Some iv) [] None None).
Proof.
  intros (Hv & Hm & Hd). simpl in *. unfold set_crypt_dir. rewrite Hd.
  destruct (eqb d d') eqn:E.
  - apply eqb_prop in E as ->. by exists a.
  - destruct (dir_law _ _ _ _ _ d' Hv) as (ctx' & -> & Hv'). eexists. by split.
Qed.

Lemma set_crypt_dir_id a v d : aes_in a v -> v_enc v = d -> set_crypt_dir a d = (true, a).
Proof. intros (_ & _ & Hd) <-. unfold set_crypt_dir. by rewrite Hd, eqb_reflx. Qed.

Lemma s32_len (x : list Z) : zlength x <= INT_MAX -> s32 (zlength x) = zlength x.
Proof. unfold INT_MAX. intros. apply swrap_small; lia. Qed.

(** Encrypting or decrypting one packet under a fresh IV. *)
Lemma aes_encr_first a m k d iv x : aes_in a (View m k d (Some iv) [] None None) ->
  bytes_ok x -> zlength x <= INT_MAX ->
  let y := stream m k (iv_used m iv) x in
  exists a', aes_encr a true x = (0, y, a') /\ aes_in a' (View m k true (Some iv) [] (Some y) None).
Proof.
  intros Hin Hx Hl y. destruct (set_crypt_dir_in _ _ _ _ _ true Hin) as (a1 & E & Hv & Hm & Hd).
  unfold aes_encr. rewrite E, s32_len by done. cbn [negb].
  destruct (enc_law _ _ _ _ _ x Hv Hx Hl) as (ctx' & -> & Hv'). eexists. by split.
Qed.

Lemma aes_decr_first a m k d iv y : aes_in a (View m k d (Some iv) [] None None) ->
  bytes_ok y -> zlength y <= INT_MAX ->
  exists a', aes_decr a true y = (0, stream m k (iv_used m iv) y, a') /\
    aes_in a' (View m k false (Some iv) [] (Some y) None).
Proof.
  intros Hin Hx Hl. destruct (set_crypt_dir_in _ _ _ _ _ false Hin) as (a1 & E & Hv & Hm & Hd).
  unfold aes_decr. rewrite E, s32_len by done. cbn [negb].
  destruct (dec_law _ _ _ _ _ y Hv Hx Hl) as (ctx' & -> & Hv'). eexists. by split.
Qed.

(** Additional data: the first piece sets the direction. *)
Lemma aes_encr_aad_first a k d iv x : aes_in a (View AES_MODE_GCM k d (Some iv) [] None None) ->
  bytes_ok x -> zlength x <= INT_MAX ->
  exists o a', aes_encr a false x = (0, o, a') /\
    aes_in a' (View AES_MODE_GCM k true (Some iv) x None None).
Proof.
  intros Hin Hx Hl. destruct (set_crypt_dir_in _ _ _ _ _ true Hin) as (a1 & E & Hv & Hm & Hd).
  unfold aes_encr. rewrite E, s32_len by done. cbn [negb].
  destruct (enc_aad_law _ _ _ _ x Hv Hx Hl) as (o & ctx' & -> & Hv'). eexists _, _. by split.
Qed.

Lemma aes_decr_aad_first a k d iv x : aes_in a (View AES_MODE_GCM k d (Some iv) [] None None) ->
  bytes_ok x -> zlength x <= INT_MAX ->
  exists o a', aes_decr a false x = (0, o, a') /\
    aes_in a' (View AES_MODE_GCM k false (Some iv) x None None).
Proof.
  intros Hin Hx Hl. destruct (set_crypt_dir_in _ _ _ _ _ false Hin) as (a1 & E & Hv & Hm & Hd).
  unfold aes_decr. rewrite E, s32_len by done. cbn [negb].
  destruct (dec_aad_law _ _ _ _ x Hv Hx Hl) as (o & ctx' & -> & Hv'). eexists _, _. by split.
Qed.

Lemma aes_encr_aad_next a k iv aad x : aes_in a (View AES_MODE_GCM k true (Some iv) aad None None) ->
  bytes_ok x -> zlength x <= INT_MAX ->
  exists o a', aes_encr a false x = (0, o, a') /\
    aes_in a' (View AES_MODE_GCM k true (Some iv) (aad ++ x) None None).
Proof.
  intros Hin Hx Hl. unfold aes_encr. rewrite (set_crypt_dir_id _ _ _ Hin), s32_len by done. cbn [negb].
  destruct Hin as (Hv & Hm & Hd).
  destruct (enc_aad_law _ _ _ _ x Hv Hx Hl) as (o & ctx' & -> & Hv'). eexists _, _. by split.
Qed.

Lemma aes_decr_aad_next a k iv aad x : aes_in a (View AES_MODE_GCM k false (Some iv) aad None None) ->
  bytes_ok x -> zlength x <= INT_MAX ->
  exists o a', aes_decr a false x = (0, o, a') /\
    aes_in a' (View AES_MODE_GCM k false (Some iv) (aad ++ x) None None).
Proof.
  intros Hin Hx Hl. unfold aes_decr. rewrite (set_crypt_dir_id _ _ _ Hin), s32_len by done. cbn [negb].
  destruct Hin as (Hv & Hm & Hd).
  destruct (dec_aad_law _ _ _ _ x Hv Hx Hl) as (o & ctx' & -> & Hv'). eexists _, _. by split.
Qed.

(** Payload after additional data. *)
Lemma aes_encr_next a m k iv aad x : aes_in a (View m k true (Some iv) aad None None) ->
  bytes_ok x -> zlength x <= INT_MAX ->
  let y := stream m k (iv_used m iv) x in
  exists a', aes_encr a true x = (0, y, a') /\ aes_in a' (View m k true (Some iv) aad (Some y) None).
Proof.
  intros Hin Hx Hl y. unfold aes_encr. rewrite (set_crypt_dir_id _ _ _ Hin), s32_len by done. cbn [negb].
  destruct Hin as (Hv & Hm & Hd).
  destruct (enc_law _ _ _ _ _ x Hv Hx Hl) as (ctx' & -> & Hv'). eexists. by split.
Qed.

Lemma aes_decr_next a m k iv aad y : aes_in a (View m k false (Some iv) aad None None) ->
  bytes_ok y -> zlength y <= INT_MAX ->
  exists a', aes_decr a true y = (0, stream m k (iv_used m iv) y, a') /\
    aes_in a' (View m k false (Some iv) aad (Some y) None).
Proof.
  intros Hin Hx Hl. unfold aes_decr. rewrite (set_crypt_dir_id _ _ _ Hin), s32_len by done. cbn [negb].
  destruct Hin as (Hv & Hm & Hd).
  destruct (dec_law _ _ _ _ _ y Hv Hx Hl) as (ctx' & -> & Hv'). eexists. by split.
Qed.

Lemma aes_get_authtag_in a k iv aad y :
  aes_in a (View AES_MODE_GCM k true (Some iv) aad (Some y) None) ->
  exists a', aes_get_authtag a 16 = (0, gcm_tag k (take 12 iv) aad y, a') /\
    aes_keyed a' AES_MODE_GCM k.
Proof.
  intros (Hv & Hm & Hd). simpl in *. unfold aes_get_authtag. rewrite Hm. cbn [Z.eqb].
  destruct (enc_final_law _ _ _ _ _ Hv) as (c1 & -> & Hv1). cbn [negb].
  destruct (get_tag_law _ _ _ _ _ Hv1) as (c2 & -> & Hv2). eexists. split; [done|].
  by eexists _, _, _, _, _; split.
Qed.

Lemma aes_authenticate_in a k iv aad y tag :
  aes_in a (View AES_MODE_GCM k false (Some iv) aad (Some y) None) -> length tag = 16%nat ->
  exists a', aes_authenticate a tag =
      (if bool_decide (tag = gcm_tag k (take 12 iv) aad y) then 0 else EAUTH, a') /\
    aes_keyed a' AES_MODE_GCM k.
Proof.
  intros (Hv & Hm & Hd) Hl. simpl in *. unfold aes_authenticate. rewrite Hm.
  rewrite (proj2 (Z.eqb_neq _ _)) by lia.
  destruct (set_tag_law _ _ _ _ _ tag Hv Hl) as (c1 & -> & Hv1). cbn [negb].
  destruct (dec_final_law _ _ _ _ _ _ Hv1) as (c2 & -> & Hv2).
  eexists. case_bool_decide; (split; [done|]); by eexists _, _, _, _, _; split.
Qed.

Lemma hmac_digest_sha1 k data : data <> [] ->
  exists md, HMAC EVP_sha1 k data = Some md /\ length md = 20%nat /\ bytes_ok md /\
    hmac_digest (Hmac EVP_sha1 k) (replicate 20 0) data = Some (0, md).
Proof.
  intros Hne. destruct (HMAC_sha1_law k data) as (md & E & Hl & Hb). exists md. split_and!; try done.
  unfold hmac_digest. destruct data; [done|]. cbn [hmac_evp hmac_key]. rewrite E.
  unfold mem_store. rewrite in_block_true by (rewrite ?length_replicate; lia).
  cbn -[replicate splice]. unfold splice. rewrite Hl. cbn. by rewrite app_nil_r.
Qed.

End aes_laws.

(** ** A model of the EVP interface

    A concrete (and cryptographically worthless) instance of [Evp] that
    satisfies [EvpLaws]: the laws are consistent, and the theorems that assume
    them can be evaluated on concrete packets. *)

(** A polynomial hash of a byte string. *)
Definition mix (bs : list Z) : Z := foldl (fun a b => (a * 257 + b + 1) mod 2 ^ 160) 0 bs.

Definition model_stream (m : aes_mode) (k iv x : list Z) : list Z :=
  (fun b => Z.lxor b (mix (k ++ iv ++ [match m with AES_MODE_CTR => 0 | AES_MODE_GCM => 1 end]) mod 256)) <$> x.

Definition model_tag (k iv aad ct : list Z) : list Z := be_bytes 16 (mix (k ++ iv ++ aad ++ ct)).

Definition with_dir (d : bool) (v : evp_view) : evp_view :=
  View (v_mode v) (v_key v) d (v_iv v) (v_aad v) (v_ct v) (v_tag v).

Definition model_update (v : evp_view) (out : bool) (x : list Z) (enc : bool) : bool * list Z * evp_view :=
  match v_iv v with
  | Some iv =>
      if out then
        let y := model_stream (v_mode v) (v_key v) (iv_used (v_mode v) iv) x in
        (true, y, View (v_mode v) (v_key v) (v_enc v) (v_iv v) (v_aad v) (Some (if enc then y else x)) (v_tag v))
      else (true, [], View (v_mode v) (v_key v) (v_enc v) (v_iv v) (v_aad v ++ x) (v_ct v) (v_tag v))
  | None => (false, [], v)
  end.

Definition view_tag (v : evp_view) : list Z :=
  model_tag (v_key v) (take 12 (default [] (v_iv v))) (v_aad v) (default [] (v_ct v)).

Definition model_evp : Evp := {|
  evp_ctx := evp_view;
  EVP_CIPHER_CTX_new := Some (View AES_MODE_CTR [] true None [] None None);
  EVP_EncryptInit_ex ctx c k iv := (true, View (cipher_mode c) k true iv [] None None);
  EVP_CipherInit_iv v iv := (true, View (v_mode v) (v_key v) (v_enc v) (Some iv) [] None None);
  EVP_CipherInit_dir v d := (true, with_dir d v);
  EVP_EncryptUpdate v out x n := model_update v out x true;
  EVP_DecryptUpdate v out x n := model_update v out x false;
  EVP_EncryptFinal_ex v :=
    (true, View (v_mode v) (v_key v) (v_enc v) None (v_aad v) (v_ct v) (Some (view_tag v)));
  EVP_GCM_GET_TAG v n := (true, default [] (v_tag v), v);
  EVP_GCM_SET_TAG v tag := (true, View (v_mode v) (v_key v) (v_enc v) (v_iv v) (v_aad v) (v_ct v) (Some tag));
  EVP_DecryptFinal_ex v :=
    (bool_decide (default [] (v_tag v) = view_tag v),
     View (v_mode v) (v_key v) (v_enc v) None (v_aad v) (v_ct v) (v_tag v));
  HMAC md k d := Some (be_bytes 20 (mix (k ++ d)));
|}.

Lemma model_stream_bytes m k iv x : bytes_ok x -> bytes_ok (model_stream m k iv x).
Proof.
  intros Hx. unfold model_stream. apply Forall_fmap. revert Hx. apply Forall_impl. intros b Hb.
  unfold byte_ok in *. simpl. apply (lxor_range _ _ 8); [lia|done|]. apply Z.mod_pos_bound. lia.
Qed.

Lemma model_stream_inv m k iv x : model_stream m k iv (model_stream m k iv x) = x.
Proof.
  unfold model_stream. rewrite <- list_fmap_compose. rewrite <- (list_fmap_id x) at 2.
  apply list_fmap_ext. intros i b _. simpl. apply lxor_twice.
Qed.

Definition model_laws : EvpLaws (H := model_evp).
Proof.
  refine {|
    view := fun (ctx : evp_ctx (Evp := model_evp)) v => ctx = v;
    stream := model_stream;
    gcm_tag := model_tag;
  |}.
  - intros. apply length_fmap.
  - apply model_stream_bytes.
  - intros. apply model_stream_inv.
  - intros. apply length_be_bytes.
  - intros. apply be_bytes_ok.
  - intros ctx c k iv ctx' _ [= <-]. done.
  - intros ctx v iv -> _. eexists. split; reflexivity.
  - intros ctx m k d iv d' ->. eexists. split; reflexivity.
  - intros ctx m k iv aad x -> _ _ y. eexists. split; reflexivity.
  - intros ctx m k iv aad y -> _ _. eexists. split; reflexivity.
  - intros ctx k iv aad x -> _ _. eexists _, _. split; reflexivity.
  - intros ctx k iv aad x -> _ _. eexists _, _. split; reflexivity.
  - intros ctx k iv aad y ->. eexists. split; reflexivity.
  - intros ctx k aad y tag ->. eexists. split; reflexivity.
  - intros ctx k iv aad y tag -> _. eexists. split; reflexivity.
  - intros ctx k iv aad y tag ->. eexists. split; reflexivity.
  - intros k d. eexists. split_and!; [reflexivity|apply length_be_bytes|apply be_bytes_ok].
Defined.
