(* ===== verification/Srtp.v ===== *)
(** * SRTP state: replay windows, packet indices, streams (src/srtp)

    [replay.c], [misc.c] and [stream.c]: the sliding window that rejects
    replayed packets, the derivation of packet indices and initialisation
    vectors, and the table of streams of a session. *)

From S2P Require Export Prelude Mbuf MbufData Crypto.

Definition ENOSR : Z := 63.
Definition EALREADY : Z := 114.

(** ** Replay protection (replay.c) *)

Definition SRTP_WINDOW_SIZE : Z := 64.

Record replay := Replay { r_bitmap : Z; r_lix : Z }.

Definition srtp_replay_init : replay := Replay 0 0.

Definition srtp_replay_check (r : replay) (ix : Z) : bool * replay :=
  if r_lix r <? ix then
    let diff := ix - r_lix r in
    let bitmap :=
      if diff <? SRTP_WINDOW_SIZE then Z.lor (u64 (Z.shiftl (r_bitmap r) diff)) 1 else 1 in
    (true, Replay bitmap ix)
  else
    let diff := r_lix r - ix in
    if SRTP_WINDOW_SIZE <=? diff then (false, r)
    else if nz (Z.land (r_bitmap r) (Z.shiftl 1 diff)) then (false, r)
    else (true, Replay (Z.lor (r_bitmap r) (Z.shiftl 1 diff)) (r_lix r)).

(** The decisions over a sequence of packet indices. *)
Fixpoint replay_run (r : replay) (ixs : list Z) : list bool :=
  match ixs with
  | [] => []
  | ix :: ixs => let '(ok, r) := srtp_replay_check r ix in ok :: replay_run r ixs
  end.

(** *** The policy: a window below the highest accepted index *)

Definition highest (acc : list Z) : Z := foldr Z.max 0 acc.

Definition window_accepts (acc : list Z) (ix : Z) : bool :=
  (highest acc <? ix) ||
  ((highest acc - ix <? SRTP_WINDOW_SIZE) && bool_decide (ix ∉ acc)).

Fixpoint window_run (acc : list Z) (ixs : list Z) : list bool :=
  match ixs with
  | [] => []
  | ix :: ixs =>
      if window_accepts acc ix then true :: window_run (ix :: acc) ixs
      else false :: window_run acc ixs
  end.

(** The bitmap marks the accepted indices of the window. *)
Record replay_rel (r : replay) (acc : list Z) : Prop := {
  rr_bitmap : 0 <= r_bitmap r < 2 ^ 64;
  rr_lix : r_lix r = highest acc;
  rr_lix_range : 0 <= r_lix r < 2 ^ 64;
  rr_bits : forall i, 0 <= i <= r_lix r -> r_lix r - i < SRTP_WINDOW_SIZE ->
    Z.testbit (r_bitmap r) (r_lix r - i) = bool_decide (i ∈ acc);
}.

Lemma accepted_le_highest acc i : i ∈ acc -> i <= highest acc.
Proof. induction 1 as [i acc|i j acc Hi IH]; simpl; lia. Qed.

Lemma nz_land_bit a i : 0 <= i -> nz (Z.land a (Z.shiftl 1 i)) = Z.testbit a i.
Proof.
  intros Hi. destruct (Z.testbit a i) eqn:E; unfold nz.
  - destruct (Z.eqb_spec (Z.land a (Z.shiftl 1 i)) 0) as [H0|]; [|done].
    assert (Z.testbit (Z.land a (Z.shiftl 1 i)) i = false) as Hb by (by rewrite H0, Z.bits_0).
    rewrite Z.land_spec, E, Z.shiftl_spec, Z.sub_diag in Hb by lia. done.
  - destruct (Z.eqb_spec (Z.land a (Z.shiftl 1 i)) 0) as [|Hn]; [done|]. destruct Hn.
    apply Z.bits_inj'. intros j Hj. rewrite Z.land_spec, Z.bits_0, Z.shiftl_1_l, Z.pow2_bits_eqb by lia.
    destruct (Z.eqb_spec i j) as [<-|]; [by rewrite E|apply andb_false_r].
Qed.

(** A new highest index slides the window. *)
Lemma replay_rel_forward r acc ix : replay_rel r acc -> r_lix r < ix < 2 ^ 64 ->
  replay_rel (snd (srtp_replay_check r ix)) (ix :: acc).
Proof.
  intros [Hb Hl Hlr Hbits] Hix. unfold srtp_replay_check. rewrite (proj2 (Z.ltb_lt _ _)) by lia.
  unfold SRTP_WINDOW_SIZE in *. split; cbn [snd r_lix r_bitmap]; [| |lia|].
  - case_match; [|lia]. apply lor_range; [lia|apply wrap_range; lia|lia].
  - unfold highest in *. simpl. lia.
  - intros i Hi Hw. unfold SRTP_WINDOW_SIZE in *. rewrite (bool_decide_ext (i ∈ ix :: acc) (i = ix \/ i ∈ acc)) by apply elem_of_cons.
    assert (forall j, 0 <= j -> Z.testbit 1 j = (j =? 0)) as H1
      by (intros j Hj; change 1 with (2 ^ 0); rewrite Z.pow2_bits_eqb by lia; lia).
    destruct (decide (i = ix)) as [->|Hne].
    { rewrite bool_decide_true by auto. rewrite Z.sub_diag. case_match; [|done].
      rewrite Z.lor_spec. by rewrite (H1 0), orb_true_r by lia. }
    assert (bool_decide (i = ix \/ i ∈ acc) = bool_decide (i ∈ acc)) as -> by (apply bool_decide_ext; tauto).
    assert (r_lix r < i -> bool_decide (i ∈ acc) = false) as Hout
      by (intros; apply bool_decide_false; intros ?%accepted_le_highest; lia).
    destruct (Z.ltb_spec (ix - r_lix r) 64) as [Hd|Hd].
    + rewrite Z.lor_spec, H1 by lia. rewrite (proj2 (Z.eqb_neq _ 0)), orb_false_r by lia.
      unfold wrap. rewrite Z.mod_pow2_bits_low by lia. rewrite Z.shiftl_spec by lia.
      destruct (decide (i <= r_lix r)).
      * replace (ix - i - (ix - r_lix r)) with (r_lix r - i) by lia. apply Hbits; lia.
      * rewrite Hout by lia. apply Z.testbit_neg_r. lia.
    + rewrite H1 by lia. rewrite Hout by lia. lia.
Qed.

(** A late index inside the window is marked. *)
Lemma replay_rel_late r acc ix : replay_rel r acc -> 0 <= ix <= r_lix r -> r_lix r - ix < SRTP_WINDOW_SIZE ->
  replay_rel (Replay (Z.lor (r_bitmap r) (Z.shiftl 1 (r_lix r - ix))) (r_lix r)) (ix :: acc).
Proof.
  intros [Hb Hl Hlr Hbits] Hix Hw. unfold SRTP_WINDOW_SIZE in *. split; simpl; [| |done|].
  - apply lor_range; [lia|done|]. rewrite Z.shiftl_1_l. split; [lia|]. apply Z.pow_lt_mono_r; lia.
  - unfold highest in *. simpl. lia.
  - intros i Hi Hwi. unfold SRTP_WINDOW_SIZE in *. rewrite Z.lor_spec, Hbits, Z.shiftl_1_l, Z.pow2_bits_eqb by lia.
    rewrite (bool_decide_ext (i ∈ ix :: acc) (i = ix \/ i ∈ acc)) by apply elem_of_cons.
    destruct (Z.eqb_spec (r_lix r - ix) (r_lix r - i)).
    + rewrite orb_true_r. symmetry. apply bool_decide_true. left. lia.
    + rewrite orb_false_r. apply bool_decide_ext. split; [auto|]. intros [->|]; [lia|done].
Qed.

(** One check simulates one step of the policy. *)
Lemma replay_check_step r acc ix : replay_rel r acc -> 0 <= ix < 2 ^ 64 ->
  fst (srtp_replay_check r ix) = window_accepts acc ix /\
  replay_rel (snd (srtp_replay_check r ix)) (if window_accepts acc ix then ix :: acc else acc).
Proof.
  intros Hr Hix. pose proof Hr as [Hb Hl Hlr Hbits]. unfold window_accepts. rewrite <- Hl.
  destruct (Z.ltb_spec (r_lix r) ix) as [Hlt|Hge].
  { split; [|apply replay_rel_forward; [done|lia]]. unfold srtp_replay_check. by rewrite (proj2 (Z.ltb_lt _ _)). }
  unfold srtp_replay_check. rewrite (proj2 (Z.ltb_ge _ _)) by lia. cbn [orb].
  rewrite nz_land_bit by lia. destruct (Z.leb_spec SRTP_WINDOW_SIZE (r_lix r - ix)).
  { rewrite (proj2 (Z.ltb_ge _ _)) by lia. done. }
  rewrite (proj2 (Z.ltb_lt _ _)) by lia. cbn [andb]. rewrite Hbits by lia.
  destruct (decide (ix ∈ acc)).
  - rewrite bool_decide_true, bool_decide_false by auto. done.
  - rewrite (bool_decide_false (ix ∈ acc)), bool_decide_true by auto. split; [done|]. apply replay_rel_late; [done|lia|done].
Qed.

Lemma replay_rel_init : replay_rel srtp_replay_init [].
Proof.
  split; cbn [srtp_replay_init r_bitmap r_lix]; try lia; try done.
  intros i Hi _. rewrite bool_decide_false by (apply not_elem_of_nil). apply Z.testbit_0_l.
Qed.

Lemma replay_run_window r acc ixs : replay_rel r acc -> Forall (fun ix => 0 <= ix < 2 ^ 64) ixs ->
  replay_run r ixs = window_run acc ixs.
Proof.
  intros Hr Hixs. revert r acc Hr. induction Hixs as [|ix ixs Hix _ IH]; intros r acc Hr; [done|].
  destruct (replay_check_step r acc ix Hr Hix) as [E Hr']. cbn [replay_run window_run].
  destruct (srtp_replay_check r ix) as [ok r'] eqn:Ec. simpl in *. subst ok.
  destruct (window_accepts acc ix); f_equal; by apply IH.
Qed.

(** The indices a run accepts. *)
Definition accepted (oks : list bool) (ixs : list Z) : list Z :=
  (zip oks ixs) ≫= (fun p : bool * Z => if p.1 then [p.2] else []).

Lemma window_run_accepted acc ixs ix : ix ∈ accepted (window_run acc ixs) ixs ->
  highest acc < ix \/ ix ∉ acc.
Proof.
  revert acc. induction ixs as [|i ixs IH]; intros acc; cbn [window_run]; [intros H; by apply not_elem_of_nil in H|].
  unfold window_accepts at 1. destruct (_ || _) eqn:Ew.
  - unfold accepted. cbn. rewrite elem_of_cons. intros [->|Hin].
    + apply orb_prop in Ew as [?|[_ Hn]%andb_prop]; [left; lia|right].
      by apply bool_decide_eq_true_1 in Hn.
    + destruct (IH (i :: acc) Hin) as [Hh|Hn]; [left; unfold highest in *; simpl in Hh; lia|].
      right. intros ?. apply Hn. by apply list_elem_of_further.
  - apply IH.
Qed.

Lemma window_run_nodup acc ixs : NoDup (accepted (window_run acc ixs) ixs).
Proof.
  revert acc. induction ixs as [|i ixs IH]; intros acc; cbn [window_run]; [constructor|].
  destruct (window_accepts acc i); [|apply IH]. unfold accepted. cbn. constructor; [|apply IH].
  intros Hin. destruct (window_run_accepted (i :: acc) ixs i Hin) as [Hh|Hn].
  - unfold highest in Hh. simpl in Hh. lia.
  - apply Hn. by apply list_elem_of_here.
Qed.

(** C5: the 64-bit replay window implements its policy: over every sequence of
    64-bit packet indices received by a new stream, the bitmap implementation
    decides exactly as the policy that accepts an index above all accepted ones,
    and one less than 64 below the highest when it was not accepted before. *)
Theorem replay_refines_window ixs : Forall (fun ix => 0 <= ix < 2 ^ 64) ixs ->
  replay_run srtp_replay_init ixs = window_run [] ixs.
Proof. intros. apply replay_run_window; [apply replay_rel_init|done]. Qed.

Lemma replay_refines_window_witness :
  replay_run srtp_replay_init [5; 5; 70; 6; 7; 7; 5; 200] =
    [true; false; true; false; true; false; false; true] /\
  window_run [] [5; 5; 70; 6; 7; 7; 5; 200] =
    [true; false; true; false; true; false; false; true].
Proof.
  split; [|rewrite <- replay_refines_window by (repeat constructor; lia)]; reflexivity.
Defined.

(** No packet index is accepted twice, whatever the order of arrival. *)
Theorem replay_accepts_once ixs : Forall (fun ix => 0 <= ix < 2 ^ 64) ixs ->
  NoDup (accepted (replay_run srtp_replay_init ixs) ixs).
Proof.
  intros. rewrite (replay_run_window _ []) by (apply replay_rel_init || done). apply window_run_nodup.
Qed.

Lemma replay_accepts_once_witness : NoDup (accepted (replay_run srtp_replay_init [3; 9; 3; 4; 9; 4]) [3; 9; 3; 4; 9; 4]) /\
  accepted (replay_run srtp_replay_init [3; 9; 3; 4; 9; 4]) [3; 9; 3; 4; 9; 4] = [3; 9; 4].
Proof. split; [apply replay_accepts_once; repeat constructor; lia|reflexivity]. Defined.

(** ** Packet indices and initialisation vectors (misc.c) *)

Definition seq_diff (x y : Z) : Z := y - x.

(** [int v] receives a [uint32_t]; the product is taken in [uint64_t]. *)
Definition srtp_get_index (roc s_l seq : Z) : Z :=
  let v :=
    if s_l <? 32768 then
      if 32768 <? seq - s_l then s32 (Z.land (u32 (roc - 1)) 0xffffffff) else s32 roc
    else
      if seq <? s_l - 32768 then s32 (Z.land (u32 (roc + 1)) 0xffffffff) else s32 roc in
  u64 (seq + u64 (u64 v * 65536)).

Section vect128.
Context `{Host}.

(** [union vect128]: 16 bytes, read and written as [n]-byte host integers. *)
Definition vget (n : nat) (i : Z) (v : list Z) : Z := host_val (slice v (Z.of_nat n * i) (Z.of_nat n)).
Definition vset (n : nat) (i x : Z) (v : list Z) : list Z := splice v (Z.of_nat n * i) (host_bytes n x).

Definition srtp_iv_calc (iv k_s : list Z) (ssrc ix : Z) : list Z :=
  let iv := vset 4 0 (vget 4 0 k_s) iv in
  let iv := vset 4 1 (Z.lxor (vget 4 1 k_s) (htonl ssrc)) iv in
  let iv := vset 4 2 (Z.lxor (vget 4 2 k_s) (htonl (u32 (Z.shiftr ix 16)))) iv in
  let iv := vset 2 6 (Z.lxor (vget 2 6 k_s) (htons (u16 ix))) iv in
  vset 2 7 0 iv.

Definition srtp_iv_calc_gcm (iv k_s : list Z) (ssrc ix : Z) : list Z :=
  let iv := vset 2 0 (vget 2 0 k_s) iv in
  let iv := vset 2 1 (Z.lxor (vget 2 1 k_s) (htons (u16 (Z.shiftr ssrc 16)))) iv in
  let iv := vset 2 2 (Z.lxor (vget 2 2 k_s) (htons (u16 (Z.land ssrc 0xffff)))) iv in
  let iv := vset 2 3 (Z.lxor (vget 2 3 k_s) (htons (u16 (Z.land (Z.shiftr ix 32) 0xffff)))) iv in
  let iv := vset 2 4 (Z.lxor (vget 2 4 k_s) (htons (u16 (Z.land (Z.shiftr ix 16) 0xffff)))) iv in
  vset 2 5 (Z.lxor (vget 2 5 k_s) (htons (u16 (Z.land ix 0xffff)))) iv.

End vect128.

(** *** Bytewise exclusive or *)

Abbreviation xor_bytes := (zip_with Z.lxor).

Lemma lxor_mod a b n : 0 <= n -> Z.lxor a b mod 2 ^ n = Z.lxor (a mod 2 ^ n) (b mod 2 ^ n).
Proof.
  intros Hn. apply Z.bits_inj'. intros i Hi. rewrite Z.lxor_spec. destruct (decide (i < n)).
  - by rewrite !Z.mod_pow2_bits_low, Z.lxor_spec by lia.
  - by rewrite !Z.mod_pow2_bits_high by lia.
Qed.

Lemma le_bytes_lxor n a b : le_bytes n (Z.lxor a b) = xor_bytes (le_bytes n a) (le_bytes n b).
Proof.
  revert a b. induction n as [|n IH]; intros a b; [done|]. cbn [le_bytes zip_with]. f_equal.
  - apply (lxor_mod a b 8). lia.
  - rewrite <- IH. f_equal. change 256 with (2 ^ 8).
    rewrite <- !Z.shiftr_div_pow2 by lia. apply Z.shiftr_lxor.
Qed.

Lemma reverse_zip_with (l k : list Z) : length l = length k ->
  reverse (xor_bytes l k) = xor_bytes (reverse l) (reverse k).
Proof.
  revert k. induction l as [|x l IH]; intros [|y k] E; try done. simpl in *. rewrite !reverse_cons.
  rewrite zip_with_app by (rewrite !length_reverse; lia). rewrite IH by lia. done.
Qed.

Lemma le_val_lxor a b : bytes_ok a -> bytes_ok b -> length a = length b ->
  le_val (xor_bytes a b) = Z.lxor (le_val a) (le_val b).
Proof.
  intros Ha. revert b. induction Ha as [|x a Hx _ IH]; intros b Hb E; destruct b as [|y b]; try done.
  apply Forall_cons_iff in Hb as [Hy Hb]. cbn [le_val zip_with]. rewrite IH by (done || (simpl in *; lia)).
  unfold byte_ok in *. rewrite !(Z.mul_comm 256), !(Z.add_comm _ (_ * 256)). change 256 with (2 ^ 8).
  rewrite <- !(lor_add _ _ 8) by (lia || (apply lxor_range; lia)).
  apply Z.bits_inj'. intros i Hi. rewrite <- !Z.shiftl_mul_pow2 by lia.
  rewrite Z.lxor_spec, !Z.lor_spec, !Z.shiftl_spec, !Z.lxor_spec by lia.
  destruct (decide (i < 8)).
  - by rewrite !(Z.testbit_neg_r _ (i - 8)) by lia.
  - by rewrite (testbit_small x 8), (testbit_small y 8), !orb_false_r by lia.
Qed.

Lemma be_val_lxor a b : bytes_ok a -> bytes_ok b -> length a = length b ->
  be_val (xor_bytes a b) = Z.lxor (be_val a) (be_val b).
Proof.
  intros. unfold be_val. rewrite reverse_zip_with by done.
  by apply le_val_lxor; [apply Forall_reverse..|rewrite !length_reverse].
Qed.

Lemma le_val_app a b : le_val (a ++ b) = le_val a + 256 ^ zlength a * le_val b.
Proof.
  induction a as [|x a IH]; [simpl app; cbn [length le_val]; lia|].
  cbn [app le_val length]. rewrite IH, pow256_S. lia.
Qed.

Lemma be_val_app a b : be_val (a ++ b) = be_val a * 256 ^ zlength b + be_val b.
Proof. unfold be_val. rewrite reverse_app, le_val_app, length_reverse. lia. Qed.

Section iv.
Context `{Host}.

Lemma host_bytes_val n bs : bytes_ok bs -> length bs = n -> host_bytes n (host_val bs) = bs.
Proof. intros ? <-. unfold host_bytes, host_val. case_match; auto using be_bytes_val, le_bytes_val. Qed.

Lemma host_bytes_lxor n a b : host_bytes n (Z.lxor a b) = xor_bytes (host_bytes n a) (host_bytes n b).
Proof.
  unfold host_bytes. case_match; [|apply le_bytes_lxor]. unfold be_bytes.
  rewrite le_bytes_lxor. apply reverse_zip_with. by rewrite !length_le_bytes.
Qed.

(** Combining a field with a number in network order. *)
Lemma vset_xor n bs v : bytes_ok bs -> length bs = n ->
  host_bytes n (Z.lxor (host_val bs) (hton n v)) = xor_bytes bs (be_bytes n v).
Proof. intros Hb <-. by rewrite host_bytes_lxor, (host_bytes_val (length bs)), host_bytes_hton. Qed.

Lemma vget_mid n i a x b : length x = n -> Z.of_nat n * i = zlength a -> vget n i (a ++ x ++ b) = host_val x.
Proof. intros <- E. unfold vget. by rewrite E, slice_app_mid. Qed.

Lemma vset_mid n i a x b v : length x = n -> Z.of_nat n * i = zlength a ->
  vset n i v (a ++ x ++ b) = a ++ host_bytes n v ++ b.
Proof.
  intros Hx E. unfold vset. rewrite E. apply splice_app_mid. by rewrite length_host_bytes.
Qed.

(** The vectors as byte strings: the salt combined with the SSRC and the
    48-bit packet index, on either byte order. *)
Lemma srtp_iv_calc_bytes iv k_s ssrc ix : length iv = 16%nat -> length k_s = 16%nat -> bytes_ok k_s ->
  srtp_iv_calc iv k_s ssrc ix =
    take 4 k_s ++ xor_bytes (slice k_s 4 10)
      (be_bytes 4 ssrc ++ be_bytes 4 (u32 (Z.shiftr ix 16)) ++ be_bytes 2 (u16 ix)) ++ [0; 0].
Proof.
  intros Hiv Hk Hok. do 17 (destruct k_s as [|? k_s]; try done). do 17 (destruct iv as [|? iv]; try done).
  bytes_inv Hok. unfold srtp_iv_calc, vset, vget, htonl, htons.
  rewrite !(vset_xor 4), (vset_xor 2) by (reflexivity || (cbn; repeat constructor; unfold byte_ok; lia)).
  rewrite (host_bytes_val 4) by (reflexivity || cbn; repeat constructor; unfold byte_ok; lia).
  replace (host_bytes 2 0) with [0; 0] by (unfold host_bytes; by case_match). reflexivity.
Qed.

Lemma srtp_iv_calc_gcm_bytes iv k_s ssrc ix : length iv = 16%nat -> length k_s = 16%nat -> bytes_ok k_s ->
  take 12 (srtp_iv_calc_gcm iv k_s ssrc ix) =
    take 2 k_s ++ xor_bytes (slice k_s 2 10)
      (be_bytes 2 (u16 (Z.shiftr ssrc 16)) ++ be_bytes 2 (u16 (Z.land ssrc 65535)) ++
       be_bytes 2 (u16 (Z.land (Z.shiftr ix 32) 65535)) ++ be_bytes 2 (u16 (Z.land (Z.shiftr ix 16) 65535)) ++
       be_bytes 2 (u16 (Z.land ix 65535))).
Proof.
  intros Hiv Hk Hok. do 17 (destruct k_s as [|? k_s]; try done). do 17 (destruct iv as [|? iv]; try done).
  bytes_inv Hok. unfold srtp_iv_calc_gcm, vset, vget, htons.
  rewrite !(vset_xor 2) by (reflexivity || (cbn; repeat constructor; unfold byte_ok; lia)).
  rewrite (host_bytes_val 2) by (reflexivity || cbn; repeat constructor; unfold byte_ok; lia). reflexivity.
Qed.

End iv.

(** *** The vectors as numbers *)

Lemma lxor_high a b c n : 0 <= n -> 0 <= b < 2 ^ n -> 0 <= c < 2 ^ n ->
  Z.lxor (a * 2 ^ n + b) c = a * 2 ^ n + Z.lxor b c.
Proof.
  intros Hn Hb Hc. rewrite <- !lor_add by (done || by apply lxor_range).
  apply Z.bits_inj'. intros i Hi. rewrite <- !Z.shiftl_mul_pow2 by lia.
  rewrite Z.lxor_spec, !Z.lor_spec, !Z.lxor_spec, !Z.shiftl_spec by lia. destruct (decide (i < n)).
  - by rewrite !(Z.testbit_neg_r _ (i - n)) by lia.
  - by rewrite (testbit_small b n), (testbit_small c n), !orb_false_r, xorb_false_r by lia.
Qed.

Lemma lxor_mul_pow2 a b n : 0 <= n -> Z.lxor (a * 2 ^ n) (b * 2 ^ n) = Z.lxor a b * 2 ^ n.
Proof. intros. rewrite <- !Z.shiftl_mul_pow2 by done. symmetry. apply Z.shiftl_lxor. Qed.

Lemma le_bytes_add n m v : le_bytes (n + m) v = le_bytes n v ++ le_bytes m (v / 256 ^ Z.of_nat n).
Proof.
  revert v. induction n as [|n IH]; intros v; [simpl; by rewrite Z.div_1_r|].
  cbn [Nat.add le_bytes app]. rewrite IH, pow256_S, Z.div_div by lia. done.
Qed.

Lemma be_bytes_add m n v : be_bytes (m + n) v = be_bytes m (v / 256 ^ Z.of_nat n) ++ be_bytes n v.
Proof. unfold be_bytes. by rewrite Nat.add_comm, le_bytes_add, reverse_app. Qed.

Lemma be_bytes_mod n v : be_bytes n (v mod 256 ^ Z.of_nat n) = be_bytes n v.
Proof. unfold be_bytes. by rewrite le_bytes_wrap. Qed.

Lemma be_bytes_u16 v : be_bytes 2 (u16 v) = be_bytes 2 v.
Proof. apply (be_bytes_mod 2). Qed.
Lemma be_bytes_u32 v : be_bytes 4 (u32 v) = be_bytes 4 v.
Proof. apply (be_bytes_mod 4). Qed.

Lemma be_bytes_6 ix : be_bytes 4 (u32 (Z.shiftr ix 16)) ++ be_bytes 2 (u16 ix) = be_bytes 6 ix.
Proof.
  by rewrite (be_bytes_add 4 2), Z.shiftr_div_pow2, be_bytes_u32, be_bytes_u16 by lia.
Qed.

Lemma be_bytes_mask v : be_bytes 2 (u16 (Z.land v 65535)) = be_bytes 2 v.
Proof. rewrite be_bytes_u16, land_65535. apply be_bytes_u16. Qed.

Lemma be_bytes_222 ix : be_bytes 2 (Z.shiftr ix 32) ++ be_bytes 2 (Z.shiftr ix 16) ++ be_bytes 2 ix = be_bytes 6 ix.
Proof.
  rewrite (be_bytes_add 2 4), (be_bytes_add 2 2), !Z.shiftr_div_pow2 by lia. done.
Qed.

Lemma be_bytes_22 v : be_bytes 2 (u16 (Z.shiftr v 16)) ++ be_bytes 2 v = be_bytes 4 v.
Proof. by rewrite (be_bytes_add 2 2), Z.shiftr_div_pow2, be_bytes_u16 by lia. Qed.

(** Both vectors carry the same ten bytes under the salt. *)
Definition iv_core (k_s : list Z) (off ssrc ix : Z) : list Z :=
  xor_bytes (slice k_s off 10) (be_bytes 4 ssrc ++ be_bytes 6 ix).

Lemma iv_core_length k_s off ssrc ix : length k_s = 16%nat -> 0 <= off <= 6 ->
  length (iv_core k_s off ssrc ix) = 10%nat.
Proof.
  intros Hl Ho. pose proof (length_slice k_s off 10 ltac:(lia) ltac:(lia) ltac:(lia)).
  unfold iv_core. rewrite length_zip_with, length_app, !length_be_bytes. lia.
Qed.

Lemma iv_core_val k_s off ssrc ix : length k_s = 16%nat -> bytes_ok k_s -> 0 <= off <= 6 ->
  0 <= ssrc < 2 ^ 32 -> 0 <= ix < 2 ^ 48 -> length (iv_core k_s off ssrc ix) = 10%nat /\
  be_val (iv_core k_s off ssrc ix) = Z.lxor (be_val (slice k_s off 10)) (ssrc * 2 ^ 48 + ix).
Proof.
  intros Hl Hk Ho Hs Hi. pose proof (length_slice k_s off 10 ltac:(lia) ltac:(lia) ltac:(lia)).
  assert (length (be_bytes 4 ssrc ++ be_bytes 6 ix) = 10%nat) by (by rewrite length_app, !length_be_bytes).
  split; [by apply iv_core_length|]. unfold iv_core. rewrite be_val_lxor.
  - by rewrite be_val_app, !be_val_bytes, length_be_bytes by lia.
  - by apply slice_ok.
  - apply Forall_app. split; apply be_bytes_ok.
  - lia.
Qed.

Section iv_thms.
Context `{Host}.

Lemma srtp_iv_calc_core iv k_s ssrc ix : length iv = 16%nat -> length k_s = 16%nat -> bytes_ok k_s ->
  srtp_iv_calc iv k_s ssrc ix = take 4 k_s ++ iv_core k_s 4 ssrc ix ++ [0; 0].
Proof. intros. by rewrite srtp_iv_calc_bytes, be_bytes_6. Qed.

Lemma srtp_iv_calc_gcm_core iv k_s ssrc ix : length iv = 16%nat -> length k_s = 16%nat -> bytes_ok k_s ->
  take 12 (srtp_iv_calc_gcm iv k_s ssrc ix) = take 2 k_s ++ iv_core k_s 2 ssrc ix.
Proof.
  intros. rewrite srtp_iv_calc_gcm_bytes, !be_bytes_mask, be_bytes_222 by done.
  by rewrite (app_assoc (be_bytes 2 _)), be_bytes_22.
Qed.

(** The initialisation vectors are those of the standards, on either byte
    order: for a 48-bit packet index, the counter-mode vector is, as a 128-bit
    number, salt * 2^16 XOR SSRC * 2^64 XOR index * 2^16 (RFC 3711, 4.1.1), and
    the 96-bit GCM vector is salt XOR (SSRC * 2^48 + index) (RFC 7714, 8.1). *)
Theorem srtp_iv_standard iv k_s ssrc ix :
  length iv = 16%nat -> length k_s = 16%nat -> bytes_ok k_s ->
  0 <= ssrc < 2 ^ 32 -> 0 <= ix < 2 ^ 48 ->
  be_val (srtp_iv_calc iv k_s ssrc ix) =
    Z.lxor (Z.lxor (be_val (take 14 k_s) * 2 ^ 16) (ssrc * 2 ^ 64)) (ix * 2 ^ 16) /\
  be_val (take 12 (srtp_iv_calc_gcm iv k_s ssrc ix)) =
    Z.lxor (be_val (take 12 k_s)) (ssrc * 2 ^ 48 + ix).
Proof.
  intros Hiv Hl Hk Hs Hi. rewrite srtp_iv_calc_core, srtp_iv_calc_gcm_core by done.
  destruct (iv_core_val k_s 4 ssrc ix) as [L4 V4]; [done..|lia|done|done|].
  destruct (iv_core_val k_s 2 ssrc ix) as [L2 V2]; [done..|lia|done|done|].
  assert (forall off, 0 <= off <= 6 -> 0 <= be_val (slice k_s off 10) < 2 ^ 80) as Hr.
  { intros off Ho. pose proof (be_val_range (slice k_s off 10) (slice_ok _ _ _ Hk)) as R.
    rewrite length_slice in R by lia. done. }
  pose proof (Hr 4 ltac:(lia)) as R4. pose proof (Hr 2 ltac:(lia)) as R2.
  replace (take 14 k_s) with (take 4 k_s ++ slice k_s 4 10)
    by (unfold slice; rewrite <- (take_drop 4 (take 14 k_s)), take_take, skipn_firstn_comm; done).
  replace (take 12 k_s) with (take 2 k_s ++ slice k_s 2 10)
    by (unfold slice; rewrite <- (take_drop 2 (take 12 k_s)), take_take, skipn_firstn_comm; done).
  rewrite !be_val_app, !length_app, L2, L4, V2, V4, !length_slice by lia.
  change (be_val [0; 0]) with 0. cbn [length Nat.add Z.of_nat Pos.of_succ_nat Pos.succ].
  change (256 ^ 10) with (2 ^ 80). split; [|by rewrite lxor_high by lia].
  change (2 ^ 64) with (2 ^ 48 * 2 ^ 16). rewrite (Z.mul_assoc ssrc), !lxor_mul_pow2, Z.lxor_assoc by lia.
  replace (Z.lxor (ssrc * 2 ^ 48) ix) with (ssrc * 2 ^ 48 + ix).
  - rewrite lxor_high by lia. change (256 ^ 12) with (2 ^ 80 * 2 ^ 16). change (256 ^ 2) with (2 ^ 16). lia.
  - rewrite <- (Z.add_0_r (ssrc * 2 ^ 48)) at 2. by rewrite lxor_high, Z.lxor_0_l by lia.
Qed.

(** Distinct packets never share an initialisation vector under one key:
    the vectors determine the SSRC and the 48-bit packet index. *)
Theorem srtp_iv_unique iv iv' k_s ssrc ix ssrc' ix' :
  length iv = 16%nat -> length iv' = 16%nat -> length k_s = 16%nat -> bytes_ok k_s ->
  0 <= ssrc < 2 ^ 32 -> 0 <= ssrc' < 2 ^ 32 -> 0 <= ix < 2 ^ 48 -> 0 <= ix' < 2 ^ 48 ->
  srtp_iv_calc iv k_s ssrc ix = srtp_iv_calc iv' k_s ssrc' ix' \/
  take 12 (srtp_iv_calc_gcm iv k_s ssrc ix) = take 12 (srtp_iv_calc_gcm iv' k_s ssrc' ix') ->
  ssrc = ssrc' /\ ix = ix'.
Proof.
  intros Hiv Hiv' Hl Hk Hs Hs' Hi Hi' HE. rewrite !srtp_iv_calc_core, !srtp_iv_calc_gcm_core in HE by done.
  assert (forall off s i, 0 <= off <= 6 -> 0 <= s < 2 ^ 32 -> 0 <= i < 2 ^ 48 ->
    length (iv_core k_s off s i) = 10%nat) as Hlen by (intros; by apply iv_core_val).
  assert (forall off s i, 0 <= off <= 6 -> 0 <= s < 2 ^ 32 -> 0 <= i < 2 ^ 48 ->
    be_val (iv_core k_s off s i) = Z.lxor (be_val (slice k_s off 10)) (s * 2 ^ 48 + i)) as Hval
    by (intros; by apply iv_core_val).
  assert (exists off, 0 <= off <= 6 /\ iv_core k_s off ssrc ix = iv_core k_s off ssrc' ix') as (off & Ho & E).
  { destruct HE as [E|E]; [exists 4|exists 2]; (split; [lia|]); apply app_inj_1 in E as [_ E]; try done.
    apply app_inj_1 in E as [E _]; [done|]. by rewrite !Hlen by lia. }
  pose proof (f_equal be_val E) as Ev.
  rewrite !Hval in Ev by done.
  apply (f_equal (Z.lxor (be_val (slice k_s off 10)))) in Ev.
  rewrite <- !Z.lxor_assoc, !Z.lxor_nilpotent, !Z.lxor_0_l in Ev. lia.
Qed.

End iv_thms.

Definition salt_ex : list Z := [14; 200; 3; 4; 5; 6; 7; 8; 9; 10; 11; 12; 13; 14; 0; 0].

Lemma salt_ex_ok : bytes_ok salt_ex.
Proof. repeat constructor; unfold byte_ok; lia. Qed.

Lemma srtp_iv_standard_witness :
  be_val (srtp_iv_calc (H := lp64_host) (replicate 16 165) salt_ex 3735928559 70000) =
    Z.lxor (Z.lxor (be_val (take 14 salt_ex) * 2 ^ 16) (3735928559 * 2 ^ 64)) (70000 * 2 ^ 16) /\
  srtp_iv_calc (H := lp64_host) (replicate 16 165) salt_ex 3735928559 70000 =
    [14; 200; 3; 4; 219; 171; 185; 231; 9; 10; 11; 13; 28; 126; 0; 0].
Proof.
  split; [|vm_compute; reflexivity].
  exact (proj1 (srtp_iv_standard (H := lp64_host) (replicate 16 165) salt_ex 3735928559 70000 eq_refl eq_refl
    salt_ex_ok ltac:(lia) ltac:(lia))).
Defined.

Lemma srtp_iv_unique_witness : (7 = 7 /\ 70000 = 70000) /\
  srtp_iv_calc (H := lp64_host) (replicate 16 165) salt_ex 7 70000 <>
  srtp_iv_calc (H := lp64_host) (replicate 16 165) salt_ex 7 70001.
Proof.
  split; [|vm_compute; discriminate].
  apply (srtp_iv_unique (H := lp64_host) (replicate 16 165) (replicate 16 0) salt_ex);
    [reflexivity|reflexivity|reflexivity|exact salt_ex_ok|lia|lia|lia|lia|].
  left. vm_compute. reflexivity.
Defined.

(** ** Streams (stream.c) *)

Definition SRTP_MAX_STREAMS : Z := 8.

Record srtp_stream := Strm {
  st_replay_rtp : replay;
  st_replay_rtcp : replay;
  st_ssrc : Z;
  st_roc : Z;
  st_s_l : Z;
  st_s_l_set : bool;
  st_rtcp_index : Z;
}.

Definition set_replay_rtp (r : replay) (s : srtp_stream) : srtp_stream :=
  Strm r (st_replay_rtcp s) (st_ssrc s) (st_roc s) (st_s_l s) (st_s_l_set s) (st_rtcp_index s).
Definition set_replay_rtcp (r : replay) (s : srtp_stream) : srtp_stream :=
  Strm (st_replay_rtp s) r (st_ssrc s) (st_roc s) (st_s_l s) (st_s_l_set s) (st_rtcp_index s).
Definition set_roc (roc s_l : Z) (s : srtp_stream) : srtp_stream :=
  Strm (st_replay_rtp s) (st_replay_rtcp s) (st_ssrc s) roc s_l (st_s_l_set s) (st_rtcp_index s).
Definition set_s_l (s_l : Z) (s : srtp_stream) : srtp_stream :=
  Strm (st_replay_rtp s) (st_replay_rtcp s) (st_ssrc s) (st_roc s) s_l true (st_rtcp_index s).
Definition set_rtcp_index (i : Z) (s : srtp_stream) : srtp_stream :=
  Strm (st_replay_rtp s) (st_replay_rtcp s) (st_ssrc s) (st_roc s) (st_s_l s) (st_s_l_set s) i.

Definition strm_zero (ssrc : Z) : srtp_stream :=
  Strm srtp_replay_init srtp_replay_init ssrc 0 0 false 0.

(** The session's list of streams; a pointer to a stream is its index (no
    stream is removed while the session lives). *)
Fixpoint stream_find (l : list srtp_stream) (ssrc : Z) : option nat :=
  match l with
  | [] => None
  | s :: l => if st_ssrc s =? ssrc then Some O else S <$> stream_find l ssrc
  end.

Section streams.
Context `{Host}.

(** [sizeof(struct srtp_stream)] is 80 on an LP64 host. *)
Definition stream_new (l : list srtp_stream) (ssrc : Z) : Z * option nat * list srtp_stream :=
  if SRTP_MAX_STREAMS <=? zlength l then (ENOSR, None, l)
  else if negb (malloc_ok (mem_header_size + 80)) then (ENOMEM, None, l)
  else (0, Some (length l), l ++ [strm_zero ssrc]).

Definition stream_get (l : list srtp_stream) (ssrc : Z) : Z * option nat * list srtp_stream :=
  match stream_find l ssrc with
  | Some i => (0, Some i, l)
  | None => stream_new l ssrc
  end.

Definition stream_get_seq (l : list srtp_stream) (ssrc seq : Z) : Z * option nat * list srtp_stream :=
  let '(err, i, l) := stream_get l ssrc in
  if nz err then (err, None, l)
  else
    match i with
    | Some i => (0, Some i, alter (fun s => if st_s_l_set s then s else set_s_l seq s) i l)
    | None => (err, None, l)
    end.

(** *** The table maps each SSRC to one stream *)

Definition streams_ok (l : list srtp_stream) : Prop :=
  NoDup (st_ssrc <$> l) /\ zlength l <= SRTP_MAX_STREAMS.

Lemma stream_find_Some l ssrc i : stream_find l ssrc = Some i ->
  exists s, l !! i = Some s /\ st_ssrc s = ssrc.
Proof.
  revert i. induction l as [|s l IH]; intros i E; [done|]. cbn in E.
  destruct (Z.eqb_spec (st_ssrc s) ssrc); [simplify_eq; by exists s|].
  destruct (stream_find l ssrc) as [j|] eqn:Ej; simplify_eq/=. destruct (IH j eq_refl) as (s' & ? & ?).
  by exists s'.
Qed.

Lemma stream_find_None l ssrc : stream_find l ssrc = None -> ssrc ∉ (st_ssrc <$> l).
Proof.
  induction l as [|s l IH]; cbn; intros E; [apply not_elem_of_nil|].
  destruct (Z.eqb_spec (st_ssrc s) ssrc); [done|]. destruct (stream_find l ssrc); [done|].
  apply not_elem_of_cons. auto.
Qed.

Lemma stream_find_app l ssrc s : stream_find l ssrc = None -> st_ssrc s = ssrc ->
  stream_find (l ++ [s]) ssrc = Some (length l).
Proof.
  intros E <-. induction l as [|s' l IH]; cbn in *; [by rewrite Z.eqb_refl|].
  destruct (st_ssrc s' =? st_ssrc s); [done|]. destruct (stream_find l (st_ssrc s)); [done|]. by rewrite IH.
Qed.

(** *** The table as a map from SSRC to stream *)

Definition strm_of (l : list srtp_stream) (ssrc : Z) : srtp_stream :=
  default (strm_zero ssrc) (stream_find l ssrc ≫= (l !!.)).

(** Room for a stream with this SSRC. *)
Definition has_room (l : list srtp_stream) (ssrc : Z) : Prop :=
  stream_find l ssrc <> None \/ zlength l < SRTP_MAX_STREAMS.

Definition init_seq (seq : Z) (s : srtp_stream) : srtp_stream :=
  if st_s_l_set s then s else set_s_l seq s.

Lemma strm_of_lookup l ssrc i : stream_find l ssrc = Some i -> l !! i = Some (strm_of l ssrc).
Proof.
  intros E. unfold strm_of. rewrite E. simpl. destruct (stream_find_Some _ _ _ E) as (s & -> & _). done.
Qed.

Lemma strm_of_ssrc l ssrc : st_ssrc (strm_of l ssrc) = ssrc.
Proof.
  unfold strm_of. destruct (stream_find l ssrc) as [i|] eqn:E; [|done]. simpl.
  by destruct (stream_find_Some _ _ _ E) as (s & -> & ?).
Qed.

Lemma stream_find_alter f l i ssrc : (forall s, st_ssrc (f s) = st_ssrc s) ->
  stream_find (alter f i l) ssrc = stream_find l ssrc.
Proof.
  intros Hf. revert i. induction l as [|s l IH]; intros [|i]; cbn; [done|done|by rewrite Hf|].
  change (list_alter f i l) with (alter f i l). by rewrite IH.
Qed.

(** Updating the stream of [ssrc] changes that entry of the map only. *)
Lemma strm_of_alter f l i ssrc ssrc' : (forall s, st_ssrc (f s) = st_ssrc s) -> stream_find l ssrc = Some i ->
  strm_of (alter f i l) ssrc' = if decide (ssrc' = ssrc) then f (strm_of l ssrc) else strm_of l ssrc'.
Proof.
  intros Hf E. unfold strm_of at 1. rewrite stream_find_alter by done. case_decide as Hd; [subst|].
  - rewrite E. simpl. by rewrite list_lookup_alter_eq, (strm_of_lookup _ _ _ E).
  - unfold strm_of. destruct (stream_find l ssrc') as [j|] eqn:E'; [|done]. simpl. f_equal.
    rewrite list_lookup_alter_ne; [done|]. intros ->.
    destruct (stream_find_Some _ _ _ E) as (? & ? & ?). destruct (stream_find_Some _ _ _ E') as (? & ? & ?). congruence.
Qed.

Lemma streams_ok_alter f l i : (forall s, st_ssrc (f s) = st_ssrc s) -> streams_ok l -> streams_ok (alter f i l).
Proof.
  intros Hf [Hn Hm]. split; [|by rewrite length_alter].
  replace (st_ssrc <$> alter f i l) with (st_ssrc <$> l); [done|].
  revert i. clear Hn Hm. induction l as [|s l IH]; intros [|i]; cbn; [done|done|by rewrite Hf|].
  f_equal. apply IH.
Qed.

Lemma stream_find_app_l l ssrc s i : stream_find l ssrc = Some i -> stream_find (l ++ [s]) ssrc = Some i.
Proof.
  revert i. induction l as [|s' l IH]; intros i E; [done|]. cbn in *.
  destruct (st_ssrc s' =? ssrc); [done|]. destruct (stream_find l ssrc) as [j|]; [|done]. by rewrite (IH j).
Qed.

Lemma strm_of_app l ssrc ssrc' : stream_find l ssrc = None -> strm_of (l ++ [strm_zero ssrc]) ssrc' = strm_of l ssrc'.
Proof.
  intros E. unfold strm_of at 1. destruct (decide (ssrc' = ssrc)) as [->|Hne].
  - rewrite stream_find_app by done. simpl. rewrite lookup_app_r, Nat.sub_diag by lia. simpl.
    unfold strm_of. by rewrite E.
  - unfold strm_of. destruct (stream_find l ssrc') as [i|] eqn:E'.
    + rewrite (stream_find_app_l _ _ _ _ E'). simpl. destruct (stream_find_Some _ _ _ E') as (s & Hs & _).
      by rewrite (lookup_app_l_Some _ _ _ _ Hs), Hs.
    + replace (stream_find (l ++ [strm_zero ssrc]) ssrc') with (@None nat); [done|]. symmetry.
      clear E. induction l as [|s l IH]; cbn in *.
      * destruct (Z.eqb_spec ssrc ssrc'); congruence.
      * destruct (st_ssrc s =? ssrc'); [done|]. destruct (stream_find l ssrc'); [done|]. by rewrite IH.
Qed.

(** [stream_get] finds or creates the stream of an SSRC; as a map, the table
    does not change. *)
Lemma stream_get_spec l ssrc : streams_ok l ->
  exists err oi l', stream_get l ssrc = (err, oi, l') /\ 0 <= err /\ streams_ok l' /\
    (forall ssrc', strm_of l' ssrc' = strm_of l ssrc') /\
    (no_oom -> has_room l ssrc -> err = 0) /\
    (if decide (err = 0) then exists i, oi = Some i /\ stream_find l' ssrc = Some i else oi = None).
Proof.
  intros [Hn Hm]. unfold stream_get, has_room. destruct (stream_find l ssrc) as [i|] eqn:E.
  { exists 0, (Some i), l. split_and!; try done. rewrite decide_True by done. by exists i. }
  unfold stream_new. destruct (Z.leb_spec SRTP_MAX_STREAMS (zlength l)).
  { eexists ENOSR, _, _. split_and!; try done. intros _ [?|?]; [done|lia]. }
  destruct (negb _) eqn:Eo.
  { eexists ENOMEM, _, _. split_and!; try done. intros Ho. by rewrite Ho in Eo. }
  eexists 0, _, _. split_and!; try done.
  - split; [|rewrite length_app; simpl; lia]. rewrite fmap_app. apply list_relations.list.NoDup_app.
    split_and!; [done| |apply NoDup_singleton]. intros x Hx. cbn. rewrite list_elem_of_singleton. intros ->.
    by apply (stream_find_None l ssrc).
  - intros ssrc'. by apply strm_of_app.
  - rewrite decide_True by done. exists (length l). split; [done|]. by apply stream_find_app.
Qed.

(** [stream_get_seq] also sets the first sequence number of a new stream. *)
Lemma stream_get_seq_spec l ssrc seq : streams_ok l ->
  exists err oi l', stream_get_seq l ssrc seq = (err, oi, l') /\ 0 <= err /\ streams_ok l' /\
    (forall ssrc', ssrc' <> ssrc -> strm_of l' ssrc' = strm_of l ssrc') /\
    (no_oom -> has_room l ssrc -> err = 0) /\
    (if decide (err = 0)
     then strm_of l' ssrc = init_seq seq (strm_of l ssrc) /\
          exists i, oi = Some i /\ stream_find l' ssrc = Some i
     else oi = None /\ strm_of l' ssrc = strm_of l ssrc).
Proof.
  intros Hl. destruct (stream_get_spec l ssrc Hl) as (err & oi & l' & E & He & Hl' & Hs & Ho & Hi).
  unfold stream_get_seq. rewrite E. unfold nz. assert (forall s, st_ssrc (init_seq seq s) = st_ssrc s) as Hf
    by (intros s; unfold init_seq; by destruct (st_s_l_set s)).
  case_decide as Hd; [subst err|].
  - destruct Hi as (i & -> & Hi). cbn [Z.eqb negb]. eexists 0, _, _. split; [done|].
    split_and!; try done; [by apply (streams_ok_alter (init_seq seq))| |].
    + intros ssrc' Hne. rewrite (strm_of_alter (init_seq seq) _ _ _ _ Hf Hi). by rewrite decide_False.
    + rewrite decide_True by done. split; [|exists i; by rewrite (stream_find_alter (init_seq seq))].
      rewrite (strm_of_alter (init_seq seq) _ _ _ _ Hf Hi), decide_True by done. by rewrite Hs.
  - subst oi. destruct (Z.eqb_spec err 0); [done|]. cbn [negb]. exists err, None, l'. split_and!; try done.
    by rewrite decide_False.
Qed.

End streams.
