(* ===== verification/SrtpPacket.v ===== *)
(** * SRTP and SRTCP packets (src/srtp/srtp.c, src/srtp/srtcp.c)

    Session set-up and the four packet transformations, over a session and the
    packet buffer they edit in place.  The cipher and the MAC are the contexts
    of [Crypto]. *)

From S2P Require Export Prelude Mbuf MbufSpec MbufData Crypto Rtp Srtp.

Inductive srtp_suite :=
  | SRTP_AES_CM_128_HMAC_SHA1_32
  | SRTP_AES_CM_128_HMAC_SHA1_80
  | SRTP_AES_256_CM_HMAC_SHA1_32
  | SRTP_AES_256_CM_HMAC_SHA1_80
  | SRTP_AES_128_GCM
  | SRTP_AES_256_GCM.

Definition SRTP_UNENCRYPTED_SRTCP : Z := 2.
Definition MAX_KEYLEN : Z := 32.
Definition SHA_DIGEST_LENGTH : Z := 20.
Definition GCM_TAGLEN : Z := 16.

Section srtp.
Context `{Host} `{Evp}.

Record comp := Comp {
  c_aes : option aes;
  c_mode : aes_mode;
  c_hmac : option hmac;
  c_k_s : list Z;        (* union vect128 *)
  c_tag_len : Z;
}.

Record srtp := Srtp {
  s_rtp : comp;
  s_rtcp : comp;
  s_streaml : list srtp_stream;
}.

(** ** Key derivation and sessions *)

(** [out_len] bytes of key stream under the labelled salt. *)
Definition srtp_derive (out_len label : Z) (master_key master_salt : list Z) : Z * list Z :=
  if (32 <? out_len) || (16 <? zlength master_salt) then (EINVAL, [])
  else
    let x := splice (replicate 16 0) 0 master_salt in
    let x := alter (fun b => Z.lxor b (u8 label)) 7%nat x in
    match aes_alloc AES_MODE_CTR master_key (zlength master_key * 8) (Some x) with
    | (0, Some a) => let '(err, out, _) := aes_encr a true (replicate (Z.to_nat out_len) 0) in (err, out)
    | (err, _) => (err, [])
    end.

Definition comp_zero : comp := Comp None AES_MODE_CTR None (replicate 16 0) 0.

(** The error code and the component as the code leaves it; the local key
    arrays are what [srtp_derive] wrote. *)
Definition comp_init (c : comp) (offs : Z) (key s : list Z) (tag_len : Z) (encrypted hash : bool)
    (mode : aes_mode) : Z * comp :=
  if MAX_KEYLEN <? zlength key then (EINVAL, c)
  else if SHA_DIGEST_LENGTH <? tag_len then (EINVAL, c)
  else
    let '(e1, k_e) := srtp_derive (zlength key) (0 + offs) key s in
    let '(e2, k_a) := srtp_derive SHA_DIGEST_LENGTH (1 + offs) key s in
    let '(e3, k_s) := srtp_derive 14 (2 + offs) key s in
    let c := Comp (c_aes c) mode (c_hmac c) (splice (c_k_s c) 0 k_s) tag_len in
    let err := Z.lor (Z.lor e1 e2) e3 in
    if nz err then (err, c)
    else
      let '(err, c) :=
        if encrypted then
          let '(err, a) := aes_alloc mode k_e (zlength key * 8) None in
          (err, Comp (match a with Some a => Some a | None => c_aes c end) mode (c_hmac c) (c_k_s c) tag_len)
        else (0, c) in
      if nz err then (err, c)
      else if hash then
        let '(err, h) := hmac_create HMAC_HASH_SHA1 k_a in
        (err, Comp (c_aes c) mode (match h with Some h => Some h | None => c_hmac c end) (c_k_s c) tag_len)
      else (0, c).

(** Mode, key and salt lengths, tag length and use of HMAC of a suite. *)
Definition suite_params (suite : srtp_suite) : aes_mode * Z * Z * Z * bool :=
  match suite with
  | SRTP_AES_CM_128_HMAC_SHA1_80 => (AES_MODE_CTR, 16, 14, 10, true)
  | SRTP_AES_CM_128_HMAC_SHA1_32 => (AES_MODE_CTR, 16, 14, 4, true)
  | SRTP_AES_256_CM_HMAC_SHA1_80 => (AES_MODE_CTR, 32, 14, 10, true)
  | SRTP_AES_256_CM_HMAC_SHA1_32 => (AES_MODE_CTR, 32, 14, 4, true)
  | SRTP_AES_128_GCM => (AES_MODE_GCM, 16, 12, 0, false)
  | SRTP_AES_256_GCM => (AES_MODE_GCM, 32, 12, 0, false)
  end.

(** [sizeof(struct srtp)] is 112 on an LP64 host. *)
Definition srtp_alloc (suite : srtp_suite) (key : list Z) (flags : Z) : Z * option srtp :=
  let '(mode, cipher_bytes, salt_bytes, auth_bytes, hash) := suite_params suite in
  if negb (cipher_bytes + salt_bytes =? zlength key) then (EINVAL, None)
  else if negb (malloc_ok (mem_header_size + 112)) then (ENOMEM, None)
  else
    let mkey := take (Z.to_nat cipher_bytes) key in
    let salt := drop (Z.to_nat cipher_bytes) key in
    let '(e1, rtp) := comp_init comp_zero 0 mkey salt auth_bytes true hash mode in
    let '(e2, rtcp) := comp_init comp_zero 3 mkey salt auth_bytes
                         (negb (nz (Z.land flags SRTP_UNENCRYPTED_SRTCP))) hash mode in
    let err := Z.lor e1 e2 in
    if nz err then (err, None) else (0, Some (Srtp rtp rtcp [])).

(** ** The state of a packet operation *)

Record pst := Pst { p_srtp : srtp; p_mb : mbuf }.

Definition on_mb {A} (m : M mbuf A) : M pst A := fun st =>
  match m (p_mb st) with
  | Some (a, mb) => Some (a, Pst (p_srtp st) mb)
  | None => None
  end.

(** Which of the two components of the session. *)
Inductive which := RTP | RTCP.

Definition comp_of (w : which) (s : srtp) : comp := match w with RTP => s_rtp s | RTCP => s_rtcp s end.

Definition set_aes (w : which) (a : aes) (s : srtp) : srtp :=
  let upd c := Comp (Some a) (c_mode c) (c_hmac c) (c_k_s c) (c_tag_len c) in
  match w with
  | RTP => Srtp (upd (s_rtp s)) (s_rtcp s) (s_streaml s)
  | RTCP => Srtp (s_rtp s) (upd (s_rtcp s)) (s_streaml s)
  end.

Definition set_streaml (l : list srtp_stream) (s : srtp) : srtp := Srtp (s_rtp s) (s_rtcp s) l.

Definition get_comp (w : which) : M pst comp := fun st => Some (comp_of w (p_srtp st), st).

Definition get_strm (i : nat) : M pst srtp_stream := fun st =>
  match s_streaml (p_srtp st) !! i with
  | Some s => Some (s, st)
  | None => None
  end.

Definition upd_strm (i : nat) (f : srtp_stream -> srtp_stream) : M pst unit :=
  modify (fun st => Pst (set_streaml (alter f i (s_streaml (p_srtp st))) (p_srtp st)) (p_mb st)).

(** A call on the component's cipher context, which it changes. *)
Definition call_aes {A} (w : which) (f : aes -> A * aes) (null : A) : M pst A :=
  let* c := get_comp w in
  match c_aes c with
  | Some a =>
      let '(r, a) := f a in
      modify (fun st => Pst (set_aes w a (p_srtp st)) (p_mb st)) ;; ret r
  | None => ret null
  end.

Definition c_set_iv (w : which) (iv : list Z) : M pst unit :=
  call_aes w (fun a => (tt, aes_set_iv a iv)) tt.
Definition c_encr (w : which) (out : bool) (x : list Z) : M pst (Z * list Z) :=
  call_aes w (fun a => let '(e, o, a) := aes_encr a out x in ((e, o), a)) (EINVAL, []).
Definition c_decr (w : which) (out : bool) (x : list Z) : M pst (Z * list Z) :=
  call_aes w (fun a => let '(e, o, a) := aes_decr a out x in ((e, o), a)) (EINVAL, []).
Definition c_authtag (w : which) (n : Z) : M pst (Z * list Z) :=
  call_aes w (fun a => let '(e, o, a) := aes_get_authtag a n in ((e, o), a)) (EINVAL, []).
Definition c_authenticate (w : which) (tag : list Z) : M pst Z :=
  call_aes w (fun a => aes_authenticate a tag) EINVAL.

(** [err = aes_encr(comp->aes, p, p, n)] with [p] at offset [pos]. *)
Definition encr_at (w : which) (pos n : Z) : M pst Z :=
  let* x := on_mb (load_at pos n) in
  let* '(err, y) := c_encr w true x in
  on_mb (store_at pos y) ;; ret err.
Definition decr_at (w : which) (pos n : Z) : M pst Z :=
  let* x := on_mb (load_at pos n) in
  let* '(err, y) := c_decr w true x in
  on_mb (store_at pos y) ;; ret err.

(** Additional data [mb->buf[pos .. pos+n)]. *)
Definition encr_aad (w : which) (pos n : Z) : M pst Z :=
  let* x := on_mb (load_at pos n) in let* '(err, _) := c_encr w false x in ret err.
Definition decr_aad (w : which) (pos n : Z) : M pst Z :=
  let* x := on_mb (load_at pos n) in let* '(err, _) := c_decr w false x in ret err.

Definition get_mb : M pst mbuf := fun st => Some (p_mb st, st).

(** Run [k] on the local cipher context, if any, depending on its mode. *)
Definition match_aes (c : comp) (ctr gcm none : M pst Z) : M pst Z :=
  match c_aes c, c_mode c with
  | Some _, AES_MODE_CTR => ctr
  | Some _, AES_MODE_GCM => gcm
  | None, _ => none
  end.

(** The uninitialised local [union vect128 iv]. *)
Definition iv_local : list Z := fresh_bytes 0 16.

(** Look up the stream of a packet; [k] continues with it. *)
Definition with_stream (r : list srtp_stream -> Z * option nat * list srtp_stream)
    (k : nat -> M pst Z) : M pst Z :=
  let* st := get in
  let '(err, oi, l) := r (s_streaml (p_srtp st)) in
  put (Pst (set_streaml l (p_srtp st)) (p_mb st)) ;;
  match oi with
  | Some i => if nz err then ret err else k i
  | None => ret err
  end.

(** Roll-over: the sequence number wrapped around. *)
Definition roc_update (seq : Z) (s : srtp_stream) : srtp_stream :=
  if seq_diff (st_s_l s) seq <=? -32768 then set_roc (u32 (st_roc s + 1)) 0 s else s.

(** [if (hdr.seq > strm->s_l) strm->s_l = hdr.seq;] *)
Definition s_l_update (seq : Z) (s : srtp_stream) : srtp_stream :=
  if st_s_l s <? seq then set_roc (st_roc s) seq s else s.

End srtp.

Section packets.
Context `{Host} `{Evp}.

(** [mb->pos = mb->end = p;] and the like. *)
Definition at_pos (p : Z) : M pst unit := on_mb (mbuf_set_pos p).
Definition at_posend (p e : Z) : M pst unit := on_mb (modify (set_posend p e)).

(** [hmac_digest(comp->hmac, tag, sizeof(tag), mbuf_buf(mb), mbuf_get_left(mb))]
    into a zeroed array of [SHA_DIGEST_LENGTH] bytes. *)
Definition digest_left (h : hmac) : M pst (Z * list Z) :=
  let* mb := get_mb in
  let* data := on_mb (load_at (mb_pos mb) (mbuf_get_left mb)) in
  lift (hmac_digest h (replicate 20 0) data).

(** ** SRTP *)

Definition srtp_encrypt_payload (start : Z) (strm : srtp_stream) (ix : Z) : M pst Z :=
  let* c := get_comp RTP in
  match_aes c
    (c_set_iv RTP (srtp_iv_calc iv_local (c_k_s c) (st_ssrc strm) ix) ;;
     let* mb := get_mb in
     encr_at RTP (mb_pos mb) (mbuf_get_left mb))
    (c_set_iv RTP (srtp_iv_calc_gcm iv_local (c_k_s c) (st_ssrc strm) ix) ;;
     let* mb := get_mb in
     check (encr_aad RTP start (u64 (mb_pos mb - start)))
       (check (encr_at RTP (mb_pos mb) (mbuf_get_left mb))
          (let* '(err, tag) := c_authtag RTP GCM_TAGLEN in
           if nz err then ret err
           else on_mb mbuf_skip_to_end ;; on_mb (mbuf_write_mem tag))))
    (ret 0).

Definition srtp_encrypt_tag (start : Z) (strm : srtp_stream) : M pst Z :=
  let* c := get_comp RTP in
  match c_hmac c with
  | None => ret 0
  | Some h =>
      let* mb := get_mb in
      let tag_start := mb_end mb in
      at_pos tag_start ;;
      check (on_mb (mbuf_write_u32 (htonl (st_roc strm))))
        (at_pos start ;;
         let* '(err, tag) := digest_left h in
         if nz err then ret err
         else
           at_posend tag_start tag_start ;;
           let* t := lift (mem_load tag 0 (c_tag_len c)) in
           on_mb (mbuf_write_mem t))
  end.

Definition srtp_encrypt : M pst Z :=
  let* mb := get_mb in
  let start := mb_pos mb in
  let* '(err, hdr) := on_mb (rtp_hdr_decode zero_hdr) in
  if nz err then ret err
  else
    with_stream (fun l => stream_get_seq l (rtp_ssrc hdr) (rtp_seq hdr)) (fun i =>
      upd_strm i (roc_update (rtp_seq hdr)) ;;
      let* strm := get_strm i in
      let ix := u64 (65536 * st_roc strm + rtp_seq hdr) in
      check (srtp_encrypt_payload start strm ix)
        (check (srtp_encrypt_tag start strm)
           (upd_strm i (s_l_update (rtp_seq hdr)) ;; at_pos start ;; ret 0))).

(** [if (!srtp_replay_check(&strm->replay_rtp, ix)) return EALREADY;] *)
Definition check_replay_rtp (i : nat) (ix : Z) : M pst Z :=
  let* strm := get_strm i in
  let '(ok, r) := srtp_replay_check (st_replay_rtp strm) ix in
  upd_strm i (set_replay_rtp r) ;; ret (if ok then 0 else EALREADY).

Definition check_replay_rtcp (i : nat) (ix : Z) : M pst Z :=
  let* strm := get_strm i in
  let '(ok, r) := srtp_replay_check (st_replay_rtcp strm) ix in
  upd_strm i (set_replay_rtcp r) ;; ret (if ok then 0 else EALREADY).

(** [memcmp] of the first [n] bytes of two arrays. *)
Definition mem_eq (a b : list Z) (n : Z) : M pst bool :=
  let* x := lift (mem_load a 0 n) in
  let* y := lift (mem_load b 0 n) in
  ret (bool_decide (x = y)).

(** [mbuf_read_mem] into a zeroed array of [SHA_DIGEST_LENGTH] bytes. *)
Definition read_tag (n : Z) : M pst (Z * list Z) :=
  let* '(err, bs) := on_mb (mbuf_read_mem n) in
  let* tag := lift (mem_store (replicate 20 0) 0 bs) in
  ret (err, tag).

Definition srtp_decrypt_tag (start : Z) (i : nat) (strm : srtp_stream) (ix : Z) : M pst Z :=
  let* c := get_comp RTP in
  match c_hmac c with
  | None => ret 0
  | Some h =>
      let* mb := get_mb in
      if mbuf_get_left mb <? c_tag_len c then ret EBADMSG
      else
        let pld_start := mb_pos mb in
        let tag_start := u64 (mb_end mb - c_tag_len c) in
        at_pos tag_start ;;
        let* '(err, tag_pkt) := read_tag (c_tag_len c) in
        if nz err then ret err
        else
          at_posend tag_start tag_start ;;
          check (on_mb (mbuf_write_u32 (htonl (st_roc strm))))
            (at_pos start ;;
             let* '(err, tag_calc) := digest_left h in
             if nz err then ret err
             else
               at_posend pld_start tag_start ;;
               let* same := mem_eq tag_calc tag_pkt (c_tag_len c) in
               if negb same then ret EAUTH else check_replay_rtp i ix)
  end.

Definition srtp_decrypt_payload (start : Z) (i : nat) (strm : srtp_stream) (ix : Z) : M pst Z :=
  let* c := get_comp RTP in
  match_aes c
    (c_set_iv RTP (srtp_iv_calc iv_local (c_k_s c) (st_ssrc strm) ix) ;;
     let* mb := get_mb in
     decr_at RTP (mb_pos mb) (mbuf_get_left mb))
    (c_set_iv RTP (srtp_iv_calc_gcm iv_local (c_k_s c) (st_ssrc strm) ix) ;;
     let* mb := get_mb in
     check (decr_aad RTP start (u64 (mb_pos mb - start)))
       (if mbuf_get_left mb <? GCM_TAGLEN then ret EBADMSG
        else
          let tag_start := u64 (mb_end mb - GCM_TAGLEN) in
          check (decr_at RTP (mb_pos mb) (u64 (tag_start - mb_pos mb)))
            (let* tag := on_mb (load_at tag_start GCM_TAGLEN) in
             check (c_authenticate RTP tag)
               (on_mb (mbuf_set_end tag_start) ;; check_replay_rtp i ix))))
    (ret 0).

Definition srtp_decrypt : M pst Z :=
  let* mb := get_mb in
  let start := mb_pos mb in
  let* '(err, hdr) := on_mb (rtp_hdr_decode zero_hdr) in
  if nz err then ret err
  else
    with_stream (fun l => stream_get_seq l (rtp_ssrc hdr) (rtp_seq hdr)) (fun i =>
      let* strm := get_strm i in
      if 32768 <? seq_diff (st_s_l strm) (rtp_seq hdr) then ret ETIMEDOUT
      else
        upd_strm i (roc_update (rtp_seq hdr)) ;;
        let* strm := get_strm i in
        let ix := srtp_get_index (st_roc strm) (st_s_l strm) (rtp_seq hdr) in
        check (srtp_decrypt_tag start i strm ix)
          (check (srtp_decrypt_payload start i strm ix)
             (upd_strm i (s_l_update (rtp_seq hdr)) ;; at_pos start ;; ret 0))).

(** ** SRTCP *)

Definition get_rtcp_ssrc : M mbuf (Z * Z) :=
  need 8 (ret (EBADMSG, 0)) (mbuf_advance 4 ;; let* v := mbuf_read_ntohl in ret (0, v)).

(** The payload part: the error code and the E-bit. *)
Definition srtcp_encrypt_payload (start ssrc : Z) (strm : srtp_stream) (k : Z -> M pst Z) : M pst Z :=
  let* c := get_comp RTCP in
  match_aes c
    (c_set_iv RTCP (srtp_iv_calc iv_local (c_k_s c) ssrc (st_rtcp_index strm)) ;;
     let* mb := get_mb in
     check (encr_at RTCP (mb_pos mb) (mbuf_get_left mb)) (k 1))
    (let ix_be := htonl (Z.lor (Z.shiftl 1 31) (st_rtcp_index strm)) in
     c_set_iv RTCP (srtp_iv_calc_gcm iv_local (c_k_s c) ssrc (st_rtcp_index strm)) ;;
     let* mb := get_mb in
     check (encr_aad RTCP start (u64 (mb_pos mb - start)) |;
            let* '(err, _) := c_encr RTCP false (host_bytes 4 ix_be) in ret err)
       (check (encr_at RTCP (mb_pos mb) (mbuf_get_left mb))
          (let* '(err, tag) := c_authtag RTCP GCM_TAGLEN in
           if nz err then ret err
           else
             on_mb mbuf_skip_to_end ;;
             check (on_mb (mbuf_write_mem tag)) (k 1))))
    (k 0).

Definition srtcp_encrypt : M pst Z :=
  let* mb := get_mb in
  let start := mb_pos mb in
  let* '(err, ssrc) := on_mb get_rtcp_ssrc in
  if nz err then ret err
  else
    with_stream (fun l => stream_get l ssrc) (fun i =>
      upd_strm i (fun s => set_rtcp_index (Z.land (u32 (st_rtcp_index s + 1)) 0x7fffffff) s) ;;
      let* strm := get_strm i in
      srtcp_encrypt_payload start ssrc strm (fun ep =>
        on_mb mbuf_skip_to_end ;;
        check (on_mb (mbuf_write_u32 (htonl (Z.lor (u32 (Z.shiftl ep 31)) (st_rtcp_index strm)))))
          (let* c := get_comp RTCP in
           check
             (match c_hmac c with
              | None => ret 0
              | Some h =>
                  at_pos start ;;
                  let* '(err, tag) := digest_left h in
                  if nz err then ret err
                  else
                    on_mb mbuf_skip_to_end ;;
                    let* t := lift (mem_load tag 0 (c_tag_len c)) in
                    on_mb (mbuf_write_mem t)
              end)
             (at_pos start ;; ret 0)))).

Definition srtcp_decrypt_tag (start : Z) (i : nat) (ix : Z) : M pst Z :=
  let* c := get_comp RTCP in
  match c_hmac c with
  | None => ret 0
  | Some h =>
      let* mb := get_mb in
      let tag_start := mb_pos mb in
      if SHA_DIGEST_LENGTH <? c_tag_len c then ret ERANGE
      else
        let* '(err, tag_pkt) := read_tag (c_tag_len c) in
        if nz err then ret err
        else
          at_posend start tag_start ;;
          let* '(err, tag) := digest_left h in
          if nz err then ret err
          else
            let* same := mem_eq tag tag_pkt (c_tag_len c) in
            if negb same then ret EAUTH else check_replay_rtcp i ix
  end.

Definition srtcp_decrypt_payload (start eix_start pld_start ssrc ix : Z) (ep : bool) : M pst Z :=
  let* c := get_comp RTCP in
  if negb ep then ret 0
  else
    match_aes c
      (at_pos pld_start ;;
       c_set_iv RTCP (srtp_iv_calc iv_local (c_k_s c) ssrc ix) ;;
       let* mb := get_mb in
       decr_at RTCP (mb_pos mb) (mbuf_get_left mb))
      (c_set_iv RTCP (srtp_iv_calc_gcm iv_local (c_k_s c) ssrc ix) ;;
       check (decr_aad RTCP start (u64 (pld_start - start)) |; decr_aad RTCP eix_start 4)
         (at_pos pld_start ;;
          let* mb := get_mb in
          if mbuf_get_left mb <? GCM_TAGLEN then ret EBADMSG
          else
            let tag_start := u64 (mb_end mb - GCM_TAGLEN) in
            check (decr_at RTCP (mb_pos mb) (u64 (tag_start - pld_start)))
              (let* tag := on_mb (load_at tag_start GCM_TAGLEN) in
               check (c_authenticate RTCP tag)
                 (on_mb (mbuf_set_end tag_start) ;; ret 0))))
      (ret 0).

Definition srtcp_decrypt : M pst Z :=
  let* mb := get_mb in
  let start := mb_pos mb in
  let* '(err, ssrc) := on_mb get_rtcp_ssrc in
  if nz err then ret err
  else
    with_stream (fun l => stream_get l ssrc) (fun i =>
      let* mb := get_mb in
      let pld_start := mb_pos mb in
      let* c := get_comp RTCP in
      if mbuf_get_left mb <? 4 + c_tag_len c then ret EBADMSG
      else
        let eix_start := u64 (mb_end mb - (4 + c_tag_len c)) in
        at_pos eix_start ;;
        let* v := on_mb mbuf_read_ntohl in
        let ep := nz (Z.land (Z.shiftr v 31) 1) in
        let ix := Z.land v 0x7fffffff in
        check (srtcp_decrypt_tag start i ix)
          (on_mb (mbuf_set_end eix_start) ;;
           check (srtcp_decrypt_payload start eix_start pld_start ssrc ix ep)
             (at_pos start ;; ret 0))).

End packets.
