(* ===== verification/SrtpSpec.v ===== *)
(** * What SRTP does to a packet

    The byte-level specification of SRTP protection ([srtp_protect]) and the
    functional correctness of the packet operations of [SrtpPacket] against it:
    encryption produces exactly the protected packet, decryption recovers the
    packet and accepts nothing but protected packets. *)

From S2P Require Export SrtpPacket.

Section spec.
Context `{Host} `{EvpLaws}.

(** The keys of one component of a session. *)
Record keys := Keys {
  k_mode : aes_mode;
  k_aes : option (list Z);
  k_hmac : option (list Z);
  k_salt : list Z;
  k_tag_len : Z;
}.

Definition keys_ok (ck : keys) : Prop :=
  length (k_salt ck) = 16%nat /\ bytes_ok (k_salt ck) /\ 0 <= k_tag_len ck <= SHA_DIGEST_LENGTH.

(** A component set up with these keys, whatever its cipher context was last
    used for. *)
Definition comp_ok (c : comp) (ck : keys) : Prop :=
  keys_ok ck /\ c_mode c = k_mode ck /\ c_k_s c = k_salt ck /\ c_tag_len c = k_tag_len ck /\
  c_hmac c = Hmac EVP_sha1 <$> k_hmac ck /\
  match k_aes ck with
  | Some k => exists a, c_aes c = Some a /\ aes_keyed a (k_mode ck) k
  | None => c_aes c = None
  end.

(** ** The specification *)

Definition iv_of (ck : keys) (ssrc ix : Z) : list Z :=
  match k_mode ck with
  | AES_MODE_CTR => srtp_iv_calc (replicate 16 0) (k_salt ck) ssrc ix
  | AES_MODE_GCM => take 12 (srtp_iv_calc_gcm (replicate 16 0) (k_salt ck) ssrc ix)
  end.

(** Payload encryption; [aad] is authenticated with it in GCM mode. *)
Definition protect_payload (ck : keys) (ssrc ix : Z) (aad pl : list Z) : list Z :=
  match k_aes ck with
  | None => pl
  | Some k =>
      let ct := stream (k_mode ck) k (iv_of ck ssrc ix) pl in
      match k_mode ck with
      | AES_MODE_CTR => ct
      | AES_MODE_GCM => ct ++ gcm_tag k (iv_of ck ssrc ix) aad ct
      end
  end.

Definition mac (hk data : list Z) : list Z := default [] (HMAC EVP_sha1 hk data).

(** The authentication tag over [data]. *)
Definition protect_tag (ck : keys) (data : list Z) : list Z :=
  match k_hmac ck with
  | None => []
  | Some hk => take (Z.to_nat (k_tag_len ck)) (mac hk data)
  end.

(** The SRTP packet with header [hdr], payload [pl] and index [roc : seq]. *)
Definition srtp_protect (ck : keys) (ssrc roc seq : Z) (hdr pl : list Z) : list Z :=
  let body := hdr ++ protect_payload ck ssrc (65536 * roc + seq) hdr pl in
  body ++ protect_tag ck (body ++ be_bytes 4 roc).

(** ** Lemmas on the specification *)

(** Only the low 48 bits of the index matter, and not the local's garbage. *)
Lemma iv_core_mod k_s off ssrc ix ix' : ix mod 2 ^ 48 = ix' mod 2 ^ 48 ->
  iv_core k_s off ssrc ix = iv_core k_s off ssrc ix'.
Proof.
  intros E. unfold iv_core. do 2 f_equal. rewrite <- (be_bytes_mod 6 ix), <- (be_bytes_mod 6 ix').
  f_equal. exact E.
Qed.

Lemma iv_of_eq ck ssrc ix ix' : keys_ok ck -> ix mod 2 ^ 48 = ix' mod 2 ^ 48 ->
  iv_of ck ssrc ix' = iv_used (k_mode ck)
    (match k_mode ck with
     | AES_MODE_CTR => srtp_iv_calc iv_local (k_salt ck) ssrc ix
     | AES_MODE_GCM => srtp_iv_calc_gcm iv_local (k_salt ck) ssrc ix
     end).
Proof.
  intros (Hl & Hb & _) E. unfold iv_of, iv_used. assert (length iv_local = 16%nat) as Hiv by done.
  destruct (k_mode ck).
  - rewrite !srtp_iv_calc_core by done. rewrite (iv_core_mod _ _ _ _ _ E). symmetry. apply take_ge.
    rewrite !length_app, (iv_core_length _ 4 _ _ Hl) by lia. rewrite length_take, Hl. simpl. lia.
  - rewrite !srtp_iv_calc_gcm_core by done. by rewrite (iv_core_mod _ _ _ _ _ E).
Qed.

Lemma iv_calc_length ssrc ix k_s : length k_s = 16%nat -> bytes_ok k_s ->
  length (srtp_iv_calc iv_local k_s ssrc ix) = 16%nat /\
  length (srtp_iv_calc_gcm iv_local k_s ssrc ix) = 16%nat.
Proof.
  intros Hl Hb. assert (forall n i x v, 0 <= i -> Z.of_nat n * (i + 1) <= 16 ->
    length v = 16%nat -> length (vset n i x v) = 16%nat) as Hv.
  { intros n i x v ? ? Hl16. unfold vset. by rewrite length_splice by (rewrite ?length_host_bytes; lia). }
  unfold srtp_iv_calc, srtp_iv_calc_gcm. split; repeat (apply Hv; [lia|lia|]); done.
Qed.

Lemma mac_ok hk data : length (mac hk data) = 20%nat /\ bytes_ok (mac hk data).
Proof. unfold mac. destruct (HMAC_sha1_law hk data) as (md & -> & ? & ?). done. Qed.

Lemma protect_tag_ok ck data : keys_ok ck ->
  bytes_ok (protect_tag ck data) /\ zlength (protect_tag ck data) <= 20 /\
  (k_hmac ck <> None -> zlength (protect_tag ck data) = k_tag_len ck).
Proof.
  intros (_ & _ & Ht). unfold SHA_DIGEST_LENGTH in Ht. unfold protect_tag. destruct (k_hmac ck) as [hk|]; [|done].
  destruct (mac_ok hk data) as [Hl Hb]. rewrite length_take, Hl. split_and!; [by apply Forall_take|lia|lia].
Qed.

Lemma protect_payload_ok ck ssrc ix aad pl : bytes_ok pl ->
  bytes_ok (protect_payload ck ssrc ix aad pl) /\
  zlength pl <= zlength (protect_payload ck ssrc ix aad pl) <= zlength pl + 16.
Proof.
  intros Hb. unfold protect_payload. destruct (k_aes ck) as [k|]; [|split; [done|lia]].
  pose proof (stream_bytes (k_mode ck) k (iv_of ck ssrc ix) pl Hb).
  pose proof (stream_length (k_mode ck) k (iv_of ck ssrc ix) pl). destruct (k_mode ck); [split; [done|lia]|].
  rewrite length_app, gcm_tag_length, Forall_app. pose proof (gcm_tag_bytes k (iv_of ck ssrc ix) aad).
  split; [split; auto|lia].
Qed.

(** ** Steps of the packet monad *)

Lemma on_mb_eq {A} (m : M mbuf A) s mb a mb' : m mb = Some (a, mb') -> on_mb m (Pst s mb) = Some (a, Pst s mb').
Proof. intros E. unfold on_mb. simpl. by rewrite E. Qed.

Lemma encr_at_eq w s mb a x b pos A e y A' : holds mb (a ++ x ++ b) pos -> c_aes (comp_of w s) = Some A ->
  aes_encr A true x = (e, y, A') -> length y = length x -> bytes_ok y ->
  exists mb', encr_at w (zlength a) (zlength x) (Pst s mb) = Some (e, Pst (set_aes w A' s) mb') /\
    holds mb' (a ++ y ++ b) pos.
Proof.
  intros Hh HA HE Hl Hy. destruct (holds_store _ _ _ (zlength a) y Hh) as (mb' & Es & Hh');
    [lia|rewrite !length_app; lia|done|].
  exists mb'. rewrite splice_app_mid in Hh' by done. split; [|done]. unfold encr_at.
  rewrite (bind_Some _ _ _ (slice (a ++ x ++ b) (zlength a) (zlength x)) (Pst s mb)).
  2: { by apply on_mb_eq, (holds_load _ _ pos); [..|rewrite !length_app]; try done; lia. }
  rewrite slice_app_mid. unfold c_encr, call_aes, get_comp, bind, modify, ret. simpl. rewrite HA, HE.
  by rewrite (on_mb_eq _ _ _ _ _ Es).
Qed.

Lemma decr_at_eq w s mb a x b pos A e y A' : holds mb (a ++ x ++ b) pos -> c_aes (comp_of w s) = Some A ->
  aes_decr A true x = (e, y, A') -> length y = length x -> bytes_ok y ->
  exists mb', decr_at w (zlength a) (zlength x) (Pst s mb) = Some (e, Pst (set_aes w A' s) mb') /\
    holds mb' (a ++ y ++ b) pos.
Proof.
  intros Hh HA HE Hl Hy. destruct (holds_store _ _ _ (zlength a) y Hh) as (mb' & Es & Hh');
    [lia|rewrite !length_app; lia|done|].
  exists mb'. rewrite splice_app_mid in Hh' by done. split; [|done]. unfold decr_at.
  rewrite (bind_Some _ _ _ (slice (a ++ x ++ b) (zlength a) (zlength x)) (Pst s mb)).
  2: { by apply on_mb_eq, (holds_load _ _ pos); [..|rewrite !length_app]; try done; lia. }
  rewrite slice_app_mid. unfold c_decr, call_aes, get_comp, bind, modify, ret. simpl. rewrite HA, HE.
  by rewrite (on_mb_eq _ _ _ _ _ Es).
Qed.

Lemma encr_aad_eq w s mb a x b pos A e o A' : holds mb (a ++ x ++ b) pos -> c_aes (comp_of w s) = Some A ->
  aes_encr A false x = (e, o, A') ->
  encr_aad w (zlength a) (zlength x) (Pst s mb) = Some (e, Pst (set_aes w A' s) mb).
Proof.
  intros Hh HA HE. unfold encr_aad.
  rewrite (bind_Some _ _ _ (slice (a ++ x ++ b) (zlength a) (zlength x)) (Pst s mb)).
  2: { by apply on_mb_eq, (holds_load _ _ pos); [..|rewrite !length_app]; try done; lia. }
  rewrite slice_app_mid. unfold c_encr, call_aes, get_comp, bind, modify, ret. simpl. by rewrite HA, HE.
Qed.

Lemma decr_aad_eq w s mb a x b pos A e o A' : holds mb (a ++ x ++ b) pos -> c_aes (comp_of w s) = Some A ->
  aes_decr A false x = (e, o, A') ->
  decr_aad w (zlength a) (zlength x) (Pst s mb) = Some (e, Pst (set_aes w A' s) mb).
Proof.
  intros Hh HA HE. unfold decr_aad.
  rewrite (bind_Some _ _ _ (slice (a ++ x ++ b) (zlength a) (zlength x)) (Pst s mb)).
  2: { by apply on_mb_eq, (holds_load _ _ pos); [..|rewrite !length_app]; try done; lia. }
  rewrite slice_app_mid. unfold c_decr, call_aes, get_comp, bind, modify, ret. simpl. by rewrite HA, HE.
Qed.

(** *** The component under its cipher calls *)

Definition other (w : which) : which := match w with RTP => RTCP | RTCP => RTP end.

(** Only the cipher context of component [w] may differ. *)
Record sess_upd (w : which) (s s' : srtp) (ck : keys) : Prop := {
  su_ok : comp_ok (comp_of w s') ck;
  su_other : comp_of (other w) s' = comp_of (other w) s;
  su_streams : s_streaml s' = s_streaml s;
}.

Lemma sess_upd_refl w s ck : comp_ok (comp_of w s) ck -> sess_upd w s s ck.
Proof. by split. Qed.

Lemma set_aes_get w A s : c_aes (comp_of w (set_aes w A s)) = Some A.
Proof. by destruct w. Qed.

Lemma set_aes_set w A A' s : set_aes w A' (set_aes w A s) = set_aes w A' s.
Proof. by destruct w. Qed.

Lemma set_aes_upd w A s ck k : comp_ok (comp_of w s) ck -> k_aes ck = Some k -> aes_keyed A (k_mode ck) k ->
  sess_upd w s (set_aes w A s) ck.
Proof.
  intros (Hk & Hm & Hs & Ht & Hh & Ha) E HA. split; [|by destruct w|by destruct w].
  destruct w; (split_and!; try done; rewrite E; exists A; done).
Qed.

Lemma aes_in_keyed A m k d iv aad ct tag : aes_in A (View m k d iv aad ct tag) -> aes_keyed A m k.
Proof. intros Hin. by exists d, iv, aad, ct, tag. Qed.

Lemma c_set_iv_eq w s mb A iv : c_aes (comp_of w s) = Some A ->
  c_set_iv w iv (Pst s mb) = Some (tt, Pst (set_aes w (aes_set_iv A iv) s) mb).
Proof. intros E. unfold c_set_iv, call_aes, get_comp, bind, modify, ret. simpl. by rewrite E. Qed.

Lemma c_authtag_eq w s mb A n e tag A' : c_aes (comp_of w s) = Some A -> aes_get_authtag A n = (e, tag, A') ->
  c_authtag w n (Pst s mb) = Some ((e, tag), Pst (set_aes w A' s) mb).
Proof. intros E E'. unfold c_authtag, call_aes, get_comp, bind, modify, ret. simpl. by rewrite E, E'. Qed.

Lemma c_authenticate_eq w s mb A tag e A' : c_aes (comp_of w s) = Some A -> aes_authenticate A tag = (e, A') ->
  c_authenticate w tag (Pst s mb) = Some (e, Pst (set_aes w A' s) mb).
Proof. intros E E'. unfold c_authenticate, call_aes, get_comp, bind, modify, ret. simpl. by rewrite E, E'. Qed.

Lemma check_0 (m k : M pst Z) st st' : m st = Some (0, st') -> check m k st = k st'.
Proof. intros E. unfold check. by rewrite (bind_Some _ _ _ _ _ E). Qed.

Lemma check_err (m k : M pst Z) st e st' : m st = Some (e, st') -> e <> 0 -> check m k st = Some (e, st').
Proof.
  intros E He. unfold check. rewrite (bind_Some _ _ _ _ _ E). unfold nz. by destruct (Z.eqb_spec e 0).
Qed.

(** Appending through the packet state. *)
Lemma on_mb_append s mb data pos m bs : holds mb data pos -> pos = zlength data -> Writes m bs ->
  pos + zlength bs < WRITE_MAX -> exists e mb', on_mb m (Pst s mb) = Some (e, Pst s mb') /\ mbuf_wf mb' /\
    0 <= e /\ (no_oom -> e = 0) /\ (e = 0 -> holds mb' (data ++ bs) (pos + zlength bs)).
Proof.
  intros Hh Hp Hw Hm. destruct (holds_append _ _ _ _ _ Hh Hp Hw Hm) as (e & mb' & E & Hr).
  exists e, mb'. split; [by apply on_mb_eq|done].
Qed.

(** ** Encryption of the payload *)

(** The common shape of a step's outcome: a safe result, and on success a
    packet [data]. *)
Definition outcome (w : which) (s : srtp) (ck : keys) (data : list Z) (r : option (Z * pst)) : Prop :=
  exists e s' mb', r = Some (e, Pst s' mb') /\ sess_upd w s s' ck /\ mbuf_wf mb' /\ 0 <= e /\
    (no_oom -> e = 0) /\ (e = 0 -> exists p, holds mb' data p).

Lemma encrypt_ctr_spec w s mb a pl k ck ssrc ix ix' : holds mb (a ++ pl) (zlength a) -> comp_ok (comp_of w s) ck ->
  zlength a + zlength pl < WRITE_MAX -> k_mode ck = AES_MODE_CTR -> k_aes ck = Some k ->
  ix mod 2 ^ 48 = ix' mod 2 ^ 48 ->
  exists s' mb',
    (c_set_iv w (srtp_iv_calc iv_local (c_k_s (comp_of w s)) ssrc ix) ;;
     let* mb := get_mb in encr_at w (mb_pos mb) (mbuf_get_left mb)) (Pst s mb) = Some (0, Pst s' mb') /\
    sess_upd w s s' ck /\ holds mb' (a ++ stream AES_MODE_CTR k (iv_of ck ssrc ix') pl) (zlength a).
Proof.
  intros Hh Hc Hw Hm Hk E. pose proof Hc as (Hck & _ & Hs & _ & _ & Ha). rewrite Hk, Hm in Ha.
  destruct Ha as (A & HA & Hkey). pose proof (holds_ok _ _ _ Hh) as Hb. apply Forall_app in Hb as [_ Hb].
  pose proof (holds_left _ _ _ Hh ltac:(rewrite length_app; lia)) as El. rewrite length_app in El.
  destruct (iv_calc_length ssrc ix (k_salt ck)) as [Liv _]; [apply Hck..|].
  rewrite (bind_Some _ _ _ _ _ (c_set_iv_eq w s mb A _ HA)), Hs. unfold get_mb, bind. cbn [p_mb].
  destruct (aes_set_iv_in A _ k _ Hkey Liv) as (d & Hin). rewrite (h_pos _ _ _ Hh), El.
  replace (Z.of_nat (length a + length pl) - zlength a) with (zlength pl) by lia.
  destruct (aes_encr_first _ _ _ _ _ pl Hin Hb) as (A2 & E2 & Hin2); [unfold INT_MAX, WRITE_MAX in *; lia|].
  rewrite <- (app_nil_r pl) in Hh.
  destruct (encr_at_eq w (set_aes w (aes_set_iv A (srtp_iv_calc iv_local (k_salt ck) ssrc ix)) s)
    mb a pl [] _ _ _ _ _ Hh (set_aes_get _ _ _) E2) as (mb' & Er & Hh');
    [apply stream_length|by apply stream_bytes|].
  rewrite Er, set_aes_set. eexists _, mb'. split; [done|].
  split; [eapply set_aes_upd; rewrite ?Hm; eauto using aes_in_keyed|].
  pose proof (iv_of_eq ck ssrc ix ix' Hck E) as Eiv. rewrite Hm in Eiv. rewrite Eiv. by rewrite app_nil_r in Hh'.
Qed.

(** The cipher of a GCM component after setting the packet's vector. *)
Lemma gcm_set_iv w s mb k ck ssrc ix ix' : comp_ok (comp_of w s) ck -> k_mode ck = AES_MODE_GCM ->
  k_aes ck = Some k -> ix mod 2 ^ 48 = ix' mod 2 ^ 48 ->
  exists A d iv, c_set_iv w (srtp_iv_calc_gcm iv_local (c_k_s (comp_of w s)) ssrc ix) (Pst s mb)
      = Some (tt, Pst (set_aes w A s) mb) /\
    aes_in A (View AES_MODE_GCM k d (Some iv) [] None None) /\ take 12 iv = iv_of ck ssrc ix'.
Proof.
  intros Hc Hm Hk E. pose proof Hc as (Hck & _ & Hs & _ & _ & Ha). rewrite Hk, Hm in Ha.
  destruct Ha as (A & HA & Hkey). destruct (iv_calc_length ssrc ix (k_salt ck)) as [_ Liv]; [apply Hck..|].
  rewrite (c_set_iv_eq w s mb A _ HA), Hs. destruct (aes_set_iv_in A _ k _ Hkey Liv) as (d & Hin).
  eexists _, d, _. split_and!; [done|exact Hin|].
  pose proof (iv_of_eq ck ssrc ix ix' Hck E) as Eiv. by rewrite Hm in Eiv.
Qed.

(** Sealing: encrypt the payload and take the tag. *)
Lemma gcm_seal w s mb a pl b pos k ck A iv aad : holds mb (a ++ pl ++ b) pos -> comp_ok (comp_of w s) ck ->
  k_mode ck = AES_MODE_GCM -> k_aes ck = Some k -> zlength pl <= INT_MAX ->
  c_aes (comp_of w s) = Some A -> aes_in A (View AES_MODE_GCM k true (Some iv) aad None None) ->
  let ct := stream AES_MODE_GCM k (take 12 iv) pl in
  exists s1 s2 mb', encr_at w (zlength a) (zlength pl) (Pst s mb) = Some (0, Pst s1 mb') /\
    c_authtag w GCM_TAGLEN (Pst s1 mb') = Some ((0, gcm_tag k (take 12 iv) aad ct), Pst s2 mb') /\
    sess_upd w s s2 ck /\ holds mb' (a ++ ct ++ b) pos.
Proof.
  intros Hh Hc Hm Hk Hl HA Hin ct. pose proof (holds_ok _ _ _ Hh) as Hb. rewrite !Forall_app in Hb.
  destruct (aes_encr_next _ _ _ _ _ pl Hin) as (A2 & E2 & Hin2); [tauto|done|].
  destruct (encr_at_eq w s mb a pl b _ A _ _ _ Hh HA E2) as (mb' & Er & Hh');
    [apply stream_length|apply stream_bytes; tauto|].
  destruct (aes_get_authtag_in _ _ _ _ _ Hin2) as (A3 & E3 & Hkey).
  eexists _, _, mb'. split; [exact Er|]. split; [apply (c_authtag_eq _ _ _ _ _ _ _ _ (set_aes_get _ _ _) E3)|].
  rewrite set_aes_set. split; [|done]. eapply set_aes_upd; rewrite ?Hm; eauto.
Qed.

(** Opening: decrypt the payload and compare the tag. *)
Lemma gcm_open w s mb a ct b pos k ck A iv aad tag : holds mb (a ++ ct ++ b) pos -> comp_ok (comp_of w s) ck ->
  k_mode ck = AES_MODE_GCM -> k_aes ck = Some k -> zlength ct <= INT_MAX -> length tag = 16%nat ->
  c_aes (comp_of w s) = Some A -> aes_in A (View AES_MODE_GCM k false (Some iv) aad None None) ->
  exists s1 s2 mb', decr_at w (zlength a) (zlength ct) (Pst s mb) = Some (0, Pst s1 mb') /\
    (forall mb2, c_authenticate w tag (Pst s1 mb2) =
       Some (if bool_decide (tag = gcm_tag k (take 12 iv) aad ct) then 0 else EAUTH, Pst s2 mb2)) /\
    sess_upd w s s2 ck /\ holds mb' (a ++ stream AES_MODE_GCM k (take 12 iv) ct ++ b) pos.
Proof.
  intros Hh Hc Hm Hk Hl Ht HA Hin. pose proof (holds_ok _ _ _ Hh) as Hb. rewrite !Forall_app in Hb.
  destruct (aes_decr_next _ _ _ _ _ ct Hin) as (A2 & E2 & Hin2); [tauto|done|].
  destruct (decr_at_eq w s mb a ct b _ A _ _ _ Hh HA E2) as (mb' & Er & Hh');
    [apply stream_length|apply stream_bytes; tauto|].
  destruct (aes_authenticate_in _ _ _ _ _ tag Hin2 Ht) as (A3 & E3 & Hkey).
  eexists _, _, mb'. split; [exact Er|].
  split; [intros mb2; apply (c_authenticate_eq _ _ _ _ _ _ _ (set_aes_get _ _ _) E3)|].
  rewrite set_aes_set. split; [|done]. eapply set_aes_upd; rewrite ?Hm; eauto.
Qed.

Lemma sess_upd_trans w s s1 s2 ck : sess_upd w s s1 ck -> sess_upd w s1 s2 ck -> sess_upd w s s2 ck.
Proof. intros [] []. split; congruence. Qed.

Lemma on_mb_skip s mb data pos : holds mb data pos ->
  exists mb', on_mb mbuf_skip_to_end (Pst s mb) = Some (tt, Pst s mb') /\ holds mb' data (zlength data).
Proof.
  intros Hh. eexists. split; [done|]. rewrite (holds_end _ _ _ Hh).
  eapply holds_set_pos; [done|]. pose proof (h_wf _ _ _ Hh) as []. unfold MEM_SIZE_MAX in *. lia.
Qed.

(** Authenticating the header sets the direction. *)
Lemma gcm_aad_encr w s mb pre hdr b pos k ck A d iv : holds mb (pre ++ hdr ++ b) pos ->
  comp_ok (comp_of w s) ck -> k_mode ck = AES_MODE_GCM -> k_aes ck = Some k -> zlength hdr <= INT_MAX ->
  aes_in A (View AES_MODE_GCM k d (Some iv) [] None None) ->
  exists A', encr_aad w (zlength pre) (zlength hdr) (Pst (set_aes w A s) mb)
      = Some (0, Pst (set_aes w A' s) mb) /\
    aes_in A' (View AES_MODE_GCM k true (Some iv) hdr None None) /\ comp_ok (comp_of w (set_aes w A' s)) ck.
Proof.
  intros Hh Hc Hm Hk Hl Hin. pose proof (holds_ok _ _ _ Hh) as Hb. rewrite !Forall_app in Hb.
  destruct (aes_encr_aad_first _ _ _ _ hdr Hin) as (o & A' & E & Hin'); [tauto|done|]. exists A'.
  split; [|split; [done|]].
  - rewrite (encr_aad_eq w (set_aes w A s) mb pre hdr b _ A _ _ _ Hh (set_aes_get _ _ _) E). by rewrite set_aes_set.
  - apply (set_aes_upd w A' s ck k Hc Hk). rewrite Hm. eauto using aes_in_keyed.
Qed.

Lemma gcm_aad_decr w s mb pre hdr b pos k ck A d iv : holds mb (pre ++ hdr ++ b) pos ->
  comp_ok (comp_of w s) ck -> k_mode ck = AES_MODE_GCM -> k_aes ck = Some k -> zlength hdr <= INT_MAX ->
  aes_in A (View AES_MODE_GCM k d (Some iv) [] None None) ->
  exists A', decr_aad w (zlength pre) (zlength hdr) (Pst (set_aes w A s) mb)
      = Some (0, Pst (set_aes w A' s) mb) /\
    aes_in A' (View AES_MODE_GCM k false (Some iv) hdr None None) /\ comp_ok (comp_of w (set_aes w A' s)) ck.
Proof.
  intros Hh Hc Hm Hk Hl Hin. pose proof (holds_ok _ _ _ Hh) as Hb. rewrite !Forall_app in Hb.
  destruct (aes_decr_aad_first _ _ _ _ hdr Hin) as (o & A' & E & Hin'); [tauto|done|]. exists A'.
  split; [|split; [done|]].
  - rewrite (decr_aad_eq w (set_aes w A s) mb pre hdr b _ A _ _ _ Hh (set_aes_get _ _ _) E). by rewrite set_aes_set.
  - apply (set_aes_upd w A' s ck k Hc Hk). rewrite Hm. eauto using aes_in_keyed.
Qed.

Lemma sess_upd_set_aes w s s2 A ck : sess_upd w (set_aes w A s) s2 ck -> sess_upd w s s2 ck.
Proof. intros [Hok Ho Hs]. split; [done|rewrite Ho; by destruct w|rewrite Hs; by destruct w]. Qed.

(** Header and payload lengths from positions. *)
Lemma header_len mb pre hdr b : holds mb (pre ++ hdr ++ b) (zlength pre + zlength hdr) ->
  u64 (mb_pos mb - zlength pre) = zlength hdr /\ mbuf_get_left mb = zlength b.
Proof.
  intros Hh. pose proof (holds_left _ _ _ Hh) as El. rewrite !length_app in El. rewrite El by lia.
  pose proof (h_pos _ _ _ Hh) as Ep. pose proof (wf_pos _ (h_wf _ _ _ Hh)).
  rewrite Ep in *. rewrite (wrap_small 64); lia.
Qed.

Lemma encrypt_gcm_spec s mb pre hdr pl k ck ssrc ix ix' :
  holds mb (pre ++ hdr ++ pl) (zlength pre + zlength hdr) -> comp_ok (s_rtp s) ck ->
  zlength pre + zlength hdr + zlength pl + 16 < WRITE_MAX -> ix mod 2 ^ 48 = ix' mod 2 ^ 48 ->
  k_mode ck = AES_MODE_GCM -> k_aes ck = Some k ->
  let ct := stream AES_MODE_GCM k (iv_of ck ssrc ix') pl in
  outcome RTP s ck (pre ++ hdr ++ ct ++ gcm_tag k (iv_of ck ssrc ix') hdr ct)
    ((c_set_iv RTP (srtp_iv_calc_gcm iv_local (c_k_s (s_rtp s)) ssrc ix) ;;
     let* mb := get_mb in
     check (encr_aad RTP (zlength pre) (u64 (mb_pos mb - zlength pre)))
       (check (encr_at RTP (mb_pos mb) (mbuf_get_left mb))
          (let* '(err, tag) := c_authtag RTP GCM_TAGLEN in
           if nz err then ret err
           else on_mb mbuf_skip_to_end ;; on_mb (mbuf_write_mem tag)))) (Pst s mb)).
Proof.
  intros Hh Hc Hw E Hm Hk ct. unfold WRITE_MAX in Hw.
  destruct (gcm_set_iv RTP s mb k ck ssrc ix ix' Hc Hm Hk E) as (A & d & iv & E1 & Hin & Eiv).
  rewrite (bind_Some _ _ _ _ _ E1). unfold get_mb, bind at 1. cbn [p_mb].
  destruct (header_len _ _ _ _ Hh) as [-> ->].
  destruct (gcm_aad_encr RTP s mb pre hdr pl _ k ck A d iv Hh Hc Hm Hk) as (A2 & E2 & Hin2 & Hc2);
    [unfold INT_MAX; lia|done|].
  rewrite (check_0 _ _ _ _ E2), (h_pos _ _ _ Hh), <- Nat2Z.inj_add, <- length_app.
  pose proof Hh as Hh2. rewrite app_assoc, <- (app_nil_r pl) in Hh2.
  destruct (gcm_seal RTP (set_aes RTP A2 s) mb (pre ++ hdr) pl [] _ k ck A2 iv hdr Hh2 Hc2 Hm Hk)
    as (s1 & s2 & mb1 & E3 & E4 & Hu & Hh3); [unfold INT_MAX; lia|apply set_aes_get|done|].
  rewrite (check_0 _ _ _ _ E3), (bind_Some _ _ _ _ _ E4). cbn [nz Z.eqb negb].
  rewrite app_nil_r, Eiv in *. fold ct in Hh3 |- *.
  destruct (on_mb_skip s2 _ _ _ Hh3) as (mb2 & E5 & Hh4). rewrite (bind_Some _ _ _ _ _ E5).
  destruct (on_mb_append s2 mb2 _ _ _ _ Hh4 eq_refl (writes_mem _ (gcm_tag_bytes k (iv_of ck ssrc ix') hdr ct)))
    as (e & mb3 & E6 & Hwf & He & Ho & Hok).
  { rewrite gcm_tag_length, !length_app. subst ct. rewrite stream_length. unfold WRITE_MAX. lia. }
  exists e, s2, mb3. split_and!; try done; [by eapply sess_upd_set_aes|].
  intros E0. specialize (Hok E0). rewrite <- !app_assoc in Hok. by eexists.
Qed.

Lemma encrypt_payload_spec s mb pre hdr pl ck strm ix ix' :
  holds mb (pre ++ hdr ++ pl) (zlength pre + zlength hdr) -> comp_ok (s_rtp s) ck ->
  zlength pre + zlength hdr + zlength pl + 16 < WRITE_MAX -> ix mod 2 ^ 48 = ix' mod 2 ^ 48 ->
  outcome RTP s ck (pre ++ hdr ++ protect_payload ck (st_ssrc strm) ix' hdr pl)
    (srtp_encrypt_payload (zlength pre) strm ix (Pst s mb)).
Proof.
  intros Hh Hc Hw E. unfold srtp_encrypt_payload, get_comp, bind at 1, match_aes.
  cbn [p_srtp comp_of]. pose proof Hc as (Hck & Hmo & _ & _ & _ & Ha). rewrite Hmo.
  unfold protect_payload. destruct (k_aes ck) as [k|] eqn:Hk.
  2: { rewrite Ha. exists 0, s, mb. split_and!; try done; [apply Hh|by eexists]. }
  destruct Ha as (A & HA & Hkey). rewrite HA. destruct (k_mode ck) eqn:Hm.
  - rewrite app_assoc, <- Nat2Z.inj_add, <- length_app in Hh.
    destruct (encrypt_ctr_spec RTP s mb (pre ++ hdr) pl k ck (st_ssrc strm) ix ix') as (s' & mb' & Er & Hs & Hh');
      [done|done|rewrite length_app; lia|done..|].
    exists 0, s', mb'. rewrite <- app_assoc in Hh'. split_and!; try done; [apply Hh'|by eexists].
  - by apply (encrypt_gcm_spec s mb pre hdr pl k).
Qed.

(** ** Authentication tags *)

Lemma digest_left_eq s mb pre data hk : holds mb (pre ++ data) (zlength pre) -> data <> [] ->
  digest_left (Hmac EVP_sha1 hk) (Pst s mb) = Some ((0, mac hk data), Pst s mb).
Proof.
  intros Hh Hne. pose proof (holds_left _ _ _ Hh ltac:(rewrite length_app; lia)) as El.
  unfold digest_left, get_mb, bind at 1. cbn [p_mb]. rewrite El, (h_pos _ _ _ Hh), length_app.
  replace (Z.of_nat (length pre + length data) - zlength pre) with (zlength data) by lia.
  rewrite (bind_Some _ _ _ data (Pst s mb)).
  - destruct (hmac_digest_sha1 hk data Hne) as (md & E & _ & _ & E'). unfold lift. rewrite E'.
    unfold mac. by rewrite E.
  - apply on_mb_eq. rewrite (holds_load _ _ _ (zlength pre) (zlength data) Hh) by (rewrite ?length_app; lia).
    by rewrite slice_app_end.
Qed.

Lemma load_tag ck hk data : keys_ok ck ->
  mem_load (mac hk data) 0 (k_tag_len ck) = Some (take (Z.to_nat (k_tag_len ck)) (mac hk data)).
Proof.
  intros (_ & _ & Ht). unfold SHA_DIGEST_LENGTH in Ht. destruct (mac_ok hk data) as [Hl _]. unfold mem_load.
  rewrite in_block_true by lia. done.
Qed.

Lemma at_posend_eq s mb data pos p e : holds mb data pos -> 0 <= e <= zlength data -> 0 <= p < 2 ^ 63 ->
  exists mb', at_posend p e (Pst s mb) = Some (tt, Pst s mb') /\ holds mb' (take (Z.to_nat e) data) p.
Proof. intros Hh He Hp. eexists. split; [done|]. by eapply holds_set_posend. Qed.

Lemma at_pos_eq s mb data pos p : holds mb data pos -> 0 <= p < 2 ^ 63 ->
  exists mb', at_pos p (Pst s mb) = Some (tt, Pst s mb') /\ holds mb' data p.
Proof. intros Hh Hp. eexists. split; [done|]. by eapply holds_set_pos. Qed.

Lemma take_zlength (l k : list Z) : take (Z.to_nat (zlength l)) (l ++ k) = l.
Proof. by rewrite Nat2Z.id, take_app_length. Qed.

Lemma encrypt_tag_spec s mb pre body pos ck strm : holds mb (pre ++ body) pos -> body <> [] ->
  comp_ok (s_rtp s) ck -> zlength pre + zlength body + 20 < WRITE_MAX ->
  outcome RTP s ck (pre ++ body ++ protect_tag ck (body ++ be_bytes 4 (st_roc strm)))
    (srtp_encrypt_tag (zlength pre) strm (Pst s mb)).
Proof.
  intros Hh Hne Hc Hw. pose proof Hc as (Hck & _ & _ & Htl & Hhm & _). unfold WRITE_MAX in Hw.
  unfold srtp_encrypt_tag, get_comp, bind at 1. cbn [p_srtp comp_of]. rewrite Hhm, Htl.
  pose proof (protect_tag_ok ck (body ++ be_bytes 4 (st_roc strm)) Hck) as (Hpb & Hpl & _).
  unfold protect_tag in *. destruct (k_hmac ck) as [hk|]; cbn [fmap option_fmap option_map].
  2: { exists 0, s, mb. rewrite app_nil_r. split_and!; try done; [apply Hh|by eexists]. }
  unfold get_mb, bind at 1. cbn [p_mb]. rewrite <- (holds_end _ _ _ Hh).
  destruct (at_pos_eq s _ _ _ (zlength (pre ++ body)) Hh) as (mb1 & E1 & Hh1); [rewrite length_app; lia|].
  rewrite (bind_Some _ _ _ _ _ E1).
  destruct (on_mb_append s mb1 _ _ _ _ Hh1 eq_refl (writes_u32_n (st_roc strm)))
    as (e & mb2 & E2 & Hwf & He & Ho & Hok); [rewrite length_app, length_be_bytes; unfold WRITE_MAX; lia|].
  destruct (decide (e = 0)) as [->|Hne0].
  2: { rewrite (check_err _ _ _ _ _ E2 Hne0). by exists e, s, mb2. }
  rewrite (check_0 _ _ _ _ E2). specialize (Hok eq_refl).
  destruct (at_pos_eq s _ _ _ (zlength pre) Hok) as (mb3 & E3 & Hh3); [lia|]. rewrite (bind_Some _ _ _ _ _ E3).
  pose proof Hh3 as Hh3'. rewrite <- app_assoc in Hh3'.
  rewrite (bind_Some _ _ _ _ _ (digest_left_eq s mb3 pre _ hk Hh3' ltac:(by destruct body))).
  cbn [nz Z.eqb negb].
  destruct (at_posend_eq s _ _ _ (zlength (pre ++ body)) (zlength (pre ++ body)) Hh3) as (mb4 & E4 & Hh4);
    [rewrite !length_app; lia|rewrite length_app; lia|].
  rewrite (bind_Some _ _ _ _ _ E4). rewrite take_zlength in Hh4. rewrite load_tag by done.
  unfold lift, bind at 1.
  destruct (on_mb_append s mb4 _ _ _ _ Hh4 eq_refl (writes_mem _ Hpb))
    as (e' & mb5 & E5 & Hwf' & He' & Ho' & Hok'); [rewrite length_app; unfold WRITE_MAX; lia|].
  exists e', s, mb5. split_and!; try done. intros E0. specialize (Hok' E0).
  rewrite <- app_assoc in Hok'. by eexists.
Qed.

(** ** Decryption *)

Lemma decrypt_ctr_spec w s mb a ct k ck ssrc ix ix' : holds mb (a ++ ct) (zlength a) -> comp_ok (comp_of w s) ck ->
  zlength a + zlength ct < WRITE_MAX -> k_mode ck = AES_MODE_CTR -> k_aes ck = Some k ->
  ix mod 2 ^ 48 = ix' mod 2 ^ 48 ->
  exists s' mb',
    (c_set_iv w (srtp_iv_calc iv_local (c_k_s (comp_of w s)) ssrc ix) ;;
     let* mb := get_mb in decr_at w (mb_pos mb) (mbuf_get_left mb)) (Pst s mb) = Some (0, Pst s' mb') /\
    sess_upd w s s' ck /\ holds mb' (a ++ stream AES_MODE_CTR k (iv_of ck ssrc ix') ct) (zlength a).
Proof.
  intros Hh Hc Hw Hm Hk E. pose proof Hc as (Hck & _ & Hs & _ & _ & Ha). rewrite Hk, Hm in Ha.
  destruct Ha as (A & HA & Hkey). pose proof (holds_ok _ _ _ Hh) as Hb. apply Forall_app in Hb as [_ Hb].
  pose proof (holds_left _ _ _ Hh ltac:(rewrite length_app; lia)) as El. rewrite length_app in El.
  destruct (iv_calc_length ssrc ix (k_salt ck)) as [Liv _]; [apply Hck..|].
  rewrite (bind_Some _ _ _ _ _ (c_set_iv_eq w s mb A _ HA)), Hs. unfold get_mb, bind. cbn [p_mb].
  destruct (aes_set_iv_in A _ k _ Hkey Liv) as (d & Hin). rewrite (h_pos _ _ _ Hh), El.
  replace (Z.of_nat (length a + length ct) - zlength a) with (zlength ct) by lia.
  destruct (aes_decr_first _ _ _ _ _ ct Hin Hb) as (A2 & E2 & Hin2); [unfold INT_MAX, WRITE_MAX in *; lia|].
  rewrite <- (app_nil_r ct) in Hh.
  destruct (decr_at_eq w (set_aes w (aes_set_iv A (srtp_iv_calc iv_local (k_salt ck) ssrc ix)) s)
    mb a ct [] _ _ _ _ _ Hh (set_aes_get _ _ _) E2) as (mb' & Er & Hh');
    [apply stream_length|by apply stream_bytes|].
  rewrite Er, set_aes_set. eexists _, mb'. split; [done|].
  split; [eapply set_aes_upd; rewrite ?Hm; eauto using aes_in_keyed|].
  pose proof (iv_of_eq ck ssrc ix ix' Hck E) as Eiv. rewrite Hm in Eiv. rewrite Eiv. by rewrite app_nil_r in Hh'.
Qed.

(** Reading the tag into the local array and comparing it. *)
Lemma read_tag_eq s mb a t ck : holds mb (a ++ t) (zlength a) -> keys_ok ck -> zlength t = k_tag_len ck ->
  exists mb' arr, read_tag (k_tag_len ck) (Pst s mb) = Some ((0, arr), Pst s mb') /\
    holds mb' (a ++ t) (zlength a + zlength t) /\ mem_load arr 0 (k_tag_len ck) = Some t.
Proof.
  intros Hh (_ & _ & Ht) Hl. unfold SHA_DIGEST_LENGTH in Ht. rewrite <- Hl in *.
  destruct (holds_read _ _ _ (zlength t) Hh) as (mb' & E & Hh'); [lia|rewrite length_app; lia|].
  rewrite slice_app_end in E. exists mb', (splice (replicate 20 0) 0 t). split_and!; [|done|].
  - unfold read_tag. rewrite (bind_Some _ _ _ _ _ (on_mb_eq _ s _ _ _ E)). unfold mem_store.
    rewrite in_block_true by (rewrite ?length_replicate; lia). done.
  - unfold mem_load. rewrite in_block_true by (rewrite ?length_splice, ?length_replicate; rewrite ?length_replicate; lia).
    by rewrite slice_splice by (rewrite ?length_replicate; lia).
Qed.

Lemma mem_eq_eq a b n x y st : mem_load a 0 n = Some x -> mem_load b 0 n = Some y ->
  mem_eq a b n st = Some (bool_decide (x = y), st).
Proof. intros Ea Eb. unfold mem_eq, lift, bind, ret. by rewrite Ea, Eb. Qed.

Lemma replay_check_reject r ix : fst (srtp_replay_check r ix) = false -> snd (srtp_replay_check r ix) = r.
Proof. unfold srtp_replay_check. repeat case_match; done. Qed.

(** The two replay checks change the stream's window only. *)
Lemma check_replay_rtp_eq s mb ssrc i ix : stream_find (s_streaml s) ssrc = Some i ->
  let rc := srtp_replay_check (st_replay_rtp (strm_of (s_streaml s) ssrc)) ix in
  check_replay_rtp i ix (Pst s mb) =
    Some (if fst rc then 0 else EALREADY,
      Pst (if fst rc then set_streaml (alter (set_replay_rtp (snd rc)) i (s_streaml s)) s else s) mb).
Proof.
  intros E rc. pose proof (strm_of_lookup _ _ _ E) as El. unfold check_replay_rtp, get_strm, bind at 1.
  cbn [p_srtp]. rewrite El. fold rc. pose proof (replay_check_reject _ ix : fst rc = _ -> snd rc = _) as Hr.
  destruct rc as [[] r] eqn:Erc; cbn [fst snd] in *; [done|]. specialize (Hr eq_refl) as ->.
  unfold upd_strm, modify, bind, ret. simpl. do 3 f_equal. destruct s as [c1 c2 l]. unfold set_streaml. simpl in *.
  f_equal. apply list_eq. intros j. destruct (decide (j = i)) as [->|].
  - rewrite list_lookup_alter_eq, El. simpl. by destruct (strm_of l ssrc).
  - by rewrite list_lookup_alter_ne.
Qed.

(** The outcome of an authenticating step that strips [tag_of b] from the end
    of [a ++ b ++ tag_of b] and then consults the replay window: it succeeds
    exactly on authentic and new packets (or fails for lack of memory). *)
Definition authenticated (s : srtp) (ck : keys) (ssrc : Z) (i : nat) (ix : Z) (tag_of : list Z -> list Z)
    (plain : list Z -> list Z) (a body : list Z) (r : option (Z * pst)) : Prop :=
  let rc := srtp_replay_check (st_replay_rtp (strm_of (s_streaml s) ssrc)) ix in
  exists e s' mb', r = Some (e, Pst s' mb') /\ mbuf_wf mb' /\ 0 <= e /\
    comp_ok (s_rtp s') ck /\ s_rtcp s' = s_rtcp s /\
    (e <> 0 -> s_streaml s' = s_streaml s) /\
    (e = 0 -> exists b, body = b ++ tag_of b /\ holds mb' (a ++ plain b) (zlength a) /\ fst rc = true /\
       s_streaml s' = alter (set_replay_rtp (snd rc)) i (s_streaml s)) /\
    (no_oom -> forall b, body = b ++ tag_of b -> fst rc = true -> e = 0).

(** A body that ends with a tag of fixed length, in one way only. *)
Lemma tagged_split (tag_of : list Z -> list Z) n body : 0 <= n -> (forall b, zlength (tag_of b) = n) ->
  (zlength body < n /\ forall b, body <> b ++ tag_of b) \/
  (n <= zlength body /\ exists b t, body = b ++ t /\ zlength t = n /\
     forall b', body = b' ++ tag_of b' <-> b' = b /\ t = tag_of b).
Proof.
  intros Hn Hl. destruct (decide (zlength body < n)) as [Hlt|Hge].
  { left. split; [done|]. intros b ->. rewrite length_app in Hlt. specialize (Hl b). lia. }
  right. split; [lia|]. set (m := (length body - Z.to_nat n)%nat). exists (take m body), (drop m body).
  assert (zlength (drop m body) = n) as Ht by (rewrite length_drop; lia).
  split_and!; [by rewrite take_drop|done|]. intros b'. split.
  - intros E. assert (length (take m body) = length b') as Hlen.
    { specialize (Hl b'). rewrite length_take. apply (f_equal length) in E. rewrite length_app in E. lia. }
    rewrite <- (take_drop m body) in E. apply app_inj_1 in E as [E1 E2]; [|done]. by rewrite <- E1 in E2 |- *.
  - intros [-> E]. rewrite <- E. by rewrite take_drop.
Qed.

Lemma decrypt_tag_spec s mb pre hdr body ck hk strm ssrc i ix :
  holds mb (pre ++ hdr ++ body) (zlength pre + zlength hdr) -> hdr <> [] -> comp_ok (s_rtp s) ck ->
  k_hmac ck = Some hk -> stream_find (s_streaml s) ssrc = Some i ->
  zlength pre + zlength hdr + zlength body + 4 < WRITE_MAX ->
  authenticated s ck ssrc i ix (fun b => protect_tag ck (hdr ++ b ++ be_bytes 4 (st_roc strm))) id
    (pre ++ hdr) body (srtp_decrypt_tag (zlength pre) i strm ix (Pst s mb)).
Proof.
  intros Hh Hne Hc Hk Hi Hw. pose proof Hc as (Hck & _ & _ & Htl & Hhm & _). unfold WRITE_MAX in Hw.
  set (tag_of := fun b => _). unfold authenticated. set (rc := srtp_replay_check _ ix).
  assert (forall b, zlength (tag_of b) = k_tag_len ck) as Hlen
    by (intros b; apply protect_tag_ok; [done|by rewrite Hk]).
  unfold srtp_decrypt_tag, get_comp, bind at 1. cbn [p_srtp comp_of]. rewrite Hhm, Htl, Hk.
  cbn [fmap option_fmap option_map]. unfold get_mb, bind at 1. cbn [p_mb].
  destruct (header_len _ _ _ _ Hh) as [_ ->]. pose proof Hck as (_ & _ & Ht).
  destruct (tagged_split tag_of (k_tag_len ck) body ltac:(lia) Hlen) as [[Hlt Hno]|(Hge & b & t & -> & Hlt & Hiff)].
  { rewrite (proj2 (Z.ltb_lt _ _)) by done. exists EBADMSG, s, mb. split_and!; try done; [apply Hh|].
    intros _ b Hb. by apply Hno in Hb. }
  rewrite (proj2 (Z.ltb_ge _ _)) by done. rewrite (h_pos _ _ _ Hh), <- (holds_end _ _ _ Hh), <- Hlt.
  rewrite !length_app in *. rewrite (wrap_small 64) by lia.
  replace (Z.of_nat (length pre + (length hdr + (length b + length t))) - zlength t)
    with (zlength (pre ++ hdr ++ b)) by (rewrite !length_app; lia).
  rewrite Hlt. set (a := pre ++ hdr ++ b). assert (pre ++ hdr ++ b ++ t = a ++ t) as Ea
    by (subst a; by rewrite <- !app_assoc).
  rewrite Ea in Hh. assert (zlength a < 2 ^ 31) as Ha by (subst a; rewrite !length_app; lia).
  destruct (at_pos_eq s _ _ _ (zlength a) Hh) as (mb1 & E1 & Hh1); [lia|]. rewrite (bind_Some _ _ _ _ _ E1).
  destruct (read_tag_eq s mb1 a t ck Hh1 Hck Hlt) as (mb2 & arr & E2 & Hh2 & Earr).
  rewrite (bind_Some _ _ _ _ _ E2). cbn [nz Z.eqb negb].
  destruct (at_posend_eq s _ _ _ (zlength a) (zlength a) Hh2) as (mb3 & E3 & Hh3); [rewrite length_app; lia|lia|].
  rewrite (bind_Some _ _ _ _ _ E3). rewrite take_zlength in Hh3.
  destruct (on_mb_append s mb3 _ _ _ _ Hh3 eq_refl (writes_u32_n (st_roc strm)))
    as (e & mb4 & E4 & Hwf & He & Ho & Hok); [rewrite length_be_bytes; unfold WRITE_MAX, a; rewrite !length_app; lia|].
  destruct (decide (e = 0)) as [->|Hne0].
  2: { rewrite (check_err _ _ _ _ _ E4 Hne0). exists e, s, mb4. split_and!; try done. auto. }
  rewrite (check_0 _ _ _ _ E4). specialize (Hok eq_refl).
  destruct (at_pos_eq s _ _ _ (zlength pre) Hok) as (mb5 & E5 & Hh5); [lia|]. rewrite (bind_Some _ _ _ _ _ E5).
  pose proof Hh5 as Hh5'. unfold a in Hh5'. rewrite <- !app_assoc in Hh5'.
  rewrite (bind_Some _ _ _ _ _ (digest_left_eq s mb5 pre _ hk Hh5' ltac:(by destruct hdr))). cbn [nz Z.eqb negb].
  destruct (at_posend_eq s _ _ _ (zlength pre + zlength hdr) (zlength a) Hh5) as (mb6 & E6 & Hh6);
    [rewrite length_app; lia|lia|].
  rewrite (bind_Some _ _ _ _ _ E6). rewrite take_zlength in Hh6. unfold a in Hh6.
  rewrite app_assoc, <- Nat2Z.inj_add, <- length_app in Hh6.
  rewrite (bind_Some _ _ _ _ _ (mem_eq_eq _ _ _ _ _ _ (load_tag ck hk _ Hck) Earr)).
  assert (take (Z.to_nat (k_tag_len ck)) (mac hk (hdr ++ b ++ be_bytes 4 (st_roc strm))) = tag_of b) as ->
    by (unfold tag_of, protect_tag; by rewrite Hk).
  case_bool_decide as Htag; cbn [negb].
  - rewrite (check_replay_rtp_eq s mb6 ssrc i ix Hi). fold rc. eexists _, _, mb6. split; [done|].
    destruct (fst rc) eqn:Erc; split_and!; try done; [apply Hh6| |apply Hh6].
    intros _. exists b. split_and!; try done; [by apply Hiff|]. by rewrite <- length_app.
  - exists EAUTH, s, mb6. split_and!; try done; [apply Hh6|]. intros _ b' [_ Hb]%Hiff. by rewrite Hb in Htag.
Qed.

Lemma set_end_eq s mb data pos e : holds mb data pos -> 0 <= e <= zlength data ->
  exists mb', on_mb (mbuf_set_end e) (Pst s mb) = Some (tt, Pst s mb') /\ holds mb' (take (Z.to_nat e) data) pos.
Proof.
  intros Hh He. eexists. split; [done|]. pose proof (h_pos _ _ _ Hh) as Ep.
  pose proof (holds_set_posend _ _ _ (mb_pos mb) e Hh He (wf_pos _ (h_wf _ _ _ Hh))) as Hr. by rewrite <- Ep.
Qed.

Lemma decrypt_gcm_spec s mb pre hdr body k ck ssrc' ssrc i ix ix' :
  holds mb (pre ++ hdr ++ body) (zlength pre + zlength hdr) -> comp_ok (s_rtp s) ck ->
  zlength pre + zlength hdr + zlength body < WRITE_MAX -> ix mod 2 ^ 48 = ix' mod 2 ^ 48 ->
  k_mode ck = AES_MODE_GCM -> k_aes ck = Some k -> stream_find (s_streaml s) ssrc = Some i ->
  authenticated s ck ssrc i ix (gcm_tag k (iv_of ck ssrc' ix') hdr)
    (stream AES_MODE_GCM k (iv_of ck ssrc' ix')) (pre ++ hdr) body
    ((c_set_iv RTP (srtp_iv_calc_gcm iv_local (c_k_s (s_rtp s)) ssrc' ix) ;;
     let* mb := get_mb in
     check (decr_aad RTP (zlength pre) (u64 (mb_pos mb - zlength pre)))
       (if mbuf_get_left mb <? GCM_TAGLEN then ret EBADMSG
        else
          let tag_start := u64 (mb_end mb - GCM_TAGLEN) in
          check (decr_at RTP (mb_pos mb) (u64 (tag_start - mb_pos mb)))
            (let* tag := on_mb (load_at tag_start GCM_TAGLEN) in
             check (c_authenticate RTP tag)
               (on_mb (mbuf_set_end tag_start) ;; check_replay_rtp i ix)))) (Pst s mb)).
Proof.
  intros Hh Hc Hw E Hm Hk Hi. unfold WRITE_MAX in Hw. set (iv := iv_of _ _ _). set (tag_of := gcm_tag k iv hdr).
  unfold authenticated. set (rc := srtp_replay_check _ ix).
  destruct (gcm_set_iv RTP s mb k ck ssrc' ix ix' Hc Hm Hk E) as (A & d & iv' & E1 & Hin & Eiv).
  rewrite (bind_Some _ _ _ _ _ E1). unfold get_mb, bind at 1. cbn [p_mb].
  destruct (header_len _ _ _ _ Hh) as [-> ->].
  destruct (gcm_aad_decr RTP s mb pre hdr body _ k ck A d iv' Hh Hc Hm Hk) as (A2 & E2 & Hin2 & Hc2);
    [unfold INT_MAX; lia|done|].
  rewrite (check_0 _ _ _ _ E2), (h_pos _ _ _ Hh), <- (holds_end _ _ _ Hh).
  assert (forall b, zlength (tag_of b) = GCM_TAGLEN) as Hlen by (intros b; unfold tag_of; by rewrite gcm_tag_length).
  destruct (tagged_split tag_of GCM_TAGLEN body ltac:(done) Hlen) as [[Hlt Hno]|(Hge & ct & t & -> & Hlt & Hiff)].
  { rewrite (proj2 (Z.ltb_lt _ _)) by done. eexists EBADMSG, _, mb. split_and!; try done; [apply Hh|].
    intros _ b Hb. by apply Hno in Hb. }
  rewrite (proj2 (Z.ltb_ge _ _)) by done. unfold GCM_TAGLEN in *. cbv zeta. rewrite !length_app in Hw.
  rewrite (wrap_small 64 (zlength (pre ++ hdr ++ ct ++ t) - 16)) by (rewrite !length_app; lia).
  replace (zlength (pre ++ hdr ++ ct ++ t) - 16) with (zlength ((pre ++ hdr) ++ ct)) by (rewrite !length_app; lia).
  rewrite (wrap_small 64) by (rewrite !length_app; lia).
  replace (zlength ((pre ++ hdr) ++ ct) - (zlength pre + zlength hdr)) with (zlength ct) by (rewrite !length_app; lia).
  rewrite <- Nat2Z.inj_add, <- length_app in Hh |- *. rewrite app_assoc in Hh.
  destruct (gcm_open RTP (set_aes RTP A2 s) mb (pre ++ hdr) ct t _ k ck A2 iv' hdr t Hh Hc2 Hm Hk)
    as (s1 & s2 & mb1 & E3 & E4 & Hu & Hh1); [unfold INT_MAX; lia|lia|done|done|].
  rewrite (check_0 _ _ _ _ E3). set (pt := stream _ _ _ _) in Hh1. assert (length pt = length ct) as Lpt
    by apply stream_length.
  assert (load_at (zlength ((pre ++ hdr) ++ ct)) 16 mb1 = Some (t, mb1)) as El.
  { rewrite (holds_load _ _ _ _ 16 Hh1) by (rewrite ?length_app; lia). do 2 f_equal.
    rewrite (app_assoc _ pt), <- Hlt. replace (zlength ((pre ++ hdr) ++ ct)) with (zlength ((pre ++ hdr) ++ pt))
      by (rewrite !length_app; lia). apply slice_app_end. }
  rewrite (bind_Some _ _ _ _ _ (on_mb_eq _ s1 _ _ _ El)). rewrite Eiv in *. fold iv tag_of in E4 |- *.
  pose proof (sess_upd_set_aes _ _ _ _ _ Hu) as [Hc3 Ho3 Hs3]. cbn [comp_of other] in Hc3, Ho3.
  specialize (E4 mb1). change (gcm_tag k iv hdr ct) with (tag_of ct) in E4. case_bool_decide as Htag.
  2: { rewrite (check_err _ _ _ _ _ E4) by done. exists EAUTH, s2, mb1. split_and!; try done; [apply Hh1|].
       intros _ b' [_ Hb]%Hiff. by rewrite Hb in Htag. }
  rewrite (check_0 _ _ _ _ E4).
  destruct (set_end_eq s2 mb1 _ _ (zlength ((pre ++ hdr) ++ ct)) Hh1) as (mb2 & E5 & Hh2); [rewrite !length_app; lia|].
  rewrite (bind_Some _ _ _ _ _ E5). rewrite app_assoc, length_app, <- Lpt, <- length_app, take_zlength in Hh2.
  rewrite (check_replay_rtp_eq s2 mb2 ssrc i ix) by (by rewrite Hs3). rewrite Hs3. fold rc.
  eexists _, _, mb2. split; [done|].
  destruct (fst rc) eqn:Erc; split_and!; try done; [apply Hh2| |apply Hh2].
  intros _. exists ct. split_and!; try done; [by apply Hiff|]. unfold pt in Hh2. by rewrite Eiv in Hh2.
Qed.

End spec.
