(* ===== verification/SrtpThms.v ===== *)
(** * Correctness of SRTP

    Encryption and decryption of whole packets, over the stream table, and the
    properties that follow: round trips, authenticity, rejection of replays,
    and the tracking of the roll-over counter. *)

From S2P Require Export SrtpSpec.

Section thms.
Context `{Host} `{EvpLaws}.

(** ** Sessions across a packet of one SSRC *)

(** Well-formed session for a set of RTP keys. *)
Definition s_l_ok (l : list srtp_stream) : Prop := forall ssrc, 0 <= st_s_l (strm_of l ssrc) < 2 ^ 16.

Definition sess_ok (s : srtp) (ck : keys) : Prop :=
  comp_ok (s_rtp s) ck /\ streams_ok (s_streaml s) /\ s_l_ok (s_streaml s).

(** [s'] is [s] after work on the stream of [ssrc]. *)
Record sess_step (s s' : srtp) (ck : keys) (ssrc : Z) : Prop := {
  ss_ok : sess_ok s' ck;
  ss_rtcp : s_rtcp s' = s_rtcp s;
  ss_others : forall ssrc', ssrc' <> ssrc -> strm_of (s_streaml s') ssrc' = strm_of (s_streaml s) ssrc';
}.

Lemma sess_step_refl s ck ssrc : sess_ok s ck -> sess_step s s ck ssrc.
Proof. by split. Qed.

Lemma sess_step_trans s1 s2 s3 ck ssrc : sess_step s1 s2 ck ssrc -> sess_step s2 s3 ck ssrc -> sess_step s1 s3 ck ssrc.
Proof. intros [_ Hr Ho] [Hk Hr' Ho']. split; [done|congruence|]. intros x Hx. rewrite Ho' by done. by apply Ho. Qed.

(** Cipher work on the RTP component is such a step. *)
Lemma sess_upd_step s s' ck ssrc : sess_upd RTP s s' ck -> sess_ok s ck -> sess_step s s' ck ssrc.
Proof. intros [Hk Ho Hs] (_ & Hok). split; [by split; [|rewrite Hs]|done|]. intros. by rewrite Hs. Qed.

(** The updates of a stream that keep its SSRC and its sequence number range. *)
Definition strm_upd (f : srtp_stream -> srtp_stream) : Prop :=
  forall x, st_ssrc (f x) = st_ssrc x /\ (0 <= st_s_l x < 2 ^ 16 -> 0 <= st_s_l (f x) < 2 ^ 16).

(** Updating the stream of the packet. *)
Lemma upd_strm_step f s mb ck ssrc i : strm_upd f -> sess_ok s ck ->
  stream_find (s_streaml s) ssrc = Some i ->
  exists s', upd_strm i f (Pst s mb) = Some (tt, Pst s' mb) /\ sess_step s s' ck ssrc /\
    stream_find (s_streaml s') ssrc = Some i /\ strm_of (s_streaml s') ssrc = f (strm_of (s_streaml s) ssrc) /\
    s_rtp s' = s_rtp s.
Proof.
  intros Hfu (Hc & Hs & Hl) Hi. assert (forall x, st_ssrc (f x) = st_ssrc x) as Hf by (intros x; apply Hfu).
  eexists. split; [done|]. cbn [s_streaml set_streaml p_srtp].
  split_and!; [split| | |done]; cbn [s_streaml set_streaml s_rtcp].
  - split_and!; [done|by apply streams_ok_alter|]. intros x. cbn [s_streaml set_streaml].
    rewrite (strm_of_alter _ _ _ _ _ Hf Hi). case_decide; [by apply Hfu|done].
  - done.
  - intros ssrc' Hne. rewrite (strm_of_alter _ _ _ _ _ Hf Hi). by rewrite decide_False.
  - by rewrite stream_find_alter.
  - rewrite (strm_of_alter _ _ _ _ _ Hf Hi). by rewrite decide_True.
Qed.

Lemma get_strm_eq s mb ssrc i : stream_find (s_streaml s) ssrc = Some i ->
  get_strm i (Pst s mb) = Some (strm_of (s_streaml s) ssrc, Pst s mb).
Proof. intros E. unfold get_strm. simpl. by rewrite (strm_of_lookup _ _ _ E). Qed.

Lemma roc_update_upd seq : strm_upd (roc_update seq).
Proof. intros x. unfold roc_update. destruct (_ <=? _); simpl; split; done || lia. Qed.
Lemma s_l_update_upd seq : 0 <= seq < 2 ^ 16 -> strm_upd (s_l_update seq).
Proof. intros ? x. unfold s_l_update. destruct (_ <? _); simpl; split; done || lia. Qed.
Lemma set_replay_upd r : strm_upd (set_replay_rtp r).
Proof. done. Qed.
Lemma init_seq_upd seq : 0 <= seq < 2 ^ 16 -> strm_upd (init_seq seq).
Proof. intros ? x. unfold init_seq. destruct (st_s_l_set x); simpl; split; done || lia. Qed.

(** Finding the stream: an error that leaves every stream, or the index. *)
Lemma with_stream_seq s mb ck ssrc seq k : sess_ok s ck -> 0 <= seq < 2 ^ 16 ->
  (exists e s', with_stream (fun l => stream_get_seq l ssrc seq) k (Pst s mb) = Some (e, Pst s' mb) /\
     0 < e /\ ~ (no_oom /\ has_room (s_streaml s) ssrc) /\ sess_step s s' ck ssrc /\
     strm_of (s_streaml s') ssrc = strm_of (s_streaml s) ssrc) \/
  (exists i s', with_stream (fun l => stream_get_seq l ssrc seq) k (Pst s mb) = k i (Pst s' mb) /\
     sess_step s s' ck ssrc /\ s_rtp s' = s_rtp s /\ stream_find (s_streaml s') ssrc = Some i /\
     strm_of (s_streaml s') ssrc = init_seq seq (strm_of (s_streaml s) ssrc)).
Proof.
  intros (Hc & Hs & Hl) Hseq. destruct (stream_get_seq_spec (s_streaml s) ssrc seq Hs)
    as (err & oi & l' & E & He & Hs' & Hother & Ho & Hi).
  unfold with_stream, get, put, bind. cbn [p_srtp]. rewrite E.
  assert (sess_step s (set_streaml l' s) ck ssrc) as Hstep.
  { split; [|done|done]. split_and!; [done|done|]. intros x. cbn [s_streaml set_streaml].
    destruct (decide (x = ssrc)) as [->|]; [|by rewrite Hother]. case_decide.
    - destruct Hi as [-> _]. by apply init_seq_upd.
    - destruct Hi as [_ ->]. done. }
  case_decide as Hd.
  - destruct Hi as [Hst (i & -> & Hi)]. subst err. right. by exists i, (set_streaml l' s).
  - destruct Hi as [-> Hst]. left. exists err, (set_streaml l' s). split_and!; try done; [lia|].
    intros [Hoom Hroom]. by apply Hd, Ho.
Qed.

(** ** Encryption *)

(** Everything a caller of [srtp_encrypt] can rely on. *)
Definition encrypted (ck : keys) (s : srtp) (ssrc seq : Z) (pre hdrb pl : list Z) (r : option (Z * pst)) : Prop :=
  let strm := roc_update seq (init_seq seq (strm_of (s_streaml s) ssrc)) in
  exists e s' mb', r = Some (e, Pst s' mb') /\ sess_step s s' ck ssrc /\ mbuf_wf mb' /\ 0 <= e /\
    (no_oom -> has_room (s_streaml s) ssrc -> e = 0) /\
    (e = 0 -> holds mb' (pre ++ srtp_protect ck ssrc (st_roc strm) seq hdrb pl) (zlength pre) /\
       strm_of (s_streaml s') ssrc = s_l_update seq strm).

Lemma u64_mod48 x : u64 x mod 2 ^ 48 = x mod 2 ^ 48.
Proof. unfold wrap. change (2 ^ 64) with (2 ^ 48 * 2 ^ 16). rewrite Z.rem_mul_r by lia. dlia. Qed.

Lemma srtp_encrypt_spec s mb mb1 ck hdr pre hdrb pl :
  mb_pos mb = zlength pre -> rtp_hdr_decode zero_hdr mb = Some ((0, hdr), mb1) ->
  holds mb1 (pre ++ hdrb ++ pl) (zlength pre + zlength hdrb) -> hdrb <> [] ->
  sess_ok s ck -> 0 <= rtp_seq hdr < 2 ^ 16 -> zlength pre + zlength hdrb + zlength pl + 40 < WRITE_MAX ->
  encrypted ck s (rtp_ssrc hdr) (rtp_seq hdr) pre hdrb pl (srtp_encrypt (Pst s mb)).
Proof.
  intros Hp Hd Hh Hne Hok Hseq Hw. unfold encrypted. set (strm := roc_update _ _). unfold WRITE_MAX in Hw.
  unfold srtp_encrypt, get_mb, bind at 1. cbn [p_mb]. rewrite Hp.
  rewrite (bind_Some _ _ _ _ _ (on_mb_eq _ s _ _ _ Hd)). cbn [nz Z.eqb negb].
  set (k := fun i : nat => _).
  destruct (with_stream_seq s mb1 ck (rtp_ssrc hdr) (rtp_seq hdr) k Hok Hseq)
    as [(e & s1 & -> & He & Hr & Hst & _)|(i & s1 & -> & Hst & Hrtp & Hi & Hsm)]; subst k; cbv beta.
  { exists e, s1, mb1. split_and!; try done; [apply Hh|lia| |lia]. intros Ho Hroom. by destruct Hr. }
  destruct (upd_strm_step (roc_update (rtp_seq hdr)) s1 mb1 ck (rtp_ssrc hdr) i)
    as (s2 & E2 & Hst2 & Hi2 & Hsm2 & Hrtp2); [apply roc_update_upd|apply Hst|done|].
  rewrite (bind_Some _ _ _ _ _ E2), (bind_Some _ _ _ _ _ (get_strm_eq s2 mb1 _ _ Hi2)).
  rewrite Hsm2, Hsm. fold strm. cbv zeta.
  destruct (encrypt_payload_spec s2 mb1 pre hdrb pl ck strm (u64 (65536 * st_roc strm + rtp_seq hdr))
    (65536 * st_roc strm + rtp_seq hdr)) as (e & s3 & mb3 & E3 & Hu3 & Hwf3 & He3 & Ho3 & Hok3);
    [done|apply Hst2|unfold WRITE_MAX; lia|apply u64_mod48|].
  pose proof (sess_upd_step _ _ _ (rtp_ssrc hdr) Hu3 (ss_ok _ _ _ _ Hst2)) as Hst3.
  pose proof (sess_step_trans _ _ _ _ _ Hst (sess_step_trans _ _ _ _ _ Hst2 Hst3)) as Hst03.
  destruct (decide (e = 0)) as [->|Hne0].
  2: { rewrite (check_err _ _ _ _ _ E3 Hne0). exists e, s3, mb3. split_and!; try done. intros ? _. by apply Ho3. }
  rewrite (check_0 _ _ _ _ E3). destruct (Hok3 eq_refl) as [p3 Hh3].
  assert (st_ssrc strm = rtp_ssrc hdr) as Hssrc.
  { unfold strm. rewrite (proj1 (roc_update_upd _ _)), (proj1 (init_seq_upd _ Hseq _)). apply strm_of_ssrc. }
  rewrite Hssrc in Hh3. pose proof (protect_payload_ok ck (rtp_ssrc hdr) (65536 * st_roc strm + rtp_seq hdr) hdrb pl) as Hpp.
  pose proof (holds_ok _ _ _ Hh) as Hb. rewrite !Forall_app in Hb. specialize (Hpp ltac:(tauto)).
  set (body := hdrb ++ _) in Hh3. destruct (encrypt_tag_spec s3 mb3 pre body p3 ck strm Hh3) as
    (e & s4 & mb4 & E4 & Hu4 & Hwf4 & He4 & Ho4 & Hok4);
    [subst body; by destruct hdrb|apply Hst3|subst body; rewrite length_app; unfold WRITE_MAX; lia|].
  pose proof (sess_upd_step _ _ _ (rtp_ssrc hdr) Hu4 (ss_ok _ _ _ _ Hst3)) as Hst4.
  pose proof (sess_step_trans _ _ _ _ _ Hst03 Hst4) as Hst04.
  destruct (decide (e = 0)) as [->|Hne0].
  2: { rewrite (check_err _ _ _ _ _ E4 Hne0). exists e, s4, mb4. split_and!; try done. intros ? _. by apply Ho4. }
  rewrite (check_0 _ _ _ _ E4). destruct (Hok4 eq_refl) as [p4 Hh4].
  assert (s_streaml s4 = s_streaml s2) as Es by (by rewrite (su_streams _ _ _ _ Hu4), (su_streams _ _ _ _ Hu3)).
  destruct (upd_strm_step (s_l_update (rtp_seq hdr)) s4 mb4 ck (rtp_ssrc hdr) i)
    as (s5 & E5 & Hst5 & _ & Hsm5 & _); [by apply s_l_update_upd|apply Hst4|by rewrite Es|].
  rewrite (bind_Some _ _ _ _ _ E5).
  destruct (at_pos_eq s5 _ _ _ (zlength pre) Hh4) as (mb5 & E6 & Hh5); [lia|]. rewrite (bind_Some _ _ _ _ _ E6).
  exists 0, s5, mb5. split_and!; try done; [by eapply sess_step_trans|apply Hh5|].
  intros _. split; [done|]. by rewrite Hsm5, Es, Hsm2, Hsm.
Qed.

(** ** Decryption *)

(** Keys of a session that authenticates: HMAC in counter mode, or GCM. *)
Definition auth_keys (ck : keys) : Prop :=
  (k_mode ck = AES_MODE_CTR /\ k_hmac ck <> None) \/
  (k_mode ck = AES_MODE_GCM /\ k_hmac ck = None /\ k_aes ck <> None).

Lemma check_assoc (m1 m2 m3 : M pst Z) st : check m1 (check m2 m3) st = check (check m1 m2) m3 st.
Proof.
  unfold check, bind, ret. destruct (m1 st) as [[e st']|]; [|done]. destruct (nz e) eqn:E; [by rewrite E|done].
Qed.

(** Authentication, replay check and decryption of the part after the header. *)
Definition opened (s : srtp) (ck : keys) (ssrc roc seq : Z) (i : nat) (ix : Z) (pre hdr body : list Z)
    (r : option (Z * pst)) : Prop :=
  let rc := srtp_replay_check (st_replay_rtp (strm_of (s_streaml s) ssrc)) ix in
  exists e s' mb', r = Some (e, Pst s' mb') /\ mbuf_wf mb' /\ 0 <= e /\
    comp_ok (s_rtp s') ck /\ s_rtcp s' = s_rtcp s /\
    (e <> 0 -> s_streaml s' = s_streaml s) /\
    (e = 0 -> exists pl, bytes_ok pl /\ hdr ++ body = srtp_protect ck ssrc roc seq hdr pl /\
       holds mb' (pre ++ hdr ++ pl) (zlength (pre ++ hdr)) /\ fst rc = true /\
       s_streaml s' = alter (set_replay_rtp (snd rc)) i (s_streaml s)) /\
    (no_oom -> forall pl, bytes_ok pl -> hdr ++ body = srtp_protect ck ssrc roc seq hdr pl ->
       fst rc = true -> e = 0).

Lemma open_gcm s mb pre hdr body ck strm i ix seq :
  k_mode ck = AES_MODE_GCM -> k_hmac ck = None -> k_aes ck <> None ->
  holds mb (pre ++ hdr ++ body) (zlength pre + zlength hdr) -> comp_ok (s_rtp s) ck ->
  zlength pre + zlength hdr + zlength body < WRITE_MAX ->
  ix mod 2 ^ 48 = (65536 * st_roc strm + seq) mod 2 ^ 48 -> stream_find (s_streaml s) (st_ssrc strm) = Some i ->
  opened s ck (st_ssrc strm) (st_roc strm) seq i ix pre hdr body
    (check (srtp_decrypt_tag (zlength pre) i strm ix) (srtp_decrypt_payload (zlength pre) i strm ix) (Pst s mb)).
Proof.
  intros Hm Hhn Hk Hh Hc Hw E Hi. destruct (k_aes ck) as [k|] eqn:Ek; [|done]. clear Hk.
  pose proof Hc as (Hck & Hmo & _ & _ & Hhm & Ha). rewrite Ek, Hm in Ha. destruct Ha as (A & HA & _).
  rewrite (check_0 _ _ _ (Pst s mb)).
  2: { unfold srtp_decrypt_tag, get_comp, bind. cbn [p_srtp comp_of]. by rewrite Hhm, Hhn. }
  unfold srtp_decrypt_payload, get_comp, bind at 1, match_aes. cbn [p_srtp comp_of]. rewrite HA, Hmo, Hm.
  pose proof (holds_ok _ _ _ Hh) as Hb. rewrite !Forall_app in Hb.
  destruct (decrypt_gcm_spec s mb pre hdr body k ck (st_ssrc strm) (st_ssrc strm) i ix _ Hh Hc Hw E Hm Ek Hi)
    as (e & s' & mb' & Er & Hwf & He & Hc' & Hr & Hbad & Hgood & Hlive).
  exists e, s', mb'. split; [exact Er|]. split_and!; try done; unfold srtp_protect, protect_payload, protect_tag; rewrite Ek, Hm, Hhn.
  - intros E0. destruct (Hgood E0) as (ct & -> & Hh' & Hrc & Hs'). rewrite Forall_app in Hb.
    exists (stream AES_MODE_GCM k (iv_of ck (st_ssrc strm) (65536 * st_roc strm + seq)) ct).
    split_and!; [apply stream_bytes; tauto| |by rewrite app_assoc|done|done].
    rewrite stream_inv by tauto. by rewrite app_nil_r.
  - intros Ho pl Hpl Epl Hrc. rewrite app_nil_r in Epl. apply app_inv_head in Epl. eauto.
Qed.

Lemma open_ctr s mb pre hdr body ck strm i ix seq :
  k_mode ck = AES_MODE_CTR -> k_hmac ck <> None -> hdr <> [] ->
  holds mb (pre ++ hdr ++ body) (zlength pre + zlength hdr) -> comp_ok (s_rtp s) ck ->
  zlength pre + zlength hdr + zlength body + 4 < WRITE_MAX ->
  ix mod 2 ^ 48 = (65536 * st_roc strm + seq) mod 2 ^ 48 -> stream_find (s_streaml s) (st_ssrc strm) = Some i ->
  opened s ck (st_ssrc strm) (st_roc strm) seq i ix pre hdr body
    (check (srtp_decrypt_tag (zlength pre) i strm ix) (srtp_decrypt_payload (zlength pre) i strm ix) (Pst s mb)).
Proof.
  intros Hm Hhn Hne Hh Hc Hw E Hi. destruct (k_hmac ck) as [hk|] eqn:Ehk; [|done]. clear Hhn.
  pose proof (holds_ok _ _ _ Hh) as Hb. rewrite !Forall_app in Hb.
  destruct (decrypt_tag_spec s mb pre hdr body ck hk strm (st_ssrc strm) i ix Hh Hne Hc Ehk Hi Hw)
    as (e & s1 & mb1 & E1 & Hwf & He & Hc1 & Hr & Hbad & Hgood & Hlive).
  unfold opened, srtp_protect, protect_payload. rewrite Hm.
  destruct (decide (e = 0)) as [->|Hne0].
  2: { rewrite (check_err _ _ _ _ _ E1 Hne0). exists e, s1, mb1. split_and!; try done.
       intros Ho pl Hpl Epl Hrc. rewrite <- app_assoc in Epl. apply app_inv_head in Epl.
       apply (Hlive Ho _ ltac:(by rewrite Epl at 1; rewrite <- app_assoc) Hrc). }
  rewrite (check_0 _ _ _ _ E1). destruct (Hgood eq_refl) as (b & -> & Hh1 & Hrc & Hs1). unfold id in Hh1.
  rewrite Forall_app in Hb. pose proof Hc1 as (Hck & Hmo & _ & _ & _ & Ha).
  unfold srtp_decrypt_payload, get_comp, bind at 1, match_aes. cbn [p_srtp comp_of]. rewrite Hmo, Hm.
  destruct (k_aes ck) as [k|] eqn:Ek.
  2: { rewrite Ha. exists 0, s1, mb1. split_and!; try done. intros _. exists b.
       split_and!; [tauto|by rewrite <- !app_assoc|by rewrite app_assoc|done|done]. }
  destruct Ha as (A & HA & _). rewrite HA.
  destruct (decrypt_ctr_spec RTP s1 mb1 (pre ++ hdr) b k ck (st_ssrc strm) ix
    (65536 * st_roc strm + seq) Hh1 Hc1) as (s2 & mb2 & Er & Hu & Hh2);
    [rewrite !length_app in *; lia|done|done|exact E|].
  exists 0, s2, mb2. split; [exact Er|]. pose proof Hu as [Hc2 Ho2 Hs2]. cbn [comp_of other] in Hc2, Ho2.
  split_and!; try done; [apply Hh2|congruence|]. intros _.
  exists (stream AES_MODE_CTR k (iv_of ck (st_ssrc strm) (65536 * st_roc strm + seq)) b).
  split_and!; [apply stream_bytes; tauto| | |done|].
  - rewrite stream_inv by tauto. by rewrite <- !app_assoc.
  - by rewrite app_assoc.
  - by rewrite Hs2.
Qed.

(** The index [srtp_decrypt] derives is the one [srtp_encrypt] used: after the
    roll-over check the guess is always the stream's own counter. *)
Lemma get_index_roc seq x : 0 <= seq < 2 ^ 16 -> 0 <= st_s_l x < 2 ^ 16 -> seq_diff (st_s_l x) seq <= 32768 ->
  let y := roc_update seq x in
  srtp_get_index (st_roc y) (st_s_l y) seq = u64 (seq + u64 (u64 (s32 (st_roc y)) * 65536)).
Proof.
  intros Hseq Hs Hd y. unfold srtp_get_index, seq_diff in *. subst y. unfold roc_update, seq_diff.
  destruct (Z.leb_spec (seq - st_s_l x) (-32768)); cbn [st_roc st_s_l set_roc].
  - rewrite (proj2 (Z.ltb_ge 32768 _)) by lia. done.
  - rewrite (proj2 (Z.ltb_ge 32768 _)), (proj2 (Z.ltb_ge seq _)) by lia. by destruct (_ <? _).
Qed.

Lemma get_index_mod seq roc : u64 (seq + u64 (u64 (s32 roc) * 65536)) mod 2 ^ 48 = (65536 * roc + seq) mod 2 ^ 48.
Proof. rewrite u64_mod48. unfold wrap, swrap. change (2 ^ (32 - 1)) with (2 ^ 31). dlia. Qed.

(** The same 64-bit number while the roll-over counter is below 2^31. *)
Lemma get_index_eq seq roc : 0 <= seq < 2 ^ 16 -> 0 <= roc < 2 ^ 31 ->
  u64 (seq + u64 (u64 (s32 roc) * 65536)) = 65536 * roc + seq.
Proof.
  intros. rewrite (swrap_small 32) by lia. rewrite (wrap_small 64 roc) by lia.
  rewrite (wrap_small 64 (roc * 65536)) by lia. rewrite wrap_small by lia. lia.
Qed.

(** The stream as it stands for a packet: its counter, the packet index derived
    from it and the verdict of the replay window. *)
Definition pkt_strm (s : srtp) (ssrc seq : Z) : srtp_stream :=
  roc_update seq (init_seq seq (strm_of (s_streaml s) ssrc)).
Definition pkt_index (s : srtp) (ssrc seq : Z) : Z :=
  let strm := pkt_strm s ssrc seq in srtp_get_index (st_roc strm) (st_s_l strm) seq.
Definition pkt_replay (s : srtp) (ssrc seq : Z) : bool * replay :=
  srtp_replay_check (st_replay_rtp (pkt_strm s ssrc seq)) (pkt_index s ssrc seq).

(** The packet is not older than the window the sequence number tells. *)
Definition in_time (s : srtp) (ssrc seq : Z) : Prop :=
  seq_diff (st_s_l (init_seq seq (strm_of (s_streaml s) ssrc))) seq <= 32768.

(** Everything a caller of [srtp_decrypt] can rely on. *)
Definition decrypted (ck : keys) (s : srtp) (ssrc seq : Z) (pre hdrb body : list Z) (r : option (Z * pst)) : Prop :=
  let strm := pkt_strm s ssrc seq in
  let rc := pkt_replay s ssrc seq in
  exists e s' mb', r = Some (e, Pst s' mb') /\ sess_step s s' ck ssrc /\ mbuf_wf mb' /\ 0 <= e /\
    (e = 0 -> exists pl, bytes_ok pl /\ hdrb ++ body = srtp_protect ck ssrc (st_roc strm) seq hdrb pl /\
       holds mb' (pre ++ hdrb ++ pl) (zlength pre) /\ fst rc = true /\ in_time s ssrc seq /\
       strm_of (s_streaml s') ssrc = s_l_update seq (set_replay_rtp (snd rc) strm)) /\
    (no_oom -> has_room (s_streaml s) ssrc -> in_time s ssrc seq -> fst rc = true ->
       forall pl, bytes_ok pl -> hdrb ++ body = srtp_protect ck ssrc (st_roc strm) seq hdrb pl -> e = 0) /\
    (no_oom -> has_room (s_streaml s) ssrc -> in_time s ssrc seq -> e <> 0 ->
       strm_of (s_streaml s') ssrc = strm).

(** Opening the packet of a stream and recording its sequence number. *)
Lemma decrypt_finish s0 s mb pre hdrb body ck ssrc seq i : auth_keys ck -> sess_step s0 s ck ssrc ->
  holds mb (pre ++ hdrb ++ body) (zlength pre + zlength hdrb) -> hdrb <> [] -> 0 <= seq < 2 ^ 16 ->
  zlength pre + zlength hdrb + zlength body + 4 < WRITE_MAX -> in_time s0 ssrc seq ->
  stream_find (s_streaml s) ssrc = Some i -> strm_of (s_streaml s) ssrc = pkt_strm s0 ssrc seq ->
  s_l_ok (s_streaml s0) ->
  decrypted ck s0 ssrc seq pre hdrb body
    (check (srtp_decrypt_tag (zlength pre) i (pkt_strm s0 ssrc seq) (pkt_index s0 ssrc seq))
      (check (srtp_decrypt_payload (zlength pre) i (pkt_strm s0 ssrc seq) (pkt_index s0 ssrc seq))
        (upd_strm i (s_l_update seq) ;; at_pos (zlength pre) ;; ret 0)) (Pst s mb)).
Proof.
  intros Hauth Hst Hh Hne Hseq Hw Htime Hi Hsm Hsl. unfold decrypted. set (strm := pkt_strm s0 ssrc seq).
  assert (st_ssrc strm = ssrc) as Hssrc.
  { unfold strm, pkt_strm. rewrite (proj1 (roc_update_upd _ _)), (proj1 (init_seq_upd _ Hseq _)). apply strm_of_ssrc. }
  assert (pkt_index s0 ssrc seq mod 2 ^ 48 = (65536 * st_roc strm + seq) mod 2 ^ 48) as Hix.
  { unfold pkt_index, strm, pkt_strm. rewrite get_index_roc; [apply get_index_mod|done| |done].
    apply (init_seq_upd seq Hseq), Hsl. }
  unfold pkt_replay. fold strm. set (ix := pkt_index s0 ssrc seq) in *.
  assert (opened s ck ssrc (st_roc strm) seq i ix pre hdrb body
    (check (srtp_decrypt_tag (zlength pre) i strm ix) (srtp_decrypt_payload (zlength pre) i strm ix) (Pst s mb)))
    as (e & s1 & mb1 & E1 & Hwf & He & Hc1 & Hr & Hbad & Hgood & Hlive).
  { rewrite <- Hssrc in Hi |- *. pose proof (proj1 (ss_ok _ _ _ _ Hst)).
    destruct Hauth as [[Hm Hk]|(Hm & Hk & Hk2)]; [by apply open_ctr|apply open_gcm; try done; lia]. }
  rewrite Hsm in Hgood, Hlive. fold strm in Hgood, Hlive.
  rewrite check_assoc. destruct (decide (e = 0)) as [->|Hne0].
  2: { rewrite (check_err _ _ _ _ _ E1 Hne0). exists e, s1, mb1.
       split_and!; try done; [|by eauto|intros _ _ _ _; by rewrite Hbad, Hsm].
       eapply sess_step_trans; [done|]. pose proof (ss_ok _ _ _ _ Hst) as (_ & ? & ?).
       split; [split; [done|]|done|]; rewrite Hbad by done; done. }
  rewrite (check_0 _ _ _ _ E1). destruct (Hgood eq_refl) as (pl & Hpl & Epl & Hh1 & Hrc & Hs1).
  set (r := snd (srtp_replay_check _ _)) in Hs1.
  destruct (upd_strm_step (set_replay_rtp r) s mb1 ck ssrc i (set_replay_upd r) (ss_ok _ _ _ _ Hst) Hi)
    as (s1' & Eu & Hst1 & Hi1 & Hsm1 & _). inversion Eu as [Es1'].
  assert (sess_step s s1 ck ssrc) as Hst1'.
  { destruct Hst1 as [(_ & ? & ?) _ ?]. subst s1'. split; [split; [done|]|done|]; by rewrite Hs1. }
  assert (s_streaml s1 = s_streaml s1') as Ess by (by subst s1').
  destruct (upd_strm_step (s_l_update seq) s1 mb1 ck ssrc i (s_l_update_upd _ Hseq) (ss_ok _ _ _ _ Hst1'))
    as (s2 & E2 & Hst2 & _ & Hsm2 & _); [by rewrite Ess|].
  rewrite (bind_Some _ _ _ _ _ E2). unfold WRITE_MAX in Hw.
  destruct (at_pos_eq s2 _ _ _ (zlength pre) Hh1) as (mb3 & E3 & Hh3); [lia|]. rewrite (bind_Some _ _ _ _ _ E3).
  exists 0, s2, mb3. split_and!; try done; [eauto using sess_step_trans|apply Hh3|].
  intros _. exists pl. split_and!; try done. by rewrite Hsm2, Ess, Hsm1, Hsm.
Qed.

Lemma srtp_decrypt_spec s mb mb1 ck hdr pre hdrb body :
  auth_keys ck -> mb_pos mb = zlength pre -> rtp_hdr_decode zero_hdr mb = Some ((0, hdr), mb1) ->
  holds mb1 (pre ++ hdrb ++ body) (zlength pre + zlength hdrb) -> hdrb <> [] ->
  sess_ok s ck -> 0 <= rtp_seq hdr < 2 ^ 16 -> zlength pre + zlength hdrb + zlength body + 4 < WRITE_MAX ->
  decrypted ck s (rtp_ssrc hdr) (rtp_seq hdr) pre hdrb body (srtp_decrypt (Pst s mb)).
Proof.
  intros Hauth Hp Hd Hh Hne Hok Hseq Hw.
  unfold srtp_decrypt, get_mb, bind at 1. cbn [p_mb]. rewrite Hp.
  rewrite (bind_Some _ _ _ _ _ (on_mb_eq _ s _ _ _ Hd)). cbn [nz Z.eqb negb].
  set (k := fun i : nat => _).
  destruct (with_stream_seq s mb1 ck (rtp_ssrc hdr) (rtp_seq hdr) k Hok Hseq)
    as [(e & s1 & -> & He & Hr & Hst & _)|(i & s1 & -> & Hst & Hrtp & Hi & Hsm)]; subst k; cbv beta.
  { exists e, s1, mb1. split_and!; try done; [apply Hh|lia|lia| |]; intros Ho Hroom; by destruct Hr. }
  rewrite (bind_Some _ _ _ _ _ (get_strm_eq s1 mb1 _ _ Hi)), Hsm.
  destruct (Z.ltb_spec 32768 (seq_diff (st_s_l (init_seq (rtp_seq hdr) (strm_of (s_streaml s) (rtp_ssrc hdr))))
    (rtp_seq hdr))) as [Hlate|Htime].
  { exists ETIMEDOUT, s1, mb1. split_and!; try done; [apply Hh| |]; intros _ _ Ht; unfold in_time in Ht; lia. }
  destruct (upd_strm_step (roc_update (rtp_seq hdr)) s1 mb1 ck (rtp_ssrc hdr) i)
    as (s2 & E2 & Hst2 & Hi2 & Hsm2 & Hrtp2); [apply roc_update_upd|apply Hst|done|].
  rewrite (bind_Some _ _ _ _ _ E2), (bind_Some _ _ _ _ _ (get_strm_eq s2 mb1 _ _ Hi2)), Hsm2, Hsm.
  apply (decrypt_finish s s2); try done; [by eapply sess_step_trans|by rewrite Hsm2, Hsm|apply Hok].
Qed.

End thms.
