(* ===== verification/SrtpProps.v ===== *)
(** * The properties of SRTP

    The theorems a user of the SRTP module relies on, from the functional
    specifications of [SrtpThms]. *)

From S2P Require Export SrtpThms.

(** ** Header parsing on any packet *)

Section header.
Context `{Host}.

Lemma rtp_tail_seq h mb e h' mb' : rtp_hdr_decode_tail h mb = Some ((e, h'), mb') -> rtp_seq h' = rtp_seq h.
Proof.
  unfold rtp_hdr_decode_tail, need. intros E. apply bind_inv in E as (x & m0 & E0 & E). inv_ret.
  destruct (_ <? _); [inv_ret; done|]. apply bind_inv in E as (csrc & m1 & _ & E).
  destruct (rtp_ext h); [|inv_ret; done]. apply bind_inv in E as (y & m2 & E2 & E). inv_ret.
  destruct (_ <? _); [inv_ret; done|]. apply bind_inv in E as (xt & m3 & _ & E).
  apply bind_inv in E as (xl & m4 & _ & E). apply bind_inv in E as (z & m5 & E5 & E). inv_ret.
  destruct (_ <? _); [inv_ret; done|]. apply bind_inv in E as (? & m6 & _ & E). inv_ret. done.
Qed.

Lemma read_ntohs_range mb v mb' : mbuf_wf mb -> mbuf_read_ntohs mb = Some (v, mb') -> 0 <= v < 2 ^ 16.
Proof.
  intros Hwf E. unfold mbuf_read_ntohs in E. apply bind_inv in E as (x & m & E & Ex). inv_ret.
  apply (ntoh_range 2), (mbuf_read_int_range 2 mb x _ Hwf E).
Qed.

Lemma rtp_rest_seq h b0 b1 mb e h' mb' : mbuf_wf mb -> rtp_hdr_decode_rest h b0 b1 mb = Some ((e, h'), mb') ->
  0 <= rtp_seq h' < 2 ^ 16.
Proof.
  intros Hwf E. unfold rtp_hdr_decode_rest in E. apply bind_inv in E as (seq & m1 & E1 & E).
  apply bind_inv in E as (ts & m2 & _ & E). apply bind_inv in E as (ssrc & m3 & _ & E).
  apply rtp_tail_seq in E as ->. by apply (read_ntohs_range mb seq m1).
Qed.

(** A header that parses takes at least two bytes and has a 16-bit sequence
    number. *)
Lemma rtp_hdr_decode_progress mb hdr mb1 : mbuf_wf mb -> rtp_hdr_decode zero_hdr mb = Some ((0, hdr), mb1) ->
  advanced mb mb1 /\ mb_pos mb + 2 <= mb_pos mb1 /\ 0 <= rtp_seq hdr < 2 ^ 16.
Proof.
  intros Hwf E. destruct (rtp_hdr_decode_safe zero_hdr eq_refl mb Hwf) as (r & mb1' & E' & Ha).
  rewrite E in E'. simplify_eq. split; [done|].
  unfold rtp_hdr_decode, need in E. apply bind_inv in E as (x & m0 & E0 & E). inv_ret.
  destruct (_ <? _); [inv_ret|]. apply bind_inv in E as ([err bs] & m1 & E1 & E).
  pose proof E1 as E1'. rewrite mbuf_read_mem_eq in E1 by (done || lia).
  destruct (mbuf_get_left m0 <? 2); simplify_eq/=.
  assert (mbuf_wf (set_pos (mb_pos m0 + 2) m0)) as Hwf1.
  { destruct (safe_read_mem 2 ltac:(lia) m0 Hwf) as (a & m2 & E2 & A2). rewrite E1' in E2. simplify_eq.
    by apply (advanced_wf m0). }
  destruct (rtp_hdr_rest_safe zero_hdr (nth 0 (take (Z.to_nat 2) (unread m0)) 0)
    (nth 1 (take (Z.to_nat 2) (unread m0)) 0) eq_refl _ Hwf1) as (r & m3 & E3 & A3).
  pose proof (rtp_rest_seq _ _ _ _ _ _ _ Hwf1 E) as Hseq. rewrite E in E3. simplify_eq. split; [|done].
  apply (adv_pos _ _ A3).
Qed.

(** The packet around the position, split at the end of the header. *)
Lemma rtp_hdr_decode_split mb data pos hdr mb1 : holds mb data pos -> pos <= zlength data ->
  rtp_hdr_decode zero_hdr mb = Some ((0, hdr), mb1) ->
  exists pre hdrb body, data = pre ++ hdrb ++ body /\ zlength pre = pos /\ hdrb <> [] /\
    holds mb1 (pre ++ hdrb ++ body) (zlength pre + zlength hdrb) /\ 0 <= rtp_seq hdr < 2 ^ 16.
Proof.
  intros Hh Hp E. pose proof (h_wf _ _ _ Hh) as Hwf. pose proof (holds_wf_pos _ _ _ Hh) as Hp0.
  destruct (rtp_hdr_decode_progress mb hdr mb1 Hwf E) as (Ha & Hadv & Hseq).
  pose proof (holds_end _ _ _ Hh) as Hend. pose proof (h_pos _ _ _ Hh) as Hpos.
  pose proof Ha as [Ab As Ae Ap]. set (n := (Z.to_nat (mb_pos mb1) - Z.to_nat pos)%nat).
  exists (take (Z.to_nat pos) data), (take n (drop (Z.to_nat pos) data)), (drop n (drop (Z.to_nat pos) data)).
  rewrite take_drop, take_drop, length_take. split_and!; [done|lia| | |lia|lia].
  - intros E0. apply (f_equal length) in E0. rewrite length_take, length_drop in E0. simpl in E0. lia.
  - split; [by apply (advanced_wf mb)|rewrite Ab, Ae; apply Hh|]. rewrite length_take, length_drop. lia.
Qed.

End header.

Section props.
Context `{Host} `{EvpLaws}.

(** ** Sessions *)

(** The keys a component derives from the master key and salt. *)
Definition comp_keys (offs : Z) (key s : list Z) (tag_len : Z) (encrypted hash : bool) (mode : aes_mode) : keys :=
  Keys mode
    (if encrypted then Some (snd (srtp_derive (zlength key) (0 + offs) key s)) else None)
    (if hash then Some (snd (srtp_derive SHA_DIGEST_LENGTH (1 + offs) key s)) else None)
    (splice (replicate 16 0) 0 (snd (srtp_derive 14 (2 + offs) key s))) tag_len.

Lemma aes_alloc_some m k bits iv oa : aes_alloc m k bits iv = (0, oa) -> exists a, oa = Some a.
Proof. unfold aes_alloc. intros E. repeat case_match; simplify_eq; eauto. Qed.

Lemma srtp_derive_ok n label key salt out : 0 <= n -> srtp_derive n label key salt = (0, out) ->
  zlength out = n /\ bytes_ok out.
Proof.
  intros Hn. unfold srtp_derive. destruct ((32 <? n) || (16 <? zlength salt)) eqn:El; [done|].
  apply orb_false_elim in El as [Hle Hs%Z.ltb_ge]. apply Z.ltb_ge in Hle.
  set (x := alter _ _ _). destruct (aes_alloc _ _ _ _) as [err oa] eqn:Ea.
  destruct err; [|by destruct oa..]. destruct (aes_alloc_some _ _ _ _ _ Ea) as [a ->].
  assert (zlength x = 16) as Hx.
  { subst x. rewrite length_alter, length_splice; rewrite ?length_replicate; lia. }
  pose proof (aes_alloc_keyed _ _ _ _ _ eq_refl Ea) as Hin.
  destruct (aes_encr_first a AES_MODE_CTR key true x (replicate (Z.to_nat n) 0) Hin) as (a' & E & _).
  - apply Forall_replicate. unfold byte_ok. lia.
  - rewrite length_replicate. unfold INT_MAX. lia.
  - rewrite E. intros [= <-]. rewrite stream_length, length_replicate. split; [lia|].
    apply stream_bytes, Forall_replicate. unfold byte_ok. lia.
Qed.

Lemma comp_init_ok offs key s tag_len encrypted hash mode c : 0 <= tag_len ->
  comp_init comp_zero offs key s tag_len encrypted hash mode = (0, c) ->
  comp_ok c (comp_keys offs key s tag_len encrypted hash mode).
Proof.
  intros Ht. unfold comp_init. destruct (Z.ltb_spec MAX_KEYLEN (zlength key)); [done|].
  destruct (Z.ltb_spec SHA_DIGEST_LENGTH tag_len); [done|]. unfold comp_keys.
  destruct (srtp_derive (zlength key) (0 + offs) key s) as [e1 k_e] eqn:E1.
  destruct (srtp_derive SHA_DIGEST_LENGTH (1 + offs) key s) as [e2 k_a] eqn:E2.
  destruct (srtp_derive 14 (2 + offs) key s) as [e3 k_s] eqn:E3. cbv zeta. unfold nz at 1.
  destruct (Z.eqb_spec (Z.lor (Z.lor e1 e2) e3) 0) as [E0|]; cbn [negb]; [|congruence].
  apply lor_0_iff in E0 as [[-> ->]%lor_0_iff ->]. cbn [snd].
  apply srtp_derive_ok in E1 as [L1 _], E2 as [L2 _], E3 as [L3 B3]; try (unfold SHA_DIGEST_LENGTH; lia).
  assert (keys_ok (Keys mode (if encrypted then Some k_e else None) (if hash then Some k_a else None)
    (splice (replicate 16 0) 0 k_s) tag_len)) as Hck.
  { split_and!; cbn; try lia; [by rewrite length_splice by (simpl; lia)|].
    apply splice_ok; [|done]. repeat constructor; lia. }
  destruct encrypted.
  - destruct (aes_alloc mode k_e (zlength key * 8) None) as [err oa] eqn:Ea. unfold nz at 1.
    destruct (Z.eqb_spec err 0) as [->|]; cbn [negb]; [|congruence].
    destruct (aes_alloc_some _ _ _ _ _ Ea) as [a ->].
    assert (aes_keyed a mode k_e) as Hkey by (eapply aes_in_keyed, aes_alloc_keyed; [|done]; lia).
    destruct hash; [|intros [= <-]; unfold comp_ok; split_and!; [done..|by exists a]].
    destruct (hmac_create HMAC_HASH_SHA1 k_a) as [err oh] eqn:Eh. intros [= -> <-].
    assert (oh = Some (Hmac EVP_sha1 k_a)) as -> by (unfold hmac_create in Eh; repeat case_match; simplify_eq; done).
    unfold comp_ok. split_and!; [done..|by exists a].
  - cbn [nz Z.eqb negb]. destruct hash; [|intros [= <-]; unfold comp_ok; by split_and!].
    destruct (hmac_create HMAC_HASH_SHA1 k_a) as [err oh] eqn:Eh. intros [= -> <-].
    assert (oh = Some (Hmac EVP_sha1 k_a)) as -> by (unfold hmac_create in Eh; repeat case_match; simplify_eq; done).
    unfold comp_ok. by split_and!.
Qed.

Definition session_keys (offs : Z) (suite : srtp_suite) (key : list Z) (encrypted : bool) : keys :=
  let '(mode, cipher_bytes, salt_bytes, auth_bytes, hash) := suite_params suite in
  comp_keys offs (take (Z.to_nat cipher_bytes) key) (drop (Z.to_nat cipher_bytes) key) auth_bytes encrypted hash mode.

Lemma srtp_alloc_ok suite key flags s : srtp_alloc suite key flags = (0, Some s) ->
  sess_ok s (session_keys 0 suite key true) /\ auth_keys (session_keys 0 suite key true) /\
  comp_ok (s_rtcp s) (session_keys 3 suite key (negb (nz (Z.land flags SRTP_UNENCRYPTED_SRTCP)))) /\
  s_streaml s = [].
Proof.
  unfold srtp_alloc, session_keys. destruct (suite_params suite) as [[[[mode cb] sb] ab] hash] eqn:Ep.
  destruct (negb _); [done|]. destruct (negb _); [done|].
  destruct (comp_init comp_zero 0 _ _ _ _ _ _) as [e1 rtp] eqn:E1.
  destruct (comp_init comp_zero 3 _ _ _ _ _ _) as [e2 rtcp] eqn:E2. cbv zeta. unfold nz at 1.
  destruct (Z.eqb_spec (Z.lor e1 e2) 0) as [E0|]; cbn [negb]; [|congruence].
  apply lor_0_iff in E0 as [-> ->]. intros [= <-]. assert (0 <= ab) by (destruct suite; simplify_eq/=; lia).
  apply comp_init_ok in E1, E2; [|done..]. cbn [s_streaml s_rtcp s_rtp]. split_and!; try done.
  - split_and!; [done| |done]. split; [constructor|]. unfold SRTP_MAX_STREAMS. simpl. lia.
  - destruct suite; simplify_eq/=; unfold auth_keys, comp_keys; simpl; auto.
Qed.

(** ** Round trip *)

(** The header of a packet on the wire, extension included. *)
Definition wire_header (hdr : rtp_header) (xt xl : Z) (xdata : list Z) : list Z :=
  rtp_hdr_bytes hdr ++ ext_bytes (rtp_ext hdr) xt xl xdata.

Definition wire_ok (hdr : rtp_header) (xt xl : Z) (xdata : list Z) : Prop :=
  rtp_hdr_ok hdr /\ 0 <= xt < 2 ^ 16 /\ 0 <= xl < 2 ^ 16 /\ zlength xdata = xl * 4.

Lemma wire_decode hdr xt xl xdata mb pre rest : wire_ok hdr xt xl xdata ->
  holds mb (pre ++ wire_header hdr xt xl xdata ++ rest) (zlength pre) ->
  exists mb1, rtp_hdr_decode zero_hdr mb = Some ((0, decoded_hdr zero_hdr hdr xt xl), mb1) /\
    holds mb1 (pre ++ wire_header hdr xt xl xdata ++ rest) (zlength pre + zlength (wire_header hdr xt xl xdata)).
Proof.
  intros (Hok & Hxt & Hxl & Hxd) Hh. apply (holds_reads _ _ _ _ _ _ Hh).
  by apply rtp_hdr_decode_reads.
Qed.

Lemma wire_header_cons hdr xt xl xdata : wire_header hdr xt xl xdata <> [].
Proof. done. Qed.

(** A protected packet determines its payload. *)
Lemma srtp_protect_inj ck ssrc roc seq hdrb pl pl' : keys_ok ck -> bytes_ok pl -> bytes_ok pl' ->
  srtp_protect ck ssrc roc seq hdrb pl = srtp_protect ck ssrc roc seq hdrb pl' -> pl = pl'.
Proof.
  intros Hck Hb Hb' E. unfold srtp_protect in E. rewrite <- !app_assoc in E. apply app_inv_head in E.
  apply app_inj_2 in E as [E _].
  2: { unfold protect_tag. destruct (k_hmac ck) as [hk|]; [|done]. rewrite !length_take.
       by rewrite !(proj1 (mac_ok _ _)). }
  unfold protect_payload in E. destruct (k_aes ck) as [k|]; [|done].
  assert (stream (k_mode ck) k (iv_of ck ssrc (65536 * roc + seq)) pl =
          stream (k_mode ck) k (iv_of ck ssrc (65536 * roc + seq)) pl') as Es.
  { destruct (k_mode ck); [done|]. apply app_inj_2 in E as [E _]; [done|]. by rewrite !gcm_tag_length. }
  rewrite <- (stream_inv (k_mode ck) k (iv_of ck ssrc (65536 * roc + seq)) pl) by done.
  rewrite Es. by apply stream_inv.
Qed.

(** A protected packet is its header and at most 36 bytes more than the payload. *)
Lemma srtp_protect_split ck ssrc roc seq hdrb pl : keys_ok ck -> bytes_ok pl ->
  exists body, srtp_protect ck ssrc roc seq hdrb pl = hdrb ++ body /\ zlength body <= zlength pl + 36.
Proof.
  intros Hck Hb. unfold srtp_protect. rewrite <- app_assoc. eexists. split; [done|]. rewrite length_app.
  set (x := protect_payload _ _ _ _ _). destruct (protect_tag_ok ck ((hdrb ++ x) ++ be_bytes 4 roc) Hck) as (_ & ? & _).
  destruct (protect_payload_ok ck ssrc (65536 * roc + seq) hdrb pl Hb) as [_ Hx]. fold x in Hx. rewrite <- app_assoc in *. lia.
Qed.

(** C1: SRTP round trip: with the same keys on both sides and memory
    available, encrypting an RTP packet succeeds, and decrypting the resulting
    bytes, received in any buffer, returns the original packet, whenever the
    receiver's roll-over counter agrees with the sender's for that sequence
    number and the packet is new to its replay window.  All suites (counter mode
    with HMAC, and GCM) are covered. *)
Theorem srtp_roundtrip ck tx rx hdr xt xl xdata pl pre pre' mbt :
  let hdrb := wire_header hdr xt xl xdata in
  auth_keys ck -> sess_ok tx ck -> sess_ok rx ck -> wire_ok hdr xt xl xdata ->
  holds mbt (pre ++ hdrb ++ pl) (zlength pre) ->
  zlength pre + zlength pre' + zlength hdrb + zlength pl + 80 < WRITE_MAX -> no_oom ->
  has_room (s_streaml tx) (rtp_ssrc hdr) -> has_room (s_streaml rx) (rtp_ssrc hdr) ->
  st_roc (pkt_strm rx (rtp_ssrc hdr) (rtp_seq hdr)) = st_roc (pkt_strm tx (rtp_ssrc hdr) (rtp_seq hdr)) ->
  in_time rx (rtp_ssrc hdr) (rtp_seq hdr) -> fst (pkt_replay rx (rtp_ssrc hdr) (rtp_seq hdr)) = true ->
  exists tx' mbt' pkt, srtp_encrypt (Pst tx mbt) = Some (0, Pst tx' mbt') /\
    holds mbt' (pre ++ pkt) (zlength pre) /\
    forall mbr, holds mbr (pre' ++ pkt) (zlength pre') ->
      exists rx' mbr', srtp_decrypt (Pst rx mbr) = Some (0, Pst rx' mbr') /\
        holds mbr' (pre' ++ hdrb ++ pl) (zlength pre').
Proof.
  intros hdrb Hauth Htx Hrx Hwire Hh Hw Ho Hroom Hroom' Hroc Htime Hnew.
  pose proof (ok_seq _ (proj1 Hwire)) as Hseq. pose proof (holds_ok _ _ _ Hh) as Hb. rewrite !Forall_app in Hb.
  destruct (wire_decode _ _ _ _ _ _ _ Hwire Hh) as (mb1 & Ed & Hh1).
  destruct (srtp_encrypt_spec tx mbt mb1 ck _ pre hdrb pl (h_pos _ _ _ Hh) Ed Hh1 (wire_header_cons _ _ _ _) Htx Hseq)
    as (e & tx' & mbt' & E & _ & _ & _ & Hlive & Hgood); [fold hdrb; lia|].
  cbn [rtp_ssrc rtp_seq decoded_hdr] in *. specialize (Hlive Ho Hroom) as ->. destruct (Hgood eq_refl) as [Hh2 _].
  fold (pkt_strm tx (rtp_ssrc hdr) (rtp_seq hdr)) in Hh2. rewrite <- Hroc in Hh2.
  set (pkt := srtp_protect _ _ _ _ _ _) in Hh2. exists tx', mbt', pkt. split_and!; [done..|]. intros mbr Hhr.
  assert (exists body, pkt = hdrb ++ body /\ zlength body <= zlength pl + 36) as (body & Epkt & Hlb).
  { apply srtp_protect_split; [apply Htx|tauto]. }
  rewrite Epkt in Hhr. destruct (wire_decode _ _ _ _ _ _ _ Hwire Hhr) as (mb2 & Ed2 & Hh3).
  destruct (srtp_decrypt_spec rx mbr mb2 ck _ pre' hdrb body Hauth (h_pos _ _ _ Hhr) Ed2 Hh3
    (wire_header_cons _ _ _ _) Hrx Hseq) as (e & rx' & mbr' & E2 & _ & _ & _ & Hgood2 & Hlive2 & _); [fold hdrb; lia|].
  cbn [rtp_ssrc rtp_seq decoded_hdr] in *.
  assert (e = 0) as -> by (apply (Hlive2 Ho Hroom' Htime Hnew pl); [tauto|by rewrite <- Epkt]).
  destruct (Hgood2 eq_refl) as (pl' & Hpl' & Epl & Hh4 & _). exists rx', mbr'. split; [done|].
  assert (pkt = srtp_protect ck _ _ _ hdrb pl') as Einj by (by rewrite Epkt).
  by apply srtp_protect_inj in Einj as ->; [|apply Htx|tauto|].
Qed.

(** ** Any packet *)

(** What [srtp_decrypt] does with whatever the network delivers. *)
Lemma srtp_decrypt_any ck s mb data : auth_keys ck -> sess_ok s ck -> holds mb data (mb_pos mb) ->
  mb_end mb + 4 < WRITE_MAX ->
  (exists e mb', srtp_decrypt (Pst s mb) = Some (e, Pst s mb') /\ e <> 0 /\ mbuf_wf mb') \/
  (exists hdr mb1 pre hdrb body, rtp_hdr_decode zero_hdr mb = Some ((0, hdr), mb1) /\
     data = pre ++ hdrb ++ body /\ zlength pre = mb_pos mb /\
     decrypted ck s (rtp_ssrc hdr) (rtp_seq hdr) pre hdrb body (srtp_decrypt (Pst s mb))).
Proof.
  intros Hauth Hok Hh Hw. pose proof (h_wf _ _ _ Hh) as Hwf. pose proof (holds_end _ _ _ Hh) as Hend.
  destruct (rtp_hdr_decode_safe zero_hdr eq_refl mb Hwf) as ([err hdr] & mb1 & E & Ha).
  destruct (decide (err = 0)) as [->|Hne].
  - right. assert (mb_pos mb <= zlength data) as Hp.
    { destruct (rtp_hdr_decode_progress mb hdr mb1 Hwf E) as (_ & ? & _). destruct Ha as [_ _ _ ?]. lia. }
    destruct (rtp_hdr_decode_split mb data _ hdr mb1 Hh Hp E) as (pre & hdrb & body & -> & Hpre & Hne & Hh1 & Hseq).
    exists hdr, mb1, pre, hdrb, body. split_and!; [done..|].
    apply (srtp_decrypt_spec s mb mb1); try done. rewrite !length_app in Hend. lia.
  - left. exists err, mb1. split_and!; [|done|by apply (advanced_wf mb)].
    unfold srtp_decrypt, get_mb, bind at 1. cbn [p_mb].
    rewrite (bind_Some _ _ _ _ _ (on_mb_eq _ s _ _ _ E)). unfold nz. by destruct (Z.eqb_spec err 0).
Qed.

Lemma holds_self mb : mbuf_wf mb -> holds mb (take (Z.to_nat (mb_end mb)) (mb_buf mb)) (mb_pos mb).
Proof. by split. Qed.

(** C2: authenticity and memory safety: on every buffer of less than 2 GiB,
    whatever it contains, [srtp_decrypt] has no undefined behaviour and keeps
    the session well formed; and when it returns success, the received bytes
    are exactly the protection, under the session's keys and counter, of the
    packet it delivers, and the packet index is new to the replay window. *)
Theorem srtp_decrypt_authentic ck s mb : auth_keys ck -> sess_ok s ck -> mbuf_wf mb ->
  mb_end mb + 4 < WRITE_MAX ->
  exists e s' mb', srtp_decrypt (Pst s mb) = Some (e, Pst s' mb') /\ sess_ok s' ck /\ mbuf_wf mb' /\
    (e = 0 -> exists pre hdrb pl ssrc seq,
       take (Z.to_nat (mb_end mb)) (mb_buf mb) =
         pre ++ srtp_protect ck ssrc (st_roc (pkt_strm s ssrc seq)) seq hdrb pl /\
       zlength pre = mb_pos mb /\ holds mb' (pre ++ hdrb ++ pl) (zlength pre) /\
       fst (pkt_replay s ssrc seq) = true).
Proof.
  intros Hauth Hok Hwf Hw.
  destruct (srtp_decrypt_any ck s mb _ Hauth Hok (holds_self mb Hwf) Hw)
    as [(e & mb' & E & Hne & Hwf')|(hdr & mb1 & pre & hdrb & body & Ed & -> & Hp & Hdec)].
  - exists e, s, mb'. split_and!; done.
  - destruct Hdec as (e & s' & mb' & E & Hst & Hwf' & _ & Hgood & _). exists e, s', mb'.
    split_and!; [done|apply Hst|done|]. intros E0.
    destruct (Hgood E0) as (pl & _ & Epl & Hh & Hrc & _).
    exists pre, hdrb, pl, (rtp_ssrc hdr), (rtp_seq hdr). split_and!; try done. by rewrite Epl.
Qed.

(** ** Replays *)

Lemma replay_check_twice r ix : fst (srtp_replay_check r ix) = true ->
  fst (srtp_replay_check (snd (srtp_replay_check r ix)) ix) = false.
Proof.
  unfold srtp_replay_check at 1 3. unfold SRTP_WINDOW_SIZE.
  assert (forall d a, 0 <= d -> nz (Z.land (Z.lor a (Z.shiftl 1 d)) (Z.shiftl 1 d)) = true) as Hbit.
  { intros d a Hd. rewrite nz_land_bit, Z.lor_spec, Z.shiftl_spec, Z.sub_diag by lia. apply orb_true_r. }
  destruct (Z.ltb_spec (r_lix r) ix) as [Hlt|Hge]; cbn [fst snd].
  - intros _. unfold srtp_replay_check, SRTP_WINDOW_SIZE. cbn [r_lix r_bitmap].
    rewrite Z.ltb_irrefl, Z.sub_diag, nz_land_bit by lia. change (64 <=? 0) with false.
    destruct (ix - r_lix r <? 64); [|done]. by rewrite Z.lor_spec, orb_true_r.
  - destruct (Z.leb_spec 64 (r_lix r - ix)) as [|Hlt]; [done|]. destruct (nz _); [done|]. intros _. cbn [snd].
    unfold srtp_replay_check, SRTP_WINDOW_SIZE. cbn [r_lix r_bitmap].
    rewrite (proj2 (Z.ltb_ge _ _)), (proj2 (Z.leb_gt _ _)), Hbit by lia. done.
Qed.

Lemma s_l_update_fields seq x : st_s_l (s_l_update seq x) = Z.max (st_s_l x) seq /\
  st_roc (s_l_update seq x) = st_roc x /\ st_replay_rtp (s_l_update seq x) = st_replay_rtp x /\
  st_s_l_set (s_l_update seq x) = st_s_l_set x.
Proof. unfold s_l_update. destruct (Z.ltb_spec (st_s_l x) seq); simpl; split_and!; done || lia. Qed.

Lemma roc_update_id seq x : -32768 < seq - st_s_l x -> roc_update seq x = x.
Proof. intros. unfold roc_update, seq_diff. by rewrite (proj2 (Z.leb_gt _ _)) by lia. Qed.

(** Receiving the sequence number again finds the same counter. *)
Lemma pkt_strm_again x seq r : 0 <= seq < 2 ^ 16 -> 0 <= st_s_l x < 2 ^ 16 -> st_s_l_set x = true ->
  let y := roc_update seq x in
  let z := init_seq seq (s_l_update seq (set_replay_rtp r y)) in
  roc_update seq z = z /\ st_roc z = st_roc y /\ st_replay_rtp z = r /\ 0 <= st_s_l z < 2 ^ 16.
Proof.
  intros Hseq Hs Hset y z. destruct (s_l_update_fields seq (set_replay_rtp r y)) as (El & Er & Ep & Es).
  assert (st_s_l_set y = true /\ 0 <= st_s_l y < 2 ^ 16 /\ -32768 < seq - st_s_l y) as (Hy & Hy' & Hd).
  { unfold y, roc_update, seq_diff. destruct (Z.leb_spec (seq - st_s_l x) (-32768)); simpl; split_and!; done || lia. }
  assert (z = s_l_update seq (set_replay_rtp r y)) as -> by (unfold z, init_seq; rewrite Es; cbn [set_replay_rtp st_s_l_set]; by rewrite Hy).
  rewrite Er, Ep, El. cbn [set_replay_rtp st_s_l st_roc st_replay_rtp] in *.
  split_and!; [apply roc_update_id; rewrite El; lia|done|done|lia|lia].
Qed.

(** C3: a packet is accepted once: when [srtp_decrypt] has delivered a packet,
    decrypting the same datagram again fails, without undefined behaviour. *)
Theorem srtp_replay_rejected ck s mb s' mb' : auth_keys ck -> sess_ok s ck -> mbuf_wf mb ->
  mb_end mb + 4 < WRITE_MAX -> srtp_decrypt (Pst s mb) = Some (0, Pst s' mb') ->
  exists e s'' mb'', srtp_decrypt (Pst s' mb) = Some (e, Pst s'' mb'') /\ e <> 0.
Proof.
  intros Hauth Hok Hwf Hw E. pose proof (holds_self mb Hwf) as Hh.
  destruct (srtp_decrypt_any ck s mb _ Hauth Hok Hh Hw)
    as [(e & mb1 & E1 & Hne & _)|(hdr & mb1 & pre & hdrb & body & Ed & Edata & Hp & Hdec)]; [congruence|].
  destruct Hdec as (e & s1 & mb2 & E1 & Hst & _ & _ & Hgood & _). rewrite E in E1. injection E1 as <- <- <-.
  destruct (Hgood eq_refl) as (_ & _ & _ & _ & Hrc & Htime & Hsm).
  destruct (srtp_decrypt_any ck s' mb _ Hauth (ss_ok _ _ _ _ Hst) Hh Hw)
    as [(e2 & mb3 & E2 & Hne & _)|(hdr2 & mb3 & pre2 & hdrb2 & body2 & Ed2 & _ & _ & Hdec2)]; [by eauto|].
  rewrite Ed in Ed2. injection Ed2 as <- <-. destruct Hdec2 as (e2 & s2 & mb4 & E2 & _ & _ & _ & Hgood2 & _).
  exists e2, s2, mb4. split; [done|]. intros ->.
  destruct (Hgood2 eq_refl) as (_ & _ & _ & _ & Hrc2 & Htime2 & _).
  set (ssrc := rtp_ssrc hdr) in *. set (seq := rtp_seq hdr) in *.
  destruct (rtp_hdr_decode_progress mb hdr mb1 Hwf Ed) as (_ & _ & Hseq). fold seq in Hseq.
  assert (0 <= st_s_l (init_seq seq (strm_of (s_streaml s) ssrc)) < 2 ^ 16) as Hl
    by (apply (init_seq_upd seq Hseq), Hok).
  assert (st_s_l_set (init_seq seq (strm_of (s_streaml s) ssrc)) = true) as Hset.
  { unfold init_seq. by destruct (st_s_l_set (strm_of _ _)) eqn:?. }
  destruct (pkt_strm_again _ seq (snd (pkt_replay s ssrc seq)) Hseq Hl Hset) as (Hz & Hroc & Hrep & Hzl).
  fold (pkt_strm s ssrc seq) in Hz, Hroc, Hrep, Hzl. rewrite <- Hsm in Hz, Hroc, Hrep, Hzl.
  assert (pkt_index s' ssrc seq = pkt_index s ssrc seq) as Hix.
  { unfold pkt_index. unfold pkt_strm. rewrite !get_index_roc by done. by rewrite Hz, Hroc. }
  unfold pkt_replay at 1 in Hrc2. rewrite Hix in Hrc2. unfold pkt_strm at 1 in Hrc2. rewrite Hz, Hrep in Hrc2.
  unfold pkt_replay in Hrc, Hrc2. by rewrite (replay_check_twice _ _ Hrc) in Hrc2.
Qed.

(** ** The roll-over counter *)

(** The roll-over counter tracks the 48-bit packet index: for a stream
    whose highest index is h, a packet whose true index e is at most 32768
    ahead gets exactly the index e (in the receiver, while the counter is below
    2^31), and e becomes the highest; a packet less than 32768 behind and in the
    same cycle gets its own index and moves nothing; one from the previous cycle
    is refused. *)
Theorem roc_tracks x e : 0 <= st_roc x -> 0 <= st_s_l x < 2 ^ 16 -> 0 <= e < 2 ^ 48 ->
  let h := 65536 * st_roc x + st_s_l x in
  let seq := e mod 65536 in
  let y := roc_update seq x in
  (h <= e <= h + 32768 ->
     65536 * st_roc y + seq = e /\
     (st_roc y < 2 ^ 31 -> srtp_get_index (st_roc y) (st_s_l y) seq = e) /\
     65536 * st_roc (s_l_update seq y) + st_s_l (s_l_update seq y) = e) /\
  (h - 32768 < e < h -> e / 65536 = st_roc x ->
     65536 * st_roc y + seq = e /\ s_l_update seq y = x) /\
  (h - 32768 < e < h -> e / 65536 <> st_roc x -> 32768 < seq_diff (st_s_l x) seq).
Proof.
  intros Hr Hs He h seq y. assert (e = 65536 * (e / 65536) + seq /\ 0 <= seq < 65536) as [Ee Hseq]
    by (subst seq; dlia).
  split_and!.
  - intros Hh. pose proof (get_index_roc seq x Hseq Hs) as Hgi. fold y in Hgi. cbv zeta in Hgi.
    unfold seq_diff in Hgi. specialize (Hgi ltac:(lia)).
    assert (65536 * st_roc y + seq = e /\ st_s_l y <= seq /\ 0 <= st_roc y) as (Hy & Hl & Hr').
    { unfold y, roc_update, seq_diff. destruct (Z.leb_spec (seq - st_s_l x) (-32768)); cbn [set_roc st_roc st_s_l].
      - rewrite (wrap_small 32) by lia. lia.
      - lia. }
    destruct (s_l_update_fields seq y) as (-> & -> & _). split_and!; [done| |lia].
    intros. rewrite Hgi, get_index_eq; lia.
  - intros Hh Hc. unfold y. rewrite roc_update_id by lia. split; [lia|].
    unfold s_l_update. by rewrite (proj2 (Z.ltb_ge _ _)) by lia.
  - intros Hh Hc. unfold seq_diff. lia.
Qed.

(** The counter is advanced before the packet is authenticated: a packet
    that is not authentic, with a sequence number 32768 or more below the
    highest one received, is refused, but leaves the stream's roll-over counter
    incremented. *)
Theorem srtp_forgery_advances_roc ck s hdr xt xl xdata pre body mb :
  let hdrb := wire_header hdr xt xl xdata in
  let x := strm_of (s_streaml s) (rtp_ssrc hdr) in
  auth_keys ck -> sess_ok s ck -> wire_ok hdr xt xl xdata -> holds mb (pre ++ hdrb ++ body) (zlength pre) ->
  zlength pre + zlength hdrb + zlength body + 4 < WRITE_MAX -> no_oom ->
  has_room (s_streaml s) (rtp_ssrc hdr) -> st_s_l_set x = true ->
  rtp_seq hdr - st_s_l x <= -32768 ->
  (forall pl, hdrb ++ body <> srtp_protect ck (rtp_ssrc hdr) (u32 (st_roc x + 1)) (rtp_seq hdr) hdrb pl) ->
  exists e s' mb', srtp_decrypt (Pst s mb) = Some (e, Pst s' mb') /\ e <> 0 /\
    st_roc (strm_of (s_streaml s') (rtp_ssrc hdr)) = u32 (st_roc x + 1).
Proof.
  intros hdrb x Hauth Hok Hwire Hh Hw Ho Hroom Hset Hd Hforged. pose proof (ok_seq _ (proj1 Hwire)) as Hseq.
  destruct (wire_decode _ _ _ _ _ _ _ Hwire Hh) as (mb1 & Ed & Hh1).
  destruct (srtp_decrypt_spec s mb mb1 ck _ pre hdrb body Hauth (h_pos _ _ _ Hh) Ed Hh1
    (wire_header_cons _ _ _ _) Hok Hseq) as (e & s' & mb' & E & _ & _ & _ & Hgood & _ & Hbad); [fold hdrb; lia|].
  cbn [rtp_ssrc rtp_seq decoded_hdr] in *.
  assert (pkt_strm s (rtp_ssrc hdr) (rtp_seq hdr) = set_roc (u32 (st_roc x + 1)) 0 x) as Hp.
  { unfold pkt_strm, init_seq, roc_update, seq_diff. fold x. rewrite Hset.
    by rewrite (proj2 (Z.leb_le _ _)) by lia. }
  rewrite Hp in *. exists e, s', mb'. assert (e <> 0) as Hne.
  { intros ->. destruct (Hgood eq_refl) as (pl & _ & Epl & _). by apply Hforged in Epl. }
  split_and!; [done|done|]. rewrite Hbad; try done. unfold in_time, init_seq, seq_diff. fold x. rewrite Hset. lia.
Qed.

End props.
