(* ===== verification/SrtcpThms.v ===== *)
(** * Correctness of SRTCP

    The byte-level specification of SRTCP protection, the round trip of
    [srtcp_encrypt] and [srtcp_decrypt], and what [srtcp_decrypt] does with a
    packet whose E-bit is clear in a GCM session. *)

From S2P Require Export SrtpProps.

Section srtcp.
Context `{Host} `{EvpLaws}.

(** ** The specification *)

(** E-bit: set when the component encrypts. *)
Definition e_bit (ck : keys) : Z := match k_aes ck with Some _ => 1 | None => 0 end.

Definition srtcp_trailer (ck : keys) (ix : Z) : list Z := be_bytes 4 (e_bit ck * 2 ^ 31 + ix).

Definition srtcp_body (ck : keys) (ssrc ix : Z) (hdr pl : list Z) : list Z :=
  (hdr ++ protect_payload ck ssrc ix (hdr ++ be_bytes 4 (2 ^ 31 + ix)) pl) ++ srtcp_trailer ck ix.

Definition srtcp_protect (ck : keys) (ssrc ix : Z) (hdr pl : list Z) : list Z :=
  srtcp_body ck ssrc ix hdr pl ++ protect_tag ck (srtcp_body ck ssrc ix hdr pl).

(** The fixed part of an RTCP packet: four bytes and the sender's SSRC. *)
Definition rtcp_head (h4 : list Z) (ssrc : Z) : list Z := h4 ++ be_bytes 4 ssrc.

Lemma rtcp_ssrc_reads h4 ssrc : length h4 = 4%nat -> 0 <= ssrc < 2 ^ 32 ->
  Reads get_rtcp_ssrc (rtcp_head h4 ssrc) (0, ssrc).
Proof.
  intros Hl Hs. unfold get_rtcp_ssrc, rtcp_head.
  apply reads_need; [rewrite length_app, length_be_bytes; lia|].
  eapply reads_bind; [by apply reads_advance; rewrite Hl|]. rewrite <- (app_nil_r (be_bytes 4 ssrc)).
  apply reads_ntohl; [done|apply reads_ret].
Qed.

Lemma length_rtcp_head h4 ssrc : length h4 = 4%nat -> length (rtcp_head h4 ssrc) = 8%nat.
Proof. intros. unfold rtcp_head. rewrite length_app, length_be_bytes. lia. Qed.

Lemma index_word ep ix : 0 <= ep <= 1 -> 0 <= ix < 2 ^ 31 ->
  Z.lor (u32 (Z.shiftl ep 31)) ix = ep * 2 ^ 31 + ix.
Proof.
  intros. rewrite Z.shiftl_mul_pow2, wrap_small by lia. by apply lor_add.
Qed.

(** ** Encryption *)

(** The end of the packet: index word, tag, position. *)
Definition srtcp_finish (start : Z) (strm : srtp_stream) (ep : Z) : M pst Z :=
  on_mb mbuf_skip_to_end ;;
  check (on_mb (mbuf_write_u32 (htonl (Z.lor (u32 (Z.shiftl ep 31)) (st_rtcp_index strm)))))
    (let* c := get_comp RTCP in
     check
       (match c_hmac c with
        | None => ret 0
        | Some h =>
            at_pos start ;;
            let* '(err, tag) := digest_left h in
            if nz err then ret err
            else
              on_mb mbuf_skip_to_end ;;
              let* t := lift (mem_load tag 0 (c_tag_len c)) in
              on_mb (mbuf_write_mem t)
        end)
       (at_pos start ;; ret 0)).

Definition finished (ck : keys) (pre data : list Z) (r : option (Z * pst)) : Prop :=
  exists e s' mb', r = Some (e, Pst s' mb') /\ comp_ok (s_rtcp s') ck /\ mbuf_wf mb' /\
    (no_oom -> e = 0) /\ (e = 0 -> holds mb' (pre ++ data) (zlength pre)).

Lemma srtcp_finish_spec s mb pre body pos ck strm : holds mb (pre ++ body) pos -> body <> [] ->
  comp_ok (s_rtcp s) ck -> zlength pre + zlength body + 24 < WRITE_MAX -> 0 <= st_rtcp_index strm < 2 ^ 31 ->
  let full := body ++ srtcp_trailer ck (st_rtcp_index strm) in
  finished ck pre (full ++ protect_tag ck full) (srtcp_finish (zlength pre) strm (e_bit ck) (Pst s mb)).
Proof.
  intros Hh Hne Hc Hw Hix full. pose proof Hc as (Hck & _ & _ & Htl & Hhm & _). unfold WRITE_MAX in Hw.
  unfold srtcp_finish. destruct (on_mb_skip s _ _ _ Hh) as (mb1 & E1 & Hh1). rewrite (bind_Some _ _ _ _ _ E1).
  rewrite index_word by (unfold e_bit; destruct (k_aes ck); lia).
  destruct (on_mb_append s mb1 _ _ _ _ Hh1 eq_refl (writes_u32_n (e_bit ck * 2 ^ 31 + st_rtcp_index strm)))
    as (e & mb2 & E2 & Hwf & He & Ho & Hok); [rewrite !length_app, length_be_bytes; unfold WRITE_MAX; lia|].
  destruct (decide (e = 0)) as [->|Hne0].
  2: { rewrite (check_err _ _ _ _ _ E2 Hne0). by exists e, s, mb2. }
  rewrite (check_0 _ _ _ _ E2). specialize (Hok eq_refl). rewrite <- app_assoc in Hok.
  fold (srtcp_trailer ck (st_rtcp_index strm)) in Hok. fold full in Hok.
  assert (zlength full = zlength body + 4) as Lf
    by (unfold full, srtcp_trailer; rewrite length_app, length_be_bytes; lia).
  assert (full <> []) as Hnf by (unfold full; by destruct body).
  unfold get_comp, bind at 1. cbn [p_srtp comp_of]. rewrite Hhm, Htl.
  pose proof (protect_tag_ok ck full Hck) as (Hpb & Hpl & _). unfold protect_tag in *.
  destruct (k_hmac ck) as [hk|]; cbn [fmap option_fmap option_map].
  2: { rewrite (check_0 _ _ _ (Pst s mb2)) by done. rewrite app_nil_r.
       destruct (at_pos_eq s _ _ _ (zlength pre) Hok) as (mb3 & E3 & Hh3); [lia|]. rewrite (bind_Some _ _ _ _ _ E3).
       exists 0, s, mb3. split_and!; try done. apply Hh3. }
  destruct (at_pos_eq s _ _ _ (zlength pre) Hok) as (mb3 & E3 & Hh3); [lia|].
  destruct (on_mb_skip s _ _ _ Hh3) as (mb4 & E4 & Hh4).
  destruct (on_mb_append s mb4 _ _ _ _ Hh4 eq_refl (writes_mem _ Hpb))
    as (e' & mb5 & E5 & Hwf5 & He5 & Ho5 & Hok5); [rewrite length_app; unfold WRITE_MAX; lia|].
  set (m := at_pos (zlength pre) ;; _). assert (m (Pst s mb2) = Some (e', Pst s mb5)) as Em.
  { unfold m. rewrite (bind_Some _ _ _ _ _ E3), (bind_Some _ _ _ _ _ (digest_left_eq s mb3 pre _ hk Hh3 Hnf)).
    cbn [nz Z.eqb negb]. rewrite (bind_Some _ _ _ _ _ E4), load_tag by done. exact E5. }
  destruct (decide (e' = 0)) as [->|Hne5].
  2: { rewrite (check_err _ _ _ _ _ Em Hne5). by exists e', s, mb5. }
  rewrite (check_0 _ _ _ _ Em). specialize (Hok5 eq_refl). rewrite <- app_assoc in Hok5.
  destruct (at_pos_eq s _ _ _ (zlength pre) Hok5) as (mb6 & E6 & Hh6); [lia|]. rewrite (bind_Some _ _ _ _ _ E6).
  exists 0, s, mb6. split_and!; try done. apply Hh6.
Qed.

Lemma c_encr_eq w s mb A out x e o A' : c_aes (comp_of w s) = Some A -> aes_encr A out x = (e, o, A') ->
  c_encr w out x (Pst s mb) = Some ((e, o), Pst (set_aes w A' s) mb).
Proof. intros E E'. unfold c_encr, call_aes, get_comp, bind, modify, ret. simpl. by rewrite E, E'. Qed.

(** The index word is the second piece of additional data. *)
Lemma gcm_aad_index s mb pre hdr b pos k ck A d iv ix : holds mb (pre ++ hdr ++ b) pos ->
  comp_ok (s_rtcp s) ck -> k_mode ck = AES_MODE_GCM -> k_aes ck = Some k -> zlength hdr <= INT_MAX ->
  aes_in A (View AES_MODE_GCM k d (Some iv) [] None None) -> 0 <= ix < 2 ^ 31 ->
  exists A', (encr_aad RTCP (zlength pre) (zlength hdr) |;
      let* '(err, _) := c_encr RTCP false (host_bytes 4 (htonl (Z.lor (Z.shiftl 1 31) ix))) in ret err)
      (Pst (set_aes RTCP A s) mb) = Some (0, Pst (set_aes RTCP A' s) mb) /\
    aes_in A' (View AES_MODE_GCM k true (Some iv) (hdr ++ be_bytes 4 (2 ^ 31 + ix)) None None) /\
    comp_ok (s_rtcp (set_aes RTCP A' s)) ck.
Proof.
  intros Hh Hc Hm Hk Hl Hin Hix.
  destruct (gcm_aad_encr RTCP s mb pre hdr b _ k ck A d iv Hh Hc Hm Hk Hl Hin) as (A2 & E2 & Hin2 & Hc2).
  unfold htonl. rewrite host_bytes_hton, lor_shiftl by lia. change (1 * 2 ^ 31 + ix) with (2 ^ 31 + ix).
  destruct (aes_encr_aad_next A2 k iv hdr (be_bytes 4 (2 ^ 31 + ix)) Hin2) as (o & A3 & E3 & Hin3);
    [apply be_bytes_ok|rewrite length_be_bytes; done|].
  exists A3. split; [|split; [done|]].
  - unfold or_err. rewrite (bind_Some _ _ _ _ _ E2). unfold bind.
    rewrite (c_encr_eq RTCP _ mb A2 _ _ _ _ _ (set_aes_get _ _ _) E3). by rewrite set_aes_set.
  - apply (set_aes_upd RTCP A3 s ck k Hc Hk). rewrite Hm. eauto using aes_in_keyed.
Qed.

Lemma srtcp_gcm_spec s mb pre hdr pl key ck ssrc strm data (k : Z -> M pst Z) :
  let ix := st_rtcp_index strm in
  holds mb (pre ++ hdr ++ pl) (zlength pre + zlength hdr) -> comp_ok (s_rtcp s) ck ->
  zlength pre + zlength hdr + zlength pl + 16 < 2 ^ 31 -> 0 <= ix < 2 ^ 31 ->
  k_mode ck = AES_MODE_GCM -> k_aes ck = Some key ->
  (forall s' mb' pos, comp_ok (s_rtcp s') ck ->
     holds mb' (pre ++ hdr ++
       let ct := stream AES_MODE_GCM key (iv_of ck ssrc ix) pl in
       ct ++ gcm_tag key (iv_of ck ssrc ix) (hdr ++ be_bytes 4 (2 ^ 31 + ix)) ct) pos ->
     finished ck pre data (k 1 (Pst s' mb'))) ->
  finished ck pre data
    ((c_set_iv RTCP (srtp_iv_calc_gcm iv_local (c_k_s (s_rtcp s)) ssrc ix) ;;
     let* mb := get_mb in
     check (encr_aad RTCP (zlength pre) (u64 (mb_pos mb - zlength pre)) |;
            let* '(err, _) := c_encr RTCP false (host_bytes 4 (htonl (Z.lor (Z.shiftl 1 31) ix))) in ret err)
       (check (encr_at RTCP (mb_pos mb) (mbuf_get_left mb))
          (let* '(err, tag) := c_authtag RTCP GCM_TAGLEN in
           if nz err then ret err
           else
             on_mb mbuf_skip_to_end ;;
             check (on_mb (mbuf_write_mem tag)) (k 1)))) (Pst s mb)).
Proof.
  intros ix Hh Hc Hw Hix Hm Hk HK.
  destruct (gcm_set_iv RTCP s mb key ck ssrc ix ix Hc Hm Hk eq_refl) as (A & d & iv & E1 & Hin & Eiv).
  rewrite (bind_Some _ _ _ _ _ E1). unfold get_mb, bind at 1. cbn [p_mb].
  destruct (header_len _ _ _ _ Hh) as [-> ->].
  destruct (gcm_aad_index s mb pre hdr pl _ key ck A d iv ix Hh Hc Hm Hk) as (A2 & E2 & Hin2 & Hc2);
    [unfold INT_MAX; lia|done|done|].
  rewrite (check_0 _ _ _ _ E2), (h_pos _ _ _ Hh), <- Nat2Z.inj_add, <- length_app.
  pose proof Hh as Hh2. rewrite app_assoc, <- (app_nil_r pl) in Hh2.
  destruct (gcm_seal RTCP (set_aes RTCP A2 s) mb (pre ++ hdr) pl [] _ key ck A2 iv (hdr ++ be_bytes 4 (2 ^ 31 + ix)) Hh2 Hc2 Hm Hk)
    as (s1 & s2 & mb1 & E3 & E4 & Hu & Hh3); [unfold INT_MAX; lia|apply set_aes_get|done|].
  rewrite (check_0 _ _ _ _ E3), (bind_Some _ _ _ _ _ E4). cbn [nz Z.eqb negb].
  rewrite app_nil_r, Eiv in *. set (ct := stream _ _ _ _) in *. set (tag := gcm_tag _ _ _ _) in *.
  destruct (on_mb_skip s2 _ _ _ Hh3) as (mb2 & E5 & Hh4). rewrite (bind_Some _ _ _ _ _ E5).
  destruct (on_mb_append s2 mb2 _ _ _ _ Hh4 eq_refl (writes_mem tag (gcm_tag_bytes _ _ _ _)))
    as (e & mb3 & E6 & Hwf & He & Ho & Hok).
  { unfold tag. rewrite gcm_tag_length, !length_app. unfold ct. rewrite stream_length. unfold WRITE_MAX. lia. }
  destruct (decide (e = 0)) as [->|Hne].
  - rewrite (check_0 _ _ _ _ E6). specialize (Hok eq_refl). rewrite <- !app_assoc in Hok. eapply HK; [apply Hu|exact Hok].
  - rewrite (check_err _ _ _ _ _ E6 Hne). exists e, s2, mb3. split_and!; try done. apply Hu.
Qed.

(** Encryption of the payload, then [k] with the E-bit. *)
Lemma srtcp_payload_spec s mb pre hdr pl ck ssrc strm data (k : Z -> M pst Z) :
  holds mb (pre ++ hdr ++ pl) (zlength pre + zlength hdr) -> comp_ok (s_rtcp s) ck ->
  zlength pre + zlength hdr + zlength pl + 16 < WRITE_MAX -> 0 <= st_rtcp_index strm < 2 ^ 31 ->
  (forall s' mb' pos, comp_ok (s_rtcp s') ck ->
     holds mb' (pre ++ hdr ++ protect_payload ck ssrc (st_rtcp_index strm)
       (hdr ++ be_bytes 4 (2 ^ 31 + st_rtcp_index strm)) pl) pos -> finished ck pre data (k (e_bit ck) (Pst s' mb'))) ->
  finished ck pre data (srtcp_encrypt_payload (zlength pre) ssrc strm k (Pst s mb)).
Proof.
  intros Hh Hc Hw Hix Hk. unfold srtcp_encrypt_payload, get_comp, bind at 1, match_aes. cbn [p_srtp comp_of].
  pose proof Hc as (Hck & Hmo & _ & _ & _ & Ha). rewrite Hmo. unfold protect_payload, e_bit in Hk.
  unfold WRITE_MAX in Hw. destruct (k_aes ck) as [key|] eqn:Ek; [|rewrite Ha; by eapply Hk].
  destruct Ha as (A & HA & _). rewrite HA. destruct (k_mode ck) eqn:Hm.
  - pose proof Hh as Hh'. rewrite app_assoc, <- Nat2Z.inj_add, <- length_app in Hh'.
    destruct (encrypt_ctr_spec RTCP s mb (pre ++ hdr) pl key ck ssrc (st_rtcp_index strm) (st_rtcp_index strm))
      as (s' & mb' & Er & Hs & Hh2); [done|done|rewrite length_app; unfold WRITE_MAX; lia|done..|].
    unfold bind in Er. unfold bind. cbn [comp_of] in Er.
    destruct (c_set_iv RTCP _ (Pst s mb)) as [[u st1]|]; [|done]. cbn in Er |- *.
    unfold check, bind. rewrite Er. cbn. rewrite <- app_assoc in Hh2. apply (Hk s' mb' (zlength (pre ++ hdr))); [apply Hs|done].
  - by apply (srtcp_gcm_spec s mb pre hdr pl key ck ssrc strm data).
Qed.

(** Finding the stream of an SRTCP packet. *)
Lemma with_stream_get s mb ssrc k : streams_ok (s_streaml s) -> no_oom -> has_room (s_streaml s) ssrc ->
  exists i l', with_stream (fun l => stream_get l ssrc) k (Pst s mb) = k i (Pst (set_streaml l' s) mb) /\
    streams_ok l' /\ stream_find l' ssrc = Some i /\ strm_of l' ssrc = strm_of (s_streaml s) ssrc.
Proof.
  intros Hs Ho Hroom. destruct (stream_get_spec (s_streaml s) ssrc Hs) as (err & oi & l' & E & _ & Hs' & Hsm & Hl & Hi).
  specialize (Hl Ho Hroom) as ->. rewrite decide_True in Hi by done. destruct Hi as (i & -> & Hi).
  exists i, l'. unfold with_stream, get, put, bind. cbn [p_srtp]. by rewrite E.
Qed.

(** The index a stream's next SRTCP packet carries. *)
Definition next_index (x : srtp_stream) : Z := Z.land (u32 (st_rtcp_index x + 1)) 0x7fffffff.

Lemma next_index_range x : 0 <= next_index x < 2 ^ 31.
Proof. unfold next_index. rewrite Z.land_comm. apply (land_range _ _ 31); lia. Qed.

Lemma srtcp_encrypt_spec ck s mb h4 ssrc pl pre :
  length h4 = 4%nat -> 0 <= ssrc < 2 ^ 32 -> comp_ok (s_rtcp s) ck -> streams_ok (s_streaml s) -> no_oom ->
  has_room (s_streaml s) ssrc -> zlength pre + zlength pl + 60 < WRITE_MAX ->
  holds mb (pre ++ rtcp_head h4 ssrc ++ pl) (zlength pre) ->
  exists s' mb', srtcp_encrypt (Pst s mb) = Some (0, Pst s' mb') /\
    holds mb' (pre ++ srtcp_protect ck ssrc (next_index (strm_of (s_streaml s) ssrc)) (rtcp_head h4 ssrc) pl) (zlength pre).
Proof.
  intros Hl4 Hssrc Hc Hs Ho Hroom Hw Hh. unfold WRITE_MAX in Hw. set (hdr := rtcp_head h4 ssrc) in *.
  assert (length hdr = 8%nat) as Hlh by (by apply length_rtcp_head).
  destruct (holds_reads mb pre hdr pl _ _ Hh (rtcp_ssrc_reads h4 ssrc Hl4 Hssrc)) as (mb1 & E1 & Hh1).
  unfold srtcp_encrypt, get_mb, bind at 1. cbn [p_mb]. rewrite (h_pos _ _ _ Hh).
  rewrite (bind_Some _ _ _ _ _ (on_mb_eq _ s _ _ _ E1)). cbn [nz Z.eqb negb]. set (k := fun i : nat => _).
  destruct (with_stream_get s mb1 ssrc k Hs Ho Hroom) as (i & l' & -> & Hs' & Hi & Hsm). subst k. cbv beta.
  set (f := fun x => set_rtcp_index (next_index x) x).
  assert (forall x, st_ssrc (f x) = st_ssrc x) as Hf by done.
  set (s1 := set_streaml (alter f i l') (set_streaml l' s)).
  change (upd_strm i _) with (upd_strm i f). rewrite (bind_Some _ _ _ tt (Pst s1 mb1)) by done.
  assert (stream_find (s_streaml s1) ssrc = Some i) as Hi1 by (cbn; by rewrite stream_find_alter).
  rewrite (bind_Some _ _ _ _ _ (get_strm_eq s1 mb1 _ _ Hi1)).
  assert (strm_of (s_streaml s1) ssrc = f (strm_of (s_streaml s) ssrc)) as ->.
  { cbn [s1 s_streaml set_streaml]. rewrite (strm_of_alter f l' i ssrc ssrc Hf Hi), decide_True by done. by rewrite Hsm. }
  set (strm := f _). set (ix := next_index (strm_of (s_streaml s) ssrc)).
  pose proof (next_index_range (strm_of (s_streaml s) ssrc)) as Hix. fold ix in Hix.
  pose proof (holds_ok _ _ _ Hh) as Hb. rewrite !Forall_app in Hb.
  destruct (srtcp_payload_spec s1 mb1 pre hdr pl ck ssrc strm (srtcp_protect ck ssrc ix hdr pl)
    (srtcp_finish (zlength pre) strm)) as (e & s' & mb' & E & _ & _ & Hlive & Hgood);
    [done|done|unfold WRITE_MAX; lia|done| |].
  - intros s' mb' pos Hc' Hh'. destruct (protect_payload_ok ck ssrc ix (hdr ++ be_bytes 4 (2 ^ 31 + ix)) pl) as [_ Hpp]; [tauto|].
    pose proof (srtcp_finish_spec s' mb' pre _ pos ck strm Hh' ltac:(by destruct hdr) Hc') as Hfin.
    apply Hfin.
    + rewrite length_app. unfold WRITE_MAX. change (st_rtcp_index strm) with ix. lia.
    + done.
  - exists s', mb'. specialize (Hlive Ho) as ->. split; [exact E|auto].
Qed.

(** ** Decryption *)

Lemma index_word_fields ep ix : 0 <= ep <= 1 -> 0 <= ix < 2 ^ 31 ->
  nz (Z.land (Z.shiftr (ep * 2 ^ 31 + ix) 31) 1) = nz ep /\ Z.land (ep * 2 ^ 31 + ix) 0x7fffffff = ix.
Proof.
  intros. rewrite land_1, Z.shiftr_div_pow2 by lia. change 0x7fffffff with (2 ^ 31 - 1). rewrite land_ones_mod by lia.
  split; [f_equal|]; dlia.
Qed.

Lemma check_replay_rtcp_eq s mb ssrc i ix : stream_find (s_streaml s) ssrc = Some i ->
  fst (srtp_replay_check (st_replay_rtcp (strm_of (s_streaml s) ssrc)) ix) = true ->
  exists l', check_replay_rtcp i ix (Pst s mb) = Some (0, Pst (set_streaml l' s) mb).
Proof.
  intros E Hrc. pose proof (strm_of_lookup _ _ _ E) as El. unfold check_replay_rtcp, get_strm, bind at 1.
  cbn [p_srtp]. rewrite El. destruct (srtp_replay_check _ ix) as [ok r]. simpl in Hrc. subst ok. eexists. done.
Qed.

(** Checking the tag of a packet whose tag is right. *)
Lemma srtcp_tag_spec s mb pre body ck ssrc i ix : holds mb (pre ++ body ++ protect_tag ck body) (zlength pre + zlength body) ->
  body <> [] -> comp_ok (s_rtcp s) ck -> zlength pre + zlength body + 24 < WRITE_MAX ->
  stream_find (s_streaml s) ssrc = Some i ->
  (k_hmac ck <> None -> fst (srtp_replay_check (st_replay_rtcp (strm_of (s_streaml s) ssrc)) ix) = true) ->
  exists s' mb' pos, srtcp_decrypt_tag (zlength pre) i ix (Pst s mb) = Some (0, Pst s' mb') /\
    comp_ok (s_rtcp s') ck /\ holds mb' (pre ++ body) pos.
Proof.
  intros Hh Hne Hc Hw Hi Hrc. pose proof Hc as (Hck & _ & _ & Htl & Hhm & _). unfold WRITE_MAX in Hw.
  unfold srtcp_decrypt_tag, get_comp, bind at 1. cbn [p_srtp comp_of]. rewrite Hhm, Htl.
  destruct (protect_tag_ok ck body Hck) as (_ & _ & Htag).
  destruct (k_hmac ck) as [hk|] eqn:Ek; cbn [fmap option_fmap option_map].
  2: { exists s, mb. eexists. unfold protect_tag in Hh. rewrite Ek, app_nil_r in Hh. eauto. }
  specialize (Htag ltac:(done)). specialize (Hrc ltac:(done)). pose proof Hck as (_ & _ & Hr).
  unfold get_mb, bind at 1. cbn [p_mb]. rewrite (h_pos _ _ _ Hh), (proj2 (Z.ltb_ge _ _)) by lia.
  rewrite app_assoc, <- Nat2Z.inj_add, <- length_app in Hh. set (a := pre ++ body) in *.
  rewrite <- Nat2Z.inj_add, <- length_app. fold a. assert (zlength a < 2 ^ 31) by (unfold a; rewrite length_app; lia).
  destruct (read_tag_eq s mb a _ ck Hh Hck Htag) as (mb1 & arr & E1 & Hh1 & Earr).
  rewrite (bind_Some _ _ _ _ _ E1). cbn [nz Z.eqb negb].
  destruct (at_posend_eq s _ _ _ (zlength pre) (zlength a) Hh1) as (mb2 & E2 & Hh2); [rewrite length_app; lia|lia|].
  rewrite (bind_Some _ _ _ _ _ E2). rewrite take_zlength in Hh2.
  rewrite (bind_Some _ _ _ _ _ (digest_left_eq s mb2 pre _ hk Hh2 Hne)). cbn [nz Z.eqb negb].
  rewrite (bind_Some _ _ _ _ _ (mem_eq_eq _ _ _ _ _ _ (load_tag ck hk _ Hck) Earr)).
  unfold protect_tag. rewrite Ek, bool_decide_true by done. cbn [negb].
  destruct (check_replay_rtcp_eq s mb2 ssrc i ix Hi Hrc) as (l' & ->). eexists _, mb2, _. done.
Qed.

(** Additional data that may lie beyond the end of the packet. *)
Lemma decr_aad_load w s mb p n x A e o A' : load_at p n mb = Some (x, mb) -> c_aes (comp_of w s) = Some A ->
  aes_decr A false x = (e, o, A') -> decr_aad w p n (Pst s mb) = Some (e, Pst (set_aes w A' s) mb).
Proof.
  intros El HA HE. unfold decr_aad. rewrite (bind_Some _ _ _ _ _ (on_mb_eq _ s _ _ _ El)).
  unfold c_decr, call_aes, get_comp, bind, modify, ret. simpl. by rewrite HA, HE.
Qed.

Lemma load_set_end p n x e mb : load_at p n mb = Some (x, mb) -> load_at p n (set_end e mb) = Some (x, set_end e mb).
Proof. unfold load_at. cbn [mb_buf set_end]. by destruct (mem_load _ _ _) as [y|]; [intros [= ->]|]. Qed.

(** The end of the packet moved before the trailer, which stays in the block. *)
Lemma before_trailer mb a T pos : holds mb (a ++ T) pos -> zlength T = 4 ->
  holds (set_end (zlength a) mb) a pos /\
  load_at (zlength a) 4 (set_end (zlength a) mb) = Some (T, set_end (zlength a) mb).
Proof.
  intros Hh LT. split.
  - rewrite <- (h_pos _ _ _ Hh). pose proof (holds_set_posend _ _ _ (mb_pos mb) (zlength a) Hh) as Hm.
    rewrite take_zlength in Hm. apply Hm; [rewrite length_app; lia|apply (wf_pos _ (h_wf _ _ _ Hh))].
  - apply load_set_end. rewrite (holds_load _ _ _ _ _ Hh) by (rewrite ?length_app; lia).
    by rewrite <- LT, slice_app_end.
Qed.

(** Header and index word as additional data of a GCM packet. *)
Lemma srtcp_aad_decr s mb pre hdr P T k ck A d iv pos : holds mb (pre ++ hdr ++ P) pos ->
  load_at (zlength (pre ++ hdr ++ P)) 4 mb = Some (T, mb) -> zlength T = 4 -> bytes_ok T ->
  comp_ok (s_rtcp s) ck -> k_mode ck = AES_MODE_GCM -> k_aes ck = Some k -> zlength hdr <= INT_MAX ->
  aes_in A (View AES_MODE_GCM k d (Some iv) [] None None) ->
  exists A', (decr_aad RTCP (zlength pre) (zlength hdr) |; decr_aad RTCP (zlength (pre ++ hdr ++ P)) 4)
      (Pst (set_aes RTCP A s) mb) = Some (0, Pst (set_aes RTCP A' s) mb) /\
    aes_in A' (View AES_MODE_GCM k false (Some iv) (hdr ++ T) None None) /\
    comp_ok (s_rtcp (set_aes RTCP A' s)) ck.
Proof.
  intros Hh Hld LT HT Hc Hm Hk Hl Hin. pose proof (holds_ok _ _ _ Hh) as Hb. rewrite !Forall_app in Hb.
  destruct (aes_decr_aad_first _ _ _ _ hdr Hin) as (o1 & A1 & Ea1 & Hin1); [tauto|done|].
  destruct (aes_decr_aad_next _ _ _ _ T Hin1) as (o2 & A2 & Ea2 & Hin2); [done|unfold INT_MAX; lia|].
  exists A2. split; [|split; [done|]].
  - unfold or_err. rewrite (bind_Some _ _ _ _ _ (decr_aad_eq RTCP _ mb pre hdr P _ A _ _ _ Hh (set_aes_get _ _ _) Ea1)).
    rewrite (bind_Some _ _ _ _ _ (decr_aad_load RTCP _ mb _ 4 T A1 _ _ _ Hld (set_aes_get _ _ _) Ea2)).
    by rewrite !set_aes_set.
  - apply (set_aes_upd RTCP A2 s ck k Hc Hk). rewrite Hm. eauto using aes_in_keyed.
Qed.

(** Decrypting and authenticating a sealed payload. *)
Lemma srtcp_open_tail s mb a pl k ck A iv aad pos : let ct := stream AES_MODE_GCM k (take 12 iv) pl in
  holds mb (a ++ ct ++ gcm_tag k (take 12 iv) aad ct) pos -> comp_ok (s_rtcp s) ck -> bytes_ok pl ->
  zlength a + zlength pl + 16 < 2 ^ 31 -> k_mode ck = AES_MODE_GCM -> k_aes ck = Some k ->
  c_aes (s_rtcp s) = Some A -> aes_in A (View AES_MODE_GCM k false (Some iv) aad None None) ->
  exists s' mb' p,
    (at_pos (zlength a) ;;
     let* mb := get_mb in
     if mbuf_get_left mb <? GCM_TAGLEN then ret EBADMSG
     else
       let tag_start := u64 (mb_end mb - GCM_TAGLEN) in
       check (decr_at RTCP (mb_pos mb) (u64 (tag_start - zlength a)))
         (let* tag := on_mb (load_at tag_start GCM_TAGLEN) in
          check (c_authenticate RTCP tag)
            (on_mb (mbuf_set_end tag_start) ;; ret 0))) (Pst s mb) = Some (0, Pst s' mb') /\
    holds mb' (a ++ pl) p.
Proof.
  intros ct Hh Hc Hpl Hw Hm Hk HA Hin. set (tag := gcm_tag _ _ _ _) in Hh.
  assert (zlength tag = 16) as Lt by (unfold tag; by rewrite gcm_tag_length).
  assert (zlength ct = zlength pl) as Lc by (unfold ct; by rewrite stream_length).
  destruct (at_pos_eq s _ _ _ (zlength a) Hh) as (mb1 & E1 & Hh1); [lia|]. rewrite (bind_Some _ _ _ _ _ E1).
  unfold get_mb, bind at 1, GCM_TAGLEN. cbn [p_mb]. rewrite (holds_left _ _ _ Hh1) by (rewrite !length_app; lia).
  rewrite (proj2 (Z.ltb_ge _ _)) by (rewrite !length_app; lia). rewrite <- (holds_end _ _ _ Hh1), (h_pos _ _ _ Hh1).
  cbv zeta. rewrite (wrap_small 64 (zlength _ - 16)) by (rewrite !length_app; lia).
  replace (zlength (a ++ ct ++ tag) - 16) with (zlength (a ++ ct)) by (rewrite !length_app; lia).
  rewrite (wrap_small 64) by (rewrite !length_app; lia).
  replace (zlength (a ++ ct) - zlength a) with (zlength ct) by (rewrite !length_app; lia).
  destruct (gcm_open RTCP s mb1 a ct tag _ k ck A iv aad tag Hh1 Hc Hm Hk) as (s1 & s2 & mb2 & E3 & E4 & Hu & Hh2);
    [unfold INT_MAX; lia|lia|done|done|].
  rewrite (check_0 _ _ _ _ E3). unfold ct in Hh2 at 1. rewrite stream_inv in Hh2 by done.
  assert (load_at (zlength (a ++ ct)) 16 mb2 = Some (tag, mb2)) as El.
  { rewrite (holds_load _ _ _ _ _ Hh2) by (rewrite ?length_app; lia). rewrite app_assoc, <- Lt.
    replace (zlength (a ++ ct)) with (zlength (a ++ pl)) by (rewrite !length_app; lia). by rewrite slice_app_end. }
  rewrite (bind_Some _ _ _ _ _ (on_mb_eq _ s1 _ _ _ El)). specialize (E4 mb2).
  rewrite bool_decide_true in E4 by done. rewrite (check_0 _ _ _ _ E4).
  destruct (set_end_eq s2 mb2 _ _ (zlength (a ++ pl)) Hh2) as (mb3 & E5 & Hh3); [rewrite !length_app; lia|].
  replace (zlength (a ++ ct)) with (zlength (a ++ pl)) by (rewrite !length_app; lia).
  rewrite (bind_Some _ _ _ _ _ E5). rewrite app_assoc, take_zlength in Hh3. eexists _, mb3, _. done.
Qed.

(** Opening the payload; [mb] holds header, payload and trailer, and the end
    is moved before the trailer. *)
Lemma srtcp_open s mb pre hdr pl ck ssrc ix pos : let aad := hdr ++ be_bytes 4 (2 ^ 31 + ix) in
  let P := protect_payload ck ssrc ix aad pl in
  holds mb ((pre ++ hdr ++ P) ++ srtcp_trailer ck ix) pos -> comp_ok (s_rtcp s) ck -> bytes_ok pl ->
  zlength pre + zlength hdr + zlength pl + 40 < WRITE_MAX ->
  let eix := zlength (pre ++ hdr ++ P) in
  exists s' mb' p, srtcp_decrypt_payload (zlength pre) eix (zlength pre + zlength hdr) ssrc ix (nz (e_bit ck))
      (Pst s (set_end eix mb)) = Some (0, Pst s' mb') /\ holds mb' (pre ++ hdr ++ pl) p.
Proof.
  intros aad P Hh Hc Hpl Hw eix. unfold WRITE_MAX in Hw.
  assert (zlength (srtcp_trailer ck ix) = 4) as LT by (unfold srtcp_trailer; by rewrite length_be_bytes).
  destruct (before_trailer _ _ _ _ Hh LT) as [Hhe Hld]. fold eix in Hhe, Hld. set (mbe := set_end eix mb) in *.
  unfold srtcp_decrypt_payload, get_comp, match_aes. unfold bind at 1. unfold srtcp_trailer, e_bit in *.
  cbn [p_srtp comp_of]. pose proof Hc as (Hck & Hmo & _ & _ & _ & Ha). unfold P, protect_payload in *.
  destruct (k_aes ck) as [k|] eqn:Ek; cbn [nz Z.eqb negb]; [|by exists s, mbe, pos].
  destruct Ha as (A0 & HA0 & _). rewrite HA0, Hmo. destruct (k_mode ck) eqn:Hm.
  - destruct (at_pos_eq s _ _ _ (zlength pre + zlength hdr) Hhe) as (mb1 & E1 & Hh1); [lia|].
    rewrite (bind_Some _ _ _ _ _ E1). rewrite app_assoc, <- Nat2Z.inj_add, <- length_app in Hh1.
    destruct (decrypt_ctr_spec RTCP s mb1 (pre ++ hdr) _ k ck ssrc ix ix Hh1 Hc) as (s' & mb' & E2 & _ & Hh2);
      [rewrite stream_length, length_app; unfold WRITE_MAX; lia|done..|].
    rewrite stream_inv in Hh2 by done. rewrite <- app_assoc in Hh2. by eexists s', mb', _.
  - destruct (gcm_set_iv RTCP s mbe k ck ssrc ix ix Hc Hm Ek eq_refl) as (A & d & iv & E1 & Hin & Eiv).
    rewrite (bind_Some _ _ _ _ _ E1). rewrite (wrap_small 64) by lia.
    replace (zlength pre + zlength hdr - zlength pre) with (zlength hdr) by lia.
    change (1 * 2 ^ 31 + ix) with (2 ^ 31 + ix) in *.
    destruct (srtcp_aad_decr s mbe pre hdr _ _ k ck A d iv _ Hhe Hld LT (be_bytes_ok _ _) Hc Hm Ek)
      as (A2 & E2 & Hin2 & Hc2); [unfold INT_MAX; lia|done|].
    rewrite (check_0 _ _ _ _ E2), <- Nat2Z.inj_add, <- length_app. rewrite app_assoc, <- Eiv in Hhe.
    destruct (srtcp_open_tail (set_aes RTCP A2 s) mbe (pre ++ hdr) pl k ck A2 iv aad _ Hhe Hc2 Hpl)
      as (s' & mb' & p & E3 & Hh3); [rewrite length_app; lia|exact Hm|exact Ek|apply (set_aes_get RTCP)|exact Hin2|].
    rewrite <- app_assoc in Hh3. exists s', mb', p. split; [exact E3|done].
Qed.

(** From the start of [srtcp_decrypt] to the authentication: the stream, and
    the E-bit and index read from the word [w] before the tag. *)
Lemma srtcp_decrypt_start ck s mb h4 ssrc pre P w tag :
  length h4 = 4%nat -> 0 <= ssrc < 2 ^ 32 -> comp_ok (s_rtcp s) ck -> streams_ok (s_streaml s) -> no_oom ->
  has_room (s_streaml s) ssrc -> zlength pre + zlength P + 80 < WRITE_MAX -> 0 <= w < 2 ^ 32 ->
  zlength tag = k_tag_len ck ->
  let hdr := rtcp_head h4 ssrc in
  let body := (hdr ++ P) ++ be_bytes 4 w in
  holds mb (pre ++ body ++ tag) (zlength pre) ->
  exists i l' mb', let s1 := set_streaml l' s in
    srtcp_decrypt (Pst s mb) =
      check (srtcp_decrypt_tag (zlength pre) i (Z.land w 0x7fffffff))
        (on_mb (mbuf_set_end (zlength (pre ++ hdr ++ P))) ;;
         check (srtcp_decrypt_payload (zlength pre) (zlength (pre ++ hdr ++ P)) (zlength pre + zlength hdr) ssrc
                  (Z.land w 0x7fffffff) (nz (Z.land (Z.shiftr w 31) 1)))
           (at_pos (zlength pre) ;; ret 0)) (Pst s1 mb') /\
    stream_find l' ssrc = Some i /\ strm_of l' ssrc = strm_of (s_streaml s) ssrc /\
    holds mb' (pre ++ body ++ tag) (zlength pre + zlength body).
Proof.
  intros Hl4 Hssrc Hc Hs Ho Hroom Hw Hword Ltag hdr body Hh. unfold WRITE_MAX in Hw.
  assert (length hdr = 8%nat) as Hlh by (by apply length_rtcp_head). pose proof Hc as (Hck & _ & _ & Htl & _).
  set (T := be_bytes 4 w) in body. assert (zlength T = 4) as LT by (unfold T; by rewrite length_be_bytes).
  pose proof Hck as (_ & _ & Htag). unfold SHA_DIGEST_LENGTH in Htag.
  assert (pre ++ body ++ tag = pre ++ hdr ++ P ++ T ++ tag) as Eapp by (unfold body; by rewrite <- !app_assoc).
  pose proof Hh as Hh'. rewrite Eapp in Hh'.
  destruct (holds_reads mb pre hdr _ _ _ Hh' (rtcp_ssrc_reads h4 ssrc Hl4 Hssrc)) as (mb1 & E1 & Hh1).
  unfold srtcp_decrypt, get_mb, bind at 1. cbn [p_mb]. rewrite (h_pos _ _ _ Hh).
  rewrite (bind_Some _ _ _ _ _ (on_mb_eq _ s _ _ _ E1)). cbn [nz Z.eqb negb].
  match goal with |- context [with_stream _ ?k _] =>
    destruct (with_stream_get s mb1 ssrc k Hs Ho Hroom) as (i & l' & -> & Hs' & Hi & Hsm) end. cbv beta.
  set (s1 := set_streaml l' s). unfold bind at 1. cbn [p_mb]. unfold get_comp, bind at 1. cbn [p_srtp comp_of].
  change (s_rtcp s1) with (s_rtcp s). rewrite Htl. destruct (header_len _ _ _ _ Hh1) as [_ ->].
  rewrite (proj2 (Z.ltb_ge _ _)) by (rewrite !length_app; lia). rewrite (h_pos _ _ _ Hh1), <- (holds_end _ _ _ Hh1).
  rewrite (wrap_small 64) by (rewrite !length_app; lia).
  replace (zlength (pre ++ hdr ++ P ++ T ++ tag) - (4 + k_tag_len ck)) with (zlength (pre ++ hdr ++ P))
    by (rewrite !length_app; lia).
  destruct (at_pos_eq s1 _ _ _ (zlength (pre ++ hdr ++ P)) Hh1) as (mb2 & E2 & Hh2); [rewrite !length_app; lia|].
  rewrite (bind_Some _ _ _ _ _ E2). rewrite (app_assoc hdr), (app_assoc pre) in Hh2.
  destruct (holds_reads mb2 (pre ++ hdr ++ P) T tag mbuf_read_ntohl w Hh2) as (mb3 & E3 & Hh3).
  { by apply (reads_net_int 4). }
  rewrite (bind_Some _ _ _ _ _ (on_mb_eq _ s1 _ _ _ E3)). exists i, l', mb3. split_and!; [done|done|done|].
  rewrite Eapp, (app_assoc hdr), (app_assoc pre). replace (zlength pre + zlength body)
    with (zlength (pre ++ hdr ++ P) + zlength T); [done|]. unfold body. rewrite !length_app. lia.
Qed.

Lemma srtcp_decrypt_spec ck s mb h4 ssrc pl pre ix :
  length h4 = 4%nat -> 0 <= ssrc < 2 ^ 32 -> comp_ok (s_rtcp s) ck -> streams_ok (s_streaml s) -> no_oom ->
  has_room (s_streaml s) ssrc -> zlength pre + zlength pl + 100 < WRITE_MAX -> 0 <= ix < 2 ^ 31 -> bytes_ok pl ->
  (k_hmac ck = None -> k_tag_len ck = 0) ->
  (k_hmac ck <> None -> fst (srtp_replay_check (st_replay_rtcp (strm_of (s_streaml s) ssrc)) ix) = true) ->
  holds mb (pre ++ srtcp_protect ck ssrc ix (rtcp_head h4 ssrc) pl) (zlength pre) ->
  exists s' mb', srtcp_decrypt (Pst s mb) = Some (0, Pst s' mb') /\
    holds mb' (pre ++ rtcp_head h4 ssrc ++ pl) (zlength pre).
Proof.
  intros Hl4 Hssrc Hc Hs Ho Hroom Hw Hix Hpl Htl0 Hrc Hh. unfold WRITE_MAX in Hw. pose proof Hc as (Hck & _).
  unfold srtcp_protect, srtcp_body in Hh. set (hdr := rtcp_head h4 ssrc) in *.
  assert (length hdr = 8%nat) as Hlh by (by apply length_rtcp_head).
  set (P := protect_payload _ _ _ _ _) in Hh. set (body := (hdr ++ P) ++ _) in Hh.
  assert (zlength (protect_tag ck body) = k_tag_len ck) as Ltag.
  { destruct (k_hmac ck) eqn:Ek; [apply protect_tag_ok; [done|by rewrite Ek]|].
    unfold protect_tag. rewrite Ek. by rewrite Htl0. }
  destruct (protect_payload_ok ck ssrc ix (hdr ++ be_bytes 4 (2 ^ 31 + ix)) pl Hpl) as [_ LP]. fold P in LP.
  assert (0 <= e_bit ck <= 1) as He by (unfold e_bit; destruct (k_aes ck); lia).
  destruct (srtcp_decrypt_start ck s mb h4 ssrc pre P (e_bit ck * 2 ^ 31 + ix) (protect_tag ck body))
    as (i & l' & mb3 & -> & Hi & Hsm & Hh3); try done; [unfold WRITE_MAX; lia|lia|].
  destruct (index_word_fields (e_bit ck) ix He Hix) as [-> ->].
  destruct (srtcp_tag_spec (set_streaml l' s) mb3 pre body ck ssrc i ix Hh3) as (s2 & mb4 & pos & E4 & Hc2 & Hh4).
  { unfold body. by destruct hdr. }
  { done. }
  { unfold body, WRITE_MAX, srtcp_trailer. rewrite !length_app, length_be_bytes. lia. }
  { done. }
  { intros Hk. cbn [s_streaml set_streaml]. rewrite Hsm. auto. }
  rewrite (check_0 _ _ _ _ E4). unfold body in Hh4. rewrite (app_assoc pre) in Hh4.
  destruct (srtcp_open s2 mb4 pre hdr pl ck ssrc ix pos) as (s3 & mb5 & p & E5 & Hh5); [done..|unfold WRITE_MAX; lia|].
  rewrite (bind_Some _ _ _ tt (Pst s2 (set_end (zlength (pre ++ hdr ++ P)) mb4))) by done.
  rewrite (check_0 _ _ _ _ E5). destruct (at_pos_eq s3 _ _ _ (zlength pre) Hh5) as (mb6 & E6 & Hh6); [lia|].
  rewrite (bind_Some _ _ _ _ _ E6). by exists s3, mb6.
Qed.

(** ** Properties *)

(** C4: SRTCP round trip: with the same keys on both sides and memory
    available, encrypting an RTCP packet succeeds and decrypting the bytes,
    received in any buffer, returns the original packet, when its index is new
    to the receiver's replay window.  Counter mode with HMAC, GCM, and
    authentication without encryption are covered. *)
Theorem srtcp_roundtrip ck tx rx mbt h4 ssrc pl pre pre' :
  length h4 = 4%nat -> 0 <= ssrc < 2 ^ 32 -> comp_ok (s_rtcp tx) ck -> comp_ok (s_rtcp rx) ck ->
  streams_ok (s_streaml tx) -> streams_ok (s_streaml rx) -> no_oom ->
  has_room (s_streaml tx) ssrc -> has_room (s_streaml rx) ssrc ->
  zlength pre + zlength pre' + zlength pl + 100 < WRITE_MAX -> (k_hmac ck = None -> k_tag_len ck = 0) ->
  (k_hmac ck <> None -> fst (srtp_replay_check (st_replay_rtcp (strm_of (s_streaml rx) ssrc))
     (next_index (strm_of (s_streaml tx) ssrc))) = true) ->
  holds mbt (pre ++ rtcp_head h4 ssrc ++ pl) (zlength pre) ->
  exists tx' mbt' pkt, srtcp_encrypt (Pst tx mbt) = Some (0, Pst tx' mbt') /\
    holds mbt' (pre ++ pkt) (zlength pre) /\
    forall mbr, holds mbr (pre' ++ pkt) (zlength pre') ->
      exists rx' mbr', srtcp_decrypt (Pst rx mbr) = Some (0, Pst rx' mbr') /\
        holds mbr' (pre' ++ rtcp_head h4 ssrc ++ pl) (zlength pre').
Proof.
  intros Hl4 Hssrc Htx Hrx Hst Hsr Ho Hrt Hrr Hw Htl Hrc Hh. unfold WRITE_MAX in Hw.
  pose proof (holds_ok _ _ _ Hh) as Hb. rewrite !Forall_app in Hb.
  destruct (srtcp_encrypt_spec ck tx mbt h4 ssrc pl pre) as (tx' & mbt' & E & Hh'); try done; [unfold WRITE_MAX; lia|].
  eexists tx', mbt', _. split_and!; [exact E|exact Hh'|]. intros mbr Hhr.
  pose proof (next_index_range (strm_of (s_streaml tx) ssrc)).
  eapply (srtcp_decrypt_spec ck); try done; [unfold WRITE_MAX; lia|tauto].
Qed.

(** C38: GCM sessions accept unauthenticated SRTCP: in a session with a GCM
    suite, an RTCP packet of any content followed by an index word with the
    E-bit clear is accepted by [srtcp_decrypt] and delivered, whatever the keys;
    no tag is checked, and the replay window is not consulted. *)
Theorem srtcp_gcm_unauthenticated ck s mb h4 ssrc pl pre ix :
  k_hmac ck = None -> k_tag_len ck = 0 ->
  length h4 = 4%nat -> 0 <= ssrc < 2 ^ 32 -> comp_ok (s_rtcp s) ck -> streams_ok (s_streaml s) -> no_oom ->
  has_room (s_streaml s) ssrc -> zlength pre + zlength pl + 100 < WRITE_MAX -> 0 <= ix < 2 ^ 31 ->
  holds mb (pre ++ rtcp_head h4 ssrc ++ pl ++ be_bytes 4 ix) (zlength pre) ->
  exists s' mb', srtcp_decrypt (Pst s mb) = Some (0, Pst s' mb') /\
    holds mb' (pre ++ rtcp_head h4 ssrc ++ pl) (zlength pre).
Proof.
  intros Hk Htl Hl4 Hssrc Hc Hs Ho Hroom Hw Hix Hh. unfold WRITE_MAX in Hw.
  set (hdr := rtcp_head h4 ssrc) in *. rewrite (app_assoc hdr), <- (app_nil_r ((hdr ++ pl) ++ be_bytes 4 ix)) in Hh.
  destruct (srtcp_decrypt_start ck s mb h4 ssrc pre pl ix []) as (i & l' & mb1 & -> & _ & _ & Hh1);
    try done; [unfold WRITE_MAX; lia|lia|].
  fold hdr in Hh1 |- *. destruct (index_word_fields 0 ix ltac:(lia) Hix) as [Eb Ei].
  rewrite Z.mul_0_l, Z.add_0_l in Eb, Ei. rewrite Eb, Ei.
  rewrite (check_0 _ _ _ (Pst (set_streaml l' s) mb1)).
  2: { unfold srtcp_decrypt_tag, get_comp, bind. cbn [p_srtp comp_of set_streaml s_rtcp].
       destruct Hc as (_ & _ & _ & _ & -> & _). by rewrite Hk. }
  rewrite app_nil_r, (app_assoc pre) in Hh1.
  destruct (before_trailer mb1 (pre ++ hdr ++ pl) (be_bytes 4 ix) _ Hh1) as [Hh2 _]; [by rewrite length_be_bytes|].
  rewrite (bind_Some _ _ _ tt (Pst (set_streaml l' s) (set_end (zlength (pre ++ hdr ++ pl)) mb1))) by done.
  rewrite (check_0 _ _ _ (Pst (set_streaml l' s) (set_end (zlength (pre ++ hdr ++ pl)) mb1))) by done.
  destruct (at_pos_eq (set_streaml l' s) _ _ _ (zlength pre) Hh2) as (mb3 & E3 & Hh3); [lia|].
  rewrite (bind_Some _ _ _ _ _ E3). by eexists _, mb3.
Qed.

End srtcp.
