(* ===== verification/SrtpWitness.v ===== *)
(** * SRTP on concrete packets

    The theorems of [SrtpProps] applied to sessions set up by [srtp_alloc] on
    the model of the EVP interface. *)

From S2P Require Export Crypto SrtpProps SrtcpThms.

#[local] Existing Instance lp64_host.
#[local] Existing Instance model_evp.
#[local] Existing Instance model_laws.

Definition key_ex (n : nat) : list Z := (fun i => (Z.of_nat i * 37 + 11) mod 256) <$> seq 0 n.

Definition session_ex (suite : srtp_suite) (n : nat) : srtp :=
  match srtp_alloc suite (key_ex n) 0 with
  | (_, Some s) => s
  | _ => Srtp comp_zero comp_zero []
  end.

Definition ctr_ex : srtp := session_ex SRTP_AES_CM_128_HMAC_SHA1_80 30.
Definition gcm_ex : srtp := session_ex SRTP_AES_128_GCM 28.

Definition ctr_keys : keys := session_keys 0 SRTP_AES_CM_128_HMAC_SHA1_80 (key_ex 30) true.
Definition gcm_keys : keys := session_keys 0 SRTP_AES_128_GCM (key_ex 28) true.

Definition session_ready (suite : srtp_suite) (n : nat) : bool :=
  match srtp_alloc suite (key_ex n) 0 with (0, Some _) => true | _ => false end.

Lemma session_ex_alloc suite n : session_ready suite n = true ->
  srtp_alloc suite (key_ex n) 0 = (0, Some (session_ex suite n)).
Proof.
  unfold session_ready, session_ex. destruct (srtp_alloc suite (key_ex n) 0) as [[] [s|]]; done.
Qed.

Lemma ctr_ex_ok : sess_ok ctr_ex ctr_keys /\ auth_keys ctr_keys.
Proof. destruct (srtp_alloc_ok _ _ _ _ (session_ex_alloc SRTP_AES_CM_128_HMAC_SHA1_80 30 eq_refl)) as (? & ? & _). done. Qed.

Lemma gcm_ex_ok : sess_ok gcm_ex gcm_keys /\ auth_keys gcm_keys.
Proof. destruct (srtp_alloc_ok _ _ _ _ (session_ex_alloc SRTP_AES_128_GCM 28 eq_refl)) as (? & ? & _). done. Qed.

(** A packet in a buffer with some room. *)
Definition buf_ex (data : list Z) (pos : Z) : mbuf :=
  Mbuf (data ++ replicate 64 0) (zlength data + 64) pos (zlength data).

Lemma buf_ex_holds data pos : forallb (fun b => (0 <=? b) && (b <? 256)) data = true ->
  (0 <=? pos) && (pos <? 1000) && (zlength data <? 1000) = true -> holds (buf_ex data pos) data pos.
Proof.
  intros Hb Hp. assert (bytes_ok data) as Hok.
  { rewrite forallb_forall in Hb. apply List.Forall_forall. intros b Hin. specialize (Hb b Hin). unfold byte_ok. lia. }
  split; [|unfold buf_ex; simpl; by rewrite Nat2Z.id, take_app_length|done].
  split; cbn [buf_ex mb_size mb_buf mb_pos mb_end]; rewrite ?length_app, ?length_replicate; unfold MEM_SIZE_MAX; try lia.
  apply Forall_app. split; [done|]. apply Forall_replicate. unfold byte_ok. lia.
Qed.

Definition xdata_ex : list Z := [16; 170; 0; 0].
Definition hdrb_ex : list Z := wire_header hdr_ex 48862 1 xdata_ex.
Definition plain_ex : list Z := [104; 101; 108; 108; 111].

Lemma wire_ex_ok : wire_ok hdr_ex 48862 1 xdata_ex.
Proof.
  unfold wire_ok. split; [|split_and!; (reflexivity || lia)].
  split; cbn; try lia; try done. repeat constructor; lia.
Qed.

Lemma srtp_roundtrip_witness :
  (exists tx' mbt' pkt, srtp_encrypt (Pst ctr_ex (buf_ex ([7; 7] ++ hdrb_ex ++ plain_ex) 2)) = Some (0, Pst tx' mbt') /\
    holds mbt' ([7; 7] ++ pkt) 2 /\
    forall mbr, holds mbr ([] ++ pkt) 0 -> exists rx' mbr',
      srtp_decrypt (Pst ctr_ex mbr) = Some (0, Pst rx' mbr') /\ holds mbr' ([] ++ hdrb_ex ++ plain_ex) 0) /\
  (exists tx' mbt' pkt, srtp_encrypt (Pst gcm_ex (buf_ex ([7; 7] ++ hdrb_ex ++ plain_ex) 2)) = Some (0, Pst tx' mbt') /\
    holds mbt' ([7; 7] ++ pkt) 2 /\
    forall mbr, holds mbr ([] ++ pkt) 0 -> exists rx' mbr',
      srtp_decrypt (Pst gcm_ex mbr) = Some (0, Pst rx' mbr') /\ holds mbr' ([] ++ hdrb_ex ++ plain_ex) 0).
Proof.
  split.
  - apply (srtp_roundtrip ctr_keys ctr_ex ctr_ex hdr_ex 48862 1 xdata_ex plain_ex [7; 7] []);
      [apply ctr_ex_ok|apply ctr_ex_ok|apply ctr_ex_ok|exact wire_ex_ok|apply buf_ex_holds; vm_compute; reflexivity
      |vm_compute; reflexivity|intros n; reflexivity|right; vm_compute; reflexivity|right; vm_compute; reflexivity
      |reflexivity|vm_compute; discriminate|vm_compute; reflexivity].
  - apply (srtp_roundtrip gcm_keys gcm_ex gcm_ex hdr_ex 48862 1 xdata_ex plain_ex [7; 7] []);
      [apply gcm_ex_ok|apply gcm_ex_ok|apply gcm_ex_ok|exact wire_ex_ok|apply buf_ex_holds; vm_compute; reflexivity
      |vm_compute; reflexivity|intros n; reflexivity|right; vm_compute; reflexivity|right; vm_compute; reflexivity
      |reflexivity|vm_compute; discriminate|vm_compute; reflexivity].
Defined.

(** The error code of an operation. *)
Definition err_of {A} (r : option (Z * A)) : Z := match r with Some (e, _) => e | None => -1 end.

Definition pkt_ex : list Z :=
  srtp_protect ctr_keys (rtp_ssrc hdr_ex) 0 (rtp_seq hdr_ex) hdrb_ex plain_ex.

Lemma pkt_ex_holds : holds (buf_ex pkt_ex 0) pkt_ex 0.
Proof. apply buf_ex_holds; vm_compute; reflexivity. Qed.

Lemma pkt_ex_err : err_of (srtp_decrypt (Pst ctr_ex (buf_ex pkt_ex 0))) = 0.
Proof. vm_compute. reflexivity. Qed.

Lemma srtp_decrypt_authentic_witness : exists s' mb', srtp_decrypt (Pst ctr_ex (buf_ex pkt_ex 0)) = Some (0, Pst s' mb') /\
  sess_ok s' ctr_keys /\ exists pre hdrb pl ssrc seq,
    pkt_ex = pre ++ srtp_protect ctr_keys ssrc (st_roc (pkt_strm ctr_ex ssrc seq)) seq hdrb pl /\
    holds mb' (pre ++ hdrb ++ pl) (zlength pre).
Proof.
  destruct (srtp_decrypt_authentic ctr_keys ctr_ex (buf_ex pkt_ex 0)) as (e & s' & mb' & E & Hs & _ & Hok);
    [apply ctr_ex_ok|apply ctr_ex_ok|apply pkt_ex_holds|vm_compute; reflexivity|].
  assert (e = 0) as -> by (pose proof pkt_ex_err as Hc; rewrite E in Hc; exact Hc).
  exists s', mb'. split; [exact E|]. split; [exact Hs|].
  destruct (Hok eq_refl) as (pre & hdrb & pl & ssrc & seq & Epkt & _ & Hh & _).
  exists pre, hdrb, pl, ssrc, seq. split; [|exact Hh]. rewrite <- Epkt. symmetry. apply pkt_ex_holds.
Defined.

Lemma srtp_replay_rejected_witness : exists s' mb' e s'' mb'',
  srtp_decrypt (Pst ctr_ex (buf_ex pkt_ex 0)) = Some (0, Pst s' mb') /\
  srtp_decrypt (Pst s' (buf_ex pkt_ex 0)) = Some (e, Pst s'' mb'') /\ e <> 0.
Proof.
  destruct (srtp_decrypt (Pst ctr_ex (buf_ex pkt_ex 0))) as [[e [s' mb']]|] eqn:E.
  - assert (e = 0) as -> by (pose proof pkt_ex_err as Hc; rewrite E in Hc; exact Hc).
    destruct (srtp_replay_rejected ctr_keys ctr_ex (buf_ex pkt_ex 0) s' mb') as (e & s'' & mb'' & E2 & Hne);
      [apply ctr_ex_ok|apply ctr_ex_ok|apply pkt_ex_holds|vm_compute; reflexivity|exact E|].
    exists s', mb', e, s'', mb''. split; [reflexivity|]. split; [exact E2|exact Hne].
  - pose proof pkt_ex_err as Hc. rewrite E in Hc. discriminate Hc.
Defined.

Definition strm_ex : srtp_stream := Strm srtp_replay_init srtp_replay_init (rtp_ssrc hdr_ex) 0 40000 true 0.

Lemma roc_tracks_witness :
  65536 * st_roc (roc_update 4660 strm_ex) + 4660 = 70196 /\
  65536 * st_roc (s_l_update 4660 (roc_update 4660 strm_ex)) + st_s_l (s_l_update 4660 (roc_update 4660 strm_ex)) = 70196.
Proof.
  destruct (roc_tracks strm_ex 70196) as (Hf & _); [vm_compute; discriminate|split; vm_compute; congruence|lia|].
  destruct Hf as (H1 & _ & H2); [split; vm_compute; congruence|]. split; [exact H1|exact H2].
Defined.

Definition forged_sess : srtp := Srtp (s_rtp ctr_ex) (s_rtcp ctr_ex) [strm_ex].
Definition forged_body : list Z := replicate 10 0.

Lemma forged_sess_ok : sess_ok forged_sess ctr_keys.
Proof.
  destruct ctr_ex_ok as [(Hc & _) _]. split_and!; [exact Hc| |].
  - split; [apply NoDup_singleton|vm_compute; discriminate].
  - intros ssrc. unfold strm_of. cbn [forged_sess s_streaml stream_find].
    destruct (st_ssrc strm_ex =? ssrc); cbn; lia.
Qed.

Lemma forged_not_authentic pl :
  hdrb_ex ++ forged_body <> srtp_protect ctr_keys (rtp_ssrc hdr_ex) (u32 (st_roc strm_ex + 1)) (rtp_seq hdr_ex) hdrb_ex pl.
Proof.
  intros E. assert (pl = []) as ->.
  { apply (f_equal length) in E. unfold srtp_protect in E. rewrite !length_app in E.
    change (protect_payload ctr_keys) with (fun ssrc ix (aad pl : list Z) =>
      stream AES_MODE_CTR (default [] (k_aes ctr_keys)) (iv_of ctr_keys ssrc ix) pl) in E. cbv beta in E.
    rewrite stream_length in E.
    assert (forall d, length (protect_tag ctr_keys d) = 10%nat) as Ht.
    { intros d. destruct (protect_tag_ok ctr_keys d) as (_ & _ & Hl); [apply ctr_ex_ok|].
      specialize (Hl ltac:(discriminate)). change (k_tag_len ctr_keys) with 10 in Hl. lia. }
    rewrite Ht in E. destruct pl; [done|]. cbn [length forged_body replicate] in E. lia. }
  revert E. apply (bool_decide_eq_false_1 _). vm_compute. reflexivity.
Qed.

Lemma srtp_forgery_advances_roc_witness : exists e s' mb',
  srtp_decrypt (Pst forged_sess (buf_ex (hdrb_ex ++ forged_body) 0)) = Some (e, Pst s' mb') /\ e <> 0 /\
  st_roc (strm_of (s_streaml s') (rtp_ssrc hdr_ex)) = 1.
Proof.
  destruct (srtp_forgery_advances_roc ctr_keys forged_sess hdr_ex 48862 1 xdata_ex [] forged_body
    (buf_ex (hdrb_ex ++ forged_body) 0)) as (e & s' & mb' & E & Hne & Hroc);
    [apply ctr_ex_ok|exact forged_sess_ok|exact wire_ex_ok|apply buf_ex_holds; vm_compute; reflexivity
    |vm_compute; reflexivity|intros n; reflexivity|left; vm_compute; discriminate|reflexivity
    |vm_compute; discriminate|exact forged_not_authentic|].
  exists e, s', mb'. split; [exact E|]. split; [exact Hne|]. rewrite Hroc. reflexivity.
Defined.

(** ** SRTCP *)

Definition gcm_rtcp_keys : keys := session_keys 3 SRTP_AES_128_GCM (key_ex 28) true.
Definition ctr_rtcp_keys : keys := session_keys 3 SRTP_AES_CM_128_HMAC_SHA1_80 (key_ex 30) true.

Lemma gcm_rtcp_ok : comp_ok (s_rtcp gcm_ex) gcm_rtcp_keys /\ streams_ok (s_streaml gcm_ex).
Proof.
  destruct (srtp_alloc_ok _ _ _ _ (session_ex_alloc SRTP_AES_128_GCM 28 eq_refl)) as ((_ & Hs & _) & _ & Hc & _). done.
Qed.

Lemma ctr_rtcp_ok : comp_ok (s_rtcp ctr_ex) ctr_rtcp_keys /\ streams_ok (s_streaml ctr_ex).
Proof.
  destruct (srtp_alloc_ok _ _ _ _ (session_ex_alloc SRTP_AES_CM_128_HMAC_SHA1_80 30 eq_refl))
    as ((_ & Hs & _) & _ & Hc & _). done.
Qed.

Definition rtcp_h4 : list Z := [128; 201; 0; 1].

Lemma srtcp_roundtrip_witness :
  exists tx' mbt' pkt,
    srtcp_encrypt (Pst ctr_ex (buf_ex ([] ++ rtcp_head rtcp_h4 77 ++ plain_ex) 0)) = Some (0, Pst tx' mbt') /\
    holds mbt' ([] ++ pkt) 0 /\
    forall mbr, holds mbr ([9] ++ pkt) 1 -> exists rx' mbr',
      srtcp_decrypt (Pst ctr_ex mbr) = Some (0, Pst rx' mbr') /\
      holds mbr' ([9] ++ rtcp_head rtcp_h4 77 ++ plain_ex) 1.
Proof.
  apply (srtcp_roundtrip ctr_rtcp_keys ctr_ex ctr_ex (buf_ex ([] ++ rtcp_head rtcp_h4 77 ++ plain_ex) 0)
    rtcp_h4 77 plain_ex [] [9]);
    [reflexivity|lia|apply ctr_rtcp_ok|apply ctr_rtcp_ok|apply ctr_rtcp_ok|apply ctr_rtcp_ok|intros n; reflexivity
    |right; vm_compute; reflexivity|right; vm_compute; reflexivity|vm_compute; reflexivity|discriminate
    |intros _; vm_compute; reflexivity|apply buf_ex_holds; vm_compute; reflexivity].
Defined.

Lemma srtcp_gcm_unauthenticated_witness : exists s' mb',
  srtcp_decrypt (Pst gcm_ex (buf_ex ([] ++ rtcp_head rtcp_h4 77 ++ plain_ex ++ be_bytes 4 5) 0)) = Some (0, Pst s' mb') /\
  holds mb' ([] ++ rtcp_head rtcp_h4 77 ++ plain_ex) 0.
Proof.
  apply (srtcp_gcm_unauthenticated gcm_rtcp_keys gcm_ex (buf_ex ([] ++ rtcp_head rtcp_h4 77 ++ plain_ex ++ be_bytes 4 5) 0)
    rtcp_h4 77 plain_ex [] 5);
    [reflexivity|reflexivity|reflexivity|lia|apply gcm_rtcp_ok|apply gcm_rtcp_ok|intros n; reflexivity
    |right; vm_compute; reflexivity|vm_compute; reflexivity|lia|apply buf_ex_holds; vm_compute; reflexivity].
Defined.
