(* ===== verification/Rtmp.v ===== *)
(** * RTMP chunk headers (src/rtmp/hdr.c)

    The basic header (format and chunk stream id in one to three bytes), the
    message headers of formats 0 to 3 and the extended timestamp. *)

From S2P Require Export Prelude Mbuf MbufSpec MbufParse Sys.

Definition RTMP_CHUNK_OFFSET : Z := 64.
Definition TIMESTAMP_24MAX : Z := 16777215.

Record rtmp_header := RtmpHeader {
  rh_format : Z;             (* unsigned format:2 *)
  rh_chunk_id : Z;
  rh_timestamp : Z;
  rh_timestamp_delta : Z;
  rh_timestamp_ext : Z;
  rh_length : Z;
  rh_type_id : Z;            (* uint8_t *)
  rh_stream_id : Z;
  rh_ext_ts : bool;
}.

Definition rh_zero : rtmp_header := RtmpHeader 0 0 0 0 0 0 0 0 false.

(** Assignments to the fields of a header. *)
Definition rh_set_format (v : Z) (h : rtmp_header) : rtmp_header :=
  RtmpHeader v (rh_chunk_id h) (rh_timestamp h) (rh_timestamp_delta h) (rh_timestamp_ext h)
    (rh_length h) (rh_type_id h) (rh_stream_id h) (rh_ext_ts h).
Definition rh_set_chunk_id (v : Z) (h : rtmp_header) : rtmp_header :=
  RtmpHeader (rh_format h) v (rh_timestamp h) (rh_timestamp_delta h) (rh_timestamp_ext h)
    (rh_length h) (rh_type_id h) (rh_stream_id h) (rh_ext_ts h).
Definition rh_set_timestamp (v : Z) (h : rtmp_header) : rtmp_header :=
  RtmpHeader (rh_format h) (rh_chunk_id h) v (rh_timestamp_delta h) (rh_timestamp_ext h)
    (rh_length h) (rh_type_id h) (rh_stream_id h) (rh_ext_ts h).
Definition rh_set_delta (v : Z) (h : rtmp_header) : rtmp_header :=
  RtmpHeader (rh_format h) (rh_chunk_id h) (rh_timestamp h) v (rh_timestamp_ext h)
    (rh_length h) (rh_type_id h) (rh_stream_id h) (rh_ext_ts h).
Definition rh_set_ext (v : Z) (h : rtmp_header) : rtmp_header :=
  RtmpHeader (rh_format h) (rh_chunk_id h) (rh_timestamp h) (rh_timestamp_delta h) v
    (rh_length h) (rh_type_id h) (rh_stream_id h) (rh_ext_ts h).
Definition rh_set_length (v : Z) (h : rtmp_header) : rtmp_header :=
  RtmpHeader (rh_format h) (rh_chunk_id h) (rh_timestamp h) (rh_timestamp_delta h) (rh_timestamp_ext h)
    v (rh_type_id h) (rh_stream_id h) (rh_ext_ts h).
Definition rh_set_type_id (v : Z) (h : rtmp_header) : rtmp_header :=
  RtmpHeader (rh_format h) (rh_chunk_id h) (rh_timestamp h) (rh_timestamp_delta h) (rh_timestamp_ext h)
    (rh_length h) v (rh_stream_id h) (rh_ext_ts h).
Definition rh_set_stream_id (v : Z) (h : rtmp_header) : rtmp_header :=
  RtmpHeader (rh_format h) (rh_chunk_id h) (rh_timestamp h) (rh_timestamp_delta h) (rh_timestamp_ext h)
    (rh_length h) (rh_type_id h) v (rh_ext_ts h).
Definition rh_set_ext_ts (v : bool) (h : rtmp_header) : rtmp_header :=
  RtmpHeader (rh_format h) (rh_chunk_id h) (rh_timestamp h) (rh_timestamp_delta h) (rh_timestamp_ext h)
    (rh_length h) (rh_type_id h) (rh_stream_id h) v.

Section rtmp.
Context `{Host}.

Definition mbuf_write_u24_hton (u24 : Z) : M mbuf Z :=
  mbuf_write_u8 (Z.shiftr u24 16) |; mbuf_write_u8 (Z.shiftr u24 8) |; mbuf_write_u8 (Z.shiftr u24 0).

Definition mbuf_read_u24_ntoh : M mbuf Z :=
  let* a := mbuf_read_u8 in
  let* b := mbuf_read_u8 in
  let* c := mbuf_read_u8 in
  ret (Z.lor (Z.lor (Z.shiftl a 16) (Z.shiftl b 8)) (Z.shiftl c 0)).

Definition encode_basic_hdr (fmt chunk_id : Z) : M mbuf Z :=
  if 320 <=? chunk_id then
    let cs_id := u16 (chunk_id - RTMP_CHUNK_OFFSET) in
    mbuf_write_u8 (Z.lor (Z.shiftl fmt 6) 1) |; mbuf_write_u16 (htons cs_id)
  else if RTMP_CHUNK_OFFSET <=? chunk_id then
    let cs_id := u8 (chunk_id - RTMP_CHUNK_OFFSET) in
    mbuf_write_u8 (Z.lor (Z.shiftl fmt 6) 0) |; mbuf_write_u8 cs_id
  else mbuf_write_u8 (Z.lor (Z.shiftl fmt 6) chunk_id).

Definition decode_basic_hdr (hdr : rtmp_header) : M mbuf (Z * rtmp_header) :=
  need 1 (ret (ENODATA, hdr))
    (let* v := mbuf_read_u8 in
     let hdr := rh_set_format (Z.shiftr v 6) hdr in
     let cs_id := Z.land v 63 in
     if cs_id =? 0 then
       need 1 (ret (ENODATA, hdr))
         (let* b := mbuf_read_u8 in ret (0, rh_set_chunk_id (b + RTMP_CHUNK_OFFSET) hdr))
     else if cs_id =? 1 then
       need 2 (ret (ENODATA, hdr))
         (let* w := mbuf_read_ntohs in ret (0, rh_set_chunk_id (w + RTMP_CHUNK_OFFSET) hdr))
     else ret (0, rh_set_chunk_id cs_id hdr)).

Definition ts_24 (ts : Z) : Z := if TIMESTAMP_24MAX <=? ts then TIMESTAMP_24MAX else ts.
Definition ts_ext (ts : Z) : Z := if TIMESTAMP_24MAX <=? ts then ts else 0.

(** The assignment of [hdr->timestamp_ext] in each case of the switch. *)
Definition hdr_ext (hdr : rtmp_header) : rtmp_header :=
  if rh_format hdr =? 0 then rh_set_ext (ts_ext (rh_timestamp hdr)) hdr
  else if rh_format hdr =? 1 then rh_set_ext (ts_ext (rh_timestamp_delta hdr)) hdr
  else if rh_format hdr =? 2 then rh_set_ext (ts_ext (rh_timestamp_delta hdr)) hdr
  else hdr.

(** The writes of the switch, and the extended timestamp. *)
Definition encode_msg_hdr (hdr : rtmp_header) : M mbuf Z :=
  (if rh_format hdr =? 0 then
     mbuf_write_u24_hton (ts_24 (rh_timestamp hdr)) |;
     mbuf_write_u24_hton (rh_length hdr) |;
     mbuf_write_u8 (rh_type_id hdr) |;
     mbuf_write_u32 (sys_htoll (rh_stream_id hdr))
   else if rh_format hdr =? 1 then
     mbuf_write_u24_hton (ts_24 (rh_timestamp_delta hdr)) |;
     mbuf_write_u24_hton (rh_length hdr) |;
     mbuf_write_u8 (rh_type_id hdr)
   else if rh_format hdr =? 2 then
     mbuf_write_u24_hton (ts_24 (rh_timestamp_delta hdr))
   else ret 0) |;
  (if nz (rh_timestamp_ext hdr) then mbuf_write_u32 (htonl (rh_timestamp_ext hdr)) else ret 0).

(** The error code and the caller's header, whose [timestamp_ext] is set. *)
Definition rtmp_header_encode (hdr : rtmp_header) : M mbuf (Z * rtmp_header) :=
  let* err := encode_basic_hdr (rh_format hdr) (rh_chunk_id hdr) in
  if nz err then ret (err, hdr)
  else
    let hdr := hdr_ext hdr in
    let* err := encode_msg_hdr hdr in ret (err, hdr).

(** The switch of [rtmp_header_decode]. *)
Definition decode_msg_hdr (hdr : rtmp_header) : M mbuf (Z * rtmp_header) :=
  if rh_format hdr =? 0 then
    need 11 (ret (ENODATA, hdr))
      (let* ts := mbuf_read_u24_ntoh in
       let* len := mbuf_read_u24_ntoh in
       let* ty := mbuf_read_u8 in
       let* sid := mbuf_read_u32 in
       ret (0, rh_set_stream_id (sys_ltohl sid) (rh_set_type_id ty (rh_set_length len
                 (rh_set_timestamp ts hdr)))))
  else if rh_format hdr =? 1 then
    need 7 (ret (ENODATA, hdr))
      (let* td := mbuf_read_u24_ntoh in
       let* len := mbuf_read_u24_ntoh in
       let* ty := mbuf_read_u8 in
       ret (0, rh_set_type_id ty (rh_set_length len (rh_set_delta td hdr))))
  else if rh_format hdr =? 2 then
    need 3 (ret (ENODATA, hdr))
      (let* td := mbuf_read_u24_ntoh in ret (0, rh_set_delta td hdr))
  else ret (0, hdr).

(** The extended timestamp, through the pointer [timestamp_ext]. *)
Definition decode_ext_ts (hdr : rtmp_header) : M mbuf (Z * rtmp_header) :=
  if rh_timestamp hdr =? TIMESTAMP_24MAX then
    need 4 (ret (ENODATA, hdr))
      (let* ts := mbuf_read_ntohl in ret (0, rh_set_ext_ts true (rh_set_timestamp ts hdr)))
  else if rh_timestamp_delta hdr =? TIMESTAMP_24MAX then
    need 4 (ret (ENODATA, hdr))
      (let* ts := mbuf_read_ntohl in ret (0, rh_set_ext_ts true (rh_set_delta ts hdr)))
  else ret (0, hdr).

Definition rtmp_header_decode : M mbuf (Z * rtmp_header) :=
  let* '(err, hdr) := decode_basic_hdr rh_zero in
  if nz err then ret (err, hdr)
  else
    let* '(err, hdr) := decode_msg_hdr hdr in
    if nz err then ret (err, hdr) else decode_ext_ts hdr.

(** ** The wire format *)

Definition basic_bytes (fmt chunk_id : Z) : list Z :=
  if 320 <=? chunk_id then [fmt * 64 + 1] ++ be_bytes 2 (chunk_id - 64)
  else if 64 <=? chunk_id then [fmt * 64; chunk_id - 64]
  else [fmt * 64 + chunk_id].

Definition msg_bytes (hdr : rtmp_header) : list Z :=
  if rh_format hdr =? 0 then
    be_bytes 3 (ts_24 (rh_timestamp hdr)) ++ be_bytes 3 (rh_length hdr) ++
    [rh_type_id hdr] ++ le_bytes 4 (rh_stream_id hdr)
  else if rh_format hdr =? 1 then
    be_bytes 3 (ts_24 (rh_timestamp_delta hdr)) ++ be_bytes 3 (rh_length hdr) ++ [rh_type_id hdr]
  else if rh_format hdr =? 2 then be_bytes 3 (ts_24 (rh_timestamp_delta hdr))
  else [].

Definition ext_ts_bytes (ext : Z) : list Z := if nz ext then be_bytes 4 ext else [].

(** The bytes of a header whose [timestamp_ext] is up to date. *)
Definition rtmp_hdr_bytes (hdr : rtmp_header) : list Z :=
  basic_bytes (rh_format hdr) (rh_chunk_id hdr) ++ msg_bytes hdr ++ ext_ts_bytes (rh_timestamp_ext hdr).

(** A header that the wire format can express. *)
Record rtmp_hdr_ok (h : rtmp_header) : Prop := {
  rok_format : 0 <= rh_format h <= 3;
  rok_chunk_id : 2 <= rh_chunk_id h <= 65599;
  rok_timestamp : 0 <= rh_timestamp h < 2 ^ 32;
  rok_delta : 0 <= rh_timestamp_delta h < 2 ^ 32;
  rok_ext : 0 <= rh_timestamp_ext h < 2 ^ 32;
  rok_length : 0 <= rh_length h < 2 ^ 24;
  rok_type : 0 <= rh_type_id h < 256;
  rok_stream : 0 <= rh_stream_id h < 2 ^ 32;
}.

(** What a header of each format carries: the rest is zero in the decoder's
    result.  A format 3 header leaves its extended timestamp to the
    de-chunker, which knows whether the chunk stream uses one. *)
Definition rtmp_hdr_view (h : rtmp_header) : rtmp_header :=
  if rh_format h =? 0 then
    RtmpHeader 0 (rh_chunk_id h) (rh_timestamp h) 0 0 (rh_length h) (rh_type_id h) (rh_stream_id h)
      (TIMESTAMP_24MAX <=? rh_timestamp h)
  else if rh_format h =? 1 then
    RtmpHeader 1 (rh_chunk_id h) 0 (rh_timestamp_delta h) 0 (rh_length h) (rh_type_id h) 0
      (TIMESTAMP_24MAX <=? rh_timestamp_delta h)
  else if rh_format h =? 2 then
    RtmpHeader 2 (rh_chunk_id h) 0 (rh_timestamp_delta h) 0 0 0 0
      (TIMESTAMP_24MAX <=? rh_timestamp_delta h)
  else RtmpHeader (rh_format h) (rh_chunk_id h) 0 0 0 0 0 0 false.

(** ** Encoding *)

Lemma be_bytes_3 v : be_bytes 3 v = [u8 (Z.shiftr v 16); u8 (Z.shiftr v 8); u8 (Z.shiftr v 0)].
Proof. unfold be_bytes. cbn. rewrite !Z.div_div by lia. bits. change (2 ^ 0) with 1. by rewrite Z.div_1_r. Qed.

#[global] Instance writes_u24 v : Writes (mbuf_write_u24_hton v) (be_bytes 3 v).
Proof. rewrite be_bytes_3. apply (writes_or_err _ _ [_]); [|apply (writes_or_err _ _ [_])]; apply _. Qed.

#[global] Instance writes_u32_l v : Writes (mbuf_write_u32 (sys_htoll v)) (le_bytes 4 v).
Proof. rewrite <- host_bytes_htoll. apply writes_host_bytes. Qed.

Lemma basic_byte fmt b : 0 <= fmt <= 3 -> 0 <= b < 64 -> u8 (Z.lor (Z.shiftl fmt 6) b) = fmt * 64 + b.
Proof. intros Hf Hb. rewrite lor_shiftl by lia. apply wrap_small. lia. Qed.

Lemma encode_basic_writes fmt chunk_id : 0 <= fmt <= 3 -> 2 <= chunk_id <= 65599 ->
  Writes (encode_basic_hdr fmt chunk_id) (basic_bytes fmt chunk_id).
Proof.
  intros Hf Hc. unfold encode_basic_hdr, basic_bytes, RTMP_CHUNK_OFFSET.
  destruct (Z.leb_spec 320 chunk_id); [|destruct (Z.leb_spec 64 chunk_id)].
  - rewrite <- (basic_byte fmt 1), (wrap_small 16) by lia. apply writes_or_err; apply _.
  - replace [fmt * 64; chunk_id - 64] with
      ([u8 (Z.lor (Z.shiftl fmt 6) 0)] ++ [u8 (u8 (chunk_id - 64))]); [apply _|].
    rewrite basic_byte, !(wrap_small 8 (chunk_id - 64)) by lia. cbn. do 2 f_equal. lia.
  - rewrite <- basic_byte by lia. apply _.
Qed.

Lemma encode_msg_writes hdr : 0 <= rh_type_id hdr < 256 ->
  Writes (encode_msg_hdr hdr) (msg_bytes hdr ++ ext_ts_bytes (rh_timestamp_ext hdr)).
Proof.
  intros Ht. unfold encode_msg_hdr, msg_bytes, ext_ts_bytes.
  assert (Writes (mbuf_write_u8 (rh_type_id hdr)) [rh_type_id hdr]) as Hw
    by (rewrite <- (wrap_small 8 (rh_type_id hdr)) at 2 by lia; apply _).
  apply _.
Qed.

Lemma hdr_ext_fields hdr : rh_format (hdr_ext hdr) = rh_format hdr /\
  rh_chunk_id (hdr_ext hdr) = rh_chunk_id hdr /\ rh_type_id (hdr_ext hdr) = rh_type_id hdr /\
  msg_bytes (hdr_ext hdr) = msg_bytes hdr.
Proof.
  unfold hdr_ext, msg_bytes. destruct (rh_format hdr =? 0) eqn:E0, (rh_format hdr =? 1) eqn:E1,
    (rh_format hdr =? 2) eqn:E2; cbn; rewrite ?E0, ?E1, ?E2; done.
Qed.

(** The error code of the encoder is that of a writer. *)
Lemma rtmp_header_encode_spec hdr mb : rtmp_hdr_ok hdr -> mbuf_wf mb ->
  let bs := rtmp_hdr_bytes (hdr_ext hdr) in
  mb_pos mb + zlength bs < WRITE_MAX ->
  exists e h' mb', rtmp_header_encode hdr mb = Some ((e, h'), mb') /\ mbuf_wf mb' /\
    mb_pos mb <= mb_pos mb' <= mb_pos mb + zlength bs /\ 0 <= e /\
    (e = 0 -> h' = hdr_ext hdr /\ written mb bs mb') /\ (no_oom -> e = 0).
Proof.
  intros Hok Hwf bs Hr. destruct (hdr_ext_fields hdr) as (Ef & Ec & Et & Em).
  assert (Writes (check (encode_basic_hdr (rh_format hdr) (rh_chunk_id hdr)) (encode_msg_hdr (hdr_ext hdr))) bs)
    as Hw.
  { subst bs. unfold rtmp_hdr_bytes. rewrite Ef, Ec. apply writes_check.
    - apply encode_basic_writes; apply Hok.
    - apply encode_msg_writes. rewrite Et. apply Hok. }
  destruct (Hw mb Hwf Hr) as (e & mb' & E & Hwf' & Hp & He & Hwr & Ho).
  unfold check, bind in E. unfold rtmp_header_encode, bind.
  destruct (encode_basic_hdr _ _ mb) as [[e1 mb1]|]; [|done].
  destruct (nz e1) eqn:Ez; [|destruct (encode_msg_hdr _ mb1) as [[e2 mb2]|]; [|done]].
  - cbv [ret] in *. simplify_eq. eexists _, _, _. split_and!; try done; try lia. by intros ->.
  - cbv [ret] in *. simplify_eq. eexists _, _, _. split_and!; try done; try lia. auto.
Qed.

(** ** Decoding *)

Lemma be_bytes_3_val v : 0 <= v < 2 ^ 24 ->
  Z.lor (Z.lor (Z.shiftl (u8 (Z.shiftr v 16)) 16) (Z.shiftl (u8 (Z.shiftr v 8)) 8))
    (Z.shiftl (u8 (Z.shiftr v 0)) 0) = v.
Proof.
  intros Hv. rewrite Z.shiftl_0_r, !Z.shiftl_mul_pow2 by lia. bits.
  rewrite (lor_add _ _ 16) by dlia.
  replace ((v / 2 ^ 16) mod 2 ^ 8 * 2 ^ 16 + (v / 2 ^ 8) mod 2 ^ 8 * 2 ^ 8) with ((v / 2 ^ 8) * 2 ^ 8) by dlia.
  rewrite lor_add by dlia. dlia.
Qed.

Lemma reads_u24 {A} v (k : Z -> M mbuf A) bs a : 0 <= v < 2 ^ 24 ->
  Reads (k v) bs a -> Reads (bind mbuf_read_u24_ntoh k) (be_bytes 3 v ++ bs) a.
Proof.
  intros Hv Hk. eapply reads_bind; [|done]. rewrite be_bytes_3. unfold mbuf_read_u24_ntoh.
  do 3 apply reads_u8. rewrite be_bytes_3_val by done. apply reads_ret.
Qed.

Lemma reads_ltohl {A} v (k : Z -> M mbuf A) bs a : 0 <= v < 2 ^ 32 ->
  (forall x, sys_ltohl x = v -> Reads (k x) bs a) -> Reads (bind mbuf_read_u32 k) (le_bytes 4 v ++ bs) a.
Proof.
  intros Hv Hk. eapply reads_bind; [apply (reads_int 4), length_le_bytes|]. apply Hk.
  rewrite sys_ltohl_host_val by auto using le_bytes_ok, length_le_bytes. by apply le_val_bytes.
Qed.

Lemma decode_basic_reads fmt chunk_id hdr : 0 <= fmt <= 3 -> 2 <= chunk_id <= 65599 ->
  Reads (decode_basic_hdr hdr) (basic_bytes fmt chunk_id)
    (0, rh_set_chunk_id chunk_id (rh_set_format fmt hdr)).
Proof.
  intros Hf Hc. unfold decode_basic_hdr, basic_bytes, RTMP_CHUNK_OFFSET.
  assert (forall b, 0 <= b < 64 -> Z.shiftr (fmt * 64 + b) 6 = fmt /\ Z.land (fmt * 64 + b) 63 = b) as Hb
    by (intros b Hb; bits; dlia).
  apply reads_need; [repeat case_match; rewrite ?length_app; simpl; lia|].
  destruct (Z.leb_spec 320 chunk_id); [|destruct (Z.leb_spec 64 chunk_id)]; apply reads_u8.
  - destruct (Hb 1) as [-> ->]; [lia|]. cbn [Z.eqb Pos.eqb]. apply reads_need; [by rewrite length_be_bytes|].
    apply reads_nil_app. apply reads_ntohs; [lia|].
    replace (chunk_id - 64 + 64) with chunk_id by lia. apply reads_ret.
  - destruct (Hb 0) as [E1 E2]; [lia|]. rewrite Z.add_0_r in E1, E2. rewrite E1, E2. cbn [Z.eqb].
    apply reads_need; [simpl; lia|]. apply reads_u8.
    replace (chunk_id - 64 + 64) with chunk_id by lia. apply reads_ret.
  - destruct (Hb chunk_id) as [-> ->]; [lia|]. rewrite !(proj2 (Z.eqb_neq _ _)) by lia. apply reads_ret.
Qed.

Lemma ts_24_range ts : 0 <= ts < 2 ^ 32 -> 0 <= ts_24 ts < 2 ^ 24.
Proof. unfold ts_24, TIMESTAMP_24MAX. case_match; lia. Qed.

(** The header after the switch: 24-bit timestamps. *)
Definition view_24 (h : rtmp_header) : rtmp_header :=
  let v := rh_set_ext_ts false (rtmp_hdr_view h) in
  rh_set_timestamp (ts_24 (rh_timestamp v)) (rh_set_delta (ts_24 (rh_timestamp_delta v)) v).

Lemma decode_msg_reads h : rtmp_hdr_ok h ->
  Reads (decode_msg_hdr (rh_set_chunk_id (rh_chunk_id h) (rh_set_format (rh_format h) rh_zero)))
    (msg_bytes h) (0, view_24 h).
Proof.
  intros [Hf Hc Ht Hd He Hl Hy Hs]. unfold decode_msg_hdr, msg_bytes, view_24, rtmp_hdr_view.
  cbn [rh_format rh_set_chunk_id rh_set_format].
  destruct (Z.eqb_spec (rh_format h) 0) as [E0|]; [|destruct (Z.eqb_spec (rh_format h) 1) as [E1|];
    [|destruct (Z.eqb_spec (rh_format h) 2) as [E2|]]].
  - apply reads_need; [rewrite !length_app, !length_be_bytes; simpl; lia|].
    apply reads_u24; [by apply ts_24_range|]. apply reads_u24; [done|]. apply reads_u8.
    apply reads_nil_app. apply reads_ltohl; [done|]. intros x ->. rewrite E0. apply reads_ret.
  - apply reads_need; [rewrite !length_app, !length_be_bytes; simpl; lia|].
    apply reads_u24; [by apply ts_24_range|]. apply reads_u24; [done|]. apply reads_u8.
    rewrite E1. apply reads_ret.
  - apply reads_need; [rewrite !length_be_bytes; simpl; lia|]. apply reads_nil_app.
    apply reads_u24; [by apply ts_24_range|]. rewrite E2. apply reads_ret.
  - apply reads_ret.
Qed.

Lemma decode_ext_reads h : rtmp_hdr_ok h -> rh_format h < 3 ->
  Reads (decode_ext_ts (view_24 h)) (ext_ts_bytes (rh_timestamp_ext (hdr_ext h))) (0, rtmp_hdr_view h).
Proof.
  intros [Hf Hc Ht Hd He Hl Hy Hs] Hf3. unfold decode_ext_ts, view_24, rtmp_hdr_view, hdr_ext, ext_ts_bytes.
  assert (ts_24 0 = 0) as E0 by done.
  assert (forall ts, nz (ts_ext ts) = (TIMESTAMP_24MAX <=? ts)) as Hnz.
  { intros ts. unfold ts_ext, nz, TIMESTAMP_24MAX. destruct (Z.leb_spec 16777215 ts); [|done].
    by rewrite (proj2 (Z.eqb_neq _ _)) by lia. }
  assert (forall ts, (ts_24 ts =? TIMESTAMP_24MAX) = (TIMESTAMP_24MAX <=? ts)) as Hts.
  { intros ts. unfold ts_24. destruct (Z.leb_spec TIMESTAMP_24MAX ts); lia. }
  assert (rh_format h = 0 \/ rh_format h = 1 \/ rh_format h = 2) as [-> | [-> | ->]] by lia;
    cbn [Z.eqb Pos.eqb rh_timestamp rh_timestamp_delta rh_timestamp_ext rh_set_timestamp rh_set_delta
      rh_set_ext_ts rh_set_ext]; rewrite E0, Hnz, !Hts; unfold ts_ext, ts_24;
    [destruct (TIMESTAMP_24MAX <=? rh_timestamp h) | destruct (TIMESTAMP_24MAX <=? rh_timestamp_delta h)..];
    try apply reads_ret; (apply reads_need; [by rewrite length_be_bytes|]); apply reads_nil_app;
    (apply reads_ntohl; [done|apply reads_ret]).
Qed.

(** The bytes [rtmp_header_decode] consumes. *)
Definition rtmp_wire (h : rtmp_header) : list Z :=
  basic_bytes (rh_format h) (rh_chunk_id h) ++ msg_bytes h ++
  (if rh_format h <? 3 then ext_ts_bytes (rh_timestamp_ext (hdr_ext h)) else []).

Lemma rtmp_header_decode_reads h : rtmp_hdr_ok h ->
  Reads rtmp_header_decode (rtmp_wire h) (0, rtmp_hdr_view h).
Proof.
  intros Hok. pose proof Hok as [Hf Hc _ _ _ _ _ _]. unfold rtmp_header_decode, rtmp_wire.
  eapply reads_bind; [by apply decode_basic_reads|]. cbn [nz Z.eqb negb].
  eapply reads_bind; [by apply decode_msg_reads|]. cbn [nz Z.eqb negb].
  destruct (Z.ltb_spec (rh_format h) 3); [by apply decode_ext_reads|].
  assert (rh_format h = 3) as E by lia. unfold decode_ext_ts, view_24, rtmp_hdr_view. rewrite E. apply reads_ret.
Qed.

Lemma rtmp_hdr_bytes_wire h : rh_format h < 3 -> rtmp_hdr_bytes (hdr_ext h) = rtmp_wire h.
Proof.
  intros Hf. destruct (hdr_ext_fields h) as (Ef & Ec & _ & Em).
  unfold rtmp_hdr_bytes, rtmp_wire. by rewrite Ef, Ec, Em, (proj2 (Z.ltb_lt _ _)) by done.
Qed.

(** Decoding an encoded RTMP chunk header returns it: for every chunk
    stream id that the format has room for (2 to 65599) and every format that
    carries a message header, encoding succeeds (or fails only for lack of
    memory) and decoding the bytes written returns 0 and every field that the
    format carries, timestamps of 24 bits and more included, and stops exactly
    after the header. *)
Theorem rtmp_header_roundtrip h mb : rtmp_hdr_ok h -> rh_format h < 3 -> mbuf_wf mb ->
  mb_pos mb + zlength (rtmp_wire h) < WRITE_MAX ->
  exists e h' mb', rtmp_header_encode h mb = Some ((e, h'), mb') /\ (no_oom -> e = 0) /\
    (e = 0 -> rtmp_header_decode (set_pos (mb_pos mb) mb') =
       Some ((0, rtmp_hdr_view h), set_pos (mb_pos mb + zlength (rtmp_wire h)) mb')).
Proof.
  intros Hok Hf Hwf Hr. destruct (rtmp_header_encode_spec h mb Hok Hwf) as (e & h' & mb' & E & Hwf' & _ & _ & Hw & Ho);
    rewrite rtmp_hdr_bytes_wire in * by done; [done|].
  exists e, h', mb'. split_and!; [done..|]. intros ->. destruct (Hw eq_refl) as [-> Hwr].
  destruct (written_unread _ _ _ Hwf Hwf' Hwr) as [rest Hu]. pose proof (wf_pos _ Hwf).
  rewrite (rtmp_header_decode_reads h Hok _ rest); [done|apply set_pos_wf; [done|lia]|done].
Qed.

(** ** Decoding arbitrary input *)

Lemma parses_u24 {R} n (k : Z -> M mbuf (Z * R)) (P : R -> Prop) : 3 <= n ->
  (forall v, 0 <= v < 2 ^ 24 -> Parses (n - 3) (k v) P) -> Parses n (bind mbuf_read_u24_ntoh k) P.
Proof.
  intros Hn Hk. replace n with (3 + (n - 3)) by lia.
  apply (parses_bind_exact _ _ _ _ (fun v => 0 <= v < 2 ^ 24)); [lia|lia| |done].
  intros bs Hl Hok. exists (be_val bs). pose proof (be_val_range bs Hok) as R1. rewrite Hl in R1.
  split; [|done]. rewrite <- (be_bytes_val bs Hok) at 1. replace (length bs) with 3%nat by lia.
  pose proof (reads_u24 (be_val bs) ret [] (be_val bs) R1 (reads_ret _)) as R2. apply reads_nil_app in R2.
  intros mb rest Hwf E. specialize (R2 mb rest Hwf E). unfold bind in R2.
  destruct (mbuf_read_u24_ntoh mb) as [[v mb1]|]; [|done]. cbv [ret] in R2. by simplify_eq.
Qed.

(** What the decoder guarantees of the header it returns. *)
Record rtmp_decoded (h : rtmp_header) : Prop := {
  rd_format : 0 <= rh_format h <= 3;
  rd_chunk_id : 2 <= rh_chunk_id h <= 65599;
  rd_timestamp : 0 <= rh_timestamp h < 2 ^ 32;
  rd_delta : 0 <= rh_timestamp_delta h < 2 ^ 32;
  rd_length : 0 <= rh_length h < 2 ^ 24;
}.

Lemma parses_basic_hdr hdr : rh_timestamp hdr = 0 -> rh_timestamp_delta hdr = 0 -> rh_length hdr = 0 ->
  Parses 0 (decode_basic_hdr hdr) (fun h => rtmp_decoded h /\ rh_timestamp h = 0 /\ rh_timestamp_delta h = 0).
Proof.
  intros Ht Hd Hl. unfold decode_basic_hdr, RTMP_CHUNK_OFFSET. apply parses_need; [done|].
  apply parses_u8; [lia|]. intros v Hv. cbv zeta.
  assert (0 <= Z.shiftr v 6 <= 3) by (bits; dlia). assert (0 <= Z.land v 63 < 64) by (bits; dlia).
  apply parses_if; [intros _|intros Hv0; apply parses_if; [intros _|intros Hv1]].
  - apply parses_need; [done|]. apply parses_u8; [lia|]. intros b Hb. apply parses_ret.
    split_and!; [split|..]; cbn; lia.
  - apply parses_need; [done|]. apply parses_ntohs; [lia|]. intros b Hb. apply parses_ret.
    split_and!; [split|..]; cbn; lia.
  - apply parses_ret. split_and!; [split|..]; cbn; lia.
Qed.

Lemma parses_msg_hdr hdr : rtmp_decoded hdr -> Parses 0 (decode_msg_hdr hdr) rtmp_decoded.
Proof.
  intros []. unfold decode_msg_hdr.
  repeat (apply parses_if; intros _); try (apply parses_need; [done|]).
  - do 2 (apply parses_u24; [lia|]; intros ? ?). apply parses_u8; [lia|]. intros ? ?.
    apply parses_u32; [lia|]. intros ? ?. apply parses_ret. split; cbn; lia.
  - do 2 (apply parses_u24; [lia|]; intros ? ?). apply parses_u8; [lia|]. intros ? ?.
    apply parses_ret. split; cbn; lia.
  - apply parses_u24; [lia|]; intros ? ?. apply parses_ret. split; cbn; lia.
  - by apply parses_ret.
Qed.

Lemma parses_ext_ts hdr : rtmp_decoded hdr -> Parses 0 (decode_ext_ts hdr) rtmp_decoded.
Proof.
  intros []. unfold decode_ext_ts.
  repeat (apply parses_if; intros _); try (apply parses_need; [done|]);
    try (apply parses_ntohl; [lia|]; intros ? ?); apply parses_ret; split; cbn; lia.
Qed.

#[global] Instance parses_rtmp_header : Parses 0 rtmp_header_decode rtmp_decoded.
Proof.
  unfold rtmp_header_decode. apply (parses_then _ _ id _ _ (parses_basic_hdr rh_zero eq_refl eq_refl eq_refl)).
  intros h (Hh & _). apply (parses_then _ _ id _ _ (parses_msg_hdr h Hh)). intros h2. apply parses_ext_ts.
Qed.

End rtmp.

(** ** Witnesses *)

Definition rtmp_hdr_ex : rtmp_header := RtmpHeader 0 700 305419896 0 0 1000 9 1 false.

Definition mbuf_empty32 : mbuf := Mbuf (replicate 32 7) 32 0 0.

Lemma rtmp_header_roundtrip_witness : exists h' mb' mb'',
  rtmp_header_encode (H := lp64_host) rtmp_hdr_ex mbuf_empty32 = Some ((0, h'), mb') /\
  rtmp_header_decode (H := lp64_host) (set_pos 0 mb') =
    Some ((0, RtmpHeader 0 700 305419896 0 0 1000 9 1 true), mb'').
Proof.
  destruct (rtmp_header_roundtrip (H := lp64_host) rtmp_hdr_ex mbuf_empty32)
    as (e & h' & mb' & E & Ho & Hd); [split; cbn; lia|cbn; lia| |vm_compute; reflexivity|].
  - split; cbn; unfold MEM_SIZE_MAX; try lia. repeat constructor; unfold byte_ok; lia.
  - pose proof (Ho (fun _ => eq_refl)) as E0. subst e. eexists h', mb', _. split; [exact E|exact (Hd eq_refl)].
Defined.
