(* ===== verification/RtmpChunk.v ===== *)
(** * RTMP chunking and de-chunking (src/rtmp/chunk.c, src/rtmp/dechunk.c)

    [rtmp_chunker] splits a message into chunks and hands the result to the
    TCP connection; [rtmp_dechunker_receive] takes one chunk off the input
    and calls the handler when a message is complete.  The TCP connection and
    the handler are parameters; the handler may change the de-chunker (the
    connection's handler sets the chunk size). *)

From S2P Require Export Prelude Mbuf MbufSpec MbufParse MbufData Rtmp.

Definition MAX_CHUNKS : Z := 64.

(** [struct rtmp_chunk] and [struct rtmp_dechunker]; the list of chunk
    streams in list order. *)
Record rtmp_chunk := RtmpChunk { ch_hdr : rtmp_header; ch_mb : option mbuf }.
Record rtmp_dechunker := Dechunker { rd_chunkl : list rtmp_chunk; rd_chunk_sz : Z }.

Definition rd_set_chunk (rd : rtmp_dechunker) (i : nat) (ch : rtmp_chunk) : rtmp_dechunker :=
  Dechunker (<[i := ch]> (rd_chunkl rd)) (rd_chunk_sz rd).

Section rtmp_chunk.
Context `{Host}.

(** ** The chunker *)

(** [while (payload < pend)]; the fuel bounds the number of chunks. *)
Fixpoint chunker_loop (fuel : nat) (hdr : rtmp_header) (max_chunk_sz : Z) (payload : list Z) : M mbuf Z :=
  match payload with
  | [] => ret 0
  | _ =>
      match fuel with
      | O => ub
      | S fuel =>
          let chunk_sz := Z.min (zlength payload) max_chunk_sz in
          let* '(err, hdr) := rtmp_header_encode hdr in
          let* err2 := mbuf_write_mem (take (Z.to_nat chunk_sz) payload) in
          if nz (Z.lor err err2) then ret (Z.lor err err2)
          else chunker_loop fuel hdr max_chunk_sz (drop (Z.to_nat chunk_sz) payload)
      end
  end.

(** The first chunk, with the message header, and the rest. *)
Definition chunker_write (hdr : rtmp_header) (max_chunk_sz : Z) (payload : list Z) : M mbuf Z :=
  let chunk_sz := Z.min (zlength payload) max_chunk_sz in
  let* '(err, hdr) := rtmp_header_encode hdr in
  let* err2 := mbuf_write_mem (take (Z.to_nat chunk_sz) payload) in
  if nz (Z.lor err err2) then ret (Z.lor err err2)
  else chunker_loop (length payload) (rh_set_format 3 hdr) max_chunk_sz
         (drop (Z.to_nat chunk_sz) payload).

Section tcp.
Context {T : Type} (tcp_send : mbuf -> T -> option (Z * T)).

Definition rtmp_chunker (format chunk_id timestamp timestamp_delta msg_type_id msg_stream_id : Z)
    (payload : list Z) (max_chunk_sz : Z) (tc : T) : option (Z * T) :=
  if (zlength payload =? 0) || (max_chunk_sz =? 0) then Some (EINVAL, tc)
  else
    match mbuf_alloc (zlength payload + 256) with
    | None => Some (ENOMEM, tc)
    | Some mb =>
        let hdr := RtmpHeader (format mod 4) chunk_id timestamp timestamp_delta 0
                     (u32 (zlength payload)) msg_type_id msg_stream_id false in
        match chunker_write hdr max_chunk_sz payload mb with
        | None => None
        | Some (err, mb) => if nz err then Some (err, tc) else tcp_send (set_pos 0 mb) tc
        end
    end.

End tcp.

(** ** The de-chunker *)

Fixpoint find_chunk (chunkl : list rtmp_chunk) (chunk_id : Z) : option nat :=
  match chunkl with
  | [] => None
  | ch :: chunkl =>
      if chunk_id =? rh_chunk_id (ch_hdr ch) then Some O else S <$> find_chunk chunkl chunk_id
  end.

(** [create_chunk]: the zeroed structure with the header, appended; [None]
    when out of memory.  [sizeof(struct rtmp_chunk)] is 80 on an LP64 host. *)
Definition create_chunk (chunkl : list rtmp_chunk) (hdr : rtmp_header) : option (list rtmp_chunk) :=
  if alloc_ok 80 then Some (chunkl ++ [RtmpChunk hdr None]) else None.

(** The fields a header of format 0, 1 or 2 sets before the data is there. *)
Definition merge_hdr (hdr old : rtmp_header) : rtmp_header :=
  if rh_format hdr =? 0 then hdr
  else if rh_format hdr =? 1 then
    rh_set_type_id (rh_type_id hdr) (rh_set_length (rh_length hdr) (rh_set_delta (rh_timestamp_delta hdr) old))
  else if rh_format hdr =? 2 then rh_set_delta (rh_timestamp_delta hdr) old
  else old.

(** The fields set after the data has been copied. *)
Definition start_hdr (hdr old : rtmp_header) : rtmp_header :=
  let h := rh_set_ext_ts (rh_ext_ts hdr) (rh_set_format (rh_format hdr) old) in
  if (rh_format hdr =? 1) || (rh_format hdr =? 2)
  then rh_set_timestamp (u32 (rh_timestamp h + rh_timestamp_delta hdr)) h else h.

(** Cases 0, 1 and 2 of the switch: a chunk that starts a message. *)
Definition chunk_start (rd_sz : Z) (hdr : rtmp_header) (ch : rtmp_chunk) : M mbuf (Z * rtmp_chunk) :=
  let ch := RtmpChunk (merge_hdr hdr (ch_hdr ch)) (ch_mb ch) in
  let msg_len := rh_length (ch_hdr ch) in
  let chunk_sz := Z.min msg_len rd_sz in
  need chunk_sz (ret (ENODATA, ch))
    match mbuf_alloc msg_len with
    | None => ret (ENOMEM, RtmpChunk (ch_hdr ch) None)
    | Some cmb =>
        let* '(err, bs) := mbuf_read_mem chunk_sz in
        if nz err then ret (err, RtmpChunk (ch_hdr ch) (Some cmb))
        else
          let* buf := lift (mem_store (mb_buf cmb) 0 bs) in
          ret (0, RtmpChunk (start_hdr hdr (ch_hdr ch)) (Some (Mbuf buf (mb_size cmb) chunk_sz chunk_sz)))
    end.

(** The extended timestamp that a format 3 chunk repeats. *)
Definition chunk_ext_ts (ch : rtmp_chunk) : M mbuf (Z * rtmp_chunk) :=
  if rh_ext_ts (ch_hdr ch) then
    need 4 (ret (ENODATA, ch))
      (let* ext_ts := mbuf_read_ntohl in
       ret (0, RtmpChunk (if rh_format (ch_hdr ch) =? 0 then rh_set_timestamp ext_ts (ch_hdr ch)
                          else rh_set_delta ext_ts (ch_hdr ch)) (ch_mb ch)))
  else ret (0, ch).

(** [if (!chunk->mb)]: a format 3 chunk that starts a message. *)
Definition chunk_restart (ch : rtmp_chunk) : Z * rtmp_chunk :=
  match ch_mb ch with
  | Some _ => (0, ch)
  | None =>
      match mbuf_alloc (rh_length (ch_hdr ch)) with
      | None => (ENOMEM, ch)
      | Some cmb =>
          let h := if rh_format (ch_hdr ch) =? 0
                   then rh_set_delta (rh_timestamp (ch_hdr ch)) (ch_hdr ch) else ch_hdr ch in
          (0, RtmpChunk (rh_set_timestamp (u32 (rh_timestamp h + rh_timestamp_delta h)) h) (Some cmb))
      end
  end.

(** The data of a format 3 chunk. *)
Definition chunk_data (rd_sz : Z) (ch : rtmp_chunk) : M mbuf (Z * rtmp_chunk) :=
  match ch_mb ch with
  | None => ub
  | Some cmb =>
      let chunk_sz := Z.min (mbuf_get_space cmb) rd_sz in
      need chunk_sz (ret (ENODATA, ch))
        (let* '(err, bs) := mbuf_read_mem chunk_sz in
         if nz err then ret (err, ch)
         else
           let* buf := lift (mem_store (mb_buf cmb) (mb_pos cmb) bs) in
           ret (0, RtmpChunk (ch_hdr ch)
                     (Some (Mbuf buf (mb_size cmb) (u64 (mb_pos cmb + chunk_sz)) (u64 (mb_end cmb + chunk_sz))))))
  end.

(** Case 3 of the switch. *)
Definition chunk_continue (rd_sz : Z) (ch : rtmp_chunk) : M mbuf (Z * rtmp_chunk) :=
  let* '(err, ch) := chunk_ext_ts ch in
  if nz err then ret (err, ch)
  else
    let '(err, ch) := chunk_restart ch in
    if nz err then ret (err, ch) else chunk_data rd_sz ch.

Definition chunk_recv (rd_sz : Z) (hdr : rtmp_header) (ch : rtmp_chunk) : M mbuf (Z * rtmp_chunk) :=
  if (rh_format hdr =? 0) || (rh_format hdr =? 1) || (rh_format hdr =? 2) then chunk_start rd_sz hdr ch
  else if rh_format hdr =? 3 then chunk_continue rd_sz ch
  else ret (EPROTO, ch).

(** The chunk stream of a header: its index, created if need be. *)
Definition get_chunk (rd : rtmp_dechunker) (hdr : rtmp_header) : Z * nat * rtmp_dechunker :=
  match find_chunk (rd_chunkl rd) (rh_chunk_id hdr) with
  | Some i => (0, i, rd)
  | None =>
      if rh_format hdr =? 0 then
        if MAX_CHUNKS <? zlength (rd_chunkl rd) then (EOVERFLOW, O, rd)
        else
          match create_chunk (rd_chunkl rd) hdr with
          | None => (ENOMEM, O, rd)
          | Some l => (0, length (rd_chunkl rd), Dechunker l (rd_chunk_sz rd))
          end
      else (ENOENT, O, rd)
  end.

Section handler.
Context {A : Type} (chunkh : rtmp_header -> mbuf -> M (rtmp_dechunker * A) Z).

(** [if (chunk->mb->pos >= chunk->mb->size)]: hand over a complete message. *)
Definition chunk_deliver (rd : rtmp_dechunker) (i : nat) (ch : rtmp_chunk) (a : A)
    : option (Z * rtmp_dechunker * A) :=
  match ch_mb ch with
  | None => None
  | Some cmb =>
      if mb_size cmb <=? mb_pos cmb then
        match chunkh (ch_hdr ch) (set_pos 0 cmb) (rd_set_chunk rd i (RtmpChunk (ch_hdr ch) None), a) with
        | Some (err, (rd, a)) => Some (err, rd, a)
        | None => None
        end
      else Some (0, rd_set_chunk rd i ch, a)
  end.

Definition rtmp_dechunker_receive (rd : rtmp_dechunker) (a : A) (mb : mbuf)
    : option (Z * rtmp_dechunker * A * mbuf) :=
  match rtmp_header_decode mb with
  | None => None
  | Some ((err, hdr), mb) =>
      if nz err then Some (err, rd, a, mb)
      else
        let '(err, i, rd) := get_chunk rd hdr in
        if nz err then Some (err, rd, a, mb)
        else
          match rd_chunkl rd !! i with
          | None => None
          | Some ch =>
              match chunk_recv (rd_chunk_sz rd) hdr ch mb with
              | None => None
              | Some ((err, ch), mb) =>
                  if nz err then Some (err, rd_set_chunk rd i ch, a, mb)
                  else
                    match chunk_deliver rd i ch a with
                    | None => None
                    | Some (err, rd, a) => Some (err, rd, a, mb)
                    end
              end
          end
  end.

Definition rtmp_dechunker_set_chunksize (chunk_sz : Z) (rd : rtmp_dechunker) : rtmp_dechunker :=
  if chunk_sz =? 0 then rd else Dechunker (rd_chunkl rd) chunk_sz.

Definition rtmp_dechunker_alloc (chunk_sz : Z) : Z * option rtmp_dechunker :=
  if chunk_sz =? 0 then (EINVAL, None)
  else if alloc_ok 40 then (0, Some (Dechunker [] chunk_sz)) else (ENOMEM, None).

End handler.
End rtmp_chunk.
