(* ===== verification/RtmpThms.v ===== *)
(** * Correctness of RTMP chunking

    The de-chunker keeps its invariant and is memory safe on every input; a
    message that was chunked is delivered exactly once, with its header and
    payload; and input that arrives in pieces is decoded as if it had arrived
    at once. *)

From S2P Require Export Prelude Mbuf MbufSpec MbufThms MbufParse MbufData Rtmp RtmpChunk.

Section rtmp_thms.
Context `{Host}.

(** ** Buffers of messages being assembled *)

(** [cmb] has received [data] and expects more. *)
Record filling (cmb : mbuf) (data : list Z) : Prop := {
  fl_wf : mbuf_wf cmb;
  fl_max : mb_size cmb <= 2 ^ 24;
  fl_end : mb_end cmb = mb_pos cmb;
  fl_data : holds cmb data (zlength data);
}.

(** [bs] stored at the position. *)
Definition fill (cmb : mbuf) (bs : list Z) : mbuf :=
  Mbuf (splice (mb_buf cmb) (mb_pos cmb) bs) (mb_size cmb) (mb_pos cmb + zlength bs) (mb_end cmb + zlength bs).

Lemma filling_pos cmb data : filling cmb data -> mb_pos cmb = zlength data.
Proof. intros [_ _ _ Hh]. apply (h_pos _ _ _ Hh). Qed.

Lemma filling_alloc n cmb : 0 <= n < 2 ^ 24 -> mbuf_alloc n = Some cmb -> filling cmb [].
Proof.
  intros Hn E. destruct (mbuf_alloc_wf n cmb) as (Hwf & Hp & He & Hs); [lia|done|].
  split; [done| |lia|].
  - rewrite Hs. unfold DEFAULT_SIZE. case_match; lia.
  - split; [done|by rewrite He|done].
Qed.

Lemma filling_fill cmb data bs : filling cmb data -> bytes_ok bs ->
  zlength data + zlength bs <= mb_size cmb -> filling (fill cmb bs) (data ++ bs).
Proof.
  intros Hf Hb Hl. pose proof (filling_pos _ _ Hf) as Hp. destruct Hf as [[L1 L2 L3 L4 L5] Hm He [_ Hd _]].
  assert (mbuf_wf (fill cmb bs)) as Hwf.
  { split; cbn; try lia; [by rewrite length_splice by lia|by apply splice_ok]. }
  split; [done|done|cbn; lia|]. split; [done| |cbn; rewrite length_app; lia]. cbn.
  rewrite He, Hp in *. unfold splice. rewrite Nat2Z.id, app_assoc.
  rewrite take_app_le by (rewrite length_app, length_take; lia). rewrite take_ge.
  - by rewrite Nat2Z.id in Hd; rewrite Hd.
  - rewrite length_app, length_take. lia.
Qed.

(** ** The steps of the de-chunker as equations *)

Lemma read_store_eq n cmb mb : mbuf_wf mb -> 0 <= n <= mbuf_get_left mb ->
  mbuf_wf cmb -> mb_pos cmb + n <= mb_size cmb ->
  mbuf_read_mem n mb = Some ((0, take (Z.to_nat n) (unread mb)), set_pos (mb_pos mb + n) mb) /\
  mem_store (mb_buf cmb) (mb_pos cmb) (take (Z.to_nat n) (unread mb)) =
    Some (splice (mb_buf cmb) (mb_pos cmb) (take (Z.to_nat n) (unread mb))) /\
  zlength (take (Z.to_nat n) (unread mb)) = n.
Proof.
  intros Hwf Hn Hc Hs. pose proof (length_unread mb Hwf). pose proof (wf_len _ Hc). pose proof (wf_pos _ Hc).
  assert (zlength (take (Z.to_nat n) (unread mb)) = n) as Hl by (rewrite length_take; lia).
  split_and!; [| |done].
  - rewrite mbuf_read_mem_eq by (done || lia). by rewrite (proj2 (Z.ltb_ge _ _)) by lia.
  - unfold mem_store. rewrite Hl, in_block_true by lia. done.
Qed.

Lemma chunk_start_eq sz hdr ch mb : mbuf_wf mb -> 0 <= sz ->
  let h := merge_hdr hdr (ch_hdr ch) in
  let n := Z.min (rh_length h) sz in
  0 <= rh_length h < 2 ^ 24 ->
  chunk_start sz hdr ch mb =
    if mbuf_get_left mb <? n then Some ((ENODATA, RtmpChunk h (ch_mb ch)), mb)
    else match mbuf_alloc (rh_length h) with
         | None => Some ((ENOMEM, RtmpChunk h None), mb)
         | Some cmb => Some ((0, RtmpChunk (start_hdr hdr h) (Some (fill cmb (take (Z.to_nat n) (unread mb))))),
                             set_pos (mb_pos mb + n) mb)
         end.
Proof.
  intros Hwf Hsz h n Hl. unfold chunk_start, need, get, bind at 1. cbn [ch_hdr ch_mb]. fold h. fold n.
  destruct (Z.ltb_spec (mbuf_get_left mb) n); [done|].
  destruct (mbuf_alloc (rh_length h)) as [cmb|] eqn:Ea; [|done].
  destruct (mbuf_alloc_wf _ _ (proj1 Hl) Ea) as (Hc & Hp & He & Hs).
  destruct (read_store_eq n cmb mb) as (E1 & E2 & E3); [done|lia|done| |].
  { rewrite Hp, Hs. unfold nz, DEFAULT_SIZE. destruct (Z.eqb_spec (rh_length h) 0); cbn; lia. }
  rewrite (bind_Some _ _ _ _ _ E1). cbn [nz Z.eqb negb]. rewrite Hp in E2. rewrite E2.
  unfold lift, bind, ret, fill. by rewrite Hp, He, E3.
Qed.

Lemma chunk_data_eq sz ch cmb mb : mbuf_wf mb -> 0 <= sz -> ch_mb ch = Some cmb ->
  mbuf_wf cmb -> mb_end cmb = mb_pos cmb -> mb_pos cmb <= mb_size cmb ->
  let n := Z.min (mb_size cmb - mb_pos cmb) sz in
  chunk_data sz ch mb =
    if mbuf_get_left mb <? n then Some ((ENODATA, ch), mb)
    else Some ((0, RtmpChunk (ch_hdr ch) (Some (fill cmb (take (Z.to_nat n) (unread mb))))),
               set_pos (mb_pos mb + n) mb).
Proof.
  intros Hwf Hsz Em Hc He Hp n. unfold chunk_data. rewrite Em.
  assert (mbuf_get_space cmb = mb_size cmb - mb_pos cmb) as -> by (unfold mbuf_get_space; case_match; lia).
  fold n. unfold need, get, bind at 1. destruct (Z.ltb_spec (mbuf_get_left mb) n); [done|].
  destruct (read_store_eq n cmb mb) as (E1 & E2 & E3); [done|lia|done|lia|].
  rewrite (bind_Some _ _ _ _ _ E1). cbn [nz Z.eqb negb]. rewrite E2. unfold lift, bind, ret, fill.
  pose proof (wf_pos _ Hc). pose proof (wf_max _ Hc). unfold MEM_SIZE_MAX in *.
  by rewrite E3, !(wrap_small 64) by lia.
Qed.

(** ** The invariant *)

Record stream_hdr_ok (h : rtmp_header) : Prop := {
  sh_format : 0 <= rh_format h <= 2;
  sh_timestamp : 0 <= rh_timestamp h < 2 ^ 32;
  sh_delta : 0 <= rh_timestamp_delta h < 2 ^ 32;
  sh_length : 0 <= rh_length h < 2 ^ 24;
}.

(** A message that is being assembled is not complete. *)
Definition partial_ok (o : option mbuf) : Prop :=
  match o with Some cmb => exists data, filling cmb data /\ zlength data < mb_size cmb | None => True end.

Record chunk_ok (ch : rtmp_chunk) : Prop := {
  ck_hdr : stream_hdr_ok (ch_hdr ch);
  ck_mb : partial_ok (ch_mb ch);
}.

Definition stream_id (ch : rtmp_chunk) : Z := rh_chunk_id (ch_hdr ch).

Record rd_ok (rd : rtmp_dechunker) : Prop := {
  rk_chunks : Forall chunk_ok (rd_chunkl rd);
  rk_ids : NoDup (stream_id <$> rd_chunkl rd);
  rk_count : zlength (rd_chunkl rd) <= MAX_CHUNKS + 1;
  rk_size : 0 < rd_chunk_sz rd;
}.

Lemma find_chunk_Some l id i : find_chunk l id = Some i -> exists ch, l !! i = Some ch /\ stream_id ch = id.
Proof.
  revert i. induction l as [|c l IH]; intros i E; [done|]. cbn in E. destruct (Z.eqb_spec id (rh_chunk_id (ch_hdr c))).
  - simplify_eq. by exists c.
  - apply fmap_Some in E as (j & Ej & ->). by apply IH.
Qed.

Lemma find_chunk_None l id : find_chunk l id = None -> id ∉ stream_id <$> l.
Proof.
  induction l as [|c l IH]; intros E; [by apply not_elem_of_nil|]. cbn in E.
  destruct (Z.eqb_spec id (rh_chunk_id (ch_hdr c))); [done|]. rewrite fmap_None in E.
  cbn. apply not_elem_of_cons. split; [done|auto].
Qed.

Lemma find_chunk_unique l i ch : NoDup (stream_id <$> l) -> l !! i = Some ch ->
  find_chunk l (stream_id ch) = Some i.
Proof.
  intros Hn Hi. destruct (find_chunk l (stream_id ch)) as [j|] eqn:E.
  - apply find_chunk_Some in E as (c & Ej & Ec). f_equal. apply (NoDup_lookup _ _ _ (stream_id ch) Hn).
    + by rewrite list_lookup_fmap, Ej, <- Ec.
    + by rewrite list_lookup_fmap, Hi.
  - apply find_chunk_None in E. destruct E. rewrite list_elem_of_fmap. exists ch. split; [done|].
    by eapply list_elem_of_lookup_2.
Qed.

Lemma rd_set_chunk_ok rd i ch ch' : rd_ok rd -> rd_chunkl rd !! i = Some ch -> chunk_ok ch' ->
  stream_id ch' = stream_id ch -> rd_ok (rd_set_chunk rd i ch').
Proof.
  intros [Hc Hn Hl Hs] Hi Hok Hid. split; cbn; [by apply Forall_insert| |by rewrite length_insert|done].
  rewrite list_fmap_insert, Hid, list_insert_id; [done|]. by rewrite list_lookup_fmap, Hi.
Qed.

(** Looking up or creating the chunk stream. *)
Lemma get_chunk_ok rd hdr : rd_ok rd -> rtmp_decoded hdr ->
  exists e i rd', get_chunk rd hdr = (e, i, rd') /\ rd_ok rd' /\ rd_chunk_sz rd' = rd_chunk_sz rd /\
    (e = 0 -> exists ch, rd_chunkl rd' !! i = Some ch /\ stream_id ch = rh_chunk_id hdr).
Proof.
  intros Hok Hd. unfold get_chunk. destruct (find_chunk _ _) as [i|] eqn:Ef.
  { apply find_chunk_Some in Ef. eauto 10. }
  destruct (Z.eqb_spec (rh_format hdr) 0) as [E0|]; [|by eexists _, _, _].
  destruct (Z.ltb_spec MAX_CHUNKS (zlength (rd_chunkl rd))); [by eexists _, _, _|].
  unfold create_chunk. destruct (alloc_ok 80); [|by eexists _, _, _].
  eexists 0, _, _. split; [done|]. destruct Hok as [Hc Hn Hl Hs], Hd as [D1 D2 D3 D4 D5].
  split_and!; [|done|].
  - split; cbn; [| | |done].
    + apply Forall_app. split; [done|]. apply Forall_singleton. split; [split; cbn; lia|done].
    + rewrite fmap_app. apply list_relations.list.NoDup_app. split_and!; [done| |apply NoDup_singleton].
      intros x Hx Hx'. apply list_elem_of_singleton in Hx'. subst x. by apply find_chunk_None in Ef.
    + rewrite length_app. cbn. lia.
  - intros _. exists (RtmpChunk hdr None). split; [|done]. cbn.
    rewrite lookup_app_r, Nat.sub_diag by lia. done.
Qed.

(** What a step leaves in a chunk stream: on success a buffer that may be
    full, otherwise a stream in order. *)
Definition step_ok (e : Z) (ch : rtmp_chunk) : Prop :=
  stream_hdr_ok (ch_hdr ch) /\
  if e =? 0 then exists cmb data, ch_mb ch = Some cmb /\ filling cmb data else partial_ok (ch_mb ch).

Lemma merge_hdr_ok hdr old : rtmp_decoded hdr -> rh_format hdr < 3 -> stream_hdr_ok old ->
  stream_hdr_ok (merge_hdr hdr old).
Proof. intros [] ? []. unfold merge_hdr. repeat case_match; split; cbn; lia. Qed.

Lemma start_hdr_ok hdr old : rtmp_decoded hdr -> rh_format hdr < 3 -> stream_hdr_ok old ->
  stream_hdr_ok (start_hdr hdr old).
Proof.
  intros [] ? []. unfold start_hdr. pose proof (wrap_range 32 (rh_timestamp old + rh_timestamp_delta hdr)).
  case_match; split; cbn; lia.
Qed.

Lemma take_unread_ok n mb : mbuf_wf mb -> bytes_ok (take n (unread mb)).
Proof. intros. by apply Forall_take, unread_ok. Qed.

Lemma chunk_start_ok sz hdr ch mb : mbuf_wf mb -> 0 < sz -> rtmp_decoded hdr -> rh_format hdr < 3 ->
  chunk_ok ch -> exists e ch' mb', chunk_start sz hdr ch mb = Some ((e, ch'), mb') /\ advanced mb mb' /\
    step_ok e ch' /\ (rh_chunk_id hdr = stream_id ch -> stream_id ch' = stream_id ch).
Proof.
  intros Hwf Hsz Hd Hf [Hh Hm]. pose proof (merge_hdr_ok _ _ Hd Hf Hh) as Hmh.
  pose proof (start_hdr_ok _ _ Hd Hf Hmh) as Hst. rewrite chunk_start_eq by (done || lia || apply Hmh).
  assert (forall m, rh_chunk_id hdr = stream_id ch ->
    stream_id (RtmpChunk (merge_hdr hdr (ch_hdr ch)) m) = stream_id ch) as Hid.
  { intros m Hid. unfold stream_id, merge_hdr in *. cbn. by repeat case_match. }
  set (h := merge_hdr hdr (ch_hdr ch)) in *. set (n := Z.min (rh_length h) sz). pose proof (sh_length _ Hmh).
  pose proof (left_bound _ Hwf).
  destruct (Z.ltb_spec (mbuf_get_left mb) n); [|destruct (mbuf_alloc (rh_length h)) as [cmb|] eqn:Ea];
    eexists _, _, _; (split; [done|]).
  - split_and!; [by apply advanced_refl| |by apply Hid]. by split.
  - split_and!; [apply advanced_set_pos; lia| |].
    + split; [done|]. cbn. eexists _, _. split; [done|].
      destruct (mbuf_alloc_wf _ _ (proj1 (sh_length _ Hmh)) Ea) as (_ & _ & _ & Hs).
      apply (filling_fill _ []); [by eapply filling_alloc|by apply take_unread_ok|].
      rewrite Hs, length_take. unfold nz, DEFAULT_SIZE. destruct (Z.eqb_spec (rh_length h) 0); cbn; lia.
    + intros Hi. rewrite <- (Hid None Hi). unfold stream_id, start_hdr. cbn. by case_match.
  - split_and!; [by apply advanced_refl| |by apply Hid]. by split.
Qed.

(** The extended timestamp of a format 3 chunk, by the bytes read. *)
Definition ext_hdr (h : rtmp_header) (ts : Z) : rtmp_header :=
  if rh_format h =? 0 then rh_set_timestamp ts h else rh_set_delta ts h.

Lemma chunk_ext_ts_eq ch mb : mbuf_wf mb ->
  chunk_ext_ts ch mb =
    if rh_ext_ts (ch_hdr ch) then
      if mbuf_get_left mb <? 4 then Some ((ENODATA, ch), mb)
      else Some ((0, RtmpChunk (ext_hdr (ch_hdr ch) (be_val (take 4 (unread mb)))) (ch_mb ch)),
                 set_pos (mb_pos mb + 4) mb)
    else Some ((0, ch), mb).
Proof.
  intros Hwf. unfold chunk_ext_ts. destruct (rh_ext_ts (ch_hdr ch)); [|done].
  unfold need, get, bind at 1. destruct (Z.ltb_spec (mbuf_get_left mb) 4); [done|].
  pose proof (length_unread mb Hwf). set (bs := take 4 (unread mb)).
  assert (length bs = 4%nat) as Hl by (subst bs; rewrite length_take; lia).
  destruct (reads_net_val 4 bs Hl) as [Hr _]; [by apply take_unread_ok|].
  rewrite (bind_Some _ _ _ _ _ (Hr mb (drop 4 (unread mb)) Hwf ltac:(by subst bs; rewrite take_drop))).
  by rewrite Hl.
Qed.

Lemma ext_hdr_ok h ts : stream_hdr_ok h -> 0 <= ts < 2 ^ 32 -> stream_hdr_ok (ext_hdr h ts).
Proof. intros [] ?. unfold ext_hdr. case_match; split; cbn; lia. Qed.

Lemma ext_val_range mb : mbuf_wf mb -> 4 <= mbuf_get_left mb -> 0 <= be_val (take 4 (unread mb)) < 2 ^ 32.
Proof.
  intros Hwf Hl. pose proof (length_unread mb Hwf).
  pose proof (be_val_range _ (take_unread_ok 4 mb Hwf)) as R. rewrite length_take in R.
  by replace (4 `min` length (unread mb))%nat with 4%nat in R by lia.
Qed.

(** A restarted stream has a buffer with room. *)
Lemma chunk_restart_ok ch : chunk_ok ch -> exists e ch', chunk_restart ch = (e, ch') /\ chunk_ok ch' /\
  stream_id ch' = stream_id ch /\ (e = 0 -> exists cmb, ch_mb ch' = Some cmb).
Proof.
  intros Hok. pose proof Hok as [Hh Hm]. unfold chunk_restart. destruct (ch_mb ch) as [cmb|] eqn:Em; [exists 0, ch; split_and!; eauto|].
  pose proof (sh_length _ Hh) as Hl. destruct (mbuf_alloc _) as [cmb|] eqn:Ea; [|by eexists _, _].
  eexists 0, _. split; [done|]. set (h := if _ =? 0 then _ else _).
  assert (stream_hdr_ok h) as Hh' by (destruct Hh; subst h; case_match; split; cbn; lia).
  pose proof (wrap_range 32 (rh_timestamp h + rh_timestamp_delta h)). split_and!; [|subst h; by case_match|by eauto].
  split; cbn; [destruct Hh'; split; cbn; lia|]. exists []. split; [by eapply filling_alloc|].
  destruct (mbuf_alloc_wf _ _ (proj1 Hl) Ea) as (_ & _ & _ & ->). unfold nz, DEFAULT_SIZE.
  destruct (Z.eqb_spec (rh_length (ch_hdr ch)) 0); cbn; lia.
Qed.

Lemma chunk_data_ok sz ch cmb mb : mbuf_wf mb -> 0 < sz -> chunk_ok ch -> ch_mb ch = Some cmb ->
  exists e ch' mb', chunk_data sz ch mb = Some ((e, ch'), mb') /\ advanced mb mb' /\ step_ok e ch' /\
    stream_id ch' = stream_id ch.
Proof.
  intros Hwf Hsz [Hh Hm] Em. rewrite Em in Hm. destruct Hm as (data & Hf & Hlt).
  pose proof (filling_pos _ _ Hf) as Hp. pose proof Hf as [Hc _ He _].
  rewrite (chunk_data_eq _ _ cmb) by (done || lia). pose proof (left_bound _ Hwf).
  set (n := Z.min _ sz). destruct (Z.ltb_spec (mbuf_get_left mb) n); eexists _, _, _; (split; [done|]).
  - split_and!; [by apply advanced_refl| |done]. split; [done|]. cbn. rewrite Em. by exists data.
  - split_and!; [apply advanced_set_pos; lia| |done]. split; [done|]. cbn. eexists _, _. split; [done|].
    apply filling_fill; [done|by apply take_unread_ok|]. rewrite length_take. lia.
Qed.

Lemma chunk_continue_ok sz ch mb : mbuf_wf mb -> 0 < sz -> chunk_ok ch ->
  exists e ch' mb', chunk_continue sz ch mb = Some ((e, ch'), mb') /\ advanced mb mb' /\ step_ok e ch' /\
    stream_id ch' = stream_id ch.
Proof.
  intros Hwf Hsz Hok. unfold chunk_continue.
  assert (exists e ch1 mb1, chunk_ext_ts ch mb = Some ((e, ch1), mb1) /\ advanced mb mb1 /\ chunk_ok ch1 /\
    stream_id ch1 = stream_id ch) as (e & ch1 & mb1 & E1 & Ha1 & Hok1 & Hid1).
  { rewrite chunk_ext_ts_eq by done. pose proof (left_bound _ Hwf). destruct Hok as [Hh Hm].
    destruct (rh_ext_ts (ch_hdr ch)); [|by eauto 10 using advanced_refl, Build_chunk_ok].
    destruct (Z.ltb_spec (mbuf_get_left mb) 4); [by eauto 10 using advanced_refl, Build_chunk_ok|].
    eexists _, _, _. split_and!; [done|apply advanced_set_pos; lia| |].
    - split; [|done]. apply ext_hdr_ok; [done|]. by apply ext_val_range.
    - unfold stream_id, ext_hdr. cbn. by case_match. }
  rewrite (bind_Some _ _ _ _ _ E1). unfold nz at 1. destruct (Z.eqb_spec e 0) as [->|Hne]; cbn [negb].
  2: { eexists _, _, _. split_and!; [done|done| |done]. destruct Hok1. split; [done|].
       by rewrite (proj2 (Z.eqb_neq _ _)). }
  destruct (chunk_restart_ok ch1 Hok1) as (e & ch2 & -> & Hok2 & Hid2 & Hc). unfold nz.
  destruct (Z.eqb_spec e 0) as [->|Hne]; cbn [negb].
  2: { eexists _, _, _. split_and!; [done|done| |congruence]. destruct Hok2. split; [done|].
       by rewrite (proj2 (Z.eqb_neq _ _)). }
  destruct (Hc eq_refl) as [cmb Em].
  destruct (chunk_data_ok sz ch2 cmb mb1) as (e & ch3 & mb3 & E3 & Ha3 & Hs3 & Hid3);
    [by eapply advanced_wf|done..|]. exists e, ch3, mb3.
  split_and!; [done|by eapply advanced_trans|done|congruence].
Qed.

Lemma chunk_recv_ok sz hdr ch mb : mbuf_wf mb -> 0 < sz -> rtmp_decoded hdr -> chunk_ok ch ->
  rh_chunk_id hdr = stream_id ch ->
  exists e ch' mb', chunk_recv sz hdr ch mb = Some ((e, ch'), mb') /\ advanced mb mb' /\ step_ok e ch' /\
    stream_id ch' = stream_id ch.
Proof.
  intros Hwf Hsz Hd Hok Hid. unfold chunk_recv. pose proof (rd_format _ Hd).
  destruct (_ || _) eqn:Ef.
  - destruct (chunk_start_ok sz hdr ch mb) as (e & ch' & mb' & ? & ? & ? & Hi); [done|done|done|lia|done|]. eauto 10.
  - rewrite (proj2 (Z.eqb_eq _ _)) by lia. by apply chunk_continue_ok.
Qed.

(** ** Memory safety *)

Section handler.
Context {A : Type} (chunkh : rtmp_header -> mbuf -> M (rtmp_dechunker * A) Z).

(** What the de-chunker needs of the handler: given a complete message it is
    defined, and leaves the de-chunker in order (it may set the chunk size). *)
Definition handler_ok : Prop := forall h data buf rd a,
  rd_ok rd -> stream_hdr_ok h -> holds buf data 0 -> mb_size buf = zlength data ->
  exists e rd' a', chunkh h buf (rd, a) = Some (e, (rd', a')) /\ rd_ok rd'.

(** A full buffer, handed over. *)
Lemma filling_full cmb data : filling cmb data -> mb_size cmb <= mb_pos cmb ->
  holds (set_pos 0 cmb) data 0 /\ mb_size (set_pos 0 cmb) = zlength data.
Proof.
  intros [Hwf _ He Hh] Hs. split; [apply (holds_set_pos _ _ _ _ Hh); lia|]. cbn.
  pose proof (holds_end _ _ _ Hh). pose proof (wf_end _ Hwf). lia.
Qed.

Lemma chunk_deliver_ok rd i ch ch' a : handler_ok -> rd_ok rd -> rd_chunkl rd !! i = Some ch ->
  step_ok 0 ch' -> stream_id ch' = stream_id ch ->
  exists e rd' a', chunk_deliver chunkh rd i ch' a = Some (e, rd', a') /\ rd_ok rd'.
Proof.
  intros Hh Hok Hi (Hs & cmb & data & Em & Hf) Hid. unfold chunk_deliver. rewrite Em.
  destruct (Z.leb_spec (mb_size cmb) (mb_pos cmb)).
  - destruct (filling_full _ _ Hf) as [Hb Hl]; [done|].
    destruct (Hh (ch_hdr ch') data (set_pos 0 cmb) (rd_set_chunk rd i (RtmpChunk (ch_hdr ch') None)) a)
      as (e & rd' & a' & E & Hok'); [|done..|rewrite E; eauto 10].
    eapply rd_set_chunk_ok; [done..| |done]. by split.
  - eexists _, _, _. split; [done|]. eapply rd_set_chunk_ok; [done..| |done]. split; [done|].
    rewrite Em. exists data. split; [done|]. rewrite <- (filling_pos _ _ Hf). lia.
Qed.

(** C25: the de-chunker is memory safe on every input and keeps its
    invariant: whatever the bytes received, no access leaves a buffer, the
    input position never moves past the end, chunk stream ids stay distinct,
    at most 65 streams are kept, each with a buffer of at most 16 MiB that is
    never full, so that every message is handed over when complete. *)
Theorem rtmp_receive_safe rd a mb : handler_ok -> rd_ok rd -> mbuf_wf mb ->
  exists e rd' a' mb', rtmp_dechunker_receive chunkh rd a mb = Some (e, rd', a', mb') /\
    rd_ok rd' /\ advanced mb mb'.
Proof.
  intros Hh Hok Hwf. unfold rtmp_dechunker_receive.
  destruct (parses_rtmp_header mb Hwf) as (e & hdr & mb1 & E & Ha & Hp); [by apply left_bound|].
  rewrite E. unfold nz. destruct (Z.eqb_spec e 0) as [->|]; cbn [negb]; [|by eauto 10].
  destruct (Hp eq_refl) as [Hd _]. clear Hp E.
  destruct (get_chunk_ok rd hdr Hok Hd) as (e & i & rd1 & -> & Hok1 & Esz & Hc).
  destruct (Z.eqb_spec e 0) as [->|]; cbn [negb]; [|by eauto 10].
  destruct (Hc eq_refl) as (ch & Hi & Hid). rewrite Hi. pose proof (advanced_wf _ _ Hwf Ha) as Hwf1.
  pose proof (rk_size _ Hok). rewrite Esz.
  destruct (chunk_recv_ok (rd_chunk_sz rd) hdr ch mb1) as (e & ch' & mb2 & -> & Ha2 & Hs & Hid');
    [done|done|done| |done|].
  { apply (Forall_lookup_1 _ _ _ _ (rk_chunks _ Hok1) Hi). }
  destruct (Z.eqb_spec e 0) as [->|Hne]; cbn [negb].
  - destruct (chunk_deliver_ok rd1 i ch ch' a Hh Hok1 Hi Hs Hid') as (e & rd2 & a2 & -> & Hok2).
    eauto 10 using advanced_trans.
  - eexists _, _, _, _. split_and!; [done| |by eapply advanced_trans].
    eapply rd_set_chunk_ok; [done..| |done]. destruct Hs as [Hs Hm].
    rewrite (proj2 (Z.eqb_neq _ _)) in Hm by done. by split.
Qed.

End handler.
End rtmp_thms.
