(* ===== verification/RtmpRound.v ===== *)
(** * Messages through the RTMP chunker and de-chunker

    What [rtmp_chunker] puts on the wire, and that the de-chunker takes it
    apart into the message that was sent. *)

From S2P Require Export Prelude Mbuf MbufSpec MbufParse MbufData Rtmp RtmpChunk RtmpThms.

Section rtmp_round.
Context `{Host}.

(** ** The bytes of a chunked message *)

Fixpoint cont_bytes (fuel : nat) (h : rtmp_header) (sz : Z) (p : list Z) : list Z :=
  match p with
  | [] => []
  | _ =>
      match fuel with
      | O => []
      | S fuel =>
          let n := Z.to_nat (Z.min (zlength p) sz) in
          rtmp_hdr_bytes h ++ take n p ++ cont_bytes fuel h sz (drop n p)
      end
  end.

(** The header of the chunks after the first. *)
Definition cont_hdr (h : rtmp_header) : rtmp_header := rh_set_format 3 (hdr_ext h).

Definition chunk_bytes (h : rtmp_header) (sz : Z) (p : list Z) : list Z :=
  let n := Z.to_nat (Z.min (zlength p) sz) in
  rtmp_hdr_bytes (hdr_ext h) ++ take n p ++ cont_bytes (length p) (cont_hdr h) sz (drop n p).

Lemma ts_ext_range ts : 0 <= ts < 2 ^ 32 -> 0 <= ts_ext ts < 2 ^ 32.
Proof. unfold ts_ext. case_match; lia. Qed.

Lemma hdr_ext_ok h : rtmp_hdr_ok h -> rtmp_hdr_ok (hdr_ext h).
Proof.
  intros []. unfold hdr_ext. pose proof (ts_ext_range (rh_timestamp h)). pose proof (ts_ext_range (rh_timestamp_delta h)).
  repeat case_match; split; cbn; lia.
Qed.

Lemma cont_hdr_ok h : rtmp_hdr_ok h -> rtmp_hdr_ok (cont_hdr h).
Proof. intros Hok. destruct (hdr_ext_ok h Hok). split; cbn; lia. Qed.

Lemma cont_hdr_ext h : hdr_ext (cont_hdr h) = cont_hdr h.
Proof. done. Qed.

(** Writing a header, some payload, and the rest. *)
Lemma writes_chunk hdr bs k bk : rtmp_hdr_ok hdr -> bytes_ok bs -> Writes (k (hdr_ext hdr)) bk ->
  Writes (let* '(err, hdr) := rtmp_header_encode hdr in
          let* err2 := mbuf_write_mem bs in
          if nz (Z.lor err err2) then ret (Z.lor err err2) else k hdr)
    (rtmp_hdr_bytes (hdr_ext hdr) ++ bs ++ bk).
Proof.
  intros Hok Hb Hk mb Hwf Hr. rewrite !length_app in *.
  destruct (rtmp_header_encode_spec hdr mb Hok Hwf) as (e1 & h' & mb1 & E1 & Hwf1 & Hp1 & He1 & Hw1 & Ho1); [lia|].
  rewrite (bind_Some _ _ _ _ _ E1).
  destruct (writes_mem bs Hb mb1 Hwf1) as (e2 & mb2 & E2 & Hwf2 & Hp2 & He2 & Hw2 & Ho2); [lia|].
  rewrite (bind_Some _ _ _ _ _ E2). unfold nz. destruct (Z.eqb_spec (Z.lor e1 e2) 0) as [E0|Hne]; cbn [negb].
  2: { eexists _, _. split_and!; [done|done|lia|lia|by apply Z.lor_nonneg|done|].
       intros Ho. by rewrite Ho1, Ho2. }
  apply lor_0_iff in E0 as [-> ->]. destruct (Hw1 eq_refl) as [-> Hwr1]. pose proof (Hw2 eq_refl) as Hwr2.
  pose proof (wr_pos _ _ _ Hwr1). pose proof (wr_pos _ _ _ Hwr2).
  destruct (Hk mb2 Hwf2) as (e3 & mb3 & E3 & Hwf3 & Hp3 & He3 & Hw3 & Ho3); [lia|].
  exists e3, mb3. split_and!; try done; try lia. intros ->.
  apply (written_app _ _ mb1); [done..|]. apply (written_app _ _ mb2); auto.
Qed.

Lemma chunker_loop_writes fuel h sz p : rtmp_hdr_ok h -> hdr_ext h = h -> bytes_ok p -> 0 < sz ->
  (length p <= fuel)%nat -> Writes (chunker_loop fuel h sz p) (cont_bytes fuel h sz p).
Proof.
  intros Hok Hx Hb Hsz. revert p Hb. induction fuel as [|fuel IH]; intros p Hb Hl; (destruct p as [|x p]; [apply _|]).
  - cbn in Hl. lia.
  - cbn [chunker_loop cont_bytes]. set (n := Z.to_nat (Z.min (zlength (x :: p)) sz)).
    rewrite <- Hx at 2. apply writes_chunk; [done|by apply Forall_take|]. rewrite Hx.
    apply IH; [by apply Forall_drop|]. rewrite length_drop. subst n. cbn in *. lia.
Qed.

Lemma chunker_write_writes h sz p : rtmp_hdr_ok h -> bytes_ok p -> 0 < sz ->
  Writes (chunker_write h sz p) (chunk_bytes h sz p).
Proof.
  intros Hok Hb Hsz. unfold chunker_write, chunk_bytes.
  apply (writes_chunk h _ (fun h => chunker_loop (length p) (rh_set_format 3 h) sz _));
    [done|by apply Forall_take|]. fold (cont_hdr h).
  apply chunker_loop_writes; [by apply cont_hdr_ok|done|by apply Forall_drop|done|rewrite length_drop; lia].
Qed.

(** The overhead of a chunk is at most 18 bytes. *)
Lemma rtmp_hdr_bytes_length h : zlength (rtmp_hdr_bytes h) <= 18.
Proof.
  unfold rtmp_hdr_bytes, basic_bytes, msg_bytes, ext_ts_bytes.
  repeat case_match; rewrite ?length_app, ?length_be_bytes, ?length_le_bytes; cbn; lia.
Qed.

Lemma cont_bytes_length fuel h sz p : 0 < sz -> zlength (cont_bytes fuel h sz p) <= 19 * zlength p.
Proof.
  intros Hsz. revert p. induction fuel as [|fuel IH]; intros p; (destruct p as [|x p]; cbn [cont_bytes length]; [lia|]);
    [lia|]. pose proof (rtmp_hdr_bytes_length h). set (n := Z.to_nat _). specialize (IH (drop n (x :: p))).
  rewrite !length_app, length_take in *. rewrite length_drop in IH. subst n. cbn [length] in *. lia.
Qed.

Lemma chunk_bytes_length h sz p : 0 < sz -> zlength (chunk_bytes h sz p) <= 18 + 19 * zlength p.
Proof.
  intros Hsz. unfold chunk_bytes. pose proof (rtmp_hdr_bytes_length (hdr_ext h)). set (n := Z.to_nat _).
  pose proof (cont_bytes_length (length p) (cont_hdr h) sz (drop n p) Hsz) as Hc.
  rewrite length_drop in Hc. rewrite !length_app, length_take. lia.
Qed.

(** What the chunker sends. *)
Lemma rtmp_chunker_sends {T} (tcp_send : mbuf -> T -> option (Z * T)) f cid ts td ty sid p sz :
  let h := RtmpHeader f cid ts td 0 (zlength p) ty sid false in
  no_oom -> rtmp_hdr_ok h -> bytes_ok p -> 0 < zlength p -> 0 < sz ->
  exists out, holds out (chunk_bytes h sz p) 0 /\
    forall tc, rtmp_chunker tcp_send f cid ts td ty sid p sz tc = tcp_send out tc.
Proof.
  intros h Ho Hok Hb Hp Hsz. pose proof Hok as [Hf _ _ _ _ Hl _ _]. cbn in Hf, Hl.
  destruct (mbuf_alloc_no_oom (zlength p + 256) Ho) as [mb Ea]; [unfold MEM_SIZE_MAX; lia|].
  destruct (mbuf_alloc_wf (zlength p + 256) mb) as (Hwf & Hpos & He & _); [lia|done|].
  assert (holds mb [] 0) as Hh by (split; [done|by rewrite He|done]).
  pose proof (chunk_bytes_length h sz p Hsz).
  destruct (holds_append mb [] 0 _ _ Hh eq_refl (chunker_write_writes h sz p Hok Hb Hsz))
    as (e & mb' & E & _ & _ & He0 & Hh'); [unfold WRITE_MAX; lia|].
  rewrite (He0 Ho) in E. exists (set_pos 0 mb'). split.
  - apply (holds_set_pos _ _ _ _ (Hh' (He0 Ho))). lia.
  - intros tc. unfold rtmp_chunker. rewrite !(proj2 (Z.eqb_neq _ _)) by lia. cbn [orb]. rewrite Ea.
    rewrite (wrap_small 32), (Z.mod_small f) by lia. fold h. by rewrite E.
Qed.

(** ** Receiving *)

Section handler.
Context {A : Type} (chunkh : rtmp_header -> mbuf -> M (rtmp_dechunker * A) Z).

(** Up to [n] chunks, stopping at the first error. *)
Fixpoint recv_n (n : nat) (rd : rtmp_dechunker) (a : A) (mb : mbuf) : option (Z * rtmp_dechunker * A * mbuf) :=
  match n with
  | O => Some (0, rd, a, mb)
  | S n =>
      match rtmp_dechunker_receive chunkh rd a mb with
      | Some (e, rd', a', mb') => if nz e then Some (e, rd', a', mb') else recv_n n rd' a' mb'
      | None => None
      end
  end.

(** The handler called with [buf], the stream [i] idle. *)
Definition hand_over (rd : rtmp_dechunker) (i : nat) (h : rtmp_header) (buf : mbuf) (a : A) (mb : mbuf)
    : option (Z * rtmp_dechunker * A * mbuf) :=
  match chunkh h buf (rd_set_chunk rd i (RtmpChunk h None), a) with
  | Some (e, (rd, a)) => Some (e, rd, a, mb)
  | None => None
  end.

Lemma hand_over_set rd i c h buf a mb : hand_over (rd_set_chunk rd i c) i h buf a mb = hand_over rd i h buf a mb.
Proof. unfold hand_over, rd_set_chunk. cbn. by rewrite list_insert_insert_eq. Qed.

(** One chunk whose header and data are there: the buffer of the stream grows,
    and is handed over when full. *)
Lemma receive_step rd rd1 a mb hdr bs rest i ch h cmb data x mb2 : mbuf_wf mb ->
  Reads rtmp_header_decode bs (0, hdr) -> unread mb = bs ++ rest ->
  get_chunk rd hdr = (0, i, rd1) -> rd_chunkl rd1 !! i = Some ch ->
  chunk_recv (rd_chunk_sz rd1) hdr ch (set_pos (mb_pos mb + zlength bs) mb) =
    Some ((0, RtmpChunk h (Some (fill cmb x))), mb2) ->
  filling cmb data -> bytes_ok x -> zlength data + zlength x <= mb_size cmb ->
  filling (fill cmb x) (data ++ x) /\
  rtmp_dechunker_receive chunkh rd a mb =
    if zlength data + zlength x =? mb_size cmb then hand_over rd1 i h (set_pos 0 (fill cmb x)) a mb2
    else Some (0, rd_set_chunk rd1 i (RtmpChunk h (Some (fill cmb x))), a, mb2).
Proof.
  intros Hwf Hr Eu Eg Ei Ec Hf Hx Hl. pose proof (filling_fill _ _ _ Hf Hx Hl) as Hf'. split; [done|].
  unfold rtmp_dechunker_receive. rewrite (Hr mb rest Hwf Eu). cbn [nz Z.eqb negb]. rewrite Eg. cbn [nz Z.eqb negb].
  rewrite Ei, Ec. cbn [nz Z.eqb negb]. unfold chunk_deliver, hand_over. cbn [ch_mb ch_hdr].
  pose proof (filling_pos _ _ Hf') as Hp. rewrite length_app in Hp.
  change (mb_size (fill cmb x)) with (mb_size cmb). rewrite Hp.
  destruct (Z.leb_spec (mb_size cmb) (Z.of_nat (length data + length x))) as [Hle|Hgt].
  - rewrite (proj2 (Z.eqb_eq _ _)) by lia. by destruct (chunkh _ _ _) as [[? []]|].
  - by rewrite (proj2 (Z.eqb_neq _ _)) by lia.
Qed.

(** The header of the stream while a message of header [h] is assembled. *)
Definition stream_hdr (h old : rtmp_header) : rtmp_header :=
  start_hdr (rtmp_hdr_view h) (merge_hdr (rtmp_hdr_view h) old).

Lemma stream_hdr_ext h old : 0 <= rh_format h < 3 ->
  rh_ext_ts (stream_hdr h old) = nz (rh_timestamp_ext (cont_hdr h)) /\
  (rh_ext_ts (stream_hdr h old) = true ->
   ext_hdr (stream_hdr h old) (rh_timestamp_ext (cont_hdr h)) = stream_hdr h old).
Proof.
  intros Hf. unfold stream_hdr, cont_hdr, hdr_ext, rtmp_hdr_view, start_hdr, merge_hdr, ext_hdr, ts_ext, nz.
  assert (rh_format h = 0 \/ rh_format h = 1 \/ rh_format h = 2) as [-> | [-> | ->]] by lia; cbn.
  - destruct (Z.leb_spec TIMESTAMP_24MAX (rh_timestamp h)) as [Hle|]; [|done].
    by rewrite (proj2 (Z.eqb_neq _ _)) by (unfold TIMESTAMP_24MAX in Hle; lia).
  - destruct (Z.leb_spec TIMESTAMP_24MAX (rh_timestamp_delta h)) as [Hle|]; [|done].
    by rewrite (proj2 (Z.eqb_neq _ _)) by (unfold TIMESTAMP_24MAX in Hle; lia).
  - destruct (Z.leb_spec TIMESTAMP_24MAX (rh_timestamp_delta h)) as [Hle|]; [|done].
    by rewrite (proj2 (Z.eqb_neq _ _)) by (unfold TIMESTAMP_24MAX in Hle; lia).
Qed.

Lemma stream_hdr_id h old : rh_chunk_id h = rh_chunk_id old -> rh_chunk_id (stream_hdr h old) = rh_chunk_id old.
Proof.
  intros E. unfold stream_hdr, start_hdr, merge_hdr, rtmp_hdr_view.
  destruct (rh_format h =? 0), (rh_format h =? 1), (rh_format h =? 2); cbn; try done; by repeat (case_match; cbn).
Qed.

(** The extended timestamp at the head of a continuation chunk. *)
Lemma cont_ext_ts h old cmb mb rest : rtmp_hdr_ok h -> rh_format h < 3 -> mbuf_wf mb ->
  let ch := RtmpChunk (stream_hdr h old) (Some cmb) in
  let xb := ext_ts_bytes (rh_timestamp_ext (cont_hdr h)) in
  unread mb = xb ++ rest ->
  chunk_ext_ts ch mb = Some ((0, ch), set_pos (mb_pos mb + zlength xb) mb).
Proof.
  intros Hok Hf Hwf ch xb Eu. rewrite chunk_ext_ts_eq by done. subst ch xb. cbn [ch_hdr ch_mb].
  destruct (stream_hdr_ext h old) as [E1 E2]; [destruct Hok; lia|].
  pose proof (rok_ext _ (cont_hdr_ok h Hok)) as Hr. unfold ext_ts_bytes in *. rewrite E1 in *.
  destruct (nz (rh_timestamp_ext (cont_hdr h))).
  - pose proof (unread_left _ _ _ Hwf Eu) as Hl. rewrite length_be_bytes in *.
    rewrite (proj2 (Z.ltb_ge _ _)) by lia. rewrite Eu, take_app_length' by (by rewrite length_be_bytes).
    rewrite be_val_bytes by done. by rewrite E2.
  - cbn. by rewrite Z.add_0_r, set_pos_id.
Qed.

(** The number of chunks of [r] bytes. *)
Definition chunks (sz r : Z) : nat := Z.to_nat ((r + sz - 1) / sz).

Lemma chunks_last sz r : 0 < r <= sz -> chunks sz r = 1%nat.
Proof.
  intros Hr. unfold chunks. replace ((r + sz - 1) / sz) with 1; [done|].
  apply (Z.div_unique_pos _ _ _ (r - 1)); lia.
Qed.

Lemma chunks_more sz r : 0 < sz < r -> chunks sz r = S (chunks sz (r - sz)).
Proof.
  intros Hr. unfold chunks. replace (r + sz - 1) with (r - sz + sz - 1 + 1 * sz) by lia.
  rewrite Z.div_add by lia. assert (0 <= (r - sz + sz - 1) / sz) by (apply Z.div_pos; lia). lia.
Qed.

Lemma get_chunk_found rd i ch hdr : NoDup (stream_id <$> rd_chunkl rd) -> rd_chunkl rd !! i = Some ch ->
  rh_chunk_id hdr = stream_id ch -> get_chunk rd hdr = (0, i, rd).
Proof. intros Hn Hi E. unfold get_chunk. by rewrite E, (find_chunk_unique _ i). Qed.

Lemma ids_set_chunk rd i ch ch' : rd_chunkl rd !! i = Some ch -> stream_id ch' = stream_id ch ->
  stream_id <$> rd_chunkl (rd_set_chunk rd i ch') = stream_id <$> rd_chunkl rd.
Proof.
  intros Hi E. cbn. rewrite list_fmap_insert, E. apply list_insert_id. by rewrite list_lookup_fmap, Hi.
Qed.

(** One continuation chunk. *)
Lemma receive_cont h old rd i cmb data x rest mb a : rtmp_hdr_ok h -> rh_format h < 3 -> mbuf_wf mb ->
  let hs := stream_hdr h old in
  NoDup (stream_id <$> rd_chunkl rd) -> rd_chunkl rd !! i = Some (RtmpChunk hs (Some cmb)) ->
  rh_chunk_id h = rh_chunk_id hs -> 0 < rd_chunk_sz rd -> filling cmb data -> bytes_ok x ->
  zlength x = Z.min (mb_size cmb - zlength data) (rd_chunk_sz rd) -> zlength data <= mb_size cmb ->
  let bs := rtmp_hdr_bytes (cont_hdr h) ++ x in
  unread mb = bs ++ rest ->
  filling (fill cmb x) (data ++ x) /\
  rtmp_dechunker_receive chunkh rd a mb =
    if zlength data + zlength x =? mb_size cmb
    then hand_over rd i hs (set_pos 0 (fill cmb x)) a (set_pos (mb_pos mb + zlength bs) mb)
    else Some (0, rd_set_chunk rd i (RtmpChunk hs (Some (fill cmb x))), a,
               set_pos (mb_pos mb + zlength bs) mb).
Proof.
  intros Hok Hf Hwf hs Hn Hi Hid Hsz Hfl Hx Hlx Hld bs Eu. subst bs.
  set (xb := ext_ts_bytes (rh_timestamp_ext (cont_hdr h))).
  assert (rtmp_hdr_bytes (cont_hdr h) = rtmp_wire (cont_hdr h) ++ xb) as Eb.
  { unfold rtmp_hdr_bytes, rtmp_wire. cbn. by rewrite app_nil_r. }
  rewrite Eb, <- !app_assoc in Eu. set (w := rtmp_wire (cont_hdr h)) in *.
  set (mb1 := set_pos (mb_pos mb + zlength w) mb).
  assert (mbuf_wf mb1) as Hwf1 by (by eapply unread_wf). pose proof (unread_advance _ _ _ Hwf Eu) as Eu1. fold mb1 in Eu1.
  set (mb2 := set_pos (mb_pos mb1 + zlength xb) mb1).
  assert (mbuf_wf mb2) as Hwf2 by (by eapply unread_wf). pose proof (unread_advance _ _ _ Hwf1 Eu1) as Eu2. fold mb2 in Eu2.
  pose proof (unread_left _ _ _ Hwf2 Eu2) as Hl2. pose proof (filling_pos _ _ Hfl) as Hp.
  eapply (receive_step rd rd a mb (rtmp_hdr_view (cont_hdr h)) w); [done|..|done|done|lia].
  - apply rtmp_header_decode_reads. by apply cont_hdr_ok.
  - done.
  - apply (get_chunk_found _ _ _ _ Hn Hi). unfold rtmp_hdr_view, stream_id. cbn. rewrite <- Hid.
    by destruct (hdr_ext_fields h) as (_ & -> & _).
  - done.
  - fold mb1. unfold chunk_recv. cbn [rtmp_hdr_view cont_hdr rh_format rh_set_format Z.eqb Pos.eqb orb].
    unfold chunk_continue. rewrite (bind_Some _ _ _ _ _ (cont_ext_ts h old cmb mb1 _ Hok Hf Hwf1 Eu1)).
    fold xb. fold mb2. cbn [nz Z.eqb negb]. cbn [chunk_restart ch_mb nz Z.eqb negb].
    rewrite (chunk_data_eq _ _ cmb) by (done || lia || apply Hfl). rewrite Hp, <- Hlx.
    rewrite (proj2 (Z.ltb_ge _ _)) by lia. rewrite Eu2, Nat2Z.id, take_app_length. cbn [ch_hdr]. fold hs.
    subst mb2 mb1. rewrite !set_pos_set_pos. cbn [mb_pos set_pos]. do 3 f_equal. rewrite Eb, !length_app. lia.
Qed.

Lemma cont_bytes_nil fuel h sz : cont_bytes fuel h sz [] = [].
Proof. by destruct fuel. Qed.

Lemma cont_bytes_S fuel h sz p : p <> [] -> cont_bytes (S fuel) h sz p =
  let n := Z.to_nat (Z.min (zlength p) sz) in
  rtmp_hdr_bytes h ++ take n p ++ cont_bytes fuel h sz (drop n p).
Proof. by destruct p. Qed.

(** The rest of a message, by induction on the chunks. *)
Lemma recv_rest h old i fuel : rtmp_hdr_ok h -> rh_format h < 3 ->
  let hs := stream_hdr h old in rh_chunk_id h = rh_chunk_id hs ->
  forall p data cmb rd a mb rest, mbuf_wf mb -> NoDup (stream_id <$> rd_chunkl rd) ->
  rd_chunkl rd !! i = Some (RtmpChunk hs (Some cmb)) -> 0 < rd_chunk_sz rd ->
  filling cmb data -> bytes_ok p -> mb_size cmb = zlength data + zlength p ->
  0 < zlength p -> (length p <= fuel)%nat ->
  let bs := cont_bytes fuel (cont_hdr h) (rd_chunk_sz rd) p in
  unread mb = bs ++ rest ->
  exists buf, holds buf (data ++ p) 0 /\ mb_size buf = zlength (data ++ p) /\
    recv_n (chunks (rd_chunk_sz rd) (zlength p)) rd a mb =
      hand_over rd i hs buf a (set_pos (mb_pos mb + zlength bs) mb).
Proof.
  intros Hok Hf hs Hid. induction fuel as [|fuel IH]; intros p data cmb rd a mb rest Hwf Hn Hi Hsz Hfl Hb Hs Hp Hl bs Eu;
    [lia|]. subst bs. set (sz := rd_chunk_sz rd) in *. rename p into P.
  rewrite cont_bytes_S in * by (by intros ->). set (n := Z.to_nat (Z.min (zlength P) sz)) in *.
  cbv zeta in *. rewrite app_assoc in Eu. rewrite <- app_assoc in Eu.
  assert (zlength (take n P) = Z.min (zlength P) sz) as Hx by (rewrite length_take; lia).
  destruct (receive_cont h old rd i cmb data (take n P)
    (cont_bytes fuel (cont_hdr h) sz (drop n P) ++ rest) mb a Hok Hf Hwf Hn Hi Hid Hsz Hfl) as [Hfl' E];
    [by apply Forall_take|rewrite Hx; fold sz; lia|lia|exact Eu|]. fold hs in E.
  destruct (decide (zlength P <= sz)) as [Hle|Hgt].
  - rewrite chunks_last by lia. cbn [recv_n]. rewrite (proj2 (Z.eqb_eq _ _)) in E by lia. rewrite E.
    assert (take n P = P) as Et by (apply take_ge; lia). assert (drop n P = []) as Ed by (apply drop_ge; lia).
    destruct (filling_full _ _ Hfl') as [Hh Hsz']; [rewrite (filling_pos _ _ Hfl'), length_app; cbn; lia|].
    rewrite Et in *. exists (set_pos 0 (fill cmb P)). split_and!; [done|done|].
    rewrite Ed. rewrite cont_bytes_nil. rewrite !app_nil_r.
    destruct (hand_over _ _ _ _ _ _) as [[[[e rd'] a'] mb']|]; [|done]. unfold nz. by destruct (Z.eqb_spec e 0) as [->|].
  - rewrite chunks_more by lia. cbn [recv_n]. rewrite (proj2 (Z.eqb_neq _ _)) in E by lia. rewrite E. cbn [nz Z.eqb negb].
    set (bs1 := rtmp_hdr_bytes _ ++ take n P) in *. set (rd' := rd_set_chunk rd i _).
    destruct (IH (drop n P) (data ++ take n P) (fill cmb (take n P)) rd' a (set_pos (mb_pos mb + zlength bs1) mb) rest)
      as (buf & Hh & Hbs & Er).
    + by eapply unread_wf.
    + subst rd'. by rewrite (ids_set_chunk _ _ _ _ Hi).
    + cbn. rewrite list_lookup_insert_eq; [done|]. by eapply lookup_lt_Some.
    + done.
    + done.
    + by apply Forall_drop.
    + cbn. rewrite Hs, length_app, length_drop. lia.
    + rewrite length_drop. lia.
    + rewrite length_drop. lia.
    + exact (unread_advance _ _ _ Hwf Eu).
    + exists buf. rewrite <- app_assoc, take_drop in Hh, Hbs. split_and!; [done..|].
      change (rd_chunk_sz rd') with sz in Er. rewrite length_drop in Er.
      replace (Z.of_nat (length P - n)) with (zlength P - sz) in Er by lia. rewrite Er.
      subst rd'. rewrite hand_over_set, set_pos_set_pos. cbn [mb_pos set_pos].
      rewrite app_assoc. fold bs1. rewrite length_app. do 2 f_equal. lia.
Qed.

(** The first chunk of a message. *)
Lemma receive_first h rd rd1 i ch x rest mb a : no_oom -> rtmp_hdr_ok h -> rh_format h < 3 -> mbuf_wf mb ->
  get_chunk rd (rtmp_hdr_view h) = (0, i, rd1) -> rd_chunkl rd1 !! i = Some ch ->
  let len := rh_length (merge_hdr (rtmp_hdr_view h) (ch_hdr ch)) in
  0 < len < 2 ^ 24 -> 0 < rd_chunk_sz rd1 -> bytes_ok x -> zlength x = Z.min len (rd_chunk_sz rd1) ->
  let hs := stream_hdr h (ch_hdr ch) in
  let bs := rtmp_hdr_bytes (hdr_ext h) ++ x in
  unread mb = bs ++ rest ->
  exists cmb, mb_size cmb = len /\ filling (fill cmb x) x /\
  rtmp_dechunker_receive chunkh rd a mb =
    if zlength x =? len
    then hand_over rd1 i hs (set_pos 0 (fill cmb x)) a (set_pos (mb_pos mb + zlength bs) mb)
    else Some (0, rd_set_chunk rd1 i (RtmpChunk hs (Some (fill cmb x))), a,
               set_pos (mb_pos mb + zlength bs) mb).
Proof.
  intros Ho Hok Hf Hwf Eg Ei len Hl Hsz Hx Hlx hs bs Eu. subst bs.
  rewrite rtmp_hdr_bytes_wire in * by done. rewrite <- app_assoc in Eu. set (w := rtmp_wire h) in *.
  set (mb1 := set_pos (mb_pos mb + zlength w) mb).
  assert (mbuf_wf mb1) as Hwf1 by (by eapply unread_wf). pose proof (unread_advance _ _ _ Hwf Eu) as Eu1. fold mb1 in Eu1.
  pose proof (unread_left _ _ _ Hwf1 Eu1) as Hl1.
  destruct (mbuf_alloc_no_oom len Ho) as [cmb Ea]; [unfold MEM_SIZE_MAX; lia|].
  destruct (mbuf_alloc_wf len cmb) as (_ & _ & _ & Hs); [lia|done|].
  unfold nz in Hs. rewrite (proj2 (Z.eqb_neq _ _)) in Hs by lia. cbn in Hs.
  exists cmb. split; [done|]. change (zlength x) with (zlength (@nil Z) + zlength x). rewrite <- Hs.
  eapply (receive_step rd rd1 a mb (rtmp_hdr_view h) w _ i ch hs cmb [] x); [done|..].
  - by apply rtmp_header_decode_reads.
  - done.
  - done.
  - done.
  - fold mb1. unfold chunk_recv. pose proof (rok_format _ Hok).
    assert (rh_format (rtmp_hdr_view h) = rh_format h) as ->
      by (unfold rtmp_hdr_view; repeat (case_match; cbn); lia).
    replace (_ || _) with true by lia. rewrite chunk_start_eq by (done || lia). fold len.
    rewrite <- Hlx, (proj2 (Z.ltb_ge _ _)), Ea by lia. rewrite Eu1, Nat2Z.id, take_app_length.
    subst mb1. rewrite set_pos_set_pos. cbn [mb_pos set_pos]. do 3 f_equal. rewrite length_app. lia.
  - by eapply filling_alloc; [|done]; lia.
  - done.
  - cbn. lia.
Qed.

(** A de-chunker that has, or can open, the chunk stream of the message; a
    format 2 header repeats the length of the previous message. *)
Definition accepts (rd : rtmp_dechunker) (h : rtmp_header) : Prop :=
  match find_chunk (rd_chunkl rd) (rh_chunk_id h) with
  | Some i => rh_format h = 2 -> exists ch, rd_chunkl rd !! i = Some ch /\ rh_length (ch_hdr ch) = rh_length h
  | None => rh_format h = 0 /\ zlength (rd_chunkl rd) <= MAX_CHUNKS
  end.

(** The header the handler gets for a message sent with header [h] on a stream
    whose header was [old]. *)
Definition message_hdr (h old : rtmp_header) : rtmp_header :=
  if rh_format h =? 0 then
    RtmpHeader 0 (rh_chunk_id h) (rh_timestamp h) 0 0 (rh_length h) (rh_type_id h) (rh_stream_id h)
      (TIMESTAMP_24MAX <=? rh_timestamp h)
  else
    RtmpHeader (rh_format h) (rh_chunk_id h) (u32 (rh_timestamp old + rh_timestamp_delta h))
      (rh_timestamp_delta h) (rh_timestamp_ext old) (rh_length h)
      (if rh_format h =? 1 then rh_type_id h else rh_type_id old) (rh_stream_id old)
      (TIMESTAMP_24MAX <=? rh_timestamp_delta h).

Lemma stream_hdr_eq h old : 0 <= rh_format h < 3 -> rh_chunk_id old = rh_chunk_id h ->
  (rh_format h = 2 -> rh_length old = rh_length h) -> stream_hdr h old = message_hdr h old.
Proof.
  intros Hf Hid Hl. unfold stream_hdr, message_hdr, start_hdr, merge_hdr, rtmp_hdr_view.
  destruct h as [f ? ? ? ? ? ? ? ?], old. cbn in *. subst.
  assert (f = 0 \/ f = 1 \/ f = 2) as [-> | [-> | ->]] by lia; cbn; [done|done|by rewrite Hl].
Qed.

(** Where the stream is, and its header so far. *)
Lemma accepts_get rd h : no_oom -> rd_ok rd -> rtmp_hdr_ok h -> rh_format h < 3 -> accepts rd h ->
  exists i rd1 ch, get_chunk rd (rtmp_hdr_view h) = (0, i, rd1) /\ rd_chunkl rd1 !! i = Some ch /\
    rd_ok rd1 /\ rd_chunk_sz rd1 = rd_chunk_sz rd /\ rh_chunk_id (ch_hdr ch) = rh_chunk_id h /\
    rh_length (merge_hdr (rtmp_hdr_view h) (ch_hdr ch)) = rh_length h /\
    stream_hdr h (ch_hdr ch) = message_hdr h (ch_hdr ch).
Proof.
  intros Ho Hok Hh Hf Ha. pose proof Hh as [F1 F2 F3 F4 F5 F6 F7 F8].
  assert (rtmp_decoded (rtmp_hdr_view h)) as Hd
    by (unfold rtmp_hdr_view; repeat (case_match; cbn); split; cbn; lia).
  assert (rh_chunk_id (rtmp_hdr_view h) = rh_chunk_id h) as Ec by (unfold rtmp_hdr_view; by repeat (case_match; cbn)).
  destruct (get_chunk_ok rd (rtmp_hdr_view h) Hok Hd) as (e & i & rd1 & Eg & Hok1 & Esz & Hc).
  assert (e = 0 /\ forall ch, rd_chunkl rd1 !! i = Some ch -> rh_format h = 2 ->
    rh_length (ch_hdr ch) = rh_length h) as [-> Hl].
  { unfold accepts in Ha. unfold get_chunk in Eg. rewrite Ec in Eg. destruct (find_chunk _ _) as [j|].
    - simplify_eq. split; [done|]. intros ch Ei E2. destruct (Ha E2) as (ch' & E' & El). congruence.
    - destruct Ha as [E0 Hm]. unfold rtmp_hdr_view in Eg at 1. rewrite E0 in Eg. cbn in Eg.
      rewrite (proj2 (Z.ltb_ge _ _)) in Eg by lia. unfold create_chunk in Eg.
      rewrite alloc_ok_no_oom in Eg by (done || unfold MEM_SIZE_MAX; lia). simplify_eq. split; [done|]. lia. }
  destruct (Hc eq_refl) as (ch & Ei & Hid). rewrite Ec in Hid. unfold stream_id in Hid. specialize (Hl ch Ei).
  exists i, rd1, ch. split_and!; [done..| |apply stream_hdr_eq; [lia|done|done]].
  unfold merge_hdr, rtmp_hdr_view.
  assert (rh_format h = 0 \/ rh_format h = 1 \/ rh_format h = 2) as [E | [E | E]] by lia; rewrite E in *; cbn; auto.
Qed.

(** A whole message. *)
Lemma recv_message h rd p mb rest a : no_oom -> rd_ok rd -> rtmp_hdr_ok h -> rh_format h < 3 ->
  accepts rd h -> bytes_ok p -> rh_length h = zlength p -> 0 < zlength p -> mbuf_wf mb ->
  let bs := chunk_bytes h (rd_chunk_sz rd) p in
  unread mb = bs ++ rest ->
  exists i rd1 ch buf, get_chunk rd (rtmp_hdr_view h) = (0, i, rd1) /\ rd_chunkl rd1 !! i = Some ch /\
    holds buf p 0 /\ mb_size buf = zlength p /\
    recv_n (chunks (rd_chunk_sz rd) (zlength p)) rd a mb =
      hand_over rd1 i (message_hdr h (ch_hdr ch)) buf a (set_pos (mb_pos mb + zlength bs) mb).
Proof.
  intros Ho Hok Hh Hf Ha Hb Hl Hp Hwf bs Eu. subst bs. pose proof (rk_size _ Hok) as Hsz.
  pose proof (rok_length _ Hh) as Hr.
  destruct (accepts_get rd h Ho Hok Hh Hf Ha) as (i & rd1 & ch & Eg & Ei & Hok1 & Esz & Hid & Hlen & Hs).
  exists i, rd1, ch. set (sz := rd_chunk_sz rd) in *. unfold chunk_bytes in *.
  set (n := Z.to_nat (Z.min (zlength p) sz)) in *. rewrite app_assoc in Eu. rewrite <- app_assoc in Eu.
  assert (zlength (take n p) = Z.min (zlength p) sz) as Hx by (rewrite length_take; lia).
  destruct (receive_first h rd rd1 i ch (take n p)
    (cont_bytes (length p) (cont_hdr h) sz (drop n p) ++ rest) mb a Ho Hh Hf Hwf Eg Ei) as (cmb & Hcs & Hfl & E);
    [lia|lia|by apply Forall_take|rewrite Hlen, Esz; lia|exact Eu|].
  rewrite Hlen, Hl in *. rewrite Hs in E. set (hs := message_hdr h (ch_hdr ch)) in *.
  set (bs1 := rtmp_hdr_bytes (hdr_ext h) ++ take n p) in *. destruct (decide (zlength p <= sz)) as [Hle|Hgt].
  - assert (take n p = p) as Et by (apply take_ge; lia). assert (drop n p = []) as Ed by (apply drop_ge; lia).
    rewrite chunks_last by lia. cbn [recv_n]. rewrite E, (proj2 (Z.eqb_eq _ _)) by lia.
    destruct (filling_full _ _ Hfl) as [Hfh Hfs]; [rewrite (filling_pos _ _ Hfl); cbn; lia|]. subst bs1. rewrite Et in *.
    eexists. split_and!; [done..|]. rewrite Ed. rewrite cont_bytes_nil, app_nil_r. destruct (hand_over _ _ _ _ _ _) as [[[[e ?] ?] ?]|]; [|done]. unfold nz.
    by destruct (Z.eqb_spec e 0) as [->|].
  - rewrite chunks_more by lia. cbn [recv_n]. rewrite E, (proj2 (Z.eqb_neq _ _)) by lia. cbn [nz Z.eqb negb].
    set (rd2 := rd_set_chunk rd1 i _). assert (stream_id (RtmpChunk hs (Some (fill cmb (take n p)))) = stream_id ch) as Hi2.
    { unfold stream_id. cbn. rewrite <- Hs. by apply stream_hdr_id. }
    destruct (recv_rest h (ch_hdr ch) i (length p) Hh Hf) with (p := drop n p) (data := take n p)
      (cmb := fill cmb (take n p)) (rd := rd2) (a := a) (mb := set_pos (mb_pos mb + zlength bs1) mb) (rest := rest)
      as (buf & Hbh & Hbs & Er); rewrite ?Hs, ?length_drop; fold hs; try lia.
    + unfold stream_id in Hi2. cbn in Hi2. congruence.
    + by eapply unread_wf.
    + subst rd2. rewrite (ids_set_chunk _ _ _ _ Ei Hi2). apply Hok1.
    + cbn. rewrite list_lookup_insert_eq; [done|]. by eapply lookup_lt_Some.
    + cbn. lia.
    + done.
    + by apply Forall_drop.
    + cbn. lia.
    + cbn. rewrite Esz. exact (unread_advance _ _ _ Hwf Eu).
    + rewrite take_drop in Hbh, Hbs. exists buf. split_and!; [done..|].
      change (rd_chunk_sz rd2) with (rd_chunk_sz rd1) in Er. rewrite Esz, length_drop in Er.
      replace (Z.of_nat (length p - n)) with (zlength p - sz) in Er by lia. rewrite Er, Hs. fold hs.
      subst rd2. rewrite hand_over_set, set_pos_set_pos. cbn [mb_pos set_pos].
      rewrite app_assoc. fold bs1. rewrite length_app. do 2 f_equal. lia.
Qed.

(** C23: a message that the chunker sends is what the de-chunker hands over.
    For every header of format 0, 1 or 2 whose chunk stream the receiver has
    or can open, every payload of 1 to 2^24-1 bytes and every chunk size, the
    chunker passes a buffer to the TCP connection such that receiving its
    bytes, one chunk at a time and whatever follows them, calls the handler
    exactly once, at the last chunk, with the message's header and exactly the
    payload, having consumed exactly those bytes; the other chunk streams are
    untouched. *)
Theorem rtmp_chunk_roundtrip {T} (tcp_send : mbuf -> T -> option (Z * T)) f cid ts td ty sid p rd :
  let h := RtmpHeader f cid ts td 0 (zlength p) ty sid false in
  let sz := rd_chunk_sz rd in
  no_oom -> rd_ok rd -> rtmp_hdr_ok h -> f < 3 -> accepts rd h -> bytes_ok p -> 0 < zlength p ->
  exists out, (forall tc, rtmp_chunker tcp_send f cid ts td ty sid p sz tc = tcp_send out tc) /\
    forall mb rest a, mbuf_wf mb -> unread mb = unread out ++ rest ->
    exists i rd1 ch buf, get_chunk rd (rtmp_hdr_view h) = (0, i, rd1) /\ rd_chunkl rd1 !! i = Some ch /\
      unread buf = p /\
      recv_n (chunks sz (zlength p)) rd a mb =
        hand_over rd1 i (message_hdr h (ch_hdr ch)) buf a (set_pos (mb_pos mb + zlength (unread out)) mb).
Proof.
  intros h sz Ho Hok Hh Hf Ha Hb Hp. pose proof (rk_size _ Hok).
  destruct (rtmp_chunker_sends tcp_send f cid ts td ty sid p sz Ho Hh Hb Hp) as (out & Hout & Hs); [done|].
  exists out. split; [done|]. intros mb rest a Hwf Eu.
  rewrite (holds_unread _ _ _ Hout), drop_0 in * by lia.
  destruct (recv_message h rd p mb rest a Ho Hok Hh Hf Ha Hb eq_refl Hp Hwf Eu)
    as (i & rd1 & ch & buf & Eg & Ei & Hbuf & _ & Er).
  exists i, rd1, ch, buf. split_and!; [done..| |done]. by rewrite (holds_unread _ _ _ Hbuf), drop_0 by lia.
Qed.

End handler.
End rtmp_round.
