(* ===== verification/RtmpResume.v ===== *)
(** * RTMP input in pieces

    The connection rewinds its input and tries again when the de-chunker
    returns [ENODATA]; in the meantime the de-chunker has stored part of what
    it saw.  That is harmless: the second attempt gives what the first would
    have given with all the data, except on a stream whose last message began
    with a format 0 header with an extended timestamp. *)

From S2P Require Export Prelude Mbuf MbufSpec MbufParse MbufData Rtmp RtmpChunk RtmpThms RtmpRound.

Section rtmp_resume.
Context `{Host}.

Lemma merge_hdr_idem hdr old : merge_hdr hdr (merge_hdr hdr old) = merge_hdr hdr old.
Proof. unfold merge_hdr. by repeat case_match. Qed.

Lemma ext_hdr_idem h v : ext_hdr (ext_hdr h v) v = ext_hdr h v.
Proof. unfold ext_hdr. destruct (rh_format h =? 0) eqn:E; cbn; by rewrite E. Qed.

(** A stream on which a format 3 chunk can start a message without repeating
    a format 0 timestamp. *)
Definition idle_ok (ch : rtmp_chunk) : Prop :=
  ch_mb ch = None -> rh_ext_ts (ch_hdr ch) = true -> rh_format (ch_hdr ch) <> 0.

(** Repeating the extended timestamp and the restart changes nothing. *)
Lemma restart_again ch v e ch2 : idle_ok ch ->
  let ch1 := if rh_ext_ts (ch_hdr ch) then RtmpChunk (ext_hdr (ch_hdr ch) v) (ch_mb ch) else ch in
  chunk_restart ch1 = (e, ch2) -> e = 0 ->
  rh_ext_ts (ch_hdr ch2) = rh_ext_ts (ch_hdr ch) /\ ch_mb ch2 <> None /\
  (if rh_ext_ts (ch_hdr ch2) then RtmpChunk (ext_hdr (ch_hdr ch2) v) (ch_mb ch2) else ch2) = ch2.
Proof.
  intros Hidle ch1 E He. subst e ch1. destruct ch as [h [cmb|]]; unfold idle_ok in Hidle; cbn in Hidle.
  - destruct h as [f ? ? ? ? ? ? ? [|]]; cbn in E; unfold ext_hdr in *; cbn in E;
      [destruct (f =? 0) eqn:Ef|]; cbn in E; injection E as <-; cbn; rewrite ?Ef; done.
  - destruct h as [f ? ? ? ? ? ? ? [|]]; unfold chunk_restart, ext_hdr in *; cbn in *.
    + specialize (Hidle eq_refl eq_refl). rewrite (proj2 (Z.eqb_neq f 0)) in E by done. cbn in E.
      destruct (mbuf_alloc _) as [cmb|]; [|done]. rewrite (proj2 (Z.eqb_neq f 0)) in E by done. cbn in E.
      injection E as <-. cbn. by rewrite (proj2 (Z.eqb_neq f 0)).
    + destruct (mbuf_alloc _) as [cmb|]; [|done]. destruct (f =? 0); injection E as <-; done.
Qed.

Lemma left_more mb mb' more : mbuf_wf mb -> mbuf_wf mb' -> unread mb' = unread mb ++ more ->
  mbuf_get_left mb <= mbuf_get_left mb'.
Proof. intros Hwf Hwf' E. rewrite <- !length_unread, E, length_app by done. lia. Qed.

Lemma chunk_start_resume sz hdr ch ch' mb mb1 mb' : mbuf_wf mb -> mbuf_wf mb' -> 0 < sz ->
  rtmp_decoded hdr -> rh_format hdr < 3 -> chunk_ok ch ->
  chunk_start sz hdr ch mb = Some ((ENODATA, ch'), mb1) -> chunk_start sz hdr ch' mb' = chunk_start sz hdr ch mb'.
Proof.
  intros Hwf Hwf' Hsz Hd Hf [Hh Hm] E. pose proof (merge_hdr_ok _ _ Hd Hf Hh) as Hmh.
  rewrite chunk_start_eq in E by (done || lia || apply Hmh).
  assert (ch' = RtmpChunk (merge_hdr hdr (ch_hdr ch)) (ch_mb ch)) as ->.
  { destruct (_ <? _); [by simplify_eq|]. by destruct (mbuf_alloc _). }
  rewrite !chunk_start_eq; try (done || lia); cbn [ch_hdr ch_mb]; rewrite ?merge_hdr_idem; try done; apply Hmh.
Qed.

Lemma chunk_continue_eq sz ch mb : mbuf_wf mb ->
  chunk_continue sz ch mb =
    if rh_ext_ts (ch_hdr ch) && (mbuf_get_left mb <? 4) then Some ((ENODATA, ch), mb)
    else
      let x := rh_ext_ts (ch_hdr ch) in
      let ch1 := if x then RtmpChunk (ext_hdr (ch_hdr ch) (be_val (take 4 (unread mb)))) (ch_mb ch) else ch in
      let mb1 := if x then set_pos (mb_pos mb + 4) mb else mb in
      let '(e, ch2) := chunk_restart ch1 in
      if nz e then Some ((e, ch2), mb1) else chunk_data sz ch2 mb1.
Proof.
  intros Hwf. unfold chunk_continue, bind. rewrite chunk_ext_ts_eq by done.
  destruct (rh_ext_ts (ch_hdr ch)); [destruct (mbuf_get_left mb <? 4); [done|]|]; cbn [andb nz Z.eqb negb];
    (destruct (chunk_restart _) as [e ch2]; by destruct (nz e)).
Qed.

Lemma chunk_data_nodata sz ch cmb mb mb1 ch' : mbuf_wf mb -> 0 < sz -> chunk_ok ch -> ch_mb ch = Some cmb ->
  chunk_data sz ch mb = Some ((ENODATA, ch'), mb1) -> ch' = ch.
Proof.
  intros Hwf Hsz [Hh Hm] Em E. rewrite Em in Hm. destruct Hm as (data & Hf & Hlt).
  pose proof (filling_pos _ _ Hf) as Hp. pose proof Hf as [Hc _ He _].
  rewrite (chunk_data_eq _ _ cmb) in E by (done || lia). by destruct (_ <? _); simplify_eq.
Qed.

Lemma chunk_continue_resume sz ch ch' mb mb1 mb' more : mbuf_wf mb -> mbuf_wf mb' -> 0 < sz -> chunk_ok ch ->
  idle_ok ch -> unread mb' = unread mb ++ more -> chunk_continue sz ch mb = Some ((ENODATA, ch'), mb1) ->
  chunk_continue sz ch' mb' = chunk_continue sz ch mb'.
Proof.
  intros Hwf Hwf' Hsz Hok Hidle Eu E. rewrite chunk_continue_eq in E by done.
  pose proof (left_more _ _ _ Hwf Hwf' Eu) as Hl. pose proof (length_unread _ Hwf) as Hlu.
  destruct (rh_ext_ts (ch_hdr ch) && (mbuf_get_left mb <? 4)) eqn:Ex; [by simplify_eq|].
  set (v := be_val (take 4 (unread mb))) in *. cbv zeta in E.
  set (ch1 := if rh_ext_ts (ch_hdr ch) then _ else ch) in *. set (mb2 := if rh_ext_ts (ch_hdr ch) then _ else mb) in *.
  assert (chunk_ok ch1) as Hok1.
  { subst ch1. destruct (rh_ext_ts (ch_hdr ch)); [|done]. destruct Hok. split; [|done]. cbn in Ex.
    apply ext_hdr_ok; [done|]. apply ext_val_range; [done|lia]. }
  assert (mbuf_wf mb2) as Hwf2.
  { subst mb2. destruct (rh_ext_ts (ch_hdr ch)); [|done]. cbn in Ex. pose proof (left_bound _ Hwf).
    pose proof (wf_pos _ Hwf). apply set_pos_wf; [done|lia]. }
  destruct (chunk_restart_ok ch1 Hok1) as (e & ch2 & Er & Hok2 & _ & Hc). rewrite Er in E.
  destruct (nz e) eqn:En.
  { unfold chunk_restart in Er. destruct (ch_mb ch1); [simplify_eq; done|].
    destruct (mbuf_alloc _); simplify_eq; done. }
  assert (e = 0) as E0 by (unfold nz in En; lia). destruct (Hc E0) as [cmb Em].
  apply (chunk_data_nodata _ _ cmb) in E as ->; [|done..]. rewrite E0 in Er.
  destruct (restart_again ch v 0 ch2 Hidle Er eq_refl) as (Ext & Hnn & Eagain).
  rewrite !chunk_continue_eq by done. rewrite Ext in *.
  assert (rh_ext_ts (ch_hdr ch) = true -> be_val (take 4 (unread mb')) = v) as Ev.
  { intros Et. rewrite Et in Ex. cbn in Ex. subst v. f_equal. rewrite Eu. apply take_app_le. lia. }
  assert (rh_ext_ts (ch_hdr ch) && (mbuf_get_left mb' <? 4) = false) as ->.
  { destruct (rh_ext_ts (ch_hdr ch)); cbn in *; lia. }
  assert ((if rh_ext_ts (ch_hdr ch) then RtmpChunk (ext_hdr (ch_hdr ch) v) (ch_mb ch) else ch) = ch1) as E1 by done.
  clearbody ch1. cbv zeta. destruct (rh_ext_ts (ch_hdr ch)) eqn:Et.
  - rewrite (Ev eq_refl), Eagain, E1, Er. unfold chunk_restart. by rewrite Em.
  - rewrite E1, Er. unfold chunk_restart at 1. by rewrite Em.
Qed.

Lemma chunk_recv_resume sz hdr ch ch' mb mb1 mb' more : mbuf_wf mb -> mbuf_wf mb' -> 0 < sz ->
  rtmp_decoded hdr -> chunk_ok ch -> (rh_format hdr = 3 -> idle_ok ch) -> unread mb' = unread mb ++ more ->
  chunk_recv sz hdr ch mb = Some ((ENODATA, ch'), mb1) -> chunk_recv sz hdr ch' mb' = chunk_recv sz hdr ch mb'.
Proof.
  intros Hwf Hwf' Hsz Hd Hok Hidle Eu E. unfold chunk_recv in *. destruct (_ || _) eqn:Ef.
  - eapply (chunk_start_resume _ _ _ _ mb); [done..|lia|done|done].
  - destruct (Z.eqb_spec (rh_format hdr) 3); [|done]. by eapply (chunk_continue_resume _ _ _ mb); auto.
Qed.

Section handler.
Context {A : Type} (chunkh : rtmp_header -> mbuf -> M (rtmp_dechunker * A) Z).

Lemma chunk_deliver_set rd i ch0 ch a :
  chunk_deliver chunkh (rd_set_chunk rd i ch0) i ch a = chunk_deliver chunkh rd i ch a.
Proof. unfold chunk_deliver, rd_set_chunk. cbn. by rewrite !list_insert_insert_eq. Qed.

Lemma chunk_deliver_nodata rd i ch a e rd' a' : (forall h b s s', chunkh h b s <> Some (ENODATA, s')) ->
  chunk_deliver chunkh rd i ch a = Some (e, rd', a') -> e <> ENODATA.
Proof.
  intros Hh E ->. unfold chunk_deliver in E. destruct (ch_mb ch) as [cmb|]; [|done].
  destruct (mb_size cmb <=? mb_pos cmb); [|done].
  destruct (chunkh _ _ _) as [[e' [rd2 a2]]|] eqn:Ec; [|done]. injection E as -> -> ->. by destruct (Hh _ _ _ _ Ec).
Qed.

Lemma get_chunk_errors rd hdr e i rd1 : get_chunk rd hdr = (e, i, rd1) -> e <> ENODATA.
Proof. unfold get_chunk, create_chunk. repeat case_match; by intros [= <- <- <-]. Qed.

(** The next chunk does not start a message, with a format 3 header, on a
    stream whose last message began with a format 0 header and an extended
    timestamp. *)
Definition resumable (rd : rtmp_dechunker) (mb : mbuf) : Prop := forall hdr mb2 ch,
  rtmp_header_decode mb = Some ((0, hdr), mb2) -> rh_format hdr = 3 ->
  ch ∈ rd_chunkl rd -> stream_id ch = rh_chunk_id hdr -> idle_ok ch.

(** C24: input that arrives in pieces is decoded as if it had arrived at once,
    unless the piece begins with a format 3 chunk that starts a message on a
    stream whose last message began with a format 0 header and an extended
    timestamp ([resumable] excludes that; [rtmp_resume_ext_ts] shows that it
    has to).  When the de-chunker returns [ENODATA], and no message handler did,
    calling it again at the same place once more data is there, with whatever
    the first call left in the streams, gives exactly the result, the streams
    and the position that a single call on all the data gives. *)
Theorem rtmp_resume rd rd1 a a1 mb mb1 mb' more :
  (forall h b s s', chunkh h b s <> Some (ENODATA, s')) ->
  rd_ok rd -> resumable rd mb -> mbuf_wf mb -> mbuf_wf mb' -> unread mb' = unread mb ++ more ->
  rtmp_dechunker_receive chunkh rd a mb = Some (ENODATA, rd1, a1, mb1) ->
  a1 = a /\ rtmp_dechunker_receive chunkh rd1 a mb' = rtmp_dechunker_receive chunkh rd a mb'.
Proof.
  intros Hh Hok Hidle Hwf Hwf' Eu E. unfold rtmp_dechunker_receive in E.
  destruct (rtmp_header_decode mb) as [[[e hdr] mb2]|] eqn:Ed; [|done].
  destruct (nz e) eqn:En; [by simplify_eq|]. assert (e = 0) as -> by (unfold nz in En; lia).
  destruct (parses_more _ _ _ _ _ _ _ parses_rtmp_header Hwf Hwf' Eu Ed) as (Hd & bs & rest & Eb & -> & Ed').
  destruct (get_chunk_ok rd hdr Hok Hd) as (e & i & rd' & Eg & Hok' & Esz & Hc). rewrite Eg in E.
  pose proof (get_chunk_errors _ _ _ _ _ Eg). destruct (nz e) eqn:En2; [by simplify_eq|].
  assert (e = 0) as -> by (unfold nz in En2; lia). destruct (Hc eq_refl) as (ch & Ei & Hid). rewrite Ei in E.
  assert (rh_format hdr = 3 -> idle_ok ch) as Hich.
  { intros E3. apply (Hidle _ _ ch Ed E3); [|done]. unfold get_chunk in Eg. rewrite E3 in Eg.
    destruct (find_chunk _ _); simplify_eq. by eapply list_elem_of_lookup_2. }
  pose proof (unread_wf _ _ _ Hwf Eb) as Hwf2. pose proof (rk_size _ Hok) as Hsz. rewrite Esz in E.
  destruct (chunk_recv_ok (rd_chunk_sz rd) hdr ch (set_pos (mb_pos mb + zlength bs) mb)) as (e & ch' & mb2 & Er & _ & Hs & Hid');
    [done|done|done|by eapply Forall_lookup_1; [apply Hok'|]|done|].
  rewrite Er in E. destruct (nz e) eqn:En3.
  2: { destruct (chunk_deliver _ _ _ _ _) as [[[e' rd2] a2]|] eqn:Edl; [|done].
       by apply (chunk_deliver_nodata _ _ _ _ _ _ _ Hh) in Edl; simplify_eq. }
  injection E as -> <- <- <-. split; [done|].
  assert (unread (set_pos (mb_pos mb' + zlength bs) mb') = unread (set_pos (mb_pos mb + zlength bs) mb) ++ more) as Eu2.
  { rewrite (unread_advance _ _ rest Hwf Eb). apply unread_advance; [done|]. by rewrite Eu, Eb, app_assoc. }
  assert (mbuf_wf (set_pos (mb_pos mb' + zlength bs) mb')) as Hwf2'.
  { apply (unread_wf _ _ (rest ++ more) Hwf'). by rewrite Eu, Eb, app_assoc. }
  pose proof (chunk_recv_resume _ _ _ _ _ _ _ _ Hwf2 Hwf2' Hsz Hd
    ltac:(by eapply Forall_lookup_1; [apply Hok'|]) Hich Eu2 Er) as Err.
  unfold rtmp_dechunker_receive. rewrite Ed'. cbn [nz Z.eqb negb]. rewrite Eg. cbn [nz Z.eqb negb].
  rewrite (get_chunk_found (rd_set_chunk rd' i ch') i ch'); [| |cbn; by rewrite list_lookup_insert_eq by (by eapply lookup_lt_Some)|].
  - cbn [nz Z.eqb negb]. change (rd_chunk_sz (rd_set_chunk rd' i ch')) with (rd_chunk_sz rd').
    change (rd_chunkl (rd_set_chunk rd' i ch')) with (<[i:=ch']> (rd_chunkl rd')). rewrite list_lookup_insert_eq by (by eapply lookup_lt_Some).
    rewrite Ei, Esz, Err. clear Er Err. destruct (chunk_recv _ _ _ _) as [[[e2 ch2] mb3]|]; [|done].
    rewrite chunk_deliver_set. unfold rd_set_chunk. cbn.
    by rewrite list_insert_insert_eq.
  - rewrite (ids_set_chunk _ _ _ _ Ei Hid'). apply Hok'.
  - congruence.
Qed.

End handler.
End rtmp_resume.

(** ** RTMP: concrete runs

    The theorems on RTMP chunking at concrete inputs, and two inputs on which
    the de-chunker does not deliver what was sent: a message of length 0 is
    never handed over, and a message that a format 3 chunk starts on a stream
    with an extended timestamp gets a timestamp that depends on how the input
    was cut into pieces. *)

#[local] Existing Instance lp64_host.

(** A handler that records what it is given. *)
Definition log_handler (h : rtmp_header) (buf : mbuf) : M (rtmp_dechunker * list (rtmp_header * list Z)) Z :=
  fun '(rd, log) => Some (0, (rd, log ++ [(h, unread buf)])).

Definition send_bytes (mb : mbuf) (tc : list Z) : option (Z * list Z) := Some (0, tc ++ unread mb).

Definition mbuf_of (bs : list Z) : mbuf := Mbuf bs (zlength bs) 0 (zlength bs).

Lemma mbuf_of_wf bs : bytes_ok bs -> zlength bs <= MEM_SIZE_MAX -> mbuf_wf (mbuf_of bs).
Proof. intros Hb Hl. split; cbn; try done; unfold MEM_SIZE_MAX in *; lia. Qed.

Ltac prove_bytes := repeat constructor; unfold byte_ok; lia.

Definition rd_empty : rtmp_dechunker := Dechunker [] 4.

Lemma rd_empty_ok : rd_ok rd_empty.
Proof. split; cbn; try done. constructor. Qed.

Definition msg_payload : list Z := [1; 2; 3; 4; 5; 6; 7; 8; 9; 10].

Lemma rtmp_chunk_roundtrip_witness :
  let h := RtmpHeader 0 3 305419896 0 0 10 8 1 false in
  exists out, (forall tc, rtmp_chunker send_bytes 0 3 305419896 0 8 1 msg_payload 4 tc = send_bytes out tc) /\
    forall mb rest a, mbuf_wf mb -> unread mb = unread out ++ rest ->
    exists i rd1 ch buf, get_chunk rd_empty (rtmp_hdr_view h) = (0, i, rd1) /\ rd_chunkl rd1 !! i = Some ch /\
      unread buf = msg_payload /\
      recv_n log_handler 3 rd_empty a mb =
        hand_over log_handler rd1 i (message_hdr h (ch_hdr ch)) buf a (set_pos (mb_pos mb + zlength (unread out)) mb).
Proof.
  apply (rtmp_chunk_roundtrip log_handler send_bytes 0 3 305419896 0 8 1 msg_payload rd_empty).
  - intros n. reflexivity.
  - exact rd_empty_ok.
  - split; cbn; lia.
  - lia.
  - split; [reflexivity|unfold MAX_CHUNKS; cbn; lia].
  - prove_bytes.
  - cbn. lia.
Defined.

Lemma log_handler_ok : handler_ok log_handler.
Proof. intros h data buf rd a Hok _ _ _. eexists 0, rd, _. split; [reflexivity|exact Hok]. Qed.

(** A format 1 header on a stream that does not exist. *)
Definition orphan : list Z := [67; 0; 0; 1; 0; 0; 2; 8; 170; 187].

Lemma rtmp_receive_safe_witness : exists e rd' a' mb',
  rtmp_dechunker_receive log_handler rd_empty [] (mbuf_of orphan) = Some (e, rd', a', mb') /\ e = ENOENT.
Proof.
  destruct (rtmp_receive_safe log_handler rd_empty [] (mbuf_of orphan)) as (e & rd' & a' & mb' & E & _);
    [exact log_handler_ok|exact rd_empty_ok|apply mbuf_of_wf; [prove_bytes|vm_compute; done]|].
  exists e, rd', a', mb'. split; [exact E|]. vm_compute in E. by injection E.
Defined.

(** A chunk of 3 bytes of which 1 is there, then all. *)
Definition piece1 : list Z := [3; 0; 0; 5; 0; 0; 3; 8; 1; 0; 0; 0; 11].
Definition piece2 : list Z := [22; 33].

Lemma rtmp_resume_witness : exists rd1 mb1,
  rtmp_dechunker_receive log_handler rd_empty [] (mbuf_of piece1) = Some (ENODATA, rd1, [], mb1) /\
  rtmp_dechunker_receive log_handler rd1 [] (mbuf_of (piece1 ++ piece2)) =
    rtmp_dechunker_receive log_handler rd_empty [] (mbuf_of (piece1 ++ piece2)).
Proof.
  destruct (rtmp_dechunker_receive log_handler rd_empty [] (mbuf_of piece1)) as [[[[e rd1] a1] mb1]|] eqn:E;
    [|vm_compute in E; discriminate].
  assert (e = ENODATA /\ a1 = []) as [-> ->] by (vm_compute in E; by injection E).
  exists rd1, mb1. split; [reflexivity|].
  apply (rtmp_resume log_handler rd_empty rd1 [] [] (mbuf_of piece1) mb1 (mbuf_of (piece1 ++ piece2)) piece2).
  - intros h b [rd a] s'. discriminate.
  - exact rd_empty_ok.
  - intros hdr mb2 ch _ _ Hin. by apply not_elem_of_nil in Hin.
  - apply mbuf_of_wf; [prove_bytes|vm_compute; done].
  - apply mbuf_of_wf; [prove_bytes|vm_compute; done].
  - reflexivity.
  - exact E.
Defined.

(** ** Messages of length 0 *)

(** A chunk that announces a message of length 0 opens a buffer of 512 bytes
    and is not handed over, whatever the handler. *)
Lemma rtmp_empty_message {A} (chunkh : rtmp_header -> mbuf -> M (rtmp_dechunker * A) Z) rd a mb rest h :
  rd_ok rd -> rtmp_hdr_ok h -> rh_format h = 0 -> rh_length h = 0 -> accepts rd h -> mbuf_wf mb ->
  unread mb = rtmp_wire h ++ rest ->
  exists i rd' ch cmb, rtmp_dechunker_receive chunkh rd a mb =
      Some (0, rd', a, set_pos (mb_pos mb + zlength (rtmp_wire h)) mb) /\
    rd_chunkl rd' !! i = Some ch /\ stream_id ch = rh_chunk_id h /\
    ch_mb ch = Some cmb /\ mb_size cmb = DEFAULT_SIZE /\ mb_pos cmb = 0.
Proof.
  intros Hok Hh Hf Hl Ha Hwf Eu. assert (no_oom) as Ho by (intros n; reflexivity).
  destruct (accepts_get rd h Ho Hok Hh ltac:(lia) Ha) as (i & rd1 & ch & Eg & Ei & Hok1 & Esz & Hid & Hlen & _).
  unfold rtmp_dechunker_receive. rewrite (rtmp_header_decode_reads h Hh mb rest Hwf Eu). cbn [nz Z.eqb negb].
  rewrite Eg. cbn [nz Z.eqb negb]. rewrite Ei. unfold chunk_recv.
  assert (rh_format (rtmp_hdr_view h) = 0) as E0 by (unfold rtmp_hdr_view; by rewrite Hf). rewrite E0. cbn [Z.eqb orb].
  pose proof (unread_wf _ _ _ Hwf Eu) as Hwf1. pose proof (rk_size _ Hok1) as Hsz.
  rewrite chunk_start_eq by (done || lia). rewrite Hlen, Hl. rewrite Z.min_l by lia.
  pose proof (left_bound _ Hwf1). rewrite (proj2 (Z.ltb_ge _ _)) by lia.
  destruct (mbuf_alloc_no_oom 0 Ho) as [cmb Ea]; [unfold MEM_SIZE_MAX; lia|]. rewrite Ea. cbn [nz Z.eqb negb].
  destruct (mbuf_alloc_wf 0 cmb ltac:(lia) Ea) as (Hc & Hp & He & Hs). cbn in Hs.
  unfold chunk_deliver. cbn [ch_mb fill mb_size mb_pos take length]. rewrite Hp, Hs.
  eexists i, _, _, _. split; [rewrite set_pos_set_pos; cbn [mb_pos set_pos]; rewrite !Z.add_0_r; reflexivity|].
  split; [cbn; rewrite list_lookup_insert_eq by (by eapply lookup_lt_Some); reflexivity|].
  split_and!; [|reflexivity|done|cbn [mb_pos fill]; rewrite Hp; reflexivity]. unfold stream_id, start_hdr, merge_hdr, rtmp_hdr_view. by rewrite Hf.
Qed.

(** ** Extended timestamps of restarted streams *)

(** A stream, idle after a message with timestamp 0x01000000. *)
Definition rd_ext : rtmp_dechunker :=
  Dechunker [RtmpChunk (RtmpHeader 0 3 16777216 0 0 2 8 1 true) None] 128.

Definition restart_bytes : list Z := [195; 1; 0; 0; 0; 7; 8].

Definition timestamps (r : option (Z * rtmp_dechunker * list (rtmp_header * list Z) * mbuf)) : list Z :=
  match r with Some (_, _, log, _) => (fun m => rh_timestamp m.1) <$> log | None => [] end.

(** The same seven bytes, at once and with the last one late: the handler gets
    different timestamps. *)
Lemma rtmp_resume_ext_ts :
  timestamps (rtmp_dechunker_receive log_handler rd_ext [] (mbuf_of restart_bytes)) = [33554432] /\
  match rtmp_dechunker_receive log_handler rd_ext [] (mbuf_of (take 6 restart_bytes)) with
  | Some (e, rd1, log, _) => e = ENODATA /\
      timestamps (rtmp_dechunker_receive log_handler rd1 log (mbuf_of restart_bytes)) = [16777216]
  | None => False
  end.
Proof. vm_compute. done. Qed.
