(* ===== verification/Stun.v ===== *)
(** * STUN headers, addresses and attributes (src/stun/hdr.c, addr.c, attr.c)

    The codecs of the parts of a STUN message.  An attribute value is tagged
    with the member of the union of [struct stun_attr] it lives in. *)

From S2P Require Export Prelude Mbuf MbufSpec MbufParse Sys.

Definition STUN_HEADER_SIZE : Z := 20.
Definition STUN_TID_SIZE : Z := 12.
Definition STUN_MAGIC_COOKIE : Z := 0x2112a442.
Definition STUN_AF_IPv4 : Z := 1.
Definition STUN_AF_IPv6 : Z := 2.

(** ** Message types *)

Definition STUN_TYPE (method class : Z) : Z :=
  Z.lor (Z.lor (Z.lor (Z.lor (Z.shiftl (Z.land method 0x0f80) 2) (Z.shiftl (Z.land method 0x0070) 1))
    (Z.shiftl (Z.land method 0x000f) 0)) (Z.shiftl (Z.land class 0x2) 7)) (Z.shiftl (Z.land class 0x1) 4).

Definition STUN_CLASS (type : Z) : Z := Z.land (Z.lor (Z.shiftr type 7) (Z.shiftr type 4)) 0x3.

Definition STUN_METHOD (type : Z) : Z :=
  Z.lor (Z.lor (Z.shiftr (Z.land type 0x3e00) 2) (Z.shiftr (Z.land type 0x00e0) 1)) (Z.land type 0x000f).

(** ** Socket addresses: the family with the address (host order for IPv4,
    the 16 bytes for IPv6) and the port in host order *)

Inductive sa :=
  | SaIn (addr port : Z)
  | SaIn6 (addr : list Z) (port : Z)
  | SaUnspec.

Definition sa_port (a : sa) : Z :=
  match a with SaIn _ port => port | SaIn6 _ port => port | SaUnspec => 0 end.

Definition sa_set_in (addr port : Z) : sa := SaIn addr port.
Definition sa_set_in6 (addr : list Z) (port : Z) : sa := SaIn6 addr port.

(** ** Attributes *)

Inductive stun_attrib :=
  | KAddr | KXorAddr | KChangeReq | KStr | KIntegrity | KErrCode | KUnknownAttr
  | KU16 | KU32 | KData | KU8 | KEvenPort | KNone | KU64 | KDefault.

Definition STUN_ATTR_MSG_INTEGRITY : Z := 0x0008.
Definition STUN_ATTR_ERR_CODE : Z := 0x0009.
Definition STUN_ATTR_FINGERPRINT : Z := 0x8028.

Definition is_case (type : Z) (labels : list Z) : bool := existsb (Z.eqb type) labels.

(** The case labels that share a body in the switch of [stun_attr_encode]. *)
Definition encode_case (type : Z) : stun_attrib :=
  if is_case type [0x0001; 0x8023; 0x802b; 0x802c] then KAddr
  else if is_case type [0x0012; 0x0016; 0x0020] then KXorAddr
  else if is_case type [0x0003] then KChangeReq
  else if is_case type [0x0006; 0x0014; 0x0015; 0x8022] then KStr
  else if is_case type [STUN_ATTR_MSG_INTEGRITY] then KIntegrity
  else if is_case type [STUN_ATTR_ERR_CODE] then KErrCode
  else if is_case type [0x000a] then KUnknownAttr
  else if is_case type [0x000c; 0x0027] then KU16
  else if is_case type [0x000d; 0x0024; STUN_ATTR_FINGERPRINT] then KU32
  else if is_case type [0x0013; 0x0026] then KData
  else if is_case type [0x0017; 0x0019] then KU8
  else if is_case type [0x0018] then KEvenPort
  else if is_case type [0x001a; 0x0025] then KNone
  else if is_case type [0x0022; 0x8029; 0x802a] then KU64
  else KDefault.

(** The case labels that share a body in the switch of [stun_attr_decode]. *)
Definition decode_case (type : Z) : stun_attrib :=
  if is_case type [0x0001; 0x8023; 0x802b; 0x802c] then KAddr
  else if is_case type [0x0012; 0x0016; 0x0020] then KXorAddr
  else if is_case type [0x0003] then KChangeReq
  else if is_case type [0x0006; 0x0014; 0x0015; 0x8022] then KStr
  else if is_case type [STUN_ATTR_MSG_INTEGRITY] then KIntegrity
  else if is_case type [STUN_ATTR_ERR_CODE] then KErrCode
  else if is_case type [0x000a] then KUnknownAttr
  else if is_case type [0x000c; 0x0027] then KU16
  else if is_case type [0x000d; 0x0024; STUN_ATTR_FINGERPRINT] then KU32
  else if is_case type [0x0013; 0x0026] then KData
  else if is_case type [0x0017; 0x0019] then KU8
  else if is_case type [0x0018] then KEvenPort
  else if is_case type [0x001a; 0x0025] then KNone
  else if is_case type [0x0022; 0x802a; 0x8029] then KU64
  else KDefault.

(** A value: [VMb] holds the bytes between the position and the end of the
    buffer it refers to, [VMbNull] is such a buffer without memory, at position
    0, and [VSelf] refers to the buffer being encoded into. *)
Inductive stun_val :=
  | VAddr (a : sa)
  | VChangeReq (ip port : bool)
  | VStr (str : list Z)
  | VIntegrity (mi : list Z)
  | VErrCode (code : Z) (reason : list Z)
  | VUnknown (typev : list Z)
  | VU16 (v : Z)
  | VU32 (v : Z)
  | VMb (bs : list Z)
  | VMbNull
  | VSelf
  | VU8 (v : Z)
  | VEvenPort (r : bool)
  | VNone
  | VU64 (v : Z).

Record stun_attr := StunAttr { at_type : Z; at_v : stun_val }.

Record stun_hdr := StunHdr { sh_type : Z; sh_len : Z; sh_cookie : Z; sh_tid : list Z }.

Section stun.
Context `{Host}.

Definition stun_hdr_encode (hdr : stun_hdr) : M mbuf Z :=
  mbuf_write_u16 (htons (Z.land (sh_type hdr) 0x3fff)) |;
  mbuf_write_u16 (htons (sh_len hdr)) |;
  mbuf_write_u32 (htonl (sh_cookie hdr)) |;
  mbuf_write_mem (sh_tid hdr).

Definition stun_hdr_zero : stun_hdr := StunHdr 0 0 0 (replicate 12 0).

Definition stun_hdr_decode : M mbuf (Z * stun_hdr) :=
  need STUN_HEADER_SIZE (ret (EBADMSG, stun_hdr_zero))
    (let* type := mbuf_read_ntohs in
     if nz (Z.land type 0xc000) then ret (EBADMSG, stun_hdr_zero)
     else
       let* len := mbuf_read_ntohs in
       if nz (Z.land len 0x3) then ret (EBADMSG, stun_hdr_zero)
       else
         let* cookie := mbuf_read_ntohl in
         let* tid := mbuf_read_mem STUN_TID_SIZE in
         need len (ret (EBADMSG, stun_hdr_zero)) (ret (0, StunHdr type len cookie tid.2))).

(** [in6_xor_tid]: the magic cookie and the transaction id over 16 bytes. *)
Definition in6_xor_tid (in6 tid : list Z) : list Z := zip_with Z.lxor in6 ([0x21; 0x12; 0xa4; 0x42] ++ tid).

Definition xor_opt {A} (tid : option A) (v mask : Z) : Z :=
  match tid with Some _ => Z.lxor v mask | None => v end.

Definition stun_addr_encode (addr : sa) (tid : option (list Z)) : M mbuf Z :=
  let port := xor_opt tid (sa_port addr) (Z.shiftr STUN_MAGIC_COOKIE 16) in
  match addr with
  | SaIn in4 _ =>
      let addr4 := xor_opt tid in4 STUN_MAGIC_COOKIE in
      mbuf_write_u8 0 |; mbuf_write_u8 STUN_AF_IPv4 |;
      mbuf_write_u16 (htons port) |; mbuf_write_u32 (htonl addr4)
  | SaIn6 in6 _ =>
      let addr6 := match tid with Some tid => in6_xor_tid in6 tid | None => in6 end in
      mbuf_write_u8 0 |; mbuf_write_u8 STUN_AF_IPv6 |;
      mbuf_write_u16 (htons port) |; mbuf_write_mem addr6
  | SaUnspec => ret EAFNOSUPPORT
  end.

Definition stun_addr_decode (tid : option (list Z)) : M mbuf (Z * sa) :=
  need 4 (ret (EBADMSG, SaUnspec))
    (let* _ := mbuf_read_u8 in
     let* family := mbuf_read_u8 in
     let* port := mbuf_read_ntohs in
     let port := xor_opt tid port (Z.shiftr STUN_MAGIC_COOKIE 16) in
     if family =? STUN_AF_IPv4 then
       need 4 (ret (EBADMSG, SaUnspec))
         (let* addr4 := mbuf_read_ntohl in
          ret (0, sa_set_in (xor_opt tid addr4 STUN_MAGIC_COOKIE) port))
     else if family =? STUN_AF_IPv6 then
       need 16 (ret (EBADMSG, SaUnspec))
         (let* addr6 := mbuf_read_mem 16 in
          ret (0, sa_set_in6 (match tid with Some tid => in6_xor_tid addr6.2 tid | None => addr6.2 end) port))
     else ret (EAFNOSUPPORT, SaUnspec)).

(** *** Encoding *)

Fixpoint encode_types (typev : list Z) : M mbuf Z :=
  match typev with
  | [] => ret 0
  | t :: typev => mbuf_write_u16 (htons t) |; encode_types typev
  end.

(** The switch of [stun_attr_encode]; a value of another type than the
    attribute's is read through the wrong member. *)
Definition encode_value (type : Z) (v : stun_val) (tid : option (list Z)) : M mbuf Z :=
  match encode_case type, v with
  | KAddr, VAddr a => stun_addr_encode a None
  | KXorAddr, VAddr a => stun_addr_encode a tid
  | KChangeReq, VChangeReq ip port =>
      mbuf_write_u32 (htonl (Z.lor (Z.shiftl (b2z ip) 2) (Z.shiftl (b2z port) 1)))
  | KStr, VStr str => mbuf_write_str str
  | KIntegrity, VIntegrity mi => mbuf_write_mem mi
  | KErrCode, VErrCode code reason =>
      mbuf_write_u16 0 |; mbuf_write_u8 (code / 100) |; mbuf_write_u8 (code mod 100) |;
      mbuf_write_str reason
  | KUnknownAttr, VUnknown typev => encode_types typev
  | KU16, VU16 v => mbuf_write_u16 (htons v) |; mbuf_write_u16 0
  | KU32, VU32 v => mbuf_write_u32 (htonl v)
  | KData, VSelf => mbuf_skip_to_end ;; ret 0
  | KData, VMb bs => mbuf_write_mem bs
  | KData, VMbNull => ret EINVAL
  | KU8, VU8 v => mbuf_write_u8 v |; mbuf_write_u8 0 |; mbuf_write_u16 0
  | KEvenPort, VEvenPort r => mbuf_write_u8 (Z.shiftl (b2z r) 7)
  | KNone, _ => ret 0
  | KU64, VU64 v => mbuf_write_u64 (sys_htonll v)
  | KDefault, _ => ret EINVAL
  | _, _ => ub
  end.

(** [while ((mb->pos - start) & 0x03) err |= mbuf_write_u8(mb, padding);]
    Four bytes of padding are never needed: without fuel the loop does not
    end, because the write fails and the position does not move. *)
Fixpoint write_padding (fuel : nat) (start padding : Z) : M mbuf Z :=
  let* mb := get in
  if nz (Z.land (u64 (mb_pos mb - start)) 0x03) then
    match fuel with
    | O => ub
    | S fuel => mbuf_write_u8 padding |; write_padding fuel start padding
    end
  else ret 0.

Definition stun_attr_encode (type : Z) (v : stun_val) (tid : option (list Z)) (padding : Z) : M mbuf Z :=
  mbuf_advance 4 ;;
  let* mb := get in
  let start := mb_pos mb in
  let* err := encode_value type v tid in
  let* mb := get in
  let len := u64 (mb_pos mb - start) in
  mbuf_set_pos (u64 (start - 4)) ;;
  let* err1 := mbuf_write_u16 (htons type) |; mbuf_write_u16 (htons (u16 len)) in
  mbuf_advance len ;;
  let* err2 := write_padding 4 start padding in
  ret (Z.lor (Z.lor err err1) err2).

(** *** Decoding *)

Definition str_decode (len : Z) : M mbuf (Z * list Z) :=
  need len (ret (EBADMSG, [])) (mbuf_strdup len).

(** The loop over the types of an UNKNOWN-ATTRIBUTES value: the first eight
    are kept. *)
Fixpoint decode_types (n : nat) (typev : list Z) : M mbuf (list Z) :=
  match n with
  | O => ret typev
  | S n =>
      let* type := mbuf_read_ntohs in
      decode_types n (if 8 <=? zlength typev then typev else typev ++ [type])
  end.

(** [if (cond) goto badmsg;] *)
Definition badmsg_if (bad : bool) (k : M mbuf (Z * stun_val)) : M mbuf (Z * stun_val) :=
  if bad then ret (EBADMSG, VNone) else k.

(** The switch of [stun_attr_decode]: the error code and the value. *)
Definition decode_value (type len : Z) (tid : option (list Z)) : M mbuf (Z * stun_val) :=
  match decode_case type with
  | KAddr => let* r := stun_addr_decode None in ret (r.1, VAddr r.2)
  | KXorAddr => let* r := stun_addr_decode tid in ret (r.1, VAddr r.2)
  | KChangeReq =>
      badmsg_if (negb (len =? 4))
        (let* n := mbuf_read_ntohl in
         ret (0, VChangeReq (nz (Z.land (Z.shiftr n 2) 1)) (nz (Z.land (Z.shiftr n 1) 1))))
  | KStr => let* r := str_decode len in ret (r.1, VStr r.2)
  | KIntegrity =>
      badmsg_if (negb (len =? 20)) (let* r := mbuf_read_mem 20 in ret (r.1, VIntegrity r.2))
  | KErrCode =>
      badmsg_if (len <? 4)
        (mbuf_advance 2 ;;
         let* hi := mbuf_read_u8 in
         let* lo := mbuf_read_u8 in
         let* r := str_decode (len - 4) in
         ret (r.1, VErrCode (u16 (Z.land hi 0x7 * 100 + lo)) r.2))
  | KUnknownAttr => let* typev := decode_types (Z.to_nat (len / 2)) [] in ret (0, VUnknown typev)
  | KU16 => badmsg_if (len <? 2) (let* v := mbuf_read_ntohs in ret (0, VU16 v))
  | KU32 => badmsg_if (negb (len =? 4)) (let* v := mbuf_read_ntohl in ret (0, VU32 v))
  | KData =>
      let* mb := get in
      mbuf_advance len ;; ret (0, VMb (take (Z.to_nat len) (unread mb)))
  | KU8 => badmsg_if (len <? 1) (let* v := mbuf_read_u8 in ret (0, VU8 v))
  | KEvenPort =>
      badmsg_if (len <? 1)
        (let* v := mbuf_read_u8 in ret (0, VEvenPort (nz (Z.land (Z.shiftr v 7) 1))))
  | KNone => badmsg_if (0 <? len) (ret (0, VNone))
  | KU64 => badmsg_if (negb (len =? 8)) (let* v := mbuf_read_u64 in ret (0, VU64 (sys_ntohll v)))
  | KDefault => mbuf_advance len ;; ret (0, VNone)
  end.

(** The record of unknown comprehension-required attributes, when asked for:
    at most eight types. *)
Definition note_unknown (type : Z) (ua : option (list Z)) : option (list Z) :=
  match decode_case type, ua with
  | KDefault, Some typev =>
      if 0x8000 <=? type then ua
      else if zlength typev <? 8 then Some (typev ++ [type]) else ua
  | _, _ => ua
  end.

(** [while (((mb->pos - start) & 0x03) && mbuf_get_left(mb)) ++mb->pos;] *)
Fixpoint skip_padding (fuel : nat) (start : Z) : M mbuf unit :=
  let* mb := get in
  if nz (Z.land (u64 (mb_pos mb - start)) 0x03) && nz (mbuf_get_left mb) then
    match fuel with
    | O => ub
    | S fuel => mbuf_advance 1 ;; skip_padding fuel start
    end
  else ret tt.

(** [sizeof(struct stun_attr)] on an LP64 host. *)
Definition STUN_ATTR_SIZEOF : Z := 160.

Definition attr_zero : stun_attr := StunAttr 0 VNone.

(** The error code, the attribute (on success) and the record of unknown
    attributes. *)
Definition stun_attr_decode (tid : option (list Z)) (ua : option (list Z))
    : M mbuf (Z * (stun_attr * option (list Z))) :=
  need 4 (ret (EBADMSG, (attr_zero, ua)))
    (if negb (alloc_ok STUN_ATTR_SIZEOF) then ret (ENOMEM, (attr_zero, ua))
     else
       let* type := mbuf_read_ntohs in
       let* len := mbuf_read_ntohs in
       need len (ret (EBADMSG, (attr_zero, ua)))
         (let* mb := get in
          let start := mb_pos mb in
          let* r := decode_value type len tid in
          if nz r.1 then ret (r.1, (attr_zero, ua))
          else
            skip_padding 4 start ;;
            ret (0, (StunAttr type r.2, note_unknown type ua)))).

End stun.
