(* ===== verification/StunMsg.v ===== *)
(** * STUN messages (src/stun/msg.c)

    Decoding, encoding with MESSAGE-INTEGRITY and FINGERPRINT, and the two
    checks.  A message keeps a reference to the buffer it was decoded from;
    the operations on a message therefore act on that buffer. *)

From S2P Require Export Stun Crc32 Crypto.

Definition MI_SIZE : Z := 24.
Definition FP_SIZE : Z := 8.

Record stun_msg := StunMsg { sm_hdr : stun_hdr; sm_attrl : list stun_attr; sm_start : Z }.

Definition fingerprint (buf : list Z) : Z := Z.lxor (re_crc32 0 buf) 0x5354554e.

Section stun_msg.
Context `{Host} `{Evp}.

(** [hmac_sha1]: the digest goes to [out], which stays as it was when
    OpenSSL reports an error. *)
Definition hmac_sha1 (key data out : list Z) : list Z :=
  match HMAC EVP_sha1 key data with
  | Some md => splice out 0 md
  | None => out
  end.

(** [while (mbuf_get_left(mb) - extra >= 4)]: every round but a failing one
    consumes the header of an attribute, so the unread bytes bound the number
    of rounds. *)
Fixpoint decode_attrs (fuel : nat) (tid : list Z) (extra : Z) (attrl : list stun_attr)
    (ua : option (list Z)) : M mbuf (Z * (list stun_attr * option (list Z))) :=
  let* mb := get in
  if 4 <=? u64 (mbuf_get_left mb - extra) then
    match fuel with
    | O => ub
    | S fuel =>
        let* '(err, (attr, ua)) := stun_attr_decode (Some tid) ua in
        if nz err then ret (err, (attrl, ua))
        else decode_attrs fuel tid extra (attrl ++ [attr]) ua
    end
  else ret (0, (attrl, ua)).

(** [sizeof(struct stun_msg)] on an LP64 host. *)
Definition STUN_MSG_SIZEOF : Z := 56.

Definition stun_msg_decode (ua : option (list Z)) : M mbuf (Z * (option stun_msg * option (list Z))) :=
  let* mb := get in
  let start := mb_pos mb in
  let* '(err, hdr) := stun_hdr_decode in
  if nz err then mbuf_set_pos start ;; ret (err, (None, ua))
  else if negb (alloc_ok STUN_MSG_SIZEOF) then mbuf_set_pos start ;; ret (ENOMEM, (None, ua))
  else
    let ua := match ua with Some _ => Some [] | None => None end in
    let* mb := get in
    let extra := u64 (mbuf_get_left mb - sh_len hdr) in
    let* '(err, (attrl, ua)) := decode_attrs (S (Z.to_nat (mbuf_get_left mb))) (sh_tid hdr) extra [] ua in
    mbuf_set_pos start ;;
    ret (err, (if nz err then None else Some (StunMsg hdr attrl start), ua)).

Definition stun_msg_type (msg : stun_msg) : Z := sh_type (sm_hdr msg).
Definition stun_msg_class (msg : stun_msg) : Z := STUN_CLASS (stun_msg_type msg).
Definition stun_msg_method (msg : stun_msg) : Z := STUN_METHOD (stun_msg_type msg).
Definition stun_msg_tid (msg : stun_msg) : list Z := sh_tid (sm_hdr msg).
Definition stun_msg_mcookie (msg : stun_msg) : bool := STUN_MAGIC_COOKIE =? sh_cookie (sm_hdr msg).

(** The first attribute the handler accepts, as [stun_msg_attr_apply] walks
    the list. *)
Fixpoint attr_apply (h : stun_attr -> bool) (attrl : list stun_attr) : option stun_attr :=
  match attrl with
  | [] => None
  | attr :: attrl => if h attr then Some attr else attr_apply h attrl
  end.

Definition stun_msg_attr_apply (msg : stun_msg) (h : stun_attr -> bool) : option stun_attr :=
  attr_apply h (sm_attrl msg).

Fixpoint find_attr (type : Z) (attrl : list stun_attr) : option stun_attr :=
  match attrl with
  | [] => None
  | attr :: attrl => if at_type attr =? type then Some attr else find_attr type attrl
  end.

Definition stun_msg_attr (msg : stun_msg) (type : Z) : option stun_attr := find_attr type (sm_attrl msg).

(** ** Encoding *)

(** The loop over the variable arguments; a NULL value is skipped. *)
Fixpoint encode_attrs (ap : list (Z * option stun_val)) (tid : list Z) (padding : Z) : M mbuf Z :=
  match ap with
  | [] => ret 0
  | (type, Some v) :: ap => stun_attr_encode type v (Some tid) padding |; encode_attrs ap tid padding
  | (_, None) :: ap => encode_attrs ap tid padding
  end.

(** [hmac_sha1] over, or [fingerprint] of, [mbuf_buf(mb)] for [n] bytes. *)
Definition buf_bytes (n : Z) : M mbuf (list Z) := let* mb := get in load_at (mb_pos mb) n.

Definition add_integrity (key : option (list Z)) (start len padding : Z) : M mbuf Z :=
  match key with
  | None => ret 0
  | Some key =>
      mbuf_set_pos start ;;
      let* mb := get in
      let* data := buf_bytes (mbuf_get_left mb) in
      let mi := hmac_sha1 key data (fresh_bytes 0 20) in
      mbuf_advance (STUN_HEADER_SIZE + len - MI_SIZE) ;;
      stun_attr_encode STUN_ATTR_MSG_INTEGRITY (VIntegrity mi) None padding
  end.

Definition add_fingerprint (fp : bool) (hdr : stun_hdr) (start padding : Z) : M mbuf Z :=
  if fp then
    let* mb := get in
    let len := u64 (mb_pos mb - start - STUN_HEADER_SIZE + FP_SIZE) in
    let hdr := StunHdr (sh_type hdr) (u16 len) (sh_cookie hdr) (sh_tid hdr) in
    mbuf_set_pos start ;;
    let* err := stun_hdr_encode hdr in
    mbuf_set_pos start ;;
    let* mb := get in
    let* data := buf_bytes (mbuf_get_left mb) in
    let fprnt := fingerprint data in
    mbuf_advance (STUN_HEADER_SIZE + sh_len hdr - FP_SIZE) ;;
    let* err' := stun_attr_encode STUN_ATTR_FINGERPRINT (VU32 fprnt) None padding in
    ret (Z.lor err err')
  else ret 0.

Definition stun_msg_vencode (method class : Z) (tid : list Z) (ec : option (Z * list Z))
    (key : option (list Z)) (fp : bool) (padding : Z) (ap : list (Z * option stun_val)) : M mbuf Z :=
  let* mb := get in
  let start := mb_pos mb in
  mbuf_advance STUN_HEADER_SIZE ;;
  let type := u16 (STUN_TYPE method class) in
  let mi_size := match key with Some _ => MI_SIZE | None => 0 end in
  let* err1 :=
    (match ec with
     | Some (code, reason) => stun_attr_encode STUN_ATTR_ERR_CODE (VErrCode code reason) None padding
     | None => ret 0
     end |; encode_attrs ap (take 12 tid) padding) in
  let* mb := get in
  let len := u64 (mb_pos mb - start - STUN_HEADER_SIZE + mi_size) in
  let hdr := StunHdr type (u16 len) STUN_MAGIC_COOKIE (take 12 tid) in
  mbuf_set_pos start ;;
  let* err2 := stun_hdr_encode hdr in
  mbuf_advance (sh_len hdr - mi_size) ;;
  let* err3 := add_integrity key start (sh_len hdr) padding |; add_fingerprint fp hdr start padding in
  ret (Z.lor (Z.lor err1 err2) err3).

(** ** Checks *)

(** Writing the header of the message with another length in front of the
    position, which stays. *)
Definition patch_len (hdr : stun_hdr) (len : Z) : M mbuf unit :=
  let* _ := stun_hdr_encode (StunHdr (sh_type hdr) len (sh_cookie hdr) (sh_tid hdr)) in
  mbuf_advance (- STUN_HEADER_SIZE).

(** The length field of the message is changed and restored on the way. *)
Definition stun_msg_chk_mi (msg : stun_msg) (key : list Z) : M mbuf Z :=
  match stun_msg_attr msg STUN_ATTR_MSG_INTEGRITY with
  | None => ret EPROTO
  | Some mi =>
      mbuf_set_pos (sm_start msg) ;;
      let hdr := sm_hdr msg in
      let fp := stun_msg_attr msg STUN_ATTR_FINGERPRINT in
      let len := match fp with Some _ => u16 (sh_len hdr - FP_SIZE) | None => sh_len hdr end in
      match fp with Some _ => patch_len hdr len | None => ret tt end ;;
      let* data := buf_bytes (STUN_HEADER_SIZE + len - MI_SIZE) in
      let digest := hmac_sha1 key data (replicate 20 0) in
      match fp with Some _ => patch_len hdr (u16 (len + FP_SIZE)) | None => ret tt end ;;
      match at_v mi with
      | VIntegrity d => ret (if bool_decide (d = digest) then 0 else EBADMSG)
      | _ => ub
      end
  end.

Definition stun_msg_chk_fingerprint (msg : stun_msg) : M mbuf Z :=
  match stun_msg_attr msg STUN_ATTR_FINGERPRINT with
  | None => ret EPROTO
  | Some fp =>
      mbuf_set_pos (sm_start msg) ;;
      let* data := buf_bytes (STUN_HEADER_SIZE + sh_len (sm_hdr msg) - FP_SIZE) in
      match at_v fp with
      | VU32 v => ret (if fingerprint data =? v then 0 else EBADMSG)
      | _ => ub
      end
  end.

End stun_msg.
