(* ===== verification/StunThms.v ===== *)
(** * STUN attributes: what is on the wire, and that it is read back

    [value_bytes] and [attr_bytes] are the representation of a value and of an
    attribute; encoding writes it and decoding such bytes gives the value. *)

From S2P Require Export Stun MbufPatch.

Definition tid_ok (tid : option (list Z)) : Prop :=
  match tid with Some t => length t = 12%nat /\ bytes_ok t | None => True end.

Definition port_ok (p : Z) : Prop := 0 <= p < 2 ^ 16.

Definition addr_ok (a : sa) : Prop :=
  match a with
  | SaIn in4 port => 0 <= in4 < 2 ^ 32 /\ port_ok port
  | SaIn6 in6 port => length in6 = 16%nat /\ bytes_ok in6 /\ port_ok port
  | SaUnspec => False
  end.

Definition in6_bytes (tid : option (list Z)) (in6 : list Z) : list Z :=
  match tid with Some tid => in6_xor_tid in6 tid | None => in6 end.

Definition addr_bytes (a : sa) (tid : option (list Z)) : list Z :=
  match a with
  | SaIn in4 port => [0; 1] ++ be_bytes 2 (xor_opt tid port 0x2112) ++ be_bytes 4 (xor_opt tid in4 STUN_MAGIC_COOKIE)
  | SaIn6 in6 port => [0; 2] ++ be_bytes 2 (xor_opt tid port 0x2112) ++ in6_bytes tid in6
  | SaUnspec => []
  end.

(** A C string: no byte of it is the terminator. *)
Definition cstr_ok (s : list Z) : Prop := Forall (fun b => 0 < b < 256) s.

Lemma cstr_bytes s : cstr_ok s -> bytes_ok s.
Proof. apply Forall_impl. unfold byte_ok. lia. Qed.

(** The kind of value of each registered attribute (RFC 5389, 5245, 5766,
    5780), in the order of their types. *)
Definition registry : list (Z * stun_attrib) :=
  [(0x0001, KAddr); (0x0003, KChangeReq); (0x0006, KStr); (0x0008, KIntegrity); (0x0009, KErrCode);
   (0x000a, KUnknownAttr); (0x000c, KU16); (0x000d, KU32); (0x0012, KXorAddr); (0x0013, KData);
   (0x0014, KStr); (0x0015, KStr); (0x0016, KXorAddr); (0x0017, KU8); (0x0018, KEvenPort); (0x0019, KU8);
   (0x001a, KNone); (0x0020, KXorAddr); (0x0022, KU64); (0x0024, KU32); (0x0025, KNone); (0x0026, KData);
   (0x0027, KU16); (0x8022, KStr); (0x8023, KAddr); (0x8028, KU32); (0x8029, KU64); (0x802a, KU64);
   (0x802b, KAddr); (0x802c, KAddr)].

Definition attr_kind (type : Z) : stun_attrib :=
  match List.find (fun e => e.1 =? type) registry with Some e => e.2 | None => KDefault end.

(** Both switches of the code agree with the registry. *)
Ltac case_labels type := unfold encode_case, decode_case, is_case, attr_kind, registry;
  cbn [existsb List.find fst snd]; rewrite ?orb_false_r;
  repeat match goal with |- context [?a =? type] => destruct (Z.eqb_spec a type) as [<-|]; [reflexivity|] end;
  repeat match goal with |- context [type =? ?a] => rewrite (proj2 (Z.eqb_neq type a)) by (unfold STUN_ATTR_MSG_INTEGRITY, STUN_ATTR_ERR_CODE, STUN_ATTR_FINGERPRINT; congruence) end;
  reflexivity.

Lemma encode_case_kind type : encode_case type = attr_kind type.
Proof. case_labels type. Qed.
Lemma decode_case_kind type : decode_case type = attr_kind type.
Proof. case_labels type. Qed.

(** Bytes on the wire of the value of an attribute. *)
Definition value_bytes (type : Z) (v : stun_val) (tid : option (list Z)) : list Z :=
  match attr_kind type, v with
  | KAddr, VAddr a => addr_bytes a None
  | KXorAddr, VAddr a => addr_bytes a tid
  | KChangeReq, VChangeReq ip port => be_bytes 4 (4 * b2z ip + 2 * b2z port)
  | KStr, VStr str => str
  | KIntegrity, VIntegrity mi => mi
  | KErrCode, VErrCode code reason => [0; 0] ++ [code / 100] ++ [code mod 100] ++ reason
  | KUnknownAttr, VUnknown typev => mjoin (be_bytes 2 <$> typev)
  | KU16, VU16 v => be_bytes 2 v ++ [0; 0]
  | KU32, VU32 v => be_bytes 4 v
  | KData, VMb bs => bs
  | KU8, VU8 v => [v] ++ [0] ++ [0; 0]
  | KEvenPort, VEvenPort r => [128 * b2z r]
  | KU64, VU64 v => be_bytes 8 v
  | _, _ => []
  end.

(** The values an attribute of a type can have. *)
Definition value_ok (type : Z) (v : stun_val) : Prop :=
  match attr_kind type, v with
  | (KAddr | KXorAddr), VAddr a => addr_ok a
  | KChangeReq, VChangeReq _ _ => True
  | KStr, VStr str => cstr_ok str
  | KIntegrity, VIntegrity mi => length mi = 20%nat /\ bytes_ok mi
  | KErrCode, VErrCode code reason => 0 <= code < 800 /\ cstr_ok reason
  | KUnknownAttr, VUnknown typev => (length typev <= 8)%nat /\ Forall (fun t => 0 <= t < 2 ^ 16) typev
  | KU16, VU16 v => 0 <= v < 2 ^ 16
  | KU32, VU32 v => 0 <= v < 2 ^ 32
  | KData, VMb bs => bytes_ok bs
  | KU8, VU8 v => 0 <= v < 256
  | KEvenPort, VEvenPort _ => True
  | KNone, VNone => True
  | KU64, VU64 v => 0 <= v < 2 ^ 64
  | _, _ => False
  end.

(** Padding of [n] bytes to a multiple of four. *)
Definition pad4 (n : Z) : Z := (- n) mod 4.

Definition attr_bytes (type : Z) (v : stun_val) (tid : option (list Z)) (padding : Z) : list Z :=
  let vb := value_bytes type v tid in
  (be_bytes 2 type ++ be_bytes 2 (zlength vb)) ++ vb ++ replicate (Z.to_nat (pad4 (zlength vb))) (u8 padding).

Record attr_ok (a : stun_attr) (tid : option (list Z)) : Prop := {
  ao_type : 0 <= at_type a < 2 ^ 16;
  ao_value : value_ok (at_type a) (at_v a);
  ao_len : zlength (value_bytes (at_type a) (at_v a) tid) < 2 ^ 16;
}.

Section stun_thms.
Context `{Host}.

(** ** Header *)

Lemma length_in6_xor in6 tid : length in6 = 16%nat -> length tid = 12%nat -> length (in6_xor_tid in6 tid) = 16%nat.
Proof. intros H1 H2. unfold in6_xor_tid. rewrite length_zip_with, H1, length_app, H2. done. Qed.

Lemma bytes_zip_lxor a b : bytes_ok a -> bytes_ok b -> bytes_ok (zip_with Z.lxor a b).
Proof.
  intros Ha. revert b. induction Ha as [|x a Hx _ IH]; intros b Hb; [constructor|].
  destruct Hb as [|y b Hy Hb]; [constructor|]. simpl. constructor; [|by apply IH].
  by apply (lxor_range x y 8).
Qed.

Lemma in6_xor_ok in6 tid : bytes_ok in6 -> bytes_ok tid -> bytes_ok (in6_xor_tid in6 tid).
Proof. intros. apply bytes_zip_lxor; [done|]. apply Forall_app. split; [repeat constructor; done|done]. Qed.

Lemma in6_xor_twice in6 tid : length in6 = 16%nat -> length tid = 12%nat ->
  in6_xor_tid (in6_xor_tid in6 tid) tid = in6.
Proof.
  intros H1 H2. unfold in6_xor_tid. set (m := _ ++ tid).
  assert (length in6 <= length m)%nat as Hl by (subst m; rewrite length_app, H2; simpl; lia). clearbody m.
  clear H1 H2. revert m Hl. induction in6 as [|x l IH]; intros [|y m] Hl; simpl in *; try done; [lia|].
  by rewrite lxor_twice, IH by lia.
Qed.

Lemma xor_opt_range {A} (tid : option A) v mask n : 0 <= n -> 0 <= v < 2 ^ n -> 0 <= mask < 2 ^ n ->
  0 <= xor_opt tid v mask < 2 ^ n.
Proof. intros. destruct tid; [by apply lxor_range|done]. Qed.

Lemma xor_opt_twice {A} (tid : option A) v mask : xor_opt tid (xor_opt tid v mask) mask = v.
Proof. destruct tid; [apply lxor_twice|done]. Qed.

(** ** Addresses *)

Lemma writes_addr a tid : addr_ok a -> tid_ok tid -> Writes (stun_addr_encode a tid) (addr_bytes a tid).
Proof.
  intros Ha Ht. unfold stun_addr_encode, addr_bytes. change (Z.shiftr STUN_MAGIC_COOKIE 16) with 0x2112.
  destruct a as [in4 port|in6 port|]; [| |done]; cbn [sa_port].
  - apply (writes_or_err _ _ [0] ([1] ++ _)); [apply writes_u8|].
    apply writes_or_err; [apply writes_u8|]. apply _.
  - destruct Ha as (Hl & Hb & Hp). apply (writes_or_err _ _ [0] ([2] ++ _)); [apply writes_u8|].
    apply writes_or_err; [apply writes_u8|]. apply writes_or_err; [apply _|].
    destruct tid as [t|]; [|by apply writes_mem]. destruct Ht. by apply writes_mem, in6_xor_ok.
Qed.

Lemma reads_addr a tid : addr_ok a -> tid_ok tid -> Reads (stun_addr_decode tid) (addr_bytes a tid) (0, a).
Proof.
  intros Ha Ht. unfold stun_addr_decode. change (Z.shiftr STUN_MAGIC_COOKIE 16) with 0x2112.
  destruct a as [in4 port|in6 port|]; [| |done].
  - destruct Ha as [Ha Hp]. unfold addr_bytes, port_ok in *.
    apply reads_need; [rewrite !length_app, !length_be_bytes; simpl; lia|]. simpl.
    apply reads_u8, reads_u8. apply reads_ntohs; [by apply xor_opt_range|].
    cbn [Z.eqb STUN_AF_IPv4]. apply reads_need; [by rewrite length_be_bytes|].
    apply reads_nil_app, reads_ntohl; [by apply xor_opt_range|].
    rewrite !xor_opt_twice. apply reads_ret.
  - destruct Ha as (Hl & Hb & Hp). unfold addr_bytes, port_ok in *.
    assert (length (in6_bytes tid in6) = 16%nat) as L6.
    { destruct tid as [t|]; [apply length_in6_xor; [done|apply Ht]|done]. }
    apply reads_need; [rewrite !length_app, L6; simpl; lia|]. simpl.
    apply reads_u8, reads_u8. apply reads_ntohs; [by apply xor_opt_range|].
    cbn [Z.eqb STUN_AF_IPv6]. apply reads_need; [by rewrite L6|].
    apply reads_nil_app, reads_mem_k; [by rewrite L6|]. rewrite xor_opt_twice. cbn [snd].
    assert (match tid with Some t => in6_xor_tid (in6_bytes tid in6) t | None => in6_bytes tid in6 end = in6) as ->
      by (destruct tid as [t|]; [by apply in6_xor_twice; [|apply Ht]|done]). apply reads_ret.
Qed.

(** ** Values *)

Lemma writes_u16_0 : Writes (mbuf_write_u16 0) [0; 0].
Proof.
  assert (host_bytes 2 0 = [0; 0]) as E by (unfold host_bytes; by case_match).
  rewrite <- E. apply writes_host_bytes.
Qed.

Lemma writes_types typev : Writes (encode_types typev) (mjoin (be_bytes 2 <$> typev)).
Proof. induction typev as [|t typev IH]; [apply writes_ret0|]. cbn. apply writes_or_err; [apply _|done]. Qed.

Lemma writes_u64_n v : Writes (mbuf_write_u64 (sys_htonll v)) (be_bytes 8 v).
Proof. rewrite <- host_bytes_htonll. apply writes_host_bytes. Qed.

(** [mbuf_write_u8] of a byte. *)
Lemma writes_byte v : byte_ok v -> Writes (mbuf_write_u8 v) [v].
Proof. intros Hv. rewrite <- (wrap_small 8 v Hv) at 2. apply writes_u8. Qed.

Lemma change_req_bits ip port :
  Z.lor (Z.shiftl (b2z ip) 2) (Z.shiftl (b2z port) 1) = 4 * b2z ip + 2 * b2z port.
Proof. by destruct ip, port. Qed.

Lemma writes_value type v tid : value_ok type v -> tid_ok tid ->
  Writes (encode_value type v tid) (value_bytes type v tid).
Proof.
  intros Hv Ht. unfold value_ok, encode_value, value_bytes in *. rewrite encode_case_kind.
  destruct (attr_kind type), v; try done.
  - by apply writes_addr.
  - by apply writes_addr.
  - rewrite change_req_bits. apply _.
  - by apply writes_mem, cstr_bytes.
  - apply writes_mem, Hv.
  - destruct Hv as [Hc Hr]. apply writes_or_err; [apply writes_u16_0|].
    apply writes_or_err; [apply writes_byte; unfold byte_ok; dlia|].
    apply writes_or_err; [apply writes_byte; unfold byte_ok; dlia|]. by apply writes_mem, cstr_bytes.
  - apply writes_types.
  - apply writes_or_err; [apply _|apply writes_u16_0].
  - apply _.
  - by apply writes_mem.
  - apply writes_or_err; [by apply writes_byte|].
    apply writes_or_err; [by apply writes_byte|apply writes_u16_0].
  - rewrite Z.shiftl_mul_pow2 by lia. rewrite Z.mul_comm. by destruct r; apply writes_byte.
  - apply writes_ret0.
  - apply writes_u64_n.
Qed.

(** ** Encoding an attribute *)

Lemma pad_step x : x mod 4 <> 0 -> (- x) mod 4 = (- (x + 1)) mod 4 + 1.
Proof. dlia. Qed.

Lemma write_padding_ok fuel start padding mb : no_oom -> mbuf_wf mb -> start <= mb_pos mb ->
  pad4 (mb_pos mb - start) <= Z.of_nat fuel -> 0 <= start -> mb_pos mb + pad4 (mb_pos mb - start) < WRITE_MAX ->
  exists mb', write_padding fuel start padding mb = Some (0, mb') /\ mbuf_wf mb' /\
    written mb (replicate (Z.to_nat (pad4 (mb_pos mb - start))) (u8 padding)) mb'.
Proof.
  intros Ho. revert mb. induction fuel as [|fuel IH]; intros mb Hwf Hs Hf H0 Hm;
    pose proof (wf_pos _ Hwf); unfold WRITE_MAX, pad4 in *; cbn [write_padding];
    rewrite (bind_Some _ _ _ _ _ (eq_refl : get mb = _));
    rewrite (wrap_small 64), land_3 by dlia; unfold nz;
    (destruct (Z.eqb_spec ((mb_pos mb - start) mod 4) 0) as [E|E]; cbn [negb];
      [replace ((- (mb_pos mb - start)) mod 4) with 0 by dlia;
       exists mb; split_and!; [done|done|by apply written_nil]|]).
  { exfalso. dlia. }
  rewrite pad_step in * by done. set (n := (- (mb_pos mb - start + 1)) mod 4) in *.
  assert (0 <= n) by (subst n; dlia).
  destruct (writes_writes_ok _ _ Ho (writes_u8 padding) mb Hwf) as (mb1 & E1 & Hwf1 & W1);
    [unfold WRITE_MAX; simpl; lia|]. pose proof (wr_pos _ _ _ W1) as P1. simpl in P1.
  assert ((- (mb_pos mb1 - start)) mod 4 = n) as En by (subst n; rewrite P1; do 2 f_equal; lia).
  destruct (IH mb1 Hwf1) as (mb2 & E2 & Hwf2 & W2); [lia|lia|lia|lia|]. rewrite En in *.
  exists mb2. unfold or_err. rewrite (bind_Some _ _ _ _ _ E1), (bind_Some _ _ _ _ _ E2).
  split_and!; [done|done|]. replace (Z.to_nat (n + 1)) with (S (Z.to_nat n)) by lia.
  by apply (written_app _ [_] mb1).
Qed.

Lemma attr_hdr_ok type len : no_oom -> 0 <= len < 2 ^ 16 ->
  WritesOk (mbuf_write_u16 (htons type) |; mbuf_write_u16 (htons (u16 len)))
    (be_bytes 2 type ++ be_bytes 2 len).
Proof. intros Ho Hl. rewrite wrap_small by done. apply writes_writes_ok; [done|apply _]. Qed.

Lemma length_attr_bytes type v tid padding : zlength (attr_bytes type v tid padding) =
  4 + zlength (value_bytes type v tid) + pad4 (zlength (value_bytes type v tid)).
Proof.
  unfold attr_bytes, pad4. rewrite !length_app, !length_be_bytes, length_replicate. dlia.
Qed.

Lemma stun_attr_encode_ok type v tid padding : no_oom -> tid_ok tid -> attr_ok (StunAttr type v) tid ->
  WritesOk (stun_attr_encode type v tid padding) (attr_bytes type v tid padding).
Proof.
  intros Ho Ht [Hty Hv Hlen] mb Hwf Hm. cbn [at_type at_v] in *. rewrite length_attr_bytes in Hm.
  pose proof (wf_pos _ Hwf) as Hp. unfold WRITE_MAX in Hm. set (vb := value_bytes type v tid) in *.
  assert (0 <= pad4 (zlength vb) < 4) as Hpad by (unfold pad4; dlia).
  destruct (patch_steps mb 4 _ _ vb _ Hwf (writes_writes_ok _ _ Ho (writes_value type v tid Hv Ht))
    (attr_hdr_ok type (zlength vb) Ho ltac:(lia))) as (mb1 & mb2 & E1 & P1 & E2 & Hwf2 & P2 & W);
    [by rewrite length_app, !length_be_bytes|unfold WRITE_MAX; lia|].
  unfold stun_attr_encode, mbuf_advance, modify, mbuf_set_pos, get. unfold bind at 1.
  rewrite (wrap_small 64) by lia. unfold bind at 1. cbn [set_pos mb_pos].
  rewrite (bind_Some _ _ _ _ _ E1). unfold bind at 1. rewrite P1.
  replace (mb_pos mb + 4 + zlength vb - (mb_pos mb + 4)) with (zlength vb) by lia.
  rewrite (wrap_small 64 (zlength vb)) by lia. unfold bind at 1. unfold modify at 1.
  replace (mb_pos mb + 4 - 4) with (mb_pos mb) by lia. rewrite (wrap_small 64 (mb_pos mb)) by lia.
  rewrite (bind_Some _ _ _ _ _ E2). unfold bind at 1. rewrite P2, (wrap_small 64) by lia.
  set (mb3 := set_pos _ mb2) in *. assert (mbuf_wf mb3) as Hwf3 by (apply set_pos_wf; [done|lia]).
  assert (mb_pos mb3 - (mb_pos mb + 4) = zlength vb) as E3 by (subst mb3; simpl; lia).
  destruct (write_padding_ok 4 (mb_pos mb + 4) padding mb3 Ho Hwf3) as (mb4 & E4 & Hwf4 & W4);
    rewrite ?E3; try lia; [subst mb3; unfold WRITE_MAX; simpl; lia|].
  rewrite E3 in W4. rewrite (bind_Some _ _ _ _ _ E4). exists mb4. split_and!; [done|done|].
  unfold attr_bytes. rewrite app_assoc. by apply (written_app _ _ mb3).
Qed.

(** ** Decoding the bytes of an attribute *)

Lemma reads_map {A B} (m : M mbuf A) (f : A -> B) bs a : Reads m bs a ->
  Reads (let* r := m in ret (f r)) bs (f a).
Proof. intros Hm. apply reads_nil_app. eapply reads_bind; [done|apply reads_ret]. Qed.

Lemma reads_str s : no_oom -> zlength s < 2 ^ 16 -> Reads (str_decode (zlength s)) s (0, s).
Proof.
  intros Ho Hl. unfold str_decode. apply reads_need; [done|]. unfold mbuf_strdup.
  rewrite (wrap_small 64) by lia. rewrite alloc_ok_no_oom by (done || unfold MEM_SIZE_MAX; lia).
  by apply reads_mem.
Qed.

Lemma reads_types typev acc : Forall (fun t => 0 <= t < 2 ^ 16) typev ->
  (length acc + length typev <= 8)%nat ->
  Reads (decode_types (length typev) acc) (mjoin (be_bytes 2 <$> typev)) (acc ++ typev).
Proof.
  intros Ht. revert acc. induction Ht as [|t typev Ht _ IH]; intros acc Hl.
  { rewrite app_nil_r. apply reads_ret. }
  simpl in Hl. cbn. apply reads_ntohs; [done|]. rewrite (proj2 (Z.leb_gt 8 (zlength acc))) by lia.
  replace (acc ++ t :: typev) with ((acc ++ [t]) ++ typev) by (by rewrite <- app_assoc).
  apply IH. rewrite length_app. simpl. lia.
Qed.

Lemma length_types typev : length (mjoin (be_bytes 2 <$> typev)) = (2 * length typev)%nat.
Proof.
  induction typev as [|t typev IH]; [done|].
  change (length (be_bytes 2 t ++ mjoin (be_bytes 2 <$> typev)) = (2 * S (length typev))%nat).
  rewrite length_app, length_be_bytes, IH. lia.
Qed.

Lemma reads_mb bs : zlength bs < 2 ^ 16 ->
  Reads (let* mb := get in mbuf_advance (zlength bs) ;; ret (0, VMb (take (Z.to_nat (zlength bs)) (unread mb))))
    bs (0, VMb bs).
Proof.
  intros Hl mb rest Hwf E. rewrite (bind_Some _ _ _ _ _ (eq_refl : get mb = _)).
  rewrite (bind_Some _ _ _ _ _ (reads_advance _ bs eq_refl mb rest Hwf E)).
  by rewrite E, Nat2Z.id, take_app_length.
Qed.

Lemma reads_u64_n v : 0 <= v < 2 ^ 64 ->
  Reads (let* x := mbuf_read_u64 in ret (0, VU64 (sys_ntohll x))) (be_bytes 8 v) (0, VU64 v).
Proof.
  intros Hv. pose proof (reads_int 8 (be_bytes 8 v) (length_be_bytes _ _)) as R.
  apply (reads_map _ (fun x => (0, VU64 (sys_ntohll x)))) in R.
  by rewrite sys_ntohll_host_val, be_val_bytes in R by auto using be_bytes_ok, length_be_bytes.
Qed.

Lemma reads_err_code code reason : no_oom -> 0 <= code < 800 -> 4 + zlength reason < 2 ^ 16 ->
  Reads (mbuf_advance 2 ;;
         let* hi := mbuf_read_u8 in
         let* lo := mbuf_read_u8 in
         let* r := str_decode (4 + zlength reason - 4) in
         ret (r.1, VErrCode (u16 (Z.land hi 0x7 * 100 + lo)) r.2))
    ([0; 0] ++ [code / 100] ++ [code mod 100] ++ reason) (0, VErrCode code reason).
Proof.
  intros Ho Hc Hl. eapply reads_bind; [by apply reads_advance|]. apply reads_u8, reads_u8.
  replace (4 + zlength reason - 4) with (zlength reason) by lia.
  assert (u16 (Z.land (code / 100) 0x7 * 100 + code mod 100) = code) as ->
    by (rewrite land_7; unfold wrap; dlia).
  apply (reads_map _ (fun r => (r.1, VErrCode code r.2)) reason (0, reason)). apply reads_str; [done|lia].
Qed.

(** What the decoder of the value leaves, the padding loop skips. *)
Lemma reads_value type v tid : no_oom -> tid_ok tid -> attr_ok (StunAttr type v) tid ->
  let vb := value_bytes type v tid in
  exists cb rest, vb = cb ++ rest /\ pad4 (zlength cb) = zlength rest + pad4 (zlength vb) /\
    Reads (decode_value type (zlength vb) tid) cb (0, v).
Proof.
  intros Ho Ht [_ Hv Hl]. cbn [at_type at_v] in *.
  assert (forall vb, Reads (decode_value type (zlength vb) tid) vb (0, v) ->
    exists cb rest, vb = cb ++ rest /\ pad4 (zlength cb) = zlength rest + pad4 (zlength vb) /\
    Reads (decode_value type (zlength vb) tid) cb (0, v)) as Hall.
  { intros vb R. exists vb, []. by rewrite app_nil_r. }
  revert Hall Hl. unfold value_ok, decode_value, value_bytes in *. rewrite decode_case_kind.
  destruct (attr_kind type), v; try done; intros Hall Hl.
  - apply Hall. rewrite ?length_be_bytes. by apply (reads_map _ (fun r => (r.1, VAddr r.2)) _ (0, a)), reads_addr.
  - apply Hall. rewrite ?length_be_bytes. by apply (reads_map _ (fun r => (r.1, VAddr r.2)) _ (0, a)), reads_addr.
  - apply Hall. rewrite ?length_be_bytes. apply reads_nil_app, reads_ntohl; [destruct ip, port; cbn; lia|]. destruct ip, port; apply reads_ret.
  - apply Hall. rewrite ?length_be_bytes. by apply (reads_map _ (fun r => (r.1, VStr r.2)) _ (0, str)), reads_str.
  - apply Hall. rewrite ?length_be_bytes. destruct Hv as [Hm Hb]. rewrite Hm. cbn.
    apply (reads_map _ (fun r => (r.1, VIntegrity r.2)) _ (0, mi)), reads_mem. by rewrite Hm.
  - apply Hall. rewrite ?length_be_bytes. destruct Hv as [Hc Hr]. rewrite !length_app in *. cbn [length] in *.
    replace (Z.of_nat (2 + (1 + (1 + length reason)))) with (4 + zlength reason) in * by lia.
    unfold badmsg_if. rewrite (proj2 (Z.ltb_ge _ _)) by lia. by apply reads_err_code.
  - apply Hall. rewrite ?length_be_bytes. destruct Hv as [Hc Hr]. rewrite length_types.
    replace (Z.to_nat (Z.of_nat (2 * length typev) / 2)) with (length typev) by dlia.
    apply (reads_map _ (fun r => (0, VUnknown r)) _ typev). by apply (reads_types typev []).
  - exists (be_bytes 2 v), [0; 0]. rewrite length_app, length_be_bytes. split_and!; [done|done|].
    by apply reads_nil_app, reads_ntohs, reads_ret.
  - apply Hall. rewrite ?length_be_bytes. by apply reads_nil_app, reads_ntohl, reads_ret.
  - apply Hall. rewrite ?length_be_bytes. by apply reads_mb.
  - exists [v], [0; 0; 0]. split_and!; [done|done|]. apply reads_u8, reads_ret.
  - apply Hall. rewrite ?length_be_bytes. destruct r; apply reads_u8, reads_ret.
  - apply Hall. rewrite ?length_be_bytes. apply reads_ret.
  - apply Hall. rewrite ?length_be_bytes. by apply reads_u64_n.
Qed.

(** The padding loop, on any buffer. *)
Lemma skip_padding_eq fuel start mb : mbuf_wf mb -> 0 <= start <= mb_pos mb ->
  pad4 (mb_pos mb - start) <= Z.of_nat fuel ->
  skip_padding fuel start mb =
    Some (tt, set_pos (mb_pos mb + Z.min (pad4 (mb_pos mb - start)) (mbuf_get_left mb)) mb).
Proof.
  revert mb. induction fuel as [|fuel IH]; intros mb Hwf Hs Hf; pose proof (wf_pos _ Hwf) as Hp;
    pose proof (left_bound mb Hwf) as Hb; unfold pad4 in *; cbn [skip_padding];
    rewrite (bind_Some _ _ _ _ _ (eq_refl : get mb = _)); rewrite (wrap_small 64), land_3 by lia; unfold nz;
    (destruct (Z.eqb_spec ((mb_pos mb - start) mod 4) 0) as [E|E]; cbn [negb andb];
      [replace (Z.min _ _) with 0 by dlia; by rewrite Z.add_0_r, set_pos_id|]).
  { exfalso. dlia. }
  destruct (Z.eqb_spec (mbuf_get_left mb) 0) as [El|El]; cbn [negb].
  { rewrite El, Z.min_r, Z.add_0_r, set_pos_id by dlia. done. }
  unfold mbuf_advance, modify, bind. rewrite (wrap_small 64) by lia.
  assert (mbuf_get_left (set_pos (mb_pos mb + 1) mb) = mbuf_get_left mb - 1) as El1
    by (unfold mbuf_get_left in *; simpl; repeat case_match; lia).
  rewrite IH; rewrite ?El1; cbn [set_pos mb_pos]; [|apply set_pos_wf; [done|lia]|lia|rewrite pad_step in Hf by done].
  - do 2 f_equal. rewrite (pad_step (mb_pos mb - start)) by done. unfold set_pos. simpl. f_equal.
    replace (mb_pos mb + 1 - start) with (mb_pos mb - start + 1) by lia. lia.
  - replace (mb_pos mb + 1 - start) with (mb_pos mb - start + 1) by lia. lia.
Qed.

Lemma note_unknown_ok type v ua : value_ok type v -> note_unknown type ua = ua.
Proof. unfold value_ok, note_unknown. rewrite decode_case_kind. by destruct (attr_kind type). Qed.

Lemma stun_attr_decode_reads type v tid padding ua : no_oom -> tid_ok tid -> attr_ok (StunAttr type v) tid ->
  Reads (stun_attr_decode tid ua) (attr_bytes type v tid padding) (0, (StunAttr type v, ua)).
Proof.
  intros Ho Ht Hok. destruct (reads_value type v tid Ho Ht Hok) as (cb & rest & Ev & Ep & Hr).
  destruct Hok as [Hty Hv Hl]. cbn [at_type at_v] in *. unfold attr_bytes. rewrite <- app_assoc.
  set (vb := value_bytes type v tid) in *. set (pad := replicate _ _).
  assert (zlength pad = pad4 (zlength vb)) as Lp by (subst pad; rewrite length_replicate; unfold pad4; dlia).
  unfold stun_attr_decode. apply reads_need; [rewrite !length_app, !length_be_bytes; lia|].
  rewrite alloc_ok_no_oom by (done || unfold STUN_ATTR_SIZEOF, MEM_SIZE_MAX; lia). cbn [negb].
  apply reads_ntohs; [done|]. apply reads_ntohs; [lia|].
  apply reads_need; [rewrite length_app; lia|].
  intros mb more Hwf E. rewrite (bind_Some _ _ _ _ _ (eq_refl : get mb = _)). cbv zeta.
  rewrite Ev, <- !app_assoc in E. pose proof (unread_left _ _ _ Hwf E).
  rewrite (bind_Some _ _ _ _ _ (Hr mb _ Hwf E)). cbn [fst snd nz Z.eqb negb].
  pose proof (unread_wf _ _ _ Hwf E) as Hwf1. pose proof (left_advance _ _ _ Hwf E) as El.
  pose proof (wf_pos _ Hwf). set (mb1 := set_pos _ mb) in *.
  assert (zlength cb + (zlength rest + zlength pad) <= mbuf_get_left mb) as Hleft.
  { rewrite <- length_unread, E, !length_app by done. lia. }
  assert (mb_pos mb1 - mb_pos mb = zlength cb) as Ed by (subst mb1; simpl; lia).
  rewrite (bind_Some _ _ _ _ _ (skip_padding_eq 4 (mb_pos mb) mb1 Hwf1 ltac:(lia)
    ltac:(rewrite Ed; unfold pad4; dlia))).
  rewrite Ed, El, note_unknown_ok with (v := v) by done. unfold ret. do 2 f_equal.
  subst mb1. unfold set_pos. simpl. f_equal. rewrite Ev, !length_app. lia.
Qed.

End stun_thms.
