(* ===== verification/StunDecode.v ===== *)
(** * Decoding untrusted STUN messages

    Every decoder of the module is memory safe and terminates on arbitrary
    input.  A message that is accepted is tiled by its attributes: they cover
    the [hdr.len] bytes after the header, no more and no less, although the
    attribute decoder only checks lengths against the end of the buffer. *)

From S2P Require Export StunThms StunMsg.

(** The member of the union and the range of what is stored in it. *)
Definition value_typed (type : Z) (v : stun_val) : Prop :=
  match attr_kind type, v with
  | (KAddr | KXorAddr), VAddr a => addr_ok a
  | KChangeReq, VChangeReq _ _ => True
  | KStr, VStr str => bytes_ok str
  | KIntegrity, VIntegrity mi => length mi = 20%nat /\ bytes_ok mi
  | KErrCode, VErrCode code reason => 0 <= code < 956 /\ bytes_ok reason
  | KUnknownAttr, VUnknown typev => (length typev <= 8)%nat /\ Forall (fun t => 0 <= t < 2 ^ 16) typev
  | KU16, VU16 v => 0 <= v < 2 ^ 16
  | KU32, VU32 v => 0 <= v < 2 ^ 32
  | KData, VMb bs => bytes_ok bs
  | KU8, VU8 v => 0 <= v < 256
  | KEvenPort, VEvenPort _ => True
  | KNone, VNone => True
  | KU64, VU64 v => 0 <= v < 2 ^ 64
  | KDefault, VNone => True
  | _, _ => False
  end.

(** Least number of bytes an accepted value occupies, for the two attributes
    the checks of a message rely on. *)
Definition value_min (type : Z) : Z :=
  match attr_kind type with KIntegrity => 20 | KU32 => 4 | _ => 0 end.

Section decode.
Context `{Host}.

Lemma parses_map {R T} n (m : M mbuf (Z * R)) (f : R -> T) (P : R -> Prop) (Q : T -> Prop) :
  Parses n m P -> (forall r, P r -> Q (f r)) -> Parses n (let* r := m in ret (r.1, f r.2)) Q.
Proof.
  intros Hm Hf mb Hwf Hn. destruct (Hm mb Hwf Hn) as (e & r & mb1 & E & Ha & Hok).
  rewrite (bind_Some _ _ _ _ _ E). exists e, (f r), mb1. split_and!; [done|done|]. intros ->.
  destruct (Hok eq_refl) as (Hp & bs & rest & Eu & Hl & Em & Hr). split; [by apply Hf|].
  exists bs, rest. split_and!; [done..|]. by apply (reads_map _ (fun r => (r.1, f r.2)) bs (0, r)).
Qed.

Lemma parses_read_mem n : 0 <= n ->
  Parses n (mbuf_read_mem n) (fun bs => zlength bs = n /\ bytes_ok bs).
Proof.
  intros Hn mb Hwf Hl. destruct (unread_split mb n Hwf) as (bs & rest & E & Lb & Hb); [lia|].
  rewrite (reads_mem n bs Lb mb rest Hwf E). eexists _, _, _. split_and!; [done| |].
  - by apply (advanced_unread _ _ rest).
  - intros _. split; [done|]. exists bs, rest. split_and!; [done|lia|done|by apply reads_mem].
Qed.

Lemma parses_weaken {R} n (m : M mbuf (Z * R)) (P Q : R -> Prop) :
  Parses n m P -> (forall r, P r -> Q r) -> Parses n m Q.
Proof.
  intros Hm HPQ mb Hwf Hn. destruct (Hm mb Hwf Hn) as (e & r & mb1 & E & Ha & Hok).
  exists e, r, mb1. split_and!; [done..|]. intros He. destruct (Hok He) as [Hp Hx]. auto.
Qed.

Lemma parses_str len : 0 <= len -> Parses 0 (str_decode len) bytes_ok.
Proof.
  intros Hl. unfold str_decode. apply parses_need; [done|]. unfold mbuf_strdup. apply parses_if; intros _.
  - eapply parses_weaken; [by apply parses_read_mem|]. by intros r [].
  - by apply parses_fail.
Qed.

Lemma parses_addr tid : tid_ok tid -> Parses 0 (stun_addr_decode tid) addr_ok.
Proof.
  intros Ht. unfold stun_addr_decode. change (Z.shiftr STUN_MAGIC_COOKIE 16) with 0x2112.
  apply parses_need; [done|]. apply parses_u8; [lia|]. intros _ _.
  apply parses_u8; [lia|]. intros family _. apply parses_ntohs; [lia|]. intros port Hp.
  assert (port_ok (xor_opt tid port 0x2112)) by (by apply xor_opt_range).
  apply parses_if; intros _; [|apply parses_if; intros _].
  - apply parses_need; [done|]. apply parses_ntohl; [lia|]. intros v Hv. apply parses_ret.
    split; [by apply xor_opt_range|done].
  - apply parses_need; [done|]. apply parses_mem; [lia|]. intros bs Hl Hb. apply parses_ret. cbn [snd].
    destruct tid as [t|]; [destruct Ht|]; split_and!; try done; try lia.
    + apply length_in6_xor; [lia|done].
    + by apply in6_xor_ok.
  - by apply parses_fail.
Qed.

Lemma parses_types n acc : (length acc <= 8)%nat -> Forall (fun t => 0 <= t < 2 ^ 16) acc ->
  Parses (2 * Z.of_nat n) (let* typev := decode_types n acc in ret (0, VUnknown typev))
    (fun v => match v with
              | VUnknown typev => (length typev <= 8)%nat /\ Forall (fun t => 0 <= t < 2 ^ 16) typev
              | _ => False end).
Proof.
  revert acc. induction n as [|n IH]; intros acc Hl Ha; [by apply parses_ret|].
  cbn [decode_types]. intros mb Hwf Hn. unfold bind at 1.
  assert (Parses (2 * Z.of_nat (S n)) (let* type := mbuf_read_ntohs in
    let* typev := decode_types n (if 8 <=? zlength acc then acc else acc ++ [type]) in ret (0, VUnknown typev))
    (fun v => match v with
              | VUnknown typev => (length typev <= 8)%nat /\ Forall (fun t => 0 <= t < 2 ^ 16) typev
              | _ => False end)) as HP.
  { apply parses_ntohs; [lia|]. intros v Hv. replace (2 * Z.of_nat (S n) - 2) with (2 * Z.of_nat n) by lia.
    destruct (Z.leb_spec 8 (zlength acc)); apply IH; try done; [rewrite length_app; simpl; lia|].
    apply Forall_app. split; [done|by constructor]. }
  destruct (HP mb Hwf Hn) as (e & r & mb1 & E & Hadv & Hok). exists e, r, mb1.
  rewrite <- bind_assoc in E. split_and!; [done..|]. intros He.
  destruct (Hok He) as (Hp & bs & rest & Eu & Hb & Em & Hr). split; [done|].
  exists bs, rest. split_and!; [done..|]. intros mb' rest' Hwf' E'. rewrite bind_assoc. by apply (Hr mb' rest').
Qed.

Lemma parses_skip {R} len (r : R) (P : R -> Prop) : 0 <= len -> P r -> Parses len (mbuf_advance len ;; ret (0, r)) P.
Proof.
  intros Hl Hp. replace len with (len + 0) at 1 by lia.
  apply (parses_bind_exact _ _ _ _ (fun _ => True)); [done|done| |intros _ _; by apply parses_ret].
  intros bs Hb _. exists tt. split; [by apply reads_advance|done].
Qed.

Lemma parses_mb len : 0 <= len ->
  Parses len (let* mb := get in mbuf_advance len ;; ret (0, VMb (take (Z.to_nat len) (unread mb))))
    (fun v => match v with VMb bs => bytes_ok bs | _ => False end).
Proof.
  intros Hl mb Hwf Hn. destruct (unread_split mb len Hwf) as (bs & rest & E & Lb & Hb); [lia|].
  assert (forall mb' rest', mbuf_wf mb' -> unread mb' = bs ++ rest' ->
    (let* mb := get in mbuf_advance len ;; ret (0, VMb (take (Z.to_nat len) (unread mb)))) mb'
      = Some ((0, VMb bs), set_pos (mb_pos mb' + zlength bs) mb')) as Hr.
  { intros mb' rest' Hwf' E'. rewrite (bind_Some _ _ _ _ _ (eq_refl : get mb' = _)).
    rewrite (bind_Some _ _ _ _ _ (reads_advance _ bs Lb mb' rest' Hwf' E')).
    rewrite E', <- Lb, Nat2Z.id, take_app_length. done. }
  eexists 0, (VMb bs), _. split_and!; [by apply (Hr mb rest)|by apply (advanced_unread _ _ rest)|].
  intros _. split; [done|]. exists bs, rest. split_and!; [done|lia|done|exact Hr].
Qed.

(** What [decode_value] promises once [len] bytes are known to be there. *)
Definition value_spec (type : Z) (m : M mbuf (Z * stun_val)) (mb : mbuf) : Prop :=
  exists e v mb1, m mb = Some ((e, v), mb1) /\ advanced mb mb1 /\
    (e = 0 -> value_typed type v /\ mb_pos mb + value_min type <= mb_pos mb1).

Lemma value_spec_parses type n m mb P : mbuf_wf mb -> n <= mbuf_get_left mb -> Parses n m P ->
  value_min type <= n -> (forall v, P v -> value_typed type v) -> value_spec type m mb.
Proof.
  intros Hwf Hn Hm Hmin HP. destruct (Hm mb Hwf Hn) as (e & v & mb1 & E & Ha & Hok).
  exists e, v, mb1. split_and!; [done|done|]. intros He.
  destruct (Hok He) as (Hp & bs & rest & _ & Hl & -> & _). split; [by apply HP|]. simpl. lia.
Qed.

Lemma value_spec_guard type bad k mb : mbuf_wf mb -> (bad = false -> value_spec type k mb) ->
  value_spec type (badmsg_if bad k) mb.
Proof.
  intros Hwf Hk. unfold badmsg_if. destruct bad; [|by apply Hk].
  exists EBADMSG, VNone, mb. split_and!; [done|by apply advanced_refl|done].
Qed.

Lemma value_spec_map {R} type n (m : M mbuf (Z * R)) (f : R -> stun_val) mb P : mbuf_wf mb ->
  n <= mbuf_get_left mb -> Parses n m P -> value_min type <= n -> (forall r, P r -> value_typed type (f r)) ->
  value_spec type (let* r := m in ret (r.1, f r.2)) mb.
Proof.
  intros Hwf Hn Hm Hmin HP.
  apply (value_spec_parses type n _ _ (value_typed type)); [done|done| |done|done].
  by apply (parses_map n m f P).
Qed.

Lemma decode_value_spec type len tid mb : mbuf_wf mb -> tid_ok tid -> 0 <= len <= mbuf_get_left mb ->
  value_spec type (decode_value type len tid) mb.
Proof.
  intros Hwf Ht Hlen.
  pose proof (fun n m => value_spec_parses type n m mb (value_typed type) Hwf) as V.
  pose proof (fun R n m f P => @value_spec_map R type n m f mb P Hwf) as W. revert V W.
  unfold decode_value, value_typed, value_min. rewrite decode_case_kind.
  destruct (attr_kind type) eqn:K; intros V W; rewrite ?K in V, W;
    try (apply value_spec_guard; [done|intros G]).
  - apply (W _ 0 _ VAddr addr_ok); [lia|by apply parses_addr|done|done].
  - apply (W _ 0 _ VAddr addr_ok); [lia|by apply parses_addr|done|done].
  - apply (V 4); [lia| |done|done]. apply parses_ntohl; [done|]. intros v Hv. by apply parses_ret.
  - apply (W _ 0 _ VStr bytes_ok); [lia|apply parses_str; lia|done|done].
  - eapply (W _ 20 _ VIntegrity); [lia|by apply parses_read_mem|done|]. intros r []. split; [lia|done].
  - apply (V 4); [lia| |done|done]. replace 4 with (2 + 2) by lia.
    apply (parses_bind_exact _ _ _ _ (fun _ => True)); [done|done| |intros _ _].
    { intros bs Hb _. exists tt. split; [by apply reads_advance|done]. }
    apply parses_u8; [lia|]. intros hi Hhi. apply parses_u8; [lia|]. intros lo Hlo.
    apply (parses_map _ _ (VErrCode _) bytes_ok); [apply parses_str; lia|]. intros r Hr. split; [|done].
    rewrite land_7. unfold wrap. dlia.
  - apply (V (2 * Z.of_nat (Z.to_nat (len / 2)))); [dlia| |dlia|done].
    apply (parses_types _ []); [simpl; lia|done].
  - apply (V 2); [lia| |done|done]. apply parses_ntohs; [done|]. intros v Hv. by apply parses_ret.
  - apply (V 4); [lia| |done|done]. apply parses_ntohl; [done|]. intros v Hv. by apply parses_ret.
  - apply (V len); [lia|apply parses_mb; lia|lia|done].
  - apply (V 1); [lia| |done|done]. apply parses_u8; [done|]. intros v Hv. by apply parses_ret.
  - apply (V 1); [lia| |done|done]. apply parses_u8; [done|]. intros v Hv. by apply parses_ret.
  - apply (V 0); [lia|by apply parses_ret|done|done].
  - apply (V (8 + 0)); [lia| |done|done].
    apply (parses_bind_exact _ _ _ _ (fun x => 0 <= sys_ntohll x < 2 ^ 64)); [done|done| |].
    + intros bs Hb Hok. exists (host_val bs). split; [apply (reads_int 8); lia|].
      rewrite sys_ntohll_host_val by (done || lia). pose proof (be_val_range bs Hok) as R. by rewrite Hb in R.
    + intros x Hx. by apply parses_ret.
  - apply (V len); [lia|apply parses_skip; [lia|done]|lia|done].
Qed.

(** ** Attributes *)

Lemma advanced_eq mb mb1 : advanced mb mb1 -> mb1 = set_pos (mb_pos mb1) mb.
Proof. intros [E1 E2 E3 _]. destruct mb, mb1. simpl in *. by subst. Qed.

Lemma advanced_left mb mb1 : mbuf_wf mb -> advanced mb mb1 -> mb_pos mb <= mb_end mb ->
  mbuf_get_left mb1 = mb_end mb - mb_pos mb1 /\ mb_pos mb1 <= mb_end mb.
Proof. intros Hwf [_ _ E Hp] Hle. unfold mbuf_get_left. rewrite E. case_match; lia. Qed.

Definition ua_ok (ua : option (list Z)) : Prop :=
  match ua with Some typev => (length typev <= 8)%nat | None => True end.

Lemma note_unknown_le type ua : ua_ok ua -> ua_ok (note_unknown type ua).
Proof.
  intros Hu. unfold note_unknown. rewrite decode_case_kind. destruct (attr_kind type), ua as [typev|]; try done.
  case_match; [done|]. destruct (Z.ltb_spec (zlength typev) 8); [|done].
  simpl in *. rewrite length_app. simpl. lia.
Qed.

(** An accepted attribute moves the position to the next multiple of four, or
    to the end of the buffer. *)
Definition attr_step (mb : mbuf) (a : stun_attr) (mb1 : mbuf) : Prop :=
  value_typed (at_type a) (at_v a) /\ mb_pos mb + 4 + value_min (at_type a) <= mb_pos mb1 /\
  ((mb_pos mb1 - mb_pos mb) mod 4 = 0 \/ mbuf_get_left mb1 = 0).

Lemma skip_padding_step start mb : mbuf_wf mb -> 0 <= start <= mb_pos mb ->
  exists mb1, skip_padding 4 start mb = Some (tt, mb1) /\ advanced mb mb1 /\
    ((mb_pos mb1 - start) mod 4 = 0 \/ mbuf_get_left mb1 = 0).
Proof.
  intros Hwf Hs. pose proof (left_bound _ Hwf) as Hb. rewrite skip_padding_eq by (done || unfold pad4; dlia).
  eexists. split; [done|]. unfold pad4. split; [apply advanced_set_pos; dlia|]. cbn [set_pos mb_pos].
  destruct (decide ((- (mb_pos mb - start)) mod 4 <= mbuf_get_left mb)).
  - left. rewrite Z.min_l by done. dlia.
  - right. rewrite Z.min_r by lia. unfold mbuf_get_left in *. simpl. repeat case_match; lia.
Qed.

Lemma parses_attr_body type len tid ua mb : mbuf_wf mb -> tid_ok tid -> 0 <= len -> ua_ok ua ->
  exists e a ua' mb1,
    need len (ret (EBADMSG, (attr_zero, ua)))
      (let* mb := get in
       let start := mb_pos mb in
       let* r := decode_value type len tid in
       if nz r.1 then ret (r.1, (attr_zero, ua))
       else skip_padding 4 start ;; ret (0, (StunAttr type r.2, note_unknown type ua))) mb
      = Some ((e, (a, ua')), mb1) /\ advanced mb mb1 /\ ua_ok ua' /\
    (e = 0 -> value_typed (at_type a) (at_v a) /\ mb_pos mb + value_min (at_type a) <= mb_pos mb1 /\
      ((mb_pos mb1 - mb_pos mb) mod 4 = 0 \/ mbuf_get_left mb1 = 0)).
Proof.
  intros Hwf Ht Hl Hu. unfold need. rewrite (bind_Some _ _ _ _ _ (eq_refl : get mb = _)).
  destruct (Z.ltb_spec (mbuf_get_left mb) len).
  { eexists _, _, _, _. split_and!; [done|by apply advanced_refl|done|done]. }
  rewrite (bind_Some _ _ _ _ _ (eq_refl : get mb = _)). cbv zeta.
  destruct (decode_value_spec type len tid mb Hwf Ht) as (e & v & mb1 & E & Ha & Hok); [lia|].
  rewrite (bind_Some _ _ _ _ _ E). cbn [fst snd]. unfold nz. destruct (Z.eqb_spec e 0) as [->|He]; cbn [negb].
  2: { exists e, attr_zero, ua, mb1. split_and!; done. }
  destruct (Hok eq_refl) as [Hty Hmin]. pose proof (advanced_wf _ _ Hwf Ha) as Hwf1.
  pose proof (wf_pos _ Hwf). pose proof (adv_pos _ _ Ha).
  destruct (skip_padding_step (mb_pos mb) mb1 Hwf1) as (mb2 & E2 & Ha2 & Hal); [lia|].
  rewrite (bind_Some _ _ _ _ _ E2). eexists 0, _, _, mb2.
  split_and!; [done|by eapply advanced_trans|by apply note_unknown_le|]. intros _. cbn [at_type at_v].
  pose proof (adv_pos _ _ Ha2). split_and!; [done|lia|done].
Qed.

Lemma stun_attr_decode_spec tid ua mb : mbuf_wf mb -> tid_ok tid -> ua_ok ua ->
  exists e a ua' mb1, stun_attr_decode tid ua mb = Some ((e, (a, ua')), mb1) /\ advanced mb mb1 /\
    ua_ok ua' /\ (e = 0 -> attr_step mb a mb1).
Proof.
  intros Hwf Ht Hu. unfold stun_attr_decode, need at 1. rewrite (bind_Some _ _ _ _ _ (eq_refl : get mb = _)).
  assert (forall e, e <> 0 -> exists e' a ua' mb1, ret (e, (attr_zero, ua)) mb = Some ((e', (a, ua')), mb1) /\
    advanced mb mb1 /\ ua_ok ua' /\ (e' = 0 -> attr_step mb a mb1)) as Hfail.
  { intros e He. eexists _, _, _, _. split_and!; [done|by apply advanced_refl|done|done]. }
  destruct (Z.ltb_spec (mbuf_get_left mb) 4); [by apply Hfail|].
  destruct (alloc_ok STUN_ATTR_SIZEOF); cbn [negb]; [|by apply Hfail].
  destruct (unread_split mb 4 Hwf) as (b4 & rest & Eu & Lb & Hb4); [lia|].
  destruct b4 as [|b0 [|b1 [|b2 [|b3 [|]]]]]; try (simpl in Lb; lia).
  bytes_inv Hb4. destruct (reads_net_val 2 [b0; b1] eq_refl) as [R1 V1]; [by rewrite !Forall_cons_iff|].
  destruct (reads_net_val 2 [b2; b3] eq_refl) as [R2 V2]; [by rewrite !Forall_cons_iff|].
  rewrite (bind_Some _ _ _ _ _ (R1 mb ([b2; b3] ++ rest) Hwf Eu)).
  pose proof (unread_advance mb [b0; b1] ([b2; b3] ++ rest) Hwf Eu) as Eu1.
  pose proof (unread_wf mb [b0; b1] _ Hwf Eu) as Hwf1.
  rewrite (bind_Some _ _ _ _ _ (R2 _ rest Hwf1 Eu1)).
  pose proof (unread_wf _ [b2; b3] rest Hwf1 Eu1) as Hwf2.
  set (mb2 := set_pos (_ + zlength [b2; b3]) _) in *.
  assert (mb2 = set_pos (mb_pos mb + 4) mb) as Emb by (subst mb2; unfold set_pos; simpl; f_equal; lia).
  destruct (parses_attr_body (be_val [b0; b1]) (be_val [b2; b3]) tid ua mb2 Hwf2 Ht ltac:(lia) Hu)
    as (e & a & ua' & mb3 & E & Ha & Hua & Hok).
  exists e, a, ua', mb3. rewrite Emb in Ha, Hok. pose proof (left_bound mb Hwf).
  split_and!; [exact E| |done|].
  - eapply advanced_trans; [apply (advanced_set_pos mb (mb_pos mb + 4))|done]. lia.
  - intros He. destruct (Hok He) as (Hty & Hmin & Hal). cbn [set_pos mb_pos] in *. split_and!; [done|lia|].
    destruct Hal; [left|by right]. dlia.
Qed.

(** ** The attributes of a message

    [tiles tid mb p l q]: decoding at [p] gives the attributes [l] one after
    the other and ends at [q]. *)
Inductive tiles (tid : list Z) (mb : mbuf) : Z -> list stun_attr -> Z -> Prop :=
  | tiles_nil p : tiles tid mb p [] p
  | tiles_cons p a ua ua' q l r :
      stun_attr_decode (Some tid) ua (set_pos p mb) = Some ((0, (a, ua')), set_pos q mb) ->
      value_typed (at_type a) (at_v a) -> p + 4 + value_min (at_type a) <= q ->
      tiles tid mb q l r -> tiles tid mb p (a :: l) r.

Lemma tiles_set_pos tid mb x p l q : tiles tid (set_pos x mb) p l q -> tiles tid mb p l q.
Proof. induction 1; [constructor|]. by eapply tiles_cons. Qed.

Lemma tiles_le tid mb p l q : tiles tid mb p l q -> p <= q.
Proof.
  induction 1 as [|p a ua ua' q l r _ _ Hq _ IH]; [lia|].
  assert (0 <= value_min (at_type a)) by (unfold value_min; case_match; lia). lia.
Qed.

(** The loop ends within the fuel; when no attribute is refused the
    attributes tile the bytes up to [stop], the end of the message. *)
Lemma decode_attrs_spec fuel tid extra acc ua mb stop : mbuf_wf mb -> tid_ok (Some tid) -> ua_ok ua ->
  mb_pos mb <= mb_end mb -> 0 <= extra <= mb_end mb -> stop = mb_end mb - extra ->
  (stop - mb_pos mb) mod 4 = 0 \/ mbuf_get_left mb = 0 -> mbuf_get_left mb < Z.of_nat fuel ->
  exists e l ua' mb1, decode_attrs fuel tid extra acc ua mb = Some ((e, (acc ++ l, ua')), mb1) /\
    advanced mb mb1 /\ ua_ok ua' /\ (e = 0 -> tiles tid mb (mb_pos mb) l stop).
Proof.
  revert acc ua mb. induction fuel as [|fuel IH]; intros acc ua mb Hwf Ht Hu Hpe Hx Hst Hal Hf;
    cbn [decode_attrs]; rewrite (bind_Some _ _ _ _ _ (eq_refl : get mb = _));
    pose proof (wf_pos _ Hwf); pose proof (wf_end _ Hwf); pose proof (wf_max _ Hwf); unfold MEM_SIZE_MAX in *;
    (assert (mbuf_get_left mb = mb_end mb - mb_pos mb) as El by (unfold mbuf_get_left; case_match; lia));
    (destruct (Z.leb_spec 4 (u64 (mbuf_get_left mb - extra))) as [Hgo|Hgo]; 
     [|exists 0, [], ua, mb; rewrite app_nil_r; split_and!; [done|by apply advanced_refl|done|];
       intros _; replace stop with (mb_pos mb) by (unfold wrap in Hgo; dlia); constructor]).
  { pose proof (left_bound mb Hwf). lia. }
  destruct (stun_attr_decode_spec (Some tid) ua mb Hwf Ht Hu) as (e & a & ua' & mb1 & E & Ha & Hu1 & Hok).
  rewrite (bind_Some _ _ _ _ _ E). unfold nz. destruct (Z.eqb_spec e 0) as [->|He]; cbn [negb].
  2: { exists e, [], ua', mb1. rewrite app_nil_r. split_and!; done. }
  destruct (Hok eq_refl) as (Hty & Hmin & Hal1). pose proof (advanced_wf _ _ Hwf Ha) as Hwf1.
  pose proof (adv_end _ _ Ha) as Ee. destruct (advanced_left _ _ Hwf Ha Hpe) as [El1 Hp1].
  assert (0 <= value_min (at_type a)) by (unfold value_min; case_match; lia).
  destruct (IH (acc ++ [a]) ua' mb1) as (e2 & l & ua2 & mb2 & E2 & Ha2 & Hu2 & Hok2); try done; try lia.
  { destruct Hal1; [left|by right]. destruct Hal; dlia. }
  exists e2, (a :: l), ua2, mb2. rewrite E2, <- app_assoc. split_and!; [done|by eapply advanced_trans|done|].
  intros ->. eapply tiles_cons; [|done|exact Hmin|].
  - rewrite set_pos_id, E. do 2 f_equal. by apply advanced_eq.
  - specialize (Hok2 eq_refl). rewrite (advanced_eq _ _ Ha) in Hok2. by apply tiles_set_pos in Hok2.
Qed.

(** ** Headers *)

Definition hdr_bytes (hdr : stun_hdr) : list Z :=
  be_bytes 2 (sh_type hdr) ++ be_bytes 2 (sh_len hdr) ++ be_bytes 4 (sh_cookie hdr) ++ sh_tid hdr.

(** Ranges of the fields, and what the decoder checks of them. *)
Record hdr_fields (hdr : stun_hdr) : Prop := {
  ho_type : 0 <= sh_type hdr < 2 ^ 16;
  ho_len : 0 <= sh_len hdr < 2 ^ 16;
  ho_cookie : 0 <= sh_cookie hdr < 2 ^ 32;
  ho_tid : length (sh_tid hdr) = 12%nat;
  ho_tid_ok : bytes_ok (sh_tid hdr);
}.

Definition hdr_valid (hdr : stun_hdr) (rest : list Z) : bool :=
  (sh_type hdr <? 2 ^ 14) && (sh_len hdr mod 4 =? 0) && (sh_len hdr <=? zlength rest).

Lemma length_hdr_bytes hdr : hdr_fields hdr -> length (hdr_bytes hdr) = 20%nat.
Proof. intros []. unfold hdr_bytes. rewrite !length_app, !length_be_bytes. lia. Qed.

Lemma writes_hdr hdr : 0 <= sh_type hdr < 2 ^ 14 -> bytes_ok (sh_tid hdr) ->
  Writes (stun_hdr_encode hdr) (hdr_bytes hdr).
Proof.
  intros Ht Hb. unfold stun_hdr_encode, hdr_bytes.
  assert (Z.land (sh_type hdr) 0x3fff = sh_type hdr) as ->
    by (rewrite (land_ones_mod _ 14) by lia; by apply Z.mod_small).
  do 3 (apply writes_or_err; [apply _|]). by apply writes_mem.
Qed.

(** The top two bits of the type are clear exactly below 2^14. *)
Lemma land_c000 v : 0 <= v < 2 ^ 16 -> nz (Z.land v 0xc000) = (2 ^ 14 <=? v).
Proof.
  intros Hv. assert (Z.land v 0xc000 = (v / 2 ^ 14) * 2 ^ 14) as ->.
  { rewrite <- Z.shiftr_div_pow2, <- Z.shiftl_mul_pow2 by lia. apply Z.bits_inj'. intros i Hi.
    rewrite Z.land_spec. change 0xc000 with (Z.shiftl (Z.ones 2) 14). rewrite !Z.shiftl_spec by lia.
    destruct (decide (i < 14)); [rewrite !(Z.testbit_neg_r _ (i - 14)) by lia; apply andb_false_r|].
    rewrite Z.shiftr_spec by lia. replace (i - 14 + 14) with i by lia. destruct (decide (i < 16)).
    - by rewrite Z.ones_spec_low, andb_true_r by lia.
    - by rewrite (testbit_small v 16) by lia. }
  unfold nz. destruct (Z.eqb_spec (v / 2 ^ 14 * 2 ^ 14) 0), (Z.leb_spec (2 ^ 14) v); cbn; try done; dlia.
Qed.

Lemma hdr_decode_eq hdr mb rest : hdr_fields hdr -> mbuf_wf mb -> unread mb = hdr_bytes hdr ++ rest ->
  exists e h mb1, stun_hdr_decode mb = Some ((e, h), mb1) /\ advanced mb mb1 /\
    if hdr_valid hdr rest then e = 0 /\ h = hdr /\ mb1 = set_pos (mb_pos mb + 20) mb else e = EBADMSG.
Proof.
  intros Hf Hwf Eu. pose proof (length_hdr_bytes hdr Hf) as L20. destruct Hf as [H1 H2 H3 H4 H5].
  assert (20 <= mbuf_get_left mb) by (rewrite <- length_unread, Eu, length_app by done; lia).
  unfold stun_hdr_decode, need at 1. rewrite (bind_Some _ _ _ _ _ (eq_refl : get mb = _)).
  rewrite (proj2 (Z.ltb_ge _ _)) by done. unfold hdr_bytes in Eu. rewrite <- !app_assoc in Eu.
  pose proof (reads_net_int 2 _ H1 mb _ Hwf Eu) as E1. pose proof (unread_advance _ _ _ Hwf Eu) as U1.
  pose proof (unread_wf _ _ _ Hwf Eu) as W1. rewrite (bind_Some _ _ _ _ _ E1).
  rewrite land_c000 by done. unfold hdr_valid. rewrite Z.ltb_antisym.
  destruct (Z.leb_spec (2 ^ 14) (sh_type hdr)); cbn [negb andb].
  { eexists _, _, _. split_and!; [done|by apply (advanced_unread _ _ _ Hwf Eu)|done]. }
  pose proof (reads_net_int 2 _ H2 _ _ W1 U1) as E2. pose proof (unread_advance _ _ _ W1 U1) as U2.
  pose proof (unread_wf _ _ _ W1 U1) as W2. rewrite (bind_Some _ _ _ _ _ E2).
  rewrite land_3. unfold nz. destruct (Z.eqb_spec (sh_len hdr mod 4) 0); cbn [negb andb].
  2: { eexists _, _, _. split_and!; [done| |done].
       eapply advanced_trans; [apply (advanced_unread _ _ _ Hwf Eu)|apply (advanced_unread _ _ _ W1 U1)]. }
  pose proof (reads_net_int 4 _ H3 _ _ W2 U2) as E3. pose proof (unread_advance _ _ _ W2 U2) as U3.
  pose proof (unread_wf _ _ _ W2 U2) as W3. rewrite (bind_Some _ _ _ _ _ E3).
  rewrite (bind_Some _ _ _ _ _ (reads_mem STUN_TID_SIZE _ ltac:(by rewrite H4) _ _ W3 U3)).
  pose proof (unread_advance _ _ _ W3 U3) as U4. pose proof (unread_wf _ _ _ W3 U3) as W4.
  rewrite !length_be_bytes, H4 in *.
  match goal with |- context [need _ _ _ ?x] =>
    assert (x = set_pos (mb_pos mb + 20) mb) as Ex by (unfold set_pos; simpl; f_equal; lia); rewrite Ex in * end.
  assert (mbuf_get_left (set_pos (mb_pos mb + 20) mb) = zlength rest) as El by (by rewrite <- length_unread, U4).
  assert (advanced mb (set_pos (mb_pos mb + 20) mb)) as Ha
    by (pose proof (left_bound _ Hwf); apply advanced_set_pos; lia).
  unfold need, get, bind. rewrite El, Z.leb_antisym.
  destruct (Z.ltb_spec (zlength rest) (sh_len hdr)); cbn [negb]; eexists _, _, _; split_and!; try done.
  by destruct hdr.
Qed.

Lemma hdr_exists mb : mbuf_wf mb -> 20 <= mbuf_get_left mb ->
  exists hdr rest, hdr_fields hdr /\ unread mb = hdr_bytes hdr ++ rest.
Proof.
  intros Hwf Hl. destruct (unread_split mb 20 Hwf) as (bs & rest & Eu & Lb & Hb); [lia|].
  set (f i n := take n (drop i bs)).
  assert (forall i n, bytes_ok (f i n)) as Hf by (intros; by apply Forall_take, Forall_drop).
  assert (forall i n, (i + n <= 20)%nat -> length (f i n) = n) as Lf
    by (intros; subst f; simpl; rewrite length_take, length_drop; lia).
  assert (forall i n, (i + n <= 20)%nat -> be_bytes n (be_val (f i n)) = f i n) as Bf
    by (intros i n Hin; rewrite <- (Lf i n Hin) at 1; by apply be_bytes_val).
  exists (StunHdr (be_val (f 0%nat 2%nat)) (be_val (f 2%nat 2%nat)) (be_val (f 4%nat 4%nat)) (f 8%nat 12%nat)), rest.
  split; [split; cbn|].
  - pose proof (be_val_range _ (Hf 0%nat 2%nat)) as R. by rewrite Lf in R by lia.
  - pose proof (be_val_range _ (Hf 2%nat 2%nat)) as R. by rewrite Lf in R by lia.
  - pose proof (be_val_range _ (Hf 4%nat 4%nat)) as R. by rewrite Lf in R by lia.
  - apply Lf. lia.
  - apply Hf.
  - rewrite Eu. f_equal. unfold hdr_bytes. cbn.
    rewrite !Bf by lia. subst f. simpl.
    do 20 (destruct bs as [|? bs]; [simpl in Lb; lia|]). destruct bs; [done|simpl in Lb; lia].
Qed.

End decode.
