(* ===== verification/StunCheck.v ===== *)
(** * Safety of STUN messages: decoding and the two checks

    A decoded message is tiled by its attributes, which is what makes the
    integrity and fingerprint checks safe: the lengths they compute from the
    header are never negative, and what they read is inside the message. *)

From S2P Require Export StunDecode.

(** What a decoded message is, relative to the buffer it refers to. *)
Record decoded (mb : mbuf) (msg : stun_msg) `{Host} : Prop := {
  dm_start : sm_start msg = mb_pos mb;
  dm_fields : hdr_fields (sm_hdr msg);
  dm_type : sh_type (sm_hdr msg) < 2 ^ 14;
  dm_align : sh_len (sm_hdr msg) mod 4 = 0;
  dm_bytes : exists rest, unread mb = hdr_bytes (sm_hdr msg) ++ rest /\ sh_len (sm_hdr msg) <= zlength rest;
  dm_tiles : tiles (sh_tid (sm_hdr msg)) mb (mb_pos mb + 20) (sm_attrl msg) (mb_pos mb + 20 + sh_len (sm_hdr msg));
}.

Section check.
Context `{Host}.

Lemma stun_msg_decode_spec ua mb : mbuf_wf mb -> ua_ok ua ->
  exists e om ua', stun_msg_decode ua mb = Some ((e, (om, ua')), mb) /\ ua_ok ua' /\
    (if nz e then om = None else exists msg, om = Some msg /\ decoded mb msg).
Proof.
  intros Hwf Hu. unfold stun_msg_decode. rewrite (bind_Some _ _ _ _ _ (eq_refl : get mb = _)). cbv zeta.
  assert (forall mb1 e, advanced mb mb1 -> e <> 0 -> exists e' om ua',
    (mbuf_set_pos (mb_pos mb) ;; ret (e, (@None stun_msg, ua))) mb1 = Some ((e', (om, ua')), mb) /\ ua_ok ua' /\
    (if nz e' then om = None else exists msg, om = Some msg /\ decoded mb msg)) as Hfail.
  { intros mb1 e Ha He. eexists e, _, _. split_and!; [|done|by unfold nz; destruct (Z.eqb_spec e 0)].
    unfold mbuf_set_pos, modify, bind, ret. do 2 f_equal.
    rewrite (advanced_eq _ _ Ha), set_pos_set_pos. apply set_pos_id. }
  destruct (decide (mbuf_get_left mb < 20)) as [Hshort|H20].
  { assert (stun_hdr_decode mb = Some ((EBADMSG, stun_hdr_zero), mb)) as E.
    { unfold stun_hdr_decode, need, get. unfold bind at 1. by rewrite (proj2 (Z.ltb_lt _ STUN_HEADER_SIZE)). }
    rewrite (bind_Some _ _ _ _ _ E). apply Hfail; [by apply advanced_refl|done]. }
  destruct (hdr_exists mb Hwf) as (hdr & rest & Hf & Eu); [lia|].
  destruct (hdr_decode_eq hdr mb rest Hf Hwf Eu) as (e & h & mb1 & E & Ha & Hres).
  rewrite (bind_Some _ _ _ _ _ E). destruct (hdr_valid hdr rest) eqn:Hv; [|subst e; by apply Hfail].
  destruct Hres as (-> & -> & ->). cbn [nz Z.eqb negb].
  destruct (alloc_ok STUN_MSG_SIZEOF); cbn [negb]; [|by apply Hfail].
  unfold hdr_valid in Hv. apply andb_true_iff in Hv as [[Hty%Z.ltb_lt Hal%Z.eqb_eq]%andb_true_iff Hle%Z.leb_le].
  pose proof (length_hdr_bytes hdr Hf) as L20. pose proof (wf_pos _ Hwf) as Hp.
  pose proof (unread_advance _ _ _ Hwf Eu) as Eu1. pose proof (unread_wf _ _ _ Hwf Eu) as Hwf1.
  rewrite L20 in *. change (Z.of_nat 20) with 20 in *. set (mb1 := set_pos (mb_pos mb + 20) mb) in *.
  assert (mbuf_get_left mb1 = zlength rest) as El by (by rewrite <- length_unread, Eu1).
  assert (mb_end mb = mb_pos mb + 20 + zlength rest) as Ee.
  { pose proof (length_unread mb Hwf) as L. rewrite Eu, length_app, L20 in L.
    unfold mbuf_get_left in *. repeat case_match; lia. }
  pose proof (wf_end _ Hwf). pose proof (wf_max _ Hwf). pose proof (ho_len _ Hf). unfold MEM_SIZE_MAX in *.
  rewrite (bind_Some _ _ _ _ _ (eq_refl : get mb1 = _)). rewrite El, (wrap_small 64) by lia.
  destruct (decode_attrs_spec (S (Z.to_nat (zlength rest))) (sh_tid hdr) (zlength rest - sh_len hdr) []
    (match ua with Some _ => Some [] | None => None end) mb1 (mb_pos mb + 20 + sh_len hdr))
    as (e & l & ua' & mb2 & E2 & Ha2 & Hu2 & Hok); try done; try (subst mb1; simpl; lia).
  { split; [apply Hf|apply (ho_tid_ok _ Hf)]. }
  { destruct ua; simpl; [lia|done]. }
  { left. subst mb1. simpl. replace (_ - _) with (sh_len hdr) by lia. done. }
  rewrite (bind_Some _ _ _ _ _ E2). unfold mbuf_set_pos, modify, bind, ret.
  eexists e, _, ua'. split_and!; [|done|].
  { do 2 f_equal. rewrite (advanced_eq _ _ Ha2). subst mb1. rewrite !set_pos_set_pos. apply set_pos_id. }
  unfold nz. destruct (Z.eqb_spec e 0) as [->|]; cbn [negb]; [|done]. eexists. split; [done|].
  split; simpl; try done; [by exists rest|]. specialize (Hok eq_refl). by apply tiles_set_pos in Hok.
Qed.

(** ** The checks *)

Lemma tiles_find tid mb p l q t a : tiles tid mb p l q -> find_attr t l = Some a ->
  at_type a = t /\ value_typed t (at_v a) /\ p + 4 + value_min t <= q.
Proof.
  induction 1 as [|p b ua ua' r l q _ Hty Hmin Ht IH]; [done|]. cbn [find_attr].
  pose proof (tiles_le _ _ _ _ _ Ht).
  assert (0 <= value_min (at_type b)) by (unfold value_min; case_match; lia).
  destruct (Z.eqb_spec (at_type b) t) as [<-|]; intros E.
  - simplify_eq. split_and!; [done|done|lia].
  - destruct (IH E) as (? & ? & ?). split_and!; [done|done|lia].
Qed.

Lemma tiles_find2 tid mb p l q t1 t2 a1 a2 : tiles tid mb p l q -> t1 <> t2 ->
  find_attr t1 l = Some a1 -> find_attr t2 l = Some a2 -> p + 8 + value_min t1 + value_min t2 <= q.
Proof.
  intros Ht Hne. induction Ht as [|p b ua ua' r l q _ Hty Hmin Ht IH]; [done|]. cbn [find_attr].
  assert (0 <= value_min (at_type b)) by (unfold value_min; case_match; lia).
  destruct (Z.eqb_spec (at_type b) t1) as [E1|], (Z.eqb_spec (at_type b) t2) as [E2|]; intros F1 F2.
  - congruence.
  - destruct (tiles_find _ _ _ _ _ _ _ Ht F2) as (_ & _ & ?). rewrite <- E1. lia.
  - destruct (tiles_find _ _ _ _ _ _ _ Ht F1) as (_ & _ & ?). rewrite <- E2. lia.
  - specialize (IH F1 F2). lia.
Qed.

Lemma overwrites_hdr hdr : 0 <= sh_type hdr < 2 ^ 14 -> Overwrites (stun_hdr_encode hdr) (hdr_bytes hdr).
Proof.
  intros Ht. unfold stun_hdr_encode, hdr_bytes.
  assert (Z.land (sh_type hdr) 0x3fff = sh_type hdr) as ->
    by (rewrite (land_ones_mod _ 14) by lia; by apply Z.mod_small).
  do 3 (apply overwrites_or_err; [apply be_bytes_ok|apply overwrites_hton|]). apply overwrites_mem.
Qed.

Definition with_len (hdr : stun_hdr) (len : Z) : stun_hdr := StunHdr (sh_type hdr) len (sh_cookie hdr) (sh_tid hdr).

Lemma length_with_len hdr len : length (sh_tid hdr) = 12%nat -> length (hdr_bytes (with_len hdr len)) = 20%nat.
Proof. intros Hl. unfold hdr_bytes. rewrite !length_app, !length_be_bytes. simpl. lia. Qed.

(** The packet with its length field replaced. *)
Definition relen (mb : mbuf) (hdr : stun_hdr) (len : Z) : list Z :=
  splice (mb_buf mb) (mb_pos mb) (hdr_bytes (with_len hdr len)).

Lemma patch_len_eq hdr len mb : mbuf_wf mb -> 0 <= sh_type hdr < 2 ^ 14 -> length (sh_tid hdr) = 12%nat ->
  mb_pos mb + 20 <= mb_end mb -> patch_len hdr len mb = Some (tt, set_buf (relen mb hdr len) mb).
Proof.
  intros Hwf Ht Hl Hp. pose proof Hwf as [Hlen Hm _ Hpos He]. unfold MEM_SIZE_MAX in *. unfold patch_len.
  pose proof (length_with_len hdr len Hl) as L.
  rewrite (bind_Some _ _ _ _ _ (overwrites_hdr (with_len hdr len) Ht mb Hwf ltac:(rewrite L; lia))).
  unfold mbuf_advance, modify. do 2 f_equal. rewrite L. unfold set_pos, set_buf, relen. cbn.
  f_equal. rewrite (wrap_small 64); unfold STUN_HEADER_SIZE; lia.
Qed.

Lemma decoded_room mb msg : mbuf_wf mb -> decoded mb msg ->
  mb_pos mb + 20 + sh_len (sm_hdr msg) <= mb_end mb /\
  slice (mb_buf mb) (mb_pos mb) 20 = hdr_bytes (sm_hdr msg).
Proof.
  intros Hwf [_ Hf _ _ (rest & Eu & Hl) _]. pose proof (length_hdr_bytes _ Hf) as L20.
  pose proof (length_unread mb Hwf) as L. rewrite Eu, length_app in L. pose proof (ho_len _ Hf).
  assert (mbuf_get_left mb = mb_end mb - mb_pos mb) as El by (unfold mbuf_get_left in *; case_match; lia).
  split; [lia|]. unfold unread in Eu.
  assert (take 20 (slice (mb_buf mb) (mb_pos mb) (mbuf_get_left mb)) = hdr_bytes (sm_hdr msg)) as E.
  { rewrite Eu, <- L20. apply take_app_length. }
  rewrite <- E. unfold slice. rewrite take_take. f_equal. lia.
Qed.

Lemma buf_bytes_eq n mb : mbuf_wf mb -> 0 <= n -> mb_pos mb + n <= mb_end mb ->
  buf_bytes n mb = Some (slice (mb_buf mb) (mb_pos mb) n, mb).
Proof.
  intros [Hl _ _ Hp He] Hn Hle. unfold buf_bytes, get, bind, load_at, mem_load.
  by rewrite in_block_true by lia.
Qed.

(** Restoring the length field restores the packet. *)
Lemma relen_restore mb msg len : mbuf_wf mb -> decoded mb msg ->
  splice (relen mb (sm_hdr msg) len) (mb_pos mb) (hdr_bytes (with_len (sm_hdr msg) (sh_len (sm_hdr msg)))) = mb_buf mb.
Proof.
  intros Hwf Hd. destruct (decoded_room mb msg Hwf Hd) as [Hroom Hs]. destruct Hd as [_ Hf _ _ _ _].
  pose proof Hwf as [Hl _ _ Hp He]. pose proof (ho_len _ Hf). pose proof (ho_tid _ Hf).
  assert (with_len (sm_hdr msg) (sh_len (sm_hdr msg)) = sm_hdr msg) as -> by (by destruct (sm_hdr msg)).
  pose proof (length_with_len (sm_hdr msg) len (ho_tid _ Hf)) as L.
  pose proof (length_hdr_bytes _ Hf) as L2. unfold relen. rewrite splice_twice by lia.
  rewrite <- Hs. apply splice_same; lia.
Qed.

End check.

(** ** MESSAGE-INTEGRITY *)

Section integrity.
Context `{Host} `{Evp}.

(** Length the check covers: a FINGERPRINT at the end is left out. *)
Definition mi_len (msg : stun_msg) : Z :=
  match stun_msg_attr msg STUN_ATTR_FINGERPRINT with
  | Some _ => sh_len (sm_hdr msg) - FP_SIZE
  | None => sh_len (sm_hdr msg)
  end.

(** The bytes the check covers. *)
Definition mi_input (mb : mbuf) (msg : stun_msg) : list Z :=
  slice (relen mb (sm_hdr msg) (mi_len msg)) (mb_pos mb) (STUN_HEADER_SIZE + mi_len msg - MI_SIZE).

Lemma mi_len_range mb msg mi : decoded mb msg -> stun_msg_attr msg STUN_ATTR_MSG_INTEGRITY = Some mi ->
  24 <= mi_len msg <= sh_len (sm_hdr msg).
Proof.
  intros [_ Hf _ _ _ Ht] Hmi. unfold mi_len, stun_msg_attr in *.
  destruct (find_attr STUN_ATTR_FINGERPRINT (sm_attrl msg)) as [fp|] eqn:Hfp.
  - pose proof (tiles_find2 _ _ _ _ _ STUN_ATTR_MSG_INTEGRITY STUN_ATTR_FINGERPRINT _ _ Ht ltac:(done) Hmi Hfp) as Hr.
    change (value_min STUN_ATTR_MSG_INTEGRITY) with 20 in Hr. change (value_min STUN_ATTR_FINGERPRINT) with 4 in Hr.
    unfold FP_SIZE. lia.
  - destruct (tiles_find _ _ _ _ _ _ _ Ht Hmi) as (_ & _ & Hr).
    change (value_min STUN_ATTR_MSG_INTEGRITY) with 20 in Hr. lia.
Qed.

Lemma stun_msg_chk_mi_spec mb msg key : mbuf_wf mb -> decoded mb msg ->
  match stun_msg_attr msg STUN_ATTR_MSG_INTEGRITY with
  | None => stun_msg_chk_mi msg key mb = Some (EPROTO, mb)
  | Some mi => exists d, at_v mi = VIntegrity d /\ length d = 20%nat /\
      stun_msg_chk_mi msg key mb =
        Some (if bool_decide (d = hmac_sha1 key (mi_input mb msg) (replicate 20 0)) then 0 else EBADMSG, mb)
  end.
Proof.
  intros Hwf Hd. unfold stun_msg_chk_mi. destruct (stun_msg_attr msg STUN_ATTR_MSG_INTEGRITY) as [mi|] eqn:Hmi; [|done].
  pose proof (mi_len_range mb msg mi Hd Hmi) as Hlen. destruct (decoded_room mb msg Hwf Hd) as [Hroom _].
  pose proof (relen_restore mb msg (mi_len msg) Hwf Hd) as Hrest.
  pose proof Hd as [Hst Hf Hty _ _ Ht]. unfold stun_msg_attr in Hmi.
  destruct (tiles_find _ _ _ _ _ _ _ Ht Hmi) as (_ & Hv & _).
  destruct (at_v mi) as [| | |d| | | | | | | | | | |] eqn:Hd'; try done. exists d. destruct Hv as [Ld _].
  split_and!; [done|done|]. pose proof (ho_len _ Hf) as Hl. pose proof (ho_type _ Hf) as Hty0.
  unfold mbuf_set_pos, modify. unfold bind at 1. rewrite Hst, set_pos_id.
  unfold mi_input, mi_len in *. unfold stun_msg_attr in *.
  set (hdr := sm_hdr msg) in *. assert (length (sh_tid hdr) = 12%nat) as L12 by apply Hf.
  destruct (find_attr STUN_ATTR_FINGERPRINT (sm_attrl msg)) as [fp|].
  - unfold FP_SIZE in *. rewrite (wrap_small 16 (sh_len hdr - 8)) by lia.
    rewrite (bind_Some _ _ _ _ _ (patch_len_eq hdr (sh_len hdr - 8) mb Hwf ltac:(lia) L12 ltac:(lia))).
    set (mb1 := set_buf _ mb). assert (mbuf_wf mb1) as Hwf1.
    { pose proof Hwf as [Hl1 _ Hb1 Hp1 He1]. apply set_buf_wf; [done| |].
      - apply length_splice; [lia|]. rewrite length_with_len by done. lia.
      - apply splice_ok; [done|]. unfold hdr_bytes. rewrite !Forall_app. split_and!; try apply be_bytes_ok. apply Hf. }
    rewrite (bind_Some _ _ _ _ _ (buf_bytes_eq (STUN_HEADER_SIZE + (sh_len hdr - 8) - MI_SIZE) mb1 Hwf1 ltac:(unfold STUN_HEADER_SIZE, MI_SIZE; lia)
      ltac:(unfold STUN_HEADER_SIZE, MI_SIZE; simpl; lia))).
    replace (sh_len hdr - 8 + 8) with (sh_len hdr) by lia. rewrite (wrap_small 16 (sh_len hdr)) by lia.
    rewrite (bind_Some _ _ _ _ _ (patch_len_eq hdr (sh_len hdr) mb1 Hwf1 ltac:(lia) L12 ltac:(simpl; lia))).
    unfold ret. do 2 f_equal. subst mb1. unfold relen, set_buf in *. cbn [mb_buf mb_pos mb_size mb_end].
    rewrite Hrest. by destruct mb.
  - rewrite (bind_Some _ _ _ _ _ (eq_refl : ret tt mb = _)).
    rewrite (bind_Some _ _ _ _ _ (buf_bytes_eq (STUN_HEADER_SIZE + sh_len hdr - MI_SIZE) mb Hwf ltac:(unfold STUN_HEADER_SIZE, MI_SIZE; lia)
      ltac:(unfold STUN_HEADER_SIZE, MI_SIZE; lia))).
    rewrite (bind_Some _ _ _ _ _ (eq_refl : ret tt mb = _)). unfold ret. do 4 f_equal.
    assert (relen mb hdr (sh_len hdr) = mb_buf mb) as ->; [|done].
    unfold relen in *. rewrite splice_twice in Hrest; [done| | |done];
      [apply (wf_pos _ Hwf)|pose proof (wf_len _ Hwf); pose proof (wf_end _ Hwf)].
    rewrite length_with_len by done. lia.
Qed.

Lemma stun_msg_chk_fingerprint_spec mb msg : mbuf_wf mb -> decoded mb msg ->
  match stun_msg_attr msg STUN_ATTR_FINGERPRINT with
  | None => stun_msg_chk_fingerprint msg mb = Some (EPROTO, mb)
  | Some fp => exists v, at_v fp = VU32 v /\
      stun_msg_chk_fingerprint msg mb =
        Some (if fingerprint (slice (mb_buf mb) (mb_pos mb) (12 + sh_len (sm_hdr msg))) =? v then 0 else EBADMSG, mb)
  end.
Proof.
  intros Hwf Hd. unfold stun_msg_chk_fingerprint, stun_msg_attr.
  destruct (find_attr STUN_ATTR_FINGERPRINT (sm_attrl msg)) as [fp|] eqn:Hfp; [|done].
  destruct (decoded_room mb msg Hwf Hd) as [Hroom _]. pose proof Hd as [Hst Hf _ _ _ Ht].
  destruct (tiles_find _ _ _ _ _ _ _ Ht Hfp) as (_ & Hv & Hmin).
  change (value_min STUN_ATTR_FINGERPRINT) with 4 in Hmin.
  destruct (at_v fp) as [| | | | | | |v| | | | | | |] eqn:Ev; try done. exists v. split; [done|].
  unfold mbuf_set_pos, modify. unfold bind at 1. rewrite Hst, set_pos_id.
  replace (STUN_HEADER_SIZE + sh_len (sm_hdr msg) - FP_SIZE) with (12 + sh_len (sm_hdr msg))
    by (unfold STUN_HEADER_SIZE, FP_SIZE; lia).
  pose proof (ho_len _ Hf). by rewrite (bind_Some _ _ _ _ _ (buf_bytes_eq (12 + sh_len (sm_hdr msg)) mb Hwf ltac:(lia) ltac:(lia))).
Qed.

End integrity.
