(* ===== verification/StunRound.v ===== *)
(** * A STUN message is received as it was sent

    Encoding a message with its attributes, MESSAGE-INTEGRITY and FINGERPRINT
    at the end of a buffer, and decoding it there. *)

From S2P Require Export StunCheck.

(** The attributes given to the encoder. *)
Definition ec_attr (ec : option (Z * list Z)) : list stun_attr :=
  match ec with Some (code, reason) => [StunAttr STUN_ATTR_ERR_CODE (VErrCode code reason)] | None => [] end.

Fixpoint va_attrs (ap : list (Z * option stun_val)) : list stun_attr :=
  match ap with
  | [] => []
  | (type, Some v) :: ap => StunAttr type v :: va_attrs ap
  | (_, None) :: ap => va_attrs ap
  end.

Definition attrs_bytes (tid : list Z) (padding : Z) (l : list stun_attr) : list Z :=
  mjoin ((fun a => attr_bytes (at_type a) (at_v a) (Some tid) padding) <$> l).

Definition hdr_of (type len : Z) (tid : list Z) : stun_hdr := StunHdr type len STUN_MAGIC_COOKIE tid.

Section encode.
Context `{Host}.

Lemma attrs_bytes_cons tid padding a l : attrs_bytes tid padding (a :: l) =
  attr_bytes (at_type a) (at_v a) (Some tid) padding ++ attrs_bytes tid padding l.
Proof. done. Qed.

Lemma attrs_bytes_app tid padding l1 l2 : attrs_bytes tid padding (l1 ++ l2) =
  attrs_bytes tid padding l1 ++ attrs_bytes tid padding l2.
Proof.
  induction l1 as [|a l1 IH]; [done|]. simpl app. by rewrite !attrs_bytes_cons, IH, app_assoc.
Qed.

Lemma attr_bytes_len4 type v tid padding : 4 <= zlength (attr_bytes type v tid padding) /\
  zlength (attr_bytes type v tid padding) mod 4 = 0.
Proof. rewrite length_attr_bytes. unfold pad4. split; dlia. Qed.

Lemma attrs_bytes_align tid padding l : zlength (attrs_bytes tid padding l) mod 4 = 0.
Proof.
  induction l as [|a l IH]; [done|]. rewrite attrs_bytes_cons, length_app.
  pose proof (attr_bytes_len4 (at_type a) (at_v a) (Some tid) padding). dlia.
Qed.

(** Only the XOR-ed addresses depend on the transaction id. *)
Lemma attr_bytes_tid type v tid padding : attr_kind type <> KXorAddr ->
  attr_bytes type v None padding = attr_bytes type v tid padding.
Proof. intros Hk. unfold attr_bytes, value_bytes. by destruct (attr_kind type). Qed.

Lemma encode_attrs_ok tid padding ap : no_oom -> tid_ok (Some tid) ->
  Forall (fun a => attr_ok a (Some tid)) (va_attrs ap) ->
  WritesOk (encode_attrs ap tid padding) (attrs_bytes tid padding (va_attrs ap)).
Proof.
  intros Ho Ht. induction ap as [|[type [v|]] ap IH]; cbn [va_attrs encode_attrs]; intros Hok.
  - apply writes_ok_ret0.
  - apply Forall_cons_iff in Hok as [Ha Hok]. rewrite attrs_bytes_cons.
    apply writes_ok_or_err; [by apply stun_attr_encode_ok|by apply IH].
  - by apply IH.
Qed.

Lemma ec_attr_ok ec tid padding : no_oom ->
  Forall (fun a => attr_ok a (Some tid)) (ec_attr ec) ->
  WritesOk (match ec with
            | Some (code, reason) => stun_attr_encode STUN_ATTR_ERR_CODE (VErrCode code reason) None padding
            | None => ret 0
            end) (attrs_bytes tid padding (ec_attr ec)).
Proof.
  intros Ho Hok. destruct ec as [[code reason]|]; [|apply writes_ok_ret0].
  apply Forall_cons_iff in Hok as [[H1 H2 H3] _]. unfold ec_attr. rewrite attrs_bytes_cons.
  rewrite <- (attr_bytes_tid _ _ (Some tid)), app_nil_r by done. by apply stun_attr_encode_ok.
Qed.

Lemma STUN_TYPE_range method class : 0 <= method < 2 ^ 12 -> 0 <= class < 2 ^ 2 ->
  0 <= STUN_TYPE method class < 2 ^ 14.
Proof.
  intros Hm Hc. unfold STUN_TYPE. rewrite !Z.shiftl_mul_pow2 by lia.
  pose proof (land_range method 0x0f80 12 ltac:(lia) Hm). pose proof (land_range method 0x0070 12 ltac:(lia) Hm).
  pose proof (land_range method 0x000f 12 ltac:(lia) Hm). pose proof (land_range class 0x2 2 ltac:(lia) Hc).
  pose proof (land_range class 0x1 2 ltac:(lia) Hc). repeat apply lor_range; lia.
Qed.

(** ** Decoding what was encoded *)

Lemma decode_attrs_reads fuel tid padding l acc ua mb rest : no_oom -> tid_ok (Some tid) ->
  Forall (fun a => attr_ok a (Some tid)) l -> mbuf_wf mb -> unread mb = attrs_bytes tid padding l ++ rest ->
  (length l < fuel)%nat ->
  exists mb1, decode_attrs fuel tid (zlength rest) acc ua mb = Some ((0, (acc ++ l, ua)), mb1) /\ advanced mb mb1.
Proof.
  intros Ho Ht Hl. revert fuel acc mb. induction Hl as [|a l Ha _ IH]; intros [|fuel] acc mb Hwf Eu Hf;
    try (simpl in Hf; lia); cbn [decode_attrs]; rewrite (bind_Some _ _ _ _ _ (eq_refl : get mb = _));
    pose proof (left_bound mb Hwf); pose proof (wf_pos _ Hwf); pose proof (length_unread mb Hwf) as El; rewrite Eu, length_app in El.
  - change (length (attrs_bytes tid padding [])) with 0%nat in El. rewrite wrap_small by lia. rewrite (proj2 (Z.leb_gt _ _)) by lia.
    exists mb. rewrite app_nil_r. split; [done|by apply advanced_refl].
  - rewrite attrs_bytes_cons in Eu, El. rewrite length_app in El. rewrite <- app_assoc in Eu.
    destruct (attr_bytes_len4 (at_type a) (at_v a) (Some tid) padding) as [H4 _].
    rewrite wrap_small by lia. rewrite (proj2 (Z.leb_le _ _)) by lia. destruct a as [type v]. cbn [at_type at_v] in *.
    rewrite (bind_Some _ _ _ _ _ (stun_attr_decode_reads type v (Some tid) padding ua Ho Ht Ha mb _ Hwf Eu)).
    cbn [nz Z.eqb negb].
    destruct (IH fuel (acc ++ [StunAttr type v]) _ (unread_wf _ _ _ Hwf Eu)) as (mb1 & E1 & A1);
      [by apply unread_advance|simpl in Hf; lia|].
    exists mb1. rewrite E1, <- app_assoc. split; [done|].
    eapply advanced_trans; [by apply (advanced_unread _ _ _ Hwf Eu)|done].
Qed.

Lemma stun_msg_decode_reads type tid padding l mb rest : no_oom ->
  0 <= type < 2 ^ 14 -> tid_ok (Some tid) -> Forall (fun a => attr_ok a (Some tid)) l ->
  let body := attrs_bytes tid padding l in zlength body < 2 ^ 16 ->
  mbuf_wf mb -> unread mb = hdr_bytes (hdr_of type (zlength body) tid) ++ body ++ rest ->
  stun_msg_decode None mb =
    Some ((0, (Some (StunMsg (hdr_of type (zlength body) tid) l (mb_pos mb)), None)), mb).
Proof.
  intros Ho Hty Ht Hl body Hlen Hwf Eu. destruct Ht as [Ht1 Ht2]. set (hdr := hdr_of type (zlength body) tid) in *.
  assert (hdr_fields hdr) as Hf by (split; simpl; try done; lia).
  pose proof (length_hdr_bytes hdr Hf) as L20.
  destruct (hdr_decode_eq hdr mb _ Hf Hwf Eu) as (e & h & mb1 & E & _ & Hres).
  assert (hdr_valid hdr (body ++ rest) = true) as Hv.
  { unfold hdr_valid, hdr, hdr_of. cbn [sh_type sh_len]. rewrite length_app.
    pose proof (attrs_bytes_align tid padding l) as Hal. fold body in Hal.
    rewrite Hal, Z.eqb_refl, andb_true_r, andb_true_iff, Z.ltb_lt, Z.leb_le. lia. }
  rewrite Hv in Hres. destruct Hres as (-> & -> & ->).
  unfold stun_msg_decode. rewrite (bind_Some _ _ _ _ _ (eq_refl : get mb = _)). cbv zeta.
  rewrite (bind_Some _ _ _ _ _ E). cbn [nz Z.eqb negb].
  rewrite alloc_ok_no_oom by (done || unfold STUN_MSG_SIZEOF, MEM_SIZE_MAX; lia). cbn [negb].
  pose proof (unread_advance _ _ _ Hwf Eu) as Eu1. pose proof (unread_wf _ _ _ Hwf Eu) as Hwf1.
  rewrite L20 in *. change (Z.of_nat 20) with 20 in *. set (mb1 := set_pos (mb_pos mb + 20) mb) in *.
  rewrite (bind_Some _ _ _ _ _ (eq_refl : get mb1 = _)).
  pose proof (length_unread mb1 Hwf1) as El. rewrite Eu1, length_app in El. pose proof (left_bound _ Hwf1).
  pose proof (wf_pos _ Hwf1). change (sh_len hdr) with (zlength body). replace (mbuf_get_left mb1 - zlength body) with (zlength rest) by lia.
  rewrite wrap_small by lia.
  assert (length l <= length body)%nat as Hll.
  { subst body. clear. induction l as [|a l IH]; [simpl; lia|]. rewrite attrs_bytes_cons, length_app. simpl length.
    destruct (attr_bytes_len4 (at_type a) (at_v a) (Some tid) padding). lia. }
  destruct (decode_attrs_reads (S (Z.to_nat (mbuf_get_left mb1))) tid padding l [] None mb1 rest) as (mb2 & E2 & A2);
    try done; [lia|].
  change (sh_tid hdr) with tid. rewrite (bind_Some _ _ _ _ _ E2). unfold mbuf_set_pos, modify, bind, ret.
  do 2 f_equal. rewrite (advanced_eq _ _ A2). subst mb1. rewrite !set_pos_set_pos. apply set_pos_id.
Qed.

End encode.

(** ** The encoder, part by part, on a buffer that holds [pre ++ packet] *)

Section message.
Context `{Host} `{Evp} `{!EvpLaws}.

Lemma hmac_sha1_digest key data out : length out = 20%nat ->
  exists md, HMAC EVP_sha1 key data = Some md /\ length md = 20%nat /\ bytes_ok md /\ hmac_sha1 key data out = md.
Proof.
  intros Hl. destruct (HMAC_sha1_law key data) as (md & E & Lm & Hb). exists md. split_and!; try done.
  unfold hmac_sha1. rewrite E. unfold splice. cbn. rewrite drop_ge by lia. by rewrite app_nil_r.
Qed.

Definition fits (bs : list Z) : Prop := zlength bs < WRITE_MAX.

Lemma holds_at mb data p q : holds mb data p -> 0 <= q <= zlength data -> holds (set_pos q mb) data q.
Proof.
  intros Hh Hq. apply (holds_set_pos _ _ p); [done|]. pose proof (holds_end _ _ _ Hh).
  pose proof (wf_end _ (h_wf _ _ _ Hh)). pose proof (wf_max _ (h_wf _ _ _ Hh)). unfold MEM_SIZE_MAX in *. lia.
Qed.

(** Reading the packet from its start, and coming back to its end. *)
Lemma packet_bytes mb pre pkt : holds mb (pre ++ pkt) (zlength pre) ->
  (let* mb := get in buf_bytes (mbuf_get_left mb)) mb = Some (pkt, mb).
Proof.
  intros Hh. rewrite (bind_Some _ _ _ _ _ (eq_refl : get mb = _)).
  rewrite (holds_left _ _ _ Hh) by (rewrite length_app; lia). unfold buf_bytes.
  rewrite (bind_Some _ _ _ _ _ (eq_refl : get mb = _)), (h_pos _ _ _ Hh).
  rewrite (holds_load _ _ _ _ _ Hh) by (rewrite ?length_app; lia).
  replace (zlength (pre ++ pkt) - zlength pre) with (zlength pkt) by (rewrite length_app; lia).
  by rewrite slice_app_end.
Qed.

Lemma append_attr mb pre pkt type v padding n : no_oom -> attr_ok (StunAttr type v) None ->
  holds mb (pre ++ pkt) (zlength pre) -> n = zlength pkt -> fits (pre ++ pkt ++ attr_bytes type v None padding) ->
  exists mb', (mbuf_advance n ;; stun_attr_encode type v None padding) mb = Some (0, mb') /\
    holds mb' (pre ++ pkt ++ attr_bytes type v None padding) (zlength (pre ++ pkt ++ attr_bytes type v None padding)).
Proof.
  intros Ho Ha Hh -> Hm. unfold fits, WRITE_MAX in *. rewrite !length_app in Hm.
  unfold mbuf_advance, modify. unfold bind. rewrite (h_pos _ _ _ Hh), (wrap_small 64) by lia.
  assert (holds (set_pos (zlength pre + zlength pkt) mb) (pre ++ pkt) (zlength (pre ++ pkt))) as Hh1.
  { rewrite length_app, Nat2Z.inj_add. apply (holds_at _ _ (zlength pre)); [done|rewrite length_app; lia]. }
  destruct (stun_attr_encode_ok type v None padding Ho I Ha _ (h_wf _ _ _ Hh1)) as (mb' & E & Hwf & W);
    [rewrite (h_pos _ _ _ Hh1), length_app; unfold WRITE_MAX; lia|].
  exists mb'. split; [done|]. rewrite app_assoc, (length_app (pre ++ pkt)), Nat2Z.inj_add.
  by apply (holds_written _ _ _ _ Hh1).
Qed.

Lemma mi_attr_ok md tid : length md = 20%nat -> bytes_ok md -> attr_ok (StunAttr STUN_ATTR_MSG_INTEGRITY (VIntegrity md)) tid.
Proof. intros Hl Hb. split; [done|done|]. change (zlength md < 2 ^ 16). lia. Qed.

Lemma fp_attr_ok data tid : bytes_ok data -> attr_ok (StunAttr STUN_ATTR_FINGERPRINT (VU32 (fingerprint data))) tid.
Proof.
  intros Hb. split; [done| |by change (zlength (be_bytes 4 (fingerprint data)) < 2 ^ 16); rewrite length_be_bytes].
  change (0 <= fingerprint data < 2 ^ 32). unfold fingerprint. apply lxor_range; [done|by apply re_crc32_range|done].
Qed.

Definition mi_size (key : option (list Z)) : Z := match key with Some _ => MI_SIZE | None => 0 end.
Definition fp_size (fp : bool) : Z := if fp then FP_SIZE else 0.

(** What MESSAGE-INTEGRITY adds to a packet. *)
Definition mi_attrs (key : option (list Z)) (pkt : list Z) : list stun_attr :=
  match key with
  | Some k => [StunAttr STUN_ATTR_MSG_INTEGRITY (VIntegrity (hmac_sha1 k pkt (replicate 20 0)))]
  | None => []
  end.

Definition fp_attrs (fp : bool) (pkt : list Z) : list stun_attr :=
  if fp then [StunAttr STUN_ATTR_FINGERPRINT (VU32 (fingerprint pkt))] else [].

Lemma add_integrity_ok key mb pre pkt tid padding len : no_oom ->
  holds mb (pre ++ pkt) (zlength (pre ++ pkt)) -> len = zlength pkt - 20 + mi_size key ->
  fits (pre ++ pkt ++ attrs_bytes tid padding (mi_attrs key pkt)) ->
  exists mb', add_integrity key (zlength pre) len padding mb = Some (0, mb') /\
    holds mb' (pre ++ pkt ++ attrs_bytes tid padding (mi_attrs key pkt))
      (zlength (pre ++ pkt ++ attrs_bytes tid padding (mi_attrs key pkt))).
Proof.
  intros Ho Hh -> Hm. destruct key as [k|]; cbn [mi_attrs mi_size add_integrity] in *.
  2: { exists mb. change (attrs_bytes tid padding []) with (@nil Z). by rewrite app_nil_r. }
  assert (holds (set_pos (zlength pre) mb) (pre ++ pkt) (zlength pre)) as Hh1
    by (eapply holds_at; [done|rewrite length_app; lia]).
  unfold mbuf_set_pos, modify. unfold bind at 1. pose proof (packet_bytes _ _ _ Hh1) as Ep.
  unfold bind at 1 in Ep. unfold get at 1 in Ep. unfold bind at 1. unfold get at 1.
  rewrite (bind_Some _ _ _ _ _ Ep).
  assert (hmac_sha1 k pkt (fresh_bytes 0 20) = hmac_sha1 k pkt (replicate 20 0)) as ->.
  { destruct (hmac_sha1_digest k pkt (fresh_bytes 0 20)) as (md & E1 & _ & _ & ->).
    { pose proof (length_fresh_bytes 0 20). lia. }
    destruct (hmac_sha1_digest k pkt (replicate 20 0)) as (md' & E2 & _ & _ & ->); [done|congruence]. }
  destruct (hmac_sha1_digest k pkt (replicate 20 0)) as (md & _ & Lm & Bm & Em); [done|]. rewrite Em in *.
  rewrite attrs_bytes_cons in *. cbn [at_type at_v] in *. change (attrs_bytes tid padding []) with (@nil Z) in *.
  rewrite app_nil_r, <- (attr_bytes_tid _ _ (Some tid)) in * by done.
  apply append_attr; [done|by apply mi_attr_ok|done|unfold STUN_HEADER_SIZE, MI_SIZE; lia|done].
Qed.

Lemma set_pos_holds mb pre pkt p : holds mb (pre ++ pkt) p -> holds (set_pos (zlength pre) mb) (pre ++ pkt) (zlength pre).
Proof. intros Hh. eapply holds_at; [done|rewrite length_app; lia]. Qed.

Lemma rewrite_hdr mb pre hb rest hdr : no_oom -> 0 <= sh_type hdr < 2 ^ 14 -> length (sh_tid hdr) = 12%nat ->
  bytes_ok (sh_tid hdr) -> holds mb (pre ++ hb ++ rest) (zlength pre) -> length hb = 20%nat ->
  fits (pre ++ hb ++ rest) ->
  exists mb', stun_hdr_encode hdr mb = Some (0, mb') /\ holds mb' (pre ++ hdr_bytes hdr ++ rest) (zlength pre + 20).
Proof.
  intros Ho Hty Hl Hb Hh Hlb Hm. unfold fits, WRITE_MAX in *. rewrite !length_app in Hm.
  assert (length (hdr_bytes hdr) = 20%nat) as L20 by (rewrite <- (length_with_len hdr (sh_len hdr)) by done; by destruct hdr).
  destruct (writes_writes_ok _ _ Ho (writes_hdr hdr Hty Hb) mb (h_wf _ _ _ Hh)) as (mb' & E & Hwf & W);
    [rewrite (h_pos _ _ _ Hh), L20; unfold WRITE_MAX; lia|].
  exists mb'. split; [done|]. pose proof (holds_overwrite _ _ _ _ _ _ Hh Hwf W ltac:(lia)) as Hh'.
  by rewrite L20 in Hh'.
Qed.

Lemma add_fingerprint_ok (fp : bool) hdr mb pre hb rest padding : no_oom -> 0 <= sh_type hdr < 2 ^ 14 ->
  length (sh_tid hdr) = 12%nat -> bytes_ok (sh_tid hdr) -> length hb = 20%nat -> zlength rest + 8 < 2 ^ 16 ->
  holds mb (pre ++ hb ++ rest) (zlength (pre ++ hb ++ rest)) -> zlength pre + 20 + zlength rest + 8 < WRITE_MAX ->
  let pkt := (if fp then hdr_bytes (with_len hdr (zlength rest + 8)) else hb) ++ rest in
  exists mb', add_fingerprint fp hdr (zlength pre) padding mb = Some (0, mb') /\ mbuf_wf mb' /\
    holds mb' (pre ++ pkt ++ attrs_bytes (sh_tid hdr) padding (fp_attrs fp pkt))
      (zlength (pre ++ pkt ++ attrs_bytes (sh_tid hdr) padding (fp_attrs fp pkt))).
Proof.
  intros Ho Hty Hl Hb Hlb Hr Hh Hm pkt. destruct fp; unfold add_fingerprint, fp_attrs.
  2: { exists mb. change (attrs_bytes (sh_tid hdr) padding []) with (@nil Z). rewrite app_nil_r.
       split_and!; [done|apply Hh|done]. }
  unfold WRITE_MAX in Hm. rewrite (bind_Some _ _ _ _ _ (eq_refl : get mb = _)), (h_pos _ _ _ Hh).
  assert (zlength (pre ++ hb ++ rest) - zlength pre - STUN_HEADER_SIZE + FP_SIZE = zlength rest + 8) as ->
    by (rewrite !length_app, Hlb; unfold STUN_HEADER_SIZE, FP_SIZE; lia).
  rewrite (wrap_small 64), (wrap_small 16) by lia. unfold mbuf_set_pos, modify. cbv zeta.
  fold (with_len hdr (zlength rest + 8)). set (hdr' := with_len hdr (zlength rest + 8)) in *. unfold bind at 1.
  destruct (rewrite_hdr (set_pos (zlength pre) mb) pre hb rest hdr' Ho Hty Hl Hb) as (mb1 & E1 & Hh1);
    [by eapply set_pos_holds|done|unfold fits, WRITE_MAX; rewrite !length_app; lia|].
  rewrite (bind_Some _ _ _ _ _ E1). unfold bind at 1. apply set_pos_holds in Hh1. fold pkt in Hh1.
  pose proof (packet_bytes _ _ _ Hh1) as Ep. unfold bind at 1 in Ep. unfold get at 1 in Ep.
  unfold bind at 1. unfold get at 1. rewrite (bind_Some _ _ _ _ _ Ep).
  assert (zlength pkt = 20 + zlength rest) as Lp.
  { subst pkt. rewrite length_app. subst hdr'. rewrite length_with_len by done. lia. }
  assert (bytes_ok pkt) as Hbp.
  { pose proof (holds_ok _ _ _ Hh1) as Hok. by apply Forall_app in Hok as [_ Hok]. }
  pose proof (fp_attr_ok pkt None Hbp) as Ha.
  rewrite attrs_bytes_cons. cbn [at_type at_v]. change (attrs_bytes (sh_tid hdr) padding []) with (@nil Z).
  rewrite app_nil_r, <- (attr_bytes_tid _ _ (Some (sh_tid hdr))) by done.
  destruct (append_attr _ pre pkt _ _ padding (STUN_HEADER_SIZE + sh_len hdr' - FP_SIZE) Ho Ha Hh1) as (mb2 & E2 & Hh2).
  { change (sh_len hdr') with (zlength rest + 8). unfold STUN_HEADER_SIZE, FP_SIZE. lia. }
  { unfold fits. rewrite !length_app, !Nat2Z.inj_add, length_attr_bytes.
    change (zlength (value_bytes STUN_ATTR_FINGERPRINT (VU32 (fingerprint pkt)) None)) with
      (zlength (be_bytes 4 (fingerprint pkt))). rewrite length_be_bytes. change (pad4 (Z.of_nat 4)) with 0. unfold WRITE_MAX. lia. }
  exists mb2. rewrite <- bind_assoc, (bind_Some _ _ _ _ _ E2). split_and!; [done|apply Hh2|done].
Qed.

(** ** The whole message *)

Definition packet (type len : Z) (tid : list Z) (padding : Z) (l : list stun_attr) : list Z :=
  hdr_bytes (hdr_of type len tid) ++ attrs_bytes tid padding l.

(** The attributes on the wire: those given, MESSAGE-INTEGRITY over them with
    the length that includes it, FINGERPRINT over both. *)
Definition with_mi (type : Z) (tid : list Z) (padding : Z) (key : option (list Z)) (l : list stun_attr) : list stun_attr :=
  l ++ mi_attrs key (packet type (zlength (attrs_bytes tid padding l) + mi_size key) tid padding l).

Definition with_fp (type : Z) (tid : list Z) (padding : Z) (fp : bool) (l : list stun_attr) : list stun_attr :=
  l ++ fp_attrs fp (packet type (zlength (attrs_bytes tid padding l) + fp_size fp) tid padding l).

Lemma length_mi_attrs key pkt tid padding : zlength (attrs_bytes tid padding (mi_attrs key pkt)) = mi_size key.
Proof.
  destruct key as [k|]; [|done]. cbn [mi_attrs mi_size]. rewrite attrs_bytes_cons, app_nil_r, length_attr_bytes.
  destruct (hmac_sha1_digest k pkt (replicate 20 0)) as (md & _ & Lm & _ & ->); [done|].
  change (4 + zlength md + pad4 (zlength md) = MI_SIZE). by rewrite Lm.
Qed.

Lemma length_fp_attrs fp pkt tid padding : zlength (attrs_bytes tid padding (fp_attrs fp pkt)) = fp_size fp.
Proof.
  destruct fp; [|done]. cbn [fp_attrs fp_size]. rewrite attrs_bytes_cons, app_nil_r, length_attr_bytes.
  change (4 + zlength (be_bytes 4 (fingerprint pkt)) + pad4 (zlength (be_bytes 4 (fingerprint pkt))) = FP_SIZE).
  by rewrite length_be_bytes.
Qed.

(** MESSAGE-INTEGRITY and FINGERPRINT after the attributes [l]. *)
Lemma vencode_tail_ok type tid key (fp : bool) padding l mb pre : no_oom -> 0 <= type < 2 ^ 14 -> tid_ok (Some tid) ->
  zlength (attrs_bytes tid padding l) + 32 < 2 ^ 16 -> zlength pre + 2 ^ 17 < WRITE_MAX ->
  let hdr := hdr_of type (zlength (attrs_bytes tid padding l) + mi_size key) tid in
  let l2 := with_fp type tid padding fp (with_mi type tid padding key l) in
  let pkt := packet type (zlength (attrs_bytes tid padding l2)) tid padding l2 in
  holds mb (pre ++ packet type (sh_len hdr) tid padding l) (zlength (pre ++ packet type (sh_len hdr) tid padding l)) ->
  exists mb', (add_integrity key (zlength pre) (sh_len hdr) padding |; add_fingerprint fp hdr (zlength pre) padding) mb
      = Some (0, mb') /\ holds mb' (pre ++ pkt) (zlength (pre ++ pkt)).
Proof.
  intros Ho Hty [Lt Bt] Hlen Hm hdr l2 pkt Hh. unfold WRITE_MAX in Hm.
  assert (0 <= mi_size key <= 24) as Hms by (destruct key; cbn; unfold MI_SIZE; lia).
  assert (forall len, length (hdr_bytes (hdr_of type len tid)) = 20%nat) as L20
    by (intros len; unfold hdr_bytes; rewrite !length_app, !length_be_bytes; simpl; lia).
  set (pkt0 := packet type (sh_len hdr) tid padding l) in *.
  assert (zlength pkt0 = 20 + zlength (attrs_bytes tid padding l)) as L0
    by (subst pkt0; unfold packet; rewrite length_app, L20; lia).
  pose proof (length_mi_attrs key pkt0 tid padding) as Lmi.
  destruct (add_integrity_ok key mb pre pkt0 tid padding (sh_len hdr) Ho Hh) as (mb1 & E1 & Hh1).
  { rewrite L0. subst hdr. simpl. lia. }
  { unfold fits, WRITE_MAX. rewrite (length_app pre), (length_app pkt0). lia. }
  set (l1 := with_mi type tid padding key l) in *.
  assert (pkt0 ++ attrs_bytes tid padding (mi_attrs key pkt0) = packet type (sh_len hdr) tid padding l1) as Ep.
  { subst l1 pkt0. unfold with_mi, packet. by rewrite attrs_bytes_app, app_assoc. }
  assert (zlength (attrs_bytes tid padding l1) = sh_len hdr) as Ll1.
  { subst l1. unfold with_mi. rewrite attrs_bytes_app, length_app, Nat2Z.inj_add, length_mi_attrs. done. }
  assert (sh_len hdr = zlength (attrs_bytes tid padding l) + mi_size key) as Lhdr by done.
  rewrite Ep in Hh1. unfold packet in Hh1.
  destruct (add_fingerprint_ok fp hdr mb1 pre (hdr_bytes hdr) (attrs_bytes tid padding l1) padding) as (mb2 & E2 & _ & Hh2);
    try done; try (unfold WRITE_MAX; lia); [apply L20|].
  exists mb2. unfold or_err. rewrite (bind_Some _ _ _ _ _ E1), (bind_Some _ _ _ _ _ E2). split; [done|].
  match type of Hh2 with holds _ (pre ++ ?x) _ => assert (pkt = x) as Ex; [|by rewrite Ex] end.
  subst pkt l2. unfold with_fp, packet. rewrite !attrs_bytes_app, !length_app, !Nat2Z.inj_add, length_fp_attrs.
  rewrite Ll1. destruct fp; cbn [fp_size]; rewrite <- ?app_assoc; [done|by rewrite Z.add_0_r].
Qed.


Lemma stun_msg_vencode_ok method class tid ec key fp padding ap mb pre :
  no_oom -> 0 <= method < 2 ^ 12 -> 0 <= class < 2 ^ 2 -> tid_ok (Some tid) ->
  let l := ec_attr ec ++ va_attrs ap in
  Forall (fun a => attr_ok a (Some tid)) l -> zlength (attrs_bytes tid padding l) + 32 < 2 ^ 16 ->
  holds mb pre (zlength pre) -> zlength pre + 2 ^ 17 < WRITE_MAX ->
  let type := STUN_TYPE method class in
  let l2 := with_fp type tid padding fp (with_mi type tid padding key l) in
  let pkt := packet type (zlength (attrs_bytes tid padding l2)) tid padding l2 in
  exists mb', stun_msg_vencode method class tid ec key fp padding ap mb = Some (0, mb') /\
    holds mb' (pre ++ pkt) (zlength (pre ++ pkt)).
Proof.
  intros Ho Hme Hcl Ht l Hl Hlen Hh Hm type l2 pkt. pose proof (STUN_TYPE_range _ _ Hme Hcl) as Hty.
  fold type in Hty. pose proof Ht as [Lt Bt]. unfold WRITE_MAX in Hm. set (body := attrs_bytes tid padding l) in *.
  assert (0 <= mi_size key <= 24) as Hms by (destruct key; cbn; unfold MI_SIZE; lia).
  set (hdr := hdr_of type (zlength body + mi_size key) tid).
  assert (length (hdr_bytes hdr) = 20%nat) as L20 by (apply length_hdr_bytes; split; simpl; try done; lia).
  pose proof (h_pos _ _ _ Hh) as Hpos. pose proof Hl as Hl'. subst l. apply Forall_app in Hl' as [Hl1 Hl2].
  (* attributes, then the header in front of them *)
  destruct (patch_steps mb 20 _ _ body (hdr_bytes hdr) (h_wf _ _ _ Hh)
    ltac:(subst body; rewrite attrs_bytes_app; apply writes_ok_or_err;
          [by apply ec_attr_ok|by apply encode_attrs_ok])
    (writes_writes_ok _ _ Ho (writes_hdr hdr Hty Bt))) as (mb1 & mb2 & E1 & P1 & E2 & Hwf2 & P2 & W);
    [by rewrite L20|unfold WRITE_MAX; lia|].
  unfold stun_msg_vencode. rewrite (bind_Some _ _ _ _ _ (eq_refl : get mb = _)). rewrite !Hpos in *.
  unfold mbuf_advance, mbuf_set_pos, modify. unfold bind at 1. rewrite Hpos, (wrap_small 64) by (unfold STUN_HEADER_SIZE; lia).
  change STUN_HEADER_SIZE with 20. rewrite (firstn_all2 tid) by lia.
  rewrite (bind_Some _ _ _ _ _ E1). rewrite (bind_Some _ _ _ _ _ (eq_refl : get mb1 = _)), P1.
  fold (mi_size key). cbv zeta. rewrite (wrap_small 16 (STUN_TYPE method class)) by (fold type; lia). fold type.
  replace (zlength pre + 20 + zlength body - zlength pre - 20 + mi_size key) with (zlength body + mi_size key) by lia.
  rewrite (wrap_small 64), (wrap_small 16) by lia. fold (hdr_of type (zlength body + mi_size key) tid). fold hdr.
  unfold bind at 1. rewrite (bind_Some _ _ _ _ _ E2). unfold bind at 1. rewrite P2.
  change (sh_len hdr) with (zlength body + mi_size key).
  rewrite (wrap_small 64) by lia. replace (zlength pre + 20 + (zlength body + mi_size key - mi_size key)) with
    (zlength pre + 20 + zlength body) by lia.
  set (mb3 := set_pos _ mb2) in *.
  assert (holds mb3 (pre ++ hdr_bytes hdr ++ body) (zlength (pre ++ hdr_bytes hdr ++ body))) as Hh3.
  { rewrite (length_app pre), Nat2Z.inj_add. apply (holds_written mb); [done| |done].
    apply set_pos_wf; [done|lia]. }
  destruct (vencode_tail_ok type tid key fp padding (ec_attr ec ++ va_attrs ap) mb3 pre) as (mb4 & E4 & Hh4);
    try done.
  exists mb4. rewrite (bind_Some _ _ _ _ _ E4). done.
Qed.

End message.
