(* ===== verification/StunProps.v ===== *)
(** * STUN: the properties of the module

    The round trip of whole messages, safety of decoding arbitrary input,
    safety and meaning of the two checks, and message types. *)

From S2P Require Export StunRound Crypto.

(** Neither of the attributes the encoder adds. *)
Definition plain (l : list stun_attr) : Prop :=
  Forall (fun a => at_type a <> STUN_ATTR_MSG_INTEGRITY /\ at_type a <> STUN_ATTR_FINGERPRINT) l.

Lemma find_attr_app t l1 l2 : Forall (fun a => at_type a <> t) l1 -> find_attr t (l1 ++ l2) = find_attr t l2.
Proof. induction 1 as [|a l1 Ha _ IH]; [done|]. simpl. by rewrite (proj2 (Z.eqb_neq _ _) Ha). Qed.

Lemma plain_no_mi l : plain l -> Forall (fun a => at_type a <> STUN_ATTR_MSG_INTEGRITY) l.
Proof. apply Forall_impl. by intros a []. Qed.

Lemma plain_no_fp l : plain l -> Forall (fun a => at_type a <> STUN_ATTR_FINGERPRINT) l.
Proof. apply Forall_impl. by intros a []. Qed.

Lemma find_fp (fp : bool) pkt : find_attr STUN_ATTR_FINGERPRINT (fp_attrs fp pkt) =
  if fp then Some (StunAttr STUN_ATTR_FINGERPRINT (VU32 (fingerprint pkt))) else None.
Proof. by destruct fp. Qed.

Section props.
Context `{Host} `{Evp} `{!EvpLaws}.

Lemma holds_slice mb data p q n : holds mb data p -> 0 <= q -> 0 <= n -> q + n <= zlength data ->
  slice (mb_buf mb) q n = slice data q n.
Proof.
  intros Hh Hq Hn Hl. pose proof (holds_end _ _ _ Hh). rewrite <- (h_data _ _ _ Hh). symmetry.
  apply slice_take; lia.
Qed.

Lemma holds_splice_slice mb pre a a' b c p : holds mb (pre ++ a ++ b ++ c) p -> length a' = length a ->
  slice (splice (mb_buf mb) (zlength pre) a') (zlength pre) (zlength a + zlength b) = a' ++ b.
Proof.
  intros Hh Hl. pose proof (holds_end _ _ _ Hh) as He. rewrite !length_app in He.
  pose proof (wf_end _ (h_wf _ _ _ Hh)). pose proof (wf_len _ (h_wf _ _ _ Hh)).
  rewrite <- (slice_take _ (mb_end mb)) by lia. rewrite take_splice_in, (h_data _ _ _ Hh) by lia.
  rewrite splice_app_mid, (app_assoc a' b c) by done.
  replace (zlength a + zlength b) with (zlength (a' ++ b)) by (rewrite length_app; lia). apply slice_app_mid.
Qed.

Lemma with_mi_no_fp type tid padding key l : plain l ->
  Forall (fun a => at_type a <> STUN_ATTR_FINGERPRINT) (with_mi type tid padding key l).
Proof.
  intros Hp. unfold with_mi. apply Forall_app. split; [by apply plain_no_fp|].
  destruct key; constructor; [done|constructor].
Qed.

Lemma length_with_mi type tid padding key l : zlength (attrs_bytes tid padding (with_mi type tid padding key l)) =
  zlength (attrs_bytes tid padding l) + mi_size key.
Proof. unfold with_mi. by rewrite attrs_bytes_app, length_app, Nat2Z.inj_add, length_mi_attrs. Qed.

Lemma length_with_fp type tid padding fp l : zlength (attrs_bytes tid padding (with_fp type tid padding fp l)) =
  zlength (attrs_bytes tid padding l) + fp_size fp.
Proof. unfold with_fp. by rewrite attrs_bytes_app, length_app, Nat2Z.inj_add, length_fp_attrs. Qed.

Lemma with_fp_split type tid padding key fp l : exists more,
  attrs_bytes tid padding (with_fp type tid padding fp (with_mi type tid padding key l)) =
    attrs_bytes tid padding l ++ more.
Proof. unfold with_fp, with_mi. rewrite !attrs_bytes_app, <- app_assoc. by eexists. Qed.

(** The MESSAGE-INTEGRITY check of a message that was encoded. *)
Lemma chk_mi_encoded type tid padding k (fp : bool) l mb pre : 0 <= type < 2 ^ 14 -> tid_ok (Some tid) -> plain l ->
  let l2 := with_fp type tid padding fp (with_mi type tid padding (Some k) l) in
  let len := zlength (attrs_bytes tid padding l2) in
  let msg := StunMsg (hdr_of type len tid) l2 (mb_pos mb) in
  holds mb (pre ++ packet type len tid padding l2) (zlength pre) -> decoded mb msg ->
  stun_msg_chk_mi msg k mb = Some (0, mb).
Proof.
  intros Hty [Lt Bt] Hp l2 len msg Hh Hd. pose proof (stun_msg_chk_mi_spec mb msg k (h_wf _ _ _ Hh) Hd) as Hs.
  set (l1 := with_mi type tid padding (Some k) l) in *.
  set (pk := packet type (zlength (attrs_bytes tid padding l) + MI_SIZE) tid padding l).
  assert (stun_msg_attr msg STUN_ATTR_MSG_INTEGRITY =
    Some (StunAttr STUN_ATTR_MSG_INTEGRITY (VIntegrity (hmac_sha1 k pk (replicate 20 0))))) as Hmi.
  { unfold stun_msg_attr. cbn [sm_attrl msg]. subst l2 l1. unfold with_fp, with_mi. rewrite <- app_assoc.
    by rewrite find_attr_app by (by apply plain_no_mi). }
  rewrite Hmi in Hs. destruct Hs as (d & Ed & _ & ->). cbn [at_v] in Ed. simplify_eq/=.
  assert (mi_input mb msg = pk) as ->; [|by rewrite bool_decide_eq_true_2].
  pose proof (length_with_mi type tid padding (Some k) l) as L1. fold l1 in L1.
  pose proof (length_with_fp type tid padding fp l1) as L2. fold l2 len in L2. cbn [mi_size] in L1.
  assert (mi_len msg = zlength (attrs_bytes tid padding l) + MI_SIZE) as Em.
  { unfold mi_len, stun_msg_attr. cbn [sm_attrl sm_hdr sh_len msg hdr_of]. unfold l2, with_fp.
    rewrite find_attr_app, find_fp by (by apply with_mi_no_fp). destruct fp; cbn [fp_size] in L2; lia. }
  unfold mi_input. rewrite Em, (h_pos _ _ _ Hh). unfold relen, pk, packet. cbn [sm_hdr msg].
  change (with_len (hdr_of type len tid) ?n) with (hdr_of type n tid).
  set (h' := hdr_bytes (hdr_of type (zlength (attrs_bytes tid padding l) + MI_SIZE) tid)).
  assert (forall n, length (hdr_bytes (hdr_of type n tid)) = 20%nat) as L20
    by (intros n; apply (length_with_len (hdr_of type 0 tid) n Lt)).
  destruct (with_fp_split type tid padding (Some k) fp l) as [more Em2].
  replace (STUN_HEADER_SIZE + (zlength (attrs_bytes tid padding l) + MI_SIZE) - MI_SIZE) with
    (zlength (hdr_bytes (hdr_of type len tid)) + zlength (attrs_bytes tid padding l))
    by (rewrite L20; unfold STUN_HEADER_SIZE; lia).
  rewrite (h_pos _ _ _ Hh). eapply (holds_splice_slice _ _ _ _ _ more).
  - unfold packet in Hh. fold l1 l2 in Em2. rewrite Em2 in Hh. exact Hh.
  - subst h'. by rewrite !L20.
Qed.

Lemma chk_fp_encoded type tid padding key l mb pre : tid_ok (Some tid) -> plain l ->
  let l1 := with_mi type tid padding key l in
  let l2 := with_fp type tid padding true l1 in
  let len := zlength (attrs_bytes tid padding l2) in
  let msg := StunMsg (hdr_of type len tid) l2 (mb_pos mb) in
  holds mb (pre ++ packet type len tid padding l2) (zlength pre) -> decoded mb msg ->
  stun_msg_chk_fingerprint msg mb = Some (0, mb).
Proof.
  intros [Lt Bt] Hp l1 l2 len msg Hh Hd. pose proof (stun_msg_chk_fingerprint_spec mb msg (h_wf _ _ _ Hh) Hd) as Hs.
  unfold stun_msg_attr in Hs. cbn [sm_attrl msg] in Hs. unfold l2, with_fp in Hs.
  rewrite find_attr_app, find_fp in Hs by (by apply with_mi_no_fp).
  destruct Hs as (v & Ev & Hs). cbn [at_v] in Ev. simplify_eq. rewrite Hs.
  pose proof (length_with_fp type tid padding true l1) as L2. fold l2 len in L2. cbn [fp_size] in *.
  pose proof (length_with_len (hdr_of type 0 tid) len Lt) as L20.
  assert (slice (mb_buf mb) (mb_pos mb) (12 + len) = packet type len tid padding l1) as Es.
  { rewrite (h_pos _ _ _ Hh). unfold packet in Hh. unfold l2, with_fp in Hh.
    rewrite attrs_bytes_app, (app_assoc (hdr_bytes _)) in Hh.
    replace (12 + len) with (zlength (packet type len tid padding l1))
      by (unfold packet; rewrite length_app; change (hdr_of type len tid) with (with_len (hdr_of type 0 tid) len);
          unfold FP_SIZE in L2; lia).
    rewrite (holds_slice _ _ _ _ _ Hh); [by apply slice_app_mid|lia|lia|unfold packet; rewrite !length_app; lia]. }
  cbn [sm_hdr sh_len msg hdr_of]. rewrite Es, L2, Z.eqb_refl. done.
Qed.

Lemma with_attrs_ok type tid padding key fp l : tid_ok (Some tid) -> Forall (fun a => attr_ok a (Some tid)) l ->
  let l2 := with_fp type tid padding fp (with_mi type tid padding key l) in
  bytes_ok (packet type (zlength (attrs_bytes tid padding l2)) tid padding l2) ->
  Forall (fun a => attr_ok a (Some tid)) l2.
Proof.
  intros Ht Hl l2 Hb. subst l2. rewrite length_with_fp in Hb. set (l1 := with_mi type tid padding key l) in *.
  unfold with_fp, packet in *. rewrite attrs_bytes_app, app_assoc in Hb. apply Forall_app in Hb as [Hb _].
  apply Forall_app. split; [|destruct fp; constructor; [by apply fp_attr_ok|constructor]].
  subst l1. apply Forall_app. split; [done|]. destruct key as [k|]; constructor; [|constructor].
  destruct (hmac_sha1_digest k (packet type (zlength (attrs_bytes tid padding l) + mi_size (Some k)) tid padding l)
    (replicate 20 0)) as (md & _ & Lm & Bm & ->); [done|]. by apply mi_attr_ok.
Qed.

(** C16: a STUN message that [stun_msg_vencode] appends to a buffer (any
    method and class, any well-formed attributes, with or without an error
    code, MESSAGE-INTEGRITY and FINGERPRINT) is accepted by
    [stun_msg_decode], which returns its type, transaction id and attributes
    in order, and passes [stun_msg_chk_mi] with the key and
    [stun_msg_chk_fingerprint]; no step changes the buffer. *)
Theorem stun_msg_roundtrip method class tid ec key fp padding ap mb pre :
  no_oom -> 0 <= method < 2 ^ 12 -> 0 <= class < 2 ^ 2 -> tid_ok (Some tid) ->
  let l := ec_attr ec ++ va_attrs ap in
  Forall (fun a => attr_ok a (Some tid)) l -> plain l -> zlength (attrs_bytes tid padding l) + 32 < 2 ^ 16 ->
  holds mb pre (zlength pre) -> zlength pre + 2 ^ 17 < WRITE_MAX ->
  exists mb' msg added,
    stun_msg_vencode method class tid ec key fp padding ap mb = Some (0, mb') /\
    let mbr := set_pos (zlength pre) mb' in
    stun_msg_decode None mbr = Some ((0, (Some msg, None)), mbr) /\
    stun_msg_type msg = STUN_TYPE method class /\ stun_msg_mcookie msg = true /\ stun_msg_tid msg = tid /\
    sm_attrl msg = l ++ added /\ length added = ((match key with Some _ => 1 | None => 0 end) + (if fp then 1 else 0))%nat /\
    (forall k, key = Some k -> stun_msg_chk_mi msg k mbr = Some (0, mbr)) /\
    (fp = true -> stun_msg_chk_fingerprint msg mbr = Some (0, mbr)).
Proof.
  intros Ho Hme Hcl Ht l Hl Hp Hlen Hh Hm. pose proof (STUN_TYPE_range _ _ Hme Hcl) as Hty.
  destruct (stun_msg_vencode_ok method class tid ec key fp padding ap mb pre Ho Hme Hcl Ht Hl Hlen Hh Hm)
    as (mb' & E & Hh'). fold l in Hh'. set (type := STUN_TYPE method class) in *.
  set (l2 := with_fp type tid padding fp (with_mi type tid padding key l)) in *.
  set (len := zlength (attrs_bytes tid padding l2)) in *. set (pkt := packet type len tid padding l2) in *.
  assert (bytes_ok pkt) as Hbp by (apply holds_ok in Hh'; by apply Forall_app in Hh' as [_ ?]).
  apply set_pos_holds in Hh'. set (mbr := set_pos (zlength pre) mb') in *.
  assert (len < 2 ^ 16) as Hlen2.
  { subst len l2. rewrite length_with_fp, length_with_mi. unfold mi_size, fp_size, MI_SIZE, FP_SIZE.
    destruct key, fp; lia. }
  pose proof (stun_msg_decode_reads type tid padding l2 mbr [] Ho Hty Ht
    (with_attrs_ok type tid padding key fp l Ht Hl Hbp) Hlen2 (h_wf _ _ _ Hh')) as Ed. fold len in Ed.
  rewrite app_nil_r in Ed. specialize (Ed ltac:(
    rewrite (holds_unread _ _ _ Hh') by (rewrite length_app; lia); rewrite Nat2Z.id; apply drop_app_length)).
  destruct (stun_msg_decode_spec None mbr (h_wf _ _ _ Hh') I) as (e & om & ua & Ed' & _ & Hd).
  rewrite Ed in Ed'. injection Ed' as <- <- <-. cbn [nz Z.eqb negb] in Hd.
  destruct Hd as (msg & Em & Hd). injection Em as <-.
  exists mb', (StunMsg (hdr_of type len tid) l2 (mb_pos mbr)),
    (mi_attrs key (packet type (zlength (attrs_bytes tid padding l) + mi_size key) tid padding l) ++
     fp_attrs fp (packet type (zlength (attrs_bytes tid padding (with_mi type tid padding key l)) + fp_size fp)
       tid padding (with_mi type tid padding key l))).
  split; [exact E|]. cbv zeta. fold mbr. split_and!; [exact Ed|done|done|done| | | |].
  - subst l2. unfold with_fp, with_mi. by rewrite <- app_assoc.
  - rewrite length_app. by destruct key, fp.
  - intros k ->. by apply (chk_mi_encoded type tid padding k fp l mbr pre).
  - intros ->. by apply (chk_fp_encoded type tid padding key l mbr pre).
Qed.

End props.

Section safety.
Context `{Host}.

(** C17: on every buffer, whatever its content, [stun_msg_decode] is memory
    safe and terminates, leaves the buffer and its position as they were,
    records at most eight unknown attributes, and returns a message exactly
    when it returns 0.  An accepted message is tiled by its attributes: one
    after the other they cover the [hdr.len] bytes after the header, although
    the attribute decoder checks lengths only against the end of the buffer. *)
Theorem stun_msg_decode_safe ua mb : mbuf_wf mb -> ua_ok ua ->
  exists e om ua', stun_msg_decode ua mb = Some ((e, (om, ua')), mb) /\ ua_ok ua' /\
    (e = 0 <-> om <> None) /\
    forall msg, om = Some msg ->
      let hdr := sm_hdr msg in
      sm_start msg = mb_pos mb /\ sh_type hdr < 2 ^ 14 /\ sh_len hdr mod 4 = 0 /\
      mb_pos mb + 20 + sh_len hdr <= mb_end mb /\
      tiles (sh_tid hdr) mb (mb_pos mb + 20) (sm_attrl msg) (mb_pos mb + 20 + sh_len hdr).
Proof.
  intros Hwf Hu. destruct (stun_msg_decode_spec ua mb Hwf Hu) as (e & om & ua' & E & Hu' & Hd).
  exists e, om, ua'. split_and!; [done|done| |].
  - unfold nz in Hd. destruct (Z.eqb_spec e 0) as [->|]; cbn [negb] in Hd; [destruct Hd as (msg & -> & _)|subst om]; done.
  - intros msg ->. unfold nz in Hd. destruct (Z.eqb_spec e 0); cbn [negb] in Hd; [|done].
    destruct Hd as (msg' & [= <-] & Hd). destruct (decoded_room mb msg Hwf Hd) as [Hr _].
    destruct Hd. split_and!; done.
Qed.

End safety.

Section checks.
Context `{Host} `{Evp} `{!EvpLaws}.

Lemma attr_of_type mb msg t a : decoded mb msg -> stun_msg_attr msg t = Some a -> at_type a = t.
Proof. intros Hd Ha. apply (tiles_find _ _ _ _ _ _ _ (dm_tiles _ _ Hd) Ha). Qed.

Lemma chk_mi_iff mb msg key : mbuf_wf mb -> decoded mb msg ->
  exists e, stun_msg_chk_mi msg key mb = Some (e, mb) /\
    (e = 0 <-> exists d, stun_msg_attr msg STUN_ATTR_MSG_INTEGRITY = Some (StunAttr STUN_ATTR_MSG_INTEGRITY (VIntegrity d)) /\
       HMAC EVP_sha1 key (mi_input mb msg) = Some d).
Proof.
  intros Hwf Hd. pose proof (stun_msg_chk_mi_spec mb msg key Hwf Hd) as Hs.
  destruct (hmac_sha1_digest key (mi_input mb msg) (replicate 20 0) eq_refl) as (md & Emd & _ & _ & Eh).
  rewrite Eh in Hs. rewrite Emd. destruct (stun_msg_attr msg STUN_ATTR_MSG_INTEGRITY) as [[t v]|] eqn:Ha.
  - destruct Hs as (d & Ev & _ & Hs). pose proof (attr_of_type _ _ _ _ Hd Ha) as Et. cbn [at_v at_type] in *. subst t v.
    eexists. split; [exact Hs|]. case_bool_decide as Hdec; split; [subst; eauto|done|done|].
    intros (d' & [= <-] & [= ->]). done.
  - exists EPROTO. split; [done|]. split; [done|]. by intros (d & ? & _).
Qed.

Lemma chk_fp_iff mb msg : mbuf_wf mb -> decoded mb msg ->
  exists e, stun_msg_chk_fingerprint msg mb = Some (e, mb) /\
    (e = 0 <-> stun_msg_attr msg STUN_ATTR_FINGERPRINT = Some (StunAttr STUN_ATTR_FINGERPRINT
       (VU32 (fingerprint (slice (mb_buf mb) (mb_pos mb) (12 + sh_len (sm_hdr msg))))))).
Proof.
  intros Hwf Hd. pose proof (stun_msg_chk_fingerprint_spec mb msg Hwf Hd) as Hs.
  destruct (stun_msg_attr msg STUN_ATTR_FINGERPRINT) as [[t v]|] eqn:Ha; [|by exists EPROTO].
  destruct Hs as (d & Ev & Hs). pose proof (attr_of_type _ _ _ _ Hd Ha) as Et. cbn [at_v at_type] in *. subst t v.
  eexists. split; [exact Hs|]. set (f := fingerprint _).
  destruct (Z.eqb_spec f d) as [->|Hdec]; split; [done..|]. intros [= ->]. done.
Qed.

(** C18: on every message that was decoded, [stun_msg_chk_mi] and
    [stun_msg_chk_fingerprint] are memory safe and leave the buffer as it was
    (the length field is rewritten and restored in between).  The first
    returns 0 exactly when the message has a MESSAGE-INTEGRITY that is the
    HMAC, under the key, of the packet before its last attributes with the
    length field adjusted; the second exactly when it has a FINGERPRINT that
    is the CRC of all but the last eight bytes. *)
Theorem stun_checks_safe ua mb msg ua' key : mbuf_wf mb -> ua_ok ua ->
  stun_msg_decode ua mb = Some ((0, (Some msg, ua')), mb) ->
  exists e1 e2, stun_msg_chk_mi msg key mb = Some (e1, mb) /\ stun_msg_chk_fingerprint msg mb = Some (e2, mb) /\
    (e1 = 0 <-> exists d, stun_msg_attr msg STUN_ATTR_MSG_INTEGRITY = Some (StunAttr STUN_ATTR_MSG_INTEGRITY (VIntegrity d)) /\
       HMAC EVP_sha1 key (mi_input mb msg) = Some d) /\
    (e2 = 0 <-> stun_msg_attr msg STUN_ATTR_FINGERPRINT = Some (StunAttr STUN_ATTR_FINGERPRINT
       (VU32 (fingerprint (slice (mb_buf mb) (mb_pos mb) (12 + sh_len (sm_hdr msg))))))).
Proof.
  intros Hwf Hu E. destruct (stun_msg_decode_spec ua mb Hwf Hu) as (e & om & ua1 & E1 & _ & Hd).
  rewrite E in E1. injection E1 as <- <- <-. destruct Hd as (msg' & [= <-] & Hd).
  destruct (chk_mi_iff mb msg key Hwf Hd) as (e1 & Ec1 & Hc1).
  destruct (chk_fp_iff mb msg Hwf Hd) as (e2 & Ec2 & Hc2). by exists e1, e2.
Qed.

End checks.

(** ** Message types *)

(** What [STUN_CLASS] reads: the class, or-ed with two bits of the method. *)
Definition class_read (m c : Z) : Z := Z.lor c (Z.lor (m / 64 mod 2) (2 * (m / 16 mod 2))).

Definition stun_type_ok (m c : Z) : bool :=
  (STUN_METHOD (STUN_TYPE m c) =? m) && (STUN_CLASS (STUN_TYPE m c) =? class_read m c).

Lemma all_types_ok :
  all_bytes (fun x => all_bytes (fun lo => stun_type_ok (x / 16 * 256 + lo) (x mod 4))) = true.
Proof. vm_compute. reflexivity. Qed.

Lemma stun_type_ok_all m c : 0 <= m < 4096 -> 0 <= c < 4 -> stun_type_ok m c = true.
Proof.
  intros Hm Hc. set (x := m / 256 * 16 + c). assert (0 <= x < 256) as Hx by (subst x; dlia).
  assert (0 <= m mod 256 < 256) as Hy by dlia.
  replace m with (x / 16 * 256 + m mod 256) by (subst x; dlia). replace c with (x mod 4) by (subst x; dlia).
  revert Hy. generalize (m mod 256). clearbody x. intros lo Hlo. revert x Hx lo Hlo.
  exact (fun x Hx => all_bytes_sound _ (all_bytes_sound
    (fun x => all_bytes (fun lo => stun_type_ok (x / 16 * 256 + lo) (x mod 4))) all_types_ok x Hx)).
Qed.

(** A message type made of a method of 12 bits and a class gives the
    method back.  It gives the class back for methods below 16, which all the
    defined ones are; in general [STUN_CLASS] mixes bits 6 and 4 of the method
    into the class, so that a request of method 16 reads as a response. *)
Theorem stun_type_fields m c : 0 <= m < 4096 -> 0 <= c < 4 ->
  STUN_METHOD (STUN_TYPE m c) = m /\ STUN_CLASS (STUN_TYPE m c) = class_read m c /\
  (m < 16 -> STUN_CLASS (STUN_TYPE m c) = c) /\ STUN_CLASS (STUN_TYPE 16 0) = 2.
Proof.
  intros Hm Hc. pose proof (stun_type_ok_all m c Hm Hc) as [E1%Z.eqb_eq E2%Z.eqb_eq]%andb_true_iff.
  split_and!; [done|done| |done]. intros Hlt. rewrite E2. unfold class_read.
  rewrite (Z.div_small m 64), (Z.div_small m 16) by lia. apply Z.lor_0_r.
Qed.

Lemma stun_type_fields_witness : STUN_METHOD (STUN_TYPE 9 3) = 9 /\ STUN_CLASS (STUN_TYPE 9 3) = 3.
Proof.
  destruct (stun_type_fields 9 3 ltac:(lia) ltac:(lia)) as (E1 & _ & E2 & _). split; [exact E1|apply E2; lia].
Defined.

(** ** STUN: concrete messages

    The properties of the module applied to a binding request, and two
    behaviours of the attribute codec outside its contract. *)

#[local] Existing Instance lp64_host.
#[local] Existing Instance model_evp.
#[local] Existing Instance model_laws.

Definition ex_tid : list Z := [1; 2; 3; 4; 5; 6; 7; 8; 9; 10; 11; 12].
Definition ex_key : list Z := [115; 101; 99; 114; 101; 116].

(** USERNAME, PRIORITY, an absent value and XOR-MAPPED-ADDRESS. *)
Definition ex_ap : list (Z * option stun_val) :=
  [(0x0006, Some (VStr [97; 58; 98])); (0x0024, Some (VU32 1234)); (0x0025, None);
   (0x0020, Some (VAddr (SaIn 0x7f000001 5060)))].

Lemma ex_no_oom : no_oom.
Proof. by intros n. Qed.

Lemma ex_attrs_ok : Forall (fun a => attr_ok a (Some ex_tid)) (ec_attr None ++ va_attrs ex_ap).
Proof. repeat apply Forall_cons_2; try apply Forall_nil_2; split; vm_compute; try done. repeat constructor. Qed.

Lemma empty_holds : holds mbuf_init [] (zlength (@nil Z)).
Proof. split; [split; simpl; try done; constructor|done|done]. Qed.

Lemma stun_msg_roundtrip_witness : exists mb' msg added,
  stun_msg_vencode 1 0 ex_tid None (Some ex_key) true 0 ex_ap mbuf_init = Some (0, mb') /\
  let mbr := set_pos 0 mb' in
  stun_msg_decode None mbr = Some ((0, (Some msg, None)), mbr) /\
  stun_msg_type msg = STUN_TYPE 1 0 /\ stun_msg_mcookie msg = true /\ stun_msg_tid msg = ex_tid /\
  sm_attrl msg = va_attrs ex_ap ++ added /\ length added = 2%nat /\
  (forall k, Some ex_key = Some k -> stun_msg_chk_mi msg k mbr = Some (0, mbr)) /\
  (true = true -> stun_msg_chk_fingerprint msg mbr = Some (0, mbr)).
Proof.
  apply (stun_msg_roundtrip 1 0 ex_tid None (Some ex_key) true 0 ex_ap mbuf_init []).
  - exact ex_no_oom.
  - lia.
  - lia.
  - split; [done|repeat constructor; done].
  - exact ex_attrs_ok.
  - repeat constructor; done.
  - vm_compute. done.
  - exact empty_holds.
  - vm_compute. done.
Defined.

(** The packet the encoder produces, in a buffer of its size. *)
Definition ex_packet : list Z :=
  match stun_msg_vencode 1 0 ex_tid None (Some ex_key) true 0 ex_ap mbuf_init with
  | Some (_, mb) => slice (mb_buf mb) 0 (mb_end mb)
  | None => []
  end.

Definition buf_of (data : list Z) : mbuf := Mbuf data (zlength data) 0 (zlength data).

Lemma buf_of_wf data : forallb (fun b => (0 <=? b) && (b <? 256)) data && (zlength data <? 1000) = true ->
  mbuf_wf (buf_of data).
Proof.
  intros [Hb Hl]%andb_true_iff. split; simpl; unfold MEM_SIZE_MAX; try lia.
  rewrite forallb_forall in Hb. apply List.Forall_forall. intros b Hin. specialize (Hb b Hin). unfold byte_ok. lia.
Qed.

Lemma ex_packet_wf : mbuf_wf (buf_of ex_packet).
Proof. apply buf_of_wf. vm_compute. reflexivity. Qed.

Lemma stun_msg_decode_safe_witness : exists e om ua',
  stun_msg_decode (Some []) (buf_of ex_packet) = Some ((e, (om, ua')), buf_of ex_packet) /\ ua_ok ua' /\
  (e = 0 <-> om <> None) /\
  forall msg, om = Some msg ->
    let hdr := sm_hdr msg in
    sm_start msg = mb_pos (buf_of ex_packet) /\ sh_type hdr < 2 ^ 14 /\ sh_len hdr mod 4 = 0 /\
    mb_pos (buf_of ex_packet) + 20 + sh_len hdr <= mb_end (buf_of ex_packet) /\
    tiles (sh_tid hdr) (buf_of ex_packet) (mb_pos (buf_of ex_packet) + 20) (sm_attrl msg)
      (mb_pos (buf_of ex_packet) + 20 + sh_len hdr).
Proof. exact (stun_msg_decode_safe (Some []) (buf_of ex_packet) ex_packet_wf (Nat.le_0_l 8)). Defined.

Definition ex_msg : stun_msg :=
  match stun_msg_decode None (buf_of ex_packet) with
  | Some ((_, (Some msg, _)), _) => msg
  | _ => StunMsg stun_hdr_zero [] 0
  end.

Lemma ex_msg_decoded : stun_msg_decode None (buf_of ex_packet) = Some ((0, (Some ex_msg, None)), buf_of ex_packet).
Proof. vm_compute. reflexivity. Qed.

Lemma stun_checks_safe_witness : exists e1 e2,
  stun_msg_chk_mi ex_msg ex_key (buf_of ex_packet) = Some (e1, buf_of ex_packet) /\
  stun_msg_chk_fingerprint ex_msg (buf_of ex_packet) = Some (e2, buf_of ex_packet) /\
  (e1 = 0 <-> exists d, stun_msg_attr ex_msg STUN_ATTR_MSG_INTEGRITY = Some (StunAttr STUN_ATTR_MSG_INTEGRITY (VIntegrity d)) /\
     HMAC EVP_sha1 ex_key (mi_input (buf_of ex_packet) ex_msg) = Some d) /\
  (e2 = 0 <-> stun_msg_attr ex_msg STUN_ATTR_FINGERPRINT = Some (StunAttr STUN_ATTR_FINGERPRINT
     (VU32 (fingerprint (slice (mb_buf (buf_of ex_packet)) (mb_pos (buf_of ex_packet)) (12 + sh_len (sm_hdr ex_msg))))))).
Proof.
  apply (stun_checks_safe None (buf_of ex_packet) ex_msg None ex_key);
    [exact ex_packet_wf|exact I|exact ex_msg_decoded].
Defined.

(** The checks do reject: another key, a flipped bit. *)
Lemma ex_msg_wrong_key :
  fst <$> stun_msg_chk_mi ex_msg [1; 2; 3] (buf_of ex_packet) = Some EBADMSG.
Proof. vm_compute. reflexivity. Qed.

(** The length of an address attribute is not compared with what its value
    needs: a MAPPED-ADDRESS of length 0 takes its value from the bytes of
    whatever follows it. *)
Lemma stun_addr_len_ignored :
  fst <$> stun_attr_decode None None (buf_of [0; 1; 0; 0; 0; 1; 0; 80; 127; 0; 0; 1]) =
    Some (0, (StunAttr 1 (VAddr (SaIn 0x7f000001 80)), None)).
Proof. vm_compute. reflexivity. Qed.

(** ** The padding loop when memory runs out *)

Definition small_host : Host :=
  {| host_big_endian := false; malloc_ok := fun n => n <=? 600; fresh_byte := fun _ => 165; mem_header_size := 16 |}.

Definition full_mb : mbuf := Mbuf (replicate 512 0) 512 512 512.

(** A write that fails does not move the position, so the loop condition
    never changes: no number of rounds is enough. *)
Lemma stun_padding_loops fuel : write_padding (H := small_host) fuel 511 0 full_mb = None.
Proof.
  induction fuel as [|fuel IH]; cbn [write_padding]; rewrite (bind_Some _ _ _ _ _ (eq_refl : get full_mb = _)).
  - reflexivity.
  - change (nz (Z.land (u64 (mb_pos full_mb - 511)) 3)) with true. cbv iota. unfold or_err.
    rewrite (bind_Some _ _ _ ENOMEM full_mb) by (vm_compute; reflexivity). unfold bind. by rewrite IH.
Qed.
