(* ===== verification/LinkedList.v ===== *)
(** * Linked lists (src/list/list.c, include/re/re_list.h)

    Intrusive doubly linked lists on a heap: [struct le] elements and
    [struct list] heads are objects named by locations, and the operations
    follow and assign their pointers.  A null pointer is [None]; following a
    pointer to no object is undefined. *)

From S2P Require Export Prelude.
From stdpp Require Export gmap list.

#[global] Open Scope Z_scope.
#[global] Open Scope c_scope.

Abbreviation loc := nat.

Section list.
Context {D : Type}.

Record le := Le {
  le_prev : option loc;
  le_next : option loc;
  le_list : option loc;
  le_data : option D;        (* void *data *)
}.

Record list_hd := Hd { hd_head : option loc; hd_tail : option loc }.

Record heap := Heap { les : gmap loc le; lists : gmap loc list_hd }.

Definition load_le (x : loc) : M heap le := fun h =>
  match les h !! x with Some e => Some (e, h) | None => None end.
Definition load_hd (l : loc) : M heap list_hd := fun h =>
  match lists h !! l with Some hd => Some (hd, h) | None => None end.

(** Assignment to fields of an existing object. *)
Definition mod_le (x : loc) (f : le -> le) : M heap unit := fun h =>
  match les h !! x with
  | Some e => Some (tt, Heap (<[x := f e]> (les h)) (lists h))
  | None => None
  end.
Definition mod_hd (l : loc) (f : list_hd -> list_hd) : M heap unit := fun h =>
  match lists h !! l with
  | Some hd => Some (tt, Heap (les h) (<[l := f hd]> (lists h)))
  | None => None
  end.

Definition set_prev (p : option loc) (e : le) : le := Le p (le_next e) (le_list e) (le_data e).
Definition set_next (n : option loc) (e : le) : le := Le (le_prev e) n (le_list e) (le_data e).
Definition set_list (l : option loc) (e : le) : le := Le (le_prev e) (le_next e) l (le_data e).
Definition set_data (d : option D) (e : le) : le := Le (le_prev e) (le_next e) (le_list e) d.
Definition set_head (x : option loc) (hd : list_hd) : list_hd := Hd x (hd_tail hd).
Definition set_tail (x : option loc) (hd : list_hd) : list_hd := Hd (hd_head hd) x.

(** [if (p) *p = f] *)
Definition mod_opt (o : option loc) (f : le -> le) : M heap unit :=
  match o with Some x => mod_le x f | None => ret tt end.

(** ** Operations *)

Definition list_init (l : loc) : M heap unit := mod_hd l (fun _ => Hd None None).

Definition list_append (l x : loc) (data : option D) : M heap unit :=
  let* e := load_le x in
  match le_list e with
  | Some _ => ret tt
  | None =>
      let* hd := load_hd l in
      mod_le x (fun _ => Le (hd_tail hd) None (Some l) data) ;;
      match hd_head hd with Some _ => ret tt | None => mod_hd l (set_head (Some x)) end ;;
      mod_opt (hd_tail hd) (set_next (Some x)) ;;
      mod_hd l (set_tail (Some x))
  end.

Definition list_prepend (l x : loc) (data : option D) : M heap unit :=
  let* e := load_le x in
  match le_list e with
  | Some _ => ret tt
  | None =>
      let* hd := load_hd l in
      mod_le x (fun _ => Le None (hd_head hd) (Some l) data) ;;
      mod_opt (hd_head hd) (set_prev (Some x)) ;;
      match hd_tail hd with Some _ => ret tt | None => mod_hd l (set_tail (Some x)) end ;;
      mod_hd l (set_head (Some x))
  end.

Definition list_insert_before (l le ile : loc) (data : option D) : M heap unit :=
  let* ie := load_le ile in
  match le_list ie with
  | Some _ => ret tt
  | None =>
      let* e := load_le le in
      match le_prev e with
      | Some p => mod_le p (set_next (Some ile))
      | None =>
          let* hd := load_hd l in
          if bool_decide (hd_head hd = Some le) then mod_hd l (set_head (Some ile)) else ret tt
      end ;;
      let* e := load_le le in
      mod_le ile (fun _ => Le (le_prev e) (Some le) (Some l) data) ;;
      mod_le le (set_prev (Some ile))
  end.

Definition list_insert_after (l le ile : loc) (data : option D) : M heap unit :=
  let* ie := load_le ile in
  match le_list ie with
  | Some _ => ret tt
  | None =>
      let* e := load_le le in
      match le_next e with
      | Some n => mod_le n (set_prev (Some ile))
      | None =>
          let* hd := load_hd l in
          if bool_decide (hd_tail hd = Some le) then mod_hd l (set_tail (Some ile)) else ret tt
      end ;;
      let* e := load_le le in
      mod_le ile (fun _ => Le (Some le) (le_next e) (Some l) data) ;;
      mod_le le (set_next (Some ile))
  end.

Definition list_unlink (x : loc) : M heap unit :=
  let* e := load_le x in
  match le_list e with
  | None => ret tt
  | Some l =>
      match le_prev e with
      | Some p => mod_le p (set_next (le_next e))
      | None => mod_hd l (set_head (le_next e))
      end ;;
      let* e := load_le x in
      match le_next e with
      | Some n => mod_le n (set_prev (le_prev e))
      | None => mod_hd l (set_tail (le_prev e))
      end ;;
      mod_le x (fun e => Le None None None (le_data e))
  end.

Definition list_move (x l : loc) : M heap unit :=
  list_unlink x ;;
  let* e := load_le x in list_append l x (le_data e).

(** [while (le)] of [list_clear]; the fuel bounds the length of the list. *)
Fixpoint clear_loop (fuel : nat) (o : option loc) : M heap unit :=
  match o with
  | None => ret tt
  | Some x =>
      match fuel with
      | O => ub
      | S fuel =>
          let* e := load_le x in
          mod_le x (fun _ => Le None None None None) ;;
          clear_loop fuel (le_next e)
      end
  end.

Definition list_clear (fuel : nat) (l : loc) : M heap unit :=
  let* hd := load_hd l in
  clear_loop fuel (hd_head hd) ;;
  list_init l.

(** [list_flush]: the pointers passed to [mem_deref], in order. *)
Fixpoint flush_loop (fuel : nat) (o : option loc) : M heap (list (option D)) :=
  match o with
  | None => ret []
  | Some x =>
      match fuel with
      | O => ub
      | S fuel =>
          let* e := load_le x in
          list_unlink x ;;
          mod_le x (set_data None) ;;
          let* ds := flush_loop fuel (le_next e) in
          ret (le_data e :: ds)
      end
  end.

Definition list_flush (fuel : nat) (l : loc) : M heap (list (option D)) :=
  let* hd := load_hd l in
  let* ds := flush_loop fuel (hd_head hd) in
  list_init l ;;
  ret ds.

(** The handlers of the next operations look at the elements' data. *)
Section handlers.
Context (sh : option D -> option D -> bool).

(** [while (le)] of [list_insert_sorted], from the tail. *)
Fixpoint insert_sorted_loop (fuel : nat) (l ile : loc) (o : option loc) : M heap unit :=
  match o with
  | None => let* ie := load_le ile in list_prepend l ile (le_data ie)
  | Some x =>
      match fuel with
      | O => ub
      | S fuel =>
          let* e := load_le x in
          let* ie := load_le ile in
          if sh (le_data e) (le_data ie) then list_insert_after l x ile (le_data ie)
          else insert_sorted_loop fuel l ile (le_prev e)
      end
  end.

Definition list_insert_sorted (fuel : nat) (l ile : loc) (data : option D) : M heap unit :=
  let* hd := load_hd l in
  mod_le ile (set_data data) ;;
  insert_sorted_loop fuel l ile (hd_tail hd).

(** One pass of [list_sort]: whether it moved an element. *)
Fixpoint sort_pass (fuel : nat) (l : loc) (o : option loc) (sort : bool) : M heap bool :=
  match o with
  | None => ret sort
  | Some x =>
      let* e := load_le x in
      match le_next e with
      | None => ret sort
      | Some y =>
          match fuel with
          | O => ub
          | S fuel =>
              let* ey := load_le y in
              if sh (le_data e) (le_data ey) then sort_pass fuel l (Some y) sort
              else
                list_unlink x ;;
                let* ex := load_le x in
                list_insert_after l y x (le_data ex) ;;
                sort_pass fuel l (Some x) true
          end
      end
  end.

(** [retry]: the fuel [n] bounds the number of passes. *)
Fixpoint list_sort (n fuel : nat) (l : loc) : M heap unit :=
  match n with
  | O => ub
  | S n =>
      let* hd := load_hd l in
      let* sort := sort_pass fuel l (hd_head hd) false in
      if sort then list_sort n fuel l else ret tt
  end.

End handlers.

(** [list_apply]: the element at which the handler returned true. *)
Fixpoint apply_loop (ah : option D -> bool) (fwd : bool) (fuel : nat) (o : option loc) : M heap (option loc) :=
  match o with
  | None => ret None
  | Some x =>
      match fuel with
      | O => ub
      | S fuel =>
          let* e := load_le x in
          if ah (le_data e) then ret (Some x)
          else apply_loop ah fwd fuel (if fwd then le_next e else le_prev e)
      end
  end.

Definition list_apply (fuel : nat) (l : loc) (fwd : bool) (ah : option D -> bool) : M heap (option loc) :=
  let* hd := load_hd l in
  apply_loop ah fwd fuel (if fwd then hd_head hd else hd_tail hd).

Definition list_head (l : loc) : M heap (option loc) := let* hd := load_hd l in ret (hd_head hd).
Definition list_tail (l : loc) : M heap (option loc) := let* hd := load_hd l in ret (hd_tail hd).

Fixpoint count_loop (fuel : nat) (n : Z) (o : option loc) : M heap Z :=
  match o with
  | None => ret n
  | Some x =>
      match fuel with
      | O => ub
      | S fuel => let* e := load_le x in count_loop fuel (u32 (n + 1)) (le_next e)
      end
  end.

Definition list_count (fuel : nat) (l : loc) : M heap Z :=
  let* hd := load_hd l in count_loop fuel 0 (hd_head hd).

Definition list_contains (l x : loc) : M heap bool :=
  let* e := load_le x in ret (bool_decide (le_list e = Some l)).

Definition list_isempty (l : loc) : M heap bool :=
  let* hd := load_hd l in ret (bool_decide (hd_head hd = None)).

End list.

#[global] Arguments le : clear implicits.
#[global] Arguments heap : clear implicits.
