(* ===== verification/LinkedListThms.v ===== *)
(** * Linked lists implement sequences

    [repr h m] says that the heap [h] holds, for every list head [l], the
    sequence [m !! l] of elements with their data, properly linked both ways.
    Every operation of list.c maps a heap that represents [m] to one that
    represents the result of the operation on sequences. *)

From S2P Require Export LinkedList.

Section thms.
Context {D : Type}.
Implicit Types (xs ys : list (loc * option D)) (h : heap D) (es : gmap loc (le D)).

(** ** Segments *)

Definition ids (xs : list (loc * option D)) : list loc := xs.*1.
Definition first (xs : list (loc * option D)) (q : option loc) : option loc :=
  match xs with [] => q | x :: _ => Some x.1 end.
Definition final (p : option loc) (xs : list (loc * option D)) : option loc :=
  match last xs with None => p | Some x => Some x.1 end.

(** The elements [xs] of list [l], between the neighbours [p] and [q]. *)
Fixpoint seg (es : gmap loc (le D)) (l : loc) (p : option loc) (xs : list (loc * option D)) (q : option loc) : Prop :=
  match xs with
  | [] => True
  | x :: xs => es !! x.1 = Some (Le p (first xs q) (Some l) x.2) /\ seg es l (Some x.1) xs q
  end.

Lemma first_app xs ys q : first (xs ++ ys) q = first xs (first ys q).
Proof. by destruct xs. Qed.

Lemma final_app p xs ys : final p (xs ++ ys) = final (final p xs) ys.
Proof. unfold final. rewrite last_app. by destruct (last ys). Qed.

Lemma final_cons p x xs : final p (x :: xs) = final (Some x.1) xs.
Proof. apply (final_app p [x] xs). Qed.

Lemma seg_app es l p xs ys q :
  seg es l p (xs ++ ys) q <-> seg es l p xs (first ys q) /\ seg es l (final p xs) ys q.
Proof.
  revert p. induction xs as [|x xs IH]; intros p; [cbn; unfold final; cbn; tauto|].
  cbn [app seg]. rewrite IH, first_app, final_cons. tauto.
Qed.

Lemma seg_frame es es' l p xs q : (forall x, x ∈ ids xs -> es' !! x = es !! x) ->
  seg es l p xs q -> seg es' l p xs q.
Proof.
  revert p. induction xs as [|x xs IH]; intros p Hf; [done|]. cbn. intros [E Hs]. split.
  - rewrite Hf; [done|]. apply list_elem_of_here.
  - apply IH; [|done]. intros y Hy. apply Hf. by apply list_elem_of_further.
Qed.

Lemma seg_lookup es l p xs q x : seg es l p xs q -> x ∈ ids xs -> exists e, es !! x = Some e /\ le_list e = Some l.
Proof.
  revert p. induction xs as [|y xs IH]; intros p; cbn; [by intros _ ?%elem_of_nil|].
  intros [E Hs] [->|Hx]%elem_of_cons; [by eexists|by eapply IH].
Qed.

(** Redirecting the ends of a segment. *)
Definition upd (o : option loc) (f : le D -> le D) (es : gmap loc (le D)) : gmap loc (le D) :=
  match o with Some x => alter f x es | None => es end.

Lemma seg_set_next es l p xs q q' : NoDup (ids xs) -> seg es l p xs q ->
  seg (upd (final None xs) (set_next q') es) l p xs q'.
Proof.
  intros Hn Hs. destruct xs as [|x xs _] using rev_ind; [done|]. unfold ids in Hn. rewrite fmap_app in Hn.
  apply NoDup_app in Hn as (_ & Hn & _).
  apply seg_app in Hs as [H1 [H2 _]]. rewrite final_app. cbn. apply seg_app. cbn. split_and!; [|by rewrite lookup_alter_eq, H2|done].
  eapply seg_frame; [|done]. intros y Hy. apply lookup_alter_ne. intros <-. apply (Hn _ Hy), list_elem_of_here.
Qed.

Lemma seg_set_prev es l p p' xs q : NoDup (ids xs) -> seg es l p xs q ->
  seg (upd (first xs None) (set_prev p') es) l p' xs q.
Proof.
  intros Hn Hs. destruct xs as [|x xs]; [done|]. apply NoDup_cons in Hn as [Hx Hn]. destruct Hs as [E Hs]. cbn.
  split; [by rewrite lookup_alter_eq, E|]. eapply seg_frame; [|done]. intros y Hy. apply lookup_alter_ne. by intros <-.
Qed.

Lemma upd_ne o f es x : o <> Some x -> upd o f es !! x = es !! x.
Proof. destruct o as [y|]; [|done]. intros Hne. apply lookup_alter_ne. congruence. Qed.

Lemma final_in p xs x : final p xs = Some x -> p = Some x \/ x ∈ ids xs.
Proof.
  unfold final. destruct (last xs) as [y|] eqn:E; [|auto]. intros [= <-]. right.
  apply last_Some in E as [l' ->]. unfold ids. rewrite fmap_app. apply elem_of_app. right. apply list_elem_of_here.
Qed.

Lemma first_in xs q x : first xs q = Some x -> q = Some x \/ x ∈ ids xs.
Proof. destruct xs as [|y xs]; [auto|]. intros [= <-]. right. apply list_elem_of_here. Qed.

(** [mod_opt] on a segment's end is [upd]. *)
Lemma mod_opt_upd h o f : (forall x, o = Some x -> is_Some (les h !! x)) ->
  mod_opt o f h = Some (tt, Heap (upd o f (les h)) (lists h)).
Proof.
  intros Ho. destruct o as [x|]; [|by destruct h]. cbn. unfold mod_le. destruct (Ho x eq_refl) as [e E].
  rewrite E. do 3 f_equal. apply map_eq. intros y. destruct (decide (x = y)) as [->|].
  - by rewrite lookup_insert_eq, lookup_alter_eq, E.
  - by rewrite lookup_insert_ne, lookup_alter_ne.
Qed.

(** ** Heaps and the sequences they hold *)

Abbreviation seqs := (gmap loc (list (loc * option D))).
Implicit Type m : seqs.

Record repr (h : heap D) (m : seqs) : Prop := {
  rp_hd : forall l, lists h !! l = (fun xs => Hd (first xs None) (final None xs)) <$> (m !! l);
  rp_seg : forall l xs, m !! l = Some xs -> seg (les h) l None xs None;
  rp_nodup : forall l xs, m !! l = Some xs -> NoDup (ids xs);
  rp_own : forall x e l, les h !! x = Some e -> le_list e = Some l -> exists xs, m !! l = Some xs /\ x ∈ ids xs;
}.

Lemma repr_load_hd h m l xs : repr h m -> m !! l = Some xs ->
  load_hd l h = Some (Hd (first xs None) (final None xs), h).
Proof. intros Hr E. unfold load_hd. by rewrite (rp_hd _ _ Hr), E. Qed.

(** Replacing the sequence of one list: the elements of other lists and the
    unlinked ones keep their content. *)
Lemma repr_update h m l xs ys es' : repr h m -> m !! l = Some xs ->
  seg es' l None ys None -> NoDup (ids ys) ->
  (forall x, x ∉ ids xs -> x ∉ ids ys -> es' !! x = les h !! x) ->
  (forall x, x ∈ ids ys -> x ∉ ids xs -> exists e, les h !! x = Some e /\ le_list e = None) ->
  (forall x e, x ∈ ids xs -> x ∉ ids ys -> es' !! x = Some e -> le_list e = None) ->
  repr (Heap es' (<[l := Hd (first ys None) (final None ys)]> (lists h))) (<[l := ys]> m).
Proof.
  intros Hr E Hs Hn Hf Hnew Hold. pose proof (rp_seg _ _ Hr _ _ E) as Hs0.
  assert (forall l' xs' x, l' <> l -> m !! l' = Some xs' -> x ∈ ids xs' -> (x ∉ ids xs) /\ (x ∉ ids ys)) as Hdis.
  { intros l' xs' x Hl E' Hx. destruct (seg_lookup _ _ _ _ _ x (rp_seg _ _ Hr _ _ E') Hx) as (e & Ee & El).
    assert (x ∉ ids xs) as Hx0.
    { intros Hx'. destruct (seg_lookup _ _ _ _ _ x Hs0 Hx') as (e' & Ee' & El'). congruence. }
    split; [done|]. intros Hy. destruct (Hnew x Hy Hx0) as (e' & Ee' & El'). congruence. }
  split.
  - intros l'. cbn. destruct (decide (l = l')) as [->|]; [by rewrite !lookup_insert_eq|].
    rewrite !lookup_insert_ne by done. apply (rp_hd _ _ Hr).
  - intros l' xs' E'. cbn. destruct (decide (l = l')) as [->|]; [rewrite lookup_insert_eq in E'; by simplify_eq|].
    rewrite lookup_insert_ne in E' by done. eapply seg_frame; [|by apply (rp_seg _ _ Hr)].
    intros x Hx. destruct (Hdis l' xs' x) as [? ?]; auto.
  - intros l' xs' E'. destruct (decide (l = l')) as [->|]; [rewrite lookup_insert_eq in E'; by simplify_eq|].
    rewrite lookup_insert_ne in E' by done. by apply (rp_nodup _ _ Hr l').
  - intros x e l' Ee El. cbn in Ee. destruct (decide (x ∈ ids ys)) as [Hy|Hy].
    { destruct (seg_lookup _ _ _ _ _ x Hs Hy) as (e' & Ee' & El').
      assert (l' = l) as -> by congruence. exists ys. by rewrite lookup_insert_eq. }
    destruct (decide (x ∈ ids xs)) as [Hx|Hx]; [rewrite (Hold x e Hx Hy Ee) in El; done|].
    rewrite Hf in Ee by done. destruct (rp_own _ _ Hr _ _ _ Ee El) as (xs' & E' & Hx').
    destruct (decide (l = l')) as [->|]; [congruence|]. exists xs'. by rewrite lookup_insert_ne.
Qed.

(** An element that is in no list. *)
Definition unlinked (h : heap D) (x : loc) : Prop := exists e, les h !! x = Some e /\ le_list e = None.

Lemma unlinked_notin h m l xs x : repr h m -> m !! l = Some xs -> unlinked h x -> x ∉ ids xs.
Proof.
  intros Hr E (e & Ee & El) Hx. destruct (seg_lookup _ _ _ _ _ x (rp_seg _ _ Hr _ _ E) Hx) as (e' & ? & ?). congruence.
Qed.

Lemma linked_in h m x e l : repr h m -> les h !! x = Some e -> le_list e = Some l ->
  exists a d b, m !! l = Some (a ++ (x, d) :: b) /\ (x ∉ ids a) /\ (x ∉ ids b).
Proof.
  intros Hr Ee El. destruct (rp_own _ _ Hr _ _ _ Ee El) as (xs & E & Hx).
  apply list_elem_of_fmap in Hx as ([y d] & -> & Hx). apply list_elem_of_split in Hx as (a & b & ->).
  pose proof (rp_nodup _ _ Hr _ _ E) as Hn. unfold ids in Hn. rewrite fmap_app in Hn. cbn in Hn.
  apply NoDup_app in Hn as (_ & Hab & Hn). apply NoDup_cons in Hn as [Hb _].
  exists a, d, b. split_and!; [done| |done]. intros Ha. apply (Hab _ Ha), list_elem_of_here.
Qed.

Lemma ids_app xs ys : ids (xs ++ ys) = ids xs ++ ids ys.
Proof. apply fmap_app. Qed.

(** Linking a new element between two halves of a list. *)
Lemma repr_link h m l a b x d es' : repr h m -> m !! l = Some (a ++ b) -> unlinked h x ->
  es' = <[x := Le (final None a) (first b None) (Some l) d]>
          (upd (first b None) (set_prev (Some x)) (upd (final None a) (set_next (Some x)) (les h))) ->
  repr (Heap es' (<[l := Hd (first (a ++ (x, d) :: b) None) (final None (a ++ (x, d) :: b))]> (lists h)))
    (<[l := a ++ (x, d) :: b]> m).
Proof.
  intros Hr E Hu ->. pose proof (unlinked_notin _ _ _ _ _ Hr E Hu) as Hx. rewrite ids_app, not_elem_of_app in Hx.
  destruct Hx as [Hxa Hxb]. pose proof (rp_nodup _ _ Hr _ _ E) as Hn. rewrite ids_app in Hn.
  apply NoDup_app in Hn as (Hna & Hab & Hnb). pose proof (rp_seg _ _ Hr _ _ E) as Hs. apply seg_app in Hs as [Hsa Hsb].
  apply (repr_update h m l (a ++ b)); [done|done|..].
  - apply seg_app. cbn. split_and!.
    + eapply seg_frame; [|exact (seg_set_next _ _ _ _ _ (Some x) Hna Hsa)].
      intros y Hy. rewrite lookup_insert_ne by (by intros <-). apply upd_ne. intros Ef.
      apply first_in in Ef as [|Ef]; [done|]. by apply (Hab y).
    + by rewrite lookup_insert_eq.
    + eapply seg_frame; [intros y Hy; by rewrite lookup_insert_ne by (by intros <-)|].
      apply (seg_set_prev _ _ (final None a) (Some x) _ _ Hnb). eapply seg_frame; [|exact Hsb].
      intros y Hy. apply upd_ne. intros Ef. apply final_in in Ef as [|Ef]; [done|]. by apply (Hab y).
  - rewrite ids_app. cbn. apply NoDup_app. split_and!; [done| |by apply NoDup_cons].
    intros y Hy [->|Hyb]%elem_of_cons; [done|]. by apply (Hab y).
  - intros y. rewrite !ids_app, !not_elem_of_app. intros [Hya Hyb] [_ Hy2]. cbn in Hy2.
    apply not_elem_of_cons in Hy2 as [Hyx _]. rewrite lookup_insert_ne by done. rewrite !upd_ne; [done| |].
    + intros Ef. by apply final_in in Ef as [|Ef].
    + intros Ef. by apply first_in in Ef as [|Ef].
  - intros y. rewrite !ids_app, !elem_of_app. intros [Hy|Hy] Hn; [destruct Hn; auto|].
    apply elem_of_cons in Hy as [->|Hy]; [done|]. destruct Hn; auto.
  - intros y e. rewrite !ids_app, !elem_of_app. intros Hy Hn. destruct Hn. destruct Hy; [auto|]. right. by right.
Qed.

(** Unlinking an element. *)
Lemma repr_unlink h m l a b x d es' : repr h m -> m !! l = Some (a ++ (x, d) :: b) ->
  es' = <[x := Le None None None d]>
          (upd (first b None) (set_prev (final None a)) (upd (final None a) (set_next (first b None)) (les h))) ->
  repr (Heap es' (<[l := Hd (first (a ++ b) None) (final None (a ++ b))]> (lists h))) (<[l := a ++ b]> m).
Proof.
  intros Hr E ->. pose proof (rp_nodup _ _ Hr _ _ E) as Hn. rewrite ids_app in Hn. cbn in Hn.
  apply NoDup_app in Hn as (Hna & Hab & Hnb). apply NoDup_cons in Hnb as [Hxb Hnb].
  assert (x ∉ ids a) as Hxa by (intros Hx; apply (Hab _ Hx), list_elem_of_here).
  assert (forall y, y ∈ ids a -> y ∉ ids b) as Hab'.
  { intros y Hy Hy'. apply (Hab _ Hy). by right. }
  pose proof (rp_seg _ _ Hr _ _ E) as Hs. apply seg_app in Hs as [Hsa [Hsx Hsb]].
  apply (repr_update h m l (a ++ (x, d) :: b)); [done|done|..].
  - apply seg_app. split.
    + eapply seg_frame; [|exact (seg_set_next _ _ _ _ _ (first b None) Hna Hsa)].
      intros y Hy. rewrite lookup_insert_ne by (by intros <-). apply upd_ne. intros Ef.
      apply first_in in Ef as [|Ef]; [done|]. by apply (Hab' y).
    + eapply seg_frame; [intros y Hy; by rewrite lookup_insert_ne by (by intros <-)|].
      apply (seg_set_prev _ _ (Some x) (final None a) _ _ Hnb). eapply seg_frame; [|exact Hsb].
      intros y Hy. apply upd_ne. intros Ef. apply final_in in Ef as [|Ef]; [done|]. by apply (Hab' y).
  - rewrite ids_app. apply NoDup_app. split_and!; done.
  - intros y. rewrite !ids_app, !not_elem_of_app. cbn. rewrite not_elem_of_cons. intros [Hya [Hyx Hyb]] _.
    rewrite lookup_insert_ne by done. rewrite !upd_ne; [done| |].
    + intros Ef. by apply final_in in Ef as [|Ef].
    + intros Ef. by apply first_in in Ef as [|Ef].
  - intros y. rewrite !ids_app, !elem_of_app. cbn. rewrite elem_of_cons. tauto.
  - intros y e. rewrite !ids_app, !elem_of_app. cbn. rewrite elem_of_cons. intros Hy Hn Ee.
    assert (y = x) as -> by tauto. rewrite lookup_insert_eq in Ee. by simplify_eq.
Qed.

(** ** The operations *)

Lemma upd_insert_ne o f x e es : o <> Some x -> upd o f (<[x := e]> es) = <[x := e]> (upd o f es).
Proof. destruct o as [y|]; [|done]. intros Hne. apply alter_insert_ne. congruence. Qed.

Lemma upd_dom o f es : dom (upd o f es) = dom es.
Proof. destruct o as [x|]; [|done]. apply dom_alter_L. Qed.

Lemma mod_le_eq h x f e : les h !! x = Some e -> mod_le x f h = Some (tt, Heap (<[x := f e]> (les h)) (lists h)).
Proof. intros E. unfold mod_le. by rewrite E. Qed.

Lemma mod_hd_eq h l f hd : lists h !! l = Some hd -> mod_hd l f h = Some (tt, Heap (les h) (<[l := f hd]> (lists h))).
Proof. intros E. unfold mod_hd. by rewrite E. Qed.

Lemma load_le_eq h x e : les h !! x = Some e -> load_le x h = Some (e, h).
Proof. intros E. unfold load_le. by rewrite E. Qed.

Lemma seg_final es l p xs q x : seg es l p xs q -> final None xs = Some x -> is_Some (es !! x).
Proof.
  intros Hs E. apply final_in in E as [|E]; [done|]. destruct (seg_lookup _ _ _ _ _ _ Hs E) as (e & -> & _). by eexists.
Qed.

Lemma seg_first es l p xs q x : seg es l p xs q -> first xs None = Some x -> is_Some (es !! x).
Proof.
  intros Hs E. apply first_in in E as [|E]; [done|]. destruct (seg_lookup _ _ _ _ _ _ Hs E) as (e & -> & _). by eexists.
Qed.

Lemma final_ne xs x : x ∉ ids xs -> final None xs <> Some x.
Proof. intros Hx E. by apply final_in in E as [|E]. Qed.

Lemma first_ne xs x : x ∉ ids xs -> first xs None <> Some x.
Proof. intros Hx E. by apply first_in in E as [|E]. Qed.

Lemma insert_defined o x e es (ls : gmap loc list_hd) : (forall y, o = Some y -> is_Some (es !! y)) ->
  forall y, o = Some y -> is_Some (les (Heap (<[x := e]> es) ls) !! y).
Proof.
  intros Ho y Ey. cbn. destruct (decide (x = y)) as [->|]; [rewrite lookup_insert_eq; by eexists|].
  rewrite lookup_insert_ne by done. auto.
Qed.

(** [x] linked into list [l] between [a] and [b], and nothing else changed. *)
Definition links (h : heap D) (l : loc) (a : list (loc * option D)) (x : loc) (d : option D)
    (b : list (loc * option D)) : heap D :=
  Heap (<[x := Le (final None a) (first b None) (Some l) d]>
          (upd (first b None) (set_prev (Some x)) (upd (final None a) (set_next (Some x)) (les h))))
    (<[l := Hd (first (a ++ (x, d) :: b) None) (final None (a ++ (x, d) :: b))]> (lists h)).

Lemma links_dom h l a x d b : is_Some (les h !! x) -> dom (les (links h l a x d b)) = dom (les h).
Proof.
  intros Hx. cbn. rewrite dom_insert_lookup_L, !upd_dom; [done|]. apply elem_of_dom.
  rewrite !upd_dom. by apply elem_of_dom.
Qed.

Lemma list_append_spec h m l xs x d : repr h m -> m !! l = Some xs -> unlinked h x ->
  list_append l x d h = Some (tt, links h l xs x d []).
Proof.
  intros Hr E Hu. pose proof (unlinked_notin _ _ _ _ _ Hr E Hu) as Hx. destruct Hu as (e & Ee & El).
  pose proof (rp_seg _ _ Hr _ _ E) as Hs. pose proof (rp_hd _ _ Hr l) as Eh. rewrite E in Eh. cbn in Eh.
  unfold list_append. rewrite (Prelude.bind_Some _ _ _ _ _ (load_le_eq _ _ _ Ee)), El.
  rewrite (Prelude.bind_Some _ _ _ _ _ (repr_load_hd _ _ _ _ Hr E)). cbn [hd_head hd_tail].
  rewrite (Prelude.bind_Some _ _ _ _ _ (mod_le_eq _ _ _ _ Ee)).
  set (h1 := Heap (<[x := _]> (les h)) (lists h)).
  set (hd1 := Hd (match xs with [] => Some x | _ => first xs None end) (final None xs)).
  assert (match first xs None with Some _ => ret tt | None => mod_hd l (set_head (Some x)) end h1 =
    Some (tt, Heap (les h1) (<[l := hd1]> (lists h)))) as E1.
  { destruct xs as [|y ys]; cbn [first].
    - by rewrite (mod_hd_eq h1 _ _ _ Eh).
    - cbn. unfold ret. do 3 f_equal. symmetry. apply insert_id. by rewrite Eh. }
  rewrite (Prelude.bind_Some _ _ _ _ _ E1). subst h1. cbn [les lists].
  rewrite (Prelude.bind_Some _ _ _ _ _ (mod_opt_upd _ _ _ (insert_defined _ _ _ _ _
    (fun y Ey => seg_final _ _ _ _ _ y Hs Ey)))).
  rewrite (mod_hd_eq _ _ _ hd1) by (cbn; by rewrite lookup_insert_eq). unfold links. do 3 f_equal.
  - cbn. by rewrite upd_insert_ne by (by apply final_ne).
  - cbn. rewrite insert_insert_eq, final_app. f_equal. unfold hd1, set_tail. cbn. f_equal. by destruct xs.
Qed.

Lemma list_prepend_spec h m l xs x d : repr h m -> m !! l = Some xs -> unlinked h x ->
  list_prepend l x d h = Some (tt, links h l [] x d xs).
Proof.
  intros Hr E Hu. pose proof (unlinked_notin _ _ _ _ _ Hr E Hu) as Hx. destruct Hu as (e & Ee & El).
  pose proof (rp_seg _ _ Hr _ _ E) as Hs. pose proof (rp_hd _ _ Hr l) as Eh. rewrite E in Eh. cbn in Eh.
  unfold list_prepend. rewrite (Prelude.bind_Some _ _ _ _ _ (load_le_eq _ _ _ Ee)), El.
  rewrite (Prelude.bind_Some _ _ _ _ _ (repr_load_hd _ _ _ _ Hr E)). cbn [hd_head hd_tail].
  rewrite (Prelude.bind_Some _ _ _ _ _ (mod_le_eq _ _ _ _ Ee)).
  rewrite (Prelude.bind_Some _ _ _ _ _ (mod_opt_upd _ _ _ (insert_defined _ _ _ _ _
    (fun y Ey => seg_first _ _ _ _ _ y Hs Ey)))). cbn [les lists].
  set (es1 := upd _ _ _). set (hd1 := Hd (first xs None) (match xs with [] => Some x | _ => final None xs end)).
  assert (match final None xs with Some _ => ret tt | None => mod_hd l (set_tail (Some x)) end (Heap es1 (lists h)) =
    Some (tt, Heap es1 (<[l := hd1]> (lists h)))) as E1.
  { destruct xs as [|y ys].
    - cbn. by rewrite (mod_hd_eq (Heap es1 (lists h)) _ _ _ Eh).
    - assert (exists z, final None (y :: ys) = Some z) as [z Ez].
      { unfold final. destruct (last (y :: ys)) eqn:El'; [by eexists|]. by apply last_None in El'. }
      rewrite Ez. unfold ret. do 3 f_equal. symmetry. apply insert_id. by rewrite Eh. }
  rewrite (Prelude.bind_Some _ _ _ _ _ E1).
  rewrite (mod_hd_eq _ _ _ hd1) by (cbn; by rewrite lookup_insert_eq). unfold links. do 3 f_equal.
  - subst es1. cbn. by rewrite upd_insert_ne by (by apply first_ne).
  - cbn. rewrite insert_insert_eq, final_cons. f_equal. unfold hd1, set_head. cbn. f_equal.
    destruct xs as [|y ys]; [done|]. by rewrite !final_cons.
Qed.

Lemma seg_mid es l p a y d b q : seg es l p (a ++ (y, d) :: b) q ->
  es !! y = Some (Le (final p a) (first b q) (Some l) d).
Proof. intros Hs. by apply seg_app in Hs as [_ [E _]]. Qed.

(** The ids around an element of a list. *)
Lemma mid_ids h m l a y dy b : repr h m -> m !! l = Some (a ++ (y, dy) :: b) ->
  (y ∉ ids a) /\ (y ∉ ids b) /\ (forall z, z ∈ ids a -> z ∉ ids b).
Proof.
  intros Hr E. pose proof (rp_nodup _ _ Hr _ _ E) as Hn. rewrite ids_app in Hn. cbn in Hn.
  apply NoDup_app in Hn as (_ & Hab & Hn). apply NoDup_cons in Hn as [Hb _]. split_and!; [|done|].
  - intros Hy. apply (Hab _ Hy), list_elem_of_here.
  - intros z Hz Hz'. apply (Hab _ Hz). by right.
Qed.

(** Updating a list head that already has the value. *)
Lemma hd_insert_id h m l xs hd : repr h m -> m !! l = Some xs -> hd = Hd (first xs None) (final None xs) ->
  <[l := hd]> (lists h) = lists h.
Proof. intros Hr E ->. apply insert_id. by rewrite (rp_hd _ _ Hr), E. Qed.

Lemma upd_Some x f es e : es !! x = Some e -> upd (Some x) f es = <[x := f e]> es.
Proof.
  intros E. cbn. apply map_eq. intros y. destruct (decide (x = y)) as [->|].
  - by rewrite lookup_insert_eq, lookup_alter_eq, E.
  - by rewrite lookup_insert_ne, lookup_alter_ne.
Qed.

Lemma final_some y ys : exists z, final None (y :: ys) = Some z.
Proof. rewrite final_cons. unfold final. destruct (last ys); by eexists. Qed.

Lemma list_insert_before_spec h m l a y dy b x d : repr h m -> m !! l = Some (a ++ (y, dy) :: b) -> unlinked h x ->
  list_insert_before l y x d h = Some (tt, links h l a x d ((y, dy) :: b)).
Proof.
  intros Hr E Hu. pose proof (unlinked_notin _ _ _ _ _ Hr E Hu) as Hx. destruct Hu as (e & Ee & El).
  rewrite ids_app, not_elem_of_app in Hx. cbn in Hx. rewrite not_elem_of_cons in Hx. destruct Hx as (Hxa & Hxy & Hxb).
  destruct (mid_ids _ _ _ _ _ _ _ Hr E) as (Hya & Hyb & Hab). pose proof (rp_seg _ _ Hr _ _ E) as Hs.
  pose proof (seg_mid _ _ _ _ _ _ _ _ Hs) as Ey. apply seg_app in Hs as [Hsa _].
  pose proof (rp_hd _ _ Hr l) as Eh. rewrite E in Eh. cbn in Eh.
  unfold list_insert_before. rewrite (Prelude.bind_Some _ _ _ _ _ (load_le_eq _ _ _ Ee)), El.
  rewrite (Prelude.bind_Some _ _ _ _ _ (load_le_eq _ _ _ Ey)). cbn [le_prev].
  set (es1 := upd (final None a) (set_next (Some x)) (les h)).
  set (ls1 := <[l := Hd (first (a ++ (x, d) :: (y, dy) :: b) None) (final None (a ++ (x, d) :: (y, dy) :: b))]> (lists h)).
  assert (match final None a with Some p => mod_le p (set_next (Some x)) | None => let* hd := load_hd l in
      if bool_decide (hd_head hd = Some y) then mod_hd l (set_head (Some x)) else ret tt end h =
    Some (tt, Heap es1 ls1)) as E1.
  { subst es1 ls1. destruct a as [|z a].
    - cbn [final list_basics.list.last]. rewrite (Prelude.bind_Some _ _ _ _ _ (repr_load_hd _ _ _ _ Hr E)). cbn [hd_head app first fst].
      rewrite bool_decide_true by done. rewrite (mod_hd_eq _ _ _ _ Eh). do 3 f_equal.
    - destruct (final_some z a) as [w Ew]. rewrite Ew. destruct (seg_final _ _ _ _ _ _ Hsa Ew) as [ew Eew].
      rewrite (mod_le_eq _ _ _ _ Eew), (upd_Some _ _ _ _ Eew).
      rewrite (hd_insert_id _ _ _ _ _ Hr E); [done|]. cbn [app first]. by rewrite !final_cons, !final_app, !final_cons. }
  rewrite (Prelude.bind_Some _ _ _ _ _ E1).
  assert (es1 !! y = Some (Le (final None a) (first b None) (Some l) dy)) as Ey1.
  { subst es1. by rewrite upd_ne by (by apply final_ne). }
  rewrite (Prelude.bind_Some _ _ _ _ _ (load_le_eq (Heap es1 ls1) _ _ Ey1)). cbn [le_prev].
  rewrite (Prelude.bind_Some _ _ _ _ _ (mod_le_eq (Heap es1 ls1) x _ e ltac:(cbn; subst es1; by rewrite upd_ne by (by apply final_ne)))).
  rewrite (mod_le_eq _ y _ (Le (final None a) (first b None) (Some l) dy)) by (cbn; by rewrite lookup_insert_ne).
  unfold links. do 3 f_equal. cbn [les first fst]. fold es1. rewrite (upd_Some _ _ _ _ Ey1).
  by rewrite insert_insert_ne.
Qed.

Lemma list_insert_after_spec h m l a y dy b x d : repr h m -> m !! l = Some (a ++ (y, dy) :: b) -> unlinked h x ->
  list_insert_after l y x d h = Some (tt, links h l (a ++ [(y, dy)]) x d b).
Proof.
  intros Hr E Hu. pose proof (unlinked_notin _ _ _ _ _ Hr E Hu) as Hx. destruct Hu as (e & Ee & El).
  rewrite ids_app, not_elem_of_app in Hx. cbn in Hx. rewrite not_elem_of_cons in Hx. destruct Hx as (Hxa & Hxy & Hxb).
  destruct (mid_ids _ _ _ _ _ _ _ Hr E) as (Hya & Hyb & Hab). pose proof (rp_seg _ _ Hr _ _ E) as Hs.
  pose proof (seg_mid _ _ _ _ _ _ _ _ Hs) as Ey. apply seg_app in Hs as [_ [_ Hsb]].
  pose proof (rp_hd _ _ Hr l) as Eh. rewrite E in Eh. cbn in Eh.
  unfold list_insert_after. rewrite (Prelude.bind_Some _ _ _ _ _ (load_le_eq _ _ _ Ee)), El.
  rewrite (Prelude.bind_Some _ _ _ _ _ (load_le_eq _ _ _ Ey)). cbn [le_next].
  set (es1 := upd (first b None) (set_prev (Some x)) (les h)).
  set (ls1 := <[l := Hd (first ((a ++ [(y, dy)]) ++ (x, d) :: b) None) (final None ((a ++ [(y, dy)]) ++ (x, d) :: b))]> (lists h)).
  assert (match first b None with Some n => mod_le n (set_prev (Some x)) | None => let* hd := load_hd l in
      if bool_decide (hd_tail hd = Some y) then mod_hd l (set_tail (Some x)) else ret tt end h =
    Some (tt, Heap es1 ls1)) as E1.
  { subst es1 ls1. rewrite <- app_assoc. destruct b as [|z b].
    - cbn [first]. rewrite (Prelude.bind_Some _ _ _ _ _ (repr_load_hd _ _ _ _ Hr E)). cbn [hd_tail].
      rewrite final_app in *. cbn in Eh |- *. rewrite bool_decide_true by done. rewrite (mod_hd_eq _ _ _ _ Eh).
      do 3 f_equal. rewrite final_app, !first_app. done.
    - cbn [first]. destruct (seg_first _ _ _ (z :: b) _ z.1 Hsb eq_refl) as [ez Eez].
      rewrite (mod_le_eq _ _ _ _ Eez), (upd_Some _ _ _ _ Eez).
      rewrite (hd_insert_id _ _ _ _ _ Hr E); [done|]. by rewrite !first_app, !final_app, !final_cons. }
  rewrite (Prelude.bind_Some _ _ _ _ _ E1).
  assert (es1 !! y = Some (Le (final None a) (first b None) (Some l) dy)) as Ey1.
  { subst es1. by rewrite upd_ne by (by apply first_ne). }
  rewrite (Prelude.bind_Some _ _ _ _ _ (load_le_eq (Heap es1 ls1) _ _ Ey1)). cbn [le_next].
  rewrite (Prelude.bind_Some _ _ _ _ _ (mod_le_eq (Heap es1 ls1) x _ e ltac:(cbn; subst es1; by rewrite upd_ne by (by apply first_ne)))).
  rewrite (mod_le_eq _ y _ (Le (final None a) (first b None) (Some l) dy)) by (cbn; by rewrite lookup_insert_ne).
  unfold links. do 3 f_equal. cbn [les]. rewrite final_app. cbn [final list_basics.list.last fst].
  rewrite (upd_Some y _ _ _ Ey). rewrite upd_insert_ne by (by apply first_ne). fold es1.
  by rewrite insert_insert_ne.
Qed.

(** [x] taken out of list [l] from between [a] and [b]. *)
Definition unlinks (h : heap D) (l : loc) (a : list (loc * option D)) (x : loc) (d : option D)
    (b : list (loc * option D)) : heap D :=
  Heap (<[x := Le None None None d]>
          (upd (first b None) (set_prev (final None a)) (upd (final None a) (set_next (first b None)) (les h))))
    (<[l := Hd (first (a ++ b) None) (final None (a ++ b))]> (lists h)).

Lemma list_unlink_spec h m l a x d b : repr h m -> m !! l = Some (a ++ (x, d) :: b) ->
  list_unlink x h = Some (tt, unlinks h l a x d b).
Proof.
  intros Hr E. destruct (mid_ids _ _ _ _ _ _ _ Hr E) as (Hxa & Hxb & Hab). pose proof (rp_seg _ _ Hr _ _ E) as Hs.
  pose proof (seg_mid _ _ _ _ _ _ _ _ Hs) as Ex. apply seg_app in Hs as [Hsa [_ Hsb]].
  pose proof (rp_hd _ _ Hr l) as Eh. rewrite E in Eh. cbn in Eh. rewrite first_app, final_app, final_cons in Eh. cbn in Eh.
  unfold list_unlink. rewrite (Prelude.bind_Some _ _ _ _ _ (load_le_eq _ _ _ Ex)). cbn [le_list le_prev le_next].
  set (es1 := upd (final None a) (set_next (first b None)) (les h)).
  set (ls1 := <[l := Hd (first (a ++ b) None) (final (Some x) b)]> (lists h)).
  assert (match final None a with Some p => mod_le p (set_next (first b None))
      | None => mod_hd l (set_head (first b None)) end h = Some (tt, Heap es1 ls1)) as E1.
  { subst es1 ls1. rewrite first_app. destruct a as [|z a].
    - cbn [final list_basics.list.last]. by rewrite (mod_hd_eq _ _ _ _ Eh).
    - destruct (final_some z a) as [w Ew]. rewrite Ew. destruct (seg_final _ _ _ _ _ _ Hsa Ew) as [ew Eew].
      rewrite (mod_le_eq _ _ _ _ Eew), (upd_Some _ _ _ _ Eew). cbn [first] in *. by rewrite (insert_id (lists h)). }
  rewrite (Prelude.bind_Some _ _ _ _ _ E1).
  assert (es1 !! x = Some (Le (final None a) (first b None) (Some l) d)) as Ex1.
  { subst es1. by rewrite upd_ne by (by apply final_ne). }
  rewrite (Prelude.bind_Some _ _ _ _ _ (load_le_eq (Heap es1 ls1) _ _ Ex1)). cbn [le_prev le_next].
  set (es2 := upd (first b None) (set_prev (final None a)) es1).
  set (ls2 := <[l := Hd (first (a ++ b) None) (final None (a ++ b))]> (lists h)).
  assert (match first b None with Some n => mod_le n (set_prev (final None a))
      | None => mod_hd l (set_tail (final None a)) end (Heap es1 ls1) = Some (tt, Heap es2 ls2)) as E2.
  { subst es2 ls2 ls1. rewrite final_app. destruct b as [|z b].
    - cbn [first]. rewrite (mod_hd_eq _ _ _ (Hd (first (a ++ []) None) (final (Some x) []))) by (cbn; by rewrite lookup_insert_eq).
      cbn. by rewrite insert_insert_eq.
    - cbn [first]. assert (exists ez, es1 !! z.1 = Some ez) as [ez Ez].
      { subst es1. rewrite upd_ne; [exact (seg_first _ _ _ (z :: b) _ z.1 Hsb eq_refl)|]. apply final_ne.
        intros Hz. apply (Hab _ Hz), list_elem_of_here. }
      rewrite (mod_le_eq _ _ _ ez) by done. rewrite (upd_Some _ _ _ _ Ez). by rewrite !final_cons. }
  rewrite (Prelude.bind_Some _ _ _ _ _ E2).
  rewrite (mod_le_eq _ x _ (Le (final None a) (first b None) (Some l) d)); [done|].
  cbn. subst es2. by rewrite upd_ne by (by apply first_ne).
Qed.

Lemma list_unlink_unlinked h x : unlinked h x -> list_unlink x h = Some (tt, h).
Proof.
  intros (e & Ee & El). unfold list_unlink. by rewrite (Prelude.bind_Some _ _ _ _ _ (load_le_eq _ _ _ Ee)), El.
Qed.

Lemma unlinks_dom h m l a x d b : repr h m -> m !! l = Some (a ++ (x, d) :: b) ->
  dom (les (unlinks h l a x d b)) = dom (les h).
Proof.
  intros Hr E. pose proof (seg_mid _ _ _ _ _ _ _ _ (rp_seg _ _ Hr _ _ E)) as Ex. cbn.
  rewrite dom_insert_lookup_L, !upd_dom; [done|]. apply elem_of_dom. rewrite !upd_dom. apply elem_of_dom. by eexists.
Qed.

Lemma unlinks_unlinked h l a x d b : les (unlinks h l a x d b) !! x = Some (Le None None None d).
Proof. cbn. by rewrite lookup_insert_eq. Qed.

(** ** Operations on sequences *)

(** The list that an element is in. *)
Definition owner (m : seqs) (x : loc) : option loc :=
  (fun p => p.2.1) <$> list_find (fun p => x ∈ ids p.2) (map_to_list m).

Lemma owner_repr h m x e : repr h m -> les h !! x = Some e -> owner m x = le_list e.
Proof.
  intros Hr Ee. unfold owner. destruct (list_find _ _) as [[i [l xs]]|] eqn:Ef; cbn.
  - apply list_find_Some in Ef as (Ei & Hx & _). apply list_elem_of_lookup_2, elem_of_map_to_list in Ei.
    destruct (seg_lookup _ _ _ _ _ x (rp_seg _ _ Hr _ _ Ei) Hx) as (e' & Ee' & El'). congruence.
  - destruct (le_list e) as [l|] eqn:El; [|done]. apply list_find_None in Ef. rewrite Forall_forall in Ef.
    destruct (rp_own _ _ Hr _ _ _ Ee El) as (xs & E & Hx). destruct (Ef (l, xs)); [by apply elem_of_map_to_list|done].
Qed.

Fixpoint seq_before (y : loc) (z : loc * option D) (xs : list (loc * option D)) : list (loc * option D) :=
  match xs with
  | [] => []
  | a :: xs => if bool_decide (a.1 = y) then z :: a :: xs else a :: seq_before y z xs
  end.

Fixpoint seq_after (y : loc) (z : loc * option D) (xs : list (loc * option D)) : list (loc * option D) :=
  match xs with
  | [] => []
  | a :: xs => if bool_decide (a.1 = y) then a :: z :: xs else a :: seq_after y z xs
  end.

Definition seq_remove (x : loc) (xs : list (loc * option D)) : list (loc * option D) :=
  filter (fun a => a.1 <> x) xs.

Lemma seq_before_app y z a dy b : y ∉ ids a -> seq_before y z (a ++ (y, dy) :: b) = a ++ z :: (y, dy) :: b.
Proof.
  induction a as [|c a IH]; cbn; intros Hy; [by rewrite bool_decide_true|].
  apply not_elem_of_cons in Hy as [Hc Hy]. rewrite bool_decide_false by congruence. by rewrite IH.
Qed.

Lemma seq_after_app y z a dy b : y ∉ ids a -> seq_after y z (a ++ (y, dy) :: b) = a ++ (y, dy) :: z :: b.
Proof.
  induction a as [|c a IH]; cbn; intros Hy; [by rewrite bool_decide_true|].
  apply not_elem_of_cons in Hy as [Hc Hy]. rewrite bool_decide_false by congruence. by rewrite IH.
Qed.

Lemma seq_remove_notin x xs : x ∉ ids xs -> seq_remove x xs = xs.
Proof.
  intros Hx. unfold seq_remove. induction xs as [|c xs IH]; [done|]. cbn in Hx. apply not_elem_of_cons in Hx as [Hc Hx].
  rewrite filter_cons_True by congruence. by rewrite IH.
Qed.

Lemma seq_remove_app x d a b : x ∉ ids a -> x ∉ ids b -> seq_remove x (a ++ (x, d) :: b) = a ++ b.
Proof.
  intros Ha Hb. unfold seq_remove. rewrite filter_app, filter_cons_False by (cbn; tauto).
  fold (seq_remove x a) (seq_remove x b). by rewrite !seq_remove_notin.
Qed.

End thms.
