(* ===== verification/LinkedListSort.v ===== *)
(** * Linked lists: traversal, removal of all elements, sorted insertion and
    sorting

    The loops of list.c, each with a bound on the number of iterations that is
    enough for it to finish. *)

From S2P Require Export LinkedList LinkedListThms.
From Stdlib Require Export Sorted.

Section loops.
Context {D : Type}.
Implicit Types (xs ys : list (loc * option D)) (h : heap D).
Abbreviation seqs := (gmap loc (list (loc * option D))).
Implicit Type m : seqs.

(** ** Unlinked elements may change *)

Lemma repr_set_unlinked h m x e : repr h m -> unlinked h x -> le_list e = None ->
  repr (Heap (<[x := e]> (les h)) (lists h)) m.
Proof.
  intros Hr Hu El. split; cbn.
  - apply (rp_hd _ _ Hr).
  - intros l xs E. eapply seg_frame; [|by apply (rp_seg _ _ Hr)]. intros y Hy. apply lookup_insert_ne.
    intros <-. by apply (unlinked_notin _ _ _ _ _ Hr E Hu).
  - apply (rp_nodup _ _ Hr).
  - intros y e' l Ee El'. destruct (decide (x = y)) as [->|].
    + rewrite lookup_insert_eq in Ee. congruence.
    + rewrite lookup_insert_ne in Ee by done. by apply (rp_own _ _ Hr y e').
Qed.

Lemma repr_links h m l a b x d : repr h m -> m !! l = Some (a ++ b) -> unlinked h x ->
  repr (links h l a x d b) (<[l := a ++ (x, d) :: b]> m).
Proof. intros Hr E Hu. by eapply repr_link. Qed.

Lemma repr_unlinks h m l a b x d : repr h m -> m !! l = Some (a ++ (x, d) :: b) ->
  repr (unlinks h l a x d b) (<[l := a ++ b]> m).
Proof. intros Hr E. by eapply repr_unlink. Qed.

(** ** Traversal *)

Lemma count_loop_spec es (ls : gmap loc list_hd) l p xs fuel n : seg es l p xs None -> (length xs <= fuel)%nat ->
  0 <= n < 2 ^ 32 ->
  count_loop fuel n (first xs None) (Heap es ls) = Some (u32 (n + zlength xs), Heap es ls).
Proof.
  revert p fuel n. induction xs as [|x xs IH]; intros p fuel n Hs Hl Hn; cbn [first].
  - destruct fuel; cbn; unfold ret; rewrite Z.add_0_r, wrap_small by done; done.
  - destruct fuel as [|fuel]; [cbn in Hl; lia|]. destruct Hs as [E Hs]. cbn [count_loop].
    rewrite (Prelude.bind_Some _ _ _ _ _ (load_le_eq (Heap es ls) _ _ E)). cbn [le_next].
    pose proof (wrap_range 32 (n + 1)). rewrite (IH (Some x.1)) by (done || cbn in *; lia). do 2 f_equal.
    cbn [length]. unfold wrap. rewrite Z.add_mod_idemp_l by lia. f_equal. lia.
Qed.

Lemma apply_fwd_spec ah es (ls : gmap loc list_hd) l p xs fuel : seg es l p xs None -> (length xs <= fuel)%nat ->
  apply_loop ah true fuel (first xs None) (Heap es ls) =
    Some ((fun r => r.2.1) <$> list_find (fun x => ah x.2 = true) xs, Heap es ls).
Proof.
  revert p fuel. induction xs as [|x xs IH]; intros p fuel Hs Hl; cbn [first].
  - by destruct fuel.
  - destruct fuel as [|fuel]; [cbn in Hl; lia|]. destruct Hs as [E Hs]. cbn [apply_loop].
    rewrite (Prelude.bind_Some _ _ _ _ _ (load_le_eq (Heap es ls) _ _ E)). cbn [le_next le_data list_find].
    destruct (ah x.2) eqn:Ea; [by rewrite decide_True|]. rewrite decide_False by done.
    rewrite (IH (Some x.1)) by (done || cbn in *; lia). by destruct (list_find _ xs) as [[? ?]|].
Qed.

Lemma apply_bwd_spec ah es (ls : gmap loc list_hd) l xs q fuel : seg es l None xs q -> (length xs <= fuel)%nat ->
  apply_loop ah false fuel (final None xs) (Heap es ls) =
    Some ((fun r => r.2.1) <$> list_find (fun x => ah x.2 = true) (reverse xs), Heap es ls).
Proof.
  revert q fuel. induction xs as [|x xs IH] using rev_ind; intros q fuel Hs Hl.
  - by destruct fuel.
  - rewrite length_app in Hl. cbn in Hl. destruct fuel as [|fuel]; [lia|]. apply seg_app in Hs as [Hs [E _]].
    rewrite final_app. cbn [final list_basics.list.last]. cbn [apply_loop].
    rewrite (Prelude.bind_Some _ _ _ _ _ (load_le_eq (Heap es ls) _ _ E)). cbn [le_prev le_data].
    rewrite reverse_app. cbn [reverse rev_append app list_find].
    destruct (ah x.2) eqn:Ea; [by rewrite decide_True|]. rewrite decide_False by done.
    rewrite (IH (first [x] q)) by (done || lia). by destruct (list_find _ (reverse xs)) as [[? ?]|].
Qed.

(** ** Removal of all elements *)

(** The elements of [xs], reset. *)
Fixpoint reset (xs : list (loc * option D)) (es : gmap loc (le D)) : gmap loc (le D) :=
  match xs with [] => es | x :: xs => reset xs (<[x.1 := Le None None None None]> es) end.

Lemma reset_lookup xs es x : reset xs es !! x =
  if decide (x ∈ ids xs) then Some (Le None None None None) else es !! x.
Proof.
  revert es. induction xs as [|y xs IH]; intros es; cbn [reset].
  - by rewrite decide_False by apply not_elem_of_nil.
  - rewrite IH. unfold ids. cbn. destruct (decide (x ∈ xs.*1)) as [Hx|Hx].
    + by rewrite decide_True by (by right).
    + destruct (decide (x = y.1)) as [->|Hne].
      * by rewrite decide_True, lookup_insert_eq by apply list_elem_of_here.
      * rewrite lookup_insert_ne, decide_False by (rewrite ?not_elem_of_cons; done). done.
Qed.

Lemma clear_loop_spec es (ls : gmap loc list_hd) l p xs fuel : seg es l p xs None -> NoDup (ids xs) ->
  (length xs <= fuel)%nat -> clear_loop fuel (first xs None) (Heap es ls) = Some (tt, Heap (reset xs es) ls).
Proof.
  revert es p fuel. induction xs as [|x xs IH]; intros es p fuel Hs Hn Hl; cbn [first].
  - by destruct fuel.
  - destruct fuel as [|fuel]; [cbn in Hl; lia|]. destruct Hs as [E Hs]. cbn in Hn. apply NoDup_cons in Hn as [Hx Hn].
    cbn [clear_loop]. rewrite (Prelude.bind_Some _ _ _ _ _ (load_le_eq (Heap es ls) _ _ E)).
    rewrite (Prelude.bind_Some _ _ _ _ _ (mod_le_eq (Heap es ls) _ _ _ E)). cbn [le_next les lists].
    rewrite (IH _ (Some x.1)); [done| |done|cbn in Hl; lia]. eapply seg_frame; [|done].
    intros y Hy. apply lookup_insert_ne. by intros <-.
Qed.

Lemma list_clear_spec h m l xs fuel : repr h m -> m !! l = Some xs -> (length xs <= fuel)%nat ->
  exists h', list_clear fuel l h = Some (tt, h') /\ repr h' (<[l := []]> m) /\ dom (les h') = dom (les h) /\
    forall x, x ∈ ids xs -> les h' !! x = Some (Le None None None None).
Proof.
  intros Hr E Hl. pose proof (rp_seg _ _ Hr _ _ E) as Hs. pose proof (rp_nodup _ _ Hr _ _ E) as Hn.
  unfold list_clear. rewrite (Prelude.bind_Some _ _ _ _ _ (repr_load_hd _ _ _ _ Hr E)). cbn [hd_head].
  destruct h as [es ls]. rewrite (Prelude.bind_Some _ _ _ _ _ (clear_loop_spec es ls l None xs fuel Hs Hn Hl)).
  pose proof (rp_hd _ _ Hr l) as Eh. rewrite E in Eh. cbn in Eh. unfold list_init. rewrite (mod_hd_eq (Heap (reset xs es) ls) _ _ _ Eh).
  eexists. split; [done|]. cbn [les lists]. split_and!.
  - apply (repr_update (Heap es ls) m l xs []); [done|done|done|constructor|..].
    + intros x Hx _. by rewrite reset_lookup, decide_False.
    + intros x Hx. by apply not_elem_of_nil in Hx.
    + intros x e Hx _. rewrite reset_lookup, decide_True by done. by intros [= <-].
  - apply set_eq. intros x. rewrite !elem_of_dom, reset_lookup. case_decide as Hd; [|done].
    destruct (seg_lookup _ _ _ _ _ x Hs Hd) as (e & Ee & _). split; intros _; [by exists e|by eexists].
  - intros x Hx. by rewrite reset_lookup, decide_True.
Qed.

Lemma flush_loop_spec l xs fuel h m : repr h m -> m !! l = Some xs -> (length xs <= fuel)%nat ->
  exists h', flush_loop fuel (first xs None) h = Some (xs.*2, h') /\ repr h' (<[l := []]> m) /\
    dom (les h') = dom (les h).
Proof.
  revert fuel h m. induction xs as [|[x d] xs IH]; intros fuel h m Hr E Hl; cbn [first fst].
  - exists h. rewrite insert_id by done. split_and!; [by destruct fuel|done|done].
  - destruct fuel as [|fuel]; [cbn in Hl; lia|]. cbn [flush_loop].
    pose proof (seg_mid _ _ _ [] _ _ _ _ (rp_seg _ _ Hr _ _ E)) as Ex.
    rewrite (Prelude.bind_Some _ _ _ _ _ (load_le_eq _ _ _ Ex)).
    rewrite (Prelude.bind_Some _ _ _ _ _ (list_unlink_spec _ _ _ [] _ _ _ Hr E)). cbn [le_next le_data].
    pose proof (repr_unlinks _ _ _ [] _ _ _ Hr E) as Hr1. cbn [app] in Hr1.
    pose proof (unlinks_unlinked h l [] x d xs) as Ex1.
    rewrite (Prelude.bind_Some _ _ _ _ _ (mod_le_eq _ _ _ _ Ex1)).
    assert (repr (Heap (<[x := set_data None (Le None None None d)]> (les (unlinks h l [] x d xs)))
      (lists (unlinks h l [] x d xs))) (<[l := xs]> m)) as Hr2.
    { apply repr_set_unlinked; [done| |done]. eexists. by split. }
    destruct (IH fuel _ _ Hr2) as (h' & E' & Hr' & Hd'); [by rewrite lookup_insert_eq|cbn in Hl; lia|].
    rewrite (Prelude.bind_Some _ _ _ _ _ E'). exists h'. rewrite insert_insert_eq in Hr'. split_and!; [done|done|].
    rewrite Hd'. cbn [les]. rewrite dom_insert_lookup_L by (rewrite Ex1; by eexists). by apply (unlinks_dom h m).
Qed.

Lemma list_flush_spec h m l xs fuel : repr h m -> m !! l = Some xs -> (length xs <= fuel)%nat ->
  exists h', list_flush fuel l h = Some (xs.*2, h') /\ repr h' (<[l := []]> m) /\ dom (les h') = dom (les h).
Proof.
  intros Hr E Hl. unfold list_flush. rewrite (Prelude.bind_Some _ _ _ _ _ (repr_load_hd _ _ _ _ Hr E)). cbn [hd_head].
  destruct (flush_loop_spec l xs fuel h m Hr E Hl) as (h' & E' & Hr' & Hd').
  rewrite (Prelude.bind_Some _ _ _ _ _ E'). pose proof (rp_hd _ _ Hr' l) as Eh. rewrite lookup_insert_eq in Eh. cbn in Eh.
  unfold list_init. rewrite (Prelude.bind_Some _ _ _ _ _ (mod_hd_eq _ _ _ _ Eh)).
  exists h'. split_and!; [|done|done]. unfold ret. rewrite insert_id by done. by destruct h'.
Qed.

(** ** Sorted insertion *)

Section order.
Context (sh : option D -> option D -> bool).

(** Insertion after the last element that may precede [z]. *)
Fixpoint seq_insert_sorted (z : loc * option D) (xs : list (loc * option D)) : list (loc * option D) :=
  match xs with
  | [] => [z]
  | e :: xs' => if existsb (fun e => sh e.2 z.2) xs then e :: seq_insert_sorted z xs' else z :: xs
  end.

Lemma seq_insert_none z xs : existsb (fun e => sh e.2 z.2) xs = false -> seq_insert_sorted z xs = z :: xs.
Proof. destruct xs as [|x xs]; [done|]. cbn [seq_insert_sorted]. by intros ->. Qed.

Lemma seq_insert_at z a e b : sh e.2 z.2 = true -> existsb (fun e => sh e.2 z.2) b = false ->
  seq_insert_sorted z (a ++ e :: b) = (a ++ [e]) ++ z :: b.
Proof.
  intros He Hb. induction a as [|c a IH]; cbn [app seq_insert_sorted].
  - cbn. rewrite He. cbn. by rewrite seq_insert_none.
  - assert (existsb (fun e => sh e.2 z.2) (c :: a ++ e :: b) = true) as ->.
    { cbn. rewrite existsb_app. cbn. rewrite He. cbn. by rewrite !orb_true_r. }
    by rewrite IH.
Qed.

Lemma insert_sorted_loop_spec l x e d fuel a b h m : repr h m -> m !! l = Some (a ++ b) ->
  existsb (fun e => sh e.2 d) b = false -> les h !! x = Some e -> le_list e = None -> le_data e = d ->
  (length a <= fuel)%nat ->
  exists a' b', a ++ b = a' ++ b' /\ seq_insert_sorted (x, d) (a ++ b) = a' ++ (x, d) :: b' /\
    insert_sorted_loop sh fuel l x (final None a) h = Some (tt, links h l a' x d b').
Proof.
  intros Hr E Hb Ex El Ed. assert (unlinked h x) as Hu by (eexists; by split).
  revert fuel b E Hb. induction a as [|[y dy] a IH] using rev_ind; intros fuel b E Hb Hl.
  - exists [], b. split_and!; [done|by apply seq_insert_none|].
    assert (insert_sorted_loop sh fuel l x None h = (let* ie := load_le x in list_prepend l x (le_data ie)) h) as Ee
      by (by destruct fuel).
    cbn [final list_basics.list.last]. rewrite Ee, (Prelude.bind_Some _ _ _ _ _ (load_le_eq _ _ _ Ex)), Ed.
    by apply (list_prepend_spec h m).
  - rewrite length_app in Hl. cbn in Hl. destruct fuel as [|fuel]; [lia|]. rewrite <- app_assoc in E. cbn [app] in E.
    pose proof (seg_mid _ _ _ _ _ _ _ _ (rp_seg _ _ Hr _ _ E)) as Ey.
    rewrite final_app. cbn [final list_basics.list.last fst insert_sorted_loop].
    rewrite (Prelude.bind_Some _ _ _ _ _ (load_le_eq _ _ _ Ey)), (Prelude.bind_Some _ _ _ _ _ (load_le_eq _ _ _ Ex)).
    rewrite Ed. cbn [le_data le_prev]. destruct (sh dy d) eqn:Esh.
    + exists (a ++ [(y, dy)]), b. rewrite <- app_assoc. cbn [app]. split_and!; [done| |].
      * rewrite (seq_insert_at (x, d)) by done. by rewrite <- app_assoc.
      * by apply (list_insert_after_spec h m).
    + rewrite <- app_assoc. cbn [app]. apply IH; [done| |lia]. cbn. by rewrite Esh.
Qed.

Lemma list_insert_sorted_spec h m l xs x d fuel : repr h m -> m !! l = Some xs -> unlinked h x ->
  (length xs <= fuel)%nat ->
  exists h', list_insert_sorted sh fuel l x d h = Some (tt, h') /\
    repr h' (<[l := seq_insert_sorted (x, d) xs]> m) /\ dom (les h') = dom (les h).
Proof.
  intros Hr E Hu Hl. pose proof Hu as (e & Ex & El).
  unfold list_insert_sorted. rewrite (Prelude.bind_Some _ _ _ _ _ (repr_load_hd _ _ _ _ Hr E)). cbn [hd_tail].
  rewrite (Prelude.bind_Some _ _ _ _ _ (mod_le_eq _ _ _ _ Ex)).
  set (h1 := Heap _ _). assert (repr h1 m) as Hr1 by (by apply repr_set_unlinked).
  assert (les h1 !! x = Some (set_data d e)) as Ex1 by (cbn; by rewrite lookup_insert_eq).
  destruct (insert_sorted_loop_spec l x (set_data d e) d fuel xs [] h1 m) as (a & b & Eab & Es & Er);
    [done| |done|done|done|done|done|].
  { by rewrite app_nil_r. }
  rewrite app_nil_r in *. subst xs. rewrite Er, Es. eexists. split; [done|]. split.
  - apply repr_links; [done|done|]. eexists. by split.
  - rewrite links_dom by (by eexists). cbn. by rewrite dom_insert_lookup_L by (by eexists).
Qed.

(** ** Sorting *)

(** One pass carries an element forward as long as it does not belong before
    the next. *)
Fixpoint bubble (z : loc * option D) (xs : list (loc * option D)) : list (loc * option D) :=
  match xs with
  | [] => [z]
  | e :: xs => if sh z.2 e.2 then z :: bubble e xs else e :: bubble z xs
  end.
Fixpoint moved (z : loc * option D) (xs : list (loc * option D)) : bool :=
  match xs with
  | [] => false
  | e :: xs => if sh z.2 e.2 then moved e xs else true
  end.

Lemma sort_pass_spec l fuel : forall b a x dx s h m, repr h m -> m !! l = Some (a ++ (x, dx) :: b) ->
  (length b <= fuel)%nat ->
  exists h', sort_pass sh fuel l (Some x) s h = Some (s || moved (x, dx) b, h') /\
    repr h' (<[l := a ++ bubble (x, dx) b]> m) /\ dom (les h') = dom (les h).
Proof.
  induction fuel as [|fuel IH]; intros b a x dx s h m Hr E Hl;
    pose proof (seg_mid _ _ _ _ _ _ _ _ (rp_seg _ _ Hr _ _ E)) as Ex; cbn [sort_pass];
    rewrite (Prelude.bind_Some _ _ _ _ _ (load_le_eq _ _ _ Ex)); cbn [le_next];
    (destruct b as [|[y dy] b]; cbn [first fst];
      [exists h; cbn; rewrite orb_false_r, insert_id by done; done|]).
  - cbn in Hl. lia.
  - assert (m !! l = Some ((a ++ [(x, dx)]) ++ (y, dy) :: b)) as E2 by (by rewrite <- app_assoc).
    pose proof (seg_mid _ _ _ _ _ _ _ _ (rp_seg _ _ Hr _ _ E2)) as Ey.
    rewrite (Prelude.bind_Some _ _ _ _ _ (load_le_eq _ _ _ Ey)). cbn [le_data bubble moved snd].
    destruct (sh dx dy) eqn:Es.
    + destruct (IH b (a ++ [(x, dx)]) y dy s h m Hr E2) as (h' & E' & Hr' & Hd'); [cbn in Hl; lia|].
      exists h'. rewrite <- app_assoc in Hr'. done.
    + rewrite (Prelude.bind_Some _ _ _ _ _ (list_unlink_spec _ _ _ _ _ _ _ Hr E)).
      pose proof (repr_unlinks _ _ _ _ _ _ _ Hr E) as Hr1. set (h1 := unlinks h l a x dx _) in *.
      pose proof (unlinks_unlinked h l a x dx ((y, dy) :: b)) as Ex1. fold h1 in Ex1.
      assert (unlinked h1 x) as Hu by (eexists; by split).
      rewrite (Prelude.bind_Some _ _ _ _ _ (load_le_eq _ _ _ Ex1)). cbn [le_data].
      rewrite (Prelude.bind_Some _ _ _ _ _ (list_insert_after_spec h1 _ l a y dy b x dx Hr1
        ltac:(by rewrite lookup_insert_eq) Hu)).
      pose proof (repr_links h1 _ l (a ++ [(y, dy)]) b x dx Hr1
        ltac:(by rewrite lookup_insert_eq, <- app_assoc) Hu) as Hr2. rewrite insert_insert_eq in Hr2.
      destruct (IH b (a ++ [(y, dy)]) x dx true _ _ Hr2) as (h' & E' & Hr' & Hd');
        [by rewrite lookup_insert_eq|cbn in Hl; lia|].
      exists h'. rewrite insert_insert_eq, <- app_assoc in Hr'. split_and!; [|done|].
      * rewrite E'. by rewrite orb_true_r.
      * rewrite Hd', links_dom by (rewrite Ex1; by eexists). by apply (unlinks_dom h m).
Qed.

Lemma bubble_perm z xs : bubble z xs ≡ₚ z :: xs.
Proof.
  revert z. induction xs as [|e xs IH]; intros z; [done|]. cbn. case_match; rewrite IH; [done|]. apply Permutation_swap.
Qed.

(** The pairs that are in the wrong order. *)
Definition wrong (z : loc * option D) (xs : list (loc * option D)) : nat :=
  length (filter (fun e => sh z.2 e.2 = false) xs).
Fixpoint inversions (xs : list (loc * option D)) : nat :=
  match xs with [] => 0%nat | x :: xs => (wrong x xs + inversions xs)%nat end.

Lemma wrong_perm z xs ys : xs ≡ₚ ys -> wrong z xs = wrong z ys.
Proof. intros E. unfold wrong. by rewrite E. Qed.

Lemma wrong_le z xs : (wrong z xs <= length xs)%nat.
Proof. apply length_filter. Qed.

Lemma inversions_le xs : (inversions xs <= length xs * length xs)%nat.
Proof.
  induction xs as [|x xs IH]; cbn [inversions length]; [lia|]. pose proof (wrong_le x xs). nia.
Qed.

(** A pass removes at least one inversion, or finds the list in order. *)
Lemma bubble_progress z xs : (forall d1 d2, sh d1 d2 = false -> sh d2 d1 = true) ->
  (inversions (bubble z xs) + (if moved z xs then 1 else 0) <= inversions (z :: xs))%nat.
Proof.
  intros Htot. revert z. induction xs as [|e xs IH]; intros z; [done|]. cbn [bubble moved].
  destruct (sh z.2 e.2) eqn:Es.
  - cbn [inversions]. rewrite (wrong_perm _ _ _ (bubble_perm e xs)). specialize (IH e). cbn [inversions] in IH. lia.
  - cbn [inversions]. rewrite (wrong_perm _ _ _ (bubble_perm z xs)). specialize (IH z). cbn [inversions] in IH.
    assert (wrong e (z :: xs) = wrong e xs) as ->.
    { unfold wrong. rewrite filter_cons_False; [done|]. rewrite (Htot _ _ Es). done. }
    assert (wrong z (e :: xs) = S (wrong z xs)) as -> by (unfold wrong; by rewrite filter_cons_True).
    destruct (moved z xs); lia.
Qed.

Lemma bubble_sorted z xs : moved z xs = false ->
  bubble z xs = z :: xs /\ Sorted (fun a b => sh a.2 b.2 = true) (z :: xs).
Proof.
  revert z. induction xs as [|e xs IH]; intros z; cbn; [intros _; split; [done|by repeat constructor]|].
  destruct (sh z.2 e.2) eqn:Es; [|done]. intros Hm. destruct (IH e Hm) as [-> Hs]. split; [done|].
  constructor; [done|]. by constructor.
Qed.

Lemma list_sort_run l fuel n : (forall d1 d2, sh d1 d2 = false -> sh d2 d1 = true) -> forall xs h m,
  repr h m -> m !! l = Some xs -> (inversions xs < n)%nat -> (length xs <= fuel)%nat ->
  exists ys h', list_sort sh n fuel l h = Some (tt, h') /\ repr h' (<[l := ys]> m) /\
    dom (les h') = dom (les h) /\ ys ≡ₚ xs /\ Sorted (fun a b => sh a.2 b.2 = true) ys.
Proof.
  intros Htot. induction n as [|n IH]; intros xs h m Hr E Hn Hl; [lia|]. cbn [list_sort].
  rewrite (Prelude.bind_Some _ _ _ _ _ (repr_load_hd _ _ _ _ Hr E)). cbn [hd_head].
  destruct xs as [|[x d] xs]; cbn [first fst].
  { exists [], h. rewrite insert_id by done. split_and!; [by destruct fuel|done|done|done|constructor]. }
  destruct (sort_pass_spec l fuel xs [] x d false h m Hr E) as (h1 & E1 & Hr1 & Hd1); [cbn in Hl; lia|].
  rewrite (Prelude.bind_Some _ _ _ _ _ E1). cbn [orb app] in *. pose proof (bubble_progress (x, d) xs Htot) as Hp.
  pose proof (bubble_perm (x, d) xs) as Hperm. destruct (moved (x, d) xs) eqn:Em.
  - destruct (IH (bubble (x, d) xs) h1 _ Hr1) as (ys & h' & E' & Hr' & Hd' & Hpy & Hs);
      [by rewrite lookup_insert_eq|lia|rewrite Hperm; done|].
    exists ys, h'. rewrite insert_insert_eq in Hr'. split_and!; [done|done|congruence|by rewrite Hpy|done].
  - destruct (bubble_sorted _ _ Em) as [Eb Hs]. rewrite Eb in *. by exists ((x, d) :: xs), h1.
Qed.

End order.
End loops.
