(* ===== verification/LinkedListProps.v ===== *)
(** * What list.c promises

    Every operation refines the operation on sequences; the queries return
    what the sequence determines; sorting terminates with a sorted permutation
    when the handler is total, and does not terminate when it is not. *)

From S2P Require Export LinkedList LinkedListThms LinkedListSort.

Section props.
Context {D : Type}.
Abbreviation seqs := (gmap loc (list (loc * option D))).
Implicit Types (h : heap D) (m : seqs).

Inductive list_op :=
  | OpAppend (l x : loc) (d : option D)
  | OpPrepend (l x : loc) (d : option D)
  | OpInsertBefore (l y x : loc) (d : option D)
  | OpInsertAfter (l y x : loc) (d : option D)
  | OpInsertSorted (sh : option D -> option D -> bool) (l x : loc) (d : option D)
  | OpUnlink (x : loc)
  | OpMove (x l : loc)
  | OpClear (l : loc)
  | OpFlush (l : loc).

(** The operation on the heap; the result is the data released. *)
Definition run_list_op (fuel : nat) (op : list_op) : M (heap D) (list (option D)) :=
  match op with
  | OpAppend l x d => list_append l x d ;; ret []
  | OpPrepend l x d => list_prepend l x d ;; ret []
  | OpInsertBefore l y x d => list_insert_before l y x d ;; ret []
  | OpInsertAfter l y x d => list_insert_after l y x d ;; ret []
  | OpInsertSorted sh l x d => list_insert_sorted sh fuel l x d ;; ret []
  | OpUnlink x => list_unlink x ;; ret []
  | OpMove x l => list_move x l ;; ret []
  | OpClear l => list_clear fuel l ;; ret []
  | OpFlush l => list_flush fuel l
  end.

(** A new element goes in unless it is in some list already. *)
Definition seq_insert (f : list (loc * option D) -> list (loc * option D)) (l x : loc) (m : seqs) : seqs :=
  match owner m x with Some _ => m | None => alter f l m end.

Definition seq_unlink (x : loc) (m : seqs) : seqs :=
  match owner m x with Some l => alter (seq_remove x) l m | None => m end.

(** The data of a linked element. *)
Definition seq_data (x : loc) (m : seqs) : option D :=
  match owner m x with
  | Some l => (list_find (fun e => e.1 = x) (default [] (m !! l))) ≫= fun r => r.2.2
  | None => None
  end.

(** The operation on sequences. *)
Definition spec_list_op (op : list_op) (m : seqs) : list (option D) * seqs :=
  match op with
  | OpAppend l x d => ([], seq_insert (fun xs => xs ++ [(x, d)]) l x m)
  | OpPrepend l x d => ([], seq_insert (cons (x, d)) l x m)
  | OpInsertBefore l y x d => ([], seq_insert (seq_before y (x, d)) l x m)
  | OpInsertAfter l y x d => ([], seq_insert (seq_after y (x, d)) l x m)
  | OpInsertSorted sh l x d => ([], alter (seq_insert_sorted sh (x, d)) l m)
  | OpUnlink x => ([], seq_unlink x m)
  | OpMove x l => ([], alter (fun xs => xs ++ [(x, seq_data x m)]) l (seq_unlink x m))
  | OpClear l => ([], <[l := []]> m)
  | OpFlush l => ((default [] (m !! l)).*2, <[l := []]> m)
  end.

(** The objects named exist; the neighbour of an insertion is in the list;
    the element of a sorted insertion is not yet in a list, and the one that
    is moved is. *)
Definition list_op_pre (op : list_op) (h : heap D) (m : seqs) : Prop :=
  match op with
  | OpAppend l x _ | OpPrepend l x _ => is_Some (m !! l) /\ is_Some (les h !! x)
  | OpInsertBefore l y x _ | OpInsertAfter l y x _ =>
      (exists xs, m !! l = Some xs /\ y ∈ ids xs) /\ is_Some (les h !! x)
  | OpInsertSorted _ l x _ => is_Some (m !! l) /\ is_Some (les h !! x) /\ owner m x = None
  | OpUnlink x => is_Some (les h !! x)
  | OpMove x l => is_Some (m !! l) /\ is_Some (les h !! x) /\ owner m x <> None
  | OpClear l | OpFlush l => is_Some (m !! l)
  end.

Lemma owner_none h m x : repr h m -> is_Some (les h !! x) -> owner m x = None -> unlinked h x.
Proof. intros Hr [e Ee] Eo. rewrite (owner_repr _ _ _ _ Hr Ee) in Eo. by exists e. Qed.

(** The four insertions, by the position they insert at. *)
Lemma insert_refines h m l x d (f : list (loc * option D) -> list (loc * option D)) (op : M (heap D) unit) a b :
  repr h m -> m !! l = Some (a ++ b) -> is_Some (les h !! x) -> f (a ++ b) = a ++ (x, d) :: b ->
  (unlinked h x -> op h = Some (tt, links h l a x d b)) ->
  (forall l', (exists e, les h !! x = Some e /\ le_list e = Some l') -> op h = Some (tt, h)) ->
  exists h', op h = Some (tt, h') /\ repr h' (seq_insert f l x m) /\ dom (les h') = dom (les h).
Proof.
  intros Hr E [e Ee] Ef Hop Hno. unfold seq_insert. rewrite (owner_repr _ _ _ _ Hr Ee).
  destruct (le_list e) as [l'|] eqn:El; [exists h; split_and!; [eauto|done|done]|].
  assert (unlinked h x) as Hu by (eexists; by split). exists (links h l a x d b).
  rewrite (Hop Hu), links_dom by (by eexists). split_and!; [done| |done].
  replace (alter f l m) with (<[l := a ++ (x, d) :: b]> m); [by apply repr_links|].
  apply map_eq. intros l2. destruct (decide (l = l2)) as [->|].
  - by rewrite lookup_insert_eq, lookup_alter_eq, E, <- Ef.
  - by rewrite lookup_insert_ne, lookup_alter_ne.
Qed.

Lemma alter_insert_id (f : list (loc * option D) -> list (loc * option D)) l (m : seqs) xs ys :
  m !! l = Some xs -> f xs = ys -> alter f l m = <[l := ys]> m.
Proof.
  intros E Ef. apply map_eq. intros l2. destruct (decide (l = l2)) as [->|].
  - by rewrite lookup_insert_eq, lookup_alter_eq, E, <- Ef.
  - by rewrite lookup_insert_ne, lookup_alter_ne.
Qed.

(** Insertions refuse an element that is linked. *)
Ltac refuses := intros l' (e' & Ee' & El'); unfold list_append, list_prepend, list_insert_before, list_insert_after;
  rewrite (Prelude.bind_Some _ _ _ _ _ (load_le_eq _ _ _ Ee')), El'; reflexivity.

Lemma seq_find_data x (a : list (loc * option D)) d b : x ∉ ids a ->
  (list_find (fun e => e.1 = x) (a ++ (x, d) :: b) ≫= fun r => r.2.2) = d.
Proof.
  intros Ha. assert (list_find (fun e => e.1 = x) (a ++ (x, d) :: b) = Some (length a, (x, d))) as ->; [|done].
  apply list_find_Some. split_and!; [by rewrite list_lookup_middle|done|].
  intros j y Hj Hlt Hy. rewrite lookup_app_l in Hj by done. apply Ha. apply list_elem_of_fmap. exists y.
  split; [done|]. by eapply list_elem_of_lookup_2.
Qed.

Lemma unlink_refines h m x : repr h m -> is_Some (les h !! x) ->
  exists h', list_unlink x h = Some (tt, h') /\ repr h' (seq_unlink x m) /\ dom (les h') = dom (les h) /\
    (owner m x <> None -> les h' !! x = Some (Le None None None (seq_data x m))).
Proof.
  intros Hr [e Ee]. unfold seq_unlink, seq_data. rewrite (owner_repr _ _ _ _ Hr Ee). destruct (le_list e) as [l|] eqn:El.
  - destruct (linked_in _ _ _ _ _ Hr Ee El) as (a & d & b & E & Ha & Hb). exists (unlinks h l a x d b).
    split_and!; [by apply (list_unlink_spec h m)| |by apply (unlinks_dom h m)|].
    + rewrite (alter_insert_id _ _ _ _ (a ++ b) E) by (by apply seq_remove_app). by apply repr_unlinks.
    + intros _. rewrite unlinks_unlinked, E. cbn [from_option id]. by rewrite seq_find_data.
  - exists h. split_and!; [|done|done|done]. apply list_unlink_unlinked. by exists e.
Qed.

(** C6: every operation of list.c implements the operation on sequences.  On
    a heap whose lists represent the sequences [m] (head, tail and both
    directions of links consistent, every linked element in exactly one list)
    each insertion, removal, move, clear and flush is defined, leaves the
    lists representing exactly the sequences that the operation specifies,
    other lists untouched, releases the data of a flushed list in order, and
    refuses to insert an element that is linked already. *)
Theorem list_refines fuel op h m : repr h m -> list_op_pre op h m ->
  (forall l xs, m !! l = Some xs -> (length xs <= fuel)%nat) ->
  exists h', run_list_op fuel op h = Some ((spec_list_op op m).1, h') /\ repr h' (spec_list_op op m).2 /\
    dom (les h') = dom (les h).
Proof.
  intros Hr Hpre Hfuel. unfold run_list_op.
  assert (forall (o : M (heap D) unit) h' (r : list (option D)), o h = Some (tt, h') -> (o ;; ret r) h = Some (r, h')) as Hret.
  { intros o h' r Eo. by rewrite (Prelude.bind_Some _ _ _ _ _ Eo). }
  destruct op as [l x d|l x d|l y x d|l y x d|sh l x d|x|x l|l|l]; cbn [list_op_pre spec_list_op fst snd] in *.
  - destruct Hpre as [[xs E] Hx]. destruct (insert_refines h m l x d (fun xs => xs ++ [(x, d)]) (list_append l x d) xs [])
      as (h' & Eo & Hr' & Hd'); [done|by rewrite app_nil_r|done|by rewrite app_nil_r| |refuses|eauto 10].
    intros Hu. by apply (list_append_spec h m).
  - destruct Hpre as [[xs E] Hx]. destruct (insert_refines h m l x d (cons (x, d)) (list_prepend l x d) [] xs)
      as (h' & Eo & Hr' & Hd'); [done..| |refuses|eauto 10]. intros Hu. by apply (list_prepend_spec h m).
  - destruct Hpre as [(xs & E & Hy) Hx]. apply list_elem_of_fmap in Hy as ([y' dy] & Ey & Hy). cbn in Ey. subst y'.
    apply list_elem_of_split in Hy as (a & b & ->). destruct (mid_ids _ _ _ _ _ _ _ Hr E) as (Ha & _).
    destruct (insert_refines h m l x d (seq_before y (x, d)) (list_insert_before l y x d) a ((y, dy) :: b))
      as (h' & Eo & Hr' & Hd'); [done..|by apply seq_before_app| |refuses|eauto 10].
    intros Hu. by apply (list_insert_before_spec h m).
  - destruct Hpre as [(xs & E & Hy) Hx]. apply list_elem_of_fmap in Hy as ([y' dy] & Ey & Hy). cbn in Ey. subst y'.
    apply list_elem_of_split in Hy as (a & b & ->). destruct (mid_ids _ _ _ _ _ _ _ Hr E) as (Ha & _).
    destruct (insert_refines h m l x d (seq_after y (x, d)) (list_insert_after l y x d) (a ++ [(y, dy)]) b)
      as (h' & Eo & Hr' & Hd'); [done|by rewrite <- app_assoc|done|rewrite <- !app_assoc; by apply seq_after_app| |refuses|eauto 10].
    intros Hu. by apply (list_insert_after_spec h m).
  - destruct Hpre as ([xs E] & Hx & Eo). pose proof (owner_none _ _ _ Hr Hx Eo) as Hu.
    destruct (list_insert_sorted_spec sh h m l xs x d fuel Hr E Hu (Hfuel _ _ E)) as (h' & Er & Hr' & Hd').
    rewrite (alter_insert_id _ _ _ _ _ E eq_refl). eauto 10.
  - destruct (unlink_refines h m x Hr Hpre) as (h' & Er & Hr' & Hd' & _). eauto 10.
  - destruct Hpre as ([xs E] & Hx & Ho). destruct (unlink_refines h m x Hr Hx) as (h1 & Er & Hr1 & Hd1 & Hx1).
    specialize (Hx1 Ho). assert (exists ys, seq_unlink x m !! l = Some ys) as [ys Ey].
    { unfold seq_unlink. destruct (owner m x) as [l2|]; [|by exists xs]. destruct (decide (l2 = l)) as [->|].
      - rewrite lookup_alter_eq, E. by eexists.
      - rewrite lookup_alter_ne by done. by exists xs. }
    assert (unlinked h1 x) as Hu by (eexists; by split).
    exists (links h1 l ys x (seq_data x m) []). split_and!.
    + apply Hret. unfold list_move. rewrite (Prelude.bind_Some _ _ _ _ _ Er).
      rewrite (Prelude.bind_Some _ _ _ _ _ (load_le_eq _ _ _ Hx1)). cbn [le_data]. by apply (list_append_spec h1 (seq_unlink x m)).
    + rewrite (alter_insert_id _ _ _ _ _ Ey eq_refl). apply repr_links; [done|by rewrite app_nil_r|done].
    + rewrite links_dom by (by eexists). done.
  - destruct Hpre as [xs E]. destruct (list_clear_spec h m l xs fuel Hr E (Hfuel _ _ E)) as (h' & Er & Hr' & Hd' & _).
    eauto 10.
  - destruct Hpre as [xs E]. destruct (list_flush_spec h m l xs fuel Hr E (Hfuel _ _ E)) as (h' & Er & Hr' & Hd').
    rewrite E. eauto 10.
Qed.

(** The queries of list.c return what the sequence determines: the head,
    the tail, the number of elements (modulo 2^32), and, traversing in either
    direction, the first element for which the handler returns true. *)
Theorem list_queries fuel h m l xs ah : repr h m -> m !! l = Some xs -> (length xs <= fuel)%nat ->
  list_head l h = Some (fst <$> head xs, h) /\ list_tail l h = Some (fst <$> last xs, h) /\
  list_count fuel l h = Some (u32 (zlength xs), h) /\
  list_apply fuel l true ah h = Some ((fun r => r.2.1) <$> list_find (fun x => ah x.2 = true) xs, h) /\
  list_apply fuel l false ah h = Some ((fun r => r.2.1) <$> list_find (fun x => ah x.2 = true) (reverse xs), h).
Proof.
  intros Hr E Hl. pose proof (rp_seg _ _ Hr _ _ E) as Hs. destruct h as [es ls].
  unfold list_head, list_tail, list_count, list_apply.
  rewrite !(Prelude.bind_Some _ _ _ _ _ (repr_load_hd _ _ _ _ Hr E)). cbn [hd_head hd_tail].
  split_and!; [by destruct xs|unfold final; by destruct (last xs)|..].
  - by apply (count_loop_spec es ls l None).
  - by apply (apply_fwd_spec ah es ls l None).
  - by apply (apply_bwd_spec ah es ls l xs None).
Qed.

(** C7: sorting a list terminates, within one pass per pair of elements, and
    leaves a sorted permutation of the list, for every handler that orders any
    two elements one way or the other; with a transitive handler every element
    is in order with all that follow. *)
Theorem list_sort_terminates (sh : option D -> option D -> bool) n fuel h m l xs :
  (forall d1 d2, sh d1 d2 = false -> sh d2 d1 = true) ->
  repr h m -> m !! l = Some xs -> (length xs * length xs < n)%nat -> (length xs <= fuel)%nat ->
  exists ys h', list_sort sh n fuel l h = Some (tt, h') /\ repr h' (<[l := ys]> m) /\ ys ≡ₚ xs /\
    Sorted (fun a b => sh a.2 b.2 = true) ys /\
    ((forall d1 d2 d3, sh d1 d2 = true -> sh d2 d3 = true -> sh d1 d3 = true) ->
     StronglySorted (fun a b => sh a.2 b.2 = true) ys).
Proof.
  intros Htot Hr E Hn Hl. pose proof (inversions_le sh xs).
  destruct (list_sort_run sh l fuel n Htot xs h m Hr E) as (ys & h' & Er & Hr' & _ & Hp & Hs); [lia|done|].
  exists ys, h'. split_and!; [done..|]. intros Htr. apply Sorted_StronglySorted; [|done].
  intros a b c. apply Htr.
Qed.

(** Two elements that the handler orders neither way are exchanged for ever:
    no number of passes is enough. *)
Lemma list_sort_diverges (sh : option D -> option D -> bool) l n : forall fuel h m x dx y dy,
  sh dx dy = false -> sh dy dx = false -> repr h m -> m !! l = Some [(x, dx); (y, dy)] -> (1 <= fuel)%nat ->
  list_sort sh n fuel l h = None.
Proof.
  induction n as [|n IH]; intros fuel h m x dx y dy H1 H2 Hr E Hf; [done|]. cbn [list_sort].
  rewrite (Prelude.bind_Some _ _ _ _ _ (repr_load_hd _ _ _ _ Hr E)). cbn [hd_head first fst].
  destruct (sort_pass_spec sh l fuel [(y, dy)] [] x dx false h m Hr E Hf) as (h' & E' & Hr' & _).
  rewrite (Prelude.bind_Some _ _ _ _ _ E'). cbn [moved bubble snd app] in *. rewrite H1 in *. cbn [orb].
  eapply (IH fuel h' _ y dy x dx); [done|done|exact Hr'|by rewrite lookup_insert_eq|done].
Qed.

End props.

(** ** Witnesses *)

Section examples.

Definition new_le : le Z := Le None None None None.
Definition heap_ex : heap Z :=
  Heap (list_to_map [(1%nat, new_le); (2%nat, new_le); (3%nat, new_le)]) (list_to_map [(0%nat, Hd None None)]).
Definition seqs_ex : gmap loc (list (loc * option Z)) := {[ 0%nat := [] ]}.

Lemma unlinked_ex x : (x = 1 \/ x = 2 \/ x = 3)%nat -> unlinked heap_ex x.
Proof. intros [->|[->| ->]]; by exists new_le. Qed.

Lemma repr_ex : repr heap_ex seqs_ex.
Proof.
  split.
  - intros l. unfold heap_ex, seqs_ex. cbn [lists list_to_map foldr fst snd].
    destruct (decide (l = 0%nat)) as [->|]; [done|].
    rewrite lookup_insert_ne, lookup_empty, lookup_singleton_ne by done. done.
  - intros l xs E. unfold seqs_ex in E. by apply lookup_singleton_Some in E as [<- <-].
  - intros l xs E. unfold seqs_ex in E. apply lookup_singleton_Some in E as [<- <-]. constructor.
  - intros x e l E El. unfold heap_ex in E. cbn [les list_to_map foldr fst snd] in E.
    repeat (apply lookup_insert_Some in E as [[<- <-]|[_ E]]; [done|]). by rewrite lookup_empty in E.
Qed.

Definition leq (a b : option Z) : bool :=
  match a, b with Some a, Some b => a <=? b | _, _ => true end.

Definition heap3 : heap Z :=
  links (links (links heap_ex 0 [] 1 (Some 7) []) 0 [(1%nat, Some 7)] 2 (Some 9) [])
    0 [(1%nat, Some 7); (2%nat, Some 9)] 3 (Some 5) [].
Definition seq3 : list (loc * option Z) := [(1%nat, Some 7); (2%nat, Some 9); (3%nat, Some 5)].
Definition seqs3 : gmap loc (list (loc * option Z)) := <[0%nat := seq3]> (<[0%nat := [(1%nat, Some 7); (2%nat, Some 9)]]>
  (<[0%nat := [(1%nat, Some 7)]]> seqs_ex)).

Lemma repr3 : repr heap3 seqs3.
Proof.
  apply (repr_links _ _ 0 [(1%nat, Some 7); (2%nat, Some 9)] [] 3 (Some 5));
    [apply (repr_links _ _ 0 [(1%nat, Some 7)] [] 2 (Some 9));
      [apply (repr_links _ _ 0 [] [] 1 (Some 7)); [exact repr_ex|reflexivity|]|reflexivity|]|reflexivity|].
  - by apply unlinked_ex; left.
  - by exists new_le.
  - by exists new_le.
Qed.

Lemma list_refines_witness : exists h',
  run_list_op 3 (OpFlush 0) heap3 = Some ([Some 7; Some 9; Some 5], h') /\ repr h' (<[0%nat := []]> seqs3).
Proof.
  destruct (list_refines 3 (OpFlush 0) heap3 seqs3 repr3) as (h' & E & Hr & _).
  - by exists seq3.
  - intros l xs E. unfold seqs3, seqs_ex in E. destruct (decide (l = 0%nat)) as [->|].
    + rewrite lookup_insert_eq in E. injection E as <-. cbn. lia.
    + rewrite !lookup_insert_ne, lookup_singleton_ne in E by done. done.
  - exists h'. split; [exact E|exact Hr].
Defined.

Lemma list_queries_witness : list_count 3 0 heap3 = Some (3, heap3) /\
  list_apply 3 0 true (fun d => bool_decide (d = Some 9)) heap3 = Some (Some 2%nat, heap3).
Proof.
  destruct (list_queries 3 heap3 seqs3 0 seq3 (fun d => bool_decide (d = Some 9)) repr3) as (_ & _ & E1 & E2 & _);
    [reflexivity|cbn; lia|]. split; [exact E1|exact E2].
Defined.

Lemma list_sort_terminates_witness : exists ys h', list_sort leq 10 3 0 heap3 = Some (tt, h') /\
  ys ≡ₚ seq3 /\ Sorted (fun a b => leq a.2 b.2 = true) ys.
Proof.
  destruct (list_sort_terminates leq 10 3 heap3 seqs3 0 seq3) as (ys & h' & E & _ & Hp & Hs & _);
    [|exact repr3|reflexivity|cbn; lia|cbn; lia|].
  - intros [a|] [b|]; cbn; lia || done.
  - exists ys, h'. split; [exact E|split; [exact Hp|exact Hs]].
Defined.

End examples.
