(* ===== verification/Hash.v ===== *)
(** * Hash tables (src/hash/hash.c, src/hash/func.c)

    A table is an array of buckets, each a linked list.  The lists are used
    here through what src/list/list.c is proved to promise ([list_refines] in
    LinkedListProps.v): [list_append] adds at the tail an element that is
    in no list and leaves any other alone, [list_apply] in the
    forward direction stops at the first element whose handler returns true.
    A null table is [None].

    [char] is signed; [tolower] is that of the C locale, which maps the other
    values of [char] to themselves. *)

From S2P Require Export Prelude Mbuf.

(** ** Characters *)

Definition schar (b : Z) : Z := if b <? 128 then b else b - 256.
Definition tolower (c : Z) : Z := if (65 <=? c) && (c <=? 90) then c + 32 else c.

(** [str_casecmp(a, b) == 0] on C strings. *)
Definition str_caseeq (a b : list Z) : bool := bool_decide (tolower <$> a = tolower <$> b).

(** ** Hash functions *)

(** One round of Jenkins' function, with [v] already promoted to [int]. *)
Definition joaat_step (hash v : Z) : Z :=
  let hash := u32 (hash + v) in
  let hash := u32 (hash + Z.shiftl hash 10) in
  Z.lxor hash (Z.shiftr hash 6).

Definition joaat_final (hash : Z) : Z :=
  let hash := u32 (hash + Z.shiftl hash 3) in
  let hash := Z.lxor hash (Z.shiftr hash 11) in
  u32 (hash + Z.shiftl hash 15).

Definition hash_joaat (key : list Z) : Z := joaat_final (foldl joaat_step 0 key).
Definition hash_joaat_ci (str : list Z) : Z :=
  joaat_final (foldl (fun h c => joaat_step h (tolower (schar c))) 0 str).

(** The same loops, ended by the terminator of the string. *)
Definition hash_joaat_str (str : list Z) : Z :=
  joaat_final (foldl (fun h c => joaat_step h (schar c)) 0 str).
Definition hash_joaat_str_ci (str : list Z) : Z :=
  joaat_final (foldl (fun h c => joaat_step h (tolower (schar c))) 0 str).

Definition FNV1_32A_INIT : Z := 0x811c9dc5.
Definition FNV_32_PRIME : Z := 0x01000193.

Definition hash_fast (k : option (list Z)) : Z :=
  match k with
  | None => 0
  | Some k => foldl (fun h c => u32 (Z.lxor h (u32 (schar c)) * FNV_32_PRIME)) FNV1_32A_INIT k
  end.

(** ** Tables *)

Record hash (A : Type) := Hash { h_bucket : list (list A); h_bsize : Z }.
Arguments Hash {A}.
Arguments h_bucket {A}.
Arguments h_bsize {A}.

Section table.
Context {A : Type}.

Abbreviation table := (option (hash A)).

(** [&h->bucket[key & (h->bsize-1)]] *)
Definition hash_index (h : hash A) (key : Z) : nat := Z.to_nat (Z.land key (u32 (h_bsize h - 1))).

(** [linked]: the element is in a list, and [list_append] refuses it. *)
Definition hash_append (key : Z) (linked : bool) (x : A) : M table unit := fun t =>
  match t with
  | None => Some (tt, None)
  | Some h =>
      match h_bucket h !! hash_index h key with
      | Some b =>
          if linked then Some (tt, Some h)
          else Some (tt, Some (Hash (<[hash_index h key := b ++ [x]]> (h_bucket h)) (h_bsize h)))
      | None => None
      end
  end.

(** [list_apply] forward: the first element the handler accepts. *)
Fixpoint list_first (ah : A -> bool) (b : list A) : option A :=
  match b with
  | [] => None
  | x :: b => if ah x then Some x else list_first ah b
  end.

Definition hash_lookup (t : table) (key : Z) (ah : A -> bool) : option (option A) :=
  match t with
  | None => Some None
  | Some h =>
      match h_bucket h !! hash_index h key with
      | Some b => Some (list_first ah b)
      | None => None
      end
  end.

(** [for (i=0; (i<h->bsize) && !le; i++)]: [n] buckets are left. *)
Fixpoint hash_apply_loop (h : hash A) (ah : A -> bool) (n : nat) (i : nat) : option (option A) :=
  match n with
  | O => Some None
  | S n =>
      match h_bucket h !! i with
      | None => None
      | Some b =>
          match list_first ah b with
          | Some x => Some (Some x)
          | None => hash_apply_loop h ah n (S i)
          end
      end
  end.

Definition hash_apply (t : table) (ah : A -> bool) : option (option A) :=
  match t with
  | None => Some None
  | Some h => hash_apply_loop h ah (Z.to_nat (h_bsize h)) 0
  end.

Definition hash_bsize (t : table) : Z := match t with Some h => h_bsize h | None => 0 end.

(** [hash_clear] and, as far as the table goes, [hash_flush]: every bucket is
    emptied. *)
Fixpoint hash_clear_loop (bs : list (list A)) (n : nat) (i : nat) : option (list (list A)) :=
  match n with
  | O => Some bs
  | S n =>
      match bs !! i with
      | None => None
      | Some _ => hash_clear_loop (<[i := []]> bs) n (S i)
      end
  end.

Definition hash_clear : M table unit := fun t =>
  match t with
  | None => Some (tt, None)
  | Some h =>
      match hash_clear_loop (h_bucket h) (Z.to_nat (h_bsize h)) 0 with
      | Some bs => Some (tt, Some (Hash bs (h_bsize h)))
      | None => None
      end
  end.

(** Error code and table; [sizeof(struct hash)] and [sizeof(struct list)] are
    16 on an LP64 host. *)
Definition hash_alloc `{Host} (bsize : Z) : Z * table :=
  if bsize =? 0 then (EINVAL, None)
  else if nz (Z.land bsize (u32 (bsize - 1))) then (EINVAL, None)
  else if negb (alloc_ok 16) then (ENOMEM, None)
  else if negb (alloc_ok (u64 (bsize * 16))) then (ENOMEM, None)
  else (0, Some (Hash (replicate (Z.to_nat bsize) []) bsize)).

End table.

(** [for (x=0; (uint32_t)1<<x < size && x < 31; x++)]: at most 31 rounds. *)
Fixpoint valid_size_loop (fuel : nat) (x size : Z) : Z :=
  match fuel with
  | O => x
  | S fuel => if (Z.shiftl 1 x <? size) && (x <? 31) then valid_size_loop fuel (x + 1) size else x
  end.
Definition hash_valid_size (size : Z) : Z := Z.shiftl 1 (valid_size_loop 31 0 size).
