(* ===== verification/HashThms.v ===== *)
(** * Correctness of the hash tables

    A table is the log of its appends: [tab_log h log] says that every bucket
    holds, in order, the elements of the log whose key selects it.  A lookup
    whose handler only accepts elements of the key looked up is then a search
    of the whole log, whatever the hash function and the number of buckets. *)

From S2P Require Import Prelude Mbuf MbufSpec Hash.

Lemma pow2_bounds k : 0 <= k < 32 -> 0 < 2 ^ k <= 2 ^ 31.
Proof. intros. split; [by apply Z.pow_pos_nonneg; lia|apply Z.pow_le_mono_r; lia]. Qed.

Lemma land_pow2_pred a k : 0 <= k < 32 -> Z.land a (u32 (2 ^ k - 1)) = a mod 2 ^ k.
Proof.
  intros Hk. pose proof (pow2_bounds k Hk).
  rewrite (wrap_small 32) by lia. apply land_ones_mod. lia.
Qed.

(** [x & (x - 1)] is 0 exactly on the powers of two. *)
Lemma land_pred_pow2 x : 0 < x -> Z.land x (x - 1) = 0 -> x = 2 ^ Z.log2 x.
Proof.
  intros Hx E. pose proof (Z.log2_spec x Hx) as [Hlo Hhi]. pose proof (Z.log2_nonneg x).
  destruct (decide (x = 2 ^ Z.log2 x)) as [|Hne]; [done|exfalso].
  assert (Z.log2 (x - 1) = Z.log2 x) as El by (apply Z.log2_unique; lia).
  assert (Z.testbit (Z.land x (x - 1)) (Z.log2 x) = true) as Ht.
  { rewrite Z.land_spec, Z.bit_log2 by done. rewrite <- El at 1. rewrite Z.bit_log2; [done|].
    assert (0 < 2 ^ Z.log2 x) by lia. lia. }
  rewrite E, Z.bits_0 in Ht. done.
Qed.

Section table.
Context {A : Type}.

Definition in_bucket (h : hash A) (i : nat) (e : Z * A) : Prop := hash_index h e.1 = i.
#[global] Instance in_bucket_dec h i e : Decision (in_bucket h i e).
Proof. unfold in_bucket. apply _. Defined.

Record tab_log (h : hash A) (log : list (Z * A)) : Prop := {
  tl_size : exists k, 0 <= k < 32 /\ h_bsize h = 2 ^ k /\ zlength (h_bucket h) = 2 ^ k;
  tl_bucket : forall i, (i < length (h_bucket h))%nat ->
    h_bucket h !! i = Some (snd <$> filter (in_bucket h i) log);
}.

Lemma hash_index_lt h log key : tab_log h log -> 0 <= key ->
  (hash_index h key < length (h_bucket h))%nat.
Proof.
  intros [(k & Hk & Eb & El) _] Hkey. unfold hash_index. rewrite Eb, land_pow2_pred by lia.
  pose proof (pow2_bounds k Hk). pose proof (Z.mod_pos_bound key (2 ^ k)). lia.
Qed.

Lemma list_first_filter ah (P : Z * A -> Prop) `{!forall e, Decision (P e)} (log : list (Z * A)) :
  (forall e, e ∈ log -> ah e.2 = true -> P e) ->
  list_first ah (snd <$> filter P log) = list_first ah (snd <$> log).
Proof.
  induction log as [|e log IH]; intros HP; [done|].
  assert (forall e', e' ∈ log -> ah e'.2 = true -> P e') as HP' by (intros; apply HP; [by right|done]).
  rewrite filter_cons. case_decide as Hd; rewrite ?fmap_cons; cbn [list_first]; rewrite (IH HP'); [done|].
  destruct (ah e.2) eqn:Ea; [|done]. destruct Hd. apply HP; [by left|done].
Qed.

Lemma list_first_Some ah (l : list A) x : list_first ah l = Some x -> x ∈ l /\ ah x = true.
Proof.
  induction l as [|y l IH]; simpl; [done|]. destruct (ah y) eqn:E; intros; simplify_eq.
  - split; [by left|done].
  - destruct IH; [done|]. split; [by right|done].
Qed.

Lemma list_first_None ah (l : list A) : list_first ah l = None <-> Forall (fun x => ah x = false) l.
Proof.
  induction l as [|y l IH]; simpl; [by split; auto|]. rewrite Forall_cons_iff. destruct (ah y).
  - split; [done|by intros [? _]].
  - rewrite IH. split; [done|by intros [_ ?]].
Qed.

Lemma hash_append_log h log key x : tab_log h log -> 0 <= key ->
  exists h', hash_append key false x (Some h) = Some (tt, Some h') /\ tab_log h' (log ++ [(key, x)]).
Proof.
  intros Ht Hk. pose proof (hash_index_lt h log key Ht Hk) as Hi. destruct Ht as [Hs Hb].
  unfold hash_append. rewrite Hb by done. eexists. split; [done|]. split; simpl.
  - by rewrite length_insert.
  - intros i. rewrite length_insert. intros Hl. unfold in_bucket at 1, hash_index at 1. simpl.
    rewrite list.filter_app, fmap_app. destruct (decide (hash_index h key = i)) as [<-|Hne].
    + rewrite list_lookup_insert_eq by done. do 3 f_equal. by rewrite filter_cons_True.
    + rewrite list_lookup_insert_ne, Hb by done. rewrite filter_cons_False by done. simpl.
      by rewrite app_nil_r.
Qed.

Lemma hash_lookup_log h log key ah : tab_log h log -> 0 <= key ->
  (forall e, e ∈ log -> ah e.2 = true -> e.1 = key) ->
  hash_lookup (Some h) key ah = Some (list_first ah (snd <$> log)).
Proof.
  intros Ht Hk Hkey. unfold hash_lookup.
  rewrite (tl_bucket _ _ Ht) by (by apply (hash_index_lt _ _ _ Ht)). f_equal.
  apply list_first_filter. intros e He Ha. unfold in_bucket. by rewrite (Hkey e).
Qed.

(** Whatever the handler, a lookup gives an element of the log that it accepts. *)
Lemma hash_lookup_elem h log key ah : tab_log h log -> 0 <= key ->
  exists r, hash_lookup (Some h) key ah = Some r /\ (forall x, r = Some x -> x ∈ snd <$> log /\ ah x = true).
Proof.
  intros Ht Hk. unfold hash_lookup. rewrite (tl_bucket _ _ Ht) by (by apply (hash_index_lt _ _ _ Ht)).
  eexists. split; [done|]. intros x [Hx Ha]%list_first_Some. split; [|done].
  apply list_elem_of_fmap in Hx as (e & -> & He). apply list_elem_of_filter in He as [_ He].
  apply list_elem_of_fmap. eauto.
Qed.

(** [hash_apply] finds an element exactly when the log has one. *)
Lemma hash_apply_loop_log h log ah n i : tab_log h log -> (i + n = length (h_bucket h))%nat ->
  exists r, hash_apply_loop h ah n i = Some r /\
    match r with
    | Some x => x ∈ snd <$> log /\ ah x = true
    | None => forall e, e ∈ log -> (i <= hash_index h e.1)%nat -> 0 <= e.1 -> ah e.2 = false
    end.
Proof.
  intros Ht. revert i. induction n as [|n IH]; intros i Hn; simpl.
  - exists None. split; [done|]. intros e He Hi Hk. pose proof (hash_index_lt _ _ e.1 Ht Hk). lia.
  - rewrite (tl_bucket _ _ Ht) by lia. destruct (list_first ah _) as [x|] eqn:E.
    + exists (Some x). split; [done|]. apply list_first_Some in E as [Hx Ha]. split; [|done].
      apply list_elem_of_fmap in Hx as (e & -> & He). apply list_elem_of_filter in He as [_ He].
      apply list_elem_of_fmap. eauto.
    + destruct (IH (S i)) as (r & Er & Hr); [lia|]. exists r. split; [done|]. destruct r; [done|].
      intros e He Hi Hk. destruct (decide (hash_index h e.1 = i)) as [Ei|]; [|apply Hr; [done|lia|done]].
      rewrite list_first_None, Forall_fmap, list.Forall_forall in E. apply E. by apply list_elem_of_filter.
Qed.

Lemma hash_clear_loop_log (bs : list (list A)) n i : (i + n = length bs)%nat ->
  (forall j, (j < i)%nat -> bs !! j = Some []) ->
  hash_clear_loop bs n i = Some (replicate (length bs) []).
Proof.
  revert bs i. induction n as [|n IH]; intros bs i Hn Hj; simpl.
  - f_equal. apply list_eq. intros j. destruct (decide (j < length bs)%nat).
    + rewrite lookup_replicate_2 by done. apply Hj. lia.
    + rewrite !(proj2 (lookup_ge_None _ j)) by (rewrite ?length_replicate; lia). done.
  - destruct (lookup_lt_is_Some_2 bs i) as [b ->]; [lia|]. rewrite IH; rewrite ?length_insert; [done|lia|].
    intros j Hl. destruct (decide (j = i)) as [->|]; [by apply list_lookup_insert_eq; lia|].
    rewrite list_lookup_insert_ne by done. apply Hj. lia.
Qed.

Lemma new_tab_log k : 0 <= k < 32 ->
  tab_log (Hash (replicate (Z.to_nat (2 ^ k)) []) (2 ^ k)) ([] : list (Z * A)).
Proof.
  intros Hk. pose proof (pow2_bounds k Hk). split; simpl.
  - exists k. rewrite length_replicate. split_and!; [lia..|]. lia.
  - intros i. rewrite length_replicate. intros Hi. by apply lookup_replicate_2.
Qed.

Lemma hash_alloc_log `{Host} bsize t : 0 <= bsize < 2 ^ 32 -> hash_alloc bsize = (0, t) ->
  exists h, t = Some h /\ tab_log h ([] : list (Z * A)).
Proof.
  intros Hb E. unfold hash_alloc in E. destruct (Z.eqb_spec bsize 0); [done|]. unfold nz in E.
  rewrite (wrap_small 32) in E by lia. destruct (Z.eqb_spec (Z.land bsize (bsize - 1)) 0) as [El|]; [|done].
  destruct (alloc_ok 16); [|done]. destruct (alloc_ok _); [|done]. simpl in E. simplify_eq.
  eexists. split; [done|]. apply land_pred_pow2 in El; [|lia]. rewrite El. apply new_tab_log.
  split; [apply Z.log2_nonneg|]. apply Z.log2_lt_pow2; lia.
Qed.

(** A sequence of appends, of elements that are in a list or not. *)
Fixpoint hash_appends (ops : list (bool * (Z * A))) : M (option (hash A)) unit :=
  match ops with
  | [] => ret tt
  | (linked, (key, x)) :: ops => hash_append key linked x ;; hash_appends ops
  end.

Definition appended (ops : list (bool * (Z * A))) : list (Z * A) := snd <$> filter (fun o => o.1 = false) ops.

Lemma hash_append_linked h log key x : tab_log h log -> 0 <= key -> hash_append key true x (Some h) = Some (tt, Some h).
Proof.
  intros Ht Hk. pose proof (hash_index_lt h log key Ht Hk) as Hi. destruct Ht as [_ Hb].
  unfold hash_append. by rewrite Hb by done.
Qed.

Lemma hash_appends_log ops h done : tab_log h done -> Forall (fun o => 0 <= o.2.1) ops ->
  exists h', hash_appends ops (Some h) = Some (tt, Some h') /\ tab_log h' (done ++ appended ops).
Proof.
  revert h done. induction ops as [|[linked [key x]] ops IH]; intros h dn Ht Hk; cbn [hash_appends].
  { exists h. unfold appended. by rewrite app_nil_r. }
  apply Forall_cons_iff in Hk as [Hk0 Hk]. cbn in Hk0. unfold appended. destruct linked.
  - destruct (IH h _ Ht Hk) as (h2 & E2 & Ht2). exists h2. rewrite filter_cons_False by done.
    by rewrite (bind_Some _ _ _ _ _ (hash_append_linked h dn key x Ht Hk0)), E2.
  - destruct (hash_append_log h dn key x Ht Hk0) as (h1 & E1 & Ht1).
    destruct (IH h1 _ Ht1 Hk) as (h2 & E2 & Ht2). exists h2. rewrite filter_cons_True by done.
    rewrite (bind_Some _ _ _ _ _ E1), E2. split; [done|]. by rewrite <- app_assoc in Ht2.
Qed.

End table.

(** C32: a hash table refines the log of its appends.  On a table that
    [hash_alloc] returned, any sequence of appends is memory safe, elements that are
    in a list already are refused, and for the log of the others: a
    lookup whose handler accepts only elements appended under the key gives
    the first such element in the order of appending; [hash_apply] gives an
    element the handler accepts and fails only if there is none; after
    [hash_clear] no lookup finds anything. *)
Theorem hash_refines_log `{Host} {A} bsize (t : option (hash A)) (ops : list (bool * (Z * A))) :
  0 <= bsize < 2 ^ 32 -> hash_alloc bsize = (0, t) -> Forall (fun o => 0 <= o.2.1) ops -> let log := appended ops in
  exists t', hash_appends ops t = Some (tt, t') /\
    (forall key ah, 0 <= key -> (forall e, e ∈ log -> ah e.2 = true -> e.1 = key) ->
       hash_lookup t' key ah = Some (list_first ah (snd <$> log))) /\
    (forall ah, exists r, hash_apply t' ah = Some r /\
       match r with
       | Some x => x ∈ snd <$> log /\ ah x = true
       | None => Forall (fun e => ah e.2 = false) log
       end) /\
    exists t0, hash_clear t' = Some (tt, t0) /\
      forall key ah, 0 <= key -> hash_lookup t0 key ah = Some None.
Proof.
  intros Hb E Hops log. destruct (hash_alloc_log bsize t Hb E) as (h & -> & Ht).
  assert (Forall (fun e => 0 <= e.1) log) as Hk.
  { apply list.Forall_forall. intros e ([? ?] & -> & [_ Ho]%list_elem_of_filter)%list_elem_of_fmap.
    by apply (proj1 (list.Forall_forall _ _) Hops) in Ho. }
  destruct (hash_appends_log ops h [] Ht Hops) as (h' & E' & Ht'). simpl in Ht'.
  exists (Some h'). split; [done|]. split; [intros; by apply hash_lookup_log|].
  destruct (tl_size _ _ Ht') as (k & Hk' & Es & El). pose proof (pow2_bounds k Hk'). split.
  - intros ah. unfold hash_apply. rewrite Es.
    destruct (hash_apply_loop_log h' log ah (Z.to_nat (2 ^ k)) 0 Ht') as (r & Er & Hr); [lia|].
    exists r. split; [done|]. destruct r; [done|]. rewrite list.Forall_forall in Hk |- *.
    intros e He. apply Hr; [done|lia|by apply Hk].
  - unfold hash_clear. rewrite Es, hash_clear_loop_log by lia. eexists. split; [done|]. intros key ah Hkey.
    replace (length (h_bucket h')) with (Z.to_nat (2 ^ k)) by lia.
    by rewrite (hash_lookup_log _ [] _ _ (new_tab_log k Hk')) by (done || intros ? ?%elem_of_nil; done).
Qed.

(** The tables of the library: elements appended under the key they hash to. *)
Lemma hash_refines_log_witness :
  exists t', @hash_appends Z [(false, (5, 50)); (true, (5, 49)); (false, (21, 210)); (false, (5, 51))] (snd (@hash_alloc Z lp64_host 16)) = Some (tt, t') /\
    hash_lookup t' 5 (fun x => x <? 100) = Some (Some 50).
Proof.
  destruct (@hash_refines_log lp64_host Z 16 _ [(false, (5, 50)); (true, (5, 49)); (false, (21, 210)); (false, (5, 51))] ltac:(lia) eq_refl
    ltac:(repeat constructor; simpl; lia)) as (t' & E & Hl & _).
  exists t'. split; [exact E|]. rewrite Hl; [reflexivity|lia|].
  intros e He Ha. repeat (apply elem_of_cons in He as [-> | He]; [simpl in *; lia || done|]).
  by apply elem_of_nil in He.
Defined.

(** ** Table sizes *)

Lemma valid_size_loop_spec fuel x size : 0 <= x -> x + Z.of_nat fuel = 31 -> x = 0 \/ 2 ^ (x - 1) < size ->
  let y := valid_size_loop fuel x size in
  x <= y <= 31 /\ (size <= 2 ^ y \/ y = 31) /\ (y = 0 \/ 2 ^ (y - 1) < size).
Proof.
  revert x. induction fuel as [|fuel IH]; intros x Hx Hf Hlo; cbn zeta; simpl valid_size_loop.
  - replace x with 31 in * by lia. split_and!; lia.
  - rewrite Z.shiftl_1_l. destruct (Z.ltb_spec (2 ^ x) size); simpl; [|split_and!; lia].
    rewrite (proj2 (Z.ltb_lt _ _)) by lia.
    destruct (IH (x + 1)) as (H1 & H2 & H3); [lia|lia|right; by rewrite Z.add_simpl_r|].
    split_and!; [lia..|done|done].
Qed.

(** [hash_valid_size] gives the least power of two that is not less than
    the requested size, for every size up to 2^31 (and 2^31 beyond); a
    table of that size is allocated unless memory runs out or its buckets
    would exceed the largest block of 4 GiB. *)
Theorem hash_valid_size_spec `{Host} {A} size : 0 <= size < 2 ^ 32 ->
  exists k, hash_valid_size size = 2 ^ k /\ 0 <= k <= 31 /\
    (size <= 2 ^ 31 -> size <= 2 ^ k) /\ (2 ^ 31 < size -> k = 31) /\
    (forall j, 0 <= j -> size <= 2 ^ j -> k <= j) /\
    (no_oom -> 2 ^ k < 2 ^ 28 -> exists t, hash_alloc (A := A) (hash_valid_size size) = (0, Some t)).
Proof.
  intros Hs. unfold hash_valid_size. rewrite Z.shiftl_1_l.
  pose proof (valid_size_loop_spec 31 0 size ltac:(lia) ltac:(lia) ltac:(lia)) as (H1 & H2 & H3).
  set (k := valid_size_loop 31 0 size) in *. clearbody k. exists k. split_and!; try lia; try done.
  - intros Hm. destruct H2 as [|E]; [done|by rewrite E].
  - intros Hm. destruct H2 as [|E]; [|done]. pose proof (pow2_bounds k ltac:(lia)). lia.
  - intros j Hj Hsj. destruct (decide (j < k)); [|lia].
    assert (2 ^ j <= 2 ^ (k - 1)) by (apply Z.pow_le_mono_r; lia). lia.
  - intros Ho Hk. pose proof (pow2_bounds k ltac:(lia)). unfold hash_alloc, nz.
    rewrite (proj2 (Z.eqb_neq _ _)), land_pow2_pred, Z_mod_same_full by lia. simpl.
    rewrite !alloc_ok_no_oom by (done || unfold MEM_SIZE_MAX; rewrite ?(wrap_small 64); lia). simpl. eauto.
Qed.

Lemma hash_valid_size_spec_witness : exists k, hash_valid_size 5 = 2 ^ k /\ k <= 3.
Proof.
  destruct (@hash_valid_size_spec lp64_host Z 5 ltac:(lia)) as (k & E & _ & _ & _ & Hm & _).
  exists k. split; [exact E|]. apply Hm; lia.
Defined.
