(* ===== verification/Dns.v ===== *)
(** * DNS messages (src/dns/hdr.c, src/dns/dname.c, src/dns/cstr.c, src/dns/rr.c)

    The codec of headers, domain names with compression, character strings
    and resource records, and the comparison of records.  A C string is the
    list of its characters before the terminator, a null pointer is [None].
    Encoders act on the buffer and the table of names already encoded. *)

From S2P Require Export Prelude Mbuf MbufSpec Hash.

(** The C string stored in a character array. *)
Fixpoint cstr (bs : list Z) : list Z :=
  match bs with
  | [] => []
  | b :: bs => if b =? 0 then [] else b :: cstr bs
  end.

(** ** Header *)

Record dnshdr := DnsHdr {
  hdr_id : Z; hdr_qr : bool; hdr_opcode : Z; hdr_aa : bool; hdr_tc : bool; hdr_rd : bool;
  hdr_ra : bool; hdr_z : Z; hdr_rcode : Z; hdr_nq : Z; hdr_nans : Z; hdr_nauth : Z; hdr_nadd : Z;
}.

Definition DNS_HEADER_SIZE : Z := 12.
Definition QUERY_RESPONSE : Z := 15.
Definition OPCODE : Z := 11.
Definition AUTH_ANSWER : Z := 10.
Definition TRUNCATED : Z := 9.
Definition RECURSION_DESIRED : Z := 8.
Definition RECURSION_AVAILABLE : Z := 7.
Definition ZERO : Z := 4.

Definition hdr_flags (hdr : dnshdr) : Z :=
  let flags := 0 in
  let flags := u16 (Z.lor flags (Z.shiftl (b2z (hdr_qr hdr)) QUERY_RESPONSE)) in
  let flags := u16 (Z.lor flags (Z.shiftl (hdr_opcode hdr) OPCODE)) in
  let flags := u16 (Z.lor flags (Z.shiftl (b2z (hdr_aa hdr)) AUTH_ANSWER)) in
  let flags := u16 (Z.lor flags (Z.shiftl (b2z (hdr_tc hdr)) TRUNCATED)) in
  let flags := u16 (Z.lor flags (Z.shiftl (b2z (hdr_rd hdr)) RECURSION_DESIRED)) in
  let flags := u16 (Z.lor flags (Z.shiftl (b2z (hdr_ra hdr)) RECURSION_AVAILABLE)) in
  let flags := u16 (Z.lor flags (Z.shiftl (hdr_z hdr) ZERO)) in
  u16 (Z.lor flags (hdr_rcode hdr)).

(** Names already in the message. *)
Record dname := Dname { dn_pos : Z; dn_name : list Z }.

Abbreviation dtab := (option (hash dname)).
(** What the encoders change: the buffer and the table. *)
Abbreviation denc := (mbuf * dtab)%type.

Definition COMP_MASK : Z := 0xc0.
Definition OFFSET_MASK : Z := 0x3fff.
Definition COMP_LOOP : Z := 255.

Section dns.
Context `{Host}.

Definition dns_hdr_encode (hdr : dnshdr) : M mbuf Z :=
  mbuf_write_u16 (htons (hdr_id hdr)) |;
  mbuf_write_u16 (htons (hdr_flags hdr)) |;
  mbuf_write_u16 (htons (hdr_nq hdr)) |;
  mbuf_write_u16 (htons (hdr_nans hdr)) |;
  mbuf_write_u16 (htons (hdr_nauth hdr)) |;
  mbuf_write_u16 (htons (hdr_nadd hdr)).

Definition dns_hdr_decode : M mbuf (Z * option dnshdr) :=
  need DNS_HEADER_SIZE (ret (EINVAL, None))
    (let* id := mbuf_read_ntohs in
     let* flags := mbuf_read_ntohs in
     let* nq := mbuf_read_ntohs in
     let* nans := mbuf_read_ntohs in
     let* nauth := mbuf_read_ntohs in
     let* nadd := mbuf_read_ntohs in
     ret (0, Some (DnsHdr id
       (nz (Z.land 0x1 (Z.shiftr flags QUERY_RESPONSE)))
       (Z.land 0xf (Z.shiftr flags OPCODE))
       (nz (Z.land 0x1 (Z.shiftr flags AUTH_ANSWER)))
       (nz (Z.land 0x1 (Z.shiftr flags TRUNCATED)))
       (nz (Z.land 0x1 (Z.shiftr flags RECURSION_DESIRED)))
       (nz (Z.land 0x1 (Z.shiftr flags RECURSION_AVAILABLE)))
       (Z.land 0x7 (Z.shiftr flags ZERO))
       (Z.land 0xf (Z.shiftr flags 0)) nq nans nauth nadd))).

(** ** Domain names *)

Definition on_mb {A} (m : M mbuf A) : M denc A := fun '(mb, t) =>
  match m mb with Some (a, mb') => Some (a, (mb', t)) | None => None end.
Definition on_tab {A} (m : M dtab A) : M denc A := fun '(mb, t) =>
  match m t with Some (a, t') => Some (a, (mb, t')) | None => None end.

(** [sizeof(struct dname)] is 48 on an LP64 host; a failed allocation only
    means that the name is not remembered. *)
Definition dname_append (name : list Z) (pos : Z) : M dtab unit := fun t =>
  match t with
  | None => Some (tt, t)
  | Some _ =>
      if (OFFSET_MASK <? pos) || bool_decide (name = []) then Some (tt, t)
      else if negb (alloc_ok 48) then Some (tt, t)
      else if negb (alloc_ok (u64 (zlength name + 1))) then Some (tt, t)
      else hash_append (hash_joaat_str_ci name) false (Dname pos name) t
  end.

Definition lookup_handler (name : list Z) (dn : dname) : bool := str_caseeq (dn_name dn) name.

Definition dname_lookup (name : list Z) : M dtab (option dname) := fun t =>
  match hash_lookup t (hash_joaat_str_ci name) (lookup_handler name) with
  | Some r => Some (r, t)
  | None => None
  end.

Definition dname_encode_pointer (pos : Z) : M mbuf Z :=
  mbuf_write_u16 (htons (u16 (Z.lor (u16 pos) (Z.shiftl COMP_MASK 8)))).

(** [if (!dn) dname_append(ht_dname, name, pos);] *)
Definition remember (dn : option dname) (name : list Z) (pos : Z) : M denc unit :=
  match dn with Some _ => ret tt | None => on_tab (dname_append name pos) end.

(** The loop of [dns_dname_encode], entered with [err == 0]; [pos] is where the
    length of the current label goes. *)
Fixpoint dname_loop (name : list Z) (pos start : Z) (comp : bool) : M denc Z :=
  let* '(mb, _) := get in
  let lablen := u64 (mb_pos mb - pos - 1) in
  match name with
  | [] =>
      if lablen =? 0 then ret 0
      else on_mb (store_at pos [u8 lablen]) ;; on_mb (mbuf_write_u8 0)
  | c :: name =>
      if c =? 46 then
        if lablen =? 0 then ret EINVAL
        else
          on_mb (store_at pos [u8 lablen]) ;;
          let* dn := on_tab (dname_lookup name) in
          match (if comp then dn else None) with
          | Some dn => on_mb (dname_encode_pointer (dn_pos dn))
          | None =>
              let* '(mb, _) := get in
              let pos := mb_pos mb in
              remember dn name (u64 (pos - start)) ;;
              check (on_mb (mbuf_write_u8 0)) (dname_loop name pos start comp)
          end
      else check (on_mb (mbuf_write_u8 c)) (dname_loop name pos start comp)
  end.

Definition dns_dname_encode (name : option (list Z)) (start : Z) (comp : bool) : M denc Z :=
  match name with
  | None => ret EINVAL
  | Some name =>
      let* dn := on_tab (dname_lookup name) in
      match (if comp then dn else None) with
      | Some dn => on_mb (dname_encode_pointer (dn_pos dn))
      | None =>
          let* '(mb, _) := get in
          let pos := mb_pos mb in
          remember dn name (u64 (pos - start)) ;;
          let* err := on_mb (mbuf_write_u8 0) in
          if bool_decide (name = [46]) then ret err
          else if nz err then ret err
          else dname_loop name pos start comp
      end
  end.

(** The loop of [dns_dname_decode].  [out] is [buf[0..i-1]], an array of 256
    characters: a store beyond it is undefined.  [jump] is the saved position
    once a pointer has been followed.  Running out of [fuel] is [None]. *)
Fixpoint dname_decode_loop (fuel : nat) (start : Z) (out : list Z) (loopc : Z) (jump : option Z) :
    M mbuf (Z * list Z) :=
  match fuel with
  | O => ub
  | S fuel =>
      let* mb := get in
      if negb (mb_pos mb <? mb_end mb) then ret (EINVAL, [])
      else
        let* b := load_at (mb_pos mb) 1 in
        mbuf_advance 1 ;;
        let len := nth 0 b 0 in
        let* mb := get in
        if len =? 0 then
          (match jump with Some pos => mbuf_set_pos pos | None => ret tt end) ;;
          if 256 <? zlength out + 1 then ub
          else if alloc_ok (zlength out + 1) then ret (0, cstr out)
          else ret (ENOMEM, [])
        else if Z.land len COMP_MASK =? COMP_MASK then
          if COMP_LOOP <? loopc then ret (EINVAL, [])
          else
            mbuf_set_pos (u64 (mb_pos mb - 1)) ;;
            need 2 (ret (EINVAL, []))
              (let* v := mbuf_read_ntohs in
               let offset := Z.land v OFFSET_MASK in
               let* mb := get in
               let jump := match jump with Some pos => Some pos | None => Some (mb_pos mb) end in
               mbuf_set_pos (u64 (offset + start)) ;;
               dname_decode_loop fuel start out (u32 (loopc + 1)) jump)
        else if mbuf_get_left mb <? len then ret (EINVAL, [])
        else if 256 <? len + zlength out + 2 then ret (EINVAL, [])
        else
          let* lab := load_at (mb_pos mb) len in
          mbuf_advance len ;;
          let out := (if 0 <? zlength out then out ++ [46] else out) ++ lab in
          if 256 <? zlength out then ub
          else dname_decode_loop fuel start out loopc jump
  end.

(** At most 256 pointers are followed, at most 255 labels stored, and the last
    round ends the name. *)
Definition DNAME_FUEL : nat := 512.

Definition dns_dname_decode (start : Z) : M mbuf (Z * list Z) :=
  dname_decode_loop DNAME_FUEL start [] 0 None.

(** ** Character strings *)

Definition dns_cstr_encode (str : option (list Z)) : M mbuf Z :=
  match str with
  | None => ret EINVAL
  | Some str =>
      let len := u8 (zlength str) in
      mbuf_write_u8 len |; mbuf_write_mem (take (Z.to_nat len) str)
  end.

Definition dns_cstr_decode : M mbuf (Z * list Z) :=
  need 1 (ret (EINVAL, []))
    (let* len := mbuf_read_u8 in
     need len (ret (EBADMSG, []))
       (let* '(err, str) := mbuf_strdup len in ret (err, cstr str))).

End dns.
