(* ===== verification/DnsRr.v ===== *)
(** * DNS resource records (src/dns/rr.c)

    [struct dnsrr] with its union as an inductive type: the constructor is the
    member that the type selects, [ROther] a type without a member. *)

From S2P Require Export Prelude Mbuf MbufSpec Hash Dns.

Abbreviation str := (option (list Z)).

Inductive rdata :=
  | RA (addr : Z)
  | RNs (nsdname : str)
  | RCname (cname : str)
  | RSoa (mname rname : str) (serial refresh retry expire ttlmin : Z)
  | RPtr (ptrdname : str)
  | RMx (pref : Z) (exchange : str)
  | RTxt (data : str)
  | RAaaa (addr : list Z)
  | RSrv (pri weight port : Z) (target : str)
  | RNaptr (order pref : Z) (flags services regexp replace : str)
  | ROther (type : Z).

Definition DNS_TYPE_A : Z := 0x0001.
Definition DNS_TYPE_NS : Z := 0x0002.
Definition DNS_TYPE_CNAME : Z := 0x0005.
Definition DNS_TYPE_SOA : Z := 0x0006.
Definition DNS_TYPE_PTR : Z := 0x000c.
Definition DNS_TYPE_MX : Z := 0x000f.
Definition DNS_TYPE_TXT : Z := 0x0010.
Definition DNS_TYPE_AAAA : Z := 0x001c.
Definition DNS_TYPE_SRV : Z := 0x0021.
Definition DNS_TYPE_NAPTR : Z := 0x0023.

Definition rdata_type (rd : rdata) : Z :=
  match rd with
  | RA _ => DNS_TYPE_A
  | RNs _ => DNS_TYPE_NS
  | RCname _ => DNS_TYPE_CNAME
  | RSoa _ _ _ _ _ _ _ => DNS_TYPE_SOA
  | RPtr _ => DNS_TYPE_PTR
  | RMx _ _ => DNS_TYPE_MX
  | RTxt _ => DNS_TYPE_TXT
  | RAaaa _ => DNS_TYPE_AAAA
  | RSrv _ _ _ _ => DNS_TYPE_SRV
  | RNaptr _ _ _ _ _ _ => DNS_TYPE_NAPTR
  | ROther t => t
  end.

Record dnsrr := DnsRr {
  rr_name : str;
  rr_dnsclass : Z;
  rr_ttl : Z;
  rr_rdlen : Z;
  rr_rdata : rdata;
}.

Definition rr_type (rr : dnsrr) : Z := rdata_type (rr_rdata rr).

Section rr.
Context `{Host}.

(** ** Encoding *)

(** [mbuf_write_mem(mb, ptr, slen)], which refuses a null pointer. *)
Definition write_str (ptr : str) (slen : Z) : M mbuf Z :=
  match ptr with
  | None => ret EINVAL
  | Some s => mbuf_write_mem (take (Z.to_nat slen) s)
  end.

(** One round of the TXT loop: the error code and the strings left, with
    [dlen] their length. *)
Definition txt_round (ptr : str) (dlen : Z) : M mbuf (Z * str * Z) :=
  let slen := Z.min (u8 dlen) 0xff in
  let* e := (mbuf_write_u8 slen |; write_str ptr slen) in
  ret (e, drop (Z.to_nat slen) <$> ptr, u64 (dlen - slen)).

(** [do { ... } while (dlen > 0);], [None] when [fuel] rounds do not end it. *)
Fixpoint txt_loop (fuel : nat) (ptr : str) (dlen : Z) : M mbuf Z :=
  match fuel with
  | O => ub
  | S fuel =>
      let* '(e, ptr, dlen) := txt_round ptr dlen in
      if 0 <? dlen then let* e' := txt_loop fuel ptr dlen in ret (Z.lor e e')
      else ret e
  end.

Definition str_len (s : str) : Z := match s with Some s => zlength s | None => 0 end.

Definition rdata_encode (fuel : nat) (rd : rdata) (start : Z) : M denc Z :=
  match rd with
  | RA addr => on_mb (mbuf_write_u32 (htonl addr))
  | RNs nsdname => dns_dname_encode nsdname start true
  | RCname cname => dns_dname_encode cname start true
  | RSoa mname rname serial refresh retry expire ttlmin =>
      dns_dname_encode mname start true |;
      dns_dname_encode rname start true |;
      on_mb (mbuf_write_u32 (htonl serial)) |;
      on_mb (mbuf_write_u32 (htonl refresh)) |;
      on_mb (mbuf_write_u32 (htonl retry)) |;
      on_mb (mbuf_write_u32 (htonl expire)) |;
      on_mb (mbuf_write_u32 (htonl ttlmin))
  | RPtr ptrdname => dns_dname_encode ptrdname start true
  | RMx pref exchange =>
      on_mb (mbuf_write_u16 (htons pref)) |;
      dns_dname_encode exchange start true
  | RTxt data => on_mb (txt_loop fuel data (str_len data))
  | RAaaa addr => on_mb (mbuf_write_mem addr)
  | RSrv pri weight port target =>
      on_mb (mbuf_write_u16 (htons pri)) |;
      on_mb (mbuf_write_u16 (htons weight)) |;
      on_mb (mbuf_write_u16 (htons port)) |;
      dns_dname_encode target start false
  | RNaptr order pref flags services regexp replace =>
      on_mb (mbuf_write_u16 (htons order)) |;
      on_mb (mbuf_write_u16 (htons pref)) |;
      on_mb (dns_cstr_encode flags) |;
      on_mb (dns_cstr_encode services) |;
      on_mb (dns_cstr_encode regexp) |;
      dns_dname_encode replace start false
  | ROther _ => ret EINVAL
  end.

(** [err |= ...] in the cases of the switch, [err = EINVAL] in its default. *)
Definition switch_err (rd : rdata) (err e : Z) : Z :=
  match rd with ROther _ => e | _ => Z.lor err e end.

Definition dns_rr_encode (fuel : nat) (rr : dnsrr) (ttl_offs start : Z) : M denc Z :=
  let diff := if ttl_offs <? rr_ttl rr then rr_ttl rr - ttl_offs else 0 in
  if 2 ^ 63 <=? diff then ub (* signed overflow *)
  else
    let ttl := u32 diff in
    let* err :=
      (dns_dname_encode (rr_name rr) start true |;
       on_mb (mbuf_write_u16 (htons (rr_type rr)) |;
              mbuf_write_u16 (htons (rr_dnsclass rr)) |;
              mbuf_write_u32 (htonl ttl) |;
              mbuf_write_u16 (htons (rr_rdlen rr)))) in
    let* '(mb, _) := get in
    let start_rdata := mb_pos mb in
    let* e := rdata_encode fuel (rr_rdata rr) start in
    let err := switch_err (rr_rdata rr) err e in
    let* '(mb, _) := get in
    let len := u64 (mb_pos mb - start_rdata) in
    if 0xffff <? len then ret EOVERFLOW
    else
      on_mb (mbuf_set_pos (u64 (start_rdata - 2))) ;;
      let* e := on_mb (mbuf_write_u16 (htons (u16 len))) in
      on_mb (mbuf_advance len) ;;
      ret (Z.lor err e).

(** ** Decoding *)

(** [err = m; if (err) goto error;] *)
Definition or_fail {A B} (m : M mbuf (Z * A)) (k : A -> M mbuf (Z * option B)) : M mbuf (Z * option B) :=
  let* '(err, a) := m in if nz err then ret (err, None) else k a.

Definition name_field {B} (start : Z) (k : str -> B) : M mbuf (Z * option B) :=
  or_fail (dns_dname_decode start) (fun name => ret (0, Some (k (Some name)))).

(** [while (rdlen > 0)]: [data] is what [ptr] has passed of a block of [size]
    characters; a store beyond it is undefined. *)
Fixpoint txt_decode_loop (fuel : nat) (size : Z) (data : list Z) (rdlen : Z) : M mbuf (Z * option (list Z)) :=
  if 0 <? rdlen then
    match fuel with
    | O => ub
    | S fuel =>
        let* len := mbuf_read_u8 in
        let rdlen := u16 (rdlen - 1) in
        if rdlen <? len then ret (EINVAL, None)
        else
          or_fail (mbuf_read_mem len) (fun bs =>
            if size <? zlength data + len then ub
            else txt_decode_loop fuel size (data ++ bs) (u16 (rdlen - len)))
    end
  else if size <? zlength data + 1 then ub
  else ret (0, Some data).

Definition rdata_decode (type rdlen start : Z) : M mbuf (Z * option rdata) :=
  if type =? DNS_TYPE_A then
    if negb (rdlen =? 4) then ret (EINVAL, None)
    else let* addr := mbuf_read_ntohl in ret (0, Some (RA addr))
  else if type =? DNS_TYPE_NS then name_field start RNs
  else if type =? DNS_TYPE_CNAME then name_field start RCname
  else if type =? DNS_TYPE_SOA then
    or_fail (dns_dname_decode start) (fun mname =>
    or_fail (dns_dname_decode start) (fun rname =>
    need 20 (ret (EINVAL, None))
      (let* serial := mbuf_read_ntohl in
       let* refresh := mbuf_read_ntohl in
       let* retry := mbuf_read_ntohl in
       let* expire := mbuf_read_ntohl in
       let* ttlmin := mbuf_read_ntohl in
       ret (0, Some (RSoa (Some mname) (Some rname) serial refresh retry expire ttlmin)))))
  else if type =? DNS_TYPE_PTR then name_field start RPtr
  else if type =? DNS_TYPE_MX then
    need 2 (ret (EINVAL, None))
      (let* pref := mbuf_read_ntohs in name_field start (RMx pref))
  else if type =? DNS_TYPE_TXT then
    if alloc_ok (rdlen + 1) then
      or_fail (txt_decode_loop (Z.to_nat rdlen) (rdlen + 1) [] rdlen) (fun data =>
        ret (0, RTxt ∘ Some ∘ cstr <$> data))
    else ret (ENOMEM, None)
  else if type =? DNS_TYPE_AAAA then
    if negb (rdlen =? 16) then ret (EINVAL, None)
    else or_fail (mbuf_read_mem 16) (fun addr => ret (0, Some (RAaaa addr)))
  else if type =? DNS_TYPE_SRV then
    need 6 (ret (EINVAL, None))
      (let* pri := mbuf_read_ntohs in
       let* weight := mbuf_read_ntohs in
       let* port := mbuf_read_ntohs in
       name_field start (RSrv pri weight port))
  else if type =? DNS_TYPE_NAPTR then
    need 4 (ret (EINVAL, None))
      (let* order := mbuf_read_ntohs in
       let* pref := mbuf_read_ntohs in
       or_fail dns_cstr_decode (fun flags =>
       or_fail dns_cstr_decode (fun services =>
       or_fail dns_cstr_decode (fun regexp =>
       name_field start (RNaptr order pref (Some flags) (Some services) (Some regexp))))))
  else
    mbuf_advance rdlen ;; ret (0, Some (ROther type)).

(** [sizeof(struct dnsrr)] is 136 on an LP64 host. *)
Definition dns_rr_decode (start : Z) : M mbuf (Z * option dnsrr) :=
  if negb (alloc_ok 136) then ret (ENOMEM, None)
  else
    or_fail (dns_dname_decode start) (fun name =>
    need 10 (ret (EINVAL, None))
      (let* type := mbuf_read_ntohs in
       let* dnsclass := mbuf_read_ntohs in
       let* ttl := mbuf_read_ntohl in
       let* rdlen := mbuf_read_ntohs in
       need rdlen (ret (EINVAL, None))
         (let* '(err, rd) := rdata_decode type rdlen start in
          if nz err then ret (err, None)
          else ret (0, DnsRr (Some name) dnsclass ttl rdlen <$> rd)))).

End rr.

(** ** Comparison *)

(** [str_casecmp(s1, s2) == 0]; two null pointers are the same string. *)
Definition str_same (s1 s2 : str) : bool :=
  match s1, s2 with
  | Some s1, Some s2 => str_caseeq s1 s2
  | None, None => true
  | _, _ => false
  end.

Definition rdata_cmp (rd1 rd2 : rdata) : bool :=
  match rd1, rd2 with
  | RA a1, RA a2 => a1 =? a2
  | RNs n1, RNs n2 => str_same n1 n2
  | RCname n1, RCname n2 => str_same n1 n2
  | RSoa m1 r1 s1 f1 t1 e1 l1, RSoa m2 r2 s2 f2 t2 e2 l2 =>
      str_same m1 m2 && str_same r1 r2 && (s1 =? s2) && (f1 =? f2) && (t1 =? t2) && (e1 =? e2) && (l1 =? l2)
  | RPtr n1, RPtr n2 => str_same n1 n2
  | RMx p1 n1, RMx p2 n2 => (p1 =? p2) && str_same n1 n2
  | RTxt d1, RTxt d2 => str_same d1 d2
  | RAaaa a1, RAaaa a2 => bool_decide (a1 = a2)
  | RSrv p1 w1 o1 n1, RSrv p2 w2 o2 n2 => (p1 =? p2) && (w1 =? w2) && (o1 =? o2) && str_same n1 n2
  | RNaptr o1 p1 f1 s1 x1 n1, RNaptr o2 p2 f2 s2 x2 n2 =>
      (o1 =? o2) && (p1 =? p2) && str_same f1 f2 && str_same s1 s2 && str_same x1 x2 && str_same n1 n2
  | _, _ => false
  end.

(** [dns_rr_cmp] of two different objects. *)
Definition dns_rr_cmp (rr1 rr2 : dnsrr) (rdata : bool) : bool :=
  if negb (rr_type rr1 =? rr_type rr2) then false
  else if negb (rr_dnsclass rr1 =? rr_dnsclass rr2) then false
  else if negb (str_same (rr_name rr1) (rr_name rr2)) then false
  else if negb rdata then true
  else rdata_cmp (rr_rdata rr1) (rr_rdata rr2).
