(* ===== verification/DnsDecode.v ===== *)
(** * Decoding of DNS names and records is safe on any input

    [dname_step] describes one round of the loop of [dns_dname_decode] on the
    unread bytes.  [Decodes m P] is the promise of the decoders here: memory
    safety, an error code, no change of the buffer but its position and, on
    success, a result that satisfies [P] and a position that moved forward
    within the data (after an error it may be anywhere, compression pointers
    having been followed). *)

From S2P Require Export Prelude Mbuf MbufSpec MbufParse Hash Dns DnsRr.

(** The characters of a C string. *)
Definition char_ok (c : Z) : Prop := 0 < c < 256.
Abbreviation chars_ok := (Forall char_ok).

Section decode.
Context `{Host}.

(** ** One round *)

Definition next_out (out lab : list Z) : list Z :=
  (if 0 <? zlength out then out ++ [46] else out) ++ lab.

Definition dname_round (fuel : nat) (start : Z) (out : list Z) (loopc : Z) (jump : option Z) (mb : mbuf)
    (len : Z) (rest : list Z) : option (Z * list Z * mbuf) :=
  let at_ p := set_pos p mb in
  if len =? 0 then
    if 256 <? zlength out + 1 then None
    else if alloc_ok (zlength out + 1) then Some ((0, cstr out), at_ (default (mb_pos mb + 1) jump))
    else Some ((ENOMEM, []), at_ (default (mb_pos mb + 1) jump))
  else if Z.land len COMP_MASK =? COMP_MASK then
    if COMP_LOOP <? loopc then Some ((EINVAL, []), at_ (mb_pos mb + 1))
    else
      match rest with
      | [] => Some ((EINVAL, []), mb)
      | lo :: _ =>
          dname_decode_loop fuel start out (u32 (loopc + 1)) (Some (default (mb_pos mb + 2) jump))
            (at_ (u64 (Z.land (be_val [len; lo]) OFFSET_MASK + start)))
      end
  else if zlength rest <? len then Some ((EINVAL, []), at_ (mb_pos mb + 1))
  else if 256 <? len + zlength out + 2 then Some ((EINVAL, []), at_ (mb_pos mb + 1))
  else if 256 <? zlength (next_out out (take (Z.to_nat len) rest)) then None
  else dname_decode_loop fuel start (next_out out (take (Z.to_nat len) rest)) loopc jump
         (at_ (mb_pos mb + 1 + len)).

Lemma load_unread mb n bs rest : mbuf_wf mb -> unread mb = bs ++ rest -> zlength bs = n ->
  load_at (mb_pos mb) n mb = Some (bs, mb).
Proof.
  intros Hwf E <-. pose proof (unread_left _ _ _ Hwf E) as Hl. unfold load_at, mem_load.
  destruct (wf_in_block mb (zlength bs) Hwf) as [-> |E0]; [lia| |].
  - do 2 f_equal. unfold unread in E. unfold slice in *.
    rewrite Nat2Z.id. transitivity (take (length bs) (bs ++ rest)); [|apply take_app_length].
    rewrite <- E, take_take. f_equal. lia.
  - destruct bs; [|simpl in E0; lia]. by unfold in_block.
Qed.

Lemma advance_small mb n : mbuf_wf mb -> 0 <= n -> mb_pos mb + n < 2 ^ 64 ->
  mbuf_advance n mb = Some (tt, set_pos (mb_pos mb + n) mb).
Proof.
  intros Hwf Hn Hl. unfold mbuf_advance, modify. pose proof (wf_pos _ Hwf). by rewrite (wrap_small 64) by lia.
Qed.

Lemma dname_step fuel start out loopc jump mb : mbuf_wf mb ->
  dname_decode_loop (S fuel) start out loopc jump mb =
    match unread mb with
    | [] => Some ((EINVAL, []), mb)
    | len :: rest => dname_round fuel start out loopc jump mb len rest
    end.
Proof.
  intros Hwf. pose proof (length_unread mb Hwf) as Lu. pose proof (wf_pos _ Hwf) as Hp.
  pose proof (left_bound _ Hwf) as (_ & _ & Hlb). unfold mbuf_get_left in Lu, Hlb.
  cbn [dname_decode_loop]. unfold get, bind at 1.
  destruct (unread mb) as [|len rest] eqn:Eu; simpl length in Lu.
  { rewrite (proj2 (Z.ltb_ge _ _)) by (case_match; lia). done. }
  assert (mb_pos mb < mb_end mb) as Hlt by (case_match; lia).
  rewrite (proj2 (Z.ltb_lt _ _)) in * by done. cbn [negb].
  rewrite (bind_Some _ _ _ _ _ (load_unread mb 1 [len] rest Hwf Eu eq_refl)).
  rewrite (bind_Some _ _ _ _ _ (advance_small mb 1 Hwf ltac:(lia) ltac:(lia))).
  pose proof (unread_wf mb [len] rest Hwf Eu) as Hwf1. pose proof (unread_advance mb [len] rest Hwf Eu) as Eu1.
  change (zlength [len]) with 1 in *. cbn [nth]. unfold bind at 1. unfold dname_round.
  destruct (len =? 0).
  { unfold bind. destruct jump as [p|]; simpl; unfold ret, ub; repeat case_match; done. }
  destruct (Z.land len COMP_MASK =? COMP_MASK).
  { destruct (COMP_LOOP <? loopc); [done|]. unfold mbuf_set_pos at 1, modify, bind at 1.
    cbn [mb_pos set_pos]. rewrite set_pos_set_pos, (wrap_small 64), Z.add_simpl_r, set_pos_id by lia.
    unfold need, get, bind at 1. rewrite <- (length_unread mb Hwf), Eu. destruct rest as [|lo rest]; [done|].
    rewrite (proj2 (Z.ltb_ge _ _)) by (simpl; lia).
    assert (bytes_ok [len; lo]) as Hok.
    { pose proof (unread_ok mb Hwf) as Ho. rewrite Eu in Ho. by apply (Forall_app _ [len; lo] rest) in Ho as [? _]. }
    destruct (reads_net_val 2 [len; lo] eq_refl Hok) as [Hr _].
    rewrite (bind_Some _ _ _ _ _ (Hr mb rest Hwf Eu)). unfold bind. simpl. by destruct jump. }
  rewrite <- (length_unread _ Hwf1), Eu1. destruct (Z.ltb_spec (zlength rest) len); [done|].
  destruct (256 <? len + zlength out + 2); [done|].
  assert (0 <= len) as Hlen.
  { pose proof (unread_ok mb Hwf) as Ho. rewrite Eu in Ho. apply Forall_cons_iff in Ho as [Ho _].
    unfold byte_ok in Ho. lia. }
  assert (zlength (take (Z.to_nat len) rest) = len) as Ll by (rewrite length_take; lia).
  rewrite <- (take_drop (Z.to_nat len) rest) in Eu1.
  rewrite (bind_Some _ _ _ _ _ (load_unread _ len _ _ Hwf1 Eu1 Ll)).
  rewrite (bind_Some _ _ _ _ _ (advance_small _ len Hwf1 ltac:(lia) ltac:(simpl; lia))).
  cbn [mb_pos set_pos]. fold (next_out out (take (Z.to_nat len) rest)). by case_match.
Qed.
(** ** C strings *)

Lemma cstr_ok bs : bytes_ok bs -> chars_ok (cstr bs).
Proof.
  induction 1 as [|b bs Hb _ IH]; simpl; [done|]. destruct (Z.eqb_spec b 0); [done|].
  constructor; [unfold byte_ok, char_ok in *; lia|done].
Qed.

Lemma cstr_id bs : chars_ok bs -> cstr bs = bs.
Proof.
  induction 1 as [|b bs Hb _ IH]; simpl; [done|]. unfold char_ok in Hb.
  rewrite (proj2 (Z.eqb_neq _ _)) by lia. by rewrite IH.
Qed.

Lemma length_cstr bs : zlength (cstr bs) <= zlength bs.
Proof. induction bs as [|b bs IH]; simpl; [lia|]. case_match; simpl; lia. Qed.

Lemma chars_bytes bs : chars_ok bs -> bytes_ok bs.
Proof. apply Forall_impl. unfold char_ok, byte_ok. lia. Qed.

(** ** Names *)

Record reset (mb mb' : mbuf) : Prop := {
  rs_buf : mb_buf mb' = mb_buf mb;
  rs_size : mb_size mb' = mb_size mb;
  rs_end : mb_end mb' = mb_end mb;
  rs_pos : 0 <= mb_pos mb' < 2 ^ 63;
}.

Lemma reset_wf mb mb' : mbuf_wf mb -> reset mb mb' -> mbuf_wf mb'.
Proof. intros [] [E1 E2 E3 Hp]. by split; rewrite ?E1, ?E2, ?E3. Qed.

Lemma reset_set_pos mb p : 0 <= p < 2 ^ 63 -> reset mb (set_pos p mb).
Proof. by split. Qed.

Lemma reset_from p mb mb' : reset (set_pos p mb) mb' -> reset mb mb'.
Proof. intros []. by split. Qed.

Lemma reset_trans mb1 mb2 mb3 : reset mb1 mb2 -> reset mb2 mb3 -> reset mb1 mb3.
Proof. intros [] []. split; congruence || done. Qed.

Lemma reset_refl mb : mbuf_wf mb -> reset mb mb.
Proof. intros []. by split. Qed.

(** What a decoded name is. *)
Definition name_ok (name : list Z) : Prop := chars_ok name /\ zlength name <= 255.

(** The saved position, or else the current one, is beyond [p0]. *)
Definition jump_ok (p0 : Z) (jump : option Z) (mb : mbuf) : Prop :=
  match jump with Some p => p0 < p <= mb_end mb | None => p0 <= mb_pos mb end.

Lemma next_out_length out lab : zlength (next_out out lab) =
  zlength out + zlength lab + (if 0 <? zlength out then 1 else 0).
Proof. unfold next_out. case_match; rewrite ?length_app; simpl; lia. Qed.

Lemma next_out_ok out lab : bytes_ok out -> bytes_ok lab -> bytes_ok (next_out out lab).
Proof.
  intros. unfold next_out. case_match; rewrite ?Forall_app; split_and!; try done.
  constructor; [unfold byte_ok; lia|done].
Qed.

Lemma unread_cons mb b rest : mbuf_wf mb -> unread mb = b :: rest ->
  0 <= b < 256 /\ bytes_ok rest /\ mb_pos mb + 1 + zlength rest = mb_end mb /\ mb_end mb < 2 ^ 32.
Proof.
  intros Hwf E. pose proof (unread_ok mb Hwf) as Ho. rewrite E in Ho. apply Forall_cons_iff in Ho as [Hb Hr].
  pose proof (length_unread mb Hwf) as L. rewrite E in L. unfold mbuf_get_left in L. simpl length in L.
  destruct Hwf as [_ Hm _ _ He]. unfold MEM_SIZE_MAX, byte_ok in *. split_and!; try done; try lia.
  case_match; lia.
Qed.

(** The measure that bounds the rounds of the loop. *)
Definition rounds_left (out : list Z) (loopc : Z) : Z := (256 - loopc) + (255 - zlength out).

Lemma dname_loop_safe fuel start out loopc jump mb p0 :
  mbuf_wf mb -> 0 <= start < 2 ^ 62 -> bytes_ok out -> zlength out <= 255 -> 0 <= loopc <= 256 ->
  0 <= p0 -> jump_ok p0 jump mb -> rounds_left out loopc < Z.of_nat fuel ->
  exists e name mb', dname_decode_loop fuel start out loopc jump mb = Some ((e, name), mb') /\
    reset mb mb' /\ (e = 0 -> name_ok name /\ p0 < mb_pos mb' <= mb_end mb).
Proof.
  revert out loopc jump mb. induction fuel as [|fuel IH]; intros out loopc jump mb Hwf Hs Ho Hl Hc Hp0 Hj Hf;
    unfold rounds_left in *; [lia|].
  rewrite dname_step by done. pose proof (wf_pos _ Hwf) as Hp.
  destruct (unread mb) as [|len rest] eqn:Eu.
  { eexists _, _, mb. split_and!; [done|by apply reset_refl|done]. }
  destruct (unread_cons mb len rest Hwf Eu) as (Hb & Hr & Ee & Hm). unfold dname_round.
  assert (forall e p, e <> 0 -> 0 <= p < 2 ^ 63 -> exists e' name mb', Some (e, @nil Z, set_pos p mb) = Some (e', name, mb') /\
    reset mb mb' /\ (e' = 0 -> name_ok name /\ p0 < mb_pos mb' <= mb_end mb)) as Hfail.
  { intros e p He Hpp. eexists _, _, _. split_and!; [done|by apply reset_set_pos|done]. }
  assert (forall p out' loopc' jump', 0 <= p < 2 ^ 63 -> bytes_ok out' -> zlength out' <= 255 ->
    0 <= loopc' <= 256 -> jump_ok p0 jump' (set_pos p mb) ->
    256 - loopc' + (255 - zlength out') < Z.of_nat fuel ->
    exists e name mb', dname_decode_loop fuel start out' loopc' jump' (set_pos p mb) = Some ((e, name), mb') /\
      reset mb mb' /\ (e = 0 -> name_ok name /\ p0 < mb_pos mb' <= mb_end mb)) as Hgo.
  { intros p out' loopc' jump' Hpp Ho' Hl' Hc' Hj' Hf'.
    destruct (IH out' loopc' jump' (set_pos p mb)) as (e & name & mb' & E & Hrs & Hok); try done;
      [by apply set_pos_wf|]. exists e, name, mb'. split_and!; [done|by apply (reset_from p)|done]. }
  assert (p0 < default (mb_pos mb + 1) jump <= mb_end mb) as Hd by (unfold jump_ok in Hj; destruct jump; simpl; lia).
  destruct (Z.eqb_spec len 0).
  { rewrite (proj2 (Z.ltb_ge _ _)) by lia. destruct (alloc_ok _); [|apply Hfail; [done|lia]].
    eexists _, _, _. split_and!; [done|apply reset_set_pos; lia|]. intros _. split; [|done].
    split; [by apply cstr_ok|]. pose proof (length_cstr out). lia. }
  destruct (Z.land len COMP_MASK =? COMP_MASK).
  { unfold COMP_LOOP. destruct (Z.ltb_spec 255 loopc); [apply Hfail; [done|lia]|].
    destruct rest as [|lo rest]; [exists EINVAL, [], mb; split_and!; [done|by apply reset_refl|done]|].
    pose proof (land_range OFFSET_MASK (be_val [len; lo]) 14 ltac:(lia) ltac:(done)) as Hoff.
    rewrite Z.land_comm in Hoff. rewrite (wrap_small 32), (wrap_small 64) by lia.
    apply Hgo; try done; try lia.
    unfold jump_ok in *. simpl length in *. destruct jump; simpl; lia. }
  destruct (Z.ltb_spec (zlength rest) len); [apply Hfail; [done|lia]|].
  destruct (Z.ltb_spec 256 (len + zlength out + 2)); [apply Hfail; [done|lia]|].
  pose proof (next_out_length out (take (Z.to_nat len) rest)) as Ln. rewrite length_take in Ln.
  assert (zlength out + len <= zlength (next_out out (take (Z.to_nat len) rest)) <= 255) by (case_match; lia).
  rewrite (proj2 (Z.ltb_ge _ _)) by lia.
  apply Hgo; try done; try lia.
  - apply next_out_ok; [done|by apply Forall_take].
  - unfold jump_ok in *. destruct jump; simpl; lia.
Qed.

(** ** Decoders *)

Class Decodes {R} (n : Z) (m : M mbuf (Z * R)) (P : R -> Prop) : Prop :=
  decodes : forall mb, mbuf_wf mb -> n <= mbuf_get_left mb ->
    exists e r mb', m mb = Some ((e, r), mb') /\ reset mb mb' /\
      (e = 0 -> P r /\ mb_pos mb <= mb_pos mb' <= Z.max (mb_pos mb) (mb_end mb)).

Lemma decodes_dname start : 0 <= start < 2 ^ 62 -> Decodes 0 (dns_dname_decode start) name_ok.
Proof.
  intros Hs mb Hwf _. pose proof (wf_pos _ Hwf).
  destruct (dname_loop_safe DNAME_FUEL start [] 0 None mb (mb_pos mb)) as (e & name & mb' & E & Hr & Hok);
    try done; try (simpl; lia). exists e, name, mb'. split_and!; [done..|].
  intros He. destruct (Hok He). split; [done|lia].
Qed.

Lemma decodes_ret {R} n e (r : R) (P : R -> Prop) : (e = 0 -> P r) -> Decodes n (ret (e, r)) P.
Proof.
  intros HP mb Hwf _. exists e, r, mb. split_and!; [done|by apply reset_refl|]. intros He. split; [auto|lia].
Qed.

Lemma decodes_weaken {R} n n' (m : M mbuf (Z * R)) P : n <= n' -> Decodes n m P -> Decodes n' m P.
Proof. intros Hn Hm mb Hwf Hl. apply Hm; [done|lia]. Qed.

Lemma decodes_need {R} n n' e (r : R) k (P : R -> Prop) : e <> 0 -> Decodes n k P ->
  Decodes n' (need n (ret (e, r)) k) P.
Proof.
  intros He Hk mb Hwf _. unfold need, get, bind. destruct (Z.ltb_spec (mbuf_get_left mb) n).
  - by apply (decodes_ret 0 e r); [|done|apply left_bound].
  - by apply Hk.
Qed.

Lemma decodes_bind {A R} n p (m : M mbuf A) (k : A -> M mbuf (Z * R)) (Q : A -> Prop) (P : R -> Prop) :
  0 <= n -> 0 <= p -> (forall bs, zlength bs = n -> bytes_ok bs -> exists a, Reads m bs a /\ Q a) ->
  (forall a, Q a -> Decodes p (k a) P) -> Decodes (n + p) (bind m k) P.
Proof.
  intros Hn Hp Hm Hk mb Hwf Hl. destruct (unread_split mb n Hwf) as (b1 & r1 & E1 & L1 & O1); [lia|].
  destruct (Hm b1 L1 O1) as (a & Hr & Hq). rewrite (bind_Some _ _ _ _ _ (Hr mb r1 Hwf E1)).
  pose proof (unread_wf _ _ _ Hwf E1) as Hwf1. pose proof (left_advance _ _ _ Hwf E1) as El.
  pose proof (left_bound _ Hwf). destruct (Hk a Hq _ Hwf1) as (e & r & mb1 & E & Ha & Hok); [lia|].
  exists e, r, mb1. split_and!; [done|by apply reset_from in Ha|]. intros He.
  destruct (Hok He) as [HP Hpos]. split; [done|]. cbn [mb_pos mb_end set_pos] in Hpos. lia.
Qed.

Lemma decodes_u8 {R} n (k : Z -> M mbuf (Z * R)) (P : R -> Prop) : 1 <= n ->
  (forall v, 0 <= v < 256 -> Decodes (n - 1) (k v) P) -> Decodes n (bind mbuf_read_u8 k) P.
Proof.
  intros Hn Hk. replace n with (1 + (n - 1)) by lia.
  apply (decodes_bind _ _ _ _ (fun v => 0 <= v < 256)); [lia|lia| |done].
  intros bs Hl Hok. exists (host_val bs). split; [apply (reads_int 1); lia|].
  pose proof (host_val_range bs Hok) as R1. by rewrite Hl in R1.
Qed.

Lemma decodes_ntohs {R} n (k : Z -> M mbuf (Z * R)) (P : R -> Prop) : 2 <= n ->
  (forall v, 0 <= v < 2 ^ 16 -> Decodes (n - 2) (k v) P) -> Decodes n (bind mbuf_read_ntohs k) P.
Proof.
  intros Hn Hk. replace n with (2 + (n - 2)) by lia.
  apply (decodes_bind _ _ _ _ (fun v => 0 <= v < 2 ^ 16)); [lia|lia| |done].
  intros bs Hl Hok. exists (be_val bs). apply (reads_net_val 2); [lia|done].
Qed.

Lemma decodes_ntohl {R} n (k : Z -> M mbuf (Z * R)) (P : R -> Prop) : 4 <= n ->
  (forall v, 0 <= v < 2 ^ 32 -> Decodes (n - 4) (k v) P) -> Decodes n (bind mbuf_read_ntohl k) P.
Proof.
  intros Hn Hk. replace n with (4 + (n - 4)) by lia.
  apply (decodes_bind _ _ _ _ (fun v => 0 <= v < 2 ^ 32)); [lia|lia| |done].
  intros bs Hl Hok. exists (be_val bs). apply (reads_net_val 4); [lia|done].
Qed.

Lemma decodes_then {A R} n (m : M mbuf (Z * A)) (f : A -> R) (k : A -> M mbuf (Z * R)) (Q : A -> Prop) P :
  Decodes n m Q -> (forall a, Q a -> Decodes 0 (k a) P) ->
  Decodes n (let* '(err, a) := m in if nz err then ret (err, f a) else k a) P.
Proof.
  intros Hm Hk mb Hwf Hn. destruct (Hm mb Hwf Hn) as (e & a & mb1 & E & Hr & Hok).
  rewrite (bind_Some _ _ _ _ _ E). unfold nz. destruct (Z.eqb_spec e 0) as [He|]; simpl.
  2: { exists e, (f a), mb1. by split_and!. }
  destruct (Hok He) as [Hq Hp]. pose proof (reset_wf _ _ Hwf Hr) as Hwf1.
  destruct (Hk a Hq mb1 Hwf1) as (e' & r & mb2 & E2 & Hr2 & Hok2); [by apply left_bound|].
  exists e', r, mb2. split_and!; [done|by eapply reset_trans|]. intros He'. destruct (Hok2 He') as [? Hp2].
  rewrite (rs_end _ _ Hr) in Hp2. split; [done|lia].
Qed.

Lemma decodes_or_fail {A B} n (m : M mbuf (Z * A)) (k : A -> M mbuf (Z * option B)) (Q : A -> Prop) P :
  Decodes n m Q -> (forall a, Q a -> Decodes 0 (k a) P) -> Decodes n (or_fail m k) P.
Proof. apply (decodes_then n m (fun _ => None)). Qed.

Lemma decodes_mem {B} n sz (k : list Z -> M mbuf (Z * option B)) P : 0 <= sz <= n ->
  (forall bs, zlength bs = sz -> bytes_ok bs -> Decodes (n - sz) (k bs) P) ->
  Decodes n (or_fail (mbuf_read_mem sz) k) P.
Proof.
  intros Hn Hk. unfold or_fail. replace n with (sz + (n - sz)) by lia.
  apply (decodes_bind _ _ _ _ (fun r => r.1 = 0 /\ zlength r.2 = sz /\ bytes_ok r.2)); [lia|lia| |].
  - intros bs Hl Hok. exists (0, bs). split; [by apply reads_mem|done].
  - intros [e bs] (E & Hl & Hok). simpl in *. subst e. by apply Hk.
Qed.

Lemma decodes_if {R} n (b : bool) (m1 m2 : M mbuf (Z * R)) (P : R -> Prop) :
  (b = true -> Decodes n m1 P) -> (b = false -> Decodes n m2 P) -> Decodes n (if b then m1 else m2) P.
Proof. destruct b; auto. Qed.

End decode.
