(* ===== verification/DnsRrDecode.v ===== *)
(** * Decoding of DNS resource records is safe on any input *)

From S2P Require Import Prelude Mbuf MbufSpec MbufParse Hash Dns DnsRr DnsDecode.

Section rr_decode.
Context `{Host}.

(** ** What a decoded record is *)

Definition str_ok (s : str) : Prop := exists name, s = Some name /\ chars_ok name /\ zlength name <= 255.
Definition w16 (v : Z) : Prop := 0 <= v < 2 ^ 16.
Definition w32 (v : Z) : Prop := 0 <= v < 2 ^ 32.

Definition rdata_ok (rd : rdata) : Prop :=
  match rd with
  | RA addr => w32 addr
  | RNs name | RCname name | RPtr name => str_ok name
  | RSoa mname rname serial refresh retry expire ttlmin =>
      str_ok mname /\ str_ok rname /\ w32 serial /\ w32 refresh /\ w32 retry /\ w32 expire /\ w32 ttlmin
  | RMx pref exchange => w16 pref /\ str_ok exchange
  | RTxt data => exists s, data = Some s /\ chars_ok s /\ zlength s < 2 ^ 16
  | RAaaa addr => bytes_ok addr /\ zlength addr = 16
  | RSrv pri weight port target => w16 pri /\ w16 weight /\ w16 port /\ str_ok target
  | RNaptr order pref flags services regexp replace =>
      w16 order /\ w16 pref /\ str_ok flags /\ str_ok services /\ str_ok regexp /\ str_ok replace
  | ROther type => w16 type
  end.

Definition rr_ok (rr : dnsrr) : Prop :=
  str_ok (rr_name rr) /\ w16 (rr_type rr) /\ w16 (rr_dnsclass rr) /\ w32 (rr_ttl rr) /\
  w16 (rr_rdlen rr) /\ rdata_ok (rr_rdata rr).

(** The result of a successful [rdata_decode]. *)
Definition rd_result (type : Z) (r : option rdata) : Prop :=
  exists rd, r = Some rd /\ rdata_ok rd /\ rdata_type rd = type.

Lemma name_str_ok name : name_ok name -> str_ok (Some name).
Proof. intros []. by exists name. Qed.

Lemma decodes_name_field start (k : str -> rdata) type : 0 <= start < 2 ^ 62 ->
  (forall name, str_ok name -> rdata_ok (k name) /\ rdata_type (k name) = type) ->
  Decodes 0 (name_field start k) (rd_result type).
Proof.
  intros Hs Hk. unfold name_field. apply (decodes_or_fail _ _ _ name_ok); [by apply decodes_dname|].
  intros name Hn. apply decodes_ret. intros _. eexists. split; [done|]. by apply Hk, name_str_ok.
Qed.

Lemma decodes_cstr : Decodes 0 dns_cstr_decode name_ok.
Proof.
  apply decodes_need; [done|]. apply decodes_u8; [lia|]. intros len Hl. apply decodes_need; [done|].
  unfold mbuf_strdup. destruct (alloc_ok _).
  - rewrite <- (Z.add_0_r len). rewrite Z.add_0_r at 2.
    apply (decodes_bind _ _ _ _ (fun r => r.1 = 0 /\ zlength r.2 = len /\ bytes_ok r.2)); [lia|lia| |].
    + intros bs Hbl Hok. exists (0, bs). split; [by apply reads_mem|done].
    + intros [e bs] (E & Hbl & Hok). simpl in *. subst e. apply decodes_ret. intros _.
      split; [by apply cstr_ok|]. pose proof (length_cstr bs). lia.
  - intros mb Hwf _. eexists _, _, mb. split_and!; [done|by apply reset_refl|done].
Qed.

Definition txt_result (r : option (list Z)) : Prop :=
  exists data, r = Some data /\ bytes_ok data /\ zlength data < 2 ^ 16.

Lemma decodes_txt fuel size data rdlen : w16 rdlen -> rdlen <= Z.of_nat fuel -> bytes_ok data ->
  zlength data + rdlen < size <= 2 ^ 16 -> Decodes rdlen (txt_decode_loop fuel size data rdlen) txt_result.
Proof.
  revert data rdlen. induction fuel as [|fuel IH]; intros data rdlen Hr Hf Hok Hs; simpl; unfold w16 in *.
  all: destruct (Z.ltb_spec 0 rdlen); [|rewrite (proj2 (Z.ltb_ge _ _)) by lia; apply decodes_ret].
  - lia.
  - intros _. exists data. split_and!; [done..|lia].
  - apply decodes_u8; [lia|]. intros len Hl. rewrite (wrap_small 16 (rdlen - 1)) by lia.
    destruct (Z.ltb_spec (rdlen - 1) len); [by apply decodes_ret|].
    apply decodes_mem; [lia|]. intros bs Hbl Hbok. rewrite (proj2 (Z.ltb_ge _ _)) by lia.
    rewrite (wrap_small 16) by lia. apply IH; unfold w16; rewrite ?length_app; try lia. by apply Forall_app.
  - intros _. exists data. split_and!; [done..|lia].
Qed.

(** Decoding of an unsigned field, with its range. *)
Ltac dec_int := first [apply decodes_ntohs | apply decodes_ntohl]; [lia|]; intros ? ?.
Ltac fields := simpl; unfold w16, w32; split_and!; (assumption || lia || done).
Ltac dec_done := apply decodes_ret; intros _; eexists; split; [done|]; fields.

Lemma decodes_rdata type rdlen start : w16 type -> w16 rdlen -> 0 <= start < 2 ^ 62 ->
  Decodes rdlen (rdata_decode type rdlen start) (rd_result type).
Proof.
  intros Ht Hr Hs. unfold rdata_decode, w16 in *.
  assert (0 <= rdlen) as H0 by lia.
  assert (forall k : str -> rdata, (forall name, str_ok name -> rdata_ok (k name) /\ rdata_type (k name) = type) ->
    forall n, 0 <= n -> Decodes n (name_field start k) (rd_result type)) as Hname.
  { intros k Hk n Hn. by apply (decodes_weaken 0), decodes_name_field. }
  destruct (Z.eqb_spec type DNS_TYPE_A) as [->|].
  { destruct (Z.eqb_spec rdlen 4) as [->|]; simpl; [|by apply decodes_ret]. dec_int. dec_done. }
  destruct (Z.eqb_spec type DNS_TYPE_NS) as [->|]; [by apply Hname|].
  destruct (Z.eqb_spec type DNS_TYPE_CNAME) as [->|]; [by apply Hname|].
  destruct (Z.eqb_spec type DNS_TYPE_SOA) as [->|].
  { apply (decodes_weaken 0); [done|].
    apply (decodes_or_fail _ _ _ name_ok); [by apply decodes_dname|]. intros m Hm%name_str_ok.
    apply (decodes_or_fail _ _ _ name_ok); [by apply decodes_dname|]. intros r Hrn%name_str_ok.
    apply decodes_need; [done|]. do 5 dec_int. dec_done. }
  destruct (Z.eqb_spec type DNS_TYPE_PTR) as [->|]; [by apply Hname|].
  destruct (Z.eqb_spec type DNS_TYPE_MX) as [->|].
  { apply decodes_need; [done|]. dec_int. apply Hname; [|lia]. intros. fields. }
  destruct (Z.eqb_spec type DNS_TYPE_TXT) as [->|].
  { destruct (alloc_ok _); [|by apply decodes_ret].
    apply (decodes_or_fail _ _ _ txt_result); [apply decodes_txt; simpl; unfold w16; done || lia|].
    intros ? (data & -> & Hok & Hl). apply decodes_ret. intros _. eexists. split; [done|]. split; [|done].
    exists (cstr data). split_and!; [done|by apply cstr_ok|]. pose proof (length_cstr data). lia. }
  destruct (Z.eqb_spec type DNS_TYPE_AAAA) as [->|].
  { destruct (Z.eqb_spec rdlen 16) as [->|]; simpl; [|by apply decodes_ret].
    apply decodes_mem; [lia|]. intros bs Hl Hok. dec_done. }
  destruct (Z.eqb_spec type DNS_TYPE_SRV) as [->|].
  { apply decodes_need; [done|]. do 3 dec_int. apply Hname; [|lia]. intros. fields. }
  destruct (Z.eqb_spec type DNS_TYPE_NAPTR) as [->|].
  { apply decodes_need; [done|]. do 2 dec_int.
    do 3 (apply (decodes_or_fail _ _ _ name_ok); [apply (decodes_weaken 0); [lia|apply decodes_cstr]|];
          intros ? ?%name_str_ok).
    apply Hname; [|lia]. intros. fields. }
  replace rdlen with (rdlen + 0) at 1 by lia.
  apply (decodes_bind _ _ _ _ (fun _ => True)); [lia|lia| |].
  - intros bs Hl _. exists tt. split; [by apply reads_advance|done].
  - intros _ _. dec_done.
Qed.

Lemma decodes_rr start : 0 <= start < 2 ^ 62 ->
  Decodes 0 (dns_rr_decode start) (fun r => exists rr, r = Some rr /\ rr_ok rr).
Proof.
  intros Hs. unfold dns_rr_decode. destruct (alloc_ok 136); simpl; [|by apply decodes_ret].
  apply (decodes_or_fail _ _ _ name_ok); [by apply decodes_dname|]. intros name Hn%name_str_ok.
  apply decodes_need; [done|]. apply decodes_ntohs; [lia|]. intros type Ht. apply decodes_ntohs; [lia|].
  intros class Hc. apply decodes_ntohl; [lia|]. intros ttl Httl. apply decodes_ntohs; [lia|]. intros rdlen Hr.
  apply decodes_need; [done|].
  change (Decodes rdlen (or_fail (rdata_decode type rdlen start)
    (fun rd => ret (0, DnsRr (Some name) class ttl rdlen <$> rd))) (fun r => exists rr, r = Some rr /\ rr_ok rr)).
  apply (decodes_or_fail _ _ _ (rd_result type)); [by apply decodes_rdata|].
  intros ? (rd & -> & Hok & Et). apply decodes_ret. intros _. eexists. split; [done|].
  unfold rr_ok, rr_type. simpl. rewrite Et. by split_and!.
Qed.

(** C30: [dns_dname_decode] is memory safe and terminates on every buffer,
    whatever compression pointers it holds: forward, backward, circular or
    past the end.  It follows at most 256 of them, never stores outside its
    array of 256 characters, changes nothing but the position, and when it
    returns 0 the name is a C string of at most 255 characters and the position
    is after the name, within the data. *)
Theorem dns_dname_decode_safe start mb : mbuf_wf mb -> 0 <= start < 2 ^ 62 ->
  exists e name mb', dns_dname_decode start mb = Some ((e, name), mb') /\ mbuf_wf mb' /\ reset mb mb' /\
    (e = 0 -> chars_ok name /\ zlength name <= 255 /\ mb_pos mb < mb_pos mb' <= mb_end mb).
Proof.
  intros Hwf Hs. pose proof (wf_pos _ Hwf).
  destruct (dname_loop_safe DNAME_FUEL start [] 0 None mb (mb_pos mb)) as (e & name & mb' & E & Hr & Hok);
    try done; try (simpl; lia). exists e, name, mb'.
  split_and!; [done|by eapply reset_wf|done|]. intros He. by destruct (Hok He) as [[? ?] ?].
Qed.

(** [dns_rr_decode] is memory safe on every buffer; it changes nothing but
    the position, and a record it returns has every field within its range,
    strings that are terminated and the member of the union that its type
    selects. *)
Theorem dns_rr_decode_safe start mb : mbuf_wf mb -> 0 <= start < 2 ^ 62 ->
  exists e rr mb', dns_rr_decode start mb = Some ((e, rr), mb') /\ mbuf_wf mb' /\ reset mb mb' /\
    (e = 0 -> exists r, rr = Some r /\ rr_ok r /\ mb_pos mb <= mb_pos mb' <= Z.max (mb_pos mb) (mb_end mb)).
Proof.
  intros Hwf Hs. destruct (decodes_rr start Hs mb Hwf) as (e & rr & mb' & E & Hr & Hok);
    [by apply left_bound|]. exists e, rr, mb'. split_and!; [done|by eapply reset_wf|done|].
  intros He. destruct (Hok He) as [(r & -> & Hrr) Hp]. by exists r.
Qed.

End rr_decode.
