(* ===== verification/DnsName.v ===== *)
(** * DNS names in a message

    [at_name p ls k n]: at position [p] of a message there is a name with the
    labels [ls], which ends at [k]; [n] compression pointers are followed to
    read it.  [dns_dname_decode] returns the labels of such a name. *)

From S2P Require Export Prelude Mbuf MbufSpec MbufData Hash HashThms Dns DnsRr DnsDecode.

(** ** Labels and names *)

Definition low (s : list Z) : list Z := tolower <$> s.

Record label_ok (l : list Z) : Prop := {
  lab_length : 0 < zlength l < 64;
  lab_chars : chars_ok l;
  lab_nodot : 46 ∉ l;
}.

(** The name with labels [ls], with or without a final dot. *)
Fixpoint dotted (ls : list (list Z)) (dot : bool) : list Z :=
  match ls with
  | [] => []
  | [l] => l ++ (if dot then [46] else [])
  | l :: ls => l ++ 46 :: dotted ls dot
  end.

(** The names that stand for [ls]; the root is the empty name or a dot. *)
Definition names (ls : list (list Z)) (name : list Z) : Prop :=
  (exists dot, name = dotted ls dot) \/ (ls = [] /\ name = [46]).

(** What the decoder builds from [ls]. *)
Definition spell (out : list Z) (ls : list (list Z)) : list Z := foldl next_out out ls.

(** Octets of the uncompressed name. *)
Fixpoint wire (ls : list (list Z)) : Z :=
  match ls with [] => 1 | l :: ls => 1 + zlength l + wire ls end.

Lemma dotted_cons l ls dot : dotted (l :: ls) dot =
  l ++ match ls with [] => if dot then [46] else [] | _ => 46 :: dotted ls dot end.
Proof. by destruct ls. Qed.

Lemma wire_pos ls : Forall label_ok ls -> 1 <= wire ls.
Proof. induction 1; simpl; lia. Qed.

Lemma spell_dotted out ls : Forall label_ok ls -> ls <> [] ->
  spell out ls = (if 0 <? zlength out then out ++ [46] else out) ++ dotted ls false.
Proof.
  intros Hls. revert out. induction Hls as [|l ls Hl Hls IH]; intros out Hne; [done|].
  rewrite dotted_cons. change (spell out (l :: ls)) with (spell (next_out out l) ls).
  destruct ls as [|l2 ls]; [unfold spell, next_out; simpl; by rewrite app_nil_r|].
  rewrite IH by done. rewrite (proj2 (Z.ltb_lt _ _)); [unfold next_out; by rewrite <- !app_assoc|].
  rewrite next_out_length. destruct Hl. case_match; lia.
Qed.

Lemma spell_nil ls : Forall label_ok ls -> spell [] ls = dotted ls false.
Proof. intros. destruct ls; [done|]. by rewrite spell_dotted. Qed.

(** *** Case *)

Lemma tolower_char c : char_ok c -> char_ok (tolower c).
Proof. unfold char_ok, tolower. case_match; lia. Qed.

Lemma tolower_dot c : tolower c = 46 <-> c = 46.
Proof. unfold tolower. case_match; lia. Qed.

Lemma low_nodot l : 46 ∉ l -> 46 ∉ low l.
Proof.
  intros Hl. unfold low. rewrite list_elem_of_fmap. intros (c & E & Hc). symmetry in E.
  apply tolower_dot in E as ->. done.
Qed.

Lemma low_app a b : low (a ++ b) = low a ++ low b.
Proof. apply fmap_app. Qed.

Lemma length_low s : length (low s) = length s.
Proof. apply length_fmap. Qed.

Lemma low_dotted ls dot : low (dotted ls dot) = dotted (low <$> ls) dot.
Proof.
  induction ls as [|l ls IH]; [done|]. rewrite fmap_cons, !dotted_cons, low_app. f_equal.
  destruct ls; [by destruct dot|]. rewrite fmap_cons in *. change (low (46 :: ?x)) with (46 :: low x). by rewrite IH.
Qed.

Lemma low_length_eq a b : low a = low b -> length a = length b.
Proof. intros E. by rewrite <- (length_low a), E, length_low. Qed.

(** Splitting at the first dot is unique. *)
Lemma dot_split (l l' t t' : list Z) : 46 ∉ l -> 46 ∉ l' ->
  (t = [] \/ exists u, t = 46 :: u) -> (t' = [] \/ exists u, t' = 46 :: u) ->
  l ++ t = l' ++ t' -> l = l' /\ t = t'.
Proof.
  revert l'. induction l as [|c l IH]; intros [|c' l'] Hl Hl' Ht Ht' E; simpl in *.
  - done.
  - destruct Ht as [-> |[u ->]]; simplify_eq. destruct Hl'. by left.
  - destruct Ht' as [-> |[u ->]]; simplify_eq. destruct Hl. by left.
  - simplify_eq. apply not_elem_of_cons in Hl as [_ Hl], Hl' as [_ Hl'].
    by destruct (IH l' Hl Hl' Ht Ht') as [-> ->].
Qed.

Lemma dotted_inj ls ls' d d' : Forall (fun l => l <> [] /\ 46 ∉ l) ls -> Forall (fun l => l <> [] /\ 46 ∉ l) ls' ->
  dotted ls d = dotted ls' d' -> ls = ls'.
Proof.
  intros Hls. revert ls'. induction Hls as [|l ls [Hne Hd] Hls IH]; intros ls' Hls' E.
  - destruct Hls' as [|l' ls' [Hne' _] _]; [done|]. rewrite dotted_cons in E. by destruct l'.
  - destruct Hls' as [|l' ls' [Hne' Hd'] Hls']; rewrite !dotted_cons in E; [by destruct l|].
    apply dot_split in E as [-> E]; [|done|done|destruct ls, d; eauto|destruct ls', d'; eauto].
    f_equal. destruct ls as [|l2 ls], ls' as [|l2' ls']; [done| | |].
    + destruct d; [|done]. apply Forall_cons_iff in Hls' as [[? ?] _]. simplify_eq.
      rewrite dotted_cons in E. by destruct l2'.
    + destruct d'; [|done]. apply Forall_cons_iff in Hls as [[? ?] _]. simplify_eq.
      rewrite dotted_cons in E. by destruct l2.
    + simplify_eq. by apply IH.
Qed.

Lemma low_labels ls : Forall label_ok ls -> Forall (fun l => l <> [] /\ 46 ∉ l) (low <$> ls).
Proof.
  intros H. apply Forall_fmap. apply (List.Forall_impl _ (P := label_ok)); [|done]. intros l [Hl _ Hd]. simpl. split.
  - intros E. apply (f_equal length) in E. rewrite length_low in E. simpl in E. lia.
  - by apply low_nodot.
Qed.

Lemma dotted_not_dot ls d : Forall (fun l => l <> [] /\ 46 ∉ l) ls -> dotted ls d <> [46].
Proof.
  intros [|l ls' [Hne Hd] _]; [done|]. rewrite dotted_cons. destruct l as [|c l]; [done|].
  intros E. simplify_eq/=. destruct Hd. by left.
Qed.

(** Names that compare equal have the same labels up to case. *)
Lemma names_same ls ls' name name' : names ls name -> names ls' name' -> Forall label_ok ls -> Forall label_ok ls' ->
  str_caseeq name' name = true -> low <$> ls' = low <$> ls.
Proof.
  intros Hn Hn' Hls%low_labels Hls'%low_labels E%bool_decide_eq_true_1.
  change (low name' = low name) in E.
  destruct Hn as [[d ->]|[-> ->]], Hn' as [[d' ->]|[-> ->]]; rewrite ?low_dotted in E.
  - by apply (dotted_inj _ _ d' d).
  - symmetry in E. by apply dotted_not_dot in E.
  - by apply dotted_not_dot in E.
  - done.
Qed.

(** The hash function does not distinguish names that compare equal. *)
Lemma tolower_schar c c' : char_ok c -> char_ok c' -> tolower c = tolower c' ->
  tolower (schar c) = tolower (schar c').
Proof.
  unfold char_ok, tolower, schar. intros. destruct (Z.ltb_spec c 128), (Z.ltb_spec c' 128); repeat case_match; lia.
Qed.

Lemma hash_caseeq a b : chars_ok a -> chars_ok b -> str_caseeq a b = true ->
  hash_joaat_str_ci a = hash_joaat_str_ci b.
Proof.
  intros Ha Hb E%bool_decide_eq_true_1. unfold hash_joaat_str_ci. f_equal. generalize 0.
  revert b Hb E. induction Ha as [|c a Hc Ha IH]; intros b Hb E h; destruct Hb as [|c' b Hc' Hb]; try done.
  simpl in E. injection E as Ec E. simpl. rewrite (tolower_schar c c') by done. by apply IH.
Qed.

Lemma joaat_nonneg s : 0 <= hash_joaat_str_ci s.
Proof. unfold hash_joaat_str_ci, joaat_final. apply (wrap_range 32). lia. Qed.

(** ** Names at a position

    [G] limits the positions that are read: a property of the bytes in [G] is
    kept when the others are overwritten. *)

Section at_name.
Context `{Host} (G : Z -> Prop) (start : Z).

Definition bytes_at (msg : list Z) (p : Z) (bs : list Z) : Prop :=
  0 <= p /\ forall i, (i < length bs)%nat -> msg !! (Z.to_nat p + i)%nat = bs !! i /\ G (p + Z.of_nat i).

Inductive at_name (msg : list Z) : Z -> list (list Z) -> Z -> nat -> Prop :=
  | at_root p : bytes_at msg p [0] -> at_name msg p [] (p + 1) 0
  | at_label p l ls k n : label_ok l -> bytes_at msg p (zlength l :: l) ->
      at_name msg (p + 1 + zlength l) ls k n -> at_name msg p (l :: ls) k n
  | at_pointer p q ls k n : 0 <= q <= OFFSET_MASK -> bytes_at msg p (be_bytes 2 (0xc000 + q)) ->
      at_name msg (start + q) ls k n -> at_name msg p ls (p + 2) (S n).

Lemma bytes_at_agree msg msg' p bs :
  (forall i, G (Z.of_nat i) -> (i < length msg)%nat -> msg' !! i = msg !! i) ->
  bytes_at msg p bs -> bytes_at msg' p bs.
Proof.
  intros Ha [Hp Hb]. split; [done|]. intros i Hi. destruct (Hb i Hi) as [E Hg]. split; [|done].
  rewrite Ha; [done| |].
  - by replace (Z.of_nat (Z.to_nat p + i)) with (p + Z.of_nat i) by lia.
  - apply lookup_lt_is_Some. rewrite E. by apply lookup_lt_is_Some.
Qed.

Lemma at_name_agree msg msg' p ls k n :
  (forall i, G (Z.of_nat i) -> (i < length msg)%nat -> msg' !! i = msg !! i) ->
  at_name msg p ls k n -> at_name msg' p ls k n.
Proof.
  intros Ha. induction 1; [constructor|econstructor|econstructor]; eauto using bytes_at_agree.
Qed.

Lemma at_name_app msg bs p ls k n : at_name msg p ls k n -> at_name (msg ++ bs) p ls k n.
Proof. apply at_name_agree. intros i _ Hi. by apply lookup_app_l. Qed.

Lemma at_name_labels msg p ls k n : at_name msg p ls k n -> Forall label_ok ls.
Proof. induction 1; auto. Qed.

(** The bytes at the position of a buffer are the first unread ones. *)
Lemma bytes_at_unread mb msg p bs : holds mb msg p -> bytes_at msg p bs -> bs <> [] ->
  exists rest, unread mb = bs ++ rest.
Proof.
  intros Hh [Hp Hb] Hne. exists (drop (length bs) (unread mb)).
  assert (p + zlength bs <= zlength msg) as Hl.
  { destruct (Hb (length bs - 1)%nat) as [E _]; [destruct bs; [done|simpl; lia]|].
    assert (is_Some (msg !! (Z.to_nat p + (length bs - 1))%nat)) as Hs%lookup_lt_is_Some.
    { rewrite E. apply lookup_lt_is_Some. destruct bs; [done|simpl; lia]. }
    destruct bs; [done|]. simpl in *. lia. }
  rewrite (holds_unread mb msg p Hh) by lia. rewrite <- (take_drop (length bs)) at 1. f_equal.
  apply list_eq. intros i. destruct (decide (i < length bs)%nat) as [Hi|Hi].
  - rewrite lookup_take_lt, lookup_drop by done. by apply Hb.
  - rewrite lookup_take_ge, (proj2 (lookup_ge_None bs i)) by lia. done.
Qed.

Lemma land_comp_label len : 0 <= len < 64 -> (Z.land len COMP_MASK =? COMP_MASK) = false.
Proof.
  intros Hl. apply Z.eqb_neq. intros E. assert (Z.land len COMP_MASK < 64); [|unfold COMP_MASK in *; lia].
  apply (land_range len COMP_MASK 6); lia.
Qed.

Lemma pointer_bytes q : 0 <= q <= OFFSET_MASK -> exists hi lo, be_bytes 2 (0xc000 + q) = [hi; lo] /\
  hi <> 0 /\ (Z.land hi COMP_MASK =? COMP_MASK) = true /\ Z.land (be_val [hi; lo]) OFFSET_MASK = q.
Proof.
  unfold OFFSET_MASK. intros Hq. exists ((0xc000 + q) / 256), ((0xc000 + q) mod 256).
  assert (be_bytes 2 (0xc000 + q) = [(0xc000 + q) / 256; (0xc000 + q) mod 256]) as E.
  { unfold be_bytes. cbn. f_equal. rewrite Z.mod_small; [done|dlia]. }
  split_and!; [done|dlia| |].
  - assert (0 <= (0xc000 + q) / 256 < 256) as Hr by dlia.
    assert (192 <= (0xc000 + q) / 256) as Hlo by dlia. generalize dependent ((0xc000 + q) / 256). intros v _ Hr Hlo.
    pose proof (all_bytes_sound (fun v => (v <? 192) || (Z.land v COMP_MASK =? COMP_MASK)) ltac:(vm_compute; done) v Hr) as Hv.
    simpl in Hv. rewrite (proj2 (Z.ltb_ge _ _)) in Hv by lia. done.
  - rewrite <- E, be_val_bytes by (change (256 ^ Z.of_nat 2) with 65536; lia).
    rewrite (land_ones_mod _ 14) by lia. change (2 ^ 14) with 16384. dlia.
Qed.

(** ** Decoding such a name *)

Lemma spell_length_mono out ls : zlength out <= zlength (spell out ls).
Proof.
  revert out. induction ls as [|l ls IH]; intros out; [done|].
  change (spell out (l :: ls)) with (spell (next_out out l) ls). etransitivity; [|apply IH].
  rewrite next_out_length. case_match; lia.
Qed.

Lemma spell_chars out ls : chars_ok out -> Forall label_ok ls -> chars_ok (spell out ls).
Proof.
  intros Ho Hls. revert out Ho. induction Hls as [|l ls Hl _ IH]; intros out Ho; [done|]. apply IH.
  unfold next_out. apply Forall_app. split; [|apply Hl]. case_match; [|done].
  apply Forall_app. split; [done|]. constructor; [unfold char_ok; lia|done].
Qed.

Lemma dname_decode_at msg p ls k n : at_name msg p ls k n ->
  forall fuel out loopc jump mb, holds mb msg p -> 0 <= start < 2 ^ 62 ->
    no_oom -> chars_ok out -> zlength (spell out ls) <= 255 -> (n + length ls < fuel)%nat ->
    0 <= loopc -> loopc + Z.of_nat n <= 256 ->
    dname_decode_loop fuel start out loopc jump mb = Some ((0, spell out ls), set_pos (default k jump) mb).
Proof.
  induction 1 as [p Hb|p l ls k n Hl Hb Hat IH|p q ls k n Hq Hb Hat IH];
    intros fuel out loopc jump mb Hh Hs Ho Hout Hlen Hf Hc0 Hc.
  all: destruct fuel as [|fuel]; [lia|]; rewrite dname_step by apply Hh.
  all: pose proof (h_pos _ _ _ Hh) as Ep; pose proof (holds_wf_pos _ _ _ Hh) as Hp.
  - destruct (bytes_at_unread mb msg p [0] Hh Hb ltac:(done)) as [rest ->]. unfold dname_round. simpl in *.
    rewrite (proj2 (Z.ltb_ge _ _)), alloc_ok_no_oom by (done || unfold MEM_SIZE_MAX; lia).
    rewrite Ep, cstr_id by done. done.
  - destruct (bytes_at_unread mb msg p _ Hh Hb ltac:(done)) as [rest Eu]. rewrite Eu.
    destruct (unread_cons mb _ _ (h_wf _ _ _ Hh) Eu) as (_ & _ & Ee & Hm). rewrite length_app in Ee.
    cbn [app]. unfold dname_round. destruct Hl as [Hll Hlc Hld]. pose proof (next_out_length out l) as Ln.
    change (spell out (l :: ls)) with (spell (next_out out l) ls) in *.
    pose proof (spell_length_mono (next_out out l) ls).
    rewrite (proj2 (Z.eqb_neq _ _)), land_comp_label by lia.
    rewrite length_app, (proj2 (Z.ltb_ge _ (zlength l))) by lia.
    rewrite Nat2Z.id, take_app_length. rewrite !(proj2 (Z.ltb_ge _ _)) by (revert Ln; case_match; lia).
    rewrite Ep. change (set_pos (default k jump) mb) with (set_pos (default k jump) (set_pos (p + 1 + zlength l) mb)).
    apply IH; try done; [by apply (holds_set_pos _ _ p); [|lia]| |simpl in Hf; lia].
    change (chars_ok (spell out [l])). apply spell_chars; [done|]. constructor; [by split|constructor].
  - destruct (pointer_bytes q Hq) as (hi & lo & E & Hhi & Hm & Hoff). rewrite E in Hb.
    destruct (bytes_at_unread mb msg p _ Hh Hb ltac:(done)) as [rest Eu]. rewrite Eu. cbn [app].
    unfold dname_round. rewrite (proj2 (Z.eqb_neq _ _)), Hm, Hoff by done. unfold COMP_LOOP, OFFSET_MASK in *.
    rewrite (proj2 (Z.ltb_ge _ _)) by lia. pose proof (wf_pos _ (h_wf _ _ _ Hh)).
    pose proof (holds_end _ _ _ Hh). pose proof (wf_end _ (h_wf _ _ _ Hh)).
    rewrite (wrap_small 64), (wrap_small 32), Ep by lia. rewrite (Z.add_comm q).
    change (set_pos (default (p + 2) jump) mb) with (set_pos (default k (Some (default (p + 2) jump))) (set_pos (start + q) mb)).
    apply IH; try done; try lia. by apply (holds_set_pos _ _ p); [|lia].
Qed.

End at_name.

(** Only positions of the message matter. *)
Lemma at_name_mono (G G' : Z -> Prop) start msg p ls k n :
  (forall i, 0 <= i < zlength msg -> G i -> G' i) -> at_name G start msg p ls k n -> at_name G' start msg p ls k n.
Proof.
  intros HG Hat. assert (forall q bs, bytes_at G msg q bs -> bytes_at G' msg q bs) as Hb.
  { intros q bs [Hq Hb]. split; [done|]. intros i Hi. destruct (Hb i Hi) as [E Hg]. split; [done|].
    apply HG; [|done]. assert (is_Some (msg !! (Z.to_nat q + i)%nat)) as ?%lookup_lt_is_Some; [|lia].
    rewrite E. by apply lookup_lt_is_Some. }
  induction Hat; [constructor|econstructor|econstructor]; eauto.
Qed.
