(* ===== verification/DnsEncode.v ===== *)
(** * Encoding of DNS names

    [enc_st st data log]: the buffer ends with [data] at its position, and the
    table of names holds [log].  [entry_ok data e]: the message [data] has the
    name of the entry [e] at its position, up to case.  The encoder writes a
    name that reads back as the same labels up to case, whatever suffixes it
    finds in the table, and leaves valid entries in it. *)

From S2P Require Export Prelude Mbuf MbufSpec MbufData Hash HashThms Dns DnsRr DnsDecode DnsName.

Section encode.
Context `{Host} (Hoom : no_oom) (G : Z -> Prop) (start : Z).

Abbreviation entry := (Z * dname)%type.
Abbreviation at_name := (at_name G start).

Definition tab_of (t : dtab) (log : list entry) : Prop :=
  match t with Some h => tab_log h log | None => log = [] end.

Definition enc_st (st : denc) (data : list Z) (log : list entry) : Prop :=
  holds st.1 data (zlength data) /\ tab_of st.2 log.

(** Entries are filed under the hash of a non-empty name. *)
Definition key_ok (e : entry) : Prop :=
  e.1 = hash_joaat_str_ci (dn_name e.2) /\ chars_ok (dn_name e.2) /\ dn_name e.2 <> [] /\
  0 <= dn_pos e.2 <= OFFSET_MASK.

Definition entry_ok (data : list Z) (e : entry) : Prop :=
  key_ok e /\ exists ls ls' k n, names ls (dn_name e.2) /\ Forall label_ok ls /\ low <$> ls' = low <$> ls /\
    at_name data (start + dn_pos e.2) ls' k n /\ (n <= length ls')%nat.

Lemma entry_ok_app data bs e : entry_ok data e -> entry_ok (data ++ bs) e.
Proof.
  intros [Hk (ls & ls' & k & n & Hn & Hl & Hc & Ha & Hle)]. split; [done|].
  exists ls, ls', k, n. split_and!; try done. by apply at_name_app.
Qed.

(** ** Steps *)

Lemma enc_write m bs st data log : Writes m bs -> enc_st st data log -> zlength data + zlength bs < WRITE_MAX ->
  exists st', on_mb m st = Some (0, st') /\ enc_st st' (data ++ bs) log /\ st'.2 = st.2.
Proof.
  intros Hw [Hh Ht] Hm. destruct st as [mb t]. simpl in *.
  destruct (holds_append mb data _ m bs Hh eq_refl Hw Hm) as (e & mb' & E & _ & _ & He & Hok).
  rewrite (He Hoom) in *. rewrite E. exists (mb', t). split_and!; [done| |done]. split; [|done].
  simpl. rewrite length_app, Nat2Z.inj_add. by apply Hok.
Qed.

(** Filling in the length of the label that ends the message. *)
Lemma enc_patch st data old l log : enc_st st (data ++ [old] ++ l) log -> zlength l < 256 ->
  exists st', on_mb (store_at (zlength data) [u8 (zlength l)]) st = Some (tt, st') /\
    enc_st st' (data ++ zlength l :: l) log /\ st'.2 = st.2.
Proof.
  intros [Hh Ht] Hl. destruct st as [mb t]. simpl in *. rewrite (wrap_small 8) by lia.
  destruct (holds_store mb _ _ (zlength data) [zlength l] Hh) as (mb' & E & Hh'); [lia|rewrite length_app; simpl; lia| |].
  { constructor; [unfold byte_ok; lia|done]. }
  rewrite E. exists (mb', t). split_and!; [done| |done]. split; [|done]. simpl.
  pose proof (splice_app_mid data [old] [zlength l] l eq_refl) as Es. simpl in Es. rewrite Es in Hh'.
  rewrite length_app in *. done.
Qed.

(** The first entry that compares equal, if any. *)
Lemma enc_lookup name st data log : enc_st st data log -> chars_ok name -> Forall key_ok log ->
  on_tab (dname_lookup name) st = Some (list_first (lookup_handler name) (snd <$> log), st).
Proof.
  intros [_ Ht] Hn Hk. destruct st as [mb t]. unfold on_tab, dname_lookup. simpl in *.
  destruct t as [h|]; simpl in Ht; [|by subst log].
  rewrite (hash_lookup_log h log); [done|done|apply joaat_nonneg|]. intros e He Ha.
  rewrite list.Forall_forall in Hk. destruct (Hk e He) as (-> & Hc & _). by apply hash_caseeq.
Qed.

Lemma enc_remember dn name pos st data log : enc_st st data log -> chars_ok name -> 0 <= pos ->
  exists st' new, remember dn name pos st = Some (tt, st') /\ enc_st st' data (log ++ new) /\ st'.1 = st.1 /\
    (new = [] \/ new = [(hash_joaat_str_ci name, Dname pos name)] /\ key_ok (hash_joaat_str_ci name, Dname pos name)).
Proof.
  intros [Hh Ht] Hn Hp. destruct st as [mb t]. simpl in *.
  assert (exists st' new, Some (tt, (mb, t)) = Some (tt, st') /\ enc_st st' data (log ++ new) /\ st'.1 = mb /\
    (new = [] \/ new = [(hash_joaat_str_ci name, Dname pos name)] /\ key_ok (hash_joaat_str_ci name, Dname pos name))) as Hno.
  { exists (mb, t), []. rewrite app_nil_r. split_and!; [done|by split|done|by left]. }
  destruct dn; [done|]. unfold remember, on_tab, dname_append. destruct t as [h|]; [|done]. simpl in Ht.
  destruct (Z.ltb_spec OFFSET_MASK pos); [done|]. destruct (bool_decide_reflect (name = [])); [done|]. cbn [orb].
  destruct (alloc_ok 48); [|done]. destruct (alloc_ok _); [|done]. cbn [negb].
  destruct (hash_append_log h log (hash_joaat_str_ci name) (Dname pos name) Ht (joaat_nonneg _)) as (h' & E & Ht').
  rewrite E. exists (mb, Some h'), [(hash_joaat_str_ci name, Dname pos name)]. split_and!; [done|by split|done|right]. split; [done|].
  unfold key_ok. simpl. by split_and!.
Qed.

(** The characters of a label. *)
Lemma enc_chars l rest pos comp st data log : enc_st st data log -> label_ok l ->
  zlength data + zlength l < WRITE_MAX ->
  exists st', dname_loop (l ++ rest) pos start comp st = dname_loop rest pos start comp st' /\
    enc_st st' (data ++ l) log /\ st'.2 = st.2.
Proof.
  intros Hst [_ Hc Hd]. revert st data Hst. induction Hc as [|c l Hc Hcs IH]; intros st data Hst Hm.
  { exists st. rewrite app_nil_r. by split_and!. }
  apply not_elem_of_cons in Hd as [Hne Hd]. simpl length in Hm.
  destruct (enc_write (mbuf_write_u8 c) [u8 c] st data log _ Hst) as (st1 & E1 & Hst1 & Et1); [simpl; lia|].
  unfold char_ok in Hc. rewrite (wrap_small 8) in Hst1 by lia.
  destruct (IH Hd st1 _ Hst1) as (st2 & E2 & Hst2 & Et2); [rewrite length_app; simpl; lia|].
  exists st2. split_and!; [|by rewrite <- app_assoc in Hst2|congruence].
  rewrite <- E2. cbn [app dname_loop]. unfold get, bind at 1. destruct st as [mb t].
  rewrite (proj2 (Z.eqb_neq _ _)) by done. unfold check. rewrite (bind_Some _ _ _ _ _ E1). done.
Qed.

Lemma writes_pointer q : 0 <= q <= OFFSET_MASK -> Writes (dname_encode_pointer q) (be_bytes 2 (0xc000 + q)).
Proof.
  unfold OFFSET_MASK. intros Hq. unfold dname_encode_pointer.
  assert (u16 (Z.lor (u16 q) (Z.shiftl COMP_MASK 8)) = 0xc000 + q) as ->; [|apply _].
  change (Z.shiftl COMP_MASK 8) with (3 * 2 ^ 14). rewrite (wrap_small 16 q), lor_add_r by lia.
  rewrite (wrap_small 16); lia.
Qed.

Lemma bytes_at_mid data bs rest : (forall i, zlength data <= i -> G i) ->
  bytes_at G (data ++ bs ++ rest) (zlength data) bs.
Proof.
  intros HG. split; [lia|]. intros i Hi. rewrite Nat2Z.id. split; [|apply HG; lia].
  rewrite lookup_app_r, lookup_app_l by lia. f_equal. lia.
Qed.

Lemma bytes_at_end data bs : (forall i, zlength data <= i -> G i) ->
  bytes_at G (data ++ bs) (zlength data) bs.
Proof. intros HG. rewrite <- (app_nil_r bs) at 1. by apply bytes_at_mid. Qed.

(** ** Names *)

(** The common part of [dns_dname_encode] and of its loop after a dot. *)
Definition enc_name (name : list Z) (comp : bool) : M denc Z :=
  let* dn := on_tab (dname_lookup name) in
  match (if comp then dn else None) with
  | Some dn => on_mb (dname_encode_pointer (dn_pos dn))
  | None =>
      let* '(mb, _) := get in
      remember dn name (u64 (mb_pos mb - start)) ;;
      check (on_mb (mbuf_write_u8 0)) (dname_loop name (mb_pos mb) start comp)
  end.

(** [st] has the name [ls] after [data], and new valid entries after [log]. *)
Definition encoded (data : list Z) (log : list entry) (ls : list (list Z)) (st : denc) : Prop :=
  exists bs new ls' n, enc_st st (data ++ bs) (log ++ new) /\ Forall (entry_ok (data ++ bs)) new /\
    low <$> ls' = low <$> ls /\ at_name (data ++ bs) (zlength data) ls' (zlength (data ++ bs)) n /\
    (n <= S (length ls'))%nat /\ zlength bs <= 1 + wire ls.

Lemma enc_pointer ls name dn st data log : names ls name -> Forall label_ok ls -> enc_st st data log ->
  (forall i, zlength data <= i -> G i) -> zlength data + 1 + wire ls < WRITE_MAX ->
  (forall e, e ∈ log -> length (dn_name e.2) = length name -> entry_ok data e) ->
  list_first (lookup_handler name) (snd <$> log) = Some dn ->
  exists st', on_mb (dname_encode_pointer (dn_pos dn)) st = Some (0, st') /\ encoded data log ls st'.
Proof.
  intros Hn Hls Hst HG Hm Hlog [He Heq]%list_first_Some. unfold lookup_handler in Heq.
  apply list_elem_of_fmap in He as (e & -> & He). pose proof (wire_pos ls Hls).
  destruct (Hlog e He) as [(_ & _ & _ & Hq) (ls0 & ls' & k & n & Hn0 & Hls0 & Hc & Hat & Hle)].
  { apply bool_decide_eq_true_1 in Heq. apply (low_length_eq _ _ Heq). }
  destruct (enc_write _ _ st data log (writes_pointer _ Hq) Hst) as (st' & E & Hst' & _);
    [rewrite length_be_bytes; lia|].
  exists st'. split; [done|]. exists (be_bytes 2 (0xc000 + dn_pos e.2)), [], ls', (S n).
  rewrite app_nil_r. split_and!; try done; [|..].
  - rewrite Hc. by apply (names_same ls ls0 name (dn_name e.2)).
  - rewrite length_app, Nat2Z.inj_add, length_be_bytes. apply (at_pointer G start _ _ (dn_pos e.2) _ k); [done| |].
    + by apply bytes_at_end.
    + by apply at_name_app.
  - lia.
  - rewrite length_be_bytes. lia.
Qed.

(** After a label: its length, its characters, and then the rest of the name. *)
Lemma encoded_label l ls data log st : label_ok l -> (forall i, zlength data <= i -> G i) ->
  encoded (data ++ zlength l :: l) log ls st ->
  exists bs new ls' n, enc_st st (data ++ bs) (log ++ new) /\ Forall (entry_ok (data ++ bs)) new /\
    low <$> ls' = low <$> l :: ls /\ at_name (data ++ bs) (zlength data) ls' (zlength (data ++ bs)) n /\
    (n <= length ls')%nat /\ zlength bs <= 1 + wire (l :: ls).
Proof.
  intros Hl HG (bs & new & ls' & n & Hst & Hnew & Hc & Hat & Hn & Hw).
  exists ((zlength l :: l) ++ bs), new, (l :: ls'), n. rewrite <- app_assoc in *. cbn [length].
  split_and!; try done.
  - by rewrite !fmap_cons, Hc.
  - apply at_label; [done|by apply bytes_at_mid|].
    rewrite !length_app in *. replace (zlength data + 1 + zlength l) with (Z.of_nat (length data + length (zlength l :: l)))
      by (simpl; lia). done.
  - rewrite length_app. simpl. lia.
Qed.

Lemma lablen_eq mb data l : holds mb (data ++ [0] ++ l) (zlength (data ++ [0] ++ l)) ->
  u64 (mb_pos mb - zlength data - 1) = zlength l.
Proof.
  intros Hh. pose proof (holds_end _ _ _ Hh) as He. pose proof (wf_end _ (h_wf _ _ _ Hh)).
  pose proof (wf_max _ (h_wf _ _ _ Hh)). rewrite (h_pos _ _ _ Hh). unfold MEM_SIZE_MAX in *.
  rewrite !length_app in *. simpl in *. rewrite (wrap_small 64); lia.
Qed.

(** The end of the name: the last label is closed and the root follows. *)
Lemma enc_end l st data log comp : enc_st st (data ++ [0] ++ l) log -> label_ok l ->
  (forall i, zlength data <= i -> G i) -> zlength data + 2 + zlength l < WRITE_MAX ->
  exists st', dname_loop [] (zlength data) start comp st = Some (0, st') /\
    encoded (data ++ zlength l :: l) log [] st'.
Proof.
  intros Hst [Hl Hlc Hld] HG Hm. cbn [dname_loop]. unfold get, bind at 1. destruct st as [mb t].
  rewrite (lablen_eq mb data l (proj1 Hst)), (proj2 (Z.eqb_neq _ _)) by lia.
  destruct (enc_patch _ data 0 l log Hst ltac:(lia)) as (st1 & E1 & Hst1 & _). rewrite (bind_Some _ _ _ _ _ E1).
  destruct (enc_write (mbuf_write_u8 0) [u8 0] st1 _ log _ Hst1) as (st2 & E2 & Hst2 & _);
    [rewrite length_app; simpl; lia|].
  exists st2. split; [done|]. change (u8 0) with 0 in *. eexists [0], [], [], O. rewrite app_nil_r.
  split_and!; try done; [|lia].
  rewrite (length_app _ [0]), Nat2Z.inj_add. apply at_root.
  apply bytes_at_end. intros i. rewrite length_app. intros. apply HG. lia.
Qed.

Lemma dotted_chars ls d : Forall label_ok ls -> chars_ok (dotted ls d).
Proof.
  assert (char_ok 46) as H46 by (unfold char_ok; lia).
  induction 1 as [|l ls [_ Hl _] _ IH]; [constructor|]. rewrite dotted_cons. apply Forall_app. split; [done|].
  destruct ls; [|by constructor]. destruct d; by repeat constructor.
Qed.

Lemma list_first_empty log : Forall key_ok log -> list_first (lookup_handler []) (snd <$> log) = None.
Proof.
  intros Hk. apply list_first_None, Forall_fmap. apply (List.Forall_impl _ (P := key_ok)); [|done].
  intros e (_ & _ & Hne & _). apply bool_decide_eq_false_2. simpl. by destruct (dn_name e.2).
Qed.

(** [encoded] with a name that does not start with a pointer. *)
Definition literal (data : list Z) (log : list entry) (ls : list (list Z)) (st : denc) : Prop :=
  exists bs new ls' n, enc_st st (data ++ bs) (log ++ new) /\ Forall (entry_ok (data ++ bs)) new /\
    low <$> ls' = low <$> ls /\ at_name (data ++ bs) (zlength data) ls' (zlength (data ++ bs)) n /\
    (n <= length ls')%nat /\ zlength bs <= 1 + wire ls.

(** What is needed of the table to encode a name of [len] characters. *)
Definition ready (st : denc) (data : list Z) (log : list entry) (len : nat) : Prop :=
  (forall i, zlength data <= i -> G i) /\ 0 <= start <= zlength data /\ Forall key_ok log /\
  (forall e, e ∈ log -> (length (dn_name e.2) <= len)%nat -> entry_ok data e).

Definition enc_name_ok (ls : list (list Z)) (d comp : bool) : Prop := forall st data log,
  enc_st st data log -> ready st data log (length (dotted ls d)) -> zlength data + 1 + wire ls < WRITE_MAX ->
  exists st', enc_name (dotted ls d) comp st = Some (0, st') /\ encoded data log ls st'.

Lemma dotted_rest l ls d : (exists r, dotted (l :: ls) d = l ++ r /\
  ((r = [] /\ ls = []) \/ r = 46 :: dotted ls d)).
Proof.
  rewrite dotted_cons. destruct ls; [destruct d|]; eexists; (split; [done|]); eauto.
Qed.

Lemma enc_literal l ls d comp st data log len : enc_name_ok ls d comp -> Forall label_ok (l :: ls) ->
  enc_st st (data ++ [0]) log -> ready st data log len -> (length (dotted (l :: ls) d) <= S len)%nat ->
  zlength data + 1 + wire (l :: ls) < WRITE_MAX ->
  exists st', dname_loop (dotted (l :: ls) d) (zlength data) start comp st = Some (0, st') /\
    literal data log (l :: ls) st'.
Proof.
  intros Hrec Hls Hst (HG & Hs & Hk & He) Hlen Hm. apply Forall_cons_iff in Hls as [Hl Hls].
  pose proof (wire_pos ls Hls). cbn [wire] in Hm. pose proof Hl as [Hll _ _].
  destruct (dotted_rest l ls d) as (r & Er & Hr). rewrite Er in *. rewrite length_app in Hlen.
  destruct (enc_chars l r (zlength data) comp st _ log Hst Hl) as (st1 & E1 & Hst1 & _);
    [rewrite length_app; simpl; lia|].
  rewrite E1. rewrite <- app_assoc in Hst1. destruct Hr as [[-> ->]| ->].
  { destruct (enc_end l st1 data log comp Hst1 Hl HG) as (st2 & E2 & Henc); [change (wire []) with 1 in Hm; lia|].
    exists st2. split; [done|]. by apply encoded_label. }
  cbn [dname_loop]. unfold get at 1, bind at 1. destruct st1 as [mb t].
  rewrite Z.eqb_refl, (lablen_eq mb data l (proj1 Hst1)), (proj2 (Z.eqb_neq _ _)) by lia.
  destruct (enc_patch _ data 0 l log Hst1 ltac:(lia)) as (st2 & E2 & Hst2 & _). rewrite (bind_Some _ _ _ _ _ E2).
  destruct (Hrec st2 _ log Hst2) as (st3 & E3 & Henc).
  - split_and!; [|lia|rewrite length_app; simpl; lia|done|].
    + intros i. rewrite length_app. intros. apply HG. lia.
    + intros e Hin Hle. apply entry_ok_app, He; [done|]. simpl in Hlen. lia.
  - rewrite length_app. simpl. lia.
  - exists st3. split; [exact E3|]. by apply encoded_label.
Qed.

(** The entry made for a name before it is written. *)
Lemma literal_entry data log ls name st pos new : literal data (log ++ new) ls st -> names ls name ->
  Forall label_ok ls -> pos = zlength data - start ->
  new = [] \/ new = [(hash_joaat_str_ci name, Dname pos name)] /\ key_ok (hash_joaat_str_ci name, Dname pos name) ->
  encoded data log ls st.
Proof.
  intros (bs & new2 & ls' & n & Hst & Hnew & Hc & Hat & Hn & Hw) Hnm Hls Hpos Hor.
  exists bs, (new ++ new2), ls', n. rewrite app_assoc. split_and!; try done; [|lia].
  apply Forall_app. split; [|done]. destruct Hor as [-> |[-> Hk]]; [done|]. constructor; [|done].
  split; [done|]. exists ls, ls', (zlength (data ++ bs)), n. simpl. subst pos.
  rewrite Zplus_minus. by split_and!.
Qed.

Lemma enc_st_pos mb t data log : enc_st (mb, t) data log -> 0 <= start <= zlength data ->
  mb_pos mb = zlength data /\ u64 (mb_pos mb - start) = zlength data - start.
Proof.
  intros [Hh _] Hs. simpl in Hh. pose proof (h_pos _ _ _ Hh) as Ep. split; [done|]. rewrite Ep.
  pose proof (wf_pos _ (h_wf _ _ _ Hh)). rewrite (wrap_small 64); lia.
Qed.

Lemma enc_name_spec ls d comp : Forall label_ok ls -> enc_name_ok ls d comp.
Proof.
  intros Hls. induction ls as [|l ls IH]; intros st data log Hst Hrd Hm.
  all: pose proof (dotted_chars _ d Hls) as Hch; pose proof Hrd as (HG & Hs & Hk & He).
  all: pose proof (wire_pos _ Hls); unfold enc_name.
  all: rewrite (bind_Some _ _ _ _ _ (enc_lookup _ st data log Hst Hch Hk)).
  - rewrite list_first_empty by done. replace (if comp then None else None) with (@None dname) by (by destruct comp).
    unfold get, bind at 1. destruct st as [mb t]. destruct (enc_st_pos _ _ _ _ Hst Hs) as [Ep Eu].
    destruct (enc_remember None [] (u64 (mb_pos mb - start)) (mb, t) data log Hst Hch) as (st1 & new & E1 & Hst1 & _ & Hnew);
      [lia|]. simpl dotted. rewrite (bind_Some _ _ _ _ _ E1).
    destruct (enc_write (mbuf_write_u8 0) [u8 0] st1 data _ _ Hst1) as (st2 & E2 & Hst2 & _); [simpl in *; lia|].
    unfold check. rewrite (bind_Some _ _ _ _ _ E2). exists st2. change (u8 0) with 0 in *. split.
    + cbn. unfold get, bind. destruct st2 as [mb2 t2]. rewrite Ep. rewrite <- (app_nil_r (data ++ [0])) in Hst2.
      rewrite <- app_assoc in Hst2. by rewrite (lablen_eq mb2 data [] (proj1 Hst2)).
    + apply (literal_entry _ _ _ [] _ (u64 (mb_pos mb - start)) new); [|by left; exists d|done|done|done].
      exists [0], [], [], O. rewrite app_nil_r. split_and!; try done.
      rewrite length_app, Nat2Z.inj_add. apply at_root. by apply bytes_at_end.
  - destruct (if comp then _ else _) as [dn|] eqn:Er.
    { destruct comp; [|done]. apply (enc_pointer (l :: ls) (dotted (l :: ls) d)); try done; [by left; exists d|].
      intros e Hin Hl. apply He; [done|lia]. }
    unfold get, bind at 1. destruct st as [mb t]. destruct (enc_st_pos _ _ _ _ Hst Hs) as [Ep Eu].
    destruct (enc_remember (list_first (lookup_handler (dotted (l :: ls) d)) (snd <$> log)) (dotted (l :: ls) d)
      (u64 (mb_pos mb - start)) (mb, t) data log Hst Hch) as (st1 & new & E1 & Hst1 & _ & Hnew); [lia|].
    rewrite (bind_Some _ _ _ _ _ E1).
    destruct (enc_write (mbuf_write_u8 0) [u8 0] st1 data _ _ Hst1) as (st2 & E2 & Hst2 & _); [simpl in *; lia|].
    unfold check. rewrite (bind_Some _ _ _ _ _ E2). change (u8 0) with 0 in *. rewrite Ep.
    destruct (enc_literal l ls d comp st2 data (log ++ new) (length (dotted (l :: ls) d) - 1))
      as (st3 & E3 & Hlit); try done; [apply IH; by apply Forall_cons_iff in Hls as [_ ?]| |lia|].
    + split_and!; [done|lia|lia| |].
      * apply Forall_app. split; [done|]. destruct Hnew as [-> |[-> ?]]; [done|by apply Forall_singleton].
      * intros e [Hin|Hin]%elem_of_app Hl; [apply He; [done|lia]|].
        destruct Hnew as [-> |[-> (_ & _ & Hne & _)]]; [by apply elem_of_nil in Hin|].
        apply list_elem_of_singleton in Hin as ->. cbn [snd dn_name] in Hl, Hne. destruct (dotted (l :: ls) d); [done|].
        simpl in Hl. lia.
    + exists st3. split; [exact E3|].
      by apply (literal_entry _ _ _ (dotted (l :: ls) d) _ (u64 (mb_pos mb - start)) new); [|left; exists d|..].
Qed.

Lemma dns_dname_encode_name name comp st : name <> [46] ->
  dns_dname_encode (Some name) start comp st = enc_name name comp st.
Proof. intros Hne. unfold dns_dname_encode. rewrite bool_decide_eq_false_2 by done. done. Qed.

(** [dns_dname_encode] of any name, with a table all of whose entries are valid. *)
Lemma dns_dname_encode_spec ls name comp st data log : names ls name -> Forall label_ok ls ->
  enc_st st data log -> Forall (entry_ok data) log -> (forall i, zlength data <= i -> G i) ->
  0 <= start <= zlength data -> zlength data + 1 + wire ls < WRITE_MAX ->
  exists st', dns_dname_encode (Some name) start comp st = Some (0, st') /\ encoded data log ls st'.
Proof.
  intros Hn Hls Hst He HG Hs Hm.
  assert (Forall key_ok log) as Hk by (apply (List.Forall_impl _ (P := entry_ok data)); [by intros e []|done]).
  assert (forall e, e ∈ log -> entry_ok data e) as He' by (by apply list.Forall_forall).
  destruct Hn as [[d ->]|[-> ->]].
  { rewrite dns_dname_encode_name by (by apply dotted_not_dot, (List.Forall_impl _ (P := label_ok)); [|done];
      intros l [Hl _ Hd]; split; [intros ->; simpl in Hl; lia|]).
    apply enc_name_spec; [done|done| |done]. split_and!; [done|lia|lia|done|]. intros; by apply He'. }
  assert (chars_ok [46]) as Hch by (repeat constructor; unfold char_ok; lia).
  unfold dns_dname_encode. rewrite (bind_Some _ _ _ _ _ (enc_lookup _ st data log Hst Hch Hk)).
  destruct (if comp then _ else _) as [dn|] eqn:Er.
  { destruct comp; [|done]. apply (enc_pointer [] [46]); try done; [by right|]. intros; by apply He'. }
  unfold get, bind at 1. destruct st as [mb t]. destruct (enc_st_pos _ _ _ _ Hst Hs) as [Ep Eu].
  destruct (enc_remember (list_first (lookup_handler [46]) (snd <$> log)) [46]
    (u64 (mb_pos mb - start)) (mb, t) data log Hst Hch) as (st1 & new & E1 & Hst1 & _ & Hnew); [lia|].
  rewrite (bind_Some _ _ _ _ _ E1). simpl in Hm.
  destruct (enc_write (mbuf_write_u8 0) [u8 0] st1 data _ _ Hst1) as (st2 & E2 & Hst2 & _); [simpl; lia|].
  rewrite (bind_Some _ _ _ _ _ E2). change (u8 0) with 0 in *. exists st2. split; [done|].
  apply (literal_entry _ _ _ [46] _ (u64 (mb_pos mb - start)) new); [|by right|done|done|done].
  exists [0], [], [], O. rewrite app_nil_r. split_and!; try done.
  rewrite length_app, Nat2Z.inj_add. apply at_root. by apply bytes_at_end.
Qed.

End encode.
