(* ===== verification/DnsCodec.v ===== *)
(** * Encoders and decoders of DNS records

    [Codes enc lo hi dec R]: on a message with a valid table of names, [enc]
    succeeds and appends between [lo] and [hi] bytes, which [dec] turns into a
    value that satisfies [R], also when bytes outside [G] have been overwritten
    and more data follows.  [Codes] is closed under sequencing, so that a
    record is verified field by field. *)

From S2P Require Export Prelude Mbuf MbufSpec MbufData Hash HashThms Dns DnsRr DnsDecode DnsName DnsEncode.

(** [msg] has the bytes of [data] in [G], and possibly more. *)
Definition extends (G : Z -> Prop) (msg data : list Z) : Prop :=
  (length data <= length msg)%nat /\
  forall i, G (Z.of_nat i) -> (i < length data)%nat -> msg !! i = data !! i.

Lemma extends_app G msg data bs : extends G msg (data ++ bs) -> extends G msg data.
Proof.
  intros [Hl He]. rewrite length_app in *. split; [lia|]. intros i Hg Hi.
  rewrite He by (done || lia). by apply lookup_app_l.
Qed.

Lemma extends_refl G msg : extends G msg msg.
Proof. by split. Qed.

Section codes.
Context `{Host} (Hoom : no_oom) (G : Z -> Prop) (start : Z).

(** A message under construction. *)
Record msg_ok (st : denc) (data : list Z) : Prop := {
  mk_log : exists log, enc_st st data log /\ Forall (entry_ok G start data) log;
  mk_good : forall i, zlength data <= i -> G i;
  mk_start : 0 <= start <= zlength data;
}.

Definition Codes {A} (enc : M denc Z) (lo hi : Z) (dec : M mbuf A) (R : A -> Prop) : Prop :=
  forall st data, msg_ok st data -> zlength data + hi < WRITE_MAX ->
  exists st' bs a, enc st = Some (0, st') /\ msg_ok st' (data ++ bs) /\ lo <= zlength bs <= hi /\ R a /\
    forall msg mb, extends G msg (data ++ bs) -> holds mb msg (zlength data) ->
      dec mb = Some (a, set_pos (zlength (data ++ bs)) mb).

Lemma msg_ok_app st st' data bs log new : msg_ok st data -> Forall (entry_ok G start data) log ->
  enc_st st' (data ++ bs) (log ++ new) -> Forall (entry_ok G start (data ++ bs)) new -> msg_ok st' (data ++ bs).
Proof.
  intros [_ HG Hs] Hold Hst Hnew. split.
  - eexists. split; [done|]. apply Forall_app. split; [|done].
    apply (List.Forall_impl _ (P := entry_ok G start data)); [|done]. intros e. by apply entry_ok_app.
  - intros i. rewrite length_app. intros. apply HG. lia.
  - rewrite length_app. lia.
Qed.

(** ** Fields *)

Lemma codes_fixed {A} m bs (dec : M mbuf A) a (R : A -> Prop) : Writes m bs -> Reads dec bs a -> R a ->
  Codes (on_mb m) (zlength bs) (zlength bs) dec R.
Proof.
  intros Hw Hr HR st data Hok Hm. pose proof Hok as [(log & Hst & He) HG Hs].
  destruct (enc_write Hoom m bs st data log Hw Hst Hm) as (st' & E & Hst' & _).
  exists st', bs, a. split_and!; try done.
  - apply (msg_ok_app st _ _ _ log []); rewrite ?app_nil_r; done.
  - intros msg mb [Hl Hx] Hh. rewrite length_app in *. pose proof (h_wf _ _ _ Hh) as Hwf.
    rewrite (Hr mb (drop (length bs) (drop (length data) msg)) Hwf).
    { rewrite (h_pos _ _ _ Hh). do 3 f_equal. lia. }
    rewrite (holds_unread _ _ _ Hh), Nat2Z.id by lia. rewrite <- (take_drop (length bs) (drop _ msg)) at 1. f_equal.
    apply list_eq. intros i. destruct (decide (i < length bs)%nat) as [Hi|Hi].
    + rewrite lookup_take_lt, lookup_drop by done. rewrite Hx, lookup_app_r by (try apply HG; lia). f_equal. lia.
    + rewrite lookup_take_ge, (proj2 (lookup_ge_None bs i)) by lia. done.
Qed.

Lemma codes_u16 v (R : Z -> Prop) : 0 <= v < 2 ^ 16 -> R v ->
  Codes (on_mb (mbuf_write_u16 (htons v))) 2 2 mbuf_read_ntohs R.
Proof.
  intros Hv HR. apply (codes_fixed _ (be_bytes 2 v) _ v); [apply _|by apply (reads_net_int 2)|done].
Qed.

Lemma codes_u32 v (R : Z -> Prop) : 0 <= v < 2 ^ 32 -> R v ->
  Codes (on_mb (mbuf_write_u32 (htonl v))) 4 4 mbuf_read_ntohl R.
Proof.
  intros Hv HR. apply (codes_fixed _ (be_bytes 4 v) _ v); [apply _|by apply (reads_net_int 4)|done].
Qed.

(** The decoded name compares equal to the encoded one. *)
Definition same_name (ls : list (list Z)) (r : Z * list Z) : Prop :=
  exists ls', r = (0, dotted ls' false) /\ Forall label_ok ls' /\ low <$> ls' = low <$> ls.

Lemma length_dotted_low ls ls' : low <$> ls' = low <$> ls -> length (dotted ls' false) = length (dotted ls false).
Proof. intros E. by rewrite <- length_low, low_dotted, E, <- low_dotted, length_low. Qed.

Lemma length_dotted_ge ls : Forall label_ok ls -> 2 * zlength ls <= zlength (dotted ls false) + 1 /\
  wire ls <= zlength (dotted ls false) + 2.
Proof.
  induction 1 as [|l ls [Hl _ _] Hls IH]; [simpl; lia|]. rewrite dotted_cons, length_app. cbn [wire length].
  destruct ls; simpl length in *; [simpl; lia|]. lia.
Qed.

Lemma codes_name name ls comp : names ls name -> Forall label_ok ls -> zlength (dotted ls false) <= 255 ->
  0 <= start < 2 ^ 62 ->
  Codes (dns_dname_encode (Some name) start comp) 1 (1 + wire ls) (dns_dname_decode start) (same_name ls).
Proof.
  intros Hn Hls Hlen Hs st data Hok Hm. pose proof Hok as [(log & Hst & He) HG Hsd].
  destruct (dns_dname_encode_spec Hoom G start ls name comp st data log) as
    (st' & E & bs & new & ls' & n & Hst' & Hnew & Hc & Hat & Hbn & Hw); try done; [lia|].
  pose proof (at_name_labels _ _ _ _ _ _ _ Hat) as Hls'. pose proof (length_dotted_ge ls Hls) as Hcnt.
  assert (length ls' = length ls) as El by (apply (f_equal length) in Hc; by rewrite !length_fmap in Hc).
  exists st', bs, (0, dotted ls' false). split_and!; try done.
  - by apply (msg_ok_app st _ _ _ log new).
  - destruct bs; [|simpl; lia]. exfalso. rewrite app_nil_r in Hat. inversion Hat as [p Hb|p l2 ls2 k2 n2 _ Hb|p q ls2 k2 n2 _ Hb];
      subst; destruct Hb as [_ Hb]; destruct (Hb O) as [Eb _]; simpl; rewrite ?length_be_bytes; try lia.
    all: rewrite Nat.add_0_r, Nat2Z.id, (proj2 (lookup_ge_None data _)) in Eb by lia; try done.
  - by exists ls'.
  - intros msg mb [Hl Hx] Hh. unfold dns_dname_decode.
    apply (at_name_agree _ _ _ msg) in Hat; [|done].
    rewrite (dname_decode_at G start msg _ _ _ _ Hat); rewrite ?spell_nil by done; try done.
    + by rewrite (length_dotted_low ls).
    + unfold DNAME_FUEL. lia.
    + lia.
Qed.

Lemma codes_weaken {A} enc lo hi lo' hi' (dec : M mbuf A) (R R' : A -> Prop) : lo' <= lo -> hi <= hi' ->
  (forall a, R a -> R' a) -> Codes enc lo hi dec R -> Codes enc lo' hi' dec R'.
Proof.
  intros Hlo Hhi HR Hc st data Hok Hm. destruct (Hc st data Hok ltac:(lia)) as (st' & bs & a & ? & ? & ? & ? & ?).
  exists st', bs, a. split_and!; try done; [lia..|auto].
Qed.

(** ** Sequencing *)

Lemma codes_bind {A B} e1 l1 h1 (d1 : M mbuf A) R1 e2 l2 h2 (k : A -> M mbuf B) R2 : 0 <= l2 -> l2 <= h2 ->
  Codes e1 l1 h1 d1 R1 -> (forall a, R1 a -> Codes e2 l2 h2 (k a) R2) ->
  Codes (e1 |; e2) (l1 + l2) (h1 + h2) (bind d1 k) R2.
Proof.
  intros Hl2 Hh2 H1 H2 st data Hok Hm.
  destruct (H1 st data Hok ltac:(lia)) as (st1 & b1 & a & E1 & Hok1 & Hb1 & Ha & Hd1).
  destruct (H2 a Ha st1 _ Hok1) as (st2 & b2 & b & E2 & Hok2 & Hb2 & Hb & Hd2); [rewrite length_app; lia|].
  exists st2, (b1 ++ b2), b. rewrite app_assoc in *. split_and!; try done.
  - unfold or_err. by rewrite (bind_Some _ _ _ _ _ E1), (bind_Some _ _ _ _ _ E2).
  - rewrite length_app. lia.
  - rewrite length_app. lia.
  - intros msg mb Hx Hh. rewrite (bind_Some _ _ _ _ _ (Hd1 msg mb (extends_app _ _ _ _ Hx) Hh)).
    rewrite (Hd2 msg _ Hx); [done|]. apply (holds_set_pos _ _ _ _ Hh).
    pose proof (holds_end _ _ _ Hh). pose proof (wf_end _ (h_wf _ _ _ Hh)). pose proof (wf_max _ (h_wf _ _ _ Hh)).
    unfold WRITE_MAX in *. rewrite length_app. lia.
Qed.

(** The last field: the rest of the decoder only builds the result. *)
Lemma codes_last {A B} e lo hi (d : M mbuf A) R1 (k : A -> M mbuf B) (R2 : B -> Prop) : Codes e lo hi d R1 ->
  (forall a, R1 a -> exists b, (forall mb, k a mb = Some (b, mb)) /\ R2 b) -> Codes e lo hi (bind d k) R2.
Proof.
  intros H1 Hk st data Hok Hm. destruct (H1 st data Hok Hm) as (st1 & b1 & a & E1 & Hok1 & Hb1 & Ha & Hd1).
  destruct (Hk a Ha) as (b & Eb & Hb). exists st1, b1, b. split_and!; try done; try lia.
  intros msg mb Hx Hh. by rewrite (bind_Some _ _ _ _ _ (Hd1 msg mb Hx Hh)).
Qed.

Lemma codes_need {A} e lo hi n (f d : M mbuf A) R : n <= lo -> Codes e lo hi d R -> Codes e lo hi (need n f d) R.
Proof.
  intros Hn Hc st data Hok Hm. destruct (Hc st data Hok Hm) as (st1 & b1 & a & E1 & Hok1 & Hb1 & Ha & Hd1).
  exists st1, b1, a. split_and!; try done; try lia. intros msg mb Hx Hh. unfold need, get, bind.
  pose proof Hx as [Hl _]. rewrite length_app in Hl. rewrite (holds_left _ _ _ Hh) by lia.
  rewrite (proj2 (Z.ltb_ge _ _)) by lia. by apply (Hd1 msg).
Qed.

(** [err = d; if (err) goto error; k] *)
Lemma codes_or_fail {A B} e1 l1 h1 (d1 : M mbuf (Z * A)) (P : A -> Prop) e2 l2 h2 (k : A -> M mbuf (Z * option B)) R :
  0 <= l2 -> l2 <= h2 -> Codes e1 l1 h1 d1 (fun r => exists a, r = (0, a) /\ P a) ->
  (forall a, P a -> Codes e2 l2 h2 (k a) R) -> Codes (e1 |; e2) (l1 + l2) (h1 + h2) (or_fail d1 k) R.
Proof.
  intros Hl Hh H1 H2. unfold or_fail. eapply codes_bind; [done|done|exact H1|].
  intros ? (a & -> & Ha). by apply H2.
Qed.

Lemma codes_or_fail_last {A B} e lo hi (d : M mbuf (Z * A)) (P : A -> Prop) (k : A -> M mbuf (Z * option B)) R :
  Codes e lo hi d (fun r => exists a, r = (0, a) /\ P a) ->
  (forall a, P a -> exists b, (forall mb, k a mb = Some (b, mb)) /\ R b) -> Codes e lo hi (or_fail d k) R.
Proof.
  intros H1 H2. unfold or_fail. eapply codes_last; [exact H1|]. intros ? (a & -> & Ha). by apply H2.
Qed.

(** A field whose decoder is told how many bytes there are. *)
Definition CodesLen {A} (enc : M denc Z) (hi : Z) (dec : Z -> M mbuf A) (R : A -> Prop) : Prop :=
  forall st data, msg_ok st data -> zlength data + hi < WRITE_MAX ->
  exists st' bs a, enc st = Some (0, st') /\ msg_ok st' (data ++ bs) /\ zlength bs <= hi /\ R a /\
    forall msg mb, extends G msg (data ++ bs) -> holds mb msg (zlength data) ->
      dec (zlength bs) mb = Some (a, set_pos (zlength (data ++ bs)) mb).

Lemma codes_len {A} enc lo hi hi' (d : M mbuf A) (dec : Z -> M mbuf A) R : Codes enc lo hi d R -> hi <= hi' ->
  (forall n, lo <= n <= hi -> dec n = d) -> CodesLen enc hi' dec R.
Proof.
  intros Hc Hhi Hd st data Hok Hm. destruct (Hc st data Hok ltac:(lia)) as (st' & bs & a & E & Hok' & Hb & Ha & Hdec).
  exists st', bs, a. rewrite Hd by done. split_and!; try done. lia.
Qed.

(** ** Names without a final dot *)

Definition dom (s : str) : Prop :=
  exists ls, s = Some (dotted ls false) /\ Forall label_ok ls /\ zlength (dotted ls false) <= 255.

Definition MAX_NAME : Z := 258.

Lemma codes_dom s comp : dom s -> 0 <= start < 2 ^ 62 ->
  Codes (dns_dname_encode s start comp) 1 MAX_NAME (dns_dname_decode start)
    (fun r => exists name, r = (0, name) /\ str_same s (Some name) = true).
Proof.
  intros (ls & -> & Hls & Hl) Hs. pose proof (length_dotted_ge ls Hls) as [_ Hw]. unfold MAX_NAME.
  eapply (codes_weaken _ 1 (1 + wire ls)); [lia|lia| |apply (codes_name _ ls); try done; by left; exists false].
  intros r (ls' & -> & Hls' & Hc). eexists. split; [done|]. apply bool_decide_eq_true_2.
  change (low (dotted ls false) = low (dotted ls' false)). by rewrite !low_dotted, Hc.
Qed.

End codes.
