(* ===== verification/DnsRound.v ===== *)
(** * DNS records survive encoding and decoding

    Every kind of record data is encoded to bytes that decode to data that
    [dns_rr_cmp] finds equal. *)

From S2P Require Export Prelude Mbuf MbufSpec MbufData Hash HashThms Dns DnsRr DnsDecode DnsName DnsEncode DnsCodec.

(** Character strings as [dns_cstr_encode] can represent them. *)
Definition cstring (s : str) : Prop := exists c, s = Some c /\ chars_ok c /\ zlength c <= 255.

Definition in16 (v : Z) : Prop := 0 <= v < 2 ^ 16.
Definition in32 (v : Z) : Prop := 0 <= v < 2 ^ 32.

(** Record data that can be represented. *)
Definition rdata_valid (rd : rdata) : Prop :=
  match rd with
  | RA addr => in32 addr
  | RNs name | RCname name | RPtr name => dom name
  | RSoa mname rname serial refresh retry expire ttlmin =>
      dom mname /\ dom rname /\ in32 serial /\ in32 refresh /\ in32 retry /\ in32 expire /\ in32 ttlmin
  | RMx pref exchange => in16 pref /\ dom exchange
  | RTxt data => cstring data
  | RAaaa addr => bytes_ok addr /\ length addr = 16%nat
  | RSrv pri weight port target => in16 pri /\ in16 weight /\ in16 port /\ dom target
  | RNaptr order pref flags services regexp replace =>
      in16 order /\ in16 pref /\ cstring flags /\ cstring services /\ cstring regexp /\ dom replace
  | ROther _ => False
  end.

Section round.
Context `{Host} (Hoom : no_oom) (G : Z -> Prop) (start : Z) (Hstart : 0 <= start < 2 ^ 62).

Abbreviation Codes := (Codes G start).
Abbreviation CodesLen := (CodesLen G start).

Definition MAX_RDATA : Z := 1100.

(** The result compares equal to [rd]. *)
Definition same_rdata (rd : rdata) (r : Z * option rdata) : Prop :=
  exists rd', r = (0, Some rd') /\ rdata_cmp rd rd' = true /\ rdata_type rd' = rdata_type rd.

Lemma str_caseeq_refl s : str_caseeq s s = true.
Proof. by apply bool_decide_eq_true_2. Qed.

(** ** Strings *)

Lemma writes_cstr c : chars_ok c -> zlength c <= 255 -> Writes (dns_cstr_encode (Some c)) (zlength c :: c).
Proof.
  intros Hc Hl. unfold dns_cstr_encode. rewrite (wrap_small 8) by lia. rewrite Nat2Z.id, take_ge by lia.
  change (zlength c :: c) with ([zlength c] ++ c). apply writes_or_err; [|by apply writes_mem, chars_bytes].
  rewrite <- (wrap_small 8 (zlength c)) at 2 by lia. apply _.
Qed.

Lemma reads_cstr c : chars_ok c -> zlength c <= 255 -> Reads dns_cstr_decode (zlength c :: c) (0, c).
Proof.
  intros Hc Hl. apply reads_need; [simpl; lia|]. apply reads_u8, reads_need; [done|].
  unfold mbuf_strdup. rewrite alloc_ok_no_oom by (done || unfold MEM_SIZE_MAX; rewrite (wrap_small 64); lia).
  rewrite <- (app_nil_r c) at 2. eapply reads_bind; [by apply reads_mem|]. simpl. rewrite cstr_id by done.
  apply reads_ret.
Qed.

Lemma codes_cstr s : cstring s -> Codes (on_mb (dns_cstr_encode s)) 1 256 dns_cstr_decode
  (fun r => exists c, r = (0, c) /\ str_same s (Some c) = true).
Proof.
  intros (c & -> & Hc & Hl).
  eapply (codes_weaken _ _ _ (zlength (zlength c :: c)) (zlength (zlength c :: c))); [simpl; lia..|intros a Ha; exact Ha|].
  apply (codes_fixed Hoom _ _ _ (zlength c :: c) _ (0, c)); [by apply writes_cstr|by apply reads_cstr|].
  eexists. split; [done|]. apply str_caseeq_refl.
Qed.

Lemma txt_decode_end fuel size data : zlength data < size ->
  txt_decode_loop fuel size data 0 = ret (0, Some data).
Proof. intros Hl. destruct fuel; simpl; by rewrite (proj2 (Z.ltb_ge _ _)) by lia. Qed.

Lemma codes_txt fuel c : chars_ok c -> zlength c <= 255 ->
  Codes (on_mb (txt_loop (S fuel) (Some c) (zlength c))) (1 + zlength c) (1 + zlength c)
    (txt_decode_loop (S (length c)) (2 + zlength c) [] (1 + zlength c)) (fun r => r = (0, Some c)).
Proof.
  intros Hc Hl. replace (1 + zlength c) with (zlength ([zlength c] ++ c)) at 1 2 by (simpl; lia).
  apply (codes_fixed Hoom _ _ _ _ _ (0, Some c)); [| |done].
  - intros mb Hwf Hm. cbn [txt_loop]. unfold txt_round. rewrite (wrap_small 8), Z.min_l, Z.sub_diag by lia.
    assert (Writes (mbuf_write_u8 (zlength c) |; write_str (Some c) (zlength c)) ([zlength c] ++ c)) as Hw.
    { unfold write_str. rewrite Nat2Z.id, take_ge by lia. apply writes_or_err; [|by apply writes_mem, chars_bytes].
      rewrite <- (wrap_small 8 (zlength c)) at 2 by lia. apply _. }
    destruct (Hw mb Hwf Hm) as (e & mb' & E & Hrest). exists e, mb'. split; [|done].
    rewrite bind_assoc, (bind_Some _ _ _ _ _ E). done.
  - cbn [txt_decode_loop]. rewrite (proj2 (Z.ltb_lt _ _)) by lia. apply (reads_u8 (zlength c)).
    rewrite Z.add_simpl_l, (wrap_small 16 (zlength c)), Z.ltb_irrefl by lia.
    apply reads_nil_app. unfold or_fail. eapply reads_mem_k; [done|]. cbn [nz Z.eqb negb].
    rewrite Z.sub_diag, (wrap_small 16) by lia. change (zlength []) with 0. rewrite (proj2 (Z.ltb_ge _ _)) by lia.
    rewrite txt_decode_end by (simpl; lia). apply reads_ret.
Qed.

(** ** Record data *)

Lemma codes_name_field name k rd comp : dom name ->
  (forall n, str_same name (Some n) = true -> rdata_cmp rd (k (Some n)) = true /\ rdata_type (k (Some n)) = rdata_type rd) ->
  Codes (dns_dname_encode name start comp) 1 MAX_NAME (name_field start k) (same_rdata rd).
Proof.
  intros Hd Hk. eapply codes_or_fail_last; [by apply codes_dom|]. intros n Hn. eexists. split; [done|].
  exists (k (Some n)). split; [done|]. by apply Hk.
Qed.

Lemma codes_in16 v : in16 v -> Codes (on_mb (mbuf_write_u16 (htons v))) 2 2 mbuf_read_ntohs (fun a => a = v).
Proof. intros. by apply codes_u16. Qed.

Lemma codes_in32 v : in32 v -> Codes (on_mb (mbuf_write_u32 (htonl v))) 4 4 mbuf_read_ntohl (fun a => a = v).
Proof. intros. by apply codes_u32. Qed.

(** One integer of the record, and one string; the bounds are left for the end. *)
Ltac int_field :=
  eapply codes_bind; [shelve|shelve|first [by apply codes_in16 | by apply codes_in32]|intros ? ->].
Ltac str_field := 
  eapply codes_or_fail; [shelve|shelve|first [by apply codes_dom | by apply codes_cstr]|
    let Hs := fresh in intros ? Hs; cbv beta in Hs].
Ltac last_int := eapply codes_last; [first [by apply codes_in16 | by apply codes_in32]|intros ? ->].
(** The comparison of the result with what was encoded. *)
Ltac compare := cbn [rdata_cmp]; rewrite ?Z.eqb_refl;
  repeat match goal with E : str_same _ _ = true |- _ => rewrite E; clear E end; done.
Ltac result := eexists; split; [done|]; eexists; split; [done|]; split; [compare|done].

(** Data of a type whose decoder does not depend on the length. *)
Ltac pick_type := unfold rdata_decode; cbn [Z.eqb Pos.eqb negb rdata_type rdata_encode
  DNS_TYPE_A DNS_TYPE_NS DNS_TYPE_CNAME DNS_TYPE_SOA DNS_TYPE_PTR DNS_TYPE_MX DNS_TYPE_TXT DNS_TYPE_AAAA
  DNS_TYPE_SRV DNS_TYPE_NAPTR].
Ltac any_length type :=
  eapply (codes_len _ _ _ _ _ _ (rdata_decode type 0 start)); [pick_type| |intros; pick_type; reflexivity].

Lemma codes_rdata_name rd name k n : rdata_valid rd -> dom name -> rd = k name ->
  (forall n', rdata_type (k n') = rdata_type (k name)) ->
  (forall n', str_same name (Some n') = true -> rdata_cmp (k name) (k (Some n')) = true) ->
  (rdata_encode n rd start = dns_dname_encode name start true) ->
  (forall n, rdata_decode (rdata_type rd) n start = name_field start k) ->
  CodesLen (rdata_encode n rd start) MAX_RDATA (fun n => rdata_decode (rdata_type rd) n start) (same_rdata rd).
Proof.
  intros Hv Hd -> Ht Hc -> Hdec. eapply (codes_len _ _ _ 1 MAX_NAME); [by apply (codes_name_field _ k); auto|unfold MAX_NAME, MAX_RDATA; lia|].
  intros m _. apply Hdec.
Qed.

Lemma codes_rdata_txt fuel c : chars_ok c -> zlength c <= 255 ->
  CodesLen (rdata_encode (S fuel) (RTxt (Some c)) start) MAX_RDATA
    (fun n => rdata_decode DNS_TYPE_TXT n start) (same_rdata (RTxt (Some c))).
Proof.
  intros Hc Hl. eapply (codes_len _ _ _ (1 + zlength c) (1 + zlength c)); [|unfold MAX_RDATA; lia|].
  - eapply (codes_or_fail_last _ _ _ _ _ _ (fun d => d = Some c)
      (fun data => ret (0, RTxt ∘ Some ∘ cstr <$> data))).
    + eapply codes_weaken; [| | |by apply codes_txt]; [lia|lia|]. intros r ->. by exists (Some c).
    + intros ? ->. eexists. split; [done|]. exists (RTxt (Some (cstr c))). split; [done|].
      rewrite cstr_id by done. split; [apply str_caseeq_refl|done].
  - intros n Hn. replace n with (1 + zlength c) by lia. pick_type.
    rewrite alloc_ok_no_oom by (done || unfold MEM_SIZE_MAX; lia).
    replace (Z.to_nat (1 + zlength c)) with (S (length c)) by lia. by replace (1 + zlength c + 1) with (2 + zlength c) by lia.
Qed.

Lemma codes_rdata_aaaa n addr : bytes_ok addr -> length addr = 16%nat ->
  CodesLen (rdata_encode n (RAaaa addr) start) MAX_RDATA
    (fun n => rdata_decode DNS_TYPE_AAAA n start) (same_rdata (RAaaa addr)).
Proof.
  intros Hb Hl. eapply (codes_len _ _ _ 16 16 _ (or_fail (mbuf_read_mem 16) (fun addr => ret (0, Some (RAaaa addr)))));
    [|unfold MAX_RDATA; lia|intros m Hm; replace m with 16 by lia; reflexivity].
  eapply (codes_or_fail_last _ _ _ _ _ _ (fun a => a = addr)).
  - eapply codes_weaken; [| |intros a Ha; exact Ha|apply (codes_fixed Hoom _ _ _ addr _ (0, addr))]; [lia|lia|..].
    + by apply writes_mem.
    + apply reads_mem. lia.
    + by exists addr.
  - intros a ->. eexists. split; [done|]. eexists. split; [done|]. split; [by apply bool_decide_eq_true_2|done].
Qed.

Lemma codes_rdata fuel rd : rdata_valid rd ->
  CodesLen (rdata_encode (S fuel) rd start) MAX_RDATA (fun n => rdata_decode (rdata_type rd) n start) (same_rdata rd).
Proof.
  intros Hv. destruct rd as [addr|ns|cn|mn rn s1 s2 s3 s4 s5|pn|pref ex|txt|addr|pri wei port tg|ord pref fl sv re rp|t];
    pose proof Hv as Hv'; simpl in Hv'.
  - eapply (codes_len _ _ _ 4 4); [|unfold MAX_RDATA; lia|intros n Hn; replace n with 4 by lia; reflexivity].
    last_int. result.
  - by apply (codes_rdata_name _ ns RNs).
  - by apply (codes_rdata_name _ cn RCname).
  - destruct_and! Hv'. any_length DNS_TYPE_SOA.
    + do 2 str_field. apply codes_need; [shelve|]. do 4 int_field. last_int. result.
    + unfold MAX_RDATA, MAX_NAME. lia.
  - by apply (codes_rdata_name _ pn RPtr).
  - destruct_and! Hv'. any_length DNS_TYPE_MX.
    + apply codes_need; [shelve|]. int_field. apply codes_name_field; [done|intros; split; [compare|done]].
    + unfold MAX_RDATA, MAX_NAME. lia.
  - destruct Hv' as (c & -> & Hc & Hl). by apply codes_rdata_txt.
  - destruct Hv' as [Hb Hl]. by apply codes_rdata_aaaa.
  - destruct_and! Hv'. any_length DNS_TYPE_SRV.
    + apply codes_need; [shelve|]. do 3 int_field. apply codes_name_field; [done|intros; split; [compare|done]].
    + unfold MAX_RDATA, MAX_NAME. lia.
  - destruct_and! Hv'. any_length DNS_TYPE_NAPTR.
    + apply codes_need; [shelve|]. do 2 int_field. do 3 str_field. apply codes_name_field; [done|intros; split; [compare|done]].
    + unfold MAX_RDATA, MAX_NAME. lia.
  - done.
  Unshelve. all: unfold MAX_NAME; lia.
Qed.

End round.
