(* ===== verification/DnsMsg.v ===== *)
(** * DNS messages

    A whole record is encoded around the length of its data, which is filled
    in last, and a message is a sequence of records that share one table of
    names.  This file has the theorems on names, records and messages. *)

From S2P Require Import Prelude Mbuf MbufSpec MbufData MbufPatch Hash HashThms Dns DnsRr DnsDecode DnsName.
From S2P Require Import DnsEncode DnsCodec DnsRound.

Definition everywhere (i : Z) : Prop := True.

Record rr_valid (rr : dnsrr) : Prop := {
  rv_name : dom (rr_name rr);
  rv_class : in16 (rr_dnsclass rr);
  rv_ttl : in32 (rr_ttl rr);
  rv_rdata : rdata_valid (rr_rdata rr);
}.

(** The decoded record is equal to the encoded one in the sense of
    [dns_rr_cmp], and its time to live is what is left of it. *)
Definition same_rr (rr : dnsrr) (ttl_offs : Z) (rr' : dnsrr) : Prop :=
  dns_rr_cmp rr rr' true = true /\ rr_ttl rr' = Z.max 0 (rr_ttl rr - ttl_offs).

Definition MAX_RR : Z := 1400.

Section msg.
Context `{Host} (Hoom : no_oom) (start : Z) (Hstart : 0 <= start < 2 ^ 62).

(** ** The length of the data *)

(** Positions other than the two at [q]. *)
Definition around (q i : Z) : Prop := i < q \/ q + 2 <= i.

Lemma patch_rdlen mb pre old rest v p : holds mb (pre ++ old ++ rest) p -> length old = 2%nat ->
  zlength (pre ++ old ++ rest) < WRITE_MAX ->
  exists mb', mbuf_write_u16 (htons v) (set_pos (zlength pre) mb) = Some (0, mb') /\
    holds mb' (pre ++ be_bytes 2 v ++ rest) (zlength pre + 2).
Proof.
  intros Hh Hl Hm. unfold WRITE_MAX in *. rewrite !length_app in Hm.
  pose proof (holds_set_pos _ _ _ (zlength pre) Hh ltac:(lia)) as Hh1.
  destruct (writes_u16_n v _ (h_wf _ _ _ Hh1)) as (e & mb' & E & Hwf & _ & _ & Hok & Ho);
    [rewrite length_be_bytes; unfold WRITE_MAX; simpl; lia|].
  rewrite (Ho Hoom) in *. exists mb'. split; [done|].
  pose proof (holds_overwrite _ pre old rest _ mb' Hh1 Hwf (Hok eq_refl)) as Hh2.
  rewrite length_be_bytes in Hh2. by apply Hh2.
Qed.

(** Overwriting the length keeps the names of the table. *)
Lemma entry_ok_patch data old new rest e : length old = length new -> length old = 2%nat ->
  entry_ok (around (zlength data)) start (data ++ old ++ rest) e ->
  entry_ok everywhere start (data ++ new ++ rest) e.
Proof.
  intros Hl H2 [Hk (ls & ls' & k & n & Hn & Hls & Hc & Hat & Hle)]. split; [done|].
  exists ls, ls', k, n. split_and!; try done. apply (at_name_mono (around (zlength data))); [done|].
  eapply at_name_agree; [|done]. intros i [Hi|Hi] _.
  - by rewrite !lookup_app_l by lia.
  - rewrite !(lookup_app_r data) by lia. rewrite !lookup_app_r by lia. by rewrite Hl.
Qed.

Lemma msg_ok_around st data hb ob log : enc_st st (data ++ hb ++ ob) log -> length ob = 2%nat ->
  Forall (entry_ok everywhere start data) log -> 0 <= start <= zlength data ->
  msg_ok (around (zlength (data ++ hb))) start st ((data ++ hb) ++ ob).
Proof.
  intros Hst Ho He Hs. rewrite <- app_assoc. split.
  - exists log. split; [done|]. apply (List.Forall_impl _ (P := entry_ok everywhere start data)); [|done].
    intros e Hok. apply entry_ok_app. destruct Hok as [Hk (ls & ls' & k & n & Hn & Hls & Hc & Hat & Hle)].
    split; [done|]. exists ls, ls', k, n. split_and!; try done. eapply at_name_mono; [|done].
    intros i Hi _. left. rewrite length_app. lia.
  - intros i. rewrite !length_app. right. lia.
  - rewrite length_app. lia.
Qed.

Lemma extends_around msg data old new rest : length old = length new -> length old = 2%nat ->
  extends everywhere msg (data ++ new ++ rest) -> extends (around (zlength data)) msg ((data ++ old) ++ rest).
Proof.
  intros Hl H2 [Hlen Hx]. rewrite !length_app in *. split; [rewrite !length_app; lia|].
  rewrite <- app_assoc. rewrite !length_app. intros i [Hi|Hi] Hlt; rewrite Hx by (done || lia).
  - by rewrite !lookup_app_l by lia.
  - rewrite !(lookup_app_r data) by lia. rewrite !lookup_app_r by lia. by rewrite Hl.
Qed.

(** ** One record *)

(** Type, class and time to live. *)
Definition rr_head (rr : dnsrr) (ttl : Z) : list Z :=
  be_bytes 2 (rr_type rr) ++ be_bytes 2 (rr_dnsclass rr) ++ be_bytes 4 ttl.

Definition ttl_left (rr : dnsrr) (ttl_offs : Z) : Z := Z.max 0 (rr_ttl rr - ttl_offs).

(** A record of name [nb] and data [rb] after [data]. *)
Definition rr_msg (rr : dnsrr) (ttl_offs : Z) (data nb rb : list Z) : list Z :=
  ((data ++ nb) ++ rr_head rr (ttl_left rr ttl_offs)) ++ be_bytes 2 (zlength rb) ++ rb.

(** [st'] is [st] with a record of name [nb] and data [rb] after [data]. *)
Record rr_encoded (rr : dnsrr) (ttl_offs : Z) (data : list Z) (st' : denc) (nb rb : list Z) : Prop := {
  re_ok : msg_ok everywhere start st' (rr_msg rr ttl_offs data nb rb);
  re_name_len : 1 <= zlength nb <= MAX_NAME;
  re_data_len : zlength rb <= MAX_RDATA;
  re_name : exists name, str_same (rr_name rr) (Some name) = true /\
    forall msg mb, extends everywhere msg (data ++ nb) -> holds mb msg (zlength data) ->
      dns_dname_decode start mb = Some ((0, name), set_pos (zlength (data ++ nb)) mb);
  re_data : exists rd, rdata_cmp (rr_rdata rr) rd = true /\ rdata_type rd = rr_type rr /\
    forall msg mb, extends everywhere msg (rr_msg rr ttl_offs data nb rb) ->
      holds mb msg (zlength (rr_msg rr ttl_offs data nb rb) - zlength rb) ->
      rdata_decode (rr_type rr) (zlength rb) start mb =
        Some ((0, Some rd), set_pos (zlength (rr_msg rr ttl_offs data nb rb)) mb);
}.

Lemma rr_head_length rr ttl : length (rr_head rr ttl) = 8%nat.
Proof. unfold rr_head. by rewrite !length_app, !length_be_bytes. Qed.

Lemma writes_rr_head rr ttl :
  Writes (mbuf_write_u16 (htons (rr_type rr)) |; mbuf_write_u16 (htons (rr_dnsclass rr)) |;
          mbuf_write_u32 (htonl ttl) |; mbuf_write_u16 (htons (rr_rdlen rr)))
    (rr_head rr ttl ++ be_bytes 2 (rr_rdlen rr)).
Proof. unfold rr_head. rewrite <- !app_assoc. apply _. Qed.

Lemma rr_diff rr ttl_offs : in32 (rr_ttl rr) -> 0 <= ttl_offs ->
  (if ttl_offs <? rr_ttl rr then rr_ttl rr - ttl_offs else 0) = ttl_left rr ttl_offs /\
  0 <= ttl_left rr ttl_offs < 2 ^ 32.
Proof. unfold in32, ttl_left. intros. destruct (Z.ltb_spec ttl_offs (rr_ttl rr)); lia. Qed.

Lemma enc_st_end (st : denc) data log : enc_st st data log -> mb_pos st.1 = zlength data /\ zlength data < 2 ^ 32.
Proof.
  intros [Hh _]. split; [apply (h_pos _ _ _ Hh)|]. pose proof (holds_end _ _ _ Hh). pose proof (wf_end _ (h_wf _ _ _ Hh)).
  pose proof (wf_max _ (h_wf _ _ _ Hh)). unfold MEM_SIZE_MAX in *. lia.
Qed.

(** The length is written over the placeholder, and the position goes back to the end. *)
Lemma finish_rr (st : denc) data ob rb log : enc_st st (data ++ ob ++ rb) log -> length ob = 2%nat ->
  zlength (data ++ ob ++ rb) < WRITE_MAX ->
  exists st', (on_mb (mbuf_set_pos (zlength data)) ;;
      let* e := on_mb (mbuf_write_u16 (htons (zlength rb))) in
      on_mb (mbuf_advance (zlength rb)) ;; ret e) st = Some (0, st') /\
    enc_st st' (data ++ be_bytes 2 (zlength rb) ++ rb) log.
Proof.
  intros [Hh Ht] Ho Hm. destruct st as [mb t]. cbn [fst snd] in *. unfold WRITE_MAX in *.
  destruct (patch_rdlen mb data ob rb (zlength rb) _ Hh Ho) as (mb1 & E1 & Hh1); [done|].
  unfold bind, on_mb, mbuf_set_pos, modify. rewrite E1. rewrite !length_app in Hm.
  rewrite (advance_small mb1) by (apply Hh1 || rewrite ?(h_pos _ _ _ Hh1); lia).
  eexists. split; [done|]. split; [|done]. cbn [fst]. rewrite (h_pos _ _ _ Hh1).
  replace (zlength (data ++ be_bytes 2 (zlength rb) ++ rb)) with (zlength data + 2 + zlength rb)
    by (rewrite !length_app, length_be_bytes; lia).
  by apply (holds_set_pos _ _ (zlength data + 2)); [|lia].
Qed.

Lemma switch_err_valid rd : rdata_valid rd -> switch_err rd 0 0 = 0.
Proof. by destruct rd. Qed.

Lemma rr_encode_spec fuel rr ttl_offs st data : rr_valid rr -> 0 <= ttl_offs ->
  msg_ok everywhere start st data -> zlength data + MAX_RR < WRITE_MAX ->
  exists st' nb rb, dns_rr_encode (S fuel) rr ttl_offs start st = Some (0, st') /\
    rr_encoded rr ttl_offs data st' nb rb.
Proof.
  intros [Hname Hclass Httl Hrd] Hoffs Hok Hm. destruct (rr_diff rr ttl_offs Httl Hoffs) as [Ed Hd].
  unfold dns_rr_encode. rewrite Ed, (proj2 (Z.leb_gt _ _)), (wrap_small 32 (ttl_left rr ttl_offs)) by lia.
  set (ttl := ttl_left rr ttl_offs) in *. unfold MAX_RR in Hm.
  destruct (codes_dom Hoom everywhere start (rr_name rr) true Hname Hstart st data Hok ltac:(unfold MAX_NAME; lia))
    as (st1 & nb & ? & E1 & [(log1 & Hst1 & He1) _ Hs1] & Hnl & (name & -> & Hsame) & Hdec1).
  unfold MAX_NAME in Hnl. set (hb := rr_head rr ttl). set (ob := be_bytes 2 (rr_rdlen rr)).
  assert (length ob = 2%nat) as Hob by apply length_be_bytes. pose proof (rr_head_length rr ttl) as Hhb.
  destruct (enc_write Hoom _ _ st1 _ log1 (writes_rr_head rr ttl) Hst1) as (st2 & E2 & Hst2 & _);
    [rewrite !length_app, Hhb, length_be_bytes; lia|]. fold hb ob in Hhb, Hst2.
  pose proof (msg_ok_around st2 _ hb ob log1 Hst2 Hob He1 Hs1) as Hok2.
  destruct (codes_rdata Hoom _ start Hstart fuel (rr_rdata rr) Hrd st2 _ Hok2)
    as (st3 & rb & ? & E3 & [(log3 & Hst3 & He3) _ _] & Hrl & (rd & -> & Hcmp & Hty) & Hdec3).
  { rewrite !length_app, Hob. unfold MAX_RDATA. lia. }
  rewrite <- (app_assoc _ ob rb) in Hst3, He3. unfold MAX_RDATA in *.
  assert (zlength ((data ++ nb) ++ hb) + 2 + zlength rb < WRITE_MAX) as Hm3 by (rewrite !length_app; lia).
  destruct (finish_rr st3 ((data ++ nb) ++ hb) ob rb log3 Hst3 Hob) as (st4 & E4 & Hst4); [rewrite !length_app in *; lia|].
  exists st4, nb, rb. split.
  - assert ((dns_dname_encode (rr_name rr) start true |; on_mb (mbuf_write_u16 (htons (rr_type rr)) |;
      mbuf_write_u16 (htons (rr_dnsclass rr)) |; mbuf_write_u32 (htonl ttl) |; mbuf_write_u16 (htons (rr_rdlen rr)))) st
      = Some (0, st2)) as E12 by (unfold or_err at 1; by rewrite (bind_Some _ _ _ _ _ E1), (bind_Some _ _ _ _ _ E2)).
    rewrite (bind_Some _ _ _ _ _ E12). unfold get, bind at 1. destruct st2 as [mb2 t2].
    rewrite (bind_Some _ _ _ _ _ E3). unfold bind at 1. destruct st3 as [mb3 t3]. rewrite switch_err_valid by done.
    destruct (enc_st_end _ _ _ Hst2) as [Ep2 _], (enc_st_end _ _ _ Hst3) as [Ep3 Hb3]. cbn [fst] in *.
    rewrite Ep2, Ep3.
    replace (_ - zlength ((data ++ nb) ++ hb ++ ob)) with (zlength rb) by (rewrite !length_app in *; lia).
    rewrite (wrap_small 64 (zlength rb)), (proj2 (Z.ltb_ge _ _)) by lia.
    replace (zlength ((data ++ nb) ++ hb ++ ob) - 2) with (zlength ((data ++ nb) ++ hb)) by (rewrite !length_app in *; lia).
    rewrite (wrap_small 64), (wrap_small 16) by (rewrite ?length_app in *; lia). exact E4.
  - split; unfold rr_msg; fold ttl hb; try done.
    + split; [|done|rewrite !length_app in *; lia]. exists log3. split; [done|].
      apply (List.Forall_impl _ (P := entry_ok (around (zlength ((data ++ nb) ++ hb))) start
        (((data ++ nb) ++ hb) ++ ob ++ rb))); [|done].
      intros e. apply entry_ok_patch; [by rewrite Hob, length_be_bytes|done].
    + by exists name.
    + exists rd. split_and!; [done..|]. intros msg mb Hx Hh. unfold rr_type.
      rewrite (Hdec3 msg mb); [|by apply (extends_around _ _ _ (be_bytes 2 (zlength rb))); rewrite ?length_be_bytes|].
      * do 3 f_equal. rewrite !length_app, length_be_bytes. lia.
      * replace (zlength (((data ++ nb) ++ hb) ++ ob)) with
          (zlength (((data ++ nb) ++ hb) ++ be_bytes 2 (zlength rb) ++ rb) - zlength rb); [done|].
        rewrite !length_app, length_be_bytes. lia.
Qed.

Lemma bytes_at_app msg p b1 b2 : bytes_at everywhere msg p (b1 ++ b2) ->
  bytes_at everywhere msg p b1 /\ bytes_at everywhere msg (p + zlength b1) b2.
Proof.
  intros [Hp Hb]. split; (split; [lia|]); intros i Hi; (split; [|done]).
  - destruct (Hb i) as [E _]; [rewrite length_app; lia|]. by rewrite lookup_app_l in E by done.
  - destruct (Hb (length b1 + i)%nat) as [E _]; [rewrite length_app; lia|].
    rewrite lookup_app_r in E by lia. replace (length b1 + i - length b1)%nat with i in E by lia.
    rewrite <- E. f_equal. lia.
Qed.

(** A reader of the bytes at the position. *)
Lemma reads_at {A} (m : M mbuf A) bs a mb msg p : Reads m bs a -> holds mb msg p ->
  bytes_at everywhere msg p bs -> bs <> [] ->
  m mb = Some (a, set_pos (p + zlength bs) mb) /\ holds (set_pos (p + zlength bs) mb) msg (p + zlength bs).
Proof.
  intros Hr Hh Hb Hne. destruct (bytes_at_unread _ _ _ _ _ Hh Hb Hne) as [rest Eu].
  pose proof (h_wf _ _ _ Hh) as Hwf. rewrite (Hr mb rest Hwf Eu), (h_pos _ _ _ Hh). split; [done|].
  apply (holds_set_pos _ _ _ _ Hh). pose proof (wf_pos _ (unread_wf _ _ _ Hwf Eu)) as Hp.
  by rewrite (h_pos _ _ _ Hh) in Hp.
Qed.

Lemma in16_type rd : rdata_valid rd -> in16 (rdata_type rd).
Proof. by destruct rd. Qed.

Lemma read_rr_head {A} t c ttl n mb msg p (k : Z -> Z -> Z -> Z -> M mbuf A) : holds mb msg p ->
  bytes_at everywhere msg p (be_bytes 2 t ++ be_bytes 2 c ++ be_bytes 4 ttl ++ be_bytes 2 n) ->
  in16 t -> in16 c -> in32 ttl -> in16 n ->
  (let* t := mbuf_read_ntohs in let* c := mbuf_read_ntohs in let* ttl := mbuf_read_ntohl in
   let* n := mbuf_read_ntohs in k t c ttl n) mb = k t c ttl n (set_pos (p + 10) mb) /\
  holds (set_pos (p + 10) mb) msg (p + 10).
Proof.
  intros Hh (Hb1 & (Hb2 & (Hb3 & Hb4)%bytes_at_app)%bytes_at_app)%bytes_at_app Ht Hc Hl Hn.
  rewrite !length_be_bytes in *.
  destruct (reads_at mbuf_read_ntohs _ t mb msg p (reads_net_int 2 _ Ht) Hh Hb1 ltac:(done)) as [E1 Hh1].
  rewrite length_be_bytes in *.
  destruct (reads_at mbuf_read_ntohs _ c _ msg _ (reads_net_int 2 _ Hc) Hh1 Hb2 ltac:(done)) as [E2 Hh2].
  rewrite length_be_bytes in *.
  destruct (reads_at mbuf_read_ntohl _ ttl _ msg _ (reads_net_int 4 _ Hl) Hh2 Hb3 ltac:(done)) as [E3 Hh3].
  rewrite length_be_bytes in *.
  destruct (reads_at mbuf_read_ntohs _ n _ msg _ (reads_net_int 2 _ Hn) Hh3 Hb4 ltac:(done)) as [E4 Hh4].
  rewrite length_be_bytes in *. rewrite (bind_Some _ _ _ _ _ E1), (bind_Some _ _ _ _ _ E2), (bind_Some _ _ _ _ _ E3),
    (bind_Some _ _ _ _ _ E4). rewrite !set_pos_set_pos in *.
  replace (p + 10) with (p + Z.of_nat 2 + Z.of_nat 2 + Z.of_nat 4 + Z.of_nat 2) by lia. done.
Qed.

Lemma length_rr_msg rr ttl_offs data nb rb :
  length (rr_msg rr ttl_offs data nb rb) = (length (data ++ nb) + 10 + length rb)%nat.
Proof. unfold rr_msg. rewrite !length_app, rr_head_length, length_be_bytes. lia. Qed.

(** The bytes between the name and the data. *)
Lemma rr_msg_head rr ttl_offs data nb rb msg : extends everywhere msg (rr_msg rr ttl_offs data nb rb) ->
  extends everywhere msg (data ++ nb) /\
  bytes_at everywhere msg (zlength (data ++ nb)) (be_bytes 2 (rr_type rr) ++ be_bytes 2 (rr_dnsclass rr) ++
    be_bytes 4 (ttl_left rr ttl_offs) ++ be_bytes 2 (zlength rb)).
Proof.
  intros Hx. assert (rr_msg rr ttl_offs data nb rb = (data ++ nb) ++ (be_bytes 2 (rr_type rr) ++
    be_bytes 2 (rr_dnsclass rr) ++ be_bytes 4 (ttl_left rr ttl_offs) ++ be_bytes 2 (zlength rb)) ++ rb) as E
    by (unfold rr_msg, rr_head; by rewrite <- !app_assoc).
  rewrite E in Hx. split; [by apply extends_app in Hx|]. destruct Hx as [_ Hx].
  eapply bytes_at_agree; [exact Hx|]. by apply bytes_at_mid.
Qed.

Lemma rr_decode_spec rr ttl_offs data st nb rb : rr_valid rr -> 0 <= ttl_offs -> rr_encoded rr ttl_offs data st nb rb ->
  exists rr', same_rr rr ttl_offs rr' /\
    forall msg mb, extends everywhere msg (rr_msg rr ttl_offs data nb rb) -> holds mb msg (zlength data) ->
      dns_rr_decode start mb = Some ((0, Some rr'), set_pos (zlength (rr_msg rr ttl_offs data nb rb)) mb).
Proof.
  intros [_ Hclass Httl Hrd] Hoffs [Hok Hnl Hrl (name & Hname & Hdn) (rd & Hcmp & Hty & Hdr)].
  destruct (rr_diff rr ttl_offs Httl Hoffs) as [_ Ht]. pose proof (in16_type _ Hrd) as Htype.
  exists (DnsRr (Some name) (rr_dnsclass rr) (ttl_left rr ttl_offs) (zlength rb) rd). split.
  { split; [|done]. unfold dns_rr_cmp. cbn [rr_name rr_dnsclass rr_rdata]. unfold rr_type at 2. cbn [rr_rdata].
    by rewrite Hty, !Z.eqb_refl, Hname. }
  intros msg mb Hx Hh. destruct (rr_msg_head _ _ _ _ _ _ Hx) as [Hxn Hb]. unfold dns_rr_decode.
  rewrite alloc_ok_no_oom by (done || unfold MEM_SIZE_MAX; lia). cbn [negb]. unfold or_fail at 1.
  rewrite (bind_Some _ _ _ _ _ (Hdn msg mb Hxn Hh)). cbn [nz Z.eqb negb].
  pose proof Hx as [Hlen _]. rewrite length_rr_msg in Hlen. unfold MAX_RDATA in Hrl.
  pose proof (holds_end _ _ _ Hh) as He. pose proof (wf_end _ (h_wf _ _ _ Hh)). pose proof (wf_max _ (h_wf _ _ _ Hh)).
  unfold MEM_SIZE_MAX in *. pose proof (holds_set_pos _ _ _ (zlength (data ++ nb)) Hh ltac:(lia)) as Hh1.
  unfold need at 1, get, bind at 1. rewrite (holds_left _ _ _ Hh1), (proj2 (Z.ltb_ge _ _)) by lia.
  destruct (read_rr_head (rr_type rr) (rr_dnsclass rr) (ttl_left rr ttl_offs) (zlength rb) _ msg _
    (fun type class ttl rdlen => need rdlen (ret (EINVAL, None))
       (let* '(err, rd) := rdata_decode type rdlen start in
        if nz err then ret (err, None) else ret (0, DnsRr (Some name) class ttl rdlen <$> rd))) Hh1 Hb)
    as [E Hh2]; [done|done|done|unfold in16; lia|]. rewrite E. clear E.
  unfold need, get, bind at 1. rewrite (holds_left _ _ _ Hh2), (proj2 (Z.ltb_ge _ _)) by lia.
  rewrite (bind_Some _ _ _ _ _ (Hdr msg _ Hx ltac:(by replace (_ - _) with (zlength (data ++ nb) + 10) by (rewrite length_rr_msg; lia)))).
  by rewrite !set_pos_set_pos.
Qed.

(** A record is one of the fields that [Codes] composes. *)
Lemma codes_rr fuel rr ttl_offs : rr_valid rr -> 0 <= ttl_offs ->
  Codes everywhere start (dns_rr_encode (S fuel) rr ttl_offs start) 0 MAX_RR (dns_rr_decode start)
    (fun r => exists rr', r = (0, Some rr') /\ same_rr rr ttl_offs rr').
Proof.
  intros Hv Ho st data Hok Hm. destruct (rr_encode_spec fuel rr ttl_offs st data Hv Ho Hok Hm) as (st' & nb & rb & E & Henc).
  destruct (rr_decode_spec rr ttl_offs data st' nb rb Hv Ho Henc) as (rr' & Hsame & Hdec).
  assert (rr_msg rr ttl_offs data nb rb = data ++ nb ++ rr_head rr (ttl_left rr ttl_offs) ++ be_bytes 2 (zlength rb) ++ rb) as Em
    by (unfold rr_msg; by rewrite <- !app_assoc).
  rewrite Em in *. exists st', (nb ++ rr_head rr (ttl_left rr ttl_offs) ++ be_bytes 2 (zlength rb) ++ rb), (0, Some rr').
  destruct Henc as [Hok' Hnl Hrl _ _]. rewrite Em in Hok'. unfold MAX_RR, MAX_NAME, MAX_RDATA in *.
  split_and!; try done; [rewrite !length_app, rr_head_length, length_be_bytes; lia..|by exists rr'].
Qed.

End msg.
