(* ===== verification/DnsReply.v ===== *)
(** * Replies of a DNS server (src/dns/client.c, reply_recv)

    [reply_recv]: the query a reply belongs to, the records it adds to the
    lists of the query, and what becomes of the query; and the inverse, a server
    that encodes a header, a question and the records of the sections with one
    table of names. *)

From S2P Require Export Prelude Mbuf MbufSpec MbufData Hash HashThms Dns DnsRr DnsDecode DnsName.
From S2P Require Export DnsEncode DnsCodec DnsRound DnsMsg.

Definition RR_MAX : Z := 32.

Section reply.
Context `{Host}.

(** [for (j = 0; j < l; j++)]: the records appended to the list of the section
    and the least time to live so far. *)
Fixpoint rr_loop (l : nat) (rrl : list dnsrr) (ttl : Z) : M mbuf (Z * (list dnsrr * Z)) :=
  match l with
  | O => ret (0, (rrl, ttl))
  | S l =>
      let* '(err, rr) := dns_rr_decode 0 in
      if nz err then ret (err, (rrl, ttl))
      else
        match rr with
        | Some rr => rr_loop l (rrl ++ [rr]) (if rr_ttl rr <? ttl then rr_ttl rr else ttl)
        | None => ub
        end
  end.

(** [for (i = 0; i < RE_ARRAY_SIZE(nv); i++)]: at most [RR_MAX] records of each
    section are read, and appended to the list [q->rrlv[i]]. *)
Fixpoint reply_sections (nv : list (Z * list dnsrr)) (ttl : Z) : M mbuf (Z * (list (list dnsrr) * Z)) :=
  match nv with
  | [] => ret (0, ([], ttl))
  | (l, rrl) :: nv =>
      let l := if RR_MAX <? l then RR_MAX else l in
      let* '(err, (rrl, ttl)) := rr_loop (Z.to_nat l) rrl ttl in
      if nz err then ret (err, ([], ttl))
      else
        let* '(err, (rrlv, ttl)) := reply_sections nv ttl in
        ret (err, (rrl :: rrlv, ttl))
  end.

(** An outstanding query, with what a reply is compared to, the number of
    servers tried and configured, and the records received so far: answers,
    authorities and additional ones ([rrlv]). *)
Record query := Query {
  q_id : Z; q_opcode : Z; q_type : Z; q_dnsclass : Z; q_name : list Z; q_ntx : Z; q_srvc : Z;
  q_ansl : list dnsrr; q_authl : list dnsrr; q_addl : list dnsrr;
}.

Definition q_rrlv (q : query) : list (list dnsrr) := [q_ansl q; q_authl q; q_addl q].
Definition set_rrlv (rrlv : list (list dnsrr)) (q : query) : query :=
  let l i := nth i rrlv [] in
  Query (q_id q) (q_opcode q) (q_type q) (q_dnsclass q) (q_name q) (q_ntx q) (q_srvc q) (l 0%nat) (l 1%nat) (l 2%nat).

(** The question of a reply. *)
Record dnsquery := Dnsquery { dq_hdr : dnshdr; dq_name : list Z; dq_type : Z; dq_dnsclass : Z; dq_cache : bool }.

Definition query_cmp_handler (dq : dnsquery) (q : query) : bool :=
  if negb (dq_cache dq) && negb (q_id q =? hdr_id (dq_hdr dq)) then false
  else if negb (q_opcode q =? hdr_opcode (dq_hdr dq)) then false
  else if negb (q_type q =? dq_type dq) then false
  else if negb (q_dnsclass q =? dq_dnsclass dq) then false
  else if negb (str_caseeq (q_name q) (dq_name dq)) then false
  else true.

Definition DNS_RCODE_OK : Z := 0.
Definition DNS_RCODE_SRV_FAIL : Z := 2.
Definition DNS_QTYPE_AXFR : Z := 0x00fc.

(** A zone transfer is complete when its last record is a second SOA; [rrh ==
    rrt] is a list of one record. *)
Definition axfr_wait (q : query) (hdr : dnshdr) : bool :=
  (q_type q =? DNS_QTYPE_AXFR) && (hdr_rcode hdr =? DNS_RCODE_OK) && (0 <? hdr_nans hdr) &&
  match list.last (q_ansl q) with
  | None => true
  | Some rrt => negb (rr_type rrt =? DNS_TYPE_SOA) || (length (q_ansl q) =? 1)%nat
  end.

(** What becomes of the query: more replies are awaited, it is freed, or it
    answers later queries until a timer of so many milliseconds ends. *)
Inductive next_step := Wait | Free | Cache (ms : Z).

Definition cached (ttl : Z) : next_step := Cache (if 1 <? ttl then ttl * 1000 else 100).

Definition reply_next (cache_ttl_max : Z) (q : query) (hdr : dnshdr) (ttl : Z) : next_step :=
  if axfr_wait q hdr then Wait
  else if (cache_ttl_max =? 0) || (q_type q =? DNS_QTYPE_AXFR) then Free
  else if (hdr_nans hdr =? 0) && (hdr_nauth hdr =? 0) then Free
  else if (hdr_nans hdr =? 0) && nz (hdr_nauth hdr) then
    match head (q_authl q) with
    | Some (DnsRr _ _ _ _ (RSoa _ _ _ _ _ _ ttlmin)) => cached (if ttlmin <? cache_ttl_max then ttlmin else ttl)
    | _ => Free
    end
  else cached ttl.

(** The query with the records of the reply, the header, the least time to
    live, and what becomes of the query; its handler is called unless more
    replies are awaited. *)
Record reply := Reply { rp_query : query; rp_hdr : dnshdr; rp_ttl : Z; rp_next : next_step }.

(** The error code and the reply.  On an error the query is found but not
    answered (next server), or its handler gets the error. *)
Definition reply_recv (ht_query : option (hash query)) (cache_ttl_max : Z) : M mbuf (Z * option reply) :=
  let* '(err, hdr) := dns_hdr_decode in
  match hdr with
  | None => ret (EBADMSG, None)
  | Some hdr =>
      if negb (hdr_qr hdr) then ret (EBADMSG, None)
      else
        or_fail (dns_dname_decode 0) (fun name =>
        need 4 (ret (EBADMSG, None))
          (let* type := mbuf_read_ntohs in
           let* dnsclass := mbuf_read_ntohs in
           let* q := lift (hash_lookup ht_query (hash_joaat_str_ci name)
                             (query_cmp_handler (Dnsquery hdr name type dnsclass false))) in
           match q with
           | None => ret (ENOENT, None)
           | Some q =>
               if (hdr_rcode hdr =? DNS_RCODE_SRV_FAIL) && (q_ntx q <? q_srvc q) then ret (EPROTO, None)
               else
                 or_fail (reply_sections (zip [hdr_nans hdr; hdr_nauth hdr; hdr_nadd hdr] (q_rrlv q)) cache_ttl_max)
                   (fun '(rrlv, ttl) =>
                      let q := set_rrlv rrlv q in
                      ret (0, Some (Reply q hdr ttl (reply_next cache_ttl_max q hdr ttl))))
           end))
  end.

(** ** A server *)

Fixpoint encode_rrs (fuel : nat) (rrs : list dnsrr) : M denc Z :=
  match rrs with
  | [] => ret 0
  | rr :: rrs => dns_rr_encode fuel rr 0 0 |; encode_rrs fuel rrs
  end.

Fixpoint encode_sections (fuel : nat) (secs : list (list dnsrr)) : M denc Z :=
  match secs with
  | [] => ret 0
  | rrs :: secs => encode_rrs fuel rrs |; encode_sections fuel secs
  end.

Definition min_ttl (ttl : Z) (rrs : list dnsrr) : Z := foldl Z.min ttl (rr_ttl <$> rrs).

Lemma if_min a b : (if a <? b then a else b) = Z.min b a.
Proof. destruct (Z.ltb_spec a b); lia. Qed.

(** ** Header *)

Record hdr_valid (hdr : dnshdr) : Prop := {
  hv_id : in16 (hdr_id hdr);
  hv_opcode : 0 <= hdr_opcode hdr < 16;
  hv_z : 0 <= hdr_z hdr < 8;
  hv_rcode : 0 <= hdr_rcode hdr < 16;
  hv_nq : in16 (hdr_nq hdr);
  hv_nans : in16 (hdr_nans hdr);
  hv_nauth : in16 (hdr_nauth hdr);
  hv_nadd : in16 (hdr_nadd hdr);
}.

Lemma flag_step a x n k : 0 <= k <= n -> n <= 16 -> 0 <= a < 2 ^ (16 - n) -> 0 <= x < 2 ^ (n - k) ->
  u16 (Z.lor (a * 2 ^ n) (Z.shiftl x k)) = (a * 2 ^ (n - k) + x) * 2 ^ k /\ 0 <= a * 2 ^ (n - k) + x < 2 ^ (16 - k).
Proof.
  intros Hk Hn Ha Hx.
  assert (2 ^ n = 2 ^ (n - k) * 2 ^ k) as E1 by (rewrite <- Z.pow_add_r by lia; f_equal; lia).
  assert (2 ^ (16 - k) = 2 ^ (16 - n) * 2 ^ (n - k)) as E2 by (rewrite <- Z.pow_add_r by lia; f_equal; lia).
  assert (2 ^ 16 = 2 ^ (16 - k) * 2 ^ k) as E3 by (rewrite <- Z.pow_add_r by lia; f_equal; lia).
  assert (0 < 2 ^ k) by (apply Z.pow_pos_nonneg; lia). assert (0 < 2 ^ (n - k)) by (apply Z.pow_pos_nonneg; lia).
  assert (0 <= a * 2 ^ (n - k) + x < 2 ^ (16 - k)) as Hr by (rewrite E2; nia). split; [|done].
  rewrite Z.shiftl_mul_pow2, lor_add by (lia || nia). rewrite E1, Z.mul_assoc, <- Z.mul_add_distr_r.
  apply (wrap_small 16). rewrite E3. nia.
Qed.

(** The flags as a number. *)
Lemma hdr_flags_value hdr : hdr_valid hdr ->
  hdr_flags hdr = ((((((b2z (hdr_qr hdr) * 16 + hdr_opcode hdr) * 2 + b2z (hdr_aa hdr)) * 2 + b2z (hdr_tc hdr)) * 2 +
    b2z (hdr_rd hdr)) * 2 + b2z (hdr_ra hdr)) * 8 + hdr_z hdr) * 16 + hdr_rcode hdr.
Proof.
  intros [_ Hop Hz Hrc _ _ _ _]. unfold hdr_flags, QUERY_RESPONSE, OPCODE, AUTH_ANSWER, TRUNCATED, RECURSION_DESIRED,
    RECURSION_AVAILABLE, ZERO. cbv zeta.
  assert (forall b, 0 <= b2z b < 2 ^ 1) as Hb by (intros []; simpl; lia).
  change 0 with (0 * 2 ^ 16) at 1.
  destruct (flag_step 0 (b2z (hdr_qr hdr)) 16 15) as [-> H1]; [lia|lia|simpl; lia|apply Hb|].
  destruct (flag_step _ (hdr_opcode hdr) 15 11 ltac:(lia) ltac:(lia) H1) as [-> H2]; [simpl; lia|].
  destruct (flag_step _ (b2z (hdr_aa hdr)) 11 10 ltac:(lia) ltac:(lia) H2) as [-> H3]; [apply Hb|].
  destruct (flag_step _ (b2z (hdr_tc hdr)) 10 9 ltac:(lia) ltac:(lia) H3) as [-> H4]; [apply Hb|].
  destruct (flag_step _ (b2z (hdr_rd hdr)) 9 8 ltac:(lia) ltac:(lia) H4) as [-> H5]; [apply Hb|].
  destruct (flag_step _ (b2z (hdr_ra hdr)) 8 7 ltac:(lia) ltac:(lia) H5) as [-> H6]; [apply Hb|].
  destruct (flag_step _ (hdr_z hdr) 7 4 ltac:(lia) ltac:(lia) H6) as [-> H7]; [simpl; lia|].
  rewrite <- (Z.shiftl_0_r (hdr_rcode hdr)).
  destruct (flag_step _ (hdr_rcode hdr) 4 0 ltac:(lia) ltac:(lia) H7) as [-> H8]; [simpl; lia|].
  rewrite Z.shiftl_0_r. cbn [Z.sub Z.opp Z.add Z.pow Z.pow_pos Pos.iter Z.pos_sub Pos.pred_double]. lia.
Qed.

(** Each flag is read back from the number. *)
Lemma hdr_flags_fields hdr : hdr_valid hdr -> let flags := hdr_flags hdr in
  in16 flags /\
  DnsHdr (hdr_id hdr) (nz (Z.land 0x1 (Z.shiftr flags QUERY_RESPONSE))) (Z.land 0xf (Z.shiftr flags OPCODE))
    (nz (Z.land 0x1 (Z.shiftr flags AUTH_ANSWER))) (nz (Z.land 0x1 (Z.shiftr flags TRUNCATED)))
    (nz (Z.land 0x1 (Z.shiftr flags RECURSION_DESIRED))) (nz (Z.land 0x1 (Z.shiftr flags RECURSION_AVAILABLE)))
    (Z.land 0x7 (Z.shiftr flags ZERO)) (Z.land 0xf (Z.shiftr flags 0))
    (hdr_nq hdr) (hdr_nans hdr) (hdr_nauth hdr) (hdr_nadd hdr) = hdr.
Proof.
  intros Hv. cbv zeta. rewrite (hdr_flags_value hdr Hv). destruct Hv as [_ Hop Hz Hrc _ _ _ _].
  unfold QUERY_RESPONSE, OPCODE, AUTH_ANSWER, TRUNCATED, RECURSION_DESIRED, RECURSION_AVAILABLE, ZERO.
  destruct hdr as [id qr op aa tc rd ra z rc nq nans nauth nadd]. cbn -[Z.land Z.shiftr Z.mul Z.add] in *.
  split; [unfold in16; destruct qr, aa, tc, rd, ra; simpl b2z; lia|].
  assert (forall b, 0 <= b2z b < 2) as Hb by (intros []; simpl; lia).
  pose proof (Hb qr). pose proof (Hb aa). pose proof (Hb tc). pose proof (Hb rd). pose proof (Hb ra).
  rewrite !(Z.land_comm 1), !(Z.land_comm 15), !(Z.land_comm 7), !land_1, !land_15, !land_7, !Z.shiftr_div_pow2 by lia.
  change (2 ^ 15) with 32768. change (2 ^ 11) with 2048. change (2 ^ 10) with 1024. change (2 ^ 9) with 512.
  change (2 ^ 8) with 256. change (2 ^ 7) with 128. change (2 ^ 4) with 16. change (2 ^ 0) with 1.
  f_equal; try (rewrite <- nz_b2z; f_equal); dlia.
Qed.

Lemma codes_hdr (Hoom : no_oom) G start hdr : hdr_valid hdr ->
  Codes G start (on_mb (dns_hdr_encode hdr)) 12 12 dns_hdr_decode (fun r => r = (0, Some hdr)).
Proof.
  intros Hv. destruct (hdr_flags_fields hdr Hv) as [Hf E]. destruct Hv as [? _ _ _ ? ? ? ?].
  apply (codes_fixed Hoom _ _ _ (be_bytes 2 (hdr_id hdr) ++ be_bytes 2 (hdr_flags hdr) ++ be_bytes 2 (hdr_nq hdr) ++
    be_bytes 2 (hdr_nans hdr) ++ be_bytes 2 (hdr_nauth hdr) ++ be_bytes 2 (hdr_nadd hdr)) _ (0, Some hdr));
    [unfold dns_hdr_encode; apply _| |done].
  apply reads_need; [rewrite !length_app, !length_be_bytes; unfold DNS_HEADER_SIZE; lia|].
  do 5 (apply reads_ntohs; [done|]). apply reads_nil_app, reads_ntohs; [done|]. rewrite E. apply reads_ret.
Qed.

(** ** Sections *)

Section sections.
Context (Hoom : no_oom).

Lemma codes_nil {A} G start a (R : A -> Prop) : R a -> Codes G start (ret 0) 0 0 (ret a) R.
Proof.
  intros Ha st data Hok _. exists st, [], a. rewrite app_nil_r. split_and!; try done.
  intros msg mb _ Hh. unfold ret. do 3 f_equal. rewrite <- (set_pos_id mb) at 1. by rewrite (h_pos _ _ _ Hh).
Qed.

(** Records that arrived as they were sent. *)
Definition same_rrs : list dnsrr -> list dnsrr -> Prop :=
  Forall2 (fun rr rr' => dns_rr_cmp rr rr' true = true /\ rr_ttl rr' = rr_ttl rr).

Lemma codes_rrs fuel rrs rrl ttl : Forall rr_valid rrs ->
  Codes everywhere 0 (encode_rrs (S fuel) rrs) 0 (zlength rrs * MAX_RR) (rr_loop (length rrs) rrl ttl)
    (fun r => exists rrs', r = (0, (rrl ++ rrs', min_ttl ttl rrs)) /\ same_rrs rrs rrs').
Proof.
  intros Hv. revert rrl ttl. induction Hv as [|rr rrs Hv _ IH]; intros rrl ttl; cbn [encode_rrs rr_loop length].
  - apply codes_nil. exists []. rewrite app_nil_r. by split; [|constructor].
  - replace (Z.of_nat (S (length rrs)) * MAX_RR) with (MAX_RR + zlength rrs * MAX_RR) by lia. unfold MAX_RR in *.
    eapply (codes_bind _ _ _ 0); [done|lia|by apply codes_rr|]. intros ? (rr' & -> & Hs). cbn [nz Z.eqb negb].
    eapply codes_weaken; [| | |apply (IH (rrl ++ [rr']))]; [done|lia|].
    destruct Hs as [Hc Et], Hv as [_ _ Ht _]. unfold in32 in Ht. rewrite Z.sub_0_r, Z.max_r in Et by lia.
    intros ? (rrs' & -> & Hss). exists (rr' :: rrs'). rewrite <- app_assoc. split; [|by constructor].
    unfold min_ttl. cbn [fmap list_fmap foldl]. by rewrite if_min, Et.
Qed.

Lemma codes_sections fuel secs old ttl : Forall (fun rrs => Forall rr_valid rrs /\ zlength rrs <= RR_MAX) secs ->
  length old = length secs ->
  Codes everywhere 0 (encode_sections (S fuel) secs) 0 (zlength secs * (RR_MAX * MAX_RR))
    (reply_sections (zip (Z.of_nat ∘ length <$> secs) old) ttl)
    (fun r => exists secs', r = (0, (zip_with app old secs', foldl min_ttl ttl secs)) /\ Forall2 same_rrs secs secs').
Proof.
  intros Hv. revert old ttl. induction Hv as [|rrs secs [Hv Hl] _ IH]; intros [|rrl old] ttl Ho; try done;
    cbn [encode_sections fmap list_fmap zip_with reply_sections length].
  - apply codes_nil. exists []. by split; [|constructor].
  - change ((Z.of_nat ∘ length) rrs) with (zlength rrs). rewrite (proj2 (Z.ltb_ge _ _)), Nat2Z.id by done. unfold RR_MAX, MAX_RR in *.
    replace (Z.of_nat (S (length secs)) * (32 * 1400)) with (32 * 1400 + zlength secs * (32 * 1400)) by lia.
    eapply (codes_bind _ _ _ 0); [done|lia| |].
    { eapply codes_weaken; [| |intros a Ha; exact Ha|by apply (codes_rrs fuel rrs rrl)]; [done|unfold MAX_RR; lia]. }
    intros ? (rrs' & -> & Hs). cbn [nz Z.eqb negb]. eapply codes_last; [apply (IH old); cbn in Ho; lia|].
    intros ? (secs' & -> & Hss). eexists. split; [done|]. exists (rrs' :: secs'). by split; [|constructor].
Qed.

End sections.
End reply.
