(* ===== verification/DnsProps.v ===== *)
(** * Properties of the DNS modules

    Safety of the decoders on arbitrary input, the match of replies with
    queries, the round trip of a whole reply, and the loop of the TXT encoder
    that does not end. *)

From S2P Require Import Prelude Mem Mbuf MbufSpec MbufData MbufParse Hash HashThms Dns DnsRr DnsDecode DnsRrDecode.
From S2P Require Import DnsName DnsEncode DnsCodec DnsRound DnsMsg DnsReply.

Section safety.
Context `{Host}.

Lemma decodes_rr_loop l rrl ttl : Decodes 0 (rr_loop l rrl ttl)
  (fun '(rrl', ttl') => exists rrs, rrl' = rrl ++ rrs /\ length rrs = l /\ Forall rr_ok rrs /\ ttl' <= ttl).
Proof.
  revert rrl ttl. induction l as [|l IH]; intros rrl ttl; cbn [rr_loop].
  - apply decodes_ret. intros _. exists []. rewrite app_nil_r. by split_and!.
  - apply (decodes_then _ _ (fun _ => (rrl, ttl)) (fun rr => match rr with Some rr => _ | None => _ end) _ _
      (decodes_rr 0 ltac:(lia))). intros ? (rr & -> & Hrr).
    intros mb Hwf Hl. destruct (IH (rrl ++ [rr]) (if rr_ttl rr <? ttl then rr_ttl rr else ttl) mb Hwf Hl)
      as (e & [rrl' ttl'] & mb' & E & Hr & Hok). exists e, (rrl', ttl'), mb'. split_and!; [done..|].
    intros He. destruct (Hok He) as [(rrs & -> & Hlen & Hall & Ht) Hp]. split; [|done].
    exists (rr :: rrs). rewrite <- app_assoc. split_and!; [done|simpl; lia|by constructor|].
    revert Ht. destruct (Z.ltb_spec (rr_ttl rr) ttl); lia.
Qed.

(** What the sections of an accepted reply are. *)
Definition sections_ok (n : nat) (ttl : Z) (r : list (list dnsrr) * Z) : Prop :=
  length r.1 = n /\ Forall (fun rrs => Forall rr_ok rrs /\ zlength rrs <= RR_MAX) r.1 /\ r.2 <= ttl.

(** The records of a reply after those that were there. *)
Lemma decodes_sections nv ttl : Forall (fun x => w16 x.1) nv -> Decodes 0 (reply_sections nv ttl)
  (fun '(rrlv, t) => exists new, rrlv = zip_with app nv.*2 new /\ sections_ok (length nv) ttl (new, t)).
Proof.
  intros Hnv. revert ttl. induction Hnv as [|[l rrl0] nv Hl _ IH]; intros ttl; cbn [reply_sections].
  - apply decodes_ret. intros _. exists []. by split_and!.
  - set (n := Z.to_nat _). assert (Z.of_nat n <= RR_MAX) as Hn.
    { subst n. unfold RR_MAX, w16 in *. cbn in Hl. destruct (Z.ltb_spec 32 l); lia. }
    clearbody n. intros mb Hwf H0. destruct (decodes_rr_loop n rrl0 ttl mb Hwf H0) as (e & [rrl t1] & mb1 & E1 & Hr1 & Hok1).
    rewrite (bind_Some _ _ _ _ _ E1). unfold nz. destruct (Z.eqb_spec e 0) as [He|Hne]; simpl;
      [|eexists _, _, mb1; by split_and!].
    destruct (Hok1 He) as [(rrs & -> & Hlen & Hall & Ht) Hp1]. pose proof (reset_wf _ _ Hwf Hr1) as Hwf1.
    destruct (IH t1 mb1 Hwf1) as (e2 & [rrlv t2] & mb2 & E2 & Hr2 & Hok2); [by apply left_bound|].
    rewrite (bind_Some _ _ _ _ _ E2). eexists _, _, mb2. split_and!; [done|by eapply reset_trans|].
    intros He2. destruct (Hok2 He2) as [(new & -> & Hl2 & Ha2 & Ht2) Hp2]. rewrite (rs_end _ _ Hr1) in Hp2. simpl in *.
    split; [|lia]. exists (rrs :: new). split; [done|]. split_and!; simpl; [lia| |lia]. constructor; [split; [done|lia]|done].
Qed.

Lemma query_cmp_true dq q : dq_cache dq = false -> query_cmp_handler dq q = true ->
  q_id q = hdr_id (dq_hdr dq) /\ q_opcode q = hdr_opcode (dq_hdr dq) /\ q_type q = dq_type dq /\
  q_dnsclass q = dq_dnsclass dq /\ str_caseeq (q_name q) (dq_name dq) = true.
Proof.
  intros Hc. unfold query_cmp_handler. rewrite Hc. simpl.
  repeat (match goal with |- context [?a =? ?b] => destruct (Z.eqb_spec a b) end; [|done]; simpl).
  by destruct (str_caseeq _ _).
Qed.

Lemma decodes_hdr : Decodes 0 dns_hdr_decode (fun r => exists hdr, r = Some hdr /\ Forall w16 [hdr_nans hdr; hdr_nauth hdr; hdr_nadd hdr]).
Proof.
  apply decodes_need; [done|]. unfold DNS_HEADER_SIZE. do 6 (apply decodes_ntohs; [lia|]; intros ? ?).
  apply decodes_ret. intros _. eexists. split; [done|]. do 3 (constructor; [done|]). constructor.
Qed.

(** What an accepted reply has in common with the query [q]. *)
Definition answers (mb : mbuf) (q : query) (hdr : dnshdr) : Prop :=
  exists name mb1 mb2 mb3 mb4, dns_hdr_decode mb = Some ((0, Some hdr), mb1) /\ hdr_qr hdr = true /\
    q_id q = hdr_id hdr /\ q_opcode q = hdr_opcode hdr /\
    dns_dname_decode 0 mb1 = Some ((0, name), mb2) /\ str_caseeq (q_name q) name = true /\
    mbuf_read_ntohs mb2 = Some (q_type q, mb3) /\ mbuf_read_ntohs mb3 = Some (q_dnsclass q, mb4).

Definition reply_post (log : list (Z * query)) (ttl : Z) (mb : mbuf) (e : Z) (r : option reply) : Prop :=
  e = 0 -> exists q hdr new t, let q' := set_rrlv (zip_with app (q_rrlv q) new) q in
    r = Some (Reply q' hdr t (reply_next ttl q' hdr t)) /\ q ∈ snd <$> log /\ answers mb q hdr /\
    ~ (hdr_rcode hdr = DNS_RCODE_SRV_FAIL /\ q_ntx q < q_srvc q) /\ sections_ok 3 ttl (new, t).

(** After the question. *)
Lemma reply_question_safe h log ttl mb0 mb1 mb2 hdr name : tab_log h log -> mbuf_wf mb2 ->
  dns_hdr_decode mb0 = Some ((0, Some hdr), mb1) -> hdr_qr hdr = true ->
  Forall w16 [hdr_nans hdr; hdr_nauth hdr; hdr_nadd hdr] ->
  dns_dname_decode 0 mb1 = Some ((0, name), mb2) ->
  exists e r mb', (need 4 (ret (EBADMSG, None))
    (let* type := mbuf_read_ntohs in
     let* dnsclass := mbuf_read_ntohs in
     let* q := lift (hash_lookup (Some h) (hash_joaat_str_ci name)
                       (query_cmp_handler (Dnsquery hdr name type dnsclass false))) in
     match q with
     | None => ret (ENOENT, None)
     | Some q =>
         if (hdr_rcode hdr =? DNS_RCODE_SRV_FAIL) && (q_ntx q <? q_srvc q) then ret (EPROTO, None)
         else or_fail (reply_sections (zip [hdr_nans hdr; hdr_nauth hdr; hdr_nadd hdr] (q_rrlv q)) ttl)
                (fun '(rrlv, t) => let q := set_rrlv rrlv q in ret (0, Some (Reply q hdr t (reply_next ttl q hdr t))))
     end)) mb2 = Some ((e, r), mb') /\ reset mb2 mb' /\ reply_post log ttl mb0 e r.
Proof.
  intros Ht Hwf Eh Hqr Hn Ed. unfold need, get, bind at 1. pose proof (reset_refl mb2 Hwf) as Hrefl.
  destruct (Z.ltb_spec (mbuf_get_left mb2) 4); [eexists _, _, mb2; by split_and!|].
  destruct (safe_read_ntohs mb2 Hwf) as (type & mb3 & E3 & A3). pose proof (advanced_wf _ _ Hwf A3) as Hwf3.
  destruct (safe_read_ntohs mb3 Hwf3) as (class & mb4 & E4 & A4). pose proof (advanced_wf _ _ Hwf3 A4) as Hwf4.
  rewrite (bind_Some _ _ _ _ _ E3), (bind_Some _ _ _ _ _ E4).
  assert (reset mb2 mb4) as Hr4.
  { destruct A3, A4. pose proof (wf_pos _ Hwf4). split; congruence || done. }
  destruct (hash_lookup_elem h log (hash_joaat_str_ci name) (query_cmp_handler (Dnsquery hdr name type class false)) Ht
    (joaat_nonneg _)) as (q & Eq & Hq). unfold lift, bind at 1. rewrite Eq. destruct q as [q|];
    [|eexists _, _, mb4; by split_and!].
  destruct (Hq q eq_refl) as [Hin (E1 & E2 & E5 & E6 & E7)%query_cmp_true]; [|done]. simpl in *. subst type class.
  destruct ((hdr_rcode hdr =? DNS_RCODE_SRV_FAIL) && (q_ntx q <? q_srvc q)) eqn:Ef;
    [eexists _, _, mb4; by split_and!|].
  assert (Forall (fun x => w16 x.1) (zip [hdr_nans hdr; hdr_nauth hdr; hdr_nadd hdr] (q_rrlv q))) as Hz.
  { cbn. repeat match goal with H : Forall _ (_ :: _) |- _ => inversion_clear H end.
    repeat (constructor; [done|]). constructor. }
  destruct (decodes_sections _ ttl Hz mb4 Hwf4) as (e & [rrlv t] & mb5 & E & Hr & Hok); [by apply left_bound|].
  unfold or_fail. rewrite (bind_Some _ _ _ _ _ E). unfold nz. destruct (Z.eqb_spec e 0) as [He|]; simpl;
    [|eexists _, _, mb5; split_and!; [done|by eapply reset_trans|by intros ?]].
  destruct (Hok He) as [(new & -> & Hs) _]. eexists 0, _, mb5. split_and!; [done|by eapply reset_trans|]. intros _.
  exists q, hdr, new, t. split_and!; try done; [by exists name, mb1, mb2, mb3, mb4|lia].
Qed.

End safety.

(** C9: a reply is accepted only for an outstanding query.  On any datagram
    [reply_recv] is memory safe and changes nothing but the position; it gets
    to the handler only with a query of the table whose identifier, opcode,
    name (up to case), type and class are those of the reply, the reply being
    marked as one and not asking for the next server; it adds at most [RR_MAX]
    well-formed records to each of the three lists of the query, after those
    of earlier replies, and [reply_next] says whether the query waits for more
    (a zone transfer without its second SOA), is freed or is cached. *)
Theorem reply_recv_matches `{Host} h (log : list (Z * query)) ttl mb : tab_log h log -> mbuf_wf mb ->
  exists e r mb', reply_recv (Some h) ttl mb = Some ((e, r), mb') /\ reset mb mb' /\
    (e = 0 -> exists q hdr new t, let q' := set_rrlv (zip_with app (q_rrlv q) new) q in
      r = Some (Reply q' hdr t (reply_next ttl q' hdr t)) /\ q ∈ snd <$> log /\ answers mb q hdr /\
      ~ (hdr_rcode hdr = DNS_RCODE_SRV_FAIL /\ q_ntx q < q_srvc q) /\ sections_ok 3 ttl (new, t)).
Proof.
  intros Ht Hwf. unfold reply_recv.
  destruct (decodes_hdr mb Hwf) as (e & r & mb1 & E1 & Hr1 & Hok1); [by apply left_bound|].
  rewrite (bind_Some _ _ _ _ _ E1). destruct r as [hdr|]; [|eexists _, _, mb1; by split_and!].
  destruct (hdr_qr hdr) eqn:Eqr; simpl; [|eexists _, _, mb1; by split_and!].
  assert (e = 0) as ->.
  { unfold dns_hdr_decode, need, get, bind at 1 in E1. destruct (mbuf_get_left mb <? DNS_HEADER_SIZE); [by inv_ret|].
    repeat (apply bind_inv in E1 as (? & ? & _ & E1)). by inv_ret. }
  destruct (Hok1 eq_refl) as [(? & [= <-] & Hn) _]. pose proof (reset_wf _ _ Hwf Hr1) as Hwf1.
  destruct (decodes_dname 0 ltac:(lia) mb1 Hwf1) as (e & name & mb2 & E2 & Hr2 & _); [by apply left_bound|].
  unfold or_fail at 1. rewrite (bind_Some _ _ _ _ _ E2). unfold nz. destruct (Z.eqb_spec e 0) as [->|]; simpl;
    [|eexists _, _, mb2; split_and!; [done|by eapply reset_trans|done]].
  destruct (reply_question_safe h log ttl mb mb1 mb2 hdr name Ht (reset_wf _ _ Hwf1 Hr2) E1 Eqr Hn E2)
    as (e & r & mb' & E & Hr & Hp).
  exists e, r, mb'. split_and!; [done| |exact Hp]. by do 2 (eapply reset_trans; [done|]).
Qed.

(** ** Round trip of a reply *)

(** A server: the header, the question and the sections. *)
Definition encode_reply `{Host} (fuel : nat) (hdr : dnshdr) (qname : str) (qtype qclass : Z)
    (secs : list (list dnsrr)) : M denc Z :=
  on_mb (dns_hdr_encode hdr) |;
  dns_dname_encode qname 0 true |;
  on_mb (mbuf_write_u16 (htons qtype)) |;
  on_mb (mbuf_write_u16 (htons qclass)) |;
  encode_sections fuel secs.

Section reply_round.
Context `{Host} (Hoom : no_oom).

Lemma codes_ext {A} G start enc lo hi (d d' : M mbuf A) R : (forall mb, d mb = d' mb) ->
  Codes G start enc lo hi d' R -> Codes G start enc lo hi d R.
Proof.
  intros E Hc st data Hok Hm. destruct (Hc st data Hok Hm) as (st' & bs & a & ? & ? & ? & ? & Hd).
  exists st', bs, a. split_and!; try done; try lia. intros. rewrite E. eauto.
Qed.

Lemma low_chars a b : low a = low b -> chars_ok a -> chars_ok b.
Proof.
  revert b. induction a as [|c a IH]; intros [|c' b] E Ha; [done..|constructor|]; unfold low in *; simplify_eq/=.
  apply Forall_cons_iff in Ha as [Hc Ha]. constructor; [|by apply IH].
  revert Hc. unfold char_ok. match goal with E : tolower _ = tolower _ |- _ => revert E end. unfold tolower.
  repeat case_match; lia.
Qed.

Lemma list_first_ext {A} (f g : A -> bool) l : (forall x, f x = g x) -> list_first f l = list_first g l.
Proof. intros E. induction l as [|x l IH]; simpl; [done|]. by rewrite E, IH. Qed.

(** The question is found in the table whatever the case of its letters. *)
Lemma query_lookup_case tq hdr name name' type class : chars_ok name -> str_caseeq name name' = true ->
  hash_lookup tq (hash_joaat_str_ci name') (query_cmp_handler (Dnsquery hdr name' type class false)) =
  hash_lookup tq (hash_joaat_str_ci name) (query_cmp_handler (Dnsquery hdr name type class false)).
Proof.
  intros Hc E. assert (low name = low name') as El by (by apply bool_decide_eq_true_1 in E).
  pose proof (low_chars _ _ El Hc) as Hc'. rewrite (hash_caseeq name name') by done.
  destruct tq as [h|]; [|done]. unfold hash_lookup. destruct (h_bucket h !! _); [|done]. f_equal.
  apply list_first_ext. intros q. unfold query_cmp_handler. simpl.
  assert (str_caseeq (q_name q) name' = str_caseeq (q_name q) name) as ->; [|done].
  unfold str_caseeq. change (tolower <$> name' ) with (low name'). by rewrite <- El.
Qed.

Lemma codes_reply fuel hdr qname qtype qclass secs tq q ttl : hdr_valid hdr -> hdr_qr hdr = true ->
  hdr_rcode hdr <> DNS_RCODE_SRV_FAIL -> dom (Some qname) -> in16 qtype -> in16 qclass ->
  [hdr_nans hdr; hdr_nauth hdr; hdr_nadd hdr] = (Z.of_nat ∘ length <$> secs) ->
  Forall (fun rrs => Forall rr_valid rrs /\ zlength rrs <= RR_MAX) secs ->
  hash_lookup tq (hash_joaat_str_ci qname) (query_cmp_handler (Dnsquery hdr qname qtype qclass false)) = Some (Some q) ->
  Codes everywhere 0 (encode_reply (S fuel) hdr (Some qname) qtype qclass secs) 17
    (12 + (MAX_NAME + (2 + (2 + zlength secs * (RR_MAX * MAX_RR))))) (reply_recv tq ttl)
    (fun r => exists secs', let q' := set_rrlv (zip_with app (q_rrlv q) secs') q in let t := foldl min_ttl ttl secs in
       r = (0, Some (Reply q' hdr t (reply_next ttl q' hdr t))) /\ Forall2 same_rrs secs secs').
Proof.
  intros Hh Hqr Hrc Hd Ht Hcl Hn Hs Hl. unfold encode_reply, reply_recv. change 17 with (12 + (1 + (2 + (2 + 0)))).
  assert (0 <= zlength secs * (RR_MAX * MAX_RR)) by (unfold RR_MAX, MAX_RR; lia).
  eapply codes_bind; [lia|unfold MAX_NAME; lia|by apply codes_hdr|]. intros ? ->. rewrite Hqr. cbn [negb].
  eapply codes_or_fail; [lia|lia|by apply codes_dom|]. intros name' Hname. cbn beta in Hname.
  apply codes_need; [lia|]. eapply codes_bind; [lia|lia|by apply (codes_u16 Hoom _ _ _ (fun a => a = qtype))|]. intros ? ->.
  eapply codes_bind; [lia|lia|by apply (codes_u16 Hoom _ _ _ (fun a => a = qclass))|]. intros ? ->.
  apply (codes_ext _ _ _ _ _ _ (or_fail (reply_sections (zip [hdr_nans hdr; hdr_nauth hdr; hdr_nadd hdr] (q_rrlv q)) ttl)
    (fun '(rrlv, t) => let q := set_rrlv rrlv q in ret (0, Some (Reply q hdr t (reply_next ttl q hdr t)))))).
  { intros mb. unfold lift, bind at 1. destruct Hd as (ls & [= ->] & Hls & _).
    rewrite (query_lookup_case tq hdr (dotted ls false)) by (done || by apply dotted_chars).
    rewrite Hl. by rewrite (proj2 (Z.eqb_neq _ _)) by done. }
  assert (length (q_rrlv q) = length secs) as H3 by (pose proof (f_equal length Hn) as E; rewrite length_fmap in E; by rewrite <- E).
  rewrite Hn. eapply codes_or_fail_last.
  { eapply codes_weaken; [| | |by apply (codes_sections Hoom fuel secs (q_rrlv q))]; [lia|lia|].
    intros ? (secs' & -> & Hss). exists (zip_with app (q_rrlv q) secs', foldl min_ttl ttl secs). split; [done|].
    instantiate (1 := fun a => exists secs', Forall2 same_rrs secs secs' /\ a = (zip_with app (q_rrlv q) secs', foldl min_ttl ttl secs)).
    by exists secs'. }
  intros ? (secs' & Hss & ->). eexists. split; [intros mb; cbv zeta; reflexivity|]. by exists secs'.
Qed.

End reply_round.

(** C8: a reply survives the wire.  A server that encodes a header, a question
    and three sections of at most [RR_MAX] valid records each, compressing
    names through a table of any size or through none, produces a message from
    which [reply_recv] gets the same header and the query that was asked, and
    adds to each of its lists the same records: equal in the sense of
    [dns_rr_cmp] (names up to case) and with the same time to live, the least
    of which is the time the reply may be cached. *)
Theorem dns_reply_roundtrip `{Host} fuel hdr qname qtype qclass secs tq q ttl mb bsize t :
  no_oom -> t = None \/ (0 <= bsize < 2 ^ 32 /\ hash_alloc bsize = (0, t)) -> holds mb [] 0 ->
  hdr_valid hdr -> hdr_qr hdr = true -> hdr_rcode hdr <> DNS_RCODE_SRV_FAIL ->
  dom (Some qname) -> in16 qtype -> in16 qclass ->
  [hdr_nans hdr; hdr_nauth hdr; hdr_nadd hdr] = (Z.of_nat ∘ length <$> secs) ->
  Forall (fun rrs => Forall rr_valid rrs /\ zlength rrs <= RR_MAX) secs ->
  hash_lookup tq (hash_joaat_str_ci qname) (query_cmp_handler (Dnsquery hdr qname qtype qclass false)) = Some (Some q) ->
  exists mb' t' secs' mb2, encode_reply (S fuel) hdr (Some qname) qtype qclass secs (mb, t) = Some (0, (mb', t')) /\
    (let q' := set_rrlv (zip_with app (q_rrlv q) secs') q in let t := foldl min_ttl ttl secs in
     reply_recv tq ttl (set_pos 0 mb') = Some ((0, Some (Reply q' hdr t (reply_next ttl q' hdr t))), mb2)) /\
    Forall2 (Forall2 (fun rr rr' => dns_rr_cmp rr rr' true = true /\ rr_ttl rr' = rr_ttl rr)) secs secs'.
Proof.
  intros Hoom Ht Hmb Hh Hqr Hrc Hd Hty Hcl Hn Hs Hl.
  assert (zlength secs = 3) as H3 by (pose proof (f_equal length Hn) as E; rewrite length_fmap in E; by rewrite <- E).
  assert (msg_ok everywhere 0 (mb, t) []) as Hok.
  { split; [|done|simpl; lia]. exists []. split; [|done]. split; [done|]. simpl.
    destruct Ht as [-> |[Hb Ha]]; [done|]. by destruct (hash_alloc_log bsize t Hb Ha) as (h & -> & ?). }
  destruct (codes_reply Hoom fuel hdr qname qtype qclass secs tq q ttl Hh Hqr Hrc Hd Hty Hcl Hn Hs Hl (mb, t) [] Hok)
    as ([mb' t'] & bs & ? & E & [(log & [Hst _] & _) _ _] & _ & (secs' & -> & Hss) & Hdec).
  { rewrite H3. by vm_compute. }
  exists mb', t', secs', (set_pos (zlength ([] ++ bs)) (set_pos 0 mb')). split_and!; [done| |done].
  apply (Hdec bs); [apply extends_refl|]. by apply (holds_set_pos _ _ (zlength ([] ++ bs))); [|done].
Qed.

(** ** The TXT encoder does not end on long strings

    The loop of [dns_rr_encode] that cuts the text of a TXT record into
    character strings takes [(uint8_t)dlen] for the length of the next one,
    which is 0 as soon as the remaining length is a multiple of 256. *)

Section txt.
Context `{Host}.

Lemma bind_none {S A B} (m : M S A) (k : A -> M S B) s :
  (forall a s', m s = Some (a, s') -> k a s' = None) -> bind m k s = None.
Proof. intros Hk. unfold bind. destruct (m s) as [[a s']|]; [by apply Hk|done]. Qed.

(** [n] rounds of the loop, without its test. *)
Fixpoint txt_rounds (n : nat) (ptr : str) (dlen : Z) : M mbuf (str * Z) :=
  match n with
  | O => ret (ptr, dlen)
  | S n => let* '(_, ptr, dlen) := txt_round ptr dlen in txt_rounds n ptr dlen
  end.

(** A round takes the remainder modulo 256 off. *)
Lemma txt_round_dlen ptr dlen mb e ptr' dlen' mb' : 0 <= dlen < 2 ^ 64 ->
  txt_round ptr dlen mb = Some ((e, ptr', dlen'), mb') -> dlen' = dlen - dlen mod 256.
Proof.
  intros Hd E. unfold txt_round in E. apply bind_inv in E as (e1 & mb1 & _ & E). inv_ret.
  pose proof (wrap_range 8 dlen ltac:(lia)) as Hr. change (2 ^ 8) with 256 in Hr. unfold wrap in *. change (2 ^ 8) with 256 in *.
  rewrite Z.min_l by lia. rewrite Z.mod_small; [done|]. dlia.
Qed.

Lemma txt_loop_none fuel ptr dlen mb : 256 <= dlen < 2 ^ 64 -> txt_loop fuel ptr dlen mb = None.
Proof.
  revert ptr dlen mb. induction fuel as [|fuel IH]; intros ptr dlen mb Hd; [done|]. cbn [txt_loop].
  unfold bind at 1. destruct (txt_round ptr dlen mb) as [[[[e ptr'] dlen'] mb']|] eqn:E; [|done].
  apply txt_round_dlen in E; [|lia]. rewrite (proj2 (Z.ltb_lt _ _)) by dlia.
  unfold bind. rewrite IH; [done|dlia].
Qed.

Lemma txt_round_safe s dlen mb : bytes_ok s -> 0 <= dlen < 2 ^ 64 -> mbuf_wf mb ->
  mb_pos mb + 1 + dlen mod 256 < WRITE_MAX ->
  exists e s' mb', txt_round (Some s) dlen mb = Some ((e, Some s', dlen - dlen mod 256), mb') /\ bytes_ok s' /\
    mbuf_wf mb' /\ mb_pos mb' <= mb_pos mb + 1 + dlen mod 256.
Proof.
  intros Hs Hd Hwf Hm. pose proof (Z.mod_pos_bound dlen 256 ltac:(lia)) as Hr. set (slen := dlen mod 256) in *.
  assert (Writes (mbuf_write_u8 slen |; write_str (Some s) slen) ([u8 slen] ++ take (Z.to_nat slen) s)) as Hw.
  { apply writes_or_err; [apply _|]. by apply writes_mem, Forall_take. }
  destruct (Hw mb Hwf) as (e & mb' & E & Hwf' & Hp & _); [rewrite length_app, length_take; simpl; lia|].
  assert (txt_round (Some s) dlen mb = Some ((e, Some (drop (Z.to_nat slen) s), dlen - slen), mb')) as Er.
  { unfold txt_round. change (u8 dlen) with slen. rewrite Z.min_l by lia. rewrite (bind_Some _ _ _ _ _ E).
    rewrite (wrap_small 64) by (subst slen; dlia). done. }
  exists e, (drop (Z.to_nat slen) s), mb'. split_and!; [done|by apply Forall_drop|done|].
  rewrite length_app, length_take in Hp. simpl in Hp. lia.
Qed.

Lemma txt_rounds_safe n s dlen mb : bytes_ok s -> 256 <= dlen < 2 ^ 64 -> mbuf_wf mb ->
  mb_pos mb + dlen mod 256 + Z.of_nat n < WRITE_MAX ->
  exists ptr dlen' mb', txt_rounds n (Some s) dlen mb = Some ((ptr, dlen'), mb') /\ mbuf_wf mb' /\ 256 <= dlen'.
Proof.
  revert s dlen mb. induction n as [|n IH]; intros s dlen mb Hs Hd Hwf Hm; cbn [txt_rounds].
  { exists (Some s), dlen, mb. split_and!; [done..|lia]. }
  destruct (txt_round_safe s dlen mb Hs) as (e & s' & mb1 & E & Hs' & Hwf1 & Hp1); [lia|done|lia|].
  rewrite (bind_Some _ _ _ _ _ E).
  assert ((dlen - dlen mod 256) mod 256 = 0) as E0.
  { rewrite Zminus_mod, Z.mod_mod by lia. by rewrite Z.sub_diag. }
  pose proof (Z.mod_pos_bound dlen 256 ltac:(lia)).
  destruct (IH s' (dlen - dlen mod 256) mb1) as (ptr & dlen' & mb' & E' & Hwf' & Hd'); [done|dlia|done|lia|].
  exists ptr, dlen', mb'. by split_and!.
Qed.

(** C31: the TXT loop ends exactly on strings of less than 256 characters.  On a
    shorter string one round ends it.  From 256 characters on no number of
    rounds does: each of them is carried out, writing one more character string
    (an empty one from the second round on), and leaves at least 256 characters
    to go, so [dns_rr_encode] never returns. *)
Theorem dns_txt_never_ends s : chars_ok s -> zlength s < 2 ^ 64 ->
  (zlength s < 256 -> forall fuel mb, mbuf_wf mb -> mb_pos mb + 256 < WRITE_MAX ->
     exists e mb', txt_loop (S fuel) (Some s) (str_len (Some s)) mb = Some (e, mb') /\ mbuf_wf mb') /\
  (256 <= zlength s ->
     (forall fuel mb, txt_loop fuel (Some s) (str_len (Some s)) mb = None) /\
     (forall n mb, mbuf_wf mb -> mb_pos mb + 256 + Z.of_nat n < WRITE_MAX ->
        exists ptr dlen mb', txt_rounds n (Some s) (str_len (Some s)) mb = Some ((ptr, dlen), mb') /\
          mbuf_wf mb' /\ 256 <= dlen) /\
     (forall fuel rr ttl_offs start st, rr_rdata rr = RTxt (Some s) ->
        dns_rr_encode fuel rr ttl_offs start st = None)).
Proof.
  intros Hs%chars_bytes Hl. unfold str_len. split.
  - intros H256 fuel mb Hwf Hm. destruct (txt_round_safe s (zlength s) mb Hs) as (e & s' & mb' & E & _ & Hwf' & _);
      [lia|done|rewrite Z.mod_small; lia|].
    exists e, mb'. split; [|done]. cbn [txt_loop]. rewrite (bind_Some _ _ _ _ _ E).
    rewrite Z.mod_small, Z.sub_diag by lia. done.
  - intros H256. split_and!.
    + intros. apply txt_loop_none. lia.
    + intros n mb Hwf Hm. apply txt_rounds_safe; [done|lia|done|].
      pose proof (Z.mod_pos_bound (zlength s) 256 ltac:(lia)). lia.
    + intros fuel rr ttl_offs start st Er. unfold dns_rr_encode. rewrite Er. case_match; [done|].
      apply bind_none. intros err [mb t] _. unfold get, bind at 1. apply bind_none. intros e st' E. exfalso.
      cbn [rdata_encode] in E. unfold on_mb, str_len in E. by rewrite txt_loop_none in E by lia.
Qed.

End txt.

(** ** Concrete DNS messages

    Instances of the theorems on DNS and inputs that show what the code does
    outside their hypotheses. *)

#[local] Existing Instance lp64_host.

Lemma lp64_no_oom : no_oom.
Proof. by intros n. Qed.

(** A received message. *)
Definition datagram (bs : list Z) : mbuf := Mbuf bs (zlength bs) 0 (zlength bs).

Lemma datagram_wf bs : bytes_ok bs -> zlength bs <= MEM_SIZE_MAX -> mbuf_wf (datagram bs).
Proof. intros Hb Hl. split; simpl; try done; lia. Qed.

(** "a.b" *)
Definition ex_name : list Z := [97; 46; 98].

Lemma ex_dom : dom (Some ex_name).
Proof.
  exists [[97]; [98]]. split; [done|]. split; [|simpl; lia].
  constructor; [|constructor; [|constructor]]; (split; [simpl; lia|repeat constructor; unfold char_ok; lia|]);
    intros [E|E%elem_of_nil]%elem_of_cons; done.
Qed.

Definition ex_query : query := Query 7 0 1 1 ex_name 1 1 [] [] [].
Definition ex_hdr : dnshdr := DnsHdr 7 true 0 false false true true 0 0 1 1 0 0.
Definition ex_rr : dnsrr := DnsRr (Some ex_name) 1 60 0 (RA 0x7f000001).
Definition ex_table : hash query := Hash [[ex_query]] 1.

Lemma ex_table_log : tab_log ex_table [(hash_joaat_str_ci ex_name, ex_query)].
Proof.
  split; [by exists 0|]. intros i Hi. simpl in Hi. assert (i = O) as -> by lia. by vm_compute.
Qed.

Lemma ex_rr_valid : rr_valid ex_rr.
Proof. split; [apply ex_dom|by unfold in16; simpl; lia..|by unfold in32; simpl; lia|unfold rdata_valid, in32; simpl; lia]. Qed.

(** The reply of the round trip below, as bytes. *)
Definition ex_reply : list Z :=
  [0; 7; 129; 128; 0; 1; 0; 1; 0; 0; 0; 0; 1; 97; 1; 98; 0; 0; 1; 0; 1;
   192; 12; 0; 1; 0; 1; 0; 0; 0; 60; 0; 4; 127; 0; 0; 1].

Lemma ex_reply_wf : mbuf_wf (datagram ex_reply).
Proof. by apply datagram_wf; [apply (bool_decide_unpack _); vm_compute|]. Qed.

Lemma dns_dname_decode_safe_witness : exists e name mb',
  dns_dname_decode 0 (datagram [0xc0; 0]) = Some ((e, name), mb') /\ mbuf_wf mb' /\ reset (datagram [0xc0; 0]) mb' /\
  (e = 0 -> chars_ok name /\ zlength name <= 255 /\
     mb_pos (datagram [0xc0; 0]) < mb_pos mb' <= mb_end (datagram [0xc0; 0])).
Proof.
  apply (dns_dname_decode_safe 0 (datagram [0xc0; 0])); [|lia].
  apply datagram_wf; [by apply (bool_decide_unpack _); vm_compute|done].
Defined.

Lemma dns_rr_decode_safe_witness : exists e rr mb',
  dns_rr_decode 0 (datagram ex_reply) = Some ((e, rr), mb') /\ mbuf_wf mb' /\ reset (datagram ex_reply) mb' /\
  (e = 0 -> exists r, rr = Some r /\ rr_ok r /\
     mb_pos (datagram ex_reply) <= mb_pos mb' <= Z.max (mb_pos (datagram ex_reply)) (mb_end (datagram ex_reply))).
Proof. exact (dns_rr_decode_safe 0 (datagram ex_reply) ex_reply_wf ltac:(lia)). Defined.

Lemma reply_recv_matches_witness : exists e r mb',
  reply_recv (Some ex_table) 1800 (datagram ex_reply) = Some ((e, r), mb') /\ reset (datagram ex_reply) mb' /\
  (e = 0 -> exists q hdr new t, let q' := set_rrlv (zip_with app (q_rrlv q) new) q in
     r = Some (Reply q' hdr t (reply_next 1800 q' hdr t)) /\ q ∈ snd <$> [(hash_joaat_str_ci ex_name, ex_query)] /\ answers (datagram ex_reply) q hdr /\
     ~ (hdr_rcode hdr = DNS_RCODE_SRV_FAIL /\ q_ntx q < q_srvc q) /\ sections_ok 3 1800 (new, t)).
Proof. exact (reply_recv_matches ex_table _ 1800 (datagram ex_reply) ex_table_log ex_reply_wf). Defined.

(** The reply is indeed accepted. *)
Lemma ex_reply_accepted : exists mb', reply_recv (Some ex_table) 1800 (datagram ex_reply) =
  Some ((0, Some (Reply (set_rrlv [[DnsRr (Some ex_name) 1 60 4 (RA 0x7f000001)]; []; []] ex_query) ex_hdr 60 (Cache 60000))), mb').
Proof. eexists. by vm_compute. Qed.

Lemma init_holds : holds mbuf_init [] 0.
Proof. split; [split; simpl; try done; constructor|done|done]. Qed.

Lemma dns_reply_roundtrip_witness : exists mb' t' secs' mb2,
  encode_reply 1 ex_hdr (Some ex_name) 1 1 [[ex_rr]; []; []] (mbuf_init, snd (hash_alloc 16)) = Some (0, (mb', t')) /\
  (let q' := set_rrlv (zip_with app (q_rrlv ex_query) secs') ex_query in let t := foldl min_ttl 1800 [[ex_rr]; []; []] in
   reply_recv (Some ex_table) 1800 (set_pos 0 mb') = Some ((0, Some (Reply q' ex_hdr t (reply_next 1800 q' ex_hdr t))), mb2)) /\
  Forall2 (Forall2 (fun rr rr' => dns_rr_cmp rr rr' true = true /\ rr_ttl rr' = rr_ttl rr)) [[ex_rr]; []; []] secs'.
Proof.
  apply (dns_reply_roundtrip 0 ex_hdr ex_name 1 1 [[ex_rr]; []; []] (Some ex_table) ex_query 1800 mbuf_init 16
    (snd (hash_alloc 16))).
  - exact lp64_no_oom.
  - right. split; [lia|reflexivity].
  - exact init_holds.
  - split; unfold in16; simpl; lia.
  - reflexivity.
  - discriminate.
  - exact ex_dom.
  - unfold in16. lia.
  - unfold in16. lia.
  - reflexivity.
  - repeat (constructor; [split; [|simpl; unfold RR_MAX; lia]|]); try constructor; [exact ex_rr_valid|constructor].
  - vm_compute. reflexivity.
Defined.

Lemma dns_txt_never_ends_witness : let s := replicate 256 65 in
  (forall fuel mb, txt_loop fuel (Some s) (str_len (Some s)) mb = None) /\
  exists ptr dlen mb', txt_rounds 1000 (Some s) (str_len (Some s)) mbuf_init = Some ((ptr, dlen), mb') /\
    mbuf_wf mb' /\ 256 <= dlen.
Proof.
  assert (chars_ok (replicate 256 65)) as Hc by (apply Forall_replicate; unfold char_ok; lia).
  destruct (dns_txt_never_ends (replicate 256 65) Hc ltac:(rewrite length_replicate; lia)) as [_ Hlong].
  destruct (Hlong ltac:(rewrite length_replicate; lia)) as (Hnone & Hrun & _). split; [exact Hnone|].
  apply Hrun; [apply (h_wf _ _ _ init_holds)|by unfold WRITE_MAX; vm_compute].
Defined.

(** ** Outside the hypotheses *)

(** The length of a label is not checked: 192 characters are written under a
    length octet that is the first octet of a compression pointer, and the name
    does not decode. *)
Lemma long_label_is_pointer : exists mb' t', let name := replicate 192 97 in
  dns_dname_encode (Some name) 0 false (mbuf_init, None) = Some (0, (mb', t')) /\
  mb_buf mb' !! O = Some 0xc0 /\ exists mb2, dns_dname_decode 0 (set_pos 0 mb') = Some ((EINVAL, []), mb2).
Proof. do 2 eexists. cbv zeta. split; [vm_compute; reflexivity|]. split; [done|]. eexists. by vm_compute. Qed.

(** [dns_cstr_encode] keeps the length modulo 256 only. *)
Lemma cstr_length_wraps : exists mb', dns_cstr_encode (Some (replicate 256 97)) mbuf_init = Some (0, mb') /\
  dns_cstr_decode (set_pos 0 mb') = Some ((0, []), mb').
Proof.
  eexists. split; [vm_compute; reflexivity|]. by vm_compute.
Qed.

(** The length of the data is not compared with what the names in it take: an
    NS record of data length 0 is decoded from the bytes that follow it. *)
Lemma rdlen_ignored : exists mb', dns_rr_decode 0 (datagram [0; 0; 2; 0; 1; 0; 0; 0; 1; 0; 0; 1; 97; 0]) =
  Some ((0, Some (DnsRr (Some []) 1 1 0 (RNs (Some [97])))), mb').
Proof. eexists. by vm_compute. Qed.

(** A header with more than [RR_MAX] answers: the answers from the 33rd on are
    taken for the authority section. *)
Lemma sections_misplaced fuel a b ttl : Forall rr_valid (a ++ b) -> zlength a = RR_MAX -> zlength b <= RR_MAX ->
  Codes everywhere 0 (encode_rrs (S fuel) a |; encode_rrs (S fuel) b) 0 (2 * RR_MAX * MAX_RR)
    (reply_sections [(zlength (a ++ b), []); (zlength b, [])] ttl)
    (fun r => exists a' b' t, r = (0, ([a'; b'], t)) /\ same_rrs a a' /\ same_rrs b b').
Proof.
  intros [Ha Hb]%Forall_app Hla Hlb. cbn [reply_sections]. unfold RR_MAX in *.
  assert (Z.to_nat (if 32 <? zlength (a ++ b) then 32 else zlength (a ++ b)) = length a) as ->.
  { rewrite length_app. destruct (Z.ltb_spec 32 (Z.of_nat (length a + length b))); lia. }
  rewrite (proj2 (Z.ltb_ge _ _)), Nat2Z.id by lia.
  eapply (codes_weaken _ _ _ (0 + 0) (zlength a * MAX_RR + zlength b * MAX_RR));
    [done|unfold MAX_RR; lia|intros r Hr; exact Hr|].
  eapply codes_bind; [done|unfold MAX_RR; lia|by apply (codes_rrs lp64_no_oom)|].
  intros ? (a' & -> & Hsa). cbn [nz Z.eqb negb app].
  eapply codes_last; [eapply codes_last; [by apply (codes_rrs lp64_no_oom)|]|].
  - intros ? (b' & -> & Hsb). eexists. split; [done|]. instantiate (1 := fun r => exists b' t, r = (0, ([b'], t)) /\ same_rrs b b').
    by do 2 eexists.
  - intros ? (b' & t & -> & Hsb). eexists. split; [done|]. by exists a', b', t.
Qed.
