(* ===== verification/Base64.v ===== *)
(** * Base64 (base64/b64.c)

    The encoders for both alphabets, the printer and the decoder.  An input
    pointer is the memory from there on, read by index; the output is a block
    of memory, written by position, and a store outside it is undefined.  The
    texts themselves are described by functions on byte strings ([b64_text],
    [b64url_text], [b64_bytes]), which the code is shown to compute. *)

From Stdlib Require Import Ascii String.
From S2P Require Import Prelude.

(** ** The code *)

(** A string literal as bytes, with its terminator. *)
Definition c_literal (s : string) : list Z :=
  (Z.of_nat ∘ nat_of_ascii <$> list_ascii_of_string s) ++ [0].

Definition b64_table : list Z :=
  Eval cbv in c_literal "ABCDEFGHIJKLMNOPQRSTUVWXYZabcdefghijklmnopqrstuvwxyz0123456789+/".

Definition b64url_table : list Z :=
  Eval cbv in c_literal "ABCDEFGHIJKLMNOPQRSTUVWXYZabcdefghijklmnopqrstuvwxyz0123456789-_".

Definition PAD : Z := 61.

(** [*in] at index [i], and [*out++ = c] at position [o]. *)
Definition byte_at {S} (m : list Z) (i : Z) : M S Z := lift (m !! Z.to_nat i).
Definition put_char (o c : Z) : M (list Z) Z :=
  fun m => match mem_store m o [c] with Some m => Some (o + 1, m) | None => None end.

(** [if (in < in_end) v |= *in++ << k; else ++pad;] *)
Definition more (in_ : list Z) (in_end k : Z) (s : Z * Z * Z) : M (list Z) (Z * Z * Z) :=
  let '(v, pad, i) := s in
  if i <? in_end then let* b := byte_at in_ i in ret (Z.lor v (u32 (Z.shiftl b k)), pad, i + 1)
  else ret (v, pad + 1, i).

(** Up to three bytes of input as a 24-bit value, with the number missing. *)
Definition group_read (in_ : list Z) (in_end i : Z) : M (list Z) (Z * Z * Z) :=
  let* b := byte_at in_ i in
  let* s := more in_ in_end 8 (u32 (Z.shiftl b 16), 0, i + 1) in
  more in_ in_end 0 s.

(** [table[v >> k & 0x3f]] *)
Definition sextet {S} (table : list Z) (v k : Z) : M S Z :=
  byte_at table (Z.land (Z.shiftr v k) 63).

Fixpoint encode_loop (fuel : nat) (in_ : list Z) (in_end i o : Z) : M (list Z) Z :=
  if i <? in_end then
    match fuel with
    | O => ub
    | S fuel =>
        let* '(v, pad, i) := group_read in_ in_end i in
        let* c := sextet b64_table v 18 in let* o := put_char o c in
        let* c := sextet b64_table v 12 in let* o := put_char o c in
        let* c := if 2 <=? pad then ret PAD else sextet b64_table v 6 in let* o := put_char o c in
        let* c := if 1 <=? pad then ret PAD else sextet b64_table v 0 in let* o := put_char o c in
        encode_loop fuel in_ in_end i o
    end
  else ret o.

(** The result and the new [*olen]. *)
Definition base64_encode (in_ : list Z) (ilen olen : Z) : M (list Z) (Z * Z) :=
  if olen <? u64 (4 * (u64 (ilen + 2) / 3)) then ret (EOVERFLOW, olen)
  else let* o := encode_loop (Z.to_nat ilen) in_ ilen 0 0 in ret (0, o).

Fixpoint urlencode_loop (fuel : nat) (in_ : list Z) (in_end i o : Z) : M (list Z) Z :=
  if i <? in_end then
    match fuel with
    | O => ub
    | S fuel =>
        let* '(v, pad, i) := group_read in_ in_end i in
        let* c := sextet b64url_table v 18 in let* o := put_char o c in
        let* c := sextet b64url_table v 12 in let* o := put_char o c in
        let* o := if pad <? 2 then let* c := sextet b64url_table v 6 in put_char o c else ret o in
        let* o := if pad <? 1 then let* c := sextet b64url_table v 0 in put_char o c else ret o in
        urlencode_loop fuel in_ in_end i o
    end
  else ret o.

Definition base64url_encode (in_ : list Z) (ilen olen : Z) : M (list Z) (Z * Z) :=
  if olen <? u64 (4 * (u64 (ilen + 2) / 3)) then ret (EOVERFLOW, olen)
  else let* o := urlencode_loop (Z.to_nat ilen) in_ ilen 0 0 in ret (0, o).

(** [vph] is the handler of the stream [re_printf] writes to, over a state
    [S] of its own; [buf] is the array of 256 characters on the stack. *)
Fixpoint print_loop {S} (vph : list Z -> M S Z) (fuel : nat) (ptr : list Z) (len : Z)
    (buf : list Z) : M S Z :=
  if 0 <? len then
    match fuel with
    | O => ub
    | Datatypes.S fuel =>
        let l := Z.min len (3 * (256 / 4)) in
        let* '((err, sz), buf) := lift (base64_encode ptr l 256 buf) in
        if nz err then ret err else
        let* text := lift (mem_load buf 0 sz) in
        check (vph text) (print_loop vph fuel (drop (Z.to_nat l) ptr) (len - l) buf)
    end
  else ret 0.

Definition base64_print {S} (vph : list Z -> M S Z) (ptr : list Z) (len : Z) (buf : list Z) : M S Z :=
  print_loop vph (Z.to_nat len) ptr len buf.

Definition b64val (c : Z) : Z :=
  if (65 <=? c) && (c <=? 90) then c - 65 + 0
  else if (97 <=? c) && (c <=? 122) then c - 97 + 26
  else if (48 <=? c) && (c <=? 57) then c - 48 + 52
  else if (43 =? c) || (45 =? c) then 62
  else if (47 =? c) || (95 =? c) then 63
  else if PAD =? c then Z.shiftl 1 24
  else 0.

(** [if (in < in_end) v |= b64val( *in++ ) << k; else v |= (1<<24) << k;] *)
Definition more_char (in_ : list Z) (in_end k : Z) (s : Z * Z) : M (list Z) (Z * Z) :=
  let '(v, i) := s in
  if i <? in_end then
    let* c := byte_at in_ i in ret (Z.lor v (u32 (Z.shiftl (b64val c) k)), i + 1)
  else ret (Z.lor v (u32 (Z.shiftl (Z.shiftl 1 24) k)), i).

Fixpoint decode_loop (fuel : nat) (in_ : list Z) (in_end i o : Z) : M (list Z) Z :=
  if i + 1 <? in_end then
    match fuel with
    | O => ub
    | S fuel =>
        let* c := byte_at in_ i in
        let v := u32 (Z.shiftl (b64val c) 18) in
        let* c := byte_at in_ (i + 1) in
        let v := Z.lor v (u32 (Z.shiftl (b64val c) 12)) in
        let* s := more_char in_ in_end 6 (v, i + 2) in
        let* '(v, i) := more_char in_ in_end 0 s in
        let* o := put_char o (u8 (Z.shiftr v 16)) in
        let* o := if nz (Z.land v (Z.shiftl 1 30)) then ret o
                  else put_char o (Z.land (Z.shiftr v 8) 255) in
        let* o := if nz (Z.land v (Z.shiftl 1 24)) then ret o
                  else put_char o (Z.land (Z.shiftr v 0) 255) in
        decode_loop fuel in_ in_end i o
    end
  else ret o.

Definition base64_decode (in_ : list Z) (ilen olen : Z) : M (list Z) (Z * Z) :=
  if olen <? u64 (3 * (ilen / 4)) then ret (EOVERFLOW, olen)
  else let* o := decode_loop (Z.to_nat ilen) in_ ilen 0 0 in ret (0, o).

(** ** The texts *)

Definition sx (table : list Z) (k : Z) : Z := nth (Z.to_nat k) table 0.

(** RFC 4648, sections 4 and 5: three bytes are four characters; what is
    missing of the last group is padded, or left out in the URL alphabet. *)
Fixpoint b64_text (bs : list Z) : list Z :=
  match bs with
  | [] => []
  | [a] => [sx b64_table (a / 4); sx b64_table (a mod 4 * 16); PAD; PAD]
  | [a; b] => [sx b64_table (a / 4); sx b64_table (a mod 4 * 16 + b / 16);
               sx b64_table (b mod 16 * 4); PAD]
  | a :: b :: c :: bs =>
      sx b64_table (a / 4) :: sx b64_table (a mod 4 * 16 + b / 16)
      :: sx b64_table (b mod 16 * 4 + c / 64) :: sx b64_table (c mod 64) :: b64_text bs
  end.

Fixpoint b64url_text (bs : list Z) : list Z :=
  match bs with
  | [] => []
  | [a] => [sx b64url_table (a / 4); sx b64url_table (a mod 4 * 16)]
  | [a; b] => [sx b64url_table (a / 4); sx b64url_table (a mod 4 * 16 + b / 16);
               sx b64url_table (b mod 16 * 4)]
  | a :: b :: c :: bs =>
      sx b64url_table (a / 4) :: sx b64url_table (a mod 4 * 16 + b / 16)
      :: sx b64url_table (b mod 16 * 4 + c / 64) :: sx b64url_table (c mod 64) :: b64url_text bs
  end.

(** The bytes of a group of four characters: a padding character stands for
    no byte, and a character outside the alphabets counts as zero. *)
Definition sval (c : Z) : Z := if c =? PAD then 0 else b64val c.

Definition b64_group (a b c d : Z) : list Z :=
  (sval a * 4 + sval b / 16)
  :: (if c =? PAD then [] else [sval b mod 16 * 16 + sval c / 4])
  ++ (if d =? PAD then [] else [sval c mod 4 * 64 + sval d]).

Fixpoint b64_bytes (cs : list Z) : list Z :=
  match cs with
  | a :: b :: c :: d :: cs => b64_group a b c d ++ b64_bytes cs
  | [a; b; c] => b64_group a b c PAD
  | [a; b] => b64_group a b PAD PAD
  | _ => []
  end.

(** ** Writing a string to the output *)

Definition emit (o : Z) (t : list Z) : M (list Z) Z :=
  fun m => match mem_store m o t with Some m => Some (o + zlength t, m) | None => None end.

Lemma emit_nil o m : emit o [] m = Some (o, m).
Proof. unfold emit, mem_store. simpl. by rewrite splice_nil, Z.add_0_r. Qed.

Lemma put_emit o c t k m :
  0 <= o -> (forall m, k (o + 1) m = emit (o + 1) t m) -> bind (put_char o c) k m = emit o (c :: t) m.
Proof.
  intros Ho E. unfold bind, put_char, emit, mem_store.
  change (zlength [c]) with 1. replace (zlength (c :: t)) with (zlength t + 1) by (simpl; lia).
  destruct (decide (o < zlength m)).
  - rewrite (in_block_true m o 1), E by lia. unfold emit, mem_store.
    assert (zlength (splice m o [c]) = zlength m) as El by (rewrite length_splice; simpl; lia).
    destruct (decide (o + 1 + zlength t <= zlength m)) as [Hl|Hl].
    + rewrite !in_block_true by lia.
      pose proof (splice_splice m o [c] t Ho) as Es. change (zlength [c]) with 1 in Es.
      rewrite Es by lia. do 2 f_equal. lia.
    + rewrite (in_block_false m) by lia.
      destruct (decide (length t = 0%nat)); [lia|]. by rewrite in_block_false by lia.
  - by rewrite !in_block_false by lia.
Qed.

Lemma emit_fits o t m :
  0 <= o -> o + zlength t <= zlength m -> emit o t m = Some (o + zlength t, splice m o t).
Proof. intros. unfold emit, mem_store. by rewrite in_block_true by lia. Qed.

Lemma emit_overruns o t m :
  zlength m < o + zlength t -> t <> [] -> emit o t m = None.
Proof.
  intros. unfold emit, mem_store. assert (length t <> 0%nat) by by destruct t.
  by rewrite in_block_false by lia.
Qed.

(** ** Reading the input *)

(** The input still to be read from index [i] on. *)
Definition rest (in_ : list Z) (n i : Z) : list Z := drop (Z.to_nat i) (take (Z.to_nat n) in_).

Lemma rest_cons in_ n i c r :
  0 <= i -> rest in_ n i = c :: r ->
  in_ !! Z.to_nat i = Some c /\ (i <? n) = true /\ rest in_ n (i + 1) = r.
Proof.
  unfold rest. intros Hi E.
  assert (take (Z.to_nat n) in_ !! Z.to_nat i = Some c) as El
    by (rewrite <- (Nat.add_0_r (Z.to_nat i)), <- lookup_drop, E; done).
  pose proof (lookup_lt_Some _ _ _ El) as Hlt. rewrite length_take in Hlt.
  rewrite lookup_take_lt in El by lia. split; [done|]. split; [lia|].
  replace (Z.to_nat (i + 1)) with (Z.to_nat i + 1)%nat by lia. by rewrite <- drop_drop, E.
Qed.

Lemma rest_nil in_ n i :
  0 <= i -> n <= zlength in_ -> rest in_ n i = [] -> (i <? n) = false.
Proof.
  unfold rest. intros Hi Hn E. apply (f_equal length) in E.
  rewrite length_drop, length_take in E. simpl in E. lia.
Qed.

Lemma byte_at_bind {S A} m i b (k : Z -> M S A) s :
  m !! Z.to_nat i = Some b -> bind (byte_at m i) k s = k b s.
Proof. intros E. unfold bind, byte_at, lift. by rewrite E. Qed.

Lemma sextet_bind {S A} table v j x (k : Z -> M S A) s :
  length table = 65%nat -> Z.land (Z.shiftr v j) 63 = x ->
  bind (sextet table v j) k s = k (sx table x) s.
Proof.
  intros Hl <-. apply byte_at_bind. unfold sx.
  destruct (lookup_lt_is_Some_2 table (Z.to_nat (Z.land (Z.shiftr v j) 63))) as [y Ey].
  { rewrite land_63. dlia. }
  rewrite Ey. f_equal. symmetry. by apply nth_lookup_Some.
Qed.

Lemma more_some in_ n k v pad i b r m :
  0 <= i -> rest in_ n i = b :: r ->
  more in_ n k (v, pad, i) m = Some ((Z.lor v (u32 (Z.shiftl b k)), pad, i + 1), m).
Proof.
  intros Hi E. apply rest_cons in E as (E1 & E2 & E3); [|done]. unfold more. rewrite E2.
  by rewrite (byte_at_bind _ _ b).
Qed.

Lemma more_none in_ n k v pad i m :
  0 <= i -> n <= zlength in_ -> rest in_ n i = [] ->
  more in_ n k (v, pad, i) m = Some ((v, pad + 1, i), m).
Proof. intros Hi Hn E. unfold more. by rewrite (rest_nil in_ n i). Qed.

Lemma group_value a b c :
  byte_ok a -> byte_ok b -> byte_ok c ->
  Z.lor (Z.lor (u32 (Z.shiftl a 16)) (u32 (Z.shiftl b 8))) (u32 (Z.shiftl c 0))
  = a * 65536 + b * 256 + c.
Proof.
  unfold byte_ok. intros. rewrite !Z.shiftl_mul_pow2 by lia. rewrite !wrap_small by lia.
  replace (a * 2 ^ 16) with ((a * 2 ^ 8) * 2 ^ 8) by lia.
  replace (Z.lor (a * 2 ^ 8 * 2 ^ 8) (b * 2 ^ 8)) with ((a * 2 ^ 8 + b) * 2 ^ 8).
  - rewrite lor_add by lia. lia.
  - rewrite <- !Z.shiftl_mul_pow2, <- Z.shiftl_lor, lor_shiftl by lia.
    by rewrite (Z.shiftl_mul_pow2 a 8) by lia.
Qed.

Lemma group_read_spec in_ n i m :
  bytes_ok in_ -> 0 <= i -> n <= zlength in_ ->
  group_read in_ n i m =
  match rest in_ n i with
  | [] => group_read in_ n i m
  | [a] => Some ((a * 65536, 2, i + 1), m)
  | [a; b] => Some ((a * 65536 + b * 256, 1, i + 1 + 1), m)
  | a :: b :: c :: _ => Some ((a * 65536 + b * 256 + c, 0, i + 1 + 1 + 1), m)
  end.
Proof.
  intros Hok Hi Hn. assert (bytes_ok (rest in_ n i)) as Hr
    by (by apply Forall_drop, Forall_take).
  destruct (rest in_ n i) as [|a l] eqn:E; [done|]. apply Forall_cons_iff in Hr as [Ha Hr].
  pose proof (rest_cons _ _ _ _ _ Hi E) as (E1 & _ & E2).
  assert (u32 (Z.shiftl a 16) = a * 65536) as Ea.
  { unfold byte_ok in Ha. rewrite Z.shiftl_mul_pow2, wrap_small by lia. lia. }
  unfold group_read. rewrite (byte_at_bind _ _ a) by done.
  destruct l as [|b l].
  - unfold bind at 1. rewrite more_none by (try lia; done).
    rewrite more_none by (try lia; done). by rewrite Ea.
  - apply Forall_cons_iff in Hr as [Hb Hr].
    unfold bind at 1. rewrite (more_some _ _ _ _ _ _ b l) by (try lia; done).
    pose proof (rest_cons _ _ (i + 1) _ _ ltac:(lia) E2) as (_ & _ & E3). destruct l as [|c l].
    + rewrite more_none by (try lia; done).
      pose proof (group_value a b 0 Ha Hb ltac:(unfold byte_ok; lia)) as Ev.
      change (u32 (Z.shiftl 0 0)) with 0 in Ev. rewrite Z.lor_0_r, Z.add_0_r in Ev. by rewrite Ev.
    + apply Forall_cons_iff in Hr as [Hc Hr].
      rewrite (more_some _ _ _ _ _ _ c l) by (try lia; done). by rewrite group_value.
Qed.

Lemma put_sextet table v j x o t k m :
  0 <= o -> length table = 65%nat -> Z.land (Z.shiftr v j) 63 = x ->
  (forall m, k (o + 1) m = emit (o + 1) t m) ->
  (let* c := sextet table v j in bind (put_char o c) k) m = emit o (sx table x :: t) m.
Proof. intros Ho Hl Hx Hk. rewrite (sextet_bind _ _ _ x) by done. by apply put_emit. Qed.

Lemma encode_loop_spec in_ n :
  bytes_ok in_ -> n <= zlength in_ -> forall fuel i o m, 0 <= i -> 0 <= o ->
  (length (rest in_ n i) <= fuel)%nat ->
  encode_loop fuel in_ n i o m = emit o (b64_text (rest in_ n i)) m.
Proof.
  intros Hok Hn. induction fuel as [|fuel IH]; intros i o m Hi Ho Hf.
  { destruct (rest in_ n i) eqn:E; [|simpl in Hf; lia]. simpl.
    by rewrite (rest_nil in_ n i), emit_nil. }
  pose proof (group_read_spec in_ n i m Hok Hi Hn) as Hg.
  assert (bytes_ok (rest in_ n i)) as Hr by (by apply Forall_drop, Forall_take).
  cbn [encode_loop]. destruct (rest in_ n i) as [|a l] eqn:E.
  { by rewrite (rest_nil in_ n i), emit_nil. }
  pose proof (rest_cons _ _ _ _ _ Hi E) as (_ & E0 & E2). rewrite E0. bytes_inv Hr.
  destruct l as [|b [|c l]]; bytes_inv Hr; rewrite (bind_Some _ _ _ _ _ Hg);
    cbn [b64_text Z.leb Z.compare Pos.compare Pos.compare_cont];
    try pose proof (rest_cons _ _ (i + 1) _ _ ltac:(lia) E2) as (_ & _ & E3);
    try pose proof (rest_cons _ _ (i + 1 + 1) _ _ ltac:(lia) E3) as (_ & _ & E4);
    repeat first [ apply put_sextet; [lia|done|bits_lia|intros ?]
                 | rewrite (bind_Some (ret _) _ _ _ _ eq_refl); apply put_emit; [lia|intros ?] ].
  all: rewrite IH by (simpl in Hf; rewrite ?E2, ?E3, ?E4; simpl; lia); by rewrite ?E2, ?E3, ?E4.
Qed.

Lemma urlencode_loop_spec in_ n :
  bytes_ok in_ -> n <= zlength in_ -> forall fuel i o m, 0 <= i -> 0 <= o ->
  (length (rest in_ n i) <= fuel)%nat ->
  urlencode_loop fuel in_ n i o m = emit o (b64url_text (rest in_ n i)) m.
Proof.
  intros Hok Hn. induction fuel as [|fuel IH]; intros i o m Hi Ho Hf.
  { destruct (rest in_ n i) eqn:E; [|simpl in Hf; lia]. simpl.
    by rewrite (rest_nil in_ n i), emit_nil. }
  pose proof (group_read_spec in_ n i m Hok Hi Hn) as Hg.
  assert (bytes_ok (rest in_ n i)) as Hr by (by apply Forall_drop, Forall_take).
  cbn [urlencode_loop]. destruct (rest in_ n i) as [|a l] eqn:E.
  { by rewrite (rest_nil in_ n i), emit_nil. }
  pose proof (rest_cons _ _ _ _ _ Hi E) as (_ & E0 & E2). rewrite E0. bytes_inv Hr.
  destruct l as [|b [|c l]]; bytes_inv Hr; rewrite (bind_Some _ _ _ _ _ Hg);
    cbn [b64url_text Z.ltb Z.compare Pos.compare Pos.compare_cont];
    try pose proof (rest_cons _ _ (i + 1) _ _ ltac:(lia) E2) as (_ & _ & E3);
    try pose proof (rest_cons _ _ (i + 1 + 1) _ _ ltac:(lia) E3) as (_ & _ & E4);
    repeat first [ apply put_sextet; [lia|done|bits_lia|intros ?]
                 | rewrite bind_assoc; apply put_sextet; [lia|done|bits_lia|intros ?]
                 | rewrite (bind_Some (ret _) _ _ _ _ eq_refl) ].
  all: rewrite IH by (simpl in Hf; rewrite ?E2, ?E3, ?E4; simpl; lia); by rewrite ?E2, ?E3, ?E4.
Qed.

Lemma b64val_range c : 0 <= b64val c < 64 \/ c = PAD /\ b64val c = 2 ^ 24.
Proof.
  unfold b64val. repeat case_match; try lia. right. split; [|done].
  assert (PAD = c) by lia. done.
Qed.

(** The four parts of a group's value, and what the code makes of it. *)
Lemma group_bits v :
  0 <= v < 2 ^ 32 ->
  nz (Z.land v (Z.shiftl 1 30)) = (v / 2 ^ 30 mod 2 =? 1) /\
  nz (Z.land v (Z.shiftl 1 24)) = (v / 2 ^ 24 mod 2 =? 1).
Proof.
  assert (forall k, 0 <= k -> nz (Z.land v (Z.shiftl 1 k)) = (v / 2 ^ k mod 2 =? 1)) as H.
  { intros k Hk. rewrite <- Z.testbit_eqb, Z.shiftl_1_l by done. unfold nz.
    destruct (Z.testbit v k) eqn:E.
    - destruct (Z.eqb_spec (Z.land v (2 ^ k)) 0) as [H|]; [|done].
      apply (f_equal (fun z => Z.testbit z k)) in H.
      by rewrite Z.land_spec, E, Z.pow2_bits_true, Z.bits_0 in H.
    - replace (Z.land v (2 ^ k)) with 0; [done|]. apply Z.bits_inj'. intros j Hj.
      rewrite Z.bits_0, Z.land_spec, Z.pow2_bits_eqb by done.
      destruct (Z.eqb_spec k j) as [<-|]; by rewrite ?E, ?andb_false_r. }
  intros _. split; apply H; lia.
Qed.

Definition group_word (a b c d : Z) : Z :=
  Z.lor (Z.lor (Z.lor (u32 (Z.shiftl (b64val a) 18)) (u32 (Z.shiftl (b64val b) 12)))
               (u32 (Z.shiftl (b64val c) 6))) (u32 (Z.shiftl (b64val d) 0)).

Lemma shifted_val c k : 0 <= k <= 18 ->
  u32 (Z.shiftl (b64val c) k) = if c =? PAD then u32 (2 ^ (24 + k)) else sval c * 2 ^ k.
Proof.
  intros Hk. unfold sval. rewrite Z.shiftl_mul_pow2 by lia.
  destruct (Z.eqb_spec c PAD) as [->|Hc].
  - by rewrite Z.pow_add_r by lia.
  - destruct (b64val_range c) as [H|[? _]]; [|done]. apply wrap_small.
    assert (2 ^ k <= 2 ^ 18) by (apply Z.pow_le_mono_r; lia).
    assert (0 < 2 ^ k) by (apply Z.pow_pos_nonneg; lia). nia.
Qed.

Lemma sval_range c : 0 <= sval c < 64.
Proof.
  unfold sval. destruct (Z.eqb_spec c PAD); [lia|]. by destruct (b64val_range c) as [|[??]].
Qed.

Lemma group_word_value a b c d :
  group_word a b c d =
  sval a * 2 ^ 18 + sval b * 2 ^ 12
  + (if c =? PAD then 2 ^ 30 else sval c * 2 ^ 6) + (if d =? PAD then 2 ^ 24 else sval d).
Proof.
  unfold group_word. rewrite !shifted_val by lia.
  assert (forall x k, 18 >= k -> k >= 12 -> (if x =? PAD then u32 (2 ^ (24 + k)) else sval x * 2 ^ k) = sval x * 2 ^ k) as Hp.
  { intros x k H1 H2. unfold sval. destruct (x =? PAD); [|done].
    unfold wrap. replace (2 ^ (24 + k)) with (2 ^ (k - 8) * 2 ^ 32) by (rewrite <- Z.pow_add_r by lia; f_equal; lia).
    by rewrite Z.mod_mul by lia. }
  rewrite (Hp a), (Hp b) by lia.
  pose proof (sval_range a). pose proof (sval_range b). pose proof (sval_range c). pose proof (sval_range d).
  assert (Z.lor (sval a * 2 ^ 18) (sval b * 2 ^ 12) = (sval a * 2 ^ 6 + sval b) * 2 ^ 12) as ->.
  { replace (sval a * 2 ^ 18) with (sval a * 2 ^ 6 * 2 ^ 12) by lia.
    rewrite <- !(Z.shiftl_mul_pow2 _ 12), <- Z.shiftl_lor, lor_add by lia. done. }
  set (u := sval a * 2 ^ 6 + sval b). assert (0 <= u < 2 ^ 12) by (unfold u; lia).
  destruct (c =? PAD), (d =? PAD); change (24 + 6) with 30; change (24 + 0) with 24;
    rewrite ?(wrap_small 32 (2 ^ 30)), ?(wrap_small 32 (2 ^ 24)) by lia.
  - rewrite <- Z.lor_assoc. change (Z.lor (2 ^ 30) (2 ^ 24)) with (65 * 2 ^ 24).
    rewrite lor_add_r by lia. unfold u. lia.
  - rewrite <- Z.lor_assoc, (Z.lor_comm (2 ^ 30)), Z.lor_assoc, lor_add by lia.
    change (2 ^ 30) with (1 * 2 ^ 30). rewrite lor_add_r by lia. unfold u. lia.
  - rewrite lor_add by lia. change (2 ^ 24) with (1 * 2 ^ 24) at 1.
    rewrite lor_add_r by lia. unfold u. lia.
  - rewrite lor_add by lia. replace (u * 2 ^ 12 + sval c * 2 ^ 6) with ((u * 2 ^ 6 + sval c) * 2 ^ 6) by lia.
    rewrite lor_add by lia. unfold u. lia.
Qed.

Lemma more_char_spec in_ n k v i m :
  0 <= i -> n <= zlength in_ ->
  more_char in_ n k (v, i) m =
  match rest in_ n i with
  | c :: _ => Some ((Z.lor v (u32 (Z.shiftl (b64val c) k)), i + 1), m)
  | [] => Some ((Z.lor v (u32 (Z.shiftl (b64val PAD) k)), i), m)
  end.
Proof.
  intros Hi Hn. destruct (rest in_ n i) as [|c r] eqn:E; unfold more_char.
  - by rewrite (rest_nil in_ n i).
  - apply rest_cons in E as (E1 & -> & _); [|done]. by rewrite (byte_at_bind _ _ c).
Qed.

Lemma put_emit_eq o c x t k m :
  0 <= o -> c = x -> (forall m, k (o + 1) m = emit (o + 1) t m) ->
  bind (put_char o c) k m = emit o (x :: t) m.
Proof. intros Ho -> Hk. by apply put_emit. Qed.

(** Writing the bytes of a group. *)
Lemma group_emit a b c d o t (k : Z -> M (list Z) Z) m :
  0 <= o -> (forall o m, 0 <= o -> k o m = emit o t m) ->
  (let v := group_word a b c d in
   let* o := put_char o (u8 (Z.shiftr v 16)) in
   let* o := if nz (Z.land v (Z.shiftl 1 30)) then ret o
             else put_char o (Z.land (Z.shiftr v 8) 255) in
   let* o := if nz (Z.land v (Z.shiftl 1 24)) then ret o
             else put_char o (Z.land (Z.shiftr v 0) 255) in
   k o) m = emit o (b64_group a b c d ++ t) m.
Proof.
  intros Ho Hk. cbv zeta. pose proof (group_word_value a b c d) as Ev.
  pose proof (sval_range a). pose proof (sval_range b). pose proof (sval_range c). pose proof (sval_range d).
  destruct (group_bits (group_word a b c d)) as [-> ->].
  { rewrite Ev. destruct (c =? PAD), (d =? PAD); lia. }
  rewrite Z.shiftr_0_r, Ev. unfold b64_group. cbn [app].
  assert (sval PAD = 0) as Ep by done.
  destruct (Z.eqb_spec c PAD) as [->|Hc], (Z.eqb_spec d PAD) as [->|Hd]; cbn [app]; rewrite ?Ep;
    match goal with |- context [put_char o (u8 (Z.shiftr ?w 16))] =>
      assert (w / 2 ^ 30 mod 2 <= 1 /\ w / 2 ^ 24 mod 2 <= 1) by dlia;
      first [ assert (w / 2 ^ 30 mod 2 = 1) as -> by dlia | assert (w / 2 ^ 30 mod 2 = 0) as -> by dlia ];
      first [ assert (w / 2 ^ 24 mod 2 = 1) as -> by dlia | assert (w / 2 ^ 24 mod 2 = 0) as -> by dlia ]
    end; cbn [Z.eqb Pos.eqb];
    repeat first [ apply put_emit_eq; [lia|bits_lia|intros ?]
                 | rewrite (bind_Some (ret _) _ _ _ _ eq_refl) ]; apply Hk; lia.
Qed.

Lemma decode_loop_spec in_ n :
  n <= zlength in_ -> forall fuel i o m, 0 <= i -> 0 <= o ->
  (length (rest in_ n i) <= fuel)%nat ->
  decode_loop fuel in_ n i o m = emit o (b64_bytes (rest in_ n i)) m.
Proof.
  intros Hn. induction fuel as [|fuel IH]; intros i o m Hi Ho Hf.
  { destruct (rest in_ n i) eqn:E; [|simpl in Hf; lia]. simpl.
    pose proof (rest_nil in_ n i Hi Hn E). replace (i + 1 <? n) with false by lia. by rewrite emit_nil. }
  cbn [decode_loop]. destruct (rest in_ n i) as [|a l] eqn:E.
  { pose proof (rest_nil in_ n i Hi Hn E). replace (i + 1 <? n) with false by lia. by rewrite emit_nil. }
  pose proof (rest_cons _ _ _ _ _ Hi E) as (E0 & _ & E2). destruct l as [|b l].
  { pose proof (rest_nil in_ n (i + 1) ltac:(lia) Hn E2) as ->. by rewrite emit_nil. }
  pose proof (rest_cons _ _ (i + 1) _ _ ltac:(lia) E2) as (E3 & -> & E4).
  rewrite (byte_at_bind _ _ a), (byte_at_bind _ _ b) by done.
  replace (i + 1 + 1) with (i + 2) in E4 by lia.
  unfold bind at 1. rewrite more_char_spec, E4 by lia.
  destruct l as [|c l].
  - unfold bind at 1. rewrite more_char_spec, E4 by lia.
    rewrite <- (app_nil_r (b64_bytes _)). apply group_emit; [done|]. intros o' m' Ho'.
    by rewrite IH by (rewrite ?E4; simpl; lia); rewrite E4.
  - pose proof (rest_cons _ _ (i + 2) _ _ ltac:(lia) E4) as (_ & _ & E5).
    unfold bind at 1. rewrite more_char_spec, E5 by lia. destruct l as [|d l].
    + rewrite <- (app_nil_r (b64_bytes _)). apply group_emit; [done|]. intros o' m' Ho'.
      by rewrite IH by (rewrite ?E5; simpl; lia); rewrite E5.
    + pose proof (rest_cons _ _ (i + 2 + 1) _ _ ltac:(lia) E5) as (_ & _ & E6).
      apply group_emit; [done|]. intros o' m' Ho'.
      by rewrite IH by (rewrite ?E6; simpl in *; lia); rewrite E6.
Qed.

(** ** The operations *)

(** [lia] over the lengths of the texts, three bytes and four characters at a
    time. *)
Lemma triples (P : list Z -> Prop) :
  P [] -> (forall a, P [a]) -> (forall a b, P [a; b]) ->
  (forall a b c l, P l -> P (a :: b :: c :: l)) -> forall l, P l.
Proof.
  intros H0 H1 H2 H3. fix IH 1. intros [|a [|b [|c l]]]; [done..|]. apply H3, IH.
Qed.

Lemma quads (P : list Z -> Prop) :
  P [] -> (forall a, P [a]) -> (forall a b, P [a; b]) -> (forall a b c, P [a; b; c]) ->
  (forall a b c d l, P l -> P (a :: b :: c :: d :: l)) -> forall l, P l.
Proof.
  intros H0 H1 H2 H3 H4. fix IH 1. intros [|a [|b [|c [|d l]]]]; [done..|]. apply H4, IH.
Qed.

Lemma length_b64_text bs : zlength (b64_text bs) = 4 * ((zlength bs + 2) / 3).
Proof. induction bs using triples; cbn [b64_text length] in *; try done. dlia. Qed.

Lemma length_b64url_text bs :
  zlength (b64url_text bs) = (4 * zlength bs + 2) / 3 /\
  zlength (b64url_text bs) <= 4 * ((zlength bs + 2) / 3).
Proof. induction bs using triples; cbn [b64url_text length] in *; try done. dlia. Qed.

Lemma length_b64_group a b c d : 1 <= zlength (b64_group a b c d) <= 3.
Proof. unfold b64_group. destruct (c =? PAD), (d =? PAD); simpl; lia. Qed.

Lemma length_b64_bytes cs : zlength (b64_bytes cs) <= 3 * zlength cs / 4.
Proof.
  induction cs as [| | |a b c|a b c d l IH] using quads; cbn [b64_bytes length] in *; try done.
  - unfold b64_group. rewrite Z.eqb_refl. destruct (c =? PAD); cbn [app length]; dlia.
  - pose proof (length_b64_group a b c d). rewrite length_app. dlia.
Qed.

Lemma length_b64_bytes_exact cs :
  PAD ∉ cs -> zlength (b64_bytes cs) = 3 * zlength cs / 4.
Proof.
  induction cs as [| | |a b c|a b c d l IH] using quads; cbn [b64_bytes length] in *; try done.
  - unfold b64_group. rewrite !not_elem_of_cons. intros (_ & _ & Hc & _).
    by destruct (Z.eqb_spec c PAD) as [->|].
  - unfold b64_group. rewrite !not_elem_of_cons. intros (_ & _ & Hc & Hd & Hl).
    destruct (Z.eqb_spec c PAD) as [->|], (Z.eqb_spec d PAD) as [->|]; [done..|].
    specialize (IH Hl). cbn [app length]. dlia.
Qed.

Lemma rest_0 in_ n : rest in_ n 0 = take (Z.to_nat n) in_.
Proof. done. Qed.

Lemma base64_encode_spec in_ n olen m :
  bytes_ok in_ -> 0 <= n <= zlength in_ -> n < 2 ^ 62 -> olen <= zlength m ->
  base64_encode in_ n olen m =
  let t := b64_text (take (Z.to_nat n) in_) in
  if olen <? 4 * ((n + 2) / 3) then Some ((EOVERFLOW, olen), m)
  else Some ((0, zlength t), splice m 0 t).
Proof.
  intros Hok Hn Hb Ho. unfold base64_encode. rewrite !wrap_small by (rewrite ?wrap_small; dlia).
  pose proof (length_b64_text (take (Z.to_nat n) in_)) as El. rewrite length_take in El.
  destruct (Z.ltb_spec olen (4 * ((n + 2) / 3))); [done|]. cbv zeta.
  unfold bind. rewrite encode_loop_spec by (rewrite ?rest_0, ?length_take; try done; lia).
  rewrite emit_fits; [done|lia|rewrite rest_0; dlia].
Qed.

Lemma base64url_encode_spec in_ n olen m :
  bytes_ok in_ -> 0 <= n <= zlength in_ -> n < 2 ^ 62 -> olen <= zlength m ->
  base64url_encode in_ n olen m =
  let t := b64url_text (take (Z.to_nat n) in_) in
  if olen <? 4 * ((n + 2) / 3) then Some ((EOVERFLOW, olen), m)
  else Some ((0, zlength t), splice m 0 t).
Proof.
  intros Hok Hn Hb Ho. unfold base64url_encode. rewrite !wrap_small by (rewrite ?wrap_small; dlia).
  pose proof (length_b64url_text (take (Z.to_nat n) in_)) as [_ El]. rewrite length_take in El.
  destruct (Z.ltb_spec olen (4 * ((n + 2) / 3))); [done|]. cbv zeta.
  unfold bind. rewrite urlencode_loop_spec by (rewrite ?rest_0, ?length_take; try done; lia).
  rewrite emit_fits; [done|lia|rewrite rest_0; dlia].
Qed.

Lemma base64_decode_emit in_ n olen m :
  0 <= n <= zlength in_ -> n < 2 ^ 64 ->
  base64_decode in_ n olen m =
  if olen <? 3 * (n / 4) then Some ((EOVERFLOW, olen), m)
  else (let* o := emit 0 (b64_bytes (take (Z.to_nat n) in_)) in ret (0, o)) m.
Proof.
  intros Hn Hb. unfold base64_decode. rewrite !wrap_small by dlia.
  destruct (Z.ltb_spec olen (3 * (n / 4))); [done|].
  unfold bind. by rewrite decode_loop_spec by (rewrite ?rest_0, ?length_take; try done; lia).
Qed.

(** The characters of an alphabet have the values of their positions. *)
Definition alphabet (t : list Z) : Prop :=
  forall k, 0 <= k < 64 -> sval (sx t k) = k /\ (sx t k =? PAD) = false.

Lemma alphabet_b64 : alphabet b64_table /\ alphabet b64url_table.
Proof.
  assert (forall t, forallb (fun k => (sval (sx t k) =? k) && negb (sx t k =? PAD))
            (Z.of_nat <$> seq 0 64) = true -> alphabet t) as H.
  { intros t H k Hk. rewrite forallb_forall in H. specialize (H k).
    rewrite !andb_true_iff, !negb_true_iff in H. destruct H as [? ?]; [|lia].
    apply list_elem_of_In, list_elem_of_fmap. exists (Z.to_nat k).
    split; [lia|]. apply elem_of_seq. lia. }
  split; apply H; vm_compute; reflexivity.
Qed.

Lemma group_text t : alphabet t -> forall a b c, byte_ok a -> byte_ok b -> byte_ok c ->
  b64_group (sx t (a / 4)) (sx t (a mod 4 * 16 + b / 16)) (sx t (b mod 16 * 4 + c / 64)) (sx t (c mod 64))
    = [a; b; c] /\
  b64_group (sx t (a / 4)) (sx t (a mod 4 * 16 + b / 16)) (sx t (b mod 16 * 4)) PAD = [a; b] /\
  b64_group (sx t (a / 4)) (sx t (a mod 4 * 16)) PAD PAD = [a].
Proof.
  unfold byte_ok, b64_group. intros Ht a b c Ha Hb Hc.
  destruct (Ht (a / 4)) as [-> _]; [dlia|].
  destruct (Ht (a mod 4 * 16 + b / 16)) as [-> _]; [dlia|].
  destruct (Ht (a mod 4 * 16)) as [-> _]; [dlia|].
  destruct (Ht (b mod 16 * 4 + c / 64)) as [-> ->]; [dlia|].
  destruct (Ht (b mod 16 * 4)) as [-> ->]; [dlia|].
  destruct (Ht (c mod 64)) as [-> ->]; [dlia|].
  rewrite Z.eqb_refl. cbn [app]. split_and!; repeat f_equal; dlia.
Qed.

Lemma b64_bytes_text bs :
  bytes_ok bs -> b64_bytes (b64_text bs) = bs /\ b64_bytes (b64url_text bs) = bs.
Proof.
  pose proof (group_text _ (proj1 alphabet_b64)) as G. pose proof (group_text _ (proj2 alphabet_b64)) as G'.
  assert (byte_ok 0) by (unfold byte_ok; lia).
  induction bs as [|a|a b|a b c l IH] using triples; intros Hok; [done|..];
    rewrite ?Forall_cons_iff in Hok; cbn [b64_text b64url_text b64_bytes]; rewrite ?app_nil_r.
  - destruct Hok as [Ha _]. by split; [apply (G a 0 0)|apply (G' a 0 0)].
  - destruct Hok as (Ha & Hb & _). by split; [apply (G a b 0)|apply (G' a b 0)].
  - destruct Hok as (Ha & Hb & Hc & Hl). destruct (IH Hl) as [-> ->].
    destruct (G a b c Ha Hb Hc) as [-> _]. by destruct (G' a b c Ha Hb Hc) as [-> _].
Qed.

Lemma b64_text_app a b :
  zlength a mod 3 = 0 \/ b = [] -> b64_text (a ++ b) = b64_text a ++ b64_text b.
Proof.
  intros [H| ->]; [|by rewrite !app_nil_r].
  induction a as [|x|x y|x y z l IH] using triples; [done|done..|].
  cbn [app b64_text]. rewrite IH; [done|]. cbn [length] in H. dlia.
Qed.

(** ** Properties *)

(** C36: Decoding inverts both encoders.  A buffer of [4 * ((n + 2) / 3)]
    characters is enough for either text of [n] bytes, and one of
    [3 * ((n + 2) / 3)] bytes for decoding it. *)
Theorem base64_roundtrip bs text out :
  bytes_ok bs -> zlength bs < 2 ^ 62 ->
  4 * ((zlength bs + 2) / 3) <= zlength text -> 3 * ((zlength bs + 2) / 3) <= zlength out ->
  (exists n text', base64_encode bs (zlength bs) (zlength text) text = Some ((0, n), text') /\
     base64_decode text' n (zlength out) out = Some ((0, zlength bs), splice out 0 bs)) /\
  (exists n text', base64url_encode bs (zlength bs) (zlength text) text = Some ((0, n), text') /\
     base64_decode text' n (zlength out) out = Some ((0, zlength bs), splice out 0 bs)).
Proof.
  intros Hok Hn Ht Ho. assert (take (Z.to_nat (zlength bs)) bs = bs) as Eb by (apply take_ge; lia).
  destruct (b64_bytes_text bs Hok) as [E E'].
  assert (forall t, b64_bytes t = bs -> zlength t <= 4 * ((zlength bs + 2) / 3) ->
            base64_decode (splice text 0 t) (zlength t) (zlength out) out
            = Some ((0, zlength bs), splice out 0 bs)) as Hd.
  { intros t Et Hl. rewrite base64_decode_emit by (rewrite ?length_splice; dlia).
    replace (take _ (splice text 0 t)) with t
      by (pose proof (slice_splice text 0 t) as Es; symmetry; apply Es; lia).
    rewrite Et. replace (_ <? _) with false by dlia.
    unfold bind. rewrite emit_fits by dlia. done. }
  split; eexists _, _; (split; [rewrite ?base64_encode_spec, ?base64url_encode_spec by (done || lia)|]).
  1, 3: rewrite Eb; replace (_ <? _) with false by lia; reflexivity.
  - apply Hd; [done|]. rewrite length_b64_text. lia.
  - apply Hd; [done|]. apply length_b64url_text.
Qed.

(** Decoding an arbitrary text of [n] characters into a buffer of
    [3 * n / 4] bytes is safe and gives the bytes of its groups, or reports
    that the buffer is too small by its own measure and leaves it alone.  That
    measure is [3 * (n / 4)], which forgets the last two or three characters:
    a text without padding of such a length, decoded into a buffer of exactly
    the size that is asked for, is written past its end. *)
Theorem base64_decode_bounds text n out :
  0 <= n <= zlength text -> n < 2 ^ 64 ->
  let bs := b64_bytes (take (Z.to_nat n) text) in
  (forall olen, 3 * n / 4 <= zlength out ->
     base64_decode text n olen out =
     Some (if olen <? 3 * (n / 4) then ((EOVERFLOW, olen), out)
           else ((0, zlength bs), splice out 0 bs))) /\
  (2 <= n mod 4 -> PAD ∉ take (Z.to_nat n) text -> zlength out = 3 * (n / 4) ->
     base64_decode text n (zlength out) out = None).
Proof.
  intros Hn Hb bs. assert (zlength (take (Z.to_nat n) text) = n) as El by (rewrite length_take; lia).
  split.
  - intros olen Ho. rewrite base64_decode_emit by lia. case_match; [done|].
    pose proof (length_b64_bytes (take (Z.to_nat n) text)) as Hl. rewrite El in Hl.
    unfold bind. by rewrite emit_fits by lia.
  - intros Hm Hp Ho. rewrite base64_decode_emit by lia. replace (_ <? _) with false by lia.
    pose proof (length_b64_bytes_exact _ Hp) as Hl. rewrite El in Hl.
    unfold bind. rewrite emit_overruns; [done|dlia|]. intros E. rewrite E in Hl. simpl in Hl. dlia.
Qed.

(** Printing a buffer in pieces of 192 bytes gives the text of the whole, when
    the stream takes every piece. *)
Theorem base64_print_text (vph : list Z -> M (list Z) Z) ptr n buf s :
  (forall t s, vph t s = Some (0, s ++ t)) ->
  bytes_ok ptr -> 0 <= n <= zlength ptr -> n < 2 ^ 62 -> zlength buf = 256 ->
  base64_print vph ptr n buf s = Some (0, s ++ b64_text (take (Z.to_nat n) ptr)).
Proof.
  intros Hv. unfold base64_print. enough (forall fuel ptr n buf s,
    (Z.to_nat n <= fuel)%nat -> bytes_ok ptr -> 0 <= n <= zlength ptr -> n < 2 ^ 62 ->
    zlength buf = 256 ->
    print_loop vph fuel ptr n buf s = Some (0, s ++ b64_text (take (Z.to_nat n) ptr))) by eauto.
  clear ptr n buf s. induction fuel as [|fuel IH]; intros ptr n buf s Hf Hok Hn Hb Hl.
  { replace n with 0 by lia. cbn. by rewrite app_nil_r. }
  cbn [print_loop]. destruct (Z.ltb_spec 0 n); [|replace n with 0 by lia; cbn; by rewrite app_nil_r].
  change (3 * (256 / 4)) with 192. set (l := Z.min n 192).
  unfold bind at 1, lift at 1. rewrite base64_encode_spec by (try done; lia). cbv zeta.
  set (t := b64_text (take (Z.to_nat l) ptr)).
  assert (zlength t = 4 * ((l + 2) / 3)) as Et
    by (unfold t; rewrite length_b64_text, length_take; repeat f_equal; lia).
  replace (256 <? _) with false by dlia. change (nz 0) with false. cbv iota.
  unfold bind at 1, mem_load. rewrite in_block_true by (rewrite ?length_splice; dlia).
  rewrite slice_splice by dlia. unfold lift, check, bind at 1. rewrite Hv. change (nz 0) with false. cbv iota.
  rewrite IH; [|lia|by apply Forall_drop|rewrite length_drop; lia|lia|rewrite length_splice; dlia].
  rewrite <- app_assoc. do 3 f_equal. unfold t.
  rewrite <- b64_text_app.
  - f_equal. rewrite <- (take_drop (Z.to_nat l) (take (Z.to_nat n) ptr)), take_take, skipn_firstn_comm.
    do 3 f_equal; lia.
  - rewrite length_take. destruct (decide (n <= 192)); [|left; dlia].
    right. replace (n - l) with 0 by lia. done.
Qed.

Lemma base64_roundtrip_witness :
  exists n text', base64_encode [77; 97; 110; 255] 4 8 (replicate 8 0) = Some ((0, n), text') /\
    base64_decode text' n 6 (replicate 6 0) = Some ((0, 4), [77; 97; 110; 255; 0; 0]).
Proof.
  destruct (base64_roundtrip [77; 97; 110; 255] (replicate 8 0) (replicate 6 0)) as [H _];
    [by apply (bool_decide_unpack _)|vm_compute; congruence..|exact H].
Defined.

(** "TWE", the text of "Ma", into a buffer that is asked to have no byte. *)
Lemma base64_decode_bounds_witness :
  base64_decode [84; 87; 69] 3 2 [0; 0] = Some ((0, 2), [77; 97]) /\
  base64_decode [84; 87; 69] 3 0 [] = None.
Proof.
  split.
  - apply (base64_decode_bounds [84; 87; 69] 3 [0; 0]); [simpl; lia|lia|vm_compute; congruence].
  - apply (base64_decode_bounds [84; 87; 69] 3 []); [simpl; lia|lia|vm_compute; congruence| |done].
    by apply (bool_decide_unpack _).
Defined.
