(* ===== verification/Regex.v ===== *)
(** * Regular expressions (fmt/regex.c)

    [re_regex] interprets the expression character by character, with one
    state machine for literals, character classes and their quantifiers.  The
    subject is the memory from [ptr] on, the expression a C string, the
    results are [struct pl]s, given here as offset and length in the subject.
    Characters are bytes and [tolower] is that of the C locale, so the sign of
    [char] makes no difference. *)

From S2P Require Export Prelude Hash.

(** [struct chr] *)
Record chr := { ch_min : Z; ch_max : Z }.

(** The index of the first of the [n] ranges that has the character, or [n]. *)
Fixpoint expr_index (chrv : list chr) (n : nat) (c : Z) : option nat :=
  match n, chrv with
  | O, _ => Some O
  | S n, r :: chrv =>
      if c <? ch_min r then S <$> expr_index chrv n c
      else if c >? ch_max r then S <$> expr_index chrv n c else Some O
  | S _, [] => None
  end.

Definition expr_match (chrv : list chr) (n : nat) (c : Z) (neg : bool) : option bool :=
  (fun i => if neg then (i =? n)%nat else negb (i =? n)%nat) <$> expr_index chrv n c.

(** The [struct pl *] arguments: what each points to, [None] while unset. *)
Abbreviation pls := (list (option (Z * Z))).

(** The variables of the scan of the expression: [p] and [l] are the place in
    the subject and what is left of it, [va] counts the arguments taken. *)
Record scan := {
  s_fm : bool; s_range : bool; s_ec : bool; s_neg : bool; s_qesc : bool; s_eesc : bool;
  s_chrv : list chr; s_n : nat; s_p : Z; s_l : nat; s_va : nat }.

Definition CHRV_SIZE : nat := 64.

(** Updates of some of the variables. *)
Definition with_eesc (b : bool) (s : scan) : scan :=
  {| s_fm := s_fm s; s_range := s_range s; s_ec := s_ec s; s_neg := s_neg s; s_qesc := s_qesc s;
     s_eesc := b; s_chrv := s_chrv s; s_n := s_n s; s_p := s_p s; s_l := s_l s; s_va := s_va s |}.
Definition with_class (fm ec neg qesc range : bool) (chrv : list chr) (n : nat) (s : scan) : scan :=
  {| s_fm := fm; s_range := range; s_ec := ec; s_neg := neg; s_qesc := qesc;
     s_eesc := s_eesc s; s_chrv := chrv; s_n := n; s_p := s_p s; s_l := s_l s; s_va := s_va s |}.
Definition with_place (fm : bool) (p : Z) (l va : nat) (s : scan) : scan :=
  {| s_fm := fm; s_range := s_range s; s_ec := s_ec s; s_neg := s_neg s; s_qesc := s_qesc s;
     s_eesc := false; s_chrv := s_chrv s; s_n := s_n s; s_p := p; s_l := l; s_va := va |}.

(** How a round of the scan ends: with the next character of the expression,
    with another try one character further in the subject, or by [break]. *)
Inductive flow := Next (s : scan) | Again (s : scan) | Break (s : scan).

Section regex.
Variable ptr : list Z.
(** Which of the arguments are not NULL. *)
Variable args : list bool.

Definition subject (i : Z) : M pls Z := lift (ptr !! Z.to_nat i).

(** The repetition of a class: the number of characters [nm], with the new
    place in the subject; [lpl.l] is always [nm]. *)
Fixpoint repeat_class (s : scan) (nmax : Z) (nm p : Z) (l : nat) (quote esc : bool) :
    M pls (Z * Z * nat) :=
  match l with
  | O => ret (nm, p, O)
  | S l' =>
      if negb (nm <? nmax) then ret (nm, p, l) else
      let* c := subject p in
      let again := repeat_class s nmax (u32 (nm + 1)) (p + 1) l' in
      let test := let* b := lift (expr_match (s_chrv s) (s_n s) (tolower c) (s_neg s)) in
                  if b : bool then again quote esc else ret (nm, p, l) in
      if s_qesc s then
        if esc then again quote false
        else if c =? 92 then again quote true
        else if c =? 34 then again (negb quote) esc
        else if quote then again quote esc
        else test
      else test
  end.

(** The bounds of a quantifier. *)
Definition quantifier (c : Z) : option (Z * Z) :=
  if c =? 42 then Some (0, u32 (-1))
  else if c =? 43 then Some (1, u32 (-1))
  else if (49 <=? c) && (c <=? 57) then Some (c - 48, c - 48)
  else None.

(** [pl = va_arg(ap, struct pl * )], then [if (pl) *pl = lpl]. *)
Definition assign (i : nat) (lpl : Z * Z) : M pls unit :=
  let* b := lift (args !! i) in
  if b : bool then modify (<[i := Some lpl]>) else ret tt.

Definition strip_quotes (s : scan) (p0 ll nm : Z) : M pls (Z * Z * Z) :=
  if s_qesc s && (1 <? ll) then
    let* a := subject p0 in
    if a =? 34 then
      let* b := subject (p0 + ll - 1) in
      ret (if b =? 34 then (p0 + 1, ll - 2, u32 (nm - 2)) else (p0, ll, nm))
    else ret (p0, ll, nm)
  else ret (p0, ll, nm).

(** The end of a character class: [ep] is its quantifier. *)
Definition class_end (s : scan) (ep : Z) : M pls flow :=
  let* _ := lift (args !! s_va s) in
  match quantifier ep with
  | None => ret (Break s)
  | Some (nmin, nmax) =>
      let* '(nm, p', l') := repeat_class s nmax 0 (s_p s) (s_l s) false false in
      let* '(lp, ll, nm) := strip_quotes s (s_p s) (p' - s_p s) nm in
      let s' := with_place false p' l' (S (s_va s)) s in
      if (nm <? nmin) || (nmax <? nm) then ret (Again s')
      else assign (s_va s) (lp, ll);; ret (Next s')
  end.

(** [chr:] adds the character to the class, or ends a range. *)
Definition add_chr (s : scan) (ep : Z) : M pls flow :=
  if (CHRV_SIZE <=? s_n s)%nat then ret (Break s) else
  let* r := lift (s_chrv s !! s_n s) in
  let r := {| ch_min := if s_range s then ch_min r else tolower ep; ch_max := tolower ep |} in
  ret (Next (with_class (s_fm s) (s_ec s) (s_neg s) (s_qesc s) false
               (<[s_n s := r]> (s_chrv s)) (S (s_n s)) s)).

(** A character inside a class. *)
Definition class_char (s : scan) (ep : Z) : M pls flow :=
  let upd ec neg qesc range n := ret (Next (with_class (s_fm s) ec neg qesc range (s_chrv s) n s)) in
  if s_eesc s then add_chr (with_eesc false s) ep
  else if ep =? 93 then upd true (s_neg s) (s_qesc s) (s_range s) (s_n s)
  else if (ep =? 126) && (s_n s =? 0)%nat then upd (s_ec s) true true (s_range s) (s_n s)
  else if (ep =? 94) && (s_n s =? 0)%nat then upd (s_ec s) true (s_qesc s) (s_range s) (s_n s)
  else if (ep =? 45) && negb ((s_n s =? 0)%nat || s_range s)
  then upd (s_ec s) (s_neg s) (s_qesc s) true (pred (s_n s))
  else add_chr s ep.

(** A character outside classes. *)
Definition literal_char (s : scan) (ep : Z) : M pls flow :=
  if (ep =? 91) && negb (s_eesc s) then
    ret (Next (with_class true false false false false (s_chrv s) 0 s))
  else match s_l s with
  | O => ret (Break s)
  | S l' =>
      let* c := subject (s_p s) in
      if tolower ep =? tolower c then
        ret (Next (with_place (s_fm s) (s_p s + 1) l' (s_va s) s))
      else ret (Again s)
  end.

(** One round of the loop over the expression. *)
Definition round (s : scan) (ep : Z) : M pls flow :=
  if (ep =? 92) && negb (s_eesc s) then
    ret (Next (with_eesc true s))
  else if negb (s_fm s) then literal_char s ep
  else if s_ec s then class_end s ep
  else class_char s ep.

(** The loop over the expression, with what is left of it at its end. *)
Fixpoint scan_loop (s : scan) (ep : list Z) : M pls (flow * list Z) :=
  match ep with
  | [] => ret (Next s, [])
  | c :: ep' =>
      let* f := round s c in
      match f with
      | Next s => scan_loop s ep'
      | f => ret (f, ep)
      end
  end.

(** [out:] *)
Definition result (s : scan) (ep : list Z) : Z :=
  if s_fm s then EINVAL else match ep with [] => 0 | _ => ENOENT end.

(** [again:], for the subject from offset [i] on. *)
Fixpoint try_from (expr : list Z) (s : scan) (i : Z) (len : nat) : M pls Z :=
  let s := with_place false i len 0 s in
  match len with
  | O => ret (result s expr)
  | S len' =>
      let* '(f, ep) := scan_loop s expr in
      match f with
      | Again s => try_from expr s (i + 1) len'
      | Next s | Break s => ret (result s ep)
      end
  end.

(** [chrv0] is the array of ranges on the stack. *)
Definition re_regex (chrv0 : list chr) (len : nat) (expr : list Z) : M pls Z :=
  try_from expr {| s_fm := false; s_range := false; s_ec := false; s_neg := false; s_qesc := false;
                   s_eesc := false; s_chrv := chrv0; s_n := 0; s_p := 0; s_l := 0; s_va := 0 |} 0 len.

End regex.
