(* ===== verification/RegexThms.v ===== *)
(** * Regular expressions: safety, and the language of the expressions

    [re_regex] is safe for every expression and subject and sets only parts of
    the subject.  For expressions in the intended syntax it is shown to
    implement [search], a matcher over a list of items. *)

From S2P Require Import Prelude Hash Regex.

(** ** Safety *)

(** A result lies in a subject of [len] characters. *)
Definition within (len : Z) (o : option (Z * Z)) : Prop :=
  match o with Some (a, b) => 0 <= a /\ 0 <= b /\ a + b <= len | None => True end.

Section safety.
Variables (ptr : list Z) (args : list bool) (len : Z).
Hypothesis len_ok : len <= zlength ptr.

Definition outs_ok (o : pls) : Prop := length o = length args /\ Forall (within len) o.

Definition brackets (ep : list Z) : nat := length (filter (fun c => c = 91) ep).

Record scan_ok (s : scan) (ep : list Z) : Prop := {
  sk_place : 0 <= s_p s /\ s_p s + Z.of_nat (s_l s) = len;
  sk_class : (s_n s <= 64)%nat /\ length (s_chrv s) = 64%nat;
  sk_args : (s_va s + (if s_fm s then 1 else 0) + brackets ep <= length args)%nat }.

Lemma subject_ok i o : 0 <= i < len -> exists c, subject ptr i o = Some (c, o).
Proof.
  intros Hi. destruct (lookup_lt_is_Some_2 ptr (Z.to_nat i)) as [c E]; [lia|].
  exists c. unfold subject, lift. by rewrite E.
Qed.

Lemma expr_match_some v k c neg : (k <= length v)%nat -> is_Some (expr_match v k c neg).
Proof.
  intros H. unfold expr_match. apply fmap_is_Some. revert v H.
  induction k as [|k IH]; intros [|r v] H; simpl in H; try done; try lia. simpl.
  repeat case_match; rewrite ?fmap_is_Some; try done; apply IH; lia.
Qed.

Lemma repeat_class_ok s nmax l : (s_n s <= length (s_chrv s))%nat -> forall nm p quote esc o,
  0 <= nm -> nmax < 2 ^ 32 -> 0 <= p -> p + Z.of_nat l = len ->
  exists k, repeat_class ptr s nmax nm p l quote esc o =
    Some ((nm + Z.of_nat k, p + Z.of_nat k, (l - k)%nat), o) /\ (k <= l)%nat /\
    (nm + Z.of_nat k <= nmax \/ k = O).
Proof.
  intros Hcl. induction l as [|l IH]; intros nm p quote esc o Hn Hm Hp Hl; cbn [repeat_class].
  { exists O. rewrite !Z.add_0_r. split_and!; auto. }
  assert (exists k, ret (nm, p, S l) o = Some ((nm + Z.of_nat k, p + Z.of_nat k, (S l - k)%nat), o) /\
     (k <= S l)%nat /\ (nm + Z.of_nat k <= nmax \/ k = O)) as Hstop.
  { exists O. rewrite !Z.add_0_r. split_and!; auto with lia. }
  destruct (Z.ltb_spec nm nmax) as [Hlt|]; [|exact Hstop]. cbn [negb].
  destruct (subject_ok p o) as [c Ec]; [lia|]. rewrite (bind_Some _ _ _ _ _ Ec).
  rewrite (wrap_small 32 (nm + 1)) by lia.
  assert (forall q e, exists k, repeat_class ptr s nmax (nm + 1) (p + 1) l q e o =
     Some ((nm + Z.of_nat k, p + Z.of_nat k, (S l - k)%nat), o) /\
     (k <= S l)%nat /\ (nm + Z.of_nat k <= nmax \/ k = O)) as Hgo.
  { intros q e. destruct (IH (nm + 1) (p + 1) q e o) as (k & -> & Hk & Hm'); [lia..|].
    exists (S k). split_and!; [|lia|lia]. do 4 f_equal; lia. }
  destruct (expr_match_some (s_chrv s) (s_n s) (tolower c) (s_neg s) Hcl) as [b Eb].
  cbv zeta. unfold bind, lift. rewrite Eb. repeat case_match; auto.
Qed.

Lemma strip_quotes_ok s p0 k nm o :
  0 <= p0 -> 0 <= k -> p0 + k <= len ->
  exists a b nm', strip_quotes ptr s p0 k nm o = Some ((a, b, nm'), o) /\ within len (Some (a, b)).
Proof.
  intros. unfold strip_quotes, within.
  destruct (s_qesc s && (1 <? k)) eqn:E; [|eexists _, _, _; split; [done|lia]].
  destruct (subject_ok p0 o) as [c Ec]; [lia|]. rewrite (bind_Some _ _ _ _ _ Ec).
  case_match; [|eexists _, _, _; split; [done|lia]].
  destruct (subject_ok (p0 + k - 1) o) as [c' Ec']; [lia|]. rewrite (bind_Some _ _ _ _ _ Ec').
  unfold ret. case_match; eexists _, _, _; (split; [done|lia]).
Qed.

Lemma assign_ok i lpl o :
  (i < length args)%nat -> outs_ok o -> within len (Some lpl) ->
  exists o', assign args i lpl o = Some (tt, o') /\ outs_ok o'.
Proof.
  intros Hi [Hl Ho] Hw. destruct (lookup_lt_is_Some_2 args i Hi) as [b E].
  unfold assign, bind, lift. rewrite E. destruct b; [|eexists; split; [done|by split]].
  exists (<[i := Some lpl]> o). split; [done|].
  split; [by rewrite length_insert|by apply Forall_insert].
Qed.

Lemma quantifier_bounds ep nmin nmax : quantifier ep = Some (nmin, nmax) -> nmax < 2 ^ 32.
Proof. unfold quantifier. intros. repeat case_match; simplify_eq; [done..|lia]. Qed.

(** The outcomes of a round keep the invariant. *)
Definition flow_ok (ep : list Z) (f : flow) : Prop :=
  match f with Next s => scan_ok s ep | Again s => (s_n s <= 64)%nat /\ length (s_chrv s) = 64%nat | Break _ => True end.

Lemma class_end_ok s ep rest o :
  scan_ok s rest -> s_fm s = true -> outs_ok o ->
  exists f o', class_end ptr args s ep o = Some (f, o') /\ flow_ok rest f /\ outs_ok o'.
Proof.
  intros [[Hp Hl] Hc Ha] Hfm Ho. rewrite Hfm in Ha. unfold class_end.
  destruct (lookup_lt_is_Some_2 args (s_va s)) as [b Eb]; [lia|].
  unfold bind at 1, lift. rewrite Eb.
  destruct (quantifier ep) as [[nmin nmax]|] eqn:Eq; [|by eexists _, _].
  apply quantifier_bounds in Eq.
  destruct (repeat_class_ok s nmax (s_l s) ltac:(lia) 0 (s_p s) false false o) as (k & Ek & Hk & _); [lia..|].
  rewrite (bind_Some _ _ _ _ _ Ek).
  destruct (strip_quotes_ok s (s_p s) (s_p s + Z.of_nat k - s_p s) (0 + Z.of_nat k) o)
    as (a & b' & nm & Es & Hw); [lia..|].
  rewrite (bind_Some _ _ _ _ _ Es).
  case_match; [eexists _, _; split; [done|]; split; [apply Hc|done]|].
  destruct (assign_ok (s_va s) (a, b') o) as (o' & Ea & Ho'); [lia|done..|].
  rewrite (bind_Some _ _ _ _ _ Ea). eexists _, _. split; [done|]. split; [|done].
  split; simpl; lia.
Qed.

Lemma add_chr_ok s ep rest o :
  scan_ok s rest -> exists f, add_chr s ep o = Some (f, o) /\ flow_ok rest f.
Proof.
  intros [Hp [Hc Hl] Ha]. unfold add_chr, CHRV_SIZE.
  destruct (Nat.leb_spec 64 (s_n s)); [by eexists|].
  destruct (lookup_lt_is_Some_2 (s_chrv s) (s_n s)) as [r E]; [lia|].
  unfold bind, lift. rewrite E. eexists. split; [done|].
  split; simpl; [done| |done]. rewrite length_insert. lia.
Qed.

Lemma class_char_ok s ep rest o :
  scan_ok s rest -> exists f, class_char s ep o = Some (f, o) /\ flow_ok rest f.
Proof.
  intros H. pose proof H as [Hp Hc Ha]. unfold class_char.
  destruct (s_eesc s); [apply add_chr_ok; by split|].
  destruct (ep =? 93); [by eexists|]. destruct (_ && (s_n s =? 0)%nat); [by eexists|].
  destruct (_ && (s_n s =? 0)%nat); [by eexists|].
  destruct (_ && negb _); [|by apply add_chr_ok].
  eexists. split; [done|]. split; simpl; [done|lia|done].
Qed.

Lemma round_ok s ep rest o :
  scan_ok s (ep :: rest) -> outs_ok o ->
  exists f o', round ptr args s ep o = Some (f, o') /\ flow_ok rest f /\ outs_ok o'.
Proof.
  intros [Hp Hc Ha] Ho. unfold brackets in Ha. rewrite filter_cons in Ha.
  assert (scan_ok s rest) as Hs by (split; [done..|]; case_decide; simpl in Ha; unfold brackets; lia).
  unfold round. destruct ((ep =? 92) && negb (s_eesc s)).
  { eexists _, _. split; [done|]. split; [|done]. by destruct Hs. }
  destruct (s_fm s) eqn:Hfm; cbn [negb].
  - destruct (s_ec s); [by apply class_end_ok|].
    destruct (class_char_ok s ep rest o Hs) as (f & E & Hf). by exists f, o.
  - unfold literal_char. destruct (_ && _) eqn:E.
    + eexists _, _. split; [done|]. split; [|done]. rewrite decide_True in Ha by lia.
      split; simpl; [done|lia|]. simpl in Ha. unfold brackets. lia.
    + destruct (s_l s) as [|l'] eqn:El; [by eexists _, _|].
      destruct (subject_ok (s_p s) o) as [c Ec]; [lia|]. rewrite (bind_Some _ _ _ _ _ Ec).
      destruct (tolower ep =? tolower c); eexists _, _; (split; [reflexivity|]); (split; [|done]); [|exact Hc].
      destruct Hs as [_ _ Hs]. split; simpl; [lia|done|by rewrite Hfm in *].
Qed.

Lemma scan_loop_ok ep : forall s o, scan_ok s ep -> outs_ok o ->
  exists f rest o', scan_loop ptr args s ep o = Some ((f, rest), o') /\ outs_ok o' /\
    match f with Again s => (s_n s <= 64)%nat /\ length (s_chrv s) = 64%nat | _ => True end.
Proof.
  induction ep as [|c ep IH]; intros s o Hs Ho; cbn [scan_loop]; [by eexists _, _, _|].
  destruct (round_ok s c ep o Hs Ho) as (f & o' & E & Hf & Ho'). rewrite (bind_Some _ _ _ _ _ E).
  destruct f; [by apply IH|by eexists _, _, _..].
Qed.

Lemma try_from_ok expr : (brackets expr <= length args)%nat ->
  forall k s i o, (s_n s <= 64)%nat /\ length (s_chrv s) = 64%nat -> outs_ok o -> 0 <= i -> i + Z.of_nat k = len ->
  exists e o', try_from ptr args expr s i k o = Some (e, o') /\ outs_ok o' /\
    (e = 0 \/ e = ENOENT \/ e = EINVAL).
Proof.
  intros Hb. assert (forall s ep, let e := result s ep in e = 0 \/ e = ENOENT \/ e = EINVAL) as Hr.
  { intros s ep. unfold result. destruct (s_fm s), ep; auto. }
  induction k as [|k IH]; intros s i o Hs Ho Hi Hl; cbn [try_from].
  { eexists _, _. split; [done|]. split; [done|apply Hr]. }
  destruct (scan_loop_ok expr (with_place false i (S k) 0 s) o) as (f & ep & o' & E & Ho' & Hf).
  { split; simpl; lia. }
  { done. }
  rewrite (bind_Some _ _ _ _ _ E).
  destruct f as [s'|s'|s']; [|apply IH; [done..|lia|lia]|]; (eexists _, _; split; [done|]; split; [done|apply Hr]).
Qed.
End safety.

(** ** The language of the expressions *)

(** A literal character, or a class with its quantifier.  [qesc] classes are
    negated and skip over quoted strings. *)
Inductive item :=
  | Lit (c : Z)
  | Cls (neg qesc : bool) (rs : list chr) (q : Z).

Definition escape (special : list Z) (c : Z) : list Z :=
  if bool_decide (c ∈ special) then [92; c] else [c].

Definition print_range (r : chr) : list Z :=
  let e := escape [92; 93; 126; 94; 45] in
  if ch_min r =? ch_max r then e (ch_min r) else e (ch_min r) ++ [45] ++ e (ch_max r).

Definition print_item (it : item) : list Z :=
  match it with
  | Lit c => escape [92; 91; 93] c
  | Cls neg qesc rs q =>
      [91] ++ (if qesc then [126] else if neg then [94] else []) ++
      concat (print_range <$> rs) ++ [93; q]
  end.

Definition print_items (its : list item) : list Z := concat (print_item <$> its).

Definition item_ok (it : item) : Prop :=
  match it with
  | Lit _ => True
  | Cls neg qesc rs q =>
      (length rs <= 64)%nat /\ is_Some (quantifier q) /\ (qesc = true -> neg = true)
  end.

(** Does the class have the character?  Case is ignored. *)
Definition in_class (neg : bool) (rs : list chr) (c : Z) : bool :=
  xorb neg (existsb (fun r => (tolower (ch_min r) <=? tolower c) && (tolower c <=? tolower (ch_max r))) rs).

(** How many characters of the text a class takes. *)
Fixpoint span (neg qesc : bool) (rs : list chr) (nmax nm : Z) (quote esc : bool) (t : list Z) : nat :=
  match t with
  | [] => O
  | c :: t =>
      let go q e := S (span neg qesc rs nmax (nm + 1) q e t) in
      if negb (nm <? nmax) then O
      else if qesc && esc then go quote false
      else if qesc && (c =? 92) then go quote true
      else if qesc && (c =? 34) then go (negb quote) esc
      else if qesc && quote then go quote esc
      else if in_class neg rs c then go quote esc else O
  end.

Definition quoted (m : list Z) : bool :=
  (2 <=? length m)%nat && bool_decide (m !! O = Some 34) &&
  bool_decide (m !! pred (length m) = Some 34).

(** The outcome of matching at one place: a match, a mismatch, or the end of
    the text in front of a literal. *)
Inductive verdict := Matched | Mismatch | Ended.

Fixpoint attempt (args : list bool) (its : list item) (p : Z) (t : list Z) (va : nat) : M pls verdict :=
  match its with
  | [] => ret Matched
  | Lit c :: its =>
      match t with
      | [] => ret Ended
      | x :: t => if tolower c =? tolower x then attempt args its (p + 1) t va else ret Mismatch
      end
  | Cls neg qesc rs q :: its =>
      let* _ := lift (args !! va) in
      let '(nmin, nmax) := default (0, 0) (quantifier q) in
      let k := span neg qesc rs nmax 0 false false t in
      let m := take k t in
      let '(lo, n) := if qesc && quoted m then (p + 1, Z.of_nat k - 2) else (p, Z.of_nat k) in
      if n <? nmin then ret Mismatch
      else assign args va (lo, n);; attempt args its (p + Z.of_nat k) (drop k t) (S va)
  end.

(** The first place with a match; a place before it where the text ends in
    front of a literal gives up. *)
Fixpoint search (args : list bool) (its : list item) (p : Z) (t : list Z) : M pls Z :=
  match t with
  | [] => ret (match its with [] => 0 | _ => ENOENT end)
  | _ :: t' =>
      let* v := attempt args its p t 0 in
      match v with
      | Matched => ret 0
      | Ended => ret ENOENT
      | Mismatch => search args its (p + 1) t'
      end
  end.

(** ** The scan of a class *)

Definition lower (r : chr) : chr := {| ch_min := tolower (ch_min r); ch_max := tolower (ch_max r) |}.

Section refine.
Variables (ptr : list Z) (args : list bool).

Lemma expr_index_spec rs tl c :
  exists i, expr_index ((lower <$> rs) ++ tl) (length rs) c = Some i /\
  (i =? length rs)%nat =
  negb (existsb (fun r => (tolower (ch_min r) <=? c) && (c <=? tolower (ch_max r))) rs).
Proof.
  induction rs as [|r rs (i & E & IH)]; [exists O; by destruct tl|].
  cbn [length fmap list_fmap app expr_index existsb lower ch_min ch_max].
  rewrite Z.gtb_ltb. change (list_fmap _ _ lower rs) with (lower <$> rs). rewrite E.
  destruct (Z.ltb_spec c (tolower (ch_min r))), (Z.ltb_spec (tolower (ch_max r)) c);
    (eexists; split; [done|]); cbn [Nat.eqb]; rewrite ?IH.
  all: repeat match goal with |- context [?a <=? ?b] => destruct (Z.leb_spec a b); try lia end; done.
Qed.

Lemma expr_match_spec chrv rs c neg :
  take (length rs) chrv = lower <$> rs ->
  expr_match chrv (length rs) (tolower c) neg = Some (in_class neg rs c).
Proof.
  intros E. unfold expr_match, in_class. rewrite <- (take_drop (length rs) chrv), E.
  destruct (expr_index_spec rs (drop (length rs) chrv) (tolower c)) as (i & -> & Hi).
  cbn [fmap option_fmap option_map]. rewrite Hi. f_equal. destruct neg; cbn [xorb]; by rewrite ?negb_involutive.
Qed.

(** A state in the middle of a class, with the ranges [rs] so far. *)
Record in_cls (neg qesc : bool) (rs : list chr) (s : scan) : Prop := {
  ic_fm : s_fm s = true; ic_ec : s_ec s = false; ic_range : s_range s = false;
  ic_eesc : s_eesc s = false; ic_neg : s_neg s = neg; ic_qesc : s_qesc s = qesc;
  ic_n : s_n s = length rs; ic_len : length (s_chrv s) = 64%nat;
  ic_chrv : take (length rs) (s_chrv s) = lower <$> rs }.

(** The place in the subject. *)
Definition same_place (s s' : scan) : Prop := s_p s' = s_p s /\ s_l s' = s_l s /\ s_va s' = s_va s.

(** A character of a class, escaped where it has to be. *)
Lemma scan_escape s c ep o :
  s_fm s = true -> s_ec s = false -> s_eesc s = false -> (s_n s < 64)%nat ->
  scan_loop ptr args s (escape [92; 93; 126; 94; 45] c ++ ep) o =
  (let* f := add_chr s c in match f with Next s => scan_loop ptr args s ep | f => ret (f, c :: ep) end) o.
Proof.
  intros Hfm Hec Hes Hn. unfold escape. case_bool_decide as Hc.
  - cbn [app scan_loop]. unfold round at 1. rewrite Hes. cbn [Z.eqb Pos.eqb andb negb].
    unfold bind at 1, ret at 1. cbn [scan_loop]. unfold round, bind.
    cbn [s_eesc s_fm s_ec with_eesc]. rewrite Hfm, Hec, andb_false_r. cbn [negb].
    unfold class_char. cbn [s_eesc with_eesc].
    by assert (with_eesc false (with_eesc true s) = s) as -> by (destruct s; by simpl in *; subst).
  - rewrite !not_elem_of_cons in Hc. cbn [app scan_loop]. unfold round, bind.
    rewrite Hfm, Hec. replace (c =? 92) with false by lia. cbn [andb negb].
    unfold class_char. rewrite Hes. replace (c =? 93) with false by lia.
    replace (c =? 126) with false by lia. replace (c =? 94) with false by lia.
    by replace (c =? 45) with false by lia.
Qed.

Lemma add_chr_next s c o r : (s_n s < 64)%nat -> s_chrv s !! s_n s = Some r ->
  add_chr s c o = Some (Next (with_class (s_fm s) (s_ec s) (s_neg s) (s_qesc s) false
    (<[s_n s := {| ch_min := if s_range s then ch_min r else tolower c; ch_max := tolower c |}]> (s_chrv s))
    (S (s_n s)) s), o).
Proof.
  intros Hn E. unfold add_chr, CHRV_SIZE, bind, lift. rewrite E.
  by destruct (Nat.leb_spec 64 (s_n s)); [lia|].
Qed.

Lemma take_S_insert (v : list chr) k r : (k < length v)%nat -> take (S k) (<[k := r]> v) = take k v ++ [r].
Proof.
  intros. rewrite (take_S_r _ _ r) by (by rewrite list_lookup_insert_eq).
  by rewrite take_insert_ge by lia.
Qed.

Lemma in_cls_add neg qesc rs s c :
  in_cls neg qesc rs s -> (length rs < 64)%nat ->
  exists s', (forall o, add_chr s c o = Some (Next s', o)) /\ same_place s s' /\
    in_cls neg qesc (rs ++ [{| ch_min := c; ch_max := c |}]) s' /\
    s_chrv s' !! length rs = Some {| ch_min := tolower c; ch_max := tolower c |}.
Proof.
  intros [] Hl. destruct (lookup_lt_is_Some_2 (s_chrv s) (s_n s)) as [r E]; [lia|].
  eexists. split; [intros o; by apply add_chr_next; [lia|]|]. split; [done|].
  rewrite ic_range0. split; [split; simpl; try done|].
  - rewrite length_app. simpl. lia.
  - by rewrite length_insert.
  - rewrite length_app, Nat.add_1_r, fmap_app, ic_n0, take_S_insert by lia. by rewrite ic_chrv0.
  - simpl. rewrite ic_n0. apply list_lookup_insert_eq. lia.
Qed.

(** The end of a range replaces the upper bound of its start. *)
Lemma in_cls_range neg qesc rs a b s ep o :
  in_cls neg qesc (rs ++ [{| ch_min := a; ch_max := a |}]) s -> (length rs < 64)%nat ->
  s_chrv s !! length rs = Some {| ch_min := tolower a; ch_max := tolower a |} ->
  exists s', scan_loop ptr args s ([45] ++ escape [92; 93; 126; 94; 45] b ++ ep) o =
    scan_loop ptr args s' ep o /\ same_place s s' /\
    in_cls neg qesc (rs ++ [{| ch_min := a; ch_max := b |}]) s'.
Proof.
  intros [] Hl Ha. rewrite length_app in *. simpl in *.
  unfold round at 1, bind at 1. rewrite ic_fm0, ic_ec0. cbn [Z.eqb Pos.eqb andb negb].
  unfold class_char. rewrite ic_eesc0, ic_range0. cbn [Z.eqb Pos.eqb andb negb].
  replace (s_n s =? 0)%nat with false by (symmetry; apply Nat.eqb_neq; lia). cbn [orb negb]. unfold ret at 1.
  rewrite scan_escape by (simpl; try done; lia).
  replace (pred (s_n s)) with (length rs) by lia.
  erewrite bind_Some by (apply add_chr_next; [simpl; lia|exact Ha]).
  eexists. split; [done|]. split; [done|]. split; simpl; try done.
  - rewrite length_app. simpl. lia.
  - by rewrite length_insert.
  - rewrite length_app, Nat.add_1_r, fmap_app, take_S_insert by lia.
    apply (f_equal (take (length rs))) in ic_chrv0.
    rewrite take_take, fmap_app, take_app_length' in ic_chrv0 by (by rewrite length_fmap).
    replace (length rs `min` (length rs + 1))%nat with (length rs) in ic_chrv0 by lia.
    by rewrite ic_chrv0.
Qed.

Lemma scan_ranges neg qesc new : forall rs s ep o,
  in_cls neg qesc rs s -> (length rs + length new <= 64)%nat ->
  exists s', scan_loop ptr args s (concat (print_range <$> new) ++ ep) o = scan_loop ptr args s' ep o /\
    same_place s s' /\ in_cls neg qesc (rs ++ new) s'.
Proof.
  induction new as [|[a b] new IH]; intros rs s ep o Hs Hl.
  { exists s. rewrite app_nil_r. by split_and!. }
  simpl in Hl. cbn [fmap list_fmap concat]. rewrite <- app_assoc. unfold print_range at 1. cbn [ch_min ch_max].
  destruct (in_cls_add neg qesc rs s a Hs) as (s1 & E1 & Hp1 & Hs1 & Hc1); [lia|].
  replace (rs ++ {| ch_min := a; ch_max := b |} :: new)
    with ((rs ++ [{| ch_min := a; ch_max := b |}]) ++ new) by (by rewrite <- app_assoc).
  pose proof Hs as [Hf1 Hf2 _ Hf3 _ _ Hn _ _].
  destruct (Z.eqb_spec a b) as [->|Hab].
  - rewrite scan_escape, (bind_Some _ _ _ _ _ (E1 o)) by (try done; lia).
    destruct (IH _ s1 ep o Hs1) as (s2 & -> & Hp2 & Hs2); [rewrite length_app; simpl; lia|].
    exists s2. split; [done|]. split; [|done]. unfold same_place in *. intuition congruence.
  - rewrite <- !app_assoc, scan_escape, (bind_Some _ _ _ _ _ (E1 o)) by (try done; lia).
    destruct (in_cls_range neg qesc rs a b s1 (concat (print_range <$> new) ++ ep) o Hs1) as (s2 & -> & Hp2 & Hs2);
      [lia|done|].
    destruct (IH _ s2 ep o Hs2) as (s3 & -> & Hp3 & Hs3); [rewrite length_app; simpl; lia|].
    exists s3. split; [done|]. split; [|by rewrite <- app_assoc in Hs3]. unfold same_place in *. intuition congruence.
Qed.

(** From the opening bracket to the closing one. *)
Lemma scan_class neg qesc rs q s ep o :
  s_fm s = false -> s_eesc s = false -> length (s_chrv s) = 64%nat ->
  (length rs <= 64)%nat -> (qesc = true -> neg = true) ->
  exists s', scan_loop ptr args s (print_item (Cls neg qesc rs q) ++ ep) o =
    scan_loop ptr args s' (q :: ep) o /\ same_place s s' /\
    s_fm s' = true /\ s_ec s' = true /\ s_eesc s' = false /\ s_neg s' = neg /\ s_qesc s' = qesc /\
    s_n s' = length rs /\ length (s_chrv s') = 64%nat /\ take (length rs) (s_chrv s') = lower <$> rs.
Proof.
  intros Hfm Hes Hlen Hl Hq. cbn [print_item app scan_loop]. rewrite <- !app_assoc.
  unfold round at 1, bind at 1, literal_char. rewrite Hfm, Hes. cbn [Z.eqb Pos.eqb andb negb]. unfold ret at 1.
  set (s0 := with_class true false false false false (s_chrv s) 0 s).
  assert (exists s1, scan_loop ptr args s0 ((if qesc then [126] else if neg then [94] else []) ++
      concat (print_range <$> rs) ++ [93; q] ++ ep) o =
      scan_loop ptr args s1 (concat (print_range <$> rs) ++ [93; q] ++ ep) o /\ same_place s s1 /\
      in_cls neg qesc [] s1) as (s1 & -> & Hp1 & Hs1).
  { destruct qesc; [specialize (Hq eq_refl) as ->|destruct neg];
      (eexists; split; [|split]; [first [reflexivity | cbn [app scan_loop];
        unfold round at 1, bind at 1, class_char; simpl; rewrite ?Hes; reflexivity]|done|by split]). }
  destruct (scan_ranges neg qesc rs [] s1 ([93; q] ++ ep) o Hs1) as (s2 & -> & Hp2 & Hs2); [simpl; lia|].
  destruct Hs2. cbn [app scan_loop] in *. unfold round at 1, bind at 1, class_char.
  rewrite ic_fm0, ic_ec0, ic_eesc0. cbn [Z.eqb Pos.eqb andb negb]. unfold ret at 1.
  eexists. split; [done|]. split; [unfold same_place in *; simpl; intuition congruence|].
  by split_and!.
Qed.

(** ** Repetition *)

(** The text of the subject that is left. *)
Definition window (p : Z) (l : nat) : list Z := take l (drop (Z.to_nat p) ptr).

Lemma window_S p l : 0 <= p -> p + Z.of_nat (S l) <= zlength ptr ->
  exists c, ptr !! Z.to_nat p = Some c /\ window p (S l) = c :: window (p + 1) l.
Proof.
  intros Hp Hl. destruct (lookup_lt_is_Some_2 ptr (Z.to_nat p)) as [c E]; [lia|].
  exists c. split; [done|]. unfold window. rewrite (drop_S _ c) by done.
  replace (Z.to_nat (p + 1)) with (S (Z.to_nat p)) by lia. done.
Qed.

Lemma length_window p l : 0 <= p -> p + Z.of_nat l <= zlength ptr -> length (window p l) = l.
Proof. intros. unfold window. rewrite length_take, length_drop. lia. Qed.

Lemma window_drop p l k : 0 <= p -> drop k (window p l) = window (p + Z.of_nat k) (l - k).
Proof.
  intros. unfold window. rewrite skipn_firstn_comm, drop_drop. do 2 f_equal. lia.
Qed.

Lemma span_le neg qesc rs nmax t : forall nm quote esc, (span neg qesc rs nmax nm quote esc t <= length t)%nat.
Proof.
  induction t as [|c t IH]; intros; cbn [span length]; [lia|].
  repeat case_match; first [apply le_n_S, IH | lia].
Qed.

Lemma repeat_class_span neg qesc rs s nmax :
  s_neg s = neg -> s_qesc s = qesc -> s_n s = length rs -> take (length rs) (s_chrv s) = lower <$> rs ->
  nmax < 2 ^ 32 -> forall l nm p quote esc o, 0 <= nm -> 0 <= p -> p + Z.of_nat l <= zlength ptr ->
  let k := span neg qesc rs nmax nm quote esc (window p l) in
  repeat_class ptr s nmax nm p l quote esc o = Some ((nm + Z.of_nat k, p + Z.of_nat k, (l - k)%nat), o).
Proof.
  intros Hneg Hq Hn Ht Hm. induction l as [|l IH]; intros nm p quote esc o Hnm Hp Hl.
  { cbn. by rewrite !Z.add_0_r. }
  destruct (window_S p l) as (c & Ec & Ew); [lia..|]. rewrite Ew. cbn [repeat_class span].
  assert (ret (nm, p, S l) o = Some ((nm + Z.of_nat 0, p + Z.of_nat 0, (S l - 0)%nat), o)) as Hstop.
  { by rewrite !Z.add_0_r. }
  destruct (Z.ltb_spec nm nmax) as [Hlt|]; [|exact Hstop]. cbn [negb].
  unfold subject, lift, bind. rewrite Ec. rewrite (wrap_small 32 (nm + 1)) by lia.
  assert (forall q e, repeat_class ptr s nmax (nm + 1) (p + 1) l q e o =
     Some ((nm + Z.of_nat (S (span neg qesc rs nmax (nm + 1) q e (window (p + 1) l))),
            p + Z.of_nat (S (span neg qesc rs nmax (nm + 1) q e (window (p + 1) l))),
            (S l - S (span neg qesc rs nmax (nm + 1) q e (window (p + 1) l)))%nat), o)) as Hgo.
  { intros q e. rewrite IH by lia. do 4 f_equal; lia. }
  rewrite Hn, expr_match_spec, Hneg, Hq by done.
  destruct qesc; cbn [andb]; repeat case_match; auto.
Qed.

Lemma window_lookup p l i : 0 <= p -> (i < l)%nat -> window p l !! i = ptr !! Z.to_nat (p + Z.of_nat i).
Proof. intros. unfold window. rewrite lookup_take_lt, lookup_drop by done. f_equal. lia. Qed.

Lemma strip_quotes_spec s p l k o :
  0 <= p -> p + Z.of_nat l <= zlength ptr -> (k <= l)%nat -> Z.of_nat k < 2 ^ 32 ->
  strip_quotes ptr s p (Z.of_nat k) (Z.of_nat k) o =
  Some (if s_qesc s && quoted (take k (window p l))
        then (p + 1, Z.of_nat k - 2, Z.of_nat k - 2) else (p, Z.of_nat k, Z.of_nat k), o).
Proof.
  intros Hp Hl Hk Hb. unfold strip_quotes, quoted.
  assert (length (take k (window p l)) = k) as Ek by (rewrite length_take, length_window; lia).
  rewrite Ek. destruct (s_qesc s); [|done]. cbn [andb].
  destruct (Z.ltb_spec 1 (Z.of_nat k)); [|by destruct (Nat.leb_spec 2 k); [lia|]].
  destruct (Nat.leb_spec 2 k); [|lia]. cbn [andb]. rewrite !lookup_take_lt, !window_lookup by lia.
  replace (Z.to_nat (p + Z.of_nat 0)) with (Z.to_nat p) by lia.
  replace (Z.to_nat (p + Z.of_nat (pred k))) with (Z.to_nat (p + Z.of_nat k - 1)) by lia.
  unfold subject, lift, bind.
  destruct (lookup_lt_is_Some_2 ptr (Z.to_nat p)) as [a Ea]; [lia|].
  destruct (lookup_lt_is_Some_2 ptr (Z.to_nat (p + Z.of_nat k - 1))) as [b Eb]; [lia|]. rewrite Ea, Eb.
  rewrite (bool_decide_ext (Some a = Some 34) (a = 34)), (bool_decide_ext (Some b = Some 34) (b = 34)) by naive_solver.
  destruct (Z.eqb_spec a 34), (Z.eqb_spec b 34); repeat case_bool_decide; try done.
  by rewrite wrap_small by lia.
Qed.

Lemma span_bound neg qesc rs nmax t : forall nm quote esc,
  nm <= nmax -> nm + Z.of_nat (span neg qesc rs nmax nm quote esc t) <= nmax.
Proof.
  induction t as [|c t IH]; intros nm quote esc H; cbn [span]; [lia|].
  destruct (Z.ltb_spec nm nmax); cbn [negb]; [|lia].
  assert (forall q e, nm + Z.of_nat (S (span neg qesc rs nmax (nm + 1) q e t)) <= nmax) as Hgo.
  { intros q e. pose proof (IH (nm + 1) q e). lia. }
  repeat case_match; first [apply Hgo | lia].
Qed.

Lemma quantifier_range q nmin nmax : quantifier q = Some (nmin, nmax) -> 0 <= nmin <= nmax /\ nmax < 2 ^ 32.
Proof. unfold quantifier. change (u32 (-1)) with 4294967295. intros. repeat case_match; simplify_eq; lia. Qed.

(** ** Matching at one place *)

Record ready (s : scan) : Prop := {
  rd_fm : s_fm s = false; rd_eesc : s_eesc s = false; rd_len : length (s_chrv s) = 64%nat;
  rd_place : 0 <= s_p s /\ s_p s + Z.of_nat (s_l s) <= zlength ptr }.

Definition verdict_ok (v : verdict) (f : flow) (ep : list Z) : Prop :=
  match v, f with
  | Matched, Next s => s_fm s = false /\ ep = []
  | Mismatch, Again s => length (s_chrv s) = 64%nat
  | Ended, Break s => s_fm s = false /\ ep <> []
  | _, _ => False
  end.

(** The scan has the outcome [r] of the reference. *)
Definition implements (r : option (verdict * pls)) (m : option ((flow * list Z) * pls)) : Prop :=
  match r with
  | None => m = None
  | Some (v, o) => exists f ep, m = Some ((f, ep), o) /\ verdict_ok v f ep
  end.

Lemma scan_literal s c ep o :
  ready s ->
  scan_loop ptr args s (escape [92; 91; 93] c ++ ep) o =
  match window (s_p s) (s_l s) with
  | [] => scan_loop ptr args s (escape [92; 91; 93] c ++ ep) o
  | x :: _ => if tolower c =? tolower x
              then scan_loop ptr args (with_place false (s_p s + 1) (pred (s_l s)) (s_va s) s) ep o
              else scan_loop ptr args s (escape [92; 91; 93] c ++ ep) o
  end.
Proof.
  intros [Hfm Hes Hlen [Hp Hl]]. destruct (s_l s) as [|l] eqn:El; [done|].
  destruct (window_S (s_p s) l) as (x & Ex & ->); [lia..|]. destruct (tolower c =? tolower x) eqn:Ec; [|done].
  unfold escape. case_bool_decide as Hc; cbn [app scan_loop]; unfold round at 1, bind at 1.
  - rewrite Hes. cbn [Z.eqb Pos.eqb andb negb]. unfold ret at 1. cbn [scan_loop]. unfold round at 1, bind at 1.
    simpl. rewrite Hfm, !andb_false_r. cbn [negb]. unfold literal_char. simpl. rewrite El, !andb_false_r.
    unfold bind, subject, lift. simpl. by rewrite Ex, Ec, Hfm.
  - rewrite !not_elem_of_cons in Hc. replace (c =? 92) with false by lia. cbn [andb]. rewrite Hfm. cbn [negb].
    unfold literal_char. replace (c =? 91) with false by lia. rewrite El. cbn [andb].
    unfold bind, subject, lift. by rewrite Ex, Ec, Hfm.
Qed.

Lemma scan_literal_stops s c ep o :
  ready s ->
  match window (s_p s) (s_l s) with
  | [] => implements (Some (Ended, o)) (scan_loop ptr args s (escape [92; 91; 93] c ++ ep) o)
  | x :: _ => (tolower c =? tolower x) = false ->
      implements (Some (Mismatch, o)) (scan_loop ptr args s (escape [92; 91; 93] c ++ ep) o)
  end.
Proof.
  intros [Hfm Hes Hlen [Hp Hl]].
  assert (exists s1 e, scan_loop ptr args s (escape [92; 91; 93] c ++ ep) o = scan_loop ptr args s1 (c :: ep) o /\
     s_fm s1 = false /\ s_eesc s1 = e /\ (e = false -> c <> 92 /\ c <> 91) /\ s_l s1 = s_l s /\ s_p s1 = s_p s /\
     s_chrv s1 = s_chrv s) as (s1 & e & -> & Hfm1 & He & Hc & El & Ep & Ec).
  { unfold escape. case_bool_decide as Hc.
    - cbn [app]. cbn [scan_loop]. unfold round at 1, bind at 1. rewrite Hes. cbn [Z.eqb Pos.eqb andb negb].
      unfold ret at 1. by exists (with_eesc true s), true.
    - rewrite !not_elem_of_cons in Hc. destruct Hc as (H92 & H91 & _). exists s, false.
      split_and!; done. }
  cbn [scan_loop]. unfold round, bind, literal_char. rewrite Hfm1, He, El, Ep.
  assert ((c =? 92) && negb e = false) as -> by (destruct e; [apply andb_false_r|specialize (Hc eq_refl); lia]).
  assert ((c =? 91) && negb e = false) as -> by (destruct e; [apply andb_false_r|specialize (Hc eq_refl); lia]).
  cbn [negb]. destruct (s_l s) as [|l]; [by eexists _, _|].
  destruct (window_S (s_p s) l) as (x & Ex & ->); [lia..|]. intros Hx.
  unfold subject, lift, bind. rewrite Ex, Hx. eexists _, _. split; [done|]. simpl. by rewrite Ec.
Qed.

Lemma class_end_spec neg qesc rs q nmin nmax s b o :
  s_neg s = neg -> s_qesc s = qesc -> s_n s = length rs -> take (length rs) (s_chrv s) = lower <$> rs ->
  0 <= s_p s -> s_p s + Z.of_nat (s_l s) <= zlength ptr ->
  quantifier q = Some (nmin, nmax) -> args !! s_va s = Some b ->
  let t := window (s_p s) (s_l s) in
  let k := span neg qesc rs nmax 0 false false t in
  let s' := with_place false (s_p s + Z.of_nat k) (s_l s - k) (S (s_va s)) s in
  class_end ptr args s q o =
  let '(lo, n) := if qesc && quoted (take k t) then (s_p s + 1, Z.of_nat k - 2) else (s_p s, Z.of_nat k) in
  if n <? nmin then Some (Again s', o) else (assign args (s_va s) (lo, n);; ret (Next s')) o.
Proof.
  intros Hneg Hqe Hn Hch Hp Hl Eq Ea t k s'. unfold class_end, bind at 1, lift. rewrite Ea, Eq.
  apply quantifier_range in Eq as [Hmin Hmax].
  pose proof (repeat_class_span neg qesc rs s nmax Hneg Hqe Hn Hch Hmax (s_l s) 0 (s_p s) false false o) as Hk.
  cbv zeta in Hk. fold t k in Hk. rewrite !Z.add_0_l in Hk.
  pose proof (span_le neg qesc rs nmax t 0 false false) as Hle. fold k in Hle.
  pose proof (span_bound neg qesc rs nmax t 0 false false ltac:(lia)) as Hbd. fold k in Hbd.
  unfold t in Hle. rewrite length_window in Hle by lia.
  rewrite (bind_Some _ _ _ _ _ (Hk ltac:(lia) ltac:(lia) ltac:(lia))).
  replace (s_p s + Z.of_nat k - s_p s) with (Z.of_nat k) by lia.
  rewrite (bind_Some _ _ _ _ _ (strip_quotes_spec s (s_p s) (s_l s) k o Hp Hl Hle ltac:(lia))).
  rewrite Hqe. fold t. destruct (qesc && quoted (take k t));
    match goal with |- context [(?x <? nmin) || ?y] =>
      replace y with false by lia; rewrite orb_false_r; by destruct (x <? nmin) end.
Qed.

Lemma scan_items its : Forall item_ok its -> forall s o, ready s ->
  implements (attempt args its (s_p s) (window (s_p s) (s_l s)) (s_va s) o)
             (scan_loop ptr args s (print_items its) o).
Proof.
  induction 1 as [|it its Hit _ IH]; intros s o Hs.
  { exists (Next s), []. destruct Hs. by split. }
  unfold print_items. cbn [fmap list_fmap concat]. fold (print_items its).
  pose proof Hs as [Hfm Hes Hlen [Hp Hl]]. destruct it as [c|neg qesc rs q]; cbn [attempt].
  - cbn [print_item]. pose proof (scan_literal s c (print_items its) o Hs) as E1.
    pose proof (scan_literal_stops s c (print_items its) o Hs) as E2.
    destruct (s_l s) as [|l] eqn:El; [exact E2|].
    destruct (window_S (s_p s) l) as (x & Ex & Ew); [lia..|]. rewrite Ew in *.
    destruct (tolower c =? tolower x); [|by apply E2]. rewrite E1.
    apply (IH (with_place false (s_p s + 1) l (s_va s) s) o). split; simpl; [done..|lia].
  - destruct Hit as (Hrs & [[nmin nmax] Eq] & Hq).
    destruct (scan_class neg qesc rs q s (print_items its) o Hfm Hes Hlen Hrs Hq)
      as (s1 & -> & (Ep & El & Ev) & Hfm1 & Hec1 & Hes1 & Hneg & Hqe & Hn & Hlen1 & Hch).
    rewrite Eq. cbn [from_option id scan_loop]. unfold round. rewrite Hes1, Hfm1, Hec1.
    assert ((q =? 92) && negb false = false) as ->.
    { destruct (Z.eqb_spec q 92) as [->|]; [by vm_compute in Eq|done]. }
    cbn [negb]. rewrite <- Ev. destruct (args !! s_va s1) as [b|] eqn:Ea.
    2: { unfold class_end, bind, lift. by rewrite Ea. }
    rewrite (bind_Some _ _ o b o) by (unfold lift; done). unfold bind at 2.
    rewrite (class_end_spec neg qesc rs q nmin nmax s1 b o) by (try done; lia). cbv zeta. rewrite Ep, El.
    set (t := window (s_p s) (s_l s)). set (k := span neg qesc rs nmax 0 false false t).
    pose proof (span_le neg qesc rs nmax t 0 false false) as Hle. fold k in Hle.
    unfold t in Hle. rewrite length_window in Hle by lia.
    destruct (if qesc && quoted (take k t) then _ else _) as [lo n].
    destruct (n <? nmin); [by eexists _, _|].
    unfold assign, bind, lift. rewrite Ea.
    specialize (IH (with_place false (s_p s + Z.of_nat k) (s_l s - k) (S (s_va s1)) s1)).
    simpl in IH. unfold t. rewrite window_drop by lia.
    assert (ready (with_place false (s_p s + Z.of_nat k) (s_l s - k) (S (s_va s1)) s1)) as Hr
      by (split; simpl; [done..|lia]).
    destruct b; by apply IH.
Qed.
End refine.

Lemma print_items_nil its : print_items its = [] -> its = [].
Proof.
  destruct its as [|[c|neg qesc rs q] its]; [done|..]; unfold print_items; simpl.
  - unfold escape. by case_bool_decide.
  - done.
Qed.

Lemma try_from_search ptr args its : Forall item_ok its ->
  forall k s i o, length (s_chrv s) = 64%nat -> 0 <= i -> i + Z.of_nat k <= zlength ptr ->
  try_from ptr args (print_items its) s i k o = search args its i (window ptr i k) o.
Proof.
  intros Hits. induction k as [|k IH]; intros s i o Hs Hi Hk; cbn [try_from].
  { unfold result. cbn. destruct its as [|it its]; [done|].
    destruct (print_items (it :: its)) eqn:E; [by apply print_items_nil in E|done]. }
  destruct (window_S ptr i k Hi Hk) as (c & Ec & Ew). rewrite Ew. cbn [search]. rewrite <- Ew.
  pose proof (scan_items ptr args its Hits (with_place false i (S k) 0 s) o) as H.
  cbn [s_p s_l s_va with_place] in H. unfold bind at 1. unfold bind at 1.
  destruct (attempt args its i (window ptr i (S k)) 0 o) as [[v o']|].
  - destruct H as (f & ep & -> & Hv); [by split|].
    destruct v, f; try done; cbn [verdict_ok] in Hv.
    + destruct Hv as [Hf ->]. unfold result, ret. by rewrite Hf.
    + rewrite IH by (done || lia). done.
    + destruct Hv as [Hf Hep]. unfold result, ret. rewrite Hf. by destruct ep.
  - by rewrite H.
Qed.

Lemma re_regex_search ptr args chrv0 len its o :
  length chrv0 = CHRV_SIZE -> (len <= length ptr)%nat -> Forall item_ok its ->
  re_regex ptr args chrv0 len (print_items its) o = search args its 0 (take len ptr) o.
Proof.
  intros Hc Hl Hits. unfold re_regex. rewrite try_from_search by (done || lia). done.
Qed.

(** ** Properties *)

(** C35: Matching is safe for every expression, well formed or not, and every
    subject: the scan stays inside the subject and inside its array of 64
    ranges, and ends.  It returns success, [ENOENT] or [EINVAL], and every
    result it sets is a part of the subject.  The caller has to pass as many
    arguments as the expression has opening brackets. *)
Theorem re_regex_safe ptr args chrv0 len expr o :
  (len <= length ptr)%nat -> length chrv0 = CHRV_SIZE -> (brackets expr <= length args)%nat ->
  length o = length args -> Forall (within (Z.of_nat len)) o ->
  exists e o', re_regex ptr args chrv0 len expr o = Some (e, o') /\
    (e = 0 \/ e = ENOENT \/ e = EINVAL) /\
    length o' = length args /\ Forall (within (Z.of_nat len)) o'.
Proof.
  intros Hl Hc Hb Ho Hw.
  destruct (try_from_ok ptr args (Z.of_nat len) ltac:(lia) expr Hb len
    {| s_fm := false; s_range := false; s_ec := false; s_neg := false; s_qesc := false;
       s_eesc := false; s_chrv := chrv0; s_n := 0; s_p := 0; s_l := 0; s_va := 0 |} 0 o)
    as (e & o' & E & [Ho1 Ho2] & He); [simpl; unfold CHRV_SIZE in Hc; lia|done|lia|lia|].
  by exists e, o'.
Qed.

(** C29: An expression made of literals and of character classes with a
    quantifier means what [search] computes.  The places of the subject are
    tried in order; at each every item matches in turn, a class taking all the
    characters it can, case ignored, quoted strings skipped and unquoted where
    the class asks for it.  The first place where all items match gives the
    parts the classes took; a place before it where the subject ends in front
    of a literal ends the search with [ENOENT]. *)
Theorem re_regex_refines ptr args chrv0 len its o :
  length chrv0 = CHRV_SIZE -> (len <= length ptr)%nat -> Forall item_ok its ->
  re_regex ptr args chrv0 len (print_items its) o = search args its 0 (take len ptr) o.
Proof.
  apply re_regex_search.
Qed.

(** The example of the documentation: "foo 42 bar" and "[0-9]+". *)
Definition ex_subject : list Z := [102; 111; 111; 32; 52; 50; 32; 98; 97; 114].
Definition ex_number : list item := [Cls false false [{| ch_min := 48; ch_max := 57 |}] 43].
Definition ex_chrv : list chr := replicate 64 {| ch_min := 0; ch_max := 0 |}.

Lemma re_regex_safe_witness :
  exists e o', re_regex ex_subject [true] ex_chrv 10 [91; 48; 45; 57; 93; 43] [None] = Some (e, o') /\
    (e = 0 \/ e = ENOENT \/ e = EINVAL) /\ length o' = 1%nat /\ Forall (within 10) o'.
Proof.
  apply (re_regex_safe ex_subject [true] ex_chrv 10 [91; 48; 45; 57; 93; 43] [None]);
    [vm_compute; lia|reflexivity|vm_compute; lia|reflexivity|by constructor].
Defined.

Lemma re_regex_refines_witness :
  re_regex ex_subject [true] ex_chrv 10 (print_items ex_number) [None] = Some (0, [Some (4, 2)]).
Proof.
  rewrite (re_regex_refines ex_subject [true] ex_chrv 10 ex_number [None]);
    [vm_compute; reflexivity|reflexivity|vm_compute; lia|].
  constructor; [|constructor]. split; [vm_compute; lia|]. split; [by eexists|done].
Defined.
