(* ===== verification/Print.v ===== *)
(** * Formatted printing (fmt/print.c)

    [vhprintf] with its checked arguments (the [safe] variant that every
    [re_printf] macro expands to), over an arbitrary print handler [vph] with a
    state of its own; the handlers for a buffer on the stack, for a growing
    string and for an [mbuf].  The build is a release build: without [RELEASE]
    the errors [ENODATA] and [EOVERFLOW] stop the program instead of being
    returned.  The conversions %f, %m, %v, %j and %J are not modelled; the
    definitions are undefined on them. *)

From S2P Require Export Prelude Mbuf.

Definition LENMOD_NONE : Z := 0.
Definition LENMOD_LONG : Z := 1.
Definition LENMOD_LONG_LONG : Z := 2.
Definition LENMOD_INT64 : Z := 3.
Definition LENMOD_SIZE : Z := 42.
Definition NUM_SIZE : Z := 64.

Definition prfx_neg : list Z := [45].
Definition prfx_hex : list Z := [48; 120].
Definition str_nil : list Z := [40; 110; 105; 108; 41].

(** What a variable argument holds: an integer, a pointer to characters or
    bytes, a pointer to a [struct pl] (whose pointer may be NULL), or a print
    handler together with its argument. *)
Inductive va_val (S : Type) :=
  | VNum (z : Z)
  | VPtr (m : option (list Z))
  | VPl (pl : option (option (list Z)))
  | VHandler (ph : option (M S Z)).
Arguments VNum {S}. Arguments VPtr {S}. Arguments VPl {S}. Arguments VHandler {S}.

(** An argument with its size, as [RE_VA_ARGS] passes them. *)
Record va_arg (S : Type) := Arg { va_size : Z; va_value : va_val S }.
Arguments Arg {S}. Arguments va_size {S}. Arguments va_value {S}.

(** The variables of a conversion.  [fpad] is used by %f alone. *)
Record spec := { f_plr : bool; f_uc : bool; f_pch : Z; f_pad : Z; f_lenmod : Z }.

Definition spec0 : spec := {| f_plr := false; f_uc := false; f_pch := 32; f_pad := 0; f_lenmod := LENMOD_NONE |}.

(** ** Numbers *)

(** [*--p = c], over the array [num]. *)
Definition push_digit (p c : Z) : M (list Z) Z := fun buf =>
  match mem_store buf (p - 1) [c] with Some buf => Some (p - 1, buf) | None => None end.

(** The digits of [n], from the last one backwards; [len] counts the
    terminator too. *)
Fixpoint itoa_loop (fuel : nat) (n base : Z) (uc : bool) (p len : Z) : M (list Z) (Z * Z) :=
  match fuel with
  | O => ub
  | S fuel =>
      let dv := n / base in
      let c := n - dv * base in
      let* p := push_digit p (if c <? 10 then 48 + c else (if uc then 65 else 97) + (c - 10)) in
      if nz dv then itoa_loop fuel dv base uc p (len + 1) else ret (p, len + 1)
  end.

(** The length of the text, which is moved to the start of the array. *)
Definition local_itoa (n base : Z) (uc : bool) : M (list Z) Z :=
  (fun buf => match mem_store buf (NUM_SIZE - 1) [0] with Some buf => Some (tt, buf) | None => None end);;
  let* '(p, len) := itoa_loop (Z.to_nat NUM_SIZE) n base uc (NUM_SIZE - 1) 1 in
  let* text := (fun buf => match mem_load buf p len with Some t => Some (t, buf) | None => None end) in
  (fun buf => match mem_store buf 0 text with Some buf => Some (len - 1, buf) | None => None end).

Section print.
Context {S : Type}.
Variable vph : list Z -> M S Z.
(** The array [num] on the stack, as it is found. *)
Variable num0 : list Z.

(** [n] times [err |= m] *)
Fixpoint times (n : nat) (m : M S Z) : M S Z :=
  match n with O => ret 0 | Datatypes.S n => m |; times n m end.

(** [while (pad-- > sz) err |= vph(&pch, 1, arg);] *)
Definition padding (pad sz pch : Z) : M S Z := times (Z.to_nat (pad - sz)) (vph [pch]).

Definition write_padded (p : option (list Z)) (sz pad pch : Z) (plr : bool) (prfx : option (list Z)) : M S Z :=
  let prfx_len := match prfx with Some s => zlength s | None => 0 end in
  let pad := pad - Z.min pad prfx_len in
  let put_prfx (b : bool) := match prfx with Some s => if b then vph s else ret 0 | None => ret 0 end in
  put_prfx (pch =? 48) |;
  (if plr then ret 0 else padding pad sz pch) |;
  put_prfx (negb (pch =? 48)) |;
  (match p with
   | Some m => if nz sz then let* t := lift (mem_load m 0 sz) in vph t else ret 0
   | None => ret 0
   end) |;
  (if plr then padding pad sz pch else ret 0).

(** A number through the array [num]. *)
Definition write_num (n base : Z) (uc : bool) (pad pch : Z) (plr : bool) (prfx : option (list Z)) : M S Z :=
  let* '(len, num) := lift (local_itoa n base uc num0) in
  write_padded (Some num) len pad pch plr prfx.

(** How a conversion ends: with the rest of the arguments, and whether it is
    complete; or at [out:]. *)
Inductive outcome :=
  | Done (err : Z) (ap : list (va_arg S))
  | More (f : spec) (ap : list (va_arg S))
  | Out (err : Z).

(** [RE_VA_ARG(ap, val, type, true)] for a type of [size] bytes. *)
Definition RE_VA_ARG (size : Z) (ap : list (va_arg S))
    (k : va_val S -> list (va_arg S) -> M S outcome) : M S outcome :=
  match ap with
  | [] => ret (Out ENODATA)
  | a :: ap =>
      if va_size a =? 0 then ret (Out ENODATA)
      else if negb (va_size a =? size) then ret (Out EOVERFLOW)
      else k (va_value a) ap
  end.

Definition va_num (size : Z) (ap : list (va_arg S)) (k : Z -> list (va_arg S) -> M S outcome) : M S outcome :=
  RE_VA_ARG size ap (fun v ap => match v with VNum z => k z ap | _ => ub end).
Definition va_ptr (ap : list (va_arg S)) (k : option (list Z) -> list (va_arg S) -> M S outcome) : M S outcome :=
  RE_VA_ARG 8 ap (fun v ap => match v with VPtr m => k m ap | _ => ub end).

Definition done (m : M S Z) (ap : list (va_arg S)) : M S outcome := let* e := m in ret (Done e ap).

(** [str_len] and the argument of %s: the string ends before its terminator. *)
Definition opt_len (s : option (list Z)) : Z := match s with Some s => zlength s | None => 0 end.

(** The size of the integer a length modifier stands for. *)
Definition int_size (lenmod : Z) : Z := if lenmod =? LENMOD_NONE then 4 else 8.

Definition conv_signed (f : spec) (ap : list (va_arg S)) : M S outcome :=
  va_num (int_size (f_lenmod f)) ap (fun z ap =>
    let sn := swrap (8 * int_size (f_lenmod f)) z in
    if sn =? - 2 ^ 63 then ub else
    done (write_num (Z.abs sn) 10 false (f_pad f) (if f_plr f then 32 else f_pch f) (f_plr f)
            (if sn <? 0 then Some prfx_neg else None)) ap).

Definition conv_unsigned (base : Z) (f : spec) (ap : list (va_arg S)) : M S outcome :=
  va_num (int_size (f_lenmod f)) ap (fun z ap =>
    done (write_num (wrap (8 * int_size (f_lenmod f)) z) base (f_uc f) (f_pad f)
            (if f_plr f then 32 else f_pch f) (f_plr f) None) ap).

(** The bytes of %w. *)
Fixpoint hex_bytes (bs : list Z) (uc : bool) : M S Z :=
  match bs with
  | [] => ret 0
  | v :: bs => write_num v 16 uc 2 48 false None |; hex_bytes bs uc
  end.

Definition conv_hex (f : spec) (ap : list (va_arg S)) : M S outcome :=
  va_ptr ap (fun bptr ap => va_num 8 ap (fun len ap =>
    let len := match bptr with Some _ => wrap 64 len | None => 0 end in
    let pch := if f_plr f then 32 else f_pch f in
    let* bs := lift (mem_load (default [] bptr) 0 len) in
    done ((if f_plr f then ret 0 else padding (f_pad f) (u64 (len * 2)) pch) |;
          hex_bytes bs (f_uc f) |;
          (if f_plr f then padding (f_pad f) (u64 (len * 2)) pch else ret 0)) ap)).

Definition with_mod (lenmod : Z) (f : spec) : spec :=
  {| f_plr := f_plr f; f_uc := f_uc f; f_pch := f_pch f; f_pad := f_pad f; f_lenmod := lenmod |}.
Definition with_pad (plr : bool) (pch pad : Z) (f : spec) : spec :=
  {| f_plr := plr; f_uc := f_uc f; f_pch := pch; f_pad := pad; f_lenmod := f_lenmod f |}.
Definition with_uc (f : spec) : spec :=
  {| f_plr := f_plr f; f_uc := true; f_pch := f_pch f; f_pad := f_pad f; f_lenmod := f_lenmod f |}.

(** [switch ( *p)], after a per cent sign. *)
Definition conversion (c : Z) (f : spec) (ap : list (va_arg S)) : M S outcome :=
  let text m sz := write_padded m sz (f_pad f) 32 (f_plr f) None in
  if c =? 45 (* '-' *) then ret (More (with_pad true (f_pch f) (f_pad f) f) ap)
  else if c =? 46 (* '.' *) then ret (More (with_pad (f_plr f) (f_pch f) 0 f) ap)
  else if c =? 37 (* '%' *) then done (vph [37]) ap
  else if c =? 98 (* 'b' *) then
    va_ptr ap (fun str ap => va_num 8 ap (fun len ap =>
      done (text str (match str with Some _ => wrap 64 len | None => 0 end)) ap))
  else if c =? 99 (* 'c' *) then va_num 4 ap (fun z ap => done (text (Some [wrap 8 z]) 1) ap)
  else if (c =? 100) || (c =? 105) (* 'd', 'i' *) then conv_signed f ap
  else if c =? 72 (* 'H' *) then
    RE_VA_ARG 8 ap (fun v ap => RE_VA_ARG 8 ap (fun _ ap =>
      match v with
      | VHandler (Some ph) => done ph ap
      | VHandler None => ret (Done 0 ap)
      | _ => ub
      end))
  else if c =? 108 (* 'l' *) then ret (More (with_mod (f_lenmod f + 1) f) ap)
  else if c =? 112 (* 'p' *) then
    va_num 8 ap (fun ptr ap =>
      done (if nz ptr
            then write_num ptr 16 false (f_pad f) (if f_plr f then 32 else f_pch f) (f_plr f) (Some prfx_hex)
            else text (Some str_nil) 5) ap)
  else if c =? 114 (* 'r' *) then
    RE_VA_ARG 8 ap (fun v ap =>
      match v with
      | VPl pl => let p := default None pl in done (text p (opt_len p)) ap
      | _ => ub
      end)
  else if c =? 115 (* 's' *) then va_ptr ap (fun str ap => done (text str (opt_len str)) ap)
  else if c =? 88 (* 'X' *) then conv_unsigned 16 (with_uc f) ap
  else if c =? 120 (* 'x' *) then conv_unsigned 16 f ap
  else if c =? 117 (* 'u' *) then conv_unsigned 10 f ap
  else if c =? 87 (* 'W' *) then conv_hex (with_uc f) ap
  else if c =? 119 (* 'w' *) then conv_hex f ap
  else if c =? 122 (* 'z' *) then ret (More (with_mod LENMOD_SIZE f) ap)
  else if c =? 76 (* 'L' *) then ret (More (with_mod LENMOD_INT64 f) ap)
  else if bool_decide (c ∈ [70; 74; 102; 106; 109; 118]) (* F, J, f, j, m, v *) then ub
  else if (48 <=? c) && (c <=? 57) then
    ret (More (if (f_pad f =? 0) && (c =? 48) then with_pad (f_plr f) 48 (f_pad f) f
               else with_pad (f_plr f) (f_pch f) (u64 (u64 (f_pad f * 10) + (c - 48))) f) ap)
  else done (vph [63]) ap.

(** The loop over the format.  [lit] is the text from [p0] to [p]; a conversion
    is open when there is a [spec]. *)
Fixpoint format_loop (fmt : list Z) (lit : list Z) (o : option spec) (ap : list (va_arg S)) : M S Z :=
  match fmt, o with
  | [], None => match lit with [] => ret 0 | _ => vph lit end
  | [], Some _ => ret 0
  | c :: fmt, None =>
      if c =? 37 then
        check (match lit with [] => ret 0 | _ => vph lit end) (format_loop fmt [] (Some spec0) ap)
      else format_loop fmt (lit ++ [c]) None ap
  | c :: fmt, Some f =>
      let* r := conversion c f ap in
      match r with
      | Done err ap => if nz err then ret err else format_loop fmt [] None ap
      | More f ap => format_loop fmt [] (Some f) ap
      | Out err => ret err
      end
  end.

Definition vhprintf (fmt : list Z) (ap : list (va_arg S)) : M S Z := format_loop fmt [] None ap.

End print.

(** ** The print handlers *)

(** [print_handler]: the rest of a buffer as a [struct pl], with the block it
    lies in. *)
Record pl_print := { pr_str : list Z; pr_p : Z; pr_l : Z }.

Definition print_handler (t : list Z) : M pl_print Z := fun s =>
  if pr_l s <? zlength t then Some (ENOMEM, s) else
  match mem_store (pr_str s) (pr_p s) t with
  | Some str => Some (0, {| pr_str := str; pr_p := pr_p s + zlength t; pr_l := pr_l s - zlength t |})
  | None => None
  end.

(** The number of characters or -1, over the block at [str]. *)
Definition re_vsnprintf_s (num0 : list Z) (size : Z) (fmt : list Z) (ap : list (va_arg pl_print)) :
    M (list Z) Z := fun str =>
  if size =? 0 then Some (-1, str) else
  match vhprintf print_handler num0 fmt ap {| pr_str := str; pr_p := 0; pr_l := size - 1 |} with
  | None => None
  | Some (err, s) =>
      match mem_store (pr_str s) (u64 (size - pr_l s - 1)) [0] with
      | Some str => Some (if nz err then -1 else s32 (u64 (size - pr_l s - 1)), str)
      | None => None
      end
  end.

Section dyn.
Context `{Host}.

(** [struct dyn_print]; [dp_p] is an offset in the block. *)
Record dyn_print := { dp_str : list Z; dp_p : Z; dp_l : Z; dp_size : Z }.

Definition print_handler_dyn (t : list Z) : M dyn_print Z := fun dp =>
  let store dp :=
    match mem_store (dp_str dp) (dp_p dp) t with
    | Some str => Some (0, {| dp_str := str; dp_p := dp_p dp + zlength t;
                              dp_l := u64 (dp_l dp - zlength t); dp_size := dp_size dp |})
    | None => None
    end in
  if u64 (dp_l dp - 1) <? zlength t then
    let new_size := Z.max (u64 (dp_size dp + zlength t)) (u64 (dp_size dp * 2)) in
    if alloc_ok new_size then
      let l := u64 (dp_l dp + (new_size - dp_size dp)) in
      store {| dp_str := realloc_bytes (dp_str dp) new_size; dp_p := new_size - l; dp_l := l;
               dp_size := new_size |}
    else Some (ENOMEM, dp)
  else store dp.

(** The result, with the block of the new string. *)
Definition vsdprintf (num0 : list Z) (fmt : list Z) (ap : list (va_arg dyn_print)) : option (Z * option (list Z)) :=
  if alloc_ok 16 then
    match vhprintf print_handler_dyn num0 fmt ap
            {| dp_str := fresh_bytes 0 16; dp_p := 0; dp_l := 16; dp_size := 16 |} with
    | None => None
    | Some (err, dp) =>
        if nz err then Some (err, None) else
        match mem_store (dp_str dp) (dp_p dp) [0] with
        | Some str => Some (0, Some str)
        | None => None
        end
    end
  else Some (ENOMEM, None).

(** [vprintf_handler] and [mbuf_printf] (mbuf/mbuf.c) *)
Definition vprintf_handler (t : list Z) : M mbuf Z := mbuf_write_mem t.
Definition mbuf_printf (num0 : list Z) (fmt : list Z) (ap : list (va_arg mbuf)) : M mbuf Z :=
  vhprintf vprintf_handler num0 fmt ap.
End dyn.
