(* ===== verification/PrintThms.v ===== *)
(** * Formatted printing: numbers, padding and whole formats

    [Sink] is what a print handler promises; formats are lists of directives,
    [render] is the text they stand for, and [vhprintf] prints it into every
    sink.  Then the errors of missing and mistyped arguments, and the buffer,
    string and [mbuf] handlers as sinks. *)

From S2P Require Import Prelude Mem Mbuf MbufSpec Print.

(** ** Numbers *)

Definition digit (uc : bool) (c : Z) : Z := if c <? 10 then 48 + c else (if uc then 65 else 97) + (c - 10).

Fixpoint digits (fuel : nat) (base : Z) (uc : bool) (n : Z) : list Z :=
  match fuel with
  | O => []
  | S fuel => (if nz (n / base) then digits fuel base uc (n / base) else []) ++ [digit uc (n mod base)]
  end.

(** The text of a number below [2^64]. *)
Definition itext (base : Z) (uc : bool) (n : Z) : list Z := digits 64 base uc n.

Lemma length_digits base uc k : 2 <= base -> forall fuel n, 0 <= n < base ^ Z.of_nat k -> (1 <= k)%nat ->
  (length (digits fuel base uc n) <= k)%nat.
Proof.
  intros Hb. induction k as [|k IH]; [lia|]. intros [|fuel] n Hn _; [simpl; lia|]. cbn [digits].
  rewrite length_app. cbn [length]. unfold nz. destruct (Z.eqb_spec (n / base) 0); cbn [negb length]; [lia|].
  rewrite Nat2Z.inj_succ, Z.pow_succ_r in Hn by lia.
  assert (0 <= n / base < base ^ Z.of_nat k) as Hq.
  { split; [apply Z.div_pos; lia|]. apply Z.div_lt_upper_bound; lia. }
  destruct k as [|k]; [simpl in Hq; lia|]. pose proof (IH fuel (n / base) Hq). lia.
Qed.

Lemma digits_S fuel base uc n :
  digits (S fuel) base uc n =
  (if nz (n / base) then digits fuel base uc (n / base) else []) ++ [digit uc (n mod base)].
Proof. reflexivity. Qed.

Lemma length_itext base uc n : 10 <= base -> 0 <= n < 2 ^ 64 -> (1 <= length (itext base uc n) <= 20)%nat.
Proof.
  intros Hb Hn. unfold itext. split; [rewrite digits_S, length_app; cbn [length]; lia|].
  apply (length_digits base uc 20); [lia| |lia]. split; [lia|].
  assert (10 ^ 20 <= base ^ 20) by (apply Z.pow_le_mono_l; lia). change (Z.of_nat 20) with 20. lia.
Qed.

Lemma itoa_loop_spec base uc : 2 <= base -> forall fuel n p len buf,
  0 <= n < base ^ Z.of_nat fuel -> (1 <= fuel)%nat ->
  zlength (digits fuel base uc n) <= p -> p <= zlength buf ->
  itoa_loop fuel n base uc p len buf =
  let t := digits fuel base uc n in
  Some ((p - zlength t, len + zlength t), splice buf (p - zlength t) t).
Proof.
  intros Hb. induction fuel as [|fuel IH]; intros n p len buf Hn Hf Hl Hp; [lia|].
  rewrite digits_S, length_app in *. cbn [length itoa_loop] in *.
  rewrite Nat2Z.inj_succ, Z.pow_succ_r in Hn by lia.
  assert (n - n / base * base = n mod base) as Em by (rewrite Z.mod_eq by lia; lia).
  unfold bind at 1, push_digit, mem_store. rewrite Em. fold (digit uc (n mod base)).
  rewrite in_block_true by (cbn [length]; lia).
  assert (0 <= n / base < base ^ Z.of_nat fuel) as Hq.
  { split; [apply Z.div_pos; lia|]. apply Z.div_lt_upper_bound; lia. }
  assert (zlength (splice buf (p - 1) [digit uc (n mod base)]) = zlength buf) as El
    by (rewrite length_splice; cbn [length]; lia).
  unfold nz in *. destruct (Z.eqb_spec (n / base) 0) as [E0|E0]; cbn [negb app length] in *.
  { unfold ret. cbv zeta. done. }
  assert (1 <= fuel)%nat by (destruct fuel; [simpl in Hq; lia|lia]).
  rewrite IH by lia. cbv zeta. set (t := digits fuel base uc (n / base)) in *.
  rewrite length_app. cbn [length]. rewrite Nat.add_1_r, Nat2Z.inj_succ.
  replace (p - 1 - zlength t) with (p - Z.succ (zlength t)) by lia.
  replace (len + 1 + zlength t) with (len + Z.succ (zlength t)) by lia. do 2 f_equal.
  rewrite <- (splice_before buf (p - Z.succ (zlength t)) t) by (cbn [length]; lia).
  do 2 f_equal. lia.
Qed.

(** [local_itoa] leaves the text at the start of its array. *)
Lemma local_itoa_spec n base uc buf :
  10 <= base -> 0 <= n < 2 ^ 64 -> zlength buf = NUM_SIZE ->
  let t := itext base uc n in
  exists buf', local_itoa n base uc buf = Some (zlength t, buf') /\
    mem_load buf' 0 (zlength t) = Some t.
Proof.
  intros Hb Hn Hl t. unfold NUM_SIZE in *.
  pose proof (length_itext base uc n Hb Hn) as Ht. fold t in Ht.
  unfold local_itoa, NUM_SIZE, mem_store at 1, bind at 1.
  rewrite in_block_true by (cbn [length]; lia).
  assert (n < base ^ 64).
  { assert (10 ^ 64 <= base ^ 64) by (apply Z.pow_le_mono_l; lia). lia. }
  assert (zlength (splice buf (64 - 1) [0]) = 64) as Hl1 by (rewrite length_splice; cbn [length]; lia).
  unfold bind at 1. change (Z.to_nat 64) with 64%nat.
  rewrite itoa_loop_spec by (try lia; fold (itext base uc n); fold t; lia).
  cbv zeta. fold (itext base uc n). fold t. set (q := 64 - 1 - zlength t).
  replace (64 - 1) with (q + zlength t) by lia. rewrite splice_before by (cbn [length]; lia).
  assert (zlength (t ++ [0]) = 1 + zlength t) as Et by (rewrite length_app; cbn [length]; lia).
  rewrite <- Et. assert (zlength (splice buf q (t ++ [0])) = 64) as Hl2 by (rewrite length_splice; lia).
  unfold bind, mem_load at 1. rewrite in_block_true by lia. rewrite slice_splice by lia.
  unfold mem_store. rewrite in_block_true by lia. eexists. split; [do 2 f_equal; lia|].
  unfold mem_load. rewrite in_block_true by (rewrite ?length_splice; lia).
  by rewrite slice_prefix.
Qed.

(** ** Sinks *)

(** What a print handler promises.  In a state that is [ok] it takes a text
    there is [room] for, and [put] says what it did; texts put one after the
    other are put together.  Without room, [bad] describes its result and that
    of the code that goes on after it. *)
Class Sink {S} (vph : list Z -> M S Z) (ok : S -> Prop) (room : S -> Z -> Prop)
    (put : S -> list Z -> S -> Prop) (bad : option (Z * S) -> Prop) : Prop := {
  sink_nil s : ok s -> put s [] s;
  sink_app s a s1 b s2 : ok s -> put s a s1 -> put s1 b s2 -> put s (a ++ b) s2;
  sink_ok s t s' : ok s -> put s t s' -> ok s';
  sink_room s a s1 n : ok s -> put s a s1 -> 0 <= n -> room s (zlength a + n) -> room s1 n;
  sink_less s m n : 0 <= n <= m -> room s m -> room s n;
  sink_put s t : ok s -> bytes_ok t ->
    (exists s', vph t s = Some (0, s') /\ put s t s') \/ ~ room s (zlength t) /\ bad (vph t s);
  sink_bad_bind m k s : (forall e s, e <> 0 -> k e s = Some (e, s)) -> bad (m s) -> bad (bind m k s);
  sink_bad_or m1 m2 s : bad (m1 s) ->
    (forall s1, ok s1 -> (exists s2, m2 s1 = Some (0, s2) /\ ok s2) \/ bad (m2 s1)) -> bad ((m1 |; m2) s) }.

Section sink.
Context {S} {vph : list Z -> M S Z} {ok room put bad} {K : Sink vph ok room put bad}.

(** [m] prints [t] and goes on as [k], or fails for lack of room. *)
Definition Runs (m k : M S Z) (t : list Z) : Prop :=
  forall s, ok s -> bytes_ok t ->
    (exists s', m s = k s' /\ put s t s') \/ ~ room s (zlength t) /\ bad (m s).

Definition Prints (m : M S Z) (t : list Z) : Prop := Runs m (ret 0) t.

Lemma runs_trans m1 m2 m3 a b : Runs m1 m2 a -> Runs m2 m3 b -> Runs m1 m3 (a ++ b).
Proof.
  intros H1 H2 s Hs Hok. apply Forall_app in Hok as [Ha Hb]. rewrite length_app, Nat2Z.inj_add.
  destruct (H1 s Hs Ha) as [(s1 & E1 & P1)|[Hr B]].
  - destruct (H2 s1 (sink_ok _ _ _ Hs P1) Hb) as [(s2 & E2 & P2)|[Hr B]].
    + left. exists s2. split; [congruence|by eapply sink_app].
    + right. rewrite E1. split; [|done]. contradict Hr. eapply sink_room; [exact Hs|exact P1|lia|done].
  - right. split; [|done]. contradict Hr. eapply sink_less; [|exact Hr]. lia.
Qed.

(** After a successful call the code goes on, after a failed one it returns. *)
Lemma runs_bind m (k : Z -> M S Z) t :
  (forall e s, e <> 0 -> k e s = Some (e, s)) -> Prints m t -> Runs (bind m k) (k 0) t.
Proof.
  intros Hk H s Hs Hok. destruct (H s Hs Hok) as [(s1 & E1 & P1)|[Hr B]].
  - left. exists s1. split; [|done]. unfold bind. by rewrite E1.
  - right. split; [done|]. by apply sink_bad_bind.
Qed.

Lemma runs_check m k t : Prints m t -> Runs (check m k) k t.
Proof.
  apply (runs_bind m (fun e => if nz e then ret e else k)). intros e s He. unfold nz.
  by destruct (Z.eqb_spec e 0).
Qed.

Lemma prints_ret : Prints (ret 0) [].
Proof. intros s Hs _. left. exists s. split; [done|by apply sink_nil]. Qed.

Lemma prints_vph t : Prints (vph t) t.
Proof. intros s Hs Ht. by apply sink_put. Qed.

Lemma prints_or m1 a m2 b : Prints m1 a -> Prints m2 b -> Prints (m1 |; m2) (a ++ b).
Proof.
  intros H1 H2 s Hs Hok. apply Forall_app in Hok as [Ha Hb]. rewrite length_app, Nat2Z.inj_add.
  destruct (H1 s Hs Ha) as [(s1 & E1 & P1)|[Hr B]].
  - assert ((m1 |; m2) s = m2 s1) as ->.
    { unfold or_err, bind. rewrite E1. unfold ret. destruct (m2 s1) as [[e2 s2]|]; [by rewrite Z.lor_0_l|done]. }
    destruct (H2 s1 (sink_ok _ _ _ Hs P1) Hb) as [(s2 & E2 & P2)|[Hr B]].
    + left. exists s2. split; [done|by eapply sink_app].
    + right. split; [|done]. contradict Hr. eapply sink_room; [exact Hs|exact P1|lia|done].
  - right. split; [contradict Hr; eapply sink_less; [|exact Hr]; lia|].
    apply sink_bad_or; [done|]. intros s1 Hs1.
    destruct (H2 s1 Hs1 Hb) as [(s2 & E2 & P2)|[_ B2]]; [left|by right].
    exists s2. split; [done|by eapply sink_ok].
Qed.

Lemma prints_times n m t : Prints m t -> Prints (times n m) (concat (replicate n t)).
Proof. intros H. induction n; [apply prints_ret|]. by apply prints_or. Qed.

Definition fill (n c : Z) : list Z := replicate (Z.to_nat n) c.

Lemma prints_padding pad sz pch : Prints (padding vph pad sz pch) (fill (pad - sz) pch).
Proof.
  unfold padding, fill. replace (replicate _ pch) with (concat (replicate (Z.to_nat (pad - sz)) [pch])).
  - apply prints_times, prints_vph.
  - induction (Z.to_nat (pad - sz)); simpl; congruence.
Qed.

(** A padded text: the prefix goes before zeros and after blanks. *)
Definition padded (t : list Z) (pad pch : Z) (plr : bool) (prfx : list Z) : list Z :=
  let n := pad - Z.min pad (zlength prfx) - zlength t in
  if plr then prfx ++ t ++ fill n pch
  else if pch =? 48 then prfx ++ fill n pch ++ t else fill n pch ++ prfx ++ t.

Lemma prints_padded p sz t pad pch plr prfx :
  match p with Some m => mem_load m 0 sz = Some t | None => t = [] end -> sz = zlength t ->
  Prints (write_padded vph p sz pad pch plr prfx) (padded t pad pch plr (default [] prfx)).
Proof.
  intros Hp ->. unfold write_padded, padded.
  assert (forall b : bool, Prints (match prfx with Some s => if b then vph s else ret 0 | None => ret 0 end)
            (if b then default [] prfx else [])) as Hx.
  { intros []; destruct prfx; (apply prints_vph || apply prints_ret). }
  assert (Prints (match p with
    | Some m => if nz (zlength t) then let* t := lift (mem_load m 0 (zlength t)) in vph t else ret 0
    | None => ret 0 end) t) as Ht.
  { destruct p as [m|]; [|subst; apply prints_ret]. unfold nz.
    destruct (Z.eqb_spec (zlength t) 0) as [E|E]; cbn [negb].
    - destruct t; [apply prints_ret|simpl in E; lia].
    - intros s. unfold bind, lift. rewrite Hp. apply prints_vph. }
  replace (match prfx with Some s => zlength s | None => 0 end) with (zlength (default [] prfx)) by by destruct prfx.
  set (n := pad - Z.min pad (zlength (default [] prfx))).
  pose proof (prints_padding n (zlength t) pch) as Hn.
  assert (forall b : bool, Prints (if b then padding vph n (zlength t) pch else ret 0)
                           (if b then fill (n - zlength t) pch else [])) as Hf.
  { intros []; [done|apply prints_ret]. }
  pose proof (prints_or _ _ _ _ (Hx (pch =? 48)) (prints_or _ _ _ _ (Hf (negb plr))
    (prints_or _ _ _ _ (Hx (negb (pch =? 48))) (prints_or _ _ _ _ Ht (Hf plr))))) as H.
  destruct plr, (pch =? 48); cbn [negb app] in H; rewrite ?app_nil_r in H; exact H.
Qed.

(** A number, through the array on the stack. *)
Lemma prints_num num0 n base uc pad pch plr prfx :
  zlength num0 = NUM_SIZE -> 10 <= base -> 0 <= n < 2 ^ 64 ->
  Prints (write_num vph num0 n base uc pad pch plr prfx) (padded (itext base uc n) pad pch plr (default [] prfx)).
Proof.
  intros Hl Hb Hn. destruct (local_itoa_spec n base uc num0 Hb Hn Hl) as (num & E1 & E2).
  intros s. unfold write_num, bind, lift. rewrite E1. by apply prints_padded.
Qed.
End sink.

(** ** Directives *)

(** Length modifiers: none, L, z. *)
Inductive intmod := MNone | MInt64 | MSize.

Inductive conv :=
  | CStr (s : option (list Z))
  | CPl (pl : option (option (list Z)))
  | CBuf (m : option (list Z)) (len : Z)
  | CChar (z : Z)
  | CInt (m : intmod) (z : Z)
  | CUint (m : intmod) (z : Z)
  | CHex (m : intmod) (uc : bool) (z : Z)
  | CPercent.

Record flags := { fl_minus : bool; fl_zero : bool; fl_width : Z }.

Inductive directive := DText (t : list Z) | DConv (fl : flags) (c : conv).

Definition mod_char (m : intmod) : list Z := match m with MNone => [] | MInt64 => [76] | MSize => [122] end.
Definition mod_size (m : intmod) : Z := match m with MNone => 4 | _ => 8 end.

Definition conv_char (c : conv) : list Z :=
  match c with
  | CStr _ => [115] | CPl _ => [114] | CBuf _ _ => [98] | CChar _ => [99]
  | CInt m _ => mod_char m ++ [100] | CUint m _ => mod_char m ++ [117]
  | CHex m uc _ => mod_char m ++ [if uc then 88 else 120]
  | CPercent => [37]
  end.

Definition flag_chars (fl : flags) : list Z :=
  (if fl_minus fl then [45] else []) ++ (if fl_zero fl then [48] else []) ++
  (if fl_width fl =? 0 then [] else itext 10 false (fl_width fl)).

Definition dir_format (d : directive) : list Z :=
  match d with DText t => t | DConv fl c => [37] ++ flag_chars fl ++ conv_char c end.

(** The arguments a conversion takes. *)
Definition conv_args {S} (c : conv) : list (va_arg S) :=
  match c with
  | CStr s => [Arg 8 (VPtr s)]
  | CPl pl => [Arg 8 (VPl pl)]
  | CBuf m len => [Arg 8 (VPtr m); Arg 8 (VNum len)]
  | CChar z => [Arg 4 (VNum z)]
  | CInt m z | CUint m z | CHex m _ z => [Arg (mod_size m) (VNum z)]
  | CPercent => []
  end.

Definition dir_args {S} (d : directive) : list (va_arg S) :=
  match d with DText _ => [] | DConv _ c => conv_args c end.

(** The text a conversion stands for. *)
Definition conv_text (fl : flags) (c : conv) : list Z :=
  let pch := if fl_minus fl then 32 else if fl_zero fl then 48 else 32 in
  let text t := padded t (fl_width fl) 32 (fl_minus fl) [] in
  let number base uc n prfx := padded (itext base uc n) (fl_width fl) pch (fl_minus fl) prfx in
  match c with
  | CStr s => text (default [] s)
  | CPl pl => text (default [] (default None pl))
  | CBuf m len => text (match m with Some m => take (Z.to_nat len) m | None => [] end)
  | CChar z => text [u8 z]
  | CInt m z => let n := swrap (8 * mod_size m) z in number 10 false (Z.abs n) (if n <? 0 then [45] else [])
  | CUint m z => number 10 false (wrap (8 * mod_size m) z) []
  | CHex m uc z => number 16 uc (wrap (8 * mod_size m) z) []
  | CPercent => [37]
  end.

Definition dir_text (d : directive) : list Z :=
  match d with DText t => t | DConv fl c => conv_text fl c end.

(** Texts have no per cent sign, buffers are as long as announced; the lowest
    64-bit integer cannot be printed as a signed one. *)
Definition dir_ok (d : directive) : Prop :=
  match d with
  | DText t => 37 ∉ t
  | DConv fl c =>
      0 <= fl_width fl < 2 ^ 64 /\
      match c with
      | CBuf (Some m) len => 0 <= len <= zlength m /\ len < 2 ^ 64
      | CInt m z => swrap (8 * mod_size m) z <> - 2 ^ 63
      | _ => True
      end
  end.

Section format.
Context {S} {vph : list Z -> M S Z} {ok room put bad} {K : Sink vph ok room put bad}.
Variable num0 : list Z.
Hypothesis num0_size : zlength num0 = NUM_SIZE.

Definition flag_spec (fl : flags) : spec :=
  {| f_plr := fl_minus fl; f_uc := false; f_pch := if fl_zero fl then 48 else 32;
     f_pad := fl_width fl; f_lenmod := LENMOD_NONE |}.

Lemma digit_char c : 0 <= c < 10 -> digit false c = 48 + c.
Proof. intros. unfold digit. by destruct (Z.ltb_spec c 10); [|lia]. Qed.

Lemma conversion_digit d f ap :
  0 <= d < 10 ->
  conversion vph num0 (48 + d) f ap =
  ret (More (if (f_pad f =? 0) && (d =? 0) then with_pad (f_plr f) 48 (f_pad f) f
             else with_pad (f_plr f) (f_pch f) (u64 (u64 (f_pad f * 10) + d)) f) ap).
Proof.
  intros Hd. unfold conversion.
  repeat (match goal with |- context [48 + d =? ?c] =>
            destruct (Z.eqb_spec (48 + d) c); [exfalso; lia|] end; cbn [orb]).
  rewrite bool_decide_false by (rewrite !elem_of_cons, elem_of_nil; lia).
  replace ((48 <=? 48 + d) && (48 + d <=? 57)) with true by lia.
  replace (48 + d - 48) with d by lia. by replace (48 + d =? 48) with (d =? 0) by lia.
Qed.

(** Reading a width. *)
Lemma width_loop fuel : forall n f fmt ap s,
  f_pad f = 0 -> 0 < n < 2 ^ 64 -> n < 10 ^ Z.of_nat fuel ->
  format_loop vph num0 (digits fuel 10 false n ++ fmt) [] (Some f) ap s =
  format_loop vph num0 fmt [] (Some (with_pad (f_plr f) (f_pch f) n f)) ap s.
Proof.
  induction fuel as [|fuel IH]; intros n f fmt ap s Hf Hn Hb; [simpl in Hb; lia|].
  rewrite Nat2Z.inj_succ, Z.pow_succ_r in Hb by lia.
  rewrite digits_S, <- app_assoc, digit_char by dlia. cbn [app]. unfold nz.
  destruct (Z.eqb_spec (n / 10) 0) as [E|E]; cbn [negb app].
  - cbn [format_loop]. rewrite conversion_digit by dlia. unfold bind, ret. rewrite Hf.
    replace ((0 =? 0) && (n mod 10 =? 0)) with false by dlia.
    rewrite !wrap_small by (rewrite ?wrap_small; dlia). do 3 f_equal. dlia.
  - rewrite IH by (try done; dlia). cbn [format_loop]. rewrite conversion_digit by dlia. unfold bind, ret.
    cbn [f_pad with_pad f_plr f_pch]. replace ((n / 10 =? 0) && (n mod 10 =? 0)) with false by lia.
    rewrite !wrap_small by (rewrite ?wrap_small; dlia).
    replace (n / 10 * 10 + n mod 10) with n by dlia. done.
Qed.

Lemma flags_loop fl fmt ap s :
  0 <= fl_width fl < 2 ^ 64 ->
  format_loop vph num0 (flag_chars fl ++ fmt) [] (Some spec0) ap s =
  format_loop vph num0 fmt [] (Some (flag_spec fl)) ap s.
Proof.
  intros Hw. unfold flag_chars. rewrite <- !app_assoc.
  set (tail := (if fl_width fl =? 0 then [] else itext 10 false (fl_width fl)) ++ fmt).
  assert (forall f, f_pad f = 0 -> format_loop vph num0 tail [] (Some f) ap s =
    format_loop vph num0 fmt [] (Some (with_pad (f_plr f) (f_pch f) (fl_width fl) f)) ap s) as Ht.
  { intros f Hf. unfold tail. destruct (Z.eqb_spec (fl_width fl) 0) as [->|].
    - rewrite <- Hf. by destruct f.
    - apply width_loop; [done|lia|]. simpl Z.of_nat. lia. }
  destruct fl as [[] [] w]; cbn [fl_minus fl_zero fl_width app]; cbn [format_loop]; unfold bind, conversion, ret;
    cbn [Z.eqb Pos.eqb]; try (rewrite bool_decide_false by (rewrite !elem_of_cons, elem_of_nil; lia)); simpl;
    by rewrite Ht.
Qed.

(** What happens after a conversion. *)
Definition after (fmt : list Z) (r : outcome) : M S Z :=
  match r with
  | Done err ap => if nz err then ret err else format_loop vph num0 fmt [] None ap
  | More f ap => format_loop vph num0 fmt [] (Some f) ap
  | Out err => ret err
  end.

Abbreviation runs := (Runs (ok := ok) (room := room) (put := put) (bad := bad)).
Abbreviation prints := (Prints (ok := ok) (room := room) (put := put) (bad := bad)).

Lemma runs_done m t fmt ap :
  prints m t -> runs (bind (done m ap) (after fmt)) (format_loop vph num0 fmt [] None ap) t.
Proof.
  intros H s. unfold done. rewrite bind_assoc.
  apply (runs_bind m (fun e => bind (ret (Done e ap)) (after fmt))); [|done].
  intros e s1 He. unfold bind, ret. cbn [after]. unfold nz. by destruct (Z.eqb_spec e 0).
Qed.

Lemma swrap_abs m z : swrap (8 * mod_size m) z <> - 2 ^ 63 -> 0 <= Z.abs (swrap (8 * mod_size m) z) < 2 ^ 64.
Proof. pose proof (swrap_range (8 * mod_size m) z). destruct m; cbn [mod_size] in *; lia. Qed.

Lemma wrap_mod_range m z : 0 <= wrap (8 * mod_size m) z < 2 ^ 64.
Proof. pose proof (wrap_range (8 * mod_size m) z). destruct m; cbn [mod_size] in *; lia. Qed.

Lemma int_size_mod m : int_size (match m with MNone => LENMOD_NONE | MInt64 => LENMOD_INT64 | MSize => LENMOD_SIZE end) = mod_size m.
Proof. by destruct m. Qed.

Definition mod_spec (m : intmod) (f : spec) : spec :=
  with_mod (match m with MNone => f_lenmod f | MInt64 => LENMOD_INT64 | MSize => LENMOD_SIZE end) f.

Lemma mod_loop m fmt f ap s :
  format_loop vph num0 (mod_char m ++ fmt) [] (Some f) ap s =
  format_loop vph num0 fmt [] (Some (mod_spec m f)) ap s.
Proof. destruct m; [by destruct f|done|done]. Qed.

Lemma signed_runs fl m z ap fmt :
  swrap (8 * mod_size m) z <> - 2 ^ 63 ->
  runs
    (bind (conv_signed vph num0 (mod_spec m (flag_spec fl)) (conv_args (CInt m z) ++ ap)) (after fmt))
    (format_loop vph num0 fmt [] None ap) (conv_text fl (CInt m z)).
Proof.
  intros Hz. unfold conv_signed, va_num, RE_VA_ARG. cbn [conv_args app va_size va_value].
  replace (int_size (f_lenmod (mod_spec m (flag_spec fl)))) with (mod_size m) by by destruct m.
  rewrite Z.eqb_refl. replace (mod_size m =? 0) with false by by destruct m. cbn [negb].
  destruct (Z.eqb_spec (swrap (8 * mod_size m) z) (- 2 ^ 63)); [done|].
  apply runs_done. cbn [conv_text].
  assert (default [] (if swrap (8 * mod_size m) z <? 0 then Some prfx_neg else None) =
          if swrap (8 * mod_size m) z <? 0 then [45] else []) as <- by by destruct (_ <? 0).
  apply prints_num; [done|lia|by apply swrap_abs].
Qed.

Lemma unsigned_runs fl m z base (uc : bool) f ap fmt :
  10 <= base -> f = mod_spec m (if uc then with_uc (flag_spec fl) else flag_spec fl) ->
  runs
    (bind (conv_unsigned vph num0 base f (Arg (mod_size m) (VNum z) :: ap)) (after fmt))
    (format_loop vph num0 fmt [] None ap)
    (padded (itext base uc (wrap (8 * mod_size m) z)) (fl_width fl)
       (if fl_minus fl then 32 else if fl_zero fl then 48 else 32) (fl_minus fl) []).
Proof.
  intros Hb ->. unfold conv_unsigned, va_num, RE_VA_ARG. cbn [va_size va_value].
  replace (int_size _) with (mod_size m) by (by destruct m, uc).
  rewrite Z.eqb_refl. replace (mod_size m =? 0) with false by by destruct m. cbn [negb].
  apply runs_done.
  pose proof (prints_num (ok := ok) (room := room) (put := put) (bad := bad) num0 (wrap (8 * mod_size m) z) base uc (fl_width fl)
    (if fl_minus fl then 32 else if fl_zero fl then 48 else 32) (fl_minus fl) None num0_size Hb (wrap_mod_range m z)) as H.
  by destruct uc.
Qed.

Lemma text_runs fl p sz t ap fmt :
  match p with Some m => mem_load m 0 sz = Some t | None => t = [] end -> sz = zlength t ->
  runs
    (bind (done (write_padded vph p sz (f_pad (flag_spec fl)) 32 (f_plr (flag_spec fl)) None) ap) (after fmt))
    (format_loop vph num0 fmt [] None ap) (padded t (fl_width fl) 32 (fl_minus fl) []).
Proof. intros Hp Hs. apply runs_done. by apply (prints_padded p sz t). Qed.

Lemma conv_runs fl c ap fmt :
  dir_ok (DConv fl c) ->
  runs
    (format_loop vph num0 (conv_char c ++ fmt) [] (Some (flag_spec fl)) (conv_args c ++ ap))
    (format_loop vph num0 fmt [] None ap) (conv_text fl c).
Proof.
  intros [Hw Hc]. destruct c as [s|pl|m len|z|m z|m z|m uc z|]; cbn [conv_char conv_args].
  - apply (text_runs fl s _ (default [] s)); [|by destruct s]. destruct s; [apply mem_load_all|done].
  - apply (text_runs fl (default None pl) _ (default [] (default None pl))); [|by destruct pl as [[]|]].
    destruct pl as [[]|]; [apply mem_load_all|done|done].
  - destruct m as [m|].
    + assert (wrap 64 len = len) as El by (apply wrap_small; lia).
      assert (zlength (take (Z.to_nat len) m) = len) as Et by (rewrite length_take; lia).
      apply (text_runs fl (Some m) (wrap 64 len) (take (Z.to_nat len) m)); [|lia].
      rewrite El. unfold mem_load. by rewrite in_block_true by lia.
    + by apply (text_runs fl None 0 []).
  - by apply (text_runs fl (Some [wrap 8 z]) 1 [u8 z]).
  - intros s. rewrite <- app_assoc, mod_loop. by apply signed_runs.
  - intros s. rewrite <- app_assoc, mod_loop. by apply (unsigned_runs fl m z 10 false).
  - intros s. rewrite <- app_assoc, mod_loop.
    destruct uc; [by apply (unsigned_runs fl m z 16 true)|by apply (unsigned_runs fl m z 16 false)].
  - apply (runs_done (vph [37]) [37]), prints_vph.
Qed.

(** Text before the next conversion. *)
Lemma text_loop t fmt lit ap s : 37 ∉ t ->
  format_loop vph num0 (t ++ fmt) lit None ap s = format_loop vph num0 fmt (lit ++ t) None ap s.
Proof.
  revert lit. induction t as [|c t IH]; intros lit Ht; [by rewrite app_nil_r|].
  apply not_elem_of_cons in Ht as [Hc Ht]. cbn [app format_loop].
  replace (c =? 37) with false by lia. rewrite IH by done. by rewrite <- app_assoc.
Qed.

Lemma prints_lit lit : prints (match lit with [] => ret 0 | _ => vph lit end) lit.
Proof. destruct lit; [apply prints_ret|apply prints_vph]. Qed.

(** Directives, followed by a format [fmt] before which the text is printed. *)
Lemma format_runs fmt ap k ds :
  (forall lit, runs (format_loop vph num0 fmt lit None ap) k lit) -> Forall dir_ok ds ->
  forall lit, runs (format_loop vph num0 (concat (dir_format <$> ds) ++ fmt) lit None (concat (dir_args <$> ds) ++ ap))
    k (lit ++ concat (dir_text <$> ds)).
Proof.
  intros Hk. induction 1 as [|d ds Hd _ IH]; intros lit.
  { rewrite app_nil_r. apply Hk. }
  cbn [fmap list_fmap concat]. destruct d as [t|fl c]; cbn [dir_format dir_args dir_text app].
  - intros s. rewrite <- app_assoc, text_loop by done. rewrite app_assoc. apply IH.
  - rewrite <- !app_assoc. cbn [format_loop Z.eqb Pos.eqb app].
    eapply runs_trans; [apply runs_check, prints_lit|].
    intros s. rewrite flags_loop by apply Hd. revert s.
    eapply runs_trans; [by apply conv_runs|]. apply (IH []).
Qed.
End format.

(** ** Formatted printing: the properties, and the handlers as sinks *)

(** The format, the arguments and the text of a list of directives. *)
Definition format_of (ds : list directive) : list Z := concat (dir_format <$> ds).
Definition args_of {S} (ds : list directive) : list (va_arg S) := concat (dir_args <$> ds).
Definition text_of (ds : list directive) : list Z := concat (dir_text <$> ds).

Section whole.
Context {S} {vph : list Z -> M S Z} {ok room put bad} {K : Sink vph ok room put bad}.
Variable num0 : list Z.
Hypothesis num0_size : zlength num0 = NUM_SIZE.

Lemma vhprintf_prints ds : Forall dir_ok ds ->
  Prints (ok := ok) (room := room) (put := put) (bad := bad)
    (vhprintf vph num0 (format_of ds) (args_of ds)) (text_of ds).
Proof.
  intros Hd. pose proof (format_runs num0 num0_size [] [] (ret 0) ds) as H. rewrite !app_nil_r in H.
  apply (H (fun lit => prints_lit lit) Hd []).
Qed.

(** A conversion that finds no argument, or one of another size. *)
Lemma conversion_bad_arg fl c sz v rest fmt ap e s :
  0 <= fl_width fl < 2 ^ 64 -> conv_args c = Arg (S := S) sz v :: rest ->
  match ap with
  | [] => e = ENODATA
  | a :: _ => va_size a <> 0 /\ va_size a <> sz /\ e = EOVERFLOW
  end ->
  format_loop vph num0 (flag_chars fl ++ conv_char c ++ fmt) [] (Some spec0) ap s = Some (e, s).
Proof.
  intros Hw Hc Hap. rewrite flags_loop by done.
  assert (forall k, RE_VA_ARG sz ap k s = Some (Out e, s)) as Hra.
  { intros k. unfold RE_VA_ARG. destruct ap as [|a ap]; [by subst|]. destruct Hap as (H0 & H1 & ->).
    destruct (Z.eqb_spec (va_size a) 0), (Z.eqb_spec (va_size a) sz); done. }
  destruct c as [x|x|x len|z|m z|m z|m uc z|]; cbn [conv_args] in Hc; try (injection Hc as <- <- <-); try done;
    cbn [conv_char]; rewrite <- ?app_assoc, ?mod_loop; cbn [app format_loop];
    try (replace (mod_size m) with (int_size (f_lenmod (mod_spec m (flag_spec fl)))) in Hra by by destruct m);
    try (destruct uc); unfold bind; unfold conversion; cbn [Z.eqb Pos.eqb orb];
    unfold conv_signed, conv_unsigned, va_ptr, va_num; by rewrite Hra.
Qed.
End whole.

(** C28: A format made of texts and conversions, with matching arguments,
    prints the text it stands for into every sink that has room for it:
    strings, buffers, characters and numbers of every size, in decimal and
    hexadecimal, with a minimal width, on the left or on the right, filled with
    blanks or with zeros after the sign. *)
Theorem vhprintf_renders {S} (vph : list Z -> M S Z) ok room put bad num0 ds s :
  Sink vph ok room put bad -> zlength num0 = NUM_SIZE -> Forall dir_ok ds ->
  ok s -> bytes_ok (text_of ds) -> room s (zlength (text_of ds)) ->
  exists s', vhprintf vph num0 (format_of ds) (args_of ds) s = Some (0, s') /\ put s (text_of ds) s'.
Proof.
  intros K Hn Hd Hs Ht Hr. destruct (vhprintf_prints num0 Hn ds Hd s Hs Ht) as [H|[? _]]; [exact H|done].
Qed.

(** C33: An argument that is missing, or that has not the size the conversion
    expects, is detected: printing stops there with [ENODATA] or [EOVERFLOW],
    after the text of the directives before, and nothing is read as something
    it is not. *)
Theorem vhprintf_bad_args {S} (vph : list Z -> M S Z) ok room put bad num0 ds fl c sz v rest fmt ap s :
  Sink vph ok room put bad -> zlength num0 = NUM_SIZE -> Forall dir_ok ds ->
  ok s -> bytes_ok (text_of ds) -> room s (zlength (text_of ds)) ->
  0 <= fl_width fl < 2 ^ 64 -> conv_args c = Arg (S := S) sz v :: rest ->
  let go ap := vhprintf vph num0 (format_of ds ++ dir_format (DConv fl c) ++ fmt) (args_of ds ++ ap) s in
  (exists s', go [] = Some (ENODATA, s') /\ put s (text_of ds) s') /\
  (forall n w, n <> 0 -> n <> sz -> exists s', go (Arg n w :: ap) = Some (EOVERFLOW, s') /\ put s (text_of ds) s').
Proof.
  intros K Hn Hd Hs Ht Hr Hw Hc go.
  assert (forall ap e, match ap with [] => e = ENODATA | a :: _ => va_size a <> 0 /\ va_size a <> sz /\ e = EOVERFLOW end ->
            exists s', go ap = Some (e, s') /\ put s (text_of ds) s') as H.
  { intros ap' e Hap. unfold go, vhprintf, dir_format. cbn [app]. rewrite <- app_assoc.
    destruct (format_runs num0 Hn (37 :: flag_chars fl ++ conv_char c ++ fmt) ap'
      (format_loop vph num0 (flag_chars fl ++ conv_char c ++ fmt) [] (Some spec0) ap') ds) with (lit := @nil Z) (s := s)
      as [(s' & E & P)|[? _]]; [|done|done|done| |done].
    - intros lit. cbn [format_loop Z.eqb Pos.eqb]. apply runs_check, prints_lit.
    - exists s'. split; [|exact P]. unfold format_of, args_of. rewrite E.
      by apply (conversion_bad_arg num0 fl c sz v rest). }
  split; [by apply (H [])|]. intros n w H0 H1. by apply (H (Arg n w :: ap)).
Qed.
