(* ===== verification/PrintSinks.v ===== *)
(** * The print handlers as sinks

    [print_handler] (a buffer of fixed size, [re_snprintf]), [print_handler_dyn]
    (a string that grows, [re_sdprintf]) and [vprintf_handler] ([mbuf_printf])
    keep the promise of [Sink], so the texts of formats are those of
    [PrintThms]. *)

From S2P Require Import Prelude Mem Mbuf MbufSpec MbufThms Print PrintThms.

(** ** A buffer of fixed size *)

Section fixed.
(** The size that is announced, and the block as it was. *)
Variables (size : Z) (str0 : list Z).

Record buf_ok (s : pl_print) : Prop := {
  bo_place : 0 <= pr_p s /\ 0 <= pr_l s /\ pr_p s + pr_l s = size - 1;
  bo_size : size <= zlength str0;
  bo_len : length (pr_str s) = length str0;
  bo_rest : drop (Z.to_nat size) (pr_str s) = drop (Z.to_nat size) str0 }.

Definition buf_put (s : pl_print) (t : list Z) (s' : pl_print) : Prop :=
  zlength t <= pr_l s /\
  s' = {| pr_str := splice (pr_str s) (pr_p s) t; pr_p := pr_p s + zlength t; pr_l := pr_l s - zlength t |}.

Definition buf_bad (r : option (Z * pl_print)) : Prop :=
  exists e s, r = Some (e, s) /\ e <> 0 /\ buf_ok s.

Lemma drop_splice_beyond (m : list Z) p t n :
  0 <= p -> p + zlength t <= n -> n <= zlength m -> drop (Z.to_nat n) (splice m p t) = drop (Z.to_nat n) m.
Proof.
  intros. unfold splice.
  rewrite drop_app_ge by (rewrite length_take; lia). rewrite drop_app_ge by (rewrite length_take; lia).
  rewrite drop_drop, length_take. f_equal. lia.
Qed.

Lemma buf_put_ok s t s' : buf_ok s -> buf_put s t s' -> buf_ok s'.
Proof.
  intros [Hp Hs Hl Hr] [Ht ->]. split; simpl; [lia|done| |].
  - pose proof (length_splice (pr_str s) (pr_p s) t). lia.
  - rewrite drop_splice_beyond by lia. done.
Qed.

#[export] Instance print_handler_sink : Sink print_handler buf_ok (fun s n => n <= pr_l s) buf_put buf_bad.
Proof.
  split.
  - intros s [Hp Hs Hl Hr]. split; [simpl; lia|]. rewrite splice_nil, Z.add_0_r, Z.sub_0_r. by destruct s.
  - intros s a s1 b s2 [Hp Hs Hl Hr] [Ha ->] [Hb ->]. simpl in *. split; [rewrite length_app; lia|].
    rewrite splice_splice by lia. rewrite length_app, Nat2Z.inj_add. f_equal; lia.
  - apply buf_put_ok.
  - intros s a s1 n _ [Ha ->]. simpl. lia.
  - lia.
  - intros s t Hs Ht. pose proof Hs as [Hp Hsz Hl Hr]. unfold print_handler.
    destruct (Z.ltb_spec (pr_l s) (zlength t)).
    + right. split; [lia|]. by exists ENOMEM, s.
    + left. unfold mem_store. rewrite in_block_true by lia. by eexists.
  - intros m k s Hk (e & s' & E & He & Hs). exists e, s'. unfold bind. rewrite E. by rewrite Hk.
  - intros m1 m2 s (e1 & s1 & E1 & He1 & Hs1) H2. unfold buf_bad, or_err, bind. rewrite E1.
    assert (forall e2, Z.lor e1 e2 <> 0) as Hlor by (intros e2 Hz; apply lor_0_iff in Hz; tauto).
    destruct (H2 s1 Hs1) as [(s2 & E2 & Hs2)|(e2 & s2 & E2 & _ & Hs2)]; rewrite E2; unfold ret; by eexists _, s2.
Qed.
End fixed.

(** C34: Printing into a buffer of [size] characters never writes outside of
    it and always terminates the string.  A text that fits with its terminator
    is there, and its length is returned; for a longer one the result is -1. *)
Theorem re_vsnprintf_spec num0 size str ds :
  zlength num0 = NUM_SIZE -> Forall dir_ok ds -> bytes_ok (text_of ds) ->
  0 < size <= zlength str -> size < 2 ^ 31 ->
  let t := text_of ds in
  exists n str', re_vsnprintf_s num0 size (format_of ds) (args_of ds) str = Some (n, str') /\
    if zlength t <? size then n = zlength t /\ str' = splice str 0 (t ++ [0])
    else n = -1 /\ length str' = length str /\
         drop (Z.to_nat size) str' = drop (Z.to_nat size) str /\
         exists i, 0 <= i < size /\ str' !! Z.to_nat i = Some 0.
Proof.
  intros Hn Hd Ht Hs Hm t. unfold re_vsnprintf_s. replace (size =? 0) with false by lia.
  set (s0 := {| pr_str := str; pr_p := 0; pr_l := size - 1 |}).
  assert (buf_ok size str s0) as H0 by (split; simpl; try done; lia).
  destruct (vhprintf_prints num0 Hn ds Hd s0 H0 Ht) as [(s' & -> & [Hl ->])|[Hr (e & s' & -> & He & Hs')]].
  - fold t in Hl |- *. unfold s0, ret in *. cbn [pr_str pr_p pr_l] in *. rewrite (wrap_small 64 _) by lia. replace (size - (size - 1 - zlength t) - 1) with (0 + zlength t) by lia.
    unfold mem_store. rewrite in_block_true by (rewrite ?length_splice; cbn [length]; lia).
    eexists _, _. split; [done|]. replace (zlength t <? size) with true by lia. split.
    + rewrite swrap_small by lia. done.
    + apply splice_splice; cbn [length]; lia.
  - fold t in Hr. unfold s0 in Hr. cbn [pr_l] in Hr. destruct Hs' as [Hp _ Hlen Hrest]. rewrite (wrap_small 64 _) by lia.
    replace (size - pr_l s' - 1) with (pr_p s') by lia.
    unfold mem_store. rewrite in_block_true by (cbn [length]; lia).
    eexists _, _. split; [done|]. replace (zlength t <? size) with false by lia.
    unfold nz. destruct (Z.eqb_spec e 0); [done|]. split; [done|].
    pose proof (length_splice (pr_str s') (pr_p s') [0] ltac:(lia) ltac:(cbn [length]; lia)) as El.
    split; [lia|]. split; [rewrite drop_splice_beyond by (cbn [length]; lia); done|].
    exists (pr_p s'). split; [lia|]. rewrite <- (Nat.add_0_r (Z.to_nat (pr_p s'))).
    by rewrite splice_lookup_in by (cbn [length]; lia).
Qed.

(** ** A buffer that grows *)

Section grow.
Context `{Host}.
Hypothesis memory : no_oom.

Definition mbuf_room (mb : mbuf) (n : Z) : Prop := mb_pos mb + n < WRITE_MAX.
Definition mbuf_put (mb : mbuf) (t : list Z) (mb' : mbuf) : Prop := mbuf_wf mb' /\ written mb t mb'.

#[export] Instance mbuf_sink : Sink vprintf_handler mbuf_wf mbuf_room mbuf_put (fun _ => True).
Proof.
  split; unfold mbuf_put, mbuf_room; try done.
  - intros mb Hw. split; [done|by apply written_nil].
  - intros mb a mb1 b mb2 Hw [Hw1 H1] [Hw2 H2]. split; [done|by apply (written_app mb a mb1)].
  - tauto.
  - intros mb a mb1 n Hw [_ [Hp _ _ _ _ _]] Hn Hr. lia.
  - lia.
  - intros mb t Hw Ht. destruct (decide (mb_pos mb + zlength t < WRITE_MAX)) as [Hr|Hr]; [left|by right].
    destruct (writes (Writes := writes_mem t Ht) mb Hw Hr) as (e & mb' & E & Hw' & _ & _ & He & Ho).
    specialize (Ho memory) as ->. exists mb'. split; [done|]. split; [done|by apply He].
Qed.

Lemma mbuf_printf_spec num0 ds mb :
  zlength num0 = NUM_SIZE -> Forall dir_ok ds -> bytes_ok (text_of ds) ->
  mbuf_wf mb -> mb_pos mb + zlength (text_of ds) < WRITE_MAX ->
  exists mb', mbuf_printf num0 (format_of ds) (args_of ds) mb = Some (0, mb') /\
    mbuf_wf mb' /\ written mb (text_of ds) mb'.
Proof.
  intros Hn Hd Ht Hw Hr. destruct (vhprintf_prints (K := mbuf_sink) num0 Hn ds Hd mb Hw Ht) as [H1|[? _]]; [exact H1|done].
Qed.

(** A buffer that is large enough stays as large as it is. *)
Record fixed_ok (mb : mbuf) : Prop := {
  fo_place : 0 <= mb_pos mb <= mb_end mb /\ mb_end mb <= mb_size mb;
  fo_size : zlength (mb_buf mb) = mb_size mb /\ mb_size mb < 2 ^ 64 }.

Definition fixed_put (mb : mbuf) (t : list Z) (mb' : mbuf) : Prop :=
  mb_pos mb + zlength t <= mb_size mb /\
  mb' = Mbuf (splice (mb_buf mb) (mb_pos mb) t) (mb_size mb) (mb_pos mb + zlength t)
             (Z.max (mb_end mb) (mb_pos mb + zlength t)).

Lemma mbuf_write_fixed mb t :
  fixed_ok mb -> mb_pos mb + zlength t <= mb_size mb ->
  mbuf_write_mem t mb = Some (0, Mbuf (splice (mb_buf mb) (mb_pos mb) t) (mb_size mb) (mb_pos mb + zlength t)
                                 (Z.max (mb_end mb) (mb_pos mb + zlength t))).
Proof.
  intros [Hp [Hl Hs]] Hr. unfold mbuf_write_mem, check, mbuf_grow, bind.
  rewrite wrap_small by lia. replace (mb_size mb <? _) with false by lia. change (nz 0) with false. cbv iota.
  unfold get, store_at, mem_store. rewrite in_block_true by lia.
  unfold modify, ret, set_posend. cbn [mb_buf mb_size mb_pos mb_end]. by rewrite wrap_small by lia.
Qed.

#[export] Instance mbuf_fixed_sink :
  Sink vprintf_handler fixed_ok (fun mb n => mb_pos mb + n <= mb_size mb) fixed_put (fun _ => True).
Proof.
  assert (forall mb t mb', fixed_ok mb -> fixed_put mb t mb' -> fixed_ok mb') as Hk.
  { intros mb t mb' [Hp [Hl Hs]] [Hr ->]. split; simpl; [lia|]. rewrite length_splice; lia. }
  split; try done.
  - intros mb [Hp Hs]. split; [simpl; lia|]. rewrite splice_nil, Z.add_0_r, Z.max_l by lia. by destruct mb.
  - intros mb a mb1 b mb2 [Hp [Hl Hs]] [Ha ->] [Hb ->]. simpl in *. rewrite <- Z.add_assoc in *.
    split; [rewrite length_app; lia|]. rewrite splice_splice by lia.
    rewrite length_app, Nat2Z.inj_add. f_equal; lia.
  - intros mb a mb1 n _ [Ha ->]. simpl. lia.
  - lia.
  - intros mb t Hok _. destruct (decide (mb_pos mb + zlength t <= mb_size mb)) as [Hr|Hr]; [left|by right].
    eexists. split; [by apply mbuf_write_fixed|done].
Qed.

Lemma mbuf_printf_fixed num0 ds mb :
  zlength num0 = NUM_SIZE -> Forall dir_ok ds -> bytes_ok (text_of ds) ->
  fixed_ok mb -> mb_pos mb + zlength (text_of ds) <= mb_size mb ->
  exists mb', mbuf_printf num0 (format_of ds) (args_of ds) mb = Some (0, mb') /\ fixed_put mb (text_of ds) mb'.
Proof.
  intros Hn Hd Ht Hok Hr.
  destruct (vhprintf_prints (K := mbuf_fixed_sink) num0 Hn ds Hd mb Hok Ht) as [H1|[? _]]; [exact H1|done].
Qed.

(** ** A string that grows *)

Record dyn_ok (dp : dyn_print) : Prop := {
  do_place : 0 <= dp_p dp /\ 1 <= dp_l dp /\ dp_p dp + dp_l dp = dp_size dp;
  do_len : zlength (dp_str dp) = dp_size dp;
  do_size : dp_size dp <= Z.max 16 (2 * dp_p dp) }.

(** The array doubles, so it stays below twice the text. *)
Definition dyn_room (dp : dyn_print) (n : Z) : Prop := dp_p dp + n < WRITE_MAX.

Definition dyn_put (dp : dyn_print) (t : list Z) (dp' : dyn_print) : Prop :=
  dyn_ok dp' /\ dp_p dp' = dp_p dp + zlength t /\
  take (Z.to_nat (dp_p dp')) (dp_str dp') = take (Z.to_nat (dp_p dp)) (dp_str dp) ++ t.

Lemma take_splice_end (m : list Z) p t : 0 <= p -> p + zlength t <= zlength m ->
  take (Z.to_nat (p + zlength t)) (splice m p t) = take (Z.to_nat p) m ++ t.
Proof.
  intros. unfold splice. rewrite app_assoc, take_app_length'; [done|].
  rewrite length_app, length_take. lia.
Qed.

Lemma print_handler_dyn_ok dp t : dyn_ok dp -> dyn_room dp (zlength t) ->
  exists dp', print_handler_dyn t dp = Some (0, dp') /\ dyn_put dp t dp'.
Proof.
  unfold dyn_room, WRITE_MAX. intros [Hp Hl Hs] Hr. unfold print_handler_dyn.
  rewrite (wrap_small 64 (dp_l dp - 1)) by lia. destruct (Z.ltb_spec (dp_l dp - 1) (zlength t)) as [Hg|Hg].
  - rewrite (wrap_small 64 (dp_size dp + zlength t)), (wrap_small 64 (dp_size dp * 2)) by lia.
    set (new := Z.max (dp_size dp + zlength t) (dp_size dp * 2)). cbv zeta.
    rewrite alloc_ok_no_oom by (try done; unfold MEM_SIZE_MAX; lia).
    rewrite (wrap_small 64 (dp_l dp + (new - dp_size dp))) by lia.
    assert (zlength (realloc_bytes (dp_str dp) new) = new) as El by (apply realloc_bytes_length; lia).
    cbn [dp_str dp_p dp_l dp_size]. replace (new - (dp_l dp + (new - dp_size dp))) with (dp_p dp) by lia.
    unfold mem_store. rewrite in_block_true by lia. eexists. split; [done|].
    split; [split; simpl|split; simpl; [done|]].
    + rewrite wrap_small by lia. lia.
    + rewrite length_splice; lia.
    + lia.
    + rewrite take_splice_end by lia. f_equal. unfold realloc_bytes.
      rewrite (take_ge (dp_str dp)) by lia. by rewrite take_app_le by lia.
  - unfold mem_store. rewrite in_block_true by lia. eexists. split; [done|].
    split; [split; simpl|split; simpl; [done|]].
    + rewrite wrap_small by lia. lia.
    + rewrite length_splice; lia.
    + lia.
    + by rewrite take_splice_end by lia.
Qed.

#[export] Instance dyn_sink : Sink print_handler_dyn dyn_ok dyn_room dyn_put (fun _ => True).
Proof.
  split; unfold dyn_room; try done.
  - intros dp Hok. split; [done|]. rewrite app_nil_r. split; [simpl; lia|done].
  - intros dp a dp1 b dp2 _ (_ & E1 & T1) (H2 & E2 & T2). split; [done|].
    rewrite length_app, T2, T1, app_assoc. split; [lia|done].
  - intros dp t dp' _ Hp. apply Hp.
  - intros dp a dp1 n _ (_ & E1 & _) Hn Hr. lia.
  - lia.
  - intros dp t Hok _. destruct (decide (dp_p dp + zlength t < WRITE_MAX)) as [Hr|Hr]; [left|by right].
    by apply print_handler_dyn_ok.
Qed.

(** The new string is the text of the format, with its terminator. *)
Theorem vsdprintf_spec num0 ds :
  zlength num0 = NUM_SIZE -> Forall dir_ok ds -> bytes_ok (text_of ds) -> zlength (text_of ds) < WRITE_MAX ->
  exists str, vsdprintf num0 (format_of ds) (args_of ds) = Some (0, Some str) /\
    take (length (text_of ds ++ [0])) str = text_of ds ++ [0].
Proof.
  intros Hn Hd Ht Hr. unfold vsdprintf. rewrite alloc_ok_no_oom by (try done; unfold MEM_SIZE_MAX; lia).
  set (dp0 := {| dp_str := fresh_bytes 0 16; dp_p := 0; dp_l := 16; dp_size := 16 |}).
  assert (dyn_ok dp0) as H0 by (unfold dp0; split; cbn [dp_p dp_l dp_size dp_str]; [lia|by rewrite length_fresh_bytes by lia|lia]).
  destruct (vhprintf_prints num0 Hn ds Hd dp0 H0 Ht) as [(dp & -> & [[Hp Hl Hs] [Ep T]])|[Hx _]];
    [|unfold dyn_room in Hx; simpl in Hx; lia].
  unfold ret. change (nz 0) with false. cbv iota. unfold mem_store.
  rewrite in_block_true by (cbn [length]; lia). eexists. split; [done|].
  pose proof (take_splice_end (dp_str dp) (dp_p dp) [0] ltac:(lia) ltac:(cbn [length]; lia)) as E.
  rewrite T in E. simpl (take _ (dp_str dp0)) in E. rewrite <- E at 2. f_equal.
  rewrite length_app. cbn [length]. simpl (dp_p dp0) in Ep. lia.
Qed.
End grow.

(** ** Formatted printing on concrete formats *)

(** "x=%05d %s", with -42 and "ab". *)
Definition ex_dirs : list directive :=
  [DText [120; 61]; DConv {| fl_minus := false; fl_zero := true; fl_width := 5 |} (CInt MNone (-42));
   DText [32]; DConv {| fl_minus := false; fl_zero := false; fl_width := 0 |} (CStr (Some [97; 98]))].

Lemma ex_format : format_of ex_dirs = [120; 61; 37; 48; 53; 100; 32; 37; 115].
Proof. vm_compute. reflexivity. Qed.

(** "x=-0042 ab" *)
Lemma ex_text : text_of ex_dirs = [120; 61; 45; 48; 48; 52; 50; 32; 97; 98].
Proof. vm_compute. reflexivity. Qed.

Lemma ex_dirs_ok : Forall dir_ok ex_dirs.
Proof.
  repeat constructor; try (vm_compute; congruence); by apply (bool_decide_unpack _).
Qed.

Definition ex_num : list Z := replicate 64 0.
Definition ex_buf : pl_print := {| pr_str := replicate 16 7; pr_p := 0; pr_l := 15 |}.

Lemma ex_buf_ok : buf_ok 16 (replicate 16 7) ex_buf.
Proof. split; simpl; try done; lia. Qed.

Lemma vhprintf_renders_witness :
  exists s', vhprintf print_handler ex_num (format_of ex_dirs) (args_of ex_dirs) ex_buf = Some (0, s') /\
    buf_put ex_buf (text_of ex_dirs) s'.
Proof.
  apply (vhprintf_renders print_handler (buf_ok 16 (replicate 16 7)) (fun s n => n <= pr_l s) buf_put
    (buf_bad 16 (replicate 16 7)) ex_num ex_dirs ex_buf (print_handler_sink _ _)).
  - reflexivity.
  - apply ex_dirs_ok.
  - apply ex_buf_ok.
  - by apply (bool_decide_unpack _).
  - vm_compute. congruence.
Defined.

(** A second %s finds nothing, or an [int]. *)
Lemma vhprintf_bad_args_witness :
  let go ap := vhprintf print_handler ex_num (format_of ex_dirs ++ [37; 115]) (args_of ex_dirs ++ ap) ex_buf in
  (exists s', go [] = Some (ENODATA, s') /\ buf_put ex_buf (text_of ex_dirs) s') /\
  (exists s', go [Arg 4 (VNum 1)] = Some (EOVERFLOW, s') /\ buf_put ex_buf (text_of ex_dirs) s').
Proof.
  destruct (vhprintf_bad_args print_handler (buf_ok 16 (replicate 16 7)) (fun s n => n <= pr_l s) buf_put
    (buf_bad 16 (replicate 16 7)) ex_num ex_dirs {| fl_minus := false; fl_zero := false; fl_width := 0 |}
    (CStr None) 8 (VPtr None) [] [] [] ex_buf (print_handler_sink _ _)) as [H1 H2].
  - reflexivity.
  - apply ex_dirs_ok.
  - apply ex_buf_ok.
  - by apply (bool_decide_unpack _).
  - vm_compute. congruence.
  - vm_compute. split; congruence.
  - reflexivity.
  - split; [exact H1|]. apply (H2 4 (VNum 1)); congruence.
Defined.

Lemma re_vsnprintf_spec_witness :
  (exists n str', re_vsnprintf_s ex_num 16 (format_of ex_dirs) (args_of ex_dirs) (replicate 16 7) = Some (n, str') /\
     n = 10 /\ str' = splice (replicate 16 7) 0 (text_of ex_dirs ++ [0])) /\
  (exists n str', re_vsnprintf_s ex_num 8 (format_of ex_dirs) (args_of ex_dirs) (replicate 16 7) = Some (n, str') /\
     n = -1).
Proof.
  split.
  - apply (re_vsnprintf_spec ex_num 16 (replicate 16 7) ex_dirs);
      [reflexivity|apply ex_dirs_ok|by apply (bool_decide_unpack _)|simpl; lia|lia].
  - destruct (re_vsnprintf_spec ex_num 8 (replicate 16 7) ex_dirs) as (n & str' & E & Hn & _);
      [reflexivity|apply ex_dirs_ok|by apply (bool_decide_unpack _)|simpl; lia|lia|].
    by exists n, str'.
Defined.
