(* ===== verification/Pl.v ===== *)
(** * Pointer-length strings (fmt/pl.c, fmt/ch.c)

    A [struct pl] that is only read is the list of its characters, [None] when
    its pointer is NULL.  The functions that move its ends ([pl_ltrim],
    [pl_rtrim]) work on a [pl] in the memory [base] it points into. *)

From Stdlib Require Import Ascii String.
From S2P Require Export Prelude Mbuf Hash Regex.

(** ** Numbers *)

(** [while (p > pl->p)], from the last character backwards: [rev] is what is
    left of the string, reversed; [dig] the value of a digit. *)
Fixpoint unsigned_loop (w base : Z) (dig : Z -> option Z) (rev : list Z) (v mul : Z) : Z :=
  match rev with
  | [] => v
  | c :: rev =>
      match dig c with
      | None => 0
      | Some d => unsigned_loop w base dig rev (wrap w (v + mul * d)) (wrap w (mul * base))
      end
  end.

(** [const uint8_t c = *--p - '0'; if (c > 9) return 0;] *)
Definition dec_digit (c : Z) : option Z := let c := u8 (c - 48) in if c >? 9 then None else Some c.

Definition hex_digit (ch : Z) : option Z :=
  if (48 <=? ch) && (ch <=? 57) then Some (ch - 48)
  else if (65 <=? ch) && (ch <=? 70) then Some (ch - 65 + 10)
  else if (97 <=? ch) && (ch <=? 102) then Some (ch - 97 + 10)
  else None.

Definition pl_u32 (pl : option (list Z)) : Z :=
  match pl with None => 0 | Some s => unsigned_loop 32 10 dec_digit (reverse s) 0 1 end.
Definition pl_x32 (pl : option (list Z)) : Z :=
  match pl with None => 0 | Some s => unsigned_loop 32 16 hex_digit (reverse s) 0 1 end.
Definition pl_u64 (pl : option (list Z)) : Z :=
  match pl with None => 0 | Some s => unsigned_loop 64 10 dec_digit (reverse s) 0 1 end.
Definition pl_x64 (pl : option (list Z)) : Z :=
  match pl with None => 0 | Some s => unsigned_loop 64 16 hex_digit (reverse s) 0 1 end.

(** The value is built negative; [None] is the early [return 0]. *)
Fixpoint signed_loop (w : Z) (rev : list Z) (v mul : Z) : option (bool * Z) :=
  match rev with
  | [] => Some (false, v)
  | ch :: rev =>
      if (48 <=? ch) && (ch <=? 57)
      then signed_loop w rev (swrap w (v - wrap w (mul * (ch - 48)))) (wrap w (mul * 10))
      else if (ch =? 45) && bool_decide (rev = []) then Some (true, v)
      else if (ch =? 43) && bool_decide (rev = []) then Some (false, v)
      else None
  end.

Definition signed_result (w : Z) (r : option (bool * Z)) : Z :=
  match r with
  | None => 0
  | Some (neg, v) =>
      if negb neg && (v =? - 2 ^ (w - 1)) then - 2 ^ (w - 1) else if neg then v else - v
  end.

Definition pl_i32 (pl : option (list Z)) : Z :=
  match pl with None => 0 | Some s => signed_result 32 (signed_loop 32 (reverse s) 0 1) end.
Definition pl_i64 (pl : option (list Z)) : Z :=
  match pl with None => 0 | Some s => signed_result 64 (signed_loop 64 (reverse s) 0 1) end.

(** [ch_hex] (fmt/ch.c) *)
Definition ch_hex (ch : Z) : Z := default 0 (hex_digit ch).

(** [pl_hex]: the [len] bytes at [hex]. *)
Fixpoint hex_pairs (s : list Z) : list Z :=
  match s with
  | a :: b :: s => u8 (u8 (Z.shiftl (ch_hex a) 4) + ch_hex b) :: hex_pairs s
  | _ => []
  end.

Definition pl_isset (pl : option (list Z)) : bool :=
  match pl with None => false | Some s => nz (zlength s) end.

Definition pl_hex (pl : option (list Z)) (len : Z) : M (list Z) Z := fun hex =>
  if negb (pl_isset pl) || negb (zlength (default [] pl) =? u64 (2 * len)) then Some (EINVAL, hex)
  else match mem_store hex 0 (hex_pairs (default [] pl)) with
       | Some hex => Some (0, hex)
       | None => None
       end.

(** ** Copying and comparing *)

Definition pl_strcpy (pl : option (list Z)) (size : Z) : M (list Z) Z := fun str =>
  match pl with
  | None => Some (EINVAL, str)
  | Some s =>
      if size =? 0 then Some (EINVAL, str) else
      let len := Z.min (zlength s) (size - 1) in
      match mem_load s 0 len with
      | None => None
      | Some bs =>
          match mem_store str 0 bs with
          | None => None
          | Some str => match mem_store str len [0] with Some str => Some (0, str) | None => None end
          end
      end
  end.

(** Equal pointers have equal contents, so the short cuts for them are no
    cases of their own. *)
Definition pl_cmp (pl1 pl2 : list Z) : Z :=
  if negb (zlength pl1 =? zlength pl2) then EINVAL
  else if zlength pl1 =? 0 then 0
  else if bool_decide (pl1 = pl2) then 0 else EINVAL.

(** [0 == strncasecmp(a, b, l)] for strings of [l] characters: a terminator
    in both ends the comparison. *)
Fixpoint strncaseeq (a b : list Z) : bool :=
  match a, b with
  | x :: a, y :: b =>
      if tolower x =? tolower y then if x =? 0 then true else strncaseeq a b else false
  | _, _ => true
  end.

Definition pl_casecmp (pl1 pl2 : list Z) : Z :=
  if negb (zlength pl1 =? zlength pl2) then EINVAL
  else if zlength pl1 =? 0 then 0
  else if strncaseeq pl1 pl2 then 0 else EINVAL.

Definition pl_strcmp (pl str : list Z) : Z := pl_cmp pl str.
Definition pl_strcasecmp (pl str : list Z) : Z := pl_casecmp pl str.

(** A string literal, without its terminator. *)
Definition chars (s : string) : list Z := Z.of_nat ∘ nat_of_ascii <$> list_ascii_of_string s.

Definition tval : list (list Z) := chars <$> ["1"; "true"; "enable"; "yes"; "on"]%string.
Definition fval : list (list Z) := chars <$> ["0"; "false"; "disable"; "no"; "off"]%string.

(** The result and [*val], which is left alone on error. *)
Definition pl_bool (val : bool) (pl : list Z) : Z * bool :=
  let scan new := foldl (fun (s : Z * bool) t => if negb (nz (pl_strcasecmp pl t)) then (0, new) else s) in
  scan false (scan true (EINVAL, val) tval) fval.

(** ** Searching *)

(** The offset of the result, or NULL. *)
Fixpoint strchr_loop (s : list Z) (i c : Z) : option Z :=
  match s with
  | [] => None
  | x :: s => if x =? c then Some i else strchr_loop s (i + 1) c
  end.

Definition pl_strchr (pl : list Z) (c : Z) : option Z := strchr_loop pl 0 c.

Fixpoint strrchr_loop (rev : list Z) (i c : Z) : option Z :=
  match rev with
  | [] => None
  | x :: rev => if x =? c then Some i else strrchr_loop rev (i - 1) c
  end.

Definition pl_strrchr (pl : option (list Z)) (c : Z) : option Z :=
  if pl_isset pl then let s := default [] pl in strrchr_loop (reverse s) (zlength s - 1) c else None.

Fixpoint strstr_loop (s str : list Z) (i : Z) : option Z :=
  match s with
  | [] => None
  | _ :: s' =>
      if zlength s <? zlength str then None
      else if bool_decide (take (length str) s = str) then Some i else strstr_loop s' str (i + 1)
  end.

Definition pl_strstr (pl : option (list Z)) (str : list Z) : option Z :=
  let s := default [] pl in
  if negb (pl_isset pl) || (zlength s <? zlength str) then None
  else if zlength str =? 0 then Some 0
  else strstr_loop s str 0.

(** ** Trimming *)

(** The expression "[ \t\r\n]". *)
Definition ws_class : list Z := [91; 32; 9; 13; 10; 93].

Section trim.
Variables (base : list Z) (chrv0 : list chr).

(** [re_regex(p, 1, "[ \t\r\n]")] *)
Definition ws_match (p : Z) : option Z :=
  fst <$> re_regex (drop (Z.to_nat p) base) [] chrv0 1 ws_class [].

Fixpoint ltrim_loop (fuel : nat) (pl : pl) : option (Z * Mbuf.pl) :=
  match ws_match (pl_p pl) with
  | None => None
  | Some e =>
      if nz e then Some (0, pl) else
      let pl := Pl (pl_p pl + 1) (pl_l pl - 1) in
      if pl_l pl =? 0 then Some (EINVAL, pl) else
      match fuel with O => None | S fuel => ltrim_loop fuel pl end
  end.

Definition pl_ltrim (pl : pl) : option (Z * Mbuf.pl) :=
  if pl_l pl =? 0 then Some (EINVAL, pl) else ltrim_loop (Z.to_nat (pl_l pl)) pl.

Fixpoint rtrim_loop (fuel : nat) (pl : pl) : option (Z * Mbuf.pl) :=
  match ws_match (pl_p pl + pl_l pl - 1) with
  | None => None
  | Some e =>
      if nz e then Some (0, pl) else
      let pl := Pl (pl_p pl) (pl_l pl - 1) in
      if pl_l pl =? 0 then Some (EINVAL, pl) else
      match fuel with O => None | S fuel => rtrim_loop fuel pl end
  end.

Definition pl_rtrim (pl : pl) : option (Z * Mbuf.pl) :=
  if pl_l pl =? 0 then Some (EINVAL, pl) else rtrim_loop (Z.to_nat (pl_l pl)) pl.

Definition pl_trim (pl : pl) : option (Z * Mbuf.pl) :=
  match pl_ltrim pl with
  | None => None
  | Some (e1, pl) =>
      match pl_rtrim pl with
      | None => None
      | Some (e2, pl) => Some (Z.lor e1 e2, pl)
      end
  end.
End trim.
