(* ===== verification/PlThms.v ===== *)
(** * Pointer-length strings: properties

    Reading numbers inverts printing them; searching finds the first or last
    place; trimming does nothing. *)

From S2P Require Import Prelude Mbuf Hash Regex Pl Print PrintThms.

(** ** Numbers *)

Lemma wrap_eq w a b : 0 <= w -> (exists k, a = b + k * 2 ^ w) -> wrap w a = wrap w b.
Proof. intros Hw [k ->]. unfold wrap. apply Z.mod_add. lia. Qed.

Lemma wrap_diff w a : 0 <= w -> exists k, wrap w a = a + k * 2 ^ w.
Proof. intros. exists (- (a / 2 ^ w)). unfold wrap. rewrite Z.mod_eq by lia. lia. Qed.

Lemma digits_loop w base dig uc : 0 <= w -> 2 <= base ->
  (forall d, 0 <= d < base -> dig (digit uc d) = Some d) ->
  forall fuel n v mul, 0 <= n < base ^ Z.of_nat fuel -> (1 <= fuel)%nat ->
  unsigned_loop w base dig (reverse (digits fuel base uc n)) v (wrap w mul) = wrap w (v + mul * n).
Proof.
  intros Hw Hb Hd. induction fuel as [|fuel IH]; intros n v mul Hn Hf; [lia|].
  rewrite Nat2Z.inj_succ, Z.pow_succ_r in Hn by lia.
  assert (0 <= n / base < base ^ Z.of_nat fuel) as Hq.
  { split; [apply Z.div_pos; lia|]. apply Z.div_lt_upper_bound; lia. }
  pose proof (Z.mod_pos_bound n base ltac:(lia)) as Hm.
  assert (n = base * (n / base) + n mod base) as En by (apply Z.div_mod; lia).
  rewrite digits_S, reverse_snoc. cbn [unsigned_loop]. rewrite Hd by lia.
  assert (wrap w (v + wrap w mul * (n mod base)) = wrap w (v + mul * (n mod base))) as ->.
  { destruct (wrap_diff w mul Hw) as [k ->]. apply wrap_eq; [done|]. exists (k * (n mod base)). lia. }
  unfold nz. destruct (Z.eqb_spec (n / base) 0) as [E|E]; cbn [negb].
  - cbn [reverse rev_append unsigned_loop]. f_equal. rewrite En at 2. rewrite E. lia.
  - assert (wrap w (wrap w mul * base) = wrap w (mul * base)) as ->.
    { destruct (wrap_diff w mul Hw) as [k ->]. apply wrap_eq; [done|]. exists (k * base). lia. }
    rewrite IH by (destruct fuel; [simpl in Hq|]; lia).
    destruct (wrap_diff w (v + mul * (n mod base)) Hw) as [k ->]. apply wrap_eq; [done|].
    exists k. rewrite En at 3. lia.
Qed.

Lemma dec_digit_digit uc d : 0 <= d < 10 -> dec_digit (digit uc d) = Some d.
Proof.
  intros. unfold dec_digit, digit. destruct (Z.ltb_spec d 10); [|lia].
  replace (48 + d - 48) with d by lia. rewrite wrap_small by lia. rewrite Z.gtb_ltb.
  by destruct (Z.ltb_spec 9 d); [lia|].
Qed.

Lemma hex_digit_digit uc d : 0 <= d < 16 -> hex_digit (digit uc d) = Some d.
Proof.
  intros. unfold hex_digit, digit.
  destruct (Z.ltb_spec d 10), uc;
    repeat match goal with |- context [(?a <=? ?b) && (?b <=? ?c)] =>
      first [ replace ((a <=? b) && (b <=? c)) with true by lia
            | replace ((a <=? b) && (b <=? c)) with false by lia ] end; f_equal; lia.
Qed.

Lemma signed_digits_loop w uc tl : 1 <= w ->
  forall fuel n v mul, 0 <= n < 10 ^ Z.of_nat fuel -> (1 <= fuel)%nat ->
  exists mul', signed_loop w (reverse (digits fuel 10 uc n) ++ tl) v (wrap w mul) =
    signed_loop w tl (swrap w (v - mul * n)) mul'.
Proof.
  intros Hw.
  assert (forall a b, (exists k, a = b + k * 2 ^ w) -> swrap w a = swrap w b) as Hs.
  { intros a b [k ->]. unfold swrap. rewrite <- Z.add_assoc, (Z.add_comm (k * 2 ^ w)), Z.add_assoc, Z.mod_add by lia. done. }
  induction fuel as [|fuel IH]; intros n v mul Hn Hf; [lia|].
  rewrite Nat2Z.inj_succ, Z.pow_succ_r in Hn by lia.
  assert (0 <= n / 10 < 10 ^ Z.of_nat fuel) as Hq by dlia.
  rewrite digits_S, reverse_snoc. cbn [app signed_loop].
  assert (digit uc (n mod 10) = 48 + n mod 10) as Ed by (unfold digit; destruct (Z.ltb_spec (n mod 10) 10); dlia).
  rewrite Ed. replace ((48 <=? 48 + n mod 10) && (48 + n mod 10 <=? 57)) with true by dlia.
  replace (48 + n mod 10 - 48) with (n mod 10) by lia.
  set (d := n mod 10).
  assert (swrap w (v - wrap w (wrap w mul * d)) = swrap w (v - mul * d)) as ->.
  { apply Hs. destruct (wrap_diff w mul ltac:(lia)) as [k ->].
    destruct (wrap_diff w ((mul + k * 2 ^ w) * d) ltac:(lia)) as [j ->]. exists (- k * d - j). lia. }
  unfold nz. destruct (Z.eqb_spec (n / 10) 0) as [E|E]; cbn [negb].
  - eexists. cbn [reverse rev_append app]. do 2 f_equal. unfold d. dlia.
  - assert (wrap w (wrap w mul * 10) = wrap w (mul * 10)) as ->.
    { destruct (wrap_diff w mul ltac:(lia)) as [k ->]. apply wrap_eq; [lia|]. exists (k * 10). lia. }
    destruct (IH (n / 10) (swrap w (v - mul * d)) (mul * 10)) as [mul' ->]; [done|destruct fuel; [simpl in Hq|]; lia|].
    exists mul'. f_equal. apply Hs. unfold swrap at 1.
    destruct (wrap_diff w (v - mul * d + 2 ^ (w - 1)) ltac:(lia)) as [k Ek]. unfold wrap in Ek. rewrite Ek.
    exists k. unfold d. pose proof (Z.div_mod n 10 ltac:(lia)). nia.
Qed.

(** A conversion without flags. *)
Definition plain : flags := {| fl_minus := false; fl_zero := false; fl_width := 0 |}.

Lemma padded_plain t prfx : padded t 0 32 false prfx = prfx ++ t.
Proof.
  unfold padded, fill. cbn [Z.eqb Pos.eqb].
  by replace (Z.to_nat (0 - Z.min 0 (zlength prfx) - zlength t)) with O by lia.
Qed.

Lemma itext_loop w base dig uc n :
  w = 32 \/ w = 64 -> 10 <= base -> 0 <= n < 2 ^ w ->
  (forall d, 0 <= d < base -> dig (digit uc d) = Some d) ->
  unsigned_loop w base dig (reverse (itext base uc n)) 0 1 = n.
Proof.
  intros Hw Hb Hn Hd. assert (10 ^ 64 <= base ^ 64) by (apply Z.pow_le_mono_l; lia).
  assert (1 = wrap w 1) as E1 by (destruct Hw as [-> | ->]; done). rewrite E1 at 1. unfold itext.
  rewrite digits_loop by (try done; change (Z.of_nat 64) with 64; destruct Hw as [-> | ->]; lia).
  rewrite wrap_small; lia.
Qed.

Lemma signed_itext w z :
  w = 32 \/ w = 64 -> - 2 ^ (w - 1) < z < 2 ^ (w - 1) \/ w = 32 /\ z = - 2 ^ 31 ->
  signed_result w (signed_loop w (reverse ((if z <? 0 then [45] else []) ++ itext 10 false (Z.abs z))) 0 1) = z.
Proof.
  intros Hw Hz. rewrite reverse_app.
  assert (1 = wrap w 1) as E1 by (destruct Hw as [-> | ->]; done). rewrite E1 at 1. unfold itext.
  destruct (signed_digits_loop w false (reverse (if z <? 0 then [45] else [])) ltac:(lia) 64 (Z.abs z) 0 1)
    as [mul' ->]; [change (Z.of_nat 64) with 64; destruct Hw as [-> | ->]; lia|lia|].
  rewrite swrap_small by (destruct Hw as [-> | ->]; lia).
  destruct (Z.ltb_spec z 0); cbn [reverse rev_append signed_loop].
  - cbn. lia.
  - unfold signed_result. cbn [negb andb].
    destruct (Z.eqb_spec (0 - 1 * Z.abs z) (- 2 ^ (w - 1))); destruct Hw as [-> | ->]; lia.
Qed.

(** Reading a number from the text that printing it gives returns the
    number: unsigned ones in decimal and in hexadecimal of either case, and
    signed ones, with 32 and with 64 bits. *)
Theorem pl_number_roundtrip z :
  (0 <= z < 2 ^ 32 ->
     pl_u32 (Some (conv_text plain (CUint MNone z))) = z /\
     forall uc, pl_x32 (Some (conv_text plain (CHex MNone uc z))) = z) /\
  (0 <= z < 2 ^ 64 ->
     pl_u64 (Some (conv_text plain (CUint MInt64 z))) = z /\
     forall uc, pl_x64 (Some (conv_text plain (CHex MInt64 uc z))) = z) /\
  (- 2 ^ 31 <= z < 2 ^ 31 -> pl_i32 (Some (conv_text plain (CInt MNone z))) = z) /\
  (- 2 ^ 63 < z < 2 ^ 63 -> pl_i64 (Some (conv_text plain (CInt MInt64 z))) = z).
Proof.
  unfold conv_text, plain. cbn [fl_minus fl_zero fl_width]. rewrite !padded_plain.
  split_and!; intros Hz; cbn [mod_size Z.mul Pos.mul]; try split; try intros uc;
    rewrite ?padded_plain; cbn [app]; rewrite ?wrap_small by lia; rewrite ?swrap_small by lia.
  1-4: apply itext_loop; [lia..|intros d Hd; first [by apply dec_digit_digit | by apply hex_digit_digit]].
  - apply signed_itext; [by left|]. destruct (decide (z = - 2 ^ 31)); [by right|left; lia].
  - apply signed_itext; [by right|left; lia].
Qed.

(** ** Trimming *)

Lemma ws_match_fails base chrv0 p :
  length chrv0 = CHRV_SIZE -> ws_match base chrv0 p = Some EINVAL.
Proof. intros Hc. by destruct chrv0 as [|c0 [|c1 [|c2 [|c3 v]]]]. Qed.

(** [pl_trim], [pl_ltrim] and [pl_rtrim] leave every string that is set
    as it is, white space included: the expression "[ \t\r\n]" they test with
    has no quantifier, so [re_regex] always answers [EINVAL]. *)
Theorem pl_trim_keeps base chrv0 pl :
  length chrv0 = CHRV_SIZE -> 0 <= pl_p pl -> 0 < pl_l pl -> pl_p pl + pl_l pl <= zlength base ->
  pl_ltrim base chrv0 pl = Some (0, pl) /\ pl_rtrim base chrv0 pl = Some (0, pl) /\
  pl_trim base chrv0 pl = Some (0, pl).
Proof.
  intros Hc Hp Hl Hb.
  assert (pl_ltrim base chrv0 pl = Some (0, pl)) as E1.
  { unfold pl_ltrim. replace (pl_l pl =? 0) with false by lia.
    destruct (Z.to_nat (pl_l pl)); cbn [ltrim_loop]; by rewrite ws_match_fails. }
  assert (pl_rtrim base chrv0 pl = Some (0, pl)) as E2.
  { unfold pl_rtrim. replace (pl_l pl =? 0) with false by lia.
    destruct (Z.to_nat (pl_l pl)); cbn [rtrim_loop]; by rewrite ws_match_fails. }
  split_and!; [done..|]. unfold pl_trim. by rewrite E1, E2.
Qed.

Lemma pl_trim_keeps_witness :
  let base := [32; 97; 32] in let chrv0 := replicate 64 {| ch_min := 0; ch_max := 0 |} in
  pl_ltrim base chrv0 (Pl 0 3) = Some (0, Pl 0 3) /\ pl_rtrim base chrv0 (Pl 0 3) = Some (0, Pl 0 3) /\
  pl_trim base chrv0 (Pl 0 3) = Some (0, Pl 0 3).
Proof. apply pl_trim_keeps; [reflexivity|simpl; lia..]. Defined.

(** ** Searching *)

(** [str] occurs in [s] at offset [i]. *)
Definition occurs (str s : list Z) (i : nat) : Prop := take (length str) (drop i s) = str.

Lemma occurs_short str s i : (length s < i + length str)%nat -> str <> [] -> ~ occurs str s i.
Proof.
  unfold occurs. intros Hl Hn E. apply (f_equal length) in E. rewrite length_take, length_drop in E.
  assert (length str <> 0)%nat by by destruct str. lia.
Qed.

Lemma strstr_loop_spec str s : str <> [] -> forall i,
  match strstr_loop s str i with
  | Some k => exists j, k = i + Z.of_nat j /\ occurs str s j /\ forall j', (j' < j)%nat -> ~ occurs str s j'
  | None => forall j, ~ occurs str s j
  end.
Proof.
  intros Hn. induction s as [|x s IH]; intros i.
  { intros j. apply occurs_short; [|done]. assert (length str <> 0)%nat by by destruct str. simpl. lia. }
  cbn [strstr_loop]. destruct (Z.ltb_spec (zlength (x :: s)) (zlength str)).
  { intros j. apply occurs_short; [lia|done]. }
  case_bool_decide as E.
  { exists O. split; [lia|]. split; [done|lia]. }
  specialize (IH (i + 1)). destruct (strstr_loop s str (i + 1)) as [k|].
  - destruct IH as (j & -> & Hj & Hf). exists (S j). split; [lia|]. split; [done|].
    intros [|j'] Hj'; [done|]. apply Hf. lia.
  - intros [|j]; [done|apply IH].
Qed.

(** [pl_strstr] gives the first place where the string occurs. *)
Theorem pl_strstr_first s str :
  s <> [] -> str <> [] ->
  match pl_strstr (Some s) str with
  | Some k => exists j, k = Z.of_nat j /\ occurs str s j /\ forall j', (j' < j)%nat -> ~ occurs str s j'
  | None => forall j, ~ occurs str s j
  end.
Proof.
  intros Hs Hn. unfold pl_strstr, pl_isset, nz. cbn [default from_option id].
  assert (zlength s <> 0) by (destruct s; [done|simpl; lia]).
  assert (zlength str <> 0) by (destruct str; [done|simpl; lia]).
  destruct (Z.eqb_spec (zlength s) 0); [done|]. cbn [negb orb].
  destruct (Z.ltb_spec (zlength s) (zlength str)).
  { intros j. apply occurs_short; [lia|done]. }
  destruct (Z.eqb_spec (zlength str) 0); [done|]. apply strstr_loop_spec; done.
Qed.

Lemma strchr_loop_spec c s : forall i,
  match strchr_loop s i c with
  | Some k => exists j, k = i + Z.of_nat j /\ s !! j = Some c /\ forall j', (j' < j)%nat -> s !! j' <> Some c
  | None => c ∉ s
  end.
Proof.
  induction s as [|x s IH]; intros i; cbn [strchr_loop]; [apply not_elem_of_nil|].
  destruct (Z.eqb_spec x c) as [->|Hx].
  { exists O. split; [lia|]. split; [done|lia]. }
  specialize (IH (i + 1)). destruct (strchr_loop s (i + 1) c) as [k|].
  - destruct IH as (j & -> & Hj & Hf). exists (S j). split; [lia|]. split; [done|].
    intros [|j'] Hj'; simpl; [congruence|]. apply Hf. lia.
  - rewrite not_elem_of_cons. split; [congruence|done].
Qed.

(** [pl_strchr] gives the first place of the character. *)
Theorem pl_strchr_first s c :
  match pl_strchr s c with
  | Some k => exists j, k = Z.of_nat j /\ s !! j = Some c /\ forall j', (j' < j)%nat -> s !! j' <> Some c
  | None => c ∉ s
  end.
Proof. apply (strchr_loop_spec c s 0). Qed.
