(* ===== verification/BasicAuth.v ===== *)
(** * HTTP Basic authentication (httpauth/basic.c, mem/secure.c)

    The client makes its credentials ([httpauth_basic_make_response],
    [httpauth_basic_encode]), the server checks them ([httpauth_basic_verify]).
    A header value is the list of its characters.  [num0] and [chrv0] are the
    arrays on the stack of [vhprintf] and [re_regex]. *)

From S2P Require Export Prelude Mem Mbuf Hash Base64 Regex Print Pl.

(** [mem_seccmp]: the difference of the first [n] bytes of two blocks. *)
Fixpoint seccmp_loop (n : nat) (p1 p2 : list Z) (val : Z) : option Z :=
  match n with
  | O => Some val
  | S n =>
      match p1, p2 with
      | a :: p1, b :: p2 => seccmp_loop n p1 p2 (Z.lor val (Z.lxor a b))
      | _, _ => None
      end
  end.

Definition mem_seccmp (s1 s2 : list Z) (n : Z) : option Z := seccmp_loop (Z.to_nat n) s1 s2 0.

(** "%s:%s" *)
Definition cred_format : list Z := [37; 115; 58; 37; 115].

(** "[ \t\r\n]*Basic[ \t\r\n]+[~ \t\r\n]*" *)
Definition basic_expr : list Z :=
  [91; 32; 9; 13; 10; 93; 42; 66; 97; 115; 105; 99; 91; 32; 9; 13; 10; 93; 43; 91; 126; 32; 9; 13; 10; 93; 42].

(** "[ \t\r\n]*Basic[ \t\r\n]+realm[ \t\r\n]*=[ \t\r\n]*[~ \t\r\n,]*" *)
Definition realm_expr : list Z :=
  [91; 32; 9; 13; 10; 93; 42; 66; 97; 115; 105; 99; 91; 32; 9; 13; 10; 93; 43;
   114; 101; 97; 108; 109; 91; 32; 9; 13; 10; 93; 42; 61; 91; 32; 9; 13; 10; 93; 42;
   91; 126; 32; 9; 13; 10; 44; 93; 42].

(** [strlen] in a block; undefined without a terminator. *)
Fixpoint strlen (m : list Z) : option Z :=
  match m with
  | [] => None
  | c :: m => if c =? 0 then Some 0 else match strlen m with Some n => Some (n + 1) | None => None end
  end.

Section basic.
Context `{Host}.
Variables (num0 : list Z) (chrv0 : list chr).

(** [struct httpauth_basic]: the credentials are a part of the buffer. *)
Record httpauth_basic := { ba_mb : option mbuf; ba_realm : option (Z * Z); ba_auth : Mbuf.pl }.

(** The realm of a challenge, as a part of the header value. *)
Definition httpauth_basic_decode (hval : list Z) : M httpauth_basic Z := fun basic =>
  match re_regex hval [false; false; false; false; true] chrv0 (length hval) realm_expr
          [None; None; None; None; ba_realm basic] with
  | None => None
  | Some (err, o) =>
      let realm := default None (o !! 4%nat) in
      let basic := {| ba_mb := ba_mb basic; ba_realm := realm; ba_auth := ba_auth basic |} in
      Some (if nz err || negb (match realm with Some (_, l) => nz l | None => false end) then EBADMSG else 0, basic)
  end.

(** The credentials are printed into the buffer, and their text behind them;
    input and output of [base64_encode] are the two parts of the one block. *)
Definition httpauth_basic_make_response (user pwd : list Z) : M httpauth_basic Z := fun basic =>
  let si := zlength user + zlength pwd + 1 in
  let so := 4 * (si + 2) / 3 in
  let upd mb auth := {| ba_mb := mb; ba_realm := ba_realm basic; ba_auth := auth |} in
  match mbuf_alloc (si + so + 1) with
  | None => Some (ENOMEM, upd None (ba_auth basic))
  | Some mb =>
      match (let* e1 := mbuf_printf num0 cred_format [Arg 8 (VPtr (Some user)); Arg 8 (VPtr (Some pwd))] in
             let* mb := get in
             let* e2 := mbuf_fill 0 (so + 1) in
             ret (Z.lor e1 e2, mb_pos mb)) mb with
      | None => None
      | Some ((err, poso), mb) =>
          if nz err then Some (err, upd (Some mb) (ba_auth basic)) else
          let in_ := take (Z.to_nat poso) (mb_buf mb) in
          match base64_encode in_ si so (drop (Z.to_nat poso) (mb_buf mb)) with
          | None => None
          | Some ((err, _), out) =>
              let mb := Mbuf (in_ ++ out) (mb_size mb) poso (mb_end mb) in
              if nz err then Some (err, upd (Some mb) (ba_auth basic)) else
              match strlen out with
              | None => None
              | Some l => Some (0, upd (Some mb) (Pl poso l))
              end
          end
      end
  end.

(** "Authorization: Basic " *)
Definition auth_prefix : list Z :=
  [65; 117; 116; 104; 111; 114; 105; 122; 97; 116; 105; 111; 110; 58; 32; 66; 97; 115; 105; 99; 32].

Definition httpauth_basic_encode (basic : httpauth_basic) : M mbuf Z :=
  match ba_mb basic with
  | None => ret EINVAL
  | Some src =>
      if pl_l (ba_auth basic) =? 0 then ret EINVAL else
      check (mbuf_resize (pl_l (ba_auth basic) + 21))
        (let* e1 := mbuf_write_str auth_prefix in
         let* e2 := mbuf_write_pl (mb_buf src) (ba_auth basic) in
         if nz (Z.lor e1 e2) then ret (Z.lor e1 e2) else
         mbuf_set_pos 0;; ret 0)
  end.

Definition EACCES : Z := 13.

Definition httpauth_basic_verify (hval user passwd : list Z) : option Z :=
  match mbuf_alloc (zlength user + zlength passwd + 1) with
  | None => Some ENOMEM
  | Some mb =>
      match re_regex hval [false; false; true] chrv0 (length hval) basic_expr [None; None; None] with
      | None => None
      | Some (err, o) =>
          match default None (o !! 2%nat) with
          | Some (p, l) =>
              if nz err || (l =? 0) then Some EBADMSG else
              if alloc_ok l then
                match base64_decode (drop (Z.to_nat p) hval) l l (replicate (Z.to_nat l) 0) with
                | None => None
                | Some ((err, clen), c) =>
                    if nz err then Some err else
                    match mbuf_printf num0 cred_format
                            [Arg 8 (VPtr (Some user)); Arg 8 (VPtr (Some passwd))] mb with
                    | None => None
                    | Some (err, mb) =>
                        if nz err then Some err else
                        match mem_seccmp (mb_buf mb) c clen with
                        | None => None
                        | Some d => Some (if nz d then EACCES else 0)
                        end
                    end
                end
              else Some ENOMEM
          | None => Some EBADMSG
          end
      end
  end.
End basic.
