(* ===== verification/BasicAuthThms.v ===== *)
(** * HTTP Basic authentication: what is accepted

    The header a client makes is accepted.  What is accepted in general is a
    prefix of the credentials, the empty one included. *)

From S2P Require Import Prelude Mem Mbuf MbufSpec MbufData Hash Base64 Regex RegexThms Pl PlThms.
From S2P Require Import Print PrintThms PrintSinks BasicAuth.

(** ** The expression *)

Definition ws : list chr := (fun c => {| ch_min := c; ch_max := c |}) <$> [32; 9; 13; 10].

Definition basic_items : list item :=
  [Cls false false ws 42; Lit 66; Lit 97; Lit 115; Lit 105; Lit 99; Cls false false ws 43; Cls true true ws 42].

Lemma basic_expr_items : basic_expr = print_items basic_items.
Proof. reflexivity. Qed.

Lemma basic_items_ok : Forall item_ok basic_items.
Proof.
  repeat constructor; simpl; try lia; by eexists.
Qed.

Definition is_ws (c : Z) : bool := bool_decide (c ∈ [32; 9; 13; 10]).

(** Neither white space nor quotes nor a backslash. *)
Definition token_char (c : Z) : Prop := is_ws c = false /\ c <> 34 /\ c <> 92.
Abbreviation token := (Forall token_char).

Lemma in_ws c : in_class false ws c = is_ws c.
Proof.
  unfold in_class, ws. cbn [fmap list_fmap existsb ch_min ch_max xorb].
  assert (forall a, a ∈ [32; 9; 13; 10] -> (tolower a <=? tolower c) && (tolower c <=? tolower a) = bool_decide (c = a)) as H.
  { intros a Ha. assert (tolower a = a) as -> by (rewrite !elem_of_cons, elem_of_nil in Ha; unfold tolower; case_match; lia).
    assert (tolower c = a <-> c = a) as E
      by (rewrite !elem_of_cons, elem_of_nil in Ha; unfold tolower; case_match; lia).
    case_bool_decide; lia. }
  rewrite !H by (rewrite !elem_of_cons; tauto). rewrite orb_false_r. unfold is_ws.
  apply Bool.eq_true_iff_eq. rewrite !orb_true_iff, !bool_decide_eq_true, !elem_of_cons, elem_of_nil. tauto.
Qed.

Lemma in_not_ws c : in_class true ws c = negb (is_ws c).
Proof. rewrite <- in_ws. unfold in_class. by destruct (existsb _ _). Qed.

Lemma span_token t : token t -> forall nm, nm + zlength t <= u32 (-1) ->
  span true true ws (u32 (-1)) nm false false t = length t.
Proof.
  change (u32 (-1)) with 4294967295.
  induction 1 as [|c t (Hw & Hq & Hb) _ IH]; intros nm Hn; [done|]. cbn [span length] in *.
  replace (nm <? 4294967295) with true by lia. replace (c =? 92) with false by lia.
  replace (c =? 34) with false by lia. cbn [negb andb]. rewrite in_not_ws, Hw.
  cbn [negb]. f_equal. apply IH. lia.
Qed.

Section search.
Variables (args : list bool) (o : pls).

Lemma attempt_lit c x its p t va : tolower c = tolower x ->
  attempt args (Lit c :: its) p (x :: t) va o = attempt args its (p + 1) t va o.
Proof. intros E. cbn [attempt]. by rewrite E, Z.eqb_refl. Qed.

(** A class whose result nobody asked for. *)
Lemma attempt_class rs q nmin nmax k its p t va :
  args !! va = Some false -> quantifier q = Some (nmin, nmax) ->
  span false false rs nmax 0 false false t = k -> nmin <= Z.of_nat k ->
  attempt args (Cls false false rs q :: its) p t va o = attempt args its (p + Z.of_nat k) (drop k t) (S va) o.
Proof.
  intros Ea Eq Ek Hk. cbn [attempt]. unfold bind at 1, lift. rewrite Ea, Eq. cbn [from_option id andb].
  rewrite Ek. replace (Z.of_nat k <? nmin) with false by lia.
  unfold bind, assign, lift. by rewrite Ea.
Qed.

(** The last class takes a token whole. *)
Lemma attempt_token t p va : args !! va = Some true -> token t -> zlength t <= u32 (-1) ->
  attempt args [Cls true true ws 42] p t va o = Some (Matched, <[va := Some (p, zlength t)]> o).
Proof.
  intros Ea Ht Hl. cbn [attempt]. unfold bind at 1, lift. rewrite Ea.
  change (default (0, 0) (quantifier 42)) with (0, u32 (-1)). cbv iota beta.
  rewrite span_token by (done || lia). rewrite take_ge by lia.
  assert (quoted t = false) as ->.
  { unfold quoted. destruct t as [|c t]; [done|]. apply Forall_cons_iff in Ht as [(_ & Hc & _) _].
    rewrite (bool_decide_false ((c :: t) !! O = Some 34)) by (by intros [= ->]).
    by rewrite andb_false_r. }
  cbn [andb]. replace (zlength t <? 0) with false by lia. unfold bind, assign, lift. by rewrite Ea.
Qed.
End search.

Section basic_search.
Variable o : pls.
Abbreviation args := [false; false; true].

(** A character that starts neither white space nor the scheme is skipped. *)
Lemma search_skip x t p : is_ws x = false -> tolower x <> 98 ->
  search args basic_items p (x :: t) o = search args basic_items (p + 1) t o.
Proof.
  intros Hx Hb. cbn [search]. unfold bind, basic_items at 1.
  rewrite (attempt_class _ _ ws 42 0 (u32 (-1)) 0) by (try done; cbn [span]; rewrite in_ws, Hx; by case_match).
  cbn [attempt drop]. change (tolower 66) with 98. by replace (98 =? tolower x) with false by lia.
Qed.

(** The scheme, with or without a blank in front, and a token. *)
Lemma search_match sp t p :
  sp = [] \/ sp = [32] -> token t -> t <> [] -> zlength t <= u32 (-1) ->
  search args basic_items p (sp ++ [66; 97; 115; 105; 99; 32] ++ t) o =
  Some (0, <[2%nat := Some (p + zlength sp + 6, zlength t)]> o).
Proof.
  intros Hsp Ht Hn Hl.
  assert (span false false ws (u32 (-1)) 0 false false (32 :: t) = 1%nat) as E2.
  { destruct t as [|c t]; [done|]. apply Forall_cons_iff in Ht as [(Hc & _) _].
    cbn [span]. by rewrite !in_ws, Hc. }
  assert (attempt args basic_items p (sp ++ [66; 97; 115; 105; 99; 32] ++ t) 0 o =
    Some (Matched, <[2%nat := Some (p + zlength sp + 6, zlength t)]> o)) as E.
  { unfold basic_items.
    rewrite (attempt_class _ _ ws 42 0 (u32 (-1)) (length sp)) by (try done; try lia; by destruct Hsp as [-> | ->]).
    rewrite drop_app_length. cbn [app]. rewrite !attempt_lit by done.
    rewrite (attempt_class _ _ ws 43 1 (u32 (-1)) 1) by (done || lia). cbn [drop].
    rewrite attempt_token by done. do 5 f_equal. lia. }
  destruct Hsp as [-> | ->]; cbn [app] in *; cbn [search]; unfold bind; by rewrite E.
Qed.
End basic_search.

Definition scheme : list Z := [66; 97; 115; 105; 99; 32].

(** Characters that cannot start the match. *)
Definition skipped (x : Z) : Prop := is_ws x = false /\ tolower x <> 98.

Lemma search_from pre sp t o : Forall skipped pre -> sp = [] \/ sp = [32] -> token t -> t <> [] ->
  zlength t <= u32 (-1) -> forall p,
  search [false; false; true] basic_items p (pre ++ sp ++ scheme ++ t) o =
  Some (0, <[2%nat := Some (p + zlength pre + zlength sp + 6, zlength t)]> o).
Proof.
  intros Hpre Hsp Ht Hn Hl. induction Hpre as [|x pre [Hx Hb] _ IH]; intros p.
  - change ([] ++ sp ++ scheme ++ t) with (sp ++ [66; 97; 115; 105; 99; 32] ++ t).
    rewrite search_match by done. do 5 f_equal. simpl. lia.
  - cbn [app]. rewrite search_skip, IH by done. cbn [length]. do 5 f_equal. lia.
Qed.

Lemma regex_header pre sp t chrv0 :
  Forall skipped pre -> sp = [] \/ sp = [32] -> token t -> t <> [] -> zlength t <= u32 (-1) ->
  length chrv0 = CHRV_SIZE ->
  let hval := pre ++ sp ++ scheme ++ t in
  re_regex hval [false; false; true] chrv0 (length hval) basic_expr [None; None; None] =
  Some (0, [None; None; Some (zlength pre + zlength sp + 6, zlength t)]).
Proof.
  intros Hpre Hsp Ht Hn Hl Hc hval. rewrite basic_expr_items, re_regex_search by (try done; apply basic_items_ok).
  rewrite take_ge by done. unfold hval. by rewrite search_from.
Qed.

(** ** The parts of the check *)

Lemma seccmp_loop_spec n : forall a b v,
  if (n <=? length a)%nat && (n <=? length b)%nat
  then exists w, seccmp_loop n a b v = Some w /\ (w = 0 <-> v = 0 /\ take n a = take n b)
  else seccmp_loop n a b v = None.
Proof.
  induction n as [|n IH]; intros a b v.
  - exists v. split; [done|]. simpl. tauto.
  - destruct a as [|x a], b as [|y b]; [done|done|by rewrite andb_false_r|]. cbn [length Nat.leb seccmp_loop take].
    specialize (IH a b (Z.lor v (Z.lxor x y))). destruct (_ && _); [|done].
    destruct IH as (w & -> & Hw). exists w. split; [done|].
    rewrite Hw, lor_0_iff, Z.lxor_eq_0_iff. split.
    + intros [[? ->] ?]. split; congruence.
    + intros [? E]. injection E as -> ->. done.
Qed.

(** Comparing a decoded string with the start of another one. *)
Lemma seccmp_decoded c m bs : zlength bs <= zlength m ->
  match mem_seccmp c (splice m 0 bs) (zlength bs) with
  | Some d => zlength bs <= zlength c /\ (d = 0 <-> take (length bs) c = bs)
  | None => zlength c < zlength bs
  end.
Proof.
  intros Hl. unfold mem_seccmp. rewrite Nat2Z.id.
  pose proof (seccmp_loop_spec (length bs) c (splice m 0 bs) 0) as Hs.
  pose proof (slice_prefix m bs []) as Et. rewrite app_nil_r in Et.
  unfold slice in Et. rewrite drop_0, Nat2Z.id in Et. rewrite Et in Hs.
  pose proof (length_splice m 0 bs ltac:(lia) ltac:(lia)) as Em.
  destruct (Nat.leb_spec (length bs) (length (splice m 0 bs))); [|lia]. rewrite andb_true_r in Hs.
  destruct (Nat.leb_spec (length bs) (length c)).
  - destruct Hs as (w & -> & Hw). split; [lia|]. tauto.
  - rewrite Hs. lia.
Qed.

Definition cred_dirs (user pwd : list Z) : list directive :=
  [DConv plain (CStr (Some user)); DText [58]; DConv plain (CStr (Some pwd))].
Definition creds (user pwd : list Z) : list Z := user ++ [58] ++ pwd.

Lemma text_cred user pwd : text_of (cred_dirs user pwd) = creds user pwd.
Proof.
  unfold text_of, cred_dirs. cbn [fmap list_fmap concat dir_text conv_text plain fl_width fl_minus default from_option id].
  by rewrite !padded_plain, app_nil_r.
Qed.

Lemma creds_ok user pwd : bytes_ok user -> bytes_ok pwd -> bytes_ok (creds user pwd).
Proof.
  intros.
  apply Forall_app. split; [done|]. apply Forall_app. split; [|done]. constructor; [unfold byte_ok; lia|done].
Qed.

Lemma length_creds user pwd : zlength (creds user pwd) = zlength user + zlength pwd + 1.
Proof. unfold creds. rewrite !length_app. simpl. lia. Qed.

Lemma splice_all (m t : list Z) : length m = length t -> splice m 0 t = t.
Proof.
  intros E. unfold splice. change (Z.to_nat 0) with 0%nat. rewrite take_0, Nat.add_0_l, <- E, drop_all.
  apply app_nil_r.
Qed.

Lemma decode_fits text n out :
  0 <= n <= zlength text -> n < 2 ^ 64 -> 3 * n / 4 <= zlength out ->
  let bs := b64_bytes (take (Z.to_nat n) text) in
  base64_decode text n (zlength out) out = Some ((0, zlength bs), splice out 0 bs) /\ zlength bs <= zlength out.
Proof.
  intros Hn Hb Ho bs. assert (zlength (take (Z.to_nat n) text) = n) as El by (rewrite length_take; lia).
  pose proof (length_b64_bytes (take (Z.to_nat n) text)) as Hl. rewrite El in Hl. fold bs in Hl.
  rewrite base64_decode_emit by lia. replace (_ <? _) with false by dlia.
  unfold bind. rewrite emit_fits by (fold bs; lia). split; [done|lia].
Qed.

Lemma strlen_text t r : Forall (fun c => c <> 0) t -> strlen (t ++ 0 :: r) = Some (zlength t).
Proof.
  induction 1 as [|c t Hc _ IH]; [done|]. cbn [app strlen length]. replace (c =? 0) with false by lia.
  rewrite IH. f_equal. lia.
Qed.

(** The text of the credentials is a token. *)
Lemma text_token bs : bytes_ok bs -> token (b64_text bs) /\ Forall (fun c => c <> 0) (b64_text bs).
Proof.
  assert (forall k, 0 <= k < 64 -> token_char (sx b64_table k) /\ sx b64_table k <> 0) as Hk.
  { intros k Hk. assert (forallb (fun k => negb (is_ws (sx b64_table k)) && negb (sx b64_table k =? 34) &&
      negb (sx b64_table k =? 92) && negb (sx b64_table k =? 0)) (Z.of_nat <$> seq 0 64) = true) as E
      by (vm_compute; reflexivity).
    rewrite forallb_forall in E. specialize (E k). rewrite !andb_true_iff, !negb_true_iff in E.
    destruct E as [[[? ?] ?] ?]; [|split; [split; [done|lia]|lia]].
    apply list_elem_of_In, list_elem_of_fmap. exists (Z.to_nat k). split; [lia|]. apply elem_of_seq. lia. }
  assert (token_char PAD /\ PAD <> 0) as Hp by (vm_compute; split; [split; [done|lia]|lia]).
  intros Hok.
  enough (Forall (fun c => token_char c /\ c <> 0) (b64_text bs)) as H1
    by (split; (eapply List.Forall_impl; [|exact H1]); by intros ? []).
  revert Hok. induction bs as [|a|a b|a b c l IH] using triples; intros Hok; [constructor|..];
    unfold byte_ok in Hok; rewrite ?Forall_cons_iff in Hok; cbn [b64_text];
    repeat (apply Forall_cons; [first [exact Hp | apply Hk; dlia]|]); try constructor.
  apply IH. tauto.
Qed.

Section check.
Context `{Host}.
Hypothesis memory : no_oom.

Lemma alloc_new n : 0 < n <= MEM_SIZE_MAX ->
  exists buf, mbuf_alloc n = Some (Mbuf buf n 0 0) /\ zlength buf = n.
Proof.
  intros Hn. unfold mbuf_alloc, mbuf_resize. rewrite alloc_ok_no_oom by (try done; unfold MEM_SIZE_MAX; lia).
  unfold nz. replace (n =? 0) with false by lia. cbn [negb].
  rewrite alloc_ok_no_oom by (try done; lia). eexists. split; [done|]. apply realloc_bytes_length. lia.
Qed.
Lemma mbuf_fill_fixed mb c n :
  fixed_ok mb -> 0 < n -> mb_pos mb + n <= mb_size mb ->
  mbuf_fill c n mb = mbuf_write_mem (replicate (Z.to_nat n) c) mb.
Proof.
  intros Hok Hn Hr. assert (zlength (replicate (Z.to_nat n) c) = n) as El by (rewrite length_replicate; lia).
  unfold mbuf_fill, mbuf_write_mem. replace (n =? 0) with false by lia. by rewrite El.
Qed.

Lemma encode_spec user pwd basic src pad mb :
  ba_mb basic = Some src -> mb_buf src = creds user pwd ++ b64_text (creds user pwd) ++ pad ->
  ba_auth basic = Pl (zlength (creds user pwd)) (zlength (b64_text (creds user pwd))) ->
  zlength (creds user pwd) < 2 ^ 29 -> mb_pos mb = 0 -> mb_end mb = 0 ->
  let hdr := auth_prefix ++ b64_text (creds user pwd) in
  httpauth_basic_encode basic mb = Some (0, Mbuf hdr (zlength hdr) 0 (zlength hdr)).
Proof.
  intros Esrc Ebuf Eauth Hl Hp He hdr. unfold httpauth_basic_encode. rewrite Esrc, Ebuf, Eauth. cbn [pl_l].
  set (c := creds user pwd) in *. set (t := b64_text c) in *.
  assert (zlength t = 4 * ((zlength c + 2) / 3)) as Et by apply length_b64_text.
  assert (1 <= zlength c) by (unfold c; rewrite length_creds; lia).
  assert (zlength hdr = zlength t + 21) as Eh by (unfold hdr; rewrite length_app; simpl; lia).
  replace (zlength t =? 0) with false by dlia. unfold check, bind at 1, mbuf_resize.
  rewrite alloc_ok_no_oom by (try done; unfold MEM_SIZE_MAX; dlia).
  set (buf := realloc_bytes (mb_buf mb) (zlength t + 21)).
  assert (zlength buf = zlength t + 21) as Hbuf by (apply realloc_bytes_length; lia).
  change (nz 0) with false. cbv iota. rewrite Hp, He. unfold bind at 1, mbuf_write_str.
  change (zlength auth_prefix) with 21.
  rewrite mbuf_write_fixed by (split || idtac; cbn [mb_pos mb_size mb_end mb_buf]; simpl length; dlia).
  cbn [mb_buf mb_pos mb_end mb_size]. unfold mbuf_write_pl, bind, lift, mem_load. cbn [pl_p pl_l].
  rewrite in_block_true by (rewrite ?length_app; lia). rewrite slice_app_mid.
  assert (zlength (splice buf 0 auth_prefix) = zlength t + 21) as Hb1 by (rewrite length_splice; simpl length; lia).
  rewrite mbuf_write_fixed by (split || idtac; cbn [mb_pos mb_size mb_end mb_buf]; simpl (length auth_prefix); dlia).
  cbn [mb_buf mb_pos mb_end mb_size]. rewrite Z.lor_0_l. change (nz 0) with false. cbv iota.
  unfold mbuf_set_pos, modify, set_pos, ret. cbn [mb_buf mb_pos mb_end mb_size].
  rewrite splice_splice by (simpl length; lia). fold hdr. rewrite splice_all by lia.
  simpl (length auth_prefix). do 3 f_equal; lia.
Qed.
Variables (num0 : list Z) (user pwd : list Z).
Hypothesis num0_size : zlength num0 = NUM_SIZE.
Hypothesis user_ok : bytes_ok user.
Hypothesis pwd_ok : bytes_ok pwd.

(** Printing the credentials into a new buffer with room for them. *)
Lemma print_creds mb :
  fixed_ok mb -> mb_pos mb + zlength (creds user pwd) <= mb_size mb ->
  mbuf_printf num0 cred_format [Arg 8 (VPtr (Some user)); Arg 8 (VPtr (Some pwd))] mb =
  Some (0, Mbuf (splice (mb_buf mb) (mb_pos mb) (creds user pwd)) (mb_size mb)
             (mb_pos mb + zlength (creds user pwd)) (Z.max (mb_end mb) (mb_pos mb + zlength (creds user pwd)))).
Proof.
  intros Hok Hr. pose proof (creds_ok user pwd user_ok pwd_ok) as Hc.
  destruct (mbuf_printf_fixed num0 (cred_dirs user pwd) mb) as (mb' & E & [_ ->]).
  - done.
  - repeat constructor; simpl; try lia. by apply not_elem_of_cons; split; [|apply not_elem_of_nil].
  - by rewrite text_cred.
  - done.
  - by rewrite text_cred.
  - rewrite text_cred in E. exact E.
Qed.

(** What the check of a header with a token comes to. *)
Lemma verify_token chrv0 pre sp t :
  length chrv0 = CHRV_SIZE -> zlength (creds user pwd) < 2 ^ 31 -> zlength t < 2 ^ 31 ->
  Forall skipped pre -> sp = [] \/ sp = [32] -> token t -> t <> [] ->
  let bs := b64_bytes t in
  httpauth_basic_verify num0 chrv0 (pre ++ sp ++ scheme ++ t) user pwd =
  if zlength bs <=? zlength (creds user pwd)
  then Some (if bool_decide (take (length bs) (creds user pwd) = bs) then 0 else EACCES) else None.
Proof.
  intros Hc Hu Ht Hpre Hsp Htok Hne bs. unfold httpauth_basic_verify. rewrite <- length_creds.
  destruct (alloc_new (zlength (creds user pwd))) as (buf & -> & Hbuf);
    [rewrite length_creds in *; unfold MEM_SIZE_MAX; lia|].
  assert (zlength t <> 0) as Hz by (destruct t; [done|simpl; lia]).
  rewrite regex_header by (try done; change (u32 (-1)) with 4294967295; lia).
  cbn [lookup list_lookup default from_option id]. change (nz 0) with false.
  replace (zlength t =? 0) with false by lia. cbn [orb].
  rewrite alloc_ok_no_oom by (try done; unfold MEM_SIZE_MAX; lia).
  replace (drop (Z.to_nat (zlength pre + zlength sp + 6)) (pre ++ sp ++ scheme ++ t)) with t.
  2: { rewrite (app_assoc pre), (app_assoc (pre ++ sp)), drop_app_length'; [done|].
       rewrite !length_app. simpl. lia. }
  destruct (decode_fits t (zlength t) (replicate (Z.to_nat (zlength t)) 0)) as [Ed Hl].
  { lia. } { lia. } { rewrite length_replicate. dlia. }
  rewrite length_replicate, Z2Nat.id in Ed, Hl by lia. rewrite Nat2Z.id, take_ge in Ed, Hl by lia.
  rewrite Nat2Z.id. rewrite Ed. change (nz 0) with false. cbv iota.
  rewrite print_creds by (split || idtac; simpl; lia).
  change (nz 0) with false. cbv iota. cbn [mb_buf mb_pos]. rewrite splice_all by lia.
  fold bs in Hl |- *. pose proof (seccmp_decoded (creds user pwd) (replicate (length t) 0) bs) as Hs.
  rewrite length_replicate in Hs. specialize (Hs Hl).
  destruct (mem_seccmp _ _ _) as [d|].
  - destruct Hs as [Hle Hd]. replace (_ <=? _) with true by lia. f_equal.
    unfold nz. destruct (Z.eqb_spec d 0); case_bool_decide; cbn [negb]; tauto.
  - by replace (_ <=? _) with false by lia.
Qed.

(** The credentials and their text, with room left over. *)
Lemma make_response_spec basic :
  zlength (creds user pwd) < 2 ^ 29 ->
  let t := b64_text (creds user pwd) in
  exists mb pad, httpauth_basic_make_response num0 user pwd basic =
    Some (0, {| ba_mb := Some mb; ba_realm := ba_realm basic; ba_auth := Pl (zlength (creds user pwd)) (zlength t) |}) /\
    mb_buf mb = creds user pwd ++ t ++ pad.
Proof.
  intros Hl t. unfold httpauth_basic_make_response. rewrite <- length_creds.
  set (si := zlength (creds user pwd)) in *. set (so := 4 * (si + 2) / 3).
  assert (zlength t = 4 * ((si + 2) / 3)) as Et by apply length_b64_text.
  assert (1 <= si) by (unfold si; rewrite length_creds; lia).
  assert (zlength t <= so) by (unfold so; dlia). assert (so < 2 ^ 31) by (unfold so; dlia).
  destruct (alloc_new (si + so + 1)) as (buf & -> & Hbuf); [unfold MEM_SIZE_MAX; lia|].
  unfold bind at 1. rewrite print_creds by (split || idtac; simpl; fold si; lia).
  cbn [mb_buf mb_pos mb_end mb_size]. fold si. rewrite !Z.add_0_l, Z.max_r by lia.
  assert (zlength (splice buf 0 (creds user pwd)) = si + so + 1) as Hb1 by (rewrite length_splice; fold si; lia).
  unfold bind, get. rewrite mbuf_fill_fixed by (split || idtac; simpl; lia).
  assert (zlength (replicate (Z.to_nat (so + 1)) 0) = so + 1) as Er by (rewrite length_replicate; lia).
  rewrite mbuf_write_fixed by (split || idtac; cbn [mb_pos mb_size mb_end mb_buf]; lia).
  unfold ret. cbn [Z.lor mb_buf mb_pos mb_end mb_size]. change (nz 0) with false. cbv iota.
  assert (splice (splice buf 0 (creds user pwd)) si (replicate (Z.to_nat (so + 1)) 0)
          = creds user pwd ++ replicate (Z.to_nat (so + 1)) 0) as ->.
  { replace si with (0 + zlength (creds user pwd)) by (unfold si; lia).
    rewrite splice_splice by (fold si; lia). apply splice_all. rewrite length_app. fold si in Hbuf. lia. }
  rewrite take_app_length', drop_app_length' by (unfold si; lia).
  rewrite base64_encode_spec by (try (by apply creds_ok); unfold si in *; lia).
  rewrite take_ge by (unfold si; lia). fold t. cbv zeta. replace (so <? _) with false by lia.
  change (nz 0) with false. cbv iota.
  assert (splice (replicate (Z.to_nat (so + 1)) 0) 0 t = t ++ 0 :: replicate (Z.to_nat (so - zlength t)) 0) as ->.
  { unfold splice. change (Z.to_nat 0) with 0%nat. rewrite take_0, Nat.add_0_l, drop_replicate. cbn [app].
    replace (Z.to_nat (so + 1) - length t)%nat with (S (Z.to_nat (so - zlength t))) by lia. done. }
  rewrite strlen_text by (by apply text_token, creds_ok). eexists _, _. by split.
Qed.

End check.

(** ** Properties *)

(** C26: The header that a client makes from a user name and a password is
    accepted by a server that expects them. *)
Theorem httpauth_basic_accepts `{Host} num0 chrv0 user pwd basic mb :
  no_oom -> zlength num0 = NUM_SIZE -> length chrv0 = CHRV_SIZE ->
  bytes_ok user -> bytes_ok pwd -> zlength (creds user pwd) < 2 ^ 29 -> mb_pos mb = 0 -> mb_end mb = 0 ->
  exists basic' mb',
    httpauth_basic_make_response num0 user pwd basic = Some (0, basic') /\
    httpauth_basic_encode basic' mb = Some (0, mb') /\
    httpauth_basic_verify num0 chrv0 (unread mb') user pwd = Some 0.
Proof.
  intros Hm Hn Hc Hu Hp Hl Hpos Hend. set (t := b64_text (creds user pwd)).
  assert (zlength t = 4 * ((zlength (creds user pwd) + 2) / 3)) as Et by apply length_b64_text.
  destruct (make_response_spec Hm num0 user pwd Hn Hu Hp basic Hl) as (src & pad & E1 & Eb).
  eexists _, _. split; [exact E1|]. split; [eapply encode_spec; [exact Hm|done|exact Eb|done..]|].
  fold t. set (hdr := auth_prefix ++ t).
  assert (unread (Mbuf hdr (zlength hdr) 0 (zlength hdr)) = take 14 auth_prefix ++ [32] ++ scheme ++ t) as ->.
  { unfold unread, mbuf_get_left, slice. cbn [mb_buf mb_pos mb_end].
    assert (zlength hdr = 21 + zlength t) as Eh
      by (unfold hdr; rewrite length_app; change (length auth_prefix) with 21%nat; lia).
    replace (0 <? zlength hdr) with true by lia.
    change (Z.to_nat 0) with 0%nat. rewrite drop_0, Z.sub_0_r, Nat2Z.id. by rewrite take_ge. }
  destruct (text_token (creds user pwd) (creds_ok user pwd Hu Hp)) as [Ht _]. fold t in Ht.
  rewrite (verify_token Hm num0 user pwd Hn Hu Hp); [|done|lia|dlia| |by right|done|].
  - unfold t. rewrite (proj1 (b64_bytes_text _ (creds_ok user pwd Hu Hp))).
    rewrite take_ge by done. rewrite bool_decide_true by done. by rewrite Z.leb_refl.
  - by apply (bool_decide_unpack _).
  - intros E. rewrite E in Et. pose proof (length_creds user pwd). simpl in Et. dlia.
Qed.

(** C27: What [httpauth_basic_verify] accepts.  For a token [t] after the
    scheme, it compares as many bytes as [t] decodes to: a beginning of
    "user:password" is accepted as well as the whole, and a token of one
    character, which decodes to nothing, is accepted for every user and
    password.  A token that decodes to more is compared past the end of the
    buffer that holds the expected credentials. *)
Theorem httpauth_basic_verify_prefix `{Host} num0 chrv0 user pwd t :
  no_oom -> zlength num0 = NUM_SIZE -> length chrv0 = CHRV_SIZE ->
  bytes_ok user -> bytes_ok pwd -> zlength (creds user pwd) < 2 ^ 31 ->
  token t -> t <> [] -> zlength t < 2 ^ 31 ->
  let bs := b64_bytes t in
  httpauth_basic_verify num0 chrv0 (scheme ++ t) user pwd =
    (if zlength bs <=? zlength (creds user pwd)
     then Some (if bool_decide (take (length bs) (creds user pwd) = bs) then 0 else EACCES)
     else None) /\
  forall c, token_char c -> httpauth_basic_verify num0 chrv0 (scheme ++ [c]) user pwd = Some 0.
Proof.
  intros Hm Hn Hc Hu Hp Hl Ht Hne Htl bs. split.
  - apply (verify_token Hm num0 user pwd Hn Hu Hp chrv0 [] []); auto.
  - intros c Htc. change (scheme ++ [c]) with ([] ++ [] ++ scheme ++ [c]).
    rewrite (verify_token Hm num0 user pwd Hn Hu Hp chrv0 [] [] [c]);
      [|done|done|simpl; lia|constructor|by left|by constructor|done].
    change (zlength (b64_bytes [c])) with 0. destruct (Z.leb_spec 0 (zlength (creds user pwd))); [|lia].
    by rewrite bool_decide_true by apply take_0.
Qed.

Lemma httpauth_basic_accepts_witness :
  let H := lp64_host in
  exists basic' mb',
    httpauth_basic_make_response (replicate 64 0) [97] [98] {| ba_mb := None; ba_realm := None; ba_auth := Pl 0 0 |}
      = Some (0, basic') /\
    httpauth_basic_encode basic' mbuf_init = Some (0, mb') /\
    httpauth_basic_verify (replicate 64 0) (replicate 64 {| ch_min := 0; ch_max := 0 |}) (unread mb') [97] [98]
      = Some 0.
Proof.
  intros H. apply httpauth_basic_accepts; [done|done|done|by apply (bool_decide_unpack _)..|vm_compute; congruence|done|done].
Defined.

(** Alice's password is secret: "Basic x" is accepted all the same, and so is
    the text of "al". *)
Lemma httpauth_basic_verify_prefix_witness :
  let H := lp64_host in
  let verify := httpauth_basic_verify (replicate 64 0) (replicate 64 {| ch_min := 0; ch_max := 0 |}) in
  let alice := [97; 108; 105; 99; 101] in let secret := [115; 101; 99; 114; 101; 116] in
  verify (scheme ++ [89; 87; 119; 61]) alice secret = Some 0 /\ verify (scheme ++ [120]) alice secret = Some 0.
Proof.
  intros H verify alice secret. assert (token_char 120) as Hx by by split.
  destruct (httpauth_basic_verify_prefix (replicate 64 0) (replicate 64 {| ch_min := 0; ch_max := 0 |})
    alice secret [89; 87; 119; 61]) as [E1 E2].
  1-9: first [done | by apply (bool_decide_unpack _) | vm_compute; congruence | repeat constructor; done].
  split; [refine (eq_trans E1 _); vm_compute; reflexivity|exact (E2 120 Hx)].
Defined.
