(* ===== verification/Rtcp.v ===== *)
(** * RTCP packets (src/rtp/pkt.c, rr.c, sdes.c, fb.c)

    Encoding and decoding of all packet types of RFC 3550 and of the feedback
    messages.  A decoded message is a header and the member of the union that
    its type selects; the counts are the lengths of the vectors.  The variable
    arguments of [rtcp_vencode] are a value of [rtcp_args], an encode handler
    with its argument a program over the buffer.  The buffers that a feedback
    message keeps ([mbuf_alloc_ref]) share the block of the packet: they are
    positions in it. *)

From S2P Require Export Prelude Mbuf MbufSpec.

Definition RTCP_VERSION : Z := 2.
Definition RTCP_HDR_SIZE : Z := 4.
Definition RTCP_SRC_SIZE : Z := 4.
Definition RTCP_SR_SIZE : Z := 20.
Definition RTCP_RR_SIZE : Z := 24.
Definition RTCP_APP_SIZE : Z := 8.
Definition RTCP_FIR_SIZE : Z := 4.
Definition RTCP_NACK_SIZE : Z := 8.
Definition RTCP_FB_SIZE : Z := 8.

Definition RTCP_FIR : Z := 192.
Definition RTCP_NACK : Z := 193.
Definition RTCP_SR : Z := 200.
Definition RTCP_RR : Z := 201.
Definition RTCP_SDES : Z := 202.
Definition RTCP_BYE : Z := 203.
Definition RTCP_APP : Z := 204.
Definition RTCP_RTPFB : Z := 205.
Definition RTCP_PSFB : Z := 206.

Definition RTCP_SDES_END : Z := 0.
Definition RTCP_SDES_CNAME : Z := 1.
Definition RTCP_RTPFB_GNACK : Z := 1.
Definition RTCP_RTPFB_TWCC : Z := 15.
Definition RTCP_PSFB_PLI : Z := 1.
Definition RTCP_PSFB_SLI : Z := 2.
Definition RTCP_PSFB_FIR : Z := 4.
Definition RTCP_PSFB_AFB : Z := 15.
Definition GNACK_SIZE : Z := 4.
Definition FIR_SIZE : Z := 8.
Definition SLI_SIZE : Z := 4.

Record rtcp_rr := Rr {
  rr_ssrc : Z; rr_fraction : Z; rr_lost : Z; rr_last_seq : Z; rr_jitter : Z; rr_lsr : Z; rr_dlsr : Z;
}.

(** The length of an item is the length of its data. *)
Record rtcp_sdes_item := SdesItem { si_type : Z; si_data : list Z }.
Record rtcp_sdes := Sdes { sd_src : Z; sd_itemv : list rtcp_sdes_item }.

Record rtcp_hdr := RtcpHdr { rh_version : Z; rh_p : Z; rh_count : Z; rh_pt : Z; rh_length : Z }.

(** A buffer made by [mbuf_alloc_ref]: position and end in the same block. *)
Record mbuf_ref := Ref { ref_pos : Z; ref_end : Z }.

Record twcc := Twcc {
  tw_seq : Z; tw_count : Z; tw_reftime : Z; tw_fbcount : Z; tw_chunks : mbuf_ref; tw_deltas : mbuf_ref;
}.

Inductive fci :=
  | Gnackv (v : list (Z * Z))
  | Sliv (v : list (Z * Z * Z))
  | Firv (v : list (Z * Z))
  | Twccv (v : twcc)
  | Afb (v : mbuf_ref)
  | FciNone.

(** The union [r] of [struct rtcp_msg]. *)
Inductive rtcp_r :=
  | Sr (ssrc ntp_sec ntp_frac rtp_ts psent osent : Z) (rrv : list rtcp_rr)
  | RrMsg (ssrc : Z) (rrv : list rtcp_rr)
  | SdesMsg (sdesv : list rtcp_sdes)
  | Bye (srcv : list Z) (reason : option (list Z))
  | App (src : Z) (name : list Z) (data : list Z)
  | Fir (ssrc : Z)
  | Nack (ssrc fsn blp : Z)
  | Fb (ssrc_packet ssrc_media n : Z) (f : fci)
  | ROther.

Record rtcp_msg := RtcpMsg { rm_hdr : rtcp_hdr; rm_r : rtcp_r }.

(** An encode handler works on the buffer and on what its argument points to:
    the state of an encoder is the buffer, or the buffer and that object. *)
Class MbState (S : Type) := on_mbuf : forall {A}, M mbuf A -> M S A.

#[global] Instance mbuf_state : MbState mbuf := fun _ m => m.
#[global] Instance pair_state {T} : MbState (mbuf * T) := fun _ m s =>
  match m s.1 with Some (a, mb) => Some (a, (mb, s.2)) | None => None end.

(** What the variable arguments hold for each group of types. *)
Inductive rtcp_args (S : Type) :=
  | ArgsSr (v : list Z) (ench : option (M S Z))
  | ArgsRr (ssrc : Z) (ench : option (M S Z))
  | ArgsSdes (ench : option (M S Z))
  | ArgsBye (srcv : list Z) (reason : option (list Z))
  | ArgsApp (src : Z) (name : list Z) (data : option (list Z))
  | ArgsFir (ssrc : Z)
  | ArgsNack (ssrc fsn blp : Z)
  | ArgsFb (ssrc_packet ssrc_media : Z) (ench : option (M S Z)).
Arguments ArgsSr {S}. Arguments ArgsRr {S}. Arguments ArgsSdes {S}. Arguments ArgsBye {S}.
Arguments ArgsApp {S}. Arguments ArgsFir {S}. Arguments ArgsNack {S}. Arguments ArgsFb {S}.

Section rtcp.
Context `{Host}.

(** ** Reception reports (rr.c) *)

(** [rr->fraction<<24] is a shift of an [int] into its sign bit for a fraction
    of 128 or more: undefined in ISO C, the bits of the value with GCC and Clang,
    which is what is modelled. *)
Definition rtcp_rr_encode (rr : rtcp_rr) : M mbuf Z :=
  mbuf_write_u32 (htonl (rr_ssrc rr)) |;
  mbuf_write_u32 (htonl (Z.lor (u32 (Z.shiftl (rr_fraction rr) 24)) (Z.land (rr_lost rr) 0x00ffffff))) |;
  mbuf_write_u32 (htonl (rr_last_seq rr)) |;
  mbuf_write_u32 (htonl (rr_jitter rr)) |;
  mbuf_write_u32 (htonl (rr_lsr rr)) |;
  mbuf_write_u32 (htonl (rr_dlsr rr)).

Definition rr_zero : rtcp_rr := Rr 0 0 0 0 0 0 0.

(** [lost] is a signed bit-field of 24 bits. *)
Definition rtcp_rr_decode : M mbuf (Z * rtcp_rr) :=
  need RTCP_RR_SIZE (ret (EBADMSG, rr_zero))
    (let* ssrc := mbuf_read_ntohl in
     let* w := mbuf_read_ntohl in
     let* last_seq := mbuf_read_ntohl in
     let* jitter := mbuf_read_ntohl in
     let* lsr := mbuf_read_ntohl in
     let* dlsr := mbuf_read_ntohl in
     ret (0, Rr ssrc (Z.shiftr w 24) (swrap 24 (Z.land w 0x00ffffff)) last_seq jitter lsr dlsr)).

(** [for (i=0; i<count && !err; i++) err = dec(mb, &v[i]);] *)
Fixpoint decode_all {A} (dec : M mbuf (Z * A)) (count : nat) (v : list A) : M mbuf (Z * list A) :=
  match count with
  | O => ret (0, v)
  | S count =>
      let* '(err, x) := dec in
      if nz err then ret (err, v) else decode_all dec count (v ++ [x])
  end.

(** [rtcp_rr_alloc] and the loop that fills the vector. *)
Definition rtcp_rrv_decode (count : Z) : M mbuf (Z * list rtcp_rr) :=
  if alloc_ok (count * RTCP_RR_SIZE) then decode_all rtcp_rr_decode (Z.to_nat count) []
  else ret (ENOMEM, []).

(** ** Source descriptions (sdes.c) *)

(** The loop over the items; a NULL value is skipped.  The boolean is the
    [goto out] for a value of more than 255 characters. *)
Fixpoint sdes_items (ap : list (Z * option (list Z))) (err : Z) : M mbuf (Z * bool) :=
  match ap with
  | [] => ret (err, false)
  | (type, v) :: ap =>
      if nz err then ret (err, false)
      else
        match v with
        | None => sdes_items ap err
        | Some v =>
            if zlength v >? 255 then ret (EINVAL, true)
            else
              let* err := mbuf_write_u8 type |; mbuf_write_u8 (Z.land (zlength v) 0xff) |; mbuf_write_mem v in
              sdes_items ap err
        end
  end.

(** [while ((mb->pos - start) & 0x3) err |= mbuf_write_u8(mb, RTCP_SDES_END);]
    without fuel the write fails and the loop does not end. *)
Fixpoint sdes_padding (fuel : nat) (start : Z) : M mbuf Z :=
  let* mb := get in
  if nz (Z.land (u64 (mb_pos mb - start)) 0x3) then
    match fuel with
    | O => ub
    | S fuel => mbuf_write_u8 RTCP_SDES_END |; sdes_padding fuel start
    end
  else ret 0.

Definition rtcp_sdes_encode (src : Z) (ap : list (Z * option (list Z))) : M mbuf Z :=
  match ap with
  | [] => ret EINVAL
  | _ =>
      let* mb := get in
      let start := mb_pos mb in
      let* err := mbuf_write_u32 (htonl src) in
      let* '(err, out) := sdes_items ap err in
      if out then ret err
      else ret err |; mbuf_write_u8 RTCP_SDES_END |; sdes_padding 4 start
  end.

(** [sizeof(struct rtcp_sdes_item)] on an LP64 host. *)
Definition SDES_ITEM_SIZEOF : Z := 16.

(** [while (mbuf_get_left(mb) >= RTCP_SDES_MIN_SIZE)]: a round consumes a
    byte, so the unread bytes bound the number of rounds. *)
Fixpoint sdes_decode_items (fuel : nat) (itemv : list rtcp_sdes_item) : M mbuf (Z * list rtcp_sdes_item) :=
  let* mb := get in
  if 1 <=? mbuf_get_left mb then
    match fuel with
    | O => ub
    | S fuel =>
        let* type := mbuf_read_u8 in
        if type =? RTCP_SDES_END then ret (0, itemv)
        else
          need 1 (ret (EBADMSG, itemv))
            (if negb (alloc_ok ((zlength itemv + 1) * SDES_ITEM_SIZEOF)) then ret (ENOMEM, itemv)
             else
               let* length := mbuf_read_u8 in
               need length (ret (EBADMSG, itemv))
                 (if negb (alloc_ok length) then ret (ENOMEM, itemv)
                  else
                    let* data := mbuf_read_mem length in
                    sdes_decode_items fuel (itemv ++ [SdesItem type data.2])))
    end
  else ret (0, itemv).

(** [while ((mb->pos - start) & 0x3 && mbuf_get_left(mb)) ++mb->pos;] *)
Fixpoint slurp_padding (fuel : nat) (start : Z) : M mbuf unit :=
  let* mb := get in
  if nz (Z.land (u64 (mb_pos mb - start)) 0x3) && nz (mbuf_get_left mb) then
    match fuel with
    | O => ub
    | S fuel => mbuf_advance 1 ;; slurp_padding fuel start
    end
  else ret tt.

Definition sdes_zero : rtcp_sdes := Sdes 0 [].

Definition rtcp_sdes_decode : M mbuf (Z * rtcp_sdes) :=
  need RTCP_SRC_SIZE (ret (EBADMSG, sdes_zero))
    (let* mb := get in
     let start := mb_pos mb in
     let* src := mbuf_read_ntohl in
     let* mb := get in
     let* '(err, itemv) := sdes_decode_items (Z.to_nat (mbuf_get_left mb)) [] in
     if nz err then ret (err, sdes_zero)
     else slurp_padding 4 start ;; ret (0, Sdes src itemv)).

(** ** Feedback messages (fb.c) *)

Definition rtcp_rtpfb_gnack_encode (pid blp : Z) : M mbuf Z :=
  mbuf_write_u16 (htons pid) |; mbuf_write_u16 (htons blp).

(** [first<<19] is a shift of an [int], like the one above. *)
Definition rtcp_psfb_sli_encode (first number picid : Z) : M mbuf Z :=
  mbuf_write_u32 (htonl (u32 (Z.lor (Z.lor (Z.shiftl first 19) (Z.shiftl number 6)) picid))).

(** [sizeof(struct mbuf)] is 32 on an LP64 host. *)
Definition mbuf_alloc_ref : M mbuf (option mbuf_ref) :=
  let* mb := get in
  ret (if alloc_ok 32 then Some (Ref (mb_pos mb) (mb_end mb)) else None).

Definition ref_left (r : mbuf_ref) : Z := if ref_pos r <? ref_end r then ref_end r - ref_pos r else 0.

(** The inner loops of the chunks: [sym j] is added for [j] below [k]. *)
Fixpoint sum_upto (k : nat) (sym : Z -> Z) : Z :=
  match k with O => 0 | S k => sum_upto k sym + sym (Z.of_nat k) end.

(** The number of packets a chunk describes, at most [i], and the number of
    bytes of their deltas. *)
Definition chunk_size (chunk i : Z) : Z * Z :=
  if nz (Z.land chunk 0x8000) then
    if nz (Z.land chunk 0x4000) then
      let j := Z.min i 7 in
      (j, sum_upto (Z.to_nat j) (fun j => Z.land (Z.shiftr chunk (2 * (7 - 1 - j))) 0x03))
    else
      let j := Z.min i 14 in
      (j, sum_upto (Z.to_nat j) (fun j => Z.land (Z.shiftr chunk (14 - 1 - j)) 0x01))
  else
    let j := Z.min i (Z.land chunk 0x1fff) in
    (j, sum_upto (Z.to_nat j) (fun _ => Z.land (Z.shiftr chunk 13) 0x03)).

(** [for (size_t i = msg->count; i > 0;)]: a round reads two bytes.  The
    result has the end of the chunks and the size of the deltas. *)
Fixpoint twcc_chunks (fuel : nat) (i cend sz : Z) : M mbuf (Z * (Z * Z)) :=
  if 0 <? i then
    match fuel with
    | O => ub
    | S fuel =>
        need 2 (ret (EBADMSG, (cend, sz)))
          (let* chunk := mbuf_read_ntohs in
           let '(j, n) := chunk_size chunk i in
           twcc_chunks fuel (i - j) (cend + 2) (sz + n))
    end
  else ret (0, (cend, sz)).

Definition twcc_zero : twcc := Twcc 0 0 0 0 (Ref 0 0) (Ref 0 0).

Definition rtcp_rtpfb_twcc_decode (n : Z) : M mbuf (Z * twcc) :=
  need 8 (ret (EBADMSG, twcc_zero))
    (let* seq := mbuf_read_ntohs in
     let* count := mbuf_read_ntohs in
     if (count =? 0) || (count >? 32768) then ret (EBADMSG, twcc_zero)
     else
       let* reftime := mbuf_read_ntohl in
       let fbcount := Z.land reftime 0xff in
       let reftime := Z.shiftr reftime 8 in
       let* chunks := mbuf_alloc_ref in
       match chunks with
       | None => ret (ENOMEM, twcc_zero)
       | Some chunks =>
           let* mb := get in
           let* '(err, (cend, sz)) := twcc_chunks (S (Z.to_nat (mbuf_get_left mb))) count (ref_pos chunks) 0 in
           if nz err then ret (err, twcc_zero)
           else
             let chunks := Ref (ref_pos chunks) cend in
             need sz (ret (EBADMSG, twcc_zero))
               (let* deltas := mbuf_alloc_ref in
                match deltas with
                | None => ret (ENOMEM, twcc_zero)
                | Some deltas =>
                    let deltas := Ref (ref_pos deltas) (ref_pos deltas + sz) in
                    let sz := u64 (n * 4 - 8 - ref_left chunks) in
                    need sz (ret (EBADMSG, twcc_zero))
                      (mbuf_advance sz ;; ret (0, Twcc seq count reftime fbcount chunks deltas))
                end)
       end).

Definition gnack_decode : M mbuf (Z * (Z * Z)) :=
  let* pid := mbuf_read_ntohs in
  let* blp := mbuf_read_ntohs in
  ret (0, (pid, blp)).

Definition sli_decode : M mbuf (Z * (Z * Z * Z)) :=
  let* v := mbuf_read_ntohl in
  ret (0, (Z.land (Z.shiftr v 19) 0x1fff, Z.land (Z.shiftr v 6) 0x1fff, Z.land v 0x003f)).

Definition fir_decode : M mbuf (Z * (Z * Z)) :=
  let* ssrc := mbuf_read_ntohl in
  let* seq_n := mbuf_read_u8 in
  mbuf_advance 3 ;; ret (0, (ssrc, seq_n)).

(** The sizes of [struct gnack], [struct sli], [struct fir_rfc5104] and
    [struct twcc] on an LP64 host. *)
Definition GNACK_SIZEOF : Z := 4.
Definition SLI_SIZEOF : Z := 6.
Definition FIR_SIZEOF : Z := 8.
Definition TWCC_SIZEOF : Z := 32.

(** A vector of [n] elements: allocation, bounds check and the loop. *)
Definition fci_vector {A} (n sizeof size : Z) (dec : M mbuf (Z * A)) (f : list A -> fci) : M mbuf (Z * fci) :=
  if negb (alloc_ok (n * sizeof)) then ret (ENOMEM, FciNone)
  else
    need (n * size) (ret (EBADMSG, FciNone))
      (let* '(err, v) := decode_all dec (Z.to_nat n) [] in ret (err, f v)).

(** The feedback information and the number of its elements. *)
Definition rtcp_rtpfb_decode (count n : Z) : M mbuf (Z * (Z * fci)) :=
  let* '(err, f) :=
    (if count =? RTCP_RTPFB_GNACK then fci_vector n GNACK_SIZEOF GNACK_SIZE gnack_decode Gnackv
     else if count =? RTCP_RTPFB_TWCC then
       need 8 (ret (EBADMSG, FciNone))
         (if negb (alloc_ok TWCC_SIZEOF) then ret (ENOMEM, FciNone)
          else let* '(err, t) := rtcp_rtpfb_twcc_decode n in ret (err, Twccv t))
     else ret (0, FciNone)) in
  ret (err, (n, f)).

Definition rtcp_psfb_decode (count n : Z) : M mbuf (Z * (Z * fci)) :=
  let n' := if count =? RTCP_PSFB_FIR then n / 2 else n in
  let* '(err, f) :=
    (if count =? RTCP_PSFB_PLI then ret (0, FciNone)
     else if count =? RTCP_PSFB_SLI then fci_vector n SLI_SIZEOF SLI_SIZE sli_decode Sliv
     else if count =? RTCP_PSFB_AFB then
       need (n * 4) (ret (EBADMSG, FciNone))
         (let* afb := mbuf_alloc_ref in
          match afb with
          | None => ret (ENOMEM, FciNone)
          | Some afb => mbuf_advance (n * 4) ;; ret (0, Afb (Ref (ref_pos afb) (ref_pos afb + n * 4)))
          end)
     else if count =? RTCP_PSFB_FIR then fci_vector n' FIR_SIZEOF FIR_SIZE fir_decode Firv
     else ret (0, FciNone)) in
  ret (err, (n', f)).

(** ** Packets (pkt.c) *)

Definition rtcp_hdr_encode (count type length : Z) : M mbuf Z :=
  mbuf_write_u8 (Z.lor (Z.shiftl RTCP_VERSION 6) count) |;
  mbuf_write_u8 type |;
  mbuf_write_u16 (htons length).

Definition rtcp_hdr_zero : rtcp_hdr := RtcpHdr 0 0 0 0 0.

Definition rtcp_hdr_decode : M mbuf (Z * rtcp_hdr) :=
  need RTCP_HDR_SIZE (ret (EBADMSG, rtcp_hdr_zero))
    (let* b := mbuf_read_u8 in
     let* pt := mbuf_read_u8 in
     let* length := mbuf_read_ntohs in
     ret (0, RtcpHdr (Z.land (Z.shiftr b 6) 0x3) (Z.land (Z.shiftr b 5) 0x1) (Z.land b 0x1f) pt length)).

Fixpoint write_all (v : list Z) : M mbuf Z :=
  match v with [] => ret 0 | x :: v => mbuf_write_u32 (htonl x) |; write_all v end.

(** [for (i=0; i<count && !err; i++) err = mbuf_write_u32(mb, htonl(srcv[i]));] *)
Fixpoint write_srcv (srcv : list Z) (count : nat) : M mbuf Z :=
  match count with
  | O => ret 0
  | S count =>
      match srcv with
      | [] => ub
      | src :: srcv => check (mbuf_write_u32 (htonl src)) (write_srcv srcv count)
      end
  end.

Definition write_bye (srcv : list Z) (count : nat) (reason : option (list Z)) : M mbuf Z :=
  write_srcv srcv count |;
  match reason with
  | Some reason => mbuf_write_u8 (u8 (zlength reason)) |; mbuf_write_str reason
  | None => ret 0
  end.

Definition write_app (src : Z) (name : list Z) (data : option (list Z)) : M mbuf Z :=
  let* err := mbuf_write_u32 (htonl src) |; mbuf_write_mem name in
  match data with
  | Some data => if nz (zlength data mod 4) then ret EBADMSG else ret err |; mbuf_write_mem data
  | None => ret err
  end.

Definition write_nack (ssrc fsn blp : Z) : M mbuf Z :=
  mbuf_write_u32 (htonl ssrc) |; mbuf_write_u16 (htons (u16 fsn)) |; mbuf_write_u16 (htons (u16 blp)).

(** [while ((mb->end - pos) & 0x3) err |= mbuf_write_u8(mb, 0x00);] *)
Fixpoint pad_packet (fuel : nat) (pos : Z) : M mbuf Z :=
  let* mb := get in
  if nz (Z.land (u64 (mb_end mb - pos)) 0x3) then
    match fuel with
    | O => ub
    | S fuel => mbuf_write_u8 0 |; pad_packet fuel pos
    end
  else ret 0.

(** The header, once the length is known. *)
Definition write_header (type count pos : Z) : M mbuf Z :=
  mbuf_set_pos pos ;;
  let* mb := get in
  let len := u16 (u64 (mb_end mb - pos - RTCP_HDR_SIZE) / 4) in
  check (rtcp_hdr_encode (u8 count) type len)
    (mbuf_skip_to_end ;; ret 0).

Definition known_types : list Z :=
  [RTCP_SR; RTCP_RR; RTCP_SDES; RTCP_BYE; RTCP_APP; RTCP_FIR; RTCP_NACK; RTCP_RTPFB; RTCP_PSFB].

Section vencode.
Context {S : Type} `{MbState S}.

Definition call_ench (ench : option (M S Z)) : M S Z :=
  match ench with Some ench => ench | None => ret 0 end.

(** The switch of [rtcp_vencode]; arguments of another type than the
    packet's are read as something else. *)
Definition encode_body (type count : Z) (ap : rtcp_args S) : M S Z :=
  if negb (bool_decide (type ∈ known_types)) then ret EINVAL
  else
    match ap with
    | ArgsSr v ench =>
        if (type =? RTCP_SR) && (zlength v =? 6) then on_mbuf (write_all v) |; call_ench ench else ub
    | ArgsRr ssrc ench =>
        if type =? RTCP_RR then on_mbuf (mbuf_write_u32 (htonl ssrc)) |; call_ench ench else ub
    | ArgsSdes ench => if type =? RTCP_SDES then call_ench ench else ub
    | ArgsBye srcv reason => if type =? RTCP_BYE then on_mbuf (write_bye srcv (Z.to_nat count) reason) else ub
    | ArgsApp src name data =>
        if (type =? RTCP_APP) && (zlength name =? 4) then on_mbuf (write_app src name data) else ub
    | ArgsFir ssrc => if type =? RTCP_FIR then on_mbuf (mbuf_write_u32 (htonl ssrc)) else ub
    | ArgsNack ssrc fsn blp => if type =? RTCP_NACK then on_mbuf (write_nack ssrc fsn blp) else ub
    | ArgsFb ssrc_packet ssrc_media ench =>
        if (type =? RTCP_RTPFB) || (type =? RTCP_PSFB) then
          on_mbuf (mbuf_write_u32 (htonl ssrc_packet) |; mbuf_write_u32 (htonl ssrc_media)) |; call_ench ench
        else ub
    end.

Definition rtcp_vencode (type count : Z) (ap : rtcp_args S) : M S Z :=
  let* pos := on_mbuf (let* mb := get in ret (mb_pos mb)) in
  on_mbuf (modify (set_posend (u64 (pos + RTCP_HDR_SIZE)) (u64 (pos + RTCP_HDR_SIZE)))) ;;
  check (encode_body type count ap)
    (check (on_mbuf (pad_packet 4 pos)) (on_mbuf (write_header type count pos))).

End vencode.

(** [sizeof(struct rtcp_msg)] and [sizeof(struct rtcp_sdes)] on an LP64 host. *)
Definition RTCP_MSG_SIZEOF : Z := 40.
Definition SDES_SIZEOF : Z := 24.

(** The optional reason of a BYE. *)
Definition bye_reason (rem count : Z) : M mbuf (Z * option (list Z)) :=
  if rem >? count * 4 then
    let* len := mbuf_read_u8 in
    need len (ret (EBADMSG, None))
      (let* '(err, reason) := mbuf_strdup len in ret (err, Some reason))
  else ret (0, None).

(** [msg->r.bye.srcv[i] = ntohl(mbuf_read_u32(mb));] *)
Definition src_decode : M mbuf (Z * Z) := let* src := mbuf_read_ntohl in ret (0, src).

(** The data of an APP packet: what the packet holds after its fixed part. *)
Definition app_data (rem : Z) : M mbuf (Z * list Z) :=
  if rem >? RTCP_APP_SIZE then
    let data_len := rem - RTCP_APP_SIZE in
    if negb (alloc_ok data_len) then ret (ENOMEM, [])
    else
      need data_len (ret (EBADMSG, []))
        (let* '(_, data) := mbuf_read_mem data_len in ret (0, data))
  else ret (0, []).

(** The two sources of a feedback message and its information. *)
Definition fb_decode (length : Z) (dec : Z -> M mbuf (Z * (Z * fci))) : M mbuf (Z * rtcp_r) :=
  need RTCP_FB_SIZE (ret (EBADMSG, ROther))
    (if length <? 2 then ret (EBADMSG, ROther)
     else
       let* ssrc_packet := mbuf_read_ntohl in
       let* ssrc_media := mbuf_read_ntohl in
       let* '(err, (n, f)) := dec (length - 2) in
       ret (err, Fb ssrc_packet ssrc_media n f)).

(** The switch of [rtcp_decode]. *)
Definition decode_body (hdr : rtcp_hdr) : M mbuf (Z * rtcp_r) :=
  let count := rh_count hdr in
  let pt := rh_pt hdr in
  let rem := rh_length hdr * 4 in
  if pt =? RTCP_SR then
    need (RTCP_SRC_SIZE + RTCP_SR_SIZE) (ret (EBADMSG, ROther))
      (let* ssrc := mbuf_read_ntohl in
       let* ntp_sec := mbuf_read_ntohl in
       let* ntp_frac := mbuf_read_ntohl in
       let* rtp_ts := mbuf_read_ntohl in
       let* psent := mbuf_read_ntohl in
       let* osent := mbuf_read_ntohl in
       let* '(err, rrv) := rtcp_rrv_decode count in
       ret (err, Sr ssrc ntp_sec ntp_frac rtp_ts psent osent rrv))
  else if pt =? RTCP_RR then
    need RTCP_SRC_SIZE (ret (EBADMSG, ROther))
      (let* ssrc := mbuf_read_ntohl in
       let* '(err, rrv) := rtcp_rrv_decode count in
       ret (err, RrMsg ssrc rrv))
  else if pt =? RTCP_SDES then
    if count =? 0 then ret (0, SdesMsg [])
    else if negb (alloc_ok (count * SDES_SIZEOF)) then ret (ENOMEM, ROther)
    else
      let* '(err, sdesv) := decode_all rtcp_sdes_decode (Z.to_nat count) [] in
      ret (err, SdesMsg sdesv)
  else if pt =? RTCP_BYE then
    if negb (alloc_ok (count * 4)) then ret (ENOMEM, ROther)
    else
      need (count * 4) (ret (EBADMSG, ROther))
        (let* '(_, srcv) := decode_all src_decode (Z.to_nat count) [] in
         let* '(err, reason) := bye_reason rem count in
         ret (err, Bye srcv reason))
  else if pt =? RTCP_APP then
    need RTCP_APP_SIZE (ret (EBADMSG, ROther))
      (let* src := mbuf_read_ntohl in
       let* '(_, name) := mbuf_read_mem 4 in
       let* '(err, data) := app_data rem in
       ret (err, App src name data))
  else if pt =? RTCP_FIR then
    need RTCP_FIR_SIZE (ret (EBADMSG, ROther))
      (let* ssrc := mbuf_read_ntohl in ret (0, Fir ssrc))
  else if pt =? RTCP_NACK then
    need RTCP_NACK_SIZE (ret (EBADMSG, ROther))
      (let* ssrc := mbuf_read_ntohl in
       let* fsn := mbuf_read_ntohs in
       let* blp := mbuf_read_ntohs in
       ret (0, Nack ssrc fsn blp))
  else if pt =? RTCP_RTPFB then fb_decode (rh_length hdr) (rtcp_rtpfb_decode count)
  else if pt =? RTCP_PSFB then fb_decode (rh_length hdr) (rtcp_psfb_decode count)
  else mbuf_advance rem ;; ret (0, ROther).

Definition rtcp_decode : M mbuf (Z * option rtcp_msg) :=
  need RTCP_HDR_SIZE (ret (EBADMSG, None))
    (if negb (alloc_ok RTCP_MSG_SIZEOF) then ret (ENOMEM, None)
     else
       let* mb := get in
       let start := mb_pos mb in
       let* '(err, hdr) := rtcp_hdr_decode in
       if nz err then ret (err, None)
       else if negb (rh_version hdr =? RTCP_VERSION) then ret (EBADMSG, None)
       else
         need (rh_length hdr * 4) (ret (EBADMSG, None))
           (let* '(err, r) := decode_body hdr in
            if nz err then ret (err, None)
            else
              slurp_padding 4 start ;;
              ret (0, Some (RtcpMsg hdr r)))).

End rtcp.
