(* ===== verification/RtcpDecode.v ===== *)
(** * Decoding untrusted RTCP packets

    [Decodes E p n m P]: on a buffer that ends at [E], whose position is at
    least [p] and that has [n] unread bytes, [m] is memory safe, moves nothing
    but the position, not past the end, and its result satisfies [P].  All decoders of the module are verified against
    it, up to whole packets and to the loop over a compound packet. *)

From S2P Require Export Rtcp MbufParse StunDecode.

Class Decodes {A} (E p n : Z) (m : M mbuf A) (P : A -> Prop) : Prop :=
  decodes : forall mb, mbuf_wf mb -> mb_end mb = E -> p <= mb_pos mb -> mb_pos mb + n <= E ->
    exists a mb', m mb = Some (a, mb') /\ advanced mb mb' /\ P a.

(** ** What an accepted message holds *)

Abbreviation is_u8 v := (0 <= v < 2 ^ 8).
Abbreviation is_u16 v := (0 <= v < 2 ^ 16).
Abbreviation is_u32 v := (0 <= v < 2 ^ 32).

Record rr_ok (rr : rtcp_rr) : Prop := {
  rro_ssrc : is_u32 (rr_ssrc rr);
  rro_fraction : is_u8 (rr_fraction rr);
  rro_lost : - 2 ^ 23 <= rr_lost rr < 2 ^ 23;
  rro_last_seq : is_u32 (rr_last_seq rr);
  rro_jitter : is_u32 (rr_jitter rr);
  rro_lsr : is_u32 (rr_lsr rr);
  rro_dlsr : is_u32 (rr_dlsr rr);
}.

Definition item_ok (i : rtcp_sdes_item) : Prop :=
  0 < si_type i < 2 ^ 8 /\ zlength (si_data i) < 2 ^ 8 /\ bytes_ok (si_data i).
Definition sdes_ok (s : rtcp_sdes) : Prop := is_u32 (sd_src s) /\ Forall item_ok (sd_itemv s).

(** A buffer that shares the block lies before its end. *)
Definition ref_ok (E : Z) (r : mbuf_ref) : Prop := 0 <= ref_pos r <= ref_end r /\ ref_end r <= E.

Record twcc_ok (E : Z) (t : twcc) : Prop := {
  two_seq : is_u16 (tw_seq t);
  two_count : 0 < tw_count t <= 32768;
  two_reftime : 0 <= tw_reftime t < 2 ^ 24;
  two_fbcount : is_u8 (tw_fbcount t);
  two_chunks : ref_ok E (tw_chunks t);
  two_deltas : ref_ok E (tw_deltas t) /\ ref_pos (tw_deltas t) = ref_end (tw_chunks t);
}.

(** The member of the union [fci], from the packet type and the format. *)
Definition fci_ok (E pt count n : Z) (f : fci) : Prop :=
  match f with
  | Gnackv v => pt = RTCP_RTPFB /\ count = RTCP_RTPFB_GNACK /\ zlength v = n /\
      Forall (fun x => is_u16 x.1 /\ is_u16 x.2) v
  | Twccv t => pt = RTCP_RTPFB /\ count = RTCP_RTPFB_TWCC /\ twcc_ok E t
  | Sliv v => pt = RTCP_PSFB /\ count = RTCP_PSFB_SLI /\ zlength v = n /\
      Forall (fun x => 0 <= x.1.1 < 2 ^ 13 /\ 0 <= x.1.2 < 2 ^ 13 /\ 0 <= x.2 < 2 ^ 6) v
  | Firv v => pt = RTCP_PSFB /\ count = RTCP_PSFB_FIR /\ zlength v = n /\
      Forall (fun x => is_u32 x.1 /\ is_u8 x.2) v
  | Afb r => pt = RTCP_PSFB /\ count = RTCP_PSFB_AFB /\ ref_ok E r /\ ref_end r = ref_pos r + n * 4
  | FciNone => pt = RTCP_RTPFB /\ count <> RTCP_RTPFB_GNACK /\ count <> RTCP_RTPFB_TWCC \/
      pt = RTCP_PSFB /\ count <> RTCP_PSFB_SLI /\ count <> RTCP_PSFB_FIR /\ count <> RTCP_PSFB_AFB
  end.

Definition known_pt (pt : Z) : Prop := pt ∈ known_types.

(** The member of the union [r], from the header. *)
Definition r_ok (E : Z) (hdr : rtcp_hdr) (r : rtcp_r) : Prop :=
  match r with
  | Sr ssrc ntp_sec ntp_frac rtp_ts psent osent rrv => rh_pt hdr = RTCP_SR /\
      Forall (fun v => is_u32 v) [ssrc; ntp_sec; ntp_frac; rtp_ts; psent; osent] /\
      zlength rrv = rh_count hdr /\ Forall rr_ok rrv
  | RrMsg ssrc rrv => rh_pt hdr = RTCP_RR /\ is_u32 ssrc /\ zlength rrv = rh_count hdr /\ Forall rr_ok rrv
  | SdesMsg sdesv => rh_pt hdr = RTCP_SDES /\ zlength sdesv = rh_count hdr /\ Forall sdes_ok sdesv
  | Bye srcv reason => rh_pt hdr = RTCP_BYE /\ zlength srcv = rh_count hdr /\
      Forall (fun v => is_u32 v) srcv /\
      match reason with Some s => zlength s < 2 ^ 8 /\ bytes_ok s | None => True end
  | App src name data => rh_pt hdr = RTCP_APP /\ is_u32 src /\ zlength name = 4 /\ bytes_ok name /\
      zlength data = Z.max 0 (rh_length hdr * 4 - 8) /\ bytes_ok data
  | Fir ssrc => rh_pt hdr = RTCP_FIR /\ is_u32 ssrc
  | Nack ssrc fsn blp => rh_pt hdr = RTCP_NACK /\ is_u32 ssrc /\ is_u16 fsn /\ is_u16 blp
  | Fb ssrc_packet ssrc_media n f => is_u32 ssrc_packet /\ is_u32 ssrc_media /\
      n = (if (rh_pt hdr =? RTCP_PSFB) && (rh_count hdr =? RTCP_PSFB_FIR) then (rh_length hdr - 2) / 2
           else rh_length hdr - 2) /\
      2 <= rh_length hdr /\ fci_ok E (rh_pt hdr) (rh_count hdr) n f
  | ROther => ~ known_pt (rh_pt hdr)
  end.

Record rtcp_hdr_ok (hdr : rtcp_hdr) : Prop := {
  rho_version : rh_version hdr = RTCP_VERSION;
  rho_p : 0 <= rh_p hdr < 2;
  rho_count : 0 <= rh_count hdr < 2 ^ 5;
  rho_pt : is_u8 (rh_pt hdr);
  rho_length : is_u16 (rh_length hdr);
}.

Definition msg_ok (E : Z) (msg : rtcp_msg) : Prop := rtcp_hdr_ok (rm_hdr msg) /\ r_ok E (rm_hdr msg) (rm_r msg).

(** A result is good when it is an error or satisfies [P]. *)
Definition good {A} (P : A -> Prop) (r : Z * A) : Prop := r.1 = 0 -> P r.2.

(** ** The calculus *)

(** [m] reads exactly [l] bytes, whatever they are. *)
Definition Exact {A} (l : Z) (m : M mbuf A) (P : A -> Prop) : Prop :=
  forall bs, zlength bs = l -> bytes_ok bs -> exists a, Reads m bs a /\ P a.

Section exact.
Context `{Host}.

Lemma exact_ret {A} (a : A) (P : A -> Prop) : P a -> Exact 0 (ret a) P.
Proof. intros Ha bs Hl _. exists a. destruct bs; [split; [apply reads_ret|done]|simpl in Hl; lia]. Qed.

Lemma exact_bind {A B} l1 l2 (m : M mbuf A) (k : A -> M mbuf B) (Q : A -> Prop) (P : B -> Prop) :
  0 <= l1 -> 0 <= l2 -> Exact l1 m Q -> (forall a, Q a -> Exact l2 (k a) P) -> Exact (l1 + l2) (bind m k) P.
Proof.
  intros H1 H2 Hm Hk bs Hl Hok. rewrite <- (take_drop (Z.to_nat l1) bs).
  destruct (Hm (take (Z.to_nat l1) bs)) as (a & Ra & Qa); [rewrite length_take; lia|by apply Forall_take|].
  destruct (Hk a Qa (drop (Z.to_nat l1) bs)) as (b & Rb & Pb); [rewrite length_drop; lia|by apply Forall_drop|].
  exists b. split; [by eapply reads_bind|done].
Qed.

Lemma exact_u8 : Exact 1 mbuf_read_u8 (fun v => is_u8 v).
Proof.
  intros bs Hl Hok. exists (host_val bs). split; [apply (reads_int 1); lia|].
  pose proof (host_val_range bs Hok) as R. by rewrite Hl in R.
Qed.

Lemma exact_ntohs : Exact 2 mbuf_read_ntohs (fun v => is_u16 v).
Proof. intros bs Hl Hok. exists (be_val bs). apply (reads_net_val 2); [lia|done]. Qed.

Lemma exact_ntohl : Exact 4 mbuf_read_ntohl (fun v => is_u32 v).
Proof. intros bs Hl Hok. exists (be_val bs). apply (reads_net_val 4); [lia|done]. Qed.

Lemma exact_mem n : Exact n (mbuf_read_mem n) (fun r => r.1 = 0 /\ zlength r.2 = n /\ bytes_ok r.2).
Proof. intros bs Hl Hok. exists (0, bs). split; [by apply reads_mem|done]. Qed.

Lemma exact_advance n : Exact n (mbuf_advance n) (fun _ => True).
Proof. intros bs Hl _. exists tt. split; [by apply reads_advance|done]. Qed.

Lemma exact_all {A} sz (dec : M mbuf (Z * A)) (P : A -> Prop) count v : 0 <= sz ->
  Exact sz dec (fun r => r.1 = 0 /\ P r.2) -> Forall P v ->
  Exact (Z.of_nat count * sz) (decode_all dec count v)
    (fun r => r.1 = 0 /\ zlength r.2 = zlength v + Z.of_nat count /\ Forall P r.2).
Proof.
  intros Hs Hx. revert v. induction count as [|count IH]; intros v Hv; cbn [decode_all].
  { apply exact_ret. simpl. split_and!; [done|lia|done]. }
  replace (Z.of_nat (S count) * sz) with (sz + Z.of_nat count * sz) by lia.
  eapply exact_bind; [lia|lia|exact Hx|]. intros [e a] [E0 Ha]. simpl in *. subst e. cbn [nz Z.eqb negb].
  intros bs Hl Hok. destruct (IH (v ++ [a])) with (bs := bs) as (r & Hr & E0 & Hn & Hf); [|done|done|].
  { apply Forall_app. by split; [|constructor]. }
  exists r. rewrite length_app in Hn. simpl in Hn. split_and!; [done|done|lia|done].
Qed.

End exact.

Section decodes.
Context `{Host} (E : Z).

Lemma dec_left p mb : mb_end mb = E -> mb_pos mb + p <= E -> 0 <= p -> mbuf_get_left mb = E - mb_pos mb.
Proof. intros He Hl Hp. unfold mbuf_get_left. rewrite He. case_match; lia. Qed.

Lemma dec_ret {A} p n (a : A) (P : A -> Prop) : P a -> Decodes E p n (ret a) P.
Proof. intros Hp mb Hwf _ _ _. exists a, mb. split_and!; [done|by apply advanced_refl|done]. Qed.

Lemma dec_fail {A} p n e (a : A) (P : A -> Prop) : e <> 0 -> Decodes E p n (ret (e, a)) (good P).
Proof. intros He. apply dec_ret. intros E0. done. Qed.

Lemma dec_ok {A} p n (a : A) (P : A -> Prop) : P a -> Decodes E p n (ret (0, a)) (good P).
Proof. intros Ha. apply dec_ret. by intros ?. Qed.

Lemma dec_weaken {A} p n p' n' (m : M mbuf A) (P Q : A -> Prop) :
  Decodes E p n m P -> p <= p' -> n <= n' -> (forall a, P a -> Q a) -> Decodes E p' n' m Q.
Proof.
  intros Hm Hp Hn HPQ mb Hwf He Hs Hl.
  destruct (Hm mb Hwf He) as (a & mb' & ? & ? & ?); [lia|lia|]. eauto 6.
Qed.

Lemma dec_bind {A B} p n (m : M mbuf A) (k : A -> M mbuf B) (Q : A -> Prop) (P : B -> Prop) : 0 <= n ->
  Decodes E p n m Q -> (forall a, Q a -> Decodes E p 0 (k a) P) -> Decodes E p n (bind m k) P.
Proof.
  intros Hn Hm Hk mb Hwf He Hs Hl. destruct (Hm mb Hwf He Hs Hl) as (a & mb1 & E1 & A1 & Hq).
  pose proof (advanced_wf _ _ Hwf A1) as Hwf1. pose proof A1 as [_ _ Ee Ep].
  destruct (Hk a Hq mb1 Hwf1) as (b & mb2 & E2 & A2 & Hp); [congruence|lia|lia|].
  exists b, mb2. split_and!; [by rewrite (bind_Some _ _ _ _ _ E1)|by eapply advanced_trans|done].
Qed.

(** After an exact reader of [l] bytes. *)
Lemma dec_exact {A B} p n l (m : M mbuf A) (k : A -> M mbuf B) (Q : A -> Prop) (P : B -> Prop) :
  0 <= l <= n -> Exact l m Q ->
  (forall a, Q a -> Decodes E (p + l) (n - l) (k a) P) -> Decodes E p n (bind m k) P.
Proof.
  intros Hn Hm Hk mb Hwf He Hs Hl. pose proof (dec_left n mb He Hl ltac:(lia)) as El.
  destruct (unread_split mb l Hwf) as (b1 & r1 & E1 & L1 & O1); [lia|].
  destruct (Hm b1 L1 O1) as (a & Hr & Hq). rewrite (bind_Some _ _ _ _ _ (Hr mb r1 Hwf E1)).
  pose proof (unread_wf _ _ _ Hwf E1) as Hwf1.
  destruct (Hk a Hq _ Hwf1) as (b & mb2 & E2 & A2 & Hp); [done|simpl; lia|simpl; lia|].
  exists b, mb2. split_and!; [done|by eapply advanced_trans; [apply (advanced_unread _ _ _ Hwf E1)|]|done].
Qed.

Lemma dec_u8 {A} p n (k : Z -> M mbuf A) (P : A -> Prop) : 1 <= n ->
  (forall v, is_u8 v -> Decodes E (p + 1) (n - 1) (k v) P) -> Decodes E p n (bind mbuf_read_u8 k) P.
Proof.
  intros Hn. apply (dec_exact p n 1); [lia|]. apply exact_u8.
Qed.

Lemma dec_ntohs {A} p n (k : Z -> M mbuf A) (P : A -> Prop) : 2 <= n ->
  (forall v, is_u16 v -> Decodes E (p + 2) (n - 2) (k v) P) -> Decodes E p n (bind mbuf_read_ntohs k) P.
Proof.
  intros Hn. apply (dec_exact p n 2); [lia|]. apply exact_ntohs.
Qed.

Lemma dec_ntohl {A} p n (k : Z -> M mbuf A) (P : A -> Prop) : 4 <= n ->
  (forall v, is_u32 v -> Decodes E (p + 4) (n - 4) (k v) P) -> Decodes E p n (bind mbuf_read_ntohl k) P.
Proof.
  intros Hn. apply (dec_exact p n 4); [lia|]. apply exact_ntohl.
Qed.

Lemma dec_mem {A} p n sz (k : Z * list Z -> M mbuf A) (P : A -> Prop) : 0 <= sz <= n ->
  (forall bs, zlength bs = sz -> bytes_ok bs -> Decodes E (p + sz) (n - sz) (k (0, bs)) P) ->
  Decodes E p n (bind (mbuf_read_mem sz) k) P.
Proof.
  intros Hn Hk. eapply (dec_exact p n sz); [lia|apply exact_mem|].
  intros [e bs] (E0 & Hl & Hok). simpl in *. subst e. by apply Hk.
Qed.

Lemma dec_advance {A} p n l (k : M mbuf A) (P : A -> Prop) : 0 <= l <= n ->
  Decodes E (p + l) (n - l) k P -> Decodes E p n (mbuf_advance l ;; k) P.
Proof.
  intros Hn Hk. eapply (dec_exact p n l); [done|apply exact_advance|done].
Qed.

Lemma dec_need_max {A} p n l (f : A) (k : M mbuf A) (P : A -> Prop) : 0 <= n -> P f ->
  Decodes E p (Z.max n l) k P -> Decodes E p n (need l (ret f) k) P.
Proof.
  intros Hn Hf Hk mb Hwf He Hs Hl. unfold need, get, bind. pose proof (dec_left n mb He Hl Hn).
  destruct (Z.ltb_spec (mbuf_get_left mb) l); [by apply (dec_ret p n)|apply Hk; [done|done|done|lia]].
Qed.

Lemma dec_need {A} p n l (f : A) (k : M mbuf A) (P : A -> Prop) : 0 <= n -> P f ->
  Decodes E p l k P -> Decodes E p n (need l (ret f) k) P.
Proof. intros Hn Hf Hk. apply dec_need_max; [done|done|]. by eapply dec_weaken; [exact Hk|lia..|]. Qed.

Lemma dec_guard {A} p n l (k1 k2 : M mbuf A) (P : A -> Prop) : 0 <= n ->
  Decodes E p l k1 P -> Decodes E p n k2 P ->
  Decodes E p n (let* mb := get in if l <=? mbuf_get_left mb then k1 else k2) P.
Proof.
  intros Hn H1 H2 mb Hwf He Hs Hl. unfold get, bind. pose proof (dec_left n mb He Hl Hn).
  destruct (Z.leb_spec l (mbuf_get_left mb)); [apply H1; [done|done|done|lia]|by apply H2].
Qed.

Lemma dec_get {A} p n (k : mbuf -> M mbuf A) (P : A -> Prop) :
  (forall mb, mbuf_wf mb -> mb_end mb = E -> p <= mb_pos mb -> mb_pos mb + n <= E ->
     Decodes E (mb_pos mb) n (k mb) P) -> Decodes E p n (bind get k) P.
Proof. intros Hk mb Hwf He Hs Hl. unfold get, bind. by apply (Hk mb). Qed.

Lemma dec_if {A} p n (b : bool) (m1 m2 : M mbuf A) (P : A -> Prop) :
  (b = true -> Decodes E p n m1 P) -> (b = false -> Decodes E p n m2 P) -> Decodes E p n (if b then m1 else m2) P.
Proof. destruct b; auto. Qed.

(** A decoder and a constructor for its result. *)
Lemma dec_map {A B} p n (m : M mbuf (Z * A)) (f : A -> B) (P : A -> Prop) (Q : B -> Prop) : 0 <= n ->
  Decodes E p n m (good P) -> (forall a, P a -> Q (f a)) ->
  Decodes E p n (let* '(e, a) := m in ret (e, f a)) (good Q).
Proof.
  intros Hn Hm Hf. eapply dec_bind; [done|exact Hm|]. intros [e a] Hg. apply dec_ret.
  intros E0. apply Hf. by apply Hg.
Qed.

(** [count] elements, by a decoder that checks what it needs. *)
Lemma dec_all {A} p (dec : M mbuf (Z * A)) (P : A -> Prop) count v :
  Decodes E p 0 dec (good P) -> Forall P v ->
  Decodes E p 0 (decode_all dec count v) (good (fun v' => zlength v' = zlength v + Z.of_nat count /\ Forall P v')).
Proof.
  intros Hd. revert v. induction count as [|count IH]; intros v Hv; cbn [decode_all].
  { apply dec_ret. intros _. simpl. split; [lia|done]. }
  eapply dec_bind; [lia|exact Hd|]. intros [e a] Hg. unfold nz.
  destruct (Z.eqb_spec e 0) as [->|]; cbn [negb]; [|by apply dec_fail].
  eapply dec_weaken; [apply IH, Forall_app; split; [done|by constructor; [apply Hg|]]|lia|lia|].
  intros r Hr E0. destruct (Hr E0) as [Hl Hf]. rewrite length_app in Hl. simpl in Hl. split; [lia|done].
Qed.

Lemma dec_of_exact {A} p l (m : M mbuf A) (P : A -> Prop) : 0 <= l -> Exact l m P -> Decodes E p l m P.
Proof.
  intros Hl Hx mb Hwf He Hs Hp. pose proof (dec_left l mb He Hp Hl).
  destruct (unread_split mb l Hwf) as (bs & r & E1 & L1 & O1); [lia|].
  destruct (Hx bs L1 O1) as (a & Hr & Ha). exists a, (set_pos (mb_pos mb + zlength bs) mb).
  split_and!; [by apply (Hr mb r)|by apply (advanced_unread _ _ r)|done].
Qed.

End decodes.

(** ** The decoders *)

(** The decoder returns an error and leaves the buffer at [mb]. *)
Ltac stop_at mb := eexists _, mb; split_and!; [done|(done || by apply advanced_refl)|by intros ?].

Section decoders.
Context `{Host} (E : Z).

Lemma swrap_24 v : - 2 ^ 23 <= swrap 24 v < 2 ^ 23.
Proof. unfold swrap. dlia. Qed.

Lemma rr_decode_decodes p : Decodes E p 0 rtcp_rr_decode (good rr_ok).
Proof.
  apply dec_need; [done|by intros ?|]. unfold RTCP_RR_SIZE.
  do 6 (apply dec_ntohl; [lia|intros ? ?]). apply dec_ret. intros _.
  split; cbn [snd rr_ssrc rr_fraction rr_lost rr_last_seq rr_jitter rr_lsr rr_dlsr]; try done.
  - rewrite Z.shiftr_div_pow2 by lia. dlia.
  - apply swrap_24.
Qed.

Lemma rrv_decodes p count : 0 <= count ->
  Decodes E p 0 (rtcp_rrv_decode count) (good (fun v => zlength v = count /\ Forall rr_ok v)).
Proof.
  intros Hc. apply dec_if; intros _; [|by apply dec_fail].
  eapply dec_weaken; [apply (dec_all E p _ rr_ok); [apply rr_decode_decodes|done]|lia|lia|].
  intros [e v] Hg E0. destruct (Hg E0) as [Hl Hf]. cbn [snd length] in *. split; [lia|done].
Qed.

Lemma sdes_items_decodes fuel p itemv : E - p <= Z.of_nat fuel -> Forall item_ok itemv ->
  Decodes E p 0 (sdes_decode_items fuel itemv) (good (Forall item_ok)).
Proof.
  revert p itemv. induction fuel as [|fuel IH]; intros p itemv Hf Hi; cbn [sdes_decode_items];
    (apply dec_guard; [lia| |by apply dec_ok]); [intros mb ? ? ? ?; lia|].
  apply dec_u8; [lia|]. intros type Ht. apply dec_if; intros Et; [by apply dec_ok|].
  apply dec_need; [lia|by intros ?|]. apply dec_if; intros _; [by apply dec_fail|].
  apply dec_u8; [lia|]. intros len Hlen. apply dec_need; [lia|by intros ?|].
  apply dec_if; intros _; [by apply dec_fail|]. apply dec_mem; [lia|]. intros bs Hb Hok.
  eapply dec_weaken; [apply (IH (p + 1))|lia|lia|done]; [lia|].
  apply Forall_app. split; [done|]. constructor; [|done]. unfold RTCP_SDES_END in Et.
  split_and!; cbn [si_type si_data snd]; [lia..|done].
Qed.

Lemma slurp_padding_step start mb : mbuf_wf mb -> 0 <= start <= mb_pos mb ->
  exists mb1, slurp_padding 4 start mb = Some (tt, mb1) /\ advanced mb mb1 /\
    ((mb_pos mb1 - start) mod 4 = 0 \/ mbuf_get_left mb1 = 0).
Proof. apply skip_padding_step. Qed.

Lemma slurp_decodes {A} p start n (k : M mbuf A) (P : A -> Prop) : 0 <= start <= p -> 0 <= n ->
  Decodes E p 0 k P -> Decodes E p n (slurp_padding 4 start ;; k) P.
Proof.
  intros Hs Hn Hk. apply (dec_bind E p n _ _ (fun _ => True)); [done| |done].
  intros mb Hwf He Hp Hl. destruct (slurp_padding_step start mb Hwf ltac:(lia)) as (mb1 & E1 & A1 & _). eauto.
Qed.

Lemma sdes_decode_decodes p : 0 <= p -> Decodes E p 0 rtcp_sdes_decode (good sdes_ok).
Proof.
  intros Hp. apply dec_need; [done|by intros ?|]. unfold RTCP_SRC_SIZE.
  apply dec_get. intros mb _ _ Hs _. cbv zeta. apply dec_ntohl; [lia|]. intros src Hsrc.
  apply dec_get. intros mb1 Hwf1 He1 Hs1 Hl1.
  eapply dec_bind; [lia|apply (sdes_items_decodes _ _ []); [|done]|].
  { rewrite (dec_left E 0 mb1) by lia. lia. }
  intros [e itemv] Hg. unfold nz. destruct (Z.eqb_spec e 0) as [->|]; cbn [negb]; [|by apply dec_fail].
  apply slurp_decodes; [lia|lia|]. apply dec_ret. intros _. split; [done|by apply Hg].
Qed.

(** *** Feedback *)

Lemma sum_upto_range k sym b : (forall j, 0 <= sym j <= b) -> 0 <= sum_upto k sym <= b * Z.of_nat k.
Proof. intros Hs. induction k as [|k IH]; simpl; [lia|]. pose proof (Hs (Z.of_nat k)). lia. Qed.

Lemma chunk_size_range chunk i : 0 < i ->
  0 <= (chunk_size chunk i).1 <= i /\ 0 <= (chunk_size chunk i).2 <= 3 * (chunk_size chunk i).1.
Proof.
  intros Hi. assert (forall x, 0 <= Z.land x 0x03 <= 3) as H3 by (intros x; rewrite land_3; dlia).
  assert (forall x, 0 <= Z.land x 0x01 <= 3) as H1 by (intros x; rewrite land_1; dlia).
  assert (0 <= Z.land chunk 0x1fff) as Hr by (apply Z.land_nonneg; lia).
  unfold chunk_size. case_match; [case_match|]; cbn [fst snd]; (split; [lia|]).
  1-3: match goal with |- 0 <= sum_upto ?k ?sym <= _ =>
    pose proof (sum_upto_range k sym 3 ltac:(intros j; (apply H3 || apply H1))) end; lia.
Qed.

Lemma twcc_chunks_decodes fuel p i cend sz : 0 <= p -> E - p < Z.of_nat fuel -> 0 <= i -> 0 <= sz ->
  forall mb, mbuf_wf mb -> mb_end mb = E -> p <= mb_pos mb <= E -> mb_pos mb = cend ->
  exists e cend' sz' mb', twcc_chunks fuel i cend sz mb = Some ((e, (cend', sz')), mb') /\ advanced mb mb' /\
    (e = 0 -> mb_pos mb' = cend' /\ sz <= sz').
Proof.
  revert p i cend sz. induction fuel as [|fuel IH]; intros p i cend sz Hp Hf Hi Hsz mb Hwf He Hs Hc; [lia|].
  cbn [twcc_chunks]. destruct (Z.ltb_spec 0 i).
  2: { eexists _, _, _, mb. split_and!; [done|by apply advanced_refl|lia]. }
  unfold need. rewrite (bind_Some _ _ _ _ _ (eq_refl : get mb = _)).
  pose proof (dec_left E 0 mb He ltac:(lia) ltac:(lia)) as El.
  destruct (Z.ltb_spec (mbuf_get_left mb) 2).
  { eexists _, _, _, mb. split_and!; [done|by apply advanced_refl|done]. }
  destruct (unread_split mb 2 Hwf) as (b1 & r1 & E1 & L1 & O1); [lia|].
  destruct (reads_net_val 2 b1 ltac:(lia) O1) as [Hr Hv].
  rewrite (bind_Some _ _ _ _ _ (Hr mb r1 Hwf E1)).
  pose proof (chunk_size_range (be_val b1) i ltac:(lia)) as [Hj Hn].
  destruct (chunk_size (be_val b1) i) as [j n]. cbn [fst snd] in *.
  pose proof (unread_wf _ _ _ Hwf E1) as Hwf1.
  destruct (IH (p + 2) (i - j) (cend + 2) (sz + n) ltac:(lia) ltac:(lia) ltac:(lia) ltac:(lia) _ Hwf1)
    as (e & cend' & sz' & mb' & E2 & A2 & Hok); [done|simpl; lia|simpl; lia|].
  exists e, cend', sz', mb'. split_and!; [done|by eapply advanced_trans; [apply (advanced_unread _ _ _ Hwf E1)|]|].
  intros E0. destruct (Hok E0). lia.
Qed.

(** A reader of bytes that checks what it skips. *)
Lemma advance_eq mb n : mbuf_wf mb -> mb_end mb = E -> 0 <= n -> mb_pos mb + n <= E ->
  mbuf_advance n mb = Some (tt, set_pos (mb_pos mb + n) mb) /\ advanced mb (set_pos (mb_pos mb + n) mb).
Proof.
  intros Hwf He Hn Hl. pose proof (wf_pos _ Hwf). pose proof (wf_end _ Hwf). pose proof (wf_max _ Hwf) as Hm.
  unfold MEM_SIZE_MAX in Hm. unfold mbuf_advance, modify. rewrite (wrap_small 64) by lia.
  split; [done|]. apply advanced_set_pos. lia.
Qed.

Lemma twcc_decodes p n : 0 <= p -> Decodes E p 0 (rtcp_rtpfb_twcc_decode n) (good (twcc_ok E)).
Proof.
  intros Hp. apply dec_need; [done|by intros ?|].
  apply dec_ntohs; [lia|]. intros seq Hseq. apply dec_ntohs; [lia|]. intros count Hcount.
  apply dec_if; intros Hc; [by apply dec_fail|]. apply dec_ntohl; [lia|]. intros reftime Href.
  cbv zeta. intros mb Hwf He Hs Hl. unfold mbuf_alloc_ref at 1, get at 1, ret at 1. unfold bind at 1. unfold bind at 1.
  destruct (alloc_ok 32); [|stop_at mb].
  rewrite (bind_Some _ _ _ _ _ (eq_refl : get mb = _)). cbn [ref_pos].
  pose proof (dec_left E 0 mb He ltac:(lia) ltac:(lia)) as El.
  destruct (twcc_chunks_decodes (S (Z.to_nat (mbuf_get_left mb))) (mb_pos mb) count (mb_pos mb) 0) with (mb := mb)
    as (e & cend & sz & mb1 & E1 & A1 & Hok); [lia|lia|lia|lia|done|done|lia|done|].
  rewrite (bind_Some _ _ _ _ _ E1). pose proof (advanced_wf _ _ Hwf A1) as Hwf1. pose proof A1 as [_ _ Ee Ep].
  unfold nz. destruct (Z.eqb_spec e 0) as [->|]; cbn [negb].
  2: { stop_at mb1. }
  destruct (Hok eq_refl) as [<- Hsz]. clear Hok.
  assert (forall a, advanced mb1 a -> advanced mb a) as Hadv by (intros a; by apply advanced_trans).
  assert (mbuf_get_left mb1 = E - mb_pos mb1) as El1 by (apply (dec_left E 0); lia).
  unfold need at 1. rewrite (bind_Some _ _ _ _ _ (eq_refl : get mb1 = _)).
  destruct (Z.ltb_spec (mbuf_get_left mb1) sz).
  { stop_at mb1. }
  unfold mbuf_alloc_ref, get, ret. unfold bind at 1. unfold bind at 1.
  destruct (alloc_ok 32). 2: { stop_at mb1. }
  cbn [ref_pos ref_end]. set (sz' := u64 _). assert (0 <= sz') by (apply wrap_range; lia).
  unfold need, get, bind. destruct (Z.ltb_spec (mbuf_get_left mb1) sz').
  { stop_at mb1. }
  destruct (advance_eq mb1 sz') as [-> A2]; [done|lia|done|lia|].
  eexists _, _. split_and!; [done|by apply Hadv|]. intros _. pose proof (wf_pos _ Hwf).
  split; cbn [tw_seq tw_count tw_reftime tw_fbcount tw_chunks tw_deltas snd]; try done; try lia.
  - rewrite Z.shiftr_div_pow2 by lia. dlia.
  - rewrite land_255. dlia.
  - split; cbn [ref_pos ref_end]; lia.
  - split; [|done]. split; cbn [ref_pos ref_end]; lia.
Qed.

Lemma fci_vector_decodes {A} p n sizeof size (dec : M mbuf (Z * A)) f (P : A -> Prop) (Q : fci -> Prop) :
  0 <= p -> 0 <= n -> 0 <= size ->
  Exact size dec (fun r => r.1 = 0 /\ P r.2) ->
  (forall v, zlength v = n -> Forall P v -> Q (f v)) ->
  Decodes E p 0 (fci_vector n sizeof size dec f) (good Q).
Proof.
  intros Hp Hn Hs Hx Hq. apply dec_if; intros _; [by apply dec_fail|].
  apply dec_need; [done|by intros ?|]. eapply dec_bind; [nia| |].
  - apply dec_of_exact; [nia|]. rewrite <- (Z2Nat.id n) at 1 by done. by apply (exact_all size dec P _ []).
  - intros [e v] (E0 & Hl & Hf). cbn [fst snd length] in *. apply dec_ret. intros _. apply Hq; [lia|done].
Qed.

Lemma gnack_exact : Exact 4 gnack_decode (fun r => r.1 = 0 /\ is_u16 r.2.1 /\ is_u16 r.2.2).
Proof.
  eapply (exact_bind 2 2); [lia|lia|apply exact_ntohs|]. intros pid Hpid.
  eapply (exact_bind 2 0); [lia|lia|apply exact_ntohs|]. intros blp Hblp. by apply exact_ret.
Qed.

Lemma sli_exact : Exact 4 sli_decode
  (fun r => r.1 = 0 /\ 0 <= r.2.1.1 < 2 ^ 13 /\ 0 <= r.2.1.2 < 2 ^ 13 /\ 0 <= r.2.2 < 2 ^ 6).
Proof.
  eapply (exact_bind 4 0); [lia|lia|apply exact_ntohl|]. intros v Hv. apply exact_ret.
  change 0x1fff with (Z.ones 13). change 0x003f with (Z.ones 6). cbn [fst snd].
  rewrite !Z.land_ones by lia. dlia.
Qed.

Lemma fir_exact : Exact 8 fir_decode (fun r => r.1 = 0 /\ is_u32 r.2.1 /\ is_u8 r.2.2).
Proof.
  eapply (exact_bind 4 4); [lia|lia|apply exact_ntohl|]. intros ssrc Hssrc.
  eapply (exact_bind 1 3); [lia|lia|apply exact_u8|]. intros seq_n Hseq.
  eapply (exact_bind 3 0); [lia|lia|apply exact_advance|]. intros _ _. by apply exact_ret.
Qed.

Lemma rtpfb_decodes p count n : 0 <= p -> 0 <= n ->
  Decodes E p 0 (rtcp_rtpfb_decode count n) (good (fun r => r.1 = n /\ fci_ok E RTCP_RTPFB count n r.2)).
Proof.
  intros Hp Hn. eapply (dec_map E p 0 _ (fun f => (n, f)) (fci_ok E RTCP_RTPFB count n)); [lia| |done].
  apply dec_if; intros E1; [|apply dec_if; intros E2]; unfold RTCP_RTPFB_GNACK, RTCP_RTPFB_TWCC in *.
  - apply (fci_vector_decodes p n _ _ _ _ (fun x => is_u16 x.1 /\ is_u16 x.2)); [done|done|done|apply gnack_exact|].
    intros v Hl Hf. split_and!; [done|unfold RTCP_RTPFB_GNACK; lia|done|done].
  - apply dec_need; [done|by intros ?|]. apply dec_if; intros _; [by apply dec_fail|].
    apply (dec_map E p 8 _ _ (twcc_ok E)); [lia|eapply dec_weaken; [by apply (twcc_decodes p)|lia..|done]|].
    intros t Ht. split_and!; [done|unfold RTCP_RTPFB_TWCC; lia|done].
  - apply dec_ok. left. unfold RTCP_RTPFB_GNACK, RTCP_RTPFB_TWCC. split_and!; [done|lia|lia].
Qed.

Lemma afb_decodes p n : 0 <= p -> 0 <= n ->
  Decodes E p (n * 4) (let* afb := mbuf_alloc_ref in
    match afb with
    | None => ret (ENOMEM, FciNone)
    | Some afb => mbuf_advance (n * 4) ;; ret (0, Afb (Ref (ref_pos afb) (ref_pos afb + n * 4)))
    end) (good (fci_ok E RTCP_PSFB RTCP_PSFB_AFB n)).
Proof.
  intros Hp Hn mb Hwf He Hs Hl. unfold mbuf_alloc_ref, get, ret. unfold bind at 1. unfold bind at 1.
  destruct (alloc_ok 32); [|stop_at mb]. cbn [ref_pos].
  destruct (advance_eq mb (n * 4)) as [Ea A]; [done|done|lia|lia|]. rewrite (bind_Some _ _ _ _ _ Ea).
  eexists _, _. split_and!; [done|done|]. intros _. pose proof (wf_pos _ Hwf).
  split_and!; [done|done| |done]. split; cbn [ref_pos ref_end]; lia.
Qed.

Lemma psfb_decodes p count n : 0 <= p -> 0 <= n ->
  Decodes E p 0 (rtcp_psfb_decode count n)
    (good (fun r => r.1 = (if count =? RTCP_PSFB_FIR then n / 2 else n) /\ fci_ok E RTCP_PSFB count r.1 r.2)).
Proof.
  intros Hp Hn. unfold rtcp_psfb_decode. set (n' := if count =? RTCP_PSFB_FIR then n / 2 else n).
  eapply (dec_map E p 0 _ (fun f => (n', f)) (fci_ok E RTCP_PSFB count n')); [lia| |done].
  assert (0 <= n') by (subst n'; case_match; dlia).
  unfold RTCP_PSFB_PLI, RTCP_PSFB_SLI, RTCP_PSFB_AFB, RTCP_PSFB_FIR in *.
  destruct (Z.eqb_spec count 1) as [->|N1];
    [apply dec_ok; right; by split_and!; unfold RTCP_PSFB_SLI, RTCP_PSFB_AFB, RTCP_PSFB_FIR|].
  destruct (Z.eqb_spec count 2) as [->|N2].
  { apply (fci_vector_decodes p n _ _ _ _ (fun x => 0 <= x.1.1 < 2 ^ 13 /\ 0 <= x.1.2 < 2 ^ 13 /\ 0 <= x.2 < 2 ^ 6));
      [done..|apply sli_exact|]. intros v Hl Hf. by split_and!. }
  destruct (Z.eqb_spec count 15) as [->|N3].
  { apply dec_need; [done|by intros ?|]. by apply afb_decodes. }
  destruct (Z.eqb_spec count 4) as [->|N4].
  { apply (fci_vector_decodes p n' _ _ _ _ (fun x => is_u32 x.1 /\ is_u8 x.2)); [done..|apply fir_exact|].
    intros v Hl Hf. by split_and!. }
  apply dec_ok. right. by split_and!; unfold RTCP_PSFB_SLI, RTCP_PSFB_AFB, RTCP_PSFB_FIR.
Qed.

(** *** Packets *)

Lemma src_exact : Exact 4 src_decode (fun r => r.1 = 0 /\ is_u32 r.2).
Proof. eapply (exact_bind 4 0); [lia|lia|apply exact_ntohl|]. intros v Hv. by apply exact_ret. Qed.

Lemma bye_reason_decodes p n rem count : 0 <= n -> (rem > count * 4 -> 1 <= n) ->
  Decodes E p n (bye_reason rem count)
    (good (fun o => match o with Some s => zlength s < 2 ^ 8 /\ bytes_ok s | None => True end)).
Proof.
  intros Hn Hr. apply dec_if; intros Hc; [|by apply dec_ok]. apply dec_u8; [lia|]. intros len Hlen.
  apply dec_need; [lia|by intros ?|].
  apply (dec_map E _ _ _ Some (fun s => zlength s < 2 ^ 8 /\ bytes_ok s)); [lia| |done].
  apply dec_if; intros _; [|by apply dec_fail]. apply dec_of_exact; [lia|].
  intros bs Hl Hok. destruct (exact_mem len bs Hl Hok) as (r & Hx & E0 & Hz & Hb).
  exists r. split; [done|]. intros _. split; [lia|done].
Qed.

Lemma app_data_decodes p rem : 0 <= p ->
  Decodes E p 0 (app_data rem) (good (fun d => zlength d = Z.max 0 (rem - 8) /\ bytes_ok d)).
Proof.
  intros Hp. unfold app_data, RTCP_APP_SIZE. apply dec_if; intros Hc; [|apply dec_ok; simpl; split; [lia|done]].
  apply dec_if; intros _; [by apply dec_fail|]. apply dec_need; [lia|by intros ?|].
  apply dec_mem; [lia|]. intros bs Hl Hok. apply dec_ok. split; [lia|done].
Qed.

Lemma fb_decodes p hdr dec n' : 0 <= p -> rtcp_hdr_ok hdr ->
  (forall p, 0 <= p -> 2 <= rh_length hdr ->
     Decodes E p 0 (dec (rh_length hdr - 2)) (good (fun r => r.1 = n' /\ fci_ok E (rh_pt hdr) (rh_count hdr) n' r.2))) ->
  n' = (if (rh_pt hdr =? RTCP_PSFB) && (rh_count hdr =? RTCP_PSFB_FIR) then (rh_length hdr - 2) / 2
        else rh_length hdr - 2) ->
  Decodes E p 0 (fb_decode (rh_length hdr) dec) (good (r_ok E hdr)).
Proof.
  intros Hp Hh Hd En. apply dec_need; [done|by intros ?|]. apply dec_if; intros Hl; [by apply dec_fail|].
  apply dec_ntohl; [unfold RTCP_FB_SIZE; lia|]. intros sp Hsp.
  apply dec_ntohl; [unfold RTCP_FB_SIZE; lia|]. intros sm Hsm.
  eapply dec_bind; [done|eapply dec_weaken; [apply (Hd p); lia|lia|done|done]|].
  intros [e [n f]] Hg. apply dec_ret. intros E0. destruct (Hg E0) as [E1 Hf]. cbn [fst snd] in *. subst n.
  split_and!; [lia..|exact Hf].
Qed.

Lemma body_decodes p hdr : 0 <= p -> rtcp_hdr_ok hdr ->
  Decodes E p (rh_length hdr * 4) (decode_body hdr) (good (r_ok E hdr)).
Proof.
  intros Hp Hh. pose proof Hh as [_ _ Hc Hpt Hlen]. unfold decode_body.
  destruct (Z.eqb_spec (rh_pt hdr) RTCP_SR) as [E1|N1].
  { apply dec_need; [lia|by intros ?|]. unfold RTCP_SRC_SIZE, RTCP_SR_SIZE.
    do 6 (apply dec_ntohl; [lia|intros ? ?]).
    eapply dec_map; [lia|eapply dec_weaken; [apply (rrv_decodes p); lia|lia|lia|done]|].
    intros rrv [Hl Hf]. split_and!; [done|by repeat constructor; lia|done|done]. }
  destruct (Z.eqb_spec (rh_pt hdr) RTCP_RR) as [E2|N2].
  { apply dec_need; [lia|by intros ?|]. apply dec_ntohl; [unfold RTCP_SRC_SIZE; lia|]. intros ssrc Hs.
    eapply dec_map; [done|eapply dec_weaken; [apply (rrv_decodes p); lia|lia|done|done]|].
    intros rrv [Hl Hf]. split_and!; (done || lia). }
  destruct (Z.eqb_spec (rh_pt hdr) RTCP_SDES) as [E3|N3].
  { apply dec_if; intros Hz; [apply dec_ok; split_and!; simpl; [done|lia|done]|].
    apply dec_if; intros _; [by apply dec_fail|].
    eapply dec_map; [lia|eapply dec_weaken; [apply (dec_all E p _ sdes_ok); [by apply sdes_decode_decodes|done]|lia|lia|done]|].
    intros v [Hl Hf]. simpl in Hl. split_and!; [done|lia|done]. }
  destruct (Z.eqb_spec (rh_pt hdr) RTCP_BYE) as [E4|N4].
  { apply dec_if; intros _; [by apply dec_fail|]. apply dec_need_max; [lia|by intros ?|].
    eapply (dec_exact E p _ (rh_count hdr * 4)); [lia| |].
    { rewrite <- (Z2Nat.id (rh_count hdr)) at 1 by lia.
      apply (exact_all 4 _ (fun v => is_u32 v) _ []); [lia|apply src_exact|done]. }
    intros [e srcv] (_ & Hl & Hf). cbn [fst snd length] in *.
    eapply dec_map; [|apply bye_reason_decodes; lia|]; [lia|]. intros reason Hr. split_and!; [done|lia|done|done]. }
  destruct (Z.eqb_spec (rh_pt hdr) RTCP_APP) as [E5|N5].
  { apply dec_need; [lia|by intros ?|]. unfold RTCP_APP_SIZE.
    apply dec_ntohl; [lia|]. intros src Hs. apply dec_mem; [lia|]. intros name Hn Hb.
    eapply dec_map; [lia|eapply dec_weaken; [apply (app_data_decodes p (rh_length hdr * 4)); lia|lia|lia|done]|].
    intros data [Hl Hd]. split_and!; (done || lia). }
  destruct (Z.eqb_spec (rh_pt hdr) RTCP_FIR) as [E6|N6].
  { apply dec_need; [lia|by intros ?|]. apply dec_ntohl; [unfold RTCP_FIR_SIZE; lia|]. intros ssrc Hs.
    apply dec_ok. split_and!; (done || lia). }
  destruct (Z.eqb_spec (rh_pt hdr) RTCP_NACK) as [E7|N7].
  { apply dec_need; [lia|by intros ?|]. unfold RTCP_NACK_SIZE. apply dec_ntohl; [lia|]. intros ssrc Hs.
    apply dec_ntohs; [lia|]. intros fsn Hfs. apply dec_ntohs; [lia|]. intros blp Hb.
    apply dec_ok. split_and!; (done || lia). }
  destruct (Z.eqb_spec (rh_pt hdr) RTCP_RTPFB) as [E8|N8].
  { eapply dec_weaken; [apply (fb_decodes p hdr _ (rh_length hdr - 2))|lia|lia|done]; [done|done| |by rewrite E8].
    intros q Hq Hl. rewrite E8. by apply rtpfb_decodes; lia. }
  destruct (Z.eqb_spec (rh_pt hdr) RTCP_PSFB) as [E9|N9].
  { eapply dec_weaken; [eapply (fb_decodes p hdr)|lia|lia|done]; [done|done| |reflexivity].
    intros q Hq Hl. rewrite E9. cbn [RTCP_PSFB Z.eqb Pos.eqb andb].
    eapply dec_weaken; [apply (psfb_decodes q); lia|lia|done|]. intros r Hg E0. destruct (Hg E0) as [-> Hf].
    split; [done|]. destruct r as [n f]. cbn [fst snd] in *. exact Hf. }
  apply dec_advance; [lia|]. apply dec_ok. unfold r_ok, known_pt, known_types.
  intros Hk. repeat (apply elem_of_cons in Hk as [Hk|Hk]; [done|]). by apply elem_of_nil in Hk.
Qed.

Lemma hdr_exact : Exact 4
  (let* b := mbuf_read_u8 in
   let* pt := mbuf_read_u8 in
   let* length := mbuf_read_ntohs in
   ret (0, RtcpHdr (Z.land (Z.shiftr b 6) 0x3) (Z.land (Z.shiftr b 5) 0x1) (Z.land b 0x1f) pt length))
  (fun r => r.1 = 0 /\ (rh_version r.2 = RTCP_VERSION -> rtcp_hdr_ok r.2)).
Proof.
  eapply (exact_bind 1 3); [lia|lia|apply exact_u8|]. intros b Hb.
  eapply (exact_bind 1 2); [lia|lia|apply exact_u8|]. intros pt Hpt.
  eapply (exact_bind 2 0); [lia|lia|apply exact_ntohs|]. intros len Hlen. apply exact_ret. split; [done|].
  intros Hv. split; cbn [snd rh_p rh_count rh_pt rh_length] in *; try done.
  - rewrite land_1. dlia.
  - rewrite land_31. dlia.
Qed.

End decoders.

Section packets.
Context `{Host}.

Lemma rtcp_decode_spec mb : mbuf_wf mb ->
  exists e o mb', rtcp_decode mb = Some ((e, o), mb') /\ advanced mb mb' /\
    match o with
    | Some msg => e = 0 /\ mb_pos mb + RTCP_HDR_SIZE <= mb_pos mb' <= mb_end mb /\
        ((mb_pos mb' - mb_pos mb) mod 4 = 0 \/ mb_pos mb' = mb_end mb) /\ msg_ok (mb_end mb) msg
    | None => e <> 0
    end.
Proof.
  intros Hwf. unfold rtcp_decode, need at 1, RTCP_HDR_SIZE. rewrite (bind_Some _ _ _ _ _ (eq_refl : get mb = _)).
  destruct (Z.ltb_spec (mbuf_get_left mb) 4); [eexists _, _, mb; by split_and!; [|apply advanced_refl|]|].
  destruct (alloc_ok RTCP_MSG_SIZEOF); cbn [negb]; [|eexists _, _, mb; by split_and!; [|apply advanced_refl|]].
  rewrite (bind_Some _ _ _ _ _ (eq_refl : get mb = _)). cbv zeta.
  assert (mbuf_get_left mb = mb_end mb - mb_pos mb) as El by (unfold mbuf_get_left in *; case_match; lia).
  destruct (unread_split mb 4 Hwf) as (b1 & r1 & E1 & L1 & O1); [lia|].
  destruct (hdr_exact b1 L1 O1) as ([e0 hdr] & Hr & E0 & Hh). cbn [fst snd] in *. subst e0.
  unfold rtcp_hdr_decode. rewrite (bind_Some _ _ _ _ _ (reads_need RTCP_HDR_SIZE _ _ b1 _
    ltac:(unfold RTCP_HDR_SIZE; lia) Hr mb r1 Hwf E1)). cbn [nz Z.eqb negb].
  pose proof (advanced_unread _ _ _ Hwf E1) as A1. pose proof (unread_wf _ _ _ Hwf E1) as Hwf1.
  rewrite L1 in *. set (mb1 := set_pos (mb_pos mb + 4) mb) in *.
  destruct (Z.eqb_spec (rh_version hdr) RTCP_VERSION) as [Ev|]; cbn [negb]; [|by eexists _, _, mb1].
  specialize (Hh Ev). assert (mbuf_get_left mb1 = mb_end mb - mb_pos mb1) as El1
    by (unfold mbuf_get_left in *; subst mb1; simpl in *; repeat case_match; lia).
  unfold need. rewrite (bind_Some _ _ _ _ _ (eq_refl : get mb1 = _)).
  destruct (Z.ltb_spec (mbuf_get_left mb1) (rh_length hdr * 4)); [by eexists _, _, mb1|].
  pose proof (wf_pos _ Hwf) as Hp. assert (mb_pos mb1 = mb_pos mb + 4) as P1 by done.
  destruct (body_decodes (mb_end mb) (mb_pos mb1) hdr ltac:(lia) Hh mb1 Hwf1 eq_refl ltac:(lia) ltac:(lia))
    as ([e r] & mb2 & E2 & A2 & Hg). rewrite (bind_Some _ _ _ _ _ E2).
  pose proof (advanced_trans _ _ _ A1 A2) as A12.
  unfold nz. destruct (Z.eqb_spec e 0) as [->|]; cbn [negb]; [|by eexists _, _, mb2].
  pose proof (advanced_wf _ _ Hwf A12) as Hwf2. pose proof (adv_pos _ _ A2). pose proof (adv_end _ _ A12) as Ee2.
  destruct (slurp_padding_step (mb_pos mb) mb2 Hwf2 ltac:(lia)) as (mb3 & E3 & A3 & Hal).
  rewrite (bind_Some _ _ _ _ _ E3). pose proof (adv_pos _ _ A3). pose proof (adv_end _ _ A3) as Ee3.
  assert (mb_end mb1 = mb_end mb) by done. exists 0, (Some (RtcpMsg hdr r)), mb3.
  split_and!; [done|by eapply advanced_trans|done|lia|lia| |by split; [|apply Hg]].
  destruct Hal as [Hal|Hal]; [by left|right]. unfold mbuf_get_left in Hal. case_match; lia.
Qed.

End packets.
