(* ===== verification/RtcpRound.v ===== *)
(** * RTCP packets on the wire

    The bytes of the packets that survive the wire ([wire_ok]), that the
    encoder writes exactly them, and that the decoder reads the message back.
    An encode handler is any program that writes the blocks of the message. *)

From S2P Require Export RtcpDecode MbufPatch MbufData.

(** ** Wire format *)

Definition rr_bytes (rr : rtcp_rr) : list Z :=
  be_bytes 4 (rr_ssrc rr) ++ be_bytes 4 (rr_fraction rr * 2 ^ 24 + rr_lost rr mod 2 ^ 24) ++
  be_bytes 4 (rr_last_seq rr) ++ be_bytes 4 (rr_jitter rr) ++ be_bytes 4 (rr_lsr rr) ++ be_bytes 4 (rr_dlsr rr).

Definition padded4 (bs : list Z) : list Z := bs ++ replicate (Z.to_nat (pad4 (zlength bs))) 0.

Definition item_bytes (i : rtcp_sdes_item) : list Z := si_type i :: zlength (si_data i) :: si_data i.
Definition sdes_bytes (s : rtcp_sdes) : list Z :=
  padded4 (be_bytes 4 (sd_src s) ++ mjoin (item_bytes <$> sd_itemv s) ++ [RTCP_SDES_END]).

Definition fci_bytes (f : fci) : list Z :=
  match f with
  | Gnackv v => mjoin ((fun x => be_bytes 2 x.1 ++ be_bytes 2 x.2) <$> v)
  | Sliv v => mjoin ((fun x => be_bytes 4 (x.1.1 * 2 ^ 19 + x.1.2 * 2 ^ 6 + x.2)) <$> v)
  | Firv v => mjoin ((fun x => be_bytes 4 x.1 ++ [x.2; 0; 0; 0]) <$> v)
  | _ => []
  end.

Definition reason_bytes (reason : option (list Z)) : list Z :=
  match reason with Some s => zlength s :: s | None => [] end.

Definition body_bytes (r : rtcp_r) : list Z :=
  match r with
  | Sr ssrc ntp_sec ntp_frac rtp_ts psent osent rrv =>
      mjoin (be_bytes 4 <$> [ssrc; ntp_sec; ntp_frac; rtp_ts; psent; osent]) ++ mjoin (rr_bytes <$> rrv)
  | RrMsg ssrc rrv => be_bytes 4 ssrc ++ mjoin (rr_bytes <$> rrv)
  | SdesMsg sdesv => mjoin (sdes_bytes <$> sdesv)
  | Bye srcv reason => mjoin (be_bytes 4 <$> srcv) ++ reason_bytes reason
  | App src name data => be_bytes 4 src ++ name ++ data
  | Fir ssrc => be_bytes 4 ssrc
  | Nack ssrc fsn blp => be_bytes 4 ssrc ++ be_bytes 2 fsn ++ be_bytes 2 blp
  | Fb ssrc_packet ssrc_media n f => be_bytes 4 ssrc_packet ++ be_bytes 4 ssrc_media ++ fci_bytes f
  | ROther => []
  end.

Definition rtcp_hdr_bytes (hdr : rtcp_hdr) : list Z :=
  (2 ^ 7 + rh_count hdr) :: rh_pt hdr :: be_bytes 2 (rh_length hdr).

Definition packet_bytes (msg : rtcp_msg) : list Z :=
  rtcp_hdr_bytes (rm_hdr msg) ++ padded4 (body_bytes (rm_r msg)).

(** A message that survives the wire: every value fits its field, so that the
    reason of a BYE and the texts of an SDES are shorter than 256 characters
    and the data of an APP is a multiple of four; its length field is that of
    the packet; and its feedback information, if any, is one that the library
    decodes into values and not into references to the packet (congestion
    control and application layer feedback). *)
Record wire_ok (msg : rtcp_msg) : Prop := {
  sn_ok : msg_ok 0 msg;
  sn_p : rh_p (rm_hdr msg) = 0;
  sn_length : rh_length (rm_hdr msg) * 4 = zlength (padded4 (body_bytes (rm_r msg)));
  sn_body : match rm_r msg with Fb _ _ _ (Twccv _ | Afb _) | ROther => False | _ => True end;
}.

(** The handler writes [bs]. *)
Definition ench_writes (ench : option (M mbuf Z)) (bs : list Z) : Prop := WritesOk (call_ench ench) bs.

(** Arguments that describe the message. *)
Definition args_for (r : rtcp_r) (ap : rtcp_args mbuf) : Prop :=
  match r, ap with
  | Sr ssrc ntp_sec ntp_frac rtp_ts psent osent rrv, ArgsSr v ench =>
      v = [ssrc; ntp_sec; ntp_frac; rtp_ts; psent; osent] /\ ench_writes ench (mjoin (rr_bytes <$> rrv))
  | RrMsg ssrc rrv, ArgsRr s ench => s = ssrc /\ ench_writes ench (mjoin (rr_bytes <$> rrv))
  | SdesMsg sdesv, ArgsSdes ench => ench_writes ench (mjoin (sdes_bytes <$> sdesv))
  | Bye srcv reason, ArgsBye v s => v = srcv /\ s = reason
  | App src name data, ArgsApp s n d => s = src /\ n = name /\ d = Some data
  | Fir ssrc, ArgsFir s => s = ssrc
  | Nack ssrc fsn blp, ArgsNack s f b => s = ssrc /\ f = fsn /\ b = blp
  | Fb ssrc_packet ssrc_media n f, ArgsFb p m ench => p = ssrc_packet /\ m = ssrc_media /\ ench_writes ench (fci_bytes f)
  | _, _ => False
  end.

Lemma length_padded4 bs : zlength (padded4 bs) = zlength bs + pad4 (zlength bs).
Proof. unfold padded4, pad4. rewrite length_app, length_replicate. dlia. Qed.

Lemma padded4_mod bs : zlength (padded4 bs) mod 4 = 0.
Proof. rewrite length_padded4. unfold pad4. dlia. Qed.

Lemma bytes_mjoin {A} (f : A -> list Z) v (P : A -> Prop) : (forall x, P x -> bytes_ok (f x)) -> Forall P v ->
  bytes_ok (mjoin (f <$> v)).
Proof. intros Hf. induction 1; simpl; [done|]. apply Forall_app. auto. Qed.

Lemma length_mjoin_const {A} (f : A -> list Z) v n : (forall x, zlength (f x) = n) ->
  zlength (mjoin (f <$> v)) = n * zlength v.
Proof.
  intros Hf. induction v as [|x v IH]; [simpl; lia|].
  change (mjoin (f <$> x :: v)) with (f x ++ mjoin (f <$> v)). rewrite length_app. specialize (Hf x). simpl length. lia.
Qed.

(** ** Encoders *)

Section encoders.
Context `{Host}.
Hypothesis Hoom : no_oom.

Lemma ok_u32 v : WritesOk (mbuf_write_u32 (htonl v)) (be_bytes 4 v).
Proof. apply writes_writes_ok; [done|apply _]. Qed.
Lemma ok_u16 v : WritesOk (mbuf_write_u16 (htons v)) (be_bytes 2 v).
Proof. apply writes_writes_ok; [done|apply _]. Qed.
Lemma ok_u8 v : is_u8 v -> WritesOk (mbuf_write_u8 v) [v].
Proof. intros Hv. rewrite <- (wrap_small 8 v) at 2 by done. apply writes_writes_ok; [done|apply _]. Qed.
Lemma ok_mem bs : bytes_ok bs -> WritesOk (mbuf_write_mem bs) bs.
Proof. intros Hb. apply writes_writes_ok; [done|by apply writes_mem]. Qed.

Lemma ok_all {A} (enc : A -> M mbuf Z) (f : A -> list Z) (P : A -> Prop) v :
  (forall x, P x -> WritesOk (enc x) (f x)) -> Forall P v ->
  WritesOk (foldr (fun x m => enc x |; m) (ret 0) v) (mjoin (f <$> v)).
Proof. intros He. induction 1; simpl; [apply writes_ok_ret0|]. apply writes_ok_or_err; auto. Qed.

Lemma rr_word fraction lost : is_u8 fraction ->
  Z.lor (u32 (Z.shiftl fraction 24)) (Z.land lost 0x00ffffff) = fraction * 2 ^ 24 + lost mod 2 ^ 24.
Proof.
  intros Hf. change 0x00ffffff with (Z.ones 24). rewrite Z.land_ones by lia.
  rewrite Z.shiftl_mul_pow2, wrap_small by lia. apply lor_add; dlia.
Qed.

Lemma rr_encode_ok rr : rr_ok rr -> WritesOk (rtcp_rr_encode rr) (rr_bytes rr).
Proof.
  intros [_ Hf _ _ _ _ _]. unfold rtcp_rr_encode, rr_bytes. rewrite rr_word by done.
  repeat apply writes_ok_or_err; apply ok_u32.
Qed.
(** The items that the variable arguments give. *)
Definition items_of (ap : list (Z * option (list Z))) : list rtcp_sdes_item :=
  omap (fun x => SdesItem x.1 <$> x.2) ap.

Lemma item_encode_ok type v : item_ok (SdesItem type v) ->
  WritesOk (mbuf_write_u8 type |; mbuf_write_u8 (Z.land (zlength v) 0xff) |; mbuf_write_mem v)
    (item_bytes (SdesItem type v)).
Proof.
  intros (Ht & Hl & Hv). cbn [si_type si_data] in *. rewrite land_255, Z.mod_small by lia.
  apply (writes_ok_or_err _ _ [type]); [apply ok_u8; lia|].
  apply (writes_ok_or_err _ _ [zlength v]); [apply ok_u8; lia|by apply ok_mem].
Qed.

Lemma sdes_items_ok ap mb : Forall item_ok (items_of ap) -> mbuf_wf mb ->
  mb_pos mb + zlength (mjoin (item_bytes <$> items_of ap)) < WRITE_MAX ->
  exists mb', sdes_items ap 0 mb = Some ((0, false), mb') /\ mbuf_wf mb' /\
    written mb (mjoin (item_bytes <$> items_of ap)) mb'.
Proof.
  revert mb. induction ap as [|[type [v|]] ap IH]; intros mb Hi Hwf Hm; cbn [sdes_items nz Z.eqb negb].
  - exists mb. split_and!; [done|done|by apply written_nil].
  - change (items_of ((type, Some v) :: ap)) with (SdesItem type v :: items_of ap) in *.
    inversion_clear Hi as [|? ? Hx Hi'].
    change (mjoin (item_bytes <$> SdesItem type v :: items_of ap))
      with (item_bytes (SdesItem type v) ++ mjoin (item_bytes <$> items_of ap)) in *. rewrite length_app in Hm.
    replace (zlength v >? 255) with false by (destruct Hx as (_ & Hl & _); simpl in Hl; lia).
    destruct (item_encode_ok type v Hx mb Hwf) as (mb1 & E1 & Hwf1 & W1); [lia|].
    rewrite (bind_Some _ _ _ _ _ E1). destruct (IH mb1 Hi' Hwf1) as (mb2 & E2 & Hwf2 & W2);
      [rewrite (wr_pos _ _ _ W1); lia|]. exists mb2. split_and!; [done|done|by apply (written_app _ _ mb1)].
  - by apply IH.
Qed.

Lemma sdes_encode_ok src ap : ap <> [] -> Forall item_ok (items_of ap) ->
  WritesOk (rtcp_sdes_encode src ap) (sdes_bytes (Sdes src (items_of ap))).
Proof.
  intros Hne Hi mb Hwf Hm. unfold sdes_bytes in *. cbn [sd_src sd_itemv] in *.
  set (its := mjoin (item_bytes <$> items_of ap)) in *. rewrite length_padded4 in Hm.
  rewrite !length_app, length_be_bytes in Hm. cbn [length] in Hm. pose proof (wf_pos _ Hwf) as Hp.
  set (l := 4 + (zlength its + 1)). replace (Z.of_nat (4 + (length its + 1))) with l in Hm by lia.
  assert (0 <= pad4 l < 4) as Hpad by (unfold pad4; dlia). unfold WRITE_MAX in Hm.
  assert (rtcp_sdes_encode src ap = (let* mb := get in
    let start := mb_pos mb in
    let* err := mbuf_write_u32 (htonl src) in
    let* '(err, out) := sdes_items ap err in
    if out then ret err else ret err |; mbuf_write_u8 RTCP_SDES_END |; sdes_padding 4 start)) as -> by (by destruct ap).
  rewrite (bind_Some _ _ _ _ _ (eq_refl : get mb = _)). cbv zeta.
  destruct (ok_u32 src mb Hwf) as (mb1 & E1 & Hwf1 & W1); [rewrite length_be_bytes; unfold WRITE_MAX; lia|].
  rewrite (bind_Some _ _ _ _ _ E1). pose proof (wr_pos _ _ _ W1) as P1. rewrite length_be_bytes in P1.
  destruct (sdes_items_ok ap mb1 Hi Hwf1) as (mb2 & E2 & Hwf2 & W2); [fold its; unfold WRITE_MAX; lia|].
  rewrite (bind_Some _ _ _ _ _ E2). fold its in W2. pose proof (wr_pos _ _ _ W2) as P2.
  destruct (ok_u8 RTCP_SDES_END ltac:(done) mb2 Hwf2) as (mb3 & E3 & Hwf3 & W3); [unfold WRITE_MAX; simpl; lia|].
  pose proof (wr_pos _ _ _ W3) as P3. cbn [length] in P3.
  assert (mb_pos mb3 - mb_pos mb = l) as El by lia.
  destruct (write_padding_ok 4 (mb_pos mb) RTCP_SDES_END mb3 Hoom Hwf3) as (mb4 & E4 & Hwf4 & W4);
    rewrite ?El; try lia; [unfold WRITE_MAX; lia|]. rewrite El in W4.
  exists mb4. unfold or_err. rewrite (bind_Some _ _ _ _ _ (eq_refl : ret 0 mb2 = _)).
  unfold bind at 1. rewrite (bind_Some _ _ _ _ _ E3).
  rewrite (bind_Some _ _ _ _ _ (E4 : sdes_padding 4 (mb_pos mb) mb3 = _)). split_and!; [done|done|].
  unfold padded4. rewrite !length_app, length_be_bytes. cbn [length].
  replace (Z.of_nat (4 + (length its + 1))) with l by lia. rewrite <- !app_assoc.
  apply (written_app _ _ mb1); [done..|]. apply (written_app _ _ mb2); [done..|]. by apply (written_app _ [_] mb3).
Qed.

Lemma srcv_ok srcv : WritesOk (write_srcv srcv (length srcv)) (mjoin (be_bytes 4 <$> srcv)).
Proof.
  induction srcv as [|src srcv IH]; cbn [write_srcv length]; [apply writes_ok_ret0|].
  intros mb Hwf Hm. change (mjoin (be_bytes 4 <$> src :: srcv)) with (be_bytes 4 src ++ mjoin (be_bytes 4 <$> srcv)) in *.
  rewrite length_app in Hm. destruct (ok_u32 src mb Hwf) as (mb1 & E1 & Hwf1 & W1); [lia|].
  destruct (IH mb1 Hwf1) as (mb2 & E2 & Hwf2 & W2); [rewrite (wr_pos _ _ _ W1); lia|].
  exists mb2. unfold check. rewrite (bind_Some _ _ _ _ _ E1). split_and!; [done|done|by apply (written_app _ _ mb1)].
Qed.

Lemma write_all_ok v : WritesOk (write_all v) (mjoin (be_bytes 4 <$> v)).
Proof. induction v as [|x v IH]; [apply writes_ok_ret0|]. apply writes_ok_or_err; [apply ok_u32|done]. Qed.

Lemma app_encode_ok src name data : bytes_ok name -> bytes_ok data -> zlength data mod 4 = 0 ->
  WritesOk (write_app src name (Some data)) (be_bytes 4 src ++ name ++ data).
Proof.
  intros Hn Hd H4. unfold write_app. rewrite H4. cbn [nz Z.eqb negb]. intros mb Hwf Hm. rewrite app_assoc, length_app in Hm.
  destruct (writes_ok_or_err _ _ _ _ (ok_u32 src) (ok_mem name Hn) mb Hwf) as (mb1 & E1 & Hwf1 & W1); [lia|].
  rewrite (bind_Some _ _ _ _ _ E1). pose proof (wr_pos _ _ _ W1).
  destruct (ok_mem data Hd mb1 Hwf1) as (mb2 & E2 & Hwf2 & W2); [lia|].
  exists mb2. unfold or_err. rewrite (bind_Some _ _ _ _ _ (eq_refl : ret 0 mb1 = _)), (bind_Some _ _ _ _ _ E2).
  split_and!; [done|done|]. rewrite app_assoc. by apply (written_app _ _ mb1).
Qed.

Ltac known := match goal with Hr : rh_pt _ = _ /\ _ |- _ => destruct Hr as [-> _] end; by apply (bool_decide_unpack _); vm_compute.

Lemma encode_body_ok msg ap : wire_ok msg -> args_for (rm_r msg) ap ->
  WritesOk (encode_body (rh_pt (rm_hdr msg)) (rh_count (rm_hdr msg)) ap) (body_bytes (rm_r msg)).
Proof.
  intros [[Hh Hr] _ Hlen Hb] Ha. destruct msg as [hdr r]. cbn [rm_hdr rm_r] in *. unfold encode_body, on_mbuf, mbuf_state, write_bye, write_nack.
  rewrite bool_decide_true; cbn [negb].
  2: { destruct r as [| | | | | | |? ? ? f|]; cbn [r_ok] in Hr; try known.
    - destruct Hr as (_ & _ & _ & _ & Hr). destruct f; cbn [fci_ok] in Hr; try known. destruct Hr as [Hr|Hr]; known.
    - done. }
  destruct r as [| | |srcv reason| | | |? ? ? f|], ap; try done; cbn [args_for r_ok body_bytes] in *.
  - destruct Hr as [-> _], Ha as [-> Ha]. cbn [Z.eqb Pos.eqb andb RTCP_SR].
    change (zlength _ =? 6) with true. by apply writes_ok_or_err; [apply write_all_ok|].
  - destruct Hr as [-> _], Ha as [-> Ha]. by apply writes_ok_or_err; [apply ok_u32|].
  - by destruct Hr as [-> _].
  - destruct Hr as (-> & Hl & _ & Hrs), Ha as [-> ->]. rewrite <- Hl, Nat2Z.id.
    apply writes_ok_or_err; [apply srcv_ok|]. destruct reason as [s|]; [|apply writes_ok_ret0].
    destruct Hrs as [Hs Hok]. rewrite wrap_small by lia.
    apply (writes_ok_or_err _ _ [_]); [apply ok_u8; lia|by apply ok_mem].
  - destruct Hr as (-> & _ & Hn & Hnb & Hd & Hdb), Ha as (-> & -> & ->). cbn [Z.eqb Pos.eqb andb RTCP_APP].
    rewrite Hn. change (4 =? 4) with true. apply app_encode_ok; [done|done|]. rewrite Hd. dlia.
  - destruct Hr as [-> _]. subst. apply ok_u32.
  - destruct Hr as (-> & _ & Hf & Hbl), Ha as (-> & -> & ->). rewrite !wrap_small by done.
    repeat apply writes_ok_or_err; (apply ok_u32 || apply ok_u16).
  - destruct Ha as (-> & -> & Ha). rewrite app_assoc. assert ((rh_pt hdr =? RTCP_RTPFB) || (rh_pt hdr =? RTCP_PSFB) = true) as ->.
    { destruct Hr as (_ & _ & _ & _ & Hf). destruct f; cbn [fci_ok] in Hf;
        try (by destruct Hf as [-> _]); by destruct Hf as [[-> _]|[-> _]]. }
    repeat apply writes_ok_or_err; (apply ok_u32 || done).
Qed.

(** The padding loop looks at the end, which is the position. *)
Lemma pad_packet_ok fuel start mb : mbuf_wf mb -> mb_end mb = mb_pos mb -> 0 <= start <= mb_pos mb ->
  pad4 (mb_pos mb - start) <= Z.of_nat fuel -> mb_pos mb + pad4 (mb_pos mb - start) < WRITE_MAX ->
  exists mb', pad_packet fuel start mb = Some (0, mb') /\ mbuf_wf mb' /\ mb_end mb' = mb_pos mb' /\
    written mb (replicate (Z.to_nat (pad4 (mb_pos mb - start))) 0) mb'.
Proof.
  revert mb. induction fuel as [|fuel IH]; intros mb Hwf He Hs Hf Hm;
    pose proof (wf_pos _ Hwf); unfold WRITE_MAX, pad4 in *; cbn [pad_packet];
    rewrite (bind_Some _ _ _ _ _ (eq_refl : get mb = _)); rewrite He;
    rewrite (wrap_small 64), land_3 by dlia; unfold nz;
    (destruct (Z.eqb_spec ((mb_pos mb - start) mod 4) 0) as [E|E]; cbn [negb];
      [replace ((- (mb_pos mb - start)) mod 4) with 0 by dlia;
       exists mb; split_and!; [done|done|done|by apply written_nil]|]).
  { exfalso. dlia. }
  rewrite pad_step in * by done. set (n := (- (mb_pos mb - start + 1)) mod 4) in *.
  assert (0 <= n) by (subst n; dlia).
  destruct (ok_u8 0 ltac:(done) mb Hwf) as (mb1 & E1 & Hwf1 & W1); [unfold WRITE_MAX; simpl; lia|].
  pose proof (wr_pos _ _ _ W1) as P1. simpl in P1. pose proof (wr_end _ _ _ W1). pose proof (wr_cover _ _ _ W1 ltac:(done)).
  assert ((- (mb_pos mb1 - start)) mod 4 = n) as En by (subst n; rewrite P1; do 2 f_equal; lia).
  cbn [length] in *. destruct (IH mb1 Hwf1) as (mb2 & E2 & Hwf2 & He2 & W2); [lia|lia|lia|lia|]. rewrite En in *.
  exists mb2. unfold or_err. rewrite (bind_Some _ _ _ _ _ E1), (bind_Some _ _ _ _ _ E2).
  split_and!; [done|done|done|]. replace (Z.to_nat (n + 1)) with (S (Z.to_nat n)) by lia.
  by apply (written_app _ [_] mb1).
Qed.

Lemma hdr_encode_ok hdr : rtcp_hdr_ok hdr ->
  WritesOk (rtcp_hdr_encode (u8 (rh_count hdr)) (rh_pt hdr) (rh_length hdr)) (rtcp_hdr_bytes hdr).
Proof.
  intros [_ _ Hc Hp _]. unfold rtcp_hdr_encode, rtcp_hdr_bytes. rewrite wrap_small by lia.
  replace (Z.lor (Z.shiftl RTCP_VERSION 6) (rh_count hdr)) with (2 ^ 7 + rh_count hdr)
    by (unfold RTCP_VERSION; rewrite lor_shiftl; lia).
  apply (writes_ok_or_err _ _ [_]); [apply ok_u8; lia|]. apply (writes_ok_or_err _ _ [_]); [by apply ok_u8|apply ok_u16].
Qed.

(** What was written, as the data of the buffer. *)
Lemma written_holds mb bs mb' : mbuf_wf mb -> mbuf_wf mb' -> written mb bs mb' ->
  mb_end mb' = mb_pos mb + zlength bs -> mb_pos mb <= mb_size mb ->
  holds (set_pos (mb_end mb') mb') (take (Z.to_nat (mb_pos mb)) (mb_buf mb) ++ bs) (mb_pos mb + zlength bs).
Proof.
  intros Hwf Hwf' [P E C S D K] He Hs. pose proof (wf_pos _ Hwf). pose proof (wf_len _ Hwf).
  pose proof (wf_len _ Hwf'). pose proof (wf_end _ Hwf') as He'. pose proof (wf_max _ Hwf') as Hm. unfold MEM_SIZE_MAX in Hm.
  split; [apply set_pos_wf; [done|lia]| |done]. cbn [set_pos mb_end mb_buf]. rewrite He. apply list_eq. intros i.
  assert (length (take (Z.to_nat (mb_pos mb)) (mb_buf mb)) = Z.to_nat (mb_pos mb)) as Lt by (rewrite length_take; lia).
  destruct (decide (Z.of_nat i < mb_pos mb)) as [Hi|Hi].
  { rewrite lookup_take_lt, lookup_app_l, lookup_take_lt by lia. apply K; lia. }
  destruct (decide (Z.of_nat i < mb_pos mb + zlength bs)) as [Hj|Hj].
  - rewrite lookup_take_lt, lookup_app_r, Lt by lia. rewrite <- D by lia. f_equal. lia.
  - rewrite lookup_take_ge by lia. symmetry. apply lookup_ge_None. rewrite length_app, Lt. lia.
Qed.

Lemma rtcp_vencode_ok msg ap mb : wire_ok msg -> args_for (rm_r msg) ap -> mbuf_wf mb ->
  mb_pos mb + RTCP_HDR_SIZE <= mb_size mb -> mb_pos mb + zlength (packet_bytes msg) < WRITE_MAX ->
  exists mb', rtcp_vencode (rh_pt (rm_hdr msg)) (rh_count (rm_hdr msg)) ap mb = Some (0, mb') /\
    holds mb' (take (Z.to_nat (mb_pos mb)) (mb_buf mb) ++ packet_bytes msg) (mb_pos mb + zlength (packet_bytes msg)) /\
    mb_size mb <= mb_size mb'.
Proof.
  intros Hs Ha Hwf Hroom Hm. pose proof Hs as [[Hh Hr] _ Hlen _]. pose proof (wf_pos _ Hwf) as Hp.
  unfold packet_bytes in Hm. rewrite length_app in Hm. unfold RTCP_HDR_SIZE, WRITE_MAX in *.
  assert (zlength (rtcp_hdr_bytes (rm_hdr msg)) = 4) as Lh by done.
  pose proof (encode_body_ok msg ap Hs Ha) as Hb. set (bs := body_bytes (rm_r msg)) in *.
  pose proof (length_padded4 bs) as Lp. assert (0 <= pad4 (zlength bs) < 4) as Hpad by (unfold pad4; dlia).
  set (mb0 := set_end (mb_pos mb + 4) mb). assert (mbuf_wf mb0) as Hwf0 by (destruct Hwf; split; simpl; try done; lia).
  destruct (Hb (set_pos (mb_pos mb + 4) mb0)) as (mb1 & E1 & Hwf1 & W1);
    [apply set_pos_wf; [done|lia]|unfold WRITE_MAX; simpl; lia|].
  pose proof (wr_pos _ _ _ W1) as P1. pose proof (wr_end _ _ _ W1) as N1. cbn [mb0 set_pos set_end mb_pos mb_end] in P1, N1.
  assert (mb_end mb1 = mb_pos mb1) as En1.
  { destruct (decide (bs = [])) as [->|Hne]; [simpl in *; lia|]. pose proof (wr_cover _ _ _ W1 Hne) as C1. simpl in C1. lia. }
  destruct (pad_packet_ok 4 (mb_pos mb) mb1) as (mb2 & E2 & Hwf2 & En2 & W2); [done|done|lia| | |].
  1, 2: replace (mb_pos mb1 - mb_pos mb) with (4 + zlength bs) by lia; unfold pad4, WRITE_MAX in *; dlia.
  replace (pad4 (mb_pos mb1 - mb_pos mb)) with (pad4 (zlength bs)) in W2 by (unfold pad4; dlia).
  pose proof (wr_pos _ _ _ W2) as P2. rewrite length_replicate in P2.
  pose proof (written_app _ _ _ _ _ (set_pos_wf mb0 (mb_pos mb + 4) Hwf0 ltac:(lia)) Hwf1 W1 W2) as W12. fold (padded4 bs) in W12.
  destruct (hdr_encode_ok (rm_hdr msg) Hh (set_pos (mb_pos mb) mb2)) as (mb3 & E3 & Hwf3 & W3);
    [apply set_pos_wf; [done|lia]|rewrite Lh; unfold WRITE_MAX; simpl; lia|].
  pose proof (wr_end _ _ _ W3) as N3. rewrite Lh in N3. cbn [set_pos mb_pos mb_end] in N3.
  exists (set_pos (mb_end mb3) mb3). split.
  - unfold rtcp_vencode, write_header, on_mbuf, mbuf_state, RTCP_HDR_SIZE.
    rewrite (bind_Some _ _ _ _ _ (eq_refl : (let* mb := get in ret (mb_pos mb)) mb = Some (mb_pos mb, mb))).
    rewrite (wrap_small 64 (mb_pos mb + 4)) by lia. unfold modify. unfold bind at 1.
    change (set_posend (mb_pos mb + 4) (mb_pos mb + 4) mb) with (set_pos (mb_pos mb + 4) mb0).
    unfold check. rewrite (bind_Some _ _ _ _ _ E1). cbn [nz Z.eqb negb]. rewrite (bind_Some _ _ _ _ _ E2). cbn [nz Z.eqb negb].
    unfold mbuf_set_pos, modify, mbuf_skip_to_end, get. unfold bind at 1. unfold bind at 1. cbn [set_pos mb_end].
    replace (u16 (u64 (mb_end mb2 - mb_pos mb - 4) / 4)) with (rh_length (rm_hdr msg)).
    2: { pose proof (rho_length _ Hh). rewrite (wrap_small 64), wrap_small by dlia. dlia. }
    change (Mbuf (mb_buf mb2) (mb_size mb2) (mb_pos mb) (mb_end mb2)) with (set_pos (mb_pos mb) mb2).
    rewrite (bind_Some _ _ _ _ _ E3). done.
  - pose proof (written_patch mb0 4 _ _ mb2 mb3 Hwf0 Hwf2 Lh W12 W3) as W. fold (packet_bytes msg) in W.
    split; [|pose proof (wr_size _ _ _ W1); pose proof (wr_size _ _ _ W2); pose proof (wr_size _ _ _ W3); simpl in *; lia].
    change (mb_buf mb) with (mb_buf mb0). change (mb_pos mb) with (mb_pos mb0).
    apply (written_holds mb0 (packet_bytes msg) (set_pos (mb_pos mb0 + 4 + zlength (padded4 bs)) mb3)); [done| |exact W| |simpl; lia].
    + apply set_pos_wf; [done|simpl; lia].
    + unfold packet_bytes. rewrite length_app. fold bs. cbn [set_pos mb_end mb0 set_end mb_pos] in *. lia.
Qed.

End encoders.

(** ** Decoders *)

Section readers.
Context `{Host}.
Hypothesis Hoom : no_oom.

Lemma reads_all {A} (dec : M mbuf (Z * A)) (f : A -> list Z) (P : A -> Prop) v acc :
  (forall x, P x -> Reads dec (f x) (0, x)) -> Forall P v ->
  Reads (decode_all dec (length v) acc) (mjoin (f <$> v)) (0, acc ++ v).
Proof.
  intros Hd Hv. revert acc. induction Hv as [|x v Hx Hv IH]; intros acc; cbn [decode_all length].
  - rewrite app_nil_r. apply reads_ret.
  - eapply reads_bind; [by apply Hd|]. cbn [nz Z.eqb negb].
    replace (acc ++ x :: v) with ((acc ++ [x]) ++ v) by (by rewrite <- app_assoc). apply IH.
Qed.

Lemma rr_word_split fraction lost : is_u8 fraction -> - 2 ^ 23 <= lost < 2 ^ 23 ->
  let w := fraction * 2 ^ 24 + lost mod 2 ^ 24 in
  Z.shiftr w 24 = fraction /\ swrap 24 (Z.land w 0x00ffffff) = lost /\ is_u32 w.
Proof.
  intros Hf Hl w. change 0x00ffffff with (Z.ones 24). rewrite Z.land_ones, Z.shiftr_div_pow2 by lia.
  subst w. unfold swrap. split_and!; dlia.
Qed.

Lemma rr_reads rr : rr_ok rr -> Reads rtcp_rr_decode (rr_bytes rr) (0, rr).
Proof.
  intros [H1 H2 H3 H4 H5 H6 H7]. destruct (rr_word_split _ _ H2 H3) as (Ef & El & Hw). unfold rr_bytes.
  apply reads_need; [rewrite !length_app, !length_be_bytes; done|].
  apply reads_ntohl; [done|]. apply reads_ntohl; [done|]. do 3 (apply reads_ntohl; [done|]).
  apply reads_nil_app, reads_ntohl; [done|]. rewrite Ef, El. destruct rr. apply reads_ret.
Qed.

Lemma rrv_reads rrv : Forall rr_ok rrv -> zlength rrv < 32 ->
  Reads (rtcp_rrv_decode (zlength rrv)) (mjoin (rr_bytes <$> rrv)) (0, rrv).
Proof.
  intros Hr Hl. unfold rtcp_rrv_decode, RTCP_RR_SIZE.
  rewrite alloc_ok_no_oom by (done || unfold MEM_SIZE_MAX; lia). rewrite Nat2Z.id.
  apply (reads_all _ rr_bytes rr_ok _ []); [apply rr_reads|done].
Qed.

(** Padding to a multiple of four after [start]. *)
Lemma slurp_reads start mb rest : mbuf_wf mb -> 0 <= start <= mb_pos mb ->
  unread mb = replicate (Z.to_nat (pad4 (mb_pos mb - start))) 0 ++ rest ->
  slurp_padding 4 start mb = Some (tt, set_pos (mb_pos mb + pad4 (mb_pos mb - start)) mb).
Proof.
  intros Hwf Hs E. pose proof (unread_left _ _ _ Hwf E) as Hl. rewrite length_replicate in Hl.
  assert (0 <= pad4 (mb_pos mb - start) < 4) as Hp by (unfold pad4; dlia).
  rewrite (skip_padding_eq 4 start mb Hwf Hs ltac:(lia) : slurp_padding 4 start mb = _). do 3 f_equal. lia.
Qed.

Lemma items_reads itemv acc fuel : Forall item_ok itemv -> (length itemv < fuel)%nat ->
  zlength acc + zlength itemv < 2 ^ 24 ->
  Reads (sdes_decode_items fuel acc) (mjoin (item_bytes <$> itemv) ++ [RTCP_SDES_END]) (0, acc ++ itemv).
Proof.
  intros Hi. revert acc fuel. induction Hi as [|[type v] itemv (Ht & Hl & Hv) Hi IH]; intros acc fuel Hf Hn;
    (destruct fuel as [|fuel]; [cbn [length] in Hf; lia|]); cbn [sdes_decode_items];
    intros mb rest Hwf E; rewrite (bind_Some _ _ _ _ _ (eq_refl : get mb = _));
    pose proof (unread_left _ _ _ Hwf E) as Hg; rewrite length_app in Hg; cbn [length] in Hg;
    (replace (1 <=? mbuf_get_left mb) with true by lia); revert mb rest Hwf E Hg.
  { intros mb rest Hwf E _. revert mb rest Hwf E. rewrite app_nil_r. apply reads_u8. apply reads_ret. }
  cbn [si_type si_data] in *.
  change (mjoin (item_bytes <$> SdesItem type v :: itemv) ++ [RTCP_SDES_END])
    with (type :: zlength v :: (v ++ mjoin (item_bytes <$> itemv)) ++ [RTCP_SDES_END]).
  intros mb rest Hwf E _. revert mb rest Hwf E. apply reads_u8.
  replace (type =? RTCP_SDES_END) with false by (unfold RTCP_SDES_END; lia).
  apply reads_need; [simpl; lia|]. unfold SDES_ITEM_SIZEOF. cbn [length] in Hn.
  rewrite alloc_ok_no_oom by (done || unfold MEM_SIZE_MAX; lia). cbn [negb].
  apply reads_u8. apply reads_need; [rewrite !length_app; lia|].
  rewrite alloc_ok_no_oom by (done || unfold MEM_SIZE_MAX; lia). cbn [negb].
  rewrite <- app_assoc. apply reads_mem_k; [done|]. cbn [snd].
  replace (acc ++ SdesItem type v :: itemv) with ((acc ++ [SdesItem type v]) ++ itemv) by (by rewrite <- app_assoc).
  apply IH; [simpl in Hf; lia|rewrite length_app; cbn [length]; lia].
Qed.

Lemma length_items itemv : zlength itemv <= zlength (mjoin (item_bytes <$> itemv)).
Proof.
  induction itemv as [|i itemv IH]; [done|].
  change (mjoin (item_bytes <$> i :: itemv)) with (item_bytes i ++ mjoin (item_bytes <$> itemv)).
  rewrite length_app. cbn [length item_bytes]. lia.
Qed.

Lemma sdes_reads s : sdes_ok s -> zlength (sdes_bytes s) < 2 ^ 24 -> Reads rtcp_sdes_decode (sdes_bytes s) (0, s).
Proof.
  intros [Hs Hi] Hlen. destruct s as [src itemv]. cbn [sd_src sd_itemv] in *. unfold sdes_bytes in *.
  cbn [sd_src sd_itemv] in *. set (ib := mjoin (item_bytes <$> itemv)) in *.
  pose proof (length_items itemv) as Hn. fold ib in Hn. rewrite length_padded4 in Hlen.
  apply reads_need; [unfold padded4, RTCP_SRC_SIZE; rewrite !length_app, length_be_bytes; lia|].
  intros mb rest Hwf E. rewrite (bind_Some _ _ _ _ _ (eq_refl : get mb = _)). cbv zeta.
  unfold padded4 in *. set (pd := replicate _ 0) in *. rewrite <- !app_assoc in E.
  assert (Reads mbuf_read_ntohl (be_bytes 4 src) src) as R1 by (by apply (reads_net_int 4)).
  rewrite (bind_Some _ _ _ _ _ (R1 mb _ Hwf E)).
  pose proof (unread_wf _ _ _ Hwf E) as Hwf1. pose proof (unread_advance _ _ _ Hwf E) as E1.
  rewrite (bind_Some _ _ _ _ _ (eq_refl : get (set_pos (mb_pos mb + zlength (be_bytes 4 src)) mb) = _)).
  set (mb1 := set_pos _ mb) in *. pose proof (unread_left _ _ _ Hwf1 E1) as Hl1. fold ib in Hl1.
  rewrite app_assoc in E1. pose proof (unread_left _ _ _ Hwf1 E1) as Hl1'. rewrite length_app in Hl1'. cbn [length] in Hl1'.
  rewrite !length_app, length_be_bytes in Hlen. cbn [length] in Hlen.
  assert (0 <= pad4 (Z.of_nat (4 + (length ib + 1)))) by (unfold pad4; dlia).
  rewrite (bind_Some _ _ _ _ _ (items_reads itemv [] (Z.to_nat (mbuf_get_left mb1)) Hi
    ltac:(lia) ltac:(cbn [length]; lia) mb1 _ Hwf1 E1)). fold ib. cbn [nz Z.eqb negb app].
  pose proof (unread_wf _ _ _ Hwf1 E1) as Hwf2. pose proof (unread_advance _ _ _ Hwf1 E1) as E2. fold ib in E2, Hwf2.
  set (mb2 := set_pos _ mb1) in *. pose proof (wf_pos _ Hwf).
  assert (mb_pos mb2 - mb_pos mb = zlength (be_bytes 4 src ++ ib ++ [RTCP_SDES_END])) as Ep.
  { subst mb2 mb1. cbn [set_pos mb_pos]. rewrite !length_app. lia. }
  rewrite (bind_Some _ _ _ _ _ (slurp_reads (mb_pos mb) mb2 rest Hwf2 ltac:(lia) ltac:(by rewrite Ep))).
  unfold ret. do 2 f_equal. rewrite Ep. subst mb2 mb1. unfold set_pos. cbn [mb_pos mb_buf mb_size mb_end]. f_equal.
  unfold pd, pad4. rewrite !length_app, length_replicate, length_be_bytes. cbn [length]. dlia.
Qed.

Lemma reads_let {A B} (m : M mbuf (Z * A)) (f : A -> B) bs a : Reads m bs (0, a) ->
  Reads (let* '(e, a) := m in ret (e, f a)) bs (0, f a).
Proof. intros Hm. apply reads_nil_app. eapply reads_bind; [exact Hm|apply reads_ret]. Qed.

Lemma fci_vector_reads {A} sizeof size (dec : M mbuf (Z * A)) f (enc : A -> list Z) (P : A -> Prop) v :
  (forall x, P x -> Reads dec (enc x) (0, x)) -> (forall x, zlength (enc x) = size) -> Forall P v ->
  0 <= sizeof <= 8 -> 0 <= zlength v < 2 ^ 16 ->
  Reads (fci_vector (zlength v) sizeof size dec f) (mjoin (enc <$> v)) (0, f v).
Proof.
  intros Hd Hl Hv Hs Hn. unfold fci_vector.
  rewrite alloc_ok_no_oom by (done || unfold MEM_SIZE_MAX; nia). cbn [negb].
  apply reads_need; [rewrite (length_mjoin_const enc v size Hl); lia|].
  apply reads_let. rewrite Nat2Z.id. by apply (reads_all dec enc P v []).
Qed.

Lemma gnack_reads x : is_u16 x.1 /\ is_u16 x.2 -> Reads gnack_decode (be_bytes 2 x.1 ++ be_bytes 2 x.2) (0, x).
Proof.
  intros [H1 H2]. apply reads_ntohs; [done|]. apply reads_nil_app, reads_ntohs; [done|].
  destruct x. apply reads_ret.
Qed.

Lemma sli_word first number picid : 0 <= first < 2 ^ 13 -> 0 <= number < 2 ^ 13 -> 0 <= picid < 2 ^ 6 ->
  let v := first * 2 ^ 19 + number * 2 ^ 6 + picid in
  Z.land (Z.shiftr v 19) 0x1fff = first /\ Z.land (Z.shiftr v 6) 0x1fff = number /\ Z.land v 0x003f = picid /\ is_u32 v.
Proof.
  intros Hf Hn Hp v. change 0x1fff with (Z.ones 13). change 0x003f with (Z.ones 6).
  rewrite !Z.land_ones, !Z.shiftr_div_pow2 by lia. subst v. split_and!; dlia.
Qed.

Lemma sli_reads x : 0 <= x.1.1 < 2 ^ 13 /\ 0 <= x.1.2 < 2 ^ 13 /\ 0 <= x.2 < 2 ^ 6 ->
  Reads sli_decode (be_bytes 4 (x.1.1 * 2 ^ 19 + x.1.2 * 2 ^ 6 + x.2)) (0, x).
Proof.
  destruct x as [[f n] p]. cbn [fst snd]. intros (Hf & Hn & Hp). destruct (sli_word f n p Hf Hn Hp) as (E1 & E2 & E3 & Hv).
  apply reads_nil_app, reads_ntohl; [done|]. rewrite E1, E2, E3. apply reads_ret.
Qed.

Lemma fir_reads x : is_u32 x.1 /\ is_u8 x.2 -> Reads fir_decode (be_bytes 4 x.1 ++ [x.2; 0; 0; 0]) (0, x).
Proof.
  intros [H1 H2]. apply reads_ntohl; [done|]. apply reads_u8. apply (reads_bind _ _ [0; 0; 0] [] tt).
  - by apply reads_advance.
  - destruct x. apply reads_ret.
Qed.

Lemma fci_reads hdr n f : rtcp_hdr_ok hdr -> 2 <= rh_length hdr ->
  n = (if (rh_pt hdr =? RTCP_PSFB) && (rh_count hdr =? RTCP_PSFB_FIR) then (rh_length hdr - 2) / 2
       else rh_length hdr - 2) ->
  fci_ok 0 (rh_pt hdr) (rh_count hdr) n f -> match f with Twccv _ | Afb _ => False | _ => True end ->
  Reads (if rh_pt hdr =? RTCP_RTPFB then rtcp_rtpfb_decode (rh_count hdr) (rh_length hdr - 2)
         else rtcp_psfb_decode (rh_count hdr) (rh_length hdr - 2)) (fci_bytes f) (0, (n, f)).
Proof.
  intros [_ _ _ _ Hlen] Hl En Hf Hx. destruct f as [v|v|v|t|a|]; try done; cbn [fci_ok fci_bytes] in *.
  - destruct Hf as (Ep & Ec & Hv & Hf). rewrite Ep, Ec in *. cbn in En. rewrite <- En.
    apply (reads_let _ (fun f => (n, f))). rewrite <- Hv.
    by apply (fci_vector_reads _ _ _ _ _ (fun x => is_u16 x.1 /\ is_u16 x.2)); [apply gnack_reads|done|done|done|lia].
  - destruct Hf as (Ep & Ec & Hv & Hf). rewrite Ep, Ec in *. cbn in En. rewrite <- En.
    apply (reads_let _ (fun f => (n, f))). rewrite <- Hv.
    by apply (fci_vector_reads _ _ _ _ _ _ v sli_reads); [|done|done|lia].
  - destruct Hf as (Ep & Ec & Hv & Hf). rewrite Ep, Ec in *. cbn in En. unfold rtcp_psfb_decode. cbn. rewrite <- En.
    apply (reads_let _ (fun f => (n, f))). rewrite <- Hv.
    apply (fci_vector_reads _ _ _ _ _ _ v fir_reads); [done|done|done|]. split; [lia|]. dlia.
  - destruct Hf as [(Ep & N1 & N2)|(Ep & N1 & N2 & N3)]; rewrite Ep in *; cbn in En |- *.
    + subst n. unfold rtcp_rtpfb_decode. rewrite !(proj2 (Z.eqb_neq _ _)) by done. apply (reads_let _ (fun f => (_, f))), reads_ret.
    + rewrite (proj2 (Z.eqb_neq _ _)) in En by done. subst n. unfold rtcp_psfb_decode. rewrite !(proj2 (Z.eqb_neq _ RTCP_PSFB_SLI)), (proj2 (Z.eqb_neq _ RTCP_PSFB_AFB)), !(proj2 (Z.eqb_neq _ RTCP_PSFB_FIR)) by done.
      apply (reads_let _ (fun f => (_, f))). case_match; apply reads_ret.
Qed.

Lemma length_in_mjoin {A} (f : A -> list Z) v x : In x v -> zlength (f x) <= zlength (mjoin (f <$> v)).
Proof.
  induction v as [|y v IH]; intros Hx; [done|].
  change (mjoin (f <$> y :: v)) with (f y ++ mjoin (f <$> v)). rewrite length_app.
  destruct Hx as [->|Hx]; [lia|]. specialize (IH Hx). lia.
Qed.

Lemma bye_reads srcv reason rem : Forall (fun v => is_u32 v) srcv -> zlength srcv < 32 ->
  match reason with Some s => zlength s < 2 ^ 8 /\ bytes_ok s | None => True end ->
  rem = zlength (padded4 (body_bytes (Bye srcv reason))) ->
  Reads (let* '(_, v) := decode_all src_decode (Z.to_nat (zlength srcv)) [] in
         let* '(err, reason) := bye_reason rem (zlength srcv) in
         ret (err, Bye v reason)) (body_bytes (Bye srcv reason)) (0, Bye srcv reason).
Proof.
  intros Hv Hl Hr Hrem. rewrite length_padded4 in Hrem. cbn [body_bytes] in *. rewrite length_app in Hrem.
  assert (zlength (mjoin (be_bytes 4 <$> srcv)) = 4 * zlength srcv) as Ls
    by (apply length_mjoin_const; intros x; by rewrite length_be_bytes).
  rewrite Nat2Z.id. eapply reads_bind; [apply (reads_all _ (be_bytes 4) (fun v => is_u32 v) _ []); [|done]|].
  { intros x Hx. apply reads_nil_app, reads_ntohl; [done|apply reads_ret]. }
  cbn [app]. apply reads_let. unfold bye_reason, pad4 in *. destruct reason as [s|]; cbn [reason_bytes] in *.
  - replace (rem >? zlength srcv * 4) with true by (cbn [length] in Hrem; dlia). destruct Hr as [Hs Hok].
    apply reads_u8. apply reads_need; [done|]. apply reads_let. unfold mbuf_strdup.
    rewrite alloc_ok_no_oom by (done || rewrite wrap_small by lia; unfold MEM_SIZE_MAX; lia). by apply reads_mem.
  - replace (rem >? zlength srcv * 4) with false by (cbn [length] in Hrem; dlia). apply reads_ret.
Qed.

Lemma app_data_reads data : zlength data < 2 ^ 18 -> Reads (app_data (8 + zlength data)) data (0, data).
Proof.
  intros Hd. unfold app_data, RTCP_APP_SIZE. destruct (decide (data = [])) as [->|Hne]; [apply reads_ret|].
  assert (0 < zlength data) by (destruct data; [done|simpl; lia]).
  replace (8 + zlength data >? 8) with true by lia. replace (8 + zlength data - 8) with (zlength data) by lia.
  rewrite alloc_ok_no_oom by (done || unfold MEM_SIZE_MAX; lia). cbn [negb]. apply reads_need; [done|].
  apply reads_nil_app, reads_mem_k; [done|apply reads_ret].
Qed.

Lemma body_reads msg : wire_ok msg -> Reads (decode_body (rm_hdr msg)) (body_bytes (rm_r msg)) (0, rm_r msg).
Proof.
  intros [[Hh Hr] _ Hlen Hb]. pose proof Hh as [_ _ Hc _ Hl16]. destruct msg as [hdr r]. cbn [rm_hdr rm_r] in *.
  unfold decode_body. destruct r as [| |sdesv|srcv reason|src name data| | |sp sm n f|]; cbn [r_ok] in Hr; try done.
  - destruct Hr as (Ep & Hv & Hn & Hf). rewrite Ep. cbn [Z.eqb Pos.eqb RTCP_SR]. cbn [body_bytes]. rewrite <- Hn in *.
    repeat match goal with H : Forall _ (_ :: _) |- _ => inversion_clear H end.
    apply reads_need; [rewrite length_app, Nat2Z.inj_add, (length_mjoin_const (be_bytes 4) _ 4)
      by (intros; by rewrite length_be_bytes); unfold RTCP_SRC_SIZE, RTCP_SR_SIZE; cbn [length]; lia|].
    cbn [fmap list_fmap mjoin list_join].
    rewrite <- !app_assoc. do 6 (apply reads_ntohl; [done|]). rewrite app_nil_l. apply reads_let, rrv_reads; [done|lia].
  - destruct Hr as (Ep & Hv & Hn & Hf). rewrite Ep. cbn [Z.eqb Pos.eqb RTCP_SR RTCP_RR body_bytes]. rewrite <- Hn in *.
    apply reads_need; [rewrite length_app, length_be_bytes; unfold RTCP_SRC_SIZE; lia|].
    apply reads_ntohl; [done|]. apply reads_let, rrv_reads; [done|lia].
  - destruct Hr as (Ep & Hn & Hf). rewrite Ep. cbn [Z.eqb Pos.eqb RTCP_SR RTCP_RR RTCP_SDES body_bytes] in *. rewrite <- Hn in *.
    destruct (Z.eqb_spec (zlength sdesv) 0) as [E0|]; [destruct sdesv; [apply reads_ret|simpl in E0; lia]|].
    rewrite alloc_ok_no_oom by (done || unfold MEM_SIZE_MAX, SDES_SIZEOF; lia). cbn [negb].
    apply reads_let. rewrite Nat2Z.id. rewrite length_padded4 in Hlen.
    apply (reads_all _ sdes_bytes (fun s => sdes_ok s /\ zlength (sdes_bytes s) < 2 ^ 24) _ []).
    + intros s [Hs1 Hs2]. by apply sdes_reads.
    + apply Forall_forall. intros s Hs. split; [by eapply Forall_forall in Hf|].
      pose proof (length_in_mjoin sdes_bytes sdesv s Hs). unfold pad4 in Hlen. dlia.
  - destruct Hr as (Ep & Hn & Hf & Hrs). rewrite Ep. cbn [Z.eqb Pos.eqb RTCP_SR RTCP_RR RTCP_SDES RTCP_BYE]. rewrite <- Hn in *.
    rewrite alloc_ok_no_oom by (done || unfold MEM_SIZE_MAX; lia). cbn [negb].
    apply reads_need; [|apply bye_reads; [done|lia|done|done]]. cbn [body_bytes].
    rewrite length_app. pose proof (length_mjoin_const (be_bytes 4) srcv 4 ltac:(intros; by rewrite length_be_bytes)). lia.
  - destruct Hr as (Ep & Hs & Hn & Hnb & Hd & Hdb). rewrite Ep. cbn [Z.eqb Pos.eqb RTCP_SR RTCP_RR RTCP_SDES RTCP_BYE RTCP_APP body_bytes] in *.
    rewrite length_padded4 in Hlen. unfold pad4 in Hlen. rewrite !length_app, length_be_bytes in Hlen.
    replace (rh_length hdr * 4) with (8 + zlength data) by dlia.
    apply reads_need; [rewrite !length_app, length_be_bytes; unfold RTCP_APP_SIZE; lia|].
    apply reads_ntohl; [done|]. apply reads_mem_k; [done|]. apply reads_let, app_data_reads. dlia.
  - destruct Hr as (Ep & Hs). rewrite Ep. cbn [body_bytes]. change (Reads (need RTCP_FIR_SIZE (ret (EBADMSG, ROther))
      (let* ssrc := mbuf_read_ntohl in ret (0, Fir ssrc))) (be_bytes 4 ssrc) (0, Fir ssrc)).
    apply reads_need; [by rewrite length_be_bytes|]. by apply reads_nil_app, reads_ntohl, reads_ret.
  - destruct Hr as (Ep & Hs & Hfs & Hbl). rewrite Ep. cbn [body_bytes]. change (Reads (need RTCP_NACK_SIZE (ret (EBADMSG, ROther))
      (let* ssrc := mbuf_read_ntohl in let* fsn := mbuf_read_ntohs in let* blp := mbuf_read_ntohs in
       ret (0, Nack ssrc fsn blp))) (be_bytes 4 ssrc ++ be_bytes 2 fsn ++ be_bytes 2 blp) (0, Nack ssrc fsn blp)).
    apply reads_need; [by rewrite !length_app, !length_be_bytes|]. apply reads_ntohl; [done|]. apply reads_ntohs; [done|].
    by apply reads_nil_app, reads_ntohs, reads_ret.
  - destruct Hr as (Hsp & Hsm & En & Hl2 & Hf). assert (rh_pt hdr = RTCP_RTPFB \/ rh_pt hdr = RTCP_PSFB) as Hpt.
    { destruct f; cbn [fci_ok] in Hf; tauto. }
    pose proof (fci_reads hdr n f Hh Hl2 En Hf ltac:(by destruct f)) as Rf. cbn [body_bytes].
    assert (forall dec, Reads (dec (rh_length hdr - 2)) (fci_bytes f) (0, (n, f)) ->
      Reads (fb_decode (rh_length hdr) dec) (be_bytes 4 sp ++ be_bytes 4 sm ++ fci_bytes f) (0, Fb sp sm n f)) as Hfb.
    { intros dec Hd. apply reads_need; [rewrite !length_app, !length_be_bytes; unfold RTCP_FB_SIZE; lia|].
      replace (rh_length hdr <? 2) with false by lia. apply reads_ntohl; [done|]. apply reads_ntohl; [done|].
      apply reads_nil_app. eapply reads_bind; [exact Hd|apply reads_ret]. }
    destruct Hpt as [Ep|Ep]; rewrite Ep in *; by apply Hfb.
Qed.

Lemma hdr_reads hdr : rtcp_hdr_ok hdr -> rh_p hdr = 0 -> Reads rtcp_hdr_decode (rtcp_hdr_bytes hdr) (0, hdr).
Proof.
  intros [Hv _ Hc Hp Hl] Hz. apply reads_need; [done|]. apply reads_u8. apply reads_u8.
  apply reads_nil_app, reads_ntohs; [done|]. rewrite land_3, land_1, land_31, !Z.shiftr_div_pow2 by lia.
  replace ((2 ^ 7 + rh_count hdr) / 2 ^ 6 mod 4) with RTCP_VERSION by (unfold RTCP_VERSION; dlia).
  replace ((2 ^ 7 + rh_count hdr) / 2 ^ 5 mod 2) with 0 by dlia.
  replace ((2 ^ 7 + rh_count hdr) mod 32) with (rh_count hdr) by dlia.
  rewrite <- Hv, <- Hz. destruct hdr. apply reads_ret.
Qed.

Lemma rtcp_decode_reads msg : wire_ok msg -> Reads rtcp_decode (packet_bytes msg) (0, Some msg).
Proof.
  intros Hs. pose proof Hs as [[Hh Hr] Hz Hlen _]. unfold packet_bytes. pose proof (body_reads msg Hs) as Rb.
  set (hb := rtcp_hdr_bytes (rm_hdr msg)). set (bs := body_bytes (rm_r msg)) in *.
  assert (zlength hb = 4) as Lh by done.
  apply reads_need; [rewrite length_app; unfold RTCP_HDR_SIZE; lia|].
  rewrite alloc_ok_no_oom by (done || unfold MEM_SIZE_MAX, RTCP_MSG_SIZEOF; lia). cbn [negb].
  intros mb rest Hwf E. rewrite (bind_Some _ _ _ _ _ (eq_refl : get mb = _)). cbv zeta. rewrite <- app_assoc in E.
  rewrite (bind_Some _ _ _ _ _ (hdr_reads _ Hh Hz mb _ Hwf E)). cbn [nz Z.eqb negb].
  rewrite (rho_version _ Hh), Z.eqb_refl. cbn [negb].
  pose proof (unread_wf _ _ _ Hwf E) as Hwf1. pose proof (unread_advance _ _ _ Hwf E) as E1.
  fold hb in Hwf1, E1 |- *. rewrite Lh in *. set (mb1 := set_pos (mb_pos mb + 4) mb) in *.
  pose proof (unread_left _ _ _ Hwf1 E1) as Hl1. rewrite <- Hlen in Hl1.
  unfold need. rewrite (bind_Some _ _ _ _ _ (eq_refl : get mb1 = _)). replace (mbuf_get_left mb1 <? _) with false by lia.
  unfold padded4 in E1. rewrite <- app_assoc in E1. rewrite (bind_Some _ _ _ _ _ (Rb mb1 _ Hwf1 E1)).
  pose proof (unread_wf _ _ _ Hwf1 E1) as Hwf2. pose proof (unread_advance _ _ _ Hwf1 E1) as E2.
  cbn [nz Z.eqb negb]. set (mb2 := set_pos _ mb1) in *. pose proof (wf_pos _ Hwf).
  assert (mb_pos mb2 - mb_pos mb = 4 + zlength bs) as Ep by (subst mb2 mb1; cbn [set_pos mb_pos]; lia).
  assert (pad4 (4 + zlength bs) = pad4 (zlength bs)) as E4 by (unfold pad4; dlia).
  rewrite (bind_Some _ _ _ _ _ (slurp_reads (mb_pos mb) mb2 rest Hwf2 ltac:(lia) ltac:(by rewrite Ep, E4))).
  unfold ret. do 2 f_equal; [by destruct msg|]. rewrite Ep, E4. subst mb2 mb1. unfold set_pos.
  cbn [mb_pos mb_buf mb_size mb_end]. f_equal. rewrite length_app. pose proof (length_padded4 bs). lia.
Qed.

End readers.
