(* ===== verification/RtcpSess.v ===== *)
(** * RTCP sessions (src/rtp/sess.c, src/rtp/member.c, src/rtp/ntp.c)

    A session keeps the members of an RTP conference in a hash table keyed by
    their source identifier.  The table owns the members, so that a member is
    a value in its bucket: a store through a pointer to a member replaces that
    value in place, and releasing the member takes it out of the bucket.

    The clocks are read from outside: [clock] holds what [tmr_jiffies] and
    [ntp_time_get] return during a call.  The timer is the delay it was
    started with, if it is running.  The lock of the session is taken and
    released around code that is one step here. *)

From S2P Require Export Rtcp Hash RtpSource Rtp Stun.

(** ** NTP time (ntp.c) *)

Record rtp_ntp_time := Ntp { ntp_hi : Z; ntp_lo : Z }.

Definition ntp_compact (ntp : rtp_ntp_time) : Z :=
  Z.lor (u32 (Z.shiftl (Z.land (ntp_hi ntp) 0xffff) 16)) (Z.shiftr (ntp_lo ntp) 16).

Definition ntp_compact2us (ntpc : Z) : Z :=
  let hi := Z.land (Z.shiftr ntpc 16) 0xffff in
  let lo := u32 (Z.shiftl (Z.land ntpc 0xffff) 16) in
  u64 (u64 (1000000 * hi) + Z.shiftr (u64 (1000000 * lo)) 32).

Record clock := Clock {
  tmr_jiffies : Z;            (* uint64_t, [ms] *)
  ntp_time_get : rtp_ntp_time;
  ntp_jfs_rt : Z;             (* uint64_t, [us] *)
}.

(** ** Members (member.c, and the structures of rtcp.h and re_rtp.h) *)

(** [struct rtp_source]: the sequence number state of source.c, and the rest. *)
Record member_source := MSource {
  ms_seq : rtp_source;
  ms_rtp_peer : sa;
  ms_rtp_rx_bytes : Z;        (* uint64_t *)
  ms_sr_recv : Z;             (* uint64_t *)
  ms_last_sr : rtp_ntp_time;
  ms_rtp_ts : Z;
  ms_last_rtp_ts : Z;
  ms_psent : Z;
  ms_osent : Z;
}.

Record rtp_member := Member {
  mbr_s : option member_source;
  mbr_src : Z;
  mbr_cum_lost : Z;
  mbr_jit : Z;
  mbr_rtt : Z;
}.

Abbreviation members := (option (hash rtp_member)).

Definition source_zero : member_source :=
  MSource (RtpSource 0 0 0 0 0 0 0 0 0 0) SaUnspec 0 0 (Ntp 0 0) 0 0 0 0.
Definition with_seq (s : member_source) (q : rtp_source) : member_source :=
  MSource q (ms_rtp_peer s) (ms_rtp_rx_bytes s) (ms_sr_recv s) (ms_last_sr s) (ms_rtp_ts s)
    (ms_last_rtp_ts s) (ms_psent s) (ms_osent s).
Definition with_peer (s : member_source) (peer : sa) : member_source :=
  MSource (ms_seq s) peer (ms_rtp_rx_bytes s) (ms_sr_recv s) (ms_last_sr s) (ms_rtp_ts s)
    (ms_last_rtp_ts s) (ms_psent s) (ms_osent s).
Definition with_s (m : rtp_member) (s : option member_source) : rtp_member :=
  Member s (mbr_src m) (mbr_cum_lost m) (mbr_jit m) (mbr_rtt m).

(** The first element the handler accepts, replaced or taken out. *)
Fixpoint update_first {A} (ah : A -> bool) (f : A -> A) (l : list A) : list A :=
  match l with
  | [] => []
  | x :: l => if ah x then f x :: l else x :: update_first ah f l
  end.
Fixpoint remove_first {A} (ah : A -> bool) (l : list A) : list A :=
  match l with
  | [] => []
  | x :: l => if ah x then l else x :: remove_first ah l
  end.

(** The bucket of a key, rewritten. *)
Definition on_bucket {A} (key : Z) (f : list A -> list A) : M (option (hash A)) unit := fun t =>
  match t with
  | None => Some (tt, None)
  | Some h =>
      match h_bucket h !! hash_index h key with
      | Some b => Some (tt, Some (Hash (<[hash_index h key := f b]> (h_bucket h)) (h_bsize h)))
      | None => None
      end
  end.

Definition hash_cmp_handler (src : Z) (mbr : rtp_member) : bool := mbr_src mbr =? src.

Definition member_find (t : members) (src : Z) : option (option rtp_member) :=
  hash_lookup t src (hash_cmp_handler src).
(** A store through the pointer [member_find] returned. *)
Definition member_set (src : Z) (mbr : rtp_member) : M members unit :=
  on_bucket src (update_first (hash_cmp_handler src) (fun _ => mbr)).
(** [mem_deref] of the pointer [member_find] returned: the destructor unlinks. *)
Definition member_destroy (src : Z) : M members unit :=
  on_bucket src (remove_first (hash_cmp_handler src)).

Definition member_zero (src : Z) : rtp_member := Member None src 0 0 0.

Section sess.
Context `{Host}.

Definition MEMBER_SIZEOF : Z := 56.
Definition SOURCE_SIZEOF : Z := 200.
Definition SESS_SIZEOF : Z := 168.

Definition member_add (src : Z) : M members (option rtp_member) :=
  if alloc_ok MEMBER_SIZEOF then
    hash_append src false (member_zero src) ;; ret (Some (member_zero src))
  else ret None.

(** ** Sessions *)

Definition RTCP_INTERVAL : Z := 5000.
Definition MAX_MEMBERS : Z := 8.
Definition RTCP_HEADROOM : Z := 4.

Record txstat := TxStat {
  tx_psent : Z;               (* uint32_t *)
  tx_osent : Z;
  tx_jfs_rt_ref : Z;          (* uint64_t *)
  tx_ts_ref : Z;
  tx_ts_synced : bool;
}.

Record rtcp_sess := Sess {
  se_members : members;
  se_tmr : option Z;
  se_cname : option (list Z);
  se_memberc : Z;             (* uint32_t *)
  se_senderc : Z;
  se_srate_tx : Z;
  se_srate_rx : Z;
  se_interval : Z;
  se_txstat : txstat;
}.

Definition set_members (t : members) (s : rtcp_sess) : rtcp_sess :=
  Sess t (se_tmr s) (se_cname s) (se_memberc s) (se_senderc s) (se_srate_tx s) (se_srate_rx s) (se_interval s) (se_txstat s).
Definition set_tmr (tmr : option Z) (s : rtcp_sess) : rtcp_sess :=
  Sess (se_members s) tmr (se_cname s) (se_memberc s) (se_senderc s) (se_srate_tx s) (se_srate_rx s) (se_interval s) (se_txstat s).
Definition set_cname (cname : option (list Z)) (s : rtcp_sess) : rtcp_sess :=
  Sess (se_members s) (se_tmr s) cname (se_memberc s) (se_senderc s) (se_srate_tx s) (se_srate_rx s) (se_interval s) (se_txstat s).
Definition set_memberc (n : Z) (s : rtcp_sess) : rtcp_sess :=
  Sess (se_members s) (se_tmr s) (se_cname s) n (se_senderc s) (se_srate_tx s) (se_srate_rx s) (se_interval s) (se_txstat s).
Definition set_senderc (n : Z) (s : rtcp_sess) : rtcp_sess :=
  Sess (se_members s) (se_tmr s) (se_cname s) (se_memberc s) n (se_srate_tx s) (se_srate_rx s) (se_interval s) (se_txstat s).
Definition set_txstat (tx : txstat) (s : rtcp_sess) : rtcp_sess :=
  Sess (se_members s) (se_tmr s) (se_cname s) (se_memberc s) (se_senderc s) (se_srate_tx s) (se_srate_rx s) (se_interval s) tx.

(** An operation on the member table of the session. *)
Definition on_members {A} (m : M members A) : M rtcp_sess A := fun s =>
  match m (se_members s) with Some (a, t) => Some (a, set_members t s) | None => None end.

Definition get_member (src : Z) : M rtcp_sess (option rtp_member) :=
  let* s := get in
  let* mbr := lift (member_find (se_members s) src) in
  match mbr with
  | Some mbr => ret (Some mbr)
  | None =>
      if MAX_MEMBERS <=? se_memberc s then ret None
      else
        let* mbr := on_members (member_add src) in
        match mbr with
        | None => ret None
        | Some mbr => modify (set_memberc (u32 (se_memberc s + 1))) ;; ret (Some mbr)
        end
  end.

(** The difference is converted to [int] before it is compared with 0. *)
Definition rtcp_calc_rtt (now : clock) (lsr dlsr : Z) : Z :=
  let a_us := ntp_compact2us (ntp_compact (ntp_time_get now)) in
  let lsr_us := ntp_compact2us lsr in
  let dlsr_us := u64 (1000000 * dlsr) / 65536 in
  Z.max (s32 (u64 (a_us - lsr_us - dlsr_us))) 0.

Definition handle_rr_block (now : clock) (srate_tx : Z) (mbr : rtp_member) (rr : rtcp_rr) : rtp_member :=
  let jit := if nz srate_tx then u32 (1000000 * rr_jitter rr) / srate_tx else mbr_jit mbr in
  let rtt := if nz (rr_lsr rr) && nz (rr_dlsr rr) then rtcp_calc_rtt now (rr_lsr rr) (rr_dlsr rr)
             else mbr_rtt mbr in
  Member (mbr_s mbr) (mbr_src mbr) (rr_lost rr) jit rtt.

Definition handle_incoming_rr (now : clock) (ssrc : Z) (rrv : list rtcp_rr) : M rtcp_sess unit :=
  let* mbr := get_member ssrc in
  match mbr with
  | None => ret tt
  | Some mbr =>
      let* s := get in
      on_members (member_set ssrc (foldl (handle_rr_block now (se_srate_tx s)) mbr rrv))
  end.

(** What a sender report says of the sender itself, kept when it is a source. *)
Definition sr_stamp (now : clock) (ntp_sec ntp_frac rtp_ts psent osent : Z) (mbr : rtp_member) : rtp_member :=
  match mbr_s mbr with
  | Some s =>
      with_s mbr (Some (MSource (ms_seq s) (ms_rtp_peer s) (ms_rtp_rx_bytes s) (tmr_jiffies now)
        (Ntp ntp_sec ntp_frac) rtp_ts (ms_last_rtp_ts s) psent osent))
  | None => mbr
  end.

Definition handle_incoming_sr (now : clock) (ssrc ntp_sec ntp_frac rtp_ts psent osent : Z)
    (rrv : list rtcp_rr) : M rtcp_sess unit :=
  let* mbr := get_member ssrc in
  match mbr with
  | None => ret tt
  | Some mbr =>
      let* s := get in
      let mbr := sr_stamp now ntp_sec ntp_frac rtp_ts psent osent mbr in
      on_members (member_set ssrc (foldl (handle_rr_block now (se_srate_tx s)) mbr rrv))
  end.

Fixpoint handle_incoming_bye (srcv : list Z) : M rtcp_sess unit :=
  match srcv with
  | [] => ret tt
  | src :: srcv =>
      let* s := get in
      let* mbr := lift (member_find (se_members s) src) in
      match mbr with
      | Some mbr =>
          (if bool_decide (is_Some (mbr_s mbr)) then modify (set_senderc (u32 (se_senderc s - 1))) else ret tt) ;;
          modify (set_memberc (u32 (se_memberc s - 1))) ;;
          on_members (member_destroy src)
      | None => ret tt
      end ;; handle_incoming_bye srcv
  end.

(** The loops run [hdr.count] times, over vectors of that length; a message
    whose type and contents do not agree is read as something else. *)
Definition rtcp_handler (now : clock) (msg : rtcp_msg) : M rtcp_sess unit :=
  let hdr := rm_hdr msg in
  if rh_pt hdr =? RTCP_SR then
    match rm_r msg with
    | Sr ssrc ntp_sec ntp_frac rtp_ts psent osent rrv =>
        if zlength rrv =? rh_count hdr then handle_incoming_sr now ssrc ntp_sec ntp_frac rtp_ts psent osent rrv else ub
    | _ => ub
    end
  else if rh_pt hdr =? RTCP_RR then
    match rm_r msg with
    | RrMsg ssrc rrv => if zlength rrv =? rh_count hdr then handle_incoming_rr now ssrc rrv else ub
    | _ => ub
    end
  else if rh_pt hdr =? RTCP_BYE then
    match rm_r msg with
    | Bye srcv _ => if zlength srcv =? rh_count hdr then handle_incoming_bye srcv else ub
    | _ => ub
    end
  else ret tt.

Definition txstat_zero : txstat := TxStat 0 0 0 0 false.

(** [mutex_err] is the result of [mutex_alloc]. *)
Definition rtcp_sess_alloc (mutex_err : Z) : Z * option rtcp_sess :=
  if negb (alloc_ok SESS_SIZEOF) then (ENOMEM, None)
  else if nz mutex_err then (mutex_err, None)
  else
    match hash_alloc MAX_MEMBERS with
    | (err, t) =>
        if nz err then (err, None)
        else (0, Some (Sess t None None 0 0 0 0 RTCP_INTERVAL txstat_zero))
    end.

Definition rtcp_set_interval (n : Z) (s : rtcp_sess) : rtcp_sess :=
  Sess (se_members s) (se_tmr s) (se_cname s) (se_memberc s) (se_senderc s) (se_srate_tx s) (se_srate_rx s) n (se_txstat s).
Definition rtcp_set_srate (srate_tx srate_rx : Z) (s : rtcp_sess) : rtcp_sess :=
  Sess (se_members s) (se_tmr s) (se_cname s) (se_memberc s) (se_senderc s) srate_tx srate_rx (se_interval s) (se_txstat s).
Definition rtcp_set_srate_tx (srate_tx : Z) (s : rtcp_sess) : rtcp_sess := rtcp_set_srate srate_tx (se_srate_rx s) s.
Definition rtcp_set_srate_rx (srate_rx : Z) (s : rtcp_sess) : rtcp_sess := rtcp_set_srate (se_srate_tx s) srate_rx s.

(** [schedule] and [tmr_cancel] on the session's timer. *)
Definition schedule : M rtcp_sess unit := modify (fun s => set_tmr (Some (se_interval s)) s).

(** [str_dup] of fmt/str.c: the error and the copy. *)
Definition str_dup (src : option (list Z)) : Z * option (list Z) :=
  match src with
  | None => (EINVAL, None)
  | Some src => if alloc_ok (u64 (zlength src + 1)) then (0, Some src) else (ENOMEM, None)
  end.

Definition rtcp_enable (enabled : bool) (cname : option (list Z)) : M rtcp_sess Z :=
  let '(err, dup) := str_dup cname in
  modify (set_cname dup) ;;
  if nz err then ret err
  else (if enabled then schedule else modify (set_tmr None)) ;; ret 0.

(** ** Reports *)

Definition calc_lsr (last_sr : rtp_ntp_time) : Z := if nz (ntp_hi last_sr) then ntp_compact last_sr else 0.
Definition calc_dlsr (now : clock) (sr_recv : Z) : Z :=
  if nz sr_recv then u32 (u64 (65536 * u64 (tmr_jiffies now - sr_recv)) / 1000) else 0.

(** The block of a source, [fraction] being what was lost since the last report. *)
Definition report_block (now : clock) (src : Z) (s : member_source) (fraction : Z) : rtcp_rr :=
  Rr src fraction (rtp_source_calc_lost (ms_seq s)) (Z.lor (cycles (ms_seq s)) (max_seq (ms_seq s)))
    (Z.shiftr (jitter (ms_seq s)) 4) (calc_lsr (ms_last_sr s)) (calc_dlsr now (ms_sr_recv s)).

Definition sender_apply_handler (now : clock) (mbr : rtp_member) : M mbuf (bool * rtp_member) :=
  match mbr_s mbr with
  | None => ret (false, mbr)
  | Some s =>
      let* '(fraction, q) := lift (rtp_source_calc_fraction_lost (ms_seq s)) in
      let s := with_seq s q in
      let* err := rtcp_rr_encode (report_block now (mbr_src mbr) s fraction) in
      ret (nz err, with_s mbr (Some s))
  end.

(** [list_apply] and [hash_apply] with a handler that writes to a buffer and
    to the element it is given. *)
Fixpoint list_apply_mut {A} (ah : A -> M mbuf (bool * A)) (l : list A) : M mbuf (bool * list A) :=
  match l with
  | [] => ret (false, [])
  | x :: l =>
      let* '(stop, x) := ah x in
      if stop : bool then ret (true, x :: l)
      else let* '(stop, l) := list_apply_mut ah l in ret (stop, x :: l)
  end.

Fixpoint hash_apply_mut {A} (ah : A -> M mbuf (bool * A)) (n i : nat) (bs : list (list A))
    : M mbuf (bool * list (list A)) :=
  match n with
  | O => ret (false, bs)
  | S n =>
      match bs !! i with
      | None => ub
      | Some b =>
          let* '(stop, b) := list_apply_mut ah b in
          if stop : bool then ret (true, <[i := b]> bs)
          else hash_apply_mut ah n (S i) (<[i := b]> bs)
      end
  end.

Definition encode_handler (now : clock) : M (mbuf * rtcp_sess) Z :=
  let* st := get in
  match se_members st.2 with
  | None => ret 0
  | Some h =>
      let* '(stop, bs) := on_mbuf (hash_apply_mut (sender_apply_handler now) (Z.to_nat (h_bsize h)) 0 (h_bucket h)) in
      modify (fun st => (st.1, set_members (Some (Hash bs (h_bsize h))) st.2)) ;;
      ret (if stop : bool then ENOMEM else 0)
  end.

(** An operation on the session. *)
Definition on_sess {A} (m : M rtcp_sess A) : M (mbuf * rtcp_sess) A := fun st =>
  match m st.2 with Some (a, s) => Some (a, (st.1, s)) | None => None end.

(** The RTP timestamp that corresponds to the time of the report. *)
Definition sr_rtp_ts (now : clock) (tx : txstat) (srate_tx : Z) : Z :=
  let dur := u64 (ntp_jfs_rt now - tx_jfs_rt_ref tx) in
  u32 (u64 (tx_ts_ref tx + u64 (dur * srate_tx) / 1000000)).

Definition unsynced (tx : txstat) : txstat :=
  TxStat (tx_psent tx) (tx_osent tx) (tx_jfs_rt_ref tx) (tx_ts_ref tx) false.

(** [ssrc] is [rtp_sess_ssrc(sess->rs)]. *)
Definition mk_sr (now : clock) (ssrc : Z) : M (mbuf * rtcp_sess) Z :=
  let* st := get in
  let s := st.2 in
  let txstat := se_txstat s in
  on_sess (modify (set_txstat (unsynced txstat))) ;;
  if nz (tx_jfs_rt_ref txstat) then
    rtcp_vencode RTCP_SR (se_senderc s)
      (ArgsSr [ssrc; ntp_hi (ntp_time_get now); ntp_lo (ntp_time_get now); sr_rtp_ts now txstat (se_srate_tx s);
               tx_psent txstat; tx_osent txstat] (Some (encode_handler now)))
  else
    rtcp_vencode RTCP_RR (se_senderc s) (ArgsRr ssrc (Some (encode_handler now))).

Definition sdes_encode_handler (ssrc : Z) : M (mbuf * rtcp_sess) Z :=
  let* st := get in
  on_mbuf (rtcp_sdes_encode ssrc [(RTCP_SDES_CNAME, se_cname st.2)]).

Definition mk_sdes (ssrc : Z) : M (mbuf * rtcp_sess) Z :=
  rtcp_vencode RTCP_SDES 1 (ArgsSdes (Some (sdes_encode_handler ssrc))).

Definition with_pos (pos : Z) : M (mbuf * rtcp_sess) unit := on_mbuf (mbuf_set_pos pos).

(** A compound packet: two messages after the headroom.  [rtcp_send] is the
    function of the socket; the buffer it is called with is returned. *)
Definition send_compound (rtcp_send : mbuf -> Z) (first second : M (mbuf * rtcp_sess) Z)
    : M rtcp_sess (Z * option mbuf) := fun s =>
  match mbuf_alloc 512 with
  | None => Some ((ENOMEM, None), s)
  | Some mb =>
      match (with_pos RTCP_HEADROOM ;; first |; second) (mb, s) with
      | None => None
      | Some (err, (mb, s)) =>
          if nz err then Some ((err, None), s)
          else let mb := set_pos RTCP_HEADROOM mb in Some ((rtcp_send mb, Some mb), s)
      end
  end.

Definition send_rtcp_report (now : clock) (ssrc : Z) (rtcp_send : mbuf -> Z) : M rtcp_sess (Z * option mbuf) :=
  send_compound rtcp_send (mk_sr now ssrc) (mk_sdes ssrc).

Definition bye_text : list Z := [65; 100; 106; 111].     (* "Adjo" *)

Definition send_bye_packet (ssrc : Z) (rtcp_send : mbuf -> Z) : M rtcp_sess (Z * option mbuf) :=
  send_compound rtcp_send (rtcp_vencode RTCP_BYE 1 (ArgsBye [ssrc] (Some bye_text))) (mk_sdes ssrc).

Definition timeout (now : clock) (ssrc : Z) (rtcp_send : mbuf -> Z) : M rtcp_sess (option mbuf) :=
  let* '(_, sent) := send_rtcp_report now ssrc rtcp_send in
  schedule ;; ret sent.

(** What is sent when the session goes away. *)
Definition sess_destructor (ssrc : Z) (rtcp_send : mbuf -> Z) : M rtcp_sess (option mbuf) :=
  let* s := get in
  let* sent := match se_cname s with
               | Some _ => let* '(_, sent) := send_bye_packet ssrc rtcp_send in ret sent
               | None => ret None
               end in
  modify (fun s => set_cname None (set_tmr None s)) ;;
  on_members (hash_clear) ;; ret sent.

(** ** RTP packets *)

Definition rtcp_sess_tx_rtp (ts jfs_rt payload_size : Z) (s : rtcp_sess) : rtcp_sess :=
  let tx := se_txstat s in
  let osent := u32 (tx_osent tx + u32 payload_size) in
  let psent := u32 (tx_psent tx + 1) in
  set_txstat
    (if tx_ts_synced tx then TxStat psent osent (tx_jfs_rt_ref tx) (tx_ts_ref tx) true
     else TxStat psent osent jfs_rt ts true) s.

Definition with_ts_arrive (hdr : rtp_header) (ts_arrive : Z) : rtp_header :=
  RtpHeader (rtp_ver hdr) (rtp_pad hdr) (rtp_ext hdr) (rtp_cc hdr) (rtp_m hdr) (rtp_pt hdr)
    (rtp_seq hdr) (rtp_ts hdr) ts_arrive (rtp_ssrc hdr) (rtp_csrc hdr) (rtp_x_type hdr) (rtp_x_len hdr).

(** The statistics of a source after a packet. *)
Definition source_rx (now : clock) (srate_rx : Z) (hdr : rtp_header) (payload_size : Z) (s : member_source)
    : option (rtp_header * member_source) :=
  let q := (rtp_source_update_seq (ms_seq s) (rtp_seq hdr)).2 in
  let hdr := if nz srate_rx then with_ts_arrive hdr (u64 (tmr_jiffies now * srate_rx) / 1000) else hdr in
  match
    (if nz srate_rx && negb (rtp_ts hdr =? ms_last_rtp_ts s)
     then rtp_source_calc_jitter q (rtp_ts hdr) (u32 (rtp_ts_arrive hdr))
     else Some q)
  with
  | None => None
  | Some q =>
      Some (hdr, MSource q (ms_rtp_peer s) (u64 (ms_rtp_rx_bytes s + payload_size)) (ms_sr_recv s)
        (ms_last_sr s) (ms_rtp_ts s) (rtp_ts hdr) (ms_psent s) (ms_osent s))
  end.

(** The source of a first packet. *)
Definition new_source (seq : Z) (peer : sa) : member_source :=
  with_peer (with_seq source_zero (rtp_source_init_seq (ms_seq source_zero) seq)) peer.

(** The result is the header, which is given its arrival time. *)
Definition rtcp_sess_rx_rtp (now : clock) (hdr : rtp_header) (payload_size : Z) (peer : sa)
    : M rtcp_sess rtp_header :=
  let src := rtp_ssrc hdr in
  let* mbr := get_member src in
  match mbr with
  | None => ret hdr
  | Some mbr =>
      let* s := get in
      let* source :=
        match mbr_s mbr with
        | Some source => ret (Some source)
        | None =>
            if alloc_ok SOURCE_SIZEOF then
              modify (set_senderc (u32 (se_senderc s + 1))) ;;
              ret (Some (new_source (rtp_seq hdr) peer))
            else ret None
        end in
      match source with
      | None => ret hdr
      | Some source =>
          let* '(hdr, source) := lift (source_rx now (se_srate_rx s) hdr payload_size source) in
          on_members (member_set src (with_s mbr (Some source))) ;; ret hdr
      end
  end.

(** ** Statistics *)

Record rtcp_stats_t := Stats {
  st_tx_sent : Z; st_tx_lost : Z; st_tx_jit : Z;
  st_rx_sent : Z; st_rx_lost : Z; st_rx_jit : Z;
  st_rtt : Z;
}.

Definition rtcp_stats (s : rtcp_sess) (ssrc : Z) : option (Z * option rtcp_stats_t) :=
  match member_find (se_members s) ssrc with
  | None => None
  | Some None => Some (ENOENT, None)
  | Some (Some mbr) =>
      let '(sent, lost, jit) :=
        match mbr_s mbr with
        | None => (0, 0, 0)
        | Some src =>
            (received (ms_seq src), rtp_source_calc_lost (ms_seq src),
             if nz (se_srate_rx s) then u32 (1000000 * Z.shiftr (jitter (ms_seq src)) 4) / se_srate_rx s else 0)
        end in
      Some (0, Some (Stats (tx_psent (se_txstat s)) (mbr_cum_lost mbr) (mbr_jit mbr) sent lost jit (mbr_rtt mbr)))
  end.

End sess.
