(* ===== verification/RtpSock.v ===== *)
(** * RTP sockets (src/rtp/rtp.c, src/rtp/rtcp.c)

    Sending and receiving on an RTP socket with its RTCP session.  The
    transport is a parameter: [udp_send] gives the result of sending a buffer
    on one of the two transport sockets.  What an operation hands to the
    transport and to the application's handlers is part of its result. *)

From S2P Require Export RtcpSess.

(** The transport sockets are told apart by which of the two they are; a
    null pointer is [false]. *)
Inductive transport := SockRtp | SockRtcp.
Record datagram := Datagram { dg_sock : transport; dg_dst : sa; dg_mb : mbuf }.

(** What the application's handlers are called with. *)
Inductive event :=
  | RtpEvent (src : sa) (hdr : rtp_header) (mb : mbuf)
  | RtcpEvent (src : sa) (msg : rtcp_msg).

Record rtp_sock := RtpSock {
  rs_enc : rtp_enc;
  rs_sock_rtp : bool;
  rs_sock_rtcp : bool;
  rs_rtcp_peer : sa;
  rs_recvh : bool;
  rs_rtcph : bool;
  rs_rtcp : option rtcp_sess;
  rs_rtcp_mux : bool;
}.

Definition set_enc (enc : rtp_enc) (rs : rtp_sock) : rtp_sock :=
  RtpSock enc (rs_sock_rtp rs) (rs_sock_rtcp rs) (rs_rtcp_peer rs) (rs_recvh rs) (rs_rtcph rs) (rs_rtcp rs) (rs_rtcp_mux rs).
Definition set_rtcp (s : option rtcp_sess) (rs : rtp_sock) : rtp_sock :=
  RtpSock (rs_enc rs) (rs_sock_rtp rs) (rs_sock_rtcp rs) (rs_rtcp_peer rs) (rs_recvh rs) (rs_rtcph rs) s (rs_rtcp_mux rs).
Definition set_rtcp_peer (peer : sa) (rs : rtp_sock) : rtp_sock :=
  RtpSock (rs_enc rs) (rs_sock_rtp rs) (rs_sock_rtcp rs) peer (rs_recvh rs) (rs_rtcph rs) (rs_rtcp rs) (rs_rtcp_mux rs).
Definition rtcp_enable_mux (enabled : bool) (rs : rtp_sock) : rtp_sock :=
  RtpSock (rs_enc rs) (rs_sock_rtp rs) (rs_sock_rtcp rs) (rs_rtcp_peer rs) (rs_recvh rs) (rs_rtcph rs) (rs_rtcp rs) enabled.

Definition rtp_sess_ssrc (rs : rtp_sock) : Z := enc_ssrc (rs_enc rs).
Definition rtp_sess_seq (rs : rtp_sock) : Z := enc_seq (rs_enc rs).

(** [sa_isset(sa, SA_ALL)] (src/sa/sa.c): address and port are set. *)
Definition sa_isset_all (a : sa) : bool :=
  match a with
  | SaIn addr port => negb (addr =? 0) && negb (port =? 0)
  | SaIn6 addr port => negb (forallb (Z.eqb 0) addr) && negb (port =? 0)
  | SaUnspec => false
  end.

(** The session of the socket, when there is one, as the state of [m]. *)
Definition on_rtcp {A} (none : A) (m : M rtcp_sess A) : M rtp_sock A := fun rs =>
  match rs_rtcp rs with
  | None => Some (none, rs)
  | Some s => match m s with Some (a, s) => Some (a, set_rtcp (Some s) rs) | None => None end
  end.

Definition on_sock {A} (m : M rtp_sock A) : M (mbuf * rtp_sock) A := fun st =>
  match m st.2 with Some (a, rs) => Some (a, (st.1, rs)) | None => None end.

Section sock.
Context `{Host}.
Context (udp_send : transport -> sa -> mbuf -> Z).

(** ** Sending (rtp.c) *)

(** [mbuf_advance(mb, -RTP_HEADER_SIZE)]: the header goes before the payload. *)
Definition rtp_send (dst : sa) (ext marker : bool) (pt ts jfs_rt : Z) : M (mbuf * rtp_sock) (Z * option datagram) :=
  let* st := get in
  if mb_pos st.1 <? RTP_HEADER_SIZE then ret (EBADMSG, None)
  else
    on_mbuf (mbuf_advance (- RTP_HEADER_SIZE)) ;;
    let* st := get in
    let pos := mb_pos st.1 in
    let* err := (fun st => match rtp_encode (rs_enc st.2) ext marker pt ts st.1 with
                           | Some (err, enc, mb) => Some (err, (mb, set_enc enc st.2))
                           | None => None
                           end) in
    if nz err then ret (err, None)
    else
      let* st := get in
      on_sock (on_rtcp tt (modify (rtcp_sess_tx_rtp ts jfs_rt (mbuf_get_left st.1)))) ;;
      on_mbuf (mbuf_set_pos pos) ;;
      let* st := get in
      ret (udp_send SockRtp dst st.1, Some (Datagram SockRtp dst st.1)).

Definition rtp_resend (seq : Z) (dst : sa) (ext marker : bool) (pt ts : Z) : M (mbuf * rtp_sock) (Z * option datagram) :=
  let* st := get in
  if mb_pos st.1 <? RTP_HEADER_SIZE then ret (EBADMSG, None)
  else
    on_mbuf (mbuf_advance (- RTP_HEADER_SIZE)) ;;
    let* st := get in
    let pos := mb_pos st.1 in
    let* err := on_mbuf (rtp_encode_seq (rs_enc st.2) seq ext marker pt ts) in
    if nz err then ret (err, None)
    else
      on_mbuf (mbuf_set_pos pos) ;;
      let* st := get in
      ret (udp_send SockRtp dst st.1, Some (Datagram SockRtp dst st.1)).

Definition rtcp_send (rs : rtp_sock) (mb : mbuf) : Z * option datagram :=
  let sock := if rs_rtcp_mux rs then SockRtp else SockRtcp in
  let isset := if rs_rtcp_mux rs then rs_sock_rtp rs else rs_sock_rtcp rs in
  if negb isset || negb (sa_isset_all (rs_rtcp_peer rs)) then (EINVAL, None)
  else (udp_send sock (rs_rtcp_peer rs) mb, Some (Datagram sock (rs_rtcp_peer rs) mb)).

Definition rtcp_start (cname : option (list Z)) (peer : option sa) : M rtp_sock unit :=
  (match peer with Some peer => modify (set_rtcp_peer peer) | None => ret tt end) ;;
  let* _ := on_rtcp EINVAL (rtcp_enable (bool_decide (is_Some peer)) cname) in ret tt.

(** The timer of the session: a report is sent on the socket. *)
Definition sock_timeout (now : clock) : M rtp_sock (option datagram) :=
  let* rs := get in
  let* sent := on_rtcp None (timeout now (rtp_sess_ssrc rs) (fun mb => (rtcp_send rs mb).1)) in
  ret (match sent with Some mb => (rtcp_send rs mb).2 | None => None end).

(** ** Single RTCP packets (rtcp.c) *)

Definition rtcp_quick_send (rs : rtp_sock) (type count : Z) (ap : rtcp_args mbuf) : option (Z * option datagram) :=
  match mbuf_alloc 32 with
  | None => Some (ENOMEM, None)
  | Some mb =>
      match rtcp_vencode type count ap (set_pos RTCP_HEADROOM mb) with
      | None => None
      | Some (err, mb) =>
          let mb := set_pos RTCP_HEADROOM mb in
          if nz err then Some (err, None) else Some (rtcp_send rs mb)
      end
  end.

Definition rtcp_send_app (rs : rtp_sock) (name : list Z) (data : option (list Z)) : option (Z * option datagram) :=
  rtcp_quick_send rs RTCP_APP 0 (ArgsApp (rtp_sess_ssrc rs) name data).
Definition rtcp_send_fir (rs : rtp_sock) (ssrc : Z) : option (Z * option datagram) :=
  rtcp_quick_send rs RTCP_FIR 0 (ArgsFir ssrc).
Definition rtcp_send_nack (rs : rtp_sock) (fsn blp : Z) : option (Z * option datagram) :=
  rtcp_quick_send rs RTCP_NACK 0 (ArgsNack (rtp_sess_ssrc rs) fsn blp).
Definition rtcp_send_pli (rs : rtp_sock) (fb_ssrc : Z) : option (Z * option datagram) :=
  rtcp_quick_send rs RTCP_PSFB RTCP_PSFB_PLI (ArgsFb (rtp_sess_ssrc rs) fb_ssrc None).

Definition encode_fir_rfc5104_fci (ssrc seq_n : Z) : M mbuf Z :=
  mbuf_write_u32 (htonl ssrc) |; mbuf_write_u8 seq_n |; mbuf_write_u8 0 |; mbuf_write_u8 0 |; mbuf_write_u8 0.

Definition rtcp_send_fir_rfc5104 (rs : rtp_sock) (ssrc fir_seqn : Z) : option (Z * option datagram) :=
  rtcp_quick_send rs RTCP_PSFB RTCP_PSFB_FIR
    (ArgsFb (rtp_sess_ssrc rs) 0 (Some (encode_fir_rfc5104_fci ssrc fir_seqn))).

(** ** Receiving (rtp.c) *)

(** [while (0 == rtcp_decode(&msg, mb))]: [clk i] holds the clocks while
    message [i] is handled; the result is what the application is given. *)
Fixpoint rtcp_recv_loop (fuel : nat) (clk : nat -> clock) (src : sa) (i : nat)
    : M (mbuf * rtp_sock) (list event) :=
  match fuel with
  | O => ub
  | S fuel =>
      let* '(err, msg) := on_mbuf rtcp_decode in
      match msg with
      | Some msg =>
          on_sock (on_rtcp tt (rtcp_handler (clk i) msg)) ;;
          let* st := get in
          let* evs := rtcp_recv_loop fuel clk src (S i) in
          ret (if rs_rtcph st.2 then RtcpEvent src msg :: evs else evs)
      | None => ret []
      end
  end.

(** Every message takes at least a header. *)
Definition rtcp_recv_handler (clk : nat -> clock) (src : sa) : M (mbuf * rtp_sock) (list event) :=
  let* st := get in
  rtcp_recv_loop (S (Z.to_nat (mbuf_get_left st.1))) clk src 0.

Definition rtp_pt_is_rtcp (pt : Z) : bool := (64 <=? pt) && (pt <=? 95).

(** The payload type of the second octet, when the buffer has two. *)
Definition second_pt : M mbuf (option Z) :=
  let* mb := get in
  if mbuf_get_left mb <? 2 then ret None
  else let* b := lift (mem_load (mb_buf mb) (mb_pos mb + 1) 1) in ret (Some (Z.land (nth 0 b 0) 0x7f)).

Definition rtp_is_rtcp_packet : M mbuf bool :=
  let* pt := second_pt in
  ret (match pt with Some pt => rtp_pt_is_rtcp pt | None => false end).

Definition rtp_recv (now : clock) (src : sa) : M (mbuf * rtp_sock) (list event) :=
  let* '(err, hdr) := on_mbuf rtp_decode in
  if nz err then ret []
  else
    let* st := get in
    let* hdr := on_sock (on_rtcp hdr (rtcp_sess_rx_rtp now hdr (mbuf_get_left st.1) src)) in
    let* st := get in
    ret (if rs_recvh st.2 then [RtpEvent src hdr st.1] else []).

Definition udp_recv_handler (clk : nat -> clock) (src : sa) : M (mbuf * rtp_sock) (list event) :=
  let* st := get in
  if rs_rtcp_mux st.2 then
    let* pt := on_mbuf second_pt in
    match pt with
    | None => ret []
    | Some pt =>
        if (64 <=? pt) && (pt <=? 95) then rtcp_recv_handler clk src
        else rtp_recv (clk 0%nat) src
    end
  else rtp_recv (clk 0%nat) src.

End sock.
