(* ===== verification/RtcpSessThms.v ===== *)
(** * The member table of an RTCP session

    A session stands for a finite map from source identifiers to members:
    [sess_ok s g] says that the buckets hold exactly the members of [g], each
    in the bucket of its identifier, and that the two counters of the session
    are the number of members and of senders.  Every operation of the session
    is the corresponding operation on the map. *)

From S2P Require Import RtcpDecode HashThms.
From S2P Require Export RtcpSess.

(** ** Lists of members *)

Definition entries (ms : list rtp_member) : list (Z * rtp_member) := (fun m => (mbr_src m, m)) <$> ms.
Definition member_map (ms : list rtp_member) : gmap Z rtp_member := list_to_map (entries ms).
Definition sources (ms : list rtp_member) : list Z := mbr_src <$> ms.

Lemma entries_fst ms : (entries ms).*1 = sources ms.
Proof. unfold entries, sources. rewrite <- list_fmap_compose. done. Qed.

Lemma member_map_cons m ms : member_map (m :: ms) = <[mbr_src m := m]> (member_map ms).
Proof. done. Qed.

Lemma list_first_map src ms : list_first (hash_cmp_handler src) ms = member_map ms !! src.
Proof.
  induction ms as [|m ms IH]; [done|]. rewrite member_map_cons. cbn [list_first].
  unfold hash_cmp_handler at 1. destruct (Z.eqb_spec (mbr_src m) src) as [->|Hne].
  - by rewrite lookup_insert_eq.
  - by rewrite lookup_insert_ne.
Qed.

Lemma update_first_map src m' ms : mbr_src m' = src -> is_Some (member_map ms !! src) ->
  member_map (update_first (hash_cmp_handler src) (fun _ => m') ms) = <[src := m']> (member_map ms).
Proof.
  intros Hm'. induction ms as [|m ms IH]; [by intros [? ?]|]. rewrite member_map_cons. cbn [update_first].
  unfold hash_cmp_handler at 1. destruct (Z.eqb_spec (mbr_src m) src) as [Em|Hne]; intros Hs.
  - rewrite member_map_cons, Hm', Em. by rewrite insert_insert_eq.
  - rewrite lookup_insert_ne in Hs by done. rewrite member_map_cons, (IH Hs). by apply insert_insert_ne.
Qed.

Lemma update_first_sources src m' ms : mbr_src m' = src ->
  sources (update_first (hash_cmp_handler src) (fun _ => m') ms) = sources ms.
Proof.
  intros Hm'. induction ms as [|m ms IH]; [done|]. cbn [update_first]. unfold hash_cmp_handler at 1.
  destruct (Z.eqb_spec (mbr_src m) src); unfold sources in *; rewrite !fmap_cons; congruence.
Qed.

Lemma member_map_None ms src : member_map ms !! src = None <-> src ∉ sources ms.
Proof. unfold member_map. rewrite <- entries_fst. split; [apply not_elem_of_list_to_map_2|apply not_elem_of_list_to_map_1]. Qed.

Lemma remove_first_map src ms : NoDup (sources ms) ->
  member_map (remove_first (hash_cmp_handler src) ms) = delete src (member_map ms).
Proof.
  induction ms as [|m ms IH]; [done|]. unfold sources. rewrite fmap_cons. intros [Hn Hd]%list.NoDup_cons. cbn [remove_first].
  rewrite member_map_cons. unfold hash_cmp_handler at 1. destruct (Z.eqb_spec (mbr_src m) src) as [<-|Hne].
  - rewrite delete_insert_id; [done|]. by apply member_map_None.
  - rewrite member_map_cons, IH by done. by rewrite delete_insert_ne.
Qed.

Lemma remove_first_sublist {A} ah (ms : list A) : sublist (remove_first ah ms) ms.
Proof. induction ms as [|m ms IH]; [done|]. cbn. destruct (ah m); [by apply sublist_cons|by apply sublist_skip]. Qed.

Lemma member_map_perm ms ms' : NoDup (sources ms) -> ms ≡ₚ ms' -> member_map ms = member_map ms'.
Proof. intros Hn Hp. apply list_to_map_proper; [by rewrite entries_fst|]. unfold entries. by rewrite Hp. Qed.

Lemma member_map_size ms : NoDup (sources ms) -> size (member_map ms) = length ms.
Proof. intros. unfold member_map. rewrite map_size_list_to_map by (by rewrite entries_fst). unfold entries. by rewrite length_fmap. Qed.

(** No element of [r] is accepted. *)
Definition refuses {A} (ah : A -> bool) (r : list A) : Prop := Forall (fun x => ah x = false) r.

Lemma update_first_refuses {A} ah f (r : list A) : refuses ah r -> update_first ah f r = r.
Proof. induction 1 as [|x r E _ IH]; [done|]. cbn. by rewrite E, IH. Qed.
Lemma remove_first_refuses {A} ah (r : list A) : refuses ah r -> remove_first ah r = r.
Proof. induction 1 as [|x r E _ IH]; [done|]. cbn. by rewrite E, IH. Qed.
Lemma list_first_mid {A} ah (r1 b r2 : list A) : refuses ah r1 -> refuses ah r2 ->
  list_first ah (r1 ++ b ++ r2) = list_first ah b.
Proof.
  intros H1 H2. induction H1 as [|x r1 E _ IH]; cbn; [|by rewrite E].
  induction b as [|y b IH]; cbn; [by apply list_first_None|]. by destruct (ah y).
Qed.
Lemma update_first_mid {A} ah f (r1 b r2 : list A) : refuses ah r1 -> refuses ah r2 ->
  update_first ah f (r1 ++ b ++ r2) = r1 ++ update_first ah f b ++ r2.
Proof.
  intros H1 H2. induction H1 as [|x r1 E _ IH]; cbn; [|by rewrite E, IH].
  induction b as [|y b IH]; cbn; [by apply update_first_refuses|]. destruct (ah y); cbn; by rewrite ?IH.
Qed.
Lemma remove_first_mid {A} ah (r1 b r2 : list A) : refuses ah r1 -> refuses ah r2 ->
  remove_first ah (r1 ++ b ++ r2) = r1 ++ remove_first ah b ++ r2.
Proof.
  intros H1 H2. induction H1 as [|x r1 E _ IH]; cbn; [|by rewrite E, IH].
  induction b as [|y b IH]; cbn; [by apply remove_first_refuses|]. destruct (ah y); cbn; by rewrite ?IH.
Qed.

Lemma elem_of_update_first {A} ah f (l : list A) x : x ∈ update_first ah f l -> x ∈ l \/ exists y, y ∈ l /\ ah y = true /\ x = f y.
Proof.
  induction l as [|y l IH]; cbn; [by left|]. destruct (ah y) eqn:E; rewrite !list_elem_of_In; cbn; rewrite <- ?list_elem_of_In.
  - intros [<-|Hx]; [right; exists y; by split_and!; [left| |]|tauto].
  - intros [<-|Hx]; [tauto|]. destruct (IH Hx) as [?|(z & ? & ? & ?)]; [tauto|]. right. exists z. by split_and!; [right| |].
Qed.

(** ** Tables *)

Record table_ok (h : hash rtp_member) : Prop := {
  to_bsize : h_bsize h = MAX_MEMBERS;
  to_len : zlength (h_bucket h) = MAX_MEMBERS;
  to_keys : forall i b m, h_bucket h !! i = Some b -> m ∈ b -> hash_index h (mbr_src m) = i;
  to_nodup : NoDup (sources (mjoin (h_bucket h)));
}.
Definition table_members (h : hash rtp_member) : list rtp_member := mjoin (h_bucket h).
Definition table_map (h : hash rtp_member) : gmap Z rtp_member := member_map (table_members h).

Lemma index_lt h src : table_ok h -> is_u32 src -> (hash_index h src < length (h_bucket h))%nat.
Proof.
  intros [Hb Hl _ _] [Hs _]. unfold hash_index. rewrite Hb. unfold MAX_MEMBERS in *.
  change (u32 (8 - 1)) with (2 ^ 3 - 1). rewrite land_ones_mod by lia. pose proof (Z.mod_pos_bound src (2 ^ 3)). lia.
Qed.

(** The members around a bucket: those of the other buckets. *)
Lemma bucket_split h src : table_ok h -> is_u32 src ->
  exists b r1 r2, h_bucket h !! hash_index h src = Some b /\
    table_members h = r1 ++ b ++ r2 /\
    (forall b', mjoin (<[hash_index h src := b']> (h_bucket h)) = r1 ++ b' ++ r2) /\
    refuses (hash_cmp_handler src) r1 /\ refuses (hash_cmp_handler src) r2.
Proof.
  intros Hok Hs. pose proof (index_lt h src Hok Hs) as Hi. set (i := hash_index h src) in *.
  destruct (lookup_lt_is_Some_2 _ _ Hi) as [b Eb].
  assert (forall (bs : list (list rtp_member)) f, (forall j b', bs !! j = Some b' -> exists k, h_bucket h !! k = Some b' /\ k <> i) ->
    f = hash_cmp_handler src -> refuses f (mjoin bs)) as Hr.
  { intros bs f Hbs ->. apply list.Forall_forall. intros m Hm. apply list_elem_of_join in Hm as (b' & Hm & Hb').
    apply list_elem_of_lookup in Hb' as [j Hj]. destruct (Hbs j b' Hj) as (k & Hk & Hne).
    unfold hash_cmp_handler. apply Z.eqb_neq. intros E. apply Hne. rewrite <- (to_keys _ Hok k b' m Hk Hm), E. done. }
  exists b, (mjoin (take i (h_bucket h))), (mjoin (drop (S i) (h_bucket h))). split_and!; [done| | | |].
  - unfold table_members. rewrite <- (take_drop_middle _ _ _ Eb) at 1. by rewrite join_app.
  - intros b'. rewrite insert_take_drop by done. by rewrite join_app.
  - apply Hr; [|done]. intros j b' Hj. exists j. assert (j < i)%nat by (apply lookup_lt_Some in Hj; rewrite length_take in Hj; lia).
    rewrite lookup_take_lt in Hj by done. split; [done|lia].
  - apply Hr; [|done]. intros j b' Hj. rewrite lookup_drop in Hj. exists (S i + j)%nat. split; [done|lia].
Qed.

Lemma member_find_map h src : table_ok h -> is_u32 src -> member_find (Some h) src = Some (table_map h !! src).
Proof.
  intros Hok Hs. destruct (bucket_split h src Hok Hs) as (b & r1 & r2 & Eb & Em & _ & H1 & H2).
  unfold member_find, hash_lookup. rewrite Eb. f_equal. unfold table_map. by rewrite Em, <- list_first_map, list_first_mid.
Qed.

(** Rewriting one bucket gives a table when the new bucket holds members of
    the same key and no source appears twice. *)
Lemma on_bucket_ok h src f b : table_ok h -> h_bucket h !! hash_index h src = Some b ->
  (forall m, m ∈ f b -> hash_index h (mbr_src m) = hash_index h src) ->
  NoDup (sources (mjoin (<[hash_index h src := f b]> (h_bucket h)))) ->
  exists h', on_bucket src f (Some h) = Some (tt, Some h') /\ table_ok h' /\
    table_members h' = mjoin (<[hash_index h src := f b]> (h_bucket h)).
Proof.
  intros Hok Eb Hf Hn. eexists. unfold on_bucket. rewrite Eb. split; [done|]. split; [|done].
  destruct Hok as [Hb Hl Hk _]. split; cbn [h_bsize h_bucket]; [done|by rewrite length_insert| |done].
  intros i b' m. change (hash_index (Hash _ (h_bsize h)) (mbr_src m)) with (hash_index h (mbr_src m)).
  intros Hi Hm. destruct (decide (i = hash_index h src)) as [->|Hne].
  - rewrite list_lookup_insert_eq in Hi by (by eapply lookup_lt_Some). simplify_eq. by apply Hf.
  - rewrite list_lookup_insert_ne in Hi by done. by apply (Hk i b').
Qed.

Lemma member_set_map h src m' : table_ok h -> is_u32 src -> mbr_src m' = src -> is_Some (table_map h !! src) ->
  exists h', member_set src m' (Some h) = Some (tt, Some h') /\ table_ok h' /\ table_map h' = <[src := m']> (table_map h).
Proof.
  intros Hok Hs Hm' Hin. destruct (bucket_split h src Hok Hs) as (b & r1 & r2 & Eb & Em & Hj & H1 & H2).
  set (f := update_first (hash_cmp_handler src) (fun _ => m')).
  assert (mjoin (<[hash_index h src := f b]> (h_bucket h)) = f (table_members h)) as Ef
    by (rewrite Hj, Em; symmetry; by apply update_first_mid).
  destruct (on_bucket_ok h src f b Hok Eb) as (h' & E & Hok' & Ht).
  - intros m [Hm|(y & Hy & Hc & ->)]%elem_of_update_first; [by apply (to_keys _ Hok _ b)|by rewrite Hm'].
  - rewrite Ef. unfold f. rewrite update_first_sources by done. apply (to_nodup _ Hok).
  - exists h'. split_and!; [done|done|]. unfold table_map. rewrite Ht, Ef. by apply update_first_map.
Qed.

Lemma member_destroy_map h src : table_ok h -> is_u32 src ->
  exists h', member_destroy src (Some h) = Some (tt, Some h') /\ table_ok h' /\ table_map h' = delete src (table_map h).
Proof.
  intros Hok Hs. destruct (bucket_split h src Hok Hs) as (b & r1 & r2 & Eb & Em & Hj & H1 & H2).
  set (f := remove_first (hash_cmp_handler src)).
  assert (mjoin (<[hash_index h src := f b]> (h_bucket h)) = f (table_members h)) as Ef
    by (rewrite Hj, Em; symmetry; by apply remove_first_mid).
  destruct (on_bucket_ok h src f b Hok Eb) as (h' & E & Hok' & Ht).
  - intros m Hm. apply (to_keys _ Hok _ b); [done|]. by apply (elem_of_sublist _ _ _ Hm), remove_first_sublist.
  - rewrite Ef. apply (sublist_NoDup _ _ (to_nodup _ Hok)), fmap_sublist, remove_first_sublist.
  - exists h'. split_and!; [done|done|]. unfold table_map. rewrite Ht, Ef. apply remove_first_map, (to_nodup _ Hok).
Qed.

Lemma hash_append_map h src m' : table_ok h -> is_u32 src -> mbr_src m' = src -> table_map h !! src = None ->
  exists h', hash_append src false m' (Some h) = Some (tt, Some h') /\ table_ok h' /\ table_map h' = <[src := m']> (table_map h).
Proof.
  intros Hok Hs Hm' Hin. destruct (bucket_split h src Hok Hs) as (b & r1 & r2 & Eb & Em & Hj & H1 & H2).
  assert (mjoin (<[hash_index h src := b ++ [m']]> (h_bucket h)) ≡ₚ m' :: table_members h) as Ef
    by (rewrite Hj, Em; solve_Permutation).
  assert (NoDup (sources (m' :: table_members h))) as Hn
    by (unfold sources; rewrite fmap_cons; apply list.NoDup_cons; rewrite Hm'; split;
        [by apply member_map_None|apply (to_nodup _ Hok)]).
  destruct (on_bucket_ok h src (fun b => b ++ [m']) b Hok Eb) as (h' & E & Hok' & Ht).
  - intros m [Hm| ->%list_elem_of_singleton]%elem_of_app; [by apply (to_keys _ Hok _ b)|by rewrite Hm'].
  - unfold sources. by rewrite Ef.
  - exists h'. split_and!; [|done|].
    + unfold hash_append. unfold on_bucket in E. rewrite Eb in E |- *. by simplify_eq.
    + unfold table_map at 1. rewrite Ht. rewrite (member_map_perm _ (m' :: table_members h)).
      * by rewrite member_map_cons, Hm'.
      * unfold sources. by rewrite Ef.
      * done.
Qed.

(** ** What the structures hold *)

Record msource_ok (s : member_source) : Prop := {
  mo_seq : source_ok (ms_seq s);
  mo_jitter : is_u32 (jitter (ms_seq s));
  mo_last_sr : is_u32 (ntp_lo (ms_last_sr s));
}.

Record member_ok (m : rtp_member) : Prop := {
  mm_src : is_u32 (mbr_src m);
  mm_lost : - 2 ^ 23 <= mbr_cum_lost m < 2 ^ 23;
  mm_jit : is_u32 (mbr_jit m);
  mm_rtt : 0 <= mbr_rtt m < 2 ^ 31;
  mm_s : forall s, mbr_s m = Some s -> msource_ok s;
}.

Record txstat_ok (tx : txstat) : Prop := {
  tk_psent : is_u32 (tx_psent tx);
  tk_osent : is_u32 (tx_osent tx);
}.

Definition is_sender (e : Z * rtp_member) : Prop := is_Some (mbr_s e.2).
#[global] Instance is_sender_dec e : Decision (is_sender e).
Proof. unfold is_sender. apply _. Defined.
Definition senders (g : gmap Z rtp_member) : gmap Z rtp_member := filter is_sender g.

Record sess_ok (s : rtcp_sess) (g : gmap Z rtp_member) : Prop := {
  sok_table : exists h, se_members s = Some h /\ table_ok h /\ table_map h = g;
  sok_memberc : se_memberc s = Z.of_nat (size g);
  sok_max : Z.of_nat (size g) <= MAX_MEMBERS;
  sok_senderc : se_senderc s = Z.of_nat (size (senders g));
  sok_typed : map_Forall (fun src m => mbr_src m = src /\ member_ok m) g;
  sok_srate_tx : is_u32 (se_srate_tx s);
  sok_txstat : txstat_ok (se_txstat s);
}.

(** The fields the member table has no part in. *)
Definition same_conf (s s' : rtcp_sess) : Prop :=
  se_tmr s' = se_tmr s /\ se_cname s' = se_cname s /\ se_srate_tx s' = se_srate_tx s /\
  se_srate_rx s' = se_srate_rx s /\ se_interval s' = se_interval s /\ se_txstat s' = se_txstat s.

(** ** Counting senders *)

Lemma senders_size_le g : (size (senders g) <= size g)%nat.
Proof. apply map_subseteq_size, map_filter_subseteq. Qed.

Definition sender_b (o : option rtp_member) : nat :=
  match o with Some m => if decide (is_Some (mbr_s m)) then 1%nat else 0%nat | None => 0%nat end.

Lemma senders_delete g src : (size (senders (delete src g)) + sender_b (g !! src))%nat = size (senders g).
Proof.
  unfold senders. rewrite map_filter_delete. destruct (g !! src) as [m|] eqn:E; cbn [sender_b].
  - case_decide as Hs.
    + assert (filter is_sender g !! src = Some m) as El by (by apply map_lookup_filter_Some).
      rewrite map_size_delete_Some by eauto. assert (size (filter is_sender g) <> 0%nat) as Hne; [|lia].
      intros E0%map_size_empty_inv. by rewrite E0, lookup_empty in El.
    + rewrite delete_id; [lia|]. apply map_lookup_filter_None. right. intros x Hx. by simplify_eq.
  - rewrite delete_id; [lia|]. apply map_lookup_filter_None. by left.
Qed.

Lemma senders_insert g src m :
  (size (senders (<[src := m]> g)) + sender_b (g !! src))%nat = (size (senders g) + sender_b (Some m))%nat.
Proof.
  rewrite <- (senders_delete g src), <- insert_delete_eq.
  pose proof (senders_delete (<[src := m]> (delete src g)) src) as Hd.
  rewrite lookup_insert_eq, delete_insert_id in Hd by apply lookup_delete_eq. lia.
Qed.

Lemma size_delete_in (g : gmap Z rtp_member) src m : g !! src = Some m -> size g = S (size (delete src g)).
Proof.
  intros E. rewrite map_size_delete_Some by eauto. assert (size g <> 0%nat) as Hne; [|lia].
  intros E0%map_size_empty_inv. by rewrite E0, lookup_empty in E.
Qed.

(** ** Changing one member *)

Lemma sess_typed_insert (g : gmap Z rtp_member) src m : map_Forall (fun src m => mbr_src m = src /\ member_ok m) g ->
  mbr_src m = src -> member_ok m -> map_Forall (fun src m => mbr_src m = src /\ member_ok m) (<[src := m]> g).
Proof. intros. by apply map_Forall_insert_2. Qed.

Lemma set_member_ok s g src m m' n : sess_ok s g -> g !! src = Some m -> mbr_src m' = src -> member_ok m' ->
  n + Z.of_nat (sender_b (Some m)) = se_senderc s + Z.of_nat (sender_b (Some m')) ->
  exists s', on_members (member_set src m') (set_senderc n s) = Some (tt, s') /\
    sess_ok s' (<[src := m']> g) /\ same_conf s s'.
Proof.
  intros [(h & Eh & Hok & Hg) Hc Hmax Hsc Ht Hr Htx] E Hm' Hok' Hn.
  assert (is_u32 src) as Hs by (destruct (map_Forall_lookup_1 _ _ _ _ Ht E) as [<- []]; done).
  destruct (member_set_map h src m' Hok Hs Hm') as (h' & E' & Hok1 & Hg'); [rewrite Hg; eauto|].
  eexists. unfold on_members. cbn [set_senderc se_members]. rewrite Eh, E'. split; [done|]. split; [|done].
  pose proof (senders_insert g src m') as Hse. rewrite E in Hse.
  split; cbn [set_members set_senderc se_members se_memberc se_senderc se_srate_tx se_txstat]; try done.
  - exists h'. by rewrite Hg', Hg.
  - rewrite map_size_insert_Some; [done|]. by rewrite E.
  - rewrite map_size_insert_Some; [done|]. by rewrite E.
  - lia.
  - by apply sess_typed_insert.
Qed.

Lemma set_senderc_id s : set_senderc (se_senderc s) s = s.
Proof. by destruct s. Qed.

Lemma member_zero_ok src : is_u32 src -> member_ok (member_zero src).
Proof. intros. by split; cbn. Qed.

Section spec.
Context `{Host}.

(** ** The operations on the map *)

Definition abs_get (src : Z) (g : gmap Z rtp_member) : option rtp_member * gmap Z rtp_member :=
  match g !! src with
  | Some m => (Some m, g)
  | None =>
      if (MAX_MEMBERS <=? Z.of_nat (size g)) || negb (alloc_ok MEMBER_SIZEOF) then (None, g)
      else (Some (member_zero src), <[src := member_zero src]> g)
  end.

Lemma get_member_ok s g src : sess_ok s g -> is_u32 src ->
  exists s', get_member src s = Some ((abs_get src g).1, s') /\ sess_ok s' (abs_get src g).2 /\ same_conf s s'.
Proof.
  intros Hok Hs. pose proof Hok as [(h & Eh & Ht & Hg) Hc Hmax Hsc Hty Hr Htx].
  unfold get_member. rewrite (bind_Some _ _ _ _ _ (eq_refl : get s = _)). rewrite Eh.
  unfold lift. unfold bind at 1. rewrite (member_find_map h src Ht Hs), Hg. unfold abs_get.
  destruct (g !! src) as [m|] eqn:E; [by exists s|]. rewrite Hc.
  destruct (MAX_MEMBERS <=? Z.of_nat (size g)) eqn:El; cbn [orb fst snd]; [by exists s|].
  apply Z.leb_gt in El. unfold member_add.
  destruct (alloc_ok MEMBER_SIZEOF); cbn [negb fst snd].
  2: { exists s. unfold on_members, ret, bind. split; [|done]. by destruct s. }
  rewrite <- Hg in E. destruct (hash_append_map h src (member_zero src) Ht Hs eq_refl E) as (h' & E' & Ht' & Hg').
  unfold bind at 1, on_members. rewrite Eh. rewrite (bind_Some _ _ _ _ _ E'). cbn [ret].
  eexists. split; [done|]. split; [|done]. rewrite Hg in *. unfold MAX_MEMBERS in *.
  pose proof (senders_insert g src (member_zero src)) as Hse. rewrite E in Hse. cbn [sender_b member_zero mbr_s] in Hse.
  rewrite decide_False in Hse by (by intros [? ?]).
  split; cbn [set_members set_memberc se_members se_memberc se_senderc se_srate_tx se_txstat]; try done.
  - eauto.
  - rewrite map_size_insert_None by done. rewrite wrap_small; lia.
  - rewrite map_size_insert_None by done. unfold MAX_MEMBERS. lia.
  - lia.
  - apply sess_typed_insert; [done|done|by apply member_zero_ok].
Qed.

Lemma abs_get_lookup src g m : (abs_get src g).1 = Some m -> (abs_get src g).2 !! src = Some m.
Proof.
  unfold abs_get. destruct (g !! src) as [m'|] eqn:E; cbn; [by intros [= <-]|].
  destruct (_ || _); cbn; [done|]. intros [= <-]. apply lookup_insert_eq.
Qed.

Lemma sess_member_ok s g src m : sess_ok s g -> g !! src = Some m -> mbr_src m = src /\ member_ok m.
Proof. intros Hok E. exact (map_Forall_lookup_1 _ _ _ _ (sok_typed _ _ Hok) E). Qed.

End spec.
