(* ===== verification/RtcpSessSpec.v ===== *)
(** * RTCP sessions refine a map of members

    What each operation of a session does to the map it stands for, on every
    branch, and that the counters and the types of the members are kept
    whatever messages and packets arrive. *)

From S2P Require Import RtcpDecode.
From S2P Require Export RtcpSessThms.

Abbreviation mmap := (gmap Z rtp_member).

(** ** Members *)

Lemma rtt_range now lsr dlsr : 0 <= rtcp_calc_rtt now lsr dlsr < 2 ^ 31.
Proof.
  unfold rtcp_calc_rtt. cbv zeta. generalize (u64 (ntp_compact2us (ntp_compact (ntp_time_get now)) - ntp_compact2us lsr
    - u64 (1000000 * dlsr) / 65536)). intros v. pose proof (swrap_range 32 v ltac:(lia)). lia.
Qed.

Lemma rr_block_ok now srate m rr : is_u32 srate -> rr_ok rr -> member_ok m ->
  member_ok (handle_rr_block now srate m rr) /\ mbr_src (handle_rr_block now srate m rr) = mbr_src m /\
  mbr_s (handle_rr_block now srate m rr) = mbr_s m.
Proof.
  intros Hs [_ _ Hl _ _ _ _] [Hsrc Hlost Hj Hr Hm]. unfold handle_rr_block. split_and!; [|done|done].
  split; cbn [mbr_src mbr_cum_lost mbr_jit mbr_rtt mbr_s]; try done.
  - destruct (nz srate) eqn:E; [|done]. unfold nz in E. apply negb_true_iff, Z.eqb_neq in E.
    pose proof (wrap_range 32 (1000000 * rr_jitter rr) ltac:(lia)). split; [apply Z.div_pos; lia|].
    apply Z.div_lt_upper_bound; [lia|]. nia.
  - destruct (_ && _); [apply rtt_range|done].
Qed.

Lemma rr_blocks_ok now srate rrv m : is_u32 srate -> Forall rr_ok rrv -> member_ok m ->
  member_ok (foldl (handle_rr_block now srate) m rrv) /\ mbr_src (foldl (handle_rr_block now srate) m rrv) = mbr_src m /\
  mbr_s (foldl (handle_rr_block now srate) m rrv) = mbr_s m.
Proof.
  intros Hs Hrr. revert m. induction Hrr as [|rr rrv Hr _ IH]; intros m Hm; [done|]. cbn [foldl].
  destruct (rr_block_ok now srate m rr Hs Hr Hm) as (H1 & E1 & E2). destruct (IH _ H1) as (H2 & -> & ->). by split_and!.
Qed.

Lemma sr_stamp_ok now a b c d e m : is_u32 b -> member_ok m ->
  member_ok (sr_stamp now a b c d e m) /\ mbr_src (sr_stamp now a b c d e m) = mbr_src m /\
  sender_b (Some (sr_stamp now a b c d e m)) = sender_b (Some m).
Proof.
  intros Hb Hok. pose proof Hok as [Hsrc Hlost Hj Hr Hm]. unfold sr_stamp. destruct (mbr_s m) as [s|] eqn:E; [|done].
  split_and!; [|done|cbn; by rewrite E]. split; cbn; try done. intros ? [= <-]. destruct (Hm s eq_refl). by split.
Qed.

(** ** RTCP messages *)

Section spec.
Context `{Host}.

Definition abs_report (f : rtp_member -> rtp_member) (ssrc : Z) (g : mmap) : mmap :=
  match abs_get ssrc g with
  | (Some m, g) => <[ssrc := f m]> g
  | (None, g) => g
  end.

(** A report creates the member unless the table is full; a BYE removes the
    members it names; the other messages change nothing. *)
Definition abs_handler (now : clock) (srate_tx : Z) (msg : rtcp_msg) (g : mmap) : mmap :=
  match rm_r msg with
  | Sr ssrc ntp_sec ntp_frac rtp_ts psent osent rrv =>
      abs_report (fun m => foldl (handle_rr_block now srate_tx) (sr_stamp now ntp_sec ntp_frac rtp_ts psent osent m) rrv) ssrc g
  | RrMsg ssrc rrv => abs_report (fun m => foldl (handle_rr_block now srate_tx) m rrv) ssrc g
  | Bye srcv _ => foldl (fun g src => delete src g) g srcv
  | _ => g
  end.

Lemma report_ok s g ssrc (f : Z -> rtp_member -> rtp_member) : sess_ok s g -> is_u32 ssrc ->
  (forall m, member_ok m -> member_ok (f (se_srate_tx s) m) /\ mbr_src (f (se_srate_tx s) m) = mbr_src m /\
     sender_b (Some (f (se_srate_tx s) m)) = sender_b (Some m)) ->
  exists s', (let* mbr := get_member ssrc in
              match mbr with
              | None => ret tt
              | Some mbr => let* s := get in on_members (member_set ssrc (f (se_srate_tx s) mbr))
              end) s = Some (tt, s') /\ sess_ok s' (abs_report (f (se_srate_tx s)) ssrc g) /\ same_conf s s'.
Proof.
  intros Hok Hs Hf. destruct (get_member_ok s g ssrc Hok Hs) as (s1 & E1 & Hok1 & Hc1).
  rewrite (bind_Some _ _ _ _ _ E1). pose proof (abs_get_lookup ssrc g) as Hl. unfold abs_report.
  destruct (abs_get ssrc g) as [[m|] g1]; cbn [fst snd] in *; [|by exists s1].
  rewrite (bind_Some _ _ _ _ _ (eq_refl : get s1 = _)). assert (se_srate_tx s1 = se_srate_tx s) as -> by apply Hc1.
  destruct (sess_member_ok s1 g1 ssrc m Hok1 (Hl m eq_refl)) as [Esrc Hm]. destruct (Hf m Hm) as (Hm' & Es' & Hb).
  destruct (set_member_ok s1 g1 ssrc m (f (se_srate_tx s) m) (se_senderc s1) Hok1 (Hl m eq_refl))
    as (s2 & E2 & Hok2 & Hc2); [congruence|done|by rewrite Hb|].
  rewrite set_senderc_id in E2. exists s2. split_and!; [done|done|].
  unfold same_conf in *. intuition congruence.
Qed.

Lemma delete_member_ok s g src m n : sess_ok s g -> g !! src = Some m ->
  n + Z.of_nat (sender_b (Some m)) = se_senderc s ->
  exists s', on_members (member_destroy src) (set_memberc (u32 (se_memberc s - 1)) (set_senderc n s)) = Some (tt, s') /\
    sess_ok s' (delete src g) /\ same_conf s s'.
Proof.
  intros [(h & Eh & Ht & Hg) Hc Hmax Hsc Hty Hr Htx] E Hn.
  assert (is_u32 src) as Hs by (destruct (map_Forall_lookup_1 _ _ _ _ Hty E) as [<- []]; done).
  destruct (member_destroy_map h src Ht Hs) as (h' & E' & Ht' & Hg').
  eexists. unfold on_members. cbn [set_senderc set_memberc se_members]. rewrite Eh, E'. split; [done|]. split; [|done].
  pose proof (size_delete_in g src m E). pose proof (senders_delete g src) as Hd. rewrite E in Hd. unfold MAX_MEMBERS in *.
  split; cbn [set_members set_senderc set_memberc se_members se_memberc se_senderc se_srate_tx se_txstat]; try done.
  - exists h'. by rewrite Hg', Hg.
  - rewrite wrap_small; lia.
  - unfold MAX_MEMBERS. lia.
  - lia.
  - by apply map_Forall_delete.
Qed.

Lemma bye_ok srcv s g : sess_ok s g -> Forall (fun v => is_u32 v) srcv ->
  exists s', handle_incoming_bye srcv s = Some (tt, s') /\ sess_ok s' (foldl (fun g src => delete src g) g srcv) /\ same_conf s s'.
Proof.
  intros Hok Hv. revert s g Hok. induction Hv as [|src srcv Hs _ IH]; intros s g Hok; [by exists s|].
  cbn [handle_incoming_bye foldl]. rewrite (bind_Some _ _ _ _ _ (eq_refl : get s = _)).
  pose proof Hok as [(h & Eh & Ht & Hg) Hc _ Hsc _ _ _]. unfold lift. unfold bind at 1.
  rewrite Eh, (member_find_map h src Ht Hs), Hg. destruct (g !! src) as [m|] eqn:E.
  - destruct (delete_member_ok s g src m (if bool_decide (is_Some (mbr_s m)) then u32 (se_senderc s - 1) else se_senderc s) Hok E)
      as (s1 & E1 & Hok1 & Hc1).
    { pose proof (senders_delete g src) as Hd. rewrite E in Hd. pose proof (senders_size_le g).
      pose proof (sok_max _ _ Hok). unfold MAX_MEMBERS in *. cbn [sender_b] in *. rewrite Hsc.
      case_bool_decide; case_decide; try done; [rewrite wrap_small; lia|lia]. }
    destruct (IH s1 _ Hok1) as (s2 & E2 & Hok2 & Hc2). exists s2. split_and!; [|done|unfold same_conf in *; intuition congruence].
    rewrite <- E2. unfold bind, modify, ret in *. case_bool_decide; rewrite ?set_senderc_id in E1; by rewrite E1.
  - rewrite delete_id by done. by apply IH.
Qed.

Lemma rtcp_handler_ok now E msg s g : sess_ok s g -> msg_ok E msg ->
  exists s', rtcp_handler now msg s = Some (tt, s') /\ sess_ok s' (abs_handler now (se_srate_tx s) msg g) /\ same_conf s s'.
Proof.
  intros Hok [Hh Hr]. unfold rtcp_handler, abs_handler. pose proof (sok_srate_tx _ _ Hok) as Hrate.
  destruct msg as [hdr r]. cbn [rm_hdr rm_r] in *.
  destruct r as [ssrc a b c d e rrv|ssrc rrv| |srcv reason| | | |? ? ? f|]; cbn [r_ok] in Hr;
    try (destruct Hr as [-> _]; by exists s).
  - destruct Hr as (-> & Hv & -> & Hrr). apply Forall_inv in Hv as Hs. apply Forall_inv_tail, Forall_inv_tail, Forall_inv in Hv as Hb.
    rewrite !Z.eqb_refl. unfold handle_incoming_sr.
    apply (report_ok s g ssrc (fun srate m => foldl (handle_rr_block now srate) (sr_stamp now a b c d e m) rrv)); [done|done|].
    intros m Hm. destruct (sr_stamp_ok now a b c d e m Hb Hm) as (H1 & E1 & E2).
    destruct (rr_blocks_ok now (se_srate_tx s) rrv _ Hrate Hrr H1) as (H2 & -> & E3). split_and!; [done|done|].
    rewrite <- E2. cbn [sender_b]. by rewrite E3.
  - destruct Hr as (-> & Hs & -> & Hrr). rewrite !Z.eqb_refl. unfold handle_incoming_rr. cbn [Z.eqb Pos.eqb RTCP_RR RTCP_SR].
    apply (report_ok s g ssrc (fun srate m => foldl (handle_rr_block now srate) m rrv)); [done|done|].
    intros m Hm. destruct (rr_blocks_ok now (se_srate_tx s) rrv m Hrate Hrr Hm) as (H2 & -> & E3). split_and!; [done|done|].
    cbn [sender_b]. by rewrite E3.
  - destruct Hr as (-> & -> & Hv & _). rewrite !Z.eqb_refl. cbn [Z.eqb Pos.eqb RTCP_RR RTCP_SR RTCP_BYE]. by apply bye_ok.
  - destruct Hr as (_ & _ & _ & _ & Hf). assert (rh_pt hdr = RTCP_RTPFB \/ rh_pt hdr = RTCP_PSFB) as [-> | ->]; [|by exists s..].
    destruct f; cbn [fci_ok] in Hf; tauto.
  - exists s. split; [|done]. assert (forall t, t ∈ known_types -> (rh_pt hdr =? t) = false) as Hne
      by (intros t Ht; apply Z.eqb_neq; intros <-; by apply Hr).
    rewrite !Hne by (apply (bool_decide_unpack _); by vm_compute). done.
Qed.

(** ** RTP packets *)

Lemma source_rx_ok now srate hdr n s hdr' s' : 0 <= rtp_seq hdr < RTP_SEQ_MOD -> msource_ok s ->
  source_rx now srate hdr n s = Some (hdr', s') -> msource_ok s'.
Proof.
  intros Hq [Hs Hj Hl]. unfold source_rx. pose proof (update_seq_ok _ _ Hq Hs) as Hs'.
  assert (jitter (rtp_source_update_seq (ms_seq s) (rtp_seq hdr)).2 = jitter (ms_seq s)) as Ej
    by (unfold rtp_source_update_seq; repeat case_match; done).
  set (q := (rtp_source_update_seq (ms_seq s) (rtp_seq hdr)).2) in *.
  assert (forall ts arr q', rtp_source_calc_jitter q ts arr = Some q' -> source_ok q' /\ is_u32 (jitter q')) as Hjit.
  { intros ts arr q'. unfold rtp_source_calc_jitter. cbv zeta. destruct Hs'. repeat case_match; intros [= <-];
      (split; [by split|cbn; rewrite ?Ej; done || (apply wrap_range; lia)]). }
  destruct (_ && _).
  - destruct (rtp_source_calc_jitter q _ _) as [q'|] eqn:E; [|done]. intros [= _ <-]. destruct (Hjit _ _ _ E). by split.
  - intros [= _ <-]. split; cbn; [done|by rewrite Ej|done].
Qed.

Lemma new_source_ok seq peer : 0 <= seq < RTP_SEQ_MOD -> msource_ok (new_source seq peer).
Proof. intros. by repeat split; cbn; try lia. Qed.

(** The first packet of a member makes it a sender, if there is memory. *)
Definition abs_rx (now : clock) (srate_rx : Z) (hdr : rtp_header) (n : Z) (peer : sa) (g : mmap)
    : option (rtp_header * mmap) :=
  match abs_get (rtp_ssrc hdr) g with
  | (None, g) => Some (hdr, g)
  | (Some m, g) =>
      match mbr_s m, alloc_ok SOURCE_SIZEOF with
      | None, false => Some (hdr, g)
      | o, _ =>
          match source_rx now srate_rx hdr n (default (new_source (rtp_seq hdr) peer) o) with
          | None => None
          | Some (hdr, s) => Some (hdr, <[mbr_src m := with_s m (Some s)]> g)
          end
      end
  end.

(** The last step: the source of the member is stored, [n] senders counted. *)
Lemma rx_store_ok now s g m hdr sz src0 sc : sess_ok s g -> g !! mbr_src m = Some m ->
  0 <= rtp_seq hdr < RTP_SEQ_MOD -> msource_ok src0 ->
  sc + Z.of_nat (sender_b (Some m)) = se_senderc s + 1 ->
  let rest := (let* '(hdr, source) := lift (source_rx now (se_srate_rx s) hdr sz src0) in
               on_members (member_set (mbr_src m) (with_s m (Some source))) ;; ret hdr) (set_senderc sc s) in
  match source_rx now (se_srate_rx s) hdr sz src0 with
  | None => rest = None
  | Some (hdr', src1) => exists s', rest = Some (hdr', s') /\
      sess_ok s' (<[mbr_src m := with_s m (Some src1)]> g) /\ same_conf s s'
  end.
Proof.
  intros Hok Hl Hq Hs0 Hn rest. unfold rest. destruct (source_rx now (se_srate_rx s) hdr sz src0) as [[hdr' src1]|] eqn:E; [|done].
  unfold lift. unfold bind at 1.
  destruct (sess_member_ok s g _ m Hok Hl) as [_ Hm].
  destruct (set_member_ok s g (mbr_src m) m (with_s m (Some src1)) sc Hok Hl) as (s2 & E2 & Hok2 & Hc2); [done| | |].
  - destruct Hm. split; cbn; try done. intros ? [= <-]. by eapply source_rx_ok.
  - rewrite Hn. cbn [sender_b with_s mbr_s]. rewrite decide_True by eauto. done.
  - exists s2. by rewrite (bind_Some _ _ _ _ _ E2).
Qed.

Lemma rx_rtp_ok now hdr n peer s g : sess_ok s g -> is_u32 (rtp_ssrc hdr) -> 0 <= rtp_seq hdr < RTP_SEQ_MOD ->
  match abs_rx now (se_srate_rx s) hdr n peer g with
  | None => rtcp_sess_rx_rtp now hdr n peer s = None
  | Some (hdr', g') => exists s', rtcp_sess_rx_rtp now hdr n peer s = Some (hdr', s') /\ sess_ok s' g' /\ same_conf s s'
  end.
Proof.
  intros Hok Hs Hq. unfold rtcp_sess_rx_rtp, abs_rx. cbv zeta.
  destruct (get_member_ok s g _ Hok Hs) as (s1 & E1 & Hok1 & Hc1).
  rewrite (bind_Some _ _ _ _ _ E1). pose proof (abs_get_lookup (rtp_ssrc hdr) g) as Hl.
  destruct (abs_get (rtp_ssrc hdr) g) as [[m|] g1]; cbn [fst snd] in *; [|by exists s1].
  specialize (Hl m eq_refl). destruct (sess_member_ok s1 g1 _ m Hok1 Hl) as [Esrc Hm]. rewrite <- Esrc in *.
  rewrite (bind_Some _ _ _ _ _ (eq_refl : get s1 = _)).
  assert (se_srate_rx s1 = se_srate_rx s) as Er by apply Hc1. rewrite <- Er.
  assert (forall s', same_conf s1 s' -> same_conf s s') as Hc by (unfold same_conf in *; intuition congruence).
  destruct (mbr_s m) as [src0|] eqn:Em.
  - pose proof (rx_store_ok now s1 g1 m hdr n src0 (se_senderc s1) Hok1 Hl Hq (mm_s _ Hm _ Em)) as Hst.
    cbn [sender_b] in Hst. rewrite decide_True in Hst by eauto. specialize (Hst eq_refl). rewrite set_senderc_id in Hst.
    cbn [default]. rewrite (bind_Some _ _ _ _ _ (eq_refl : ret (Some src0) s1 = _)).
    destruct (source_rx _ _ _ _ _) as [[hdr' src1]|]; [|exact Hst]. destruct Hst as (s2 & E2 & Hok2 & Hc2). exists s2. auto.
  - destruct (alloc_ok SOURCE_SIZEOF); [|by exists s1].
    assert (u32 (se_senderc s1 + 1) = se_senderc s1 + 1) as Ew.
    { pose proof (senders_size_le g1). pose proof (sok_max _ _ Hok1). unfold MAX_MEMBERS in *.
      rewrite (sok_senderc _ _ Hok1). apply wrap_small; lia. }
    pose proof (rx_store_ok now s1 g1 m hdr n (new_source (rtp_seq hdr) peer) (u32 (se_senderc s1 + 1)) Hok1 Hl Hq
      (new_source_ok _ _ Hq)) as Hst.
    cbn [sender_b] in Hst. rewrite Em, decide_False in Hst by (by intros [? ?]). specialize (Hst ltac:(lia)).
    cbn [default]. rewrite (bind_Some _ _ _ _ _ (eq_refl : (modify (set_senderc (u32 (se_senderc s1 + 1))) ;;
      ret (Some (new_source (rtp_seq hdr) peer))) s1 = Some (_, set_senderc (u32 (se_senderc s1 + 1)) s1))).
    destruct (source_rx _ _ _ _ _) as [[hdr' src1]|]; [|done]. destruct Hst as (s2 & E2 & Hok2 & Hc2). exists s2. auto.
Qed.

End spec.
