(* ===== verification/RtcpReport.v ===== *)
(** * Reports of an RTCP session

    The encode handlers of a session work on its member table while the
    packet is written.  [Sim Q s s' mS m]: the program [mS] on a buffer and
    the session [s] does to the buffer what [m] does, the session satisfies
    [Q] afterwards, and it is [s'] unless there was an error.  With it the
    packets of a session are those of RtcpRound.v, and the session keeps its
    invariant also when the memory runs out halfway. *)

From S2P Require Import RtcpRound.
From S2P Require Export RtcpSessSpec RtpSock.

Definition Sim (Q : rtcp_sess -> Prop) (s s' : rtcp_sess) (mS : M (mbuf * rtcp_sess) Z) (m : M mbuf Z) : Prop :=
  forall mb, match m mb with
  | None => mS (mb, s) = None
  | Some (e, mb') => exists s1, mS (mb, s) = Some (e, (mb', s1)) /\ Q s1 /\ (e = 0 -> s1 = s')
  end.

Section sim.
Context `{Host}.
Context (Q : rtcp_sess -> Prop).

Lemma sim_lift s m : Q s -> Sim Q s s (on_mbuf m) m.
Proof. intros Hq mb. unfold on_mbuf, pair_state. cbn [fst snd]. destruct (m mb) as [[e mb']|]; [|done]. by exists s. Qed.

Lemma sim_ret s e : Q s -> Sim Q s s (ret e) (ret e).
Proof. intros Hq mb. by exists s. Qed.

Lemma sim_bind {A} s s' (m : M mbuf A) kS k : (forall a, Sim Q s s' (kS a) (k a)) ->
  Sim Q s s' (bind (on_mbuf m) kS) (bind m k).
Proof. intros Hk mb. unfold bind, on_mbuf, pair_state. cbn [fst snd]. destruct (m mb) as [[a mb']|]; [|done]. apply Hk. Qed.

Lemma sim_or s s' m kS k : Sim Q s s' kS k -> Sim Q s s' (on_mbuf m |; kS) (m |; k).
Proof.
  intros Hk mb. unfold or_err, bind, on_mbuf, pair_state. cbn [fst snd]. destruct (m mb) as [[e mb']|]; [|done].
  specialize (Hk mb'). destruct (k mb') as [[e2 mb2]|]; [|by rewrite Hk]. destruct Hk as (s1 & -> & Hq & He).
  exists s1. split_and!; [done|done|]. intros [_ E]%Z.lor_eq_0_iff. auto.
Qed.

Lemma sim_check s s' mS m kS k : Sim Q s s' mS m -> Sim Q s' s' kS k -> Sim Q s s' (check mS kS) (check m k).
Proof.
  intros Hm Hk mb. unfold check, bind. specialize (Hm mb). destruct (m mb) as [[e mb']|]; [|by rewrite Hm].
  destruct Hm as (s1 & -> & Hq & He). destruct (nz e) eqn:En; unfold nz in En.
  - exists s1. split_and!; [done|done|done].
  - apply negb_false_iff, Z.eqb_eq in En. rewrite (He En). apply Hk.
Qed.

Definition sim_ench (s s' : rtcp_sess) (eS : option (M (mbuf * rtcp_sess) Z)) (e : option (M mbuf Z)) : Prop :=
  Sim Q s s' (call_ench eS) (call_ench e).

(** Arguments that differ in the handler, which may only be called. *)
Definition sim_args (s s' : rtcp_sess) (aS : rtcp_args (mbuf * rtcp_sess)) (a : rtcp_args mbuf) : Prop :=
  match aS, a with
  | ArgsSr v eS, ArgsSr v' e => v = v' /\ sim_ench s s' eS e
  | ArgsRr x eS, ArgsRr x' e => x = x' /\ sim_ench s s' eS e
  | ArgsSdes eS, ArgsSdes e => sim_ench s s' eS e
  | ArgsBye v r, ArgsBye v' r' => v = v' /\ r = r' /\ s = s'
  | _, _ => False
  end.

Lemma sim_body s s' type count aS a : Q s -> sim_args s s' aS a ->
  Sim Q s s' (encode_body type count aS) (encode_body type count a) \/
  encode_body type count a = ret EINVAL /\ encode_body type count aS = ret EINVAL.
Proof.
  intros Hq Ha. unfold encode_body. destruct (bool_decide (type ∈ known_types)); cbn [negb]; [left|by right].
  destruct aS, a; try done; cbn [sim_args] in Ha.
  - destruct Ha as [-> Ha]. destruct (_ && _); [|done]. by apply sim_or.
  - destruct Ha as [-> Ha]. destruct (_ =? _); [|done]. by apply sim_or.
  - by destruct (_ =? _).
  - destruct Ha as (-> & -> & ->). destruct (_ =? _); [|done]. by apply sim_lift.
Qed.

Lemma sim_vencode s s' type count aS a : Q s -> Q s' -> sim_args s s' aS a ->
  Sim Q s s' (rtcp_vencode type count aS) (rtcp_vencode type count a).
Proof.
  intros Hq Hq' Ha. unfold rtcp_vencode. apply sim_bind. intros pos. apply sim_bind. intros [].
  destruct (sim_body s s' type count aS a Hq Ha) as [Hb|[-> ->]].
  - apply sim_check; [done|]. apply sim_check; by apply sim_lift.
  - intros mb. unfold check, bind, ret. by exists s.
Qed.

End sim.

(** ** The report blocks *)

(** A member after its block was made: what was lost until now is remembered. *)
Definition reported (m : rtp_member) : rtp_member :=
  match mbr_s m with
  | Some s =>
      match rtp_source_calc_fraction_lost (ms_seq s) with
      | Some (_, q) => with_s m (Some (with_seq s q))
      | None => m
      end
  | None => m
  end.

Definition block_of (now : clock) (m : rtp_member) : option rtcp_rr :=
  match mbr_s m with
  | Some s =>
      match rtp_source_calc_fraction_lost (ms_seq s) with
      | Some (fraction, q) => Some (report_block now (mbr_src m) (with_seq s q) fraction)
      | None => None
      end
  | None => None
  end.

(** The fraction lost of every source is within the arithmetic of [int]. *)
Definition reportable (m : rtp_member) : Prop :=
  forall s, mbr_s m = Some s -> is_Some (rtp_source_calc_fraction_lost (ms_seq s)).

Definition clock_ok (now : clock) : Prop := is_u32 (ntp_hi (ntp_time_get now)) /\ is_u32 (ntp_lo (ntp_time_get now)).

Lemma ntp_compact_range ntp : is_u32 (ntp_lo ntp) -> is_u32 (ntp_compact ntp).
Proof.
  intros Hl. unfold ntp_compact. change 0xffff with (Z.ones 16). rewrite Z.land_ones, Z.shiftl_mul_pow2, Z.shiftr_div_pow2 by lia.
  rewrite wrap_small by dlia. rewrite lor_add by dlia. dlia.
Qed.

Lemma fraction_ok q f q' : source_ok q -> rtp_source_calc_fraction_lost q = Some (f, q') ->
  source_ok q' /\ is_u8 f /\ cycles q' = cycles q /\ max_seq q' = max_seq q /\ jitter q' = jitter q.
Proof.
  intros [] . unfold rtp_source_calc_fraction_lost. cbv zeta. repeat case_match; try done; intros [= <- <-];
    (split_and!; [by split|..]; try done; try lia; apply wrap_range; lia).
Qed.

Lemma reported_src m : mbr_src (reported m) = mbr_src m.
Proof. unfold reported. repeat case_match; done. Qed.

Lemma reported_sender m : is_Some (mbr_s (reported m)) <-> is_Some (mbr_s m).
Proof. unfold reported. repeat case_match; cbn; simplify_eq; split; intros [? ?]; eauto; congruence. Qed.

Lemma reported_ok m : member_ok m -> member_ok (reported m).
Proof.
  intros Hm. unfold reported. destruct (mbr_s m) as [s|] eqn:E; [|done].
  destruct (rtp_source_calc_fraction_lost _) as [[f q]|] eqn:Ef; [|done]. pose proof Hm as [Hs Hl Hj Hr Hso].
  destruct (Hso s E) as [Hq Hji Hla]. destruct (fraction_ok _ _ _ Hq Ef) as (Hq' & _ & _ & _ & Ej).
  split; cbn; try done. intros ? [= <-]. split; cbn; [done|by rewrite Ej|done].
Qed.

Lemma report_block_ok now m rr : member_ok m -> block_of now m = Some rr -> rr_ok rr.
Proof.
  intros [Hsrc _ _ _ Hso]. unfold block_of. destruct (mbr_s m) as [s|] eqn:E; [|done].
  destruct (rtp_source_calc_fraction_lost _) as [[f q]|] eqn:Ef; [|done]. intros [= <-].
  destruct (Hso s eq_refl) as [Hq Hji Hla]. destruct (fraction_ok _ _ _ Hq Ef) as ([Hm Hc Hcm _ _] & Hf & _ & _ & Ej).
  unfold report_block. split; cbn [rr_ssrc rr_fraction rr_lost rr_last_seq rr_jitter rr_lsr rr_dlsr with_seq ms_seq ms_last_sr ms_sr_recv];
    [done|done| | | | |].
  - unfold rtp_source_calc_lost. repeat case_match; lia.
  - unfold RTP_SEQ_MOD in *. rewrite (Z_div_mod_eq_full (cycles q) 65536), Hcm, Z.add_0_r, Z.mul_comm.
    change 65536 with (2 ^ 16). rewrite lor_add by dlia. dlia.
  - rewrite Z.shiftr_div_pow2, Ej by lia. dlia.
  - unfold calc_lsr. case_match; [by apply ntp_compact_range|lia].
  - unfold calc_dlsr. case_match; [apply wrap_range; lia|lia].
Qed.

Definition reported_buckets (bs : list (list rtp_member)) : list (list rtp_member) :=
  (fun b : list rtp_member => reported <$> b) <$> bs.
Definition reported_or (m m' : rtp_member) : Prop := m' = m \/ m' = reported m.

Section apply.
Context `{Host} (now : clock).

Abbreviation ah := (sender_apply_handler now).

(** Whatever the writes do. *)
Lemma apply_one_rel m mb stop m' mb' : ah m mb = Some ((stop, m'), mb') -> reported_or m m' /\ (stop = false -> m' = reported m).
Proof.
  unfold sender_apply_handler, reported_or, reported. destruct (mbr_s m) as [s|]; [|intros; inv_ret; tauto].
  destruct (rtp_source_calc_fraction_lost (ms_seq s)) as [[f q]|]; [|done].
  intros (x & ? & ? & Hk)%bind_inv. inv_ret. apply bind_inv in Hk as (? & ? & ? & ?). inv_ret. tauto.
Qed.

Lemma apply_list_rel l mb stop l' mb' : list_apply_mut ah l mb = Some ((stop, l'), mb') ->
  Forall2 reported_or l l' /\ (stop = false -> l' = reported <$> l).
Proof.
  revert mb stop l'. induction l as [|m l IH]; intros mb stop l' E; cbn [list_apply_mut] in E; [by inv_ret|].
  apply bind_inv in E as ([stop1 m1] & mb1 & E1 & E). apply apply_one_rel in E1 as [Hr Hs].
  destruct stop1.
  - inv_ret. split; [|done]. constructor; [done|]. apply Forall_Forall2_diag, Forall_true. by left.
  - apply bind_inv in E as ([stop2 l2] & mb2 & E2 & E). inv_ret. apply IH in E2 as [Hf Hs2].
    split; [by constructor|]. intros Hst. by rewrite (Hs2 Hst), (Hs eq_refl).
Qed.

Lemma insert_middle {A} (l1 : list A) x y l2 : <[length l1 := x]> (l1 ++ y :: l2) = l1 ++ x :: l2.
Proof. rewrite insert_app_r_alt, Nat.sub_diag by lia. done. Qed.

Lemma apply_hash_rel bs2 bs1 mb stop bs' mb' :
  hash_apply_mut ah (length bs2) (length bs1) (bs1 ++ bs2) mb = Some ((stop, bs'), mb') ->
  exists bs2', bs' = bs1 ++ bs2' /\ Forall2 (Forall2 reported_or) bs2 bs2' /\ (stop = false -> bs2' = reported_buckets bs2).
Proof.
  revert bs1 mb. induction bs2 as [|b bs2 IH]; intros bs1 mb E; cbn [hash_apply_mut length] in E.
  { inv_ret. exists []. by rewrite app_nil_r. }
  rewrite list_lookup_middle in E by done. apply bind_inv in E as ([stop1 b1] & mb1 & E1 & E).
  apply apply_list_rel in E1 as [Hr Hs]. rewrite insert_middle in E. destruct stop1.
  - inv_ret. exists (b1 :: bs2). split_and!; [done| |done]. constructor; [done|].
    apply Forall_Forall2_diag, Forall_true. intros x. apply Forall_Forall2_diag, Forall_true. by left.
  - replace (bs1 ++ b1 :: bs2) with ((bs1 ++ [b1]) ++ bs2) in E by (by rewrite <- app_assoc).
    replace (S (length bs1)) with (length (bs1 ++ [b1])) in E by (rewrite length_app; simpl; lia).
    destruct (IH _ _ E) as (bs2' & -> & Hf & Hs2). exists (b1 :: bs2'). split_and!; [by rewrite <- app_assoc|by constructor|].
    intros Hst. by rewrite (Hs2 Hst), (Hs eq_refl).
Qed.

(** With memory: the blocks are written and every member is reported. *)
Hypothesis Hoom : no_oom.

Definition Outputs {A} (m : M mbuf A) (bs : list Z) (a : A) : Prop := forall mb, mbuf_wf mb ->
  mb_pos mb + zlength bs < WRITE_MAX -> exists mb', m mb = Some (a, mb') /\ mbuf_wf mb' /\ written mb bs mb'.

Lemma outputs_bind {A B} (m : M mbuf A) (k : A -> M mbuf B) bs1 bs2 a b :
  Outputs m bs1 a -> Outputs (k a) bs2 b -> Outputs (bind m k) (bs1 ++ bs2) b.
Proof.
  intros Hm Hk mb Hwf Hb. rewrite length_app in Hb. destruct (Hm mb Hwf) as (mb1 & E1 & Hwf1 & W1); [lia|].
  destruct (Hk mb1 Hwf1) as (mb2 & E2 & Hwf2 & W2); [rewrite (wr_pos _ _ _ W1); lia|].
  exists mb2. rewrite (bind_Some _ _ _ _ _ E1). split_and!; [done|done|by apply (written_app _ _ mb1)].
Qed.

Lemma outputs_ret {A} (a : A) : Outputs (ret a) [] a.
Proof. intros mb Hwf _. exists mb. split_and!; [done|done|by apply written_nil]. Qed.

Definition blocks (ms : list rtp_member) : list rtcp_rr := omap (block_of now) ms.
Definition blocks_bytes (ms : list rtp_member) : list Z := mjoin (rr_bytes <$> blocks ms).

Lemma blocks_bytes_app l1 l2 : blocks_bytes (l1 ++ l2) = blocks_bytes l1 ++ blocks_bytes l2.
Proof. unfold blocks_bytes, blocks. by rewrite omap_app, fmap_app, join_app. Qed.

Lemma apply_one_outputs m : member_ok m -> reportable m -> Outputs (ah m) (blocks_bytes [m]) (false, reported m).
Proof.
  intros Hm Hr. pose proof (report_block_ok now m) as Hb.
  unfold sender_apply_handler, reported, blocks_bytes, blocks, block_of in *. cbn [omap list_omap]. unfold reportable in Hr.
  destruct (mbr_s m) as [s|]; [|apply outputs_ret]. destruct (Hr s eq_refl) as [[f q] Ef]. rewrite Ef in *.
  specialize (Hb _ Hm eq_refl). set (rr := report_block _ _ _ _) in *.
  match goal with |- Outputs ?c _ ?v => change (Outputs c (rr_bytes rr ++ []) v) end. rewrite app_nil_r. intros mb Hwf Hlt.
  destruct (rr_encode_ok Hoom _ Hb mb Hwf) as (mb1 & E1 & Hwf1 & W1); [done|].
  exists mb1. rewrite (bind_Some _ _ _ _ _ (eq_refl : lift (Some (f, q)) mb = _)). cbn beta iota. fold rr.
  by rewrite (bind_Some _ _ _ _ _ E1).
Qed.

Lemma apply_list_outputs l : Forall member_ok l -> Forall reportable l ->
  Outputs (list_apply_mut ah l) (blocks_bytes l) (false, reported <$> l).
Proof.
  induction l as [|m l IH]; intros Hm Hr; [apply outputs_ret|]. inv Hm. inv Hr. cbn [list_apply_mut].
  rewrite (blocks_bytes_app [m] l : blocks_bytes (m :: l) = _).
  eapply outputs_bind; [by apply apply_one_outputs|]. cbn beta iota. rewrite <- (app_nil_r (blocks_bytes l)).
  eapply outputs_bind; [by apply IH|]. apply outputs_ret.
Qed.

Lemma apply_hash_outputs bs2 bs1 : Forall member_ok (mjoin bs2) -> Forall reportable (mjoin bs2) ->
  Outputs (hash_apply_mut ah (length bs2) (length bs1) (bs1 ++ bs2)) (blocks_bytes (mjoin bs2))
    (false, bs1 ++ reported_buckets bs2).
Proof.
  revert bs1. induction bs2 as [|b bs2 IH]; intros bs1; cbn [hash_apply_mut length].
  { intros _ _. change (reported_buckets []) with ([] : list (list rtp_member)). rewrite !app_nil_r. apply outputs_ret. }
  change (mjoin (b :: bs2)) with (b ++ mjoin bs2). intros [? ?]%Forall_app [? ?]%Forall_app.
  rewrite list_lookup_middle, blocks_bytes_app by done. eapply outputs_bind; [by apply apply_list_outputs|].
  cbn beta iota. rewrite insert_middle.
  replace (bs1 ++ (reported <$> b) :: bs2) with ((bs1 ++ [reported <$> b]) ++ bs2) by (by rewrite <- app_assoc).
  replace (S (length bs1)) with (length (bs1 ++ [reported <$> b])) by (rewrite length_app; simpl; lia).
  change (reported_buckets (b :: bs2)) with ([reported <$> b] ++ reported_buckets bs2). rewrite app_assoc. by apply IH.
Qed.

End apply.

(** ** The member table after a report *)

Lemma reported_or_src m m' : reported_or m m' -> mbr_src m' = mbr_src m.
Proof. intros [-> | ->]; [done|apply reported_src]. Qed.

Lemma reported_or_ok m m' : reported_or m m' -> member_ok m -> member_ok m'.
Proof. intros [-> | ->]; [done|apply reported_ok]. Qed.

Lemma reported_or_sender m m' : reported_or m m' -> is_Some (mbr_s m') <-> is_Some (mbr_s m).
Proof. intros [-> | ->]; [done|apply reported_sender]. Qed.

Lemma reported_or_lookup ms ms' k : Forall2 reported_or ms ms' ->
  option_Forall2 reported_or (member_map ms !! k) (member_map ms' !! k).
Proof.
  induction 1 as [|m m' ms ms' Hr _ IH]; [by constructor|]. rewrite !member_map_cons, (reported_or_src _ _ Hr).
  destruct (decide (mbr_src m = k)) as [->|Hne]; [rewrite !lookup_insert_eq; by constructor|by rewrite !lookup_insert_ne].
Qed.

Lemma reported_or_sources ms ms' : Forall2 reported_or ms ms' -> sources ms' = sources ms.
Proof. unfold sources. induction 1 as [|m m' ms ms' Hr _ IH]; [done|]. rewrite !fmap_cons, IH. f_equal. by apply reported_or_src. Qed.

Lemma reported_or_join bs bs' : Forall2 (Forall2 reported_or) bs bs' -> Forall2 reported_or (mjoin bs) (mjoin bs').
Proof. induction 1; [constructor|]. by apply Forall2_app. Qed.

Lemma reported_table_ok h bs' : table_ok h -> Forall2 (Forall2 reported_or) (h_bucket h) bs' ->
  table_ok (Hash bs' (h_bsize h)).
Proof.
  intros [Hb Hl Hk Hn] Hr. split; cbn [h_bucket h_bsize]; [done|by rewrite <- (Forall2_length Hr)| |].
  - intros i b' m' Hi Hm'. destruct (Forall2_lookup_r _ _ _ _ _ Hr Hi) as (b & Eb & Hbb).
    apply list_elem_of_lookup in Hm' as [j Hj]. destruct (Forall2_lookup_r _ _ _ _ _ Hbb Hj) as (m & Em & Hmm).
    rewrite (reported_or_src _ _ Hmm). apply (Hk i b m Eb). by apply list_elem_of_lookup_2 in Em.
  - by rewrite (reported_or_sources _ _ (reported_or_join _ _ Hr)).
Qed.

Lemma same_senders_size (g g' : mmap) : (forall k, option_Forall2 reported_or (g !! k) (g' !! k)) ->
  size (senders g') = size (senders g).
Proof.
  intros Hr. rewrite <- !size_dom. f_equal. apply set_eq. intros k. rewrite !elem_of_dom. specialize (Hr k).
  unfold senders, is_Some. setoid_rewrite map_lookup_filter_Some. unfold is_sender. cbn [snd].
  inv Hr as [m m' Hm E E'|E E']; [|naive_solver]. pose proof (reported_or_sender _ _ Hm) as Hi.
  split; intros (x & Hx & Hs); simplify_eq; [exists m|exists m']; (split; [done|by apply Hi]).
Qed.

Lemma member_map_reported ms : member_map (reported <$> ms) = reported <$> member_map ms.
Proof.
  induction ms as [|m ms IH]; [done|]. rewrite fmap_cons, !member_map_cons, IH, reported_src. by rewrite fmap_insert.
Qed.

Lemma reported_sess_ok s g h bs' : sess_ok s g -> se_members s = Some h ->
  Forall2 (Forall2 reported_or) (h_bucket h) bs' ->
  exists g', sess_ok (set_members (Some (Hash bs' (h_bsize h))) s) g' /\
    (bs' = reported_buckets (h_bucket h) -> g' = reported <$> g).
Proof.
  intros [(h1 & Eh & Ht & Hg) Hc Hmax Hsc Hty Hrate Htx] Eh' Hr. rewrite Eh in Eh'. injection Eh' as ->.
  pose proof (reported_or_join _ _ Hr) as Hj. pose proof (reported_table_ok _ _ Ht Hr) as Ht'.
  exists (table_map (Hash bs' (h_bsize h))). subst g. unfold table_map, table_members in *. cbn [h_bucket] in *.
  assert (forall k, option_Forall2 reported_or (member_map (mjoin (h_bucket h)) !! k) (member_map (mjoin bs') !! k)) as Hlk
    by (intros k; by apply reported_or_lookup).
  assert (size (member_map (mjoin bs')) = size (member_map (mjoin (h_bucket h)))) as Esz.
  { rewrite !member_map_size by (apply Ht || apply Ht'). symmetry. by apply (Forall2_length Hj). }
  split; [split|]; cbn [set_members se_members se_memberc se_senderc se_srate_tx se_txstat]; rewrite ?Esz; try done.
  - by eexists.
  - by rewrite Hsc, (same_senders_size _ _ Hlk).
  - intros k m' E'. specialize (Hlk k). rewrite E' in Hlk. inv Hlk as [m ? Hm E|].
    destruct (map_Forall_lookup_1 _ _ _ _ Hty (eq_sym E)) as [<- Hok].
    split; [by apply reported_or_src|by apply (reported_or_ok m)].
  - intros ->. unfold reported_buckets. rewrite <- member_map_reported. f_equal.
    generalize (h_bucket h). intros bs. induction bs as [|b bs IH]; [done|].
    change (mjoin (b :: bs)) with (b ++ mjoin bs). rewrite fmap_app, <- IH. done.
Qed.

(** ** The packets of a session *)

Definition rtcp_msg_of (count pt : Z) (r : rtcp_r) : rtcp_msg :=
  RtcpMsg (RtcpHdr RTCP_VERSION 0 count pt (zlength (padded4 (body_bytes r)) / 4)) r.

Definition report_msg (now : clock) (ssrc : Z) (s : rtcp_sess) (rrv : list rtcp_rr) : rtcp_msg :=
  let tx := se_txstat s in
  if nz (tx_jfs_rt_ref tx) then
    rtcp_msg_of (se_senderc s) RTCP_SR
      (Sr ssrc (ntp_hi (ntp_time_get now)) (ntp_lo (ntp_time_get now)) (sr_rtp_ts now tx (se_srate_tx s)) (tx_psent tx) (tx_osent tx) rrv)
  else rtcp_msg_of (se_senderc s) RTCP_RR (RrMsg ssrc rrv).

Definition cname_items (cname : option (list Z)) : list rtcp_sdes_item := items_of [(RTCP_SDES_CNAME, cname)].
Definition sdes_msg (ssrc : Z) (cname : option (list Z)) : rtcp_msg :=
  rtcp_msg_of 1 RTCP_SDES (SdesMsg [Sdes ssrc (cname_items cname)]).
Definition bye_msg (ssrc : Z) : rtcp_msg := rtcp_msg_of 1 RTCP_BYE (Bye [ssrc] (Some bye_text)).

Definition cname_ok (cname : option (list Z)) : Prop :=
  match cname with Some c => zlength c < 2 ^ 8 /\ bytes_ok c | None => True end.

Lemma msg_of_length r : zlength (padded4 (body_bytes r)) / 4 * 4 = zlength (padded4 (body_bytes r)).
Proof. pose proof (padded4_mod (body_bytes r)). dlia. Qed.

Lemma msg_of_wire_ok count pt r : is_u8 pt -> 0 <= count < 2 ^ 5 -> zlength (body_bytes r) < 1000 ->
  (forall len, r_ok 0 (RtcpHdr RTCP_VERSION 0 count pt len) r) ->
  match r with Fb _ _ _ (Twccv _ | Afb _) | ROther => False | _ => True end ->
  wire_ok (rtcp_msg_of count pt r).
Proof.
  intros Hp Hc Hl Hr Hb. split; [split|done|apply msg_of_length|done].
  - split; cbn; try done. pose proof (length_padded4 (body_bytes r)). unfold pad4 in *. dlia.
  - apply Hr.
Qed.

Lemma cname_items_ok cname : cname_ok cname -> Forall item_ok (cname_items cname).
Proof. destruct cname as [c|]; [|constructor]. intros [? ?]. repeat constructor; cbn; done || lia. Qed.

Lemma sdes_wire_ok ssrc cname : is_u32 ssrc -> cname_ok cname -> wire_ok (sdes_msg ssrc cname).
Proof.
  intros Hs Hc. pose proof (cname_items_ok _ Hc) as Hi. apply msg_of_wire_ok; [done|done| |by repeat split; try apply Forall_singleton|done].
  cbn [body_bytes]. change (mjoin (sdes_bytes <$> [?x])) with (sdes_bytes x ++ []). rewrite app_nil_r.
  unfold sdes_bytes. rewrite length_padded4, !length_app, length_be_bytes. cbn [length sd_itemv sd_src].
  assert (zlength (mjoin (item_bytes <$> cname_items cname)) < 258) as Hlen; [|unfold pad4; dlia].
  destruct cname as [c|]; [|cbn; lia]. destruct Hc as [Hc _].
  change (mjoin (item_bytes <$> cname_items (Some c))) with (item_bytes (SdesItem RTCP_SDES_CNAME c) ++ []).
  rewrite app_nil_r. cbn [item_bytes length si_data]. lia.
Qed.

Lemma length_rr_bytes rr : zlength (rr_bytes rr) = 24.
Proof. unfold rr_bytes. by rewrite !length_app, !length_be_bytes. Qed.

Lemma report_wire_ok now ssrc s g rrv : clock_ok now -> is_u32 ssrc -> sess_ok s g -> Forall rr_ok rrv ->
  zlength rrv = se_senderc s -> wire_ok (report_msg now ssrc s rrv).
Proof.
  intros [Hhi Hlo] Hs Hok Hrr Hl. pose proof (sok_max _ _ Hok) as Hmax. pose proof (senders_size_le g).
  pose proof (sok_senderc _ _ Hok). destruct (sok_txstat _ _ Hok) as [Hps Hos]. unfold MAX_MEMBERS in *.
  assert (zlength (mjoin (rr_bytes <$> rrv)) <= 192) as Hlen
    by (rewrite (length_mjoin_const _ _ 24 length_rr_bytes); lia).
  unfold report_msg. destruct (nz _); apply msg_of_wire_ok; try done; try lia; cbn [body_bytes r_ok].
  - rewrite length_app. match goal with |- Z.of_nat (length ?l + _) < _ => change (length l) with 24%nat end. lia.
  - intros len. split_and!; try done. assert (is_u32 (sr_rtp_ts now (se_txstat s) (se_srate_tx s))) by (apply wrap_range; lia).
    by repeat (apply Forall_cons; [done|]).
  - rewrite length_app, length_be_bytes. lia.
Qed.

Section report.
Context `{Host} (now : clock) (ssrc : Z).

Definition keeps (s1 : rtcp_sess) : Prop := exists g1, sess_ok s1 g1.

(** The table a completed report leaves. *)
Definition reported_sess (s : rtcp_sess) : rtcp_sess :=
  match se_members s with
  | Some h => set_members (Some (Hash (reported_buckets (h_bucket h)) (h_bsize h))) s
  | None => s
  end.

(** The encode handler, as far as the buffer is concerned. *)
Definition blocks_handler (h : hash rtp_member) : M mbuf Z :=
  let* '(stop, _) := hash_apply_mut (sender_apply_handler now) (Z.to_nat (h_bsize h)) 0 (h_bucket h) in
  ret (if stop : bool then ENOMEM else 0).

Lemma bsize_length h : table_ok h -> Z.to_nat (h_bsize h) = length (h_bucket h).
Proof. intros [-> Hl _ _]. lia. Qed.

Lemma encode_handler_sim s g h : sess_ok s g -> se_members s = Some h ->
  Sim keeps s (reported_sess s) (encode_handler now) (blocks_handler h).
Proof.
  intros Hok Eh mb. pose proof Hok as [(h1 & Eh1 & Ht & _) _ _ _ _ _ _]. rewrite Eh in Eh1. injection Eh1 as <-.
  unfold encode_handler, blocks_handler, reported_sess, on_mbuf, pair_state, modify, bind, get, ret. cbn [fst snd].
  rewrite Eh, (bsize_length _ Ht). cbn [fst snd].
  destruct (hash_apply_mut _ _ _ _ mb) as [[[stop bs'] mb']|] eqn:E; [|done].
  destruct (apply_hash_rel now (h_bucket h) [] mb stop bs' mb' E) as (bs2 & -> & Hr & Hs). cbn [app] in *.
  destruct (reported_sess_ok s g h bs2 Hok Eh Hr) as (g' & Hok' & _).
  eexists. split; [done|]. cbn [fst snd]. split; [by exists g'|].
  destruct stop; [by intros [=]|]. intros _. by rewrite (Hs eq_refl).
Qed.

Lemma sim_id s (m : M mbuf Z) : keeps s -> forall mS, (forall mb, mS (mb, s) = on_mbuf m (mb, s)) -> Sim keeps s s mS m.
Proof. intros Hk mS E mb. rewrite E. apply sim_lift; done. Qed.

Lemma mk_sdes_sim s : keeps s -> Sim keeps s s (mk_sdes ssrc)
  (rtcp_vencode RTCP_SDES 1 (ArgsSdes (Some (rtcp_sdes_encode ssrc [(RTCP_SDES_CNAME, se_cname s)])))).
Proof. intros Hk. unfold mk_sdes. apply sim_vencode; [done|done|]. apply sim_id; done. Qed.

Definition sr_session (s : rtcp_sess) : rtcp_sess := set_txstat (unsynced (se_txstat s)) s.

Lemma sr_session_ok s g : sess_ok s g -> sess_ok (sr_session s) g.
Proof. intros [? ? ? ? ? ? []]. by split. Qed.

Definition sr_type (s : rtcp_sess) : Z := if nz (tx_jfs_rt_ref (se_txstat s)) then RTCP_SR else RTCP_RR.
Definition sr_args (s : rtcp_sess) (h : hash rtp_member) : rtcp_args mbuf :=
  let tx := se_txstat s in
  if nz (tx_jfs_rt_ref tx) then
    ArgsSr [ssrc; ntp_hi (ntp_time_get now); ntp_lo (ntp_time_get now); sr_rtp_ts now tx (se_srate_tx s);
            tx_psent tx; tx_osent tx] (Some (blocks_handler h))
  else ArgsRr ssrc (Some (blocks_handler h)).

Lemma mk_sr_sim s g h : sess_ok s g -> se_members s = Some h ->
  Sim keeps s (reported_sess (sr_session s)) (mk_sr now ssrc) (rtcp_vencode (sr_type s) (se_senderc s) (sr_args s h)).
Proof.
  intros Hok Eh. pose proof (sr_session_ok _ _ Hok) as Hok'. pose proof (encode_handler_sim _ _ h Hok' Eh) as He.
  assert (keeps (sr_session s)) as Hk by (by exists g).
  assert (keeps (reported_sess (sr_session s))) as Hk'.
  { unfold reported_sess. cbn [sr_session set_txstat se_members]. rewrite Eh.
    destruct (reported_sess_ok (sr_session s) g h (reported_buckets (h_bucket h)) Hok' Eh) as (g' & Hg & _); [|by exists g'].
    unfold reported_buckets. apply Forall2_fmap_r, Forall_Forall2_diag, Forall_true. intros b.
    apply Forall2_fmap_r, Forall_Forall2_diag, Forall_true. by right. }
  intros mb. assert (mk_sr now ssrc (mb, s) =
    (if nz (tx_jfs_rt_ref (se_txstat s)) then
       rtcp_vencode RTCP_SR (se_senderc s)
         (ArgsSr [ssrc; ntp_hi (ntp_time_get now); ntp_lo (ntp_time_get now); sr_rtp_ts now (se_txstat s) (se_srate_tx s);
                  tx_psent (se_txstat s); tx_osent (se_txstat s)] (Some (encode_handler now)))
     else rtcp_vencode RTCP_RR (se_senderc s) (ArgsRr ssrc (Some (encode_handler now)))) (mb, sr_session s)) as -> by done.
  unfold sr_type, sr_args. cbv zeta.
  destruct (nz (tx_jfs_rt_ref (se_txstat s))); [refine (sim_vencode keeps _ _ RTCP_SR _ _ _ Hk Hk' _ mb)
    |refine (sim_vencode keeps _ _ RTCP_RR _ _ _ Hk Hk' _ mb)]; split; done || exact He.
Qed.

End report.
