(* ===== verification/RtpSockThms.v ===== *)
(** * Receiving on an RTP socket

    The receive loop ends on every buffer and hands each decoded message to
    the session, which refines the map of its members all the way; on a
    compound packet made by the library it delivers exactly its messages. *)

From S2P Require Import RtcpRound MbufThms MbufParse.
From S2P Require Export RtcpReport RtpSock.

(** A socket whose session, if it has one, stands for the map [og]. *)
Definition sock_ok (rs : rtp_sock) (og : option mmap) : Prop :=
  match rs_rtcp rs, og with
  | Some s, Some g => sess_ok s g
  | None, None => True
  | _, _ => False
  end.

Definition srate_of (rs : rtp_sock) : Z := match rs_rtcp rs with Some s => se_srate_tx s | None => 0 end.

(** Only the member table of the session has changed. *)
Definition sock_conf (rs rs' : rtp_sock) : Prop :=
  set_rtcp None rs' = set_rtcp None rs /\
  match rs_rtcp rs, rs_rtcp rs' with
  | Some s, Some s' => same_conf s s'
  | None, None => True
  | _, _ => False
  end.

Lemma sock_conf_refl rs : sock_conf rs rs.
Proof. split; [done|]. by destruct (rs_rtcp rs). Qed.

Lemma sock_conf_trans rs1 rs2 rs3 : sock_conf rs1 rs2 -> sock_conf rs2 rs3 -> sock_conf rs1 rs3.
Proof.
  intros [E1 H1] [E2 H2]. split; [congruence|].
  destruct (rs_rtcp rs1), (rs_rtcp rs2), (rs_rtcp rs3); try done. unfold same_conf in *. intuition congruence.
Qed.

Lemma sock_conf_srate rs rs' : sock_conf rs rs' -> srate_of rs' = srate_of rs.
Proof. intros [_ Hc]. unfold srate_of. destruct (rs_rtcp rs), (rs_rtcp rs'); try done. apply Hc. Qed.

Lemma sock_conf_rtcph rs rs' : sock_conf rs rs' -> rs_rtcph rs' = rs_rtcph rs.
Proof. intros [E _]. destruct rs, rs'. unfold set_rtcp in E. cbn in *. congruence. Qed.

Section recv.
Context `{Host}.

(** What a sequence of messages does to the members. *)
Fixpoint abs_msgs (clk : nat -> clock) (i : nat) (srate_tx : Z) (msgs : list rtcp_msg) (g : mmap) : mmap :=
  match msgs with
  | [] => g
  | msg :: msgs => abs_msgs clk (S i) srate_tx msgs (abs_handler (clk i) srate_tx msg g)
  end.

Definition delivered (rs : rtp_sock) (src : sa) (msgs : list rtcp_msg) : list event :=
  if rs_rtcph rs then RtcpEvent src <$> msgs else [].

Lemma sock_handler_ok now E msg rs og : sock_ok rs og -> msg_ok E msg ->
  exists rs', on_rtcp tt (rtcp_handler now msg) rs = Some (tt, rs') /\
    sock_ok rs' (abs_handler now (srate_of rs) msg <$> og) /\ sock_conf rs rs'.
Proof.
  intros Hok Hm. unfold on_rtcp, sock_ok, srate_of in *. destruct (rs_rtcp rs) as [s|] eqn:Es, og as [g|]; try done.
  - destruct (rtcp_handler_ok now E msg s g Hok Hm) as (s' & E' & Hok' & Hc). rewrite E'. eexists. split; [done|].
    split; [done|]. split; [done|]. rewrite Es. done.
  - exists rs. rewrite Es. split_and!; [done|done|apply sock_conf_refl].
Qed.

(** One round of the loop on a message, given what the others do. *)
Lemma recv_step fuel clk src i mb rs mb1 e msg rs1 evs st2 :
  rtcp_decode mb = Some ((e, Some msg), mb1) ->
  on_rtcp tt (rtcp_handler (clk i) msg) rs = Some (tt, rs1) -> sock_conf rs rs1 ->
  rtcp_recv_loop fuel clk src (S i) (mb1, rs1) = Some (delivered rs1 src evs, st2) ->
  rtcp_recv_loop (S fuel) clk src i (mb, rs) = Some (delivered rs src (msg :: evs), st2).
Proof.
  intros Ed Eh Hc Hr. cbn [rtcp_recv_loop]. unfold on_mbuf, pair_state. unfold bind at 1. cbn [fst snd]. rewrite Ed.
  unfold on_sock. unfold bind at 1. cbn [fst snd]. rewrite Eh. unfold bind at 1. cbn [get snd].
  rewrite (bind_Some _ _ _ _ _ Hr). unfold delivered. rewrite (sock_conf_rtcph _ _ Hc). by destruct (rs_rtcph rs).
Qed.

Lemma recv_loop_ok fuel clk src i mb rs og : mbuf_wf mb -> sock_ok rs og -> mbuf_get_left mb < Z.of_nat fuel ->
  exists msgs mb' rs', rtcp_recv_loop fuel clk src i (mb, rs) = Some (delivered rs src msgs, (mb', rs')) /\
    advanced mb mb' /\ Forall (msg_ok (mb_end mb)) msgs /\ 4 * zlength msgs <= mbuf_get_left mb /\
    sock_ok rs' (abs_msgs clk i (srate_of rs) msgs <$> og) /\ sock_conf rs rs'.
Proof.
  revert i mb rs og. induction fuel as [|fuel IH]; intros i mb rs og Hwf Hok Hf.
  { unfold mbuf_get_left in Hf. case_match; lia. }
  destruct (rtcp_decode_spec mb Hwf) as (e & o & mb1 & Ed & Ha & Ho). destruct o as [msg|].
  - destruct Ho as (-> & Hp & _ & Hm). destruct (sock_handler_ok (clk i) _ msg rs og Hok Hm) as (rs1 & Eh & Hok1 & Hc1).
    assert (mbuf_get_left mb1 + 4 <= mbuf_get_left mb) as Hl.
    { unfold mbuf_get_left. rewrite (adv_end _ _ Ha). unfold RTCP_HDR_SIZE in Hp. repeat case_match; lia. }
    destruct (IH (S i) mb1 rs1 _ (advanced_wf _ _ Hwf Ha) Hok1) as (msgs & mb2 & rs2 & E2 & Ha2 & Hm2 & Hl2 & Hok2 & Hc2); [lia|].
    exists (msg :: msgs), mb2, rs2. rewrite (adv_end _ _ Ha) in Hm2. rewrite (sock_conf_srate _ _ Hc1) in Hok2. split_and!.
    + by apply (recv_step _ _ _ _ _ _ mb1 0 msg rs1).
    + by apply (advanced_trans _ mb1).
    + by constructor.
    + cbn [length]. lia.
    + cbn [abs_msgs]. destruct og; done.
    + by apply (sock_conf_trans _ rs1).
  - exists [], mb1, rs. cbn [rtcp_recv_loop]. unfold on_mbuf, pair_state, bind. cbn [fst snd]. rewrite Ed. split_and!.
    + unfold delivered. by destruct (rs_rtcph rs).
    + done.
    + constructor.
    + unfold mbuf_get_left. simpl. case_match; lia.
    + by destruct og.
    + apply sock_conf_refl.
Qed.

End recv.

(** ** Compound packets *)

Section compound.
Context `{Host}.
Hypothesis Hoom : no_oom.

Definition compound_bytes (msgs : list rtcp_msg) : list Z := mjoin (packet_bytes <$> msgs).

(** The loop delivers the messages of a compound packet, whatever was read
    before, and leaves nothing. *)
Lemma recv_compound fuel clk src i msgs mb rs og : Forall wire_ok msgs -> mbuf_wf mb -> sock_ok rs og ->
  unread mb = compound_bytes msgs -> (length msgs < fuel)%nat ->
  exists mb' rs', rtcp_recv_loop fuel clk src i (mb, rs) = Some (delivered rs src msgs, (mb', rs')) /\
    mbuf_get_left mb' = 0 /\ sock_ok rs' (abs_msgs clk i (srate_of rs) msgs <$> og) /\ sock_conf rs rs'.
Proof.
  intros Hs. revert fuel i mb rs og. induction Hs as [|msg msgs Hm _ IH]; intros fuel i mb rs og Hwf Hok E Hf;
    (destruct fuel as [|fuel]; [lia|]).
  - assert (mbuf_get_left mb = 0) as Hl by (rewrite <- (length_unread _ Hwf), E; done).
    exists mb, rs. cbn [rtcp_recv_loop]. unfold on_mbuf, pair_state, bind at 1, rtcp_decode, need. cbn [fst snd].
    rewrite (bind_Some _ _ _ _ _ (eq_refl : get mb = _)). rewrite Hl. cbn. split_and!; [|done|by destruct og|apply sock_conf_refl].
    unfold delivered. by destruct (rs_rtcph rs).
  - change (compound_bytes (msg :: msgs)) with (packet_bytes msg ++ compound_bytes msgs) in E.
    pose proof (rtcp_decode_reads Hoom msg Hm mb _ Hwf E) as Ed.
    destruct (sock_handler_ok (clk i) 0 msg rs og Hok (sn_ok _ Hm)) as (rs1 & Eh & Hok1 & Hc1).
    destruct (IH fuel (S i) _ rs1 _ (unread_wf _ _ _ Hwf E) Hok1 (unread_advance _ _ _ Hwf E))
      as (mb2 & rs2 & E2 & Hl & Hok2 & Hc2); [cbn [length] in Hf; lia|].
    exists mb2, rs2. rewrite (sock_conf_srate _ _ Hc1) in Hok2. split_and!; [|done| |by apply (sock_conf_trans _ rs1)].
    + by eapply recv_step.
    + cbn [abs_msgs]. by destruct og.
Qed.

Lemma packet_length msg : 4 <= zlength (packet_bytes msg).
Proof. unfold packet_bytes. rewrite length_app. change (length (rtcp_hdr_bytes (rm_hdr msg))) with 4%nat. lia. Qed.

Lemma compound_length msgs : 4 * zlength msgs <= zlength (compound_bytes msgs).
Proof.
  unfold compound_bytes. induction msgs as [|m msgs IH]; [simpl; lia|].
  change (mjoin (packet_bytes <$> m :: msgs)) with (packet_bytes m ++ mjoin (packet_bytes <$> msgs)).
  rewrite length_app. pose proof (packet_length m). cbn [length]. lia.
Qed.

Lemma recv_handler_compound clk src msgs mb rs og : Forall wire_ok msgs -> mbuf_wf mb -> sock_ok rs og ->
  unread mb = compound_bytes msgs ->
  exists mb' rs', rtcp_recv_handler clk src (mb, rs) = Some (delivered rs src msgs, (mb', rs')) /\
    mbuf_get_left mb' = 0 /\ sock_ok rs' (abs_msgs clk 0 (srate_of rs) msgs <$> og) /\ sock_conf rs rs'.
Proof.
  intros Hs Hwf Hok E. unfold rtcp_recv_handler. rewrite (bind_Some _ _ _ _ _ (eq_refl : get (mb, rs) = _)). cbn [fst].
  apply recv_compound; [done..|]. rewrite <- (length_unread _ Hwf), E. pose proof (compound_length msgs). lia.
Qed.

(** ** Sending *)

Definition type_of (msg : rtcp_msg) : Z := rh_pt (rm_hdr msg).
Definition count_of (msg : rtcp_msg) : Z := rh_count (rm_hdr msg).

Lemma send_compound_ok send first second s s1 s2 msg1 a1 msg2 a2 :
  Sim keeps s s1 first (rtcp_vencode (type_of msg1) (count_of msg1) a1) ->
  Sim keeps s1 s2 second (rtcp_vencode (type_of msg2) (count_of msg2) a2) ->
  wire_ok msg1 -> args_for (rm_r msg1) a1 -> wire_ok msg2 -> args_for (rm_r msg2) a2 ->
  zlength (packet_bytes msg1) <= 504 -> zlength (packet_bytes msg2) < 2 ^ 24 ->
  exists mb, send_compound send first second s = Some ((send mb, Some mb), s2) /\ mbuf_wf mb /\
    mb_pos mb = RTCP_HEADROOM /\ unread mb = compound_bytes [msg1; msg2].
Proof.
  intros Hf Hs Hm1 Ha1 Hm2 Ha2 Hl1 Hl2. unfold send_compound.
  destruct (mbuf_alloc_no_oom 512 Hoom) as [mb0 Ea]; [unfold MEM_SIZE_MAX; lia|]. rewrite Ea.
  destruct (mbuf_alloc_wf 512 mb0 ltac:(lia) Ea) as (Hwf0 & _ & _ & Hsz). cbn in Hsz.
  unfold with_pos, mbuf_set_pos, modify, RTCP_HEADROOM. unfold bind at 1, on_mbuf, pair_state. cbn [fst snd].
  pose proof (set_pos_wf mb0 4 Hwf0 ltac:(lia)) as Hwf0'.
  destruct (rtcp_vencode_ok Hoom msg1 a1 (set_pos 4 mb0) Hm1 Ha1 Hwf0') as (mb1 & E1 & Hh1 & Hsz1);
    unfold RTCP_HDR_SIZE, WRITE_MAX; cbn [set_pos mb_pos mb_size]; [lia|lia|].
  cbn [set_pos mb_pos mb_buf mb_size] in Hh1, Hsz1. pose proof (packet_length msg1). pose proof (h_pos _ _ _ Hh1) as P1.
  destruct (rtcp_vencode_ok Hoom msg2 a2 mb1 Hm2 Ha2 (h_wf _ _ _ Hh1)) as (mb2 & E2 & Hh2 & _);
    [unfold RTCP_HDR_SIZE; lia|unfold WRITE_MAX; lia|].
  pose proof (Hf (set_pos 4 mb0)) as F1. unfold type_of, count_of in *. rewrite E1 in F1. destruct F1 as (s1' & F1 & _ & Ex1). rewrite (Ex1 eq_refl) in F1.
  pose proof (Hs mb1) as F2. rewrite E2 in F2. destruct F2 as (s2' & F2 & _ & Ex2). rewrite (Ex2 eq_refl) in F2.
  unfold or_err. rewrite (bind_Some _ _ _ _ _ F1), (bind_Some _ _ _ _ _ F2). cbn [ret Z.lor nz Z.eqb negb].
  exists (set_pos 4 mb2). pose proof (h_wf _ _ _ Hh2) as Hwf2. split_and!; [done|by apply set_pos_wf; [|lia]|done|].
  set (pre := take (Z.to_nat 4) (mb_buf mb0)) in *.
  assert (zlength pre = 4) as Lp by (subst pre; rewrite length_take; pose proof (wf_len _ Hwf0); lia).
  assert (take (Z.to_nat (mb_pos mb1)) (mb_buf mb1) = pre ++ packet_bytes msg1) as Et.
  { rewrite <- (h_data _ _ _ Hh1). f_equal. rewrite P1, <- (holds_end _ _ _ Hh1), length_app. lia. }
  rewrite Et in Hh2. rewrite (holds_unread (set_pos 4 mb2) _ 4 (holds_set_pos _ _ _ 4 Hh2 ltac:(lia)));
    [|rewrite !length_app; lia].
  rewrite <- app_assoc. replace (Z.to_nat 4) with (length pre) by lia. rewrite drop_app_length.
  unfold compound_bytes. cbn. by rewrite app_nil_r.
Qed.

End compound.
