(* ===== verification/RtcpProps.v ===== *)
(** * What the RTCP of an RTP socket guarantees *)

From S2P Require Import RtcpRound MbufThms MbufParse.
From S2P Require Export RtpSockThms.

(** ** The headers of received RTP packets *)

Definition hdr_typed (hdr : rtp_header) : Prop := 0 <= rtp_seq hdr < RTP_SEQ_MOD /\ is_u32 (rtp_ssrc hdr).

Section rtp_typed.
Context `{Host} (E : Z).

Lemma decode_csrc_decodes csrc i n p : (i + n <= length csrc)%nat ->
  Decodes E p (4 * Z.of_nat n) (decode_csrc csrc i n) (fun _ => True).
Proof.
  revert csrc i p. induction n as [|n IH]; intros csrc i p Hl; cbn [decode_csrc]; [by apply dec_ret|].
  apply dec_ntohl; [lia|]. intros v _. destruct (Nat.ltb_spec i (length csrc)); [|lia].
  eapply dec_weaken; [apply IH|reflexivity|lia|done]. rewrite length_insert. lia.
Qed.

Lemma rtp_tail_decodes hdr p : hdr_typed hdr -> length (rtp_csrc hdr) = 16%nat -> 0 <= rtp_cc hdr <= 15 ->
  Decodes E p 0 (rtp_hdr_decode_tail hdr) (fun r => hdr_typed r.2).
Proof.
  intros Ht Hl Hc. unfold rtp_hdr_decode_tail. apply dec_need; [lia|done|].
  eapply dec_bind; [lia|eapply dec_weaken; [apply (decode_csrc_decodes _ 0 (Z.to_nat (rtp_cc hdr)))|reflexivity|lia|done]; lia|].
  intros csrc _. cbv zeta. apply dec_if; intros _; [|by apply dec_ret].
  apply dec_need; [lia|done|]. apply dec_ntohs; [lia|]. intros xt _. apply dec_ntohs; [lia|]. intros xl Hx.
  cbn [with_x rtp_x_len]. apply dec_need; [lia|done|]. apply dec_advance; [lia|]. by apply dec_ret.
Qed.

Lemma rtp_decode_decodes p : Decodes E p RTP_HEADER_SIZE rtp_decode (fun r => r.1 = 0 -> hdr_typed r.2).
Proof.
  unfold rtp_decode. eapply (dec_bind _ _ _ _ _ (fun r => hdr_typed r.2)); [done| |].
  - unfold rtp_hdr_decode. apply dec_need; [done|by repeat split|]. unfold RTP_HEADER_SIZE.
    apply dec_mem; [lia|]. intros bs Hl Hb. cbn [nz Z.eqb negb]. unfold rtp_hdr_decode_rest.
    apply dec_ntohs; [lia|]. intros seq Hs. apply dec_ntohl; [lia|]. intros ts _. apply dec_ntohl; [lia|].
    intros ssrc Hss. eapply dec_weaken; [apply rtp_tail_decodes|reflexivity|lia|done]; [by split|done|].
    cbn [rtp_cc]. change 15 with (Z.ones 4). rewrite Z.land_ones by lia. change (Z.ones 4) with 15. dlia.
  - intros [e hdr] Ht. cbn [snd] in Ht. repeat (apply dec_if; intros _); apply dec_ret; cbn; done || (intros; done).
Qed.

End rtp_typed.

(** Whatever arrives, a header that is accepted has its fields in range. *)
Lemma rtp_decode_typed `{Host} mb : mbuf_wf mb -> exists e hdr mb', rtp_decode mb = Some ((e, hdr), mb') /\
  mbuf_wf mb' /\ (e = 0 -> hdr_typed hdr).
Proof.
  intros Hwf. destruct (decide (mb_pos mb + RTP_HEADER_SIZE <= mb_end mb)) as [Hl|Hl].
  - destruct (rtp_decode_decodes (mb_end mb) (mb_pos mb) mb Hwf eq_refl) as ([e hdr] & mb' & E & Ha & Ht); [lia|done|].
    exists e, hdr, mb'. split_and!; [done|by eapply advanced_wf|done].
  - exists EBADMSG, zero_hdr, mb. split_and!; [|done|done]. unfold rtp_decode, rtp_hdr_decode, need, RTP_HEADER_SIZE in *.
    unfold bind, get. destruct (Z.ltb_spec (mbuf_get_left mb) 12) as [|Hg]; [done|].
    unfold mbuf_get_left in Hg. case_match; lia.
Qed.

(** ** Sessions that can be reached *)

Lemma empty_table_ok : table_ok (Hash (replicate 8 []) MAX_MEMBERS) /\ table_map (Hash (replicate 8 []) MAX_MEMBERS) = ∅.
Proof.
  split; [|done]. split; [done|done| |constructor]. cbn [h_bucket]. intros i b m Hi Hm.
  apply lookup_replicate in Hi as [-> _]. by apply not_elem_of_nil in Hm.
Qed.

Section reach.
Context `{Host}.

Lemma sess_alloc_ok mutex_err s : rtcp_sess_alloc mutex_err = (0, Some s) -> sess_ok s ∅.
Proof.
  unfold rtcp_sess_alloc. destruct (alloc_ok SESS_SIZEOF); cbn [negb]; [|done].
  destruct (nz mutex_err); [done|]. unfold hash_alloc. cbn [Z.eqb MAX_MEMBERS].
  change (nz (Z.land 8 (u32 (8 - 1)))) with false. cbv iota.
  destruct (alloc_ok 16); [|by intros [=]]. cbn [negb]. destruct (negb _); [by intros [=]|].
  cbn. intros [= <-]. split; cbn [se_members se_memberc se_senderc se_srate_tx se_txstat]; try done.
  eexists. split; [done|]. apply empty_table_ok.
Qed.

(** A call that returns keeps the invariant. *)
Definition Keeps {A} (m : M (mbuf * rtcp_sess) A) : Prop := forall mb s r mb' s',
  keeps s -> m (mb, s) = Some (r, (mb', s')) -> keeps s'.

Lemma sim_keeps s s' mS m mb r mb' s1 : Sim keeps s s' mS m -> mS (mb, s) = Some (r, (mb', s1)) -> keeps s1.
Proof.
  intros Hs E. specialize (Hs mb). destruct (m mb) as [[e mb2]|]; [|congruence].
  destruct Hs as (s2 & E2 & Hk & _). by simplify_eq.
Qed.

Lemma mk_sr_keeps now ssrc : Keeps (mk_sr now ssrc).
Proof.
  intros mb s r mb' s' [g Hok] E. pose proof (sok_table _ _ Hok) as (h & Eh & _).
  exact (sim_keeps _ _ _ _ _ _ _ _ (mk_sr_sim now ssrc s g h Hok Eh) E).
Qed.

Lemma mk_sdes_keeps ssrc : Keeps (mk_sdes ssrc).
Proof. intros mb s r mb' s' Hk E. exact (sim_keeps _ _ _ _ _ _ _ _ (mk_sdes_sim ssrc s Hk) E). Qed.

Lemma bye_packet_sim s type count srcv reason : keeps s ->
  Sim keeps s s (rtcp_vencode type count (ArgsBye srcv reason)) (rtcp_vencode type count (ArgsBye srcv reason)).
Proof. intros Hk. by apply sim_vencode. Qed.

Lemma send_compound_keeps send first second s r s' : Keeps first -> Keeps second -> keeps s ->
  send_compound send first second s = Some (r, s') -> keeps s'.
Proof.
  intros Hf Hs Hk. unfold send_compound. destruct (mbuf_alloc 512) as [mb|]; [|by intros [= _ <-]].
  destruct ((with_pos RTCP_HEADROOM ;; first |; second) (mb, s)) as [[e [mb1 s1]]|] eqn:E; [|done].
  apply bind_inv in E as ([] & [mb0 s0] & E0 & E). unfold with_pos, on_mbuf, pair_state, mbuf_set_pos, modify in E0.
  injection E0 as _ <-. apply bind_inv in E as (e1 & [mb2 s2] & E1 & E). apply bind_inv in E as (e2 & [mb3 s3] & E2 & E).
  assert (keeps s1) as Hk1 by (injection E as _ _ <-; eauto). destruct (nz e); by intros [= _ <-].
Qed.

(** The calls of a program on a session, with messages and headers as they
    come out of the decoders. *)
Inductive sess_step (s : rtcp_sess) : rtcp_sess -> Prop :=
  | step_rtcp now mb msg mb' s' : mbuf_wf mb -> rtcp_decode mb = Some ((0, Some msg), mb') ->
      rtcp_handler now msg s = Some (tt, s') -> sess_step s s'
  | step_rx now mb hdr mb' peer hdr' s' : mbuf_wf mb -> rtp_decode mb = Some ((0, hdr), mb') ->
      rtcp_sess_rx_rtp now hdr (mbuf_get_left mb') peer s = Some (hdr', s') -> sess_step s s'
  | step_tx ts jfs_rt payload_size : sess_step s (rtcp_sess_tx_rtp ts jfs_rt payload_size s)
  | step_interval n : sess_step s (rtcp_set_interval n s)
  | step_srate srate_tx srate_rx : is_u32 srate_tx -> sess_step s (rtcp_set_srate srate_tx srate_rx s)
  | step_enable enabled cname err s' : rtcp_enable enabled cname s = Some (err, s') -> sess_step s s'
  | step_timeout now ssrc send sent s' : timeout now ssrc send s = Some (sent, s') -> sess_step s s'
  | step_bye ssrc send r s' : send_bye_packet ssrc send s = Some (r, s') -> sess_step s s'.

Inductive sess_reach : rtcp_sess -> Prop :=
  | reach_alloc mutex_err s : rtcp_sess_alloc mutex_err = (0, Some s) -> sess_reach s
  | reach_step s s' : sess_reach s -> sess_step s s' -> sess_reach s'.

Lemma enable_ok enabled cname s g err s' : sess_ok s g -> rtcp_enable enabled cname s = Some (err, s') -> sess_ok s' g.
Proof.
  intros [] E. unfold rtcp_enable in E. destruct (str_dup cname) as [e dup]. unfold bind, modify, schedule, ret in E.
  destruct (nz e), enabled; simplify_eq/=; by split.
Qed.

Lemma sess_step_keeps s s' : keeps s -> sess_step s s' -> keeps s'.
Proof.
  intros Hk Hst. pose proof Hk as [g Hok].
  destruct Hst as [now mb msg mb' s' Hwf Ed Eh|now mb hdr mb' peer hdr' s' Hwf Ed Er|ts jfs n|n|a b Ha|en cn err s' Ee
    |now ssrc send sent s' Et|ssrc send r s' Eb].
  - destruct (rtcp_decode_spec mb Hwf) as (e & o & mb1 & E & _ & Ho). rewrite Ed in E. simplify_eq. destruct Ho as (_ & _ & _ & Hm).
    destruct (rtcp_handler_ok now _ msg s g Hok Hm) as (s1 & E1 & Hok1 & _). rewrite Eh in E1. simplify_eq. by eexists.
  - destruct (rtp_decode_typed mb Hwf) as (e & h & mb1 & E & _ & Ht). rewrite Ed in E. simplify_eq. destruct (Ht eq_refl) as [Hq Hs].
    pose proof (rx_rtp_ok now h (mbuf_get_left mb1) peer s g Hok Hs Hq) as Hx. destruct (abs_rx _ _ _ _ _ _) as [[h' g']|]; [|congruence].
    destruct Hx as (s1 & E1 & Hok1 & _). rewrite Er in E1. simplify_eq. by eexists.
  - exists g. destruct Hok as [? ? ? ? ? ? [? ?]]. split; try done. unfold rtcp_sess_tx_rtp. cbn [set_txstat se_txstat].
    destruct (tx_ts_synced _); split; cbn; apply wrap_range; lia.
  - exists g. by destruct Hok.
  - exists g. by destruct Hok.
  - exists g. by eapply enable_ok.
  - unfold timeout in Et. apply bind_inv in Et as ([e o] & s1 & E1 & Et). unfold bind, schedule, modify, ret in Et. simplify_eq.
    destruct (send_compound_keeps _ _ _ _ _ _ (mk_sr_keeps now ssrc) (mk_sdes_keeps ssrc) Hk E1) as [g1 []]. by exists g1.
  - eapply send_compound_keeps; [|apply (mk_sdes_keeps ssrc)|exact Hk|exact Eb].
    intros mb s1 r1 mb' s2 Hk1 E. by eapply (sim_keeps _ _ _ _ _ _ _ _ (bye_packet_sim s1 _ _ _ _ Hk1)).
Qed.

Lemma sess_reach_keeps s : sess_reach s -> keeps s.
Proof. induction 1 as [me s E|s s' _ IH Hst]; [by exists ∅; eapply sess_alloc_ok|by eapply sess_step_keeps]. Qed.

End reach.

(** ** The blocks of a report *)

Lemma member_map_in ms m : NoDup (sources ms) -> m ∈ ms -> member_map ms !! mbr_src m = Some m.
Proof.
  intros Hn Hm. apply elem_of_list_to_map_1; [by rewrite entries_fst|]. apply list_elem_of_fmap. by exists m.
Qed.

Lemma map_to_list_members ms : NoDup (sources ms) -> (map_to_list (member_map ms)).*2 ≡ₚ ms.
Proof.
  intros Hn. unfold member_map. rewrite map_to_list_to_map by (by rewrite entries_fst).
  unfold entries. rewrite <- list_fmap_compose. by rewrite list_fmap_id.
Qed.

Lemma members_forall (P : rtp_member -> Prop) ms : NoDup (sources ms) -> map_Forall (fun _ m => P m) (member_map ms) -> Forall P ms.
Proof.
  intros Hn HP. apply list.Forall_forall. intros m Hm. exact (map_Forall_lookup_1 _ _ _ _ HP (member_map_in ms m Hn Hm)).
Qed.

Lemma blocks_count now ms : NoDup (sources ms) -> Forall reportable ms ->
  size (senders (member_map ms)) = length (blocks now ms).
Proof.
  induction ms as [|m ms IH]; intros Hn Hr; [done|]. inv Hr as [|? ? Hm Hr']. unfold sources in Hn. rewrite fmap_cons in Hn.
  apply list.NoDup_cons in Hn as [Hn Hn']. pose proof (senders_insert (member_map ms) (mbr_src m) m) as Hi.
  rewrite <- member_map_cons in Hi. rewrite (proj2 (member_map_None ms (mbr_src m)) Hn) in Hi.
  specialize (IH Hn' Hr'). cbn [sender_b] in Hi. unfold blocks, block_of in *. cbn [omap list_omap].
  unfold reportable in Hm. destruct (mbr_s m) as [s|]; [|case_decide as Hd; [by destruct Hd|lia]].
  rewrite decide_True in Hi by eauto. destruct (Hm s eq_refl) as [[f q] ->]. cbn [length]. lia.
Qed.

Lemma blocks_all_ok now ms : Forall member_ok ms -> Forall rr_ok (blocks now ms).
Proof.
  induction 1 as [|m ms Hm _ IH]; [constructor|]. unfold blocks in *. cbn [omap list_omap].
  destruct (block_of now m) as [rr|] eqn:E; [|done]. constructor; [by apply (report_block_ok now m)|done].
Qed.

(** A packet changes no other member. *)
Lemma abs_rx_other `{Host} now srate hdr n peer g hdr' g' src : abs_rx now srate hdr n peer g = Some (hdr', g') ->
  map_Forall (fun src m => mbr_src m = src /\ member_ok m) g -> src <> rtp_ssrc hdr -> g' !! src = g !! src.
Proof.
  intros E Ht Hne. unfold abs_rx in E. pose proof (abs_get_lookup (rtp_ssrc hdr) g) as Hl.
  assert ((abs_get (rtp_ssrc hdr) g).2 !! src = g !! src) as Hg
    by (unfold abs_get; repeat case_match; cbn; rewrite ?lookup_insert_ne; done).
  assert (forall m, (abs_get (rtp_ssrc hdr) g).1 = Some m -> mbr_src m = rtp_ssrc hdr) as Hm.
  { unfold abs_get. intros m. destruct (g !! rtp_ssrc hdr) as [m'|] eqn:Em; cbn.
    - intros [= <-]. by destruct (map_Forall_lookup_1 _ _ _ _ Ht Em).
    - destruct (_ || _); [done|]. by intros [= <-]. }
  destruct (abs_get (rtp_ssrc hdr) g) as [[m|] g1]; cbn [fst snd] in *; [|by simplify_eq].
  specialize (Hm m eq_refl). repeat case_match; simplify_eq; rewrite ?lookup_insert_ne by congruence; done.
Qed.

Section claims.
Context `{Host}.

Lemma blocks_handler_writes now h : no_oom -> table_ok h -> Forall member_ok (table_members h) ->
  Forall reportable (table_members h) -> WritesOk (blocks_handler now h) (mjoin (rr_bytes <$> blocks now (table_members h))).
Proof.
  intros Ho Ht Hm Hr mb Hwf Hb. unfold blocks_handler. rewrite (bsize_length _ Ht).
  destruct (apply_hash_outputs now Ho (h_bucket h) [] Hm Hr mb Hwf Hb) as (mb' & E & Hwf' & W). cbn [length app] in E.
  exists mb'. by rewrite (bind_Some _ _ _ _ _ E).
Qed.

Lemma sr_args_for now ssrc s h rrv : ench_writes (Some (blocks_handler now h)) (mjoin (rr_bytes <$> rrv)) ->
  args_for (rm_r (report_msg now ssrc s rrv)) (sr_args now ssrc s h).
Proof. intros Hw. unfold report_msg, sr_args. cbv zeta. by destruct (nz _). Qed.

Lemma report_type now ssrc s rrv : type_of (report_msg now ssrc s rrv) = sr_type s /\ count_of (report_msg now ssrc s rrv) = se_senderc s.
Proof. unfold type_of, count_of, report_msg, sr_type. cbv zeta. by destruct (nz _). Qed.

Lemma report_length now ssrc s g rrv : sess_ok s g -> zlength rrv = se_senderc s ->
  zlength (packet_bytes (report_msg now ssrc s rrv)) <= 504.
Proof.
  intros Hok Hl. pose proof (sok_max _ _ Hok). pose proof (senders_size_le g). pose proof (sok_senderc _ _ Hok). unfold MAX_MEMBERS in *.
  assert (zlength (mjoin (rr_bytes <$> rrv)) <= 192) as Hlen by (rewrite (length_mjoin_const _ _ 24 length_rr_bytes); lia).
  unfold packet_bytes. rewrite length_app, Nat2Z.inj_add, length_padded4.
  match goal with |- Z.of_nat ?l + _ <= _ => change l with 4%nat end.
  assert (zlength (body_bytes (rm_r (report_msg now ssrc s rrv))) <= 216) as Hb; [|unfold pad4; dlia].
  unfold report_msg. cbv zeta. destruct (nz _); cbn [rtcp_msg_of rm_r body_bytes]; rewrite length_app.
  - match goal with |- Z.of_nat (length ?l + _) <= _ => change (length l) with 24%nat end. lia.
  - rewrite length_be_bytes. lia.
Qed.

Lemma sdes_length msg : wire_ok msg -> zlength (packet_bytes msg) < 2 ^ 24.
Proof.
  intros [[Hh _] _ Hl _]. unfold packet_bytes. rewrite length_app, Nat2Z.inj_add, <- Hl. pose proof (rho_length _ Hh).
  match goal with |- Z.of_nat ?l + _ < _ => change l with 4%nat end. lia.
Qed.

Lemma reported_sess_map s g : sess_ok s g -> sess_ok (reported_sess (sr_session s)) (reported <$> g).
Proof.
  intros Hok. pose proof (sr_session_ok _ _ Hok) as Hok'. pose proof (sok_table _ _ Hok') as (h & Eh & _). unfold reported_sess. rewrite Eh.
  destruct (reported_sess_ok (sr_session s) g h (reported_buckets (h_bucket h)) Hok' Eh) as (g' & Hg & Hr).
  - unfold reported_buckets. apply Forall2_fmap_r, Forall_Forall2_diag, Forall_true. intros b.
    apply Forall2_fmap_r, Forall_Forall2_diag, Forall_true. by right.
  - by rewrite <- (Hr eq_refl).
Qed.

Lemma send_report_ok now ssrc send s g : no_oom -> clock_ok now -> is_u32 ssrc -> sess_ok s g -> cname_ok (se_cname s) ->
  map_Forall (fun _ m => reportable m) g ->
  exists rrv mb s', send_rtcp_report now ssrc send s = Some ((send mb, Some mb), s') /\ mbuf_wf mb /\
    mb_pos mb = RTCP_HEADROOM /\ unread mb = compound_bytes [report_msg now ssrc s rrv; sdes_msg ssrc (se_cname s)] /\
    wire_ok (report_msg now ssrc s rrv) /\ rrv ≡ₚ omap (block_of now) (map_to_list g).*2 /\ sess_ok s' (reported <$> g).
Proof.
  intros Ho Hc Hs Hok Hcn Hr. pose proof (sok_table _ _ Hok) as (h & Eh & Ht & Hg). pose proof (to_nodup _ Ht) as Hn.
  fold (table_members h) in Hn. rewrite <- Hg in Hr.
  assert (Forall member_ok (table_members h)) as Hm.
  { apply members_forall; [done|]. eapply map_Forall_impl; [rewrite <- Hg in Hok; apply (sok_typed _ _ Hok)|]. by intros ? ? []. }
  pose proof (members_forall _ _ Hn Hr) as Hr'. set (rrv := blocks now (table_members h)).
  assert (zlength rrv = se_senderc s) as Hl.
  { rewrite (sok_senderc _ _ Hok), <- Hg. unfold table_map. by rewrite (blocks_count now _ Hn Hr'). }
  pose proof (report_wire_ok now ssrc s g rrv Hc Hs Hok (blocks_all_ok _ _ Hm) Hl) as Hsend.
  pose proof (sdes_wire_ok ssrc _ Hs Hcn) as Hsd.
  pose proof (mk_sr_sim now ssrc s g h Hok Eh) as Hsim. destruct (report_type now ssrc s rrv) as [Ety Eco]. rewrite <- Ety, <- Eco in Hsim.
  pose proof (reported_sess_map s g Hok) as Hok1.
  pose proof (mk_sdes_sim ssrc _ (ex_intro _ _ Hok1 : keeps (reported_sess (sr_session s)))) as Hsim2.
  assert (se_cname (reported_sess (sr_session s)) = se_cname s) as Ecn
    by (unfold reported_sess; cbn [sr_session set_txstat se_members]; by rewrite Eh). rewrite Ecn in Hsim2.
  destruct (send_compound_ok Ho send _ _ _ _ _ (report_msg now ssrc s rrv) _ (sdes_msg ssrc (se_cname s)) _ Hsim Hsim2
    Hsend (sr_args_for now ssrc s h rrv (blocks_handler_writes now h Ho Ht Hm Hr')) Hsd) as (mb & E & Hwf & Hp & Hu).
  - change (WritesOk (rtcp_sdes_encode ssrc [(RTCP_SDES_CNAME, se_cname s)]) (sdes_bytes (Sdes ssrc (cname_items (se_cname s))) ++ [])).
    rewrite app_nil_r. apply sdes_encode_ok; [done|done|by apply cname_items_ok].
  - by apply (report_length now ssrc s g).
  - by apply sdes_length.
  - exists rrv, mb, (reported_sess (sr_session s)). split_and!; [done|done|done|done|done| |done].
    subst rrv. unfold blocks. rewrite <- Hg. unfold table_map. by rewrite (map_to_list_members _ Hn).
Qed.

(** ** The properties *)

(** C22: A sender report, receiver report, SDES, BYE with a reason shorter than
    256 characters, APP, FIR, NACK, or feedback message with generic NACK, PLI,
    SLI, FIR or no information, whose values fit their fields ([wire_ok]), is
    encoded at the position of a buffer and read back exactly from there: the
    encoder reports no error, leaves what was before the position alone, and
    the decoder consumes the packet with its padding. *)
Theorem rtcp_msg_roundtrip msg ap mb : no_oom -> wire_ok msg -> args_for (rm_r msg) ap -> mbuf_wf mb ->
  mb_pos mb + RTCP_HDR_SIZE <= mb_size mb -> mb_pos mb + zlength (packet_bytes msg) < WRITE_MAX ->
  exists mb' mb'', rtcp_vencode (rh_pt (rm_hdr msg)) (rh_count (rm_hdr msg)) ap mb = Some (0, mb') /\
    take (Z.to_nat (mb_pos mb)) (mb_buf mb') = take (Z.to_nat (mb_pos mb)) (mb_buf mb) /\
    rtcp_decode (set_pos (mb_pos mb) mb') = Some ((0, Some msg), mb'') /\ mbuf_get_left mb'' = 0.
Proof.
  intros Ho Hs Ha Hwf Hroom Hm. destruct (rtcp_vencode_ok Ho msg ap mb Hs Ha Hwf Hroom Hm) as (mb' & E & Hh & _).
  pose proof (wf_pos _ Hwf). pose proof (wf_len _ Hwf). set (pre := take (Z.to_nat (mb_pos mb)) (mb_buf mb)) in *.
  assert (zlength pre = mb_pos mb) as Lp by (subst pre; rewrite length_take; unfold RTCP_HDR_SIZE in Hroom; lia).
  pose proof (holds_set_pos _ _ _ (mb_pos mb) Hh ltac:(lia)) as Hh'. rewrite <- (app_nil_r (packet_bytes msg)), <- Lp in Hh'.
  destruct (holds_reads _ pre (packet_bytes msg) [] _ _ Hh' (rtcp_decode_reads Ho msg Hs)) as (mb'' & Ed & Hh'').
  rewrite Lp in Ed. exists mb', mb''. split_and!; [done| |done|].
  - pose proof (h_data _ _ _ Hh) as Hd. pose proof (holds_end _ _ _ Hh) as He. rewrite length_app in He.
    assert (take (Z.to_nat (mb_pos mb)) (take (Z.to_nat (mb_end mb')) (mb_buf mb')) = pre) as Et
      by (rewrite Hd; replace (Z.to_nat (mb_pos mb)) with (length pre) by lia; apply take_app_length).
    rewrite take_take, Nat.min_l in Et by lia. done.
  - rewrite (holds_left _ _ _ Hh'') by (rewrite !length_app; lia). rewrite !length_app. cbn. lia.
Qed.

(** C20: The receive handler of a socket returns on every buffer, also one that
    holds no RTCP: the messages it hands to the application are well typed
    and lie in the buffer, and the session refines the map of its members
    through each of them. *)
Theorem rtcp_recv_refines clk src mb rs og : mbuf_wf mb -> sock_ok rs og ->
  exists msgs mb' rs', rtcp_recv_handler clk src (mb, rs) = Some (delivered rs src msgs, (mb', rs')) /\
    advanced mb mb' /\ Forall (msg_ok (mb_end mb)) msgs /\ 4 * zlength msgs <= mbuf_get_left mb /\
    sock_ok rs' (abs_msgs clk 0 (srate_of rs) msgs <$> og) /\ sock_conf rs rs'.
Proof.
  intros Hwf Hok. unfold rtcp_recv_handler. rewrite (bind_Some _ _ _ _ _ (eq_refl : get (mb, rs) = _)). cbn [fst].
  apply recv_loop_ok; [done|done|lia].
Qed.

(** C19: The report of a session reaches the other side: the compound packet that
    is sent has a report with one block for each sender and the canonical
    name, and the receive handler of any socket delivers exactly these two
    messages; afterwards the reporting session remembers, for every sender,
    what has been reported. *)
Theorem report_delivered now ssrc send s g clk src rs og : no_oom -> clock_ok now -> is_u32 ssrc ->
  sess_ok s g -> cname_ok (se_cname s) -> map_Forall (fun _ m => reportable m) g -> sock_ok rs og ->
  exists rrv mb s' mb' rs', send_rtcp_report now ssrc send s = Some ((send mb, Some mb), s') /\
    sess_ok s' (reported <$> g) /\ rrv ≡ₚ omap (block_of now) (map_to_list g).*2 /\
    let msgs := [report_msg now ssrc s rrv; sdes_msg ssrc (se_cname s)] in
    rtcp_recv_handler clk src (mb, rs) = Some (delivered rs src msgs, (mb', rs')) /\
    mbuf_get_left mb' = 0 /\ sock_ok rs' (abs_msgs clk 0 (srate_of rs) msgs <$> og).
Proof.
  intros Ho Hc Hs Hok Hcn Hr Hrs.
  destruct (send_report_ok now ssrc send s g Ho Hc Hs Hok Hcn Hr) as (rrv & mb & s' & E & Hwf & _ & Hu & Hsend & Hp & Hok').
  destruct (recv_handler_compound Ho clk src [report_msg now ssrc s rrv; sdes_msg ssrc (se_cname s)] mb rs og)
    as (mb' & rs' & E' & Hl & Hok2 & _); [|done|done|done|].
  { constructor; [done|]. constructor; [by apply sdes_wire_ok|constructor]. }
  exists rrv, mb, s', mb', rs'. done.
Qed.

(** C21: In every session that can be reached the counters are right: the table
    is a map from sources to members in which every lookup finds its member,
    it has at most eight, and the session counts the members and those that
    have sent RTP, whatever packets and reports arrived, also when memory ran
    out. *)
Theorem sess_reach_counts s : sess_reach s -> exists g : gmap Z rtp_member,
  se_memberc s = Z.of_nat (size g) /\ se_memberc s <= MAX_MEMBERS /\
  se_senderc s = Z.of_nat (size (filter is_sender g)) /\
  map_Forall (fun src m => mbr_src m = src /\ member_ok m) g /\
  forall src, is_u32 src -> member_find (se_members s) src = Some (g !! src).
Proof.
  intros [g Hok]%sess_reach_keeps. exists g. destruct Hok as [(h & -> & Ht & Hg) Hc Hm Hs Hty _ _].
  split_and!; [done|lia|done|done|]. intros src Hsrc. by rewrite (member_find_map h src Ht Hsrc), Hg.
Qed.

(** An RTP packet updates the statistics of its source alone: the session
    then stands for the map in which that member, created and counted when it
    is new, has the packet's statistics; the call is undefined exactly when
    the jitter arithmetic is. *)
Theorem rx_rtp_refines now hdr n peer s g : sess_ok s g -> hdr_typed hdr ->
  match abs_rx now (se_srate_rx s) hdr n peer g with
  | None => rtcp_sess_rx_rtp now hdr n peer s = None
  | Some (hdr', g') => exists s', rtcp_sess_rx_rtp now hdr n peer s = Some (hdr', s') /\ sess_ok s' g' /\ same_conf s s' /\
      forall src, src <> rtp_ssrc hdr -> g' !! src = g !! src
  end.
Proof.
  intros Hok [Hq Hs]. pose proof (rx_rtp_ok now hdr n peer s g Hok Hs Hq) as Hx.
  pose proof (abs_rx_other now (se_srate_rx s) hdr n peer g) as Ho. destruct (abs_rx _ _ _ _ _ _) as [[hdr' g']|]; [|done].
  destruct Hx as (s' & E & Hok' & Hc). exists s'. split_and!; [done|done|done|]. intros src. apply (Ho _ _ src eq_refl), (sok_typed _ _ Hok).
Qed.

End claims.

(** ** RTCP: concrete sessions and packets

    The properties of RtcpProps.v applied to a session that has received an
    RTP packet and to the packets of two such sessions, and what the decoder
    does with a packet that is longer than its contents. *)

#[local] Existing Instance lp64_host.

Lemma rtcp_no_oom : no_oom.
Proof. by intros n. Qed.

Definition pkt_buf (data : list Z) : mbuf := Mbuf data (zlength data) 0 (zlength data).

Lemma pkt_buf_wf data : forallb (fun b => (0 <=? b) && (b <? 256)) data && (zlength data <? 1000) = true ->
  mbuf_wf (pkt_buf data).
Proof.
  intros [Hb Hl]%andb_true_iff. split; simpl; unfold MEM_SIZE_MAX; try lia.
  rewrite forallb_forall in Hb. apply List.Forall_forall. intros b Hin. specialize (Hb b Hin). unfold byte_ok. lia.
Qed.

(** ** A reception report *)

Definition rr_ex : rtcp_rr := Rr 0x11223344 10 (-3) 70000 45 0x01020304 65536.
Definition msg_ex : rtcp_msg := RtcpMsg (RtcpHdr RTCP_VERSION 0 1 RTCP_RR 7) (RrMsg 5 [rr_ex]).

Lemma msg_ex_wire_ok : wire_ok msg_ex.
Proof.
  split; [split|done|done|done].
  - by split.
  - split_and!; try done. constructor; [by split|constructor].
Qed.

Lemma rtcp_msg_roundtrip_witness :
  exists mb' mb'', rtcp_vencode RTCP_RR 1 (ArgsRr 5 (Some (rtcp_rr_encode rr_ex))) (pkt_buf [9; 9; 9; 9]) = Some (0, mb') /\
    take 0 (mb_buf mb') = [] /\ rtcp_decode (set_pos 0 mb') = Some ((0, Some msg_ex), mb'') /\ mbuf_get_left mb'' = 0.
Proof.
  apply (rtcp_msg_roundtrip msg_ex (ArgsRr 5 (Some (rtcp_rr_encode rr_ex))) (pkt_buf [9; 9; 9; 9])).
  - exact rtcp_no_oom.
  - exact msg_ex_wire_ok.
  - split; [done|]. change (WritesOk (rtcp_rr_encode rr_ex) (rr_bytes rr_ex ++ [])). rewrite app_nil_r.
    apply (rr_encode_ok rtcp_no_oom). by split.
  - by apply pkt_buf_wf.
  - vm_compute. done.
  - vm_compute. done.
Defined.

(** ** A session with a sender *)

(** An RTP packet: sequence number 100, time stamp 160, source 7, four octets. *)
Definition rtp_ex : list Z := [128; 0; 0; 100; 0; 0; 0; 160; 0; 0; 0; 7; 1; 2; 3; 4].
Definition now_ex : clock := Clock 5000 (Ntp 0xe0000000 0x80000000) 5000000.

Definition sess0 : rtcp_sess := Sess (Some (Hash (replicate 8 []) 8)) None None 0 0 0 0 RTCP_INTERVAL txstat_zero.
Definition hdr_ex : rtp_header := match rtp_decode (pkt_buf rtp_ex) with Some ((_, hdr), _) => hdr | None => zero_hdr end.
Definition peer_ex : sa := SaIn 0x7f000001 5004.

Definition sess_ex : rtcp_sess :=
  match rtcp_sess_rx_rtp now_ex hdr_ex 4 peer_ex sess0 with
  | Some (_, s) => set_cname (Some [97; 64; 98]) s
  | None => sess0
  end.
Definition map_ex : gmap Z rtp_member :=
  match abs_rx now_ex 0 hdr_ex 4 peer_ex ∅ with Some (_, g) => g | None => ∅ end.

Lemma sess0_ok : sess_ok sess0 ∅.
Proof. exact (sess_alloc_ok 0 sess0 eq_refl). Qed.

Lemma sess_ex_ok : sess_ok sess_ex map_ex.
Proof.
  destruct (rx_rtp_ok now_ex hdr_ex 4 peer_ex sess0 ∅ sess0_ok ltac:(by vm_compute) ltac:(by vm_compute)) as (s' & E & Hok & _).
  unfold sess_ex. rewrite E. by destruct Hok.
Qed.

Lemma rx_rtp_refines_witness :
  exists s', rtcp_sess_rx_rtp now_ex hdr_ex 4 peer_ex sess0 = Some (hdr_ex, s') /\ sess_ok s' map_ex /\ same_conf sess0 s' /\
    forall src, src <> 7 -> map_ex !! src = None.
Proof.
  pose proof (rx_rtp_refines now_ex hdr_ex 4 peer_ex sess0 ∅ sess0_ok ltac:(by vm_compute)) as Hx.
  exact Hx.
Defined.

Lemma sess_reach_counts_witness : exists g : gmap Z rtp_member,
  1 = Z.of_nat (size g) /\ 1 <= MAX_MEMBERS /\ 1 = Z.of_nat (size (filter is_sender g)) /\
  map_Forall (fun src m => mbr_src m = src /\ member_ok m) g /\
  forall src, is_u32 src -> member_find (se_members sess_ex) src = Some (g !! src).
Proof.
  apply (sess_reach_counts sess_ex). set (s1 := set_cname None sess_ex).
  apply (reach_step s1); [apply (reach_step sess0); [by apply (reach_alloc 0 sess0)|]|].
  - eapply (step_rx _ now_ex (pkt_buf rtp_ex) hdr_ex _ peer_ex); [by apply pkt_buf_wf|by vm_compute|by vm_compute].
  - apply (step_enable s1 false (Some [97; 64; 98]) 0). by vm_compute.
Defined.

(** ** Two sockets *)

Definition sock_ex : rtp_sock := RtpSock (RtpEnc 1 7) true true peer_ex true true (Some sess0) false.

Lemma map_ex_reportable : map_Forall (fun _ m => reportable m) map_ex.
Proof.
  assert (map_ex = {[7 := Member (Some (MSource (rtp_source_update_seq (rtp_source_init_seq (ms_seq source_zero) 100) 100).2 peer_ex 4 0 (Ntp 0 0) 0 160 0 0)) 7 0 0 0]})
    as -> by (by vm_compute).
  apply map_Forall_singleton. intros s [= <-]. vm_compute. eauto.
Qed.

Lemma report_delivered_witness :
  exists rrv mb s' mb' rs', send_rtcp_report now_ex 9 (fun _ => 0) sess_ex = Some ((0, Some mb), s') /\
    sess_ok s' (reported <$> map_ex) /\ rrv ≡ₚ omap (block_of now_ex) (map_to_list map_ex).*2 /\
    let msgs := [report_msg now_ex 9 sess_ex rrv; sdes_msg 9 (Some [97; 64; 98])] in
    rtcp_recv_handler (fun _ => now_ex) peer_ex (mb, sock_ex) = Some (delivered sock_ex peer_ex msgs, (mb', rs')) /\
    mbuf_get_left mb' = 0 /\ sock_ok rs' (abs_msgs (fun _ => now_ex) 0 (srate_of sock_ex) msgs <$> Some ∅).
Proof.
  apply (report_delivered now_ex 9 (fun _ => 0) sess_ex map_ex (fun _ => now_ex) peer_ex sock_ex (Some ∅)).
  - exact rtcp_no_oom.
  - by vm_compute.
  - done.
  - exact sess_ex_ok.
  - split; [done|]. repeat constructor; done.
  - exact map_ex_reportable.
  - exact sess0_ok.
Defined.

(** A receiver report of one sender, then bytes that are no packet. *)
Definition recv_ex : list Z := [128; 201; 0; 1; 0; 0; 0; 7; 1; 2; 3; 4; 5].

Lemma rtcp_recv_refines_witness :
  exists msgs mb' rs', rtcp_recv_handler (fun _ => now_ex) peer_ex (pkt_buf recv_ex, sock_ex) =
      Some (delivered sock_ex peer_ex msgs, (mb', rs')) /\
    advanced (pkt_buf recv_ex) mb' /\ Forall (msg_ok 13) msgs /\ 4 * zlength msgs <= 13 /\
    sock_ok rs' (abs_msgs (fun _ => now_ex) 0 0 msgs <$> Some ∅) /\ sock_conf sock_ex rs'.
Proof.
  apply (rtcp_recv_refines (fun _ => now_ex) peer_ex (pkt_buf recv_ex) sock_ex (Some ∅)).
  - by apply pkt_buf_wf.
  - exact sess0_ok.
Defined.

(** ** A packet that is longer than its contents *)

(** A receiver report of three words after the header, one for the source
    and two of a profile-specific extension; the decoder stops after the
    source, and the extension is taken for the next packet of the compound,
    here a BYE of source 7. *)
Example rr_extension_decoded :
  match rtcp_decode (pkt_buf [128; 201; 0; 3; 0; 0; 0; 5; 129; 203; 0; 1; 0; 0; 0; 7]) with
  | Some ((0, Some msg), mb) => rm_r msg = RrMsg 5 [] /\ mb_pos mb = 8 /\
      match rtcp_decode mb with
      | Some ((0, Some msg), _) => rm_r msg = Bye [7] None
      | _ => False
      end
  | _ => False
  end.
Proof. vm_compute. done. Qed.
