(* ===== verification/Websock.v ===== *)
(** * WebSocket connections (src/websock/websock.c)

    Frame headers, masking, the handler that takes frames out of the TCP
    stream, sending, closing and the life of a connection.  The TCP connection
    is a parameter: [tcp_send] gives the result of sending a buffer;
    [rand_bytes i] is the [i]-th masking key; [recvh] is the receive handler
    of the application, which may use the connection and drop it.  What is
    sent, and what is handed to the application, is part of the result of an
    operation.  The opening handshake is HTTP and not modelled. *)

From S2P Require Export Prelude MbufSpec Sys Print.

Definition TIMEOUT_CLOSE : Z := 10000.
Definition BUFSIZE_MAX : Z := 131072.

Definition WEBSOCK_CONT : Z := 0x0.
Definition WEBSOCK_TEXT : Z := 0x1.
Definition WEBSOCK_BIN : Z := 0x2.
Definition WEBSOCK_CLOSE : Z := 0x8.
Definition WEBSOCK_PING : Z := 0x9.
Definition WEBSOCK_PONG : Z := 0xa.

Definition WEBSOCK_GOING_AWAY : Z := 1001.
Definition WEBSOCK_PROTOCOL_ERROR : Z := 1002.
Definition WEBSOCK_MESSAGE_TOO_BIG : Z := 1009.
Definition WEBSOCK_INTERNAL_ERROR : Z := 1011.


Inductive websock_state := ACCEPTING | CONNECTING | OPEN | CLOSING | CLOSED.
#[global] Instance websock_state_eq : EqDecision websock_state.
Proof. solve_decision. Defined.

Record websock_hdr := WsHdr {
  ws_fin : Z;
  ws_rsv1 : Z;
  ws_rsv2 : Z;
  ws_rsv3 : Z;
  ws_opcode : Z;
  ws_mask : bool;
  ws_len : Z;              (* uint64_t *)
  ws_mkey : list Z;        (* uint8_t[4] *)
}.

(** What [conn->tmr] will call, and after how many milliseconds. *)
Inductive ws_timer := keepalive_timer (ms : Z) | timeout_timer (ms : Z).

(** [wc_orphan]: the application has dropped the connection, and the handlers
    are [dummy_recv_handler] and [internal_close_handler]. *)
Record websock_conn := WsConn {
  wc_tmr : option ws_timer;
  wc_mb : option mbuf;
  wc_state : websock_state;
  wc_kaint : Z;
  wc_active : bool;
  wc_orphan : bool;
  wc_rand : nat;           (* masking keys drawn so far *)
}.

Inductive ws_event :=
  | WsRecv (hdr : websock_hdr) (mb : mbuf)
  | WsSent (mb : mbuf)
  | WsClosed (err : Z)
  | WsFreed.

Definition set_tmr (tmr : option ws_timer) (c : websock_conn) : websock_conn :=
  WsConn tmr (wc_mb c) (wc_state c) (wc_kaint c) (wc_active c) (wc_orphan c) (wc_rand c).
Definition set_mb (mb : option mbuf) (c : websock_conn) : websock_conn :=
  WsConn (wc_tmr c) mb (wc_state c) (wc_kaint c) (wc_active c) (wc_orphan c) (wc_rand c).
Definition set_state (st : websock_state) (c : websock_conn) : websock_conn :=
  WsConn (wc_tmr c) (wc_mb c) st (wc_kaint c) (wc_active c) (wc_orphan c) (wc_rand c).
Definition set_orphan (b : bool) (c : websock_conn) : websock_conn :=
  WsConn (wc_tmr c) (wc_mb c) (wc_state c) (wc_kaint c) (wc_active c) b (wc_rand c).
Definition next_rand (c : websock_conn) : websock_conn :=
  WsConn (wc_tmr c) (wc_mb c) (wc_state c) (wc_kaint c) (wc_active c) (wc_orphan c) (S (wc_rand c)).

(** [p[i] ^ mkey[i%4]], from index [i] on *)
Fixpoint xor_mask (mkey : list Z) (i : nat) (bs : list Z) : list Z :=
  match bs with
  | [] => []
  | b :: bs => Z.lxor b (nth (i mod 4) mkey 0) :: xor_mask mkey (S i) bs
  end.

Section websock.
Context `{Host}.

(** ** Frames *)

(** The masking loop over [len] bytes from the position: it leaves the block
    unless they are all in it. *)
Definition mask_loop (mkey : list Z) (len : Z) : M mbuf unit :=
  let* mb := get in
  let* p := load_at (mb_pos mb) len in
  store_at (mb_pos mb) (xor_mask mkey 0 p).

(** The fields of the first octet. *)
Definition hdr_of (v : Z) (mask : bool) (len : Z) (mkey : list Z) : websock_hdr :=
  WsHdr (Z.land (Z.shiftr v 7) 1) (Z.land (Z.shiftr v 6) 1) (Z.land (Z.shiftr v 5) 1) (Z.land (Z.shiftr v 4) 1)
    (Z.land v 0x0f) mask len mkey.

(** The length, which may have an extension of two or eight octets. *)
Definition decode_len (len : Z) : M mbuf (Z + Z) :=
  if len =? 126 then
    need 2 (ret (inl ENODATA)) (let* len := mbuf_read_ntohs in ret (inr len))
  else if len =? 127 then
    need 8 (ret (inl ENODATA)) (let* len := mbuf_read_u64 in ret (inr (sys_ntohll len)))
  else ret (inr len).

(** [4 + hdr->len] is computed in 64 bits. *)
Definition decode_payload (v : Z) (mask : bool) (len : Z) : M mbuf (Z + websock_hdr) :=
  if mask then
    need (u64 (4 + len)) (ret (inl ENODATA))
      (let* k0 := mbuf_read_u8 in
       let* k1 := mbuf_read_u8 in
       let* k2 := mbuf_read_u8 in
       let* k3 := mbuf_read_u8 in
       let mkey := [k0; k1; k2; k3] in
       mask_loop mkey len ;; ret (inr (hdr_of v mask len mkey)))
  else need len (ret (inl ENODATA)) (ret (inr (hdr_of v mask len []))).

(** The error, or the header. *)
Definition websock_decode : M mbuf (Z + websock_hdr) :=
  need 2 (ret (inl ENODATA))
    (let* v := mbuf_read_u8 in
     let* v2 := mbuf_read_u8 in
     let mask := nz (Z.land (Z.shiftr v2 7) 1) in
     let* len := decode_len (Z.land v2 0x7f) in
     match len with
     | inl err => ret (inl err)
     | inr len => decode_payload v mask len
     end).

(** [mkey] is the key that [rand_bytes] gives when the frame is masked. *)
Definition websock_encode (fin : bool) (opcode : Z) (mkey : option (list Z)) (len : Z) : M mbuf Z :=
  let m := Z.shiftl (b2z (bool_decide (is_Some mkey))) 7 in
  mbuf_write_u8 (Z.lor (Z.shiftl (b2z fin) 7) (Z.land opcode 0x0f)) |;
  (if 0xffff <? len then mbuf_write_u8 (Z.lor m 127) |; mbuf_write_u64 (sys_htonll len)
   else if 125 <? len then mbuf_write_u8 (Z.lor m 126) |; mbuf_write_u16 (htons (u16 len))
   else mbuf_write_u8 (Z.lor m (u8 len))) |;
  match mkey with
  | Some mkey => let* err := mbuf_write_mem mkey in mask_loop mkey len ;; ret err
  | None => ret 0
  end.

(** ** Sending *)

Variable rand_bytes : nat -> list Z.
Variable tcp_send : mbuf -> Z.
(** The array on the stack of the formatter. *)
Variable num0 : list Z.
(** The application's handler: what it makes the connection do, and whether
    it dropped its reference. *)
Variable recvh : websock_hdr -> mbuf -> M websock_conn (list ws_event * bool).

(** [fmt] is the call of [mbuf_vprintf]; the buffer that is sent is returned. *)
Definition websock_vsend (opcode scode : Z) (fmt : option (M mbuf Z)) : M websock_conn (Z * option mbuf) := fun c =>
  let hsz := if wc_active c then 14 else 10 in
  if negb (bool_decide (wc_state c = OPEN)) then Some ((ENOTCONN, None), c)
  else
    match mbuf_alloc 2048 with
    | None => Some ((ENOMEM, None), c)
    | Some mb =>
        match ((if nz scode then mbuf_write_u16 (htons scode) else ret 0) |;
               match fmt with Some fmt => fmt | None => ret 0 end) (set_pos hsz mb) with
        | None => None
        | Some (err, mb) =>
            if nz err then Some ((err, None), c)
            else
              let len := u64 (mb_pos mb - hsz) in
              let start := if 0xffff <? len then 0 else if 125 <? len then 6 else 8 in
              let mkey := if wc_active c then Some (rand_bytes (wc_rand c)) else None in
              let c := if wc_active c then next_rand c else c in
              match websock_encode true opcode mkey len (set_pos start mb) with
              | None => None
              | Some (err, mb) =>
                  if nz err then Some ((err, None), c)
                  else let mb := set_pos start mb in Some ((tcp_send mb, Some mb), c)
              end
        end
    end.

Definition websock_send (opcode : Z) (fmt : option (M mbuf Z)) : M websock_conn (Z * option mbuf) :=
  websock_vsend opcode 0 fmt.

Definition websock_close (scode : Z) (fmt : option (M mbuf Z)) : M websock_conn (Z * option mbuf) :=
  let fmt := if nz scode then fmt else None in
  let* '(err, sent) := websock_vsend WEBSOCK_CLOSE scode fmt in
  (if nz err then ret tt else modify (set_state CLOSING)) ;; ret (err, sent).

(** ** The life of a connection *)

Definition sent_event (sent : option mbuf) : list ws_event :=
  match sent with Some mb => [WsSent mb] | None => [] end.

(** [websock_close(conn, WEBSOCK_GOING_AWAY, "Going Away")] *)
Definition going_away : M websock_conn (list ws_event) :=
  let* '(_, sent) := websock_close WEBSOCK_GOING_AWAY
    (Some (mbuf_printf num0 [71; 111; 105; 110; 103; 32; 65; 119; 97; 121] [])) in
  ret (sent_event sent).

(** The application drops its reference, which was the last one.  A
    connection that is closing lives on until the peer answers or the timer
    fires. *)
Definition conn_destructor : M websock_conn (list ws_event) :=
  let* c := get in
  let* evs := if bool_decide (wc_state c = OPEN) then going_away else ret [] in
  let* c := get in
  if bool_decide (wc_state c = CLOSING) then
    modify (set_orphan true) ;; modify (set_tmr (Some (timeout_timer TIMEOUT_CLOSE))) ;; ret evs
  else modify (set_tmr None) ;; ret (evs ++ [WsFreed]).

(** [closeh] of a connection the application has dropped frees it. *)
Definition conn_close (err : Z) : M websock_conn (list ws_event) :=
  modify (set_tmr None) ;; modify (set_state CLOSED) ;;
  let* c := get in
  if wc_orphan c then conn_destructor else ret [WsClosed err].

Definition timeout_handler : M websock_conn (list ws_event) := conn_close ETIMEDOUT.

Definition close_handler (err : Z) : M websock_conn (list ws_event) := conn_close err.

Definition keepalive_handler : M websock_conn (list ws_event) :=
  modify (fun c => set_tmr (Some (keepalive_timer (wc_kaint c))) c) ;;
  let* '(_, sent) := websock_send WEBSOCK_PING None in
  ret (sent_event sent).

(** ** Receiving *)

Definition websock_err2scode (err : Z) : Z :=
  if err =? EOVERFLOW then WEBSOCK_MESSAGE_TOO_BIG
  else if err =? EPROTO then WEBSOCK_PROTOCOL_ERROR
  else if err =? EBADMSG then WEBSOCK_PROTOCOL_ERROR
  else WEBSOCK_INTERNAL_ERROR.

(** [websock_send(conn, opcode, "%b", mbuf_buf(mb), mbuf_get_left(mb))] *)
Definition send_back (opcode : Z) (mb : mbuf) : M websock_conn (list ws_event) :=
  let* '(_, sent) := websock_send opcode (Some (mbuf_printf num0 [37; 98]
    [Arg 8 (VPtr (Some (drop (Z.to_nat (mb_pos mb)) (mb_buf mb)))); Arg 8 (VNum (mbuf_get_left mb))])) in
  ret (sent_event sent).

(** At [out:] with an error. *)
Definition recv_fail (err : Z) : M websock_conn (list ws_event) :=
  let* '(_, sent) := websock_close (websock_err2scode err) None in
  let* evs := conn_close err in
  ret (sent_event sent ++ evs).

(** The handler of the application; when it dropped the connection, the
    connection goes on closing. *)
Definition call_recvh (hdr : websock_hdr) (mb : mbuf) : M websock_conn (list ws_event) :=
  let* c := get in
  if wc_orphan c then ret []
  else
    let* '(evs, dropped) := recvh hdr mb in
    if dropped : bool then
      let* c := get in
      let* evs2 := if bool_decide (wc_state c = OPEN) then going_away else ret [] in
      modify (set_state CLOSING) ;;
      let* evs3 := conn_destructor in
      ret (WsRecv hdr mb :: evs ++ evs2 ++ evs3)
    else ret (WsRecv hdr mb :: evs).

(** What is left behind the frame becomes the buffer of the connection. *)
Definition split_rest (mb : mbuf) (e : Z) : option (option (option mbuf)) :=
  if e >? mb_end mb then
    match mbuf_alloc (e - mb_end mb) with
    | None => Some None
    | Some mbn =>
        match mem_load (mb_buf mb) (mb_end mb) (e - mb_end mb) with
        | None => None
        | Some rest =>
            match mbuf_write_mem rest mbn with
            | Some (_, mbn) => Some (Some (Some (set_pos 0 mbn)))
            | None => None
            end
        end
    end
  else Some (Some None).

(** A round of the loop: whether it goes on, and the events. *)
Inductive round_result := Again (evs : list ws_event) | Stop (evs : list ws_event).

Definition dispatch (hdr : websock_hdr) (mb : mbuf) : M websock_conn round_result :=
  let opcode := ws_opcode hdr in
  if (opcode =? WEBSOCK_CONT) || (opcode =? WEBSOCK_TEXT) || (opcode =? WEBSOCK_BIN) then
    let* evs := call_recvh hdr mb in ret (Again evs)
  else if opcode =? WEBSOCK_CLOSE then
    let* c := get in
    let* evs := if bool_decide (wc_state c = OPEN) then send_back WEBSOCK_CLOSE mb else ret [] in
    let* evs2 := conn_close 0 in
    ret (Stop (evs ++ evs2))
  else if opcode =? WEBSOCK_PING then
    let* evs := send_back WEBSOCK_PONG mb in ret (Again evs)
  else if opcode =? WEBSOCK_PONG then ret (Again [])
  else let* evs := recv_fail EPROTO in ret (Stop evs).

Definition recv_frame (mb : mbuf) : M websock_conn round_result :=
  let pos := mb_pos mb in
  let* '(r, mb) := lift (websock_decode mb) in
  match r with
  | inl err =>
      if err =? ENODATA then modify (set_mb (Some (set_pos pos mb))) ;; ret (Stop [])
      else modify (set_mb (Some mb)) ;; let* evs := recv_fail err in ret (Stop evs)
  | inr hdr =>
      let* c := get in
      if Bool.eqb (wc_active c) (ws_mask hdr) || (nz (ws_rsv1 hdr) || nz (ws_rsv2 hdr) || nz (ws_rsv3 hdr)) then
        modify (set_mb (Some mb)) ;; let* evs := recv_fail EPROTO in ret (Stop evs)
      else
        let e := mb_end mb in
        let mb := set_end (u64 (mb_pos mb + ws_len hdr)) mb in
        let* rest := lift (split_rest mb e) in
        match rest with
        | None => modify (set_mb (Some mb)) ;; let* evs := recv_fail ENOMEM in ret (Stop evs)
        | Some rest => modify (set_mb rest) ;; dispatch hdr mb
        end
  end.

Fixpoint recv_loop (fuel : nat) : M websock_conn (list ws_event) :=
  let* c := get in
  match wc_mb c with
  | None => ret []
  | Some mb =>
      match fuel with
      | O => ub
      | S fuel =>
          let* r := recv_frame mb in
          match r with
          | Stop evs => ret evs
          | Again evs => let* more := recv_loop fuel in ret (evs ++ more)
          end
      end
  end.

(** The segment is appended to what the connection has; a frame takes two
    bytes at least. *)
Definition recv_handler (mb : mbuf) : M websock_conn (list ws_event) :=
  let* c := get in
  let* '(err, cmb) :=
    match wc_mb c with
    | Some cmb =>
        let len := mbuf_get_left mb in
        let pos := mb_pos cmb in
        if mbuf_get_left cmb + len >? BUFSIZE_MAX then ret (EOVERFLOW, cmb)
        else
          let* data := lift (mem_load (mb_buf mb) (mb_pos mb) len) in
          let* '(err, cmb) := lift (mbuf_write_mem data (set_pos (mb_end cmb) cmb)) in
          if nz err then ret (err, cmb) else ret (0, set_pos pos cmb)
    | None => ret (0, mb)
    end in
  modify (set_mb (Some cmb)) ;;
  if nz err then recv_fail err
  else recv_loop (S (Z.to_nat (mbuf_get_left cmb))).

End websock.
