(* ===== verification/WebsockThms.v ===== *)
(** * WebSocket frames: encoding, decoding and the stream

    [frame_bytes] is the layout of a frame.  A connection that sends writes
    it, a whole frame is decoded and unmasked in place, and a part of a frame
    is left for later. *)

From S2P Require Export Websock MbufThms MbufData MbufPatch PrintSinks StunThms.

(** ** The layout of a frame *)

Definition len_bytes (masked : bool) (n : Z) : list Z :=
  let m := if masked then 128 else 0 in
  if n <=? 125 then [m + n]
  else if n <=? 65535 then (m + 126) :: be_bytes 2 n
  else (m + 127) :: be_bytes 8 n.

Definition masked (mkey : option (list Z)) : bool := bool_decide (is_Some mkey).

Definition body_bytes (mkey : option (list Z)) (payload : list Z) : list Z :=
  match mkey with
  | Some mkey => mkey ++ xor_mask mkey 0 payload
  | None => payload
  end.

Definition frame_bytes (fin : bool) (opcode : Z) (mkey : option (list Z)) (payload : list Z) : list Z :=
  (128 * b2z fin + opcode) :: len_bytes (masked mkey) (zlength payload) ++ body_bytes mkey payload.

Definition key_ok (mkey : list Z) : Prop := length mkey = 4%nat /\ bytes_ok mkey.

(** ** Masking *)

Lemma length_xor_mask mkey i bs : length (xor_mask mkey i bs) = length bs.
Proof. revert i. induction bs as [|b bs IH]; intros i; simpl; [done|]. by rewrite IH. Qed.

Lemma xor_mask_twice mkey i bs : xor_mask mkey i (xor_mask mkey i bs) = bs.
Proof. revert i. induction bs as [|b bs IH]; intros i; simpl; [done|]. by rewrite IH, lxor_twice. Qed.

Lemma nth_key_ok mkey i : bytes_ok mkey -> byte_ok (nth i mkey 0).
Proof.
  intros Hk. destruct (nth_in_or_default i mkey 0) as [Hi| ->]; [|done].
  by apply (proj1 (list.Forall_forall _ _) Hk), list_elem_of_In.
Qed.

Lemma xor_mask_ok mkey i bs : bytes_ok mkey -> bytes_ok bs -> bytes_ok (xor_mask mkey i bs).
Proof.
  intros Hk Hb. revert i. induction Hb as [|b bs Hb _ IH]; intros i; simpl; constructor; [|apply IH].
  apply (lxor_range _ _ 8); [lia|done|by apply nth_key_ok].
Qed.

Lemma bytes_ok_app3 (a b c : list Z) : bytes_ok (a ++ b ++ c) -> bytes_ok a /\ bytes_ok b /\ bytes_ok c.
Proof. rewrite !Forall_app. tauto. Qed.

(** Masking bytes of the buffer from the position on. *)
Lemma holds_mask mb pre bs rest mkey : holds mb (pre ++ bs ++ rest) (zlength pre) -> bytes_ok mkey ->
  exists mb', mask_loop mkey (zlength bs) mb = Some (tt, mb') /\
    holds mb' (pre ++ xor_mask mkey 0 bs ++ rest) (zlength pre).
Proof.
  intros Hh Hk. pose proof (holds_ok _ _ _ Hh) as (_ & Hb & _)%bytes_ok_app3. unfold mask_loop.
  rewrite (bind_Some _ _ _ _ _ (eq_refl : get mb = _)), (h_pos _ _ _ Hh).
  rewrite (bind_Some _ _ _ _ _ (holds_load _ _ _ (zlength pre) (zlength bs) Hh ltac:(lia) ltac:(lia)
    ltac:(rewrite !length_app; lia))), slice_app_mid.
  destruct (holds_store _ _ _ (zlength pre) (xor_mask mkey 0 bs) Hh) as (mb' & E & Hh');
    [lia|rewrite !length_app, length_xor_mask; lia|by apply xor_mask_ok|].
  exists mb'. split; [done|]. by rewrite splice_app_mid in Hh' by (by rewrite length_xor_mask).
Qed.

Lemma unread_holds mb : mbuf_wf mb -> mb_pos mb <= mb_end mb ->
  holds mb (take (Z.to_nat (mb_pos mb)) (mb_buf mb) ++ unread mb) (zlength (take (Z.to_nat (mb_pos mb)) (mb_buf mb))).
Proof.
  intros Hwf Hle. pose proof Hwf as [Hl _ _ Hp He]. split; [done| |rewrite length_take; lia].
  unfold unread, mbuf_get_left, slice. rewrite <- (take_drop (Z.to_nat (mb_pos mb)) (take _ _)).
  rewrite take_take, skipn_firstn_comm. f_equal; [f_equal; lia|].
  destruct (Z.ltb_spec (mb_pos mb) (mb_end mb)); f_equal; lia.
Qed.

(** ** Sending *)

Definition head_bytes (fin : bool) (opcode : Z) (mkey : option (list Z)) (len : Z) : list Z :=
  (128 * b2z fin + opcode) :: len_bytes (masked mkey) len ++ default [] mkey.

Definition frame_start (len : Z) : Z := if 65535 <? len then 0 else if 125 <? len then 6 else 8.

Lemma head_size fin opcode (mkey : option (list Z)) len : 0 <= len ->
  zlength (head_bytes fin opcode mkey len) =
    (if masked mkey then 10 + zlength (default [] mkey) else 10) - frame_start len.
Proof.
  intros Hl. unfold head_bytes, len_bytes, frame_start. cbn [length]. rewrite length_app.
  destruct (Z.leb_spec len 125), (Z.leb_spec len 65535), (Z.ltb_spec 65535 len), (Z.ltb_spec 125 len); try lia;
    cbn [length]; rewrite ?length_be_bytes; destruct mkey; cbn; lia.
Qed.

Lemma byte_of_flag b v : 0 <= v < 128 -> u8 (Z.lor (Z.shiftl (b2z b) 7) v) = 128 * b2z b + v.
Proof.
  intros Hv. rewrite lor_shiftl by lia. rewrite (wrap_small 8) by (destruct b; cbn; lia).
  change (2 ^ 7) with 128. lia.
Qed.

Section sending.
Context `{Host}.

Lemma writes_flag b v : 0 <= v < 128 -> Writes (mbuf_write_u8 (Z.lor (Z.shiftl (b2z b) 7) v)) [128 * b2z b + v].
Proof. intros Hv. rewrite <- byte_of_flag by done. apply writes_u8. Qed.

(** [websock_encode] up to the masking loop. *)
Definition head_prog (fin : bool) (opcode : Z) (mkey : option (list Z)) (len : Z) : M mbuf Z :=
  mbuf_write_u8 (Z.lor (Z.shiftl (b2z fin) 7) (Z.land opcode 0x0f)) |;
  (if 0xffff <? len then
     mbuf_write_u8 (Z.lor (Z.shiftl (b2z (masked mkey)) 7) 127) |; mbuf_write_u64 (sys_htonll len)
   else if 125 <? len then
     mbuf_write_u8 (Z.lor (Z.shiftl (b2z (masked mkey)) 7) 126) |; mbuf_write_u16 (htons (u16 len))
   else mbuf_write_u8 (Z.lor (Z.shiftl (b2z (masked mkey)) 7) (u8 len))) |;
  match mkey with Some mkey => mbuf_write_mem mkey | None => ret 0 end.

Lemma bind_ret_r {S A} (m : M S A) s : (let* a := m in ret a) s = m s.
Proof. unfold bind, ret. by destruct (m s) as [[]|]. Qed.

Lemma or_err_then (a b c : M mbuf Z) (f : M mbuf unit) mb :
  (a |; b |; (let* e := c in f ;; ret e)) mb = (let* e := (a |; b |; c) in f ;; ret e) mb.
Proof.
  unfold or_err, bind. destruct (a mb) as [[ea mba]|]; [|done]. destruct (b mba) as [[eb mbb]|]; [|done].
  destruct (c mbb) as [[ec mbc]|]; [|done]. cbn. by destruct (f mbc) as [[]|].
Qed.

Lemma encode_eq fin opcode mkey len mb : websock_encode fin opcode mkey len mb =
  (let* e := head_prog fin opcode mkey len in
   match mkey with Some mkey => mask_loop mkey len ;; ret e | None => ret e end) mb.
Proof.
  destruct mkey as [k|]; [apply or_err_then|]. symmetry. apply bind_ret_r.
Qed.

Lemma writes_head fin opcode mkey len : 0 <= opcode < 16 -> 0 <= len < 2 ^ 64 -> bytes_ok (default [] mkey) ->
  Writes (head_prog fin opcode mkey len) (head_bytes fin opcode mkey len).
Proof.
  intros Ho Hl Hk. unfold head_prog, head_bytes. change (?a :: ?b) with ([a] ++ b). apply writes_or_err.
  { rewrite land_15, Z.mod_small by lia. apply writes_flag. lia. }
  apply writes_or_err; [|destruct mkey; [by apply writes_mem|apply writes_ret0]]. unfold len_bytes.
  replace (if masked mkey then 128 else 0) with (128 * b2z (masked mkey)) by by destruct (masked mkey).
  destruct (Z.leb_spec len 125) as [H1|H1], (Z.leb_spec len 65535) as [H2|H2],
    (Z.ltb_spec 65535 len), (Z.ltb_spec 125 len); try lia.
  - rewrite (wrap_small 8) by lia. apply writes_flag. lia.
  - change (?a :: ?b) with ([a] ++ b). rewrite (wrap_small 16) by lia.
    apply writes_or_err; [apply writes_flag; lia|apply writes_u16_n].
  - change (?a :: ?b) with ([a] ++ b). apply writes_or_err; [apply writes_flag; lia|apply writes_u64_n].
Qed.

(** What [written] says of a buffer that had nothing behind the position. *)
Lemma written_exact mb bs mb' : mbuf_wf mb -> mbuf_wf mb' -> written mb bs mb' -> mb_end mb <= mb_pos mb -> bs <> [] ->
  unread (set_pos (mb_pos mb) mb') = bs.
Proof.
  intros Hwf Hwf' Hw Hle Hne. destruct (written_unread _ _ _ Hwf Hwf' Hw) as [rest E].
  pose proof (wf_pos _ Hwf). assert (mbuf_wf (set_pos (mb_pos mb) mb')) as Hr by (apply set_pos_wf; [done|lia]).
  pose proof (length_unread _ Hr) as L. rewrite E, length_app in L. unfold mbuf_get_left in L. cbn [mb_pos mb_end set_pos] in L.
  pose proof (wr_end _ _ _ Hw). pose proof (wr_cover _ _ _ Hw Hne).
  destruct rest; [by rewrite E, app_nil_r|]. simpl in L. case_match; lia.
Qed.

Lemma frame_split fin opcode mkey payload :
  frame_bytes fin opcode mkey payload = head_bytes fin opcode mkey (zlength payload) ++
    match mkey with Some k => xor_mask k 0 payload | None => payload end.
Proof. unfold frame_bytes, head_bytes, body_bytes. simpl. rewrite <- app_assoc. by destruct mkey. Qed.

(** The masking loop, after the header. *)
Lemma encode_mask fin opcode mkey bs st mb1 mb2 :
  head_prog fin opcode mkey (zlength bs) (set_pos st mb1) = Some (0, mb2) -> mbuf_wf mb2 -> 0 <= st ->
  mb_pos mb2 = st + zlength (head_bytes fin opcode mkey (zlength bs)) -> (forall k, mkey = Some k -> key_ok k) ->
  unread (set_pos st mb2) = head_bytes fin opcode mkey (zlength bs) ++ bs ->
  exists mb3, websock_encode fin opcode mkey (zlength bs) (set_pos st mb1) = Some (0, mb3) /\
    mbuf_wf mb3 /\ unread (set_pos st mb3) = frame_bytes fin opcode mkey bs.
Proof.
  intros E Hwf Hst Hp Hk U. rewrite encode_eq, (bind_Some _ _ _ _ _ E), frame_split. destruct mkey as [k|]; [|by eauto].
  pose proof (wf_pos _ Hwf). set (hb := head_bytes fin opcode (Some k) (zlength bs)) in *.
  assert (mbuf_wf (set_pos st mb2)) as Hws by (apply set_pos_wf; [done|lia]).
  assert (st <= mb_end mb2) as Hse.
  { pose proof (length_unread _ Hws) as L. rewrite U in L. unfold mbuf_get_left in L. cbn in L. case_match; lia. }
  pose proof (unread_holds _ Hws Hse) as Hh. rewrite U in Hh. cbn [set_pos mb_pos mb_buf] in Hh.
  set (pre := take (Z.to_nat st) (mb_buf mb2)) in *.
  assert (zlength pre = st) as Lp by (pose proof (h_pos _ _ _ Hh) as Hq; by cbn in Hq).
  apply (holds_set_pos _ _ _ (mb_pos mb2)) in Hh; [|lia]. rewrite set_pos_set_pos, set_pos_id in Hh.
  rewrite app_assoc, <- (app_nil_r bs) in Hh. replace (mb_pos mb2) with (zlength (pre ++ hb)) in Hh by (rewrite length_app; lia).
  destruct (holds_mask _ _ _ _ k Hh) as (mb3 & E3 & Hh3); [by destruct (Hk k eq_refl)|].
  exists mb3. rewrite (bind_Some _ _ _ _ _ E3). split_and!; [done|apply (h_wf _ _ _ Hh3)|].
  apply (holds_set_pos _ _ _ st) in Hh3; [|lia].
  rewrite (holds_unread _ _ _ Hh3) by (rewrite !length_app; lia).
  rewrite app_nil_r, <- app_assoc. replace (Z.to_nat st) with (length pre) by lia. apply drop_app_length.
Qed.

(** The payload is written behind the room for the header, and the header
    before it. *)
Lemma encode_frame (m : M mbuf Z) fin opcode mkey bs mb (hsz := if masked mkey then 14 else 10) :
  no_oom -> mbuf_wf mb -> mb_end mb = 0 -> WritesOk m bs -> 14 + zlength bs < WRITE_MAX ->
  0 <= opcode < 16 -> (forall k, mkey = Some k -> key_ok k) ->
  exists mb1 mb2, m (set_pos hsz mb) = Some (0, mb1) /\ mb_pos mb1 = hsz + zlength bs /\
    websock_encode fin opcode mkey (zlength bs) (set_pos (frame_start (zlength bs)) mb1) = Some (0, mb2) /\
    mbuf_wf mb2 /\ unread (set_pos (frame_start (zlength bs)) mb2) = frame_bytes fin opcode mkey bs.
Proof.
  intros Ho Hwf He Hm Hr Hop Hk. unfold WRITE_MAX in Hr. set (st := frame_start (zlength bs)).
  assert (zlength (head_bytes fin opcode mkey (zlength bs)) = hsz - st) as Hsz.
  { rewrite head_size by lia. subst hsz. destruct mkey as [k|]; cbn; [destruct (Hk k eq_refl) as [-> _]|]; lia. }
  assert (0 <= st <= 8) as Hst by (subst st; unfold frame_start; repeat case_match; lia).
  assert (0 <= hsz <= 14) as Hh by (subst hsz; case_match; lia).
  destruct (patch_steps (set_pos st mb) (hsz - st) m (head_prog fin opcode mkey (zlength bs)) bs
    (head_bytes fin opcode mkey (zlength bs))) as (mb1 & mb2 & E1 & P1 & E2 & Hwf2 & P2 & W).
  - apply set_pos_wf; [done|lia].
  - done.
  - apply writes_writes_ok; [done|]. apply writes_head; [done|lia|].
    destruct mkey as [k|]; [by destruct (Hk k eq_refl)|constructor].
  - done.
  - unfold WRITE_MAX. cbn. lia.
  - cbn [set_pos mb_pos] in *. rewrite set_pos_set_pos in E1. replace (st + (hsz - st)) with hsz in * by lia.
    apply written_exact in W as U; cbn [set_pos mb_pos mb_end]; try lia.
    2: { apply set_pos_wf; [done|lia]. }
    2: { apply set_pos_wf; [done|]. lia. }
    2: { by unfold head_bytes. }
    rewrite set_pos_set_pos in U. cbn [set_pos mb_pos] in U. exists mb1.
    destruct (encode_mask fin opcode mkey bs st mb1 mb2) as (mb3 & E3 & Hwf3 & U3);
      try done; try lia. eauto 10.
Qed.

Variable rand_bytes : nat -> list Z.
Variable tcp_send : mbuf -> Z.
Hypothesis memory : no_oom.
Hypothesis keys : forall i, key_ok (rand_bytes i).

Definition key_of (c : websock_conn) : option (list Z) :=
  if wc_active c then Some (rand_bytes (wc_rand c)) else None.
Definition after_send (c : websock_conn) : websock_conn := if wc_active c then next_rand c else c.

Definition scode_bytes (scode : Z) : list Z := if nz scode then be_bytes 2 scode else [].

(** A connection that is open sends one frame. *)
Lemma vsend_ok c opcode scode fmt bs : wc_state c = OPEN -> 0 <= opcode < 16 ->
  WritesOk (default (ret 0) fmt) bs -> 16 + zlength bs < WRITE_MAX ->
  exists mb, websock_vsend rand_bytes tcp_send opcode scode fmt c = Some ((tcp_send mb, Some mb), after_send c) /\
    mbuf_wf mb /\ unread mb = frame_bytes true opcode (key_of c) (scode_bytes scode ++ bs).
Proof.
  intros Hs Hop Hf Hl. unfold websock_vsend. rewrite bool_decide_true by done. cbn [negb].
  destruct (mbuf_alloc_no_oom 2048 memory) as [mb0 E0]; [unfold MEM_SIZE_MAX; lia|]. rewrite E0.
  apply mbuf_alloc_wf in E0 as (Hwf0 & _ & He0 & _); [|lia].
  set (pl := scode_bytes scode ++ bs). set (m := _ |; _).
  assert (WritesOk m pl) as Hm.
  { apply writes_ok_or_err; [|by destruct fmt].
    unfold scode_bytes. destruct (nz scode); apply writes_writes_ok, _; done. }
  assert (zlength pl <= 2 + zlength bs) as Hpl.
  { subst pl. rewrite length_app. unfold scode_bytes. case_match; [rewrite length_be_bytes|simpl]; lia. }
  destruct (encode_frame m true opcode (key_of c) pl mb0) as (mb1 & mb2 & E1 & P1 & E2 & Hwf2 & U);
    try done; [unfold WRITE_MAX in *; lia|unfold key_of; by destruct (wc_active c); intros ? [= <-]|].
  assert ((if wc_active c then 14 else 10) = (if masked (key_of c) then 14 else 10)) as Eh
    by (unfold key_of; by destruct (wc_active c)).
  cbv zeta. rewrite Eh, E1. cbn [nz Z.eqb negb]. rewrite P1. unfold WRITE_MAX in *.
  rewrite Z.add_simpl_l, (wrap_small 64) by lia. unfold key_of in *. fold (frame_start (zlength pl)).
  rewrite E2. cbn [nz Z.eqb negb]. exists (set_pos (frame_start (zlength pl)) mb2). split_and!; try done.
  apply set_pos_wf; [done|]. unfold frame_start. repeat case_match; lia.
Qed.

End sending.

(** ** Decoding *)

Section decoding.
Context `{Host}.

(** The length field of the second octet. *)
Definition len7 (n : Z) : Z := if n <=? 125 then n else if n <=? 65535 then 126 else 127.
Definition ext_bytes (n : Z) : list Z :=
  if n <=? 125 then [] else if n <=? 65535 then be_bytes 2 n else be_bytes 8 n.

Lemma len_bytes_eq m n : len_bytes m n = (128 * b2z m + len7 n) :: ext_bytes n.
Proof. unfold len_bytes, len7, ext_bytes. by destruct m; repeat case_match. Qed.

Lemma len7_range n : 0 <= n -> 0 <= len7 n < 128.
Proof. unfold len7. repeat case_match; lia. Qed.

Lemma len_octet m n : 0 <= n ->
  nz (Z.land (Z.shiftr (128 * b2z m + len7 n) 7) 1) = m /\ Z.land (128 * b2z m + len7 n) 0x7f = len7 n.
Proof.
  intros Hn%len7_range. rewrite Z.shiftr_div_pow2, land_1, land_127 by lia. change (2 ^ 7) with 128.
  unfold nz. destruct m; cbn [b2z]; split; dlia.
Qed.

Lemma flag_octet fin opcode mask len mkey : 0 <= opcode < 16 ->
  hdr_of (128 * b2z fin + opcode) mask len mkey = WsHdr (b2z fin) 0 0 0 opcode mask len mkey.
Proof.
  intros Ho. unfold hdr_of. rewrite !Z.shiftr_div_pow2, !land_1, land_15 by lia.
  change (2 ^ 7) with 128. change (2 ^ 6) with 64. change (2 ^ 5) with 32. change (2 ^ 4) with 16.
  destruct fin; cbn [b2z]; f_equal; dlia.
Qed.

Lemma reads_len n : 0 <= n < 2 ^ 64 -> Reads (decode_len (len7 n)) (ext_bytes n) (inr n).
Proof.
  intros Hn. unfold decode_len, len7, ext_bytes.
  destruct (Z.leb_spec n 125); [|destruct (Z.leb_spec n 65535)]; cbn [Z.eqb Pos.eqb].
  - rewrite !(proj2 (Z.eqb_neq _ _)) by lia. apply reads_ret.
  - apply reads_need; [by rewrite length_be_bytes|]. apply (reads_map _ inr), (reads_net_int 2). change (256 ^ _) with 65536. lia.
  - apply reads_need; [by rewrite length_be_bytes|].
    pose proof (reads_int 8 (be_bytes 8 n) (length_be_bytes _ _)) as R.
    apply (reads_map _ (fun x => inr (A := Z) (sys_ntohll x))) in R.
    by rewrite sys_ntohll_host_val, be_val_bytes in R by auto using be_bytes_ok, length_be_bytes.
Qed.

(** [websock_decode] is the reader of the fixed part followed by
    [decode_payload]. *)
Definition head_reader : M mbuf (Z * Z * (Z + Z)) :=
  let* v := mbuf_read_u8 in
  let* v2 := mbuf_read_u8 in
  let* len := decode_len (Z.land v2 0x7f) in
  ret (v, v2, len).

Lemma decode_eq mb : 2 <= mbuf_get_left mb ->
  websock_decode mb = (let* r := head_reader in
    match r.2 with
    | inl err => ret (inl err)
    | inr len => decode_payload r.1.1 (nz (Z.land (Z.shiftr r.1.2 7) 1)) len
    end) mb.
Proof.
  intros Hl. unfold websock_decode, need. rewrite (bind_Some _ _ _ _ _ (eq_refl : get mb = _)).
  rewrite (proj2 (Z.ltb_ge _ _)) by lia. unfold head_reader, bind.
  destruct (mbuf_read_u8 mb) as [[v mb1]|]; [|done]. destruct (mbuf_read_u8 mb1) as [[v2 mb2]|]; [|done].
  by destruct (decode_len _ mb2) as [[[] ?]|].
Qed.

Lemma reads_head b0 m n : 0 <= n < 2 ^ 64 ->
  Reads head_reader (b0 :: len_bytes m n) (b0, 128 * b2z m + len7 n, inr n).
Proof.
  intros Hn. rewrite len_bytes_eq. apply reads_u8, reads_u8.
  rewrite (proj2 (len_octet m n ltac:(lia))). apply (reads_map _ (fun len => (_, _, len))), reads_len, Hn.
Qed.

Lemma holds_u8 mb pre b rest : holds mb (pre ++ b :: rest) (zlength pre) ->
  exists mb', mbuf_read_u8 mb = Some (b, mb') /\ holds mb' ((pre ++ [b]) ++ rest) (zlength (pre ++ [b])).
Proof.
  intros Hh. change (b :: rest) with ([b] ++ rest) in Hh.
  destruct (holds_reads _ _ _ _ _ b Hh (reads_u8 b ret [] b (reads_ret b))) as (mb' & E & Hh').
  rewrite bind_ret_r in E. exists mb'. split; [done|]. by rewrite length_app, <- app_assoc, Nat2Z.inj_add.
Qed.

(** The payload is unmasked in place. *)
Lemma payload_ok mb pre v mkey payload rest : holds mb (pre ++ body_bytes mkey payload ++ rest) (zlength pre) ->
  (forall k, mkey = Some k -> key_ok k) ->
  exists mb', decode_payload v (masked mkey) (zlength payload) mb =
      Some (inr (hdr_of v (masked mkey) (zlength payload) (default [] mkey)), mb') /\
    holds mb' ((pre ++ default [] mkey) ++ payload ++ rest) (zlength (pre ++ default [] mkey)).
Proof.
  intros Hh Hk. pose proof (holds_left _ _ _ Hh ltac:(rewrite !length_app; lia)) as El. rewrite !length_app in El.
  pose proof (left_bound _ (h_wf _ _ _ Hh)) as (_ & _ & Hlb). pose proof (wf_pos _ (h_wf _ _ _ Hh)).
  unfold decode_payload, need. destruct mkey as [k|]; cbn [default body_bytes] in *.
  2: { change (masked None) with false. cbv beta iota. rewrite (bind_Some _ _ _ _ _ (eq_refl : get mb = _)), (proj2 (Z.ltb_ge _ _)) by lia. rewrite !app_nil_r. eauto. }
  destruct (Hk k eq_refl) as [Lk Ok]. destruct k as [|k0 [|k1 [|k2 [|k3 [|]]]]]; try done.
  rewrite length_app, length_xor_mask in El. cbn [length] in El.
  change (masked (Some _)) with true. cbv beta iota.
  rewrite (bind_Some _ _ _ _ _ (eq_refl : get mb = _)), (wrap_small 64), (proj2 (Z.ltb_ge _ _)) by lia.
  cbn [app] in Hh. apply holds_u8 in Hh as (mb1 & E1 & Hh). apply holds_u8 in Hh as (mb2 & E2 & Hh).
  apply holds_u8 in Hh as (mb3 & E3 & Hh). apply holds_u8 in Hh as (mb4 & E4 & Hh).
  rewrite (bind_Some _ _ _ _ _ E1), (bind_Some _ _ _ _ _ E2), (bind_Some _ _ _ _ _ E3), (bind_Some _ _ _ _ _ E4).
  destruct (holds_mask _ _ _ _ [k0; k1; k2; k3] Hh Ok) as (mb5 & E5 & Hh5). rewrite length_xor_mask in E5.
  cbv zeta. rewrite (bind_Some _ _ _ _ _ E5). rewrite xor_mask_twice, <- !app_assoc in Hh5. cbn [app] in Hh5.
  exists mb5. split; [done|]. by rewrite <- app_assoc.
Qed.

Definition frame_hdr (fin : bool) (opcode : Z) (mkey : option (list Z)) (payload : list Z) : websock_hdr :=
  WsHdr (b2z fin) 0 0 0 opcode (masked mkey) (zlength payload) (default [] mkey).

Lemma decode_frame mb pre fin opcode mkey payload rest :
  holds mb (pre ++ frame_bytes fin opcode mkey payload ++ rest) (zlength pre) -> 0 <= opcode < 16 ->
  (forall k, mkey = Some k -> key_ok k) ->
  exists mb' hb, websock_decode mb = Some (inr (frame_hdr fin opcode mkey payload), mb') /\
    holds mb' ((pre ++ hb) ++ payload ++ rest) (zlength (pre ++ hb)) /\
    length hb = length (head_bytes fin opcode mkey (zlength payload)).
Proof.
  intros Hh Ho Hk. pose proof (holds_left _ _ _ Hh ltac:(rewrite !length_app; lia)) as El.
  pose proof (left_bound _ (h_wf _ _ _ Hh)) as (_ & _ & Hlb). pose proof (wf_pos _ (h_wf _ _ _ Hh)).
  unfold frame_bytes in *. rewrite len_bytes_eq in El. rewrite !length_app in El. cbn [length] in El.
  rewrite !length_app in El. cbn [length] in El.
  assert (zlength payload <= zlength (body_bytes mkey payload)) as Hb.
  { unfold body_bytes. destruct mkey; [rewrite length_app, length_xor_mask|]; lia. }
  rewrite decode_eq by lia. set (b0 := 128 * b2z fin + opcode) in *. set (n := zlength payload) in *.
  rewrite app_comm_cons, <- app_assoc in Hh.
  destruct (holds_reads _ _ _ _ _ _ Hh (reads_head b0 (masked mkey) n ltac:(lia))) as (mb1 & E1 & Hh1).
  rewrite (bind_Some _ _ _ _ _ E1). cbn [fst snd]. rewrite (proj1 (len_octet (masked mkey) n ltac:(lia))).
  rewrite app_assoc in Hh1. rewrite <- Nat2Z.inj_add, <- length_app in Hh1.
  destruct (payload_ok _ _ b0 _ _ _ Hh1 Hk) as (mb2 & E2 & Hh2). rewrite <- (app_assoc pre) in Hh2.
  eexists mb2, _. split; [|split; [exact Hh2|done]]. etransitivity; [exact E2|]. unfold frame_hdr. subst b0. by rewrite flag_octet.
Qed.

(** A part of a frame. *)
Lemma payload_partial mb v m n mkey payload : mbuf_wf mb -> m = masked mkey -> n = zlength payload ->
  (forall k, mkey = Some k -> key_ok k) -> n < 2 ^ 63 ->
  mbuf_get_left mb < zlength (body_bytes mkey payload) -> decode_payload v m n mb = Some (inl ENODATA, mb).
Proof.
  intros Hwf -> -> Hk Hn Hl. unfold decode_payload, need, body_bytes in *. destruct mkey as [k|].
  - rewrite length_app, length_xor_mask in Hl. destruct (Hk k eq_refl) as [Lk _].
    change (masked (Some k)) with true. cbv beta iota. unfold bind, get.
    by rewrite (wrap_small 64), (proj2 (Z.ltb_lt _ _)) by lia.
  - change (masked None) with false. cbv beta iota. unfold bind, get. by rewrite (proj2 (Z.ltb_lt _ _)) by lia.
Qed.

Lemma len_partial mb n : mbuf_wf mb -> 0 <= n < 2 ^ 64 -> mbuf_get_left mb < zlength (ext_bytes n) ->
  decode_len (len7 n) mb = Some (inl ENODATA, mb).
Proof.
  intros Hwf Hn Hl. unfold decode_len, ext_bytes, len7, need, bind, get in *.
  pose proof (left_bound _ Hwf). destruct (Z.leb_spec n 125); [simpl in Hl; lia|].
  destruct (Z.leb_spec n 65535); rewrite length_be_bytes in Hl; cbn [Z.eqb Pos.eqb];
    by rewrite (proj2 (Z.ltb_lt _ _)) by lia.
Qed.

Lemma read_u8_eq mb b rest : mbuf_wf mb -> unread mb = b :: rest ->
  mbuf_read_u8 mb = Some (b, set_pos (mb_pos mb + 1) mb).
Proof.
  intros Hwf E. rewrite <- (bind_ret_r mbuf_read_u8). apply (reads_u8 b ret [] b (reads_ret b) mb rest Hwf E).
Qed.

(** The length field is not all there. *)
Lemma decode_short mb b0 m n rest : mbuf_wf mb -> 0 <= n < 2 ^ 64 ->
  unread mb = b0 :: (128 * b2z m + len7 n) :: rest -> zlength rest < zlength (ext_bytes n) ->
  exists p, websock_decode mb = Some (inl ENODATA, set_pos p mb).
Proof.
  intros Hwf Hn E Hl. pose proof (length_unread _ Hwf) as L. rewrite E in L. cbn [length] in L.
  rewrite decode_eq by lia. unfold head_reader. rewrite bind_assoc, (bind_Some _ _ _ _ _ (read_u8_eq _ _ _ Hwf E)).
  pose proof (unread_wf mb [b0] _ Hwf E) as Hwf1. pose proof (unread_advance mb [b0] _ Hwf E) as U1. cbn [length] in *.
  rewrite bind_assoc, (bind_Some _ _ _ _ _ (read_u8_eq _ _ _ Hwf1 U1)).
  pose proof (unread_wf _ [_] _ Hwf1 U1) as Hwf2. pose proof (unread_advance _ [_] _ Hwf1 U1) as U2. cbn [length] in *.
  rewrite (proj2 (len_octet m n ltac:(lia))), bind_assoc.
  rewrite (bind_Some _ _ _ _ _ (len_partial _ n Hwf2 Hn ltac:(rewrite <- length_unread, U2 by done; done))).
  by eexists.
Qed.

Lemma decode_partial mb fin opcode mkey payload p q : mbuf_wf mb -> unread mb = p ->
  p ++ q = frame_bytes fin opcode mkey payload -> q <> [] -> (forall k, mkey = Some k -> key_ok k) ->
  zlength payload < 2 ^ 63 -> exists x, websock_decode mb = Some (inl ENODATA, set_pos x mb).
Proof.
  intros Hwf U E Hq Hk Hn. pose proof (length_unread _ Hwf) as L. rewrite U in L.
  unfold frame_bytes in E. rewrite len_bytes_eq in E.
  destruct p as [|b0 [|b1 p]]; cbn in E; [| |injection E as Eb0 Eb1 E].
  1,2: exists (mb_pos mb); unfold websock_decode, need; rewrite (bind_Some _ _ _ _ _ (eq_refl : get mb = _));
    simpl in L; rewrite (proj2 (Z.ltb_lt _ _)) by lia; by rewrite set_pos_id.
  set (n := zlength payload) in *. rewrite Eb1 in U.
  assert (zlength p < zlength (ext_bytes n) \/ exists l, p = ext_bytes n ++ l /\ body_bytes mkey payload = l ++ q)
    as [Hs|(l & -> & E2)].
  { destruct (app_eq_app _ _ _ _ E) as [l [[-> ->]|[E1 ->]]]; [right; eauto|].
    destruct l; [right; exists []; by rewrite E1, !app_nil_r|left]. rewrite E1, length_app. simpl. lia. }
  - eapply decode_short; [done| |exact U|done]. lia.
  - rewrite app_comm_cons, app_comm_cons, <- len_bytes_eq in U.
    pose proof (reads_head b0 (masked mkey) n ltac:(lia) mb l Hwf U) as R. cbn [length] in L.
    rewrite decode_eq, (bind_Some _ _ _ _ _ R) by lia. cbn [fst snd].
    rewrite (proj1 (len_octet (masked mkey) n ltac:(lia))). eexists.
    eapply payload_partial; try done; [by eapply unread_wf|].
    rewrite <- length_unread, (unread_advance _ _ _ Hwf U), E2, length_app by (by eapply unread_wf).
    destruct q; [done|]. simpl. lia.
Qed.

End decoding.
