(* ===== verification/WebsockStream.v ===== *)
(** * WebSocket streams

    Frames sent over TCP arrive in segments of any sizes.  Whatever the
    segmentation, the receive handler hands every data frame to the
    application exactly once, in order and unmasked, and answers pings. *)

From S2P Require Export WebsockThms PrintThms.

Record ws_frame := WsFrame { f_fin : bool; f_op : Z; f_key : option (list Z); f_data : list Z }.

Definition fbytes (f : ws_frame) : list Z := frame_bytes (f_fin f) (f_op f) (f_key f) (f_data f).
Definition stream_of (fs : list ws_frame) : list Z := mjoin (fbytes <$> fs).

Definition data_op (op : Z) : bool := (op =? WEBSOCK_CONT) || (op =? WEBSOCK_TEXT) || (op =? WEBSOCK_BIN).

(** Frames a connection takes from a peer that keeps to the protocol and does
    not close: data, pings and pongs, masked by a client and not by a server. *)
Record frame_ok (active : bool) (f : ws_frame) : Prop := {
  fo_op : data_op (f_op f) = true \/ f_op f = WEBSOCK_PING \/ f_op f = WEBSOCK_PONG;
  fo_mask : masked (f_key f) = negb active;
  fo_key : forall k, f_key f = Some k -> key_ok k;
  fo_len : 16 + zlength (f_data f) < WRITE_MAX;
}.

(** What the application is given: final flag, opcode and payload. *)
Definition delivery : Type := Z * Z * list Z.

Definition received (evs : list ws_event) : list delivery :=
  omap (fun e => match e with WsRecv hdr mb => Some (ws_fin hdr, ws_opcode hdr, unread mb) | _ => None end) evs.
Definition deliveries (fs : list ws_frame) : list delivery :=
  omap (fun f => if data_op (f_op f) then Some (b2z (f_fin f), f_op f, f_data f) else None) fs.

Lemma received_app a b : received (a ++ b) = received a ++ received b.
Proof. apply omap_app. Qed.
Lemma deliveries_app a b : deliveries (a ++ b) = deliveries a ++ deliveries b.
Proof. apply omap_app. Qed.

(** Changes an operation may make to a connection that stays up. *)
Record same_conn (c c' : websock_conn) : Prop := {
  sc_mb : wc_mb c' = wc_mb c;
  sc_active : wc_active c' = wc_active c;
  sc_orphan : wc_orphan c' = wc_orphan c;
}.

(** The bytes that wait for the rest of their frame. *)
Definition pending (c : websock_conn) (bs : list Z) : Prop :=
  match wc_mb c with
  | None => bs = []
  | Some mb => exists pre, holds mb (pre ++ bs) (zlength pre) /\ zlength pre <= 2 ^ 30 /\ zlength bs <= 2 ^ 30
  end.

(** [p] is a part of the first frame of [fs], or nothing. *)
Definition part_of (fs : list ws_frame) (p : list Z) : Prop :=
  match fs with
  | [] => p = []
  | f :: _ => exists q, p ++ q = fbytes f /\ q <> []
  end.

Lemma stream_cons f fs : stream_of (f :: fs) = fbytes f ++ stream_of fs.
Proof. done. Qed.

Lemma frame_len_2 f : 2 <= zlength (fbytes f).
Proof. unfold fbytes, frame_bytes. rewrite len_bytes_eq. cbn [length app]. lia. Qed.

(** Where a segment ends, the stream splits into whole frames and a part. *)
Lemma stream_split fs x later : x ++ later = stream_of fs ->
  exists fs1 fs2 p, fs = fs1 ++ fs2 /\ x = stream_of fs1 ++ p /\ p ++ later = stream_of fs2 /\ part_of fs2 p.
Proof.
  revert x. induction fs as [|f fs IH]; intros x E.
  - apply app_eq_nil in E as [-> ->]. by exists [], [], [].
  - rewrite stream_cons in E. destruct (decide (zlength x < zlength (fbytes f))) as [Hl|Hl].
    + exists [], (f :: fs), x. split_and!; try done. destruct (app_eq_app _ _ _ _ E) as [l [[E1 _]|[E1 _]]].
      * rewrite E1, length_app in Hl. lia.
      * exists l. split; [done|]. intros ->. rewrite E1, app_nil_r in Hl. lia.
    + destruct (app_eq_app _ _ _ _ E) as [l [[E1 E2]|[E1 E2]]].
      * destruct (IH l (eq_sym E2)) as (fs1 & fs2 & p & -> & -> & Ep & Hp). exists (f :: fs1), fs2, p.
        split_and!; try done. by rewrite stream_cons, <- app_assoc.
      * rewrite E1, length_app in Hl. destruct l; [|simpl in Hl; lia]. rewrite app_nil_r in E1. simpl in E2.
        destruct (IH [] E2) as (fs1 & fs2 & p & -> & Ex & Ep & Hp). exists (f :: fs1), fs2, p.
        split_and!; try done. by rewrite stream_cons, <- app_assoc, <- Ex, app_nil_r.
Qed.

Lemma part_of_len fs p n : part_of fs p -> Forall (fun f => zlength (fbytes f) <= n) fs -> 0 <= n -> zlength p <= n.
Proof.
  intros Hp Hf Hn. destruct fs as [|f fs]; simpl in Hp; [by subst|]. destruct Hp as (q & E & _).
  inversion Hf as [|? ? Hl _]; subst. rewrite <- E, length_app in Hl. lia.
Qed.

Section stream.
Context `{Host}.
Variable rand_bytes : nat -> list Z.
Variable tcp_send : mbuf -> Z.
Variable num0 : list Z.
Variable recvh : websock_hdr -> mbuf -> M websock_conn (list ws_event * bool).

Hypothesis memory : no_oom.
Hypothesis keys : forall i, key_ok (rand_bytes i).
Hypothesis num_size : zlength num0 = NUM_SIZE.

(** The application may send and close in its handler; it keeps the
    connection. *)
Hypothesis handler : forall hdr mb c, mbuf_wf mb -> wc_orphan c = false ->
  exists evs c', recvh hdr mb c = Some ((evs, false), c') /\ same_conn c c' /\ received evs = [].

(** ** Answering *)

Lemma fill_neg n c : n <= 0 -> fill n c = [].
Proof. intros Hn. unfold fill. by replace (Z.to_nat n) with O by lia. Qed.

Lemma writes_buf mb : mbuf_wf mb -> WritesOk (mbuf_printf num0 [37; 98]
    [Arg 8 (VPtr (Some (drop (Z.to_nat (mb_pos mb)) (mb_buf mb)))); Arg 8 (VNum (mbuf_get_left mb))]) (unread mb).
Proof.
  intros Hwf mb' Hwf' Hr. set (fl := Build_flags false false 0).
  set (ds := [DConv fl (CBuf (Some (drop (Z.to_nat (mb_pos mb)) (mb_buf mb))) (mbuf_get_left mb))]).
  assert (text_of ds = unread mb) as Et.
  { change (padded (unread mb) 0 32 false [] ++ [] = unread mb). rewrite app_nil_r. unfold padded. cbn [Z.eqb Pos.eqb].
    by rewrite fill_neg by (simpl; lia). }
  destruct (mbuf_printf_spec memory num0 ds mb' num_size) as (mb2 & E & Hw2 & W);
    [|rewrite Et; by apply unread_ok|done|by rewrite Et|].
  - constructor; [|constructor]. cbn [dir_ok fl fl_width]. rewrite length_drop.
    pose proof (left_bound _ Hwf). pose proof Hwf as [? ? _ ? ?].
    unfold mbuf_get_left, MEM_SIZE_MAX in *. split; [cbn; lia|]. case_match; lia.
  - rewrite Et in W. eauto.
Qed.

Lemma same_conn_trans c1 c2 c3 : same_conn c1 c2 -> same_conn c2 c3 -> same_conn c1 c3.
Proof. intros [] []. split; congruence. Qed.

Lemma after_send_same c : same_conn c (after_send c).
Proof. unfold after_send. by destruct c as [? ? ? ? []]. Qed.

(** A frame with the payload of [mb], if the connection is open. *)
Lemma send_back_ok c opcode mb : mbuf_wf mb -> 0 <= opcode < 16 -> 16 + zlength (unread mb) < WRITE_MAX ->
  exists evs c', send_back rand_bytes tcp_send num0 opcode mb c = Some (evs, c') /\ same_conn c c' /\ received evs = [] /\
    (wc_state c = OPEN -> c' = after_send c /\ exists sent, evs = [WsSent sent] /\
       unread sent = frame_bytes true opcode (key_of rand_bytes c) (unread mb)).
Proof.
  intros Hwf Ho Hl. unfold send_back, websock_send. destruct (decide (wc_state c = OPEN)) as [Hs|Hs].
  - destruct (vsend_ok rand_bytes tcp_send memory keys c opcode 0 (Some (mbuf_printf num0 [37; 98]
      [Arg 8 (VPtr (Some (drop (Z.to_nat (mb_pos mb)) (mb_buf mb)))); Arg 8 (VNum (mbuf_get_left mb))])) (unread mb))
      as (sent & E & _ & U); [done|done|by apply writes_buf|done|].
    rewrite (bind_Some _ _ _ _ _ E). eexists _, _. split; [done|]. split_and!; [apply after_send_same|done|].
    intros _. split; [done|]. eauto.
  - exists [], c. unfold bind, websock_vsend. rewrite bool_decide_false by done. split_and!; try done.
Qed.

(** ** One frame *)

Lemma fresh_write bs : bytes_ok bs -> zlength bs < WRITE_MAX ->
  exists mb mb', mbuf_alloc (zlength bs) = Some mb /\ mbuf_write_mem bs mb = Some (0, mb') /\ holds (set_pos 0 mb') bs 0.
Proof.
  intros Hb Hl. unfold WRITE_MAX in *.
  destruct (mbuf_alloc_no_oom (zlength bs) memory) as [mb E]; [unfold MEM_SIZE_MAX; lia|].
  apply mbuf_alloc_wf in E as W; [|lia]. destruct W as (Hwf & Hp & He & _).
  assert (holds mb [] 0) as Hh by (split; [done|by rewrite He|done]).
  destruct (holds_append _ _ _ _ _ Hh eq_refl (writes_mem bs Hb)) as (e & mb' & E2 & _ & _ & Ho & Hok); [unfold WRITE_MAX; lia|].
  rewrite (Ho memory) in *. exists mb, mb'. split_and!; [done|done|].
  apply (holds_set_pos _ _ _ 0 (Hok eq_refl)). lia.
Qed.

(** What is behind the frame becomes the buffer of the connection, and the
    frame's buffer ends with the payload. *)
Lemma split_ok mb pre payload rest : holds mb (pre ++ payload ++ rest) (zlength pre) ->
  zlength rest < WRITE_MAX ->
  exists mb' rest', set_end (u64 (mb_pos mb + zlength payload)) mb = mb' /\ mbuf_wf mb' /\ unread mb' = payload /\
    split_rest mb' (mb_end mb) = Some (Some rest') /\
    match rest' with None => rest = [] | Some mbn => holds mbn rest 0 end.
Proof.
  intros Hh Hl. pose proof (holds_end _ _ _ Hh) as He. pose proof (h_pos _ _ _ Hh) as Hp. pose proof (h_wf _ _ _ Hh) as Hwf.
  pose proof (wf_end _ Hwf). pose proof (wf_max _ Hwf). pose proof (wf_len _ Hwf). unfold MEM_SIZE_MAX in *.
  rewrite !length_app in He. rewrite Hp, (wrap_small 64) by lia.
  pose proof (holds_set_posend _ _ _ (zlength pre) (zlength pre + zlength payload) Hh) as Hm.
  rewrite !length_app in Hm. specialize (Hm ltac:(lia) ltac:(lia)).
  assert (set_posend (zlength pre) (zlength pre + zlength payload) mb = set_end (zlength pre + zlength payload) mb) as Es
    by (rewrite <- Hp; by destruct mb).
  rewrite Es, app_assoc, <- Nat2Z.inj_add, <- length_app, Nat2Z.id, take_app_length in Hm. rewrite length_app in Hm.
  rewrite Nat2Z.inj_add in Hm. set (mb' := set_end _ mb) in *.
  assert (unread mb' = payload) as Hu.
  { rewrite (holds_unread _ _ _ Hm) by (rewrite length_app; lia). by rewrite Nat2Z.id, drop_app_length. }
  assert (exists rest', split_rest mb' (mb_end mb) = Some (Some rest') /\
    match rest' with None => rest = [] | Some mbn => holds mbn rest 0 end) as (rest' & E & Hr); [|eauto 10 using h_wf].
  unfold split_rest. cbn [mb' set_end mb_end mb_buf]. destruct rest as [|r rest]; [|set (rs := r :: rest) in *].
  { exists None. simpl in He. by rewrite Z.gtb_ltb, (proj2 (Z.ltb_ge _ _)) by lia. }
  assert (0 < zlength rs) by (simpl; lia).
  rewrite Z.gtb_ltb, (proj2 (Z.ltb_lt _ _)) by lia. replace (mb_end mb - _) with (zlength rs) by lia.
  destruct (fresh_write rs) as (mbn & mbn' & E1 & E2 & Hn);
    [pose proof (holds_ok _ _ _ Hh) as (_ & _ & ?)%bytes_ok_app3; done|lia|].
  pose proof (holds_load _ _ _ (zlength pre + zlength payload) (zlength rs) Hh) as Hld.
  rewrite !length_app in Hld. specialize (Hld ltac:(lia) ltac:(lia) ltac:(lia)).
  rewrite app_assoc, <- Nat2Z.inj_add, <- length_app, slice_app_end in Hld. unfold load_at in Hld.
  rewrite E1, <- Nat2Z.inj_add, <- length_app. destruct (mem_load _ _ _) as [x|]; [|done]. injection Hld as ->. rewrite E2. eauto.
Qed.

(** Pings are answered, pongs ignored, data handed on. *)
Lemma dispatch_ok c f mb : frame_ok (wc_active c) f -> mbuf_wf mb -> unread mb = f_data f -> wc_orphan c = false ->
  exists evs c', dispatch rand_bytes tcp_send num0 recvh (frame_hdr (f_fin f) (f_op f) (f_key f) (f_data f)) mb c =
      Some (Again evs, c') /\ same_conn c c' /\ received evs = deliveries [f].
Proof.
  intros [Hop _ _ Hl] Hwf U Horph. unfold dispatch, deliveries. cbn [frame_hdr ws_opcode omap list_omap]. fold (data_op (f_op f)).
  destruct (data_op (f_op f)) eqn:Ed.
  - unfold call_recvh. destruct (handler (frame_hdr (f_fin f) (f_op f) (f_key f) (f_data f)) mb c Hwf Horph) as (evs & c' & E & Hs & Hr).
    unfold bind at 1 2, get. rewrite Horph. unfold bind at 1. rewrite E. cbn. eexists _, _. split_and!; [done|done|].
    change (received (?e :: evs)) with (received [e] ++ received evs). rewrite Hr. cbn. by rewrite U.
  - destruct Hop as [Hop|[-> | ->]]; [done| |].
    + destruct (send_back_ok c WEBSOCK_PONG mb Hwf ltac:(done) ltac:(by rewrite U)) as (evs & c' & E & Hs & Hr & _).
      exists evs, c'. split_and!; try done. cbn. by rewrite (bind_Some _ _ _ _ _ E).
    + by exists [], c.
Qed.

(** A whole frame at the front of the buffer. *)
Lemma recv_frame_ok c mb pre f rest : wc_mb c = Some mb -> holds mb (pre ++ fbytes f ++ rest) (zlength pre) ->
  zlength (fbytes f ++ rest) <= 2 ^ 30 -> frame_ok (wc_active c) f -> wc_orphan c = false ->
  exists evs c', recv_frame rand_bytes tcp_send num0 recvh mb c = Some (Again evs, c') /\
    wc_active c' = wc_active c /\ wc_orphan c' = false /\ pending c' rest /\ received evs = deliveries [f].
Proof.
  intros Hmb Hh Hl Hf Horph. pose proof Hf as [Hop Hm Hk _]. rewrite length_app in Hl.
  assert (0 <= f_op f < 16) as Hop'.
  { destruct Hop as [Hop|[-> | ->]]; [|done..]. unfold data_op, WEBSOCK_CONT, WEBSOCK_TEXT, WEBSOCK_BIN in Hop. lia. }
  destruct (decode_frame _ _ _ _ _ _ _ Hh Hop' Hk) as (mb1 & hb & E1 & Hh1 & Lh).
  destruct (split_ok _ _ _ _ Hh1) as (mb2 & rest' & E2 & Hwf2 & U2 & E3 & Hrest); [unfold WRITE_MAX; lia|].
  destruct (dispatch_ok (set_mb rest' c) f mb2 Hf Hwf2 U2 Horph) as (evs & c' & E4 & [Sm Sa So] & Hr).
  exists evs, c'. split_and!; try done.
  - unfold recv_frame. rewrite E1. cbn [lift]. unfold bind, lift, get, modify. cbn [frame_hdr ws_mask ws_rsv1 ws_rsv2 ws_rsv3 ws_len].
    rewrite Hm. replace (Bool.eqb (wc_active c) (negb (wc_active c))) with false by (by destruct (wc_active c)).
    cbn [orb nz Z.eqb negb]. rewrite E2, E3. exact E4.
  - cbn in So. congruence.
  - unfold pending. rewrite Sm. cbn [set_mb wc_mb]. destruct rest' as [mbn|]; [|done]. exists []. simpl. split_and!; [done|lia|lia].
Qed.

(** ** Segments *)

Lemma decode_nothing mb : mbuf_wf mb -> unread mb = [] -> websock_decode mb = Some (inl ENODATA, mb).
Proof.
  intros Hwf U. pose proof (length_unread _ Hwf) as L. rewrite U in L. simpl in L.
  unfold websock_decode, need, bind, get. by rewrite (proj2 (Z.ltb_lt _ _)) by lia.
Qed.

(** A part of a frame stays where it is. *)
Lemma recv_part_ok c mb pre gs p : wc_mb c = Some mb -> holds mb (pre ++ p) (zlength pre) -> part_of gs p ->
  Forall (frame_ok (wc_active c)) gs ->
  recv_frame rand_bytes tcp_send num0 recvh mb c = Some (Stop [], c).
Proof.
  intros Hmb Hh Hp Hg. pose proof (h_wf _ _ _ Hh) as Hwf.
  assert (unread mb = p) as U.
  { rewrite (holds_unread _ _ _ Hh) by (rewrite length_app; lia). by rewrite Nat2Z.id, drop_app_length. }
  assert (exists x, websock_decode mb = Some (inl ENODATA, set_pos x mb)) as [x E].
  { destruct gs as [|g gs]; simpl in Hp.
    - exists (mb_pos mb). rewrite set_pos_id. apply decode_nothing; [done|congruence].
    - destruct Hp as (q & E & Hq). inversion Hg as [|? ? [_ _ Hk Hl] _]; subst.
      eapply (decode_partial mb (f_fin g)); [done|done|exact E|done|done|unfold WRITE_MAX in Hl; lia]. }
  unfold recv_frame. rewrite E. unfold bind, lift, modify. cbn [Z.eqb Pos.eqb ENODATA].
  rewrite set_pos_set_pos, set_pos_id, <- Hmb. by destruct c.
Qed.

Lemma ws_recv_loop_ok fs gs p c fuel : pending c (stream_of fs ++ p) -> part_of gs p ->
  Forall (frame_ok (wc_active c)) (fs ++ gs) -> wc_orphan c = false -> (length (stream_of fs ++ p) < fuel)%nat ->
  exists evs c', recv_loop rand_bytes tcp_send num0 recvh fuel c = Some (evs, c') /\ received evs = deliveries fs /\
    pending c' p /\ wc_active c' = wc_active c /\ wc_orphan c' = false.
Proof.
  revert c fuel. induction fs as [|f fs IH]; intros c fuel Hp Hpart Hf Ho Hfuel.
  - destruct fuel as [|fuel]; [lia|]. cbn [recv_loop]. rewrite (bind_Some _ _ _ _ _ (eq_refl : get c = _)).
    exists [], c. split_and!; try done. unfold pending in Hp. destruct (wc_mb c) as [mb|] eqn:Hmb; [|done].
    destruct Hp as (pre & Hh & _). by rewrite (bind_Some _ _ _ _ _ (recv_part_ok c mb pre gs p Hmb Hh Hpart Hf)).
  - inversion Hf as [|? ? Hf1 Hfs]; subst. pose proof (frame_len_2 f).
    rewrite stream_cons, <- app_assoc in *.
    unfold pending in Hp. destruct (wc_mb c) as [mb|] eqn:Hmb.
    2: { apply app_eq_nil in Hp as [E _]. rewrite E in *. simpl in *. lia. }
    destruct Hp as (pre & Hh & _ & Hl). destruct fuel as [|fuel]; [lia|]. rewrite length_app in Hfuel.
    destruct (recv_frame_ok c mb pre f _ Hmb Hh Hl Hf1 Ho) as (evs & c1 & E1 & Ha1 & Ho1 & Hp1 & Hr1).
    destruct (IH c1 fuel Hp1 Hpart) as (evs2 & c2 & E2 & Hr2 & Hp2 & Ha2 & Ho2); [by rewrite Ha1|done|lia|].
    exists (evs ++ evs2), c2. split_and!; try done; try congruence.
    + cbn [recv_loop]. rewrite (bind_Some _ _ _ _ _ (eq_refl : get c = _)), Hmb.
      by rewrite (bind_Some _ _ _ _ _ E1), (bind_Some _ _ _ _ _ E2).
    + by rewrite received_app, Hr1, Hr2, <- deliveries_app.
Qed.

(** A TCP segment: TCP hands over a buffer whose position is not behind its
    end. *)
Record segment_ok (mb : mbuf) : Prop := {
  sg_wf : mbuf_wf mb;
  sg_pos : mb_pos mb <= mb_end mb;
  sg_end : mb_end mb <= 2 ^ 30;
}.

(** The bytes of a segment join those that are waiting. *)
Lemma segment_joined c seg p : pending c p -> segment_ok seg -> zlength p + zlength (unread seg) <= BUFSIZE_MAX ->
  exists cmb, recv_handler rand_bytes tcp_send num0 recvh seg c =
      recv_loop rand_bytes tcp_send num0 recvh (S (Z.to_nat (mbuf_get_left cmb))) (set_mb (Some cmb) c) /\
    pending (set_mb (Some cmb) c) (p ++ unread seg) /\ mbuf_get_left cmb = zlength (p ++ unread seg).
Proof.
  intros Hp [Hwf Hpos Hend] Hl. unfold recv_handler. rewrite (bind_Some _ _ _ _ _ (eq_refl : get c = _)).
  pose proof (length_unread _ Hwf) as Lu. unfold pending in Hp. destruct (wc_mb c) as [mb|].
  2: { subst p. exists seg. split; [done|]. split; [|simpl; lia]. exists (take (Z.to_nat (mb_pos seg)) (mb_buf seg)).
       split; [by apply unread_holds|]. rewrite length_take. cbn [app]. rewrite Lu. pose proof (wf_pos _ Hwf).
       unfold mbuf_get_left. case_match; lia. }
  destruct Hp as (pre & Hh & Hlp & Hl2). pose proof (holds_end _ _ _ Hh) as He. rewrite length_app in He.
  pose proof (holds_left _ _ _ Hh ltac:(rewrite length_app; lia)) as El. rewrite length_app in El.
  pose proof (h_pos _ _ _ Hh) as Hps. rewrite El, Z.gtb_ltb, (proj2 (Z.ltb_ge _ _)) by lia.
  assert (mem_load (mb_buf seg) (mb_pos seg) (mbuf_get_left seg) = Some (unread seg)) as Eld.
  { unfold mem_load, unread. by destruct (wf_in_block seg (mbuf_get_left seg) Hwf ltac:(lia)) as [-> | ->]. }
  pose proof (holds_set_pos _ _ _ (mb_end mb) Hh ltac:(lia)) as Hh0.
  destruct (holds_append _ _ _ _ _ Hh0 ltac:(by rewrite length_app; lia) (writes_mem _ (unread_ok _ Hwf)))
    as (e & mb' & E & _ & _ & Hoom & Hok); [unfold WRITE_MAX, BUFSIZE_MAX in *; lia|].
  rewrite (Hoom memory) in *. specialize (Hok eq_refl).
  apply (holds_set_pos _ _ _ (zlength pre)) in Hok; [|lia]. rewrite <- app_assoc in Hok.
  exists (set_pos (zlength pre) mb'). split_and!.
  - rewrite Eld. cbn [lift]. unfold bind, lift. rewrite E, Hps. done.
  - exists pre. split_and!; [done|done|]. rewrite length_app. unfold BUFSIZE_MAX in *. lia.
  - rewrite (holds_left _ _ _ Hok) by (rewrite length_app; lia). rewrite !length_app. lia.
Qed.

Fixpoint recv_all (segs : list mbuf) : M websock_conn (list ws_event) :=
  match segs with
  | [] => ret []
  | seg :: segs =>
      let* evs := recv_handler rand_bytes tcp_send num0 recvh seg in
      let* more := recv_all segs in
      ret (evs ++ more)
  end.

(** Any segmentation, as long as a frame and a segment fit the buffer. *)
Lemma recv_all_ok n k segs fs p c : n + k <= BUFSIZE_MAX -> 0 <= n ->
  Forall segment_ok segs -> Forall (fun seg => zlength (unread seg) <= k) segs ->
  Forall (frame_ok (wc_active c)) fs -> Forall (fun f => zlength (fbytes f) <= n) fs ->
  pending c p -> part_of fs p -> wc_orphan c = false -> p ++ mjoin (unread <$> segs) = stream_of fs ->
  exists evs c', recv_all segs c = Some (evs, c') /\ received evs = deliveries fs /\ pending c' [] /\
    wc_active c' = wc_active c /\ wc_orphan c' = false.
Proof.
  intros Hnk Hn Hsegs. revert fs p c. induction Hsegs as [|seg segs Hseg _ IH]; intros fs p c Hk Hf Hlen Hp Hpart Ho E.
  - cbn in E. rewrite app_nil_r in E. exists [], c. destruct fs as [|f fs].
    { cbn in E. subst. by split_and!. }
    rewrite stream_cons in E. destruct Hpart as (q & Eq & Hq). apply (f_equal length) in E, Eq.
    rewrite length_app in E, Eq. destruct q; [done|]. cbn [length] in Eq. lia.
  - inversion Hk as [|? ? Hk1 Hk2]; subst. cbv beta in Hk1. cbn [fmap list_fmap mjoin list_join] in E. rewrite app_assoc in E.
    destruct (stream_split _ _ _ E) as (fs1 & fs2 & p' & -> & Ex & Ep & Hpart').
    pose proof (part_of_len _ _ n Hpart Hlen Hn) as Hpn.
    destruct (segment_joined c seg p Hp Hseg ltac:(lia)) as (cmb & E1 & Hp1 & Hl1). rewrite Ex in Hp1, Hl1.
    destruct (ws_recv_loop_ok fs1 fs2 p' (set_mb (Some cmb) c) (S (Z.to_nat (mbuf_get_left cmb))) Hp1 Hpart' Hf Ho ltac:(lia))
      as (evs & c1 & E2 & Hr & Hp2 & Ha & Ho1). cbn [set_mb wc_active] in Ha.
    apply Forall_app in Hf as [_ Hf2]. apply Forall_app in Hlen as [_ Hlen2].
    destruct (IH fs2 p' c1 Hk2 ltac:(by rewrite Ha) Hlen2 Hp2 Hpart' Ho1 Ep) as (evs2 & c2 & E3 & Hr2 & Hp3 & Ha2 & Ho2).
    exists (evs ++ evs2), c2. split_and!; try done; [| |congruence].
    + cbn [recv_all]. by rewrite (bind_Some _ _ c evs c1) by (by rewrite E1); rewrite (bind_Some _ _ _ _ _ E3).
    + by rewrite received_app, Hr, Hr2, <- deliveries_app.
Qed.

End stream.
