(* ===== verification/WebsockProps.v ===== *)
(** * WebSocket connections: the properties *)

From S2P Require Export WebsockStream.

(** ** Two connections *)

(** A message of the application: opcode, formatter and what it prints. *)
Record ws_msg := WsMsg { m_op : Z; m_fmt : M mbuf Z; m_data : list Z }.

Record msg_ok `{Host} (n : Z) (m : ws_msg) : Prop := {
  mo_op : data_op (m_op m) = true;
  mo_fmt : WritesOk (m_fmt m) (m_data m);
  mo_len : zlength (m_data m) + 14 <= n;
}.

Section conversation.
Context `{Host}.
Variable rand_bytes : nat -> list Z.
Variable tcp_send : mbuf -> Z.
Hypothesis memory : no_oom.
Hypothesis keys : forall i, key_ok (rand_bytes i).

Fixpoint send_all (msgs : list ws_msg) : M websock_conn (list mbuf) :=
  match msgs with
  | [] => ret []
  | m :: msgs =>
      let* '(_, sent) := websock_send rand_bytes tcp_send (m_op m) (Some (m_fmt m)) in
      let* more := send_all msgs in
      ret (option_list sent ++ more)
  end.

(** The frames of the messages, with the keys that are drawn. *)
Fixpoint frames_of (c : websock_conn) (msgs : list ws_msg) : list ws_frame :=
  match msgs with
  | [] => []
  | m :: msgs => WsFrame true (m_op m) (key_of rand_bytes c) (m_data m) :: frames_of (after_send c) msgs
  end.

Lemma send_all_ok n msgs c : n <= BUFSIZE_MAX -> wc_state c = OPEN -> Forall (msg_ok n) msgs ->
  exists sent c', send_all msgs c = Some (sent, c') /\ mjoin (unread <$> sent) = stream_of (frames_of c msgs).
Proof.
  intros Hn Hs Hm. revert c Hs. induction Hm as [|m msgs [Hop Hf Hl] _ IH]; intros c Hs; [by exists [], c|].
  unfold BUFSIZE_MAX in *.
  destruct (vsend_ok rand_bytes tcp_send memory keys c (m_op m) 0 (Some (m_fmt m)) (m_data m)) as (mb & E & _ & U);
    [done|unfold data_op, WEBSOCK_CONT, WEBSOCK_TEXT, WEBSOCK_BIN in Hop; lia|done|unfold WRITE_MAX; lia|].
  destruct (IH (after_send c)) as (sent & c' & E2 & U2); [unfold after_send; by case_match|].
  exists (mb :: sent), c'. split.
  - cbn [send_all]. unfold websock_send. by rewrite (bind_Some _ _ _ _ _ E), (bind_Some _ _ _ _ _ E2).
  - cbn [frames_of]. rewrite stream_cons, <- U2. cbn. by rewrite U.
Qed.

Lemma frames_ok n msgs c : n <= BUFSIZE_MAX -> Forall (msg_ok n) msgs ->
  Forall (frame_ok (negb (wc_active c))) (frames_of c msgs) /\
  Forall (fun f => zlength (fbytes f) <= n) (frames_of c msgs) /\
  deliveries (frames_of c msgs) = (fun m => (1, m_op m, m_data m)) <$> msgs.
Proof.
  intros Hn Hm. revert c. induction Hm as [|m msgs [Hop _ Hl] _ IH]; intros c; [by split_and!|].
  destruct (IH (after_send c)) as (H1 & H2 & H3). unfold BUFSIZE_MAX in *.
  assert (wc_active (after_send c) = wc_active c) as Ea by (unfold after_send; by destruct (wc_active c) eqn:?).
  rewrite Ea in H1. cbn [frames_of]. split_and!.
  - constructor; [|done]. split; cbn [f_op f_key f_data]; [by left| | |unfold WRITE_MAX; lia].
    + rewrite negb_involutive. unfold key_of. by destruct (wc_active c).
    + unfold key_of. intros k E. destruct (wc_active c); [|done]. injection E as <-. apply keys.
  - constructor; [|done]. unfold fbytes. rewrite frame_split, length_app. cbn [f_fin f_op f_key f_data].
    rewrite Nat2Z.inj_add, head_size by lia. unfold frame_start, key_of.
    destruct (wc_active c); cbn [default masked]; [change (masked _) with true; cbv iota; unfold id; rewrite (proj1 (keys _)), length_xor_mask
      |change (masked _) with false; cbv iota]; repeat case_match; lia.
  - change (deliveries (?f :: ?fs)) with (deliveries ([f] ++ fs)). rewrite deliveries_app, H3. unfold deliveries. cbn.
    by rewrite Hop.
Qed.

End conversation.

(** ** When decoding is defined *)

Section decode_defined.
Context `{Host}.

Lemma safe_keys : SafeRead (let* k0 := mbuf_read_u8 in let* k1 := mbuf_read_u8 in
  let* k2 := mbuf_read_u8 in let* k3 := mbuf_read_u8 in ret [k0; k1; k2; k3]).
Proof. apply _. Qed.

Lemma reads_keys k0 k1 k2 k3 : Reads (let* k0 := mbuf_read_u8 in let* k1 := mbuf_read_u8 in
  let* k2 := mbuf_read_u8 in let* k3 := mbuf_read_u8 in ret [k0; k1; k2; k3]) [k0; k1; k2; k3] [k0; k1; k2; k3].
Proof. apply reads_u8, reads_u8, reads_u8, reads_u8, reads_ret. Qed.

Lemma wrap_over z : 2 ^ 64 <= z < 2 * 2 ^ 64 -> u64 z = z - 2 ^ 64.
Proof. intros Hz. unfold wrap. dlia. Qed.

Lemma masked_payload_eq v n mb : decode_payload v true n mb =
  need (u64 (4 + n)) (ret (inl ENODATA))
    (let* mkey := (let* k0 := mbuf_read_u8 in let* k1 := mbuf_read_u8 in
       let* k2 := mbuf_read_u8 in let* k3 := mbuf_read_u8 in ret [k0; k1; k2; k3]) in
     mask_loop mkey n ;; ret (inr (hdr_of v true n mkey))) mb.
Proof.
  unfold decode_payload, need, bind, get. case_match; [done|].
  destruct (mbuf_read_u8 mb) as [[? mb1]|]; [|done]. destruct (mbuf_read_u8 mb1) as [[? mb2]|]; [|done].
  destruct (mbuf_read_u8 mb2) as [[? mb3]|]; [|done]. by destruct (mbuf_read_u8 mb3) as [[? mb4]|].
Qed.

Lemma mask_loop_None mkey n mb : mbuf_wf mb -> 0 < n -> mb_size mb < n -> mask_loop mkey n mb = None.
Proof.
  intros Hwf Hn Hl. pose proof (wf_pos _ Hwf). rewrite (wf_len _ Hwf) in Hl.
  unfold mask_loop, bind, get, load_at, mem_load. by rewrite in_block_false by lia.
Qed.

Lemma mask_loop_Some mkey n mb : mbuf_wf mb -> 0 <= n <= mbuf_get_left mb -> exists mb', mask_loop mkey n mb = Some (tt, mb').
Proof.
  intros Hwf Hn. unfold mask_loop, bind, get, load_at, mem_load, store_at, mem_store.
  destruct (decide (n = 0)) as [->|Hne]; [cbn; eauto|].
  destruct (wf_in_block _ _ Hwf Hn) as [Hb|]; [|done]. rewrite Hb, length_xor_mask.
  pose proof (wf_pos _ Hwf). pose proof (wf_end _ Hwf). pose proof (wf_len _ Hwf).
  rewrite length_slice, Hb by (unfold mbuf_get_left in Hn; case_match; lia). eauto.
Qed.

Lemma payload_None v m n mb : mbuf_wf mb -> 0 <= n < 2 ^ 64 ->
  decode_payload v m n mb = None <-> m = true /\ 2 ^ 64 - 4 <= n /\ n + 4 - 2 ^ 64 <= mbuf_get_left mb.
Proof.
  intros Hwf Hn. destruct m.
  2: { unfold decode_payload, need, bind, get. case_match; (split; [done|by intros [? _]]). }
  rewrite masked_payload_eq. unfold need. rewrite (bind_Some _ _ _ _ _ (eq_refl : get mb = _)).
  destruct (safe_keys mb Hwf) as (mkey & mb1 & E & Hadv). pose proof (advanced_wf _ _ Hwf Hadv) as Hwf1.
  destruct (decide (2 ^ 64 - 4 <= n)) as [Hbig|Hsmall].
  - rewrite (wrap_over (4 + n)) by lia. destruct (Z.ltb_spec (mbuf_get_left mb) (4 + n - 2 ^ 64)); [split; [done|lia]|].
    rewrite (bind_Some _ _ _ _ _ E). unfold bind at 1. rewrite mask_loop_None; [split; [|done]; intros _; lia|done|lia|].
    pose proof (wf_max _ Hwf1). unfold MEM_SIZE_MAX in *. lia.
  - rewrite (wrap_small 64) by lia. destruct (Z.ltb_spec (mbuf_get_left mb) (4 + n)) as [|Hl]; [split; [done|lia]|].
    rewrite <- length_unread in Hl by done. destruct (unread mb) as [|k0 [|k1 [|k2 [|k3 rest]]]] eqn:U; try (simpl in Hl; lia).
    pose proof (reads_keys k0 k1 k2 k3 mb rest Hwf U) as R. rewrite (bind_Some _ _ _ _ _ R). cbn [length] in *.
    destruct (mask_loop_Some [k0; k1; k2; k3] n (set_pos (mb_pos mb + 4) mb)) as [mb2 E2].
    + apply (unread_wf mb [k0; k1; k2; k3] rest Hwf U).
    + rewrite <- length_unread by apply (unread_wf mb [k0; k1; k2; k3] rest Hwf U).
      pose proof (unread_advance mb [k0; k1; k2; k3] rest Hwf U) as U2. cbn [length] in U2.
      change (Z.of_nat 4) with 4 in U2. rewrite U2. lia.
    + change (Z.of_nat 4) with 4. rewrite (bind_Some _ _ _ _ _ E2). split; [done|lia].
Qed.

(** The length field of any frame: what follows it decides. *)
Lemma decode_len_cases l7 mb r : mbuf_wf mb -> 0 <= l7 < 128 -> unread mb = r ->
  decode_len l7 mb = Some (inl ENODATA, mb) \/
  exists n ext r', r = ext ++ r' /\ 0 <= n < 2 ^ 64 /\ (2 ^ 16 <= n -> l7 = 127 /\ ext = be_bytes 8 n) /\
    decode_len l7 mb = Some (inr n, set_pos (mb_pos mb + zlength ext) mb).
Proof.
  intros Hwf Hl U. pose proof (length_unread _ Hwf) as L. rewrite U in L.
  pose proof (unread_ok _ Hwf) as Hok. rewrite U in Hok. unfold decode_len, need.
  assert (forall k, (k <= length r)%nat -> take k r = be_bytes k (be_val (take k r)) /\
    0 <= be_val (take k r) < 256 ^ Z.of_nat k /\ r = take k r ++ drop k r) as Hbe.
  { intros k Hk. assert (length (take k r) = k) as Lk by (rewrite length_take; lia).
    assert (bytes_ok (take k r)) as Ok by (by apply Forall_take). pose proof (be_val_range _ Ok) as Hr. rewrite Lk in Hr.
    split; [|split; [done|by rewrite take_drop]]. rewrite <- Lk at 2. by rewrite be_bytes_val. }
  destruct (Z.eqb_spec l7 126) as [->|H126]; [|destruct (Z.eqb_spec l7 127) as [->|H127]].
  - rewrite (bind_Some _ _ _ _ _ (eq_refl : get mb = _)). destruct (Z.ltb_spec (mbuf_get_left mb) 2); [by left|right].
    destruct (Hbe 2%nat ltac:(lia)) as (E & Hr & Es). set (n := be_val (take 2 r)) in *. rewrite E in Es.
    exists n, (be_bytes 2 n), (drop 2 r). change (256 ^ Z.of_nat 2) with (2 ^ 16) in Hr. split_and!; try done; try lia.
    apply (reads_map _ inr _ _ (reads_net_int 2 n Hr) mb (drop 2 r) Hwf). congruence.
  - rewrite (bind_Some _ _ _ _ _ (eq_refl : get mb = _)). destruct (Z.ltb_spec (mbuf_get_left mb) 8); [by left|right].
    destruct (Hbe 8%nat ltac:(lia)) as (E & Hr & Es). set (n := be_val (take 8 r)) in *. rewrite E in Es.
    exists n, (be_bytes 8 n), (drop 8 r). change (256 ^ Z.of_nat 8) with (2 ^ 64) in Hr. split_and!; try done; try lia.
    pose proof (reads_int 8 (be_bytes 8 n) (length_be_bytes _ _)) as R.
    apply (reads_map _ (fun x => inr (A := Z) (sys_ntohll x))) in R.
    rewrite sys_ntohll_host_val, be_val_bytes in R by auto using be_bytes_ok, length_be_bytes.
    apply (R mb (drop 8 r) Hwf). congruence.
  - right. exists l7, [], r. split_and!; try done; try lia. cbn [length]. by rewrite Z.add_0_r, set_pos_id.
Qed.

Lemma decode_cases mb b0 b1 r : mbuf_wf mb -> unread mb = b0 :: b1 :: r ->
  (exists mb', websock_decode mb = Some (inl ENODATA, mb')) \/
  exists n ext r' mb1, r = ext ++ r' /\ 0 <= n < 2 ^ 64 /\ (2 ^ 16 <= n -> b1 mod 128 = 127 /\ ext = be_bytes 8 n) /\
    mbuf_wf mb1 /\ unread mb1 = r' /\ websock_decode mb = decode_payload b0 (128 <=? b1) n mb1.
Proof.
  intros Hwf U. pose proof (length_unread _ Hwf) as L. pose proof (unread_ok _ Hwf) as Hok. rewrite U in L, Hok.
  cbn [length] in L. inversion Hok as [|? ? _ Hok']; subst. inversion Hok' as [|? ? Hb1 _]; subst. unfold byte_ok in Hb1.
  rewrite decode_eq by lia. unfold head_reader. rewrite bind_assoc, (bind_Some _ _ _ _ _ (read_u8_eq _ _ _ Hwf U)).
  pose proof (unread_wf mb [b0] _ Hwf U) as Hwf1. pose proof (unread_advance mb [b0] _ Hwf U) as U1. cbn [length] in *.
  rewrite bind_assoc, (bind_Some _ _ _ _ _ (read_u8_eq _ _ _ Hwf1 U1)).
  pose proof (unread_wf _ [_] _ Hwf1 U1) as Hwf2. pose proof (unread_advance _ [_] _ Hwf1 U1) as U2. cbn [length] in *.
  rewrite land_127, bind_assoc. change (Z.of_nat 1) with 1 in *.
  set (mb2 := set_pos (mb_pos (set_pos _ mb) + 1) _) in *.
  destruct (decode_len_cases (b1 mod 128) _ r Hwf2 ltac:(dlia) U2) as [E|(n & ext & r' & -> & Hn & Hbig & E)].
  - left. rewrite (bind_Some _ _ _ _ _ E). by eexists.
  - right. exists n, ext, r', (set_pos (mb_pos mb2 + zlength ext) mb2). split_and!; try done; try lia.
    + eapply unread_wf; [exact Hwf2|exact U2].
    + apply unread_advance; [exact Hwf2|exact U2].
    + rewrite (bind_Some _ _ _ _ _ E). cbn [fst snd]. unfold bind, ret. cbn.
      rewrite Z.shiftr_div_pow2, land_1 by lia. change (2 ^ 7) with 128. f_equal.
      unfold nz. destruct (Z.leb_spec 128 b1); dlia.
Qed.

End decode_defined.

(** C11: Decoding a frame header of an untrusted peer is undefined exactly when
    the frame is masked and announces a length of at least 2^64 - 4: the check
    of the length wraps around, and the unmasking loop leaves the buffer. *)
Theorem websock_decode_undefined `{Host} mb : mbuf_wf mb ->
  websock_decode mb = None <->
  exists b0 len rest, unread mb = b0 :: 255 :: be_bytes 8 len ++ rest /\ 2 ^ 64 - 4 <= len < 2 ^ 64 /\
    len + 4 - 2 ^ 64 <= zlength rest.
Proof.
  intros Hwf. split.
  - intros E. pose proof (unread_ok _ Hwf) as Hok. destruct (unread mb) as [|b0 [|b1 r]] eqn:U.
    1,2: pose proof (length_unread _ Hwf) as L; rewrite U in L; simpl in L; unfold websock_decode, need, bind, get in E;
      by rewrite (proj2 (Z.ltb_lt _ _)) in E by lia.
    destruct (decode_cases mb b0 b1 r Hwf U) as [[mb' E2]|(n & ext & r' & mb1 & -> & Hn & Hbig & Hwf1 & U1 & E2)]; [congruence|].
    rewrite E2 in E. apply (payload_None _ _ _ _ Hwf1 Hn) in E as (Hm & Hn2 & Hl).
    destruct (Hbig ltac:(lia)) as [Hb ->]. rewrite <- length_unread, U1 in Hl by done.
    inversion Hok as [|? ? _ Hok']; subst. inversion Hok' as [|? ? Hb1 _]; subst. unfold byte_ok in Hb1.
    exists b0, n, (unread mb1). assert (b1 = 255) as -> by (apply Z.leb_le in Hm; dlia). split; [done|]. lia.
  - intros (b0 & len & rest & U & Hlen & Hl). pose proof (length_unread _ Hwf) as L. rewrite U in L. cbn [length] in L.
    assert (255 :: be_bytes 8 len = len_bytes true len) as El
      by (unfold len_bytes; rewrite (proj2 (Z.leb_gt _ _)), (proj2 (Z.leb_gt _ _)) by lia; done).
    rewrite (app_comm_cons _ rest), El, app_comm_cons in U.
    pose proof (reads_head b0 true len ltac:(lia) mb rest Hwf U) as R.
    rewrite decode_eq, (bind_Some _ _ _ _ _ R) by lia. cbn [fst snd]. rewrite (proj1 (len_octet true len ltac:(lia))).
    apply payload_None; [by eapply unread_wf|lia|]. split; [done|].
    rewrite <- length_unread, (unread_advance _ _ _ Hwf U) by (by eapply unread_wf). lia.
Qed.

(** C10: Two connections of opposite roles.  The messages one application
    sends are handed to the other application once each, in order and
    unmasked, however TCP cuts the stream into segments; a message with its
    header and a segment have to fit the receive buffer together. *)
Theorem websock_conversation `{Host} rand_bytes tcp_send num0 recvh a b msgs segs n k :
  no_oom -> (forall i, key_ok (rand_bytes i)) -> zlength num0 = NUM_SIZE ->
  (forall hdr mb c, mbuf_wf mb -> wc_orphan c = false ->
     exists evs c', recvh hdr mb c = Some ((evs, false), c') /\ same_conn c c' /\ received evs = []) ->
  wc_state a = OPEN -> wc_active b = negb (wc_active a) -> wc_mb b = None -> wc_orphan b = false ->
  0 <= n -> 0 <= k -> n + k <= BUFSIZE_MAX -> Forall (msg_ok n) msgs ->
  Forall segment_ok segs -> Forall (fun seg => zlength (unread seg) <= k) segs ->
  exists sent a', send_all rand_bytes tcp_send msgs a = Some (sent, a') /\
    (mjoin (unread <$> segs) = mjoin (unread <$> sent) ->
     exists evs b', recv_all rand_bytes tcp_send num0 recvh segs b = Some (evs, b') /\
       received evs = (fun m => (1, m_op m, m_data m)) <$> msgs).
Proof.
  intros Hm Hk Hnum Hh Ha Hab Hb Ho Hn Hk0 Hnk Hmsgs Hsegs Hlen.
  destruct (send_all_ok rand_bytes tcp_send Hm Hk n msgs a ltac:(lia) Ha Hmsgs) as (sent & a' & E & U).
  destruct (frames_ok rand_bytes Hk n msgs a ltac:(lia) Hmsgs) as (Hf & Hfl & Hd).
  exists sent, a'. split; [done|]. intros Es.
  destruct (recv_all_ok rand_bytes tcp_send num0 recvh Hm Hk Hnum Hh n k segs (frames_of rand_bytes a msgs) [] b)
    as (evs & b' & E2 & Hr & _); try done.
  - by rewrite Hab.
  - unfold pending. by rewrite Hb.
  - destruct (frames_of rand_bytes a msgs) as [|f fs]; [done|]. exists (fbytes f). split; [done|].
    pose proof (frame_len_2 f). by destruct (fbytes f).
  - simpl. congruence.
  - exists evs, b'. split; [done|]. congruence.
Qed.

(** ** The life of a WebSocket connection

    Whatever happens to a connection after its close frame has been sent
    (calls of the application, segments, timers, the end of the TCP
    connection), it sends nothing more. *)

(** What the application can call. *)
Inductive app_call :=
  | CallSend (opcode : Z) (fmt : option (M mbuf Z))
  | CallClose (scode : Z) (fmt : option (M mbuf Z)).

Inductive ws_op :=
  | AppCall (a : app_call)
  | AppDrop
  | TcpRecv (mb : mbuf)
  | TcpClosed (err : Z)
  | KeepaliveTimer
  | TimeoutTimer.

Definition sent_of (evs : list ws_event) : list mbuf :=
  omap (fun e => match e with WsSent mb => Some mb | _ => None end) evs.

#[global] Arguments sent_of : simpl never.

Lemma sent_of_app a b : sent_of (a ++ b) = sent_of a ++ sent_of b.
Proof. apply omap_app. Qed.

Section life.
Context `{Host}.
Variable rand_bytes : nat -> list Z.
Variable tcp_send : mbuf -> Z.
Variable num0 : list Z.
(** The calls of the application's handler, and whether it drops the
    connection. *)
Variable appl : websock_hdr -> mbuf -> list app_call * bool.

Definition run_call (a : app_call) : M websock_conn (list ws_event) :=
  let* '(_, sent) :=
    match a with
    | CallSend opcode fmt => websock_send rand_bytes tcp_send opcode fmt
    | CallClose scode fmt => websock_close rand_bytes tcp_send scode fmt
    end in
  ret (sent_event sent).

Fixpoint run_calls (l : list app_call) : M websock_conn (list ws_event) :=
  match l with
  | [] => ret []
  | a :: l => let* evs := run_call a in let* more := run_calls l in ret (evs ++ more)
  end.

Definition app_recvh (hdr : websock_hdr) (mb : mbuf) : M websock_conn (list ws_event * bool) :=
  let* evs := run_calls (appl hdr mb).1 in ret (evs, (appl hdr mb).2).

Definition run_op (op : ws_op) : M websock_conn (list ws_event) :=
  match op with
  | AppCall a => run_call a
  | AppDrop => conn_destructor rand_bytes tcp_send num0
  | TcpRecv mb => recv_handler rand_bytes tcp_send num0 app_recvh mb
  | TcpClosed err => close_handler rand_bytes tcp_send num0 err
  | KeepaliveTimer => keepalive_handler rand_bytes tcp_send
  | TimeoutTimer => timeout_handler rand_bytes tcp_send num0
  end.

Fixpoint run_ops (ops : list ws_op) : M websock_conn (list ws_event) :=
  match ops with
  | [] => ret []
  | op :: ops => let* evs := run_op op in let* more := run_ops ops in ret (evs ++ more)
  end.

(** A program that keeps a connection which is not open silent; [f] gives the
    events of its result. *)
Definition Quiet {A} (f : A -> list ws_event) (m : M websock_conn A) : Prop :=
  forall c a c', wc_state c <> OPEN -> m c = Some (a, c') -> wc_state c' <> OPEN /\ sent_of (f a) = [].

Lemma quiet_ret {A} (f : A -> list ws_event) a : sent_of (f a) = [] -> Quiet f (ret a).
Proof. intros Ha c a' c' Hs E. by inv_ret. Qed.

Lemma quiet_bind {A B} (f : A -> list ws_event) (g : B -> list ws_event) m k :
  Quiet f m -> (forall a, sent_of (f a) = [] -> Quiet g (k a)) -> Quiet g (bind m k).
Proof. intros Hm Hk c b c' Hs (a & c1 & E1 & E2)%bind_inv. destruct (Hm _ _ _ Hs E1). by eapply Hk. Qed.

Definition no_events {A} (_ : A) : list ws_event := [].

Lemma quiet_get : Quiet no_events get.
Proof. intros c a c' Hs E. by inv_ret. Qed.

Lemma quiet_if {A} (f : A -> list ws_event) (b : bool) m1 m2 : Quiet f m1 -> Quiet f m2 -> Quiet f (if b then m1 else m2).
Proof. by destruct b. Qed.

Lemma quiet_modify fn : (forall c, wc_state c <> OPEN -> wc_state (fn c) <> OPEN) -> Quiet no_events (modify fn).
Proof. intros Hf c a c' Hs E. inv_ret. split; [by apply Hf|done]. Qed.

Lemma quiet_lift {A} (o : option A) : Quiet no_events (lift o).
Proof. intros c a c' Hs E. unfold lift in E. destruct o; by simplify_eq. Qed.

(** ** Sending *)

Lemma quiet_vsend opcode scode fmt : Quiet (fun r => sent_event r.2) (websock_vsend rand_bytes tcp_send opcode scode fmt).
Proof. intros c a c' Hs E. unfold websock_vsend in E. rewrite bool_decide_false in E by done. by simplify_eq/=. Qed.

Lemma vsend_closed opcode scode fmt c : wc_state c <> OPEN ->
  websock_vsend rand_bytes tcp_send opcode scode fmt c = Some ((ENOTCONN, None), c).
Proof. intros Hs. unfold websock_vsend. by rewrite bool_decide_false by done. Qed.

Lemma close_closed scode fmt c : wc_state c <> OPEN ->
  websock_close rand_bytes tcp_send scode fmt c = Some ((ENOTCONN, None), c).
Proof. intros Hs. unfold websock_close. by rewrite (bind_Some _ _ _ _ _ (vsend_closed _ _ _ c Hs)). Qed.

Lemma quiet_close scode fmt : Quiet (fun r => sent_event r.2) (websock_close rand_bytes tcp_send scode fmt).
Proof. intros c a c' Hs E. rewrite close_closed in E by done. by simplify_eq/=. Qed.

Lemma quiet_call a : Quiet id (run_call a).
Proof.
  destruct a; unfold run_call, websock_send; (eapply quiet_bind; [apply quiet_vsend || apply quiet_close|]);
    intros [? []] Hs; by apply quiet_ret.
Qed.

Lemma quiet_seq (m1 m2 : M websock_conn (list ws_event)) : Quiet id m1 -> Quiet id m2 ->
  Quiet id (let* evs := m1 in let* more := m2 in ret (evs ++ more)).
Proof.
  intros H1 H2. eapply quiet_bind; [done|]. intros e1 E1. eapply quiet_bind; [done|]. intros e2 E2.
  apply quiet_ret. unfold id in *. by rewrite sent_of_app, E1, E2.
Qed.

Lemma quiet_calls l : Quiet id (run_calls l).
Proof. induction l as [|a l IH]; [by apply quiet_ret|]. apply quiet_seq; [apply quiet_call|done]. Qed.

(** ** Closing *)

Lemma quiet_destructor : Quiet id (conn_destructor rand_bytes tcp_send num0).
Proof.
  intros c evs c' Hs E. unfold conn_destructor, bind, get in E. rewrite bool_decide_false in E by done. cbn in E.
  case_bool_decide; inv_ret; by split.
Qed.

Lemma quiet_conn_close err : Quiet id (conn_close rand_bytes tcp_send num0 err).
Proof.
  eapply quiet_bind; [by apply (quiet_modify (set_tmr None))|]. intros _ _.
  eapply quiet_bind; [by apply (quiet_modify (set_state CLOSED))|]. intros _ _.
  intros c evs c' Hs E. unfold bind, get in E. destruct (wc_orphan c).
  - by eapply quiet_destructor.
  - by inv_ret.
Qed.

Lemma quiet_fail err : Quiet id (recv_fail rand_bytes tcp_send num0 err).
Proof.
  eapply quiet_bind; [apply quiet_close|]. intros [e sent] Hs. eapply quiet_bind; [apply quiet_conn_close|].
  intros evs Hevs. apply quiet_ret. unfold id in *. cbn in Hs. by rewrite sent_of_app, Hs, Hevs.
Qed.

(** ** Receiving *)

Lemma quiet_nil : Quiet id (ret []).
Proof. by apply quiet_ret. Qed.

Lemma quiet_going_away : Quiet id (going_away rand_bytes tcp_send num0).
Proof. eapply quiet_bind; [apply quiet_close|]. intros [e sent] Hs. by apply quiet_ret. Qed.

Lemma quiet_send_back opcode mb : Quiet id (send_back rand_bytes tcp_send num0 opcode mb).
Proof. eapply quiet_bind; [apply quiet_vsend|]. intros [e sent] Hs. by apply quiet_ret. Qed.

Lemma quiet_recvh hdr mb : Quiet id (call_recvh rand_bytes tcp_send num0 app_recvh hdr mb).
Proof.
  eapply quiet_bind; [apply quiet_get|]. intros c _. apply quiet_if; [apply quiet_nil|].
  eapply (quiet_bind fst).
  { eapply quiet_bind; [apply quiet_calls|]. intros evs Hevs. by apply quiet_ret. }
  intros [evs dropped] Hevs. cbn in Hevs. apply quiet_if; [|by apply quiet_ret].
  eapply quiet_bind; [apply quiet_get|]. intros c2 _.
  eapply quiet_bind; [apply quiet_if; [apply quiet_going_away|apply quiet_nil]|]. intros evs2 Hevs2.
  eapply quiet_bind; [by apply (quiet_modify (set_state CLOSING))|]. intros _ _.
  eapply quiet_bind; [apply quiet_destructor|]. intros evs3 Hevs3. apply quiet_ret. unfold id in *.
  change (WsRecv hdr mb :: ?l) with ([WsRecv hdr mb] ++ l). by rewrite !sent_of_app, Hevs, Hevs2, Hevs3.
Qed.

Definition round_events (r : round_result) : list ws_event := match r with Again evs | Stop evs => evs end.

Lemma quiet_again (m : M websock_conn (list ws_event)) : Quiet id m ->
  Quiet round_events (let* evs := m in ret (Again evs)) /\ Quiet round_events (let* evs := m in ret (Stop evs)).
Proof. intros Hm. split; (eapply quiet_bind; [done|]); intros evs Hevs; by apply quiet_ret. Qed.

Lemma quiet_dispatch hdr mb : Quiet round_events (dispatch rand_bytes tcp_send num0 app_recvh hdr mb).
Proof.
  unfold dispatch. repeat apply quiet_if.
  - apply (quiet_again _ (quiet_recvh hdr mb)).
  - eapply quiet_bind; [apply quiet_get|]. intros c _.
    eapply quiet_bind; [apply quiet_if; [apply quiet_send_back|apply quiet_nil]|]. intros evs Hevs.
    eapply quiet_bind; [apply quiet_conn_close|]. intros evs2 Hevs2. apply quiet_ret. unfold id in *. cbn.
    by rewrite sent_of_app, Hevs, Hevs2.
  - apply (quiet_again _ (quiet_send_back WEBSOCK_PONG mb)).
  - by apply quiet_ret.
  - apply (quiet_again _ (quiet_fail EPROTO)).
Qed.

Lemma quiet_set_mb {A} (f : A -> list ws_event) mb m : Quiet f m -> Quiet f (modify (set_mb mb) ;; m).
Proof. intros Hm. eapply quiet_bind; [by apply (quiet_modify (set_mb mb))|]. by intros _ _. Qed.

Lemma quiet_frame mb : Quiet round_events (recv_frame rand_bytes tcp_send num0 app_recvh mb).
Proof.
  eapply quiet_bind; [apply quiet_lift|]. intros [[err|hdr] mb1] _.
  - apply quiet_if; apply quiet_set_mb; [by apply quiet_ret|]. apply (quiet_again _ (quiet_fail err)).
  - eapply quiet_bind; [apply quiet_get|]. intros c _.
    apply quiet_if; [apply quiet_set_mb, (quiet_again _ (quiet_fail EPROTO))|].
    eapply quiet_bind; [apply quiet_lift|]. intros [rest|] _; apply quiet_set_mb; [apply quiet_dispatch|].
    apply (quiet_again _ (quiet_fail ENOMEM)).
Qed.

Lemma quiet_loop fuel : Quiet id (recv_loop rand_bytes tcp_send num0 app_recvh fuel).
Proof.
  induction fuel as [|fuel IH]; (eapply quiet_bind; [apply quiet_get|]); intros c _;
    (destruct (wc_mb c) as [mb|]; [|apply quiet_nil]); [by intros ? ? ? ? ?|].
  eapply quiet_bind; [apply quiet_frame|]. intros [evs|evs] Hevs; [|by apply quiet_ret].
  eapply quiet_bind; [done|]. intros more Hmore. apply quiet_ret. unfold id in *. cbn in Hevs. by rewrite sent_of_app, Hevs.
Qed.

Lemma quiet_recv mb : Quiet id (recv_handler rand_bytes tcp_send num0 app_recvh mb).
Proof.
  eapply quiet_bind; [apply quiet_get|]. intros c _. eapply (quiet_bind no_events).
  - destruct (wc_mb c) as [cmb|]; [|by apply quiet_ret]. apply quiet_if; [by apply quiet_ret|].
    eapply quiet_bind; [apply quiet_lift|]. intros data _. eapply quiet_bind; [apply quiet_lift|]. intros [err mb2] _.
    apply quiet_if; by apply quiet_ret.
  - intros [err cmb] _. apply quiet_set_mb, quiet_if; [apply quiet_fail|apply quiet_loop].
Qed.

Lemma quiet_op op : Quiet id (run_op op).
Proof.
  destruct op; cbn [run_op].
  - apply quiet_call.
  - apply quiet_destructor.
  - apply quiet_recv.
  - apply quiet_conn_close.
  - eapply quiet_bind; [by apply (quiet_modify (fun c => set_tmr _ c))|]. intros _ _.
    eapply quiet_bind; [apply quiet_vsend|]. intros [e sent] Hs. by apply quiet_ret.
  - apply quiet_conn_close.
Qed.

Lemma quiet_ops ops : Quiet id (run_ops ops).
Proof. induction ops as [|op ops IH]; [apply quiet_nil|]. apply quiet_seq; [apply quiet_op|done]. Qed.

End life.

(** C12: The close frame is the last thing a connection sends.  Once
    [websock_close] has succeeded, no sequence of calls of the application,
    TCP segments, timers and the end of the TCP connection makes it send, or
    opens it again. *)
Theorem websock_close_last `{Host} rand_bytes tcp_send num0 appl scode fmt c sent c1 ops evs c2 :
  websock_close rand_bytes tcp_send scode fmt c = Some ((0, sent), c1) ->
  run_ops rand_bytes tcp_send num0 appl ops c1 = Some (evs, c2) ->
  wc_state c1 = CLOSING /\ sent_of evs = [] /\ wc_state c2 <> OPEN.
Proof.
  intros Ec Er. unfold websock_close in Ec. apply bind_inv in Ec as ([e s] & c' & _ & E).
  unfold nz in E. destruct (Z.eqb_spec e 0) as [->|Hne]; inv_ret.
  split; [done|]. apply (quiet_ops rand_bytes tcp_send num0 appl ops) in Er as [? ?]; [done|discriminate].
Qed.

(** ** WebSocket connections: the properties at concrete inputs *)

#[local] Existing Instance lp64_host.

Definition key1 (_ : nat) : list Z := [1; 2; 3; 4].
Definition tcp_ok (_ : mbuf) : Z := 0.
Definition num_zero : list Z := replicate 64 0.
Definition quiet_app (_ : websock_hdr) (_ : mbuf) : M websock_conn (list ws_event * bool) := ret ([], false).

Definition client : websock_conn := WsConn None None OPEN 0 true false 0.
Definition server : websock_conn := WsConn None None OPEN 0 false false 0.

(** A masked frame that announces 2^64 - 1 bytes and has its key. *)
Lemma websock_decode_undefined_witness :
  websock_decode (mbuf_of (129 :: 255 :: be_bytes 8 (2 ^ 64 - 1) ++ [1; 2; 3; 4])) = None.
Proof.
  apply (proj2 (websock_decode_undefined (mbuf_of (129 :: 255 :: be_bytes 8 (2 ^ 64 - 1) ++ [1; 2; 3; 4])) ltac:(
    split; [done|vm_compute; done| |vm_compute; done..]; apply (bool_decide_unpack _); vm_compute; done))).
  exists 129, (2 ^ 64 - 1), [1; 2; 3; 4]. split; [vm_compute; done|]. vm_compute. done.
Defined.

Lemma ws_no_oom : no_oom.
Proof. by intros n. Qed.

Definition hello : ws_msg := WsMsg WEBSOCK_TEXT (mbuf_write_mem [104; 105]) [104; 105].

(** A client says "hi"; the server gets the frame in two segments. *)
Lemma websock_conversation_witness : exists evs b',
  recv_all key1 tcp_ok num_zero quiet_app [mbuf_of [129; 130; 1]; mbuf_of [2; 3; 4; 105; 107]] server = Some (evs, b') /\
  received evs = [(1, WEBSOCK_TEXT, [104; 105])].
Proof.
  destruct (websock_conversation key1 tcp_ok num_zero quiet_app client server [hello]
    [mbuf_of [129; 130; 1]; mbuf_of [2; 3; 4; 105; 107]] 100 100) as (sent & a' & E & Hr); try done.
  - intros i. split; [done|]. apply (bool_decide_unpack _). vm_compute. done.
  - intros hdr mb c _ Ho. by exists [], c.
  - constructor; [|constructor]. split; [done| |done].
    apply writes_writes_ok; [exact ws_no_oom|]. apply writes_mem. apply (bool_decide_unpack _). vm_compute. done.
  - repeat (constructor; [split; [split; try done; apply (bool_decide_unpack _); vm_compute; done|done|done]|]). constructor.
  - repeat (constructor; [done|]). constructor.
  - apply Hr. vm_compute in E. injection E as <- _. vm_compute. done.
Defined.

(** After closing, a segment with a ping gets no answer. *)
Lemma websock_close_last_witness : exists sent c1 evs c2,
  websock_close key1 tcp_ok 1000 None client = Some ((0, sent), c1) /\
  run_ops key1 tcp_ok num_zero (fun _ _ => ([], false)) [AppCall (CallSend WEBSOCK_TEXT None); TcpRecv (mbuf_of [137; 0]); TcpClosed 0]
    c1 = Some (evs, c2) /\ wc_state c1 = CLOSING /\ sent_of evs = [] /\ wc_state c2 <> OPEN.
Proof.
  eexists _, _, _, _. split; [vm_compute; reflexivity|]. split; [vm_compute; reflexivity|].
  eapply (websock_close_last key1 tcp_ok num_zero (fun _ _ => ([], false)) 1000 None client _ _
    [AppCall (CallSend WEBSOCK_TEXT None); TcpRecv (mbuf_of [137; 0]); TcpClosed 0]); vm_compute; reflexivity.
Defined.
