(* ===== verification/Uri.v ===== *)
(** * Uniform resource identifiers (uri/uri.c, uri/uric.c)

    Parsing with regular expressions, printing, parameters, headers and the
    escaping of components.  A [struct pl] is the text it points to, [None]
    when its pointer is NULL.  [vph] is the print handler, [num0] and [chrv0]
    are the arrays on the stack of [vhprintf] and [re_regex], [char_signed]
    says whether the type char is signed, and [sa_pton] gives the address
    family of a literal address (a wrapper of the system's [inet_pton]). *)

From Stdlib Require Import Ascii String.
From S2P Require Export Prelude Regex Print Pl.

Definition AF_UNSPEC : Z := 0.
Definition AF_INET : Z := 2.
Definition AF_INET6 : Z := 10.

Abbreviation text := (option (list Z)).

Record uri := Uri {
  u_scheme : text;
  u_user : text;
  u_password : text;
  u_host : text;
  u_af : Z;
  u_port : Z;              (* uint16_t *)
  u_path : text;
  u_params : text;
  u_headers : text;
}.

(** What an argument of [re_regex] points to afterwards. *)
Definition pl_out (t : list Z) (o : pls) (i : nat) (old : text) : text :=
  match o !! i with
  | Some (Some (p, n)) => Some (slice t p n)
  | _ => old
  end.

Definition expr_host6 : list Z := chars "\[[0-9a-f:]+\][:]*[0-9]*".
Definition expr_host : list Z := chars "[^:]+[:]*[0-9]*".
Definition expr_user : list Z := chars "[^:]+:[^@:]*[:]*[^@]*@[^/;? ]+[^;? ]*[^?]*[^]*".
Definition expr_nouser : list Z := chars "[^:]+:[^/;? ]+[^;? ]*[^?]*[^]*".
Definition expr_param : list Z := chars ";[^;=]+[=]*[^;]*".
Definition expr_header : list Z := chars "[?&]1[^=]+=[^&]+".

(** The characters before the terminator. *)
Fixpoint until_nul (m : list Z) : list Z :=
  match m with
  | [] => []
  | c :: m => if c =? 0 then [] else c :: until_nul m
  end.

(** ** Parsing *)

Section decode.
Variable chrv0 : list chr.
Variable sa_pton : list Z -> option Z.

Definition uri_decode_hostport (hostport : list Z) : M (text * text) Z := fun '(host, port) =>
  match re_regex hostport [true; false; true] chrv0 (length hostport) expr_host6 [None; None; None] with
  | None => None
  | Some (err, o) =>
      let host := pl_out hostport o 0 host in
      let port := pl_out hostport o 2 port in
      if negb (nz err) then Some (0, (host, port))
      else
        match re_regex hostport [true; false; true] chrv0 (length hostport) expr_host [None; None; None] with
        | None => None
        | Some (err, o) => Some (err, (pl_out hostport o 0 host, pl_out hostport o 2 port))
        end
  end.

(** [sa_set] copies the host into an array of 64 characters. *)
Definition host_family (host : text) : Z :=
  match sa_pton (until_nul (take 63 (default [] host))) with
  | Some af => af
  | None => AF_UNSPEC
  end.

(** At [out:]. *)
Definition uri_finish (u : uri) (host port : text) : uri :=
  Uri (u_scheme u) (u_user u) (u_password u) host (host_family host)
    (if pl_isset port then u16 (pl_u32 port) else 0) (u_path u) (u_params u) (u_headers u).

Definition uri_decode_nouser (pl : list Z) (port : text) : option (Z * uri) :=
  match re_regex pl [true; true; true; true; true] chrv0 (length pl) expr_nouser (replicate 5 None) with
  | None => None
  | Some (err, o) =>
      let u := Uri (pl_out pl o 0 None) None None None 0 0 (pl_out pl o 2 None) (pl_out pl o 3 None) (pl_out pl o 4 None) in
      if nz err then Some (err, u)
      else
        match uri_decode_hostport (default [] (pl_out pl o 1 None)) (None, port) with
        | None => None
        | Some (err, (host, port)) =>
            if nz err then Some (err, Uri (u_scheme u) None None host 0 0 (u_path u) (u_params u) (u_headers u))
            else Some (0, uri_finish u host port)
        end
  end.

Definition uri_decode (pl : list Z) : option (Z * uri) :=
  match re_regex pl [true; true; false; true; true; true; true; true] chrv0 (length pl) expr_user (replicate 8 None) with
  | None => None
  | Some (err, o) =>
      if nz err then uri_decode_nouser pl None
      else
        match uri_decode_hostport (default [] (pl_out pl o 4 None)) (None, None) with
        | None => None
        | Some (err, (host, port)) =>
            if nz err then uri_decode_nouser pl port
            else Some (0, uri_finish (Uri (pl_out pl o 0 None) (pl_out pl o 1 None) (pl_out pl o 3 None) None 0 0
                           (pl_out pl o 5 None) (pl_out pl o 6 None) (pl_out pl o 7 None)) host port)
        end
  end.

(** ** Parameters and headers *)

(** [expr0] is the array the expression is printed into. *)
Variables num0 expr0 : list Z.

Definition get_by (fmt name pl : list Z) (args : list bool) : option (Z * text) :=
  match re_vsnprintf_s num0 128 fmt [Arg 8 (VPl (Some (Some name)))] expr0 with
  | None => None
  | Some (_, expr) =>
      match re_regex pl args chrv0 (length pl) (until_nul expr) [None; None] with
      | None => None
      | Some (err, o) => Some (err, pl_out pl o 1 None)
      end
  end.

Definition uri_param_get (pl pname : list Z) : option (Z * text) :=
  get_by (chars ";%r[=]*[^;]*") pname pl [false; true].

Definition uri_header_get (pl hname : list Z) : option (Z * text) :=
  get_by (chars "[?&]1%r=[^&]+") hname pl [false; true].

Section apply.
Context {T : Type}.
Variable ah : list Z -> list Z -> M T Z.

(** A round takes at least two characters off. *)
Fixpoint params_loop (fuel : nat) (plr : list Z) : M T Z :=
  match plr, fuel with
  | [], _ => ret 0
  | _, O => ub
  | _, S fuel =>
      let* '(err, o) := lift (re_regex plr [true; true; true] chrv0 (length plr) expr_param [None; None; None]) in
      if nz err then ret err
      else
        let part i := default [] (pl_out plr o i None) in
        let plr := drop (1 + length (part 0%nat) + length (part 1%nat) + length (part 2%nat)) plr in
        let* err := ah (part 0%nat) (part 2%nat) in
        if nz err then ret err else params_loop fuel plr
  end.

Definition uri_params_apply (pl : list Z) : M T Z := params_loop (length pl) pl.

Fixpoint headers_loop (fuel : nat) (plr : list Z) : M T Z :=
  match plr, fuel with
  | [], _ => ret 0
  | _, O => ub
  | _, S fuel =>
      let* '(err, o) := lift (re_regex plr [true; true; true] chrv0 (length plr) expr_header [None; None; None]) in
      if nz err then ret err
      else
        let part i := default [] (pl_out plr o i None) in
        let plr := drop (length (part 0%nat) + length (part 1%nat) + 1 + length (part 2%nat)) plr in
        let* err := ah (part 1%nat) (part 2%nat) in
        if nz err then ret err else headers_loop fuel plr
  end.

Definition uri_headers_apply (pl : list Z) : M T Z := headers_loop (length pl) pl.
End apply.

End decode.

(** ** Characters *)

Definition is_alnum (c : Z) : bool :=
  ((48 <=? c) && (c <=? 57)) || ((65 <=? c) && (c <=? 90)) || ((97 <=? c) && (c <=? 122)).

Definition is_mark (c : Z) : bool := bool_decide (c ∈ chars "-_.!~*'()").
Definition is_unreserved (c : Z) : bool := is_alnum c || is_mark c.
Definition is_user_unreserved (c : Z) : bool := bool_decide (c ∈ chars "&=+$,;?/").
Definition is_hnv_unreserved (c : Z) : bool := bool_decide (c ∈ chars "[]/?:+$").
Definition is_user (c : Z) : bool := is_unreserved c || is_user_unreserved c.
Definition is_password (c : Z) : bool := bool_decide (c ∈ chars "&=+$,") || is_unreserved c.
Definition is_param_unreserved (c : Z) : bool := bool_decide (c ∈ chars "[]/:&+$").
Definition is_paramchar (c : Z) : bool := is_param_unreserved c || is_unreserved c.
Definition is_hvalue (c : Z) : bool := is_hnv_unreserved c || is_unreserved c.

(** ** Printing and escaping *)

Section encode.
Context {S : Type}.
Variable vph : list Z -> M S Z.
Variable num0 : list Z.
Variable char_signed : bool.

Abbreviation hprintf := (vhprintf vph num0).
Abbreviation pl_arg t := (Arg 8 (VPl (Some t))).

(** From the host on. *)
Definition encode_tail (u : uri) : M S Z :=
  check (if u_af u =? AF_INET6 then hprintf (chars "[%r]") [pl_arg (u_host u)]
         else hprintf (chars "%r") [pl_arg (u_host u)])
    ((if nz (u_port u) then hprintf (chars ":%u") [Arg 4 (VNum (u_port u))] else ret 0) |;
     hprintf (chars "%r%r%r") [pl_arg (u_path u); pl_arg (u_params u); pl_arg (u_headers u)]).

Definition uri_encode (u : option uri) : M S Z :=
  match u with
  | None => ret 0
  | Some u =>
      if negb (pl_isset (u_scheme u)) || negb (pl_isset (u_host u)) then ret EINVAL
      else
        check (hprintf (chars "%r:") [pl_arg (u_scheme u)])
          (check
             (if pl_isset (u_user u) then
                hprintf (chars "%r") [pl_arg (u_user u)] |;
                (if pl_isset (u_password u) then hprintf (chars ":%r") [pl_arg (u_password u)] else ret 0) |;
                vph [64]
              else ret 0)
             (encode_tail u))
  end.

(** The value of a [const char]. *)
Definition char_value (c : Z) : Z := if char_signed then swrap 8 c else c.

Section component.
Variable eh : Z -> bool.

Fixpoint comp_escape (pl : list Z) : M S Z :=
  match pl with
  | [] => ret 0
  | c :: pl =>
      check (if eh c then vph [c] else hprintf (chars "%%%02X") [Arg 4 (VNum (char_value c))])
        (comp_escape pl)
  end.

Fixpoint comp_unescape (pl : list Z) : M S Z :=
  match pl with
  | [] => ret 0
  | c :: pl =>
      if eh c then check (vph [c]) (comp_unescape pl)
      else if c =? 37 then
        match pl with
        | a :: b :: pl => check (vph [u8 (Z.lor (Z.shiftl (ch_hex a) 4) (ch_hex b))]) (comp_unescape pl)
        | _ => ret EBADMSG
        end
      else ret EINVAL
  end.
End component.

Definition uri_user_escape : list Z -> M S Z := comp_escape is_user.
Definition uri_user_unescape : list Z -> M S Z := comp_unescape is_user.
Definition uri_password_escape : list Z -> M S Z := comp_escape is_password.
Definition uri_password_unescape : list Z -> M S Z := comp_unescape is_password.
Definition uri_param_escape : list Z -> M S Z := comp_escape is_paramchar.
Definition uri_param_unescape : list Z -> M S Z := comp_unescape is_paramchar.
Definition uri_header_escape : list Z -> M S Z := comp_escape is_hvalue.
Definition uri_header_unescape : list Z -> M S Z := comp_unescape is_hvalue.

Variable chrv0 : list chr.
Variable sa_pton : list Z -> option Z.

Definition uri_escape_helper (pl : list Z) (unescape : bool) : M S Z :=
  let* '(err, u) := lift (uri_decode chrv0 sa_pton pl) in
  if nz err then ret err
  else if negb (pl_isset (u_scheme u)) || negb (pl_isset (u_host u)) then ret EINVAL
  else
    let user := default [] (u_user u) in
    let password := default [] (u_password u) in
    check (hprintf (chars "%r:") [pl_arg (u_scheme u)])
      (check
         (if pl_isset (u_user u) then
            hprintf (chars "%H") [Arg 8 (VHandler (Some (if unescape then uri_user_unescape user else uri_user_escape user))); pl_arg (u_user u)] |;
            (if pl_isset (u_password u) then
               hprintf (chars ":%H")
                 [Arg 8 (VHandler (Some (if unescape then uri_password_unescape password else uri_password_escape password))); pl_arg (u_password u)]
             else ret 0) |;
            vph [64]
          else ret 0)
         (encode_tail u)).

Definition uri_escape_pl (pl : list Z) : M S Z := uri_escape_helper pl false.
Definition uri_unescape_pl (pl : list Z) : M S Z := uri_escape_helper pl true.

(** [pl_set_str] leaves the text unset for a null pointer. *)
Definition uri_escape_user (user : option (list Z)) : M S Z :=
  match user with Some user => uri_user_escape user | None => ub end.
Definition uri_escape (uri : option (list Z)) : M S Z :=
  match uri with Some uri => uri_escape_pl uri | None => ub end.
End encode.
