(* ===== verification/UriThms.v ===== *)
(** * URIs: parsing inverts printing

    [uri_text] is the text of a URI.  [uri_encode] prints it into every sink,
    and [uri_decode] takes it apart again.  Parameters and headers are visited
    in order. *)

From Stdlib Require Import Ascii String.
From S2P Require Import Prelude Mbuf Regex RegexThms Print PrintThms Pl PlThms.
From S2P Require Export Uri.

(** ** Classes of single characters *)

Definition single (c : Z) : chr := {| ch_min := c; ch_max := c |}.
Definition not_letter (c : Z) : Prop := tolower c = c /\ forall x, tolower x = c -> x = c.

Definition is_letter (c : Z) : bool := ((65 <=? c) && (c <=? 90)) || ((97 <=? c) && (c <=? 122)).

Lemma not_letter_dec c : is_letter c = false -> not_letter c.
Proof.
  unfold is_letter, not_letter, tolower. intros Hc. split; [case_match; lia|]. intros x. case_match; lia.
Qed.

Lemma in_singles neg l c : Forall (fun x => is_letter x = false) l ->
  in_class neg (single <$> l) c = xorb neg (bool_decide (c ∈ l)).
Proof.
  intros Hl. unfold in_class. f_equal. induction Hl as [|x l Hx%not_letter_dec _ IH]; [done|].
  rewrite fmap_cons. cbn [existsb single ch_min ch_max]. rewrite IH.
  destruct Hx as [Hx1 Hx2]. rewrite Hx1. apply Bool.eq_true_iff_eq.
  rewrite orb_true_iff, !bool_decide_eq_true, elem_of_cons. assert (tolower c = x <-> c = x) as E.
  { split; [apply Hx2|]. intros ->. exact Hx1. }
  rewrite <- E. split; [intros [Hc|Hc]; [left; lia|by right]|intros [Hc|Hc]; [left; lia|by right]].
Qed.

(** ** Matching *)

(** The characters of a class, up to one that is not in it. *)
Definition run_of (neg : bool) (rs : list chr) (t u : list Z) : Prop :=
  Forall (fun c => in_class neg rs c = true) t /\
  match u with [] => True | c :: _ => in_class neg rs c = false end.

Lemma span_run neg rs t u : run_of neg rs t u -> forall nm, nm + zlength t <= u32 (-1) ->
  span neg false rs (u32 (-1)) nm false false (t ++ u) = length t.
Proof.
  change (u32 (-1)) with 4294967295. intros [Ht Hu]. induction Ht as [|c t Hc _ IH]; intros nm Hn; cbn [app span length andb] in *.
  - destruct u as [|c u]; [done|]. cbn [span andb]. rewrite Hu. by case_match.
  - replace (nm <? 4294967295) with true by lia. cbn [negb]. rewrite Hc. f_equal. apply IH. lia.
Qed.

Definition put_out (b : bool) (va : nat) (p n : Z) (o : pls) : pls := if b then <[va := Some (p, n)]> o else o.

Section attempt.
Variable args : list bool.

Lemma attempt_run neg rs q its p t u va o b : args !! va = Some b -> run_of neg rs t u ->
  zlength t < 2 ^ 32 - 1 -> q = 42 \/ q = 43 /\ t <> [] ->
  attempt args (Cls neg false rs q :: its) p (t ++ u) va o =
  attempt args its (p + zlength t) u (S va) (put_out b va p (zlength t) o).
Proof.
  intros Ea Hr Hl Hq. cbn [attempt]. unfold bind at 1, lift. rewrite Ea.
  assert (exists nmin, quantifier q = Some (nmin, u32 (-1)) /\ nmin <= zlength t) as (nmin & -> & Hmin).
  { destruct Hq as [-> |[-> Hne]]; [exists 0; split; [done|lia]|exists 1; split; [done|]]. destruct t; [done|simpl; lia]. }
  cbn [from_option id andb].
  rewrite (span_run neg rs t u Hr 0) by (change (u32 (-1)) with 4294967295; lia).
  rewrite (proj2 (Z.ltb_ge _ _)), drop_app_length by lia. unfold bind, assign, lift. rewrite Ea. by destruct b.
Qed.

Lemma attempt_all neg rs its p t va o b : args !! va = Some b -> Forall (fun c => in_class neg rs c = true) t ->
  zlength t < 2 ^ 32 - 1 ->
  attempt args (Cls neg false rs 42 :: its) p t va o =
  attempt args its (p + zlength t) [] (S va) (put_out b va p (zlength t) o).
Proof. intros Ea Ht Hl. rewrite <- (app_nil_r t) at 1. apply attempt_run; [done|by split|done|by left]. Qed.

(** An empty run where one character is asked for. *)
Lemma attempt_none neg rs its p u va o b : args !! va = Some b -> run_of neg rs [] u ->
  attempt args (Cls neg false rs 43 :: its) p u va o = Some (Mismatch, o).
Proof.
  intros Ea Hr. cbn [attempt]. unfold bind at 1, lift. rewrite Ea. cbn [from_option id andb quantifier Z.eqb Pos.eqb].
  pose proof (span_run neg rs [] u Hr 0 ltac:(done)) as E. cbn [app length] in E. by rewrite E.
Qed.

Lemma attempt_char c its p t va o : attempt args (Lit c :: its) p (c :: t) va o = attempt args its (p + 1) t va o.
Proof. cbn [attempt]. by rewrite Z.eqb_refl. Qed.
End attempt.

Lemma search_matched args its p t o o' : t <> [] -> attempt args its p t 0 o = Some (Matched, o') ->
  search args its p t o = Some (0, o').
Proof. intros Ht E. destruct t; [done|]. cbn [search]. unfold bind. by rewrite E. Qed.

Lemma search_ended args its p t o o' : t <> [] -> attempt args its p t 0 o = Some (Ended, o') ->
  search args its p t o = Some (ENOENT, o').
Proof. intros Ht E. destruct t; [done|]. cbn [search]. unfold bind. by rewrite E. Qed.

(** ** Host and port *)

Lemma slice_mid (a x b : list Z) : slice (a ++ x ++ b) (zlength a) (zlength x) = x.
Proof. unfold slice. rewrite !Nat2Z.id, drop_app_length. apply take_app_length. Qed.

Lemma pl_out_at t o i old pre mid post p n : o !! i = Some (Some (p, n)) -> t = pre ++ mid ++ post ->
  p = zlength pre -> n = zlength mid -> pl_out t o i old = Some mid.
Proof. intros E -> -> ->. unfold pl_out. by rewrite E, slice_mid. Qed.

(** A result of the scan is the component that lies there. *)
Ltac out_at i pre mid post :=
  match goal with |- context [pl_out ?t ?o i ?old] => rewrite (pl_out_at t o i old pre mid post _ _ eq_refl) end;
  [|by rewrite <- ?app_assoc; cbn [app]; rewrite ?app_nil_r|rewrite ?length_app; cbn [length]; lia|reflexivity].

Definition digit_class : list chr := [{| ch_min := 48; ch_max := 57 |}].
Definition addr6_class : list chr := [{| ch_min := 48; ch_max := 57 |}; {| ch_min := 97; ch_max := 102 |}; single 58].

Definition items_host6 : list item :=
  [Lit 91; Cls false false addr6_class 43; Lit 93; Cls false false [single 58] 42; Cls false false digit_class 42].
Definition items_host : list item :=
  [Cls true false [single 58] 43; Cls false false [single 58] 42; Cls false false digit_class 42].

Lemma expr_host6_items : expr_host6 = print_items items_host6.
Proof. reflexivity. Qed.
Lemma expr_host_items : expr_host = print_items items_host.
Proof. reflexivity. Qed.

Ltac items_ok := repeat constructor; simpl; try lia; by eexists.

Lemma items_host6_ok : Forall item_ok items_host6.
Proof. items_ok. Qed.
Lemma items_host_ok : Forall item_ok items_host.
Proof. items_ok. Qed.

(** Characters outside and inside a class of single characters. *)
Lemma run_not l t u : Forall (fun x => is_letter x = false) l -> Forall (fun c => c ∉ l) t ->
  match u with [] => True | c :: _ => c ∈ l end -> run_of true (single <$> l) t u.
Proof.
  intros Hl Ht Hu. split.
  - eapply Forall_impl; [|exact Ht]. intros c Hc. rewrite in_singles by done. by rewrite bool_decide_false.
  - destruct u as [|c u]; [done|]. rewrite in_singles by done. by rewrite bool_decide_true.
Qed.

Lemma run_in l t u : Forall (fun x => is_letter x = false) l -> Forall (fun c => c ∈ l) t ->
  match u with [] => True | c :: _ => c ∉ l end -> run_of false (single <$> l) t u.
Proof.
  intros Hl Ht Hu. split.
  - eapply Forall_impl; [|exact Ht]. intros c Hc. rewrite in_singles by done. by rewrite bool_decide_true.
  - destruct u as [|c u]; [done|]. rewrite in_singles by done. by rewrite bool_decide_false.
Qed.

Lemma in_digit_class c : in_class false digit_class c = true <-> 48 <= c <= 57.
Proof.
  unfold in_class, digit_class. cbn [existsb xorb ch_min ch_max]. change (tolower 48) with 48. change (tolower 57) with 57.
  unfold tolower. case_match; lia.
Qed.

Lemma digits_ok fuel n : 0 <= n -> Forall (fun c => 48 <= c <= 57) (digits fuel 10 false n).
Proof.
  revert n. induction fuel as [|fuel IH]; intros n Hn; [constructor|]. rewrite digits_S. apply Forall_app. split.
  - case_match; [|constructor]. apply IH. apply Z.div_pos; lia.
  - constructor; [|constructor]. pose proof (Z.mod_pos_bound n 10 ltac:(lia)). unfold digit. case_match; dlia.
Qed.

Lemma run_digits n : 0 <= n -> run_of false digit_class (itext 10 false n) [].
Proof.
  intros Hn. split; [|done]. eapply Forall_impl; [|by apply (digits_ok 64 n)]. intros c Hc. by apply in_digit_class.
Qed.

(** Nothing is found without the first literal. *)
Lemma search_no_lit args c its t o : is_letter c = false -> c ∉ t -> forall p,
  search args (Lit c :: its) p t o = Some (ENOENT, o).
Proof.
  intros Hc%not_letter_dec Ht. induction t as [|x t IH]; intros p; [done|].
  apply not_elem_of_cons in Ht as [Hx Ht]. cbn [search attempt]. destruct Hc as [Hc1 Hc2]. rewrite Hc1.
  rewrite (proj2 (Z.eqb_neq _ _)); [by apply IH|]. intros E. apply Hx. symmetry. by apply Hc2.
Qed.

(** A port number is printed after a colon, zero not at all. *)
Definition port_text (port : Z) : list Z := if nz port then 58 :: itext 10 false port else [].

Definition colons (port : Z) : list Z := if nz port then [58] else [].
Definition port_digits (port : Z) : list Z := if nz port then itext 10 false port else [].

Lemma port_text_split port : port_text port = colons port ++ port_digits port.
Proof. unfold port_text, colons, port_digits. by case_match. Qed.

Lemma port_read port : 0 <= port < 65536 ->
  (if pl_isset (Some (port_digits port)) then u16 (pl_u32 (Some (port_digits port))) else 0) = port.
Proof.
  intros Hp. unfold port_digits, nz. destruct (Z.eqb_spec port 0) as [->|Hne]; [done|]. cbn [negb pl_isset pl_u32].
  pose proof (length_itext 10 false port ltac:(lia) ltac:(lia)).
  rewrite itext_loop by (try lia; apply dec_digit_digit). rewrite (wrap_small 16) by lia.
  unfold nz. by rewrite (proj2 (Z.eqb_neq _ _)) by lia.
Qed.

(** The end of both expressions. *)
Lemma attempt_port args p va o b1 b2 port : args !! va = Some b1 -> args !! S va = Some b2 -> 0 <= port < 65536 ->
  attempt args [Cls false false [single 58] 42; Cls false false digit_class 42] p (port_text port) va o =
  Some (Matched, put_out b2 (S va) (p + zlength (colons port)) (zlength (port_digits port))
                   (put_out b1 va p (zlength (colons port)) o)).
Proof.
  intros E1 E2 Hp. rewrite port_text_split.
  assert (zlength (port_digits port) <= 20 /\ zlength (colons port) <= 1) as [Hl1 Hl2].
  { pose proof (length_itext 10 false port ltac:(lia) ltac:(lia)). unfold port_digits, colons. case_match; simpl; lia. }
  rewrite (attempt_run args _ _ _ _ _ (colons port) _ _ _ b1); [|done| |lia|by left].
  - rewrite <- (app_nil_r (port_digits port)) at 1.
    rewrite (attempt_run args _ _ _ _ _ (port_digits port) [] _ _ b2); [done|done| |lia|by left].
    unfold port_digits. case_match; [apply run_digits; lia|by split].
  - apply (run_in [58]); [by repeat constructor|unfold colons; case_match; repeat constructor|].
    unfold port_digits. destruct (nz port); [|done]. pose proof (digits_ok 64 port ltac:(lia)) as Hd.
    unfold itext in *. destruct (digits 64 10 false port) as [|c l]; [done|]. inversion Hd; subst. intros [-> |Hc%elem_of_nil]%elem_of_cons; [lia|done].
Qed.

(** A host as it is written: an IPv6 address in brackets. *)
Definition host_text (af : Z) (host : list Z) : list Z := if af =? AF_INET6 then [91] ++ host ++ [93] else host.

Record host_ok (af : Z) (host : list Z) : Prop := {
  ho_some : host <> [];
  ho_len : zlength host < 2 ^ 31;
  ho_chars : if af =? AF_INET6 then Forall (fun c => in_class false addr6_class c = true) host
             else Forall (fun c => c ∉ [58; 47; 59; 63; 32; 91]) host;
}.

Section hostport.
Variable chrv0 : list chr.
Hypothesis chrv_size : length chrv0 = CHRV_SIZE.

Lemma hostport6 host port : host_ok AF_INET6 host -> 0 <= port < 65536 ->
  uri_decode_hostport chrv0 ([91] ++ host ++ [93] ++ port_text port) (None, None) =
  Some (0, (Some host, Some (port_digits port))).
Proof.
  intros [Hne Hlen Hc] Hp. cbn in Hc. unfold uri_decode_hostport.
  set (t := [91] ++ host ++ [93] ++ port_text port).
  rewrite expr_host6_items, re_regex_search, take_ge by (done || lia || apply items_host6_ok).
  erewrite (search_matched _ _ 0 t); [|done|].
  2: { unfold t, items_host6. cbn [app]. rewrite attempt_char.
       rewrite (attempt_run _ _ _ _ _ _ host (93 :: port_text port) _ _ true); [|done|by split|lia|by right].
       rewrite attempt_char, (attempt_port _ _ _ _ false true) by done. reflexivity. }
  cbn [nz Z.eqb negb put_out]. do 3 f_equal.
  - apply (pl_out_at _ _ 0 None [91] host ([93] ++ port_text port) 1 (zlength host)); done.
  - eapply (pl_out_at _ _ 2 None ([91] ++ host ++ [93] ++ colons port) (port_digits port) []); [done| | |done].
    + unfold t. rewrite port_text_split. by rewrite <- !app_assoc, app_nil_r.
    + rewrite !length_app. cbn [length]. lia.
Qed.

Lemma hostport4 host port : host_ok AF_UNSPEC host -> 0 <= port < 65536 ->
  uri_decode_hostport chrv0 (host ++ port_text port) (None, None) =
  Some (0, (Some host, Some (port_digits port))).
Proof.
  intros [Hne Hlen Hc] Hp. cbn in Hc. unfold uri_decode_hostport. set (t := host ++ port_text port).
  rewrite expr_host6_items, re_regex_search, take_ge by (done || lia || apply items_host6_ok).
  assert (91 ∉ t) as Hn.
  { unfold t. rewrite elem_of_app, port_text_split, elem_of_app. intros [Hi|[Hi|Hi]].
    - rewrite list.Forall_forall in Hc. apply (Hc _ Hi). set_solver.
    - unfold colons in Hi. destruct (nz port); set_solver.
    - unfold port_digits in Hi. destruct (nz port); [|set_solver]. pose proof (digits_ok 64 port ltac:(lia)) as Hd.
      rewrite list.Forall_forall in Hd. specialize (Hd _ Hi). lia. }
  unfold items_host6. rewrite search_no_lit by done. cbn [nz Z.eqb negb ENOENT].
  rewrite expr_host_items, re_regex_search, take_ge by (done || lia || apply items_host_ok).
  erewrite (search_matched _ _ 0 t); [|by unfold t; destruct host|].
  2: { unfold t, items_host. rewrite (attempt_run _ _ _ _ _ _ host (port_text port) _ _ true); [|done| |lia|by right].
       - rewrite (attempt_port _ _ _ _ false true) by done. reflexivity.
       - apply (run_not [58]); [by repeat constructor| |unfold port_text; destruct (nz port); set_solver].
         eapply Forall_impl; [|exact Hc]. intros c Hin. set_solver. }
  cbn [put_out]. do 3 f_equal.
  - apply (pl_out_at _ _ 0 _ [] host (port_text port) 0 (zlength host)); done.
  - eapply (pl_out_at _ _ 2 _ (host ++ colons port) (port_digits port) []); [done| | |done].
    + unfold t. rewrite port_text_split. by rewrite <- !app_assoc, app_nil_r.
    + rewrite !length_app. lia.
Qed.
End hostport.

(** ** Whole URIs *)

Abbreviation txt t := (default [] t).

Definition user_text (u : uri) : list Z :=
  if pl_isset (u_user u) then
    txt (u_user u) ++ (if pl_isset (u_password u) then 58 :: txt (u_password u) else []) ++ [64]
  else [].

Definition hostport_text (u : uri) : list Z := host_text (u_af u) (txt (u_host u)) ++ port_text (u_port u).

Definition uri_text (u : uri) : list Z :=
  txt (u_scheme u) ++ [58] ++ user_text u ++ hostport_text u ++ txt (u_path u) ++ txt (u_params u) ++ txt (u_headers u).

(** The URIs that can be written: every component has the characters that end
    the components before it only where they belong. *)
Record uri_ok (sa_pton : list Z -> option Z) (u : uri) : Prop := {
  uo_scheme : txt (u_scheme u) <> [] /\ Forall (fun c => c ∉ [58]) (txt (u_scheme u));
  uo_user : Forall (fun c => c ∉ [64; 58]) (txt (u_user u));
  uo_password : Forall (fun c => c ∉ [64]) (txt (u_password u)) /\ head (txt (u_password u)) <> Some 58;
  uo_nouser : pl_isset (u_user u) = false ->
    txt (u_password u) = [] /\ Forall (fun c => c ∉ [64]) (hostport_text u ++ txt (u_path u) ++ txt (u_params u) ++ txt (u_headers u));
  uo_host : host_ok (u_af u) (txt (u_host u));
  uo_af : u_af u = host_family sa_pton (u_host u);
  uo_port : 0 <= u_port u < 65536;
  uo_path : Forall (fun c => c ∉ [59; 63; 32]) (txt (u_path u)) /\ head (txt (u_path u)) ∈ [None; Some 47];
  uo_params : Forall (fun c => c ∉ [63]) (txt (u_params u)) /\ head (txt (u_params u)) ∈ [None; Some 59];
  uo_headers : head (txt (u_headers u)) ∈ [None; Some 63];
  uo_len : zlength (uri_text u) < 2 ^ 31;
}.

(** The same texts, whether an empty one is set or not. *)
Definition same_uri (u u' : uri) : Prop :=
  txt (u_scheme u') = txt (u_scheme u) /\ txt (u_user u') = txt (u_user u) /\ txt (u_password u') = txt (u_password u) /\
  txt (u_host u') = txt (u_host u) /\ u_af u' = u_af u /\ u_port u' = u_port u /\
  txt (u_path u') = txt (u_path u) /\ txt (u_params u') = txt (u_params u) /\ txt (u_headers u') = txt (u_headers u).

Definition items_tail : list item :=
  [Cls true false (single <$> [47; 59; 63; 32]) 43; Cls true false (single <$> [59; 63; 32]) 42;
   Cls true false (single <$> [63]) 42; Cls true false (single <$> []) 42].
Definition items_user : list item :=
  [Cls true false (single <$> [58]) 43; Lit 58; Cls true false (single <$> [64; 58]) 42;
   Cls false false (single <$> [58]) 42; Cls true false (single <$> [64]) 42; Lit 64] ++ items_tail.
Definition items_nouser : list item := [Cls true false (single <$> [58]) 43; Lit 58] ++ items_tail.

Lemma expr_user_items : expr_user = print_items items_user.
Proof. reflexivity. Qed.
Lemma expr_nouser_items : expr_nouser = print_items items_nouser.
Proof. reflexivity. Qed.
Lemma items_user_ok : Forall item_ok items_user.
Proof. items_ok. Qed.
Lemma items_nouser_ok : Forall item_ok items_nouser.
Proof. items_ok. Qed.

Section decoding.
Variables (chrv0 : list chr) (sa_pton : list Z -> option Z).
Hypothesis chrv_size : length chrv0 = CHRV_SIZE.

Lemma head_stop (t u : list Z) (c : Z) (l : list Z) : head t ∈ [None; Some c] -> c ∈ l ->
  match u with [] => True | x :: _ => x ∈ l end -> match t ++ u with [] => True | x :: _ => x ∈ l end.
Proof. intros Ht Hc Hu. destruct t as [|x t]; [done|]. simpl in *. set_solver. Qed.

(** Path, parameters and headers end where the next one begins. *)
Lemma tail_stops u : uri_ok sa_pton u ->
  match txt (u_headers u) with [] => True | x :: _ => x ∈ [63] end /\
  match txt (u_params u) ++ txt (u_headers u) with [] => True | x :: _ => x ∈ [59; 63] end /\
  match txt (u_path u) ++ txt (u_params u) ++ txt (u_headers u) with [] => True | x :: _ => x ∈ [47; 59; 63] end.
Proof.
  intros Hu. pose proof (uo_headers _ _ Hu) as Hh. pose proof (uo_params _ _ Hu) as [_ Hp]. pose proof (uo_path _ _ Hu) as [_ Hq].
  assert (match txt (u_headers u) with [] => True | x :: _ => x ∈ [63] end) as H1
    by (destruct (txt (u_headers u)); [done|]; simpl in Hh; set_solver).
  assert (match txt (u_params u) ++ txt (u_headers u) with [] => True | x :: _ => x ∈ [59; 63] end) as H2.
  { eapply head_stop; [exact Hp|set_solver|]. destruct (txt (u_headers u)); [done|]. set_solver. }
  split_and!; [done|done|]. eapply head_stop; [exact Hq|set_solver|].
  destruct (txt (u_params u) ++ txt (u_headers u)); [done|]. set_solver.
Qed.

Lemma hostport_chars u : uri_ok sa_pton u ->
  hostport_text u <> [] /\ Forall (fun c => c ∉ [47; 59; 63; 32]) (hostport_text u).
Proof.
  intros Hu. pose proof (uo_host _ _ Hu) as [Hne _ Hc]. pose proof (uo_port _ _ Hu) as Hp.
  assert (Forall (fun c => c ∉ [47; 59; 63; 32]) (port_text (u_port u))) as Hpt.
  { unfold port_text. destruct (nz (u_port u)); [|constructor]. constructor; [set_solver|].
    eapply Forall_impl; [|apply (digits_ok 64); lia]. intros c Hr. cbv beta in Hr.
    rewrite !elem_of_cons, elem_of_nil. lia. }
  unfold hostport_text, host_text. destruct (u_af u =? AF_INET6).
  - split; [done|]. apply Forall_app. split; [|done]. constructor; [set_solver|]. apply Forall_app. split.
    + eapply Forall_impl; [|exact Hc]. intros c Hin He. rewrite !elem_of_cons, elem_of_nil in He.
      destruct He as [-> |[-> |[-> |[-> |[]]]]]; by vm_compute in Hin.
    + constructor; [set_solver|constructor].
  - split; [by destruct (txt (u_host u))|]. apply Forall_app. split; [|done]. eapply Forall_impl; [|exact Hc]. set_solver.
Qed.

(** Host and port, path, parameters and headers. *)
Lemma attempt_tail u args p va o : uri_ok sa_pton u -> (forall i, (i < 4)%nat -> args !! (va + i)%nat = Some true) ->
  let hp := hostport_text u in
  let n1 := zlength hp in let n2 := zlength (txt (u_path u)) in let n3 := zlength (txt (u_params u)) in
  attempt args items_tail p (hp ++ txt (u_path u) ++ txt (u_params u) ++ txt (u_headers u)) va o =
  Some (Matched, <[(va + 3)%nat := Some (p + n1 + n2 + n3, zlength (txt (u_headers u)))]> (
    <[(va + 2)%nat := Some (p + n1 + n2, n3)]> (<[(va + 1)%nat := Some (p + n1, n2)]> (<[va := Some (p, n1)]> o)))).
Proof.
  intros Hu Ha hp n1 n2 n3. destruct (tail_stops u Hu) as (Hs1 & Hs2 & Hs3).
  pose proof (uo_len _ _ Hu) as Hl. unfold uri_text in Hl. rewrite !length_app in Hl. fold hp in Hl.
  destruct (hostport_chars u Hu) as [Hne Hc]. unfold items_tail.
  rewrite (attempt_run _ _ _ _ _ _ hp _ _ _ true); [|rewrite <- (Nat.add_0_r va); apply Ha; lia| |lia|by right].
  2: { apply run_not; [by repeat constructor|done|]. destruct (txt (u_path u) ++ _); [done|]. set_solver. }
  rewrite (attempt_run _ _ _ _ _ _ (txt (u_path u)) _ _ _ true); [|rewrite <- Nat.add_1_r; apply Ha; lia| |lia|by left].
  2: { apply run_not; [by repeat constructor|apply (uo_path _ _ Hu)|]. destruct (txt (u_params u) ++ _); [done|]. set_solver. }
  rewrite (attempt_run _ _ _ _ _ _ (txt (u_params u)) _ _ _ true);
    [|replace (S (S va)) with (va + 2)%nat by lia; apply Ha; lia| |lia|by left].
  2: { apply run_not; [by repeat constructor|apply (uo_params _ _ Hu)|done]. }
  rewrite <- (app_nil_r (txt (u_headers u))) at 1.
  rewrite (attempt_run _ _ _ _ _ _ (txt (u_headers u)) [] _ _ true);
    [|replace (S (S (S va))) with (va + 3)%nat by lia; apply Ha; lia| |lia|by left].
  2: { split; [|done]. apply List.Forall_forall. by intros c _. }
  cbn [attempt put_out]. unfold ret. replace (S (S (S va))) with (va + 3)%nat by lia.
  replace (S (S va)) with (va + 2)%nat by lia. by replace (S va) with (va + 1)%nat by lia.
Qed.

Lemma split_run neg rs t : exists a b, t = a ++ b /\ run_of neg rs a b.
Proof.
  induction t as [|c t (a & b & -> & Ha & Hb)]; [by exists [], []|]. destruct (in_class neg rs c) eqn:E.
  - exists (c :: a), b. split; [done|]. split; [by constructor|done].
  - exists [], (c :: a ++ b). by split_and!.
Qed.

(** A text without @ does not match the first expression. *)
Lemma attempt_no_at args p va o r its : (forall i, (i < 3)%nat -> is_Some (args !! (va + i)%nat)) -> 64 ∉ r ->
  zlength r < 2 ^ 31 ->
  exists o', attempt args ([Cls true false (single <$> [64; 58]) 42; Cls false false (single <$> [58]) 42;
    Cls true false (single <$> [64]) 42; Lit 64] ++ its) p r va o = Some (Ended, o').
Proof.
  intros Ha Hr Hl. destruct (split_run true (single <$> [64; 58]) r) as (a & r1 & -> & Hrun1).
  destruct (split_run false (single <$> [58]) r1) as (b & r2 & -> & Hrun2). rewrite !length_app in Hl.
  destruct (Ha 0%nat ltac:(lia)) as [b1 E1], (Ha 1%nat ltac:(lia)) as [b2 E2], (Ha 2%nat ltac:(lia)) as [b3 E3].
  rewrite Nat.add_0_r in E1. rewrite Nat.add_1_r in E2. replace (va + 2)%nat with (S (S va)) in E3 by lia.
  eexists. cbn [app]. rewrite (attempt_run _ _ _ _ _ _ a _ _ _ b1); [|done|done|lia|by left].
  rewrite (attempt_run _ _ _ _ _ _ b _ _ _ b2); [|done|done|lia|by left].
  rewrite (attempt_all _ _ _ _ _ r2 _ _ b3); [reflexivity|done| |lia].
  apply (run_not [64] r2 []); [by repeat constructor| |done]. apply list.Forall_forall. set_solver.
Qed.

Definition pass_colon (u : uri) : list Z := if pl_isset (u_password u) then [58] else [].
Definition tail_text (u : uri) : list Z := hostport_text u ++ txt (u_path u) ++ txt (u_params u) ++ txt (u_headers u).

Lemma attempt_user u : uri_ok sa_pton u ->
  let n0 := zlength (txt (u_scheme u)) in let n1 := zlength (txt (u_user u)) in
  let n3 := zlength (txt (u_password u)) in let p3 := n0 + 1 + n1 + zlength (pass_colon u) in
  let p4 := p3 + n3 + 1 in let n4 := zlength (hostport_text u) in
  let n5 := zlength (txt (u_path u)) in let n6 := zlength (txt (u_params u)) in
  zlength (txt (u_scheme u) ++ [58] ++ txt (u_user u) ++ pass_colon u ++ txt (u_password u) ++ [64] ++ tail_text u) < 2 ^ 31 ->
  attempt [true; true; false; true; true; true; true; true] items_user 0
    (txt (u_scheme u) ++ [58] ++ txt (u_user u) ++ pass_colon u ++ txt (u_password u) ++ [64] ++ tail_text u) 0 (replicate 8 None) =
  Some (Matched, [Some (0, n0); Some (n0 + 1, n1); None; Some (p3, n3); Some (p4, n4); Some (p4 + n4, n5);
                  Some (p4 + n4 + n5, n6); Some (p4 + n4 + n5 + n6, zlength (txt (u_headers u)))]).
Proof.
  intros Hu n0 n1 n3 p3 p4 n4 n5 n6 Hl. rewrite !length_app in Hl. cbn [length] in Hl.
  pose proof (uo_scheme _ _ Hu) as [Hs Hsc]. pose proof (uo_password _ _ Hu) as [Hpw Hpc].
  unfold items_user. cbn [app]. rewrite (attempt_run _ _ _ _ _ _ (txt (u_scheme u)) _ _ _ true); [|done| |lia|by right].
  2: { apply (run_not [58]); [by repeat constructor|done|set_solver]. }
  rewrite attempt_char, (attempt_run _ _ _ _ _ _ (txt (u_user u)) _ _ _ true); [|done| |lia|by left].
  2: { apply (run_not [64; 58]); [by repeat constructor|apply (uo_user _ _ Hu)|].
       unfold pass_colon. destruct (pl_isset (u_password u)) eqn:Ep; [set_solver|].
       destruct (u_password u) as [[|]|]; try done; cbn; set_solver. }
  rewrite (attempt_run _ _ _ _ _ _ (pass_colon u) _ _ _ false); [|done| |lia|by left].
  2: { apply (run_in [58]); [by repeat constructor|unfold pass_colon; case_match; repeat constructor|].
       destruct (txt (u_password u)) as [|c pw] eqn:Epw; cbn; [set_solver|]. cbn in Hpc. intros Hc. apply Hpc. set_solver. }
  rewrite (attempt_run _ _ _ _ _ _ (txt (u_password u)) _ _ _ true); [|done| |lia|by left].
  2: { apply (run_not [64]); [by repeat constructor|done|set_solver]. }
  rewrite attempt_char. unfold tail_text. rewrite (attempt_tail u); [|done|].
  2: { intros i Hi. destruct i as [|[|[|[|]]]]; done || lia. }
  cbn [put_out replicate Nat.add insert list_insert]. done.
Qed.

(** Host and port, whatever is in front and behind. *)
Lemma hostport_ok u : uri_ok sa_pton u ->
  uri_decode_hostport chrv0 (hostport_text u) (None, None) = Some (0, (Some (txt (u_host u)), Some (port_digits (u_port u)))).
Proof.
  intros Hu. pose proof (uo_host _ _ Hu) as Hh. pose proof (uo_port _ _ Hu) as Hp. unfold hostport_text, host_text.
  destruct (Z.eqb_spec (u_af u) AF_INET6) as [E|E].
  - rewrite E in Hh. rewrite <- !app_assoc. by apply hostport6.
  - apply hostport4; [done| |done]. destruct Hh as [H1 H2 H3]. rewrite (proj2 (Z.eqb_neq _ _) E) in H3. by split.
Qed.

Lemma host_isset u : uri_ok sa_pton u -> host_family sa_pton (Some (txt (u_host u))) = u_af u.
Proof.
  intros Hu. rewrite (uo_af _ _ Hu). destruct (u_host u) eqn:E; [done|].
  destruct (uo_host _ _ Hu) as [Hne _ _]. by rewrite E in Hne.
Qed.

Lemma decode_user_ok u : uri_ok sa_pton u -> pl_isset (u_user u) = true ->
  exists u', uri_decode chrv0 sa_pton (uri_text u) = Some (0, u') /\ same_uri u u'.
Proof.
  intros Hu Hus. pose proof (uo_scheme _ _ Hu) as [Hs _]. pose proof (uo_len _ _ Hu) as Hl.
  assert (uri_text u = txt (u_scheme u) ++ [58] ++ txt (u_user u) ++ pass_colon u ++ txt (u_password u) ++ [64] ++ tail_text u) as Et.
  { unfold uri_text, user_text. rewrite Hus. unfold pass_colon, pl_isset. fold (tail_text u).
    destruct (u_password u) as [[|c pw]|]; cbn; by rewrite <- ?app_assoc. }
  rewrite Et in *. unfold uri_decode.
  rewrite expr_user_items, re_regex_search, take_ge by (done || lia || apply items_user_ok).
  erewrite search_matched; [|by destruct (txt (u_scheme u))|exact (attempt_user u Hu Hl)].
  cbn [nz Z.eqb negb]. set (a := txt (u_scheme u)) in *. set (b := txt (u_user u)). set (c := pass_colon u).
  set (d := txt (u_password u)). unfold tail_text.
  set (e := hostport_text u). set (f := txt (u_path u)). set (g := txt (u_params u)). set (h := txt (u_headers u)).
  out_at 4%nat (a ++ [58] ++ b ++ c ++ d ++ [64]) e (f ++ g ++ h).
  pose proof (hostport_ok u Hu) as Hhp. fold e in Hhp. cbn [default id]. rewrite Hhp.
  cbn [nz Z.eqb negb]. eexists. split; [done|]. unfold same_uri, uri_finish. cbn [u_scheme u_user u_password u_host u_af u_port u_path u_params u_headers].
  out_at 0%nat (@nil Z) a ([58] ++ b ++ c ++ d ++ [64] ++ e ++ f ++ g ++ h).
  out_at 1%nat (a ++ [58]) b (c ++ d ++ [64] ++ e ++ f ++ g ++ h).
  out_at 3%nat (a ++ [58] ++ b ++ c) d ([64] ++ e ++ f ++ g ++ h).
  out_at 5%nat (a ++ [58] ++ b ++ c ++ d ++ [64] ++ e) f (g ++ h).
  out_at 6%nat (a ++ [58] ++ b ++ c ++ d ++ [64] ++ e ++ f) g h.
  out_at 7%nat (a ++ [58] ++ b ++ c ++ d ++ [64] ++ e ++ f ++ g) h (@nil Z).
  split_and!; try done; [by apply host_isset|apply port_read, (uo_port _ _ Hu)].
Qed.

Lemma attempt_nouser u : uri_ok sa_pton u ->
  let n0 := zlength (txt (u_scheme u)) in let n1 := zlength (hostport_text u) in
  let n2 := zlength (txt (u_path u)) in let n3 := zlength (txt (u_params u)) in
  zlength (txt (u_scheme u) ++ [58] ++ tail_text u) < 2 ^ 31 ->
  attempt [true; true; true; true; true] items_nouser 0 (txt (u_scheme u) ++ [58] ++ tail_text u) 0 (replicate 5 None) =
  Some (Matched, [Some (0, n0); Some (n0 + 1, n1); Some (n0 + 1 + n1, n2); Some (n0 + 1 + n1 + n2, n3);
                  Some (n0 + 1 + n1 + n2 + n3, zlength (txt (u_headers u)))]).
Proof.
  intros Hu n0 n1 n2 n3 Hl. rewrite !length_app in Hl. pose proof (uo_scheme _ _ Hu) as [Hs Hsc].
  unfold items_nouser. cbn [app]. rewrite (attempt_run _ _ _ _ _ _ (txt (u_scheme u)) _ _ _ true); [|done| |lia|by right].
  2: { apply (run_not [58]); [by repeat constructor|done|set_solver]. }
  rewrite attempt_char. unfold tail_text. rewrite (attempt_tail u); [|done|].
  2: { intros i Hi. destruct i as [|[|[|[|]]]]; done || lia. }
  cbn [put_out replicate Nat.add insert list_insert]. done.
Qed.

(** Without a user the first expression does not match. *)
Lemma attempt_user_fails u : uri_ok sa_pton u -> pl_isset (u_user u) = false ->
  zlength (txt (u_scheme u) ++ [58] ++ tail_text u) < 2 ^ 31 ->
  exists o, attempt [true; true; false; true; true; true; true; true] items_user 0
    (txt (u_scheme u) ++ [58] ++ tail_text u) 0 (replicate 8 None) = Some (Ended, o).
Proof.
  intros Hu Hus Hl. rewrite !length_app in Hl. pose proof (uo_scheme _ _ Hu) as [Hs Hsc].
  destruct (uo_nouser _ _ Hu Hus) as [_ Hat]. fold (tail_text u) in Hat.
  change items_user with ([Cls true false (single <$> [58]) 43; Lit 58] ++ [Cls true false (single <$> [64; 58]) 42;
    Cls false false (single <$> [58]) 42; Cls true false (single <$> [64]) 42; Lit 64] ++ items_tail).
  cbn [app]. rewrite (attempt_run _ _ _ _ _ _ (txt (u_scheme u)) _ _ _ true); [|done| |lia|by right].
  2: { apply (run_not [58]); [by repeat constructor|done|set_solver]. }
  rewrite attempt_char. apply attempt_no_at; [|rewrite list.Forall_forall in Hat; intros Hin; apply (Hat _ Hin); set_solver|lia].
  intros i Hi. destruct i as [|[|[|]]]; try lia; by eexists.
Qed.

Lemma decode_nouser_ok u : uri_ok sa_pton u -> pl_isset (u_user u) = false ->
  exists u', uri_decode chrv0 sa_pton (uri_text u) = Some (0, u') /\ same_uri u u'.
Proof.
  intros Hu Hus. pose proof (uo_scheme _ _ Hu) as [Hs _]. pose proof (uo_len _ _ Hu) as Hl.
  assert (uri_text u = txt (u_scheme u) ++ [58] ++ tail_text u) as Et by (unfold uri_text, user_text; by rewrite Hus).
  rewrite Et in *. destruct (attempt_user_fails u Hu Hus Hl) as [o Eo]. unfold uri_decode.
  rewrite expr_user_items, re_regex_search, take_ge by (done || lia || apply items_user_ok).
  erewrite search_ended; [|by destruct (txt (u_scheme u))|exact Eo]. cbn [nz Z.eqb negb ENOENT]. unfold uri_decode_nouser.
  rewrite expr_nouser_items, re_regex_search, take_ge by (done || lia || apply items_nouser_ok).
  erewrite search_matched; [|by destruct (txt (u_scheme u))|exact (attempt_nouser u Hu Hl)].
  cbn [nz Z.eqb negb]. set (a := txt (u_scheme u)) in *. unfold tail_text.
  set (e := hostport_text u). set (f := txt (u_path u)). set (g := txt (u_params u)). set (h := txt (u_headers u)).
  out_at 1%nat (a ++ [58]) e (f ++ g ++ h).
  pose proof (hostport_ok u Hu) as Hhp. fold e in Hhp. cbn [default id]. rewrite Hhp.
  cbn [nz Z.eqb negb]. eexists. split; [done|]. unfold same_uri, uri_finish.
  cbn [u_scheme u_user u_password u_host u_af u_port u_path u_params u_headers].
  out_at 0%nat (@nil Z) a ([58] ++ e ++ f ++ g ++ h). out_at 2%nat (a ++ [58] ++ e) f (g ++ h).
  out_at 3%nat (a ++ [58] ++ e ++ f) g h. out_at 4%nat (a ++ [58] ++ e ++ f ++ g) h (@nil Z).
  destruct (uo_nouser _ _ Hu Hus) as [Hpw _].
  split_and!; try done; [by destruct (u_user u) as [[|]|]|by apply host_isset|apply port_read, (uo_port _ _ Hu)].
Qed.

Lemma decode_ok u : uri_ok sa_pton u ->
  exists u', uri_decode chrv0 sa_pton (uri_text u) = Some (0, u') /\ same_uri u u'.
Proof. intros Hu. destruct (pl_isset (u_user u)) eqn:E; [by apply decode_user_ok|by apply decode_nouser_ok]. Qed.
End decoding.

(** ** Printing *)

Section encoding.
Context {S} {vph : list Z -> M S Z} {ok room put bad} {K : Sink vph ok room put bad}.
Variable num0 : list Z.
Hypothesis num0_size : zlength num0 = NUM_SIZE.

Abbreviation Prints := (Prints (ok := ok) (room := room) (put := put) (bad := bad)).
Abbreviation hprintf := (vhprintf vph num0).
Abbreviation pl_arg t := (Arg 8 (VPl (Some t))).

(** A format of texts and plain conversions. *)
Lemma hprintf_prints ds fmt args t : Forall dir_ok ds -> format_of ds = fmt -> args_of ds = args -> text_of ds = t ->
  Prints (hprintf fmt args) t.
Proof. intros Hd <- <- <-. by apply vhprintf_prints. Qed.

Lemma text_pl t : dir_text (DConv plain (CPl (Some t))) = txt t.
Proof. unfold dir_text, conv_text. cbn [plain fl_minus fl_zero fl_width]. by rewrite padded_plain. Qed.

Lemma dir_pl_ok t : dir_ok (DConv plain (CPl (Some t))).
Proof. split; [|done]. cbn. lia. Qed.

Lemma prints_scheme t : Prints (hprintf (chars "%r:") [pl_arg t]) (txt t ++ [58]).
Proof.
  apply (hprintf_prints [DConv plain (CPl (Some t)); DText [58]]); [|done..|unfold text_of; cbn [fmap list_fmap concat]; by rewrite text_pl].
  constructor; [apply dir_pl_ok|]. constructor; [|constructor]. cbn. set_solver.
Qed.

Lemma prints_pl t : Prints (hprintf (chars "%r") [pl_arg t]) (txt t).
Proof.
  apply (hprintf_prints [DConv plain (CPl (Some t))]); [|done..|unfold text_of; cbn [fmap list_fmap concat]; by rewrite text_pl, app_nil_r].
  constructor; [apply dir_pl_ok|constructor].
Qed.

Lemma prints_password t : Prints (hprintf (chars ":%r") [pl_arg t]) (58 :: txt t).
Proof.
  apply (hprintf_prints [DText [58]; DConv plain (CPl (Some t))]);
    [|done..|unfold text_of; cbn [fmap list_fmap concat dir_text app]; by rewrite <- (text_pl t), app_nil_r].
  constructor; [cbn; set_solver|]. constructor; [apply dir_pl_ok|constructor].
Qed.

Lemma prints_host6 t : Prints (hprintf (chars "[%r]") [pl_arg t]) ([91] ++ txt t ++ [93]).
Proof.
  apply (hprintf_prints [DText [91]; DConv plain (CPl (Some t)); DText [93]]);
    [|done..|unfold text_of; cbn [fmap list_fmap concat dir_text app]; by rewrite <- (text_pl t)].
  constructor; [cbn; set_solver|]. constructor; [apply dir_pl_ok|]. constructor; [cbn; set_solver|constructor].
Qed.

Lemma prints_port n : 0 <= n < 65536 -> Prints (hprintf (chars ":%u") [Arg 4 (VNum n)]) (58 :: itext 10 false n).
Proof.
  intros Hn. apply (hprintf_prints [DText [58]; DConv plain (CUint MNone n)]); [|done..|].
  - constructor; [cbn; set_solver|]. constructor; [|constructor]. split; [|done]. cbn. lia.
  - unfold text_of. cbn [fmap list_fmap concat dir_text conv_text plain fl_minus fl_zero fl_width app mod_size Z.mul Pos.mul].
    by rewrite padded_plain, (wrap_small 32), app_nil_r by lia.
Qed.

Lemma prints_three a b c : Prints (hprintf (chars "%r%r%r") [pl_arg a; pl_arg b; pl_arg c]) (txt a ++ txt b ++ txt c).
Proof.
  apply (hprintf_prints [DConv plain (CPl (Some a)); DConv plain (CPl (Some b)); DConv plain (CPl (Some c))]);
    [|done..|unfold text_of; cbn [fmap list_fmap concat]; by rewrite !text_pl, app_nil_r].
  constructor; [apply dir_pl_ok|]. constructor; [apply dir_pl_ok|]. constructor; [apply dir_pl_ok|constructor].
Qed.

Lemma prints_tail u : 0 <= u_port u < 65536 -> Prints (encode_tail vph num0 u) (tail_text u).
Proof.
  intros Hp. unfold encode_tail, tail_text, hostport_text. rewrite <- app_assoc. eapply runs_trans.
  - apply runs_check. unfold host_text. destruct (u_af u =? AF_INET6); [apply prints_host6|apply prints_pl].
  - apply prints_or; [|apply prints_three]. unfold port_text. destruct (nz (u_port u)); [by apply prints_port|apply prints_ret].
Qed.

Lemma encode_ok u : pl_isset (u_scheme u) = true -> pl_isset (u_host u) = true -> 0 <= u_port u < 65536 ->
  Prints (uri_encode vph num0 (Some u)) (uri_text u).
Proof.
  intros Hs Hh Hp. unfold uri_encode, uri_text. rewrite Hs, Hh. cbn [negb orb].
  rewrite app_assoc. eapply runs_trans; [apply runs_check, prints_scheme|]. fold (tail_text u).
  eapply runs_trans; [apply runs_check|by apply prints_tail]. unfold user_text. destruct (pl_isset (u_user u)); [|apply prints_ret].
  apply prints_or; [apply prints_pl|]. apply prints_or; [|apply prints_vph].
  destruct (pl_isset (u_password u)); [apply prints_password|apply prints_ret].
Qed.
End encoding.

(** ** Parameters *)

Definition param_text (nv : list Z * option (list Z)) : list Z :=
  59 :: nv.1 ++ match nv.2 with Some v => 61 :: v | None => [] end.
Definition params_text (ps : list (list Z * option (list Z))) : list Z := concat (param_text <$> ps).

Record param_ok (nv : list Z * option (list Z)) : Prop := {
  po_name : nv.1 <> [] /\ Forall (fun c => c ∉ [59; 61]) nv.1;
  po_value : Forall (fun c => c ∉ [59]) (txt nv.2) /\ head (txt nv.2) <> Some 61;
}.

(** The handler on every parameter in turn, until it fails. *)
Fixpoint visit {T} (ah : list Z -> list Z -> M T Z) (ps : list (list Z * option (list Z))) : M T Z :=
  match ps with
  | [] => ret 0
  | (name, value) :: ps => check (ah name (txt value)) (visit ah ps)
  end.

Definition items_param : list item :=
  [Lit 59; Cls true false (single <$> [59; 61]) 43; Cls false false (single <$> [61]) 42; Cls true false (single <$> [59]) 42].

Lemma expr_param_items : expr_param = print_items items_param.
Proof. reflexivity. Qed.
Lemma items_param_ok : Forall item_ok items_param.
Proof. items_ok. Qed.

Lemma params_head ps : match params_text ps with [] => True | c :: _ => c ∈ [59] end.
Proof. destruct ps as [|p ps]; [done|]. cbn. set_solver. Qed.

Lemma regex_param chrv0 name value ps : length chrv0 = CHRV_SIZE -> param_ok (name, value) ->
  let eqs := match value with Some _ => [61] | None => [] end in
  let t := [59] ++ name ++ eqs ++ txt value ++ params_text ps in
  zlength t < 2 ^ 31 ->
  exists o, re_regex t [true; true; true] chrv0 (length t) expr_param [None; None; None] = Some (0, o) /\
    pl_out t o 0 None = Some name /\ pl_out t o 1 None = Some eqs /\ pl_out t o 2 None = Some (txt value).
Proof.
  intros Hc [[Hn Hnc] [Hv Hvc]] eqs t Hl. cbn [fst snd] in *. unfold t in Hl. rewrite !length_app in Hl.
  rewrite expr_param_items, re_regex_search, take_ge by (done || lia || apply items_param_ok).
  assert (attempt [true; true; true] items_param 0 t 0 [None; None; None] =
    Some (Matched, [Some (1, zlength name); Some (1 + zlength name, zlength eqs);
                    Some (1 + zlength name + zlength eqs, zlength (txt value))])) as E.
  { unfold items_param, t. cbn [app]. rewrite attempt_char.
    rewrite (attempt_run _ _ _ _ _ _ name _ _ _ true); [|done| |lia|by right].
    2: { apply (run_not [59; 61]); [by repeat constructor|done|]. destruct value; [set_solver|]. cbn.
         pose proof (params_head ps) as Hh. destruct (params_text ps); [done|]. set_solver. }
    rewrite (attempt_run _ _ _ _ _ _ eqs _ _ _ true); [|done| |lia|by left].
    2: { apply (run_in [61]); [by repeat constructor|unfold eqs; case_match; repeat constructor|].
         destruct (txt value) as [|c v]; [|cbn in *; intros Hin; apply Hvc; set_solver].
         pose proof (params_head ps) as Hh. cbn. destruct (params_text ps); [done|]. set_solver. }
    rewrite (attempt_run _ _ _ _ _ _ (txt value) _ _ _ true); [|done| |lia|by left].
    2: { apply (run_not [59]); [by repeat constructor|done|apply params_head]. }
    cbn [attempt put_out insert list_insert]. done. }
  rewrite (search_matched _ _ 0 t _ _ ltac:(done) E). eexists. split; [done|]. unfold t.
  out_at 0%nat [59] name (eqs ++ txt value ++ params_text ps). out_at 1%nat ([59] ++ name) eqs (txt value ++ params_text ps).
  by out_at 2%nat ([59] ++ name ++ eqs) (txt value) (params_text ps).
Qed.

Lemma params_visit {T} chrv0 (ah : list Z -> list Z -> M T Z) ps fuel st : length chrv0 = CHRV_SIZE ->
  Forall param_ok ps -> zlength (params_text ps) < 2 ^ 31 -> (length (params_text ps) <= fuel)%nat ->
  params_loop chrv0 ah fuel (params_text ps) st = visit ah ps st.
Proof.
  intros Hc Hps. revert fuel st. induction Hps as [|[name value] ps Hp Hps IH]; intros fuel st Hl Hf; [by destruct fuel|].
  set (eqs := match value with Some _ => [61] | None => [] end).
  assert (params_text ((name, value) :: ps) = [59] ++ name ++ eqs ++ txt value ++ params_text ps) as Et.
  { unfold params_text, param_text. cbn [fmap list_fmap concat fst snd app]. unfold eqs. destruct value; cbn; by rewrite <- ?app_assoc. }
  rewrite Et in *. destruct (regex_param chrv0 name value ps Hc Hp Hl) as (o & Eo & O0 & O1 & O2). fold eqs in Eo, O0, O1, O2.
  destruct fuel as [|fuel]; [simpl in Hf; lia|]. cbn [params_loop app]. cbn [app] in Eo, O0, O1, O2.
  unfold bind at 1, lift. rewrite Eo, O0, O1, O2. cbn [nz Z.eqb negb default id].
  rewrite !length_app in Hl, Hf. cbn [length] in Hl, Hf.
  replace (drop _ _) with (params_text ps).
  2: { cbn [Nat.add drop]. rewrite <- Nat.add_assoc, <- drop_drop, drop_app_length, <- drop_drop, drop_app_length. by rewrite drop_app_length. }
  cbn [visit]. unfold check, bind. destruct (ah name (txt value) st) as [[e st1]|]; [|done].
  destruct (nz e); [done|]. apply IH; lia.
Qed.

(** ** Headers *)

(** The first header after [sep], the others after an ampersand. *)
Fixpoint headers_text (sep : Z) (hs : list (list Z * list Z)) : list Z :=
  match hs with
  | [] => []
  | (name, value) :: hs => [sep] ++ name ++ [61] ++ value ++ headers_text 38 hs
  end.

Record header_ok (nv : list Z * list Z) : Prop := {
  hd_name : nv.1 <> [] /\ Forall (fun c => c ∉ [61]) nv.1;
  hd_value : nv.2 <> [] /\ Forall (fun c => c ∉ [38]) nv.2;
}.

Definition items_header : list item :=
  [Cls false false (single <$> [63; 38]) 49; Cls true false (single <$> [61]) 43; Lit 61; Cls true false (single <$> [38]) 43].

Lemma expr_header_items : expr_header = print_items items_header.
Proof. reflexivity. Qed.
Lemma items_header_ok : Forall item_ok items_header.
Proof. items_ok. Qed.

(** One character of a class. *)
Lemma attempt_one args l its p c u va o b : args !! va = Some b -> Forall (fun x => is_letter x = false) l -> c ∈ l ->
  attempt args (Cls false false (single <$> l) 49 :: its) p (c :: u) va o = attempt args its (p + 1) u (S va) (put_out b va p 1 o).
Proof.
  intros Ea Hl Hc. cbn [attempt]. unfold bind at 1, lift. rewrite Ea. change (quantifier 49) with (Some (1, 1)).
  cbn [default from_option id andb span negb Z.ltb Z.compare Pos.compare Pos.compare_cont].
  rewrite in_singles, bool_decide_eq_true_2 by done. cbn [xorb].
  replace (span _ _ _ _ _ _ _ u) with 0%nat by (by destruct u). cbn [drop Z.of_nat Z.ltb Z.compare Pos.of_succ_nat Pos.compare Pos.compare_cont].
  unfold bind, assign, lift. rewrite Ea. by destruct b.
Qed.

Lemma headers_head hs : match headers_text 38 hs with [] => True | c :: _ => c ∈ [38] end.
Proof. destruct hs as [|[n v] hs]; [done|]. cbn. set_solver. Qed.

Lemma regex_uri_header chrv0 sep name value hs : length chrv0 = CHRV_SIZE -> sep ∈ [63; 38] -> header_ok (name, value) ->
  let t := [sep] ++ name ++ [61] ++ value ++ headers_text 38 hs in
  zlength t < 2 ^ 31 ->
  exists o, re_regex t [true; true; true] chrv0 (length t) expr_header [None; None; None] = Some (0, o) /\
    pl_out t o 0 None = Some [sep] /\ pl_out t o 1 None = Some name /\ pl_out t o 2 None = Some value.
Proof.
  intros Hc Hsep [[Hn Hnc] [Hv Hvc]] t Hl. cbn [fst snd] in *. unfold t in Hl. rewrite !length_app in Hl. cbn [length] in Hl.
  rewrite expr_header_items, re_regex_search, take_ge by (done || lia || apply items_header_ok).
  assert (attempt [true; true; true] items_header 0 t 0 [None; None; None] =
    Some (Matched, [Some (0, 1); Some (1, zlength name); Some (1 + zlength name + 1, zlength value)])) as E.
  { unfold items_header, t. cbn [app]. rewrite (attempt_one _ _ _ _ _ _ _ _ true) by (done || by repeat constructor).
    rewrite (attempt_run _ _ _ _ _ _ name _ _ _ true); [|done| |lia|by right].
    2: { apply (run_not [61]); [by repeat constructor|done|]. set_solver. }
    rewrite attempt_char. rewrite (attempt_run _ _ _ _ _ _ value _ _ _ true); [|done| |lia|by right].
    2: { apply (run_not [38]); [by repeat constructor|done|apply headers_head]. }
    cbn [attempt put_out insert list_insert]. done. }
  rewrite (search_matched _ _ 0 t _ _ ltac:(done) E). eexists. split; [done|]. unfold t.
  out_at 0%nat (@nil Z) [sep] (name ++ [61] ++ value ++ headers_text 38 hs).
  out_at 1%nat [sep] name ([61] ++ value ++ headers_text 38 hs).
  by out_at 2%nat ([sep] ++ name ++ [61]) value (headers_text 38 hs).
Qed.

Definition set_value (nv : list Z * list Z) : list Z * option (list Z) := (nv.1, Some nv.2).

Lemma headers_visit {T} chrv0 (ah : list Z -> list Z -> M T Z) hs sep fuel st : length chrv0 = CHRV_SIZE ->
  sep ∈ [63; 38] -> Forall header_ok hs -> zlength (headers_text sep hs) < 2 ^ 31 -> (length (headers_text sep hs) <= fuel)%nat ->
  headers_loop chrv0 ah fuel (headers_text sep hs) st = visit ah (set_value <$> hs) st.
Proof.
  intros Hc Hsep Hhs. revert sep Hsep fuel st.
  induction Hhs as [|[name value] hs Hp Hhs IH]; intros sep Hsep fuel st Hl Hf; [by destruct fuel|].
  cbn [headers_text] in Hl, Hf |- *. destruct (regex_uri_header chrv0 sep name value hs Hc Hsep Hp Hl) as (o & Eo & O0 & O1 & O2).
  destruct fuel as [|fuel]; [simpl in Hf; lia|]. cbn [headers_loop app]. cbn [app] in Eo, O0, O1, O2.
  unfold bind at 1, lift. rewrite Eo, O0, O1, O2. cbn [nz Z.eqb negb default from_option id length].
  rewrite !length_app in Hl, Hf. cbn [length] in Hl, Hf.
  replace (drop _ _) with (headers_text 38 hs).
  2: { cbn [Nat.add drop]. rewrite <- !Nat.add_assoc, <- drop_drop, drop_app_length. cbn [Nat.add drop]. by rewrite drop_app_length. }
  cbn [fmap list_fmap visit set_value fst snd default from_option id]. unfold check, bind.
  destruct (ah name value st) as [[e st1]|]; [|done].
  destruct (nz e); [done|]. apply IH; [set_solver|lia..].
Qed.
