(* ===== verification/UriProps.v ===== *)
(** * URIs: the properties

    Round trips of whole URIs and of escaped components, and the visit of
    parameters, with concrete instances. *)

From Stdlib Require Import Ascii String.
From S2P Require Import Prelude Mbuf MbufSpec Regex RegexThms Print PrintThms PrintSinks Pl PlThms.
From S2P Require Export UriThms.

(** ** Escaping *)

(** The text of an escaped character. *)
Definition esc_char (cs : bool) (eh : Z -> bool) (c : Z) : list Z :=
  if eh c then [c]
  else 37 :: padded (itext 16 true (u32 (char_value cs c))) 2 48 false [].
Definition esc_text (cs : bool) (eh : Z -> bool) (s : list Z) : list Z := concat (esc_char cs eh <$> s).

(** What unescaping makes of it: a negative character was printed with eight
    digits, of which two are taken for the character. *)
Definition back_char (cs : bool) (c : Z) : list Z :=
  if cs && (128 <=? c) then 255 :: chars "FFFF" ++ padded (itext 16 true c) 2 48 false [] else [c].
Definition back_text (cs : bool) (s : list Z) : list Z := concat (back_char cs <$> s).

Definition comp_handler (eh : Z -> bool) : Prop := eh = is_user \/ eh = is_password \/ eh = is_paramchar \/ eh = is_hvalue.

(** The handlers take letters and digits, no per cent sign and no character
    from 128 on. *)
Lemma comp_handler_facts eh : comp_handler eh ->
  eh 37 = false /\ (forall c, 128 <= c < 256 -> eh c = false) /\ (forall c, is_alnum c = true -> eh c = true).
Proof.
  intros He. assert (all_bytes (fun c => negb (128 <=? c) || negb (eh c)) = true /\
    all_bytes (fun c => negb (is_alnum c) || eh c) = true /\ eh 37 = false) as (H1 & H2 & H3).
  { destruct He as [-> |[-> |[-> | ->]]]; by vm_compute. }
  split_and!; [done| |].
  - intros c Hc. pose proof (all_bytes_sound _ H1 c ltac:(lia)) as Hb. cbv beta in Hb.
    rewrite (proj2 (Z.leb_le _ _)) in Hb by lia. by destruct (eh c).
  - intros c Hc. assert (0 <= c < 256) as Hr by (unfold is_alnum in Hc; lia).
    pose proof (all_bytes_sound _ H2 c Hr) as Hb. cbv beta in Hb. by rewrite Hc in Hb.
Qed.

(** Two digits. *)
Lemma hex_pair c : 0 <= c < 256 -> exists a b, padded (itext 16 true c) 2 48 false [] = [a; b] /\
  is_alnum a = true /\ is_alnum b = true /\ u8 (Z.lor (Z.shiftl (ch_hex a) 4) (ch_hex b)) = c.
Proof.
  intros Hc. assert (all_bytes (fun c => match padded (itext 16 true c) 2 48 false [] with
    | [a; b] => is_alnum a && is_alnum b && (u8 (Z.lor (Z.shiftl (ch_hex a) 4) (ch_hex b)) =? c)
    | _ => false end) = true) as H by by vm_compute.
  apply (all_bytes_sound _) with (b := c) in H; [|done].
  destruct (padded _ 2 48 false []) as [|a [|b [|]]]; try done.
  apply andb_true_iff in H as [[Ha Hb]%andb_true_iff Hv]. exists a, b. split_and!; try done. by apply Z.eqb_eq.
Qed.

(** A negative character is extended to 32 bits. *)
Lemma hex_signed c : 128 <= c < 256 -> padded (itext 16 true (u32 (char_value true c))) 2 48 false [] =
  chars "FFFFFF" ++ padded (itext 16 true c) 2 48 false [].
Proof.
  intros Hc. assert (all_bytes (fun c => negb (128 <=? c) || bool_decide
    (padded (itext 16 true (u32 (char_value true c))) 2 48 false [] = chars "FFFFFF" ++ padded (itext 16 true c) 2 48 false [])) = true)
    as H by by vm_compute.
  apply (all_bytes_sound _) with (b := c) in H; [|lia]. rewrite (proj2 (Z.leb_le _ _)) in H by lia.
  by apply bool_decide_eq_true in H.
Qed.

Lemma hex_plain cs c : 0 <= c < 256 -> cs && (128 <=? c) = false -> u32 (char_value cs c) = c.
Proof.
  intros Hc E. unfold char_value. destruct cs; [|by rewrite (wrap_small 32) by lia].
  assert (c < 128) by (cbn in E; lia). rewrite swrap_small by lia. apply wrap_small. lia.
Qed.

Section escape.
Context {S} {vph : list Z -> M S Z} {ok room put bad} {K : Sink vph ok room put bad}.
Variable num0 : list Z.
Hypothesis num0_size : zlength num0 = NUM_SIZE.

Abbreviation Prints := (Prints (ok := ok) (room := room) (put := put) (bad := bad)).

Lemma prints_hex v : Prints (vhprintf vph num0 (chars "%%%02X") [Arg 4 (VNum v)])
  (37 :: padded (itext 16 true (u32 v)) 2 48 false []).
Proof.
  apply (hprintf_prints num0 num0_size [DConv plain CPercent; DConv (Build_flags false true 2) (CHex MNone true v)]); [|done..|].
  - constructor; [split; [cbn; lia|done]|]. constructor; [split; [cbn; lia|done]|constructor].
  - unfold text_of. cbn [fmap list_fmap concat dir_text conv_text fl_minus fl_zero fl_width app mod_size Z.mul Pos.mul].
    by rewrite app_nil_r.
Qed.

Lemma escape_prints cs eh s : Prints (comp_escape vph num0 cs eh s) (esc_text cs eh s).
Proof.
  induction s as [|c s IH]; [apply prints_ret|]. unfold esc_text. cbn [comp_escape fmap list_fmap concat].
  eapply runs_trans; [apply runs_check|apply IH]. unfold esc_char. destruct (eh c); [apply prints_vph|apply prints_hex].
Qed.

End escape.

Section unescape.
Context {S} {vph : list Z -> M S Z} {ok room put bad} {K : Sink vph ok room put bad}.

Abbreviation Prints := (Prints (ok := ok) (room := room) (put := put) (bad := bad)).

(** A run of characters the handler takes. *)
Lemma unescape_plain eh l t b : Forall (fun c => eh c = true) l -> Prints (comp_unescape vph eh t) b ->
  Prints (comp_unescape vph eh (l ++ t)) (l ++ b).
Proof.
  intros Hl Ht. induction Hl as [|c l Hc _ IH]; [done|]. cbn [app comp_unescape]. rewrite Hc.
  change (c :: l ++ b) with ([c] ++ l ++ b). eapply runs_trans; [apply runs_check, prints_vph|done].
Qed.

Lemma unescape_pair eh a c v t b : eh 37 = false -> u8 (Z.lor (Z.shiftl (ch_hex a) 4) (ch_hex c)) = v ->
  Prints (comp_unescape vph eh t) b -> Prints (comp_unescape vph eh (37 :: a :: c :: t)) (v :: b).
Proof.
  intros He Hv Ht. cbn [comp_unescape]. rewrite He. cbn [Z.eqb Pos.eqb]. rewrite Hv.
  change (v :: b) with ([v] ++ b). eapply runs_trans; [apply runs_check, prints_vph|done].
Qed.

Lemma unescape_prints cs eh s : comp_handler eh -> bytes_ok s ->
  Prints (comp_unescape vph eh (esc_text cs eh s)) (back_text cs s).
Proof.
  intros He Hs. destruct (comp_handler_facts eh He) as (H37 & Hhigh & Haln).
  induction Hs as [|c s Hc _ IH]; [apply prints_ret|]. unfold byte_ok in Hc.
  unfold esc_text, back_text. cbn [fmap list_fmap concat]. unfold esc_char, back_char.
  fold (esc_text cs eh s) (back_text cs s). destruct (hex_pair c Hc) as (a & b & Eh & Ha & Hb & Hv).
  destruct (cs && (128 <=? c)) eqn:E.
  - apply andb_true_iff in E as [-> Hc2%Z.leb_le]. rewrite Hhigh, hex_signed, Eh by lia.
    change (Prints (comp_unescape vph eh (37 :: 70 :: 70 :: [70; 70; 70; 70; a; b] ++ esc_text true eh s))
              (255 :: [70; 70; 70; 70; a; b] ++ back_text true s)).
    apply unescape_pair; [done|done|]. apply unescape_plain; [|done]. repeat constructor; by apply Haln.
  - destruct (eh c) eqn:Ec.
    + apply (unescape_plain eh [c]); [by repeat constructor|done].
    + rewrite hex_plain, Eh by done. cbn [app]. by apply unescape_pair.
Qed.
End unescape.

Lemma back_text_cons cs c s : back_text cs (c :: s) = back_char cs c ++ back_text cs s.
Proof. reflexivity. Qed.

Lemma back_text_length cs s : (length s <= length (back_text cs s))%nat.
Proof.
  induction s as [|c s IH]; [done|]. rewrite back_text_cons, length_app. cbn [length].
  assert (1 <= length (back_char cs c))%nat by (unfold back_char; case_match; cbn [length]; lia). lia.
Qed.

Lemma back_text_most cs s : bytes_ok s -> (length (back_text cs s) <= 7 * length s)%nat.
Proof.
  induction 1 as [|c s Hc _ IH]; [cbn; lia|]. rewrite back_text_cons, length_app. cbn [length].
  destruct (hex_pair c Hc) as (a & b & Eh & _). unfold back_char. rewrite Eh. case_match; cbn; lia.
Qed.

Lemma back_text_eq cs s : back_text cs s = s <-> cs = false \/ Forall (fun c => c < 128) s.
Proof.
  split.
  - destruct cs; [|by left]. intros E. right. apply (f_equal length) in E. revert E.
    induction s as [|c s IH]; [by constructor|]. rewrite back_text_cons, length_app. cbn [length]. intros E.
    pose proof (back_text_length true s). unfold back_char in E. destruct (Z.leb_spec 128 c); cbn [andb length] in E.
    + rewrite length_app in E. cbn in E. lia.
    + constructor; [lia|]. apply IH. lia.
  - intros Hs. induction s as [|c s IH]; [done|]. rewrite back_text_cons.
    assert (back_char cs c = [c] /\ (cs = false \/ Forall (fun c => c < 128) s)) as [-> Hs'].
    { destruct Hs as [-> |Hs]; [by split; [|left]|]. inversion Hs; subst. split; [|by right].
      unfold back_char. rewrite (proj2 (Z.leb_gt _ _)) by lia. by rewrite andb_false_r. }
    cbn [app]. by rewrite IH.
Qed.

(** ** The user information of a whole URI *)

Definition with_userinfo (u : uri) (user password : list Z) : uri :=
  Uri (u_scheme u) (Some user) (Some password) (u_host u) (u_af u) (u_port u) (u_path u) (u_params u) (u_headers u).

Lemma pl_isset_txt t : pl_isset t = nz (zlength (txt t)).
Proof. by destruct t. Qed.

Lemma same_uri_text u u' : same_uri u u' -> uri_text u' = uri_text u.
Proof.
  intros (Es & Eu & Ep & Eh & Ea & Eo & Et & Er & Ed). unfold uri_text, user_text, hostport_text.
  by rewrite !pl_isset_txt, Es, Eu, Ep, Eh, Ea, Eo, Et, Er, Ed.
Qed.

Lemma nz_length (t : list Z) : t <> [] -> nz (zlength t) = true.
Proof. by destruct t. Qed.

(** What the code prints a scheme and a host for. *)
Lemma uri_ok_set sa_pton u : uri_ok sa_pton u -> pl_isset (u_scheme u) = true /\ pl_isset (u_host u) = true.
Proof.
  intros [[Hs _] _ _ _ Hh _ _ _ _ _ _]. rewrite !pl_isset_txt, nz_length by done. split; [done|].
  apply nz_length, Hh.
Qed.

Section userinfo.
Context {S} {vph : list Z -> M S Z} {ok room put bad} {K : Sink vph ok room put bad}.
Variable num0 : list Z.
Hypothesis num0_size : zlength num0 = NUM_SIZE.
Variable chrv0 : list chr.
Hypothesis chrv_size : length chrv0 = CHRV_SIZE.
Variable sa_pton : list Z -> option Z.
Variable cs : bool.

Abbreviation Prints := (Prints (ok := ok) (room := room) (put := put) (bad := bad)).

Lemma prints_lift {A} (a : A) k t : Prints (k a) t -> Prints (bind (lift (Some a)) k) t.
Proof. intros H. exact H. Qed.

Lemma prints_handler h x t : va_size x = 8 -> Prints h t -> Prints (vhprintf vph num0 (chars "%H") [Arg 8 (VHandler (Some h)); x]) t.
Proof.
  intros Hx H. unfold vhprintf. cbn [format_loop chars]. rewrite <- (app_nil_l t).
  eapply runs_trans; [apply runs_check, prints_ret|]. rewrite <- (app_nil_r t).
  eapply runs_trans; [|apply prints_ret].
  intros s. unfold conversion. cbn. rewrite Hx. cbn. apply (runs_done num0 h t [] []). done.
Qed.

Lemma prints_colon_handler h x t : va_size x = 8 -> Prints h t ->
  Prints (vhprintf vph num0 (chars ":%H") [Arg 8 (VHandler (Some h)); x]) (58 :: t).
Proof.
  intros Hx H. unfold vhprintf. cbn [format_loop chars]. change (58 :: t) with ([58] ++ t).
  eapply runs_trans; [apply (runs_check (vph [58])), prints_vph|]. by apply (prints_handler h x t) in H.
Qed.

Definition user_handler (unescape : bool) : list Z -> M S Z :=
  if unescape then uri_user_unescape vph else uri_user_escape vph num0 cs.
Definition password_handler (unescape : bool) : list Z -> M S Z :=
  if unescape then uri_password_unescape vph else uri_password_escape vph num0 cs.

Lemma helper_prints unescape u us pw : uri_ok sa_pton u ->
  Prints (user_handler unescape (txt (u_user u))) us -> nz (zlength us) = pl_isset (u_user u) ->
  Prints (password_handler unescape (txt (u_password u))) pw -> nz (zlength pw) = pl_isset (u_password u) ->
  Prints (uri_escape_helper vph num0 cs chrv0 sa_pton (uri_text u) unescape) (uri_text (with_userinfo u us pw)).
Proof.
  intros Hu Hus Hus0 Hpw Hpw0. destruct (decode_ok chrv0 sa_pton chrv_size u Hu) as (u' & Ed & Hsame).
  destruct (uri_ok_set _ _ Hu) as [Hs Hh]. pose proof (uo_port _ _ Hu) as Hp. rewrite !pl_isset_txt in *.
  destruct Hsame as (Es & Eu & Ep & Eh & Ea & Eo & Et & Er & Edr).
  unfold uri_escape_helper. rewrite Ed. apply prints_lift. change (nz 0) with false. cbv iota.
  rewrite !pl_isset_txt, Es, Eh, Eu, Ep, Hs, Hh. cbn [negb orb].
  unfold uri_text. rewrite app_assoc. cbn [u_scheme with_userinfo]. rewrite <- Es.
  eapply runs_trans; [apply runs_check, prints_scheme; done|].
  eapply runs_trans; [apply runs_check|].
  2: { replace (_ ++ _) with (tail_text u'); [apply prints_tail; [done|lia]|]. unfold tail_text, hostport_text. cbn. congruence. }
  unfold user_text. rewrite !pl_isset_txt. cbn [u_user u_password with_userinfo default from_option id].
  rewrite Hus0, Hpw0. destruct (nz (zlength (txt (u_user u)))); [|apply prints_ret].
  apply prints_or; [by apply prints_handler; [|destruct unescape]|]. apply prints_or; [|apply prints_vph].
  destruct (nz (zlength (txt (u_password u)))); [by apply prints_colon_handler; [|destruct unescape]|apply prints_ret].
Qed.
End userinfo.

(** Escaping changes no character that ends a component. *)
Lemma esc_text_clean cs eh s l : comp_handler eh -> bytes_ok s -> Forall (fun c => eh c = false /\ c <> 37) l ->
  Forall (fun c => c ∉ l) (esc_text cs eh s).
Proof.
  intros He Hs Hl. destruct (comp_handler_facts eh He) as (_ & _ & Haln).
  assert (forall c, eh c = true -> c ∉ l) as Hin.
  { intros c Hc Hi. rewrite list.Forall_forall in Hl. destruct (Hl c Hi). congruence. }
  assert (37 ∉ l) as H37. { intros Hi. rewrite list.Forall_forall in Hl. by destruct (Hl 37 Hi). }
  induction Hs as [|c s Hc _ IH]; [constructor|]. unfold esc_text in *. cbn [fmap list_fmap concat]. apply Forall_app. split; [|done].
  unfold byte_ok in Hc. unfold esc_char. destruct (eh c) eqn:Ec; [by repeat constructor; apply Hin|].
  constructor; [done|]. destruct (hex_pair c Hc) as (a & b & Eh & Ha & Hb & _).
  destruct (cs && (128 <=? c)) eqn:E; [|rewrite hex_plain, Eh by done; repeat constructor; by apply Hin, Haln].
  apply andb_true_iff in E as [-> Hc2%Z.leb_le]. rewrite hex_signed, Eh by lia.
  repeat constructor; by apply Hin, Haln.
Qed.

Lemma esc_char_length cs eh c : 0 <= c < 256 -> (1 <= length (esc_char cs eh c) <= 9)%nat.
Proof.
  intros Hc. unfold esc_char. destruct (eh c); [cbn; lia|]. destruct (hex_pair c Hc) as (a & b & Eh & _).
  destruct (cs && (128 <=? c)) eqn:E; [|rewrite hex_plain, Eh by done; cbn; lia].
  apply andb_true_iff in E as [-> Hc2%Z.leb_le]. rewrite hex_signed, Eh by lia. cbn. lia.
Qed.

Lemma esc_text_length cs eh s : bytes_ok s -> (length s <= length (esc_text cs eh s) <= 9 * length s)%nat.
Proof.
  induction 1 as [|c s Hc _ IH]; [cbn; lia|]. unfold esc_text in *. cbn [fmap list_fmap concat length]. rewrite length_app.
  pose proof (esc_char_length cs eh c Hc). cbn in *. lia.
Qed.

Ltac all_in := repeat (constructor; [done|]); constructor.

Lemma esc_text_bytes cs eh s : bytes_ok s -> bytes_ok (esc_text cs eh s).
Proof.
  induction 1 as [|c s Hc _ IH]; [constructor|]. unfold esc_text in *. cbn [fmap list_fmap concat]. apply Forall_app. split; [|done].
  unfold esc_char. destruct (eh c); [by all_in|]. destruct (hex_pair c Hc) as (a & b & Eh & Ha & Hb & _).
  assert (byte_ok a /\ byte_ok b) as [] by (unfold byte_ok, is_alnum in *; lia).
  constructor; [done|]. destruct (cs && (128 <=? c)) eqn:E; [|rewrite hex_plain, Eh by done; by all_in].
  apply andb_true_iff in E as [-> Hc2%Z.leb_le]. rewrite hex_signed, Eh by (unfold byte_ok in Hc; lia). by all_in.
Qed.

Lemma back_text_bytes cs s : bytes_ok s -> bytes_ok (back_text cs s).
Proof.
  induction 1 as [|c s Hc _ IH]; [constructor|]. rewrite back_text_cons. apply Forall_app. split; [|done].
  unfold back_char. destruct (_ && _); [|by all_in]. destruct (hex_pair c Hc) as (a & b & -> & Ha & Hb & _).
  assert (byte_ok a /\ byte_ok b) as [] by (unfold byte_ok, is_alnum in *; lia). by all_in.
Qed.

(** The URI with its user information escaped. *)
Definition escaped (cs : bool) (u : uri) : uri :=
  with_userinfo u (esc_text cs is_user (txt (u_user u))) (esc_text cs is_password (txt (u_password u))).
Definition unescaped (cs : bool) (u : uri) : uri :=
  with_userinfo u (back_text cs (txt (u_user u))) (back_text cs (txt (u_password u))).

Lemma uri_text_length u : zlength (uri_text u) = zlength (txt (u_scheme u)) + 1 + zlength (user_text u) +
  zlength (hostport_text u) + zlength (txt (u_path u)) + zlength (txt (u_params u)) + zlength (txt (u_headers u)).
Proof. unfold uri_text. rewrite !length_app. cbn [length]. lia. Qed.

Lemma nz_iff a b : (a = 0 <-> b = 0) -> nz a = nz b.
Proof. unfold nz. intros E. destruct (Z.eqb_spec a 0), (Z.eqb_spec b 0); tauto. Qed.

Lemma nz_length_esc cs eh s : bytes_ok s -> nz (zlength (esc_text cs eh s)) = nz (zlength s).
Proof. intros Hs. pose proof (esc_text_length cs eh s Hs). apply nz_iff. lia. Qed.

Lemma nz_length_back cs s : nz (zlength (back_text cs s)) = nz (zlength s).
Proof. destruct s as [|c s]; [done|]. pose proof (back_text_length cs (c :: s)). cbn [length] in *. apply nz_iff. lia. Qed.

Lemma with_userinfo_length u us pw k : 1 <= k ->
  nz (zlength us) = pl_isset (u_user u) -> nz (zlength pw) = pl_isset (u_password u) ->
  zlength us <= k * zlength (txt (u_user u)) -> zlength pw <= k * zlength (txt (u_password u)) ->
  zlength (uri_text (with_userinfo u us pw)) <= k * zlength (uri_text u).
Proof.
  intros Hk E1 E2 H1 H2. rewrite !uri_text_length. unfold user_text. rewrite !pl_isset_txt in *.
  cbn [u_user u_password with_userinfo default from_option id u_scheme u_path u_params u_headers].
  change (hostport_text (with_userinfo u _ _)) with (hostport_text u). rewrite E1, E2.
  destruct (nz (zlength (txt (u_user u)))), (nz (zlength (txt (u_password u)))); rewrite ?length_app; cbn [length app]; nia.
Qed.

Lemma with_userinfo_bytes u us pw : bytes_ok (uri_text u) -> bytes_ok us -> bytes_ok pw -> bytes_ok (uri_text (with_userinfo u us pw)).
Proof.
  unfold uri_text. intros Hb H1 H2. rewrite !Forall_app in Hb |- *. destruct Hb as (Hs & Hc & _ & Hrest).
  split_and!; try done; try apply Hrest. unfold user_text. cbn [u_user u_password with_userinfo default from_option id].
  destruct (pl_isset (Some us)), (pl_isset (Some pw)); rewrite ?Forall_app, ?list.Forall_cons, ?list.Forall_nil; by split_and?.
Qed.

(** Without a user there is no password. *)
Lemma uri_bytes sa_pton u : uri_ok sa_pton u -> bytes_ok (uri_text u) -> bytes_ok (txt (u_user u)) /\ bytes_ok (txt (u_password u)).
Proof.
  intros Hu. unfold uri_text, user_text. rewrite !Forall_app. intros (_ & _ & Hb & _). pose proof (uo_nouser _ _ Hu) as Hn.
  rewrite !pl_isset_txt in *. destruct (nz (zlength (txt (u_user u)))) eqn:E1.
  - apply Forall_app in Hb as [Hb1 Hb2]. split; [done|]. destruct (txt (u_password u)); [constructor|].
    apply Forall_app in Hb2 as [Hb2 _]. by inversion Hb2.
  - rewrite (proj1 (Hn eq_refl)). split; [|constructor]. by destruct (txt (u_user u)).
Qed.

Lemma escaped_length cs u : bytes_ok (txt (u_user u)) -> bytes_ok (txt (u_password u)) ->
  zlength (uri_text (escaped cs u)) <= 9 * zlength (uri_text u).
Proof.
  intros Hu Hp. pose proof (esc_text_length cs is_user _ Hu). pose proof (esc_text_length cs is_password _ Hp).
  apply with_userinfo_length; rewrite ?pl_isset_txt, ?nz_length_esc by done; try done; lia.
Qed.

Lemma unescaped_length cs u : bytes_ok (txt (u_user u)) -> bytes_ok (txt (u_password u)) ->
  zlength (uri_text (unescaped cs u)) <= 9 * zlength (uri_text u).
Proof.
  intros Hu Hp. pose proof (back_text_most cs _ Hu). pose proof (back_text_most cs _ Hp).
  apply with_userinfo_length; rewrite ?pl_isset_txt, ?nz_length_back; try done; lia.
Qed.

Lemma escaped_ok sa_pton cs u : uri_ok sa_pton u -> bytes_ok (txt (u_user u)) -> bytes_ok (txt (u_password u)) ->
  9 * zlength (uri_text u) < 2 ^ 31 -> uri_ok sa_pton (escaped cs u).
Proof.
  intros Hu Hb1 Hb2 Hl. pose proof (escaped_length cs u Hb1 Hb2). destruct Hu as [H1 H2 H3 H4 H5 H6 H7 H8 H9 H10 H11].
  split; try done; try lia.
  - apply esc_text_clean; [by left|done|]. by repeat constructor.
  - cbn [u_password escaped with_userinfo default from_option id].
    assert (Forall (fun c => c ∉ [64; 58]) (esc_text cs is_password (txt (u_password u)))) as Hc.
    { apply esc_text_clean; [by right; left|done|]. by repeat constructor. }
    split; [eapply Forall_impl; [|exact Hc]; set_solver|]. destruct Hc as [|c l Hc _]; cbn; [done|]. intros [= ->]. set_solver.
  - rewrite pl_isset_txt. cbn [u_user u_password escaped with_userinfo default from_option id]. rewrite nz_length_esc by done.
    rewrite <- pl_isset_txt. intros Hn. destruct (H4 Hn) as [E Hc]. rewrite E. by split.
Qed.

Lemma back_length_eq cs s : length (back_text cs s) = length s -> back_text cs s = s.
Proof.
  induction s as [|c s IH]; [done|]. rewrite back_text_cons, length_app. pose proof (back_text_length cs s).
  unfold back_char. destruct (_ && _); cbn [length app]; [rewrite length_app; cbn; lia|]. intros E. f_equal. apply IH. lia.
Qed.

Lemma unescaped_eq sa_pton cs u : uri_ok sa_pton u ->
  uri_text (unescaped cs u) = uri_text u <-> cs = false \/ Forall (fun c => c < 128) (txt (u_user u) ++ txt (u_password u)).
Proof.
  intros Hu. rewrite Forall_app. transitivity (back_text cs (txt (u_user u)) = txt (u_user u) /\
    back_text cs (txt (u_password u)) = txt (u_password u)); [|rewrite !back_text_eq; tauto].
  unfold unescaped. split.
  - intros E%(f_equal (fun t => zlength t)). revert E. rewrite !uri_text_length. unfold user_text. rewrite !pl_isset_txt.
    cbn [u_user u_password with_userinfo default from_option id u_scheme u_path u_params u_headers].
    change (hostport_text (with_userinfo u _ _)) with (hostport_text u). rewrite !nz_length_back.
    pose proof (back_text_length cs (txt (u_user u))). pose proof (back_text_length cs (txt (u_password u))).
    pose proof (uo_nouser _ _ Hu) as Hn. rewrite pl_isset_txt in Hn. intros E.
    split; apply back_length_eq; destruct (nz (zlength (txt (u_user u)))) eqn:E1; destruct (nz (zlength (txt (u_password u)))) eqn:E2;
      rewrite ?length_app in E; cbn [length] in E; try lia.
    all: rewrite ?(proj1 (Hn eq_refl)) in *; try done.
    all: unfold nz in E1, E2; destruct (txt (u_user u)), (txt (u_password u)); done.
  - intros [E1 E2]. rewrite E1, E2. by apply same_uri_text.
Qed.

Lemma escaped_bytes cs u : bytes_ok (uri_text u) -> bytes_ok (txt (u_user u)) -> bytes_ok (txt (u_password u)) ->
  bytes_ok (uri_text (escaped cs u)).
Proof. intros Hb Hu Hp. apply with_userinfo_bytes; [done|by apply esc_text_bytes..]. Qed.

Lemma unescaped_bytes cs u : bytes_ok (uri_text u) -> bytes_ok (txt (u_user u)) -> bytes_ok (txt (u_password u)) ->
  bytes_ok (uri_text (unescaped cs u)).
Proof. intros Hb Hu Hp. apply with_userinfo_bytes; [done|by apply back_text_bytes..]. Qed.

(** Escaping and unescaping a whole URI. *)
Lemma escape_helper_prints {S} {vph : list Z -> M S Z} {ok room put bad} {K : Sink vph ok room put bad}
    num0 (num0_size : zlength num0 = NUM_SIZE) chrv0 (chrv_size : length chrv0 = CHRV_SIZE) sa_pton cs u :
  uri_ok sa_pton u -> bytes_ok (uri_text u) -> 9 * zlength (uri_text u) < 2 ^ 31 ->
  Prints (ok := ok) (room := room) (put := put) (bad := bad)
    (uri_escape_pl vph num0 cs chrv0 sa_pton (uri_text u)) (uri_text (escaped cs u)) /\
  Prints (ok := ok) (room := room) (put := put) (bad := bad)
    (uri_unescape_pl vph num0 cs chrv0 sa_pton (uri_text (escaped cs u))) (uri_text (unescaped cs u)).
Proof.
  intros Hu Hb Hl. destruct (uri_bytes _ _ Hu Hb) as [Hb1 Hb2]. split.
  - apply (helper_prints num0 num0_size chrv0 chrv_size sa_pton cs false); [done|by apply escape_prints| |by apply escape_prints|];
      by rewrite nz_length_esc, pl_isset_txt.
  - apply (helper_prints num0 num0_size chrv0 chrv_size sa_pton cs true (escaped cs u));
      [by apply escaped_ok|apply (unescape_prints cs is_user); [by left|exact Hb1]| |apply (unescape_prints cs is_password); [by right; left|exact Hb2]|];
      rewrite nz_length_back, pl_isset_txt; symmetry; by apply nz_length_esc.
Qed.

(** ** The properties *)

Section properties.
Context `{Host}.

Lemma prints_mbuf (m : M mbuf Z) t mb : no_oom ->
  Prints (ok := mbuf_wf) (room := mbuf_room) (put := mbuf_put) (bad := fun _ => True) m t ->
  mbuf_wf mb -> bytes_ok t -> mb_pos mb + zlength t < WRITE_MAX ->
  exists mb', m mb = Some (0, mb') /\ mbuf_wf mb' /\ written mb t mb'.
Proof. intros Hm Hp Hw Ht Hr. destruct (Hp mb Hw Ht) as [(mb' & E & Hput)|[Hn _]]; [by exists mb'|done]. Qed.

(** C13: A URI printed into a buffer that can grow is taken apart again into the
    same scheme, user, password, host, address family, port, path, parameters
    and headers, for every text in the array of ranges and of digits and every
    address parser. *)
Theorem uri_roundtrip num0 chrv0 sa_pton u mb :
  no_oom -> zlength num0 = NUM_SIZE -> length chrv0 = CHRV_SIZE -> uri_ok sa_pton u -> bytes_ok (uri_text u) ->
  mbuf_wf mb -> mb_pos mb + zlength (uri_text u) < WRITE_MAX ->
  exists t mb' u', uri_encode vprintf_handler num0 (Some u) mb = Some (0, mb') /\ mbuf_wf mb' /\ written mb t mb' /\
    uri_decode chrv0 sa_pton t = Some (0, u') /\ same_uri u u'.
Proof.
  intros Hm Hn Hc Hu Hb Hw Hr. destruct (uri_ok_set _ _ Hu) as [Hs Hh].
  destruct (prints_mbuf _ _ mb Hm (encode_ok (K := mbuf_sink Hm) num0 Hn u Hs Hh (uo_port _ _ Hu)) Hw Hb Hr) as (mb' & E & Hw' & Hput).
  destruct (decode_ok chrv0 sa_pton Hc u Hu) as (u' & Ed & Hsame). by exists (uri_text u), mb', u'.
Qed.

(** C14: Escaping a URI gives the URI with its user and password escaped, and
    unescaping that gives a URI back: the first one if characters are unsigned
    or the user and password are ASCII, and only then. *)
Theorem uri_escape_roundtrip num0 chrv0 sa_pton cs u mb :
  no_oom -> zlength num0 = NUM_SIZE -> length chrv0 = CHRV_SIZE -> uri_ok sa_pton u -> bytes_ok (uri_text u) ->
  mbuf_wf mb -> mb_pos mb + 18 * zlength (uri_text u) < WRITE_MAX ->
  exists t back mb1 mb2,
    uri_escape_pl vprintf_handler num0 cs chrv0 sa_pton (uri_text u) mb = Some (0, mb1) /\ written mb t mb1 /\
    uri_unescape_pl vprintf_handler num0 cs chrv0 sa_pton t mb1 = Some (0, mb2) /\ written mb1 back mb2 /\
    (back = uri_text u <-> cs = false \/ Forall (fun c => c < 128) (txt (u_user u) ++ txt (u_password u))).
Proof.
  intros Hm Hn Hc Hu Hb Hw Hr. destruct (uri_bytes _ _ Hu Hb) as [Hb1 Hb2].
  pose proof (escaped_length cs u Hb1 Hb2) as Hl1. pose proof (unescaped_length cs u Hb1 Hb2) as Hl2.
  assert (0 <= mb_pos mb) as Hpos by apply Hw.
  destruct (escape_helper_prints (K := mbuf_sink Hm) num0 Hn chrv0 Hc sa_pton cs u Hu Hb) as [P1 P2]; [unfold WRITE_MAX in *; lia|].
  destruct (prints_mbuf _ _ mb Hm P1 Hw) as (mb1 & E1 & Hw1 & W1); [by apply escaped_bytes|lia|].
  destruct (prints_mbuf _ _ mb1 Hm P2 Hw1) as (mb2 & E2 & Hw2 & W2); [by apply unescaped_bytes|rewrite (wr_pos _ _ _ W1); lia|].
  exists (uri_text (escaped cs u)), (uri_text (unescaped cs u)), mb1, mb2. split_and!; try done; by apply (unescaped_eq sa_pton).
Qed.
End properties.

(** C15: Parameters and headers are given to the handler in the order of the text,
    each with its name and value, until the handler fails; no other part of the
    text is given to it, and the whole text is visited. *)
Theorem uri_apply_visits {T} chrv0 (ah : list Z -> list Z -> M T Z) ps hs st :
  length chrv0 = CHRV_SIZE ->
  (Forall param_ok ps -> zlength (params_text ps) < 2 ^ 31 ->
   uri_params_apply chrv0 ah (params_text ps) st = visit ah ps st) /\
  (Forall header_ok hs -> zlength (headers_text 63 hs) < 2 ^ 31 ->
   uri_headers_apply chrv0 ah (headers_text 63 hs) st = visit ah (set_value <$> hs) st).
Proof. intros Hc. split; intros Hs Hl; [by apply params_visit|apply headers_visit; [done|set_solver|done..]]. Qed.

(** A parameter is also found under a shorter name. *)
Lemma uri_param_get_prefix : let chrv0 := replicate CHRV_SIZE (single 0) in
  uri_param_get chrv0 (replicate 64 0) (replicate 128 0) (chars ";lrx=1") (chars "lr") = Some (0, Some (chars "x=1")).
Proof. vm_compute. reflexivity. Qed.

(** *** Instances *)

Definition sample_pton (t : list Z) : option Z := if bool_decide (t = chars "2001:db8::1") then Some AF_INET6 else None.

Definition sample_uri : uri :=
  Uri (Some (chars "sip")) (Some (chars "al+ce")) (Some (chars "s:cr t")) (Some (chars "2001:db8::1")) AF_INET6 5060
    None (Some (chars ";transport=tcp;lr")) (Some (chars "?a=b&c=d")).

Definition latin_uri : uri :=
  Uri (Some (chars "sip")) (Some [233]) None (Some (chars "example.com")) AF_UNSPEC 0 None None None.

Lemma sample_uri_ok : uri_ok sample_pton sample_uri.
Proof.
  split; try done.
  - split; [done|]. by apply (bool_decide_unpack _).
  - by apply (bool_decide_unpack _).
  - split; [|done]. by apply (bool_decide_unpack _).
  - split; [done|done|]. by apply (bool_decide_unpack _).
  - split; [constructor|by apply (bool_decide_unpack _)].
  - split; by apply (bool_decide_unpack _).
  - by apply (bool_decide_unpack _).
Qed.

Lemma latin_uri_ok : uri_ok sample_pton latin_uri.
Proof.
  split; try done.
  - split; [done|]. by apply (bool_decide_unpack _).
  - by apply (bool_decide_unpack _).
  - split; [done|done|]. by apply (bool_decide_unpack _).
  - split; [constructor|by apply (bool_decide_unpack _)].
  - split; [constructor|by apply (bool_decide_unpack _)].
  - by apply (bool_decide_unpack _).
Qed.

#[local] Existing Instance lp64_host.

Definition no_text : list Z := replicate 64 0.
Definition no_ranges : list chr := replicate CHRV_SIZE (single 0).

Lemma uri_roundtrip_witness :
  exists t mb' u', uri_encode vprintf_handler no_text (Some sample_uri) mbuf_init = Some (0, mb') /\ mbuf_wf mb' /\
    written mbuf_init t mb' /\ uri_decode no_ranges sample_pton t = Some (0, u') /\ same_uri sample_uri u'.
Proof.
  apply (uri_roundtrip no_text no_ranges sample_pton sample_uri mbuf_init);
    [by intros n|done|done|exact sample_uri_ok|apply (bool_decide_unpack _); by vm_compute|by split|by vm_compute].
Defined.

(** An escaped character outside ASCII does not come back. *)
Lemma uri_escape_roundtrip_witness :
  exists t back mb1 mb2,
    uri_escape_pl vprintf_handler no_text true no_ranges sample_pton (uri_text latin_uri) mbuf_init = Some (0, mb1) /\
    written mbuf_init t mb1 /\
    uri_unescape_pl vprintf_handler no_text true no_ranges sample_pton t mb1 = Some (0, mb2) /\ written mb1 back mb2 /\
    back <> uri_text latin_uri.
Proof.
  destruct (uri_escape_roundtrip no_text no_ranges sample_pton true latin_uri mbuf_init) as (t & back & mb1 & mb2 & E1 & W1 & E2 & W2 & Eb);
    [by intros n|done|done|exact latin_uri_ok|apply (bool_decide_unpack _); by vm_compute|by split|by vm_compute|].
  exists t, back, mb1, mb2. split; [exact E1|]. split; [exact W1|]. split; [exact E2|]. split; [exact W2|].
  intros [Hc|Hc]%Eb; [discriminate Hc|]. inversion Hc; lia.
Defined.

Definition collect (name value : list Z) : M (list (list Z * list Z)) Z := fun l => Some (0, l ++ [(name, value)]).

Definition sample_params : list (list Z * option (list Z)) := [(chars "transport", Some (chars "tcp")); (chars "lr", None)].
Definition sample_headers : list (list Z * list Z) := [(chars "a", chars "b"); (chars "c", chars "d")].

Lemma sample_params_ok : Forall param_ok sample_params.
Proof.
  constructor; [|constructor; [|constructor]]; split; cbn [fst snd default from_option id]; split;
    first [discriminate|by apply (bool_decide_unpack _)].
Qed.

Lemma sample_headers_ok : Forall header_ok sample_headers.
Proof.
  constructor; [|constructor; [|constructor]]; split; cbn [fst snd]; split; first [discriminate|by apply (bool_decide_unpack _)].
Qed.

Lemma uri_apply_visits_witness :
  uri_params_apply no_ranges collect (params_text sample_params) [] = visit collect sample_params [] /\
  uri_headers_apply no_ranges collect (headers_text 63 sample_headers) [] = visit collect (set_value <$> sample_headers) [].
Proof.
  destruct (uri_apply_visits no_ranges collect sample_params sample_headers [] eq_refl) as [Hp Hh].
  split; [apply Hp; [exact sample_params_ok|reflexivity]|apply Hh; [exact sample_headers_ok|reflexivity]].
Defined.
